(* ===== verification/_CoqProject ===== *)
-Q . S2P
Prelude.v
Calendar.v
Text.v
Ids.v
Json.v
Permissions.v
Errors.v
Events.v
Tables.v
Ddl.v
Schema.v
Store.v
Config.v
Branding.v
Dynamic.v
Fga.v
Preferences.v
RateLimit.v
Cache.v
Session.v
Fixtures.v
Catalog.v
Repository.v
FeatureFlags.v
Authorization.v
ApiKeys.v
Subscriptions.v
Proration.v
Resolver.v
Interfaces.v
Entitlements.v
Usage.v
Tenancy.v
Notifications.v
Reporting.v
Identity.v
Storage.v
Backends.v
Agents.v
Invoicing.v
Numbering.v
Billing.v
BillingWebhooks.v
Providers.v
Stripe.v
Paddle.v
Xendit.v
PayMongo.v
Hosted.v
Translations.v
Keycloak.v
Webhooks.v
Worker.v
Deliveries.v
Retention.v
Seeds.v
RowSecurity.v
Migrations.v
Http.v
Routes.v
Api.v
InvoicePdf.v
Cli.v
Client.v
