(* ===== verification/Prelude.v ===== *)
(** Synapse SaaS: a verification development of the framework's core.

    The program (src/src/synapse_saas) is the back end of a multi-tenant SaaS
    product: FastAPI routes over services that share one PostgreSQL session per
    request, a version-counter cache, an outbox of events that a worker drains,
    and payment providers behind one protocol.  This file is the root: the
    notation, the calendar, rounding, and the lemmas every other file uses.

    * How the model works

    The database is a family of finite maps, one per table ([Tables.db]), keyed by
    primary key.  A service method is a function [world -> result A * world]
    ([Store.M]): the world holds the session's tables, what is committed
    ([w_durable]), the cache, the invalidations waiting for the commit, the clock,
    the identifier supply, the settings and the request's principal and tenant.  An
    exception is an [Err] value; it keeps the writes made before it until a
    savepoint or the request transaction ([Session.request], core/db.py
    [get_session]) undoes them.  [flush] is where unique indexes and checks
    ([Store.constraints_ok]) are enforced.  Every definition is executable, and
    every property with a hypothesis has a witness evaluated on a concrete world
    (usually an extension of [Fixtures.demo]).

    Two families of frame reasoning carry the proofs: [Stable R m] says an
    operation relates its worlds by a preorder [R] ([keeps t], [same_env], ...),
    composed by [solve_stable] over the hint database [stable]; [run] steps a
    computation.

    * Files, from the bottom up

    - Prelude, Calendar, Text, Json: shared notions; the calendar laws of
      [first_of_month]; Python string methods; JSON values.
    - Ids (core/ids.py): time-ordered UUIDs and slugs.
    - Errors (core/errors.py), Events (core/events.py): the error hierarchy with
      its problem documents; event names and their audience.
    - Dynamic: what the program does with decoded JSON values ([dict.get],
      truthiness, [int], [Decimal], [datetime.fromtimestamp]).
    - Tables, Store (the models.py files, core/db.py, core/context.py): rows,
      constraints, the monad and the session operations.
    - Config (core/config.py): validators, production guardrails, derived values;
      Branding (branding/): the branding kit and the assets it serves.
    - Cache (core/cache.py), Session (core/db.py, core/outbox.py,
      audit/service.py): the versioned cache over any lawful store; the request
      transaction, the outbox and the frames.
    - Repository (core/repository.py, core/pagination.py): the tenant boundary of
      queries and their pages.
    - RateLimit (core/rate_limit.py, identity/rate_limit.py): the login limiter.
    - Permissions, Authorization (authorization/): the catalog, its OpenFGA model
      and tuples; roles, denormalized permission sets, permission checks.
    - ApiKeys (api_keys/), FeatureFlags (feature_flags/service.py), Preferences and
      Identity (identity/), Tenancy (tenancy/): keys, flags, users and sessions,
      organizations and seats.
    - Subscriptions (subscriptions/state_machine.py, service.py), Proration
      (subscriptions/proration.py), Resolver and Entitlements (entitlements/),
      Usage (usage/service.py), Interfaces: the commercial core.  Usage, Invoicing,
      Tenancy and Identity see entitlements through the class
      [Interfaces.EntitlementReader] only; [Entitlements] gives the instance.
    - Invoicing, Numbering, Billing, BillingWebhooks (billing/): invoices, their
      numbering by sessions that run at the same time, the billing service over a
      record of provider operations, and webhook ingestion; InvoicePdf
      (billing/invoice_pdf.py): the document of an invoice, over any drawing library
      ([InvoicePdf.Fpdf]).
    - Catalog (subscriptions/catalog.py, sync.py): the price list and its projection
      into the tables; Reporting (billing/reporting.py): spend and revenue reports.
    - Providers, Stripe, Paddle, Xendit, PayMongo (billing/providers/): the requests
      of the hosted providers, their webhook checks and translations over a
      [Providers.Platform]; Hosted (billing/registry.py): the operations the registry
      hands out, shown to implement [Billing.External]; Translations: what their
      events mean to the ingestion.  Keycloak (identity/provider.py): the adapter of the
      single sign-on realm, over a [Keycloak.Realm] of its answers.
    - Agents (agents/): the registry of agents and its routes.
    - Backends (storage/backend.py): the local disk and an S3 bucket behind the routes of
      Storage, as two instances of [Backends.Stores]; Fga (authorization/fga.py): the
      client of the OpenFGA server, over any [Fga.Server].
    - Storage (storage/), Webhooks (webhooks/service.py), Worker and Retention
      (worker/jobs.py), Deliveries: files and their quota, outbound deliveries, the
      jobs, and the delivery queue until it drains; Notifications (notifications/):
      which event becomes which mail.
    - Seeds (seeds/system_seed.py, migration 0019): the permission catalog and the system
      roles as rows; Cli (cli.py, seeds/dev_seed.py, scaffold/__init__.py): seeding a
      deployment, jobs on demand, the names of a generated project.
    - RowSecurity (migrations 0013 and 0015, core/db.py): the tenant policies of the
      database, and handlers run behind them.
    - Ddl, Schema, Migrations (migrations/versions/): the statements of each version
      and of its downgrade, what a catalogue says after them, and the chain they form,
      run on any [Ddl.Database]; Ddl also has the naming of constraints (core/db.py).
    - Http (api/app.py, core/commit_before_send.py, audit/middleware.py): error
      documents, the commit before the response, startup; Routes (the router.py
      files): one definition per route; Api (api/v1.py): a request from its headers
      through its dependencies to its route.
    - Client (src/sdk/python/synapse_saas_client): the route tables of the API and the
      calls of its Python client, over any [Client.Router].

    * What the properties show

    - The whole request: what is answered or committed was authorized by the tables
      as the request found them ([Api.changes_are_authorized]); a response that
      reports success leaves after its commit ([Http.response_means_committed]);
      what a handler, the router, the parser or the auth limiter refuses is a problem
      document ([Http.errors_are_problems]); a configuration loads exactly when its
      values are admissible ([Config.settings_decide]) and the application then
      starts exactly when the role, the price list and the self-test allow it
      ([Http.startup_decides]); the client's calls reach the
      routes they are meant for ([Client.client_reaches_routes]) and the errors of the
      API reach its caller ([Client.errors_reach_the_client]).
    - Tenancy and authority: a tenant's queries depend on its rows only
      ([Repository.tenant_noninterference]); a request is bound to an organization
      only for its members ([Tenancy.tenant_resolution_gated]); permission sets
      follow roles ([Authorization.role_edits_keep_denormalization]); a key never
      exceeds its creator, at minting and at use
      ([ApiKeys.key_never_exceeds_creator], [Authorization.key_authority_bounded]);
      the catalog of permissions is seeded whole ([Cli.seed_all_or_nothing],
      [Seeds.seed_completes]) and extended without losing that
      ([Seeds.member_read_migrated]); agents change by legal transitions that are
      announced once ([Agents.agents_change_announced], [Agents.registry_history]);
      OpenFGA and the permission sets agree ([Permissions.fga_agrees_with_rbac]), and
      its tuples converge under failures while the store exists
      ([Fga.retried_write_converges]);
      on the tables whose policies apply to the connected role, which the startup
      check does not guarantee of a partial owner
      ([RowSecurity.partial_owner_bypasses]), a handler leaves other tenants' rows as
      they are and depends on none of them ([RowSecurity.row_security_isolates]), and
      those policies are the ones the migrations create
      ([Migrations.policies_implement_model]).
    - Schema: an empty database reaches the last version, with every tenant table
      policed and no key that hinders deleting an organization
      ([Migrations.fresh_database_migrates]); downgrades restore the schema
      ([Migrations.downgrades_restore]) except that of 0006, which no database can run
      ([Migrations.webhook_constraints_stuck]); what the models declare is enforced, but
      for three checks ([Migrations.models_enforced]).
    - Identity: refresh tokens are single-use and reuse is theft
      ([Identity.refresh_token_single_use], [Identity.reuse_revokes_sessions]);
      single sign-on does not take accounts over, and an exchanged code gives claims
      the realm vouches for ([Keycloak.exchange_verified]); the limiter implements a fixed window
      ([RateLimit.local_refines]).
    - Money: one occupant subscription per organization, in-place plan changes,
      proration and arrears identities, drafts that bill everything once, numbers no
      two invoices share when different drafts are finalized at the same time
      ([Numbering.racing_finalizes_number_uniquely]; the same draft twice breaks the
      scheme, [Numbering.draft_opened_twice]), documents that list every line and print amounts to the cent
      ([InvoicePdf.invoice_document_drawn], [InvoicePdf.amounts_print_exactly]),
      idempotent webhook ingestion; the tables hold what the price
      list says, but for the names of features already there
      ([Catalog.sync_projects_catalog], [Catalog.renamed_feature_kept]); the reports add up and agree
      ([Reporting.revenue_agrees_with_spend]).
    - Providers: a webhook is accepted exactly when it is authentic and readable
      ([Hosted.verified_exactly_authentic]), translated into the canonical
      vocabulary ([Translations.translation_understood]) with exact amounts
      ([Translations.xendit_amount_exact]).
    - Metering: limits enforced, idempotent consumption, counters equal to their
      events, seat and storage gauges in step ([Tenancy.seats_in_step],
      [Retention.storage_gauge_exact]); both storage backends keep what is put, and a
      change that fails touches its own location only ([Backends.backends_store]), and where they part ([Backends.backends_differ]).
    - Caching: within the hour a version counter lives, a body stored under an old
      version is never served ([Cache.stale_set_invisible]), so revocations take effect and cached flags
      are fresh ([Entitlements.revoke_takes_effect],
      [FeatureFlags.cached_flags_fresh]).
    - Jobs: renewals only of what is due, one delivery per endpoint and event,
      bounded attempts, a delivery queue that drains while its batches can be
      committed ([Deliveries.deliveries_settle]; one answer with a NUL stops it,
      [Deliveries.nul_answer_aborts_batch]),
      rebuilt counters, jobs on demand that do not hide each other
      ([Cli.jobs_all_reported]); invitations reach the address they name
      ([Notifications.invitation_is_mailed]).

    * Bounds, parameters, and what is not modelled

    No fuel is used ([Migrations.cascaded] iterates once per table, and [deletable]
    checks that this closes the set): every function is structurally recursive or runs over a
    table's rows; [Preferences.walk], the one worklist, runs on a bound that
    [Preferences.check_shape_decides] shows sufficient.  Integers are unbounded
    where Python's are, floats are the binary64 of SpecFloat; a value beyond a
    column's 64 bits is a database error outside the model.  Texts are bytes of UTF-8:
    [Text.char_length] and [Text.clip] count characters, the methods of [str] are
    those of ASCII texts.
    SHA-256, HMAC, Fernet, password hashing, JWT signing, the identity and payment
    providers, the object store, the OpenFGA server, Redis, [json.loads], YAML, the
    file system, the HTTP client and the text of floats are arguments or records of
    answers, with their documented laws as named hypotheses or classes.

    Each operation runs alone on the tables it finds; transactions interleave in
    [Numbering] only, at READ COMMITTED.

    Not modelled: foreign keys between rows (they are in the schema of [Migrations] only); ORM attribute expiry except the identity map that
    [Authorization] needs ([held_permissions]); the parsing of bodies and queries by
    the schema library, whose results the routes take; the rows that
    migrations change, except by 0019, and so migrations of a database with rows; test
    fixtures; logging, metrics and tracing; the bytes
    of a PDF, an argument of the route that serves it; the rest of the
    command line; the transport and the paging of the Python client. *)

From stdpp Require Export prelude gmap strings sorting.
From Stdlib Require Export Lia.
From Stdlib Require Import Ascii SpecFloat DecimalString DecimalZ.

Declare Scope synapse_scope.
Delimit Scope synapse_scope with synapse.

(** ** Identifiers and instants

    A [uuid] is an opaque identifier; fresh ones come from a counter (see
    [Store.fresh_id]).  An instant is a number of microseconds since
    1970-01-01T00:00:00Z (the resolution of Python's [datetime]); a date is
    the number of days since 1970-01-01. *)
Abbreviation uuid := N (only parsing).
Abbreviation instant := Z (only parsing).
Abbreviation date := Z (only parsing).

Definition SECOND : Z := 1000000.
Definition MINUTE : Z := 60 * SECOND.
Definition HOUR : Z := 3600 * SECOND.
Definition DAY : Z := 86400 * SECOND.

(** [timedelta(days=n)] and [timedelta(seconds=n)]. *)
Definition days (n : Z) : Z := n * DAY.
Definition seconds (n : Z) : Z := n * SECOND.

(** [datetime.date()] of a UTC instant. *)
Definition date_of (t : instant) : date := (t / DAY)%Z.

(** [datetime.combine(d, datetime.min.time(), tzinfo=UTC)]. *)
Definition midnight (d : date) : instant := (d * DAY)%Z.

(** The proleptic Gregorian calendar of Python's [datetime.date]: year, month
    and day of a day number (years counted from March inside the 400-year era). *)
Record civil := Civil { c_year : Z; c_month : Z; c_day : Z }.

Definition civil_of_date (d : date) : civil :=
  let z := (d + 719468)%Z in
  let era := (z / 146097)%Z in
  let doe := (z mod 146097)%Z in
  let yoe := ((doe - doe / 1460 + doe / 36524 - doe / 146096) / 365)%Z in
  let doy := (doe - (365 * yoe + yoe / 4 - yoe / 100))%Z in
  let mp := ((5 * doy + 2) / 153)%Z in
  let day := (doy - (153 * mp + 2) / 5 + 1)%Z in
  let month := (if mp <? 10 then mp + 3 else mp - 9)%Z in
  let year := (yoe + era * 400 + (if month <=? 2 then 1 else 0))%Z in
  Civil year month day.

(** [d.replace(day=1)]. *)
Definition first_of_month (d : date) : date := (d - (c_day (civil_of_date d) - 1))%Z.

(** ** Python integers and strings *)

(** [str(n)] of an int, and [int(s)] of a decimal literal ([None] is the
    [ValueError]). *)
Definition Z_str (z : Z) : string := NilZero.string_of_int (Z.to_int z).
Definition int_of_str (s : string) : option Z := Z.of_int <$> NilZero.int_of_string s.

(** [f"{n:0<w>d}"] for a non-negative [n]. *)
Definition zfill (w : nat) (n : Z) : string :=
  let s := Z_str n in
  String.concat "" (replicate (w - String.length s) "0"%string) +:+ s.

(** [f"{n:,}"] of a non-negative int. *)
Fixpoint group_digits (s : string) : string :=
  match s with
  | EmptyString => EmptyString
  | String a s' =>
      let n := String.length s' in
      String a ((if Nat.ltb 0 n && Nat.eqb (n mod 3) 0 then "," else "") +:+ group_digits s')
  end.
Definition commas (n : Z) : string := group_digits (Z_str n).

(** [x or 0] for an optional int. *)
Definition or0 (x : option Z) : Z := default 0%Z x.

(** Truthiness of an optional string ([None] and the empty string are false). *)
Definition truthy_str (x : option string) : bool :=
  match x with Some s => negb (String.eqb s "") | None => false end.

(** [x or d] for an optional string. *)
Definition or_str (x : option string) (d : string) : string :=
  match x with Some s => if String.eqb s "" then d else s | None => d end.

(** Truthiness of an optional int ([None] and zero are false). *)
Definition truthy_int (x : option Z) : bool :=
  match x with Some z => negb (Z.eqb z 0) | None => false end.

(** [str.lower()], on ASCII letters: texts are ASCII throughout. *)
Definition lower_char (c : ascii) : ascii :=
  let n := nat_of_ascii c in
  if Nat.leb 65 n && Nat.leb n 90 then ascii_of_nat (n + 32) else c.
Fixpoint lower (s : string) : string :=
  match s with EmptyString => EmptyString | String c s => String (lower_char c) (lower s) end.

(** What a CITEXT column compares. *)
Definition citext : string -> string := lower.

(** ** IEEE-754 binary64, the [float] of Python *)

Definition float := spec_float.
Definition float_of_Z (z : Z) : float := binary_normalize 53 1024 z 0 false.
Definition float_mul : float -> float -> float := SFmul 53 1024.
Definition float_div : float -> float -> float := SFdiv 53 1024.

(** Truthiness: every float but zero is true. *)
Definition truthy_float (f : float) : bool :=
  match f with S754_zero _ => false | _ => true end.

(** [int(f)]: truncation toward zero; [None] is the [ValueError] /
    [OverflowError] of a NaN or an infinity. *)
Definition int_of_float (f : float) : option Z :=
  match f with
  | S754_zero _ => Some 0%Z
  | S754_finite s m e =>
      let a := Z.shiftl (Zpos m) e in
      Some (if s then (- a)%Z else a)
  | _ => None
  end.

#[export] Instance float_eq_dec : EqDecision float.
Proof. solve_decision. Defined.

(** ** Rounding of exact quotients, as in the [decimal] module *)

(** [ROUND_HALF_EVEN] of [n / d], for [0 < d]. *)
Definition round_half_even (n d : Z) : Z :=
  let q := (n / d)%Z in
  let r := (n mod d)%Z in
  if (2 * r <? d)%Z then q
  else if (d <? 2 * r)%Z then (q + 1)%Z
  else if Z.even q then q else (q + 1)%Z.

(** [ROUND_HALF_UP] of [n / d] (ties away from zero), for [0 < d]. *)
Definition round_half_up (n d : Z) : Z :=
  (Z.sgn n * ((2 * Z.abs n + d) / (2 * d)))%Z.

(** [-(-n // d)]: the ceiling of [n / d] written with Python's floor division. *)
Definition ceil_div (n d : Z) : Z := (- ((- n) / d))%Z.

(** ** Lists *)

Definition sumZ {A} (f : A -> Z) (l : list A) : Z := foldr (fun x acc => f x + acc)%Z 0%Z l.

(** [ORDER BY k] and [ORDER BY k DESC]: a stable sort; rows with equal sort
    keys stay in the order the scan returned them. *)
Definition key_le {A} (k : A -> Z) (x y : A) : Prop := (k x <= k y)%Z.

#[export] Instance key_le_dec {A} (k : A -> Z) : RelDecision (key_le k).
Proof. intros x y. unfold key_le. apply _. Defined.

Definition order_by {A} (k : A -> Z) (l : list A) : list A := merge_sort (key_le k) l.
Definition order_by_desc {A} (k : A -> Z) (l : list A) : list A :=
  merge_sort (key_le (fun x => - k x)%Z) l.

(** [sorted] on strings. *)
Definition sorted_str (l : list string) : list string := merge_sort String.le l.

(** [sorted({...})] of a set of texts: no duplicates, in order. *)
Definition sorted_set (l : list string) : list string := sorted_str (remove_dups l).

(** ** Lemmas *)

Section Rounding.
Context (n d : Z) (Hd : (0 < d)%Z).

Lemma round_half_even_error : (Z.abs (2 * (d * round_half_even n d - n)) <= d)%Z.
Proof.
  unfold round_half_even.
  pose proof (Z.div_mod n d). pose proof (Z.mod_pos_bound n d Hd).
  repeat case_match; lia.
Qed.

Lemma round_half_even_lower k : (k * d <= n)%Z -> (k <= round_half_even n d)%Z.
Proof.
  intros Hk. unfold round_half_even.
  assert (k <= n / d)%Z by (apply Z.div_le_lower_bound; lia).
  repeat case_match; lia.
Qed.

Lemma round_half_even_upper k : (n <= k * d)%Z -> (round_half_even n d <= k)%Z.
Proof.
  intros Hk. pose proof round_half_even_error. nia.
Qed.

Lemma round_half_up_error : (Z.abs (2 * (d * round_half_up n d - n)) <= d)%Z.
Proof.
  unfold round_half_up.
  pose proof (Z.div_mod (2 * Z.abs n + d) (2 * d)).
  pose proof (Z.mod_pos_bound (2 * Z.abs n + d) (2 * d)).
  destruct (Z.sgn_spec n) as [[? ->]|[[<- ->]|[? ->]]]; lia.
Qed.

Lemma round_half_up_nonneg : (0 <= n)%Z -> (0 <= round_half_up n d)%Z.
Proof. intros. pose proof round_half_up_error. nia. Qed.

Lemma round_half_up_upper k : (n <= k * d)%Z -> (round_half_up n d <= k)%Z.
Proof. intros Hk. pose proof round_half_up_error. nia. Qed.

Lemma round_half_up_exact k : round_half_up (k * d) d = k.
Proof.
  unfold round_half_up. rewrite Z.abs_mul, (Z.abs_eq d) by lia.
  replace (2 * (Z.abs k * d) + d)%Z with (d + Z.abs k * (2 * d))%Z by lia.
  rewrite Z.div_add, Z.div_small by lia. destruct (Z.sgn_spec k) as [[? E]|[[? E]|[? E]]]; nia.
Qed.

Lemma ceil_div_spec : (n <= d * ceil_div n d < n + d)%Z.
Proof.
  unfold ceil_div. pose proof (Z.div_mod (- n) d). pose proof (Z.mod_pos_bound (- n) d Hd). lia.
Qed.
End Rounding.

Lemma round_half_up_opp n d : round_half_up (- n) d = (- round_half_up n d)%Z.
Proof. unfold round_half_up. rewrite Z.sgn_opp, Z.abs_opp. lia. Qed.

Section Lists.
Context {A : Type}.
Implicit Types l : list A.

Lemma sumZ_app (f : A -> Z) l1 l2 : sumZ f (l1 ++ l2) = (sumZ f l1 + sumZ f l2)%Z.
Proof. induction l1; simpl; lia. Qed.

Lemma sumZ_omap {X Y} (g : Y -> Z) (f : X -> option Y) (xs : list X) :
  sumZ g (omap f xs) = sumZ (fun x => from_option g 0%Z (f x)) xs.
Proof. induction xs as [|x xs IH]; [done|]. simpl. destruct (f x); simpl; by rewrite <- IH. Qed.
Lemma sumZ_Permutation (f : A -> Z) l1 l2 : l1 ≡ₚ l2 -> sumZ f l1 = sumZ f l2.
Proof. induction 1; simpl; lia. Qed.

Lemma sumZ_nonneg (f : A -> Z) l : (forall x, x ∈ l -> (0 <= f x)%Z) -> (0 <= sumZ f l)%Z.
Proof.
  induction l as [|x l IH]; intros H; simpl; [lia|].
  pose proof (H x ltac:(left)). assert (0 <= sumZ f l)%Z by (apply IH; intros; apply H; by right). lia.
Qed.

Lemma sumZ_const_0 l : sumZ (fun _ => 0%Z) l = 0%Z.
Proof. induction l; simpl; lia. Qed.

Lemma sumZ_ext (f g : A -> Z) l : (forall x, x ∈ l -> f x = g x) -> sumZ f l = sumZ g l.
Proof.
  induction l as [|x l IH]; intros H; simpl; [done|].
  rewrite (H x) by left. rewrite IH; [done|]. intros; apply H; by right.
Qed.

Lemma elem_of_order_by k x l : x ∈ order_by k l <-> x ∈ l.
Proof. unfold order_by. by rewrite merge_sort_Permutation. Qed.

Lemma elem_of_order_by_desc k x l : x ∈ order_by_desc k l <-> x ∈ l.
Proof. unfold order_by_desc. by rewrite merge_sort_Permutation. Qed.

Lemma order_by_desc_nil k l : order_by_desc k l = [] <-> l = [].
Proof.
  split; [|by intros ->]. unfold order_by_desc. intros H.
  apply Permutation_nil_r. by rewrite <- H, merge_sort_Permutation.
Qed.

Lemma order_by_desc_singleton k (x : A) : order_by_desc k [x] = [x].
Proof. done. Qed.

Lemma NoDup_all_eq_singleton (x : A) l :
  NoDup l -> x ∈ l -> (forall y, y ∈ l -> y = x) -> l = [x].
Proof.
  intros Hnd Hx Hall. destruct l as [|y l]; [by apply not_elem_of_nil in Hx|].
  assert (y = x) as -> by (apply Hall; left).
  destruct l as [|z l]; [done|].
  assert (z = x) as -> by (apply Hall; right; left).
  apply NoDup_cons in Hnd as [Hn _]. by contradict Hn; left.
Qed.
End Lists.

Lemma elem_of_sorted_str x l : x ∈ sorted_str l <-> x ∈ l.
Proof. unfold sorted_str. by rewrite merge_sort_Permutation. Qed.

Lemma elem_of_sorted_set x l : x ∈ sorted_set l <-> x ∈ l.
Proof. unfold sorted_set. by rewrite elem_of_sorted_str, elem_of_remove_dups. Qed.

(** A sorted set depends on its members only. *)
Lemma sorted_set_ext l1 l2 : (forall x, x ∈ l1 <-> x ∈ l2) -> sorted_set l1 = sorted_set l2.
Proof.
  intros H. assert (Hp : remove_dups l1 ≡ₚ remove_dups l2).
  { apply NoDup_Permutation; [apply NoDup_remove_dups..|]. intros x. by rewrite !elem_of_remove_dups. }
  unfold sorted_set, sorted_str. apply (StronglySorted_unique String.le).
  - apply (StronglySorted_merge_sort String.le); apply _.
  - apply (StronglySorted_merge_sort String.le); apply _.
  - by rewrite !merge_sort_Permutation.
Qed.

(** *** Rendered integers and strings *)

Lemma int_of_Z_str z : int_of_str (Z_str z) = Some z.
Proof.
  unfold int_of_str, Z_str. rewrite NilZero.isi; simpl.
  - by rewrite DecimalZ.of_to.
  - intros H. pose proof (DecimalZ.of_to z) as E. rewrite H in E. simpl in E. by subst.
  - intros H. pose proof (DecimalZ.of_to z) as E. rewrite H in E. simpl in E. by subst.
Qed.

#[export] Instance Z_str_inj : Inj (=) (=) Z_str.
Proof. intros z1 z2 H. apply (f_equal int_of_str) in H. rewrite !int_of_Z_str in H. by simplify_eq. Qed.

(** The characters of a rendered integer. *)
Definition digit_chars : list Ascii.ascii :=
  ["-"; "0"; "1"; "2"; "3"; "4"; "5"; "6"; "7"; "8"; "9"]%char.

Fixpoint string_Forall (P : Ascii.ascii -> Prop) (s : string) : Prop :=
  match s with EmptyString => True | String c s => P c /\ string_Forall P s end.

Lemma string_Forall_app P s1 s2 :
  string_Forall P (s1 +:+ s2) <-> string_Forall P s1 /\ string_Forall P s2.
Proof. induction s1 as [|c s1 IH]; simpl; [tauto|]. rewrite IH. tauto. Qed.

Lemma string_of_uint_digits d : string_Forall (.∈ digit_chars) (NilEmpty.string_of_uint d).
Proof. induction d; simpl; try done; (split; [unfold digit_chars; set_solver|done]). Qed.

Lemma Z_str_digits z : string_Forall (.∈ digit_chars) (Z_str z) /\ Z_str z <> "".
Proof.
  unfold Z_str. destruct (Z.to_int z) as [d|d]; simpl.
  - pose proof (string_of_uint_digits d). destruct d; simpl in *; (split; [|done]);
      try done; unfold digit_chars; set_solver.
  - split; [|done]. split; [unfold digit_chars; set_solver|].
    pose proof (string_of_uint_digits d). destruct d; simpl in *; try done;
    unfold digit_chars; set_solver.
Qed.

Lemma app_inv_head_str s t1 t2 : s +:+ t1 = s +:+ t2 -> t1 = t2.
Proof. induction s; simpl; [done|]. intros H; simplify_eq/=. auto. Qed.

Lemma length_app_str s t : String.length (s +:+ t) = String.length s + String.length t.
Proof. induction s; simpl; [done|]. by f_equal. Qed.

Lemma app_inv_tail_str s1 s2 t : s1 +:+ t = s2 +:+ t -> s1 = s2.
Proof.
  revert s2. induction s1 as [|c s1 IH]; intros [|c2 s2] H; [done|..].
  - apply (f_equal String.length) in H. rewrite !length_app_str in H. simpl in H. lia.
  - apply (f_equal String.length) in H. rewrite !length_app_str in H. simpl in H. lia.
  - injection H as -> H. f_equal. by apply IH.
Qed.

(** A separator that occurs in neither left part determines the split. *)
Lemma split_at_sep (c : Ascii.ascii) s1 s2 t1 t2 :
  string_Forall (.≠ c) s1 -> string_Forall (.≠ c) s2 ->
  s1 +:+ String c t1 = s2 +:+ String c t2 -> s1 = s2 /\ t1 = t2.
Proof.
  revert s2. induction s1 as [|a s1 IH]; intros [|a2 s2] H1 H2 H;
    simpl in H1, H2; destruct_and?; injection H; intros; simplify_eq; try done.
  edestruct (IH s2) as [-> ->]; done.
Qed.

(** ** Tactics

    [destruct_if] splits on the condition of the first [if] of the goal or of a
    hypothesis. *)
Ltac destruct_if :=
  match goal with
  | |- context [if ?b then _ else _] => destruct b eqn:?
  | H : context [if ?b then _ else _] |- _ => destruct b eqn:?
  end.

(** *** Zero-padded numbers *)

Lemma string_of_uint_no_minus d : string_Forall (.≠ "-"%char) (NilEmpty.string_of_uint d).
Proof. induction d; simpl; try done; by split. Qed.

Lemma Z_str_no_minus z : (0 <= z)%Z -> string_Forall (.≠ "-"%char) (Z_str z).
Proof.
  intros Hz. unfold Z_str. assert (exists d, Z.to_int z = Decimal.Pos d) as [d ->].
  { destruct z as [|p|p]; [by eexists|by eexists|lia]. }
  pose proof (string_of_uint_no_minus d). destruct d; simpl in *; try done; by split.
Qed.

(** A leading zero does not change the number a text denotes. *)
Lemma int_of_str_zero s :
  s <> "" -> string_Forall (.≠ "-"%char) s -> int_of_str (String "0"%char s) = int_of_str s.
Proof.
  intros Hne Hs. destruct s as [|a s]; [done|]. destruct Hs as [Ha _].
  assert (Hp : int_of_str (String a s) =
    Z.of_int <$> option_map Decimal.Pos (NilEmpty.uint_of_string (String a s))).
  { unfold int_of_str, NilZero.int_of_string. destruct (ascii_dec a "-"%char); [done|].
    destruct a as [[] [] [] [] [] [] [] []]; try done; by destruct s. }
  rewrite Hp. unfold int_of_str, NilZero.int_of_string.
  change (NilZero.uint_of_string (String "0" (String a s))) with
    (option_map Decimal.D0 (NilEmpty.uint_of_string (String a s))).
  cbn -[NilEmpty.uint_of_string]. by destruct (NilEmpty.uint_of_string (String a s)).
Qed.

Lemma concat_zeros k s : (String.concat "" (replicate k "0") +:+ s) = Nat.iter k (String "0"%char) s.
Proof.
  induction k as [|k IH]; [done|]. simpl. destruct k as [|k]; [done|].
  simpl in *. rewrite <- IH. done.
Qed.

Lemma int_of_zfill w n : (0 <= n)%Z -> int_of_str (zfill w n) = Some n.
Proof.
  intros Hn. unfold zfill. rewrite concat_zeros. 
  destruct (Z_str_digits n) as [_ Hne]. pose proof (Z_str_no_minus n Hn) as Hm.
  induction (w - String.length (Z_str n)) as [|k IH]; [apply int_of_Z_str|].
  simpl. rewrite int_of_str_zero; [done| |].
  - destruct k; [done|by intros ?].
  - clear IH. induction k; simpl; [done|]. by split.
Qed.

Lemma zfill_no_minus w n : (0 <= n)%Z -> string_Forall (.≠ "-"%char) (zfill w n).
Proof.
  intros Hn. unfold zfill. rewrite concat_zeros. induction (w - _) as [|k IH]; [by apply Z_str_no_minus|].
  simpl. by split.
Qed.

(** A separator that occurs in neither right part determines the split. *)
Lemma split_at_last_sep (c : ascii) s1 s2 t1 t2 :
  string_Forall (.≠ c) t1 -> string_Forall (.≠ c) t2 ->
  s1 +:+ String c t1 = s2 +:+ String c t2 -> s1 = s2 /\ t1 = t2.
Proof.
  assert (Hin : forall s t a, string_Forall (.≠ c) (String a (s +:+ String c t)) -> False).
  { intros s t a [_ H]. apply string_Forall_app in H as [_ [H _]]. done. }
  revert s2. induction s1 as [|a s1 IH]; intros [|a2 s2] H1 H2 H.
  - by injection H as ->.
  - injection H as <- ->. exfalso. apply string_Forall_app in H1 as [_ [H1 _]]. done.
  - injection H as -> <-. exfalso. apply string_Forall_app in H2 as [_ [H2 _]]. done.
  - injection H as -> H. by destruct (IH s2 H1 H2 H) as [-> ->].
Qed.
