(* ===== verification/Calendar.v ===== *)
(** Laws of the calendar of the prelude: the first day of a month is a day of that
    month, determined by its year and number; it never lies in the future of a day
    of the month, and is a lower bound of the months that follow it. *)

From S2P Require Import Prelude.

Open Scope Z_scope.

(** The parts of [civil_of_date]: the day number where a year of the 400-year era
    starts (in March), the year of a day of the era, and the same for months. *)
Definition year_start (y : Z) : Z := 365 * y + y / 4 - y / 100.
Definition year_of (doe : Z) : Z := (doe - doe / 1460 + doe / 36524 - doe / 146096) / 365.
Definition month_start (m : Z) : Z := (153 * m + 2) / 5.
Definition month_of (doy : Z) : Z := (5 * doy + 2) / 153.

Lemma year_of_step doe : 0 <= doe < 146096 -> year_of doe <= year_of (doe + 1).
Proof.
  intros H. destruct (Z.eq_dec doe 146095) as [->|Hne]; [by vm_compute|]. unfold year_of. apply Z.div_le_mono; [done|].
  rewrite (Z.div_small doe 146096), (Z.div_small (doe + 1) 146096) by lia.
  pose proof (Z.div_le_mono doe (doe + 1) 36524). pose proof (Z.div_le_mono (doe + 1) (doe + 1 * 1460) 1460) as Ha.
  rewrite Z.div_add in Ha by done. lia.
Qed.

Lemma year_of_mono a b : 0 <= a <= b -> b <= 146096 -> year_of a <= year_of b.
Proof.
  intros Ha Hb. replace b with (a + Z.of_nat (Z.to_nat (b - a))) by lia.
  assert (Hn : a + Z.of_nat (Z.to_nat (b - a)) <= 146096) by lia. revert Hn.
  generalize (Z.to_nat (b - a)) as n. induction n as [|n IH]; intros Hn; [rewrite Z.add_0_r; lia|].
  pose proof (year_of_step (a + Z.of_nat n) ltac:(lia)). rewrite Nat2Z.inj_succ.
  replace (a + Z.succ (Z.of_nat n)) with (a + Z.of_nat n + 1) by lia. specialize (IH ltac:(lia)). lia.
Qed.

Lemma year_start_range y : 0 <= y <= 399 -> 0 <= year_start y <= 146096.
Proof.
  intros H. unfold year_start. pose proof (Z.div_mod y 4). pose proof (Z.mod_pos_bound y 4).
  pose proof (Z.div_mod y 100). pose proof (Z.mod_pos_bound y 100). lia.
Qed.

Lemma year_start_mono a b : 0 <= a <= b -> b <= 399 -> year_start a <= year_start b.
Proof.
  intros H Hb. unfold year_start. pose proof (Z.div_le_mono a b 4). pose proof (Z.div_mod a 100).
  pose proof (Z.mod_pos_bound a 100). pose proof (Z.div_mod b 100). pose proof (Z.mod_pos_bound b 100). lia.
Qed.

(** Every year of an era: its first day is its own, the day before is not. *)
Definition year_edges (n : nat) : bool :=
  let y := Z.of_nat n in
  (year_of (year_start y) =? y) && ((y =? 0) || (year_of (year_start y - 1) =? y - 1)).

Lemma year_edges_ok y : 0 <= y <= 399 -> year_of (year_start y) = y /\ (0 < y -> year_of (year_start y - 1) = y - 1).
Proof.
  intros Hy. assert (H : forallb year_edges (seq 0 400) = true) by reflexivity.
  rewrite forallb_forall in H. specialize (H (Z.to_nat y)). unfold year_edges in H. rewrite Z2Nat.id in H by lia.
  specialize (H ltac:(apply in_seq; lia)). apply andb_true_iff in H as [H1 H2]. apply Z.eqb_eq in H1.
  split; [done|]. intros Hp. apply orb_true_iff in H2 as [H2|H2]; apply Z.eqb_eq in H2; lia.
Qed.

Lemma year_of_range doe : 0 <= doe <= 146096 -> 0 <= year_of doe <= 399.
Proof. intros H. split; [apply (year_of_mono 0 doe); lia|]. change 399 with (year_of 146096). apply year_of_mono; lia. Qed.

Lemma year_start_le doe : 0 <= doe <= 146096 -> year_start (year_of doe) <= doe.
Proof.
  intros H. pose proof (year_of_range doe H) as Hy. destruct (Z.le_gt_cases (year_start (year_of doe)) doe) as [|Hlt]; [done|].
  destruct (year_edges_ok (year_of doe) Hy) as [_ Hp].
  destruct (Z.eq_dec (year_of doe) 0) as [E|Hne]; [rewrite E in Hlt; change (doe < 0) in Hlt; lia|].
  specialize (Hp ltac:(lia)).
  assert (year_of doe <= year_of (year_start (year_of doe) - 1)); [|lia].
  pose proof (year_start_range _ Hy). apply year_of_mono; lia.
Qed.

Lemma year_start_lt doe : 0 <= doe <= 146096 -> year_of doe < 399 -> doe < year_start (year_of doe + 1).
Proof.
  intros H Hy. pose proof (year_of_range doe H). destruct (Z.le_gt_cases (year_start (year_of doe + 1)) doe) as [Hle|]; [|done].
  destruct (year_edges_ok (year_of doe + 1) ltac:(lia)) as [E _].
  assert (year_of (year_start (year_of doe + 1)) <= year_of doe); [|lia].
  pose proof (year_start_range (year_of doe + 1)). apply year_of_mono; lia.
Qed.

Lemma month_start_le doy : month_start (month_of doy) <= doy.
Proof.
  unfold month_start, month_of. pose proof (Z.div_mod (5 * doy + 2) 153). pose proof (Z.mod_pos_bound (5 * doy + 2) 153).
  set (q := (5 * doy + 2) / 153) in *. pose proof (Z.div_mod (153 * q + 2) 5). pose proof (Z.mod_pos_bound (153 * q + 2) 5). lia.
Qed.

Lemma month_start_nonneg doy : 0 <= doy -> 0 <= month_start (month_of doy).
Proof.
  intros H. unfold month_start, month_of. apply Z.div_pos; [|done].
  pose proof (Z.div_pos (5 * doy + 2) 153). lia.
Qed.

Lemma month_floor a b : month_start (month_of a) <= b -> month_start (month_of a) <= month_start (month_of b).
Proof.
  unfold month_start, month_of. set (q := (5 * a + 2) / 153). intros H.
  apply Z.div_le_mono; [done|]. pose proof (Z.div_mod (153 * q + 2) 5). pose proof (Z.mod_pos_bound (153 * q + 2) 5).
  assert (q <= (5 * b + 2) / 153); [|lia]. apply Z.div_le_lower_bound; lia.
Qed.

(** The first day of a month from its era, year and month. *)
Definition era_of (d : date) : Z := (d + 719468) / 146097.
Definition doe_of (d : date) : Z := (d + 719468) mod 146097.
Definition doy_of (d : date) : Z := doe_of d - year_start (year_of (doe_of d)).

Lemma first_of_month_parts d :
  first_of_month d + 719468 =
    era_of d * 146097 + year_start (year_of (doe_of d)) + month_start (month_of (doy_of d)).
Proof.
  unfold first_of_month, civil_of_date, doy_of, doe_of, era_of, year_start, month_start, month_of. cbn [c_day].
  set (z := d + 719468). pose proof (Z.div_mod z 146097 ltac:(lia)) as E.
  change ((_ - _ / 1460 + _ / 36524 - _ / 146096) / 365) with (year_of (z mod 146097)).
  set (y := year_of (z mod 146097)).
  replace (365 * y + y / 4 - y / 100) with (365 * y + y / 4 - y / 100) by lia. unfold z in *. lia.
Qed.

Lemma doe_range d : 0 <= doe_of d <= 146096.
Proof. unfold doe_of. pose proof (Z.mod_pos_bound (d + 719468) 146097). lia. Qed.

Lemma first_of_month_le d : first_of_month d <= d.
Proof.
  pose proof (first_of_month_parts d) as E. pose proof (year_start_le _ (doe_range d)).
  pose proof (Z.div_mod (d + 719468) 146097 ltac:(lia)) as Ed. fold (era_of d) (doe_of d) in Ed.
  pose proof (month_start_le (doy_of d)).
  unfold doy_of in *. lia.
Qed.

(** A month's first day bounds the month of every later day. *)
Lemma first_of_month_floor a b : first_of_month a <= b -> first_of_month a <= first_of_month b.
Proof.
  intros H. pose proof (first_of_month_parts a) as Ea. pose proof (first_of_month_parts b) as Eb.
  pose proof (doe_range a) as Ra. pose proof (doe_range b) as Rb.
  pose proof (Z.div_mod (a + 719468) 146097 ltac:(lia)) as Da. fold (era_of a) (doe_of a) in Da.
  pose proof (Z.div_mod (b + 719468) 146097 ltac:(lia)) as Db. fold (era_of b) (doe_of b) in Db.
  pose proof (year_start_le _ Ra) as Ya. pose proof (year_start_le _ Rb) as Yb.
  pose proof (year_of_range _ Ra) as Na. pose proof (year_of_range _ Rb) as Nb.
  pose proof (month_start_le (doy_of a)) as Ma.
  pose proof (month_start_nonneg (doy_of b) ltac:(unfold doy_of; lia)) as Mb.
  pose proof (month_start_nonneg (doy_of a) ltac:(unfold doy_of; lia)) as Pa.
  pose proof (year_start_range _ Na) as Sa. pose proof (year_start_range _ Nb) as Sb.
  unfold doy_of in Ma at 2.
  destruct (Z.lt_trichotomy (era_of a) (era_of b)) as [Hera|[Hera|Hera]]; [|rewrite Hera in *|lia].
  - lia.
  - destruct (Z.lt_trichotomy (year_of (doe_of a)) (year_of (doe_of b))) as [Hy|[Hy|Hy]].
    + pose proof (year_start_lt _ Ra ltac:(lia)) as Hlt.
      assert (year_start (year_of (doe_of a) + 1) <= year_start (year_of (doe_of b))) by (apply year_start_mono; lia). lia.
    + pose proof (month_floor (doy_of a) (doy_of b)) as Hm. rewrite Hy in *.
      assert (month_start (month_of (doy_of a)) <= doy_of b) by (unfold doy_of at 2; lia). lia.
    + pose proof (year_start_lt _ Rb ltac:(lia)) as Hlt.
      assert (year_start (year_of (doe_of b) + 1) <= year_start (year_of (doe_of a))) by (apply year_start_mono; lia).
      lia.
Qed.

(** ** Year and month name the first day *)

Definition year_month (d : date) : Z * Z := (c_year (civil_of_date d), c_month (civil_of_date d)).

Lemma year_month_parts d :
  let mp := month_of (doy_of d) in
  let m := if mp <? 10 then mp + 3 else mp - 9 in
  year_month d = (year_of (doe_of d) + era_of d * 400 + (if m <=? 2 then 1 else 0), m).
Proof. reflexivity. Qed.

Lemma month_of_range d : 0 <= month_of (doy_of d) <= 11.
Proof.
  pose proof (doe_range d) as R. pose proof (year_start_le _ R). pose proof (year_of_range _ R) as N.
  assert (0 <= doy_of d <= 365) as D; [|unfold month_of; clear - D; Z.div_mod_to_equations; lia]. unfold doy_of.
  split; [lia|].
  destruct (Z.eq_dec (year_of (doe_of d)) 399) as [E|E].
  - rewrite E. change (year_start 399) with 145731. lia.
  - pose proof (year_start_lt _ R ltac:(lia)) as L. clear - L. unfold year_start in *.
    generalize dependent (year_of (doe_of d)). intros. Z.div_mod_to_equations. lia.
Qed.

Lemma year_month_range d : 0 <= d -> 0 <= (year_month d).1 /\ 1 <= (year_month d).2 <= 12.
Proof.
  intros H. rewrite year_month_parts. cbn [fst snd]. pose proof (month_of_range d).
  pose proof (year_of_range _ (doe_range d)).
  assert (0 <= era_of d) by (unfold era_of; apply Z.div_pos; lia).
  destruct (Z.ltb_spec (month_of (doy_of d)) 10); case_match; lia.
Qed.

Lemma year_month_inj a b : year_month a = year_month b -> first_of_month a = first_of_month b.
Proof.
  rewrite !year_month_parts. intros H. pose proof (f_equal fst H) as H1. pose proof (f_equal snd H) as H2. clear H.
  cbn [fst snd] in H1, H2. rewrite H2 in H1.
  pose proof (month_of_range a). pose proof (month_of_range b).
  pose proof (year_of_range _ (doe_range a)). pose proof (year_of_range _ (doe_range b)).
  assert (month_of (doy_of a) = month_of (doy_of b)) as Em.
  { destruct (Z.ltb_spec (month_of (doy_of a)) 10), (Z.ltb_spec (month_of (doy_of b)) 10); lia. }
  assert (era_of a = era_of b /\ year_of (doe_of a) = year_of (doe_of b)) as [Ee Ey] by lia.
  pose proof (first_of_month_parts a). pose proof (first_of_month_parts b). rewrite Em, Ee, Ey in *. lia.
Qed.

Lemma year_start_inj_range y x : 0 <= y <= 399 -> 0 <= x -> year_start y <= x ->
  x <= 146096 -> (forall z, x <= z <= 146096 -> year_of z = y -> year_of x = y).
Proof.
  intros Hy Hx Hle Hr z Hz E. destruct (year_edges_ok y Hy) as [Es _].
  pose proof (year_start_range y Hy).
  pose proof (year_of_mono (year_start y) x ltac:(lia) ltac:(lia)).
  pose proof (year_of_mono x z ltac:(lia) ltac:(lia)). lia.
Qed.

Lemma month_of_start mp : 0 <= mp <= 11 -> month_of (month_start mp) = mp.
Proof. intros H. unfold month_of, month_start. Z.div_mod_to_equations. lia. Qed.

(** The first day of a month is a day of that month. *)
Lemma year_month_first d : year_month (first_of_month d) = year_month d.
Proof.
  pose proof (first_of_month_parts d) as E. pose proof (doe_range d) as R. pose proof (year_of_range _ R) as N.
  pose proof (month_of_range d) as M. pose proof (year_start_le _ R) as L. pose proof (month_start_le (doy_of d)) as Lm.
  pose proof (year_start_range _ N) as Sy.
  assert (Sm : 0 <= month_start (month_of (doy_of d))) by (apply Z.div_pos; lia).
  set (x := year_start (year_of (doe_of d)) + month_start (month_of (doy_of d))) in *.
  assert (Hx : 0 <= x <= doe_of d) by (unfold x; unfold doy_of in Lm at 2; lia).
  assert (Hdoe : doe_of (first_of_month d) = x).
  { unfold doe_of. rewrite E. replace (_ + _ + _) with (x + era_of d * 146097) by (unfold x; lia).
    rewrite Z.mod_add by lia. apply Z.mod_small. lia. }
  assert (Hera : era_of (first_of_month d) = era_of d).
  { unfold era_of. rewrite E. replace (_ + _ + _) with (x + era_of d * 146097) by (unfold x; lia).
    rewrite Z.div_add by lia. rewrite Z.div_small by lia. done. }
  assert (Hyear : year_of x = year_of (doe_of d)).
  { apply (year_start_inj_range _ x N) with (z := doe_of d); unfold x in *; lia. }
  assert (Hdoy : doy_of (first_of_month d) = month_start (month_of (doy_of d))).
  { unfold doy_of. rewrite Hdoe, Hyear. unfold x, doy_of. lia. }
  rewrite !year_month_parts, Hdoe, Hera, Hyear, Hdoy, (month_of_start _ M). done.
Qed.

Lemma first_of_month_inj a b : first_of_month a = first_of_month b -> year_month a = year_month b.
Proof. intros H. by rewrite <- (year_month_first a), H, year_month_first. Qed.

Lemma first_of_month_mono a b : a <= b -> first_of_month a <= first_of_month b.
Proof. intros H. apply first_of_month_floor. pose proof (first_of_month_le a). lia. Qed.
