(* ===== verification/Text.v ===== *)
(** Python string methods on ASCII text, as the parsers of headers, signatures,
    slugs and cached lists use them. *)

From Stdlib Require Import Ascii.
From S2P Require Import Prelude.

(** [s.split(c)] for a one-character separator: never empty. *)
Fixpoint split_on (c : ascii) (s : string) : list string :=
  match s with
  | EmptyString => [""]
  | String a s =>
      if Ascii.eqb a c then "" :: split_on c s
      else match split_on c s with
           | x :: xs => String a x :: xs
           | [] => [String a ""]
           end
  end.

(** [c.join(l)]. *)
Definition join (c : ascii) (l : list string) : string := String.concat (String c "") l.

(** [str.isspace] of a character: the blanks [strip] removes. *)
Definition is_space (c : ascii) : bool :=
  let n := nat_of_ascii c in
  Nat.eqb n 32 || (Nat.leb 9 n && Nat.leb n 13) || (Nat.leb 28 n && Nat.leb n 31).

Fixpoint drop_while (p : ascii -> bool) (s : string) : string :=
  match s with
  | EmptyString => EmptyString
  | String a s' => if p a then drop_while p s' else s
  end.

Fixpoint rev_string (s : string) : string :=
  match s with EmptyString => EmptyString | String a s => rev_string s +:+ String a "" end.

(** [s.strip()], [s.strip(c)], [s.lstrip(c)]. *)
Definition strip_by (p : ascii -> bool) (s : string) : string :=
  rev_string (drop_while p (rev_string (drop_while p s))).
Definition strip (s : string) : string := strip_by is_space s.
Definition strip_char (c : ascii) (s : string) : string := strip_by (Ascii.eqb c) s.
Definition lstrip_char (c : ascii) (s : string) : string := drop_while (Ascii.eqb c) s.
(** [s.rstrip(c)]. *)
Definition rstrip_char (c : ascii) (s : string) : string := rev_string (drop_while (Ascii.eqb c) (rev_string s)).

(** [s.startswith(p)] and [s[n:]], [s[:n]]. *)
Definition starts_with (p s : string) : bool := String.prefix p s.
Definition str_drop (n : nat) (s : string) : string := String.substring n (String.length s - n) s.
Definition str_take (n : nat) (s : string) : string := String.substring 0 n s.

(** [sub in s]. *)
Definition contains (sub s : string) : bool :=
  match String.index 0 sub s with Some _ => true | None => false end.

(** [len] of a text: its characters, of which the bytes [10xxxxxx] of UTF-8 only
    continue one. *)
Definition continuation (a : ascii) : bool :=
  let n := nat_of_ascii a in Nat.leb 128 n && Nat.ltb n 192.
Fixpoint char_length (s : string) : Z :=
  match s with
  | EmptyString => 0%Z
  | String a s => ((if continuation a then 0 else 1) + char_length s)%Z
  end.

(** [s[:n]] in characters. *)
Fixpoint clip (n : nat) (s : string) : string :=
  match s with
  | EmptyString => EmptyString
  | String a s' =>
      if continuation a then String a (clip n s')
      else match n with O => EmptyString | S n => String a (clip n s') end
  end.

(** A text column of PostgreSQL holds no NUL character. *)
Definition storable (s : string) : bool := negb (contains (String "000" "") s).

(** [s.partition(c)]: the parts around the first occurrence. *)
Fixpoint partition (c : ascii) (s : string) : string * bool * string :=
  match s with
  | EmptyString => ("", false, "")
  | String a s =>
      if Ascii.eqb a c then ("", true, s)
      else let '(l, found, r) := partition c s in (String a l, found, r)
  end.

(** [f"{x}"] of a UUID, also of an optional one. *)
Definition uuid_str (u : uuid) : string := Z_str (Z.of_N u).
Definition opt_uuid_str (u : option uuid) : string :=
  match u with Some u => uuid_str u | None => "None" end.

(** [UUID(s)]: [None] is the [ValueError]. *)
Definition uuid_of_str (s : string) : option uuid :=
  z ← int_of_str s; if (z <? 0)%Z then None else Some (Z.to_N z).

(** [s.replace(a, b)] for single characters. *)
Fixpoint replace_char (a b : ascii) (s : string) : string :=
  match s with
  | EmptyString => EmptyString
  | String c s => String (if Ascii.eqb c a then b else c) (replace_char a b s)
  end.

(** ** Lemmas *)

Lemma str_take_all s : str_take (String.length s) s = s.
Proof. unfold str_take. induction s as [|a s IH]; [done|]. cbn. by rewrite IH. Qed.

Lemma uuid_of_uuid_str u : uuid_of_str (uuid_str u) = Some u.
Proof.
  unfold uuid_of_str, uuid_str. rewrite int_of_Z_str. simpl.
  rewrite (proj2 (Z.ltb_ge _ _)) by lia. by rewrite N2Z.id.
Qed.
#[export] Instance uuid_str_inj : Inj (=) (=) uuid_str.
Proof. intros x y H. apply (f_equal uuid_of_str) in H. rewrite !uuid_of_uuid_str in H. by simplify_eq. Qed.

Lemma string_app_cons a s t : String a s +:+ t = String a (s +:+ t).
Proof. done. Qed.

Lemma split_on_cons c s : exists x xs, split_on c s = x :: xs.
Proof.
  induction s as [|a s (x & xs & IH)]; simpl; [by do 2 eexists|].
  destruct (Ascii.eqb a c); [by do 2 eexists|]. rewrite IH. by do 2 eexists.
Qed.

Lemma split_on_app c s1 s2 : split_on c (s1 +:+ String c s2) = split_on c s1 ++ split_on c s2.
Proof.
  induction s1 as [|a s1 IH]; [simpl; by rewrite Ascii.eqb_refl|]. rewrite string_app_cons. simpl.
  destruct (Ascii.eqb a c); simpl; [by rewrite IH|]. rewrite IH.
  destruct (split_on_cons c s1) as (x & xs & ->). done.
Qed.

Lemma split_on_none c s : string_Forall (.≠ c) s -> split_on c s = [s].
Proof.
  induction s as [|a s IH]; simpl; [done|]. intros [Ha Hs].
  rewrite (proj2 (Ascii.eqb_neq a c) Ha), IH by done. done.
Qed.

Lemma join_cons c x y l : join c (x :: y :: l) = x +:+ String c (join c (y :: l)).
Proof. done. Qed.

(** A joined list of texts without the separator splits back. *)
Lemma split_on_join c l :
  l <> [] -> Forall (string_Forall (.≠ c)) l -> split_on c (join c l) = l.
Proof.
  intros Hne H. induction H as [|x l Hx Hl IH]; [done|].
  destruct l as [|y l]; [by apply split_on_none|].
  rewrite join_cons, split_on_app, (split_on_none c x) by done. rewrite IH by done. done.
Qed.

(** Partition at the first separator. *)
Lemma partition_char c s t : string_Forall (.≠ c) s -> partition c (s +:+ String c t) = (s, true, t).
Proof.
  induction s as [|a s IH]; cbn [string_Forall].
  - intros _. change ("" +:+ String c t) with (String c t). cbn [partition]. by rewrite Ascii.eqb_refl.
  - intros [Ha Hs]. change (String a s +:+ String c t) with (String a (s +:+ String c t)). cbn [partition].
    rewrite (proj2 (Ascii.eqb_neq a c) Ha), IH by done. done.
Qed.

Lemma string_app_nil s : s +:+ "" = s.
Proof. induction s as [|a s IH]; [done|]. by rewrite string_app_cons, IH. Qed.
Lemma string_app_assoc s1 s2 s3 : (s1 +:+ s2) +:+ s3 = s1 +:+ (s2 +:+ s3).
Proof. induction s1 as [|a s1 IH]; [done|]. by rewrite !string_app_cons, IH. Qed.

Lemma rev_string_app s1 s2 : rev_string (s1 +:+ s2) = rev_string s2 +:+ rev_string s1.
Proof.
  induction s1 as [|a s1 IH]; [by rewrite string_app_nil|].
  rewrite string_app_cons. simpl. by rewrite IH, string_app_assoc.
Qed.
Lemma rev_string_involutive s : rev_string (rev_string s) = s.
Proof. induction s as [|a s IH]; simpl; [done|]. by rewrite rev_string_app, IH. Qed.

Lemma string_Forall_rev P s : string_Forall P (rev_string s) <-> string_Forall P s.
Proof. induction s as [|a s IH]; simpl; [done|]. rewrite string_Forall_app, IH. simpl. tauto. Qed.

Lemma string_Forall_impl (P Q : ascii -> Prop) s :
  (forall a, P a -> Q a) -> string_Forall P s -> string_Forall Q s.
Proof. intros H. induction s; simpl; [done|]. intros [? ?]. auto. Qed.

Lemma drop_while_Forall P p s : string_Forall P s -> string_Forall P (drop_while p s).
Proof. induction s as [|a s IH]; simpl; [done|]. intros [Ha Hs]. destruct (p a); [auto|done]. Qed.

Lemma strip_by_Forall P p s : string_Forall P s -> string_Forall P (strip_by p s).
Proof.
  intros H. unfold strip_by. rewrite string_Forall_rev. apply drop_while_Forall.
  rewrite string_Forall_rev. by apply drop_while_Forall.
Qed.

Lemma drop_while_length p s : String.length (drop_while p s) <= String.length s.
Proof. induction s as [|a s IH]; simpl; [done|]. destruct (p a); simpl; lia. Qed.
Lemma rev_string_length s : String.length (rev_string s) = String.length s.
Proof. induction s as [|a s IH]; simpl; [done|]. rewrite length_app_str, IH. simpl. lia. Qed.
Lemma strip_by_length p s : String.length (strip_by p s) <= String.length s.
Proof.
  unfold strip_by. rewrite rev_string_length.
  etrans; [apply drop_while_length|]. rewrite rev_string_length. apply drop_while_length.
Qed.

Lemma starts_with_app p s : starts_with p (p +:+ s) = true.
Proof.
  unfold starts_with. induction p as [|a p IH]; [by destruct s|]. simpl.
  destruct (ascii_dec a a) as [_|Hne]; [exact IH|by destruct Hne].
Qed.

Lemma substring_all s : String.substring 0 (String.length s) s = s.
Proof. induction s as [|a s IH]; simpl; [done|]. by rewrite IH. Qed.

Lemma str_drop_app p s : str_drop (String.length p) (p +:+ s) = s.
Proof.
  unfold str_drop. rewrite length_app_str.
  replace (String.length p + String.length s - String.length p) with (String.length s) by lia.
  induction p as [|a p IH]; simpl; [apply substring_all|done].
Qed.
