(* ===== verification/Ids.v ===== *)
(** Identifiers and slugs (core/ids.py): time-ordered UUIDs, slug derivation and
    validation.

    [os.urandom] is an argument: its bytes as an integer, or the hexadecimal text
    of three bytes. *)

From Stdlib Require Import Ascii ZArith.
From S2P Require Import Prelude Text.

(** ** UUIDv7 *)

Definition uuid_v7 (time_ns rand2 rand8 : Z) : Z :=
  let ts_ms := (time_ns / 1000000)%Z in
  let rand_a := Z.land rand2 0xFFF in
  let rand_b := Z.land rand8 0x3FFFFFFFFFFFFFFF in
  let value := Z.shiftl (Z.land ts_ms 0xFFFFFFFFFFFF) 80 in
  let value := Z.lor value (Z.shiftl 0x7 76) in
  let value := Z.lor value (Z.shiftl rand_a 64) in
  let value := Z.lor value (Z.shiftl 2 62) in
  Z.lor value rand_b.

(** The milliseconds [uuid_v7_timestamp] reads back. *)
Definition uuid_v7_ms (value : Z) : Z := Z.shiftr value 80.

(** The version and variant fields of RFC 9562. *)
Definition uuid_version (value : Z) : Z := Z.land (Z.shiftr value 76) 0xF.
Definition uuid_variant (value : Z) : Z := Z.land (Z.shiftr value 62) 3.

Lemma land_ones_range x n : (0 <= n)%Z -> (0 <= Z.land x (Z.ones n) < 2 ^ n)%Z.
Proof. intros Hn. rewrite Z.land_ones by done. apply Z.mod_pos_bound. lia. Qed.

Lemma lor_shiftl_add x y n :
  (0 <= n)%Z -> (0 <= y < 2 ^ n)%Z -> Z.lor (Z.shiftl x n) y = (x * 2 ^ n + y)%Z.
Proof.
  intros Hn Hy. assert (Hland : Z.land (Z.shiftl x n) y = 0%Z).
  { apply Z.bits_inj'. intros i Hi. rewrite Z.land_spec, Z.bits_0, Z.shiftl_spec by done.
    destruct (Z.lt_ge_cases i n) as [Hlt|Hge]; [by rewrite Z.testbit_neg_r by lia|].
    replace (Z.testbit y i) with false; [by rewrite andb_false_r|]. symmetry.
    destruct (decide (y = 0%Z)) as [->|Hy0]; [apply Z.bits_0|]. apply Z.bits_above_log2; [lia|].
    pose proof (proj1 (Z.log2_lt_pow2 y n ltac:(lia)) (proj2 Hy)). lia. }
  rewrite <- Z.lxor_lor, <- Z.add_nocarry_lxor, Z.shiftl_mul_pow2 by done. done.
Qed.

(** The fields side by side. *)
Lemma uuid_v7_fields t a b :
  uuid_v7 t a b =
    ((Z.land (t / 1000000) (Z.ones 48)) * 2 ^ 80 +
      (7 * 2 ^ 76 + (Z.land a (Z.ones 12) * 2 ^ 64 + (2 * 2 ^ 62 + Z.land b (Z.ones 62)))))%Z.
Proof.
  unfold uuid_v7. change 0xFFFFFFFFFFFF%Z with (Z.ones 48). change 0xFFF%Z with (Z.ones 12).
  change 0x3FFFFFFFFFFFFFFF%Z with (Z.ones 62). rewrite <- !Z.lor_assoc.
  pose proof (land_ones_range b 62 ltac:(lia)). pose proof (land_ones_range a 12 ltac:(lia)).
  rewrite (lor_shiftl_add 2) by lia. rewrite (lor_shiftl_add (Z.land a _)) by lia.
  rewrite (lor_shiftl_add 7) by lia. rewrite lor_shiftl_add by lia. done.
Qed.

(** The [k]-bit field above bit [n]. *)
Lemma field_at x r n k hi lo y :
  y = (x * 2 ^ n + r)%Z -> (0 <= n)%Z -> (0 <= k)%Z -> (0 <= r < 2 ^ n)%Z -> x = (hi * 2 ^ k + lo)%Z ->
  (0 <= lo < 2 ^ k)%Z -> ((y / 2 ^ n) mod 2 ^ k)%Z = lo.
Proof.
  intros -> Hn Hk Hr -> Hlo. rewrite Z.div_add_l, (Z.div_small r), Z.add_0_r by lia.
  rewrite Z.add_comm, Z.mod_add, Z.mod_small by lia. done.
Qed.

(** A time-ordered identifier is a 128-bit value of version 7 and the RFC
    variant, gives back the millisecond it was made in, and identifiers made in
    different milliseconds sort in the order they were made. *)
Theorem uuid_v7_sound t a b :
  (0 <= uuid_v7 t a b < 2 ^ 128)%Z /\
  uuid_version (uuid_v7 t a b) = 7%Z /\ uuid_variant (uuid_v7 t a b) = 2%Z /\
  uuid_v7_ms (uuid_v7 t a b) = ((t / 1000000) mod 2 ^ 48)%Z /\
  forall t' a' b', (0 <= t)%Z -> (t / 1000000 < t' / 1000000 < 2 ^ 48)%Z ->
    (uuid_v7 t a b < uuid_v7 t' a' b')%Z.
Proof.
  pose proof (land_ones_range a 12 ltac:(lia)) as Ha. pose proof (land_ones_range b 62 ltac:(lia)) as Hb.
  pose proof (land_ones_range (t / 1000000) 48 ltac:(lia)) as Ht.
  unfold uuid_version, uuid_variant, uuid_v7_ms. rewrite !Z.shiftr_div_pow2 by lia.
  change 0xF%Z with (Z.ones 4). change 3%Z with (Z.ones 2). rewrite !Z.land_ones by lia.
  rewrite !uuid_v7_fields. rewrite <- (Z.land_ones (t / 1000000) 48) by lia.
  set (ra := Z.land a (Z.ones 12)) in *. set (rb := Z.land b (Z.ones 62)) in *.
  set (ts := Z.land (t / 1000000) (Z.ones 48)) in *. clearbody ra rb. split_and!.
  - lia.
  - lia.
  - rewrite (field_at (ts * 16 + 7) (ra * 2 ^ 64 + (2 * 2 ^ 62 + rb)) 76 4 ts 7); lia.
  - rewrite (field_at ((ts * 16 + 7) * 2 ^ 14 + ra * 2 ^ 2 + 2) rb 62 2 ((ts * 16 + 7) * 2 ^ 12 + ra) 2); lia.
  - rewrite Z.div_add_l, Z.div_small; lia.
  - intros t' a' b' H0 Hlt. rewrite !uuid_v7_fields.
    pose proof (land_ones_range a' 12 ltac:(lia)). pose proof (land_ones_range b' 62 ltac:(lia)).
    assert (0 <= t / 1000000)%Z by (apply Z.div_pos; lia).
    assert (ts = t / 1000000)%Z
      by (subst ts; rewrite Z.land_ones, Z.mod_small by lia; done).
    assert (Z.land (t' / 1000000) (Z.ones 48) = t' / 1000000)%Z
      by (rewrite Z.land_ones, Z.mod_small by lia; done).
    lia.
Qed.

(** ** Slugs *)

Definition is_lower_alnum (c : ascii) : bool :=
  let n := nat_of_ascii c in
  (Nat.leb 97 n && Nat.leb n 122) || (Nat.leb 48 n && Nat.leb n 57).
Definition is_slug_char (c : ascii) : bool := is_lower_alnum c || Ascii.eqb c "-".

Definition RESERVED_SLUGS : list string :=
  ["www"; "api"; "app"; "admin"; "mail"; "smtp"; "ftp"; "sftp"; "ssh"; "support"; "help"; "billing";
   "checkout"; "pay"; "login"; "signin"; "signup"; "register"; "logout"; "static"; "assets"; "cdn";
   "docs"; "status"; "health"; "platform"; "system"; "root"; "synapse"; "dashboard"; "console"; "portal"].

(** [_SLUG_RE.sub("-", s)]: every run of other characters becomes one dash. *)
Fixpoint sub_runs (in_run : bool) (s : string) : string :=
  match s with
  | EmptyString => EmptyString
  | String a s =>
      if is_lower_alnum a then String a (sub_runs false s)
      else if in_run then sub_runs true s else String "-" (sub_runs true s)
  end.

(** [re.sub(r"-{2,}", "-", s)]. *)
Fixpoint collapse_dashes (prev : bool) (s : string) : string :=
  match s with
  | EmptyString => EmptyString
  | String a s =>
      if Ascii.eqb a "-" then if prev then collapse_dashes true s else String a (collapse_dashes true s)
      else String a (collapse_dashes false s)
  end.

Definition slugify (text : string) : string :=
  let slug := strip_char "-" (sub_runs false (lower text)) in
  strip_char "-" (str_take 48 (collapse_dashes false slug)).

Fixpoint last_char (d : ascii) (s : string) : ascii :=
  match s with EmptyString => d | String a s => last_char a s end.
Fixpoint all_chars (p : ascii -> bool) (s : string) : bool :=
  match s with EmptyString => true | String a s => p a && all_chars p s end.

(** [re.fullmatch(r"[a-z0-9](?:[a-z0-9-]{1,46}[a-z0-9])?", slug)]. *)
Definition slug_shape (s : string) : bool :=
  match s with
  | EmptyString => false
  | String a rest =>
      is_lower_alnum a &&
      (String.eqb rest "" ||
       (Nat.leb 2 (String.length rest) && Nat.leb (String.length rest) 47 &&
        all_chars is_slug_char rest && is_lower_alnum (last_char a rest)))
  end.

Definition is_valid_slug (slug : string) : bool :=
  slug_shape slug && bool_decide (slug ∉ RESERVED_SLUGS).

(** [suffix] is [os.urandom(3).hex()]. *)
Definition unique_slug (base suffix : string) : string :=
  let stem := strip_char "-" (str_take 39 (slugify base)) in
  (if String.eqb stem "" then "org" else stem) +:+ "-" +:+ suffix.

Example slug_of_name : slugify "  Acme & Sons, Inc. " = "acme-sons-inc" := eq_refl.
Example slug_of_symbols : slugify "!!!" = "" := eq_refl.
Example slug_too_short : is_valid_slug (slugify "HP") = false := eq_refl.

(** *** The shape of slugs *)

Definition dash : ascii := "-".
Definition no_double (s : string) : Prop := forall s1 s2, s <> s1 +:+ String dash (String dash s2).
Definition slug_text (s : string) : Prop := string_Forall (fun c => is_slug_char c = true) s.

Lemma no_double_suffix s1 s2 : no_double (s1 +:+ s2) -> no_double s2.
Proof. intros H t1 t2 ->. apply (H (s1 +:+ t1) t2). by rewrite string_app_assoc. Qed.
Lemma no_double_prefix s1 s2 : no_double (s1 +:+ s2) -> no_double s1.
Proof. intros H t1 t2 ->. apply (H t1 (t2 +:+ s2)). by rewrite string_app_assoc, !string_app_cons. Qed.
Lemma no_double_cons a s : no_double s -> (forall t, String a s <> String dash (String dash t)) -> no_double (String a s).
Proof.
  intros Hs Ha [|b s1] s2; [apply Ha|]. rewrite string_app_cons. intros [= _ H]. by apply (Hs s1 s2).
Qed.
Lemma no_double_rev s : no_double s -> no_double (rev_string s).
Proof.
  intros H s1 s2 E. apply (f_equal rev_string) in E. rewrite rev_string_involutive, rev_string_app in E.
  simpl in E. rewrite !string_app_assoc in E. by apply (H (rev_string s2) (rev_string s1)).
Qed.
#[local] Hint Resolve no_double_rev : core.

(** No text of the class begins, or ends, with a dash. *)
Definition no_lead (s : string) : Prop := forall t, s <> String dash t.
Definition no_trail (s : string) : Prop := forall t, s <> t +:+ String dash "".

Lemma is_slug_char_cases c : is_slug_char c = true -> is_lower_alnum c = true \/ c = dash.
Proof. unfold is_slug_char. rewrite orb_true_iff, Ascii.eqb_eq. tauto. Qed.

Lemma drop_while_split p s : exists t, s = t +:+ drop_while p s.
Proof.
  induction s as [|a s [t IH]]; simpl; [by exists ""|]. destruct (p a); [|by exists ""].
  exists (String a t). rewrite string_app_cons. by f_equal.
Qed.
Lemma drop_while_lead s : no_lead (drop_while (Ascii.eqb dash) s).
Proof.
  induction s as [|a s IH]; cbn [drop_while]; [done|]. destruct (Ascii.eqb dash a) eqn:E; [exact IH|].
  intros t [= -> _]. by rewrite Ascii.eqb_refl in E.
Qed.
Lemma drop_while_id s : no_lead s -> drop_while (Ascii.eqb dash) s = s.
Proof.
  destruct s as [|a s]; cbn [drop_while]; [done|]. intros H. destruct (Ascii.eqb_spec dash a) as [<-|]; [by destruct (H s)|done].
Qed.
Lemma no_trail_rev s : no_lead s -> no_trail (rev_string s).
Proof.
  intros H t E. apply (f_equal rev_string) in E. rewrite rev_string_involutive, rev_string_app in E.
  by apply (H (rev_string t)).
Qed.
Lemma no_lead_rev s : no_trail s -> no_lead (rev_string s).
Proof.
  intros H t E. apply (f_equal rev_string) in E. rewrite rev_string_involutive in E. by apply (H (rev_string t)).
Qed.

Lemma strip_infix p s : exists t1 t2, s = t1 +:+ strip_by p s +:+ t2.
Proof.
  unfold strip_by. destruct (drop_while_split p s) as [t1 E1].
  destruct (drop_while_split p (rev_string (drop_while p s))) as [t2 E2].
  exists t1, (rev_string t2). rewrite <- rev_string_app, <- E2, rev_string_involutive. done.
Qed.
Lemma strip_ends s : no_lead (strip_char dash s) /\ no_trail (strip_char dash s).
Proof.
  unfold strip_char, strip_by. set (d := drop_while _ s). split; [|apply no_trail_rev, drop_while_lead].
  intros t E. destruct (drop_while_split (Ascii.eqb dash) (rev_string d)) as [r Er].
  apply (f_equal rev_string) in Er. rewrite rev_string_involutive, rev_string_app, E in Er.
  by apply (drop_while_lead s (t +:+ rev_string r)).
Qed.
Lemma strip_id s : no_lead s -> no_trail s -> strip_char dash s = s.
Proof.
  intros Hl Ht. unfold strip_char, strip_by.
  by rewrite (drop_while_id s), drop_while_id, rev_string_involutive by (done || by apply no_lead_rev).
Qed.
Lemma strip_no_double s : no_double s -> no_double (strip_char dash s).
Proof.
  intros H. destruct (strip_infix (Ascii.eqb dash) s) as (t1 & t2 & E). unfold strip_char.
  rewrite E in H. by apply no_double_suffix, no_double_prefix in H.
Qed.

Lemma str_take_split n s : exists t, s = str_take n s +:+ t.
Proof.
  unfold str_take. revert n. induction s as [|a s IH]; intros n; [by destruct n; exists ""|].
  destruct n as [|n]; [by exists (String a s)|]. simpl. destruct (IH n) as [t Et]. exists t.
  rewrite string_app_cons. by f_equal.
Qed.
Lemma str_take_length n s : String.length (str_take n s) <= n.
Proof.
  unfold str_take. revert n. induction s as [|a s IH]; intros [|n]; simpl; try lia. by apply le_n_S.
Qed.
Lemma str_take_id n s : String.length s <= n -> str_take n s = s.
Proof.
  unfold str_take. revert n. induction s as [|a s IH]; intros [|n]; simpl; try done; [lia|].
  intros H. f_equal. apply IH. lia.
Qed.
Lemma str_take_Forall P n s : string_Forall P s -> string_Forall P (str_take n s).
Proof. destruct (str_take_split n s) as [t E]. rewrite E at 1. by intros [? _]%string_Forall_app. Qed.

Lemma alnum_not_dash c : is_lower_alnum c = true -> c <> dash.
Proof. by intros H ->. Qed.

Lemma sub_runs_form b s :
  slug_text (sub_runs b s) /\ no_double (sub_runs b s) /\ (b = true -> no_lead (sub_runs b s)).
Proof.
  revert b. induction s as [|a s IH]; intros b; simpl.
  - split_and!; [done|by intros [|??] ?|done].
  - destruct (is_lower_alnum a) eqn:Ha; [|destruct b].
    + destruct (IH false) as (H1 & H2 & _). split_and!.
      * split; [|done]. unfold is_slug_char. by rewrite Ha.
      * apply no_double_cons; [done|]. intros t [= E _]. by apply alnum_not_dash in Ha.
      * intros _ t [= E _]. by apply alnum_not_dash in Ha.
    + destruct (IH true) as (H1 & H2 & H3). split_and!; [done..|auto].
    + destruct (IH true) as (H1 & H2 & H3). split_and!; [by split| |done].
      apply no_double_cons; [done|]. intros t [= E]. by apply (H3 eq_refl t).
Qed.

Lemma sub_runs_id b s : slug_text s -> no_double s -> (b = true -> no_lead s) -> sub_runs b s = s.
Proof.
  revert b. induction s as [|a s IH]; intros b; simpl; [done|]. intros [Ha Hs] Hd Hl.
  pose proof (no_double_suffix (String a "") s Hd) as Hd'.
  destruct (is_slug_char_cases a Ha) as [Ea| ->].
  - rewrite Ea. f_equal. by apply IH.
  - simpl. destruct b; [by destruct (Hl eq_refl s)|]. f_equal. apply IH; [done..|]. intros _ t ->.
    by apply (Hd "" t).
Qed.

Lemma collapse_id prev s : no_double s -> (prev = true -> no_lead s) -> collapse_dashes prev s = s.
Proof.
  revert prev. induction s as [|a s IH]; intros prev Hd Hl; simpl; [done|].
  pose proof (no_double_suffix (String a "") s Hd) as Hd'.
  destruct (Ascii.eqb_spec a "-") as [->|Hne].
  - destruct prev; [by destruct (Hl eq_refl s)|]. f_equal. apply IH; [done|]. intros _ t ->. by apply (Hd "" t).
  - f_equal. by apply IH.
Qed.

Lemma lower_slug s : slug_text s -> lower s = s.
Proof.
  induction s as [|a s IH]; simpl; [done|]. intros [Ha Hs]. f_equal; [|auto].
  destruct a as [[] [] [] [] [] [] [] []]; vm_compute in Ha; (discriminate Ha || reflexivity).
Qed.

(** A text in the normal form of slugs. *)
Record slug_form (s : string) : Prop := {
  sl_text : slug_text s;
  sl_double : no_double s;
  sl_lead : no_lead s;
  sl_trail : no_trail s;
  sl_length : String.length s <= 48
}.

Lemma slugify_form text : slug_form (slugify text).
Proof.
  unfold slugify. destruct (sub_runs_form false (lower text)) as (Ht & Hd & _).
  set (s1 := strip_char "-" (sub_runs false (lower text))). assert (Hd1 : no_double s1) by (apply strip_no_double, Hd).
  assert (Ht1 : slug_text s1) by (apply strip_by_Forall, Ht). rewrite collapse_id by done.
  destruct (strip_ends (str_take 48 s1)) as [Hl Htr]. split; [| |done..|].
  - by apply strip_by_Forall, str_take_Forall.
  - apply strip_no_double. destruct (str_take_split 48 s1) as [t E]. rewrite E in Hd1.
    by apply no_double_prefix in Hd1.
  - etrans; [apply strip_by_length|apply str_take_length].
Qed.

Lemma slugify_id s : slug_form s -> slugify s = s.
Proof.
  intros [Ht Hd Hl Htr Hn]. unfold slugify.
  change "-"%char with dash. rewrite (lower_slug s), (sub_runs_id false s), (strip_id s), (collapse_id false s), (str_take_id 48 s) by done.
  by apply strip_id.
Qed.

(** *** Validity *)

Lemma all_chars_Forall p s : all_chars p s = true <-> string_Forall (fun c => p c = true) s.
Proof. induction s as [|a s IH]; simpl; [done|]. by rewrite andb_true_iff, IH. Qed.

Lemma last_char_split d a s : exists t, String a s = t +:+ String (last_char d (String a s)) "".
Proof.
  revert d a. induction s as [|b s IH]; intros d a; [by exists ""|].
  destruct (IH a b) as [t E]. exists (String a t). simpl in *. rewrite string_app_cons. by f_equal.
Qed.

(** A slug in normal form has the shape the validator wants, unless it is two
    characters long. *)
Lemma slug_shape_form s :
  slug_form s -> slug_shape s = true <-> s <> "" /\ String.length s <> 2.
Proof.
  intros [Ht Hd Hl Htr Hn]. destruct s as [|a s]; [naive_solver|].
  destruct Ht as [Ha Ht]. cbn [slug_shape String.length] in *.
  destruct (is_slug_char_cases a Ha) as [->| ->]; [|by destruct (Hl s)].
  destruct s as [|b s]; [naive_solver|]. cbn [String.eqb orb andb].
  assert (Hlast : is_lower_alnum (last_char a (String b s)) = true).
  { destruct (last_char_split a b s) as [t E]. rewrite E in Ht. apply string_Forall_app in Ht as [_ [Hc _]].
    destruct (is_slug_char_cases _ Hc) as [|Hc']; [done|]. destruct (Htr (String a t)).
    rewrite string_app_cons. f_equal. rewrite E at 1. by rewrite Hc'. }
  rewrite Hlast, (proj2 (all_chars_Forall _ _)), !andb_true_r by done.
  cbn [String.length] in *. rewrite andb_true_iff, !Nat.leb_le. split; [intros []; split; [done|lia]|].
  intros [_ H2]. lia.
Qed.

(** A derived slug is in normal form: lowercase letters, digits and single
    dashes, none at either end, at most 48 characters; deriving again changes
    nothing; and the validator accepts it exactly when it is not empty, not
    reserved and not two characters long. *)
Theorem slugify_normalizes text : let s := slugify text in
  string_Forall (fun c => is_slug_char c = true) s /\
  (forall s1 s2, s <> s1 +:+ "--" +:+ s2) /\
  (forall t, s <> "-" +:+ t /\ s <> t +:+ "-") /\
  String.length s <= 48 /\ slugify s = s /\
  (is_valid_slug s = true <-> s <> "" /\ String.length s <> 2 /\ s ∉ RESERVED_SLUGS).
Proof.
  intros s. pose proof (slugify_form text) as Hf. fold s in Hf. split_and!; try apply Hf.
  - intros t. split; [apply (sl_lead _ Hf)|apply (sl_trail _ Hf)].
  - by apply slugify_id.
  - unfold is_valid_slug. rewrite andb_true_iff, slug_shape_form, bool_decide_eq_true by done. tauto.
Qed.

Lemma contains_dash s1 s2 s : s1 +:+ String dash s2 = s -> In dash (String.list_ascii_of_string s).
Proof. intros <-. induction s1 as [|a s1 IH]; [by left|]. by right. Qed.
Lemma dashed_not_reserved a h suffix : String a (h +:+ "-" +:+ suffix) ∉ RESERVED_SLUGS.
Proof.
  intros Hin. assert (Hd : In dash (String.list_ascii_of_string (String a (h +:+ "-" +:+ suffix))))
    by by apply (contains_dash (String a h) suffix).
  revert Hd. revert Hin. generalize (String a (h +:+ "-" +:+ suffix)). intros s Hin.
  assert (Hall : Forall (fun s => ~ In dash (String.list_ascii_of_string s)) RESERVED_SLUGS)
    by (repeat constructor; vm_compute; intuition discriminate).
  rewrite Forall_forall in Hall. by apply Hall.
Qed.
Lemma last_char_app d s1 a s2 : last_char d (s1 +:+ String a s2) = last_char a s2.
Proof. revert d. induction s1 as [|b s1 IH]; intros d; [done|]. rewrite string_app_cons. simpl. apply IH. Qed.

(** A slug made unique by a random suffix is always valid. *)
Theorem unique_slug_valid base suffix :
  String.length suffix = 6 -> string_Forall (fun c => is_lower_alnum c = true) suffix ->
  is_valid_slug (unique_slug base suffix) = true.
Proof.
  intros Hlen Hsfx. unfold unique_slug. set (stem := strip_char "-" _).
  set (head := if String.eqb stem "" then "org" else stem).
  assert (Hstem : slug_text stem /\ no_lead stem /\ String.length stem <= 39).
  { destruct (slugify_form base) as [Ht _ _ _ _]. destruct (strip_ends (str_take 39 (slugify base))) as [Hl _].
    split_and!; [by apply strip_by_Forall, str_take_Forall|done|].
    etrans; [apply strip_by_length|apply str_take_length]. }
  assert (Hhead : exists a h, head = String a h /\ is_lower_alnum a = true /\ slug_text h /\ String.length h <= 38).
  { subst head. destruct (String.eqb_spec stem "") as [_|Hne]; [by exists "o"%char, "rg"; split_and!; [..|simpl; lia]|].
    destruct stem as [|a h]; [done|]. destruct Hstem as ([Ha Ht] & Hl & Hn). exists a, h. simpl in Hn.
    destruct (is_slug_char_cases a Ha) as [| ->]; [split_and!; [done..|lia]|by destruct (Hl h)]. }
  destruct Hhead as (a & h & -> & Ha & Hh & Hn). rewrite string_app_cons.
  assert (Hs : string_Forall (fun c => is_slug_char c = true) suffix)
    by (eapply string_Forall_impl; [|exact Hsfx]; intros c Hc; unfold is_slug_char; by rewrite Hc).
  unfold is_valid_slug. apply andb_true_intro. split; [|apply bool_decide_eq_true; apply dashed_not_reserved].
  cbn [slug_shape]. rewrite Ha. cbn [andb]. apply orb_true_intro. right.
  rewrite !andb_true_iff, !Nat.leb_le, all_chars_Forall, !length_app_str, Hlen. split_and!; simpl; [lia..| |].
  - apply string_Forall_app. split; [done|]. apply string_Forall_app. by split.
  - change ("-" +:+ suffix) with (String dash suffix). rewrite last_char_app. destruct suffix as [|b sfx]; [done|].
    destruct (last_char_split a b sfx) as [t E]. rewrite E in Hsfx at 1.
    by apply string_Forall_app in Hsfx as [_ [? _]].
Qed.

Lemma unique_slug_valid_witness :
  unique_slug "Acme, Inc." "3f9a01" = "acme-inc-3f9a01" /\
  is_valid_slug (unique_slug "Acme, Inc." "3f9a01") = true.
Proof. split; [reflexivity|]. apply unique_slug_valid; [reflexivity|by repeat split]. Defined.

Lemma uuid_v7_sound_witness :
  (uuid_v7 1700000000000000000 7 9 < uuid_v7 1700000000001000000 1 2)%Z.
Proof.
  apply (proj2 (proj2 (proj2 (proj2 (uuid_v7_sound 1700000000000000000 7 9)))));
    [discriminate|split; reflexivity].
Defined.
