(* ===== verification/Json.v ===== *)
(** JSON documents: the payloads of events, audit diffs, problem documents and
    cached bodies.

    A document is kept as the value [json.dumps] encodes, not as its text.  The
    strings the code renders from typed values stay apart from ordinary text:
    [JUuid u] is [str(u)] of a UUID and [JTime t], [JDate d] are [isoformat()]
    of an instant and of a date. *)

From S2P Require Import Prelude.

Set Warnings "-register-all".

Inductive json : Type :=
  | JNull
  | JBool (b : bool)
  | JInt (z : Z)
  | JFloat (f : float)
  | JStr (s : string)
  | JUuid (u : uuid)
  | JTime (t : instant)
  | JDate (d : date)
  | JList (l : list json)
  | JObj (o : list (string * json)).

#[export] Instance json_eq_dec : EqDecision json.
Proof.
  refine (fix go (a b : json) : Decision (a = b) := let _ : EqDecision json := @go in
    match a, b with
    | JNull, JNull => left _
    | JBool x, JBool y => cast_if (decide (x = y))
    | JInt x, JInt y => cast_if (decide (x = y))
    | JFloat x, JFloat y => cast_if (decide (x = y))
    | JStr x, JStr y => cast_if (decide (x = y))
    | JUuid x, JUuid y => cast_if (decide (x = y))
    | JTime x, JTime y => cast_if (decide (x = y))
    | JDate x, JDate y => cast_if (decide (x = y))
    | JList x, JList y => cast_if (decide (x = y))
    | JObj x, JObj y => cast_if (decide (x = y))
    | _, _ => right _
    end); congruence.
Defined.

(** A JSON object: a Python [dict] in insertion order. *)
Abbreviation jobj := (list (string * json)) (only parsing).

Definition jopt {A} (f : A -> json) (x : option A) : json :=
  match x with Some a => f a | None => JNull end.

(** [d.get(k)]. *)
Fixpoint jget (k : string) (o : jobj) : option json :=
  match o with
  | [] => None
  | (k', v) :: o => if String.eqb k k' then Some v else jget k o
  end.

(** [d[k] = v]: in place when the key is there, else appended. *)
Fixpoint jset (k : string) (v : json) (o : jobj) : jobj :=
  match o with
  | [] => [(k, v)]
  | (k', v') :: o => if String.eqb k k' then (k', v) :: o else (k', v') :: jset k v o
  end.

(** [d.update(e)], also [{**d, **e}]. *)
Definition jupdate (d e : jobj) : jobj := foldl (fun acc kv => jset kv.1 kv.2 acc) d e.

Lemma jget_jset_eq k v o : jget k (jset k v o) = Some v.
Proof.
  induction o as [|[k' v'] o IH]; simpl; [by rewrite String.eqb_refl|].
  destruct (String.eqb k k') eqn:E; simpl; by rewrite E.
Qed.

Lemma jget_jset_ne k k' v o : k <> k' -> jget k (jset k' v o) = jget k o.
Proof.
  intros Hne. induction o as [|[k2 v2] o IH]; simpl.
  - by rewrite (proj2 (String.eqb_neq k k')).
  - destruct (String.eqb k' k2) eqn:E; simpl; [|by rewrite IH].
    apply String.eqb_eq in E as ->. by rewrite (proj2 (String.eqb_neq k k2)).
Qed.

Lemma jget_jupdate_notin k d e : k ∉ e.*1 -> jget k (jupdate d e) = jget k d.
Proof.
  revert d. induction e as [|[k' v] e IH]; intros d Hn; [done|]. csimpl in *.
  apply not_elem_of_cons in Hn as [Hne Hn]. unfold jupdate; simpl.
  fold (jupdate (jset k' v d) e). rewrite (IH _ Hn). by apply jget_jset_ne.
Qed.

Lemma jget_jupdate_in k v d e : NoDup e.*1 -> (k, v) ∈ e -> jget k (jupdate d e) = Some v.
Proof.
  revert d. induction e as [|[k' v'] e IH]; intros d Hnd Hin; [by apply not_elem_of_nil in Hin|].
  csimpl in *. apply NoDup_cons in Hnd as [Hk Hnd].
  unfold jupdate; simpl. fold (jupdate (jset k' v' d) e).
  apply elem_of_cons in Hin as [[= -> ->]|Hin].
  - rewrite jget_jupdate_notin by done. apply jget_jset_eq.
  - by apply IH.
Qed.
