(* ===== verification/Permissions.v ===== *)
(** The permission catalog and the system roles (authorization/permissions.py),
    their projection into an OpenFGA model (authorization/fga_model.py), and the
    relationship tuples a member needs (authorization/sync.py). *)

From Stdlib Require Import Ascii.
From S2P Require Import Prelude Text Json.

(** ** The catalog *)

Record permission_def : Type := PermissionDef {
  pd_key : string;
  pd_resource : string;
  pd_action : string;
  pd_description : string
}.

Definition PERMISSIONS : list permission_def :=
  [PermissionDef "org:read" "org" "read" "View organization details";
   PermissionDef "org:update" "org" "update" "Update organization profile and settings";
   PermissionDef "org:delete" "org" "delete" "Delete the organization";
   PermissionDef "member:read" "member" "read" "List members and their roles";
   PermissionDef "member:invite" "member" "invite" "Invite new members";
   PermissionDef "member:update" "member" "update" "Change member roles and status";
   PermissionDef "member:remove" "member" "remove" "Remove members from the organization";
   PermissionDef "role:manage" "role" "manage" "Create, update, and delete custom roles";
   PermissionDef "billing:read" "billing" "read" "View subscription, plans, and invoices";
   PermissionDef "billing:manage" "billing" "manage" "Change plans, start trials, manage payment";
   PermissionDef "usage:read" "usage" "read" "View usage meters and limits";
   PermissionDef "audit:read" "audit" "read" "View the organization audit log";
   PermissionDef "webhook:manage" "webhook" "manage" "Manage webhook endpoints and view deliveries";
   PermissionDef "entitlement:manage" "entitlement" "manage" "Grant or revoke feature entitlements (operator)";
   PermissionDef "apikey:manage" "apikey" "manage" "Create, list, and revoke API keys";
   PermissionDef "file:read" "file" "read" "List and download organization files";
   PermissionDef "file:write" "file" "write" "Upload and delete organization files";
   PermissionDef "project:read" "project" "read" "View projects";
   PermissionDef "project:manage" "project" "manage" "Create, update, and delete projects";
   PermissionDef "agents:read" "agents" "read" "View registered agents";
   PermissionDef "agents:manage" "agents" "manage" "Register, update, enable/disable agents"].

Definition PERMISSION_KEYS : list string := pd_key <$> PERMISSIONS.

(** ** System roles *)

Definition SYSTEM_ROLE_OWNER : string := "owner".
Definition SYSTEM_ROLE_ADMIN : string := "admin".
Definition SYSTEM_ROLE_BILLING : string := "billing".
Definition SYSTEM_ROLE_DEVELOPER : string := "developer".
Definition SYSTEM_ROLE_MEMBER : string := "member".

Definition without (l : list string) (x : string) : list string := filter (fun k => k <> x) l.

Definition _OWNER : list string := without PERMISSION_KEYS "entitlement:manage".
Definition _ADMIN : list string := without _OWNER "org:delete".
Definition _BILLING : list string := ["org:read"; "billing:read"; "billing:manage"; "usage:read"].
Definition _DEVELOPER : list string :=
  ["org:read"; "member:read"; "project:read"; "project:manage"; "webhook:manage"; "usage:read";
   "apikey:manage"; "agents:read"].
Definition _MEMBER : list string := ["org:read"; "member:read"; "project:read"].

(** [SYSTEM_ROLES[role]["permissions"]]; empty for a key that is no system role. *)
Definition system_role_permissions (role : string) : list string :=
  if String.eqb role SYSTEM_ROLE_OWNER then sorted_set _OWNER
  else if String.eqb role SYSTEM_ROLE_ADMIN then sorted_set _ADMIN
  else if String.eqb role SYSTEM_ROLE_BILLING then sorted_set _BILLING
  else if String.eqb role SYSTEM_ROLE_DEVELOPER then sorted_set _DEVELOPER
  else if String.eqb role SYSTEM_ROLE_MEMBER then sorted_set _MEMBER
  else [].

(** ** The OpenFGA model *)

Definition SCHEMA_VERSION : string := "1.1".
Definition ROLE_ORDER : list string := ["owner"; "admin"; "billing"; "developer"; "member"].

Definition relation_for (permission : string) : string := "can_" +:+ replace_char ":" "_" permission.

Definition roles_holding (permission : string) : list string :=
  filter (fun role => permission ∈ system_role_permissions role) ROLE_ORDER.

Definition _direct : json := JObj [("this", JObj [])].
Definition _union (children : list json) : json :=
  match children with
  | [c] => c
  | _ => JObj [("union", JObj [("child", JList children)])]
  end.
Definition _computed (relation : string) : json :=
  JObj [("computedUserset", JObj [("relation", JStr relation)])].
Definition _tuple_to_userset (tupleset relation : string) : json :=
  JObj [("tupleToUserset", JObj [("tupleset", JObj [("relation", JStr tupleset)]);
                                 ("computedUserset", JObj [("relation", JStr relation)])])].

Definition _user_type : json := JObj [("type", JStr "user"); ("relations", JObj []); ("metadata", JNull)].

Definition directly_user : json := JObj [("directly_related_user_types", JList [JObj [("type", JStr "user")]])].

(** What a permission's relation is rewritten to. *)
Definition permission_rewrite (permission : string) : json :=
  _union (_direct :: (_computed <$> roles_holding permission)).

Definition organization_relations : jobj :=
  foldl (fun rels p => jset (relation_for (pd_key p)) (permission_rewrite (pd_key p)) rels)
    (foldl (fun rels role => jset role _direct rels) [] ROLE_ORDER) PERMISSIONS.
Definition organization_metadata : jobj :=
  foldl (fun rels p => jset (relation_for (pd_key p)) directly_user rels)
    (foldl (fun rels role => jset role directly_user rels) [] ROLE_ORDER) PERMISSIONS.
Definition _organization_type : json :=
  JObj [("type", JStr "organization"); ("relations", JObj organization_relations);
        ("metadata", JObj [("relations", JObj organization_metadata)])].

Definition _project_type : json :=
  JObj [("type", JStr "project");
        ("relations", JObj
          [("org", _direct);
           ("viewer", _union [_direct; _computed "editor"; _tuple_to_userset "org" (relation_for "project:read")]);
           ("editor", _union [_direct; _tuple_to_userset "org" (relation_for "project:manage")])]);
        ("metadata", JObj [("relations", JObj
          [("org", JObj [("directly_related_user_types", JList [JObj [("type", JStr "organization")]])]);
           ("viewer", directly_user); ("editor", directly_user)])])].

Definition build_model : json :=
  JObj [("schema_version", JStr SCHEMA_VERSION);
        ("type_definitions", JList [_user_type; _organization_type; _project_type])].

(** ** Relationship tuples *)

(** [Tuple] (authorization/fga.py). *)
Record fga_tuple : Type := Tuple { tu_user : string; tu_relation : string; tu_object : string }.

#[export] Instance fga_tuple_eq_dec : EqDecision fga_tuple.
Proof. solve_decision. Defined.

Definition user_object (u : uuid) : string := "user:" +:+ uuid_str u.
Definition org_object (o : uuid) : string := "organization:" +:+ uuid_str o.

Definition desired_tuples (user_id organization_id : uuid) (role_keys permission_keys : list string) :
    list fga_tuple :=
  let org := org_object organization_id in
  let user := user_object user_id in
  let system_roles := filter (fun k => k ∈ ROLE_ORDER) role_keys in
  let covered := mjoin (system_role_permissions <$> system_roles) in
  remove_dups
    (((fun role => Tuple user role org) <$> system_roles) ++
     ((fun perm => Tuple user (relation_for perm) org) <$> filter (fun perm => perm ∉ covered) permission_keys)).

(** [sorted(l, key=lambda t: t.relation)]. *)
Definition by_relation (l : list fga_tuple) : list fga_tuple :=
  merge_sort (fun a b => String.le (tu_relation a) (tu_relation b)) l.

(** The difference [apply_tuple_sync] writes and deletes, given what the store
    holds for the organization and the member's state. *)
Definition tuple_diff (user_id : uuid) (desired stored : list fga_tuple) : list fga_tuple * list fga_tuple :=
  let current := filter (fun t => tu_user t = user_object user_id) stored in
  (by_relation (filter (fun t => t ∉ current) desired), by_relation (filter (fun t => t ∉ desired) current)).

(** ** OpenFGA agrees with the roles

    [model_relation m ty r] is the rewrite of relation [r] of type [ty]. *)
Definition type_relations (ty : string) (td : json) : option jobj :=
  match td with
  | JObj o =>
      match jget "type" o, jget "relations" o with
      | Some (JStr ty'), Some (JObj rels) => if String.eqb ty' ty then Some rels else None
      | _, _ => None
      end
  | _ => None
  end.
Definition model_relation (m : json) (ty r : string) : option json :=
  match m with
  | JObj o =>
      match jget "type_definitions" o with
      | Some (JList tds) => rels ← head (omap (type_relations ty) tds); jget r rels
      | _ => None
      end
  | _ => None
  end.

(** What a check answers on this model, given the stored tuples: [this] is a
    stored tuple, [computedUserset] another relation of the object, [union] any
    child (OpenFGA's documentation of rewrites). *)
Class OpenFga (holds : list fga_tuple -> string -> string -> string -> bool) : Prop := {
  of_direct ts u r o :
    model_relation build_model "organization" r = Some _direct ->
    holds ts u r (org_object o) = true <-> Tuple u r (org_object o) ∈ ts;
  of_union ts u r o rs :
    model_relation build_model "organization" r = Some (_union (_direct :: (_computed <$> rs))) ->
    rs <> [] ->
    holds ts u r (org_object o) = true <->
      Tuple u r (org_object o) ∈ ts \/ exists r', r' ∈ rs /\ holds ts u r' (org_object o) = true
}.

Lemma role_relations : Forall (fun r => model_relation build_model "organization" r = Some _direct) ROLE_ORDER.
Proof. repeat constructor. Qed.
Lemma permission_relations :
  Forall (fun p => model_relation build_model "organization" (relation_for p) = Some (permission_rewrite p))
    PERMISSION_KEYS.
Proof. repeat (apply Forall_cons; split; [vm_compute; reflexivity|]). apply Forall_nil. exact I. Qed.

Lemma relation_for_inj p q :
  p ∈ PERMISSION_KEYS -> q ∈ PERMISSION_KEYS -> relation_for p = relation_for q -> p = q.
Proof.
  intros Hp Hq E.
  assert (Hnd : NoDup (relation_for <$> PERMISSION_KEYS)) by (apply (bool_decide_unpack _); vm_compute; exact I).
  apply list_elem_of_lookup in Hp as [i Hi], Hq as [j Hj].
  assert (i = j) as <-; [|congruence].
  eapply NoDup_lookup; [exact Hnd| |]; rewrite list_lookup_fmap; [by rewrite Hi|rewrite Hj, E; done].
Qed.

Lemma relation_for_not_role p r : r ∈ ROLE_ORDER -> relation_for p <> r.
Proof.
  intros Hr E. unfold relation_for in E. subst r. unfold ROLE_ORDER in Hr.
  repeat (apply elem_of_cons in Hr as [Hr|Hr]; [done|]). by apply not_elem_of_nil in Hr.
Qed.

Section Agreement.
Context (holds : list fga_tuple -> string -> string -> string -> bool) `{!OpenFga holds}.
Context (user_id organization_id : uuid) (role_keys permission_keys : list string).
Let desired := desired_tuples user_id organization_id role_keys permission_keys.
Let u := user_object user_id.
Let o := org_object organization_id.

Lemma elem_of_desired rel :
  Tuple u rel o ∈ desired <->
    (rel ∈ role_keys /\ rel ∈ ROLE_ORDER) \/
    exists q, q ∈ permission_keys /\ rel = relation_for q /\
      forall role, role ∈ role_keys -> role ∈ ROLE_ORDER -> q ∉ system_role_permissions role.
Proof.
  unfold desired, desired_tuples. rewrite elem_of_remove_dups, elem_of_app, !list_elem_of_fmap. split.
  - intros [(r & [= ->] & Hr)|(q & [= ->] & Hq)].
    + left. apply list_elem_of_filter in Hr. tauto.
    + right. exists q. apply list_elem_of_filter in Hq as [Hn Hq]. split_and!; [done..|].
      intros role Hr Ho Hin. apply Hn. apply list_elem_of_join. exists (system_role_permissions role).
      split; [done|]. apply list_elem_of_fmap. exists role. split; [done|]. by apply list_elem_of_filter.
  - intros [[Hr Ho]|(q & Hq & -> & Hn)].
    + left. exists rel. split; [done|]. by apply list_elem_of_filter.
    + right. exists q. split; [done|]. apply list_elem_of_filter. split; [|done].
      intros (l & Hin & Hl)%list_elem_of_join. apply list_elem_of_fmap in Hl as (role & -> & Hr).
      apply list_elem_of_filter in Hr as [Ho Hr]. by apply (Hn role).
Qed.

Lemma holds_role role :
  role ∈ ROLE_ORDER -> holds desired u role o = true <-> role ∈ role_keys.
Proof.
  intros Hr. pose proof (proj1 (Forall_forall _ _) role_relations role Hr) as Hm.
  unfold o. rewrite (of_direct _ _ _ _ Hm). fold o. rewrite elem_of_desired. split; [|by left].
  intros [[? _]|(q & _ & E & _)]; [done|]. by symmetry in E; apply relation_for_not_role in E.
Qed.

(** C19: an OpenFGA check on the tuples a member needs answers what the member's
    permission set says, for every permission of the catalog. *)
Theorem fga_agrees_with_rbac p :
  p ∈ PERMISSION_KEYS ->
  (forall q, q ∈ permission_keys -> q ∈ PERMISSION_KEYS) ->
  (forall role q, role ∈ role_keys -> q ∈ system_role_permissions role -> q ∈ permission_keys) ->
  holds (desired_tuples user_id organization_id role_keys permission_keys)
    (user_object user_id) (relation_for p) (org_object organization_id) = true <-> p ∈ permission_keys.
Proof.
  intros Hp Hkeys Hroles. fold desired u o.
  pose proof (proj1 (Forall_forall _ _) permission_relations p Hp) as Hm.
  assert (Hh : holds desired u (relation_for p) o = true <->
    Tuple u (relation_for p) o ∈ desired \/ exists role, role ∈ roles_holding p /\ role ∈ role_keys).
  { unfold o, permission_rewrite in *. destruct (decide (roles_holding p = [])) as [E|E].
    - rewrite E in Hm. rewrite (of_direct _ _ _ _ Hm), E.
      split; [by left|]. intros [?|(r & Hr & _)]; [done|by apply not_elem_of_nil in Hr].
    - rewrite (of_union _ _ _ _ _ Hm E). split; (intros [?|(r & Hr & Hin)]; [by left|right; exists r; split; [done|]]).
      + apply holds_role; [|done]. by apply list_elem_of_filter in Hr as [_ ?].
      + apply holds_role; [|done]. by apply list_elem_of_filter in Hr as [_ ?]. }
  rewrite Hh, elem_of_desired. split.
  - intros [[[_ Hr]|(q & Hq & E & _)]|(role & Hr & Hin)].
    + by apply relation_for_not_role with (p := p) in Hr.
    + by rewrite (relation_for_inj p q Hp (Hkeys q Hq) E).
    + apply list_elem_of_filter in Hr as [Hr _]. by eapply Hroles.
  - intros Hin. destruct (decide (Exists (fun role => p ∈ system_role_permissions role)
      (filter (fun k => k ∈ ROLE_ORDER) role_keys))) as [He|He].
    + right. apply Exists_exists in He as (role & Hr & Hpr). apply list_elem_of_filter in Hr as [Ho Hr].
      exists role. split; [|done]. by apply list_elem_of_filter.
    + left. right. exists p. split_and!; [done..|]. intros role Hr Ho Hpr. apply He, Exists_exists.
      exists role. split; [|done]. by apply list_elem_of_filter.
Qed.
End Agreement.

(** A dictionary that meets the laws: the rewrites followed one step. *)
Definition rewrite_targets (j : json) : list string :=
  match j with
  | JObj [("union", JObj [("child", JList cs)])] =>
      omap (fun c => match c with
                     | JObj [("computedUserset", JObj [("relation", JStr r)])] => Some r
                     | _ => None
                     end) cs
  | _ => []
  end.
Definition dict_holds (ts : list fga_tuple) (u r obj : string) : bool :=
  bool_decide (Tuple u r obj ∈ ts) ||
  match model_relation build_model "organization" r with
  | Some j => existsb (fun r' => bool_decide (Tuple u r' obj ∈ ts)) (rewrite_targets j)
  | None => false
  end.

Lemma jget_elem k o v : jget k o = Some v -> (k, v) ∈ o.
Proof.
  induction o as [|[k' v'] o IH]; simpl; [done|]. destruct (String.eqb_spec k k') as [->|].
  - intros [= ->]. left.
  - intros H. right. auto.
Qed.

Lemma targets_of_union rs : rs <> [] -> rewrite_targets (_union (_direct :: (_computed <$> rs))) = rs.
Proof.
  intros Hne. destruct rs as [|r rs]; [done|]. clear Hne. simpl. f_equal.
  induction rs as [|r' rs IH]; [done|]. simpl. by f_equal.
Qed.

Lemma targets_are_roles r j :
  model_relation build_model "organization" r = Some j -> Forall (.∈ ROLE_ORDER) (rewrite_targets j).
Proof.
  change (model_relation build_model "organization" r) with (jget r organization_relations). intros H%jget_elem.
  assert (Hall : Forall (fun kv => Forall (.∈ ROLE_ORDER) (rewrite_targets kv.2)) organization_relations)
    by (apply (bool_decide_unpack _); vm_compute; exact I).
  rewrite Forall_forall in Hall. exact (Hall _ H).
Qed.

Lemma existsb_exists {A} (f : A -> bool) l : existsb f l = true <-> exists x, x ∈ l /\ f x = true.
Proof. rewrite List.existsb_exists. by setoid_rewrite list_elem_of_In. Qed.

Lemma dict_holds_direct ts u r obj :
  model_relation build_model "organization" r = Some _direct ->
  dict_holds ts u r obj = true <-> Tuple u r obj ∈ ts.
Proof. intros E. unfold dict_holds. rewrite E. simpl. by rewrite orb_false_r, bool_decide_eq_true. Qed.

#[export] Instance dict_openfga : OpenFga dict_holds.
Proof.
  split.
  - intros ts u r o E. by apply dict_holds_direct.
  - intros ts u r o rs E Hne. unfold dict_holds at 1. rewrite E, targets_of_union by done.
    pose proof (targets_are_roles r _ E) as Hr. rewrite targets_of_union in Hr by done.
    rewrite orb_true_iff, bool_decide_eq_true, existsb_exists. f_equiv.
    split; intros (r' & Hin & H); exists r'; (split; [done|]);
      pose proof (proj1 (Forall_forall _ _) role_relations r' (proj1 (Forall_forall _ _) Hr r' Hin)) as Hd.
    + apply dict_holds_direct; [done|]. by apply bool_decide_eq_true in H.
    + apply bool_decide_eq_true. by apply dict_holds_direct in H.
Qed.

Lemma fga_agrees_with_rbac_witness :
  dict_holds (desired_tuples 7 1 ["billing"; "auditor"] ["org:read"; "billing:read"; "billing:manage"; "usage:read"; "audit:read"])
    (user_object 7) (relation_for "audit:read") (org_object 1) = true.
Proof.
  apply (fga_agrees_with_rbac dict_holds 7 1).
  - apply (bool_decide_unpack _); vm_compute; exact I.
  - apply Forall_forall. apply (bool_decide_unpack _); vm_compute; exact I.
  - intros role q Hr Hq.
    assert (Hall : Forall (fun role => Forall (.∈ ["org:read"; "billing:read"; "billing:manage"; "usage:read"; "audit:read"])
      (system_role_permissions role)) ["billing"; "auditor"]) by (apply (bool_decide_unpack _); vm_compute; exact I).
    rewrite Forall_forall in Hall. specialize (Hall role Hr). rewrite Forall_forall in Hall. by apply Hall.
  - do 4 right. left.
Defined.

(** *** Converging the store *)

Lemma filter_none {A} (P : A -> Prop) `{forall x, Decision (P x)} (l : list A) :
  (forall x, x ∈ l -> ~ P x) -> filter P l = [].
Proof.
  intros Hl. destruct (filter P l) as [|x l'] eqn:E; [done|].
  assert (Hx : x ∈ filter P l) by (rewrite E; left). apply list_elem_of_filter in Hx as [Hp Hx].
  by destruct (Hl x Hx).
Qed.

(** The store after [client.write(writes, deletes)]. *)
Definition written (stored writes deletes : list fga_tuple) : list fga_tuple :=
  filter (fun t => t ∉ deletes) (stored ++ writes).

(** A synchronization leaves the member with exactly the tuples it needs, every
    other member with what it had, and a second one finds nothing to do. *)
Theorem sync_converges user_id organization_id role_keys permission_keys stored : 
  let desired := desired_tuples user_id organization_id role_keys permission_keys in
  let '(writes, deletes) := tuple_diff user_id desired stored in
  let after := written stored writes deletes in
  (forall t, tu_user t = user_object user_id -> t ∈ after <-> t ∈ desired) /\
  (forall t, tu_user t <> user_object user_id -> t ∈ after <-> t ∈ stored) /\
  tuple_diff user_id desired after = ([], []).
Proof.
  intros desired. unfold tuple_diff at 1. set (current := filter _ stored).
  assert (Hu : forall t, t ∈ desired -> tu_user t = user_object user_id).
  { intros t. unfold desired, desired_tuples. rewrite elem_of_remove_dups, elem_of_app, !list_elem_of_fmap.
    by intros [(r & -> & _)|(q & -> & _)]. }
  assert (Hby : forall t l, t ∈ by_relation l <-> t ∈ l) by (intros t l; unfold by_relation; by rewrite merge_sort_Permutation).
  set (after := written _ _ _).
  assert (Hin : forall t, t ∈ after <->
     (t ∈ desired \/ (t ∈ stored /\ tu_user t <> user_object user_id))).
  { intros t. unfold after, written. rewrite list_elem_of_filter, elem_of_app, !Hby.
    unfold current. rewrite !list_elem_of_filter. destruct (decide (t ∈ desired)) as [Hd|Hd]; [|destruct (decide (tu_user t = user_object user_id)); tauto].
    pose proof (Hu t Hd). destruct (decide (t ∈ stored)); tauto. }
  split_and!.
  - intros t Ht. rewrite Hin. tauto.
  - intros t Ht. rewrite Hin. split; [|tauto]. intros [Hd%Hu|[? _]]; [by contradict Ht|done].
  - unfold tuple_diff. rewrite !filter_none; [done|..].
    + intros t [Hut Ht]%list_elem_of_filter Hn. by apply Hin in Ht as [?|[_ ?]].
    + intros t Ht Hn. apply Hn. apply list_elem_of_filter. split; [by apply Hu|]. apply Hin. by left.
Qed.
