(* ===== verification/Errors.v ===== *)
(** The domain error hierarchy and its problem documents (core/errors.py).

    [error_class] has a constructor per class of the hierarchy; [status] and
    [title] are the class attributes, inherited ones resolved.  The human
    readable message is an argument of [to_problem]: the raise sites of the
    other files keep the class and the [extras], which is what the API contract
    and the callers depend on. *)

From Stdlib Require Import Ascii.
From S2P Require Import Prelude Json.

Inductive error_class : Type :=
  | DomainError
  (* Core / context *)
  | TenantContextMissingError | TenantViolationError | TenantNotResolvedError
  (* Identity *)
  | AuthenticationError | InvalidCredentialsError | TokenReuseError
  | EmailAlreadyRegisteredError | WeakPasswordError | UserNotFoundError
  (* Tenancy *)
  | OrganizationNotFoundError | SlugUnavailableError | OrganizationSuspendedError
  | MembershipLimitReachedError | NotAMemberError | InviteNotFoundError | InviteAlreadyUsedError
  (* Authorization *)
  | PermissionDeniedError | RoleNotFoundError | SystemRoleImmutableError
  (* Plans / subscriptions *)
  | PlanNotFoundError | PlanNotPublicError | CatalogInvalidError | BrandingInvalidError
  | SubscriptionNotFoundError | SubscriptionStateError | TrialNotAllowedError
  (* Entitlements *)
  | FeatureNotEntitledError | EntitlementNotFoundError
  (* Usage *)
  | UsageLimitExceededError | UnknownMetricError
  (* Billing *)
  | BillingProviderError | BillingProviderNotConfiguredError | WebhookSignatureInvalidError
  | InvoiceNotFoundError
  (* Feature flags, storage, API keys, webhooks *)
  | FeatureFlagNotFoundError | StorageError | PresignUnsupportedError | UploadIncompleteError
  | ApiKeyNotFoundError | WebhookEndpointNotFoundError | WebhookDeliveryNotFoundError
  (* Misc *)
  | ValidationFailedError | NotFoundError | ConflictError | MethodNotAllowedError | HttpError
  | RateLimitedError | CheckoutConfirmNotAllowedError | CheckoutRequiredError.

#[export] Instance error_class_eq_dec : EqDecision error_class.
Proof. solve_decision. Defined.

(** The base class of each class ([None] for the root). *)
Definition base_class (c : error_class) : option error_class :=
  match c with
  | DomainError => None
  | InvalidCredentialsError | TokenReuseError => Some AuthenticationError
  | _ => Some DomainError
  end.

(** [issubclass(c, d)]: what [except d] catches. *)
Definition is_subclass (c d : error_class) : bool :=
  bool_decide (c = d)
  || match base_class c with
     | Some b => bool_decide (b = d)
                 || match base_class b with Some b' => bool_decide (b' = d) | None => false end
     | None => false
     end.

Definition status (c : error_class) : Z :=
  match c with
  | DomainError => 400
  | TenantContextMissingError => 400
  | TenantViolationError => 403
  | TenantNotResolvedError => 404
  | AuthenticationError | InvalidCredentialsError | TokenReuseError => 401
  | EmailAlreadyRegisteredError => 409
  | WeakPasswordError => 400
  | UserNotFoundError => 404
  | OrganizationNotFoundError => 404
  | SlugUnavailableError => 409
  | OrganizationSuspendedError => 403
  | MembershipLimitReachedError => 402
  | NotAMemberError => 404
  | InviteNotFoundError => 404
  | InviteAlreadyUsedError => 409
  | PermissionDeniedError => 403
  | RoleNotFoundError => 404
  | SystemRoleImmutableError => 409
  | PlanNotFoundError => 404
  | PlanNotPublicError => 404
  | CatalogInvalidError => 400
  | BrandingInvalidError => 400
  | SubscriptionNotFoundError => 404
  | SubscriptionStateError => 409
  | TrialNotAllowedError => 409
  | FeatureNotEntitledError => 403
  | EntitlementNotFoundError => 404
  | UsageLimitExceededError => 402
  | UnknownMetricError => 422
  | BillingProviderError => 502
  | BillingProviderNotConfiguredError => 409
  | WebhookSignatureInvalidError => 400
  | InvoiceNotFoundError => 404
  | FeatureFlagNotFoundError => 404
  | StorageError => 400
  | PresignUnsupportedError => 409
  | UploadIncompleteError => 409
  | ApiKeyNotFoundError => 404
  | WebhookEndpointNotFoundError => 404
  | WebhookDeliveryNotFoundError => 404
  | ValidationFailedError => 422
  | NotFoundError => 404
  | ConflictError => 409
  | MethodNotAllowedError => 405
  | HttpError => 400
  | RateLimitedError => 429
  | CheckoutConfirmNotAllowedError => 409
  | CheckoutRequiredError => 409
  end.

Definition title (c : error_class) : string :=
  match c with
  | DomainError => "domain_error"
  | TenantContextMissingError => "tenant_context_missing"
  | TenantViolationError => "tenant_violation"
  | TenantNotResolvedError => "not_found"
  | AuthenticationError => "unauthorized"
  | InvalidCredentialsError => "invalid_credentials"
  | TokenReuseError => "token_reuse_detected"
  | EmailAlreadyRegisteredError => "email_already_registered"
  | WeakPasswordError => "weak_password"
  | UserNotFoundError => "user_not_found"
  | OrganizationNotFoundError => "not_found"
  | SlugUnavailableError => "slug_unavailable"
  | OrganizationSuspendedError => "organization_suspended"
  | MembershipLimitReachedError => "usage_limit_exceeded"
  | NotAMemberError => "not_found"
  | InviteNotFoundError => "invite_not_found"
  | InviteAlreadyUsedError => "invite_already_used"
  | PermissionDeniedError => "permission_denied"
  | RoleNotFoundError => "role_not_found"
  | SystemRoleImmutableError => "system_role_immutable"
  | PlanNotFoundError => "plan_not_found"
  | PlanNotPublicError => "plan_not_found"
  | CatalogInvalidError => "plan_catalog_invalid"
  | BrandingInvalidError => "branding_invalid"
  | SubscriptionNotFoundError => "subscription_not_found"
  | SubscriptionStateError => "invalid_subscription_transition"
  | TrialNotAllowedError => "trial_not_allowed"
  | FeatureNotEntitledError => "feature_not_entitled"
  | EntitlementNotFoundError => "entitlement_not_found"
  | UsageLimitExceededError => "usage_limit_exceeded"
  | UnknownMetricError => "unknown_metric"
  | BillingProviderError => "billing_provider_error"
  | BillingProviderNotConfiguredError => "billing_provider_not_configured"
  | WebhookSignatureInvalidError => "webhook_signature_invalid"
  | InvoiceNotFoundError => "invoice_not_found"
  | FeatureFlagNotFoundError => "feature_flag_not_found"
  | StorageError => "storage_error"
  | PresignUnsupportedError => "presign_unsupported"
  | UploadIncompleteError => "upload_incomplete"
  | ApiKeyNotFoundError => "api_key_not_found"
  | WebhookEndpointNotFoundError => "webhook_endpoint_not_found"
  | WebhookDeliveryNotFoundError => "webhook_delivery_not_found"
  | ValidationFailedError => "validation_failed"
  | NotFoundError => "not_found"
  | ConflictError => "conflict"
  | MethodNotAllowedError => "method_not_allowed"
  | HttpError => "http_error"
  | RateLimitedError => "rate_limited"
  | CheckoutConfirmNotAllowedError => "checkout_confirm_not_allowed"
  | CheckoutRequiredError => "checkout_required"
  end.

Definition BASE_PROBLEM_URI : string := "https://synapse-saas.dev/problems".

Definition problem_type (c : error_class) : string := BASE_PROBLEM_URI +:+ "/" +:+ title c.

(** [s.replace("_", " ")]. *)
Fixpoint underscores_to_spaces (s : string) : string :=
  match s with
  | EmptyString => EmptyString
  | String c s =>
      String (if Ascii.eqb c "_"%char then " "%char else c) (underscores_to_spaces s)
  end.

(** The members the document always carries. *)
Definition rfc7807_members (c : error_class) (message : string) : jobj :=
  [("type", JStr (problem_type c)); ("title", JStr (underscores_to_spaces (title c)));
   ("status", JInt (status c)); ("detail", JStr message)].

Definition to_problem (c : error_class) (message : string) (extras : jobj)
    (instance request_id : option string) : jobj :=
  let doc := jupdate extras (rfc7807_members c message) in
  let doc := match instance with Some i => jset "instance" (JStr i) doc | None => doc end in
  match request_id with Some r => jset "request_id" (JStr r) doc | None => doc end.

(** ** Properties *)

(** A problem document always reports the class's own HTTP status, problem
    type and title, whatever extension members (including ones named [status],
    [type] or [title]) the error carries. *)
Theorem problem_members_win c message extras instance request_id :
  let doc := to_problem c message extras instance request_id in
  jget "status" doc = Some (JInt (status c)) /\
  jget "type" doc = Some (JStr (problem_type c)) /\
  jget "title" doc = Some (JStr (underscores_to_spaces (title c))) /\
  jget "detail" doc = Some (JStr message).
Proof.
  assert (Hin : forall k v, (k, v) ∈ rfc7807_members c message ->
    k <> "instance" -> k <> "request_id" ->
    jget k (to_problem c message extras instance request_id) = Some v).
  { intros k v Hkv Hi Hr. unfold to_problem.
    assert (Hbase : jget k (jupdate extras (rfc7807_members c message)) = Some v).
    { apply jget_jupdate_in; [|done]. by apply (bool_decide_unpack _); vm_compute. }
    destruct instance, request_id; by rewrite ?jget_jset_ne by done. }
  repeat split; apply Hin; try done; unfold rfc7807_members; set_solver.
Qed.
