(* ===== verification/Events.v ===== *)
(** The event vocabulary and the outbox audience of each event type
    (core/events.py). *)

From S2P Require Import Prelude.

(* Identity *)
Definition USER_REGISTERED : string := "user.registered".
Definition USER_LOGIN_SUCCEEDED : string := "user.login_succeeded".
Definition USER_LOGIN_FAILED : string := "user.login_failed".
Definition USER_TOKEN_REFRESHED : string := "user.token_refreshed".
Definition USER_TOKEN_REUSE_DETECTED : string := "user.token_reuse_detected".
Definition USER_LOGGED_OUT : string := "user.logged_out".
Definition USER_PASSWORD_RESET_REQUESTED : string := "user.password_reset_requested".
Definition USER_PASSWORD_RESET_COMPLETED : string := "user.password_reset_completed".
(* Tenancy *)
Definition ORG_CREATED : string := "org.created".
Definition ORG_UPDATED : string := "org.updated".
Definition ORG_SUSPENDED : string := "org.suspended".
Definition ORG_UNSUSPENDED : string := "org.unsuspended".
Definition MEMBER_INVITED : string := "member.invited".
Definition MEMBER_JOINED : string := "member.joined".
Definition MEMBER_UPDATED : string := "member.updated".
Definition MEMBER_REMOVED : string := "member.removed".
(* Subscriptions, entitlements, billing *)
Definition SUBSCRIPTION_TRIAL_STARTED : string := "subscription.trial_started".
Definition SUBSCRIPTION_ACTIVATED : string := "subscription.activated".
Definition SUBSCRIPTION_UPDATED : string := "subscription.updated".
Definition SUBSCRIPTION_PLAN_CHANGED : string := "subscription.plan_changed".
Definition SUBSCRIPTION_CANCELED : string := "subscription.canceled".
Definition SUBSCRIPTION_RESUMED : string := "subscription.resumed".
Definition ENTITLEMENT_GRANTED : string := "entitlement.granted".
Definition ENTITLEMENT_REVOKED : string := "entitlement.revoked".
Definition ENTITLEMENT_EXPIRED : string := "entitlement.expired".
Definition INVOICE_CREATED : string := "invoice.created".
Definition INVOICE_PAID : string := "invoice.paid".
(* Usage *)
Definition USAGE_SOFT_LIMIT_REACHED : string := "usage.soft_limit_reached".
Definition USAGE_HARD_LIMIT_REACHED : string := "usage.hard_limit_reached".
(* Webhooks *)
Definition WEBHOOK_ENDPOINT_CREATED : string := "webhook.endpoint_created".
Definition WEBHOOK_ENDPOINT_DELETED : string := "webhook.endpoint_deleted".
(* Internal: consumed in-process, never sent to tenant webhooks *)
Definition MEMBER_INVITE_EMAIL : string := "member.invite_email".
Definition USER_PASSWORD_RESET_LINK : string := "user.password_reset_link".
Definition INVOICE_EMAIL : string := "invoice.email".
Definition AUTHZ_TUPLES_CHANGED : string := "authz.tuples_changed".

Definition INTERNAL_EVENTS : list string :=
  [MEMBER_INVITE_EMAIL; USER_PASSWORD_RESET_LINK; INVOICE_EMAIL; AUTHZ_TUPLES_CHANGED].

Definition AUDIENCE_PUBLIC : string := "public".
Definition AUDIENCE_INTERNAL : string := "internal".

Definition audience_for (event_type : string) : string :=
  if bool_decide (event_type ∈ INTERNAL_EVENTS) then AUDIENCE_INTERNAL else AUDIENCE_PUBLIC.
