(* ===== verification/Tables.v ===== *)
(** The tables: one record per mapped class and the database as a family of
    finite maps from primary keys to rows.

    Field names are the column names behind a table prefix.  Columns no modelled
    operation reads or decides on (JSONB [metadata] and [provider_refs],
    [updated_at], [created_at] where nothing sorts or filters on it) are left
    out.  A row does not repeat its primary key. *)

From S2P Require Import Prelude Json.

(** ** Record update

    [r <| f := v |>] is [r] with field [f] set to [v].  A record registers how
    it is rebuilt from its fields with an [Eta] instance. *)
Class Eta (R : Type) := eta : R -> R.

Class Setter {R T : Type} (proj : R -> T) := upd : (T -> T) -> R -> R.
Arguments upd {_ _} _ {_} _ _.

Ltac derive_setter :=
  lazymatch goal with
  | |- @Setter ?R ?T ?proj =>
      let e := constr:(_ : Eta R) in
      let body := eval hnf in e in
      lazymatch eval pattern proj in body with
      | ?rebuild _ => exact (fun (f : T -> T) (r : R) => rebuild (fun r' : R => f (proj r')) r)
      end
  end.

#[export] Hint Extern 1 (@Setter _ _ _) => derive_setter : typeclass_instances.

Set Warnings "-postfix-notation-not-level-1".
Notation "r '<|' f := v '|>'" := (upd f (fun _ => v) r)
  (at level 12, left associativity, f constr at level 10, v at level 200).

(** ** Rows *)

(** [Plan] (subscriptions/models.py). *)
Record plan : Type := Plan {
  p_key : string;
  p_name : string;
  p_description : option string;
  p_price_cents : option Z;
  p_currency : string;
  p_interval : option string;
  p_is_public : bool;
  p_is_custom : bool;
  p_trial_days : Z;
  p_sort_order : Z;
  p_archived_at : option instant
}.

#[export] Instance plan_eta : Eta plan := fun r =>
  Plan (p_key r) (p_name r) (p_description r) (p_price_cents r) (p_currency r) (p_interval
    r) (p_is_public r) (p_is_custom r) (p_trial_days r) (p_sort_order r) (p_archived_at r).

(** [PlanFeature]; its key is (plan id, feature key). *)
Record plan_feature : Type := PlanFeature {
  pf_enabled : bool
}.

#[export] Instance plan_feature_eta : Eta plan_feature := fun r =>
  PlanFeature (pf_enabled r).

(** [PlanLimit]; its key is (plan id, metric). [soft_limit_ratio] is [Numeric(5, 2)], kept in hundredths. *)
Record plan_limit : Type := PlanLimit {
  pl_limit_value : option Z;
  pl_soft_limit_ratio : option Z;
  pl_overage_unit : option Z;
  pl_overage_price_cents : option Z
}.

#[export] Instance plan_limit_eta : Eta plan_limit := fun r =>
  PlanLimit (pl_limit_value r) (pl_soft_limit_ratio r) (pl_overage_unit r)
    (pl_overage_price_cents r).

(** [Metric]; its key is the metric key. *)
Record metric : Type := Metric {
  m_name : string;
  m_kind : string;
  m_unit : option string;
  m_overage_unit : option Z;
  m_overage_price_cents : option Z
}.

#[export] Instance metric_eta : Eta metric := fun r =>
  Metric (m_name r) (m_kind r) (m_unit r) (m_overage_unit r) (m_overage_price_cents r).

(** The frozen purchase terms of a subscription ([Subscription.plan_snapshot], written by [_snapshot] only; [{}] is [empty_snapshot]). *)
Record snapshot : Type := Snapshot {
  sn_key : option string;
  sn_name : option string;
  sn_price_cents : option Z;
  sn_currency : option string;
  sn_interval : option string;
  sn_features : list string;
  sn_limits : list (string * option Z);
  sn_overage : list (string * (Z * Z))
}.

#[export] Instance snapshot_eta : Eta snapshot := fun r =>
  Snapshot (sn_key r) (sn_name r) (sn_price_cents r) (sn_currency r) (sn_interval r)
    (sn_features r) (sn_limits r) (sn_overage r).

(** An entry of [Subscription.pending_adjustments]; the plan-change fields are absent in a carried credit. *)
Record adjustment : Type := Adjustment {
  adj_kind : string;
  adj_amount_cents : Z;
  adj_description : string;
  adj_plans : option ((string * string) * (Z * Z));
  adj_created_at : instant
}.

#[export] Instance adjustment_eta : Eta adjustment := fun r =>
  Adjustment (adj_kind r) (adj_amount_cents r) (adj_description r) (adj_plans r)
    (adj_created_at r).

(** [Subscription]. *)
Record subscription : Type := Subscription {
  s_organization_id : uuid;
  s_plan_id : uuid;
  s_status : string;
  s_current_period_start : instant;
  s_current_period_end : instant;
  s_trial_ends_at : option instant;
  s_cancel_at_period_end : bool;
  s_canceled_at : option instant;
  s_provider : option string;
  s_provider_subscription_id : option string;
  s_billing_customer_id : option uuid;
  s_plan_snapshot : snapshot;
  s_pending_adjustments : list adjustment;
  s_created_at : instant
}.

#[export] Instance subscription_eta : Eta subscription := fun r =>
  Subscription (s_organization_id r) (s_plan_id r) (s_status r) (s_current_period_start r)
    (s_current_period_end r) (s_trial_ends_at r) (s_cancel_at_period_end r) (s_canceled_at
    r) (s_provider r) (s_provider_subscription_id r) (s_billing_customer_id r)
    (s_plan_snapshot r) (s_pending_adjustments r) (s_created_at r).

(** [Entitlement] (entitlements/models.py). *)
Record entitlement : Type := Entitlement {
  e_organization_id : uuid;
  e_feature_key : string;
  e_source : string;
  e_enabled : bool;
  e_starts_at : instant;
  e_ends_at : option instant;
  e_note : option string;
  e_limit_value : option Z;
  e_created_by_user_id : option uuid;
  e_revoked_at : option instant
}.

#[export] Instance entitlement_eta : Eta entitlement := fun r =>
  Entitlement (e_organization_id r) (e_feature_key r) (e_source r) (e_enabled r)
    (e_starts_at r) (e_ends_at r) (e_note r) (e_limit_value r) (e_created_by_user_id r)
    (e_revoked_at r).

(** A row of [usage_events] (usage/models.py). *)
Record usage_event : Type := UsageEvent {
  ue_organization_id : uuid;
  ue_metric : string;
  ue_quantity : Z;
  ue_occurred_at : instant;
  ue_idempotency_key : option string;
  ue_properties : jobj
}.

#[export] Instance usage_event_eta : Eta usage_event := fun r =>
  UsageEvent (ue_organization_id r) (ue_metric r) (ue_quantity r) (ue_occurred_at r)
    (ue_idempotency_key r) (ue_properties r).

(** [UsageCounter]; its key is (organization, metric, period start). *)
Record usage_counter : Type := UsageCounter {
  uc_quantity_total : Z;
  uc_soft_limit_notified_at : option instant;
  uc_last_event_at : option instant
}.

#[export] Instance usage_counter_eta : Eta usage_counter := fun r =>
  UsageCounter (uc_quantity_total r) (uc_soft_limit_notified_at r) (uc_last_event_at r).

(** [UsageIdempotencyKey]; its key is (organization, idempotency key). *)
Record usage_idempotency_key : Type := UsageIdempotencyKey {
  ik_metric : string;
  ik_quantity : Z;
  ik_total_after : option Z;
  ik_event_id : option uuid;
  ik_created_at : instant
}.

#[export] Instance usage_idempotency_key_eta : Eta usage_idempotency_key := fun r =>
  UsageIdempotencyKey (ik_metric r) (ik_quantity r) (ik_total_after r) (ik_event_id r)
    (ik_created_at r).

(** [BillingCustomer] (billing/models.py). *)
Record billing_customer : Type := BillingCustomer {
  bc_organization_id : uuid;
  bc_provider : string;
  bc_provider_customer_id : option string;
  bc_email : option string;
  bc_name : option string;
  bc_currency : option string
}.

#[export] Instance billing_customer_eta : Eta billing_customer := fun r =>
  BillingCustomer (bc_organization_id r) (bc_provider r) (bc_provider_customer_id r)
    (bc_email r) (bc_name r) (bc_currency r).

(** [Invoice]. *)
Record invoice : Type := Invoice {
  i_organization_id : uuid;
  i_billing_customer_id : option uuid;
  i_provider : option string;
  i_provider_invoice_id : option string;
  i_number : option string;
  i_currency : string;
  i_subtotal_cents : Z;
  i_tax_cents : Z;
  i_total_cents : Z;
  i_status : string;
  i_period_start : option instant;
  i_period_end : option instant;
  i_hosted_url : option string;
  i_issued_at : option instant;
  i_paid_at : option instant;
  i_created_at : instant
}.

#[export] Instance invoice_eta : Eta invoice := fun r =>
  Invoice (i_organization_id r) (i_billing_customer_id r) (i_provider r)
    (i_provider_invoice_id r) (i_number r) (i_currency r) (i_subtotal_cents r) (i_tax_cents
    r) (i_total_cents r) (i_status r) (i_period_start r) (i_period_end r) (i_hosted_url r)
    (i_issued_at r) (i_paid_at r) (i_created_at r).

(** [InvoiceLine] (billing/invoicing.py). *)
Record invoice_line : Type := InvoiceLine {
  il_invoice_id : uuid;
  il_organization_id : uuid;
  il_kind : string;
  il_description : string;
  il_quantity : Z;
  il_unit_amount_cents : Z;
  il_amount_cents : Z;
  il_metric : option string;
  il_properties : jobj
}.

#[export] Instance invoice_line_eta : Eta invoice_line := fun r =>
  InvoiceLine (il_invoice_id r) (il_organization_id r) (il_kind r) (il_description r)
    (il_quantity r) (il_unit_amount_cents r) (il_amount_cents r) (il_metric r)
    (il_properties r).

(** [AuditLog] (audit/models.py). *)
Record audit_log : Type := AuditLog {
  al_organization_id : option uuid;
  al_actor_user_id : option uuid;
  al_actor_type : string;
  al_event_type : string;
  al_target_type : option string;
  al_target_id : option uuid;
  al_diff : option jobj;
  al_request_id : option string;
  al_created_at : instant
}.

#[export] Instance audit_log_eta : Eta audit_log := fun r =>
  AuditLog (al_organization_id r) (al_actor_user_id r) (al_actor_type r) (al_event_type r)
    (al_target_type r) (al_target_id r) (al_diff r) (al_request_id r) (al_created_at r).

(** [OutboxEvent]. *)
Record outbox_event : Type := OutboxEvent {
  ob_aggregate_type : string;
  ob_aggregate_id : uuid;
  ob_organization_id : option uuid;
  ob_event_type : string;
  ob_payload : jobj;
  ob_created_at : instant;
  ob_published_at : option instant;
  ob_audience : string;
  ob_dead_at : option instant;
  ob_attempts : Z;
  ob_next_attempt_at : instant;
  ob_last_error : option string
}.

#[export] Instance outbox_event_eta : Eta outbox_event := fun r =>
  OutboxEvent (ob_aggregate_type r) (ob_aggregate_id r) (ob_organization_id r)
    (ob_event_type r) (ob_payload r) (ob_created_at r) (ob_published_at r) (ob_audience r)
    (ob_dead_at r) (ob_attempts r) (ob_next_attempt_at r) (ob_last_error r).

(** [ProviderWebhookEvent]. *)
Record provider_webhook_event : Type := ProviderWebhookEvent {
  pe_provider : string;
  pe_provider_event_id : string;
  pe_event_type : option string;
  pe_received_at : instant;
  pe_processed_at : option instant;
  pe_error : option string
}.

#[export] Instance provider_webhook_event_eta : Eta provider_webhook_event := fun r =>
  ProviderWebhookEvent (pe_provider r) (pe_provider_event_id r) (pe_event_type r)
    (pe_received_at r) (pe_processed_at r) (pe_error r).

(** [Organization] (tenancy/models.py). *)
Record organization : Type := Organization {
  o_slug : string;
  o_name : string;
  o_status : string;
  o_owner_user_id : option uuid;
  o_settings : jobj;
  o_deleted_at : option instant
}.

#[export] Instance organization_eta : Eta organization := fun r =>
  Organization (o_slug r) (o_name r) (o_status r) (o_owner_user_id r) (o_settings r)
    (o_deleted_at r).

(** [User] (identity/models.py). *)
Record user : Type := User {
  u_email : string;
  u_password_hash : option string;
  u_display_name : string;
  u_is_platform_admin : bool;
  u_is_active : bool;
  u_last_login_at : option instant;
  u_identity_provider : string;
  u_provider_subject : option string;
  u_preferences : jobj
}.

#[export] Instance user_eta : Eta user := fun r =>
  User (u_email r) (u_password_hash r) (u_display_name r) (u_is_platform_admin r)
    (u_is_active r) (u_last_login_at r) (u_identity_provider r) (u_provider_subject r)
    (u_preferences r).

(** [WebhookEndpoint] (webhooks/models.py). *)
Record webhook_endpoint : Type := WebhookEndpoint {
  we_organization_id : uuid;
  we_url : string;
  we_secret_encrypted : string;
  we_description : option string;
  we_events : list string;
  we_is_active : bool;
  we_created_at : instant
}.

#[export] Instance webhook_endpoint_eta : Eta webhook_endpoint := fun r =>
  WebhookEndpoint (we_organization_id r) (we_url r) (we_secret_encrypted r)
    (we_description r) (we_events r) (we_is_active r) (we_created_at r).

(** [WebhookDelivery]. *)
Record webhook_delivery : Type := WebhookDelivery {
  wd_endpoint_id : uuid;
  wd_organization_id : uuid;
  wd_outbox_event_id : option uuid;
  wd_event_type : string;
  wd_payload : jobj;
  wd_status : string;
  wd_attempts : Z;
  wd_max_attempts : Z;
  wd_next_attempt_at : instant;
  wd_last_response_code : option Z;
  wd_last_error : option string;
  wd_response_excerpt : option string;
  wd_delivered_at : option instant;
  wd_created_at : instant
}.

#[export] Instance webhook_delivery_eta : Eta webhook_delivery := fun r =>
  WebhookDelivery (wd_endpoint_id r) (wd_organization_id r) (wd_outbox_event_id r)
    (wd_event_type r) (wd_payload r) (wd_status r) (wd_attempts r) (wd_max_attempts r)
    (wd_next_attempt_at r) (wd_last_response_code r) (wd_last_error r) (wd_response_excerpt
    r) (wd_delivered_at r) (wd_created_at r).

(** [FeatureFlag] (feature_flags/models.py). *)
Record feature_flag : Type := FeatureFlag {
  ff_key : string;
  ff_name : string;
  ff_description : option string;
  ff_enabled : bool;
  ff_rollout_percentage : option Z;
  ff_archived_at : option instant
}.

#[export] Instance feature_flag_eta : Eta feature_flag := fun r =>
  FeatureFlag (ff_key r) (ff_name r) (ff_description r) (ff_enabled r)
    (ff_rollout_percentage r) (ff_archived_at r).

(** [FeatureFlagOverride]. *)
Record feature_flag_override : Type := FeatureFlagOverride {
  fo_flag_key : string;
  fo_organization_id : option uuid;
  fo_user_id : option uuid;
  fo_enabled : bool;
  fo_note : option string;
  fo_created_at : instant
}.

#[export] Instance feature_flag_override_eta : Eta feature_flag_override := fun r =>
  FeatureFlagOverride (fo_flag_key r) (fo_organization_id r) (fo_user_id r) (fo_enabled r)
    (fo_note r) (fo_created_at r).

(** [Membership] (tenancy/models.py). *)
Record membership : Type := Membership {
  mb_organization_id : uuid;
  mb_user_id : option uuid;
  mb_invited_email : option string;
  mb_invite_token_hash : option string;
  mb_status : string;
  mb_joined_at : option instant;
  mb_permission_keys : list string;
  mb_created_at : instant
}.

#[export] Instance membership_eta : Eta membership := fun r =>
  Membership (mb_organization_id r) (mb_user_id r) (mb_invited_email r)
    (mb_invite_token_hash r) (mb_status r) (mb_joined_at r) (mb_permission_keys r)
    (mb_created_at r).

(** [AuthorizationRole] (authorization/models.py). *)
Record authorization_role : Type := AuthorizationRole {
  ro_organization_id : option uuid;
  ro_key : string;
  ro_name : string;
  ro_description : option string;
  ro_is_system : bool
}.

#[export] Instance authorization_role_eta : Eta authorization_role := fun r =>
  AuthorizationRole (ro_organization_id r) (ro_key r) (ro_name r) (ro_description r)
    (ro_is_system r).

(** [Permission]. *)
Record permission : Type := Permission {
  pm_key : string;
  pm_resource : string;
  pm_action : string;
  pm_description : option string
}.

#[export] Instance permission_eta : Eta permission := fun r =>
  Permission (pm_key r) (pm_resource r) (pm_action r) (pm_description r).

(** [RefreshToken] (identity/models.py). *)
Record refresh_token : Type := RefreshToken {
  rt_user_id : uuid;
  rt_token_hash : string;
  rt_organization_id : option uuid;
  rt_expires_at : instant;
  rt_revoked_at : option instant;
  rt_replaced_by_token_id : option uuid;
  rt_user_agent : option string;
  rt_ip : option string;
  rt_created_at : instant
}.

#[export] Instance refresh_token_eta : Eta refresh_token := fun r =>
  RefreshToken (rt_user_id r) (rt_token_hash r) (rt_organization_id r) (rt_expires_at r)
    (rt_revoked_at r) (rt_replaced_by_token_id r) (rt_user_agent r) (rt_ip r) (rt_created_at
    r).

(** [PasswordResetToken]. *)
Record password_reset_token : Type := PasswordResetToken {
  pr_user_id : uuid;
  pr_token_hash : string;
  pr_expires_at : instant;
  pr_used_at : option instant;
  pr_created_at : instant
}.

#[export] Instance password_reset_token_eta : Eta password_reset_token := fun r =>
  PasswordResetToken (pr_user_id r) (pr_token_hash r) (pr_expires_at r) (pr_used_at r)
    (pr_created_at r).

(** [ApiKey] (api_keys/models.py). *)
Record api_key : Type := ApiKey {
  ak_organization_id : uuid;
  ak_name : string;
  ak_prefix : string;
  ak_key_hash : string;
  ak_scopes : list string;
  ak_expires_at : option instant;
  ak_last_used_at : option instant;
  ak_revoked_at : option instant;
  ak_created_by_user_id : option uuid;
  ak_created_at : instant
}.

#[export] Instance api_key_eta : Eta api_key := fun r =>
  ApiKey (ak_organization_id r) (ak_name r) (ak_prefix r) (ak_key_hash r) (ak_scopes r)
    (ak_expires_at r) (ak_last_used_at r) (ak_revoked_at r) (ak_created_by_user_id r)
    (ak_created_at r).

(** [StoredFile] (storage/models.py). *)
Record stored_file : Type := StoredFile {
  sf_organization_id : uuid;
  sf_key : string;
  sf_name : string;
  sf_content_type : string;
  sf_size_bytes : Z;
  sf_status : string;
  sf_deleted_at : option instant;
  sf_created_by_user_id : option uuid;
  sf_created_at : instant
}.

#[export] Instance stored_file_eta : Eta stored_file := fun r =>
  StoredFile (sf_organization_id r) (sf_key r) (sf_name r) (sf_content_type r)
    (sf_size_bytes r) (sf_status r) (sf_deleted_at r) (sf_created_by_user_id r)
    (sf_created_at r).

(** [Agent] (agents/models.py). *)
Record agent : Type := Agent {
  ag_organization_id : uuid;
  ag_slug : string;
  ag_name : string;
  ag_description : option string;
  ag_status : string;
  ag_config : jobj;
  ag_deleted_at : option instant;
  ag_created_at : instant
}.

#[export] Instance agent_eta : Eta agent := fun r =>
  Agent (ag_organization_id r) (ag_slug r) (ag_name r) (ag_description r) (ag_status r)
    (ag_config r) (ag_deleted_at r) (ag_created_at r).

(** [Feature]; its key is the feature key. *)
Record feature : Type := Feature {
  ft_name : string;
  ft_category : option string
}.

#[export] Instance feature_eta : Eta feature := fun r => Feature (ft_name r) (ft_category r).

Definition empty_snapshot : snapshot := Snapshot None None None None None [] [] [].

(** ** The database *)

Inductive table : Type :=
  | Tplans
  | Tplan_features
  | Tplan_limits
  | Tmetrics
  | Tsubscriptions
  | Tentitlements
  | Tusage_events
  | Tusage_counters
  | Tusage_idempotency_keys
  | Tbilling_customers
  | Tinvoices
  | Tinvoice_lines
  | Taudit_logs
  | Toutbox_events
  | Tprovider_webhook_events
  | Torganizations
  | Tusers
  | Twebhook_endpoints
  | Twebhook_deliveries
  | Tfeature_flags
  | Tfeature_flag_overrides
  | Tmemberships
  | Troles
  | Tpermissions
  | Trole_permissions
  | Tmembership_roles
  | Trefresh_tokens
  | Tpassword_reset_tokens
  | Tapi_keys
  | Tstored_files
  | Tagents
  | Tfeatures.

#[export] Instance table_eq_dec : EqDecision table.
Proof. solve_decision. Defined.

(** Primary keys and rows of each table. *)
Definition key (t : table) : Type :=
  match t with
  | Tplan_features => (uuid * string)
  | Tplan_limits => (uuid * string)
  | Tmetrics => string
  | Tfeatures => string
  | Tusage_counters => (uuid * string * date)
  | Tusage_idempotency_keys => (uuid * string)
  | Trole_permissions => (uuid * uuid)
  | Tmembership_roles => (uuid * uuid)
  | _ => uuid
  end.

Definition row (t : table) : Type :=
  match t with
  | Tplans => plan
  | Tplan_features => plan_feature
  | Tplan_limits => plan_limit
  | Tmetrics => metric
  | Tsubscriptions => subscription
  | Tentitlements => entitlement
  | Tusage_events => usage_event
  | Tusage_counters => usage_counter
  | Tusage_idempotency_keys => usage_idempotency_key
  | Tbilling_customers => billing_customer
  | Tinvoices => invoice
  | Tinvoice_lines => invoice_line
  | Taudit_logs => audit_log
  | Toutbox_events => outbox_event
  | Tprovider_webhook_events => provider_webhook_event
  | Torganizations => organization
  | Tusers => user
  | Twebhook_endpoints => webhook_endpoint
  | Twebhook_deliveries => webhook_delivery
  | Tfeature_flags => feature_flag
  | Tfeature_flag_overrides => feature_flag_override
  | Tmemberships => membership
  | Troles => authorization_role
  | Tpermissions => permission
  | Trole_permissions => unit
  | Tmembership_roles => unit
  | Trefresh_tokens => refresh_token
  | Tpassword_reset_tokens => password_reset_token
  | Tapi_keys => api_key
  | Tstored_files => stored_file
  | Tagents => agent
  | Tfeatures => feature
  end.

#[export] Instance key_eq_dec t : EqDecision (key t).
Proof. destruct t; simpl; apply _. Defined.
#[export] Instance key_countable t : Countable (key t).
Proof. destruct t; simpl; apply _. Defined.
#[export] Typeclasses Opaque key row.

(** Lookup and insertion in a table, also when the key or the row is written at
    its concrete type. *)
#[export] Hint Extern 0 (Lookup _ _ (gmap (key ?t) (row ?t))) =>
  exact (@gmap_lookup (key t) _ _ (row t)) : typeclass_instances.
#[export] Hint Extern 0 (Insert _ _ (gmap (key ?t) (row ?t))) =>
  exact (@map_insert (key t) (row t) (gmap (key t) (row t)) _) : typeclass_instances.

#[export] Hint Extern 0 (Delete _ (gmap (key ?t) (row ?t))) =>
  exact (@map_delete (key t) (row t) (gmap (key t) (row t)) _) : typeclass_instances.

#[export] Hint Extern 0 (Decision (@eq (key ?t) ?x ?y)) =>
  exact (key_eq_dec t x y) : typeclass_instances.

(** The rows of a table by primary key. *)
Abbreviation rows t := (gmap (key t) (row t)) (only parsing).

Definition db : Type := forall t : table, gmap (key t) (row t).

Definition empty_db : db := fun _ => ∅.

(** Every row of a table satisfies [P]. *)
Definition Forall_rows (t : table) (P : key t -> row t -> Prop) (m : rows t) : Prop :=
  map_Forall P m.

#[export] Instance Forall_rows_dec t P m :
  (forall k r, Decision (P k r)) -> Decision (Forall_rows t P m).
Proof. intros. unfold Forall_rows. apply _. Defined.

(** Replacing one table. *)
Definition set_table (d : db) (t : table) (m : gmap (key t) (row t)) : db := fun t' =>
  match decide (t = t') with
  | left e => eq_rect t (fun t => gmap (key t) (row t)) m t' e
  | right _ => d t'
  end.

Lemma set_table_eq d t m : set_table d t m t = m.
Proof.
  unfold set_table. destruct (decide (t = t)) as [e|]; [|done].
  by rewrite (proof_irrel e eq_refl).
Qed.

Lemma set_table_ne d t t' m : t <> t' -> set_table d t m t' = d t'.
Proof. intros. unfold set_table. by destruct (decide (t = t')). Qed.

(** Two lookups of one row agree, also when their types are written differently. *)
Ltac same_row :=
  match goal with
  | H1 : lookup _ _ = Some ?a, H2 : lookup _ _ = Some ?b |- _ =>
      assert_fails (constr_eq a b);
      let E := fresh in
      assert (E : Some a = Some b) by (etrans; [symmetry; exact H1|exact H2]);
      apply (inj Some) in E; simplify_eq
  end.

(** A row cannot be both there and not there. *)
Ltac same_absent :=
  match goal with
  | H1 : lookup _ _ = Some ?a, H2 : lookup _ _ = None |- _ =>
      let E := fresh in
      assert (E : Some a = None) by (etrans; [symmetry; exact H1|exact H2]);
      discriminate E
  end.

Lemma lookup_fresh_ne (t : table) (m : gmap (key t) (row t)) i j r :
  m !! i = Some r -> m !! j = None -> j <> i.
Proof. congruence. Qed.

Lemma lookup_put (t : table) (m : gmap (key t) (row t)) i j r r' :
  <[i := r]> m !! j = Some r' -> (i = j /\ r = r') \/ (i <> j /\ m !! j = Some r').
Proof. apply lookup_insert_Some. Qed.
Lemma put_same (t : table) (m : gmap (key t) (row t)) i r : <[i := r]> m !! i = Some r.
Proof. apply lookup_insert_eq. Qed.
Lemma put_other (t : table) (m : gmap (key t) (row t)) i j r x :
  i <> j -> m !! j = x -> <[i := r]> m !! j = x.
Proof. intros. by rewrite lookup_insert_ne. Qed.

Lemma delete_other (t : table) (m : gmap (key t) (row t)) i j : m !! j = None -> delete i m !! j = None.
Proof. intros. apply lookup_delete_None. by right. Qed.

Lemma delete_there (t : table) (m : gmap (key t) (row t)) i j r :
  delete i m !! j = Some r <-> i <> j /\ m !! j = Some r.
Proof. apply lookup_delete_Some. Qed.

Lemma put_back (t : table) (m : gmap (key t) (row t)) i r r0 :
  m !! i = Some r0 -> <[i := r0]> (<[i := r]> m) = m.
Proof. intros. by rewrite insert_insert_eq, insert_id. Qed.
Lemma put_twice (t : table) (m : gmap (key t) (row t)) i r r' :
  <[i := r']> (<[i := r]> m) = <[i := r']> m.
Proof. apply insert_insert_eq. Qed.

Lemma put_id (t : table) (m : gmap (key t) (row t)) i r : m !! i = Some r -> <[i := r]> m = m.
Proof. intros. by apply insert_id. Qed.

(** Rewriting with a lookup whose key or row type is written differently. *)
Ltac rewrite_row H :=
  match type of H with
  | ?l = _ =>
      match goal with
      | |- context [@lookup ?K ?A ?M ?I ?k ?m] => change (@lookup K A M I k m) with l; rewrite H
      end
  end.
