(* ===== verification/Ddl.v ===== *)
(** The statements the migrations issue (migrations/versions/), and what the catalogue
    of the database says after each: tables, constraints, indexes, policies.

    A migration is a list of statements ([Migrations]); [op.create_table] and
    [sa.Column] expand to them by [create_table].  [effect] is the part of PostgreSQL's
    documented behaviour the migrations rely on, of a database without rows: a
    statement is refused ([None]) when a name is taken or missing, a foreign key has no
    key to refer to, or something else depends on what it drops.  The migrations are
    run on any [Database] that behaves so. *)

From S2P Require Import Prelude Json Events Tables.

(** ** Statements *)

Inductive column_type : Type :=
  | Uuid
  | Varchar (length : N)
  | Text
  | Citext
  | Integer
  | BigInteger
  | Numeric (precision scale : N)
  | Boolean
  | DateTime (timezone : bool)
  | Date
  | Jsonb
  | TextArray
  | LargeBinary.
#[export] Instance column_type_eq_dec : EqDecision column_type.
Proof. solve_decision. Defined.

Record column : Type := Column {
  c_name : string;
  c_type : column_type;
  c_nullable : bool;
  c_default : option string
}.
#[export] Instance column_eq_dec : EqDecision column.
Proof. solve_decision. Defined.

Inductive ondelete : Type := NoAction | Cascade | SetNull.
#[export] Instance ondelete_eq_dec : EqDecision ondelete.
Proof. solve_decision. Defined.

(** The conditions of CHECK constraints. *)
Inductive check : Type :=
  | OneOf (c : string) (values : list string)
  | AnyNotNull (cs : list string)
  | NullOrBetween (c : string) (lo hi : Z).
#[export] Instance check_eq_dec : EqDecision check.
Proof. solve_decision. Defined.

Definition check_columns (k : check) : list string :=
  match k with OneOf c _ => [c] | AnyNotNull cs => cs | NullOrBetween c _ _ => [c] end.

Inductive constraint : Type :=
  | PrimaryKey (name : string) (cols : list string)
  | Unique (name : string) (cols : list string)
  | ForeignKey (name : string) (cols : list string) (target : string) (target_cols : list string) (on_delete : ondelete)
  | CheckThat (name : string) (k : check).
#[export] Instance constraint_eq_dec : EqDecision constraint.
Proof. solve_decision. Defined.

Definition con_name (k : constraint) : string :=
  match k with PrimaryKey n _ | Unique n _ | ForeignKey n _ _ _ _ | CheckThat n _ => n end.
Definition con_columns (k : constraint) : list string :=
  match k with PrimaryKey _ cs | Unique _ cs | ForeignKey _ cs _ _ _ => cs | CheckThat _ k => check_columns k end.

(** [ix_owned]: the index of a primary key or a unique constraint. *)
Record index : Type := Index {
  ix_name : string;
  ix_table : string;
  ix_columns : list string;
  ix_unique : bool;
  ix_using : string;
  ix_where : option string;
  ix_owned : bool
}.
#[export] Instance index_eq_dec : EqDecision index.
Proof. solve_decision. Defined.

(** The alternatives of a policy: [organization_id] equals the variable of the tenant
    (as 0004 and as 0013 read it), the platform variable is on, [organization_id] is
    NULL, [user_id] equals the variable of the user. *)
Inductive clause : Type := ByTenantSetting | ByTenant | ByPlatform | ByNullOrg | ByUser.
#[export] Instance clause_eq_dec : EqDecision clause.
Proof. solve_decision. Defined.

Definition clause_columns (k : clause) : list string :=
  match k with ByTenantSetting | ByTenant | ByNullOrg => ["organization_id"] | ByPlatform => [] | ByUser => ["user_id"] end.

(** A policy with the same USING and WITH CHECK clause. *)
Record policy : Type := Policy { pl_name : string; pl_table : string; pl_clauses : list clause }.
#[export] Instance policy_eq_dec : EqDecision policy.
Proof. solve_decision. Defined.

(** A partition: of one month, counted from year 0, or of every row no other takes. *)
Inductive partition : Type := Monthly (month : Z) | DefaultPartition.
#[export] Instance partition_eq_dec : EqDecision partition.
Proof. solve_decision. Defined.

Definition same_month : Z -> Z -> bool := Z.eqb.
Definition same_partition (p q : partition) : bool :=
  match p, q with
  | Monthly m, Monthly n => same_month m n
  | DefaultPartition, DefaultPartition => true
  | _, _ => false
  end.

Inductive statement : Type :=
  | CreateExtension (e : string)
  | DropExtension (e : string)
  | CreateTable (t : string) (cols : list column) (ks : list constraint) (partition_by : option string)
  | DropTable (if_exists cascade : bool) (t : string)
  | CreatePartition (t : string) (p : partition)
  | DropPartition (t : string) (p : partition)
  | CreateIndex (if_not_exists : bool) (i : index)
  | DropIndex (if_exists : bool) (i : string)
  | AddColumn (t : string) (c : column)
  | DropColumn (t c : string)
  | SetNotNull (t c : string)
  | AddConstraint (t : string) (k : constraint)
  | DropConstraint (t k : string)
  | EnableRowSecurity (t : string) (enabled : bool)
  | ForceRowSecurity (t : string) (forced : bool)
  | CreatePolicy (p : policy)
  | DropPolicy (t p : string)
  | CreateFunction (f : string) (uses : list (string * list string))
  | DropFunction (f : string)
  (** UPDATE, INSERT and DELETE: the columns they name. *)
  | ChangeRows (uses : list (string * list string)).

(** ** The catalogue *)

Record relation : Type := Relation {
  r_name : string;
  r_columns : list column;
  r_constraints : list constraint;
  r_partition_by : option string;
  r_partitions : list partition;
  r_rls : bool;
  r_forced : bool
}.
#[export] Instance relation_eta : Eta relation := fun r =>
  Relation (r_name r) (r_columns r) (r_constraints r) (r_partition_by r) (r_partitions r) (r_rls r) (r_forced r).

Record catalogue : Type := Catalogue {
  extensions : list string;
  relations : list relation;
  indexes : list index;
  policies : list policy;
  functions : list string
}.
#[export] Instance catalogue_eta : Eta catalogue := fun c =>
  Catalogue (extensions c) (relations c) (indexes c) (policies c) (functions c).

#[export] Instance relation_eq_dec : EqDecision relation.
Proof. solve_decision. Defined.
#[export] Instance catalogue_eq_dec : EqDecision catalogue.
Proof. solve_decision. Defined.

Definition empty_catalogue : catalogue := Catalogue [] [] [] [] [].

Definition mem (s : string) (l : list string) : bool := existsb (String.eqb s) l.
Definition find_relation (t : string) (c : catalogue) : option relation :=
  List.find (fun r => String.eqb (r_name r) t) (relations c).
Definition find_column (n : string) (r : relation) : option column :=
  List.find (fun k => String.eqb (c_name k) n) (r_columns r).
Definition has_columns (r : relation) (cs : list string) : bool := forallb (fun n => bool_decide (is_Some (find_column n r))) cs.
Definition uses_ok (uses : list (string * list string)) (c : catalogue) : bool :=
  forallb (fun '(t, cs) => match find_relation t c with Some r => has_columns r cs | None => false end) uses.

(** Tables and indexes share their names. *)
Definition name_taken (n : string) (c : catalogue) : bool :=
  existsb (fun r => String.eqb (r_name r) n) (relations c) || existsb (fun i => String.eqb (ix_name i) n) (indexes c).

Definition on_relation (t : string) (f : relation -> relation) (c : catalogue) : catalogue :=
  c <| relations := map (fun r => if String.eqb (r_name r) t then f r else r) (relations c) |>.

(** A foreign key refers to the columns of a unique index without a condition, of the
    same types. *)
Definition is_key (t : string) (cs : list string) (c : catalogue) : bool :=
  existsb (fun i => String.eqb (ix_table i) t && ix_unique i && bool_decide (ix_where i = None) && bool_decide (ix_columns i = cs))
    (indexes c).
Definition column_types (r : relation) (cs : list string) : list (option column_type) :=
  map (fun n => c_type <$> find_column n r) cs.

(** Rows are unique across partitions only by the column that divides them. *)
Definition spans_partitions (r : relation) (cs : list string) : bool :=
  match r_partition_by r with Some p => mem p cs | None => true end.

Definition owned_index (t : string) (k : constraint) : list index :=
  match k with
  | PrimaryKey n cs | Unique n cs => [Index n t cs true "btree" None true]
  | _ => []
  end.

Definition constraint_ok (r : relation) (k : constraint) (c : catalogue) : bool :=
  has_columns r (con_columns k) &&
  match k with
  | PrimaryKey n cs | Unique n cs => negb (name_taken n c) && spans_partitions r cs
  | ForeignKey _ cs t ts a =>
      is_key t ts c &&
      match find_relation t c with
      | Some target => bool_decide (column_types r cs = column_types target ts)
      | None => false
      end
  | CheckThat _ _ => true
  end.

(** What depends on a column: a policy of its table, a foreign key of another. *)
Definition policed (t n : string) (c : catalogue) : bool :=
  existsb (fun p => String.eqb (pl_table p) t && mem n (flat_map clause_columns (pl_clauses p))) (policies c).
Definition refers_to (t : string) (cs : list string) (k : constraint) : bool :=
  match k with ForeignKey _ _ t' ts _ => String.eqb t' t && existsb (fun n => mem n cs) ts | _ => false end.
Definition referred (t : string) (cs : list string) (c : catalogue) : bool :=
  existsb (fun r => negb (String.eqb (r_name r) t) && existsb (refers_to t cs) (r_constraints r)) (relations c).

Definition when (b : bool) (c : option catalogue) : option catalogue := if b then c else None.

Definition is_foreign (k : constraint) : bool := match k with ForeignKey _ _ _ _ _ => true | _ => false end.

(** ** What each statement does *)

(** Constraints one after the other: each sees the indexes of those before it. *)
Fixpoint add_constraints (t : string) (ks : list constraint) (c : catalogue) : option catalogue :=
  match ks with
  | [] => Some c
  | k :: ks =>
      r ← find_relation t c;
      when (constraint_ok r k c && negb (existsb (fun k' => String.eqb (con_name k') (con_name k)) (r_constraints r)))
        (add_constraints t ks
           (on_relation t (fun r => r <| r_constraints := r_constraints r ++ [k] |>) c
              <| indexes := indexes c ++ owned_index t k |>))
  end.

Definition drop_relation (t : string) (c : catalogue) : catalogue :=
  c <| relations := List.filter (fun r => negb (String.eqb (r_name r) t)) (relations c) |>
    <| indexes := List.filter (fun i => negb (String.eqb (ix_table i) t)) (indexes c) |>
    <| policies := List.filter (fun p => negb (String.eqb (pl_table p) t)) (policies c) |>.

(** With CASCADE the foreign keys of other tables go too. *)
Definition drop_references (t : string) (c : catalogue) : catalogue :=
  c <| relations := map (fun r => r <| r_constraints := List.filter (fun k =>
         match k with ForeignKey _ _ t' _ _ => negb (String.eqb t' t) | _ => true end) (r_constraints r) |>) (relations c) |>.

Definition drop_column (t n : string) (c : catalogue) : catalogue :=
  on_relation t (fun r =>
    r <| r_columns := List.filter (fun k => negb (String.eqb (c_name k) n)) (r_columns r) |>
      <| r_constraints := List.filter (fun k => negb (mem n (con_columns k))) (r_constraints r) |>)
    (c <| indexes := List.filter (fun i => negb (String.eqb (ix_table i) t && mem n (ix_columns i))) (indexes c) |>).

Definition effect (s : statement) (c : catalogue) : option catalogue :=
  match s with
  | CreateExtension e => Some (if mem e (extensions c) then c else c <| extensions := extensions c ++ [e] |>)
  | DropExtension e =>
      when (negb (String.eqb e "citext" && existsb (fun r => existsb (fun k => bool_decide (c_type k = Citext)) (r_columns r)) (relations c)))
        (Some (c <| extensions := List.filter (fun x => negb (String.eqb x e)) (extensions c) |>))
  | CreateTable t cols ks by_ =>
      when (negb (name_taken t c) && bool_decide (NoDup (map c_name cols)) &&
            forallb (fun k => negb (bool_decide (c_type k = Citext)) || mem "citext" (extensions c)) cols &&
            match by_ with Some p => mem p (map c_name cols) | None => true end)
        (** Foreign keys are checked last: they may refer to the table itself. *)
        (add_constraints t (List.filter (fun k => negb (is_foreign k)) ks ++ List.filter is_foreign ks) (c <| relations := relations c ++ [Relation t cols [] by_ [] false false] |>))
  | DropTable if_exists cascade t =>
      match find_relation t c with
      | None => when if_exists (Some c)
      | Some r =>
          when (cascade || negb (referred t (map c_name (r_columns r)) c))
            (Some (drop_relation t (if cascade then drop_references t c else c)))
      end
  | CreatePartition t p =>
      r ← find_relation t c;
      when (bool_decide (is_Some (r_partition_by r)))
        (Some (if existsb (same_partition p) (r_partitions r) then c
               else on_relation t (fun r => r <| r_partitions := r_partitions r ++ [p] |>) c))
  | DropPartition t p =>
      Some (on_relation t (fun r => r <| r_partitions := List.filter (fun q => negb (same_partition p q)) (r_partitions r) |>) c)
  | CreateIndex if_not_exists i =>
      if name_taken (ix_name i) c then when if_not_exists (Some c)
      else
        r ← find_relation (ix_table i) c;
        when (has_columns r (ix_columns i) && (negb (ix_unique i) || spans_partitions r (ix_columns i)))
          (Some (c <| indexes := indexes c ++ [i] |>))
  | DropIndex if_exists n =>
      match List.find (fun i => String.eqb (ix_name i) n) (indexes c) with
      | None => when if_exists (Some c)
      | Some i =>
          (** A constraint requires its index, a foreign key the index of its target. *)
          when (negb (ix_owned i) && negb (ix_unique i && bool_decide (ix_where i = None) && referred (ix_table i) (ix_columns i) c))
            (Some (c <| indexes := List.filter (fun i => negb (String.eqb (ix_name i) n)) (indexes c) |>))
      end
  | AddColumn t k =>
      r ← find_relation t c;
      when (negb (bool_decide (is_Some (find_column (c_name k) r))))
        (Some (on_relation t (fun r => r <| r_columns := r_columns r ++ [k] |>) c))
  | DropColumn t n =>
      r ← find_relation t c;
      when (has_columns r [n] && negb (policed t n c) && negb (referred t [n] c)) (Some (drop_column t n c))
  | SetNotNull t n =>
      r ← find_relation t c;
      when (has_columns r [n])
        (Some (on_relation t (fun r => r <| r_columns := map (fun k =>
           if String.eqb (c_name k) n then Column n (c_type k) false (c_default k) else k) (r_columns r) |>) c))
  | AddConstraint t k => add_constraints t [k] c
  | DropConstraint t n =>
      r ← find_relation t c;
      when (existsb (fun k => String.eqb (con_name k) n) (r_constraints r))
        (Some (on_relation t (fun r => r <| r_constraints := List.filter (fun k => negb (String.eqb (con_name k) n)) (r_constraints r) |>) c
                 <| indexes := List.filter (fun i => negb (ix_owned i && String.eqb (ix_name i) n)) (indexes c) |>))
  | EnableRowSecurity t b => _ ← find_relation t c; Some (on_relation t (fun r => r <| r_rls := b |>) c)
  | ForceRowSecurity t b => _ ← find_relation t c; Some (on_relation t (fun r => r <| r_forced := b |>) c)
  | CreatePolicy p =>
      r ← find_relation (pl_table p) c;
      when (has_columns r (flat_map clause_columns (pl_clauses p)) &&
            negb (existsb (fun q => String.eqb (pl_table q) (pl_table p) && String.eqb (pl_name q) (pl_name p)) (policies c)))
        (Some (c <| policies := policies c ++ [p] |>))
  | DropPolicy t n =>
      Some (c <| policies := List.filter (fun q => negb (String.eqb (pl_table q) t && String.eqb (pl_name q) n)) (policies c) |>)
  | CreateFunction f uses =>
      when (uses_ok uses c) (Some (if mem f (functions c) then c else c <| functions := functions c ++ [f] |>))
  | DropFunction f => Some (c <| functions := List.filter (fun x => negb (String.eqb x f)) (functions c) |>)
  | ChangeRows uses => when (uses_ok uses c) (Some c)
  end.

(** A script runs in one transaction: it fails with its first refused statement. *)
Fixpoint run_script {C} (step : statement -> C -> option C) (ss : list statement) (c : C) : option C :=
  match ss with [] => Some c | s :: ss => step s c ≫= run_script step ss end.

Lemma run_script_app {C} (step : statement -> C -> option C) ss ss' c :
  run_script step (ss ++ ss') c = run_script step ss c ≫= run_script step ss'.
Proof. revert c. induction ss as [|s ss IH]; intros c; cbn; [done|]. destruct (step s c); cbn; [apply IH|done]. Qed.

(** A database without rows, seen through its catalogue. *)
Class Database (DB : Type) := {
  execute : statement -> DB -> option DB;
  describe : DB -> catalogue;
  execute_documented s d : describe <$> execute s d = effect s (describe d)
}.

Lemma run_described `{Database DB} ss d : describe <$> run_script execute ss d = run_script effect ss (describe d).
Proof.
  revert d. induction ss as [|s ss IH]; intros d; cbn; [done|].
  pose proof (execute_documented s d) as Hs. destruct (execute s d) as [d'|]; cbn in *; rewrite <- Hs; [apply IH|done].
Qed.

(** The catalogue alone is such a database. *)
#[export] Instance catalogue_database : Database catalogue :=
  {| execute := effect; describe := id; execute_documented s d := option_fmap_id _ |}.

(** ** [op.create_table] and [sa.Column] *)

(** A column with what its arguments declare beside it. *)
Record field : Type := Field {
  f_column : column;
  f_primary_key : bool;
  f_unique : bool;
  f_index : bool;
  f_references : option (string * string * ondelete);
  f_check : option (string * check)
}.
#[export] Instance field_eta : Eta field := fun f =>
  Field (f_column f) (f_primary_key f) (f_unique f) (f_index f) (f_references f) (f_check f).

Definition nullable (n : string) (ty : column_type) : field := Field (Column n ty true None) false false false None None.
Definition required (n : string) (ty : column_type) : field := Field (Column n ty false None) false false false None None.
Definition server_default (d : string) (f : field) : field :=
  let k := f_column f in f <| f_column := Column (c_name k) (c_type k) (c_nullable k) (Some d) |>.
Definition primary_key (f : field) : field :=
  let k := f_column f in f <| f_primary_key := true |> <| f_column := Column (c_name k) (c_type k) false (c_default k) |>.
Definition unique (f : field) : field := f <| f_unique := true |>.
Definition indexed (f : field) : field := f <| f_index := true |>.
Definition references (t c : string) (a : ondelete) (f : field) : field := f <| f_references := Some (t, c, a) |>.
Definition checked (n : string) (k : check) (f : field) : field := f <| f_check := Some (n, k) |>.

(** [NAMING_CONVENTION] (core/db.py). *)
Definition pk_name (t : string) : string := "pk_" +:+ t.
Definition uq_name (t : string) (cs : list string) : string := "uq_" +:+ t +:+ foldr (fun c s => "_" +:+ c +:+ s) "" cs.
Definition ix_name_of (t c : string) : string := "ix_" +:+ t +:+ "_" +:+ c.
Definition fk_name (t c target : string) : string := "fk_" +:+ t +:+ "_" +:+ c +:+ "_" +:+ target.
Definition ck_name (t n : string) : string := "ck_" +:+ t +:+ "_" +:+ n.

Definition field_constraints (t : string) (f : field) : list constraint :=
  let n := c_name (f_column f) in
  match f_references f with Some (target, c, a) => [ForeignKey (fk_name t n target) [n] target [c] a] | None => [] end ++
  (if f_unique f && negb (f_index f) then [Unique (uq_name t [n]) [n]] else []) ++
  match f_check f with Some (k, e) => [CheckThat (ck_name t k) e] | None => [] end.

(** [op.create_index]. *)
Definition create_index (n t : string) (cs : list string) : statement := CreateIndex false (Index n t cs false "btree" None false).
Definition create_unique_index (n t : string) (cs : list string) : statement := CreateIndex false (Index n t cs true "btree" None false).
Definition create_index_where (n t : string) (cs : list string) (w : string) : statement :=
  CreateIndex false (Index n t cs false "btree" (Some w) false).
Definition create_unique_index_where (n t : string) (cs : list string) (w : string) : statement :=
  CreateIndex false (Index n t cs true "btree" (Some w) false).
Definition create_brin_index (n t : string) (cs : list string) : statement := CreateIndex false (Index n t cs false "brin" None false).

Definition field_indexes (t : string) (f : field) : list statement :=
  let n := c_name (f_column f) in
  if f_index f then [CreateIndex false (Index (ix_name_of t n) t [n] (f_unique f) "btree" None false)] else [].

(** Primary key columns are NOT NULL. *)
Definition create_table (t : string) (fs : list field) (ks : list constraint) : list statement :=
  let keys := c_name ∘ f_column <$> List.filter f_primary_key fs in
  CreateTable t (map f_column fs)
    ((match keys with [] => [] | _ => [PrimaryKey (pk_name t) keys] end) ++
     flat_map (field_constraints t) fs ++ ks) None
  :: flat_map (field_indexes t) fs.

Definition drop_table (t : string) : statement := DropTable false false t.
Definition drop_index (n : string) : statement := DropIndex false n.
Definition add_column (t : string) (f : field) : statement := AddColumn t (f_column f).
Definition create_check_constraint (n t : string) (k : check) : statement := AddConstraint t (CheckThat (ck_name t n) k).
