(* ===== verification/Schema.v ===== *)
(** The framework schema (migrations/versions/0002_framework_schema.py): a definition
    per table with the indexes created beside it, in the order of the migration, and
    the statements that drop them. *)

From S2P Require Import Prelude Json Events Tables Ddl.

Definition create_features : list statement :=
  create_table "features"
    [required "key" (Varchar 100);
     required "name" (Varchar 200);
     nullable "description" Text;
     nullable "category" (Varchar 64);
     server_default "now()" (required "created_at" (DateTime true))]
    [PrimaryKey "pk_features" ["key"]].

Definition create_metrics : list statement :=
  create_table "metrics"
    [required "key" (Varchar 100);
     required "name" (Varchar 200);
     required "kind" (Varchar 20);
     nullable "unit" (Varchar 32);
     server_default "now()" (required "created_at" (DateTime true))]
    [PrimaryKey "pk_metrics" ["key"]].

Definition create_permissions : list statement :=
  create_table "permissions"
    [required "id" Uuid;
     required "key" (Varchar 100);
     required "resource" (Varchar 64);
     required "action" (Varchar 64);
     nullable "description" Text]
    [PrimaryKey "pk_permissions" ["id"]] ++
  [create_unique_index "ix_permissions_key" "permissions" ["key"]].

Definition create_plans : list statement :=
  create_table "plans"
    [required "id" Uuid;
     required "key" (Varchar 64);
     required "name" (Varchar 200);
     nullable "description" Text;
     nullable "price_cents" BigInteger;
     required "currency" (Varchar 3);
     nullable "interval" (Varchar 10);
     required "is_public" Boolean;
     required "is_custom" Boolean;
     required "trial_days" Integer;
     required "sort_order" Integer;
     required "provider_refs" Jsonb;
     required "metadata" Jsonb;
     nullable "archived_at" (DateTime true);
     server_default "now()" (required "created_at" (DateTime false));
     server_default "now()" (required "updated_at" (DateTime false))]
    [PrimaryKey "pk_plans" ["id"]] ++
  [create_unique_index "ix_plans_key" "plans" ["key"]].

Definition create_provider_webhook_events : list statement :=
  create_table "provider_webhook_events"
    [required "id" Uuid;
     required "provider" (Varchar 32);
     required "provider_event_id" (Varchar 255);
     nullable "event_type" (Varchar 128);
     server_default "now()" (required "received_at" (DateTime true));
     nullable "processed_at" (DateTime true);
     nullable "error" Text]
    [PrimaryKey "pk_provider_webhook_events" ["id"]].

Definition create_users : list statement :=
  create_table "users"
    [required "id" Uuid;
     required "email" Citext;
     nullable "password_hash" Text;
     required "display_name" (Varchar 200);
     nullable "avatar_url" Text;
     required "is_platform_admin" Boolean;
     required "is_active" Boolean;
     nullable "last_login_at" (DateTime true);
     required "identity_provider" (Varchar 32);
     nullable "provider_subject" (Varchar 255);
     server_default "now()" (required "created_at" (DateTime false));
     server_default "now()" (required "updated_at" (DateTime false))]
    [PrimaryKey "pk_users" ["id"]] ++
  [create_unique_index "ix_users_email" "users" ["email"]].

Definition create_organizations : list statement :=
  create_table "organizations"
    [required "id" Uuid;
     required "slug" (Varchar 64);
     required "name" (Varchar 200);
     required "status" (Varchar 20);
     nullable "owner_user_id" Uuid;
     required "settings" Jsonb;
     server_default "now()" (required "created_at" (DateTime false));
     server_default "now()" (required "updated_at" (DateTime false));
     nullable "deleted_at" (DateTime false)]
    [ForeignKey "fk_organizations_owner_user_id_users" ["owner_user_id"] "users" ["id"] SetNull;
     PrimaryKey "pk_organizations" ["id"]] ++
  [create_unique_index "ix_organizations_slug" "organizations" ["slug"]].

Definition create_password_reset_tokens : list statement :=
  create_table "password_reset_tokens"
    [required "id" Uuid;
     required "user_id" Uuid;
     required "token_hash" (Varchar 64);
     required "expires_at" (DateTime true);
     nullable "used_at" (DateTime true);
     server_default "now()" (required "created_at" (DateTime true));
     required "max_uses" Integer]
    [ForeignKey "fk_password_reset_tokens_user_id_users" ["user_id"] "users" ["id"] Cascade;
     PrimaryKey "pk_password_reset_tokens" ["id"];
     Unique "uq_password_reset_tokens_token_hash" ["token_hash"]] ++
  [create_index "ix_password_reset_tokens_user_id" "password_reset_tokens" ["user_id"]].

Definition create_plan_features : list statement :=
  create_table "plan_features"
    [required "plan_id" Uuid;
     required "feature_key" (Varchar 100);
     required "enabled" Boolean]
    [ForeignKey "fk_plan_features_feature_key_features" ["feature_key"] "features" ["key"] NoAction;
     ForeignKey "fk_plan_features_plan_id_plans" ["plan_id"] "plans" ["id"] Cascade;
     PrimaryKey "pk_plan_features" ["plan_id"; "feature_key"];
     Unique "uq_plan_features" ["plan_id"; "feature_key"]].

Definition create_plan_limits : list statement :=
  create_table "plan_limits"
    [required "plan_id" Uuid;
     required "metric" (Varchar 100);
     nullable "limit_value" BigInteger;
     nullable "soft_limit_ratio" (Numeric 5 2)]
    [ForeignKey "fk_plan_limits_metric_metrics" ["metric"] "metrics" ["key"] NoAction;
     ForeignKey "fk_plan_limits_plan_id_plans" ["plan_id"] "plans" ["id"] Cascade;
     PrimaryKey "pk_plan_limits" ["plan_id"; "metric"];
     Unique "uq_plan_limits" ["plan_id"; "metric"]].

Definition create_audit_logs : list statement :=
  create_table "audit_logs"
    [required "id" Uuid;
     nullable "organization_id" Uuid;
     nullable "actor_user_id" Uuid;
     required "actor_type" (Varchar 20);
     required "event_type" (Varchar 100);
     nullable "target_type" (Varchar 64);
     nullable "target_id" Uuid;
     nullable "diff" Jsonb;
     nullable "ip" (Varchar 45);
     nullable "user_agent" (Varchar 500);
     nullable "request_id" (Varchar 64);
     server_default "now()" (required "created_at" (DateTime true))]
    [ForeignKey "fk_audit_logs_actor_user_id_users" ["actor_user_id"] "users" ["id"] SetNull;
     ForeignKey "fk_audit_logs_organization_id_organizations" ["organization_id"] "organizations" ["id"] Cascade;
     PrimaryKey "pk_audit_logs" ["id"]] ++
  [create_brin_index "ix_audit_logs_created_brin" "audit_logs" ["created_at"];
   create_index "ix_audit_logs_event_type" "audit_logs" ["event_type"];
   create_index "ix_audit_logs_org_created" "audit_logs" ["organization_id"; "created_at"];
   create_index "ix_audit_logs_organization_id" "audit_logs" ["organization_id"];
   create_index "ix_audit_logs_request_id" "audit_logs" ["request_id"]].

Definition create_billing_customers : list statement :=
  create_table "billing_customers"
    [required "id" Uuid;
     required "organization_id" Uuid;
     required "provider" (Varchar 32);
     nullable "provider_customer_id" (Varchar 255);
     nullable "email" (Varchar 320);
     nullable "name" (Varchar 200);
     nullable "tax_id" (Varchar 64);
     required "billing_address" Jsonb;
     nullable "currency" (Varchar 3);
     server_default "now()" (required "created_at" (DateTime false));
     server_default "now()" (required "updated_at" (DateTime false))]
    [ForeignKey "fk_billing_customers_organization_id_organizations" ["organization_id"] "organizations" ["id"] Cascade;
     PrimaryKey "pk_billing_customers" ["id"];
     Unique "uq_billing_customers_organization_id" ["organization_id"];
     Unique "uq_billing_customers_provider_ref" ["provider"; "provider_customer_id"]].

Definition create_entitlements : list statement :=
  create_table "entitlements"
    [required "organization_id" Uuid;
     required "id" Uuid;
     required "feature_key" (Varchar 100);
     required "source" (Varchar 20);
     required "enabled" Boolean;
     server_default "now()" (required "starts_at" (DateTime true));
     nullable "ends_at" (DateTime true);
     nullable "note" Text;
     nullable "created_by_user_id" Uuid;
     nullable "revoked_at" (DateTime true);
     server_default "now()" (required "created_at" (DateTime false));
     server_default "now()" (required "updated_at" (DateTime false))]
    [CheckThat "ck_entitlements_ck_entitlements_source" (OneOf "source" ["trial"; "addon"; "promo"; "beta"; "override"; "enterprise"; "grandfather"]);
     ForeignKey "fk_entitlements_created_by_user_id_users" ["created_by_user_id"] "users" ["id"] SetNull;
     ForeignKey "fk_entitlements_organization_id_organizations" ["organization_id"] "organizations" ["id"] Cascade;
     PrimaryKey "pk_entitlements" ["id"]] ++
  [create_index "ix_entitlements_feature_key" "entitlements" ["feature_key"];
   create_index_where "ix_entitlements_org_feature_active" "entitlements" ["organization_id"; "feature_key"] "revoked_at IS NULL";
   create_index "ix_entitlements_organization_id" "entitlements" ["organization_id"]].

Definition create_memberships : list statement :=
  create_table "memberships"
    [required "id" Uuid;
     required "organization_id" Uuid;
     nullable "user_id" Uuid;
     nullable "invited_email" Citext;
     required "status" (Varchar 20);
     nullable "joined_at" (DateTime true);
     server_default "'{}'" (required "permission_keys" TextArray);
     server_default "now()" (required "created_at" (DateTime false));
     server_default "now()" (required "updated_at" (DateTime false))]
    [CheckThat "ck_memberships_ck_memberships_status_valid" (OneOf "status" ["invited"; "active"; "suspended"]);
     CheckThat "ck_memberships_ck_memberships_user_or_invite" (AnyNotNull ["user_id"; "invited_email"]);
     ForeignKey "fk_memberships_organization_id_organizations" ["organization_id"] "organizations" ["id"] Cascade;
     ForeignKey "fk_memberships_user_id_users" ["user_id"] "users" ["id"] Cascade;
     PrimaryKey "pk_memberships" ["id"];
     Unique "uq_memberships_org_invited_email" ["organization_id"; "invited_email"];
     Unique "uq_memberships_org_user" ["organization_id"; "user_id"]] ++
  [create_index "ix_memberships_organization_id" "memberships" ["organization_id"];
   create_index "ix_memberships_user_id" "memberships" ["user_id"]].

Definition create_outbox_events : list statement :=
  create_table "outbox_events"
    [required "id" Uuid;
     required "aggregate_type" (Varchar 64);
     required "aggregate_id" Uuid;
     nullable "organization_id" Uuid;
     required "event_type" (Varchar 100);
     required "payload" Jsonb;
     server_default "now()" (required "created_at" (DateTime true));
     nullable "published_at" (DateTime true);
     required "attempts" Integer;
     server_default "now()" (required "next_attempt_at" (DateTime true));
     nullable "last_error" Text]
    [ForeignKey "fk_outbox_events_organization_id_organizations" ["organization_id"] "organizations" ["id"] Cascade;
     PrimaryKey "pk_outbox_events" ["id"]] ++
  [create_index "ix_outbox_events_aggregate_type" "outbox_events" ["aggregate_type"];
   create_index "ix_outbox_events_event_type" "outbox_events" ["event_type"];
   create_index "ix_outbox_events_organization_id" "outbox_events" ["organization_id"];
   create_index_where "ix_outbox_pending" "outbox_events" ["next_attempt_at"] "published_at IS NULL"].

Definition create_refresh_tokens : list statement :=
  create_table "refresh_tokens"
    [required "id" Uuid;
     required "user_id" Uuid;
     required "token_hash" (Varchar 64);
     nullable "organization_id" Uuid;
     required "expires_at" (DateTime true);
     nullable "revoked_at" (DateTime true);
     nullable "replaced_by_token_id" Uuid;
     nullable "user_agent" (Varchar 500);
     nullable "ip" (Varchar 45);
     server_default "now()" (required "created_at" (DateTime true))]
    [ForeignKey "fk_refresh_tokens_organization_id_organizations" ["organization_id"] "organizations" ["id"] SetNull;
     ForeignKey "fk_refresh_tokens_replaced_by_token_id_refresh_tokens" ["replaced_by_token_id"] "refresh_tokens" ["id"] NoAction;
     ForeignKey "fk_refresh_tokens_user_id_users" ["user_id"] "users" ["id"] Cascade;
     PrimaryKey "pk_refresh_tokens" ["id"]] ++
  [create_unique_index "ix_refresh_tokens_token_hash" "refresh_tokens" ["token_hash"];
   create_index "ix_refresh_tokens_user_id" "refresh_tokens" ["user_id"]].

Definition create_roles : list statement :=
  create_table "roles"
    [required "id" Uuid;
     nullable "organization_id" Uuid;
     required "key" (Varchar 64);
     required "name" (Varchar 200);
     nullable "description" Text;
     required "is_system" Boolean;
     server_default "now()" (required "created_at" (DateTime false));
     server_default "now()" (required "updated_at" (DateTime false))]
    [ForeignKey "fk_roles_organization_id_organizations" ["organization_id"] "organizations" ["id"] Cascade;
     PrimaryKey "pk_roles" ["id"];
     Unique "uq_roles_org_key" ["organization_id"; "key"]] ++
  [create_index "ix_roles_organization_id" "roles" ["organization_id"]].

Definition create_usage_counters : list statement :=
  create_table "usage_counters"
    [required "organization_id" Uuid;
     required "metric" (Varchar 100);
     required "period_start" Date;
     required "quantity_total" BigInteger;
     nullable "soft_limit_notified_at" (DateTime true);
     nullable "last_event_at" (DateTime true);
     server_default "now()" (required "updated_at" (DateTime true))]
    [ForeignKey "fk_usage_counters_metric_metrics" ["metric"] "metrics" ["key"] NoAction;
     ForeignKey "fk_usage_counters_organization_id_organizations" ["organization_id"] "organizations" ["id"] Cascade;
     PrimaryKey "pk_usage_counters" ["organization_id"; "metric"; "period_start"]].

Definition create_webhook_endpoints : list statement :=
  create_table "webhook_endpoints"
    [required "id" Uuid;
     required "organization_id" Uuid;
     required "url" Text;
     required "secret_encrypted" LargeBinary;
     nullable "description" (Varchar 500);
     server_default "'{}'" (required "events" TextArray);
     required "is_active" Boolean;
     server_default "now()" (required "created_at" (DateTime false));
     server_default "now()" (required "updated_at" (DateTime false))]
    [ForeignKey "fk_webhook_endpoints_organization_id_organizations" ["organization_id"] "organizations" ["id"] Cascade;
     PrimaryKey "pk_webhook_endpoints" ["id"]] ++
  [create_index "ix_webhook_endpoints_organization_id" "webhook_endpoints" ["organization_id"]].

Definition create_invoices : list statement :=
  create_table "invoices"
    [required "id" Uuid;
     required "organization_id" Uuid;
     nullable "billing_customer_id" Uuid;
     nullable "provider" (Varchar 32);
     nullable "provider_invoice_id" (Varchar 255);
     nullable "number" (Varchar 64);
     required "currency" (Varchar 3);
     required "subtotal_cents" BigInteger;
     required "tax_cents" BigInteger;
     required "total_cents" BigInteger;
     required "status" (Varchar 20);
     nullable "period_start" (DateTime true);
     nullable "period_end" (DateTime true);
     nullable "hosted_url" Text;
     nullable "pdf_url" Text;
     nullable "issued_at" (DateTime true);
     nullable "paid_at" (DateTime true);
     server_default "now()" (required "created_at" (DateTime true))]
    [CheckThat "ck_invoices_ck_invoices_status" (OneOf "status" ["draft"; "open"; "paid"; "void"; "uncollectible"]);
     ForeignKey "fk_invoices_billing_customer_id_billing_customers" ["billing_customer_id"] "billing_customers" ["id"] SetNull;
     ForeignKey "fk_invoices_organization_id_organizations" ["organization_id"] "organizations" ["id"] Cascade;
     PrimaryKey "pk_invoices" ["id"];
     Unique "uq_invoices_provider_ref" ["provider"; "provider_invoice_id"]] ++
  [create_index "ix_invoices_organization_id" "invoices" ["organization_id"]].

Definition create_membership_roles : list statement :=
  create_table "membership_roles"
    [required "membership_id" Uuid;
     required "role_id" Uuid]
    [ForeignKey "fk_membership_roles_membership_id_memberships" ["membership_id"] "memberships" ["id"] Cascade;
     ForeignKey "fk_membership_roles_role_id_roles" ["role_id"] "roles" ["id"] Cascade;
     PrimaryKey "pk_membership_roles" ["membership_id"; "role_id"]].

Definition create_role_permissions : list statement :=
  create_table "role_permissions"
    [required "role_id" Uuid;
     required "permission_id" Uuid]
    [ForeignKey "fk_role_permissions_permission_id_permissions" ["permission_id"] "permissions" ["id"] Cascade;
     ForeignKey "fk_role_permissions_role_id_roles" ["role_id"] "roles" ["id"] Cascade;
     PrimaryKey "pk_role_permissions" ["role_id"; "permission_id"]].

Definition create_subscriptions : list statement :=
  create_table "subscriptions"
    [required "id" Uuid;
     required "organization_id" Uuid;
     required "plan_id" Uuid;
     required "status" (Varchar 20);
     required "current_period_start" (DateTime true);
     required "current_period_end" (DateTime true);
     nullable "trial_ends_at" (DateTime true);
     required "cancel_at_period_end" Boolean;
     nullable "canceled_at" (DateTime true);
     nullable "provider" (Varchar 32);
     nullable "provider_subscription_id" (Varchar 255);
     nullable "billing_customer_id" Uuid;
     required "plan_snapshot" Jsonb;
     required "metadata" Jsonb;
     server_default "now()" (required "created_at" (DateTime false));
     server_default "now()" (required "updated_at" (DateTime false))]
    [CheckThat "ck_subscriptions_ck_subscriptions_status" (OneOf "status" ["trialing"; "active"; "past_due"; "canceled"; "incomplete"; "unpaid"]);
     ForeignKey "fk_subscriptions_billing_customer_id_billing_customers" ["billing_customer_id"] "billing_customers" ["id"] SetNull;
     ForeignKey "fk_subscriptions_organization_id_organizations" ["organization_id"] "organizations" ["id"] Cascade;
     ForeignKey "fk_subscriptions_plan_id_plans" ["plan_id"] "plans" ["id"] NoAction;
     PrimaryKey "pk_subscriptions" ["id"]] ++
  [create_index "ix_subscriptions_organization_id" "subscriptions" ["organization_id"];
   create_index "ix_subscriptions_plan_id" "subscriptions" ["plan_id"];
   create_unique_index_where "uq_subscriptions_one_per_org" "subscriptions" ["organization_id"] "status IN ('trialing','active','past_due')";
   create_unique_index_where "uq_subscriptions_provider_ref" "subscriptions" ["provider"; "provider_subscription_id"] "provider_subscription_id IS NOT NULL"].

Definition create_webhook_deliveries : list statement :=
  create_table "webhook_deliveries"
    [required "id" Uuid;
     required "endpoint_id" Uuid;
     required "organization_id" Uuid;
     nullable "outbox_event_id" Uuid;
     required "event_type" (Varchar 100);
     required "payload" Jsonb;
     required "status" (Varchar 20);
     required "attempts" Integer;
     required "max_attempts" Integer;
     server_default "now()" (required "next_attempt_at" (DateTime true));
     nullable "last_response_code" Integer;
     nullable "last_error" Text;
     nullable "response_excerpt" Text;
     nullable "delivered_at" (DateTime true);
     server_default "now()" (required "created_at" (DateTime true))]
    [CheckThat "ck_webhook_deliveries_ck_webhook_deliveries_status" (OneOf "status" ["pending"; "delivered"; "failed"; "exhausted"]);
     ForeignKey "fk_webhook_deliveries_endpoint_id_webhook_endpoints" ["endpoint_id"] "webhook_endpoints" ["id"] Cascade;
     ForeignKey "fk_webhook_deliveries_organization_id_organizations" ["organization_id"] "organizations" ["id"] Cascade;
     ForeignKey "fk_webhook_deliveries_outbox_event_id_outbox_events" ["outbox_event_id"] "outbox_events" ["id"] SetNull;
     PrimaryKey "pk_webhook_deliveries" ["id"]] ++
  [create_index_where "ix_webhook_deliveries_due" "webhook_deliveries" ["next_attempt_at"] "status = 'pending'";
   create_index "ix_webhook_deliveries_endpoint_id" "webhook_deliveries" ["endpoint_id"];
   create_index "ix_webhook_deliveries_event_type" "webhook_deliveries" ["event_type"];
   create_index "ix_webhook_deliveries_organization_id" "webhook_deliveries" ["organization_id"]].

Definition upgrade_0002 : list statement :=
  create_features ++ create_metrics ++ create_permissions ++ create_plans ++ create_provider_webhook_events ++
  create_users ++ create_organizations ++ create_password_reset_tokens ++ create_plan_features ++ create_plan_limits ++
  create_audit_logs ++ create_billing_customers ++ create_entitlements ++ create_memberships ++ create_outbox_events ++
  create_refresh_tokens ++ create_roles ++ create_usage_counters ++ create_webhook_endpoints ++ create_invoices ++
  create_membership_roles ++ create_role_permissions ++ create_subscriptions ++ create_webhook_deliveries.

Definition downgrade_0002 : list statement :=
  [drop_index "ix_webhook_deliveries_organization_id";
   drop_index "ix_webhook_deliveries_event_type";
   drop_index "ix_webhook_deliveries_endpoint_id";
   drop_index "ix_webhook_deliveries_due";
   drop_table "webhook_deliveries";
   drop_index "uq_subscriptions_provider_ref";
   drop_index "uq_subscriptions_one_per_org";
   drop_index "ix_subscriptions_plan_id";
   drop_index "ix_subscriptions_organization_id";
   drop_table "subscriptions";
   drop_table "role_permissions";
   drop_table "membership_roles";
   drop_index "ix_invoices_organization_id";
   drop_table "invoices";
   drop_index "ix_webhook_endpoints_organization_id";
   drop_table "webhook_endpoints";
   drop_table "usage_counters";
   drop_index "ix_roles_organization_id";
   drop_table "roles";
   drop_index "ix_refresh_tokens_user_id";
   drop_index "ix_refresh_tokens_token_hash";
   drop_table "refresh_tokens";
   drop_index "ix_outbox_pending";
   drop_index "ix_outbox_events_organization_id";
   drop_index "ix_outbox_events_event_type";
   drop_index "ix_outbox_events_aggregate_type";
   drop_table "outbox_events";
   drop_index "ix_memberships_user_id";
   drop_index "ix_memberships_organization_id";
   drop_table "memberships";
   drop_index "ix_entitlements_organization_id";
   drop_index "ix_entitlements_org_feature_active";
   drop_index "ix_entitlements_feature_key";
   drop_table "entitlements";
   drop_table "billing_customers";
   drop_index "ix_audit_logs_request_id";
   drop_index "ix_audit_logs_organization_id";
   drop_index "ix_audit_logs_org_created";
   drop_index "ix_audit_logs_event_type";
   drop_index "ix_audit_logs_created_brin";
   drop_table "audit_logs";
   drop_table "plan_limits";
   drop_table "plan_features";
   drop_index "ix_password_reset_tokens_user_id";
   drop_table "password_reset_tokens";
   drop_index "ix_organizations_slug";
   drop_table "organizations";
   drop_index "ix_users_email";
   drop_table "users";
   drop_table "provider_webhook_events";
   drop_index "ix_plans_key";
   drop_table "plans";
   drop_index "ix_permissions_key";
   drop_table "permissions";
   drop_table "metrics";
   drop_table "features"].
