(* ===== verification/Store.v ===== *)
(** The process a request or a job runs in, and the operations the services are
    written with: the database session, the clock, the settings, exceptions,
    savepoints, the request transaction, the outbox and the audit log
    (core/db.py, core/outbox.py, audit/service.py, core/context.py).

    An operation of type [M A] maps a world to a result and the world it leaves
    behind.  A raised exception keeps the writes made before it, as in Python;
    they are undone by [savepoint] ([session.begin_nested]) or by [request]
    ([get_session]).  Sessions run with [autoflush=False]: every modelled
    operation flushes before the next query that could observe a pending write,
    so a write is visible at once and [flush] is where constraints are checked. *)

From S2P Require Import Prelude Json Errors Events Tables.

(** ** Results and exceptions *)

Inductive exn : Type :=
  | Domain (c : error_class) (extras : jobj)
  | PyError (name : string).

Inductive result (A : Type) : Type :=
  | Ok (a : A)
  | Err (e : exn).
Arguments Ok {_} _.
Arguments Err {_} _.

(** ** Settings and the acting user *)

(** The [Settings] the modelled operations read (core/config.py). *)
Record settings : Type := Settings {
  st_billing_provider : string;
  st_billing_currency : string;
  st_grace_on_past_due : bool;
  st_default_plan_key : string;
  st_audit_retention_days : Z;
  st_stripe_secret_key : string;
  st_xendit_secret_key : string;
  st_paymongo_secret_key : string;
  st_paddle_secret_key : string;
  st_identity_provider : string;
  st_keycloak_allow_password_grant : bool;
  st_access_token_ttl_minutes : Z;
  st_refresh_token_ttl_days : Z;
  st_refresh_reuse_grace_seconds : Z;
  st_storage_presign_seconds : Z;
  st_authz_backend : string;
  st_openfga_fail_mode : string;
  st_auth_rate_limit_per_ip : Z;
  st_auth_rate_limit_per_identity : Z;
  st_auth_rate_window_seconds : Z
}.

#[export] Instance settings_eta : Eta settings := fun r =>
  Settings (st_billing_provider r) (st_billing_currency r) (st_grace_on_past_due r)
    (st_default_plan_key r) (st_audit_retention_days r) (st_stripe_secret_key r)
    (st_xendit_secret_key r) (st_paymongo_secret_key r) (st_paddle_secret_key r)
    (st_identity_provider r) (st_keycloak_allow_password_grant r)
    (st_access_token_ttl_minutes r) (st_refresh_token_ttl_days r)
    (st_refresh_reuse_grace_seconds r) (st_storage_presign_seconds r) (st_authz_backend r)
    (st_openfga_fail_mode r) (st_auth_rate_limit_per_ip r)
    (st_auth_rate_limit_per_identity r) (st_auth_rate_window_seconds r).

Definition default_settings : settings :=
  Settings "manual" "PHP" true "free" 365 "" "" "" "" "local" false 15 30 10 3600 "rbac" "closed"
    20 5 60.

(** [UserContext] and [TenantContext] (core/context.py). *)
Record user_context : Type := UserContext {
  ux_user_id : uuid;
  ux_email : string;
  ux_is_platform_admin : bool;
  ux_permission_keys : list string;
  ux_api_key_id : option uuid;
  ux_api_key_scopes : option (list string);
  ux_api_key_creator_id : option uuid
}.

Record tenant_context : Type := TenantContext {
  tx_organization_id : uuid;
  tx_slug : string;
  tx_is_platform : bool
}.

(** ** Worlds *)

(** What a cache key holds: text, or the JSON document a body encodes. *)
Inductive cached : Type :=
  | CText (s : string)
  | CJson (j : json).

Record world : Type := World {
  w_db : db;                              (* tables, as the open transaction sees them *)
  w_durable : db;                         (* tables, as last committed *)
  w_cache : gmap string (instant * cached); (* expiry and value per cache key *)
  w_deferred : list (string * string);    (* bumps queued until after commit *)
  w_clock : instant;                      (* the instant the operation runs at *)
  w_fresh : N;                            (* supply of fresh identifiers *)
  w_settings : settings;
  w_user : option user_context;
  w_tenant : option tenant_context;
  w_request_id : option string
}.

#[export] Instance world_eta : Eta world := fun w =>
  World (w_db w) (w_durable w) (w_cache w) (w_deferred w) (w_clock w) (w_fresh w)
    (w_settings w) (w_user w) (w_tenant w) (w_request_id w).

Definition M (A : Type) : Type := world -> result A * world.

#[export] Instance M_ret : MRet M := fun A a w => (Ok a, w).
#[export] Instance M_bind : MBind M := fun A B f m w =>
  match m w with
  | (Ok a, w') => f a w'
  | (Err e, w') => (Err e, w')
  end.

Definition raise {A} (e : exn) : M A := fun w => (Err e, w).
Definition raise_domain {A} (c : error_class) (extras : jobj) : M A := raise (Domain c extras).

(** A pure computation that may fail, as an operation. *)
Definition lift {A} (r : result A) : M A := match r with Ok a => mret a | Err e => raise e end.

(** [try: m; except: h e], [None] when [e] is not caught. *)
Definition try_catch {A} (m : M A) (h : exn -> option (M A)) : M A := fun w =>
  match m w with
  | (Ok a, w') => (Ok a, w')
  | (Err e, w') => match h e with Some m' => m' w' | None => (Err e, w') end
  end.

(** [for x in l: f x]. *)
Fixpoint for_each {A} (l : list A) (f : A -> M unit) : M unit :=
  match l with
  | [] => mret tt
  | x :: l => _ ← f x; for_each l f
  end.

(** A loop that threads a value. *)
Fixpoint for_fold {A S} (l : list A) (f : A -> S -> M S) (s : S) : M S :=
  match l with
  | [] => mret s
  | x :: l => s ← f x s; for_fold l f s
  end.

Definition when_ (b : bool) (m : M unit) : M unit := if b then m else mret tt.

(** ** Session operations *)

(** [datetime.now(UTC)], [now()], [time.time()]. *)
Definition now : M instant := fun w => (Ok (w_clock w), w).
Definition get_settings : M settings := fun w => (Ok (w_settings w), w).

(** The context variables of core/context.py. *)
Definition current_user : M (option user_context) := fun w => (Ok (w_user w), w).
Definition current_tenant : M (option tenant_context) := fun w => (Ok (w_tenant w), w).
Definition set_user (c : user_context) : M unit := fun w => (Ok tt, w <| w_user := Some c |>).
Definition set_tenant (c : tenant_context) : M unit := fun w => (Ok tt, w <| w_tenant := Some c |>).

(** A fresh primary key ([uuid4] or [uuid_v7]): the next of the supply. *)
Definition fresh_id : M uuid := fun w => (Ok (w_fresh w), w <| w_fresh := N.succ (w_fresh w) |>).

Definition read_table (t : table) : M (gmap (key t) (row t)) := fun w => (Ok (w_db w t), w).
Definition write_table (t : table) (m : gmap (key t) (row t)) : M unit := fun w =>
  (Ok tt, w <| w_db := set_table (w_db w) t m |>).

(** [session.get(Model, k)]. *)
Definition session_get (t : table) (k : key t) : M (option (row t)) :=
  m ← read_table t; mret (m !! k).

(** [session.add(obj)] of a new row, and attribute assignment on a loaded one. *)
Definition put (t : table) (k : key t) (r : row t) : M unit :=
  m ← read_table t; write_table t (<[k := r]> m).

(** [session.add(obj)] under a primary key the row itself names: a key already
    taken is an [IntegrityError]. *)
Definition insert_new (t : table) (k : key t) (r : row t) : M unit :=
  m ← read_table t;
  match m !! k with
  | Some _ => raise (PyError "IntegrityError")
  | None => write_table t (<[k := r]> m)
  end.

(** [session.delete(obj)]. *)
Definition del (t : table) (k : key t) : M unit :=
  m ← read_table t; write_table t (delete k m).

(** [DELETE FROM t WHERE p]. *)
Definition delete_where (t : table) (p : key t -> row t -> bool) : M unit :=
  m ← read_table t;
  write_table t (filter (fun kr : key t * row t => p kr.1 kr.2 = false) m).

(** [select(Model).where(p)]: the matching rows with their keys.  The order is
    the one the scan happens to give; [ORDER BY] is [order_by] on the result. *)
Definition rows_where (t : table) (p : key t -> row t -> bool) (m : gmap (key t) (row t)) :
    list (key t * row t) :=
  filter (fun kr => p kr.1 kr.2) (map_to_list m).
Definition select (t : table) (p : key t -> row t -> bool) : M (list (key t * row t)) :=
  m ← read_table t; mret (rows_where t p m).

(** [scalar_one_or_none()] and [scalar_one()]. *)
Definition scalar_one_or_none {A} (l : list A) : M (option A) :=
  match l with
  | [] => mret None
  | [x] => mret (Some x)
  | _ => raise (PyError "MultipleResultsFound")
  end.
Definition scalar_one {A} (l : list A) : M A :=
  match l with
  | [] => raise (PyError "NoResultFound")
  | [x] => mret x
  | _ => raise (PyError "MultipleResultsFound")
  end.

(** ** Constraints *)

Definition SUBSCRIPTION_STATUSES : list string :=
  ["trialing"; "active"; "past_due"; "canceled"; "incomplete"; "unpaid"].
Definition INVOICE_STATUSES : list string := ["draft"; "open"; "paid"; "void"; "uncollectible"].
Definition ENTITLEMENT_SOURCES : list string :=
  ["trial"; "addon"; "promo"; "beta"; "override"; "enterprise"; "grandfather"].
Definition MEMBERSHIP_STATUSES : list string := ["invited"; "active"; "suspended"].
Definition AGENT_STATUSES : list string := ["active"; "disabled"].
Definition DELIVERY_STATUSES : list string := ["pending"; "delivered"; "failed"; "exhausted"].

(** A unique index on [f]: rows with the same value are the same row; a row
    with [None] (a NULL column, or outside a partial index) is not indexed. *)
Definition unique_on {K} `{EqDecision K} (t : table) (f : row t -> option K) (m : rows t) : Prop :=
  Forall_rows t (fun i r =>
    Forall_rows t (fun j r' => is_Some (f r) -> f r = f r' -> i = j) m) m.

#[export] Instance unique_on_dec {K} `{EqDecision K} t (f : row t -> option K) m :
  Decision (unique_on t f m).
Proof. unfold unique_on. do 2 (apply Forall_rows_dec; intros ? ?). apply _. Defined.

(** A check constraint: the column's value is one of the list. *)
Definition check_in (t : table) (f : row t -> string) (l : list string) (m : rows t) : Prop :=
  Forall_rows t (fun _ r => f r ∈ l) m.

#[export] Instance check_in_dec t f l m : Decision (check_in t f l m).
Proof. unfold check_in. apply Forall_rows_dec; intros. apply _. Defined.

(** A check constraint on the row. *)
Definition check_row (t : table) (p : row t -> bool) (m : rows t) : Prop :=
  Forall_rows t (fun _ r => p r = true) m.

#[export] Instance check_row_dec t p m : Decision (check_row t p m).
Proof. unfold check_row. apply Forall_rows_dec; intros. apply _. Defined.

(** The predicate of the partial index [uq_subscriptions_one_per_org]. *)
Definition is_occupying (s : subscription) : bool :=
  bool_decide (s_status s ∈ ["trialing"; "active"; "past_due"]).

Definition opt_pair {A B} (a : option A) (b : option B) : option (A * B) :=
  match a, b with Some a, Some b => Some (a, b) | _, _ => None end.

(** The partial index [uq_subscriptions_one_per_org]. *)
Definition occupied_org (s : subscription) : option uuid :=
  if is_occupying s then Some (s_organization_id s) else None.

Definition subscriptions_ok (m : rows Tsubscriptions) : Prop :=
  check_in Tsubscriptions s_status SUBSCRIPTION_STATUSES m /\
  unique_on Tsubscriptions occupied_org m /\
  unique_on Tsubscriptions (fun s : subscription =>
    opt_pair (s_provider s) (s_provider_subscription_id s)) m.

Definition invoices_ok (m : rows Tinvoices) : Prop :=
  check_in Tinvoices i_status INVOICE_STATUSES m /\
  unique_on Tinvoices (fun v : invoice => opt_pair (i_provider v) (i_provider_invoice_id v)) m /\
  unique_on Tinvoices (fun v : invoice =>
    opt_pair (Some (i_organization_id v)) (i_number v)) m.

Definition billing_customers_ok (m : rows Tbilling_customers) : Prop :=
  unique_on Tbilling_customers (fun c : billing_customer => Some (bc_organization_id c)) m /\
  unique_on Tbilling_customers (fun c : billing_customer =>
    opt_pair (Some (bc_provider c)) (bc_provider_customer_id c)) m.

Definition memberships_ok (m : rows Tmemberships) : Prop :=
  check_in Tmemberships mb_status MEMBERSHIP_STATUSES m /\
  check_row Tmemberships (fun r : membership =>
    bool_decide (mb_user_id r <> None \/ mb_invited_email r <> None)) m /\
  unique_on Tmemberships (fun r : membership =>
    opt_pair (Some (mb_organization_id r)) (mb_user_id r)) m /\
  unique_on Tmemberships (fun r : membership =>
    opt_pair (Some (mb_organization_id r)) (citext <$> mb_invited_email r)) m.

Definition organizations_ok (m : rows Torganizations) : Prop :=
  unique_on Torganizations (fun o : organization => Some (o_slug o)) m.

Definition api_keys_ok (m : rows Tapi_keys) : Prop :=
  unique_on Tapi_keys (fun k : api_key => Some (ak_prefix k)) m /\
  unique_on Tapi_keys (fun k : api_key => Some (ak_key_hash k)) m.

Definition feature_flags_ok (m : rows Tfeature_flags) : Prop :=
  unique_on Tfeature_flags (fun f : feature_flag => Some (ff_key f)) m /\
  check_row Tfeature_flags (fun f : feature_flag =>
    match ff_rollout_percentage f with Some p => (0 <=? p)%Z && (p <=? 100)%Z | None => true end) m.

Definition agents_ok (m : rows Tagents) : Prop :=
  check_in Tagents ag_status AGENT_STATUSES m /\
  unique_on Tagents (fun a : agent => Some (ag_organization_id a, ag_slug a)) m.

(** The unique indexes and check constraints the migrations put on each table
    (primary keys are the keys of the maps; [Migrations.models_enforced] compares them
    with the migrations).  The checks of [invoice_lines.kind], [stored_files.status] and
    [outbox_events.audience] are left out: every modelled write takes the value from
    the constants they list. *)
Definition table_ok (t : table) : gmap (key t) (row t) -> Prop :=
  match t return gmap (key t) (row t) -> Prop with
  | Tplans => unique_on Tplans (fun p : plan => Some (p_key p))
  | Tsubscriptions => subscriptions_ok
  | Tentitlements => check_in Tentitlements e_source ENTITLEMENT_SOURCES
  | Tbilling_customers => billing_customers_ok
  | Tinvoices => invoices_ok
  | Tprovider_webhook_events =>
      unique_on Tprovider_webhook_events (fun e : provider_webhook_event =>
        Some (pe_provider e, pe_provider_event_id e))
  | Torganizations => organizations_ok
  | Tusers => unique_on Tusers (fun u : user => Some (citext (u_email u)))
  | Tfeature_flags => feature_flags_ok
  | Tfeature_flag_overrides =>
      check_row Tfeature_flag_overrides (fun o : feature_flag_override =>
        bool_decide (fo_organization_id o <> None \/ fo_user_id o <> None))
  | Tmemberships => memberships_ok
  | Troles => unique_on Troles (fun r : authorization_role =>
      opt_pair (ro_organization_id r) (Some (ro_key r)))
  | Tpermissions => unique_on Tpermissions (fun p : permission => Some (pm_key p))
  | Trefresh_tokens => unique_on Trefresh_tokens (fun r : refresh_token => Some (rt_token_hash r))
  | Tpassword_reset_tokens =>
      unique_on Tpassword_reset_tokens (fun r : password_reset_token => Some (pr_token_hash r))
  | Tapi_keys => api_keys_ok
  | Tagents => agents_ok
  | Twebhook_deliveries => check_in Twebhook_deliveries wd_status DELIVERY_STATUSES
  | _ => fun _ => True
  end.

#[export] Instance table_ok_dec t m : Decision (table_ok t m).
Proof.
  destruct t; simpl; unfold subscriptions_ok, invoices_ok, billing_customers_ok, memberships_ok,
    organizations_ok, api_keys_ok, feature_flags_ok, agents_ok;
    repeat apply and_dec; apply _.
Defined.

Definition all_tables : list table :=
  [Tplans; Tplan_features; Tplan_limits; Tmetrics; Tsubscriptions; Tentitlements; Tusage_events;
   Tusage_counters; Tusage_idempotency_keys; Tbilling_customers; Tinvoices; Tinvoice_lines;
   Taudit_logs; Toutbox_events; Tprovider_webhook_events; Torganizations; Tusers;
   Twebhook_endpoints; Twebhook_deliveries; Tfeature_flags; Tfeature_flag_overrides;
   Tmemberships; Troles; Tpermissions; Trole_permissions; Tmembership_roles; Trefresh_tokens;
   Tpassword_reset_tokens; Tapi_keys; Tstored_files; Tagents; Tfeatures].

Definition constraints_ok (d : db) : Prop := Forall (fun t => table_ok t (d t)) all_tables.
#[export] Instance constraints_ok_dec d : Decision (constraints_ok d).
Proof. unfold constraints_ok. apply _. Defined.

(** [session.flush()]. *)
Definition flush : M unit := fun w =>
  if bool_decide (constraints_ok (w_db w)) then (Ok tt, w) else (Err (PyError "IntegrityError"), w).

(** ** Transactions *)

(** [async with session.begin_nested(): m]: on an exception the tables go back
    to what they were; nothing outside the database does. *)
Definition savepoint {A} (m : M A) : M A := fun w =>
  match m w with
  | (Ok a, w') =>
      match flush w' with
      | (Ok _, w'') => (Ok a, w'')
      | (Err e, w'') => (Err e, w'' <| w_db := w_db w |>)
      end
  | (Err e, w') => (Err e, w' <| w_db := w_db w |>)
  end.

(** [session.commit()]. *)
Definition commit : M unit := fun w =>
  match flush w with
  | (Ok _, w') => (Ok tt, w' <| w_durable := w_db w' |>)
  | (Err e, w') => (Err e, w' <| w_db := w_durable w' |>)
  end.
Definition rollback : M unit := fun w => (Ok tt, w <| w_db := w_durable w |>).

(** ** Constraints after a write *)

Lemma constraints_ok_table d : constraints_ok d <-> forall t, table_ok t (d t).
Proof.
  unfold constraints_ok. rewrite Forall_forall. split; [|auto].
  intros H t'. apply H. by destruct t'; apply (bool_decide_unpack _).
Qed.

Lemma constraints_ok_set d t m :
  constraints_ok d -> table_ok t m -> constraints_ok (set_table d t m).
Proof.
  rewrite !constraints_ok_table. intros Hd Hm t'. unfold set_table.
  destruct (decide (t = t')) as [<-|]; [done|apply Hd].
Qed.

Section Unique.
Context {K} `{EqDecision K} (t : table) (f : row t -> option K).

Lemma unique_on_lookup m i j r r' v :
  unique_on t f m -> m !! i = Some r -> m !! j = Some r' -> f r = Some v -> f r' = Some v -> i = j.
Proof. intros Hu Hi Hj E E'. apply (Hu _ _ Hi _ _ Hj); [by eexists|congruence]. Qed.

Lemma unique_on_insert m i r :
  unique_on t f m ->
  (forall j r' v, j <> i -> m !! j = Some r' -> f r = Some v -> f r' <> Some v) ->
  unique_on t f (<[i := r]> m).
Proof.
  intros Hu Hr a ra Ha b rb Hb [v Hv] E. rewrite Hv in E.
  apply lookup_insert_Some in Ha as [[<- <-]|[Hia Ha]];
    apply lookup_insert_Some in Hb as [[<- <-]|[Hib Hb]]; [done| | |].
  - by destruct (Hr b rb v).
  - destruct (Hr a ra v); [done|done|by symmetry|done].
  - by apply (unique_on_lookup m a b ra rb v).
Qed.

(** A row that is not indexed, or indexed as the row it replaces, is no clash. *)
Lemma unique_on_update m i r r0 :
  unique_on t f m -> m !! i = Some r0 -> f r = None \/ f r = f r0 ->
  unique_on t f (<[i := r]> m).
Proof.
  intros Hu Hi Hr. apply unique_on_insert; [done|]. intros j r' v Hj Hjr Hv Hv'.
  destruct Hr as [Hr|Hr]; [congruence|]. apply Hj. symmetry.
  apply (unique_on_lookup m i j r0 r' v Hu Hi Hjr); congruence.
Qed.
End Unique.

Lemma check_in_insert t f l m i r :
  check_in t f l m -> f r ∈ l -> check_in t f l (<[i := r]> m).
Proof. intros Hm Hr. by apply map_Forall_insert_2. Qed.
