(* ===== verification/Config.v ===== *)
(** Configuration (core/config.py): the validators of [Settings], the guardrails of
    production, and the values derived from it.

    The record holds the fields a validator, a derived value or the startup of the
    application reads, around the [settings] the services read.  Typing the
    environment's texts as numbers and booleans is the settings library's; the
    choices it enforces for a [Literal] are [literal_choices].  JSON and the syntax of
    networks are arguments. *)

From Stdlib Require Import Ascii.
From S2P Require Import Prelude Text Json Errors Events Tables Store.

Record config : Type := Config {
  cf_env : string;
  cf_secret_key : string;
  cf_web_origin : string;
  cf_web_origins : list string;
  cf_cookie_secure : option bool;
  cf_trusted_proxies : list string;
  cf_tenant_isolation : string;
  cf_auto_sync_plans : bool;
  cf_metrics_enabled : bool;
  cf_notifier : string;
  cf_smtp_tls : string;
  cf_settings : settings
}.
#[export] Instance config_eta : Eta config := fun c =>
  Config (cf_env c) (cf_secret_key c) (cf_web_origin c) (cf_web_origins c) (cf_cookie_secure c) (cf_trusted_proxies c)
    (cf_tenant_isolation c) (cf_auto_sync_plans c) (cf_metrics_enabled c) (cf_notifier c) (cf_smtp_tls c) (cf_settings c).

Definition default_config : config :=
  Config "development" "dev-only-secret-key-change-me-32-bytes-minimum!" "http://localhost:3000" [] None [] "app" true true
    "smtp" "none" default_settings.

(** ** Lists from the environment *)

(** The raw value of a list: a text of the environment, or a list of a constructor. *)
Inductive raw_list : Type := RawText (s : string) | RawList (l : list string).

Section Lists.
Context (json_loads : string -> option json).

Definition json_texts (j : json) : option (list string) :=
  match j with JList l => mapM (fun x => match x with JStr s => Some s | _ => None end) l | _ => None end.

(** [_csv_or_list], and the typing of what it gives. *)
Definition csv_items (raw : string) : list string :=
  filter (fun s => negb (String.eqb s "") : Prop) (strip <$> split_on "," raw).
Definition _csv_or_list (v : raw_list) : option (list string) :=
  match v with
  | RawList l => Some l
  | RawText s =>
      let raw := strip s in
      if starts_with "[" raw then json_loads raw ≫= json_texts else Some (csv_items raw)
  end.
End Lists.

(** ** Validators *)

Definition ISOLATIONS : list string := ["app"; "app_and_rls"].
Definition PROVIDERS : list string := ["manual"; "stripe"; "xendit"; "paymongo"; "paddle"].
Definition _validate_isolation (v : string) : bool := bool_decide (v ∈ ISOLATIONS).
Definition _validate_provider (v : string) : bool := bool_decide (v ∈ PROVIDERS).
Definition _validate_cidrs (ip_network : string -> bool) (v : list string) : bool := forallb ip_network v.

(** The fields whose type is a [Literal]: the value is one of the choices listed. *)
Definition NOTIFIERS : list string := ["smtp"; "noop"].
Definition SMTP_TLS : list string := ["none"; "starttls"; "ssl"].
Definition AUTHZ_BACKENDS : list string := ["rbac"; "openfga"].
Definition OPENFGA_FAIL_MODES : list string := ["closed"; "rbac"].
Definition literal_choices (c : config) : list (string * list string) :=
  [(cf_notifier c, NOTIFIERS); (cf_smtp_tls c, SMTP_TLS);
   (st_authz_backend (cf_settings c), AUTHZ_BACKENDS);
   (st_openfga_fail_mode (cf_settings c), OPENFGA_FAIL_MODES)].
Definition literals_valid (c : config) : bool :=
  forallb (fun '(v, choices) => bool_decide (v ∈ choices)) (literal_choices c).

Definition PRODUCTION_MAX_AUTH_PER_IP : Z := 100.
Definition PRODUCTION_MAX_AUTH_PER_IDENTITY : Z := 20.
Definition PRODUCTION_MIN_SECRET_KEY_LENGTH : Z := 32.

Definition is_production (c : config) : bool := String.eqb (cf_env c) "production".
Definition rls_enabled (c : config) : bool := String.eqb (cf_tenant_isolation c) "app_and_rls".

Definition rate_problem (name : string) (v ceiling : Z) : list string :=
  if (ceiling <? v)%Z
  then [name +:+ "=" +:+ Z_str v +:+ " exceeds the production ceiling of " +:+ Z_str ceiling]
  else [].
Definition secret_problem (secret : string) : list string :=
  if starts_with "dev-only-" secret then ["SYNAPSE_SECRET_KEY is the dev default"]
  else if (char_length secret <? PRODUCTION_MIN_SECRET_KEY_LENGTH)%Z
  then ["SYNAPSE_SECRET_KEY is shorter than " +:+ Z_str PRODUCTION_MIN_SECRET_KEY_LENGTH +:+
        " characters (generate one with `openssl rand -base64 32`)"]
  else [].
Definition production_problems (c : config) : list string :=
  rate_problem "SYNAPSE_AUTH_RATE_LIMIT_PER_IP" (st_auth_rate_limit_per_ip (cf_settings c)) PRODUCTION_MAX_AUTH_PER_IP ++
  rate_problem "SYNAPSE_AUTH_RATE_LIMIT_PER_IDENTITY" (st_auth_rate_limit_per_identity (cf_settings c)) PRODUCTION_MAX_AUTH_PER_IDENTITY ++
  secret_problem (cf_secret_key c).
Definition _production_guardrails (c : config) : option (list string) :=
  if negb (is_production c) then None
  else match production_problems c with [] => None | problems => Some problems end.

(** [Settings()]: the lists are read, every field validated, then the whole. *)
Definition load_settings (json_loads : string -> option json) (ip_network : string -> bool)
    (origins proxies : raw_list) (c : config) : result config :=
  match _csv_or_list json_loads origins, _csv_or_list json_loads proxies with
  | Some origins, Some proxies =>
      let c := c <| cf_web_origins := origins |> <| cf_trusted_proxies := proxies |> in
      if literals_valid c && _validate_cidrs ip_network proxies && _validate_isolation (cf_tenant_isolation c) &&
         _validate_provider (st_billing_provider (cf_settings c))
      then match _production_guardrails c with Some _ => Err (PyError "ValidationError") | None => Ok c end
      else Err (PyError "ValidationError")
  | _, _ => Err (PyError "ValidationError")
  end.

(** ** Derived values *)

(** The keys of a dictionary filled with [setdefault]. *)
Definition set_default (seen : list string) (x : string) : list string := if bool_decide (x ∈ seen) then seen else seen ++ [x].
Definition cors_origins (c : config) : list string := foldl set_default [cf_web_origin c] (cf_web_origins c).

Definition cookie_secure_effective (c : config) : bool :=
  match cf_cookie_secure c with
  | Some b => b
  | None => is_production c || starts_with "https://" (lower (cf_web_origin c))
  end.

(** ** Laws *)

(** A list written with commas is read back, its entries trimmed and not empty. *)
Definition entry (s : string) : Prop := s <> "" /\ strip s = s /\ string_Forall (.≠ ","%char) s.

Lemma csv_items_join l : l <> [] -> Forall entry l -> csv_items (join "," l) = l.
Proof.
  intros Hl He. unfold csv_items. rewrite split_on_join; [|done|by eapply Forall_impl; [exact He|]; intros s (_ & _ & H)].
  clear Hl. induction He as [|s l (H1 & H2 & _) He IH]; [done|]. cbn [fmap list_fmap]. rewrite H2, filter_cons_True; [by f_equal|].
  destruct (String.eqb_spec s ""); [done|exact I].
Qed.

Lemma set_default_spec l : forall seen, NoDup seen ->
  NoDup (foldl set_default seen l) /\ (exists rest, foldl set_default seen l = seen ++ rest) /\
  forall x, x ∈ foldl set_default seen l <-> x ∈ seen \/ x ∈ l.
Proof.
  induction l as [|y l IH]; intros seen Hs; cbn [foldl].
  - split; [done|]. split; [by exists []; rewrite app_nil_r|]. intros x. set_solver.
  - unfold set_default at 2 4 6. case_bool_decide as Hy.
    + destruct (IH seen Hs) as (H1 & H2 & H3). split_and!; [done..|]. intros x. rewrite H3. set_solver.
    + destruct (IH (seen ++ [y])) as (H1 & (rest & H2) & H3);
        [apply NoDup_app; split_and!; [done|set_solver|apply NoDup_singleton]|].
      split; [done|]. split; [exists (y :: rest); rewrite H2; by rewrite <- app_assoc|]. intros x. rewrite H3. set_solver.
Qed.

Lemma no_rate_problem name v ceiling : rate_problem name v ceiling = [] <-> (v <= ceiling)%Z.
Proof. unfold rate_problem. destruct (Z.ltb_spec ceiling v); split; intros; try done; lia. Qed.

Lemma no_secret_problem s : secret_problem s = [] <->
  starts_with "dev-only-" s = false /\ (PRODUCTION_MIN_SECRET_KEY_LENGTH <= char_length s)%Z.
Proof.
  unfold secret_problem. destruct (starts_with _ s); [by split; [|intros []]|].
  destruct (Z.ltb_spec (char_length s) PRODUCTION_MIN_SECRET_KEY_LENGTH); split; try done; intros [_ ?]; lia.
Qed.

(** What production demands. *)
Definition fit_for_production (c : config) : Prop :=
  (st_auth_rate_limit_per_ip (cf_settings c) <= 100)%Z /\
  (st_auth_rate_limit_per_identity (cf_settings c) <= 20)%Z /\
  starts_with "dev-only-" (cf_secret_key c) = false /\
  (32 <= char_length (cf_secret_key c))%Z.

Lemma guardrails_pass c : _production_guardrails c = None <-> (is_production c = true -> fit_for_production c).
Proof.
  unfold _production_guardrails, production_problems, fit_for_production. destruct (is_production c); cbn [negb]; [|done].
  rewrite <- (no_rate_problem "SYNAPSE_AUTH_RATE_LIMIT_PER_IP"), <- (no_rate_problem "SYNAPSE_AUTH_RATE_LIMIT_PER_IDENTITY").
  rewrite <- no_secret_problem. destruct (rate_problem _ _ _); [|by split; [|intros H; destruct (H eq_refl)]].
  destruct (rate_problem _ _ _); [|by split; [|intros H; destruct (H eq_refl) as (_ & ? & _)]].
  destruct (secret_problem _); [done|]. by split; [|intros H; destruct (H eq_refl) as (_ & _ & ?)].
Qed.

(** What the fields are checked for. *)
Definition fields_valid (ip_network : string -> bool) (ps : list string) (c : config) : Prop :=
  (forall p, p ∈ ps -> ip_network p = true) /\ cf_tenant_isolation c ∈ ["app"; "app_and_rls"] /\
  st_billing_provider (cf_settings c) ∈ ["manual"; "stripe"; "xendit"; "paymongo"; "paddle"] /\
  cf_notifier c ∈ ["smtp"; "noop"] /\ cf_smtp_tls c ∈ ["none"; "starttls"; "ssl"] /\
  st_authz_backend (cf_settings c) ∈ ["rbac"; "openfga"] /\
  st_openfga_fail_mode (cf_settings c) ∈ ["closed"; "rbac"].

Lemma fields_decided ip_network ps c :
  literals_valid c && _validate_cidrs ip_network ps && _validate_isolation (cf_tenant_isolation c) &&
    _validate_provider (st_billing_provider (cf_settings c)) = true <-> fields_valid ip_network ps c.
Proof.
  assert (Hf : forallb ip_network ps = true <-> forall p, p ∈ ps -> ip_network p = true)
    by (rewrite forallb_forall; by setoid_rewrite list_elem_of_In).
  unfold fields_valid, literals_valid, literal_choices, _validate_cidrs, _validate_isolation, _validate_provider. rewrite <- Hf.
  cbn [forallb]. rewrite !andb_true_iff, !bool_decide_eq_true. unfold NOTIFIERS, SMTP_TLS, AUTHZ_BACKENDS, OPENFGA_FAIL_MODES, ISOLATIONS, PROVIDERS. tauto.
Qed.

Lemma load_settings_spec json_loads ip_network origins proxies c c' :
  load_settings json_loads ip_network origins proxies c = Ok c' <->
  exists os ps, _csv_or_list json_loads origins = Some os /\ _csv_or_list json_loads proxies = Some ps /\
    c' = c <| cf_web_origins := os |> <| cf_trusted_proxies := ps |> /\
    (forall p, p ∈ ps -> ip_network p = true) /\ cf_tenant_isolation c ∈ ["app"; "app_and_rls"] /\
    st_billing_provider (cf_settings c) ∈ ["manual"; "stripe"; "xendit"; "paymongo"; "paddle"] /\
    cf_notifier c ∈ ["smtp"; "noop"] /\ cf_smtp_tls c ∈ ["none"; "starttls"; "ssl"] /\
    st_authz_backend (cf_settings c) ∈ ["rbac"; "openfga"] /\
    st_openfga_fail_mode (cf_settings c) ∈ ["closed"; "rbac"] /\
    (cf_env c = "production" -> fit_for_production c).
Proof.
  unfold load_settings. destruct (_csv_or_list _ origins) as [os|], (_csv_or_list _ proxies) as [ps|];
    try (split; [discriminate|intros (? & ? & ? & ? & _); discriminate]).
  set (c1 := c <| cf_web_origins := os |> <| cf_trusted_proxies := ps |>).
  pose proof (guardrails_pass c1) as Hg. unfold is_production in Hg. rewrite String.eqb_eq in Hg.
  pose proof (fields_decided ip_network ps c1) as Hf.
  transitivity (c' = c1 /\ fields_valid ip_network ps c1 /\ (cf_env c1 = "production" -> fit_for_production c1)).
  - rewrite <- Hg. change (cf_tenant_isolation c) with (cf_tenant_isolation c1). change (cf_settings c) with (cf_settings c1).
    destruct (_ && _); destruct Hf as [Hf1 Hf2]; [|split; [done|]; intros (_ & Hv & _); by apply Hf2 in Hv].
    specialize (Hf1 eq_refl). destruct (_production_guardrails c1); naive_solver.
  - unfold fields_valid. split; [intros (-> & (? & ? & ? & ? & ? & ? & ?) & ?); exists os, ps; by split_and!|].
    intros (? & ? & [= <-] & [= <-] & ?). naive_solver.
Qed.

(** The trimmed join of trimmed texts. *)
Lemma strip_by_fixed p s : strip_by p s = s -> drop_while p s = s /\ drop_while p (rev_string s) = rev_string s.
Proof.
  intros H. assert (Hd : forall t, String.length (drop_while p t) = String.length t -> drop_while p t = t).
  { intros [|a t]; simpl; [done|]. destruct (p a); [|done]. pose proof (drop_while_length p t). lia. }
  assert (H1 : drop_while p s = s).
  { apply Hd. pose proof (f_equal String.length H) as E. unfold strip_by in E. rewrite rev_string_length in E.
    pose proof (drop_while_length p (rev_string (drop_while p s))). rewrite rev_string_length in *.
    pose proof (drop_while_length p s). lia. }
  split; [done|]. rewrite <- H at 2. unfold strip_by. rewrite rev_string_involutive, H1. done.
Qed.

Lemma drop_while_app p s t : s <> "" -> drop_while p s = s -> drop_while p (s +:+ t) = s +:+ t.
Proof.
  destruct s as [|a s]; [done|]. intros _. rewrite string_app_cons. simpl. destruct (p a); [|done].
  intros E. pose proof (drop_while_length p s). apply (f_equal String.length) in E. simpl in E. lia.
Qed.

Lemma strip_by_join p l : l <> [] -> Forall (fun s => s <> "" /\ strip_by p s = s) l ->
  join "," l <> "" /\ drop_while p (join "," l) = join "," l /\
  drop_while p (rev_string (join "," l)) = rev_string (join "," l).
Proof.
  intros Hl H. induction H as [|s l [Hs Hf] _ IH]; [done|]. destruct (strip_by_fixed p s Hf) as [H1 H2].
  destruct l as [|s' l]; [done|]. destruct (IH ltac:(done)) as (Hne & I1 & I2). rewrite join_cons.
  split_and!; [destruct s; done|by apply drop_while_app|].
  rewrite rev_string_app. cbn [rev_string]. rewrite string_app_assoc. apply drop_while_app; [|done].
  intros E. apply Hne. rewrite <- (rev_string_involutive (join _ _)), E. done.
Qed.

Lemma csv_join_read json_loads l : l <> [] -> Forall entry l -> starts_with "[" (join "," l) = false ->
  _csv_or_list json_loads (RawText (join "," l)) = Some l.
Proof.
  intros Hl He Hs. unfold _csv_or_list.
  destruct (strip_by_join is_space l Hl) as (_ & H1 & H2);
    [eapply Forall_impl; [exact He|]; intros s (? & ? & _); done|].
  unfold strip, strip_by. rewrite H1, H2, rev_string_involutive, Hs. by rewrite csv_items_join.
Qed.

(** C36: Exactly the configurations that should load do: the two lists
    are readable as text or JSON, every trusted proxy is a network, the isolation
    mode, the billing provider, the notifier, the relay's encryption, the
    authorization backend and its fail mode are among the choices named here, and in production the
    sign-in rate limits are at most 100 per address and 20 per identity and the secret is neither the one of
    development nor shorter than 32 characters; everything else is refused.  A list written
    with commas is read back.  Of what is accepted,
    the browser origins are distinct, the console's own first, and no others than
    configured, and production cookies are secure unless switched off by name.  (The
    checks of the application's startup come after these: [Http.lifespan].) *)
Theorem settings_decide json_loads ip_network origins proxies c c' :
  (load_settings json_loads ip_network origins proxies c = Ok c' <->
   exists os ps, _csv_or_list json_loads origins = Some os /\ _csv_or_list json_loads proxies = Some ps /\
     c' = c <| cf_web_origins := os |> <| cf_trusted_proxies := ps |> /\
     (forall p, p ∈ ps -> ip_network p = true) /\ cf_tenant_isolation c ∈ ["app"; "app_and_rls"] /\
     st_billing_provider (cf_settings c) ∈ ["manual"; "stripe"; "xendit"; "paymongo"; "paddle"] /\
     cf_notifier c ∈ ["smtp"; "noop"] /\ cf_smtp_tls c ∈ ["none"; "starttls"; "ssl"] /\
     st_authz_backend (cf_settings c) ∈ ["rbac"; "openfga"] /\
     st_openfga_fail_mode (cf_settings c) ∈ ["closed"; "rbac"] /\
     (cf_env c = "production" ->
      (st_auth_rate_limit_per_ip (cf_settings c) <= 100)%Z /\
      (st_auth_rate_limit_per_identity (cf_settings c) <= 20)%Z /\
      starts_with "dev-only-" (cf_secret_key c) = false /\ (32 <= char_length (cf_secret_key c))%Z)) /\
  (forall l, l <> [] -> Forall entry l -> starts_with "[" (join "," l) = false ->
   _csv_or_list json_loads (RawText (join "," l)) = Some l) /\
  NoDup (cors_origins c') /\ head (cors_origins c') = Some (cf_web_origin c') /\
  (forall o, o ∈ cors_origins c' <-> o = cf_web_origin c' \/ o ∈ cf_web_origins c') /\
  (cf_env c' = "production" -> cf_cookie_secure c' <> Some false -> cookie_secure_effective c' = true).
Proof.
  split; [|split_and!].
  - apply load_settings_spec.
  - apply csv_join_read.
  - apply set_default_spec, NoDup_singleton.
  - unfold cors_origins. destruct (set_default_spec (cf_web_origins c') [cf_web_origin c'] (NoDup_singleton _)) as (_ & (rest & ->) & _). done.
  - intros o. unfold cors_origins. destruct (set_default_spec (cf_web_origins c') [cf_web_origin c'] (NoDup_singleton _)) as (_ & _ & ->).
    by rewrite list_elem_of_singleton.
  - intros E%String.eqb_eq Hn. unfold cookie_secure_effective, is_production. rewrite E. destruct (cf_cookie_secure c') as [[]|]; done.
Qed.

(** Nine characters written in UTF-8 with one accent are ten bytes. *)
Example char_length_counts :
  let word := "caf" +:+ String (ascii_of_nat 195) (String (ascii_of_nat 169) "-noir") in
  char_length word = 9%Z /\ String.length word = 10.
Proof. vm_compute. by split. Qed.
