(* ===== verification/Branding.v ===== *)
(** The branding kit (branding/models.py, loader.py, router.py): what a valid
    branding.yaml is, loading it with its assets, and the public surface that serves
    them.

    [load_branding] receives the parsed document: YAML and the typing of its fields
    are a library's, and so is the shape of an e-mail address ([EmailStr]).  The file
    system is a record of answers; a path is the list of its components. *)

From Stdlib Require Import Ascii.
From S2P Require Import Prelude Text Ids Json Errors Events Tables Store.

(** ** Documents *)

Record brand_colors : Type := BrandColors {
  bc_primary : string;
  bc_primary_foreground : string;
  bc_accent : string;
  bc_radius : string
}.

Record brand_links : Type := BrandLinks {
  bl_website : option string;
  bl_docs : option string;
  bl_terms : option string;
  bl_privacy : option string;
  bl_support_email : option string
}.

Record brand_email : Type := BrandEmail {
  be_from_name : option string;
  be_footer : option string
}.

Record brand_invoice : Type := BrandInvoice {
  bi_legal_name : option string;
  bi_address_lines : list string;
  bi_tax_id : option string;
  bi_footer : option string;
  bi_logo : option string
}.

Record tour_step_link : Type := TourStepLink {
  tl_label : string;
  tl_href : string
}.

Record tour_step : Type := TourStep {
  ts_id : string;
  ts_title : string;
  ts_content : string;
  ts_anchor : option string;
  ts_side : option string;
  ts_after : option string;
  ts_roles : option (list string);
  ts_permissions : option (list string);
  ts_icon : string;
  ts_link : option tour_step_link
}.

Record tour_config : Type := TourConfig {
  tc_enabled : bool;
  tc_hide : list string;
  tc_steps : list tour_step
}.

Record branding : Type := Branding {
  br_version : Z;
  br_name : string;
  br_tagline : option string;
  br_logo : option string;
  br_logo_dark : option string;
  br_favicon : option string;
  br_custom_css : option string;
  br_colors : brand_colors;
  br_links : brand_links;
  br_email : brand_email;
  br_invoice : brand_invoice;
  br_landing : string;
  br_powered_by : bool;
  br_tour : tour_config
}.

(** ** Shapes *)

Definition range (lo hi : nat) (c : ascii) : bool := let n := nat_of_ascii c in (lo <=? n) && (n <=? hi).
Definition is_digit_char : ascii -> bool := range 48 57.
Definition is_lower_char : ascii -> bool := range 97 122.
Definition is_upper_char : ascii -> bool := range 65 90.
Definition is_hex_char (c : ascii) : bool := is_digit_char c || range 97 102 c || range 65 70 c.
Definition one_of (s : string) (c : ascii) : bool := existsb (Ascii.eqb c) (String.list_ascii_of_string s).

Definition between (lo hi : nat) (s : string) : bool := (lo <=? String.length s) && (String.length s <=? hi).
Definition all_given {A} (p : A -> bool) (x : option A) : bool := match x with Some a => p a | None => true end.

(** [^[^\x00-\x1f\x7f]+$] and [^[^\x00]+$]. *)
Definition SINGLE_LINE (s : string) : bool := negb (String.eqb s "") && all_chars (fun c => negb (range 0 31 c || range 127 127 c)) s.
Definition MULTI_LINE (s : string) : bool := negb (String.eqb s "") && all_chars (fun c => negb (range 0 0 c)) s.

(** [^#[0-9a-fA-F]{6}$]. *)
Definition HexColor (s : string) : bool :=
  match s with String c s => Ascii.eqb c "#" && (String.length s =? 6) && all_chars is_hex_char s | _ => false end.

(** The digits a text begins with, and what follows them. *)
Fixpoint digits_then (s : string) : nat * string :=
  match s with
  | String c s' => if is_digit_char c then let '(n, rest) := digits_then s' in (S n, rest) else (O, s)
  | EmptyString => (O, EmptyString)
  end.
Definition css_unit (s : string) : bool := bool_decide (s ∈ ["px"; "rem"; "em"]).

(** [^\d+(\.\d+)?(px|rem|em)$]. *)
Definition CssLength (s : string) : bool :=
  let '(n, rest) := digits_then s in
  negb (n =? 0) &&
  (css_unit rest ||
   match rest with
   | String c rest => Ascii.eqb c "." && (let '(m, rest) := digits_then rest in negb (m =? 0) && css_unit rest)
   | EmptyString => false
   end).

(** [https?://] and at least one character that is no space, angle bracket or
    quote; at most 2048 in all. *)
Definition quote : ascii := ascii_of_nat 34.
Definition url_char (c : ascii) : bool := negb (is_space c || one_of "<>'" c || Ascii.eqb c quote).
Definition url_rest (s : string) : bool := negb (String.eqb s "") && all_chars url_char s.
Definition WebUrl (s : string) : bool :=
  (String.length s <=? 2048) &&
  ((starts_with "https://" s && url_rest (str_drop 8 s)) || (starts_with "http://" s && url_rest (str_drop 7 s))).

(** [^[A-Za-z0-9][A-Za-z0-9._-]{0,63}$]: no separators, no leading dot. *)
Definition alnum_char (c : ascii) : bool := is_digit_char c || is_lower_char c || is_upper_char c.
Definition asset_char (c : ascii) : bool := alnum_char c || one_of "._-" c.
Definition AssetName (s : string) : bool :=
  match s with String c s => alnum_char c && (String.length s <=? 63) && all_chars asset_char s | _ => false end.

Definition StepId (s : string) : bool :=
  match s with String c s => is_lower_char c && (String.length s <=? 40) &&
    all_chars (fun c => is_lower_char c || is_digit_char c || Ascii.eqb c "-") s | _ => false end.
Definition RoleKey (s : string) : bool :=
  between 2 64 s && all_chars (fun c => is_lower_char c || is_digit_char c || Ascii.eqb c "_") s.
Definition key_word (s : string) : bool :=
  match s with String c s => is_lower_char c && all_chars (fun c => is_lower_char c || Ascii.eqb c "_") s | _ => false end.
Definition PermissionKey (s : string) : bool :=
  let '(resource, found, action) := partition ":" s in found && key_word resource && key_word action.

Definition BUILTIN_STEP_IDS : list string :=
  ["welcome"; "org-switcher"; "plan"; "usage"; "features"; "nav-members"; "nav-agents"; "nav-api-keys"; "nav-developer";
   "nav-webhooks"; "nav-billing"; "nav-usage"; "nav-admin"; "done"].
Definition TOUR_ANCHORS : list string :=
  ["org-switcher"; "plan"; "usage"; "features"; "nav-dashboard"; "nav-members"; "nav-agents"; "nav-api-keys"; "nav-developer";
   "nav-webhooks"; "nav-billing"; "nav-usage"; "nav-audit"; "nav-settings"; "nav-admin"; "take-the-tour"].
Definition TOUR_SIDES : list string :=
  ["top"; "bottom"; "left"; "right"; "top-left"; "top-right"; "bottom-left"; "bottom-right"; "left-top"; "left-bottom";
   "right-top"; "right-bottom"].
Definition TOUR_ICONS : list string :=
  ["sparkles"; "compass"; "building"; "receipt"; "gauge"; "toggle"; "users"; "bot"; "key"; "code"; "webhook"; "credit-card";
   "chart"; "shield"; "rocket"; "link"; "mail"; "file"; "clipboard"; "plug"; "book"; "lightbulb"].
Definition MAX_TOUR_STEPS : nat := 20.
Definition literal (l : list string) (s : string) : bool := bool_decide (s ∈ l).

(** [Path(name).suffix]: from the last dot, unless it begins or ends the name. *)
Fixpoint after_last_dot (s : string) : option string :=
  match s with
  | EmptyString => None
  | String c s' => match after_last_dot s' with Some x => Some x | None => if Ascii.eqb c "." then Some s' else None end
  end.
Definition suffix (name : string) : string :=
  match name with
  | String _ rest => match after_last_dot rest with Some x => if String.eqb x "" then "" else "." +:+ x | None => "" end
  | EmptyString => ""
  end.

Definition LOGO_EXTENSIONS : list string := [".svg"; ".png"].
Definition FAVICON_EXTENSIONS : list string := [".ico"; ".png"; ".svg"].
Definition CSS_EXTENSIONS : list string := [".css"].
Definition _check_extension (allowed : list string) (name : string) : bool := literal allowed (lower (suffix name)).

(** [_first_duplicate]. *)
Fixpoint first_duplicate_from (seen : list string) (values : list string) : option string :=
  match values with
  | [] => None
  | v :: values => if bool_decide (v ∈ seen) then Some v else first_duplicate_from (v :: seen) values
  end.
Definition _first_duplicate (values : list string) : option string := first_duplicate_from [] values.

Section Validation.
Context (email_address : string -> bool).

Definition colors_valid (c : brand_colors) : bool :=
  HexColor (bc_primary c) && HexColor (bc_primary_foreground c) && HexColor (bc_accent c) && CssLength (bc_radius c).
Definition links_valid (l : brand_links) : bool :=
  all_given WebUrl (bl_website l) && all_given WebUrl (bl_docs l) && all_given WebUrl (bl_terms l) &&
  all_given WebUrl (bl_privacy l) && all_given email_address (bl_support_email l).
Definition line (hi : nat) (s : string) : bool := between 1 hi s && SINGLE_LINE s.
Definition text_block (hi : nat) (s : string) : bool := between 1 hi s && MULTI_LINE s.
Definition email_valid (e : brand_email) : bool :=
  all_given (line 80) (be_from_name e) && all_given (text_block 500) (be_footer e).
Definition asset_valid (allowed : list string) (name : string) : bool := AssetName name && _check_extension allowed name.
Definition invoice_valid (i : brand_invoice) : bool :=
  all_given (line 120) (bi_legal_name i) && (length (bi_address_lines i) <=? 6) && forallb (line 120) (bi_address_lines i) &&
  all_given (line 60) (bi_tax_id i) && all_given (text_block 200) (bi_footer i) &&
  all_given (asset_valid LOGO_EXTENSIONS) (bi_logo i).
Definition some_keys (p : string -> bool) (l : list string) : bool := (1 <=? length l) && (length l <=? 10) && forallb p l.
Definition step_valid (s : tour_step) : bool :=
  StepId (ts_id s) && negb (literal BUILTIN_STEP_IDS (ts_id s)) && line 80 (ts_title s) && line 400 (ts_content s) &&
  all_given (literal TOUR_ANCHORS) (ts_anchor s) && all_given (literal TOUR_SIDES) (ts_side s) &&
  all_given (literal BUILTIN_STEP_IDS) (ts_after s) && all_given (some_keys RoleKey) (ts_roles s) &&
  all_given (some_keys PermissionKey) (ts_permissions s) && literal TOUR_ICONS (ts_icon s) &&
  all_given (fun l => line 40 (tl_label l) && WebUrl (tl_href l)) (ts_link s).
Definition tour_valid (t : tour_config) : bool :=
  (length (tc_hide t) <=? length BUILTIN_STEP_IDS) && forallb (literal BUILTIN_STEP_IDS) (tc_hide t) &&
  (length (tc_steps t) <=? MAX_TOUR_STEPS) && forallb step_valid (tc_steps t) &&
  bool_decide (_first_duplicate (ts_id <$> tc_steps t) = None) && bool_decide (_first_duplicate (tc_hide t) = None).
Definition branding_valid (b : branding) : bool :=
  (br_version b =? 1)%Z && line 60 (br_name b) && all_given (line 160) (br_tagline b) &&
  all_given (asset_valid LOGO_EXTENSIONS) (br_logo b) && all_given (asset_valid LOGO_EXTENSIONS) (br_logo_dark b) &&
  all_given (asset_valid FAVICON_EXTENSIONS) (br_favicon b) && all_given (asset_valid CSS_EXTENSIONS) (br_custom_css b) &&
  colors_valid (br_colors b) && links_valid (br_links b) && email_valid (br_email b) && invoice_valid (br_invoice b) &&
  literal ["page"; "redirect"] (br_landing b) && tour_valid (br_tour b).
End Validation.

(** ** Derived values *)

Definition effective_from_name (b : branding) : string := or_str (be_from_name (br_email b)) (br_name b).
Definition effective_legal_name (b : branding) : string := or_str (bi_legal_name (br_invoice b)) (br_name b).

(** The fields browsers may fetch, in the order of SERVED_ASSET_FIELDS. *)
Definition served_assets (b : branding) : list (string * string) :=
  omap (fun e : string * option string => name ← e.2; Some (e.1, name))
    [("logo", br_logo b); ("logo_dark", br_logo_dark b); ("favicon", br_favicon b); ("custom_css", br_custom_css b)].
Definition referenced_assets (b : branding) : list string :=
  (served_assets b).*2 ++ match bi_logo (br_invoice b) with Some n => [n] | None => [] end.

(** ** Loading *)

Definition file_path : Type := list string.
Record file_system : Type := FileSystem {
  fs_resolve : file_path -> file_path;       (* symbolic links followed *)
  fs_is_file : file_path -> bool;
  fs_digest : file_path -> option string     (* sha256 of the bytes; [None]: unreadable *)
}.

(** A validated branding with its directory and the digests of its assets. *)
Record loaded : Type := Loaded {
  ld_branding : branding;
  ld_dir : file_path;
  ld_digests : list (string * string)
}.

Inductive asset_problem : Type := NotFound (name : string) | Unreadable (name : string).

(** [p.is_relative_to(root)]. *)
Fixpoint is_relative_to (p root : file_path) : bool :=
  match root, p with
  | [], _ => true
  | x :: root, y :: p => String.eqb x y && is_relative_to p root
  | _ :: _, [] => false
  end.

Definition asset_path (fs : file_system) (b : branding) (dir : file_path) (name : string) : result file_path :=
  if bool_decide (name ∉ referenced_assets b) then Err (Domain NotFoundError [])
  else
    let root := fs_resolve fs dir in
    let candidate := fs_resolve fs (root ++ [name]) in
    if negb (is_relative_to candidate root) || negb (fs_is_file fs candidate) then Err (Domain NotFoundError [])
    else Ok candidate.

Definition DIGEST_LENGTH : nat := 8.
Definition load_asset (fs : file_system) (b : branding) (dir : file_path) (name : string) : asset_problem + string :=
  match asset_path fs b dir name with
  | Err _ => inl (NotFound name)
  | Ok asset => match fs_digest fs asset with Some d => inr (str_take DIGEST_LENGTH d) | None => inl (Unreadable name) end
  end.

Fixpoint load_assets (fs : file_system) (b : branding) (dir : file_path) (names : list string) :
    list asset_problem * list (string * string) :=
  match names with
  | [] => ([], [])
  | n :: names =>
      let '(problems, digests) := load_assets fs b dir names in
      match load_asset fs b dir n with inl p => (p :: problems, digests) | inr d => (problems, (n, d) :: digests) end
  end.

Definition _invalid (path : string) (errors : list string) : exn :=
  Domain BrandingInvalidError [("path", JStr path); ("errors", JList (JStr <$> errors))].

(** The file is what was parsed from it, or the messages of what went wrong before
    there was a document of the fields' types: one for a file that is missing,
    unreadable or not YAML. *)
Definition load_branding (email_address : string -> bool) (schema_errors : branding -> list string)
    (problem_text : asset_problem -> string) (fs : file_system) (path : string) (dir : file_path)
    (file : list string + branding) : result loaded :=
  match file with
  | inl errors => Err (_invalid path errors)
  | inr b =>
      if branding_valid email_address b then
        match load_assets fs b dir (sorted_set (referenced_assets b)) with
        | ([], digests) => Ok (Loaded b dir digests)
        | (problems, _) => Err (_invalid path (problem_text <$> problems))
        end
      else Err (_invalid path (schema_errors b))
  end.

(** ** The public surface *)

Definition digest_of (l : loaded) (name : string) : option string :=
  snd <$> head (filter (fun e : string * string => e.1 = name) (ld_digests l)).
Definition asset_url (l : loaded) (name : string) : string :=
  "/v1/branding/assets/" +:+ name +:+ match digest_of l name with Some d => if String.eqb d "" then "" else "?v=" +:+ d | None => "" end.

Definition MEDIA_TYPES : list (string * string) :=
  [(".svg", "image/svg+xml"); (".png", "image/png"); (".ico", "image/x-icon"); (".css", "text/css")].
Definition asset_media_type (name : string) : string :=
  default "application/octet-stream" (snd <$> head (filter (fun e : string * string => e.1 = lower (suffix name)) MEDIA_TYPES)).

Record branding_read : Type := BrandingRead {
  bd_name : string;
  bd_tagline : option string;
  bd_assets : list (string * string);
  bd_colors : brand_colors;
  bd_links : brand_links;
  bd_landing : string;
  bd_powered_by : bool;
  bd_tour : tour_config
}.
Definition BRANDING_MAX_AGE : Z := 60.
Definition ASSET_MAX_AGE : Z := 86400.
Definition SVG_CSP : string := "default-src 'none'; style-src 'unsafe-inline'".

Definition read_branding (l : loaded) : branding_read :=
  let b := ld_branding l in
  BrandingRead (br_name b) (br_tagline b) ((fun e => (e.1, asset_url l e.2)) <$> served_assets b) (br_colors b) (br_links b)
    (br_landing b) (br_powered_by b) (br_tour b).

Record file_response : Type := FileResponse {
  fr_path : file_path;
  fr_media_type : string;
  fr_headers : list (string * string)
}.

Definition read_branding_asset (fs : file_system) (l : loaded) (name : string) : result file_response :=
  if bool_decide (name ∉ (served_assets (ld_branding l)).*2) then Err (Domain NotFoundError [])
  else
    match asset_path fs (ld_branding l) (ld_dir l) name with
    | Err e => Err e
    | Ok path =>
        let media_type := asset_media_type name in
        Ok (FileResponse path media_type
          ([("Cache-Control", "public, max-age=" +:+ Z_str ASSET_MAX_AGE); ("X-Content-Type-Options", "nosniff")] ++
           (if String.eqb media_type "image/svg+xml"
            then [("Content-Security-Policy", SVG_CSP); ("Content-Disposition", "inline")] else [])))
    end.

(** ** Laws *)

Lemma load_assets_ok fs b dir names digests : load_assets fs b dir names = ([], digests) ->
  digests.*1 = names /\ forall n d, (n, d) ∈ digests ->
    exists p d0, asset_path fs b dir n = Ok p /\ fs_digest fs p = Some d0 /\ d = str_take DIGEST_LENGTH d0.
Proof.
  revert digests. induction names as [|n names IH]; intros digests; cbn [load_assets].
  - intros [= <-]. split; [done|]. intros n d Hn. by apply elem_of_nil in Hn.
  - destruct (load_assets fs b dir names) as [problems ds] eqn:E. unfold load_asset.
    destruct (asset_path fs b dir n) as [p|] eqn:Ep; [|discriminate]. destruct (fs_digest fs p) as [d0|] eqn:Ed; [|discriminate].
    intros [= -> <-]. destruct (IH ds eq_refl) as [IH1 IH2]. split; [by cbn; rewrite IH1|].
    intros m d [[= -> ->]|Hm]%elem_of_cons; [by exists p, d0|by apply IH2].
Qed.

Lemma load_branding_ok email_address schema_errors problem_text fs path dir file l :
  load_branding email_address schema_errors problem_text fs path dir file = Ok l ->
  branding_valid email_address (ld_branding l) = true /\ ld_dir l = dir /\
  load_assets fs (ld_branding l) dir (sorted_set (referenced_assets (ld_branding l))) = ([], ld_digests l).
Proof.
  unfold load_branding. destruct file as [|b]; [discriminate|]. destruct (branding_valid email_address b) eqn:Hv; [|discriminate].
  destruct (load_assets _ _ _ _) as [[|p ps] ds] eqn:E; [|discriminate]. by intros [= <-].
Qed.

Lemma served_referenced b name : name ∈ (served_assets b).*2 -> name ∈ referenced_assets b.
Proof. intros H. apply elem_of_app. by left. Qed.

(** A served asset carries one of the allowed extensions. *)
Lemma served_valid email_address b name : branding_valid email_address b = true -> name ∈ (served_assets b).*2 ->
  AssetName name = true /\ lower (suffix name) ∈ MEDIA_TYPES.*1.
Proof.
  unfold branding_valid. rewrite !andb_true_iff. intros ((((((((((((_ & _) & _) & H1) & H2) & H3) & H4) & _) & _) & _) & _) & _) & _).
  assert (Hv : forall allowed x, (forall e, e ∈ allowed -> e ∈ MEDIA_TYPES.*1) -> all_given (asset_valid allowed) x = true -> x = Some name ->
    AssetName name = true /\ lower (suffix name) ∈ MEDIA_TYPES.*1).
  { intros allowed x Hall Hx ->. cbn in Hx. apply andb_true_iff in Hx as [Hn Hc]. split; [done|].
    unfold _check_extension, literal in Hc. apply bool_decide_eq_true in Hc. by apply Hall. }
  intros Hin. unfold served_assets in Hin. apply list_elem_of_fmap in Hin as ([field n] & -> & Hin). cbn [snd] in *.
  apply list_elem_of_omap in Hin as ([f x] & Hf & Ex). cbn in Ex. destruct x as [x|]; [|discriminate]. injection Ex as -> ->.
  assert (Hl : forall e, e ∈ LOGO_EXTENSIONS -> e ∈ MEDIA_TYPES.*1) by (cbn; set_solver).
  assert (Hi : forall e, e ∈ FAVICON_EXTENSIONS -> e ∈ MEDIA_TYPES.*1) by (cbn; set_solver).
  assert (Hs : forall e, e ∈ CSS_EXTENSIONS -> e ∈ MEDIA_TYPES.*1) by (cbn; set_solver).
  rewrite !elem_of_cons in Hf. destruct Hf as [[= _ E]|[[= _ E]|[[= _ E]|[[= _ E]|Hf]]]]; [..|by apply elem_of_nil in Hf].
  - by apply (Hv _ _ Hl H1).
  - by apply (Hv _ _ Hl H2).
  - by apply (Hv _ _ Hi H3).
  - by apply (Hv _ _ Hs H4).
Qed.

Lemma digest_known fs b dir l n : load_assets fs b dir (sorted_set (referenced_assets b)) = ([], ld_digests l) -> n ∈ referenced_assets b ->
  exists p d, asset_path fs b dir n = Ok p /\ fs_digest fs p = Some d /\ digest_of l n = Some (str_take DIGEST_LENGTH d).
Proof.
  intros E Hn. destruct (load_assets_ok _ _ _ _ _ E) as [Hnames Hds]. unfold digest_of.
  assert (Hin : n ∈ (ld_digests l).*1) by (rewrite Hnames; by apply elem_of_sorted_set).
  apply list_elem_of_fmap in Hin as ([n' d] & -> & Hin). cbn [fst] in *.
  destruct (filter (fun e : string * string => e.1 = n') (ld_digests l)) as [|[m d'] rest] eqn:Ef.
  - exfalso. by apply (filter_nil_not_elem_of _ _ (n', d) Ef).
  - assert (Hm : (m, d') ∈ filter (fun e : string * string => e.1 = n') (ld_digests l)) by (rewrite Ef; left).
    apply list_elem_of_filter in Hm as [Em Hm]. cbn [fst] in Em. subst m.
    destruct (Hds n' d' Hm) as (p & d0 & H1 & H2 & ->). by exists p, d0.
Qed.

Lemma asset_path_confined fs b dir name p : asset_path fs b dir name = Ok p ->
  is_relative_to p (fs_resolve fs dir) = true /\ fs_is_file fs p = true.
Proof.
  unfold asset_path. case_bool_decide; [discriminate|]. destruct (is_relative_to _ _) eqn:E1; [|discriminate].
  destruct (fs_is_file _ _) eqn:E2; [|discriminate]. by intros [= <-].
Qed.

Lemma media_type_known name : lower (suffix name) ∈ MEDIA_TYPES.*1 -> (lower (suffix name), asset_media_type name) ∈ MEDIA_TYPES.
Proof.
  unfold asset_media_type. generalize (lower (suffix name)). intros x Hx. cbn in Hx. rewrite !elem_of_cons in Hx.
  destruct Hx as [->|[->|[->|[->|Hx]]]]; [apply (bool_decide_unpack _); vm_compute; exact I..|by apply elem_of_nil in Hx].
Qed.

(** Of a branding that loaded, exactly the assets its four browser fields name are
    served, each from a regular file under the branding directory, symbolic links
    followed, with a media type from the list and, for an SVG, the policy that stops
    scripts; any other name is not found, the invoice logo and paths out of the
    directory included; and every URL the branding publishes carries the digest of
    a file that is served. *)
Theorem assets_served_exactly email_address schema_errors problem_text fs path dir file l :
  load_branding email_address schema_errors problem_text fs path dir file = Ok l ->
  (forall name, name ∉ (served_assets (ld_branding l)).*2 -> read_branding_asset fs l name = Err (Domain NotFoundError [])) /\
  (forall name, name ∈ (served_assets (ld_branding l)).*2 -> exists r, read_branding_asset fs l name = Ok r /\
     is_relative_to (fr_path r) (fs_resolve fs dir) = true /\ fs_is_file fs (fr_path r) = true /\
     (lower (suffix name), fr_media_type r) ∈ MEDIA_TYPES /\
     (fr_media_type r = "image/svg+xml" -> ("Content-Security-Policy", SVG_CSP) ∈ fr_headers r)) /\
  (forall field url, (field, url) ∈ bd_assets (read_branding l) ->
     exists name d r, (field, name) ∈ served_assets (ld_branding l) /\ read_branding_asset fs l name = Ok r /\
       fs_digest fs (fr_path r) = Some d /\ digest_of l name = Some (str_take DIGEST_LENGTH d) /\ url = asset_url l name).
Proof.
  intros (Hv & <- & Hl)%load_branding_ok.
  assert (Hserve : forall name, name ∈ (served_assets (ld_branding l)).*2 -> exists p d, asset_path fs (ld_branding l) (ld_dir l) name = Ok p /\
    fs_digest fs p = Some d /\ digest_of l name = Some (str_take DIGEST_LENGTH d) /\
    exists r, read_branding_asset fs l name = Ok r /\ fr_path r = p /\ fr_media_type r = asset_media_type name /\
      (fr_media_type r = "image/svg+xml" -> ("Content-Security-Policy", SVG_CSP) ∈ fr_headers r)).
  { intros name Hn. destruct (digest_known fs (ld_branding l) (ld_dir l) l name Hl (served_referenced _ _ Hn)) as (p & d & H1 & H2 & H3).
    exists p, d. split_and!; [done..|]. unfold read_branding_asset. rewrite bool_decide_eq_false_2, H1 by (by intros ?).
    eexists. split; [reflexivity|]. split; [done|]. split; [done|]. cbn [fr_media_type fr_headers]. intros ->. apply elem_of_app. right. left. }
  split_and!.
  - intros name Hn. unfold read_branding_asset. by rewrite bool_decide_eq_true_2.
  - intros name Hn. destruct (Hserve name Hn) as (p & d & Hp & _ & _ & r & Hr & <- & Hm & Hcsp). exists r. split; [done|].
    destruct (asset_path_confined _ _ _ _ _ Hp) as [H1 H2]. split_and!; [done|done| |done]. rewrite Hm.
    apply media_type_known. by destruct (served_valid email_address _ name Hv Hn).
  - intros field url Hin. cbn in Hin. apply list_elem_of_fmap in Hin as ([f name] & [= -> ->] & Hin).
    destruct (Hserve name (list_elem_of_fmap_2 snd _ _ Hin)) as (p & d & _ & Hd & Hdig & r & Hr & <- & _). by exists name, d, r.
Qed.

(** ** Witness *)

Definition kit : branding :=
  Branding 1 "Synapse" None (Some "logo.svg") None (Some "favicon.ico") None (BrandColors "#18181b" "#ffffff" "#2563eb" "0.5rem")
    (BrandLinks (Some "https://synapse.test") None None None None) (BrandEmail None None) (BrandInvoice None [] None None (Some "stamp.png"))
    "page" true (TourConfig true ["plan"] []).
Definition kit_dir : file_path := ["etc"; "branding"].
Definition disk : file_system := FileSystem id (fun p => bool_decide (p ∈ [kit_dir ++ ["logo.svg"]; kit_dir ++ ["favicon.ico"]; kit_dir ++ ["stamp.png"]]))
  (fun p => Some "0123456789abcdef").
Definition no_problems (_ : asset_problem) : string := "".
Definition kit_loaded : loaded := Loaded kit kit_dir
  [("favicon.ico", "01234567"); ("logo.svg", "01234567"); ("stamp.png", "01234567")].

Lemma assets_served_exactly_witness :
  read_branding_asset disk kit_loaded "stamp.png" = Err (Domain NotFoundError []) /\
  (exists r, read_branding_asset disk kit_loaded "logo.svg" = Ok r /\ ("Content-Security-Policy", SVG_CSP) ∈ fr_headers r) /\
  ("logo", "/v1/branding/assets/logo.svg?v=01234567") ∈ bd_assets (read_branding kit_loaded).
Proof.
  destruct (assets_served_exactly (fun _ => true) (fun _ => []) no_problems disk "branding.yaml" kit_dir (inr kit) kit_loaded
    ltac:(vm_compute; reflexivity)) as (H1 & H2 & _).
  split; [apply H1; apply (bool_decide_unpack _); vm_compute; exact I|]. split; [|vm_compute; left].
  destruct (H2 "logo.svg" ltac:(apply (bool_decide_unpack _); vm_compute; exact I)) as (r & E & _ & _ & Hm & Hc).
  exists r. split; [exact E|]. apply Hc. vm_compute in E. injection E as <-. reflexivity.
Defined.
