(* ===== verification/Dynamic.v ===== *)
(** Decoded values: what Python does with a JSON value it has just parsed.  Reading
    members, equality and truth, [str], [int], [datetime.fromtimestamp], and exact
    decimal amounts (the [json], [datetime] and [decimal] modules). *)

From Stdlib Require Import Ascii SpecFloat DecimalString DecimalFacts DecimalN DecimalZ.
From S2P Require Import Prelude Text Ids Json Errors Events Tables Store.

(** ** Members *)

(** [d[k]] raises [KeyError] without the member, and [TypeError] when [d] is no
    object; so does reading a member at a type it does not have. *)
Definition KeyError {A} : result A := Err (PyError "KeyError").
Definition TypeError {A} : result A := Err (PyError "TypeError").

#[export] Instance result_ret : MRet result := fun A a => Ok a.
#[export] Instance result_bind : MBind result := fun A B f r =>
  match r with Ok a => f a | Err e => Err e end.

Definition member (k : string) (j : json) : result json :=
  match j with
  | JObj o => match jget k o with Some v => Ok v | None => KeyError end
  | _ => TypeError
  end.

Definition as_opt_str (j : json) : result (option string) :=
  match j with JNull => Ok None | JStr s => Ok (Some s) | _ => TypeError end.
Definition as_opt_int (j : json) : result (option Z) :=
  match j with JNull => Ok None | JInt z => Ok (Some z) | _ => TypeError end.
Definition as_opt_float (j : json) : result (option float) :=
  match j with JNull => Ok None | JFloat f => Ok (Some f) | _ => TypeError end.
Definition as_int (j : json) : result Z := match j with JInt z => Ok z | _ => TypeError end.
Definition as_str (j : json) : result string := match j with JStr s => Ok s | _ => TypeError end.
Definition as_list (j : json) : result (list json) :=
  match j with JList l => Ok l | _ => TypeError end.

Fixpoint map_result {A B} (f : A -> result B) (l : list A) : result (list B) :=
  match l with
  | [] => Ok []
  | x :: l => y ← f x; ys ← map_result f l; Ok (y :: ys)
  end.

(** [d.get(k, e)]: [AttributeError] when [d] is no object. *)
Definition py_get (k : string) (e d : json) : result json :=
  match d with JObj o => Ok (default e (jget k o)) | _ => Err (PyError "AttributeError") end.

(** ** Equality and truth *)

(** [a == b] of two decoded documents: booleans are the integers 0 and 1, numbers
    compare by value, dictionaries regardless of their order. *)
Definition float_is_int (f : float) (z : Z) : bool :=
  match f with
  | S754_zero _ => (z =? 0)%Z
  | S754_finite s m e =>
      let a := if s then Z.neg m else Z.pos m in
      if (0 <=? e)%Z then (Z.shiftl a e =? z)%Z else (a =? Z.shiftl z (- e))%Z
  | _ => false
  end.
Definition number_of (j : json) : option (Z + float) :=
  match j with
  | JBool b => Some (inl (Z.b2z b))
  | JInt z => Some (inl z)
  | JFloat f => Some (inr f)
  | _ => None
  end.
Definition number_eq (x y : Z + float) : bool :=
  match x, y with
  | inl a, inl b => (a =? b)%Z
  | inl z, inr f | inr f, inl z => float_is_int f z
  | inr f, inr g => SFeqb f g
  end.
Fixpoint py_eq (a b : json) {struct a} : bool :=
  match a with
  | JList l =>
      match b with
      | JList l' => (fix eqs (l l' : list json) := match l, l' with
                     | [], [] => true
                     | x :: l, y :: l' => py_eq x y && eqs l l'
                     | _, _ => false
                     end) l l'
      | _ => false
      end
  | JObj o =>
      match b with
      | JObj o' => (length o =? length o') && (fix within (o : jobj) := match o with
                     | [] => true
                     | (k, x) :: o => match jget k o' with Some y => py_eq x y | None => false end && within o
                     end) o
      | _ => false
      end
  | _ => match number_of a, number_of b with
         | Some x, Some y => number_eq x y
         | None, None => bool_decide (a = b)
         | _, _ => false
         end
  end.

Definition truthy (j : json) : bool :=
  match j with
  | JNull => false
  | JBool b => b
  | JInt z => negb (z =? 0)%Z
  | JFloat f => truthy_float f
  | JStr s => negb (String.eqb s "")
  | JList l => negb (Nat.eqb (length l) 0)
  | JObj o => negb (Nat.eqb (length o) 0)
  | JUuid _ | JTime _ | JDate _ => true
  end.

(** [a or b]. *)
Definition jor (a b : json) : json := if truthy a then a else b.

(** ** Integers *)

Definition is_digit (c : ascii) : bool := let n := nat_of_ascii c in (48 <=? n) && (n <=? 57).
Definition digit_of (c : ascii) : Z := (Z.of_nat (nat_of_ascii c) - 48)%Z.

(** The digits after the first: an underscore only between two of them. *)
Fixpoint more_digits (acc : Z) (gap : bool) (s : string) : option Z :=
  match s with
  | EmptyString => if gap then None else Some acc
  | String c s =>
      if is_digit c then more_digits (10 * acc + digit_of c) false s
      else if Ascii.eqb c "_" && negb gap then more_digits acc true s
      else None
  end.
Definition digits_value (s : string) : option Z :=
  match s with
  | String c s => if is_digit c then more_digits (digit_of c) false s else None
  | EmptyString => None
  end.

(** [sys.get_int_max_str_digits()]. *)
Definition INT_MAX_STR_DIGITS : Z := 4300.
Fixpoint count_digits (s : string) : Z :=
  match s with EmptyString => 0 | String c s => (if is_digit c then 1 else 0) + count_digits s end.

(** [int(s)] of a text: [None] is the [ValueError]. *)
Definition signed {A} (f : string -> option A) (neg : A -> A) (s : string) : option A :=
  match s with
  | String c r => if Ascii.eqb c "-" then neg <$> f r else if Ascii.eqb c "+" then f r else f s
  | EmptyString => f s
  end.
Definition py_int (s : string) : option Z :=
  if (INT_MAX_STR_DIGITS <? count_digits s)%Z then None else signed digits_value Z.opp (strip s).

(** [s.isdigit()]. *)
Definition py_isdigit (s : string) : bool := negb (String.eqb s "") && all_chars is_digit s.

(** ** Timestamps *)

(** [datetime.fromtimestamp(x, tz=UTC)]: years 1 to 9999, and the fraction of a
    float rounded to the nearest microsecond; another number is a [ValueError] (or
    an [OverflowError], beyond the platform's clock), another type a [TypeError]. *)
Definition MIN_TIMESTAMP : Z := -62135596800.
Definition MAX_TIMESTAMP : Z := 253402300799.
Definition instant_of_micros (us : Z) : result instant :=
  if (MIN_TIMESTAMP * SECOND <=? us)%Z && (us <? (MAX_TIMESTAMP + 1) * SECOND)%Z then Ok us
  else Err (PyError "ValueError").

(** A float as an integer, ties to even. *)
Definition round_float (f : float) : Z :=
  match f with
  | S754_finite s m e =>
      let a := if s then Z.neg m else Z.pos m in
      if (0 <=? e)%Z then Z.shiftl a e else round_half_even a (Z.shiftl 1 (- e))
  | _ => 0%Z
  end.
Definition float_micros (f : float) : option Z :=
  match f with
  | S754_zero _ => Some 0%Z
  | S754_finite s m e =>
      if (0 <=? e)%Z then Some (Z.shiftl (if s then Z.neg m else Z.pos m) e * SECOND)%Z
      else
        let d := Z.shiftl 1 (- e) in
        let sign := (if s then -1 else 1)%Z in
        let fraction := binary_normalize 53 1024 (sign * (Z.pos m mod d))%Z e s in
        Some (sign * (Z.pos m / d) * SECOND + round_float (float_mul fraction (float_of_Z SECOND)))%Z
  | _ => None
  end.
Definition from_timestamp (j : json) : result instant :=
  match j with
  | JInt z => instant_of_micros (z * SECOND)
  | JBool b => Ok (Z.b2z b * SECOND)%Z
  | JFloat f => match float_micros f with Some us => instant_of_micros us | None => Err (PyError "ValueError") end
  | _ => TypeError
  end.

Section Str.
(** [str] of a float or of a container, [str(f)]: the shortest text that reads
    back, and the [repr] of each element. *)
Context (repr : json -> string).

Definition py_str (j : json) : string :=
  match j with
  | JStr s => s
  | JNull => "None"
  | JBool b => if b then "True" else "False"
  | JInt z => Z_str z
  | JUuid u => uuid_str u
  | _ => repr j
  end.
End Str.

(** ** Decimal amounts *)

Inductive decimal : Type :=
  | Finite (negative : bool) (coefficient exponent : Z)
  | Infinite
  | NotANumber (signaling : bool).

(** The digits a text starts with: the value they extend [acc] to, how many there
    are, and the rest. *)
Fixpoint scan_digits (acc n : Z) (s : string) : Z * Z * string :=
  match s with
  | String c r => if is_digit c then scan_digits (10 * acc + digit_of c) (n + 1) r else (acc, n, s)
  | EmptyString => (acc, n, s)
  end.

Definition exponent_value (s : string) : option Z :=
  let '(x, n, r) := scan_digits 0 0 s in if (0 <? n)%Z && String.eqb r "" then Some x else None.

(** [digits.digits[e[+-]digits]], with a digit on one side of the point. *)
Definition finite_decimal (s : string) : option (Z * Z) :=
  let '(i, n, r) := scan_digits 0 0 s in
  let '(c, m, r) := match r with
                    | String p r' => if Ascii.eqb p "." then scan_digits i 0 r' else (i, 0%Z, r)
                    | EmptyString => (i, 0%Z, r)
                    end in
  if (n + m =? 0)%Z then None
  else match r with
  | EmptyString => Some (c, (- m)%Z)
  | String p r =>
      if Ascii.eqb p "e" || Ascii.eqb p "E"
      then x ← signed exponent_value Z.opp r; Some (c, (x - m)%Z)
      else None
  end.

Fixpoint remove_char (a : ascii) (s : string) : string :=
  match s with
  | EmptyString => EmptyString
  | String c s => if Ascii.eqb c a then remove_char a s else String c (remove_char a s)
  end.

Definition num_digits (c : Z) : Z := Z.of_nat (String.length (Z_str c)).
Definition MAX_EMAX : Z := 999999999999999999.
Definition MIN_ETINY : Z := -1999999999999999997.

Definition unsigned_decimal (s : string) : option decimal :=
  let l := lower s in
  if String.eqb l "inf" || String.eqb l "infinity" then Some Infinite
  else if starts_with "nan" l && (let r := str_drop 3 l in String.eqb r "" || py_isdigit r) then Some (NotANumber false)
  else if starts_with "snan" l && (let r := str_drop 4 l in String.eqb r "" || py_isdigit r) then Some (NotANumber true)
  else
    ce ← finite_decimal s;
    let '(c, e) := (ce : Z * Z) in
    if negb (c =? 0)%Z && ((MAX_EMAX <? e + num_digits c - 1)%Z || (e <? MIN_ETINY)%Z) then None
    else Some (Finite false c e).
Definition negated (d : decimal) : decimal :=
  match d with Finite n c e => Finite (negb n) c e | _ => d end.

(** [Decimal(s)]: [None] is the [InvalidOperation]. *)
Definition decimal_of_str (s : string) : option decimal :=
  signed unsigned_decimal negated (remove_char "_" (strip s)).

(** The default context keeps 28 significant digits, ties to even. *)
Definition PRECISION : Z := 10 ^ 28.
Definition context_round (c e : Z) : Z * Z :=
  if (c <? PRECISION)%Z then (c, e)
  else
    let k := (num_digits c - 28)%Z in
    let q := round_half_even c (10 ^ k) in
    if (q <? PRECISION)%Z then (q, (e + k)%Z) else ((q / 10)%Z, (e + k + 1)%Z).

(** [quantize(Decimal(1), ROUND_HALF_UP)] of [c * 10^e]: [None] is the
    [InvalidOperation] of a result of more than 28 digits. *)
Definition quantize_units (c e : Z) : option Z :=
  if (c =? 0)%Z then Some 0%Z
  else if (28 <? e)%Z then None
  else
    let v := if (0 <=? e)%Z then (c * 10 ^ e)%Z
             else if (num_digits c <? - e)%Z then 0%Z else round_half_up c (10 ^ (- e)) in
    if (v <? PRECISION)%Z then Some v else None.

(** [int((Decimal(s) * 100).quantize(Decimal(1), rounding=ROUND_HALF_UP))]; a product
    beyond the context's exponents is an error of the same base class. *)
Definition hundredths_of (d : decimal) : result Z :=
  match d with
  | Finite negative c e =>
      let '(c, e) := context_round (c * 100) e in
      match quantize_units c e with
      | Some v => Ok (if negative then - v else v)%Z
      | None => Err (PyError "InvalidOperation")
      end
  | NotANumber false => Err (PyError "ValueError")
  | Infinite | NotANumber true => Err (PyError "InvalidOperation")
  end.

(** ** Printed integers read back *)

(** The value of the digits that extend [acc]. *)
Fixpoint uint_value (acc : Z) (d : Decimal.uint) : Z :=
  match d with
  | Decimal.Nil => acc
  | Decimal.D0 d => uint_value (10 * acc) d
  | Decimal.D1 d => uint_value (10 * acc + 1) d
  | Decimal.D2 d => uint_value (10 * acc + 2) d
  | Decimal.D3 d => uint_value (10 * acc + 3) d
  | Decimal.D4 d => uint_value (10 * acc + 4) d
  | Decimal.D5 d => uint_value (10 * acc + 5) d
  | Decimal.D6 d => uint_value (10 * acc + 6) d
  | Decimal.D7 d => uint_value (10 * acc + 7) d
  | Decimal.D8 d => uint_value (10 * acc + 8) d
  | Decimal.D9 d => uint_value (10 * acc + 9) d
  end.

Lemma of_uint_acc_value d p : Z.pos (Pos.of_uint_acc d p) = uint_value (Z.pos p) d.
Proof.
  revert p. induction d; intros p; [done|..];
    cbn [Pos.of_uint_acc uint_value]; rewrite IHd; f_equal; lia.
Qed.

Lemma of_uint_value d : Z.of_uint d = uint_value 0 d.
Proof.
  unfold Z.of_uint. induction d; [done|exact IHd|..];
    cbn [Pos.of_uint Z.of_N uint_value]; rewrite of_uint_acc_value; reflexivity.
Qed.

#[export] Instance uint_eq_dec : EqDecision Decimal.uint.
Proof. solve_decision. Defined.

Lemma more_digits_uint d acc gap : d <> Decimal.Nil -> more_digits acc gap (NilEmpty.string_of_uint d) = Some (uint_value acc d).
Proof.
  revert acc gap. induction d as [|d IH|d IH|d IH|d IH|d IH|d IH|d IH|d IH|d IH|d IH]; intros acc gap Hne; [done|..];
    cbn [NilEmpty.string_of_uint more_digits uint_value];
    (destruct (decide (d = Decimal.Nil)) as [->|Hd]; [cbn; by rewrite ?Z.add_0_r|]);
    (etrans; [by apply IH|]); cbn; by rewrite ?Z.add_0_r.
Qed.

Lemma scan_digits_uint d acc n r :
  match r with String c _ => is_digit c = false | EmptyString => True end ->
  scan_digits acc n (NilEmpty.string_of_uint d +:+ r) =
    (uint_value acc d, (n + Z.of_nat (String.length (NilEmpty.string_of_uint d)))%Z, r).
Proof.
  intros Hr. revert acc n. induction d as [|d IH|d IH|d IH|d IH|d IH|d IH|d IH|d IH|d IH|d IH]; intros acc n.
  1: { simpl. rewrite Z.add_0_r. destruct r as [|c r]; [done|]. simpl. by rewrite Hr. }
  all: cbn [NilEmpty.string_of_uint String.length]; rewrite string_app_cons, Nat2Z.inj_succ;
    rewrite <- Z.add_1_l, Z.add_assoc; cbn [uint_value]; rewrite <- (IH _ (n + 1)%Z); cbn; by rewrite ?Z.add_0_r.
Qed.

(** The text of a non-negative integer: its digits, and its value. *)
Lemma Z_str_uint z : (0 <= z)%Z ->
  exists d, d <> Decimal.Nil /\ Z_str z = NilEmpty.string_of_uint d /\ uint_value 0 d = z.
Proof.
  intros Hz. destruct z as [|p|p]; [|..|lia].
  - by exists (Decimal.D0 Decimal.Nil).
  - pose proof (DecimalZ.of_to (Z.pos p)) as E. change (Z.of_uint (Pos.to_uint p) = Z.pos p) in E.
    assert (Hne : Pos.to_uint p <> Decimal.Nil) by (intros H; rewrite H in E; discriminate).
    exists (Pos.to_uint p). split_and!; [done| |by rewrite <- of_uint_value].
    unfold Z_str. simpl. by destruct (Pos.to_uint p).
Qed.

Lemma strip_by_none p s : string_Forall (fun c => p c = false) s -> strip_by p s = s.
Proof.
  assert (H : forall s, string_Forall (fun c => p c = false) s -> drop_while p s = s).
  { intros [|c s']; [done|]. intros [Hc _]. simpl. by rewrite Hc. }
  intros Hs. unfold strip_by. rewrite (H s Hs), (H (rev_string s)) by (by apply string_Forall_rev).
  apply rev_string_involutive.
Qed.

Lemma strip_Z_str z : strip (Z_str z) = Z_str z.
Proof.
  apply strip_by_none. eapply string_Forall_impl; [|apply Z_str_digits]. intros c Hc.
  assert (Hall : Forall (fun c => is_space c = false) digit_chars) by (by repeat constructor).
  rewrite Forall_forall in Hall. by apply Hall.
Qed.

Lemma digits_value_uint d : d <> Decimal.Nil -> digits_value (NilEmpty.string_of_uint d) = Some (uint_value 0 d).
Proof.
  intros H. destruct d as [|d|d|d|d|d|d|d|d|d|d]; [done|..]; simpl;
    (destruct (decide (d = Decimal.Nil)) as [->|Hd]; [done|by apply more_digits_uint]).
Qed.

(** [int(str(n)) = n]. *)
Lemma py_int_Z_str z : (0 <= z)%Z -> (count_digits (Z_str z) <= INT_MAX_STR_DIGITS)%Z -> py_int (Z_str z) = Some z.
Proof.
  intros Hz Hc. unfold py_int. rewrite (proj2 (Z.ltb_ge _ _)) by done. rewrite strip_Z_str.
  destruct (Z_str_uint z Hz) as (d & Hd & -> & <-). rewrite <- (digits_value_uint d Hd). by destruct d.
Qed.

(** ** Amounts of money are exact *)

(** An amount in hundredths, written in units. *)
Definition money_text (cents : Z) : string := Z_str (cents / 100) +:+ "." +:+ zfill 2 (cents mod 100).

Lemma uint_value_shift d acc :
  uint_value acc d = (acc * 10 ^ Z.of_nat (String.length (NilEmpty.string_of_uint d)) + uint_value 0 d)%Z.
Proof.
  revert acc. induction d as [|d IH|d IH|d IH|d IH|d IH|d IH|d IH|d IH|d IH|d IH]; intros acc.
  1: { simpl. lia. }
  all: cbn [NilEmpty.string_of_uint String.length uint_value]; rewrite Nat2Z.inj_succ, Z.pow_succ_r by lia;
    match goal with |- uint_value ?a _ = (_ + uint_value ?b _)%Z => rewrite (IH a), (IH b) end; lia.
Qed.

Lemma scan_zeros k acc n s :
  scan_digits acc n (Nat.iter k (String "0"%char) s) = scan_digits (acc * 10 ^ Z.of_nat k) (n + Z.of_nat k) s.
Proof.
  revert acc n. induction k as [|k IH]; intros acc n; [by rewrite Z.mul_1_r, Z.add_0_r|].
  rewrite Nat.iter_succ. cbn [scan_digits]. change (is_digit "0") with true. cbn match. rewrite IH.
  rewrite Nat2Z.inj_succ, Z.pow_succ_r by lia. change (digit_of "0") with 0%Z. f_equal; lia.
Qed.

Lemma small_length m : (0 <= m < 100)%Z -> (String.length (Z_str m) <= 2)%nat.
Proof.
  intros H. assert (Hall : Forall (fun m => String.length (Z_str m) <= 2)%nat (seqZ 0 100)) by (apply (bool_decide_unpack _); vm_compute; exact I).
  rewrite Forall_forall in Hall. apply Hall. apply elem_of_seqZ. lia.
Qed.

Lemma scan_zfill_2 m acc : (0 <= m < 100)%Z -> scan_digits acc 0 (zfill 2 m) = ((100 * acc + m)%Z, 2%Z, "").
Proof.
  intros Hm. pose proof (small_length m Hm) as Hl. unfold zfill. rewrite concat_zeros, scan_zeros.
  destruct (Z_str_uint m) as (d & Hd & E & Hv); [lia|]. rewrite E in *. set (l := String.length _) in *.
  rewrite <- (string_app_nil (NilEmpty.string_of_uint d)), scan_digits_uint by done. fold l.
  rewrite uint_value_shift. fold l. rewrite Hv. rewrite <- Z.mul_assoc, <- Z.pow_add_r by lia.
  replace (Z.of_nat (2 - l) + Z.of_nat l)%Z with 2%Z by lia. do 2 f_equal; lia.
Qed.

Lemma remove_char_none a s : string_Forall (.≠ a) s -> remove_char a s = s.
Proof. induction s as [|c s IH]; [done|]. intros [Hc Hs]. simpl. by rewrite (proj2 (Ascii.eqb_neq c a) Hc), IH. Qed.

Definition money_chars : list ascii := "."%char :: digit_chars.
Lemma digits_money s : string_Forall (.∈ digit_chars) s -> string_Forall (.∈ money_chars) s.
Proof. apply string_Forall_impl. intros c Hc. by right. Qed.

Lemma zfill_digits w z : string_Forall (.∈ digit_chars) (zfill w z).
Proof.
  unfold zfill. rewrite concat_zeros. induction (w - _) as [|k IH]; [apply Z_str_digits|]. split; [|exact IH].
  unfold digit_chars. right. left.
Qed.

Lemma money_chars_ok cents : string_Forall (.∈ money_chars) (money_text cents).
Proof.
  unfold money_text. rewrite !string_Forall_app. split_and!; [apply digits_money, Z_str_digits| |apply digits_money, zfill_digits].
  split; [left|done].
Qed.

Lemma chars_none (P : ascii -> bool) s : forallb (fun c => negb (P c)) money_chars = true ->
  string_Forall (.∈ money_chars) s -> string_Forall (fun c => P c = false) s.
Proof.
  intros Hall. apply string_Forall_impl. intros c Hc. rewrite forallb_forall in Hall.
  specialize (Hall c (proj1 (list_elem_of_In _ _) Hc)). by apply negb_true_iff in Hall.
Qed.

Lemma finite_money cents : (0 <= cents)%Z -> finite_decimal (money_text cents) = Some (cents, (-2)%Z).
Proof.
  intros Hc. unfold finite_decimal, money_text. destruct (Z_str_uint (cents / 100)) as (d & Hd & -> & Hv); [by apply Z.div_pos|].
  rewrite scan_digits_uint by done. pose proof (scan_zfill_2 (cents mod 100) (uint_value 0 d)) as Hz.
  set (f := zfill 2 _) in *. change ("." +:+ f) with (String "."%char f). cbv beta iota. rewrite Ascii.eqb_refl.
  rewrite Hz by (apply Z.mod_pos_bound; lia). rewrite Hv, <- (Z.div_mod cents 100) by lia.
  rewrite (proj2 (Z.eqb_neq _ _)) by lia. done.
Qed.

(** Texts of digits and points are neither a name nor signed. *)
Lemma money_no_name w l : string_Forall (.∈ money_chars) l -> w <> "" ->
  match w with String c _ => negb (bool_decide (c ∈ money_chars)) | EmptyString => true end = true -> starts_with w l = false.
Proof.
  destruct w as [|c w]; [done|]. intros Hl _ Hc. apply negb_true_iff, bool_decide_eq_false in Hc.
  destruct l as [|a l]; [done|]. destruct Hl as [Ha _]. unfold starts_with. simpl. destruct (ascii_dec c a) as [->|]; done.
Qed.

Lemma lower_money s : string_Forall (.∈ money_chars) s -> lower s = s.
Proof.
  induction s as [|c s IH]; [done|]. intros [Hc Hs]. simpl. rewrite IH by done. f_equal.
  assert (H : forallb (fun c => Ascii.eqb (lower_char c) c) money_chars = true) by (vm_compute; reflexivity).
  rewrite forallb_forall in H. by apply Ascii.eqb_eq, H, list_elem_of_In.
Qed.

Lemma money_no_text w s : string_Forall (.∈ money_chars) s ->
  match w with String c _ => negb (bool_decide (c ∈ money_chars)) | EmptyString => false end = true -> String.eqb s w = false.
Proof.
  destruct w as [|c w]; [done|]. intros Hs Hc. apply negb_true_iff, bool_decide_eq_false in Hc.
  apply String.eqb_neq. intros ->. by destruct Hs.
Qed.

Lemma signed_none {A} (f : string -> option A) neg s : string_Forall (.≠ "-"%char) s -> string_Forall (.≠ "+"%char) s ->
  signed f neg s = f s.
Proof.
  destruct s as [|c s]; [done|]. intros [Hm _] [Hp _]. unfold signed.
  by rewrite (proj2 (Ascii.eqb_neq _ _) Hm), (proj2 (Ascii.eqb_neq _ _) Hp).
Qed.

Lemma uint_value_nonneg d acc : (0 <= acc)%Z -> (0 <= uint_value acc d)%Z.
Proof. revert acc. induction d as [|d IH|d IH|d IH|d IH|d IH|d IH|d IH|d IH|d IH|d IH]; intros acc H; [done|..]; apply IH; lia. Qed.

(** A positive integer is written without leading zeros. *)
Lemma num_digits_lower c : (0 < c)%Z -> (10 ^ (num_digits c - 1) <= c)%Z.
Proof.
  intros Hc. destruct c as [|p|p]; [lia| |lia].
  pose proof (DecimalZ.of_to (Z.pos p)) as E. change (Z.of_uint (Pos.to_uint p) = Z.pos p) in E.
  pose proof (DecimalN.Unsigned.to_of (Pos.to_uint p)) as U.
  assert (En : N.of_uint (Pos.to_uint p) = N.pos p) by (apply N2Z.inj; exact E).
  assert (Hd : Pos.to_uint p = Decimal.unorm (Pos.to_uint p)) by (by rewrite <- U, En).
  clear U En. rewrite of_uint_value in E. unfold num_digits. assert (Hz : Z_str (Z.pos p) = NilEmpty.string_of_uint (Pos.to_uint p)).
  { unfold Z_str. simpl. destruct (Pos.to_uint p); [discriminate|done..]. }
  rewrite Hz, <- E at 1. clear Hz. destruct (Pos.to_uint p) as [|d|d|d|d|d|d|d|d|d|d]; [discriminate| |..].
  1: { exfalso. unfold Decimal.unorm in Hd. destruct (Decimal.nzhead (Decimal.D0 d)) eqn:En; try discriminate.
       - injection Hd as ->. discriminate.
       - by apply nzhead_nonzero in En. }
  all: cbn [NilEmpty.string_of_uint String.length uint_value]; rewrite Nat2Z.inj_succ, Z.sub_1_r, Z.pred_succ, uint_value_shift;
    pose proof (uint_value_nonneg d 0 ltac:(lia)); nia.
Qed.

Lemma num_digits_upper c k : (0 < c < 10 ^ k)%Z -> (num_digits c <= k)%Z.
Proof.
  intros [Hc Hk]. pose proof (num_digits_lower c Hc) as Hl. destruct (Z.le_gt_cases (num_digits c) k) as [|H]; [done|exfalso].
  assert (0 <= k)%Z by (destruct (Z.neg_nonneg_cases k) as [Hn|]; [rewrite Z.pow_neg_r in Hk by done; lia|done]).
  pose proof (Z.pow_le_mono_r 10 k (num_digits c - 1)). lia.
Qed.

Lemma decimal_of_money cents : (0 <= cents < 10 ^ 26)%Z -> decimal_of_str (money_text cents) = Some (Finite false cents (-2)).
Proof.
  intros Hc. pose proof (money_chars_ok cents) as Hm. unfold decimal_of_str, strip.
  assert (Hnone : forall c, c ∉ money_chars -> string_Forall (.≠ c) (money_text cents)).
  { intros c Hn. eapply string_Forall_impl; [|exact Hm]. intros a Ha ->. done. }
  rewrite (strip_by_none is_space) by (by apply chars_none). rewrite remove_char_none by (apply Hnone, (bool_decide_unpack _); by vm_compute).
  rewrite signed_none; [..|apply Hnone, (bool_decide_unpack _); by vm_compute].
  2: { unfold money_text. rewrite !string_Forall_app. split_and!; [apply Z_str_no_minus, Z.div_pos; lia|done|].
       apply zfill_no_minus. apply Z.mod_pos_bound. lia. }
  unfold unsigned_decimal. rewrite (lower_money _ Hm).
  rewrite !(money_no_text _ _ Hm) by (by vm_compute). rewrite !(money_no_name _ _ Hm) by (by vm_compute). cbn [orb andb].
  rewrite finite_money by lia. simpl. destruct (Z.eqb_spec cents 0) as [|Hne]; [done|]. cbn [negb andb].
  pose proof (num_digits_upper cents 26 ltac:(lia)) as Hd. unfold MAX_EMAX.
  rewrite (proj2 (Z.ltb_ge _ _)) by lia. done.
Qed.

Lemma uint_value_below d acc : (0 <= acc)%Z ->
  (uint_value acc d < (acc + 1) * 10 ^ Z.of_nat (String.length (NilEmpty.string_of_uint d)))%Z.
Proof.
  revert acc. induction d as [|d IH|d IH|d IH|d IH|d IH|d IH|d IH|d IH|d IH|d IH]; intros acc H.
  1: { simpl. lia. }
  all: cbn [NilEmpty.string_of_uint String.length uint_value]; rewrite Nat2Z.inj_succ, Z.pow_succ_r by lia;
    match goal with |- (uint_value ?a _ < _)%Z => specialize (IH a ltac:(lia)) end; nia.
Qed.

Lemma num_digits_below c : (0 <= c)%Z -> (c < 10 ^ num_digits c)%Z.
Proof.
  intros Hc. unfold num_digits. destruct (Z_str_uint c Hc) as (d & _ & E & Hv).
  pose proof (uint_value_below d 0 ltac:(lia)) as H. rewrite Hv in H. rewrite E. lia.
Qed.

(** Writing an amount in units and reading it back gives the hundredths it was:
    nothing is rounded. *)
Lemma hundredths_of_money cents : (0 <= cents < 10 ^ 26)%Z -> hundredths_of (Finite false cents (-2)) = Ok cents.
Proof.
  intros Hc. unfold hundredths_of, context_round. rewrite (proj2 (Z.ltb_lt _ _)) by (unfold PRECISION; lia).
  unfold quantize_units. destruct (Z.eqb_spec (cents * 100) 0) as [E|E]; [by replace cents with 0%Z by lia|].
  change (28 <? -2)%Z with false. change (0 <=? -2)%Z with false. cbn match.
  pose proof (num_digits_below (cents * 100) ltac:(lia)) as Hd.
  destruct (Z.ltb_spec (num_digits (cents * 100)) (- -2)) as [Hl|Hl].
  - pose proof (Z.pow_le_mono_r 10 (num_digits (cents * 100)) 1 ltac:(lia) ltac:(lia)). lia.
  - change (10 ^ (- -2))%Z with 100%Z. rewrite round_half_up_exact by lia. by rewrite (proj2 (Z.ltb_lt _ _)) by (unfold PRECISION; lia).
Qed.
