(* ===== verification/Fga.v ===== *)
(** The OpenFGA client (authorization/fga.py): the requests its calls send, how answers
    become values and errors, and tuples written and deleted under failures.

    The server is an argument: what it answers to a request and the state it goes to.
    [Permissions] has the model and the tuples it holds. *)

From Stdlib Require Import Ascii.
From S2P Require Import Prelude Text Permissions Json Errors Events Tables Store Dynamic.

(** [FgaError] with the [body] of its extras, or an exception of the decoding. *)
Inductive fga_error : Type :=
  | FgaError (body : option string)
  | Undecodable (e : exn).

(** What [client.post] comes to: no answer, or a status and a text. *)
Inductive reply : Type := Unreachable | Reply (status_code : Z) (text : string).

Record fga_client : Type := FgaClient {
  fc_url : string;
  fc_store_id : string;
  fc_model_id : string;
  fc_token : string
}.

(** [FgaClient()]: arguments over settings, and a token given as the empty text stays. *)
Definition fga_client_of (url store_id model_id api_token : option string)
    (openfga_url openfga_store_id openfga_model_id openfga_api_token : string) : fga_client :=
  FgaClient (rstrip_char "/" (or_str url openfga_url)) (or_str store_id openfga_store_id) (or_str model_id openfga_model_id)
    (default openfga_api_token api_token).
Definition configured (c : fga_client) : bool := negb (String.eqb (fc_url c) "") && negb (String.eqb (fc_store_id c) "").

Definition as_key (t : fga_tuple) : json :=
  JObj [("user", JStr (tu_user t)); ("relation", JStr (tu_relation t)); ("object", JStr (tu_object t))].

Definition _headers (c : fga_client) : list (string * string) :=
  ("Content-Type", "application/json") ::
  (if String.eqb (fc_token c) "" then [] else [("Authorization", "Bearer " +:+ fc_token c)]).

Section Client.
Context {Sv : Type} (send : string -> jobj -> list (string * string) -> Sv -> reply * Sv).
Context (decode : string -> option json) (repr : json -> string) (c : fga_client).

Definition outcome (A : Type) : Type := A + fga_error.

(** An answer below 300 is decoded, an empty one is the empty object. *)
Definition read_reply (r : reply) : outcome json :=
  match r with
  | Unreachable => inr (FgaError None)
  | Reply status text =>
      if (300 <=? status)%Z then inr (FgaError (Some (str_take 500 text)))
      else if String.eqb text "" then inl (JObj [])
      else match decode text with Some j => inl j | None => inr (Undecodable (PyError "JSONDecodeError")) end
  end.

Definition _post (path : string) (body : jobj) (s : Sv) : outcome json * Sv :=
  if String.eqb (fc_url c) "" then (inr (FgaError None), s)
  else let '(r, s) := send (fc_url c +:+ path) body (_headers c) s in (read_reply r, s).

Definition _store_path (suffix : string) : outcome string :=
  if String.eqb (fc_store_id c) "" then inr (FgaError None) else inl ("/stores/" +:+ fc_store_id c +:+ suffix).

Definition post_store (suffix : string) (body : jobj) (s : Sv) : outcome json * Sv :=
  match _store_path suffix with inl path => _post path body s | inr e => (inr e, s) end.

Definition _body (body : jobj) : jobj :=
  if String.eqb (fc_model_id c) "" then body else jset "authorization_model_id" (JStr (fc_model_id c)) body.

Definition of_result {A} (r : result A) : outcome A := match r with Ok a => inl a | Err e => inr (Undecodable e) end.
Definition decoded {A} (f : json -> result A) (r : outcome json * Sv) : outcome A * Sv :=
  match r with (inl j, s) => (of_result (f j), s) | (inr e, s) => (inr e, s) end.

Definition check (user relation obj : string) (s : Sv) : outcome bool * Sv :=
  decoded (fun data => allowed ← py_get "allowed" (JBool false) data; Ok (truthy allowed))
    (post_store "/check"
       (_body [("tuple_key", JObj [("user", JStr user); ("relation", JStr relation); ("object", JStr obj)])]) s).

Definition list_objects (user relation object_type : string) (s : Sv) : outcome (list string) * Sv :=
  decoded (fun data => objects ← py_get "objects" (JList []) data; l ← as_list objects; Ok (map (py_str repr) l))
    (post_store "/list-objects" (_body [("user", JStr user); ("relation", JStr relation); ("type", JStr object_type)]) s).

(** One request per tuple; what the server says of a tuple already as wanted is passed
    over. *)
Definition tolerated (phrases : list string) (text : string -> string) (r : outcome json) : bool :=
  match r with
  | inr (FgaError body) => existsb (fun p => contains p (text (default "" body))) phrases
  | _ => false
  end.
Definition written_as : list string := ["already exists"].
Definition deleted_as : list string := ["not found"; "does not exist"].

Definition write_one (t : fga_tuple) (s : Sv) : outcome json * Sv :=
  post_store "/write" (_body [("writes", JObj [("tuple_keys", JList [as_key t])])]) s.
Definition delete_one (t : fga_tuple) (s : Sv) : outcome json * Sv :=
  post_store "/write" (_body [("deletes", JObj [("tuple_keys", JList [as_key t])])]) s.

Fixpoint each (op : fga_tuple -> Sv -> outcome json * Sv) (pass : outcome json -> bool) (ts : list fga_tuple) (s : Sv) :
    outcome unit * Sv :=
  match ts with
  | [] => (inl tt, s)
  | t :: ts =>
      match op t s with
      | (inl _, s) => each op pass ts s
      | (inr e, s) => if pass (inr e) then each op pass ts s else (inr e, s)
      end
  end.

Definition write (writes deletes : list fga_tuple) (s : Sv) : outcome unit * Sv :=
  match each write_one (tolerated written_as id) writes s with
  | (inl _, s) => each delete_one (tolerated deleted_as lower) deletes s
  | failed => failed
  end.

Definition read_tuple (j : json) : result fga_tuple :=
  k ← member "key" j;
  user ← member "user" k; u ← as_str user;
  relation ← member "relation" k; r ← as_str relation;
  object ← member "object" k; o ← as_str object;
  Ok (Tuple u r o).
Definition read_tuples (obj : string) (s : Sv) : outcome (list fga_tuple) * Sv :=
  decoded (fun data => tuples ← py_get "tuples" (JList []) data; l ← as_list tuples; map_result read_tuple l)
    (post_store "/read" [("tuple_key", JObj [("object", JStr obj)])] s).

Definition create_store (name : string) (s : Sv) : outcome string * Sv :=
  decoded (fun data => i ← member "id" data; Ok (py_str repr i)) (_post "/stores" [("name", JStr name)] s).
Definition write_model (model : jobj) (s : Sv) : outcome string * Sv :=
  decoded (fun data => i ← member "authorization_model_id" data; Ok (py_str repr i)) (post_store "/authorization-models" model s).
End Client.

(** ** Writing converges under failures *)

(** What the calls rely on.  A request to write or delete one tuple that is answered
    below 300 is carried out; one that fails (no answer in time, the answer lost, an
    error) was carried out or was not, and touches no other tuple either way.  The
    words passed over are those of the tuple: the server says [already exists] of a
    tuple that is there, and [not found] or [does not exist] of one that is not.  The
    last holds while the store exists; of a store that is gone OpenFGA says not found
    too ([lost_store_passes]). *)
Class Server {Sv : Type} (send : string -> jobj -> list (string * string) -> Sv -> reply * Sv)
    (decode : string -> option json) (c : fga_client) (tuples : Sv -> list fga_tuple) : Prop := {
  server_write t s r s' : write_one send decode c t s = (r, s') ->
    (forall u, u ∈ tuples s -> u ∈ tuples s') /\ (forall u, u ∈ tuples s' -> u ∈ tuples s \/ u = t);
  write_answered t s j s' : write_one send decode c t s = (inl j, s') -> t ∈ tuples s';
  write_passed t s r s' : write_one send decode c t s = (r, s') -> tolerated written_as id r = true -> t ∈ tuples s';
  server_delete t s r s' : delete_one send decode c t s = (r, s') ->
    (forall u, u ∈ tuples s' -> u ∈ tuples s) /\ (forall u, u ∈ tuples s -> u ∈ tuples s' \/ u = t);
  delete_answered t s j s' : delete_one send decode c t s = (inl j, s') -> t ∉ tuples s';
  delete_passed t s r s' : delete_one send decode c t s = (r, s') -> tolerated deleted_as lower r = true -> t ∉ tuples s'
}.

Section Convergence.
Context {Sv : Type} (send : string -> jobj -> list (string * string) -> Sv -> reply * Sv).
Context (decode : string -> option json) (c : fga_client) (tuples : Sv -> list fga_tuple) `{!Server send decode c tuples}.

Lemma each_write ts s r s' : each (write_one send decode c) (tolerated written_as id) ts s = (r, s') ->
  (forall u, u ∈ tuples s -> u ∈ tuples s') /\ (forall u, u ∈ tuples s' -> u ∈ tuples s \/ u ∈ ts) /\
  (r = inl tt -> forall u, u ∈ ts -> u ∈ tuples s').
Proof.
  revert s. induction ts as [|t ts IH]; intros s; cbn [each].
  - intros [= <- <-]. split_and!; [done|by left|]. intros _ u H. by apply elem_of_nil in H.
  - destruct (write_one send decode c t s) as [o s1] eqn:E. pose proof (server_write _ _ _ _ E) as [F1 F2].
    assert (Hnext : t ∈ tuples s1 -> each (write_one send decode c) (tolerated written_as id) ts s1 = (r, s') ->
      (forall u, u ∈ tuples s -> u ∈ tuples s') /\ (forall u, u ∈ tuples s' -> u ∈ tuples s \/ u ∈ t :: ts) /\
      (r = inl tt -> forall u, u ∈ t :: ts -> u ∈ tuples s')).
    { intros Ht (H1 & H2 & H3)%IH. split_and!.
      - intros u Hu. by apply H1, F1.
      - intros u [[?| ->]%F2|?]%H2; rewrite elem_of_cons; tauto.
      - intros Hr u [->|Hu]%elem_of_cons; [by apply H1|by apply H3]. }
    destruct o as [j|e]; [apply Hnext; by eapply write_answered|].
    destruct (tolerated written_as id (inr e)) eqn:Ht; [apply Hnext; by eapply write_passed|].
    intros [= <- <-]. split_and!; [done| |done]. intros u Hu%F2. rewrite elem_of_cons. tauto.
Qed.

Lemma each_delete ts s r s' : each (delete_one send decode c) (tolerated deleted_as lower) ts s = (r, s') ->
  (forall u, u ∈ tuples s' -> u ∈ tuples s) /\ (forall u, u ∈ tuples s -> u ∈ tuples s' \/ u ∈ ts) /\
  (r = inl tt -> forall u, u ∈ ts -> u ∉ tuples s').
Proof.
  revert s. induction ts as [|t ts IH]; intros s; cbn [each].
  - intros [= <- <-]. split_and!; [done|by left|]. intros _ u H. by apply elem_of_nil in H.
  - destruct (delete_one send decode c t s) as [o s1] eqn:E. pose proof (server_delete _ _ _ _ E) as [F1 F2].
    assert (Hnext : t ∉ tuples s1 -> each (delete_one send decode c) (tolerated deleted_as lower) ts s1 = (r, s') ->
      (forall u, u ∈ tuples s' -> u ∈ tuples s) /\ (forall u, u ∈ tuples s -> u ∈ tuples s' \/ u ∈ t :: ts) /\
      (r = inl tt -> forall u, u ∈ t :: ts -> u ∉ tuples s')).
    { intros Ht (H1 & H2 & H3)%IH. split_and!.
      - intros u Hu%H1. by apply F1.
      - intros u [[?|?]%H2| ->]%F2; rewrite elem_of_cons; tauto.
      - intros Hr u [->|Hu]%elem_of_cons; [intros Hu; by apply Ht, H1|by apply H3]. }
    destruct o as [j|e]; [apply Hnext; by eapply delete_answered|].
    destruct (tolerated deleted_as lower (inr e)) eqn:Ht; [apply Hnext; by eapply delete_passed|].
    intros [= <- <-]. split_and!; [done| |done]. intros u Hu%F2. rewrite elem_of_cons. tauto.
Qed.

(** A write that succeeds leaves [Permissions.written]; one that fails part of it. *)
Lemma write_written ws ds s r s' : write send decode c ws ds s = (r, s') ->
  (r = inl tt -> forall u, u ∈ tuples s' <-> u ∈ written (tuples s) ws ds) /\
  (forall u, u ∈ tuples s' -> u ∈ tuples s \/ u ∈ ws) /\ (forall u, u ∈ tuples s -> u ∈ tuples s' \/ u ∈ ds).
Proof.
  unfold write. destruct (each _ _ ws s) as [[[]|e] s1] eqn:E.
  - intros H. apply each_write in E as (W1 & W2 & W3). apply each_delete in H as (D1 & D2 & D3). split_and!.
    + intros Hr u. unfold written. rewrite list_elem_of_filter, elem_of_app. split.
      * intros Hu. split; [intros Hd; by apply (D3 Hr u Hd)|by apply W2, D1].
      * intros [Hn Hu]. destruct (D2 u) as [?|?]; [destruct Hu; [by apply W1|by apply W3]|done|done].
    + intros u Hu. by apply W2, D1.
    + intros u Hu. by apply D2, W1.
  - intros [= <- <-]. apply each_write in E as (W1 & W2 & _). split_and!; [done|done|]. intros u Hu. left. by apply W1.
Qed.

(** Attempts that failed, and then one that did not. *)
Inductive attempts (ws ds : list fga_tuple) : Sv -> Sv -> Prop :=
  | attempt_last s s' : write send decode c ws ds s = (inl tt, s') -> attempts ws ds s s'
  | attempt_failed s e s1 s' : write send decode c ws ds s = (inr e, s1) -> attempts ws ds s1 s' -> attempts ws ds s s'.

(** C20: writing tuples can be retried: on a server whose store exists, however often a
    write fails part of the way, the request that failed carried out or not, and is
    tried again, once it succeeds the server holds exactly what one undisturbed write
    leaves: the tuples it held and the new ones, without those deleted. *)
Theorem retried_write_converges ws ds s s' : attempts ws ds s s' ->
  forall u, u ∈ tuples s' <-> u ∈ written (tuples s) ws ds.
Proof.
  induction 1 as [s s' H|s e s1 s' H _ IH]; intros u.
  - by apply write_written in H as [-> _].
  - apply write_written in H as (_ & H1 & H2). rewrite IH. unfold written. rewrite !list_elem_of_filter, !elem_of_app.
    specialize (H1 u). specialize (H2 u). tauto.
Qed.
End Convergence.

(** A server that loses the answers to its first requests, and does not carry out
    every second of them. *)
Definition body_tuple (key : string) (body : jobj) : option fga_tuple :=
  match jget key body with
  | Some (JObj [(_, JList [JObj [(_, JStr u); (_, JStr r); (_, JStr o)]])]) => Some (Tuple u r o)
  | _ => None
  end.
Definition stored_tuples (body : jobj) (ts : list fga_tuple) : reply * list fga_tuple :=
  match body_tuple "writes" body, body_tuple "deletes" body with
  | Some t, _ => if decide (t ∈ ts) then (Reply 400 "cannot write a tuple which already exists", ts)
                 else (Reply 200 "", t :: ts)
  | _, Some t => if decide (t ∈ ts) then (Reply 200 "", filter (fun u => u <> t) ts)
                 else (Reply 400 "cannot delete a tuple which does not exist", ts)
  | _, _ => (Reply 400 "bad request", ts)
  end.
Definition flaky_send (url : string) (body : jobj) (headers : list (string * string)) (s : nat * list fga_tuple) :
    reply * (nat * list fga_tuple) :=
  match s with
  | (S n, ts) => (Unreachable, (n, if Nat.even n then ts else (stored_tuples body ts).2))
  | (O, ts) => let '(r, ts) := stored_tuples body ts in (r, (O, ts))
  end.
Definition local_client : fga_client := FgaClient "http://openfga:8080" "store" "model" "".

Lemma stored_write u r o ts (b : jobj) : body_tuple "writes" b = Some (Tuple u r o) ->
  let '(_, ts') := stored_tuples b ts in forall v, v ∈ ts' <-> v ∈ ts \/ v = Tuple u r o.
Proof.
  intros E. unfold stored_tuples. rewrite E. case_decide as Hd; intros v; [|rewrite elem_of_cons; tauto].
  split; [by left|]. by intros [?| ->].
Qed.

Lemma stored_delete u r o ts (b : jobj) : body_tuple "writes" b = None -> body_tuple "deletes" b = Some (Tuple u r o) ->
  let '(_, ts') := stored_tuples b ts in forall v, v ∈ ts' <-> v ∈ ts /\ v <> Tuple u r o.
Proof.
  intros E0 E. unfold stored_tuples. rewrite E0, E. case_decide as Hd; intros v; [rewrite list_elem_of_filter; tauto|].
  split; [|by intros []]. intros Hv. split; [done|]. by intros ->.
Qed.

Definition write_body (t : fga_tuple) : jobj := _body local_client [("writes", JObj [("tuple_keys", JList [as_key t])])].
Definition delete_body (t : fga_tuple) : jobj := _body local_client [("deletes", JObj [("tuple_keys", JList [as_key t])])].

Lemma flaky_write t n ts r n' ts' : write_one flaky_send (fun _ => None) local_client t (n, ts) = (r, (n', ts')) ->
  (n = 0 /\ forall v, v ∈ ts' <-> v ∈ ts \/ v = t) \/
  (r = inr (FgaError None) /\ (ts' = ts \/ forall v, v ∈ ts' <-> v ∈ ts \/ v = t)).
Proof.
  destruct t as [u rl o]. pose proof (stored_write u rl o ts (write_body (Tuple u rl o)) eq_refl) as H.
  unfold write_one. change (_body local_client _) with (write_body (Tuple u rl o)). cbn [post_store _store_path local_client].
  unfold post_store, _store_path, _post, flaky_send. cbn [fc_store_id fc_url local_client String.eqb].
  destruct n as [|n]; destruct (stored_tuples _ ts) as [rp ts1] eqn:E.
  - intros [= _ _ <-]. by left.
  - cbn. intros [= <- _ <-]. right. split; [done|]. destruct (Nat.even n); [by left|by right].
Qed.

Lemma flaky_delete t n ts r n' ts' : delete_one flaky_send (fun _ => None) local_client t (n, ts) = (r, (n', ts')) ->
  (n = 0 /\ forall v, v ∈ ts' <-> v ∈ ts /\ v <> t) \/
  (r = inr (FgaError None) /\ (ts' = ts \/ forall v, v ∈ ts' <-> v ∈ ts /\ v <> t)).
Proof.
  destruct t as [u rl o]. pose proof (stored_delete u rl o ts (delete_body (Tuple u rl o)) eq_refl eq_refl) as H.
  unfold delete_one. change (_body local_client _) with (delete_body (Tuple u rl o)).
  unfold post_store, _store_path, _post, flaky_send. cbn [fc_store_id fc_url local_client String.eqb].
  destruct n as [|n]; destruct (stored_tuples _ ts) as [rp ts1] eqn:E.
  - intros [= _ _ <-]. by left.
  - cbn. intros [= <- _ <-]. right. split; [done|]. destruct (Nat.even n); [by left|by right].
Qed.

#[export] Instance flaky_server : Server flaky_send (fun _ => None) local_client snd.
Proof.
  split; intros t [n ts] r [n' ts']; cbn [snd].
  - intros [(_ & H)|(_ & [->|H])]%flaky_write; [| |]; set_solver.
  - intros [(_ & H)|(? & _)]%flaky_write; [|done]. apply H. by right.
  - intros [(_ & H)|(-> & _)]%flaky_write; [|done]. intros _. apply H. by right.
  - intros [(_ & H)|(_ & [->|H])]%flaky_delete; [split; intros u Hu; [by apply H|]|split; intros u Hu; [done|by left]|split; intros u Hu; [by apply H|]];
      (destruct (decide (u = t)) as [->|]; [by right|left; by apply H]).
  - intros [(_ & H)|(? & _)]%flaky_delete; [|done]. by intros [_ ?]%H.
  - intros [(_ & H)|(-> & _)]%flaky_delete; [|done]. intros _. by intros [_ ?]%H.
Qed.

Definition as_admin : fga_tuple := Tuple "user:1" "admin" "organization:2".
Definition as_viewer : fga_tuple := Tuple "user:1" "viewer" "organization:2".

Lemma retried_write_converges_witness :
  attempts flaky_send (fun _ => None) local_client [as_admin] [as_viewer] (2, [as_viewer]) (0, [as_admin]) /\
  (as_admin ∈ [as_admin] <-> as_admin ∈ written [as_viewer] [as_admin] [as_viewer]).
Proof.
  assert (attempts flaky_send (fun _ => None) local_client [as_admin] [as_viewer] (2, [as_viewer]) (0, [as_admin])) as H.
  { eapply attempt_failed; [vm_compute; reflexivity|]. eapply attempt_failed; [vm_compute; reflexivity|].
    apply attempt_last. vm_compute. reflexivity. }
  split; [exact H|].
  exact (retried_write_converges flaky_send (fun _ => None) local_client snd _ _ _ _ H as_admin).
Defined.

(** A delete also passes over the answer that the store itself is not found: nothing is
    deleted, and the call succeeds. *)
Theorem lost_store_passes (ds : list fga_tuple) (s : list fga_tuple) :
  write (fun _ _ _ s => (Reply 404 "{code: store_id_not_found, message: store ID not found}", s)) (fun _ => None) local_client
    [] ds s = (inl tt, s).
Proof. unfold write. cbn [each]. induction ds as [|t ds IH]; [done|]. exact IH. Qed.
