(* ===== verification/Preferences.v ===== *)
(** Interface preferences of a user (identity/preferences.py): the checks a patch
    passes before it is merged, and the caps on what is stored.

    The depth and NUL check walks the document with an explicit stack, as the
    code does; [json_depth] and [no_nul] are its recursive reading.  A [ValueError]
    carries no message here.  [float_repr] is the text of a finite float. *)

From Stdlib Require Import Ascii SpecFloat.
From S2P Require Import Prelude Text Ids Json Errors Store.

Definition MAX_PATCH_KEYS : nat := 32.
Definition MAX_PATCH_BYTES : Z := 16384.
Definition MAX_STORED_KEYS : nat := 64.
Definition MAX_STORED_BYTES : Z := 32768.
Definition MAX_DEPTH : nat := 8.
Definition _NUL : ascii := ascii_of_nat 0.

Definition value_err {A} : result A := Err (PyError "ValueError").

(** [PREFERENCE_KEY_RE.fullmatch(k)]: [[a-z][a-z0-9_-]{0,63}]. *)
Definition is_lower_letter (c : ascii) : bool :=
  let n := nat_of_ascii c in (97 <=? n) && (n <=? 122).
Definition is_key_char (c : ascii) : bool :=
  is_lower_alnum c || Ascii.eqb c "_" || Ascii.eqb c "-".
Definition preference_key (k : string) : bool :=
  match k with
  | EmptyString => false
  | String c rest => is_lower_letter c && all_chars is_key_char rest && (String.length rest <=? 63)
  end.

(** ** Size *)

(** The UTF-8 bytes of an ASCII character inside a JSON string. *)
Definition char_size (c : ascii) : Z :=
  let n := nat_of_ascii c in
  if (n =? 34) || (n =? 92) || (n =? 8) || (n =? 9) || (n =? 10) || (n =? 12) || (n =? 13) then 2
  else if n <? 32 then 6 else 1.
Fixpoint chars_size (s : string) : Z :=
  match s with EmptyString => 0 | String c s => char_size c + chars_size s end.
Definition string_size (s : string) : Z := 2 + chars_size s.

Section Size.
Context (float_repr : float -> string).

Definition text_size (s : string) : Z := Z.of_nat (String.length s).
Definition commas_between {A} (l : list A) : Z := Z.of_nat (pred (length l)).

(** The length of the compact encoding; [None] on NaN and infinities. *)
Fixpoint json_size (j : json) : option Z :=
  match j with
  | JNull => Some 4
  | JBool b => Some (if b then 4 else 5)
  | JInt z => Some (text_size (Z_str z))
  | JFloat (S754_nan | S754_infinity _) => None
  | JFloat f => Some (text_size (float_repr f))
  | JStr s => Some (string_size s)
  | JUuid _ => Some 38
  | JTime t => Some (if Z.eqb (t mod SECOND) 0 then 27 else 34)
  | JDate _ => Some 12
  | JList l =>
      n ← foldr (fun x acc => a ← json_size x; b ← acc; Some (a + b)) (Some 0) l;
      Some (2 + commas_between l + n)
  | JObj o =>
      n ← foldr (fun kv acc => a ← json_size kv.2; b ← acc; Some (string_size kv.1 + 1 + a + b)) (Some 0) o;
      Some (2 + commas_between o + n)
  end%Z.

Definition preferences_size (j : json) : result Z :=
  match json_size j with Some n => Ok n | None => value_err end.

(** ** Shape *)

Fixpoint has_nul (s : string) : bool :=
  match s with EmptyString => false | String c s => Ascii.eqb c _NUL || has_nul s end.

(** [_check_shape]: the top of the stack is the head of the list, so the last
    child pushed is visited first.  [None]: out of fuel. *)
Fixpoint walk (fuel limit : nat) (stack : list (json * nat)) : option (result unit) :=
  match fuel, stack with
  | _, [] => Some (Ok tt)
  | O, _ => None
  | S fuel, (node, depth) :: rest =>
      match node with
      | JObj o =>
          if limit <? depth then Some value_err
          else if existsb (fun kv : string * json => has_nul kv.1) o then Some value_err
          else walk fuel limit (rev ((fun kv : string * json => (kv.2, S depth)) <$> o) ++ rest)
      | JList l =>
          if limit <? depth then Some value_err
          else walk fuel limit (rev ((fun j => (j, S depth)) <$> l) ++ rest)
      | JStr s => if has_nul s then Some value_err else walk fuel limit rest
      | _ => walk fuel limit rest
      end
  end.

(** The nodes of a document: fuel enough to visit them all. *)
Fixpoint weight (j : json) : nat :=
  match j with
  | JList l => S (foldr (fun x n => weight x + n) 0 l)
  | JObj o => S (foldr (fun kv n => weight kv.2 + n) 0 o)
  | _ => 1
  end.

Definition _check_shape (value : json) (limit : nat) : result unit :=
  default value_err (walk (weight value) limit [(value, 1)]).

(** ** The two checks *)

Definition validate_preferences_patch (value : json) : result jobj :=
  match value with
  | JObj o =>
      if negb (forallb (fun kv : string * json => preference_key kv.1) o) then value_err
      else if MAX_PATCH_KEYS <? length o then value_err
      else match _check_shape value MAX_DEPTH with
      | Err e => Err e
      | Ok _ =>
          match preferences_size value with
          | Err e => Err e
          | Ok n => if (MAX_PATCH_BYTES <? n)%Z then value_err else Ok o
          end
      end
  | _ => value_err
  end.

Definition check_stored_preferences (merged : jobj) : result unit :=
  if MAX_STORED_KEYS <? length merged then Err (Domain ValidationFailedError [])
  else match preferences_size (JObj merged) with
  | Err _ => Err (Domain ValidationFailedError [])
  | Ok n => if (MAX_STORED_BYTES <? n)%Z then Err (Domain ValidationFailedError []) else Ok tt
  end.
End Size.

(** ** The recursive reading of the walk *)

(** Containers nested: none is 0. *)
Fixpoint json_depth (j : json) : nat :=
  match j with
  | JList l => S (foldr (fun x n => Nat.max (json_depth x) n) 0 l)
  | JObj o => S (foldr (fun kv n => Nat.max (json_depth kv.2) n) 0 o)
  | _ => 0
  end.
Fixpoint no_nul (j : json) : bool :=
  match j with
  | JStr s => negb (has_nul s)
  | JList l => forallb no_nul l
  | JObj o => forallb (fun kv => negb (has_nul kv.1) && no_nul kv.2) o
  | _ => true
  end.

(** A node at [depth] passes when its own containers fit and it has no NUL. *)
Definition node_ok (limit : nat) (n : json * nat) : bool :=
  ((json_depth n.1 =? 0) || (n.2 + json_depth n.1 <=? S limit)) && no_nul n.1.
Definition stack_weight (l : list (json * nat)) : nat := foldr (fun n acc => weight n.1 + acc) 0 l.

Lemma stack_weight_app l1 l2 : stack_weight (l1 ++ l2) = stack_weight l1 + stack_weight l2.
Proof. unfold stack_weight. induction l1 as [|n l1 IH]; simpl; [done|]. rewrite IH. lia. Qed.
Lemma stack_weight_rev l : stack_weight (rev l) = stack_weight l.
Proof. induction l as [|n l IH]; [done|]. simpl. rewrite stack_weight_app, IH. simpl. lia. Qed.

Lemma forallb_rev {A} (p : A -> bool) l : forallb p (rev l) = forallb p l.
Proof. induction l as [|x l IH]; [done|]. simpl. rewrite forallb_app, IH. simpl. rewrite andb_true_r. apply andb_comm. Qed.

(** A list fits exactly when each child fits one level down. *)
Lemma children_fit {A} (f : A -> json) limit depth (l : list A) : depth <= limit ->
  forallb (node_ok limit) ((fun x => (f x, S depth)) <$> l) =
  (depth + S (foldr (fun x n => Nat.max (json_depth (f x)) n) 0 l) <=? S limit) && forallb (fun x => no_nul (f x)) l.
Proof.
  intros Hd. induction l as [|x l IH].
  - simpl. rewrite andb_true_r. symmetry. apply Nat.leb_le. lia.
  - csimpl. rewrite IH. unfold node_ok. cbn [fst snd]. set (m := foldr _ 0 l). apply eq_true_iff_eq.
    rewrite !andb_true_iff, orb_true_iff, Nat.eqb_eq, !Nat.leb_le. intuition lia.
Qed.

Lemma nul_split (o : jobj) :
  forallb (fun kv => negb (has_nul kv.1) && no_nul kv.2) o =
  negb (existsb (fun kv : string * json => has_nul kv.1) o) && forallb (fun kv => no_nul kv.2) o.
Proof.
  induction o as [|[k v] o IH]; [done|]. simpl. rewrite IH. destruct (has_nul k), (no_nul v); simpl; try done.
  by rewrite andb_false_r.
Qed.

Lemma children_weight {A} (f : A -> json) depth (l : list A) rest :
  stack_weight (rev ((fun x => (f x, depth)) <$> l) ++ rest) =
  foldr (fun x n => weight (f x) + n) 0 l + stack_weight rest.
Proof.
  rewrite stack_weight_app, stack_weight_rev. f_equal.
  induction l as [|x l IH]; [done|]. csimpl. by rewrite <- IH.
Qed.

Lemma weight_pos j : 0 < weight j.
Proof. destruct j; simpl; lia. Qed.

(** The walk ends within the nodes of its stack and decides every node on it. *)
Lemma walk_decides fuel : forall limit stack, stack_weight stack <= fuel ->
  walk fuel limit stack = Some (if forallb (node_ok limit) stack then Ok tt else value_err).
Proof.
  induction fuel as [|fuel IH]; intros limit stack Hf.
  - destruct stack as [|[j d] stack]; [done|]. simpl in Hf. pose proof (weight_pos j). lia.
  - destruct stack as [|[j d] stack]; [done|]. simpl in Hf. simpl.
    destruct j as [|b|z|f|s|u|t|da|l|o]; simpl in *; try (rewrite IH by lia; done).
    + unfold node_ok at 1. simpl. destruct (has_nul s); simpl; [done|]. by rewrite IH by lia.
    + unfold node_ok at 1. cbn [fst snd json_depth no_nul Nat.eqb orb].
      destruct (Nat.ltb_spec limit d) as [El|El]; [by rewrite (proj2 (Nat.leb_gt _ _)) by lia|].
      rewrite IH by (rewrite (children_weight (fun j => j)); simpl in *; lia).
      rewrite forallb_app, forallb_rev. by rewrite (children_fit (fun j => j) limit d l El).
    + unfold node_ok at 1. cbn [fst snd json_depth no_nul Nat.eqb orb]. rewrite nul_split.
      destruct (Nat.ltb_spec limit d) as [El|El]; [by rewrite (proj2 (Nat.leb_gt _ _)) by lia|].
      destruct (existsb _ o); simpl; [by rewrite andb_false_r|].
      rewrite IH by (rewrite (children_weight (fun kv : string * json => kv.2)); simpl in *; lia).
      rewrite forallb_app, forallb_rev. by rewrite (children_fit (fun kv : string * json => kv.2) limit d o El).
Qed.

(** C32: the check of a document's nesting and NUL characters ends within one
    step per node and accepts exactly the documents whose containers nest no
    deeper than the limit and whose keys and texts have no NUL character. *)
Theorem check_shape_decides value limit :
  walk (weight value) limit [(value, 1)] =
    Some (if (json_depth value <=? limit) && no_nul value then Ok tt else value_err) /\
  _check_shape value limit = if (json_depth value <=? limit) && no_nul value then Ok tt else value_err.
Proof.
  assert (H : walk (weight value) limit [(value, 1)] =
    Some (if (json_depth value <=? limit) && no_nul value then Ok tt else value_err)).
  { rewrite walk_decides by (simpl; lia). simpl. rewrite andb_true_r. unfold node_ok. simpl.
    do 2 f_equal. by destruct (json_depth value). }
  split; [exact H|]. unfold _check_shape. by rewrite H.
Qed.

(** ** What is stored *)

Section Stored.
Context (float_repr : float -> string).

(** One entry of the stored object. *)
Definition entry_ok (kv : string * json) : Prop :=
  preference_key kv.1 = true /\ json_depth kv.2 < MAX_DEPTH /\ has_nul kv.1 = false /\ no_nul kv.2 = true.

(** A stored preferences object: distinct well-formed keys, bounded nesting, no
    NUL, within the caps. *)
Definition preferences_ok (o : jobj) : Prop :=
  NoDup o.*1 /\ Forall entry_ok o /\ length o <= MAX_STORED_KEYS /\
  exists n, json_size float_repr (JObj o) = Some n /\ (n <= MAX_STORED_BYTES)%Z.

Lemma jset_keys k v (o : jobj) x : x ∈ (jset k v o).*1 <-> x = k \/ x ∈ o.*1.
Proof.
  induction o as [|[k' v'] o IH]; [set_solver|]. simpl.
  destruct (String.eqb_spec k k') as [->|Hne]; csimpl; [set_solver|]. rewrite !elem_of_cons, IH. tauto.
Qed.
Lemma jset_NoDup k v (o : jobj) : NoDup o.*1 -> NoDup (jset k v o).*1.
Proof.
  induction o as [|[k' v'] o IH]; simpl; [by intros _; apply NoDup_singleton|].
  csimpl. intros [Hk Ho]%NoDup_cons. destruct (String.eqb_spec k k') as [->|Hne]; csimpl.
  - by apply NoDup_cons.
  - apply NoDup_cons. split; [|by apply IH]. rewrite jset_keys. intros [->|?]; done.
Qed.
Lemma jset_Forall (P : string * json -> Prop) k v (o : jobj) : P (k, v) -> Forall P o -> Forall P (jset k v o).
Proof.
  intros Hp. induction 1 as [|[k' v'] o Hx Ho IH]; simpl; [by constructor|].
  destruct (String.eqb_spec k k') as [->|Hne]; by constructor.
Qed.

Lemma jupdate_entries (P : string * json -> Prop) (d e : jobj) :
  Forall P d -> Forall P e -> NoDup d.*1 -> Forall P (jupdate d e) /\ NoDup (jupdate d e).*1.
Proof.
  intros Hd He Hn. unfold jupdate. revert d Hd Hn. induction He as [|[k v] e Hkv He IH]; intros d Hd Hn; [done|].
  simpl. apply IH; [by apply jset_Forall|by apply jset_NoDup].
Qed.

Lemma object_depth (o : jobj) n : json_depth (JObj o) <= S n <-> Forall (fun kv => json_depth kv.2 <= n) o.
Proof.
  simpl. rewrite <- Nat.succ_le_mono. induction o as [|[k v] o IH]; simpl.
  - split; [intros _; constructor|lia].
  - rewrite Forall_cons, <- IH. simpl. lia.
Qed.

(** A validated patch has only entries fit for storing. *)
Lemma patch_entries value o : validate_preferences_patch float_repr value = Ok o -> value = JObj o /\ Forall entry_ok o.
Proof.
  unfold validate_preferences_patch. destruct value as [| | | | | | | | |o']; try done.
  destruct (forallb _ o') eqn:Ek; [|done]. destruct (_ <? length o'); [done|].
  rewrite (proj2 (check_shape_decides _ _)). destruct (_ && _) eqn:Es; [|done].
  destruct (preferences_size _ _); [|done]. destruct (_ <? _)%Z; [done|]. intros [= <-]. split; [done|].
  apply andb_true_iff in Es as [Hd Hn]. apply Nat.leb_le in Hd. change MAX_DEPTH with (S 7) in Hd.
  apply object_depth in Hd. simpl in Hn. rewrite forallb_forall in Ek, Hn. rewrite Forall_forall in Hd.
  apply Forall_forall. intros kv Hin. pose proof (proj1 (list_elem_of_In o' kv) Hin) as Hi.
  specialize (Hn kv Hi). apply andb_true_iff in Hn as [Hn1 Hn2]. apply negb_true_iff in Hn1.
  split_and!; [by apply Ek|unfold MAX_DEPTH; specialize (Hd kv Hin); lia|done|done].
Qed.

(** Merging a validated patch keeps a stored object well formed. *)
Lemma merged_ok stored value patch :
  preferences_ok stored -> validate_preferences_patch float_repr value = Ok patch ->
  check_stored_preferences float_repr (jupdate stored patch) = Ok tt ->
  preferences_ok (jupdate stored patch).
Proof.
  intros (Hn & Hf & _ & _) Hv Hc. apply patch_entries in Hv as [_ Hp].
  destruct (jupdate_entries entry_ok stored patch Hf Hp Hn) as [Hf' Hn'].
  revert Hc. unfold check_stored_preferences, preferences_size. destruct (Nat.ltb_spec MAX_STORED_KEYS (length (jupdate stored patch))); [done|].
  destruct (json_size float_repr _) as [n|] eqn:En; [|done]. destruct (Z.ltb_spec MAX_STORED_BYTES n); [done|]. intros _.
  split_and!; [done|done|done|]. exists n. by split.
Qed.
End Stored.
