(* ===== verification/RateLimit.v ===== *)
(** The fixed-window rate limiter and the middleware that puts it in front of the
    credential endpoints (core/rate_limit.py, identity/rate_limit.py).

    [_check_local] is the in-process limiter, [_check_redis] the shared one over a
    Redis server ([RedisCounters]).  [admitted] is what a fixed window promises:
    the [limit] first attempts of a key in each window pass; [local_refines] is the
    simulation. *)

From Stdlib Require Import Ascii.
From S2P Require Import Prelude Text Json Errors Events Tables Store.

Definition rate_limited {A} (retry_after limit : Z) : result A :=
  Err (Domain RateLimitedError
    [("retry_after_seconds", JInt (Z.max retry_after 1)); ("limit", JInt limit)]).

(** ** The in-process limiter *)

Record limiter : Type := Limiter {
  rl_local : gmap string Z;
  rl_local_windows : gmap string Z
}.

#[export] Instance limiter_eta : Eta limiter := fun l => Limiter (rl_local l) (rl_local_windows l).

Definition new_limiter : limiter := Limiter ∅ ∅.

(** [now] is [int(time.time())]. *)
Definition _check_local (key : string) (limit window_seconds now : Z) (l : limiter) :
    result unit * limiter :=
  if (window_seconds =? 0)%Z then (Err (PyError "ZeroDivisionError"), l) else
  let window := (now / window_seconds)%Z in
  let l := if bool_decide (rl_local_windows l !! key = Some window) then l
           else l <| rl_local := delete key (rl_local l) |>
                  <| rl_local_windows := <[key := window]> (rl_local_windows l) |> in
  let count := (or0 (rl_local l !! key) + 1)%Z in
  let l := l <| rl_local := <[key := count]> (rl_local l) |> in
  if (limit <? count)%Z
  then (rate_limited (window_seconds - now mod window_seconds) limit, l)
  else (Ok tt, l).

(** ** The shared limiter

    What the limiter asks of the Redis server, whose state is [R]: [INCR] and
    [TTL] of a key in one pipeline, and [EXPIRE].  [rc_view] is what the server
    holds under a key at an instant: the counter and the instant it expires. *)
Class RedisCounters (R : Type) := {
  rc_incr_ttl : Z -> string -> R -> (Z * Z) * R;
  rc_expire : Z -> string -> Z -> R -> R
}.

Class RedisLaws (R : Type) `{RedisCounters R} := {
  rc_view : Z -> string -> R -> option (Z * option Z);
  rc_live t k r n e : rc_view t k r = Some (n, Some e) -> (t < e)%Z;
  rc_ages t t' k r : (t <= t')%Z ->
    rc_view t' k r = match rc_view t k r with
                     | Some (n, Some e) => if (t' <? e)%Z then Some (n, Some e) else None
                     | v => v
                     end;
  rc_incr_spec t k r :
    let old := rc_view t k r in
    let n := (match old with Some (n, _) => n | None => 0 end + 1)%Z in
    let e := old ≫= snd in
    (rc_incr_ttl t k r).1 = (n, match e with Some e => e - t | None => -1 end)%Z /\
    rc_view t k (rc_incr_ttl t k r).2 = Some (n, e);
  rc_incr_other t k k' r : k <> k' -> rc_view t k' (rc_incr_ttl t k r).2 = rc_view t k' r;
  rc_expire_spec t k s r n e : (0 < s)%Z -> rc_view t k r = Some (n, e) ->
    rc_view t k (rc_expire t k s r) = Some (n, Some (t + s)%Z);
  rc_expire_other t k k' s r : k <> k' -> rc_view t k' (rc_expire t k s r) = rc_view t k' r
}.

Section Redis.
Context {R : Type} `{RedisCounters R} (prefix : string).

Definition _check_redis (key : string) (limit window_seconds now : Z) (r : R) : result unit * R :=
  let full := prefix +:+ ":" +:+ key in
  let '(count, ttl, r) := rc_incr_ttl now full r in
  let '(ttl, r) :=
    if (ttl =? -1)%Z then (window_seconds, rc_expire now full window_seconds r) else (ttl, r) in
  if (limit <? count)%Z then (rate_limited ttl limit, r) else (Ok tt, r).
End Redis.

(** [RateLimiter.check]: Redis when there is a client, the process otherwise; an
    unreachable server raises. *)
Inductive backend (R : Type) : Type :=
  | RedisBackend (r : R)
  | UnreachableRedis (e : exn)
  | LocalBackend (l : limiter).
Arguments RedisBackend {_} _.
Arguments UnreachableRedis {_} _.
Arguments LocalBackend {_} _.

Definition check {R} `{RedisCounters R} (prefix key : string) (limit window_seconds now : Z)
    (b : backend R) : result unit * backend R :=
  match b with
  | RedisBackend r => let '(v, r) := _check_redis prefix key limit window_seconds now r in (v, RedisBackend r)
  | UnreachableRedis e => (Err e, b)
  | LocalBackend l => let '(v, l) := _check_local key limit window_seconds now l in (v, LocalBackend l)
  end.

(** ** The client address *)

Section Address.
(** [_is_trusted_proxy] for the configured networks ([ipaddress]). *)
Context (trusted : string -> bool).

(** The hops of an X-Forwarded-For header, the client's claim first. *)
Definition hops (header : string) : list string :=
  filter (fun h => negb (String.eqb h "") : Prop) (strip <$> split_on ","%char header).

Definition first_untrusted (l : list string) : option string :=
  head (filter (fun h => trusted h = false) l).

Definition _client_ip (any_trusted : bool) (peer header : string) : string :=
  if negb any_trusted || negb (trusted peer) then peer
  else default peer (first_untrusted (reverse (hops header))).
End Address.

(** ** The middleware *)

(** [AUTH_ROUTES]: the credential endpoints and the field naming the account. *)
Definition AUTH_ROUTES : list (string * option string) :=
  [("/v1/auth/login", Some "email"); ("/v1/auth/register", Some "email");
   ("/v1/auth/forgot-password", Some "email"); ("/v1/auth/reset-password", None);
   ("/v1/auth/refresh", None); ("/v1/auth/oidc/start", None); ("/v1/auth/oidc/callback", None);
   ("/v1/auth/invite", None)].

(** [AUTH_ROUTES.get(path)], [None] outside the routes. *)
Definition auth_route (path : string) : option (option string) :=
  (fun ir : nat * (string * option string) => ir.2.2) <$>
    list_find (fun r : string * option string => r.1 = path) AUTH_ROUTES.

(** The part of a request the middleware reads; [rq_body] is the decoded JSON,
    [None] when the body is not JSON. *)
Record http_request : Type := HttpRequest {
  rq_path : string;
  rq_method : string;
  rq_peer : option string;
  rq_forwarded_for : string;
  rq_body : option json
}.

Inductive verdict : Type :=
  | Proceed
  | TooMany (retry_after : json).

Definition truthy_json (j : json) : bool :=
  match j with
  | JNull => false
  | JBool b => b
  | JInt z => negb (z =? 0)%Z
  | JFloat f => truthy_float f
  | JStr s => negb (String.eqb s "")
  | JList [] | JObj [] => false
  | _ => true
  end.

Section Middleware.
(** [str] of a JSON value that is not a text. *)
Context (str_of : json -> string) (trusted : string -> bool) (any_trusted : bool).
Context {R : Type} `{RedisCounters R}.

Definition py_str (j : json) : string := match j with JStr s => s | _ => str_of j end.

Definition _peek_identity (body : option json) (field : string) : option string :=
  match body with
  | Some (JObj data) =>
      match jget field data with
      | Some v => if truthy_json v then Some (lower (py_str v)) else None
      | None => None
      end
  | _ => None
  end.

Definition retry_after (extras : jobj) : json := default (JInt 60) (jget "retry_after_seconds" extras).

(** One bucket: a tripped limiter answers 429, a failing one lets through. *)
Definition bucket (key : string) (limit : Z) (s : settings) (now : Z) (b : backend R) :
    verdict * backend R :=
  let '(r, b) := check "rl" key limit (st_auth_rate_window_seconds s) now b in
  (match r with
   | Err (Domain RateLimitedError extras) => TooMany (retry_after extras)
   | _ => Proceed
   end, b).

Definition dispatch (s : settings) (now : Z) (rq : http_request) (b : backend R) : verdict * backend R :=
  match auth_route (rq_path rq) with
  | None => (Proceed, b)
  | Some field =>
      let ip := _client_ip trusted any_trusted (default "unknown" (rq_peer rq)) (rq_forwarded_for rq) in
      let '(v, b) := bucket ("auth:ip:" +:+ ip) (st_auth_rate_limit_per_ip s) s now b in
      match v, field ≫= _peek_identity (rq_body rq) with
      | Proceed, Some account =>
          if String.eqb (rq_method rq) "POST"
          then bucket ("auth:id:" +:+ account) (st_auth_rate_limit_per_identity s) s now b
          else (Proceed, b)
      | _, _ => (v, b)
      end
  end.
End Middleware.

(** ** What a fixed window promises *)

Record attempt : Type := Attempt { at_key : string; at_time : Z }.

Section Window.
Context (limit : string -> Z) (w : Z).

Definition in_window (k : string) (n : Z) (a : attempt) : bool :=
  String.eqb (at_key a) k && (at_time a / w =? n)%Z.

Definition attempts_in (k : string) (n : Z) (past : list attempt) : Z :=
  sumZ (fun a => if in_window k n a then 1 else 0)%Z past.

(** The specification: an attempt passes when fewer than [limit] attempts on its
    key came before it in its window. *)
Definition admitted (past : list attempt) (a : attempt) : bool :=
  (attempts_in (at_key a) (at_time a / w) past <? limit (at_key a))%Z.

Fixpoint spec_run (past l : list attempt) : list bool :=
  match l with
  | [] => []
  | a :: l => admitted past a :: spec_run (past ++ [a]) l
  end.

Definition passes (r : result unit) : bool := match r with Ok _ => true | Err _ => false end.

Fixpoint local_run (lim : limiter) (l : list attempt) : list bool :=
  match l with
  | [] => []
  | a :: l =>
      let '(r, lim) := _check_local (at_key a) (limit (at_key a)) w (at_time a) lim in
      passes r :: local_run lim l
  end.

Definition in_time_order : list attempt -> Prop := Sorted (fun a b => (at_time a <= at_time b)%Z).

(** The dictionaries of the limiter hold, per key, the last window with an attempt
    and the number of attempts in it. *)
Definition tracks (past : list attempt) (lim : limiter) : Prop := forall k,
  match rl_local_windows lim !! k with
  | None => forall a, a ∈ past -> at_key a <> k
  | Some n => or0 (rl_local lim !! k) = attempts_in k n past /\
              (exists a, a ∈ past /\ at_key a = k /\ at_time a / w = n)%Z /\
              forall a, a ∈ past -> at_key a = k -> (at_time a / w <= n)%Z
  end.

Lemma attempts_in_app k n past a :
  attempts_in k n (past ++ [a]) = (attempts_in k n past + if in_window k n a then 1 else 0)%Z.
Proof. unfold attempts_in. rewrite sumZ_app. simpl. lia. Qed.

Lemma attempts_in_none k n past :
  (forall a, a ∈ past -> at_key a = k -> at_time a / w <> n)%Z -> attempts_in k n past = 0%Z.
Proof.
  intros H. unfold attempts_in. etrans; [|apply (sumZ_const_0 past)]. apply sumZ_ext.
  intros a Ha. unfold in_window. destruct (String.eqb_spec (at_key a) k) as [Hk|]; [|done].
  destruct (Z.eqb_spec (at_time a / w) n); [|done]. by destruct (H a Ha Hk).
Qed.

Hypothesis Hw : (0 < w)%Z.

Lemma check_local_spec a past lim :
  tracks past lim -> (forall b, b ∈ past -> (at_time b <= at_time a)%Z) ->
  let '(r, lim') := _check_local (at_key a) (limit (at_key a)) w (at_time a) lim in
  passes r = admitted past a /\ tracks (past ++ [a]) lim'.
Proof.
  intros Ht Hpast. unfold _check_local. rewrite (proj2 (Z.eqb_neq w 0)) by lia.
  set (n := (at_time a / w)%Z). set (lim1 := if bool_decide _ then lim else _).
  assert (Hn : rl_local_windows lim1 !! at_key a = Some n /\
               or0 (rl_local lim1 !! at_key a) = attempts_in (at_key a) n past).
  { pose proof (Ht (at_key a)) as Hk. subst lim1. case_bool_decide as Hd.
    { rewrite Hd in Hk. split; [done|apply Hk]. }
    simpl. rewrite lookup_insert_eq, lookup_delete_eq. split; [done|].
    symmetry. apply attempts_in_none. intros b Hb Hbk Hbn.
    destruct (rl_local_windows lim !! at_key a) as [m|]; [|by apply (Hk b)].
    destruct Hk as (_ & (c & Hc & _ & Hcm) & Hm). specialize (Hm b Hb Hbk). apply Hd. f_equal.
    pose proof (Z.div_le_mono _ _ w Hw (Hpast c Hc)). lia. }
  destruct Hn as [Hwin Hcnt].
  assert (Htr : tracks (past ++ [a])
    (lim1 <| rl_local := <[at_key a := (or0 (rl_local lim1 !! at_key a) + 1)%Z]> (rl_local lim1) |>)).
  { intros k. simpl. destruct (decide (k = at_key a)) as [->|Hk].
    - rewrite Hwin, lookup_insert_eq, attempts_in_app, Hcnt. simpl.
      unfold in_window. rewrite String.eqb_refl, Z.eqb_refl. split; [done|]. split.
      + exists a. split; [set_solver|done].
      + intros b [Hb| ->%list_elem_of_singleton]%elem_of_app _; [|done].
        by apply Z.div_le_mono, Hpast.
    - assert (Hsame : rl_local_windows lim1 !! k = rl_local_windows lim !! k /\
                      rl_local lim1 !! k = rl_local lim !! k).
      { subst lim1. case_bool_decide; [done|]. simpl. by rewrite lookup_insert_ne, lookup_delete_ne. }
      destruct Hsame as [-> E]. rewrite lookup_insert_ne, E by done. pose proof (Ht k) as Htk.
      assert (Hw' : forall m, in_window k m a = false)
        by (intros m; unfold in_window; by rewrite (proj2 (String.eqb_neq (at_key a) k)) by done).
      destruct (rl_local_windows lim !! k) as [m|].
      + destruct Htk as (Hc & (c & Hcin & Hck & Hcm) & Hm). rewrite attempts_in_app, Hw', Z.add_0_r.
        split; [done|]. split; [exists c; set_solver|].
        intros b [Hb| ->%list_elem_of_singleton]%elem_of_app Hbk; [by apply Hm|done].
      + intros b [Hb| ->%list_elem_of_singleton]%elem_of_app; [by apply Htk|done]. }
  unfold admitted. fold n. rewrite <- Hcnt.
  destruct (Z.ltb_spec (limit (at_key a)) (or0 (rl_local lim1 !! at_key a) + 1)); (split; [|done]);
    symmetry; [apply Z.ltb_ge|apply Z.ltb_lt]; lia.
Qed.

Lemma local_run_spec past lim l :
  tracks past lim -> in_time_order l ->
  (forall a b, a ∈ past -> b ∈ l -> (at_time a <= at_time b)%Z) ->
  local_run lim l = spec_run past l.
Proof.
  revert past lim. induction l as [|a l IH]; intros past lim Ht Hs Hp; [done|]. simpl.
  pose proof (check_local_spec a past lim Ht) as Hc.
  destruct (_check_local _ _ _ _ _) as [r lim']. destruct Hc as [-> Ht'].
  { intros b Hb. apply Hp; [done|left]. }
  apply Sorted_StronglySorted in Hs; [|intros x y z; lia].
  apply StronglySorted_inv in Hs as [Hs Hall]. f_equal. apply IH; [done|by apply StronglySorted_Sorted|].
  intros x b [Hx| ->%list_elem_of_singleton]%elem_of_app Hb; [apply Hp; [done|by right]|].
  by apply (proj1 (Forall_forall _ _) Hall).
Qed.

Lemma tracks_new : tracks [] new_limiter.
Proof. intros k. simpl. rewrite lookup_empty. intros a Ha. by apply not_elem_of_nil in Ha. Qed.

(** ** How much a fixed window lets through *)

(** The attempts of [l] that satisfy [p] and pass, after [past]. *)
Fixpoint passed (p : attempt -> bool) (past l : list attempt) : Z :=
  match l with
  | [] => 0
  | a :: l => ((if p a && admitted past a then 1 else 0) + passed p (past ++ [a]) l)%Z
  end.

Lemma passed_in_window k n past l :
  (passed (in_window k n) past l <= Z.max 0 (limit k - attempts_in k n past))%Z.
Proof.
  revert past. induction l as [|a l IH]; intros past; simpl; [lia|].
  specialize (IH (past ++ [a])). rewrite attempts_in_app in IH.
  destruct (in_window k n a) eqn:E; simpl; [|lia].
  unfold in_window in E. apply andb_true_iff in E as [<-%String.eqb_eq <-%Z.eqb_eq].
  unfold admitted. destruct (Z.ltb_spec (attempts_in (at_key a) (at_time a / w) past) (limit (at_key a))); lia.
Qed.

Definition in_span (k : string) (t : Z) (a : attempt) : bool :=
  String.eqb (at_key a) k && (t <=? at_time a)%Z && (at_time a <? t + w)%Z.

(** A span of the window's length meets two windows. *)
Lemma passed_in_span k t past l :
  (passed (in_span k t) past l <=
   passed (in_window k (t / w)) past l + passed (in_window k (t / w + 1)) past l)%Z.
Proof.
  revert past. induction l as [|a l IH]; intros past; simpl; [lia|]. specialize (IH (past ++ [a])).
  destruct (in_span k t a) eqn:E; simpl; [|repeat case_match; lia].
  unfold in_span in E. apply andb_true_iff in E as [[Ek E1%Z.leb_le]%andb_true_iff E2%Z.ltb_lt].
  assert (Hin : forall m, in_window k m a = (at_time a / w =? m)%Z)
    by (intros m; unfold in_window; by rewrite Ek).
  rewrite !Hin. destruct (admitted past a); [|rewrite !andb_false_r; simpl; lia].
  assert (Hlo : (t / w <= at_time a / w)%Z) by (apply Z.div_le_mono; lia).
  assert (Hup : (at_time a / w <= (t + 1 * w) / w)%Z) by (apply Z.div_le_mono; lia).
  rewrite Z.div_add in Hup by lia.
  destruct (Z.eqb_spec (at_time a / w) (t / w)), (Z.eqb_spec (at_time a / w) (t / w + 1)); simpl; lia.
Qed.

Lemma passed_spec_run p past l :
  passed p past l = sumZ (fun av : attempt * bool => if p av.1 && av.2 then 1 else 0)%Z (zip l (spec_run past l)).
Proof. revert past. induction l as [|a l IH]; intros past; simpl; [done|]. by rewrite IH. Qed.
End Window.

(** ** Properties *)

(** C16: the in-process limiter implements the fixed window: on any sequence of
    attempts in time order, each attempt passes exactly when fewer than [limit]
    attempts on the same key came before it in the same window. *)
Theorem local_refines limit w l :
  (0 < w)%Z -> in_time_order l -> local_run limit w new_limiter l = spec_run limit w [] l.
Proof.
  intros Hw Hs. apply local_run_spec; [done|apply tracks_new|done|].
  intros a b Ha. by apply not_elem_of_nil in Ha.
Qed.

(** No span of the window's length lets more than twice the limit through on a
    key, wherever it starts, and an aligned window no more than the limit. *)
Theorem burst_bounded limit w l k t :
  (0 < w)%Z -> in_time_order l ->
  let let_through p := sumZ (fun av : attempt * bool => if p av.1 && av.2 then 1 else 0)%Z
                            (zip l (local_run limit w new_limiter l)) in
  (let_through (in_window w k t) <= Z.max 0 (limit k))%Z /\
  (let_through (in_span w k t) <= 2 * Z.max 0 (limit k))%Z.
Proof.
  intros Hw Hs let_through. unfold let_through.
  rewrite (local_run_spec limit w Hw [] new_limiter l) by (apply tracks_new || done || by intros a b ?%not_elem_of_nil).
  rewrite <- !passed_spec_run. split.
  - pose proof (passed_in_window limit w k t [] l). simpl in *. lia.
  - pose proof (passed_in_span limit w Hw k t [] l).
    pose proof (passed_in_window limit w k (t / w) [] l).
    pose proof (passed_in_window limit w k (t / w + 1) [] l). simpl in *. lia.
Qed.

(** *** The client address *)

Lemma hops_app claim rest : hops (claim +:+ String ","%char rest) = hops claim ++ hops rest.
Proof. unfold hops. by rewrite split_on_app, fmap_app, filter_app. Qed.

Lemma first_untrusted_app trusted l1 l2 :
  first_untrusted trusted (l1 ++ l2) =
  match first_untrusted trusted l1 with Some h => Some h | None => first_untrusted trusted l2 end.
Proof. unfold first_untrusted. rewrite filter_app. by destruct (filter _ l1). Qed.

Lemma first_untrusted_in trusted l h : first_untrusted trusted l = Some h -> h ∈ l /\ trusted h = false.
Proof.
  intros E. unfold first_untrusted in E. assert (Hin : h ∈ filter (fun h => trusted h = false) l)
    by (destruct (filter _ l); simplify_eq/=; left).
  apply list_elem_of_filter in Hin. tauto.
Qed.

(** The address an attempt is counted under cannot be chosen by the client: from
    a peer that is not a trusted proxy the header is ignored; through trusted
    proxies, whatever the client itself writes in front of the hops the proxies
    appended changes nothing as soon as one of those is not a proxy; and the address
    is the peer or an address that is not a proxy. *)
Theorem client_ip_unspoofable trusted any_trusted peer :
  (any_trusted && trusted peer = false ->
     forall header, _client_ip trusted any_trusted peer header = peer) /\
  (forall claim appended,
     (exists hop, hop ∈ hops appended /\ trusted hop = false) ->
     _client_ip trusted any_trusted peer (claim +:+ String ","%char appended) =
     _client_ip trusted any_trusted peer appended) /\
  (forall header, let ip := _client_ip trusted any_trusted peer header in
     ip = peer \/ trusted ip = false).
Proof.
  unfold _client_ip. split; [|split].
  - destruct any_trusted, (trusted peer); done.
  - intros claim appended (hop & Hin & Hhop). destruct (_ || _); [done|].
    rewrite hops_app, reverse_app, first_untrusted_app.
    destruct (first_untrusted trusted (reverse (hops appended))) eqn:E; [done|].
    unfold first_untrusted in E. assert (Hf : hop ∈ filter (fun h => trusted h = false) (reverse (hops appended)))
      by (apply list_elem_of_filter; by rewrite elem_of_reverse).
    destruct (filter _ _); [by apply not_elem_of_nil in Hf|done].
  - intros header. destruct (_ || _); [by left|].
    destruct (first_untrusted trusted _) as [h|] eqn:E; [|by left].
    right. exact (proj2 (first_untrusted_in _ _ _ E)).
Qed.

(** *** The shared limiter *)

Section RedisProps.
Context {R : Type} `{RedisLaws R} (prefix key : string) (limit w : Z) (Hw : (0 < w)%Z).

Fixpoint redis_run (times : list Z) (r : R) : list bool :=
  match times with
  | [] => []
  | t :: times =>
      let '(v, r) := _check_redis prefix key limit w t r in passes v :: redis_run times r
  end.

Lemma check_redis_live t r n e :
  rc_view t (prefix +:+ ":" +:+ key) r = Some (n, Some e) ->
  let '(v, r') := _check_redis prefix key limit w t r in
  passes v = (n <? limit)%Z /\ rc_view t (prefix +:+ ":" +:+ key) r' = Some (n + 1, Some e)%Z.
Proof.
  intros Hv. pose proof (rc_live _ _ _ _ _ Hv) as He. unfold _check_redis.
  pose proof (rc_incr_spec t (prefix +:+ ":" +:+ key) r) as [E1 E2]. rewrite Hv in E1, E2. simpl in E1, E2.
  destruct (rc_incr_ttl _ _ _) as [[c ttl] r']. simpl in *. injection E1 as -> ->.
  rewrite (proj2 (Z.eqb_neq (e - t) (-1))) by lia.
  destruct (Z.ltb_spec limit (n + 1)), (Z.ltb_spec n limit); simpl; (split; [|done]); try done; lia.
Qed.

Lemma check_redis_fresh t r :
  rc_view t (prefix +:+ ":" +:+ key) r = None ->
  let '(v, r') := _check_redis prefix key limit w t r in
  passes v = (0 <? limit)%Z /\ rc_view t (prefix +:+ ":" +:+ key) r' = Some (1, Some (t + w))%Z.
Proof.
  intros Hv. unfold _check_redis. pose proof (rc_incr_spec t (prefix +:+ ":" +:+ key) r) as [E1 E2].
  rewrite Hv in E1, E2. simpl in E1, E2. destruct (rc_incr_ttl _ _ _) as [[c ttl] r']. simpl in *.
  injection E1 as -> ->. change (0 + 1)%Z with 1%Z in *. simpl.
  destruct (Z.ltb_spec limit 1), (Z.ltb_spec 0 limit); simpl;
    (split; [try done; lia|by apply (rc_expire_spec _ _ _ _ 1%Z None)]).
Qed.

Lemma redis_run_live times t r n e :
  rc_view t (prefix +:+ ":" +:+ key) r = Some (n, Some e) ->
  Sorted Z.le (t :: times) -> Forall (fun x => x < e)%Z times ->
  redis_run times r = (fun i => n + Z.of_nat i <? limit)%Z <$> seq 0 (length times).
Proof.
  revert t r n. induction times as [|t' times IH]; intros t r n Hv Hs Hall; [done|].
  apply Sorted_inv in Hs as [Hs Ht%HdRel_inv]. apply Forall_cons in Hall as [He Hall]. simpl.
  assert (Hv' : rc_view t' (prefix +:+ ":" +:+ key) r = Some (n, Some e)).
  { rewrite (rc_ages _ _ _ _ Ht), Hv. by rewrite (proj2 (Z.ltb_lt t' e)). }
  pose proof (check_redis_live t' r n e Hv') as Hc.
  destruct (_check_redis _ _ _ _ _ _) as [v r']. destruct Hc as [-> Hv2]. f_equal; [f_equal; lia|].
  rewrite (IH t' r' (n + 1)%Z) by done. rewrite <- seq_shift, <- list_fmap_compose.
  apply list_fmap_ext. intros _ i _. simpl. f_equal. lia.
Qed.

(** Over Redis, of the attempts made in the window that a first attempt opens,
    exactly the first [limit] pass. *)
Theorem redis_window t times r :
  rc_view t (prefix +:+ ":" +:+ key) r = None ->
  Sorted Z.le (t :: times) -> Forall (fun x => x < t + w)%Z times ->
  redis_run (t :: times) r = (fun i => Z.of_nat i <? limit)%Z <$> seq 0 (S (length times)).
Proof.
  intros Hv Hs Hall. simpl. pose proof (check_redis_fresh t r Hv) as Hc.
  destruct (_check_redis _ _ _ _ _ _) as [v r']. destruct Hc as [-> Hv2]. f_equal.
  rewrite (redis_run_live times t r' 1%Z (t + w)%Z) by done. rewrite <- seq_shift, <- list_fmap_compose.
  apply list_fmap_ext. intros _ i _. simpl. f_equal. lia.
Qed.
End RedisProps.

(** ** Over an unreachable server

    Nothing is limited any more: the middleware lets every request through, and no
    in-process counter takes over. *)
Lemma unreachable_admits_all {R} `{RedisCounters R} str_of trusted any_trusted s now rq e :
  (forall extras, e <> Domain RateLimitedError extras) ->
  dispatch str_of trusted any_trusted s now rq (UnreachableRedis e) =
    (Proceed, UnreachableRedis e : backend R).
Proof.
  intros He. assert (Hb : forall key limit,
    bucket key limit s now (UnreachableRedis e : backend R) = (Proceed, UnreachableRedis e)).
  { intros key limit. unfold bucket. simpl. destruct e as [c x|n]; [|done].
    destruct c; try done. by destruct (He x). }
  unfold dispatch. destruct (auth_route _) as [field|]; [|done]. rewrite Hb.
  destruct (field ≫= _) as [a|]; [|done]. destruct (String.eqb _ _); [apply Hb|done].
Qed.

(** ** A Redis server as a dictionary *)

Abbreviation redis_dict := (gmap string (Z * option Z)) (only parsing).

Definition dict_view (t : Z) (k : string) (r : redis_dict) : option (Z * option Z) :=
  match r !! k with
  | Some (n, Some e) => if (t <? e)%Z then Some (n, Some e) else None
  | v => v
  end.

Lemma dict_view_insert t k n e (r : redis_dict) :
  dict_view t k (<[k := (n, e)]> r) =
  match e with Some x => if (t <? x)%Z then Some (n, e) else None | None => Some (n, e) end.
Proof. unfold dict_view. rewrite lookup_insert_eq. by destruct e. Qed.

#[export] Instance redis_dict_counters : RedisCounters redis_dict := {|
  rc_incr_ttl t k r :=
    let old := dict_view t k r in
    let n := (match old with Some (n, _) => n | None => 0 end + 1)%Z in
    let e := old ≫= snd in
    ((n, match e with Some e => (e - t)%Z | None => (-1)%Z end), <[k := (n, e)]> r);
  rc_expire t k s r :=
    match dict_view t k r with
    | Some (n, _) => <[k := (n, Some (t + s)%Z)]> r
    | None => r
    end
|}.

#[export] Program Instance redis_dict_laws : RedisLaws redis_dict := {| rc_view := dict_view |}.
Next Obligation. intros t k r n e. unfold dict_view. repeat case_match; intros; simplify_eq; lia. Qed.
Next Obligation.
  intros t t' k r Ht. unfold dict_view. destruct (r !! k) as [[n [e|]]|]; [|done..].
  destruct (Z.ltb_spec t e), (Z.ltb_spec t' e); simpl; try done; lia.
Qed.
Next Obligation.
  intros t k r old n e. split; [done|]. subst old n e. cbn [rc_incr_ttl redis_dict_counters snd].
  rewrite dict_view_insert. unfold dict_view. destruct (r !! k) as [[n [e|]]|]; simpl; [|done..].
  destruct (Z.ltb_spec t e); simpl; [|done]. by rewrite (proj2 (Z.ltb_lt t e)).
Qed.
Next Obligation. intros t k k' r Hk. unfold dict_view. simpl. by rewrite lookup_insert_ne. Qed.
Next Obligation.
  intros t k s r n e Hs Hv. simpl. rewrite Hv, dict_view_insert.
  by rewrite (proj2 (Z.ltb_lt t (t + s))) by lia.
Qed.
Next Obligation.
  intros t k k' s r Hk. unfold rc_expire, redis_dict_counters. destruct (dict_view t k r) as [[n e]|]; [|done].
  unfold dict_view. by rewrite lookup_insert_ne.
Qed.

(** ** Witnesses *)

Definition two (_ : string) : Z := 2.
Definition at_ip (t : Z) : attempt := Attempt "auth:ip:10.0.0.1" t.
Definition burst : list attempt := [at_ip 58; at_ip 59; at_ip 60; at_ip 61; at_ip 62].

Lemma burst_in_order : in_time_order burst.
Proof. unfold in_time_order, burst, at_ip. repeat constructor; simpl; lia. Qed.

Lemma local_refines_witness : local_run two 60 new_limiter burst = [true; true; true; true; false].
Proof. rewrite (local_refines two 60 burst eq_refl burst_in_order). reflexivity. Defined.

Lemma burst_bounded_witness :
  (sumZ (fun av : attempt * bool => if in_span 60 "auth:ip:10.0.0.1" 58 av.1 && av.2 then 1 else 0)
     (zip burst (local_run two 60 new_limiter burst)) <= 4)%Z.
Proof. exact (proj2 (burst_bounded two 60 burst "auth:ip:10.0.0.1" 58 eq_refl burst_in_order)). Defined.

Lemma redis_window_witness :
  redis_run "rl" "auth:ip:10.0.0.1" 2 60 [58; 59; 60]%Z (∅ : redis_dict) = [true; true; false].
Proof.
  rewrite (redis_window (R := redis_dict) "rl" "auth:ip:10.0.0.1" 2 60 ltac:(lia) 58 [59; 60]%Z ∅);
    [reflexivity|reflexivity|repeat constructor; lia|repeat constructor; lia].
Defined.

Definition own_proxies (ip : string) : bool := starts_with "10." ip.

Lemma client_ip_unspoofable_witness :
  _client_ip own_proxies true "10.0.0.2" ("1.2.3.4" +:+ String ","%char "203.0.113.9") = "203.0.113.9".
Proof.
  rewrite (proj1 (proj2 (client_ip_unspoofable own_proxies true "10.0.0.2")) "1.2.3.4" "203.0.113.9").
  - reflexivity.
  - exists "203.0.113.9". split; [left|reflexivity].
Defined.
