(* ===== verification/Cache.v ===== *)
(** The version-counter cache (core/cache.py).

    [CacheBackend] is the [CacheBackend] protocol; [CacheLaws] is what a
    correct store promises.  [TTLDictBackend] is the in-process store, an
    instance of both.  [VersionedCache] works over any backend, and its
    theorems are proved against the laws only. *)

From Stdlib Require Import Ascii.
From S2P Require Import Prelude Json Errors Events Tables Store.

Definition DEFAULT_TTL_SECONDS : Z := 60.
Definition _VERSION_TTL_SECONDS : Z := 3600.

(** [int(text)] of a cached value: a JSON document is not an int literal. *)
Definition int_of_cached (v : cached) : option Z :=
  match v with CText s => int_of_str s | CJson _ => None end.

(** Truthiness of a cached text: the empty string is false. *)
Definition truthy_cached (v : cached) : bool :=
  match v with CText s => negb (String.eqb s "") | CJson _ => true end.

(** ** The backend protocol

    Each operation takes the instant it runs at ([time.monotonic()] for the
    in-process store).  [cb_incr] returns [None] for the [ValueError] of a key
    that holds no integer. *)
Class CacheBackend (B : Type) := {
  cb_get : instant -> string -> B -> option cached * B;
  cb_set : instant -> string -> cached -> Z -> B -> B;
  cb_delete : list string -> B -> B;
  cb_incr : instant -> string -> B -> option Z * B
}.

(** What a read at [t] observes. *)
Definition peek {B} `{CacheBackend B} (t : instant) (k : string) (b : B) : option cached :=
  (cb_get t k b).1.

(** ** The in-process store *)

Abbreviation ttl_store := (gmap string (instant * cached)) (only parsing).

Module TTLDictBackend.

Definition get (t : instant) (k : string) (b : ttl_store) : option cached * ttl_store :=
  match b !! k with
  | None => (None, b)
  | Some (expires, value) =>
      if (expires <? t)%Z then (None, delete k b) else (Some value, b)
  end.

Definition set (t : instant) (k : string) (v : cached) (ex : Z) (b : ttl_store) : ttl_store :=
  <[k := ((t + seconds ex)%Z, v)]> b.

Definition delete_keys (ks : list string) (b : ttl_store) : ttl_store :=
  foldl (fun b k => delete k b) b ks.

Definition incr (t : instant) (k : string) (b : ttl_store) : option Z * ttl_store :=
  let '(current, b) := get t k b in
  let parsed := match current with
                | Some v => if truthy_cached v then int_of_cached v else Some 0%Z
                | None => Some 0%Z
                end in
  match parsed with
  | None => (None, b)
  | Some n =>
      let value := (n + 1)%Z in
      (Some value, <[k := ((t + seconds _VERSION_TTL_SECONDS)%Z, CText (Z_str value))]> b)
  end.

End TTLDictBackend.

#[export] Instance ttl_dict_backend : CacheBackend ttl_store := {|
  cb_get := TTLDictBackend.get;
  cb_set := TTLDictBackend.set;
  cb_delete := TTLDictBackend.delete_keys;
  cb_incr := TTLDictBackend.incr
|}.

(** ** The versioned cache *)

Record versioned_cache : Type := VersionedCache { vc_namespace : string; vc_ttl : Z }.

Section VersionedCache.
Context {B : Type} `{CacheBackend B} (c : versioned_cache).

Definition _version_key (key : string) : string := vc_namespace c +:+ ":ver:" +:+ key.
Definition _body_key (key : string) (version : Z) : string :=
  vc_namespace c +:+ ":v" +:+ Z_str version +:+ ":" +:+ key.
Definition _scoped_key (key token : string) : string :=
  vc_namespace c +:+ ":s[" +:+ token +:+ "]:" +:+ key.

(** [None]: the stored counter is not an integer ([ValueError]). *)
Definition current_version (t : instant) (key : string) (b : B) : option Z * B :=
  let '(raw, b) := cb_get t (_version_key key) b in
  (match raw with
   | Some v => if truthy_cached v then int_of_cached v else Some 0%Z
   | None => Some 0%Z
   end, b).

Definition get_versioned (t : instant) (key : string) (b : B) : option (option cached * Z) * B :=
  let '(version, b) := current_version t key b in
  match version with
  | None => (None, b)
  | Some version =>
      let '(body, b) := cb_get t (_body_key key version) b in (Some (body, version), b)
  end.

(** [set(key, value, version=v)]. *)
Definition set_versioned (t : instant) (key : string) (value : cached) (version : Z) (b : B) : B :=
  cb_set t (_body_key key version) value (vc_ttl c) b.

(** [set(key, value)]: a fresh read of the counter. *)
Definition set_latest (t : instant) (key : string) (value : cached) (b : B) : option unit * B :=
  let '(version, b) := current_version t key b in
  match version with
  | None => (None, b)
  | Some version => (Some tt, set_versioned t key value version b)
  end.

Fixpoint scope_parts (t : instant) (scopes : list string) (b : B) : option (list string) * B :=
  match scopes with
  | [] => (Some [], b)
  | scope :: scopes =>
      let '(version, b) := current_version t scope b in
      match version with
      | None => (None, b)
      | Some version =>
          let '(parts, b) := scope_parts t scopes b in
          (cons (scope +:+ "=" +:+ Z_str version) <$> parts, b)
      end
  end.

Definition get_scoped (t : instant) (key : string) (scopes : list string) (b : B) :
    option (option cached * string) * B :=
  let '(parts, b) := scope_parts t scopes b in
  match parts with
  | None => (None, b)
  | Some parts =>
      let token := String.concat "," parts in
      let '(body, b) := cb_get t (_scoped_key key token) b in (Some (body, token), b)
  end.

Definition set_scoped (t : instant) (key : string) (value : cached) (token : string) (b : B) : B :=
  cb_set t (_scoped_key key token) value (vc_ttl c) b.

(** [bump]: any failure of the increment is logged and answered with -1. *)
Definition bump (t : instant) (key : string) (b : B) : Z * B :=
  let '(value, b) := cb_incr t (_version_key key) b in (default (-1)%Z value, b).

(** [delete]: implemented as a bump. *)
Definition delete_key (t : instant) (key : string) (b : B) : B := (bump t key b).2.
End VersionedCache.

(** ** The laws of a backend *)

Class CacheLaws (B : Type) `{CacheBackend B} : Prop := {
  law_set_eq t t' k v ex b :
    (t' <= t + seconds ex)%Z -> peek t' k (cb_set t k v ex b) = Some v;
  law_set_ne t t' k k' v ex b :
    k <> k' -> peek t' k' (cb_set t k v ex b) = peek t' k' b;
  law_get t t' k k' b :
    (t <= t')%Z -> peek t' k' (cb_get t k b).2 = peek t' k' b;
  law_delete t k ks b :
    peek t k (cb_delete ks b) = if bool_decide (k ∈ ks) then None else peek t k b;
  law_incr t k b :
    (cb_incr t k b).1 =
      match peek t k b with
      | Some v => if truthy_cached v then (Z.add 1) <$> int_of_cached v else Some 1%Z
      | None => Some 1%Z
      end;
  law_incr_eq t t' k n b :
    (cb_incr t k b).1 = Some n -> (t' <= t + seconds _VERSION_TTL_SECONDS)%Z ->
    peek t' k (cb_incr t k b).2 = Some (CText (Z_str n));
  law_incr_ne t t' k k' b :
    k <> k' -> peek t' k' (cb_incr t k b).2 = peek t' k' b
}.

Lemma ttl_peek t k (b : ttl_store) :
  peek t k b = match b !! k with
               | Some (e, v) => if (e <? t)%Z then None else Some v
               | None => None
               end.
Proof. unfold peek; simpl. unfold TTLDictBackend.get. by repeat case_match. Qed.

Lemma ttl_delete_lookup k ks (b : ttl_store) :
  TTLDictBackend.delete_keys ks b !! k = if bool_decide (k ∈ ks) then None else b !! k.
Proof.
  unfold TTLDictBackend.delete_keys. revert b.
  induction ks as [|k' ks IH]; intros b; simpl; [done|]. rewrite IH.
  destruct (decide (k ∈ ks)); [rewrite !bool_decide_true by set_solver; done|].
  rewrite (bool_decide_false (k ∈ ks)) by done.
  destruct (decide (k = k')) as [->|].
  - rewrite lookup_delete_eq, bool_decide_true by set_solver. done.
  - rewrite lookup_delete_ne, bool_decide_false by set_solver. done.
Qed.

Lemma ttl_get_snd_lookup t k k' (b : ttl_store) :
  (TTLDictBackend.get t k b).2 !! k' =
    if bool_decide (k = k') then
      match b !! k with Some (e, v) => if (e <? t)%Z then None else Some (e, v) | None => None end
    else b !! k'.
Proof.
  unfold TTLDictBackend.get. case_bool_decide as E; [subst|];
    repeat case_match; simplify_map_eq; done.
Qed.

#[export] Instance ttl_dict_laws : CacheLaws ttl_store.
Proof.
  split; intros.
  - rewrite ttl_peek. simpl. unfold TTLDictBackend.set. rewrite lookup_insert_eq.
    destruct (Z.ltb_spec (t + seconds ex) t'); [lia|done].
  - rewrite !ttl_peek. simpl. unfold TTLDictBackend.set. by rewrite lookup_insert_ne.
  - rewrite !ttl_peek. simpl. rewrite ttl_get_snd_lookup. case_bool_decide as E; [subst|done].
    destruct (b !! k') as [[e v]|]; [|done].
    destruct (Z.ltb_spec e t); [|done]. destruct (Z.ltb_spec e t'); [done|lia].
  - rewrite !ttl_peek. simpl. rewrite ttl_delete_lookup. by case_bool_decide.
  - unfold peek; simpl. unfold TTLDictBackend.incr. destruct (TTLDictBackend.get t k b) as [cur b'].
    simpl. destruct cur as [v|]; [|done]. destruct (truthy_cached v); [|done].
    destruct (int_of_cached v); simpl; [|done]. f_equal; lia.
  - rewrite ttl_peek. revert H. simpl. unfold TTLDictBackend.incr.
    destruct (TTLDictBackend.get t k b) as [cur b'].
    destruct (match cur with Some _ => _ | None => _ end); simpl; [|done].
    intros [= <-]. rewrite lookup_insert_eq.
    destruct (Z.ltb_spec (t + seconds _VERSION_TTL_SECONDS) t'); [lia|done].
  - rewrite !ttl_peek. simpl. unfold TTLDictBackend.incr.
    destruct (TTLDictBackend.get t k b) as [cur b'] eqn:E.
    assert (Hb : b' !! k' = b !! k').
    { pose proof (ttl_get_snd_lookup t k k' b) as Hg. rewrite E in Hg. simpl in Hg.
      rewrite bool_decide_false in Hg by done. done. }
    destruct (match cur with Some _ => _ | None => _ end); simpl;
      by rewrite ?lookup_insert_ne, Hb by done.
Qed.

(** ** Keys never collide *)

Definition colon : ascii := Ascii.ascii_of_nat 58.

Lemma digits_no_colon s : string_Forall (.∈ digit_chars) s -> string_Forall (.≠ colon) s.
Proof.
  induction s as [|a s IH]; simpl; [done|]. intros [Ha Hs]. split; [|auto].
  intros ->. unfold digit_chars in Ha. set_solver.
Qed.

Lemma body_key_inj c key key' v v' : _body_key c key v = _body_key c key' v' -> v = v' /\ key = key'.
Proof.
  unfold _body_key. intros H. apply app_inv_head_str in H. apply app_inv_head_str in H.
  apply (split_at_sep colon) in H as [Hv Hk].
  - split; [by apply Z_str_inj|done].
  - apply digits_no_colon, Z_str_digits.
  - apply digits_no_colon, Z_str_digits.
Qed.

Lemma version_key_inj c key key' : _version_key c key = _version_key c key' -> key = key'.
Proof. unfold _version_key. intros H. by do 2 apply app_inv_head_str in H. Qed.

Lemma version_body_key_ne c key key' v : _version_key c key <> _body_key c key' v.
Proof.
  unfold _version_key, _body_key. intros H. apply app_inv_head_str in H.
  change (":ver:" +:+ key) with (":v" +:+ ("er:" +:+ key)) in H. apply app_inv_head_str in H.
  destruct (Z_str_digits v) as [Hd Hne]. destruct (Z_str v) as [|a s]; [done|].
  injection H as <- _. destruct Hd as [Hd _]. unfold digit_chars in Hd. set_solver.
Qed.

Create HintDb cache discriminated.
Create Rewrite HintDb cache.
#[export] Hint Resolve version_body_key_ne : cache.

(** ** Properties of the versioned cache, for every lawful backend *)

Section Laws.
Context {B : Type} `{CacheLaws B} (c : versioned_cache).

(** What a reader of [key] gets at [t]. *)
Definition observed (t : instant) (key : string) (b : B) : option (option cached * Z) :=
  (get_versioned c t key b).1.

Lemma current_version_peek t key (b : B) :
  (current_version c t key b).1 =
    match peek t (_version_key c key) b with
    | Some v => if truthy_cached v then int_of_cached v else Some 0%Z
    | None => Some 0%Z
    end.
Proof. unfold current_version, peek. by destruct (cb_get _ _ _). Qed.

Lemma current_version_snd t key (b : B) :
  (current_version c t key b).2 = (cb_get t (_version_key c key) b).2.
Proof. unfold current_version. by destruct (cb_get _ _ _). Qed.

Lemma observed_peek t key (b : B) v :
  (current_version c t key b).1 = Some v ->
  observed t key b = Some (peek t (_body_key c key v) b, v).
Proof.
  intros Hv. unfold observed, get_versioned.
  destruct (current_version c t key b) as [v' b'] eqn:E. simpl in Hv. subst v'.
  assert (b' = (cb_get t (_version_key c key) b).2) as ->
    by (by rewrite <- current_version_snd, E).
  rewrite <- (law_get t t (_version_key c key) (_body_key c key v) b) by lia.
  unfold peek. by destruct (cb_get t (_body_key c key v) _).
Qed.

Lemma Z_str_truthy n : truthy_cached (CText (Z_str n)) = true.
Proof.
  simpl. destruct (String.eqb_spec (Z_str n) ""); [|done]. by destruct (Z_str_digits n).
Qed.

Lemma version_after_bump t t' key (b : B) v :
  (current_version c t key b).1 = Some v ->
  (t' <= t + seconds _VERSION_TTL_SECONDS)%Z ->
  (current_version c t' key (bump c t key b).2).1 = Some (v + 1)%Z.
Proof.
  rewrite !current_version_peek. intros Hv Ht.
  assert (Hn : (cb_incr t (_version_key c key) b).1 = Some (v + 1)%Z).
  { rewrite law_incr. destruct (peek _ _ b) as [cv|]; [destruct (truthy_cached cv)|]; simpl in *.
    - rewrite Hv. simpl. f_equal. lia.
    - by simplify_eq/=.
    - by simplify_eq/=. }
  assert (Hs : (bump c t key b).2 = (cb_incr t (_version_key c key) b).2)
    by (unfold bump; by destruct (cb_incr _ _ _)).
  rewrite Hs, (law_incr_eq _ _ _ _ _ Hn Ht), Z_str_truthy. apply int_of_Z_str.
Qed.

Lemma version_set_versioned t t' key key' value v (b : B) :
  (current_version c t' key (set_versioned c t key' value v b)).1 = (current_version c t' key b).1.
Proof.
  rewrite !current_version_peek. unfold set_versioned. rewrite law_set_ne; [done|].
  intros E. symmetry in E. by apply version_body_key_ne in E.
Qed.
End Laws.

#[export] Hint Rewrite @version_set_versioned : cache.

(** ** Histories of the cache

    What the requests sharing a cache do to it, each at its own instant. *)
Inductive cache_op : Type :=
  | OpGet (key : string)
  | OpSet (key : string) (value : cached) (version : option Z)
  | OpGetScoped (key : string) (scopes : list string)
  | OpSetScoped (key : string) (value : cached) (token : string)
  | OpBump (key : string)
  | OpDelete (key : string).

(** The key an operation invalidates, if it invalidates one. *)
Definition bumped (op : cache_op) : option string :=
  match op with OpBump key | OpDelete key => Some key | _ => None end.

Definition cache_step {B} `{CacheBackend B} (c : versioned_cache) (b : B) (o : instant * cache_op) : B :=
  let '(t, op) := o in
  match op with
  | OpGet key => (get_versioned c t key b).2
  | OpSet key value (Some version) => set_versioned c t key value version b
  | OpSet key value None => (set_latest c t key value b).2
  | OpGetScoped key scopes => (get_scoped c t key scopes b).2
  | OpSetScoped key value token => set_scoped c t key value token b
  | OpBump key => (bump c t key b).2
  | OpDelete key => delete_key c t key b
  end.

Definition cache_run {B} `{CacheBackend B} (c : versioned_cache) (ops : list (instant * cache_op)) (b : B) : B :=
  foldl (cache_step c) b ops.

(** The operations run one after the other, between [lo] and [hi]. *)
Fixpoint timed (lo : instant) (ops : list (instant * cache_op)) (hi : instant) : bool :=
  match ops with
  | [] => (lo <=? hi)%Z
  | (t, _) :: ops => (lo <=? t)%Z && timed t ops hi
  end.

Section Histories.
Context {B : Type} `{CacheLaws B} (c : versioned_cache).

(** From [lo] to [hi] the counter of [key] reads as [v] or a later version. *)
Definition counted (lo hi : instant) (key : string) (v : Z) (b : B) : Prop :=
  forall t, (lo <= t)%Z -> (t <= hi)%Z ->
    exists n, (current_version c t key b).1 = Some n /\ (v <= n)%Z.

Lemma counted_agree lo lo' hi key v (b b' : B) :
  (lo <= lo')%Z ->
  (forall t, (lo' <= t)%Z -> peek t (_version_key c key) b' = peek t (_version_key c key) b) ->
  counted lo hi key v b -> counted lo' hi key v b'.
Proof.
  intros Hlo Heq Hc t H1 H2. destruct (Hc t) as (n & Hn & Hle); [lia..|].
  exists n. split; [|done]. rewrite current_version_peek, Heq, <- current_version_peek by lia. done.
Qed.

Lemma version_scoped_key_ne key key' token : _version_key c key <> _scoped_key c key' token.
Proof. unfold _version_key, _scoped_key. intros E. by apply app_inv_head_str in E. Qed.

Lemma current_version_agree t t' k k' (b : B) :
  (t <= t')%Z -> peek t' k' (current_version c t k b).2 = peek t' k' b.
Proof. intros. rewrite current_version_snd. by apply law_get. Qed.

Lemma scope_parts_agree t t' k scopes (b : B) :
  (t <= t')%Z -> peek t' k (scope_parts c t scopes b).2 = peek t' k b.
Proof.
  intros Ht. revert b. induction scopes as [|scope scopes IH]; intros b; simpl; [done|].
  pose proof (current_version_agree t t' scope k b Ht) as Hcv.
  destruct (current_version c t scope b) as [[v|] b1]; simpl in *; [|done].
  specialize (IH b1). destruct (scope_parts c t scopes b1) as [parts b2]. simpl in *. by rewrite IH.
Qed.

(** A step that bumps another key, or none, leaves the counter alone. *)
Lemma step_agree t t' key op (b : B) :
  (t <= t')%Z -> bumped op <> Some key ->
  peek t' (_version_key c key) (cache_step c b (t, op)) = peek t' (_version_key c key) b.
Proof.
  intros Ht Hb. destruct op as [k|k value [v|]|k scopes|k value token|k|k]; simpl in *.
  - unfold get_versioned. pose proof (current_version_agree t t' k (_version_key c key) b Ht) as E.
    destruct (current_version c t k b) as [[v|] b1]; simpl in *; [|done].
    rewrite <- E, <- (law_get t t' (_body_key c k v) (_version_key c key) b1) by done.
    by destruct (cb_get _ _ _).
  - unfold set_versioned. rewrite law_set_ne; [done|]. intros E. by apply eq_sym, version_body_key_ne in E.
  - unfold set_latest. pose proof (current_version_agree t t' k (_version_key c key) b Ht) as E.
    destruct (current_version c t k b) as [[v|] b1]; simpl in *; [|done].
    unfold set_versioned. rewrite law_set_ne, E; [done|].
    intros E'. by apply eq_sym, version_body_key_ne in E'.
  - unfold get_scoped. pose proof (scope_parts_agree t t' (_version_key c key) scopes b Ht) as E.
    destruct (scope_parts c t scopes b) as [[parts|] b1]; simpl in *; [|done].
    rewrite <- E, <- (law_get t t' (_scoped_key c k (String.concat "," parts)) (_version_key c key) b1) by done.
    by destruct (cb_get _ _ _).
  - unfold set_scoped. rewrite law_set_ne; [done|]. intros E. by apply eq_sym, version_scoped_key_ne in E.
  - unfold bump. rewrite <- (law_incr_ne t t' (_version_key c k) (_version_key c key) b) by (intros E; apply version_key_inj in E; congruence).
    by destruct (cb_incr _ _ _).
  - unfold delete_key, bump.
    rewrite <- (law_incr_ne t t' (_version_key c k) (_version_key c key) b) by (intros E; apply version_key_inj in E; congruence).
    by destruct (cb_incr _ _ _).
Qed.

(** A bump while the counter is readable makes a version no reader has seen. *)
Lemma bump_counted t hi key v (b : B) :
  counted t t key v b -> (hi <= t + seconds _VERSION_TTL_SECONDS)%Z ->
  counted t hi key (v + 1) (bump c t key b).2.
Proof.
  intros Hc Hhi t' H1 H2. destruct (Hc t) as (n & Hn & Hle); [lia..|].
  exists (n + 1)%Z. split; [|lia]. apply version_after_bump; [done|lia].
Qed.

Lemma counted_weaken lo lo' hi hi' key v v' (b : B) :
  counted lo hi key v b -> (lo <= lo')%Z -> (hi' <= hi)%Z -> (v' <= v)%Z -> counted lo' hi' key v' b.
Proof.
  intros Hc ??? t ??. destruct (Hc t) as (n & Hn & ?); [lia..|]. exists n. split; [done|lia].
Qed.

Lemma run_counted lo hi key v ops (b : B) :
  counted lo hi key v b -> timed lo ops hi = true ->
  (hi <= lo + seconds _VERSION_TTL_SECONDS)%Z ->
  counted hi hi key v (cache_run c ops b).
Proof.
  revert lo b. induction ops as [|[t op] ops IH]; intros lo b Hc Ht Hhi; simpl in *.
  - apply Z.leb_le in Ht. by eapply counted_weaken.
  - apply andb_true_iff in Ht as [Hlo Ht]. apply Z.leb_le in Hlo.
    assert (Hth : (t <= hi)%Z).
    { clear -Ht. revert t Ht. induction ops as [|[u o] ops IH]; simpl; intros t Ht; [by apply Z.leb_le|].
      apply andb_true_iff in Ht as [H1 H2]. apply Z.leb_le in H1. specialize (IH _ H2). lia. }
    apply (IH t); [|done|lia].
    assert (Hbump : counted t hi key v (bump c t key b).2).
    { eapply counted_weaken; [apply (bump_counted t hi key v)|lia..]; [|lia].
      eapply counted_weaken; [exact Hc|lia..]. }
    destruct (decide (bumped op = Some key)) as [Hb|Hb].
    { destruct op; simplify_eq/=; exact Hbump. }
    eapply (counted_agree lo); [done| |done]. intros t' Ht'. by apply (step_agree t).
Qed.

Lemma store_counted t lo hi key key' value v w (b : B) :
  counted lo hi key v b -> counted lo hi key v (set_versioned c t key' value w b).
Proof.
  intros Hc t' H1 H2. rewrite version_set_versioned. by apply Hc.
Qed.
End Histories.

(** C30: a body read before an invalidation and stored after it is never served, for
    every backend that satisfies the protocol's laws.  A reader finds version [v] at
    [t0]; whatever the other requests do to the cache, the key is invalidated by a
    bump at [t1]; after more operations the first reader stores its stale body under
    [v].  A read at [t3] then answers exactly what it would answer had the stale body
    never been stored, and from a version later than [v].  The bounds are the ones the code has: the counter read at
    [t0] has not expired before the bump, the bump comes within the hour a counter
    lives after the read and the last read within an hour of the bump.  (An increment
    that fails is logged and invalidates nothing; the laws exclude it.) *)
Theorem stale_set_invisible {B} `{CacheLaws B} (c : versioned_cache) (t0 t1 t2 t3 : instant)
    (key : string) (stale : cached) (v : Z) (before after : list (instant * cache_op)) (b : B) :
  (forall t, (t0 <= t)%Z -> (t <= t1)%Z -> (current_version c t key b).1 = Some v) ->
  timed t0 before t1 = true -> timed t1 after t3 = true ->
  (t1 <= t0 + seconds _VERSION_TTL_SECONDS)%Z ->
  (t3 <= t1 + seconds _VERSION_TTL_SECONDS)%Z ->
  let invalidated := cache_run c after (bump c t1 key (cache_run c before b)).2 in
  let stored := set_versioned c t2 key stale v invalidated in
  observed c t3 key stored = observed c t3 key invalidated /\
  exists body n, observed c t3 key stored = Some (body, n) /\ (v < n)%Z.
Proof.
  intros Hv Hbefore Hafter H1 H3 invalidated stored.
  assert (Hc : counted c t3 t3 key (v + 1) invalidated).
  { apply (run_counted c t1); [|done..]. apply bump_counted; [|done].
    apply (run_counted c t0); [|done..]. intros t ??. exists v. split; [by apply Hv|lia]. }
  destruct (Hc t3) as (n & Hn & Hle); [lia..|].
  assert (Hs : observed c t3 key stored = observed c t3 key invalidated).
  { rewrite (observed_peek c t3 key stored n) by (unfold stored; by rewrite version_set_versioned).
    rewrite (observed_peek c t3 key invalidated n) by done.
    unfold stored, set_versioned. rewrite law_set_ne; [done|].
    intros E. apply body_key_inj in E as [E _]. lia. }
  split; [done|]. rewrite Hs. exists (peek t3 (_body_key c key n) invalidated), n.
  split; [by apply observed_peek|lia].
Qed.

(** The in-process store serves exactly what was cached: a body stored under
    the version a reader observed is returned to readers while the version is
    current and the body's time to live has not passed. *)
Theorem set_then_get (c : versioned_cache) (t t' : instant) (key : string) (body : cached) (v : Z)
    (b : ttl_store) :
  (current_version c t' key b).1 = Some v -> (t' <= t + seconds (vc_ttl c))%Z ->
  observed c t' key (set_versioned c t key body v b) = Some (Some body, v).
Proof.
  intros Hv Ht. rewrite (observed_peek c t' key _ v) by (by rewrite version_set_versioned).
  unfold set_versioned. by rewrite law_set_eq.
Qed.

(** ** Witnesses *)

Definition entl_cache : versioned_cache := VersionedCache "entl" 60.

Definition filled_store : ttl_store :=
  set_versioned entl_cache 0 "org" (CText "old") 0 ∅.

Definition org_invalidated : ttl_store :=
  cache_run entl_cache [(3%Z, OpGet "org")]
    (bump entl_cache 2 "org" (cache_run entl_cache [(1%Z, OpBump "org")] filled_store)).2.

Definition org_stored : ttl_store :=
  set_versioned entl_cache 5 "org" (CText "stale") 0 org_invalidated.

Lemma stale_set_invisible_witness :
  observed entl_cache 10 "org" org_stored = observed entl_cache 10 "org" org_invalidated /\
  exists body n, observed entl_cache 10 "org" org_stored = Some (body, n) /\ (0 < n)%Z.
Proof.
  apply (stale_set_invisible entl_cache 0 2 5 10 "org" (CText "stale") 0
           [(1%Z, OpBump "org")] [(3%Z, OpGet "org")] filled_store);
    [reflexivity | reflexivity | reflexivity | vm_compute; discriminate | vm_compute; discriminate].
Defined.

Lemma set_then_get_witness :
  observed entl_cache 7 "org" (set_versioned entl_cache 5 "org" (CText "body") 0 ∅) =
  Some (Some (CText "body"), 0%Z).
Proof. apply set_then_get; [reflexivity | vm_compute; discriminate]. Defined.

(** ** Beyond the counter's lifetime

    The in-process counter itself expires an hour after its last bump, and the next
    bump starts again from 1: a body cached under the first version 1 less than its
    own lifetime earlier is current again, although it was invalidated in between. *)
Definition hour_old : ttl_store :=
  let b := (bump entl_cache 0 "org" (∅ : ttl_store)).2 in
  let b := set_versioned entl_cache (seconds 3595) "org" (CText "before") 1 b in
  (bump entl_cache (seconds 3601) "org" b).2.

Lemma reissued_version_serves_stale :
  observed entl_cache (seconds 3602) "org" hour_old = Some (Some (CText "before"), 1%Z).
Proof. vm_compute. reflexivity. Qed.
