(* ===== verification/Session.v ===== *)
(** The request around a service call: the cache as the services reach it,
    post-commit invalidation, the request transaction, the outbox writer and
    the audit writer (core/cache.py, core/db.py, core/outbox.py,
    audit/service.py), and the reasoning principles of the monad: run equations,
    stability of a relation between worlds, and the frames built on it. *)

From S2P Require Import Prelude Json Errors Events Tables Store Cache.

(** ** The cache of a process *)

Definition with_cache {A} (f : instant -> gmap string (instant * cached) ->
    A * gmap string (instant * cached)) : M A := fun w =>
  let '(a, b) := f (w_clock w) (w_cache w) in (Ok a, w <| w_cache := b |>).

Definition value_error {A} (x : option A) : M A :=
  match x with Some a => mret a | None => raise (PyError "ValueError") end.

Definition cache_get_versioned (c : versioned_cache) (k : string) : M (option cached * Z) :=
  r ← with_cache (fun t b => get_versioned c t k b); value_error r.
Definition cache_set (c : versioned_cache) (k : string) (v : cached) (version : Z) : M unit :=
  with_cache (fun t b => (tt, set_versioned c t k v version b)).
Definition cache_get_scoped (c : versioned_cache) (k : string) (scopes : list string) :
    M (option cached * string) :=
  r ← with_cache (fun t b => get_scoped c t k scopes b); value_error r.
Definition cache_set_scoped (c : versioned_cache) (k : string) (v : cached) (token : string) :
    M unit :=
  with_cache (fun t b => (tt, set_scoped c t k v token b)).
Definition cache_bump (c : versioned_cache) (k : string) : M Z :=
  with_cache (fun t b => bump c t k b).

(** [defer_bump]: a cache is named by its namespace (one object per namespace
    in the process). *)
Definition defer_bump (c : versioned_cache) (k : string) : M unit := fun w =>
  let entry := (vc_namespace c, k) in
  (Ok tt, if bool_decide (entry ∈ w_deferred w) then w
          else w <| w_deferred := w_deferred w ++ [entry] |>).

Definition discard_deferred_bumps : M unit := fun w => (Ok tt, w <| w_deferred := [] |>).

Definition flush_deferred_bumps : M Z := fun w =>
  let pending := w_deferred w in
  let '(_, w') := for_each pending (fun nk =>
    _ ← cache_bump (VersionedCache nk.1 DEFAULT_TTL_SECONDS) nk.2; mret tt)
    (w <| w_deferred := [] |>) in
  (Ok (Z.of_nat (length pending)), w').

(** ** The request transaction *)

(** [get_session] around a handler. *)
Definition request {A} (m : M A) : M A := fun w =>
  match m w with
  | (Err e, w') => (Err e, (discard_deferred_bumps (rollback w').2).2)
  | (Ok a, w') =>
      match commit w' with
      | (Err e, w'') => (Err e, (discard_deferred_bumps w'').2)
      | (Ok _, w'') => (Ok a, (flush_deferred_bumps w'').2)
      end
  end.

(** [commit_and_flush_bumps]. *)
Definition commit_and_flush_bumps : M unit := _ ← commit; _ ← flush_deferred_bumps; mret tt.

(** ** Outbox and audit *)

(** [append_outbox]: the event row of a domain event, in the caller's
    transaction; an internal event gets the internal audience. *)
Definition append_outbox (event_type aggregate_type : string) (aggregate_id : uuid)
    (payload : jobj) (organization_id : option uuid) : M unit :=
  i ← fresh_id;
  t ← now;
  put Toutbox_events i
    (OutboxEvent aggregate_type aggregate_id organization_id event_type payload t None
       (audience_for event_type) None 0 t None).

(** [AuditService.log]: an explicit actor wins; an API key is attributed to the
    user who created it, with the key id in the diff; no actor at all turns the
    default actor type into [system]. *)
Definition audit_entry (user : option user_context) (request_id : option string) (t : instant)
    (event_type : string) (organization_id actor_user_id : option uuid) (actor_type : string)
    (target_type : option string) (target_id : option uuid) (diff : option jobj) : audit_log :=
  let '(actor, type, diff) :=
    match actor_user_id, user with
    | None, Some u =>
        match ux_api_key_id u with
        | Some k => (ux_api_key_creator_id u, "api_key",
                     Some (jupdate (default [] diff) [("api_key_id", JUuid k)]))
        | None => (Some (ux_user_id u), actor_type, diff)
        end
    | _, _ => (actor_user_id, actor_type, diff)
    end in
  let type := if bool_decide (actor = None) && String.eqb type "user" then "system" else type in
  AuditLog organization_id actor type event_type target_type target_id diff request_id t.

Definition audit (event_type : string) (organization_id actor_user_id : option uuid)
    (actor_type : string) (target_type : option string) (target_id : option uuid)
    (diff : option jobj) : M unit := fun w =>
  (i ← fresh_id;
   put Taudit_logs i
     (audit_entry (w_user w) (w_request_id w) (w_clock w) event_type organization_id
        actor_user_id actor_type target_type target_id diff)) w.

(** ** Run equations *)

Definition put_w (t : table) (k : key t) (r : row t) (w : world) : world :=
  w <| w_db := set_table (w_db w) t (<[k := r]> (w_db w t)) |>.

Definition del_w (t : table) (k : key t) (w : world) : world :=
  w <| w_db := set_table (w_db w) t (delete k (w_db w t)) |>.

Lemma run_assoc {A B C} (m : M A) (f : A -> M B) (g : B -> M C) w :
  mbind g (mbind f m) w = mbind (fun a => mbind g (f a)) m w.
Proof. unfold mbind, M_bind. by destruct (m w) as [[a|e] w']. Qed.
Lemma run_when {B} (b : bool) m (f : unit -> M B) w :
  mbind f (when_ b m) w = if b then mbind f m w else f tt w.
Proof. by destruct b. Qed.

Lemma run_ok {A B} (m : M A) (f : A -> M B) w a w1 : m w = (Ok a, w1) -> mbind f m w = f a w1.
Proof. unfold mbind, M_bind. by intros ->. Qed.
Lemma run_err {A B} (m : M A) (f : A -> M B) w e w1 : m w = (Err e, w1) -> mbind f m w = (Err e, w1).
Proof. unfold mbind, M_bind. by intros ->. Qed.
Lemma bind_ok {A B} (m : M A) (f : A -> M B) w b w' :
  mbind f m w = (Ok b, w') <-> exists a w1, m w = (Ok a, w1) /\ f a w1 = (Ok b, w').
Proof.
  unfold mbind, M_bind. destruct (m w) as [[a|e] w1]; split; try naive_solver.
Qed.

Lemma bind_err {A B} (m : M A) (f : A -> M B) w e w' :
  mbind f m w = (Err e, w') <->
  m w = (Err e, w') \/ exists a w1, m w = (Ok a, w1) /\ f a w1 = (Err e, w').
Proof.
  unfold mbind, M_bind. destruct (m w) as [[a|e'] w1]; split; try naive_solver.
Qed.

(** Symbolic execution of the straight-line prefix of an operation.  The reads
    are replaced by [change]: a bound variable may carry the concrete type of a
    key or a row. *)
Ltac run_step :=
  match goal with
  | |- context [@mbind M _ _ _ ?f (select ?t ?p) ?w] =>
      change (@mbind M _ _ _ f (select t p) w) with (f (rows_where t p (w_db w t)) w)
  | |- context [@mbind M _ _ _ ?f (session_get ?t ?k) ?w] =>
      change (@mbind M _ _ _ f (session_get t k) w) with (f (w_db w t !! k) w)
  | |- context [@mbind M _ _ _ ?f (read_table ?t) ?w] =>
      change (@mbind M _ _ _ f (read_table t) w) with (f (w_db w t) w)
  | |- context [@mbind M _ _ _ ?f (put ?t ?k ?r) ?w] =>
      change (@mbind M _ _ _ f (put t k r) w) with (f tt (put_w t k r w))
  | |- context [@mbind M _ _ _ ?f (del ?t ?k) ?w] =>
      change (@mbind M _ _ _ f (del t k) w) with (f tt (del_w t k w))
  | |- context [del ?t ?k ?w] => change (del t k w) with (Ok tt, del_w t k w)
  | |- context [put ?t ?k ?r ?w] => change (put t k r w) with (Ok tt, put_w t k r w)
  | |- context [@mbind M _ _ _ ?f now ?w] =>
      change (@mbind M _ _ _ f now w) with (f (w_clock w) w)
  | |- context [@mbind M _ _ _ ?f get_settings ?w] =>
      change (@mbind M _ _ _ f get_settings w) with (f (w_settings w) w)
  | |- context [@mbind M _ _ _ ?f fresh_id ?w] =>
      change (@mbind M _ _ _ f fresh_id w) with
        (f (w_fresh w) (w <| w_fresh := N.succ (w_fresh w) |>))
  | |- context [@mbind M _ _ _ ?f (mret ?a) ?w] =>
      change (@mbind M _ _ _ f (mret a) w) with (f a w)
  | |- context [@mbind M _ _ _ ?f (scalar_one_or_none []) ?w] =>
      change (@mbind M _ _ _ f (scalar_one_or_none []) w) with (f None w)
  | |- context [@mbind M _ _ _ ?f (scalar_one_or_none [?x]) ?w] =>
      change (@mbind M _ _ _ f (scalar_one_or_none [x]) w) with (f (Some x) w)
  | |- context [@mbind M _ _ _ ?f (raise ?e) ?w] =>
      change (@mbind M _ _ _ f (raise e) w) with (@Err _ e, w)
  | |- context [@mbind M _ _ _ ?f (raise_domain ?c ?x) ?w] =>
      change (@mbind M _ _ _ f (raise_domain c x) w) with (@Err _ (Domain c x), w)
  | |- context [@mbind M _ _ _ _ (mbind _ _) _] => rewrite run_assoc
  | |- context [@mbind M _ _ _ _ (when_ _ _) _] => rewrite run_when
  end.
Ltac run := repeat (run_step; cbv beta iota delta [negb]).

(** ** Rows after a write *)

Lemma put_w_eq t k r w : w_db (put_w t k r w) t = <[k := r]> (w_db w t).
Proof. apply set_table_eq. Qed.
Lemma put_w_ne t t' k r w : t <> t' -> w_db (put_w t k r w) t' = w_db w t'.
Proof. apply set_table_ne. Qed.

Lemma del_w_eq t k w : w_db (del_w t k w) t = delete k (w_db w t).
Proof. apply set_table_eq. Qed.
Lemma del_w_ne t t' k w : t <> t' -> w_db (del_w t k w) t' = w_db w t'.
Proof. apply set_table_ne. Qed.

Create Rewrite HintDb tables.
#[export] Hint Rewrite put_w_eq del_w_eq : tables.
#[export] Hint Rewrite put_w_ne del_w_ne using discriminate : tables.

Lemma elem_of_rows_where t p m k r :
  (k, r) ∈ rows_where t p m <-> m !! k = Some r /\ p k r = true.
Proof.
  unfold rows_where. rewrite list_elem_of_filter, elem_of_map_to_list. simpl.
  rewrite Is_true_true. naive_solver.
Qed.

Lemma NoDup_rows_where t p m : NoDup (rows_where t p m).
Proof. apply NoDup_filter, NoDup_map_to_list. Qed.

Lemma NoDup_fst_rows_where t p m : NoDup (rows_where t p m).*1.
Proof.
  unfold rows_where. eapply sublist_NoDup; [apply (NoDup_fst_map_to_list m)|].
  apply fmap_sublist, sublist_filter.
Qed.

Lemma rows_where_ext t p q m :
  (forall k r, m !! k = Some r -> p k r = q k r) -> rows_where t p m = rows_where t q m.
Proof.
  intros H. unfold rows_where.
  assert (Hin : forall kr, kr ∈ map_to_list m -> p kr.1 kr.2 = q kr.1 kr.2).
  { intros [k r] Hkr. by apply H, elem_of_map_to_list. }
  induction (map_to_list m) as [|kr l IH]; [done|]. rewrite !filter_cons.
  rewrite (Hin kr) by left. rewrite IH by (intros; apply Hin; by right). by case_decide.
Qed.

Lemma rows_where_nil t p m :
  rows_where t p m = [] <-> forall k r, m !! k = Some r -> p k r = false.
Proof.
  split.
  - intros H k r Hk. apply not_true_is_false. intros Hp.
    assert ((k, r) ∈ rows_where t p m) as Hin by (by apply elem_of_rows_where).
    rewrite H in Hin. by apply not_elem_of_nil in Hin.
  - intros H. destruct (rows_where t p m) as [|[k r] l] eqn:E; [done|].
    assert ((k, r) ∈ rows_where t p m) as Hin by (rewrite E; left).
    apply elem_of_rows_where in Hin as [Hk Hp]. by rewrite (H k r Hk) in Hp.
Qed.

(** ** Stable relations

    [Stable R m]: running [m] relates the worlds before and after by [R],
    whatever its result.  A preorder that survives a savepoint's restore
    ([Restorable]) is stable under every operation built from stable parts;
    [solve_stable] follows the structure of an operation. *)
Class Restorable (R : relation world) := {
  restorable_preorder :: PreOrder R;
  restorable_restore w w' : R w w' -> R w (w' <| w_db := w_db w |>)
}.

Definition Stable {A} (R : relation world) (m : M A) : Prop := forall w, R w (m w).2.

Section Stable.
Context (R : relation world) `{Restorable R}.

Lemma stable_ret {A} (a : A) : Stable R (mret a).
Proof. intros w. simpl. reflexivity. Qed.
Lemma stable_raise {A} e : Stable R (@raise A e).
Proof. intros w. simpl. reflexivity. Qed.
Lemma stable_raise_domain {A} c x : Stable R (@raise_domain A c x).
Proof. intros w. simpl. reflexivity. Qed.
Lemma stable_bind {A B} (m : M A) (f : A -> M B) :
  Stable R m -> (forall a, Stable R (f a)) -> Stable R (mbind f m).
Proof.
  intros Hm Hf w. unfold mbind, M_bind. specialize (Hm w).
  destruct (m w) as [[a|e] w']; simpl in *; [|done]. etrans; [done|apply Hf].
Qed.
Lemma stable_try {A} (m : M A) h :
  Stable R m -> (forall e m', h e = Some m' -> Stable R m') -> Stable R (try_catch m h).
Proof.
  intros Hm Hh w. unfold try_catch. specialize (Hm w).
  destruct (m w) as [[a|e] w']; simpl in *; [done|].
  destruct (h e) as [m'|] eqn:E; [|done]. etrans; [done|]. by apply (Hh e).
Qed.
Lemma stable_for_each {A} (l : list A) f :
  (forall x, Stable R (f x)) -> Stable R (for_each l f).
Proof.
  intros Hf. induction l as [|x l IH]; simpl; [apply stable_ret|]. by apply stable_bind.
Qed.
Lemma stable_when b m : Stable R m -> Stable R (when_ b m).
Proof. destruct b; [done|]. intros _. apply stable_ret. Qed.
Lemma stable_now : Stable R now.
Proof. intros w. simpl. reflexivity. Qed.
Lemma stable_settings : Stable R get_settings.
Proof. intros w. simpl. reflexivity. Qed.
Lemma stable_read t : Stable R (read_table t).
Proof. intros w. simpl. reflexivity. Qed.
Lemma stable_get t k : Stable R (session_get t k).
Proof. intros w. simpl. reflexivity. Qed.
Lemma stable_select t p : Stable R (select t p).
Proof. intros w. simpl. reflexivity. Qed.
Lemma stable_scalar_none {A} (l : list A) : Stable R (scalar_one_or_none l).
Proof. intros w. destruct l as [|? [|??]]; simpl; reflexivity. Qed.
Lemma stable_scalar {A} (l : list A) : Stable R (scalar_one l).
Proof. intros w. destruct l as [|? [|??]]; simpl; reflexivity. Qed.
Lemma stable_flush : Stable R flush.
Proof. intros w. unfold flush. case_bool_decide; simpl; reflexivity. Qed.
Lemma stable_value_error {A} (x : option A) : Stable R (value_error x).
Proof. intros w. destruct x; simpl; reflexivity. Qed.
Lemma stable_savepoint {A} (m : M A) : Stable R m -> Stable R (savepoint m).
Proof.
  intros Hm w. unfold savepoint. specialize (Hm w).
  destruct (m w) as [[a|e] w']; simpl in *; [|by apply restorable_restore].
  unfold flush. case_bool_decide; simpl; [done|by apply restorable_restore].
Qed.
End Stable.

Create HintDb stable discriminated.
#[export] Hint Resolve stable_ret stable_raise stable_raise_domain stable_now stable_settings
  stable_scalar_none stable_scalar stable_flush stable_value_error : stable.
#[export] Hint Extern 1 (Stable _ (read_table ?t)) => apply (stable_read _ t) : stable.
#[export] Hint Extern 1 (Stable _ (session_get ?t ?k)) => apply (stable_get _ t k) : stable.
#[export] Hint Extern 1 (Stable _ (select ?t ?p)) => apply (stable_select _ t p) : stable.

(** One step of [solve_stable]: a hint, or the rule of the head connective. *)
Ltac stable_step :=
  first
    [ solve [eauto with stable typeclass_instances]
    | match goal with
      | |- forall _, _ => intro
      | |- Stable _ (mbind _ _) => apply stable_bind
      | |- Stable _ (try_catch _ _) => apply stable_try
      | |- Stable _ (for_each _ _) => apply stable_for_each
      | |- Stable _ (when_ _ _) => apply stable_when
      | |- Stable _ (savepoint _) => apply stable_savepoint
      | |- Stable _ (match ?x with _ => _ end) => destruct x
      | H : @eq (option _) (match ?x with _ => _ end) _ |- _ => destruct x; simplify_eq
      end ].
Ltac solve_stable := repeat stable_step; try apply _.

(** *** Frames: a table the operation does not touch *)

Definition keeps (t : table) : relation world := fun w w' => w_db w' t = w_db w t.

#[export] Instance keeps_restorable t : Restorable (keeps t).
Proof.
  unfold keeps. split; [split|]; [by intros w|intros w1 w2 w3; congruence|done].
Qed.

Lemma keeps_fresh t : Stable (keeps t) fresh_id.
Proof. done. Qed.
Lemma keeps_put t t' k r : t' <> t -> Stable (keeps t) (put t' k r).
Proof. intros Hne w. unfold keeps. simpl. by rewrite set_table_ne. Qed.
Lemma keeps_del t t' k : t' <> t -> Stable (keeps t) (del t' k).
Proof. intros Hne w. unfold keeps. simpl. by rewrite set_table_ne. Qed.
Lemma keeps_cache {A} t (f : _ -> _ -> A * _) : Stable (keeps t) (with_cache f).
Proof. intros w. unfold with_cache. by destruct (f _ _). Qed.
Lemma keeps_defer t c k : Stable (keeps t) (defer_bump c k).
Proof. intros w. unfold defer_bump, keeps. simpl. by case_bool_decide. Qed.
Lemma outbox_row a b c d e w w' : append_outbox a b c d e w = (Ok tt, w') -> exists k t, w_db w' Toutbox_events !! k =
  Some (OutboxEvent b c e a d t None (audience_for a) None 0 t None).
Proof.
  unfold append_outbox. run. intros [= <-]. exists (w_fresh w), (w_clock w). rewrite put_w_eq. apply (put_same Toutbox_events).
Qed.

Lemma keeps_outbox t a b c d e : t <> Toutbox_events -> Stable (keeps t) (append_outbox a b c d e).
Proof. intros Hne w. unfold keeps. simpl. by rewrite set_table_ne. Qed.
Lemma keeps_audit t a b c d e f g : t <> Taudit_logs -> Stable (keeps t) (audit a b c d e f g).
Proof. intros Hne w. unfold keeps, audit. simpl. by rewrite set_table_ne. Qed.

#[export] Hint Resolve keeps_fresh keeps_cache keeps_defer : stable.
#[export] Hint Extern 1 (Stable (keeps _) (put _ _ _)) => apply keeps_put; discriminate : stable.
#[export] Hint Extern 1 (Stable (keeps _) (del _ _)) => apply keeps_del; discriminate : stable.
#[export] Hint Extern 1 (Stable (keeps _) (append_outbox _ _ _ _ _)) =>
  apply keeps_outbox; discriminate : stable.
#[export] Hint Extern 1 (Stable (keeps _) (audit _ _ _ _ _ _ _)) =>
  apply keeps_audit; discriminate : stable.

(** *** The environment of a request never changes *)

Definition same_env : relation world := fun w w' =>
  w_clock w' = w_clock w /\ w_settings w' = w_settings w /\ w_user w' = w_user w /\ w_tenant w' = w_tenant w /\
  w_request_id w' = w_request_id w /\ w_durable w' = w_durable w.

#[export] Instance same_env_restorable : Restorable same_env.
Proof.
  unfold same_env. split; [split|]; [by intros w|intros w1 w2 w3; intuition congruence|done].
Qed.

Lemma env_fresh : Stable same_env fresh_id.
Proof. done. Qed.
Lemma env_put t k r : Stable same_env (put t k r).
Proof. done. Qed.
Lemma env_del t k : Stable same_env (del t k).
Proof. done. Qed.
Lemma env_cache {A} (f : _ -> _ -> A * _) : Stable same_env (with_cache f).
Proof. intros w. unfold with_cache. by destruct (f _ _). Qed.
Lemma env_defer c k : Stable same_env (defer_bump c k).
Proof. intros w. unfold defer_bump. simpl. by case_bool_decide. Qed.
Lemma env_outbox a b c d e : Stable same_env (append_outbox a b c d e).
Proof. done. Qed.
Lemma env_audit a b c d e f g : Stable same_env (audit a b c d e f g).
Proof. done. Qed.
#[export] Hint Resolve env_fresh env_put env_del env_cache env_defer env_outbox env_audit : stable.

(** *** The permission sets and decisions in the cache *)

(** A key of the permission cache or of the OpenFGA decisions. *)
Definition decision_key (k : string) : bool := String.prefix "perm:" k || String.prefix "fga:" k.

Definition keeps_decisions : relation world := fun w w' =>
  forall k, decision_key k = true -> w_cache w' !! k = w_cache w !! k.

#[export] Instance keeps_decisions_restorable : Restorable keeps_decisions.
Proof.
  unfold keeps_decisions. split; [split|]; [by intros w|intros w1 w2 w3 H1 H2 k Hk; by rewrite H2, H1|done].
Qed.

(** The keys of another namespace are none of them. *)
Definition other_namespace (c : versioned_cache) : Prop :=
  forall rest, decision_key (vc_namespace c +:+ ":" +:+ rest) = false.

Lemma decisions_fresh : Stable keeps_decisions fresh_id.
Proof. done. Qed.
Lemma decisions_put t k r : Stable keeps_decisions (put t k r).
Proof. done. Qed.
Lemma decisions_del t k : Stable keeps_decisions (del t k).
Proof. done. Qed.
Lemma decisions_defer c k : Stable keeps_decisions (defer_bump c k).
Proof. intros w. unfold defer_bump. simpl. by case_bool_decide. Qed.
Lemma decisions_outbox a b c d e : Stable keeps_decisions (append_outbox a b c d e).
Proof. done. Qed.
Lemma decisions_audit a b c d e f g : Stable keeps_decisions (audit a b c d e f g).
Proof. done. Qed.

Lemma ttl_get_other t k k' (b : gmap string (instant * cached)) :
  k <> k' -> (TTLDictBackend.get t k b).2 !! k' = b !! k'.
Proof. intros Hne. rewrite ttl_get_snd_lookup. by rewrite bool_decide_false. Qed.

Lemma decisions_cache {A} (f : instant -> gmap string (instant * cached) -> A * gmap string (instant * cached)) :
  (forall t b k, decision_key k = true -> (f t b).2 !! k = b !! k) -> Stable keeps_decisions (with_cache f).
Proof. intros Hf w k Hk. specialize (Hf (w_clock w) (w_cache w) k Hk). unfold with_cache. by destruct (f _ _). Qed.

Lemma other_get c t rest (b : gmap string (instant * cached)) k :
  other_namespace c -> decision_key k = true -> (cb_get t (vc_namespace c +:+ ":" +:+ rest) b).2 !! k = b !! k.
Proof. intros Hc Hk. apply ttl_get_other. intros <-. by rewrite Hc in Hk. Qed.

Lemma other_get_versioned c t k (b : gmap string (instant * cached)) k' :
  other_namespace c -> decision_key k' = true -> (get_versioned c t k b).2 !! k' = b !! k'.
Proof.
  intros Hc Hk. unfold get_versioned. pose proof (current_version_snd c t k b) as E.
  destruct (current_version c t k b) as [[v|] b1]; cbn [snd] in E; subst b1.
  - pose proof (other_get c t ("v" +:+ Z_str v +:+ ":" +:+ k) (cb_get t (_version_key c k) b).2 k' Hc Hk) as E.
    change (vc_namespace c +:+ ":" +:+ _) with (_body_key c k v) in E. destruct (cb_get t (_body_key c k v) _). cbn [snd] in *.
    rewrite E. exact (other_get c t ("ver:" +:+ k) b k' Hc Hk).
  - exact (other_get c t ("ver:" +:+ k) b k' Hc Hk).
Qed.

Lemma decisions_get_versioned c k : other_namespace c -> Stable keeps_decisions (cache_get_versioned c k).
Proof.
  intros Hc. unfold cache_get_versioned. apply stable_bind; [apply _| |].
  - apply decisions_cache. intros t b k'. by apply other_get_versioned.
  - intros [r|]; [apply stable_ret|apply stable_raise]; apply _.
Qed.

Lemma decisions_set c k v n : other_namespace c -> Stable keeps_decisions (cache_set c k v n).
Proof.
  intros Hc. apply decisions_cache. intros t b k' Hk. apply lookup_insert_ne. intros <-.
  change (_body_key c k n) with (vc_namespace c +:+ ":" +:+ ("v" +:+ Z_str n +:+ ":" +:+ k)) in Hk. by rewrite Hc in Hk.
Qed.
#[export] Hint Resolve decisions_fresh decisions_put decisions_del decisions_defer decisions_outbox decisions_audit
  decisions_get_versioned decisions_set : stable.

(** *** Invariants of one table *)

(** [preserves t I]: an invariant of table [t] that held before holds after. *)
Definition preserves (t : table) (I : rows t -> Prop) : relation world := fun w w' =>
  I (w_db w t) -> I (w_db w' t).

#[export] Instance preserves_restorable t I : Restorable (preserves t I).
Proof. unfold preserves. split; [split|]; [by intros w|intros w1 w2 w3; auto|done]. Qed.

Lemma keeps_preserves {A} t I (m : M A) : Stable (keeps t) m -> Stable (preserves t I) m.
Proof. intros Hm w HI. unfold keeps in Hm. by rewrite Hm. Qed.

Lemma keeps_eq {A} t (m : M A) w : Stable (keeps t) m -> w_db (m w).2 t = w_db w t.
Proof. intros Hm. apply Hm. Qed.

(** *** Database constraints *)

Definition keeps_constraints : relation world := fun w w' =>
  constraints_ok (w_db w) -> constraints_ok (w_db w').

#[export] Instance keeps_constraints_restorable : Restorable keeps_constraints.
Proof. unfold keeps_constraints. split; [split|]; [by intros w|intros w1 w2 w3; auto|done]. Qed.

Lemma env_clock {A} (m : M A) w : Stable same_env m -> w_clock (m w).2 = w_clock w.
Proof. intros Hm. apply Hm. Qed.

(** A table without constraints can be written freely. *)
Lemma constraints_put_free t k r : (forall m, table_ok t m) -> Stable keeps_constraints (put t k r).
Proof. intros Ht w Hw. by apply constraints_ok_set. Qed.
Lemma constraints_del_free t k : (forall m, table_ok t m) -> Stable keeps_constraints (del t k).
Proof. intros Ht w Hw. by apply constraints_ok_set. Qed.
Lemma constraints_outbox a b c d e : Stable keeps_constraints (append_outbox a b c d e).
Proof. intros w Hw. by apply constraints_ok_set. Qed.
Lemma constraints_audit a b c d e f g : Stable keeps_constraints (audit a b c d e f g).
Proof. intros w Hw. by apply constraints_ok_set. Qed.
Lemma constraints_fresh : Stable keeps_constraints fresh_id.
Proof. intros w Hw. exact Hw. Qed.
Lemma constraints_cache {A} (f : _ -> _ -> A * _) : Stable keeps_constraints (with_cache f).
Proof. intros w Hw. unfold with_cache. by destruct (f _ _). Qed.
Lemma constraints_defer c k : Stable keeps_constraints (defer_bump c k).
Proof. intros w Hw. unfold defer_bump. simpl. by case_bool_decide. Qed.

#[export] Hint Resolve constraints_outbox constraints_audit constraints_fresh constraints_cache
  constraints_defer : stable.
#[export] Hint Extern 1 (Stable keeps_constraints (put _ _ _)) =>
  apply constraints_put_free; intros; exact I : stable.
#[export] Hint Extern 1 (Stable keeps_constraints (del _ _)) =>
  apply constraints_del_free; intros; exact I : stable.

Lemma constraints_put t k r w :
  constraints_ok (w_db w) -> table_ok t (<[k := r]> (w_db w t)) -> constraints_ok (w_db (put_w t k r w)).
Proof. intros. by apply constraints_ok_set. Qed.

Lemma constraints_step {A} (m : M A) w :
  Stable keeps_constraints m -> constraints_ok (w_db w) -> constraints_ok (w_db (m w).2).
Proof. intros Hm. apply Hm. Qed.

Lemma run_flush {B} (f : unit -> M B) w :
  constraints_ok (w_db w) -> mbind f flush w = f tt w.
Proof. intros Hw. unfold mbind, M_bind, flush. by rewrite bool_decide_true. Qed.

Lemma run_commit {B} (f : unit -> M B) w :
  constraints_ok (w_db w) -> mbind f commit w = f tt (w <| w_durable := w_db w |>).
Proof. intros Hok. unfold mbind, M_bind, commit, flush. by rewrite bool_decide_true. Qed.

(** A savepoint keeps what succeeded and restores the tables otherwise. *)
Lemma savepoint_ok {A} (m : M A) w a w1 :
  m w = (Ok a, w1) -> constraints_ok (w_db w1) -> savepoint m w = (Ok a, w1).
Proof. intros E Hok. unfold savepoint, flush. by rewrite E, bool_decide_true. Qed.
Lemma savepoint_err {A} (m : M A) w e w1 :
  m w = (Err e, w1) -> savepoint m w = (Err e, w1 <| w_db := w_db w |>).
Proof. intros E. unfold savepoint. by rewrite E. Qed.

Lemma try_ok {A} (m : M A) h w a w1 : m w = (Ok a, w1) -> try_catch m h w = (Ok a, w1).
Proof. intros E. unfold try_catch. by rewrite E. Qed.
Lemma try_err {A} (m : M A) h w e w1 m' :
  m w = (Err e, w1) -> h e = Some m' -> try_catch m h w = m' w1.
Proof. intros E Hh. unfold try_catch. by rewrite E, Hh. Qed.

Lemma kept {A} t (m : M A) w r w' : Stable (keeps t) m -> m w = (r, w') -> w_db w' t = w_db w t.
Proof. intros Hm E. specialize (Hm w). by rewrite E in Hm. Qed.

(** A flush that passes has checked the constraints. *)
Lemma flush_ok {B} (f : unit -> M B) w b w' :
  mbind f flush w = (Ok b, w') -> constraints_ok (w_db w) /\ f tt w = (Ok b, w').
Proof. unfold mbind, M_bind, flush. by case_bool_decide. Qed.

(** ** Operations that cannot fail *)

Class Total (m : M unit) : Prop := total w : (m w).1 = Ok tt.

#[export] Instance total_ret : Total (mret tt).
Proof. done. Qed.
#[export] Instance total_put t k r : Total (put t k r).
Proof. done. Qed.
#[export] Instance total_del t k : Total (del t k).
Proof. done. Qed.
#[export] Instance total_outbox a b c d e : Total (append_outbox a b c d e).
Proof. done. Qed.
#[export] Instance total_audit a b c d e f g : Total (audit a b c d e f g).
Proof. done. Qed.
#[export] Instance total_defer c k : Total (defer_bump c k).
Proof. done. Qed.
#[export] Instance total_bump c k f : (forall n, Total (f n)) -> Total (mbind f (cache_bump c k)).
Proof.
  intros Hf w. unfold mbind, M_bind, cache_bump, with_cache. destruct (bump _ _ _ _). apply Hf.
Qed.
#[export] Instance total_bind m f : Total m -> (forall u, Total (f u)) -> Total (mbind f m).
Proof.
  intros Hm Hf w. unfold mbind, M_bind. specialize (Hm w).
  destruct (m w) as [r w']. simpl in Hm. subst. apply Hf.
Qed.
#[export] Instance total_when b m : Total m -> Total (when_ b m).
Proof. by destruct b. Qed.
#[export] Instance total_for_each {A} (l : list A) f : (forall x, Total (f x)) -> Total (for_each l f).
Proof. intros Hf. induction l as [|x l IH]; [apply total_ret|by apply total_bind]. Qed.

Lemma run_total {B} (m : M unit) `{!Total m} (f : unit -> M B) w : mbind f m w = f tt (m w).2.
Proof.
  unfold mbind, M_bind. pose proof (total w) as E. destruct (m w) as [r w']. simpl in E. by subst.
Qed.


(** [run], through operations that cannot fail. *)
Ltac run_all :=
  repeat (first [ run_step
                | match goal with
                  | |- context [@mbind M _ unit _ ?f ?m ?w] => rewrite (run_total m f w)
                  end ]; cbv beta iota delta [negb]).

(** Reading a table through the writes made since. *)
Ltac tables :=
  repeat first
    [ match goal with
      | |- context [w_db (@upd world ?T ?g ?S ?f ?w)] =>
          change (w_db (@upd world T g S f w)) with (w_db w)
      end
    | progress cbn [w_db]
    | rewrite put_w_eq
    | rewrite put_w_ne by discriminate
    | rewrite del_w_eq
    | rewrite del_w_ne by discriminate
    | rewrite keeps_eq by (solve_stable) ].

(** *** Operations that only read *)

#[export] Instance eq_restorable : Restorable (@eq world).
Proof. split; [apply _|]. intros w w' <-. by destruct w. Qed.

Lemma run_readonly {A B} (m : M A) (f : A -> M B) w :
  Stable eq m ->
  mbind f m w = match (m w).1 with Ok a => f a w | Err e => (Err e, w) end.
Proof.
  intros Hm. specialize (Hm w). unfold mbind, M_bind. destruct (m w) as [[a|e] w'].
  - simpl in Hm. by subst.
  - simpl in Hm. by subst.
Qed.

Lemma rows_where_unique {K} `{EqDecision K} t (f : row t -> option K) p v m :
  unique_on t f m ->
  (forall k r, m !! k = Some r -> p k r = true -> f r = Some v) ->
  rows_where t p m = [] \/
  exists k r, rows_where t p m = [(k, r)] /\ m !! k = Some r /\ p k r = true.
Proof.
  intros Hu Hp. destruct (rows_where t p m) as [|[k r] l] eqn:E; [by left|right].
  assert (Hin : forall k' r', (k', r') ∈ (k, r) :: l -> m !! k' = Some r' /\ p k' r' = true)
    by (intros k' r'; rewrite <- E; apply elem_of_rows_where).
  destruct (Hin k r) as [Hk Hpk]; [left|]. exists k, r. split; [|done].
  apply NoDup_all_eq_singleton; [rewrite <- E; apply NoDup_rows_where|left|].
  intros [k' r'] H'. apply Hin in H' as [Hk' Hpk'].
  assert (k' = k) as -> by (apply (unique_on_lookup t f m k' k r' r v); eauto). congruence.
Qed.

Lemma rows_where_singleton {K} `{EqDecision K} t (f : row t -> option K) p v m k r :
  unique_on t f m ->
  (forall k r, m !! k = Some r -> p k r = true -> f r = Some v) ->
  m !! k = Some r -> p k r = true -> rows_where t p m = [(k, r)].
Proof.
  intros Hu Hf Hk Hp.
  destruct (rows_where_unique t f p v m Hu Hf) as [E|(k' & r' & E & Hk' & Hp')].
  - rewrite rows_where_nil in E. rewrite (E k r Hk) in Hp. done.
  - assert (k' = k) as -> by (apply (unique_on_lookup t f m k' k r' r v); eauto).
    rewrite E. congruence.
Qed.

(** *** Operations that read the database and not the cache *)

Definition with_cache_of (w : world) (b : gmap string (instant * cached)) : world :=
  w <| w_cache := b |>.

(** [Reads m]: [m] leaves the world as it is and gives the same result whatever
    the cache holds. *)
Definition Reads {A} (m : M A) : Prop :=
  forall w b, m (with_cache_of w b) = ((m w).1, with_cache_of w b).

Lemma with_cache_of_self w : with_cache_of w (w_cache w) = w.
Proof. by destruct w. Qed.

Lemma reads_result {A} (m : M A) w : Reads m -> m w = ((m w).1, w).
Proof. intros Hm. specialize (Hm w (w_cache w)). by rewrite !with_cache_of_self in Hm. Qed.

Lemma reads_stable {A} (m : M A) : Reads m -> Stable eq m.
Proof. intros Hm w. by rewrite (reads_result m w Hm). Qed.

Lemma reads_ret {A} (a : A) : Reads (mret a).
Proof. done. Qed.
Lemma reads_raise {A} e : Reads (@raise A e).
Proof. done. Qed.
Lemma reads_raise_domain {A} c x : Reads (@raise_domain A c x).
Proof. done. Qed.
Lemma reads_now : Reads now.
Proof. done. Qed.
Lemma reads_settings : Reads get_settings.
Proof. done. Qed.
Lemma reads_table t : Reads (read_table t).
Proof. done. Qed.
Lemma reads_get t k : Reads (session_get t k).
Proof. done. Qed.
Lemma reads_select t p : Reads (select t p).
Proof. done. Qed.
Lemma reads_scalar_none {A} (l : list A) : Reads (scalar_one_or_none l).
Proof. by destruct l as [|? [|??]]. Qed.
Lemma reads_value_error {A} (x : option A) : Reads (value_error x).
Proof. by destruct x. Qed.
Lemma reads_bind {A B} (m : M A) (f : A -> M B) :
  Reads m -> (forall a, Reads (f a)) -> Reads (mbind f m).
Proof.
  intros Hm Hf w b. unfold mbind, M_bind. rewrite (Hm w b), (reads_result m w Hm). simpl.
  destruct (m w).1 as [a|e]; [|done]. rewrite (Hf a w b). by rewrite (reads_result (f a) w (Hf a)).
Qed.
Lemma reads_try {A} (m : M A) h :
  Reads m -> (forall e m', h e = Some m' -> Reads m') -> Reads (try_catch m h).
Proof.
  intros Hm Hh w b. unfold try_catch. rewrite (Hm w b), (reads_result m w Hm). simpl.
  destruct (m w).1 as [a|e]; [done|]. destruct (h e) as [m'|] eqn:E; [|done].
  rewrite (Hh e m' E w b). by rewrite (reads_result m' w (Hh e m' E)).
Qed.

Create HintDb reads discriminated.
#[export] Hint Resolve reads_ret reads_raise reads_raise_domain reads_now reads_settings
  reads_scalar_none reads_value_error : reads.
#[export] Hint Extern 1 (Reads (read_table ?t)) => exact (reads_table t) : reads.
#[export] Hint Extern 1 (Reads (session_get ?t ?k)) => exact (reads_get t k) : reads.
#[export] Hint Extern 1 (Reads (select ?t ?p)) => exact (reads_select t p) : reads.

Ltac reads_step :=
  first
    [ solve [eauto with reads]
    | match goal with
      | |- forall _, _ => intro
      | |- Reads (mbind _ _) => apply reads_bind
      | |- Reads (try_catch _ _) => apply reads_try
      | |- Reads (match ?x with _ => _ end) => destruct x
      | H : @eq (option _) (match ?x with _ => _ end) _ |- _ => destruct x; simplify_eq
      end ].
Ltac solve_reads := repeat reads_step.

Lemma run_readonly_bind {A B} (m : M A) (f : A -> M B) w :
  Reads m -> mbind f m w = match (m w).1 with Ok a => f a w | Err e => (Err e, w) end.
Proof. intros Hm. by apply run_readonly, reads_stable. Qed.

(** ** The request transaction undoes a failed handler *)

Lemma request_err {A} (m : M A) w e w' :
  Stable same_env m -> request m w = (Err e, w') -> w_db w' = w_durable w /\ w_durable w' = w_durable w.
Proof.
  intros Hm. destruct (Hm w) as (_ & _ & _ & _ & _ & Hd). unfold request.
  destruct (m w) as [[a|e'] w1]; simpl in *.
  - unfold commit, flush. case_bool_decide; simpl; intros H'; [by injection H'|].
    injection H' as _ <-. done.
  - intros H'. injection H' as _ <-. done.
Qed.

(** The cache alone: neither the tables nor what is committed changes. *)
Definition same_data : relation world := fun w w' => w_db w' = w_db w /\ w_durable w' = w_durable w.
#[export] Instance same_data_restorable : Restorable same_data.
Proof. unfold same_data. split; [split|]; [by intros w|intros w1 w2 w3; intuition congruence|]. by intros ? ? []. Qed.

Lemma data_cache {A} (f : _ -> _ -> A * _) : Stable same_data (with_cache f).
Proof. intros w. unfold with_cache. by destruct (f _ _). Qed.
#[export] Hint Resolve data_cache : stable.

Lemma data_flush_bumps : Stable same_data flush_deferred_bumps.
Proof.
  intros w. unfold flush_deferred_bumps.
  assert (Hs : forall l, Stable same_data (for_each l (fun nk =>
    _ ← cache_bump (VersionedCache nk.1 DEFAULT_TTL_SECONDS) nk.2; mret tt)))
    by (intros l; unfold cache_bump; solve_stable).
  specialize (Hs (w_deferred w) (w <| w_deferred := [] |>)). by destruct (for_each _ _ _).
Qed.

(** A request takes no time in the model. *)
Lemma clock_flush_bumps w : w_clock (flush_deferred_bumps w).2 = w_clock w.
Proof.
  assert (Hs : forall l, Stable same_env (for_each l (fun nk =>
    _ ← cache_bump (VersionedCache nk.1 DEFAULT_TTL_SECONDS) nk.2; mret tt)))
    by (intros l; unfold cache_bump; solve_stable).
  pose proof (env_clock _ (w <| w_deferred := [] |>) (Hs (w_deferred w))) as Hc.
  unfold flush_deferred_bumps. by destruct (for_each _ _ _).
Qed.

Lemma request_clock {A} (m : M A) w : Stable same_env m -> w_clock (request m w).2 = w_clock w.
Proof.
  intros Hm. pose proof (env_clock m w Hm) as Hc. unfold request.
  destruct (m w) as [[a|e] w1]; cbn [snd] in Hc; [|done].
  unfold commit, flush. case_bool_decide; [|done]. cbn [snd]. by rewrite clock_flush_bumps.
Qed.

(** A successful handler's writes are kept. *)
Lemma request_ok {A} (m : M A) w a w' :
  request m w = (Ok a, w') -> exists w1, m w = (Ok a, w1) /\ w_db w' = w_db w1 /\ w_durable w' = w_db w1.
Proof.
  unfold request. destruct (m w) as [[a1|e1] w1]; [|done].
  unfold commit, flush. case_bool_decide; simpl; [|done].
  intros H'. injection H' as <- <-. exists w1. split; [done|]. exact (data_flush_bumps _).
Qed.

(** ** Inserting a row *)

Lemma rows_where_insert t p m k r :
  m !! k = None ->
  rows_where t p (<[k := r]> m) ≡ₚ if p k r then (k, r) :: rows_where t p m else rows_where t p m.
Proof.
  intros Hk. unfold rows_where. rewrite map_to_list_insert by done. rewrite filter_cons. simpl.
  case_decide; by destruct (p k r).
Qed.

(** ** One bind at a time

    [step R] splits a goal about [mbind f m w] on the outcome of [m], keeping
    that its worlds are related by the stable relation [R]. *)
Lemma bind_stable {A B} (R : relation world) (m : M A) (f : A -> M B) w (P : result B * world -> Prop) :
  Stable R m ->
  (forall a w1, m w = (Ok a, w1) -> R w w1 -> P (f a w1)) ->
  (forall e w1, m w = (Err e, w1) -> R w w1 -> P (Err e, w1)) ->
  P (mbind f m w).
Proof.
  intros Hm Hok Herr. specialize (Hm w). unfold mbind, M_bind.
  destruct (m w) as [[a|e] w1] eqn:E; simpl in Hm; auto.
Qed.

Ltac step R :=
  match goal with
  | |- context [@mbind M ?I ?A ?B ?f ?m ?w] =>
      pattern (@mbind M I A B f m w); apply (bind_stable R); [solve [solve_stable]| |]; cbv beta
  end.

(** Replacing a row that the query did not match. *)
Lemma rows_where_replace t p m k r r0 :
  m !! k = Some r0 -> p k r0 = false ->
  rows_where t p (<[k := r]> m) ≡ₚ if p k r then (k, r) :: rows_where t p m else rows_where t p m.
Proof.
  intros Hk Hp. rewrite <- insert_delete_eq. rewrite rows_where_insert by apply lookup_delete_eq.
  assert (Hd : rows_where t p m ≡ₚ rows_where t p (delete k m)).
  { rewrite <- (insert_delete_id m k r0) at 1 by done.
    rewrite rows_where_insert by apply lookup_delete_eq. by rewrite Hp. }
  destruct (p k r); [by apply perm_skip|done].
Qed.

(** Writing a row that matches neither before nor after. *)
Lemma rows_where_unmatched t p m k r :
  p k r = false -> (forall r0, m !! k = Some r0 -> p k r0 = false) ->
  rows_where t p (<[k := r]> m) ≡ₚ rows_where t p m.
Proof.
  intros Hp H0. destruct (m !! k) as [r0|] eqn:E.
  - rewrite (rows_where_replace t p m k r r0 E (H0 r0 eq_refl)). by rewrite Hp.
  - rewrite rows_where_insert by done. by rewrite Hp.
Qed.

(** A single row does not depend on the order of the scan. *)
Lemma scalar_perm {A} (l1 l2 : list A) w :
  l1 ≡ₚ l2 -> scalar_one_or_none l1 w = scalar_one_or_none l2 w.
Proof.
  intros H. destruct l1 as [|x [|y l1]].
  - by apply Permutation_nil_l in H as ->.
  - by apply Permutation_singleton_l in H as ->.
  - pose proof (Permutation_length H) as Hl. destruct l2 as [|? [|??]]; simpl in Hl; try lia; done.
Qed.

(** What a single-row query found. *)
Lemma scalar_ok {A} (l : list A) w found w' :
  scalar_one_or_none l w = (Ok found, w') ->
  w' = w /\ ((found = None /\ l = []) \/ exists x, found = Some x /\ l = [x]).
Proof. destruct l as [|x [|? ?]]; [intros [= <- <-]; auto|intros [= <- <-]; eauto|done]. Qed.

Lemma scalar_one_ok {A} (l : list A) w x w' : scalar_one l w = (Ok x, w') -> w' = w /\ l = [x].
Proof. destruct l as [|y [|? ?]]; [done|by intros [= <- <-]|done]. Qed.

Lemma found_only t p m (k : key t) (r : row t) : rows_where t p m = [(k, r)] ->
  m !! k = Some r /\ p k r = true /\ forall k' r', m !! k' = Some r' -> p k' r' = true -> k' = k.
Proof.
  intros E. assert (Hin : forall k' r', (k', r') ∈ rows_where t p m <-> m !! k' = Some r' /\ p k' r' = true)
    by (intros k' r'; apply elem_of_rows_where).
  destruct (proj1 (Hin k r)) as [Hk Hp]; [rewrite E; left|]. split_and!; [done|done|].
  intros k' r' Hk' Hp'. assert (H : (k', r') ∈ rows_where t p m) by (by apply Hin). rewrite E in H.
  apply list_elem_of_singleton in H. congruence.
Qed.

(** Equal results continue to equal results. *)
Lemma result_bind {A B} (m : M A) (f : A -> M B) w w' :
  (m w).1 = (m w').1 -> (forall a w1 w2, (f a w1).1 = (f a w2).1) ->
  (mbind f m w).1 = (mbind f m w').1.
Proof.
  intros E Hf. unfold mbind, M_bind. destruct (m w) as [[a|e] w1], (m w') as [[a'|e'] w2];
    simpl in *; simplify_eq; auto.
Qed.

(** ** Growth of the outbox *)

(** The outbox holds [n] rows, none of them under an identifier still to come. *)
Definition outbox_at (n : nat) (w : world) : Prop :=
  size (w_db w Toutbox_events) = n /\
  forall j, (w_fresh w <= j)%N -> w_db w Toutbox_events !! j = None.

Lemma outbox_at_append n a b c d e w : outbox_at n w -> outbox_at (S n) (append_outbox a b c d e w).2.
Proof.
  intros [Hn Hf]. unfold append_outbox. run. split.
  - tables. rewrite map_size_insert_None; [by f_equal|]. apply Hf. simpl. lia.
  - intros j Hj. simpl in Hj. tables. apply (put_other Toutbox_events); [simpl; lia|].
    apply Hf. lia.
Qed.

Lemma outbox_at_put n t k r w : t <> Toutbox_events -> outbox_at n w -> outbox_at n (put_w t k r w).
Proof. intros Ht [Hn Hf]. split; [|intros j Hj]; rewrite put_w_ne by congruence; auto. Qed.

Lemma outbox_at_audit n a b c d e f g w : outbox_at n w -> outbox_at n (audit a b c d e f g w).2.
Proof.
  intros [Hn Hf]. split; [|intros j Hj]; rewrite (keeps_eq Toutbox_events) by solve_stable; [done|].
  apply Hf. simpl in Hj. lia.
Qed.
