(* ===== verification/Fixtures.v ===== *)
(** A small populated deployment: two plans, two organizations, one running
    subscription.  The witnesses of the properties evaluate on it. *)

From S2P Require Import Prelude Json Errors Events Tables Store Cache Session.

Definition NOW : instant := days 20000 + HOUR * 12.

Definition free_plan : plan :=
  Plan "free" "Free" None (Some 0%Z) "PHP" (Some "month") true false 0 0 None.
Definition pro_plan : plan :=
  Plan "pro" "Pro" None (Some 100000%Z) "PHP" (Some "month") true false 14 1 None.

Definition free_subscription : subscription :=
  Subscription 1 10 "active" (NOW - days 10) (NOW + days 20) None false None None None None
    (Snapshot (Some "free") (Some "Free") (Some 0%Z) (Some "PHP") (Some "month") [] [] [])
    [] (NOW - days 10).

Definition acme : organization := Organization "acme" "Acme" "active" (Some 7%N) [] None.
Definition beta : organization := Organization "beta" "Beta" "active" (Some 8%N) [] None.

Definition sso_grant : entitlement :=
  Entitlement 1 "sso" "addon" true (NOW - days 1) None None None None None.

Definition rows_of (t : table) (l : list (key t * row t)) : gmap (key t) (row t) := list_to_map l.

Lemma lookup_rows_of t l k r : NoDup l.*1 -> rows_of t l !! k = Some r <-> (k, r) ∈ l.
Proof. intros H. symmetry. by apply elem_of_list_to_map. Qed.

Definition demo_db : db :=
  set_table (set_table (set_table (set_table (set_table (set_table (set_table empty_db
    Tmetrics (rows_of Tmetrics
      [("api_calls", Metric "API calls" "counter" None None None);
       ("seats", Metric "Seats" "gauge" None None None)]))
    Tplans (rows_of Tplans [(10%N, free_plan); (11%N, pro_plan)]))
    Tplan_features (rows_of Tplan_features
      [((11%N, "reports"), PlanFeature true); ((11%N, "sso"), PlanFeature false)]))
    Tplan_limits (rows_of Tplan_limits
      [((11%N, "api_calls"), PlanLimit (Some 1000%Z) (Some 80%Z) (Some 100%Z) (Some 500%Z))]))
    Torganizations (rows_of Torganizations [(1%N, acme); (2%N, beta)]))
    Tsubscriptions (rows_of Tsubscriptions [(20%N, free_subscription)]))
    Tentitlements (rows_of Tentitlements [(30%N, sso_grant)]).

Definition world_of (d : db) : world := World d d ∅ [] NOW 100 default_settings None None None.
Definition demo : world := world_of demo_db.

(** A run with the result it gives. *)
Lemma ran {A} (m : M A) (a : A) w : (m w).1 = Ok a -> m w = (Ok a, (m w).2).
Proof. intros H. rewrite <- H. by destruct (m w). Qed.

Lemma ran_err {A} (m : M A) e w : (m w).1 = Err e -> m w = (Err e, (m w).2).
Proof. intros H. rewrite <- H. by destruct (m w). Qed.

(** Deciding the premises of a property on a concrete world. *)
Ltac by_compute := first [ reflexivity | apply (bool_decide_unpack _); vm_compute; exact I ].
