(* ===== verification/Catalog.v ===== *)
(** The plan catalog (subscriptions/catalog.py): what a valid price list is and how
    it prices overage; and its projection into the tables (subscriptions/sync.py).

    [load_catalog] receives the parsed document: YAML and the conversion of its
    scalars are a library's.  [problem_text] is the message of a problem.  Ratios
    are kept in hundredths, as the column that stores them. *)

From Stdlib Require Import Ascii.
From S2P Require Import Prelude Text Ids Json Errors Events Tables Store Cache Session Fixtures.

(** ** Documents *)

Record catalog_defaults : Type := CatalogDefaults {
  cd_currency : string;
  cd_interval : string;
  cd_trial_days : Z;
  cd_soft_limit_ratio : option Z
}.

Record feature_definition : Type := FeatureDefinition {
  fd_key : string;
  fd_name : string;
  fd_category : option string
}.

Record overage_definition : Type := OverageDefinition {
  od_unit : Z;
  od_price_cents : Z
}.

Record metric_definition : Type := MetricDefinition {
  md_key : string;
  md_name : string;
  md_kind : string;
  md_unit : option string;
  md_soft_limit_ratio : option Z;
  md_overage : option overage_definition
}.

(** [price: custom] is [pd_price = Some "custom"]; [limits] and [overage] are
    dictionaries. *)
Record plan_definition : Type := PlanDefinition {
  pd_key : string;
  pd_name : string;
  pd_description : option string;
  pd_price_cents : option Z;
  pd_price : option string;
  pd_currency : option string;
  pd_interval : option string;
  pd_is_public : bool;
  pd_is_custom : bool;
  pd_trial_days : option Z;
  pd_sort_order : Z;
  pd_features : list string;
  pd_limits : list (string * option Z);
  pd_overage : list (string * overage_definition)
}.

Record plan_catalog : Type := PlanCatalog {
  ca_version : Z;
  ca_defaults : catalog_defaults;
  ca_features : list feature_definition;
  ca_metrics : list metric_definition;
  ca_plans : list plan_definition
}.

(** ** Validation *)

(** [^[a-z0-9_]+$] and [^[A-Z]{3}$]. *)
Definition is_key_letter (c : ascii) : bool := is_lower_alnum c || Ascii.eqb c "_".
Definition key_shape (s : string) : bool := negb (String.eqb s "") && all_chars is_key_letter s.
Definition is_upper (c : ascii) : bool := let n := nat_of_ascii c in (65 <=? n) && (n <=? 90).
Definition currency_shape (s : string) : bool := (String.length s =? 3) && all_chars is_upper s.
Definition interval_shape (s : string) : bool := String.eqb s "month" || String.eqb s "year".
Definition optionally {A} (p : A -> bool) (x : option A) : bool := match x with Some a => p a | None => true end.
Definition ratio_range (r : Z) : bool := (0 <=? r)%Z && (r <=? 100)%Z.

Definition defaults_valid (d : catalog_defaults) : bool :=
  currency_shape (cd_currency d) && interval_shape (cd_interval d) && (0 <=? cd_trial_days d)%Z &&
  optionally ratio_range (cd_soft_limit_ratio d).
Definition overage_valid (o : overage_definition) : bool := (1 <=? od_unit o)%Z && (0 <=? od_price_cents o)%Z.
Definition metric_valid (m : metric_definition) : bool :=
  key_shape (md_key m) && (String.eqb (md_kind m) "counter" || String.eqb (md_kind m) "gauge") &&
  optionally ratio_range (md_soft_limit_ratio m) && optionally overage_valid (md_overage m).

(** [_price_xor]. *)
Definition _price_xor (p : plan_definition) : bool :=
  let has_cents := bool_decide (is_Some (pd_price_cents p)) in
  let is_custom := bool_decide (pd_price p = Some "custom") in
  if has_cents && is_custom then false else negb (negb has_cents && negb is_custom).

Definition plan_fields_valid (p : plan_definition) : bool :=
  key_shape (pd_key p) && optionally (fun c => 0 <=? c)%Z (pd_price_cents p) &&
  optionally (String.eqb "custom") (pd_price p) && optionally currency_shape (pd_currency p) &&
  optionally interval_shape (pd_interval p) && optionally (fun d => 0 <=? d)%Z (pd_trial_days p) &&
  forallb (fun o : string * overage_definition => overage_valid o.2) (pd_overage p).

Definition fields_valid (c : plan_catalog) : bool :=
  defaults_valid (ca_defaults c) && forallb (fun f => key_shape (fd_key f)) (ca_features c) &&
  forallb metric_valid (ca_metrics c) && forallb (fun p => plan_fields_valid p && _price_xor p) (ca_plans c).

(** What [_cross_validate] complains about. *)
Inductive problem : Type :=
  | DuplicateFeatures (keys : list string)
  | DuplicateMetrics (keys : list string)
  | DuplicatePlans (keys : list string)
  | UnknownFeatures (plan : string) (keys : list string)
  | UnknownMetrics (plan : string) (keys : list string)
  | UnpricedOverage (plan : string) (keys : list string)
  | PublicWithoutPrice (plan : string).

Definition count_of (x : string) (l : list string) : nat := length (filter (fun y => y = x) l).
Definition duplicates (l : list string) : list string := sorted_set (filter (fun x => 1 < count_of x l) l).
Definition beyond (l known : list string) : list string := sorted_set (filter (.∉ known) l).
Definition complain {A} (f : list A -> problem) (l : list A) : list problem :=
  match l with [] => [] | _ => [f l] end.

Definition plan_problems (features metrics : list string) (p : plan_definition) : list problem :=
  complain (UnknownFeatures (pd_key p)) (beyond (pd_features p) features) ++
  complain (UnknownMetrics (pd_key p)) (beyond (pd_limits p).*1 metrics) ++
  complain (UnpricedOverage (pd_key p)) (beyond (pd_overage p).*1 (pd_limits p).*1) ++
  (if pd_is_public p && bool_decide (pd_price_cents p = None) then [PublicWithoutPrice (pd_key p)] else []).

Definition feature_keys (c : plan_catalog) : list string := fd_key <$> ca_features c.
Definition metric_keys (c : plan_catalog) : list string := md_key <$> ca_metrics c.
Definition plan_keys (c : plan_catalog) : list string := pd_key <$> ca_plans c.

Definition problems (c : plan_catalog) : list problem :=
  complain DuplicateFeatures (duplicates (feature_keys c)) ++
  complain DuplicateMetrics (duplicates (metric_keys c)) ++
  complain DuplicatePlans (duplicates (plan_keys c)) ++
  mjoin (plan_problems (feature_keys c) (metric_keys c) <$> ca_plans c).

Definition find_plan (c : plan_catalog) (k : string) : option plan_definition :=
  head (filter (fun p => pd_key p = k) (ca_plans c)).
Definition find_metric (c : plan_catalog) (k : string) : option metric_definition :=
  head (filter (fun m => md_key m = k) (ca_metrics c)).

(** A dictionary's entry. *)
Definition entry {A} (k : string) (l : list (string * A)) : option A :=
  snd <$> head (filter (fun e : string * A => e.1 = k) l).

Definition overage_for (c : plan_catalog) (plan_key metric : string) : option overage_definition :=
  match (find_plan c plan_key ≫= fun p => entry metric (pd_overage p)) with
  | Some o => Some o
  | None => find_metric c metric ≫= md_overage
  end.

Section Load.
Context (problem_text : problem -> string).

Definition _cross_validate (c : plan_catalog) : result plan_catalog :=
  match problems c with
  | [] => Ok c
  | ps => Err (Domain CatalogInvalidError [("errors", JList (JStr ∘ problem_text <$> ps))])
  end.

(** [None]: no such file; [Some None]: not YAML, or not a document of these types. *)
Definition load_catalog (path : string) (file : option (option plan_catalog)) : result plan_catalog :=
  let bad := Err (Domain CatalogInvalidError [("path", JStr path)]) in
  match file with
  | Some (Some c) => if fields_valid c then _cross_validate c else bad
  | _ => bad
  end.
End Load.

(** ** Projection into the tables *)

Record sync_result : Type := SyncResult {
  sr_features_added : Z;
  sr_metrics_added : Z;
  sr_plans_added : Z;
  sr_plans_updated : Z;
  sr_plans_archived : Z
}.
#[export] Instance sync_result_eta : Eta sync_result := fun r =>
  SyncResult (sr_features_added r) (sr_metrics_added r) (sr_plans_added r) (sr_plans_updated r) (sr_plans_archived r).
Definition no_changes : sync_result := SyncResult 0 0 0 0 0.

#[export] Instance plan_eq_dec : EqDecision plan.
Proof. solve_decision. Defined.

Section Sync.
Context (c : plan_catalog).

Definition metric_row (m : metric_definition) : Tables.metric :=
  Metric (md_name m) (md_kind m) (md_unit m) (od_unit <$> md_overage m) (od_price_cents <$> md_overage m).

Definition sync_feature (existing : list string) (f : feature_definition) (r : sync_result) : M sync_result :=
  if bool_decide (fd_key f ∈ existing) then mret r
  else
    _ ← insert_new Tfeatures (fd_key f) (Feature (fd_name f) (fd_category f));
    mret (r <| sr_features_added := (sr_features_added r + 1)%Z |>).

Definition sync_metric (existing : list string) (m : metric_definition) (r : sync_result) : M sync_result :=
  if bool_decide (md_key m ∈ existing)
  then _ ← put Tmetrics (md_key m) (metric_row m); mret r
  else
    _ ← insert_new Tmetrics (md_key m) (metric_row m);
    mret (r <| sr_metrics_added := (sr_metrics_added r + 1)%Z |>).

(** The column values of a plan at its place in the file. *)
Definition plan_row (order : nat) (p : plan_definition) : plan :=
  Plan (pd_key p) (pd_name p) (pd_description p) (pd_price_cents p)
    (or_str (pd_currency p) (cd_currency (ca_defaults c)))
    (Some (or_str (pd_interval p) (cd_interval (ca_defaults c))))
    (pd_is_public p) (pd_is_custom p || bool_decide (pd_price p = Some "custom"))
    (default (cd_trial_days (ca_defaults c)) (pd_trial_days p))
    (if (pd_sort_order p =? 0)%Z then Z.of_nat order else pd_sort_order p)
    None.

Definition _sync_plan_features (plan_id : uuid) (keys : list string) : M unit :=
  rows ← select Tplan_features (fun k _ => bool_decide ((k : uuid * string).1 = plan_id));
  let existing := (fun r : key Tplan_features * row Tplan_features => (r.1 : uuid * string).2) <$> rows in
  _ ← for_each keys (fun k =>
        when_ (negb (bool_decide (k ∈ existing))) (insert_new Tplan_features (plan_id, k) (PlanFeature true)));
  _ ← for_each existing (fun k => when_ (negb (bool_decide (k ∈ keys))) (del Tplan_features (plan_id, k)));
  flush.

Definition limit_row (plan_key metric : string) (value : option Z) : plan_limit :=
  let soft := match find_metric c metric ≫= md_soft_limit_ratio with
              | Some r => Some r
              | None => cd_soft_limit_ratio (ca_defaults c)
              end in
  let overage := match find_plan c plan_key with Some _ => overage_for c plan_key metric | None => None end in
  PlanLimit value soft (od_unit <$> overage) (od_price_cents <$> overage).

Definition _sync_plan_limits (plan_id : uuid) (plan_key : string) (limits : list (string * option Z)) : M unit :=
  rows ← select Tplan_limits (fun k _ => bool_decide ((k : uuid * string).1 = plan_id));
  let existing := (fun r : key Tplan_limits * row Tplan_limits => (r.1 : uuid * string).2) <$> rows in
  _ ← for_each limits (fun l : string * option Z =>
        if bool_decide (l.1 ∈ existing) then put Tplan_limits (plan_id, l.1) (limit_row plan_key l.1 l.2)
        else insert_new Tplan_limits (plan_id, l.1) (limit_row plan_key l.1 l.2));
  _ ← for_each existing (fun m => when_ (negb (bool_decide (m ∈ limits.*1))) (del Tplan_limits (plan_id, m)));
  flush.

(** The plan's row: added, or its columns assigned. *)
Definition sync_plan_row (existing_plans : list (key Tplans * row Tplans)) (order : nat) (p : plan_definition)
    (r : sync_result) : M (uuid * sync_result) :=
  match head (filter (fun kr : key Tplans * row Tplans => p_key kr.2 = pd_key p) existing_plans) with
  | None =>
      i ← fresh_id;
      _ ← put Tplans i (plan_row order p);
      _ ← flush;
      mret (i, r <| sr_plans_added := (sr_plans_added r + 1)%Z |>)
  | Some (i, _) =>
      current ← session_get Tplans i;
      let changed := negb (bool_decide ((current : option plan) = Some (plan_row order p))) in
      _ ← put Tplans i (plan_row order p);
      mret (i, if changed then r <| sr_plans_updated := (sr_plans_updated r + 1)%Z |> else r)
  end.

Definition sync_plan (existing_plans : list (key Tplans * row Tplans)) (op : nat * plan_definition) (r : sync_result) :
    M sync_result :=
  let '(order, p) := op in
  ir ← sync_plan_row existing_plans order p r;
  _ ← flush;
  _ ← _sync_plan_features ir.1 (pd_features p);
  _ ← _sync_plan_limits ir.1 (pd_key p) (pd_limits p);
  mret ir.2.

Definition archive_plan (t : instant) (kr : key Tplans * row Tplans) (r : sync_result) : M sync_result :=
  if bool_decide (p_key kr.2 ∉ plan_keys c) && bool_decide (p_archived_at kr.2 = None)
  then _ ← put Tplans kr.1 ((kr.2 : plan) <| p_archived_at := Some t |>);
       mret (r <| sr_plans_archived := (sr_plans_archived r + 1)%Z |>)
  else mret r.

Definition sync_plans : M sync_result :=
  t ← now;
  features ← select Tfeatures (fun _ _ => true);
  r ← for_fold (ca_features c) (sync_feature ((fun r : key Tfeatures * row Tfeatures => r.1 : string) <$> features)) no_changes;
  _ ← flush;
  metrics ← select Tmetrics (fun _ _ => true);
  r ← for_fold (ca_metrics c) (sync_metric ((fun r : key Tmetrics * row Tmetrics => r.1 : string) <$> metrics)) r;
  _ ← flush;
  existing_plans ← select Tplans (fun _ _ => true);
  r ← for_fold (imap pair (ca_plans c)) (sync_plan existing_plans) r;
  for_fold existing_plans (archive_plan t) r.
End Sync.

(** ** Validation decides *)

Definition catalog_ok (c : plan_catalog) : Prop :=
  NoDup (feature_keys c) /\ NoDup (metric_keys c) /\ NoDup (plan_keys c) /\
  forall p, p ∈ ca_plans c ->
    (forall k, k ∈ pd_features p -> k ∈ feature_keys c) /\ (forall k, k ∈ (pd_limits p).*1 -> k ∈ metric_keys c) /\
    (forall k, k ∈ (pd_overage p).*1 -> k ∈ (pd_limits p).*1) /\ (pd_is_public p = true -> is_Some (pd_price_cents p)).

Lemma count_nodup l : (forall x, x ∈ l -> count_of x l <= 1) <-> NoDup l.
Proof.
  induction l as [|y l IH]; [split; [intros _; constructor|by intros _ x Hx%elem_of_nil]|].
  unfold count_of in *. split.
  - intros H. apply NoDup_cons. split.
    + intros Hy. specialize (H y ltac:(left)). rewrite filter_cons_True in H by done. simpl in H.
      assert (Hin : y ∈ filter (fun z => z = y) l) by (by apply list_elem_of_filter). destruct (filter _ l); [by apply elem_of_nil in Hin|simpl in H; lia].
    + apply IH. intros x Hx. specialize (H x ltac:(by right)). rewrite filter_cons in H. case_decide; simpl in H; lia.
  - intros [Hy Hl]%NoDup_cons x Hx. rewrite filter_cons. case_decide as E.
    + subst. simpl. replace (filter _ l) with (@nil string); [simpl; lia|]. symmetry. apply elem_of_nil_inv. intros z Hz.
      apply list_elem_of_filter in Hz as [-> Hz]. done.
    + apply elem_of_cons in Hx as [->|Hx]; [done|]. by apply IH.
Qed.

Lemma sorted_set_nil l : sorted_set l = [] <-> l = [].
Proof.
  split; [|by intros ->]. intros H. apply elem_of_nil_inv. intros x Hx. apply elem_of_sorted_set in Hx. rewrite H in Hx. by apply elem_of_nil in Hx.
Qed.

Lemma duplicates_nil l : duplicates l = [] <-> NoDup l.
Proof.
  unfold duplicates. rewrite sorted_set_nil, <- count_nodup. split.
  - intros H x Hx. destruct (Nat.le_gt_cases (count_of x l) 1); [done|]. exfalso.
    apply (filter_nil_not_elem_of _ _ x H); [lia|done].
  - intros H. apply elem_of_nil_inv. intros x [Hc Hx]%list_elem_of_filter. specialize (H x Hx). lia.
Qed.

Lemma beyond_nil l known : beyond l known = [] <-> forall k, k ∈ l -> k ∈ known.
Proof.
  unfold beyond. rewrite sorted_set_nil. split.
  - intros H k Hk. destruct (decide (k ∈ known)); [done|]. exfalso. by apply (filter_nil_not_elem_of _ _ k H).
  - intros H. apply elem_of_nil_inv. intros k [Hc Hk]%list_elem_of_filter. by apply Hc, H.
Qed.

Lemma complain_nil {A} (f : list A -> problem) l : complain f l = [] <-> l = [].
Proof. by destruct l. Qed.

Lemma problems_nil c : problems c = [] <-> catalog_ok c.
Proof.
  unfold problems, catalog_ok. rewrite !app_nil, !complain_nil, !duplicates_nil.
  assert (H : mjoin (plan_problems (feature_keys c) (metric_keys c) <$> ca_plans c) = [] <->
    forall p, p ∈ ca_plans c -> plan_problems (feature_keys c) (metric_keys c) p = []).
  { by rewrite join_nil, Forall_fmap, Forall_forall. }
  rewrite H. clear H. do 3 f_equiv. apply forall_proper. intros p. split; intros H Hp; specialize (H Hp).
  - unfold plan_problems in H. rewrite !app_nil, !complain_nil, !beyond_nil in H. destruct H as (H1 & H2 & H3 & H4).
    split_and!; [done..|]. intros Hpub. rewrite Hpub in H4. simpl in H4. case_bool_decide; [done|]. by apply not_eq_None_Some.
  - destruct H as (H1 & H2 & H3 & H4). unfold plan_problems. rewrite !app_nil, !complain_nil, !beyond_nil. split_and!; [done..|].
    destruct (pd_is_public p); [|done]. simpl. specialize (H4 eq_refl). rewrite bool_decide_eq_false_2; [done|].
    by apply not_eq_None_Some.
Qed.

(** ** Writing a table entry by entry *)

Definition write_w (t : table) (k : key t) (o : option (row t)) (w : world) : world :=
  match o with Some r => put_w t k r w | None => del_w t k w end.

Lemma write_w_at t k o w : w_db (write_w t k o w) t !! k = o.
Proof.
  destruct o; simpl; [rewrite set_table_eq; apply put_same|]. rewrite set_table_eq. apply lookup_delete_eq.
Qed.
Lemma write_w_other t k o w k' : k <> k' -> w_db (write_w t k o w) t !! k' = w_db w t !! k'.
Proof.
  intros H. destruct o; simpl; rewrite set_table_eq; [by apply put_other|]. by apply lookup_delete_ne.
Qed.
Lemma write_w_ne t k o w t' : t <> t' -> w_db (write_w t k o w) t' = w_db w t'.
Proof. intros H. destruct o; simpl; by apply set_table_ne. Qed.

(** Everything but the tables. *)
Definition aside (w w' : world) : Prop := same_env w w' /\ w_fresh w' = w_fresh w.
#[export] Instance aside_pre : PreOrder aside.
Proof.
  split; [by intros w|]. intros w1 w2 w3 [H1 H2] [H3 H4]. split; [by etrans|congruence].
Qed.
Lemma aside_write t k o w : aside w (write_w t k o w).
Proof. by destruct o. Qed.

(** A loop whose every step writes at most one entry of [t], a different one each. *)
Lemma write_each {A S} t (l : list A) (m : A -> S -> M S) (kf : A -> key t) (v : A -> option (option (row t)))
    (h : A -> S -> S) : forall s w, NoDup (kf <$> l) ->
  (forall x s w1, x ∈ l -> w_db w1 t !! kf x = w_db w t !! kf x ->
    m x s w1 = (Ok (h x s), match v x with Some o => write_w t (kf x) o w1 | None => w1 end)) ->
  exists w1, for_fold l m s w = (Ok (foldl (fun s x => h x s) s l), w1) /\ aside w w1 /\
    (forall t', t <> t' -> w_db w1 t' = w_db w t') /\
    (forall x, x ∈ l -> w_db w1 t !! kf x = default (w_db w t !! kf x) (v x)) /\
    (forall k, k ∉ kf <$> l -> w_db w1 t !! k = w_db w t !! k).
Proof.
  induction l as [|x l IH]; intros s w Hn Hm.
  - exists w. split_and!; [done|done|done|by intros x Hx%elem_of_nil|done].
  - simpl in Hn. apply NoDup_cons in Hn as [Hx Hn]. simpl. rewrite (run_ok _ _ _ _ _ (Hm x s w ltac:(left) eq_refl)).
    set (w0 := match v x with Some o => write_w t (kf x) o w | None => w end).
    assert (Ho : forall k, kf x <> k -> w_db w0 t !! k = w_db w t !! k).
    { intros k Hk. subst w0. destruct (v x); [by apply write_w_other|done]. }
    destruct (IH (h x s) w0 Hn) as (w1 & E & Ha & Ht & Hin & Hout).
    + intros y s' w2 Hy E. apply Hm; [by right|]. rewrite E. apply Ho. intros Heq. apply Hx. rewrite Heq. by apply list_elem_of_fmap_2.
    + exists w1. split_and!; [exact E| | | |].
      * etrans; [|exact Ha]. subst w0. destruct (v x); [apply aside_write|done].
      * intros t' Ht'. rewrite Ht by done. subst w0. destruct (v x); [by apply write_w_ne|done].
      * intros y Hy. apply elem_of_cons in Hy as [->|Hy].
        -- rewrite Hout by done. subst w0. destruct (v x); simpl; [apply write_w_at|done].
        -- rewrite Hin by done. rewrite Ho; [done|]. intros Heq. apply Hx. rewrite Heq. by apply list_elem_of_fmap_2.
      * intros k Hk. apply not_elem_of_cons in Hk as [Hk1 Hk2]. rewrite Hout by done. apply Ho. congruence.
Qed.

Lemma foldl_stays {A S} (h : A -> S -> S) l s : (forall x s, x ∈ l -> h x s = s) -> foldl (fun s x => h x s) s l = s.
Proof.
  revert s. induction l as [|x l IH]; intros s H; [done|]. simpl. rewrite H by left. apply IH. intros. apply H. by right.
Qed.

Lemma unit_eta (u : unit) : u = tt.
Proof. by destruct u. Qed.

Lemma for_each_fold {A} (l : list A) (f : A -> M unit) w : for_each l f w = for_fold l (fun x _ => f x) tt w.
Proof.
  revert w. induction l as [|x l IH]; intros w; [done|]. simpl. unfold mbind, M_bind.
  destruct (f x w) as [[[]|] w1]; [apply IH|done].
Qed.

Lemma insert_new_run t k r w : w_db w t !! k = None -> insert_new t k r w = (Ok tt, write_w t k (Some r) w).
Proof. unfold insert_new, mbind, M_bind, read_table. intros ->. done. Qed.

(** A table whose keys pair a plan with a name: its rows of one plan are brought
    to a list of entries, the others deleted. *)
Section Children.
Context (t : table) (mk : uuid -> string -> key t) (un : key t -> uuid * string).
Context (un_mk : forall i k, un (mk i k) = (i, k)) (mk_un : forall k, mk (un k).1 (un k).2 = k).

Definition names_of (i : uuid) (d : db) : list string :=
  (fun r : key t * row t => (un r.1).2) <$> rows_where t (fun k _ => bool_decide ((un k).1 = i)) (d t).

Lemma mk_inj i k j k' : mk i k = mk j k' -> i = j /\ k = k'.
Proof using un_mk. intros H. apply (f_equal un) in H. rewrite !un_mk in H. by injection H. Qed.

Lemma elem_of_names i k d : k ∈ names_of i d <-> is_Some (d t !! mk i k).
Proof using un_mk mk_un.
  unfold names_of. rewrite list_elem_of_fmap. split.
  - intros ([j r] & -> & Hin). apply elem_of_rows_where in Hin as [Hin Hp]. apply bool_decide_eq_true in Hp.
    exists r. simpl in *. by rewrite <- Hp, mk_un.
  - intros [r Hr]. exists (mk i k, r). simpl. split; [by rewrite un_mk|]. apply elem_of_rows_where. split; [done|].
    apply bool_decide_eq_true. by rewrite un_mk.
Qed.

Lemma NoDup_names i d : NoDup (names_of i d).
Proof using mk_un.
  unfold names_of. apply NoDup_fmap_2_strong; [|apply NoDup_rows_where].
  intros [j r] [j' r'] H1 H2 E. apply elem_of_rows_where in H1 as [H1 P1], H2 as [H2 P2].
  apply bool_decide_eq_true in P1, P2. simpl in *. assert (j = j') as <-; [|by simplify_eq].
  rewrite <- (mk_un j), <- (mk_un j'), P1, P2. congruence.
Qed.

Lemma children_run {A} i (l : list A) (name : A -> string) (m : A -> M unit) (v : A -> option (row t)) w :
  NoDup (name <$> l) ->
  (forall x w1, x ∈ l -> w_db w1 t !! mk i (name x) = w_db w t !! mk i (name x) ->
    m x w1 = (Ok tt, match v x with Some r => write_w t (mk i (name x)) (Some r) w1 | None => w1 end)) ->
  exists w1, mbind (fun _ => for_each (names_of i (w_db w))
      (fun k => when_ (negb (bool_decide (k ∈ name <$> l))) (del t (mk i k)))) (for_each l m) w = (Ok tt, w1) /\
    aside w w1 /\ (forall t', t <> t' -> w_db w1 t' = w_db w t') /\
    (forall x, x ∈ l -> w_db w1 t !! mk i (name x) = match v x with Some r => Some r | None => w_db w t !! mk i (name x) end) /\
    (forall k, k ∉ name <$> l -> w_db w1 t !! mk i k = None) /\
    (forall j k, j <> i -> w_db w1 t !! mk j k = w_db w t !! mk j k).
Proof using un_mk mk_un.
  intros Hn Hm.
  destruct (write_each t l (fun x _ => m x) (fun x => mk i (name x)) (fun x => Some <$> v x) (fun _ s => s) tt w)
    as (w1 & E1 & A1 & T1 & I1 & O1).
  { apply (NoDup_fmap_2_strong (mk i)) in Hn; [by rewrite <- list_fmap_compose in Hn|].
    intros a b _ _ Hab. by apply mk_inj in Hab as [_ ->]. }
  { intros x [] w1 Hx E. rewrite (Hm x w1 Hx E). by destruct (v x). }
  destruct (write_each t (names_of i (w_db w)) (fun k _ => when_ (negb (bool_decide (k ∈ name <$> l))) (del t (mk i k)))
    (mk i) (fun k => if bool_decide (k ∈ name <$> l) then None else Some None) (fun _ s => s) tt w1)
    as (w2 & E2 & A2 & T2 & I2 & O2).
  { apply NoDup_fmap_2_strong; [|apply NoDup_names]. intros a b _ _ Hab. by apply mk_inj in Hab as [_ ->]. }
  { intros k [] w3 Hk _. by case_bool_decide. }
  assert (Hfree : forall k, k ∉ name <$> l -> mk i k ∉ (fun x => mk i (name x)) <$> l).
  { intros k Hk Hin. apply list_elem_of_fmap in Hin as (x & Hx & Hin). apply mk_inj in Hx as [_ ->]. by apply Hk, list_elem_of_fmap_2. }
  exists w2. split_and!.
  - rewrite <- for_each_fold in E1. rewrite (run_ok _ _ _ _ _ E1), for_each_fold, E2. do 2 f_equal. apply unit_eta.
  - by etrans.
  - intros t' Ht. by rewrite T2, T1.
  - intros x Hx. destruct (decide (name x ∈ names_of i (w_db w))) as [Hin|Hout].
    + rewrite I2, bool_decide_eq_true_2 by (done || by apply list_elem_of_fmap_2). simpl. rewrite I1 by done. by destruct (v x).
    + rewrite O2; [rewrite I1 by done; by destruct (v x)|]. intros Hin. apply list_elem_of_fmap in Hin as (k & Hk & Hin).
      apply mk_inj in Hk as [_ Hk]. by rewrite Hk in Hout.
  - intros k Hk. destruct (decide (k ∈ names_of i (w_db w))) as [Hin|Hout].
    + rewrite I2 by done. by rewrite bool_decide_eq_false_2.
    + rewrite O2, O1; [|by apply Hfree|]; [|intros Hin; apply list_elem_of_fmap in Hin as (k' & Hk' & Hin);
        apply mk_inj in Hk' as [_ Hk']; by rewrite Hk' in Hout].
      rewrite elem_of_names in Hout. by destruct (w_db w t !! mk i k) eqn:E; [destruct Hout|].
  - intros j k Hj. rewrite O2, O1; [done| |]; intros Hin; apply list_elem_of_fmap in Hin as (x & Hx & _);
      apply mk_inj in Hx as [? _]; done.
Qed.
End Children.

(** ** The features and the limits of one plan *)

Lemma constraints_frame t d d' : constraints_ok d -> table_ok t (d' t) -> (forall t', t <> t' -> d' t' = d t') ->
  constraints_ok d'.
Proof.
  rewrite !constraints_ok_table. intros Hd Ht Hf t'. destruct (decide (t = t')) as [<-|]; [done|]. rewrite Hf by done. apply Hd.
Qed.

Lemma flush_run w : constraints_ok (w_db w) -> flush w = (Ok tt, w).
Proof. intros H. unfold flush. by rewrite bool_decide_eq_true_2. Qed.

Lemma feature_names i k d :
  k ∈ names_of Tplan_features id i d <-> is_Some (d Tplan_features !! ((i, k) : key Tplan_features)).
Proof. apply (elem_of_names Tplan_features pair id); [done|by intros []]. Qed.
Lemma limit_names i k d :
  k ∈ names_of Tplan_limits id i d <-> is_Some (d Tplan_limits !! ((i, k) : key Tplan_limits)).
Proof. apply (elem_of_names Tplan_limits pair id); [done|by intros []]. Qed.

Lemma features_run i keys w : NoDup keys -> constraints_ok (w_db w) ->
  exists w1, _sync_plan_features i keys w = (Ok tt, w1) /\ aside w w1 /\ constraints_ok (w_db w1) /\
    (forall t, Tplan_features <> t -> w_db w1 t = w_db w t) /\
    (forall k, w_db w1 Tplan_features !! ((i, k) : key Tplan_features) =
      if bool_decide (k ∈ keys) then Some (default (PlanFeature true) (w_db w Tplan_features !! ((i, k) : key Tplan_features)))
      else None) /\
    (forall j k, j <> i -> w_db w1 Tplan_features !! ((j, k) : key Tplan_features) =
      w_db w Tplan_features !! ((j, k) : key Tplan_features)).
Proof.
  intros Hn Hc. set (names := names_of Tplan_features id i (w_db w)).
  destruct (children_run Tplan_features pair id ltac:(done) ltac:(by intros []) i keys id
    (fun k => when_ (negb (bool_decide (k ∈ names))) (insert_new Tplan_features (i, k) (PlanFeature true)))
    (fun k => if bool_decide (k ∈ names) then None else Some (PlanFeature true)) w) as (w1 & E & Ha & Ht & Hin & Hout & Hj).
  { by rewrite list_fmap_id. }
  { intros k w1 Hk E. case_bool_decide as Hm; [done|]. simpl. apply insert_new_run. etrans; [exact E|].
    apply eq_None_not_Some. by rewrite <- feature_names. }
  rewrite list_fmap_id in E. assert (Hc1 : constraints_ok (w_db w1)) by (by apply (constraints_frame Tplan_features (w_db w))).
  exists w1. split_and!; [|done..| |exact Hj].
  - unfold _sync_plan_features. run. rewrite <- run_assoc.
    etrans; [apply (run_ok _ (fun _ => flush) _ tt w1); exact E|by apply flush_run].
  - intros k. case_bool_decide as Hk; [|apply Hout; by rewrite list_fmap_id].
    etrans; [apply (Hin k Hk)|]. pose proof (feature_names i k (w_db w)) as Hf. fold names in Hf. cbn [id].
    destruct (w_db w Tplan_features !! ((i, k) : key Tplan_features)) as [r|].
    + by rewrite bool_decide_eq_true_2 by (by apply Hf).
    + rewrite bool_decide_eq_false_2; [done|]. rewrite Hf. by intros [].
Qed.

Lemma limits_run c i plan_key limits w : NoDup limits.*1 -> constraints_ok (w_db w) ->
  exists w1, _sync_plan_limits c i plan_key limits w = (Ok tt, w1) /\ aside w w1 /\ constraints_ok (w_db w1) /\
    (forall t, Tplan_limits <> t -> w_db w1 t = w_db w t) /\
    (forall k v, (k, v) ∈ limits -> w_db w1 Tplan_limits !! ((i, k) : key Tplan_limits) = Some (limit_row c plan_key k v)) /\
    (forall k, k ∉ limits.*1 -> w_db w1 Tplan_limits !! ((i, k) : key Tplan_limits) = None) /\
    (forall j k, j <> i -> w_db w1 Tplan_limits !! ((j, k) : key Tplan_limits) =
      w_db w Tplan_limits !! ((j, k) : key Tplan_limits)).
Proof.
  intros Hn Hc. set (names := names_of Tplan_limits id i (w_db w)).
  destruct (children_run Tplan_limits pair id ltac:(done) ltac:(by intros []) i limits fst
    (fun l => if bool_decide (l.1 ∈ names) then put Tplan_limits (i, l.1) (limit_row c plan_key l.1 l.2)
              else insert_new Tplan_limits (i, l.1) (limit_row c plan_key l.1 l.2))
    (fun l => Some (limit_row c plan_key l.1 l.2)) w Hn) as (w1 & E & Ha & Ht & Hin & Hout & Hj).
  { intros [k v] w1 Hk E. simpl. case_bool_decide as Hm; [done|]. apply insert_new_run. etrans; [exact E|].
    apply eq_None_not_Some. by rewrite <- limit_names. }
  assert (Hc1 : constraints_ok (w_db w1)) by (by apply (constraints_frame Tplan_limits (w_db w))).
  exists w1. split_and!; [|done..| | |exact Hj].
  - unfold _sync_plan_limits. run. rewrite <- run_assoc.
    etrans; [apply (run_ok _ (fun _ => flush) _ tt w1); exact E|by apply flush_run].
  - intros k v Hk. exact (Hin (k, v) Hk).
  - exact Hout.
Qed.

(** ** One plan *)

(** What the file says about a plan, in the tables under an identifier. *)
Record plan_synced (c : plan_catalog) (order : nat) (p : plan_definition) (i : uuid) (d : db) : Prop := PlanSynced {
  synced_row : d Tplans !! i = Some (plan_row c order p);
  synced_features k : is_Some (d Tplan_features !! ((i, k) : key Tplan_features)) <-> k ∈ pd_features p;
  synced_limits k v : (k, v) ∈ pd_limits p ->
    d Tplan_limits !! ((i, k) : key Tplan_limits) = Some (limit_row c (pd_key p) k v);
  synced_no_limit k : k ∉ (pd_limits p).*1 -> d Tplan_limits !! ((i, k) : key Tplan_limits) = None
}.

(** The tables of the catalog. *)
Definition is_catalog (t : table) : bool :=
  bool_decide (t ∈ [Tplans; Tplan_features; Tplan_limits; Tmetrics; Tfeatures]).

(** Nothing about a plan changes. *)
Definition plan_same (i : uuid) (d d' : db) : Prop :=
  d' Tplans !! i = d Tplans !! i /\
  (forall k, d' Tplan_features !! ((i, k) : key Tplan_features) = d Tplan_features !! ((i, k) : key Tplan_features)) /\
  (forall k, d' Tplan_limits !! ((i, k) : key Tplan_limits) = d Tplan_limits !! ((i, k) : key Tplan_limits)).

Lemma plan_same_trans i d1 d2 d3 : plan_same i d1 d2 -> plan_same i d2 d3 -> plan_same i d1 d3.
Proof.
  intros (H1 & H2 & H3) (H4 & H5 & H6). split_and!; [by etrans|intros k; by rewrite H5|intros k; by rewrite H6].
Qed.

Lemma plan_synced_same c order p i d d' : plan_same i d d' -> plan_synced c order p i d -> plan_synced c order p i d'.
Proof.
  intros (H1 & H2 & H3) [S1 S2 S3 S4]. split.
  - etrans; [exact H1|done].
  - intros k. rewrite H2. apply S2.
  - intros k v Hk. rewrite H3. by apply S3.
  - intros k Hk. rewrite H3. by apply S4.
Qed.

(** The plans of the tables by their keys, as [existing_plans] was read. *)
Definition plan_ids (existing : list (key Tplans * row Tplans)) (d : db) : Prop :=
  forall i (r : row Tplans), (i, r) ∈ existing -> exists r' : row Tplans, d Tplans !! i = Some r' /\ p_key r' = p_key r.

Lemma row_run c existing order p r w :
  constraints_ok (w_db w) -> plan_ids existing (w_db w) ->
  w_db w Tplans !! (w_fresh w : key Tplans) = None ->
  (forall i (r' : row Tplans), w_db w Tplans !! i = Some r' -> p_key r' = pd_key p -> exists r0 : row Tplans, (i, r0) ∈ existing /\ p_key r0 = pd_key p) ->
  exists (i : key Tplans) r1 w1, sync_plan_row c existing order p r w = (Ok (i, r1), w1) /\
    w_db w1 Tplans = <[i := plan_row c order p]> (w_db w Tplans) /\ constraints_ok (w_db w1) /\ same_env w w1 /\
    (i = w_fresh w /\ w_fresh w1 = N.succ (w_fresh w) \/
     w_fresh w1 = w_fresh w /\ exists r0 : row Tplans, (i, r0) ∈ existing /\ p_key r0 = pd_key p) /\
    (forall t, Tplans <> t -> w_db w1 t = w_db w t) /\
    (forall i0 (r' : row Tplans), w_db w Tplans !! i0 = Some r' -> p_key r' = pd_key p -> i0 = i) /\
    (w_db w Tplans !! i = Some (plan_row c order p) -> r1 = r).
Proof.
  intros Hc Hids Hfresh Hall. pose proof (proj1 (constraints_ok_table _) Hc Tplans) as Hu. unfold sync_plan_row.
  destruct (filter _ existing) as [|[i r0] l] eqn:Ef; simpl.
  - assert (Hnone : forall i (r' : row Tplans), w_db w Tplans !! i = Some r' -> p_key r' <> pd_key p).
    { intros i r' Hi Hk. destruct (Hall i r' Hi Hk) as (r0 & Hin & Hk0). by apply (filter_nil_not_elem_of _ _ _ Ef) in Hin. }
    run. set (w1 := put_w Tplans (w_fresh w) (plan_row c order p) (w <| w_fresh := N.succ (w_fresh w) |>)).
    assert (E : w_db w1 Tplans = <[(w_fresh w : key Tplans) := plan_row c order p]> (w_db w Tplans)) by (unfold w1; by rewrite put_w_eq).
    assert (Ht : forall t, Tplans <> t -> w_db w1 t = w_db w t) by (intros t Ht; unfold w1; by rewrite put_w_ne).
    assert (Hc1 : constraints_ok (w_db w1)).
    { apply (constraints_frame Tplans (w_db w)); [done| |done]. rewrite E.
      apply (unique_on_insert Tplans); [done|]. intros j r' v _ Hj [= <-] [= E']. by apply (Hnone j r'). }
    exists (w_fresh w), (r <| sr_plans_added := (sr_plans_added r + 1)%Z |>), w1. rewrite (run_ok _ _ _ _ _ (flush_run w1 Hc1)).
    split_and!; try done; [by left|intros i0 r' Hi Hk; by destruct (Hnone i0 r' Hi)|]. intros Hs. exfalso. assert (@None (row Tplans) = Some (plan_row c order p)) by (etrans; [symmetry; exact Hfresh|exact Hs]). done.
  - assert (Hin : (i, r0) ∈ filter (fun kr : key Tplans * row Tplans => p_key kr.2 = pd_key p) existing) by (rewrite Ef; left).
    apply list_elem_of_filter in Hin as [Hk0 Hin]. simpl in Hk0. destruct (Hids i r0 Hin) as (r' & Hr' & Hk').
    run. set (w1 := put_w Tplans i (plan_row c order p) w).
    assert (E : w_db w1 Tplans = <[i := plan_row c order p]> (w_db w Tplans)) by (unfold w1; by rewrite put_w_eq).
    assert (Ht : forall t, Tplans <> t -> w_db w1 t = w_db w t) by (intros t Ht; unfold w1; by rewrite put_w_ne).
    exists i, (if negb (bool_decide (w_db w Tplans !! i = Some (plan_row c order p))) then r <| sr_plans_updated := (sr_plans_updated r + 1)%Z |> else r), w1.
    split_and!; try done.
    + apply (constraints_frame Tplans (w_db w)); [done| |done]. rewrite E.
      apply (unique_on_update Tplans _ _ i _ r'); [done..|]. right. simpl. congruence.
    + right. split; [done|]. by exists r0.
    + intros i0 r1' Hi Hk. apply (unique_on_lookup Tplans _ _ i0 i r1' r' (pd_key p) Hu Hi Hr'); congruence.
    + intros Hs. by rewrite bool_decide_eq_true_2.
Qed.

Lemma plan_step c existing order p r w :
  constraints_ok (w_db w) -> NoDup (pd_features p) -> NoDup (pd_limits p).*1 ->
  plan_ids existing (w_db w) ->
  w_db w Tplans !! (w_fresh w : key Tplans) = None ->
  (forall i (r' : row Tplans), w_db w Tplans !! i = Some r' -> p_key r' = pd_key p -> exists r0 : row Tplans, (i, r0) ∈ existing /\ p_key r0 = pd_key p) ->
  exists (i : key Tplans) r1 w1, sync_plan c existing (order, p) r w = (Ok r1, w1) /\
    plan_synced c order p i (w_db w1) /\ constraints_ok (w_db w1) /\ same_env w w1 /\
    (i = w_fresh w /\ w_fresh w1 = N.succ (w_fresh w) \/
     w_fresh w1 = w_fresh w /\ exists r0 : row Tplans, (i, r0) ∈ existing /\ p_key r0 = pd_key p) /\
    (forall j, j <> i -> plan_same j (w_db w) (w_db w1)) /\
    (forall t, t ∉ [Tplans; Tplan_features; Tplan_limits] -> w_db w1 t = w_db w t) /\
    (forall i0 (r' : row Tplans), w_db w Tplans !! i0 = Some r' -> p_key r' = pd_key p -> i0 = i) /\
    (forall i0, plan_synced c order p i0 (w_db w) -> r1 = r /\ forall t, w_db w1 t = w_db w t).
Proof.
  intros Hc Hnf Hnl Hids Hfresh Hall.
  destruct (row_run c existing order p r w Hc Hids Hfresh Hall) as (i & r1 & w1 & E1 & P1 & C1 & S1 & F1 & T1 & U1 & R1).
  destruct (features_run i (pd_features p) w1 Hnf C1) as (w2 & E2 & A2 & C2 & T2 & I2 & J2).
  destruct (limits_run c i (pd_key p) (pd_limits p) w2 Hnl C2) as (w3 & E3 & A3 & C3 & T3 & I3 & O3 & J3).
  exists i, r1, w3.
  assert (P3 : w_db w3 Tplans = <[i := plan_row c order p]> (w_db w Tplans)) by (rewrite T3, T2 by done; exact P1).
  split_and!; [| |done| | | | |done|].
  - unfold sync_plan. rewrite (run_ok _ _ _ _ _ E1), (run_ok _ _ _ _ _ (flush_run w1 C1)). cbn [fst snd].
    by rewrite (run_ok _ _ _ _ _ E2), (run_ok _ _ _ _ _ E3).
  - split.
    + rewrite P3. apply (put_same Tplans).
    + intros k. rewrite T3 by done. rewrite I2. case_bool_decide; [by split|]. split; [by intros []|done].
    + intros k v Hk. by apply I3.
    + intros k Hk. by apply O3.
  - etrans; [exact S1|]. etrans; [apply A2|apply A3].
  - destruct A2 as [_ F2], A3 as [_ F3]. rewrite F3, F2. exact F1.
  - intros j Hj. split_and!.
    + rewrite P3. etrans; [apply (put_other Tplans); [|reflexivity]|done]. congruence.
    + intros k. rewrite T3 by done. rewrite J2 by done. by rewrite T1.
    + intros k. rewrite J3 by done. rewrite T2 by done. by rewrite T1.
  - intros t Ht. rewrite !not_elem_of_cons in Ht. destruct Ht as (H1 & H2 & H3 & _). by rewrite T3, T2, T1 by congruence.
  - intros i0 [Hrow Hfe Hli Hno]. pose proof (U1 i0 _ Hrow eq_refl) as ->. split; [by apply R1|].
    assert (EP : w_db w3 Tplans = w_db w Tplans) by (rewrite P3; by apply (put_id Tplans)).
    assert (EF : w_db w3 Tplan_features = w_db w Tplan_features).
    { rewrite T3 by done. apply map_eq. intros [j k]. destruct (N.eq_dec j i) as [->|Hj].
      - etrans; [apply I2|]. rewrite T1 by done. case_bool_decide as Hk.
        + apply Hfe in Hk as [x Hx]. etrans; [|symmetry; exact Hx]. f_equal. by rewrite_row Hx.
        + symmetry. apply eq_None_not_Some. by rewrite Hfe.
      - etrans; [by apply J2|]. by rewrite T1. }
    assert (EL : w_db w3 Tplan_limits = w_db w Tplan_limits).
    { apply map_eq. intros [j k]. destruct (N.eq_dec j i) as [->|Hj].
      - destruct (decide (k ∈ (pd_limits p).*1)) as [Hk|Hk].
        + apply list_elem_of_fmap in Hk as ([k' v] & -> & Hk). etrans; [by apply I3|]. symmetry. by apply Hli.
        + etrans; [by apply O3|]. symmetry. by apply Hno.
      - etrans; [by apply J3|]. by rewrite T2, T1. }
    intros t. destruct (decide (t ∈ [Tplans; Tplan_features; Tplan_limits])) as [Ht|Ht].
    + rewrite !elem_of_cons in Ht. by destruct Ht as [->|[->|[->|[]%elem_of_nil]]].
    + rewrite !not_elem_of_cons in Ht. destruct Ht as (H1 & H2 & H3 & _). by rewrite T3, T2, T1 by congruence.
Qed.

(** ** All plans *)

Lemma plans_run c existing l : forall r w,
  constraints_ok (w_db w) -> NoDup (pd_key <$> l.*2) ->
  (forall o p, (o, p) ∈ l -> NoDup (pd_features p) /\ NoDup (pd_limits p).*1) ->
  plan_ids existing (w_db w) ->
  (forall i : key Tplans, (w_fresh w <= i)%N -> w_db w Tplans !! i = None) ->
  (forall i (r' : row Tplans), w_db w Tplans !! i = Some r' -> p_key r' ∈ pd_key <$> l.*2 ->
    exists r0 : row Tplans, (i, r0) ∈ existing /\ p_key r0 = p_key r') ->
  exists r1 w1, for_fold l (sync_plan c existing) r w = (Ok r1, w1) /\ constraints_ok (w_db w1) /\ same_env w w1 /\
    (forall o p, (o, p) ∈ l -> exists i : key Tplans, plan_synced c o p i (w_db w1) /\
      forall i0 (r' : row Tplans), w_db w Tplans !! i0 = Some r' -> p_key r' = pd_key p -> i0 = i) /\
    (forall i (r' : row Tplans), w_db w Tplans !! i = Some r' -> p_key r' ∉ pd_key <$> l.*2 -> plan_same i (w_db w) (w_db w1)) /\
    (forall t, t ∉ [Tplans; Tplan_features; Tplan_limits] -> w_db w1 t = w_db w t) /\
    (forall i : key Tplans, (w_fresh w1 <= i)%N -> w_db w1 Tplans !! i = None) /\
    (forall i (r' : row Tplans), w_db w1 Tplans !! i = Some r' -> p_key r' ∈ pd_key <$> l.*2 \/ w_db w Tplans !! i = Some r') /\
    ((forall o p, (o, p) ∈ l -> exists i, plan_synced c o p i (w_db w)) -> r1 = r /\ forall t, w_db w1 t = w_db w t).
Proof.
  induction l as [|[o p] l IH]; intros r w Hc Hn Hnd Hids Hfr Hall.
  { exists r, w. split_and!; try done; [by intros o p []%elem_of_nil|by right]. }
  simpl in Hn. apply NoDup_cons in Hn as [Hp Hn]. destruct (Hnd o p ltac:(left)) as [Hnf Hnl].
  destruct (plan_step c existing o p r w Hc Hnf Hnl Hids) as (i & r1 & w1 & E1 & S1 & C1 & V1 & F1 & J1 & T1 & U1 & N1).
  { apply Hfr. lia. }
  { intros i r' Hi Hk. destruct (Hall i r' Hi) as (r0 & Hin & Hk0); [rewrite Hk; left|]. exists r0. by rewrite Hk0. }
  assert (Hkey : forall r' : row Tplans, w_db w Tplans !! i = Some r' -> p_key r' = pd_key p).
  { intros r' Hi. destruct F1 as [[Ei _]|(_ & r0 & Hin & Hk0)].
    - rewrite (Hfr i) in Hi by lia. done.
    - destruct (Hids i r0 Hin) as (r2 & Hr2 & Hk2). assert (Some r' = Some r2) as [= ->] by (etrans; [symmetry; exact Hi|exact Hr2]). congruence. }
  assert (Hold : forall j (r' : row Tplans), j <> i -> w_db w1 Tplans !! j = Some r' <-> w_db w Tplans !! j = Some r').
  { intros j r' Hj. destruct (J1 j Hj) as [H _]. split; intros E; [etrans; [symmetry; exact H|exact E]|etrans; [exact H|exact E]]. }
  destruct (IH r1 w1 C1 Hn) as (r2 & w2 & E2 & C2 & V2 & S2 & O2 & T2 & W2 & G2 & N2).
  { intros o' p' Hin. apply (Hnd o'). by right. }
  { intros j r0 Hin. destruct (Hids j r0 Hin) as (r' & Hr' & Hk'). destruct (N.eq_dec j i) as [->|Hj].
    - exists (plan_row c o p). split; [apply S1|]. rewrite <- Hk'. symmetry. by apply Hkey.
    - exists r'. split; [by apply Hold|done]. }
  { intros j Hj. assert (Hji : j <> i).
    { intros ->. destruct F1 as [[Ei En]|(En & r0 & Hin & _)]; [lia|]. destruct (Hids i r0 Hin) as (r' & Hr' & _).
      rewrite (Hfr i) in Hr' by lia. done. }
    destruct (J1 j Hji) as [H _]. etrans; [exact H|]. apply Hfr. destruct F1 as [[_ En]|[En _]]; lia. }
  { intros j r' Hj Hk. destruct (N.eq_dec j i) as [->|Hji].
    - exfalso. assert (Some r' = Some (plan_row c o p)) as [= ->] by (etrans; [symmetry; exact Hj|apply S1]). by apply Hp.
    - apply Hold in Hj; [|done]. destruct (Hall j r' Hj) as (r0 & Hin & Hk0); [by right|]. by exists r0. }
  exists r2, w2. split_and!; [|done|by etrans| | | |done| |].
  - simpl. by rewrite (run_ok _ _ _ _ _ E1).
  - intros o' p' Hin. apply elem_of_cons in Hin as [[= -> ->]|Hin].
    + exists i. split; [|exact U1]. apply (plan_synced_same _ _ _ _ (w_db w1)); [|done]. apply (O2 i (plan_row c o p)); [apply S1|done].
    + destruct (S2 o' p' Hin) as (i' & Hs & Hu). exists i'. split; [done|]. intros i0 r' Hi Hk. apply (Hu i0 r'); [|done].
      apply Hold; [|done]. intros ->. apply Hkey in Hi. apply Hp. rewrite <- Hi, Hk. apply list_elem_of_fmap_2.
      apply (list_elem_of_fmap_2 snd) in Hin. exact Hin.
  - intros j r' Hj Hk. apply not_elem_of_cons in Hk as [Hk1 Hk2]. assert (Hji : j <> i) by (intros ->; by apply Hkey in Hj).
    apply (plan_same_trans _ _ (w_db w1)); [by apply J1|]. apply (O2 j r'); [by apply Hold|done].
  - intros t Ht. by rewrite T2, T1.
  - intros j r' Hj. destruct (G2 j r' Hj) as [Hk|Hj']; [left; by right|].
    destruct (N.eq_dec j i) as [->|Hji]; [left|right; by apply Hold].
    assert (Some r' = Some (plan_row c o p)) as [= ->] by (etrans; [symmetry; exact Hj'|apply S1]). left.
  - intros Hs. destruct (Hs o p ltac:(left)) as [i0 Hi0]. destruct (N1 i0 Hi0) as [-> Hsame].
    destruct N2 as [-> Hsame2]; [|split; [done|intros t; by rewrite Hsame2]].
    intros o' p' Hin. destruct (Hs o' p' ltac:(by right)) as [i' Hi']. exists i'.
    apply (plan_synced_same _ _ _ _ (w_db w)); [|done]. split_and!; by rewrite Hsame.
Qed.

(** ** The whole synchronization *)

(** What a run needs: a valid catalog whose plans list a feature once (a limit is a
    dictionary's key), lawful tables, and identifiers not used yet. *)
Record syncable (c : plan_catalog) (w : world) : Prop := Syncable {
  syncable_catalog : catalog_ok c;
  syncable_lists p : p ∈ ca_plans c -> NoDup (pd_features p) /\ NoDup (pd_limits p).*1;
  syncable_tables : constraints_ok (w_db w);
  syncable_fresh (i : key Tplans) : (w_fresh w <= i)%N -> w_db w Tplans !! i = None
}.

Definition archived (t : instant) (p : plan) : plan :=
  if bool_decide (p_archived_at p = None) then p <| p_archived_at := Some t |> else p.

Lemma all_keys_run t (un : key t -> string) (mk : string -> key t) d k :
  (forall k, un (mk k) = k) -> (forall k, mk (un k) = k) ->
  k ∈ ((fun r : key t * row t => un r.1) <$> rows_where t (fun _ _ => true) (d t)) <-> is_Some (d t !! mk k).
Proof.
  intros H1 H2. rewrite list_elem_of_fmap. split.
  - intros ([k' r] & -> & Hin). apply elem_of_rows_where in Hin as [Hin _]. exists r. simpl. by rewrite H2.
  - intros [r Hr]. exists (mk k, r). simpl. rewrite H1. split; [done|]. by apply elem_of_rows_where.
Qed.

Lemma default_known {A} (a : A) (o : option A) : is_Some o -> o = Some (default a o).
Proof. by intros [x ->]. Qed.
Lemma default_missing {A} (a : A) (o : option A) : ~ is_Some o -> Some a = Some (default a o).
Proof. destruct o; [|done]. intros H. by destruct H. Qed.

Lemma registry_run c w : catalog_ok c ->
  let known := (fun r : key Tfeatures * row Tfeatures => r.1 : string) <$> rows_where Tfeatures (fun _ _ => true) (w_db w Tfeatures) in
  exists r w1, for_fold (ca_features c) (sync_feature known) no_changes w = (Ok r, w1) /\ aside w w1 /\
    (forall t, Tfeatures <> t -> w_db w1 t = w_db w t) /\
    (forall f, f ∈ ca_features c -> w_db w1 Tfeatures !! (fd_key f : key Tfeatures) =
      Some (default (Feature (fd_name f) (fd_category f)) (w_db w Tfeatures !! (fd_key f : key Tfeatures)))) /\
    (forall k : string, k ∉ feature_keys c -> w_db w1 Tfeatures !! (k : key Tfeatures) = w_db w Tfeatures !! (k : key Tfeatures)) /\
    ((forall f, f ∈ ca_features c -> is_Some (w_db w Tfeatures !! (fd_key f : key Tfeatures))) ->
      r = no_changes /\ w_db w1 Tfeatures = w_db w Tfeatures).
Proof.
  intros (Hn & _) known.
  assert (Hk : forall k : string, k ∈ known <-> is_Some (w_db w Tfeatures !! (k : key Tfeatures))).
  { intros k. apply (all_keys_run Tfeatures (fun k => k) (fun k => k)); done. }
  destruct (write_each Tfeatures (ca_features c) (sync_feature known) fd_key
    (fun f => if bool_decide (fd_key f ∈ known) then None else Some (Some (Feature (fd_name f) (fd_category f))))
    (fun f r => if bool_decide (fd_key f ∈ known) then r else r <| sr_features_added := (sr_features_added r + 1)%Z |>)
    no_changes w Hn) as (w1 & E & Ha & Ht & Hin & Hout).
  { intros f r w1 Hf E. unfold sync_feature. case_bool_decide as Hd; [done|].
    assert (Hnone : w_db w1 Tfeatures !! (fd_key f : key Tfeatures) = None).
    { etrans; [exact E|]. apply eq_None_not_Some. by rewrite <- Hk. }
    by rewrite (run_ok _ _ _ _ _ (insert_new_run _ _ _ _ Hnone)). }
  eexists _, w1. split_and!; [exact E|done|done| |exact Hout|].
  - intros f Hf. etrans; [exact (Hin f Hf)|]. case_bool_decide as Hd.
    + apply Hk in Hd. exact (default_known _ _ Hd).
    + assert (Hnone : ~ is_Some (w_db w Tfeatures !! (fd_key f : key Tfeatures))) by (by rewrite <- Hk).
      exact (default_missing _ _ Hnone).
  - intros Hall. split.
    + apply foldl_stays. intros f r Hf. by rewrite bool_decide_eq_true_2 by (by apply Hk, Hall).
    + apply map_eq. change (forall k : string, w_db w1 Tfeatures !! (k : key Tfeatures) = w_db w Tfeatures !! (k : key Tfeatures)). intros k.
    destruct (decide (k ∈ fd_key <$> ca_features c)) as [Hk'|Hk']; [|by apply Hout].
      apply list_elem_of_fmap in Hk' as (f & -> & Hf). etrans; [by apply Hin|]. rewrite bool_decide_eq_true_2; [done|]. by apply Hk, Hall.
Qed.

Lemma metrics_run c r0 w : catalog_ok c ->
  let known := (fun r : key Tmetrics * row Tmetrics => r.1 : string) <$> rows_where Tmetrics (fun _ _ => true) (w_db w Tmetrics) in
  exists r w1, for_fold (ca_metrics c) (sync_metric known) r0 w = (Ok r, w1) /\ aside w w1 /\
    (forall t, Tmetrics <> t -> w_db w1 t = w_db w t) /\
    (forall m, m ∈ ca_metrics c -> w_db w1 Tmetrics !! (md_key m : key Tmetrics) = Some (metric_row m)) /\
    (forall k : string, k ∉ metric_keys c -> w_db w1 Tmetrics !! (k : key Tmetrics) = w_db w Tmetrics !! (k : key Tmetrics)) /\
    ((forall m, m ∈ ca_metrics c -> w_db w Tmetrics !! (md_key m : key Tmetrics) = Some (metric_row m)) ->
      r = r0 /\ w_db w1 Tmetrics = w_db w Tmetrics).
Proof.
  intros (_ & Hn & _) known.
  assert (Hk : forall k : string, k ∈ known <-> is_Some (w_db w Tmetrics !! (k : key Tmetrics))).
  { intros k. apply (all_keys_run Tmetrics (fun k => k) (fun k => k)); done. }
  destruct (write_each Tmetrics (ca_metrics c) (sync_metric known) md_key (fun m => Some (Some (metric_row m)))
    (fun m r => if bool_decide (md_key m ∈ known) then r else r <| sr_metrics_added := (sr_metrics_added r + 1)%Z |>)
    r0 w Hn) as (w1 & E & Ha & Ht & Hin & Hout).
  { intros m r w1 Hm E. unfold sync_metric. case_bool_decide as Hd; [done|].
    assert (Hnone : w_db w1 Tmetrics !! (md_key m : key Tmetrics) = None).
    { etrans; [exact E|]. apply eq_None_not_Some. by rewrite <- Hk. }
    by rewrite (run_ok _ _ _ _ _ (insert_new_run _ _ _ _ Hnone)). }
  eexists _, w1. split_and!; [exact E|done|done|exact Hin|exact Hout|].
  intros Hall. split.
  - apply foldl_stays. intros m r Hm. rewrite bool_decide_eq_true_2; [done|]. apply Hk. eexists. by apply Hall.
  - apply map_eq. change (forall k : string, w_db w1 Tmetrics !! (k : key Tmetrics) = w_db w Tmetrics !! (k : key Tmetrics)). intros k.
    destruct (decide (k ∈ md_key <$> ca_metrics c)) as [Hk'|Hk']; [|by apply Hout].
    apply list_elem_of_fmap in Hk' as (m & -> & Hm). etrans; [by apply Hin|]. symmetry. by apply Hall.
Qed.

Lemma archive_run c t existing r0 w :
  NoDup existing.*1 -> (forall i (r : row Tplans), (i, r) ∈ existing -> p_key r ∉ plan_keys c -> w_db w Tplans !! i = Some r) ->
  exists r w1, for_fold existing (archive_plan c t) r0 w = (Ok r, w1) /\ aside w w1 /\
    (forall t', Tplans <> t' -> w_db w1 t' = w_db w t') /\
    (forall i (r : row Tplans), (i, r) ∈ existing -> p_key r ∉ plan_keys c -> w_db w1 Tplans !! i = Some (archived t r)) /\
    (forall i, (forall r : row Tplans, (i, r) ∈ existing -> p_key r ∈ plan_keys c) -> w_db w1 Tplans !! i = w_db w Tplans !! i) /\
    ((forall i (r : row Tplans), (i, r) ∈ existing -> p_key r ∉ plan_keys c -> p_archived_at r <> None) ->
      r = r0 /\ w_db w1 Tplans = w_db w Tplans).
Proof.
  intros Hn Hsame.
  set (due := fun kr : key Tplans * row Tplans => bool_decide (p_key kr.2 ∉ plan_keys c) && bool_decide (p_archived_at kr.2 = None)).
  destruct (write_each Tplans existing (archive_plan c t) fst
    (fun kr => if due kr then Some (Some ((kr.2 : plan) <| p_archived_at := Some t |> : row Tplans)) else None)
    (fun kr r => if due kr then r <| sr_plans_archived := (sr_plans_archived r + 1)%Z |> else r) r0 w Hn)
    as (w1 & E & Ha & Ht & Hin & Hout).
  { intros kr r w1 _ _. unfold archive_plan. fold (due kr). by destruct (due kr). }
  eexists _, w1. split_and!; [exact E|done|done| | |].
  - intros i r Hi Hk. etrans; [exact (Hin (i, r) Hi)|]. unfold due, archived. cbn [fst snd].
    rewrite (bool_decide_eq_true_2 (p_key r ∉ plan_keys c)) by done. cbn [andb].
    case_bool_decide; [done|]. by apply Hsame.
  - intros i Hi. destruct (decide (i ∈ existing.*1)) as [Hin'|Hin']; [|by apply Hout].
    apply list_elem_of_fmap in Hin' as ([i' r] & -> & Hir). etrans; [exact (Hin (i', r) Hir)|]. unfold due. cbn [fst snd].
    rewrite (bool_decide_eq_false_2 (p_key r ∉ plan_keys c)); [done|]. intros H. by apply H, (Hi r).
  - intros Hall. assert (Hdue : forall kr, kr ∈ existing -> due kr = false).
    { intros [i r] Hir. unfold due. cbn [snd]. case_bool_decide as Hk; [|done]. rewrite bool_decide_eq_false_2; [done|]. by apply (Hall i). }
    split.
    + apply foldl_stays. intros kr r Hkr. by rewrite Hdue.
    + apply map_eq. intros i. destruct (decide (i ∈ existing.*1)) as [Hin'|Hin']; [|by apply Hout].
      apply list_elem_of_fmap in Hin' as (kr & -> & Hkr). etrans; [exact (Hin kr Hkr)|]. by rewrite Hdue.
Qed.

Lemma imap_pair_snd {A} (l : list A) : (imap pair l).*2 = l.
Proof. apply list_eq. intros i. rewrite list_lookup_fmap, list_lookup_imap. by destruct (l !! i). Qed.

Lemma elem_of_imap_pair {A} (l : list A) o x : (o, x) ∈ imap pair l <-> l !! o = Some x.
Proof.
  rewrite elem_of_lookup_imap. split; [|intros H; by exists o, x].
  intros (i & y & [= -> ->] & H). done.
Qed.

(** The tables after a run, against the tables before. *)
Record catalog_projected (c : plan_catalog) (t : instant) (d d' : db) : Prop := Projected {
  projected_plans o p : ca_plans c !! o = Some p -> exists i : key Tplans, plan_synced c o p i d' /\
    forall i0 (r : row Tplans), d Tplans !! i0 = Some r -> p_key r = pd_key p -> i0 = i;
  projected_others (i : key Tplans) (r : row Tplans) : d Tplans !! i = Some r -> p_key r ∉ plan_keys c ->
    d' Tplans !! i = Some (archived t r) /\
    (forall k, d' Tplan_features !! ((i, k) : key Tplan_features) = d Tplan_features !! ((i, k) : key Tplan_features)) /\
    (forall k, d' Tplan_limits !! ((i, k) : key Tplan_limits) = d Tplan_limits !! ((i, k) : key Tplan_limits));
  projected_metrics m : m ∈ ca_metrics c -> d' Tmetrics !! (md_key m : key Tmetrics) = Some (metric_row m);
  projected_features f : f ∈ ca_features c -> d' Tfeatures !! (fd_key f : key Tfeatures) =
    Some (default (Feature (fd_name f) (fd_category f)) (d Tfeatures !! (fd_key f : key Tfeatures)));
  projected_unlisted (k : string) :
    (k ∉ feature_keys c -> d' Tfeatures !! (k : key Tfeatures) = d Tfeatures !! (k : key Tfeatures)) /\
    (k ∉ metric_keys c -> d' Tmetrics !! (k : key Tmetrics) = d Tmetrics !! (k : key Tmetrics));
  projected_rest tb : is_catalog tb = false -> d' tb = d tb
}.

(** The tables say what the file says, and nothing else is offered. *)
Record up_to_date (c : plan_catalog) (d : db) : Prop := UpToDate {
  current_plans o p : ca_plans c !! o = Some p -> exists i, plan_synced c o p i d;
  current_archived (i : key Tplans) (r : row Tplans) : d Tplans !! i = Some r -> p_key r ∉ plan_keys c -> p_archived_at r <> None;
  current_metrics m : m ∈ ca_metrics c -> d Tmetrics !! (md_key m : key Tmetrics) = Some (metric_row m);
  current_features f : f ∈ ca_features c -> is_Some (d Tfeatures !! (fd_key f : key Tfeatures))
}.

Lemma projection_run c w : syncable c w ->
  exists r w', sync_plans c w = (Ok r, w') /\ same_env w w' /\ catalog_projected c (w_clock w) (w_db w) (w_db w') /\
    (forall i r, w_db w' Tplans !! i = Some r -> p_key r ∈ plan_keys c \/ exists r0, w_db w Tplans !! i = Some r0 /\ r = archived (w_clock w) r0) /\
    (forall i : key Tplans, (w_fresh w' <= i)%N -> w_db w' Tplans !! i = None) /\ constraints_ok (w_db w') /\
    (up_to_date c (w_db w) -> r = no_changes /\ forall t, w_db w' t = w_db w t).
Proof.
  intros [Hok Hlists Hc Hfr]. pose proof Hok as (_ & _ & Hnp & _).
  destruct (registry_run c w Hok) as (r1 & w1 & E1 & A1 & T1 & F1 & G1 & N1).
  assert (C1 : constraints_ok (w_db w1)) by (by apply (constraints_frame Tfeatures (w_db w))).
  destruct (metrics_run c r1 w1 Hok) as (r2 & w2 & E2 & A2 & T2 & M2 & O2 & N2).
  assert (C2 : constraints_ok (w_db w2)) by (by apply (constraints_frame Tmetrics (w_db w1))).
  assert (EP : w_db w2 Tplans = w_db w Tplans) by (by rewrite T2, T1).
  set (existing := rows_where Tplans (fun _ _ => true) (w_db w2 Tplans)).
  assert (Hex : forall i (r : row Tplans), (i, r) ∈ existing <-> w_db w2 Tplans !! i = Some r).
  { intros i r. unfold existing. rewrite elem_of_rows_where. tauto. }
  destruct (plans_run c existing (imap pair (ca_plans c)) r2 w2 C2) as (r3 & w3 & E3 & C3 & V3 & S3 & O3 & T3 & W3 & G3 & N3).
  { rewrite imap_pair_snd. exact Hnp. }
  { intros o p Hop. apply elem_of_imap_pair in Hop. apply Hlists. by eapply list_elem_of_lookup_2. }
  { intros i r Hir. apply Hex in Hir. by exists r. }
  { intros i Hi. rewrite EP. apply Hfr. destruct A1 as [_ <-], A2 as [_ <-]. done. }
  { intros i r Hi _. exists r. split; [by apply Hex|done]. }
  rewrite imap_pair_snd in O3, G3. fold (plan_keys c) in O3, G3.
  destruct (archive_run c (w_clock w) existing r3 w3) as (r4 & w4 & E4 & A4 & T4 & I4 & K4 & N4).
  { apply NoDup_fst_rows_where. }
  { intros i r Hir Hk. apply Hex in Hir. destruct (O3 i r Hir Hk) as [H _]. etrans; [exact H|done]. }
  assert (Hcat : forall o p (i : key Tplans), ca_plans c !! o = Some p -> plan_synced c o p i (w_db w3) ->
    forall r : row Tplans, (i, r) ∈ existing -> p_key r ∈ plan_keys c).
  { intros o p i Hop Hs r Hir. destruct (decide (p_key r ∈ plan_keys c)) as [|Hk]; [done|]. exfalso. apply Hk.
    apply Hex in Hir. destruct (O3 i r Hir Hk) as [H _].
    assert (Some r = Some (plan_row c o p)) as [= ->] by (etrans; [symmetry; exact Hir|]; etrans; [symmetry; exact H|apply Hs]).
    change (pd_key p ∈ plan_keys c). apply list_elem_of_fmap_2. by eapply list_elem_of_lookup_2. }
  assert (Hsrc : forall i (r : row Tplans), w_db w4 Tplans !! i = Some r ->
    exists r0 : row Tplans, w_db w3 Tplans !! i = Some r0 /\ p_key r = p_key r0).
  { intros i r Hi. destruct (w_db w2 Tplans !! i) as [r0|] eqn:E0.
    - destruct (decide (p_key r0 ∈ plan_keys c)) as [Hk|Hk].
      + exists r. rewrite K4 in Hi; [done|]. intros r' Hir. apply Hex in Hir. rewrite E0 in Hir. by injection Hir as <-.
      + destruct (O3 i r0 E0 Hk) as [H _]. exists r0. split; [by etrans; [exact H|]|].
        assert (Some r = Some (archived (w_clock w) r0)) as [= ->]; [|by unfold archived; case_bool_decide].
        etrans; [symmetry; exact Hi|]. apply I4; [by apply Hex|done].
    - exists r. rewrite K4 in Hi; [done|]. intros r' Hir. apply Hex in Hir. by rewrite E0 in Hir. }
  exists r4, w4. split_and!.
  - unfold sync_plans. run. rewrite (run_ok _ _ _ _ _ E1), (run_ok _ _ _ _ _ (flush_run w1 C1)). run.
    rewrite (run_ok _ _ _ _ _ E2), (run_ok _ _ _ _ _ (flush_run w2 C2)). run. rewrite (run_ok _ _ _ _ _ E3). exact E4.
  - etrans; [apply A1|]. etrans; [apply A2|]. etrans; [exact V3|apply A4].
  - split.
    + intros o p Hop. destruct (S3 o p) as (i & Hs & Hu); [by apply elem_of_imap_pair|]. exists i. split.
      * apply (plan_synced_same _ _ _ _ (w_db w3)); [|done]. split_and!; [|intros k; by rewrite T4..].
        apply K4. by apply (Hcat o p).
      * intros i0 r Hi. apply (Hu i0 r). by rewrite EP.
    + intros i r Hi Hk. rewrite <- EP in Hi. destruct (O3 i r Hi Hk) as (H1 & H2 & H3). split_and!.
      * apply I4; [by apply Hex|done].
      * intros k. rewrite T4 by done. rewrite H2. by rewrite T2, T1.
      * intros k. rewrite T4 by done. rewrite H3. by rewrite T2, T1.
    + intros m Hm. rewrite T4, T3 by (done || (rewrite !not_elem_of_cons; split_and!; [done..|apply not_elem_of_nil])). by apply M2.
    + intros f Hf. rewrite T4, T3, T2 by (done || (rewrite !not_elem_of_cons; split_and!; [done..|apply not_elem_of_nil])). by apply F1.
    + intros k. rewrite !T4, !T3 by (done || (rewrite !not_elem_of_cons; split_and!; [done..|apply not_elem_of_nil])). split; intros Hk.
      * rewrite T2 by done. by apply G1.
      * rewrite O2 by done. by rewrite T1.
    + intros tb Htb. unfold is_catalog in Htb. apply bool_decide_eq_false in Htb. rewrite !not_elem_of_cons in Htb.
      destruct Htb as (N_1 & N_2 & N_3 & N_4 & N_5 & _).
      rewrite T4, T3, T2, T1 by (congruence || (rewrite !not_elem_of_cons; split_and!; [done..|apply not_elem_of_nil])). done.
  - intros i r Hi. destruct (w_db w2 Tplans !! i) as [r0|] eqn:E0.
    + destruct (decide (p_key r0 ∈ plan_keys c)) as [Hk|Hk].
      * left. rewrite K4 in Hi; [|intros r' Hir; apply Hex in Hir; rewrite E0 in Hir; by injection Hir as <-].
        destruct (G3 i r Hi) as [|H]; [done|]. rewrite E0 in H. by injection H as <-.
      * right. exists r0. rewrite <- EP. split; [done|].
        assert (Some r = Some (archived (w_clock w) r0)) as [= ->]; [|done].
        etrans; [symmetry; exact Hi|]. apply I4; [by apply Hex|done].
    + left. rewrite K4 in Hi; [|intros r' Hir; apply Hex in Hir; by rewrite E0 in Hir].
      destruct (G3 i r Hi) as [|H]; [done|]. by rewrite E0 in H.
  - intros i Hi. destruct A4 as [_ Hf4]. rewrite Hf4 in Hi. etrans; [apply K4|by apply W3]. intros r Hir.
    destruct (decide (p_key r ∈ plan_keys c)) as [|Hk]; [done|]. apply Hex in Hir. destruct (O3 i r Hir Hk) as [H _].
    assert (Some r = None); [|done]. etrans; [symmetry; exact Hir|]. etrans; [symmetry; exact H|by apply W3].
  - apply (constraints_frame Tplans (w_db w3)); [done| |done]. intros i r Hi j r' Hj Hsome Hkey.
    destruct (Hsrc i r Hi) as (x & Hx & Kx), (Hsrc j r' Hj) as (y & Hy & Ky).
    apply (unique_on_lookup Tplans _ _ i j x y (p_key x) (proj1 (constraints_ok_table _) C3 Tplans) Hx Hy); congruence.
  - intros [U1 U2 U3 U4]. destruct (N1 U4) as [-> D1].
    assert (S1 : forall t, w_db w1 t = w_db w t) by (intros t; destruct (decide (Tfeatures = t)) as [<-|]; [done|by apply T1]).
    destruct N2 as [-> D2]; [intros m Hm; rewrite S1; by apply U3|].
    assert (S2 : forall t, w_db w2 t = w_db w t).
    { intros t. rewrite <- S1. destruct (decide (Tmetrics = t)) as [<-|]; [done|by apply T2]. }
    destruct N3 as [-> D3].
    { intros o p Hop. apply elem_of_imap_pair in Hop. destruct (U1 o p Hop) as [i Hi]. exists i.
      apply (plan_synced_same _ _ _ _ (w_db w)); [|done]. split_and!; by rewrite S2. }
    destruct N4 as [-> D4]. { intros i r Hir Hk. apply (U2 i); [|done]. rewrite <- EP. by apply Hex. }
    split; [done|]. intros t. rewrite <- S2, <- D3. destruct (decide (Tplans = t)) as [<-|]; [done|by apply T4].
Qed.

Lemma projected_up_to_date c t d d' : catalog_projected c t d d' ->
  (forall i r, d' Tplans !! i = Some r -> p_key r ∈ plan_keys c \/ exists r0, d Tplans !! i = Some r0 /\ r = archived t r0) ->
  up_to_date c d'.
Proof.
  intros [P1 P2 P3 P4 P5 P6] Hnew. split; [|intros i r Hi Hk|done|intros f Hf; eexists; by apply P4].
  - intros o p Hop. destruct (P1 o p Hop) as (i & Hs & _). by exists i.
  - destruct (Hnew i r Hi) as [|(r0 & _ & ->)]; [done|]. unfold archived. by case_bool_decide.
Qed.

(** Loading accepts exactly the documents whose fields are in range, whose keys
    are distinct, whose plans use declared features and metrics and price overage
    of metrics they limit, and whose public plans have a price; every other
    document is refused as an invalid catalog. *)
Theorem load_decides problem_text path file :
  match load_catalog problem_text path file with
  | Ok c => file = Some (Some c) /\ fields_valid c = true /\ catalog_ok c
  | Err e => (exists extras, e = Domain CatalogInvalidError extras) /\
      forall c, file = Some (Some c) -> fields_valid c = true -> ~ catalog_ok c
  end.
Proof.
  unfold load_catalog. destruct file as [[c|]|]; [|split; [by eexists|done]..].
  destruct (fields_valid c) eqn:Ef; [|split; [by eexists|intros c' [= <-]; congruence]].
  unfold _cross_validate. destruct (problems c) eqn:Ep.
  - split_and!; [done|done|by apply problems_nil].
  - split; [by eexists|]. intros c' [= <-] _ H. apply problems_nil in H. congruence.
Qed.

(** C26: a synchronization brings the tables to what the file says.  Every plan of the
    file is one row with the file's fields, the one that already had its key if there
    was one, with a feature row for exactly the features it lists and a limit row for
    exactly its limits; plans the file no longer lists are
    archived and keep their features and limits.  Every metric of the file has the
    file's fields, while a feature that has a row already keeps its name and category,
    only missing ones being inserted; features and metrics the file does not list
    stay; and no table outside the catalog
    changes: subscriptions and their frozen terms stay.  The file is valid and no plan
    of it lists a feature twice ([duplicate_feature_fails] is what happens otherwise). *)
Theorem sync_projects_catalog c w : syncable c w ->
  exists r w', sync_plans c w = (Ok r, w') /\ catalog_projected c (w_clock w) (w_db w) (w_db w').
Proof. intros H. destruct (projection_run c w H) as (r & w' & E & _ & P & _). by exists r, w'. Qed.

(** Synchronizing again with the same file finds nothing to do: it counts no
    change and every table stays as it is. *)
Theorem sync_idempotent c w r w' : syncable c w -> sync_plans c w = (Ok r, w') ->
  exists w'', sync_plans c w' = (Ok no_changes, w'') /\ forall t, w_db w'' t = w_db w' t.
Proof.
  intros H E. destruct (projection_run c w H) as (r1 & w1 & E1 & _ & P & Hn & Hfr & Hc1 & _). rewrite E in E1. injection E1 as -> ->.
  destruct H as [Hok Hl _ _].
  destruct (projection_run c w1 (Syncable _ _ Hok Hl Hc1 Hfr)) as (r2 & w2 & E2 & _ & _ & _ & _ & _ & Hidem).
  destruct Hidem as [-> Hsame]; [by apply (projected_up_to_date c (w_clock w) (w_db w))|]. by exists w2.
Qed.

(** ** A price list that drops one plan and adds another *)

Definition price_list : plan_catalog :=
  PlanCatalog 1 (CatalogDefaults "PHP" "month" 0 (Some 80%Z))
    [FeatureDefinition "reports" "Reports" None; FeatureDefinition "sso" "Single sign-on" (Some "security")]
    [MetricDefinition "api_calls" "API calls" "counter" (Some "call") None (Some (OverageDefinition 100 500))]
    [PlanDefinition "free" "Free" None (Some 0%Z) None None None true false None 0 [] [("api_calls", Some 100%Z)] [];
     PlanDefinition "team" "Team" None (Some 250000%Z) None None (Some "year") true false (Some 14%Z) 0
       ["reports"; "sso"] [("api_calls", None)] []].

Lemma price_list_syncable : syncable price_list demo.
Proof.
  split.
  - apply problems_nil. vm_compute. reflexivity.
  - intros p Hp. assert (H : forallb (fun p => bool_decide (NoDup (pd_features p)) && bool_decide (NoDup (pd_limits p).*1)) (ca_plans price_list) = true)
      by (vm_compute; reflexivity).
    rewrite forallb_forall in H. specialize (H p (proj1 (list_elem_of_In _ _) Hp)). apply andb_true_iff in H as [H1 H2].
    by apply bool_decide_eq_true in H1, H2.
  - by_compute.
  - intros i Hi. change (w_fresh demo) with 100%N in Hi.
    change (w_db demo Tplans) with (rows_of Tplans [(10%N, free_plan); (11%N, pro_plan)]).
    apply not_elem_of_list_to_map_1. simpl. rewrite !not_elem_of_cons. split_and!; [lia..|apply not_elem_of_nil].
Qed.

Lemma sync_projects_catalog_witness :
  exists w', sync_plans price_list demo = (Ok (SyncResult 2 0 1 0 1), w') /\
    w_db w' Tplans !! (11%N : key Tplans) = Some (archived NOW pro_plan) /\ w_db w' Tsubscriptions = w_db demo Tsubscriptions.
Proof.
  destruct (sync_projects_catalog price_list demo price_list_syncable) as (r & w' & E & [_ H2 _ _ _ H5]). exists w'.
  assert (Er : (sync_plans price_list demo).1 = Ok (SyncResult 2 0 1 0 1)) by (vm_compute; reflexivity).
  rewrite E in Er. injection Er as ->. split_and!; [done| |by apply H5].
  apply (H2 11%N pro_plan); [vm_compute; reflexivity|]. apply (bool_decide_unpack _). vm_compute. exact I.
Defined.

Lemma sync_idempotent_witness :
  exists w'', sync_plans price_list (sync_plans price_list demo).2 = (Ok no_changes, w'').
Proof.
  destruct (sync_idempotent price_list demo (SyncResult 2 0 1 0 1) (sync_plans price_list demo).2 price_list_syncable) as (w'' & E & _).
  - apply ran. vm_compute. reflexivity.
  - by exists w''.
Defined.

(** ** What the file cannot do *)

(** A plan that lists a feature twice is a valid catalog, and its synchronization fails. *)
Definition doubled_list : plan_catalog :=
  PlanCatalog 1 (CatalogDefaults "PHP" "month" 0 None) [FeatureDefinition "reports" "Reports" None] []
    [PlanDefinition "free" "Free" None (Some 0%Z) None None None true false None 0 ["reports"; "reports"] [] []].

Lemma duplicate_feature_fails :
  fields_valid doubled_list = true /\ problems doubled_list = [] /\
  (sync_plans doubled_list demo).1 = Err (PyError "IntegrityError").
Proof. split_and!; vm_compute; reflexivity. Qed.

(** A feature renamed in the file keeps the name it was inserted with. *)
Definition renamed_list : plan_catalog :=
  PlanCatalog 1 (CatalogDefaults "PHP" "month" 0 None) [FeatureDefinition "sso" "Corporate sign-on" None] [] [].

Lemma renamed_feature_kept :
  w_db (sync_plans renamed_list (sync_plans price_list demo).2).2 Tfeatures !! "sso" =
    Some (Feature "Single sign-on" (Some "security")).
Proof. vm_compute. reflexivity. Qed.
