(* ===== verification/Repository.v ===== *)
(** The tenant-scoped repository (core/repository.py) and the pages of a listing
    (core/pagination.py): the boundary every tenant-owned query goes through. *)

From S2P Require Import Prelude Json Errors Events Tables Store Session Fixtures.

(** A model that inherits [TenantMixin]: a table of rows under a UUID that name
    the organization they belong to, and the columns a filter can mention. *)
Class TenantModel (t : table) := {
  tm_id : key t -> uuid;
  tm_org : row t -> uuid;
  tm_stamp : uuid -> row t -> row t;
  tm_column : string -> option (row t -> json);
  tm_id_inj :: Inj (=) (=) tm_id;
  tm_org_stamp o r : tm_org (tm_stamp o r) = o
}.

Section Repository.
Context (t : table) `{TenantModel t} (explicit_tenant : option uuid).

(** [self.tenant_id]. *)
Definition tenant_id : M uuid :=
  match explicit_tenant with
  | Some o => mret o
  | None =>
      ctx ← current_tenant;
      match ctx with
      | None => raise_domain TenantViolationError []
      | Some ctx =>
          if tx_is_platform ctx then raise_domain TenantViolationError []
          else mret (tx_organization_id ctx)
      end
  end.

(** The filter [_scoped] puts on a statement. *)
Definition in_org (o : uuid) (r : row t) : bool := bool_decide (tm_org r = o).

Definition _scoped (explicit_org : option uuid) : M (row t -> bool) :=
  match explicit_org with
  | Some o => mret (in_org o)
  | None =>
      ctx ← match explicit_tenant with None => current_tenant | Some _ => mret None end;
      if match ctx with Some ctx => tx_is_platform ctx | None => false end
      then mret (fun _ => true)
      else o ← tenant_id; mret (in_org o)
  end.

(** [_apply_filters]: a filter without a value is skipped, an unknown column is
    a [ValueError]. *)
Definition filters : Type := list (string * json).

Fixpoint _apply_filters (fs : filters) : M (row t -> bool) :=
  match fs with
  | [] => mret (fun _ => true)
  | (attr, value) :: fs =>
      if bool_decide (value = JNull) then _apply_filters fs
      else match tm_column attr with
           | None => raise (PyError "ValueError")
           | Some col => p ← _apply_filters fs; mret (fun r => bool_decide (col r = value) && p r)
           end
  end.

(** [filters.pop("organization_id", None)] is the caller's explicit scope. *)
Definition statement (organization_id : option uuid) (fs : filters) : M (row t -> bool) :=
  scope ← _scoped organization_id;
  p ← _apply_filters fs;
  mret (fun r => scope r && p r).

Definition by_id (rows : list (key t * row t)) : list (key t * row t) :=
  order_by (fun r => Z.of_N (tm_id r.1)) rows.

Definition repo_get (id : key t) : M (option (key t * row t)) :=
  scope ← _scoped None;
  rows ← select t (fun k r => bool_decide (k = id) && scope r);
  scalar_one_or_none rows.

Definition get_or_404 (id : key t) : M (key t * row t) :=
  obj ← repo_get id;
  match obj with Some x => mret x | None => raise_domain NotFoundError [] end.

Definition repo_list (limit offset : nat) (organization_id : option uuid) (fs : filters) :
    M (list (key t * row t)) :=
  p ← statement organization_id fs;
  rows ← select t (fun _ r => p r);
  mret (take limit (drop offset (by_id rows))).

Definition repo_count (organization_id : option uuid) (fs : filters) : M Z :=
  p ← statement organization_id fs;
  rows ← select t (fun _ r => p r);
  mret (Z.of_nat (length rows)).

Definition repo_exists (organization_id : option uuid) (fs : filters) : M bool :=
  n ← repo_count organization_id fs; mret (0 <? n)%Z.

(** [first]: one row of the scan, whose order ([scan]) the statement does not fix. *)
Definition repo_first (scan : list (key t * row t) -> list (key t * row t))
    (organization_id : option uuid) (fs : filters) : M (option (key t * row t)) :=
  p ← statement organization_id fs;
  rows ← select t (fun _ r => p r);
  mret (head (scan rows)).

(** [add]: the object may already name an organization ([incoming]). *)
Definition repo_add (incoming : option uuid) (id : key t) (obj : row t) : M (key t * row t) :=
  _ ← match incoming with
      | None => mret tt
      | Some i =>
          o ← tenant_id;
          if bool_decide (i <> o) then raise_domain TenantViolationError [] else mret tt
      end;
  o ← tenant_id;
  let obj := tm_stamp o obj in
  _ ← insert_new t id obj;
  mret (id, obj).

Fixpoint add_many (objs : list (option uuid * (key t * row t))) : M (list (key t * row t)) :=
  match objs with
  | [] => mret []
  | (incoming, (id, obj)) :: objs =>
      x ← repo_add incoming id obj;
      xs ← add_many objs;
      mret (x :: xs)
  end.

Definition repo_delete (id : key t) : M unit := del t id.

Definition repo_delete_where (organization_id : option uuid) (fs : filters) : M Z :=
  p ← statement organization_id fs;
  rows ← select t (fun _ r => p r);
  _ ← delete_where t (fun _ r => p r);
  mret (Z.of_nat (length rows)).
End Repository.

(** ** Pages (core/pagination.py) *)

Record page_params : Type := PageParams { pp_limit : nat; pp_offset : nat }.
Definition MAX_PAGE_LIMIT : nat := 100.
Definition DEFAULT_PAGE_LIMIT : nat := 50.

(** What [PageParams] accepts. *)
Definition params_valid (p : page_params) : bool :=
  Nat.leb 1 (pp_limit p) && Nat.leb (pp_limit p) MAX_PAGE_LIMIT.

(** The body and the [X-Total-Count] header. *)
Definition paginate {A} (rows : list A) (p : page_params) : list A * Z :=
  (take (pp_limit p) (drop (pp_offset p) rows), Z.of_nat (length rows)).

Definition paginate_in_memory {A} (items : list A) (p : page_params) : list A * Z :=
  (take (pp_limit p) (drop (pp_offset p) items), Z.of_nat (length items)).

(** ** The tenant boundary *)

(** The scope acts as organization [o] alone. *)
Definition acts_as (explicit_tenant : option uuid) (o : uuid) (w : world) : Prop :=
  match explicit_tenant with
  | Some o' => o' = o
  | None => exists ctx, w_tenant w = Some ctx /\ tx_is_platform ctx = false /\ tx_organization_id ctx = o
  end.

Lemma by_id_sorted t `{TenantModel t} (l : list (key t * row t)) :
  NoDup l.*1 -> Sorted (fun x y => (tm_id x.1 < tm_id y.1)%N) (by_id t l).
Proof.
  intros Hnd. unfold by_id, order_by. set (k := fun r : key t * row t => Z.of_N (tm_id r.1)).
  assert (Hs : Sorted (key_le k) (merge_sort (key_le k) l)).
  { apply Sorted_merge_sort. intros x y. unfold key_le. lia. }
  assert (Hn : NoDup (merge_sort (key_le k) l).*1) by (by rewrite merge_sort_Permutation).
  revert Hs Hn. generalize (merge_sort (key_le k) l) as l'. clear Hnd.
  induction 1 as [|x l' Hs IH Hx]; [done|]. csimpl. intros [Hni Hn]%NoDup_cons. constructor; [auto|].
  destruct Hx as [|y l' Hxy]; constructor. unfold key_le, k in Hxy.
  assert (tm_id x.1 <> tm_id y.1); [|lia]. intros E%(inj tm_id). apply Hni. rewrite E. left.
Qed.

Section Rows.
Context (t : table) `{TenantModel t}.

(** Two worlds hold the same rows of [o], whatever the others own. *)
Definition same_rows_of (o : uuid) (w w' : world) : Prop :=
  forall k r, tm_org r = o -> w_db w t !! k = Some r <-> w_db w' t !! k = Some r.

Lemma same_rows_select o p w w' :
  same_rows_of o w w' -> (forall k r, p k r = true -> tm_org r = o) ->
  rows_where t p (w_db w t) ≡ₚ rows_where t p (w_db w' t).
Proof.
  intros Hs Hp. apply NoDup_Permutation; [apply NoDup_rows_where..|]. intros [k r].
  rewrite !elem_of_rows_where. split; intros [Hk Hr]; (split; [|done]); apply (Hs k r (Hp k r Hr)); done.
Qed.

Lemma by_id_perm (l1 l2 : list (key t * row t)) : NoDup l1.*1 -> l1 ≡ₚ l2 -> by_id t l1 = by_id t l2.
Proof.
  intros Hnd Hp. unfold by_id, order_by. set (k := fun r : key t * row t => Z.of_N (tm_id r.1)).
  assert (Hs : forall l, Sorted (key_le k) (merge_sort (key_le k) l)).
  { intros l. apply Sorted_merge_sort. intros x y. unfold key_le. lia. }
  eapply (StronglySorted_unique_strong (key_le k)).
  - intros x y Hx Hy Hxy Hyx. rewrite merge_sort_Permutation in Hx, Hy. rewrite <- Hp in Hy.
    assert (E : x.1 = y.1) by (apply tm_id_inj; unfold key_le, k in *; lia).
    destruct x as [kx rx], y as [ky ry]. simpl in E. subst ky.
    apply list_elem_of_lookup in Hx as [i Hi], Hy as [j Hj].
    assert (i = j) as <-; [|congruence].
    eapply NoDup_lookup; [exact Hnd| |]; rewrite list_lookup_fmap; [by rewrite Hi|by rewrite Hj].
  - apply Sorted_StronglySorted; [intros x y z; unfold key_le; lia|apply Hs].
  - apply Sorted_StronglySorted; [intros x y z; unfold key_le; lia|apply Hs].
  - by rewrite !merge_sort_Permutation.
Qed.

End Rows.

Section Boundary.
Context (t : table) `{TenantModel t} (explicit_tenant : option uuid) (o : uuid).

(** The rows of the other organizations are untouched. *)
Definition others_kept (w w' : world) : Prop :=
  forall k r, tm_org r <> o -> w_db w t !! k = Some r <-> w_db w' t !! k = Some r.

Lemma tenant_id_run w : acts_as explicit_tenant o w -> tenant_id explicit_tenant w = (Ok o, w).
Proof.
  unfold acts_as, tenant_id. destruct explicit_tenant as [o'|]; [by intros ->|].
  intros (ctx & E & Hp & <-). unfold mbind, M_bind, current_tenant. simpl. by rewrite E, Hp.
Qed.

Lemma scoped_run w :
  acts_as explicit_tenant o w -> _scoped t explicit_tenant None w = (Ok (in_org t o), w).
Proof.
  intros Ha. pose proof (tenant_id_run w Ha) as Ht. unfold _scoped.
  destruct explicit_tenant as [o'|]; [by unfold acts_as in Ha; subst|].
  destruct Ha as (ctx & E & Hp & Ho). unfold mbind at 1, M_bind at 1. unfold current_tenant at 1.
  rewrite E, Hp. by rewrite (run_ok _ _ _ _ _ Ht).
Qed.

Lemma filters_run fs : exists r, forall w, _apply_filters t fs w = (r, w).
Proof.
  induction fs as [|[attr v] fs [r IH]]; [by eexists|]. simpl. case_bool_decide; [by exists r|].
  destruct (tm_column attr) as [col|]; [|by eexists].
  destruct r as [p|e]; eexists; intros w; [by rewrite (run_ok _ _ _ _ _ (IH w))|by rewrite (run_err _ _ _ _ _ (IH w))].
Qed.

(** The organization a query is about: the one named explicitly, or the tenant. *)
Definition queried (org : option uuid) : uuid := default o org.

Lemma scoped_org_run org w :
  acts_as explicit_tenant o w -> _scoped t explicit_tenant org w = (Ok (in_org t (queried org)), w).
Proof. destruct org; [done|]. apply scoped_run. Qed.

Lemma statement_run org fs :
  (exists p, (forall r, p r = true -> tm_org r = queried org) /\
     forall w, acts_as explicit_tenant o w -> statement t explicit_tenant org fs w = (Ok p, w)) \/
  (exists e, forall w, acts_as explicit_tenant o w -> statement t explicit_tenant org fs w = (Err e, w)).
Proof.
  destruct (filters_run fs) as [[p|e] Hf].
  - left. exists (fun r => in_org t (queried org) r && p r). split.
    + intros r [Ho _]%andb_prop. by apply bool_decide_eq_true in Ho.
    + intros w Ha. unfold statement. rewrite (run_ok _ _ _ _ _ (scoped_org_run org w Ha)).
      by rewrite (run_ok _ _ _ _ _ (Hf w)).
  - right. exists e. intros w Ha. unfold statement. rewrite (run_ok _ _ _ _ _ (scoped_org_run org w Ha)).
    by rewrite (run_err _ _ _ _ _ (Hf w)).
Qed.

(** Two databases that hold the same rows of the tenant find the same object by its identifier. *)
Lemma gets_agree w w' id :
  acts_as explicit_tenant o w -> acts_as explicit_tenant o w' -> same_rows_of t o w w' ->
  (repo_get t explicit_tenant id w).1 = (repo_get t explicit_tenant id w').1 /\
  (get_or_404 t explicit_tenant id w).1 = (get_or_404 t explicit_tenant id w').1.
Proof.
  intros Ha Ha' Hs.
  assert (Hget : (repo_get t explicit_tenant id w).1 = (repo_get t explicit_tenant id w').1).
  { unfold repo_get. rewrite (run_ok _ _ _ _ _ (scoped_run w Ha)), (run_ok _ _ _ _ _ (scoped_run w' Ha')). run.
    assert (Hp : rows_where t (fun k r => bool_decide (k = id) && in_org t o r) (w_db w t) ≡ₚ
                 rows_where t (fun k r => bool_decide (k = id) && in_org t o r) (w_db w' t)).
    { apply (same_rows_select t o); [done|]. intros k r [_ E]%andb_prop. by apply bool_decide_eq_true in E. }
    rewrite (scalar_perm _ _ _ Hp). by destruct (rows_where _ _ (w_db w' t)) as [|? [|??]]. }
  split; [done|]. apply result_bind; [done|]. by intros [x|].
Qed.

(** The rows two such databases find are the same, in whatever order. *)
Lemma scans_agree org p w w' :
  same_rows_of t (queried org) w w' -> (forall r, p r = true -> tm_org r = queried org) ->
  rows_where t (fun _ r => p r) (w_db w t) ≡ₚ rows_where t (fun _ r => p r) (w_db w' t).
Proof. intros Hs Hp. apply (same_rows_select t (queried org)); [done|]. intros _ r. apply Hp. Qed.

(** A row of the queried organization that both databases hold. *)
Definition common (org : option uuid) (w w' : world) (c : key t * row t) : Prop :=
  tm_org c.2 = queried org /\ w_db w t !! c.1 = Some c.2 /\ w_db w' t !! c.1 = Some c.2.

(** What [first] may answer of two databases: the same error, nothing in both, or a row
    of the queried organization that both hold. *)
Definition same_first (org : option uuid) (w w' : world) (x y : result (option (key t * row t))) : Prop :=
  match x, y with
  | Err e, Err e' => e = e'
  | Ok None, Ok None => True
  | Ok (Some a), Ok (Some b) => common org w w' a /\ common org w w' b
  | _, _ => False
  end.

Lemma firsts_agree scan scan' org fs w w' :
  (forall l, scan l ≡ₚ l) -> (forall l, scan' l ≡ₚ l) ->
  acts_as explicit_tenant o w -> acts_as explicit_tenant o w' -> same_rows_of t (queried org) w w' ->
  same_first org w w' (repo_first t explicit_tenant scan org fs w).1 (repo_first t explicit_tenant scan' org fs w').1.
Proof.
  intros Hsc Hsc' Ha Ha' Hs. unfold repo_first. destruct (statement_run org fs) as [(p & Hp & Hr)|(e & Hr)].
  2:{ by rewrite (run_err _ _ _ _ _ (Hr w Ha)), (run_err _ _ _ _ _ (Hr w' Ha')). }
  rewrite (run_ok _ _ _ _ _ (Hr w Ha)), (run_ok _ _ _ _ _ (Hr w' Ha')). run. simpl.
  pose proof (scans_agree org p w w' Hs Hp) as Hperm.
  pose proof (Hsc (rows_where t (fun _ r => p r) (w_db w t))) as H1.
  pose proof (Hsc' (rows_where t (fun _ r => p r) (w_db w' t))) as H2.
  assert (Hin : forall c, c ∈ rows_where t (fun _ r => p r) (w_db w t) ->
            common org w w' c).
  { unfold common. intros [k r] [Hk Hpr]%elem_of_rows_where. simpl in *. split_and!; [auto|done|]. by apply (Hs k r (Hp r Hpr)). }
  destruct (scan _) as [|a la]; destruct (scan' _) as [|b lb]; simpl.
  - done.
  - rewrite <- Hperm, <- H1 in H2. by apply Permutation_nil_r in H2.
  - rewrite <- H2 in Hperm. rewrite Hperm in H1. by apply Permutation_nil_r in H1.
  - split; apply Hin; [rewrite <- H1; left|rewrite Hperm, <- H2; left].
Qed.

(** Two databases that hold the same rows of the queried organization answer alike. *)
Lemma queries_agree w w' limit offset org fs :
  acts_as explicit_tenant o w -> acts_as explicit_tenant o w' -> same_rows_of t (queried org) w w' ->
  (repo_list t explicit_tenant limit offset org fs w).1 = (repo_list t explicit_tenant limit offset org fs w').1 /\
  (repo_count t explicit_tenant org fs w).1 = (repo_count t explicit_tenant org fs w').1 /\
  (repo_exists t explicit_tenant org fs w).1 = (repo_exists t explicit_tenant org fs w').1.
Proof.
  intros Ha Ha' Hs.
  assert (Hcount : (repo_count t explicit_tenant org fs w).1 = (repo_count t explicit_tenant org fs w').1).
  { unfold repo_count. destruct (statement_run org fs) as [(p & Hp & Hr)|(e & Hr)].
    - rewrite (run_ok _ _ _ _ _ (Hr w Ha)), (run_ok _ _ _ _ _ (Hr w' Ha')). run. simpl. do 2 f_equal.
      by apply Permutation_length, (scans_agree org).
    - by rewrite (run_err _ _ _ _ _ (Hr w Ha)), (run_err _ _ _ _ _ (Hr w' Ha')). }
  split_and!; [|done|].
  - unfold repo_list. destruct (statement_run org fs) as [(p & Hp & Hr)|(e & Hr)].
    + rewrite (run_ok _ _ _ _ _ (Hr w Ha)), (run_ok _ _ _ _ _ (Hr w' Ha')). run. simpl. do 3 f_equal.
      apply by_id_perm; [apply NoDup_fst_rows_where|]. by apply (scans_agree org).
    + by rewrite (run_err _ _ _ _ _ (Hr w Ha)), (run_err _ _ _ _ _ (Hr w' Ha')).
  - by apply result_bind.
Qed.

(** C4: what a tenant's queries answer depends on one organization's rows only.
    Two databases that hold the same rows of the tenant, whatever the other tenants
    own, answer [get] and [get_or_404] alike.  Two that hold the same rows of the
    organization a query is about (the tenant, or the one the caller names
    explicitly) answer [list], [count] and [exists] alike, and [first], whatever
    order either database scans in, gives the same error, nothing in both, or a row
    of that organization both hold. *)
Theorem tenant_noninterference w w' id limit offset org fs scan scan' :
  acts_as explicit_tenant o w -> acts_as explicit_tenant o w' ->
  (forall l, scan l ≡ₚ l) -> (forall l, scan' l ≡ₚ l) ->
  (same_rows_of t o w w' ->
   (repo_get t explicit_tenant id w).1 = (repo_get t explicit_tenant id w').1 /\
   (get_or_404 t explicit_tenant id w).1 = (get_or_404 t explicit_tenant id w').1) /\
  (same_rows_of t (queried org) w w' ->
   (repo_list t explicit_tenant limit offset org fs w).1 = (repo_list t explicit_tenant limit offset org fs w').1 /\
   (repo_count t explicit_tenant org fs w).1 = (repo_count t explicit_tenant org fs w').1 /\
   (repo_exists t explicit_tenant org fs w).1 = (repo_exists t explicit_tenant org fs w').1 /\
   same_first org w w' (repo_first t explicit_tenant scan org fs w).1 (repo_first t explicit_tenant scan' org fs w').1).
Proof.
  intros Ha Ha' H1 H2. split; intros Hs; [by apply gets_agree|].
  destruct (queries_agree w w' limit offset org fs Ha Ha' Hs) as (E1 & E2 & E3). split_and!; [done..|].
  by apply firsts_agree.
Qed.

(** *** Writes *)

Lemma add_run incoming id obj w :
  acts_as explicit_tenant o w ->
  repo_add t explicit_tenant incoming id obj w =
    if match incoming with Some i => bool_decide (i <> o) | None => false end
    then (Err (Domain TenantViolationError []), w)
    else match w_db w t !! id with
         | Some _ => (Err (PyError "IntegrityError"), w)
         | None => (Ok (id, tm_stamp o obj), put_w t id (tm_stamp o obj) w)
         end.
Proof.
  intros Ha. pose proof (tenant_id_run w Ha) as Ht. unfold repo_add.
  assert (Hrest : (o ← tenant_id explicit_tenant; let obj := tm_stamp o obj in
      _ ← insert_new t id obj; mret (id, obj)) w =
    match w_db w t !! id with
    | Some _ => (Err (PyError "IntegrityError"), w)
    | None => (Ok (id, tm_stamp o obj), put_w t id (tm_stamp o obj) w)
    end).
  { rewrite (run_ok _ _ _ _ _ Ht). unfold insert_new. run. by destruct (w_db w t !! id). }
  destruct incoming as [i|]; [|exact Hrest].
  rewrite run_assoc, (run_ok _ _ _ _ _ Ht). case_bool_decide; [done|exact Hrest].
Qed.

Lemma others_kept_refl w : others_kept w w.
Proof. done. Qed.
Lemma others_kept_trans w1 w2 w3 : others_kept w1 w2 -> others_kept w2 w3 -> others_kept w1 w3.
Proof. intros H1 H2 k r Hr. by rewrite (H1 k r Hr), (H2 k r Hr). Qed.

Lemma others_kept_put w id r :
  w_db w t !! id = None -> tm_org r = o -> others_kept w (put_w t id r w).
Proof.
  intros Hn Ho k r' Hr'. rewrite put_w_eq. destruct (decide (id = k)) as [->|Hne].
  - rewrite Hn, put_same. split; congruence.
  - by rewrite lookup_insert_ne.
Qed.

Lemma add_kept incoming id obj w :
  acts_as explicit_tenant o w ->
  others_kept w (repo_add t explicit_tenant incoming id obj w).2 /\
  acts_as explicit_tenant o (repo_add t explicit_tenant incoming id obj w).2.
Proof.
  intros Ha. rewrite (add_run incoming id obj w Ha). destruct (match incoming with Some _ => _ | None => _ end); [done|].
  destruct (w_db w t !! id) eqn:E; [done|]. split; [|by destruct explicit_tenant].
  apply others_kept_put; [done|apply tm_org_stamp].
Qed.

Lemma delete_where_scoped p w :
  delete_where t p w =
    (Ok tt, w <| w_db := set_table (w_db w) t (filter (fun kr : key t * row t => p kr.1 kr.2 = false) (w_db w t)) |>).
Proof. done. Qed.

(** A tenant writes inside the tenant only: an added object is the tenant's,
    or nothing is added when it names another organization; and whatever is added
    or deleted, the rows of the other tenants stay exactly as they are. *)
Theorem tenant_writes_confined w incoming id obj objs fs :
  acts_as explicit_tenant o w ->
  (forall i, incoming = Some i -> i <> o ->
     repo_add t explicit_tenant incoming id obj w = (Err (Domain TenantViolationError []), w)) /\
  (forall x w', repo_add t explicit_tenant incoming id obj w = (Ok x, w') ->
     tm_org x.2 = o /\ w_db w' t !! x.1 = Some x.2 /\ others_kept w w') /\
  others_kept w (add_many t explicit_tenant objs w).2 /\
  others_kept w (repo_delete_where t explicit_tenant None fs w).2.
Proof.
  intros Ha. split_and!.
  - intros i -> Hi. rewrite (add_run (Some i) id obj w Ha). by rewrite bool_decide_true.
  - intros x w' E. pose proof (add_kept incoming id obj w Ha) as [Hk _]. rewrite E in Hk.
    rewrite (add_run incoming id obj w Ha) in E. destruct (match incoming with Some _ => _ | None => _ end); [done|].
    destruct (w_db w t !! id); [done|]. injection E as <- <-. split_and!; [apply tm_org_stamp| |done].
    rewrite put_w_eq. apply put_same.
  - revert w Ha. induction objs as [|[inc [k ob]] objs IH]; intros w Ha; [done|]. simpl.
    destruct (add_kept inc k ob w Ha) as [Hk Ha1]. unfold mbind at 1, M_bind at 1.
    destruct (repo_add _ _ _ _ _ w) as [[x|e] w1]; [|done]. specialize (IH w1 Ha1).
    unfold mbind, M_bind. destruct (add_many _ _ _ w1) as [[xs|e] w2]; by eapply others_kept_trans.
  - unfold repo_delete_where. destruct (statement_run None fs) as [(p & Hp & Hr)|(e & Hr)].
    + rewrite (run_ok _ _ _ _ _ (Hr w Ha)). run. rewrite (run_ok _ _ _ _ _ (delete_where_scoped _ w)).
      intros k r Hne. simpl. rewrite set_table_eq, map_lookup_filter_Some. simpl.
      split; [|tauto]. intros Hk. split; [done|]. apply not_true_is_false. intros E. by apply Hne, Hp.
    + by rewrite (run_err _ _ _ _ _ (Hr w Ha)).
Qed.
End Boundary.

(** ** Pages *)

Section Pages.
Context {A : Type}.

Lemma pages_take (rows : list A) limit n off :
  concat ((fun i => take limit (drop (off + i * limit) rows)) <$> seq 0 n) = take (n * limit) (drop off rows).
Proof.
  revert off. induction n as [|n IH]; intros off; [by rewrite take_0|].
  rewrite <- cons_seq. simpl. rewrite Nat.add_0_r. rewrite <- seq_shift, <- list_fmap_compose.
  rewrite (list_fmap_ext _ (fun i => take limit (drop ((off + limit) + i * limit) rows)))
    by (intros _ i _; simpl; do 2 f_equal; lia).
  rewrite IH, <- drop_drop. by rewrite take_take_drop.
Qed.
End Pages.

(** The pages of a listing are the listing: walking the offsets by the page
    size until the count is reached gives every matching row exactly once, by
    ascending identifier. *)
Theorem pages_partition t `{TenantModel t} explicit org fs w p limit n :
  statement t explicit org fs w = (Ok p, w) ->
  (forall total, (repo_count t explicit org fs w).1 = Ok total -> (total <= Z.of_nat (n * limit))%Z) ->
  exists page : nat -> list (key t * row t),
    (forall i, (repo_list t explicit limit (i * limit) org fs w).1 = Ok (page i) /\ length (page i) <= limit) /\
    (forall k r, (k, r) ∈ concat (page <$> seq 0 n) <-> w_db w t !! k = Some r /\ p r = true) /\
    Sorted (fun x y => (tm_id x.1 < tm_id y.1)%N) (concat (page <$> seq 0 n)).
Proof.
  intros Hp Hn. set (rows := by_id t (rows_where t (fun _ r => p r) (w_db w t))).
  exists (fun i => take limit (drop (i * limit) rows)). split; [|].
  - intros i. split; [|rewrite length_take; lia]. unfold repo_list. rewrite (run_ok _ _ _ _ _ Hp). by run.
  - assert (Hlen : length rows <= n * limit).
    { unfold repo_count in Hn. rewrite (run_ok _ _ _ _ _ Hp) in Hn. specialize (Hn _ eq_refl).
      unfold rows, by_id, order_by. rewrite merge_sort_Permutation. lia. }
    assert (Hc : concat ((fun i => take limit (drop (i * limit) rows)) <$> seq 0 n) = rows).
    { pose proof (pages_take rows limit n 0) as E. simpl in E. rewrite E. by rewrite take_ge. }
    rewrite Hc. split.
    + intros k r. unfold rows, by_id. by rewrite elem_of_order_by, elem_of_rows_where.
    + apply by_id_sorted, NoDup_fst_rows_where.
Qed.

(** ** Memberships

    The columns callers filter memberships by. *)
Definition membership_column (attr : string) : option (membership -> json) :=
  if String.eqb attr "status" then Some (fun r => JStr (mb_status r))
  else if String.eqb attr "user_id" then Some (fun r => jopt JUuid (mb_user_id r))
  else None.

#[export] Instance membership_model : TenantModel Tmemberships.
Proof.
  refine {| tm_id := (fun k : key Tmemberships => k : uuid);
            tm_org := (fun r : row Tmemberships => mb_organization_id r);
            tm_stamp := (fun o (r : row Tmemberships) => (r : membership) <| mb_organization_id := o |>);
            tm_column := membership_column |}.
  - by intros ? ? ?.
  - done.
Defined.

(** ** Witnesses *)

Definition member (o u : uuid) : membership := Membership o (Some u) None None "active" None [] NOW.
Definition staffed (others : list (uuid * membership)) : world :=
  (world_of (set_table demo_db Tmemberships
    (rows_of Tmemberships ([(60%N, member 1 7); (61%N, member 1 8)] ++ others))))
  <| w_tenant := Some (TenantContext 1 "acme" false) |>.
Definition alone : world := staffed [].
Definition crowded : world := staffed [(62%N, member 2 9); (63%N, member 2 7)].

Lemma crowded_acts : acts_as None 1 crowded.
Proof. exists (TenantContext 1 "acme" false). done. Qed.

Lemma tenant_noninterference_witness :
  (repo_count Tmemberships None None [("status", JStr "active")] alone).1 =
    (repo_count Tmemberships None None [("status", JStr "active")] crowded).1 /\
  (repo_count Tmemberships None None [("status", JStr "active")] crowded).1 = Ok 2%Z /\
  same_first Tmemberships 1 None alone crowded (repo_first Tmemberships None id None [] alone).1
    (repo_first Tmemberships None (@reverse _) None [] crowded).1.
Proof.
  assert (Hs : same_rows_of Tmemberships 1 alone crowded).
  { intros k r Hr. change (w_db crowded Tmemberships) with
      (rows_of Tmemberships [(60%N, member 1 7); (61%N, member 1 8); (62%N, member 2 9); (63%N, member 2 7)]).
    change (w_db alone Tmemberships) with (rows_of Tmemberships [(60%N, member 1 7); (61%N, member 1 8)]).
    rewrite !lookup_rows_of by (apply (bool_decide_unpack _); vm_compute; exact I).
    rewrite !elem_of_cons. split; [naive_solver|]. intros [?|[?|[[= _ ->]|[[= _ ->]|?]]]]; naive_solver. }
  assert (Ha : acts_as None 1 alone) by (exists (TenantContext 1 "acme" false); done).
  split; [|split; [vm_compute; reflexivity|]];
    refine (_ (proj2 (tenant_noninterference Tmemberships None 1 alone crowded 60%N 10 0 None
              _ id (@reverse _) Ha crowded_acts (fun l => reflexivity l) (fun l => reverse_Permutation l)) Hs));
    intros (_ & E & _ & F); [exact E|exact F].
Defined.

Lemma tenant_writes_confined_witness :
  (repo_add Tmemberships None (Some 2%N) 70%N (member 2 9) crowded).1 = Err (Domain TenantViolationError []) /\
  others_kept Tmemberships 1 crowded (repo_delete_where Tmemberships None None [("user_id", JNull)] crowded).2.
Proof.
  destruct (tenant_writes_confined Tmemberships None 1 crowded (Some 2%N) 70%N (member 2 9) []
    [("user_id", JNull)] crowded_acts) as (H1 & _ & _ & H4).
  split; [|exact H4]. rewrite (H1 2%N eq_refl); [reflexivity|discriminate].
Defined.

Lemma pages_partition_witness :
  exists page : nat -> list (key Tmemberships * row Tmemberships),
    forall k r, (k, r) ∈ concat (page <$> seq 0 2) <-> w_db crowded Tmemberships !! k = Some r /\
      in_org Tmemberships 1 r && true = true.
Proof.
  destruct (pages_partition Tmemberships None (Some 1%N) [] crowded (fun r => in_org Tmemberships 1 r && true) 1 2)
    as (page & _ & Hin & _).
  - reflexivity.
  - intros total [= <-]. vm_compute. discriminate.
  - by exists page.
Defined.
