(* ===== verification/FeatureFlags.v ===== *)
(** Feature flags (feature_flags/service.py): deterministic rollout, resolution with
    user and organization overrides, the scoped cache in front of it, and the
    management operations that invalidate it.

    [digest] is the SHA-256 of a text as a list of byte values. *)

From Stdlib Require Import Ascii.
From S2P Require Import Prelude Text Json Errors Events Tables Store Cache Session Fixtures.

Definition _cache : versioned_cache := VersionedCache "fflags" 30.
Definition BUCKETS : Z := 10000.

Section Flags.
Context (digest : string -> list Z).

(** [int.from_bytes(digest[:4], "big") % BUCKETS]. *)
Definition bucket_of (flag_key identifier : string) : Z :=
  (foldl (fun acc b => acc * 256 + b) 0 (take 4 (digest (flag_key +:+ ":" +:+ identifier))) mod BUCKETS)%Z.

Definition in_rollout (flag_key identifier : string) (percentage : Z) : bool :=
  (bucket_of flag_key identifier <? (BUCKETS * percentage) / 100)%Z.

(** ** Resolution *)

Definition _flag (flag_key : string) : M (option (uuid * feature_flag)) :=
  rows ← select Tfeature_flags (fun _ (f : feature_flag) =>
    String.eqb (ff_key f) flag_key && bool_decide (ff_archived_at f = None));
  scalar_one_or_none rows.

Definition override_matches (flag_key : string) (org user : option uuid)
    (_ : key Tfeature_flag_overrides) (o : feature_flag_override) : bool :=
  String.eqb (fo_flag_key o) flag_key &&
  match user with
  | Some u => bool_decide (fo_user_id o = Some u)
  | None => bool_decide (fo_organization_id o = org) && bool_decide (fo_user_id o = None)
  end.

Definition _override (flag_key : string) (org user : option uuid) :
    M (option (uuid * feature_flag_override)) :=
  match org, user with
  | None, None => mret None
  | _, _ =>
      rows ← select Tfeature_flag_overrides (override_matches flag_key org user);
      scalar_one_or_none rows
  end.

Definition identifier_of (org user : option uuid) : string :=
  match user, org with
  | Some u, _ => uuid_str u
  | None, Some o => uuid_str o
  | None, None => "anonymous"
  end.

Definition default_of (flag_key : string) (org user : option uuid) (f : feature_flag) : bool :=
  match ff_rollout_percentage f with
  | Some p => in_rollout flag_key (identifier_of org user) p
  | None => ff_enabled f
  end.

(** [if x is not None: override = ...]: the answer of one override level. *)
Definition override_level (flag_key : string) (org user : option uuid) (asked : bool) : M (option bool) :=
  if asked
  then o ← _override flag_key org user;
       mret ((fun r : uuid * feature_flag_override => fo_enabled r.2) <$> o)
  else mret None.

Definition _evaluate (flag_key : string) (org user : option uuid) : M bool :=
  flag ← _flag flag_key;
  match flag with
  | None => mret false
  | Some (_, f) =>
      by_user ← override_level flag_key None user (bool_decide (user <> None));
      match by_user with
      | Some b => mret b
      | None =>
          by_org ← override_level flag_key org None (bool_decide (org <> None));
          match by_org with
          | Some b => mret b
          | None => mret (default_of flag_key org user f)
          end
      end
  end.

Definition scopes_of (org user : option uuid) : list string :=
  ["all"; "org:" +:+ opt_uuid_str org; "user:" +:+ opt_uuid_str user].
Definition cache_key (flag_key : string) (org user : option uuid) : string :=
  flag_key +:+ "|" +:+ opt_uuid_str org +:+ "|" +:+ opt_uuid_str user.

Definition bit (b : bool) : cached := CText (if b then "1" else "0").
Definition is_one (c : cached) : bool := match c with CText s => String.eqb s "1" | CJson _ => false end.

Definition is_enabled (flag_key : string) (org user : option uuid) : M bool :=
  r ← cache_get_scoped _cache (cache_key flag_key org user) (scopes_of org user);
  let '(cached, token) := (r : option Store.cached * string) in
  match cached with
  | Some c => mret (is_one c)
  | None =>
      enabled ← _evaluate flag_key org user;
      _ ← cache_set_scoped _cache (cache_key flag_key org user) (bit enabled) token;
      mret enabled
  end.

(** ** Management *)

Definition _invalidate (scope : string) : M unit :=
  _ ← cache_bump _cache scope;
  defer_bump _cache scope.

Definition _bump_scope (org user : option uuid) : M unit :=
  _ ← match org with Some o => _invalidate ("org:" +:+ uuid_str o) | None => mret tt end;
  match user with Some u => _invalidate ("user:" +:+ uuid_str u) | None => mret tt end.

Definition create_flag (flag_key name : string) (description : option string) (enabled : bool)
    (rollout_percentage : option Z) : M (uuid * feature_flag) :=
  existing ← _flag flag_key;
  match existing with
  | Some _ => raise_domain ConflictError [("key", JStr flag_key)]
  | None =>
      i ← fresh_id;
      let f := FeatureFlag flag_key name description enabled rollout_percentage None in
      _ ← put Tfeature_flags i f;
      _ ← flush;
      _ ← _invalidate "all";
      mret (i, f)
  end.

Definition updated_flag (enabled : option bool) (rollout_percentage : option Z) (f : feature_flag) : feature_flag :=
  let f := match enabled with Some b => f <| ff_enabled := b |> | None => f end in
  match rollout_percentage with Some p => f <| ff_rollout_percentage := Some p |> | None => f end.

Definition update_flag (flag_key : string) (enabled : option bool) (rollout_percentage : option Z) :
    M (uuid * feature_flag) :=
  flag ← _flag flag_key;
  match flag with
  | None => raise_domain FeatureFlagNotFoundError []
  | Some (i, f) =>
      let f := updated_flag enabled rollout_percentage f in
      _ ← put Tfeature_flags i f;
      _ ← flush;
      _ ← _invalidate "all";
      mret (i, f)
  end.

Definition set_override (flag_key : string) (org user : option uuid) (enabled : bool)
    (note : option string) : M (uuid * feature_flag_override) :=
  flag ← _flag flag_key;
  match flag with
  | None => raise_domain FeatureFlagNotFoundError []
  | Some _ =>
      if Bool.eqb (bool_decide (org = None)) (bool_decide (user = None))
      then raise_domain ValidationFailedError []
      else
        existing ← _override flag_key org user;
        '(i, o) ← match existing with
          | Some (i, o) => mret (i, (o : feature_flag_override) <| fo_enabled := enabled |> <| fo_note := note |>)
          | None => i ← fresh_id; t ← now; mret (i, FeatureFlagOverride flag_key org user enabled note t)
          end;
        _ ← put Tfeature_flag_overrides i o;
        _ ← flush;
        _ ← _bump_scope org user;
        mret (i, o)
  end.

Definition delete_override (i : uuid) : M unit :=
  found ← session_get Tfeature_flag_overrides i;
  match found with
  | None => raise_domain FeatureFlagNotFoundError []
  | Some o =>
      _ ← del Tfeature_flag_overrides i;
      _ ← flush;
      _bump_scope (fo_organization_id o) (fo_user_id o)
  end.

Definition list_flags : M (list (uuid * feature_flag)) :=
  rows ← select Tfeature_flags (fun _ (f : feature_flag) => bool_decide (ff_archived_at f = None));
  mret (merge_sort (fun a b : uuid * feature_flag => String.le (ff_key a.2) (ff_key b.2)) rows).

Definition list_overrides (flag_key : string) : M (list (uuid * feature_flag_override)) :=
  rows ← select Tfeature_flag_overrides (fun _ (o : feature_flag_override) =>
    String.eqb (fo_flag_key o) flag_key);
  mret (order_by_desc (fun r : uuid * feature_flag_override => fo_created_at r.2) rows).
End Flags.

(** ** Rollouts *)

Lemma bucket_range digest f i : (0 <= bucket_of digest f i < BUCKETS)%Z.
Proof. unfold bucket_of, BUCKETS. apply Z.mod_pos_bound. lia. Qed.

(** A rollout is deterministic and monotone: nobody at 0 percent, everybody at
    100, and raising the percentage only ever adds members. *)
Theorem rollout_monotone digest f i :
  in_rollout digest f i 0 = false /\ in_rollout digest f i 100 = true /\
  forall p q, (p <= q)%Z -> in_rollout digest f i p = true -> in_rollout digest f i q = true.
Proof.
  pose proof (bucket_range digest f i) as Hb. unfold in_rollout, BUCKETS in *. split; [|split].
  - apply Z.ltb_ge. change (10000 * 0 / 100)%Z with 0%Z. lia.
  - apply Z.ltb_lt. change (10000 * 100 / 100)%Z with 10000%Z. lia.
  - intros p q Hpq. rewrite !Z.ltb_lt. intros Hp. eapply Z.lt_le_trans; [exact Hp|].
    apply Z.div_le_mono; lia.
Qed.

(** ** What an answer depends on *)

Section Answers.
Context (digest : string -> list Z).

Lemma reads_flag f : Reads (_flag f).
Proof. unfold _flag. solve_reads. Qed.
Lemma reads_override f o u : Reads (_override f o u).
Proof. unfold _override. destruct o, u; solve_reads. Qed.
#[local] Hint Resolve reads_flag reads_override : reads.
Lemma reads_level f o u b : Reads (override_level f o u b).
Proof. unfold override_level. destruct b; solve_reads. Qed.
#[local] Hint Resolve reads_level : reads.
Lemma reads_evaluate f o u : Reads (_evaluate digest f o u).
Proof. unfold _evaluate. solve_reads. Qed.

(** The answer over the tables of a world. *)
Definition answer (f : string) (o u : option uuid) (w : world) : result bool := (_evaluate digest f o u w).1.

(** Two worlds agree on a query when it selects the same rows. *)
Definition same_select (t : table) (p : key t -> row t -> bool) (w w' : world) : Prop :=
  rows_where t p (w_db w t) ≡ₚ rows_where t p (w_db w' t).

Lemma flag_same f w w' :
  w_db w Tfeature_flags = w_db w' Tfeature_flags -> (_flag f w).1 = (_flag f w').1.
Proof. intros E. unfold _flag. run. rewrite E. by destruct (rows_where _ _ _) as [|? [|??]]. Qed.

Lemma override_same f o u w w' :
  same_select Tfeature_flag_overrides (override_matches f o u) w w' ->
  (_override f o u w).1 = (_override f o u w').1.
Proof.
  intros E. unfold _override.
  assert (Hs : (mbind scalar_one_or_none (select Tfeature_flag_overrides (override_matches f o u)) w).1 =
               (mbind scalar_one_or_none (select Tfeature_flag_overrides (override_matches f o u)) w').1).
  { run. rewrite (scalar_perm _ _ w E). by destruct (rows_where _ _ (w_db w' _)) as [|? [|??]]. }
  by destruct o, u.
Qed.

Lemma level_same f o u b w w' :
  (b = true -> same_select Tfeature_flag_overrides (override_matches f o u) w w') ->
  (override_level f o u b w).1 = (override_level f o u b w').1.
Proof.
  intros E. unfold override_level. destruct b; [|done]. specialize (E eq_refl).
  rewrite !run_readonly_bind by apply reads_override. rewrite (override_same f o u w w' E).
  by destruct (_override f o u w').1.
Qed.

Lemma answer_same f o u w w' :
  w_db w Tfeature_flags = w_db w' Tfeature_flags ->
  (u <> None -> same_select Tfeature_flag_overrides (override_matches f None u) w w') ->
  (o <> None -> same_select Tfeature_flag_overrides (override_matches f o None) w w') ->
  answer f o u w = answer f o u w'.
Proof.
  intros Ef Eu Eo. unfold answer, _evaluate. rewrite !run_readonly_bind by apply reads_flag.
  rewrite (flag_same f w w' Ef). destruct (_flag f w').1 as [[[i fl]|]|e]; [|done..].
  rewrite !run_readonly_bind by apply reads_level.
  rewrite (level_same f None u _ w w') by (intros Hu%bool_decide_eq_true; auto).
  destruct (override_level f None u _ w').1 as [[b|]|e]; [done| |done].
  rewrite !run_readonly_bind by apply reads_level.
  rewrite (level_same f o None _ w w') by (intros Ho%bool_decide_eq_true; auto).
  by destruct (override_level f o None _ w').1 as [[b|]|e].
Qed.

Lemma answer_db f o u w w' : w_db w' = w_db w -> answer f o u w' = answer f o u w.
Proof. intros E. apply answer_same; unfold same_select; by rewrite E. Qed.

(** ** The cache of the flags *)

Definition version_in (s : string) (b : ttl_store) : Z :=
  match b !! _version_key _cache s with Some (_, v) => default 0%Z (int_of_cached v) | None => 0%Z end.

(** Every counter is an integer that lives beyond [T]. *)
Definition counters_live (T : instant) (b : ttl_store) : Prop := forall s e v,
  b !! _version_key _cache s = Some (e, v) -> (T <= e)%Z /\ exists n, v = CText (Z_str n).

Definition versions : Type := (Z * Z * Z)%type.
Definition current (o u : option uuid) (b : ttl_store) : versions :=
  (version_in "all" b, version_in ("org:" +:+ opt_uuid_str o) b,
   version_in ("user:" +:+ opt_uuid_str u) b).

Definition token_of (o u : option uuid) (n : versions) : string :=
  let '(n1, n2, n3) := n in
  String.concat "," ["all=" +:+ Z_str n1; ("org:" +:+ opt_uuid_str o) +:+ "=" +:+ Z_str n2;
                     ("user:" +:+ opt_uuid_str u) +:+ "=" +:+ Z_str n3].
Definition body_key (f : string) (o u : option uuid) (n : versions) : string :=
  _scoped_key _cache (cache_key f o u) (token_of o u n).

Lemma current_version_live T t s b :
  counters_live T b -> (t <= T)%Z -> current_version _cache t s b = (Some (version_in s b), b).
Proof.
  intros Hl Ht. unfold current_version, version_in. simpl. unfold TTLDictBackend.get.
  destruct (b !! _version_key _cache s) as [[e v]|] eqn:E; [|done].
  destruct (Hl _ _ _ E) as [He [n ->]]. rewrite (proj2 (Z.ltb_ge e t)) by lia.
  rewrite Z_str_truthy. simpl. by rewrite int_of_Z_str.
Qed.

Lemma get_scoped_live T t f o u b :
  counters_live T b -> (t <= T)%Z ->
  get_scoped _cache t (cache_key f o u) (scopes_of o u) b =
    (Some ((TTLDictBackend.get t (body_key f o u (current o u b)) b).1, token_of o u (current o u b)),
     (TTLDictBackend.get t (body_key f o u (current o u b)) b).2).
Proof.
  intros Hl Ht. unfold get_scoped, scopes_of. simpl scope_parts.
  do 3 rewrite (current_version_live T) by done. simpl. unfold body_key.
  by destruct (TTLDictBackend.get _ _ _).
Qed.

Lemma bump_live T t s b :
  counters_live T b -> (t <= T)%Z ->
  (bump _cache t s b).2 =
    <[_version_key _cache s := ((t + seconds _VERSION_TTL_SECONDS)%Z, CText (Z_str (version_in s b + 1)))]> b.
Proof.
  intros Hl Ht. unfold bump, version_in. simpl. unfold TTLDictBackend.incr, TTLDictBackend.get.
  destruct (b !! _version_key _cache s) as [[e v]|] eqn:E; [|done].
  destruct (Hl _ _ _ E) as [He [n ->]]. rewrite (proj2 (Z.ltb_ge e t)) by lia.
  rewrite Z_str_truthy. cbn [int_of_cached]. by rewrite int_of_Z_str.
Qed.

(** Counters and bodies are apart, and a body key determines what it is for. *)
Lemma version_scoped_ne c s k tok : _version_key c s <> _scoped_key c k tok.
Proof. unfold _version_key, _scoped_key. intros H. by apply app_inv_head_str in H. Qed.

Lemma digits_none (c : ascii) z : c ∉ digit_chars -> string_Forall (.≠ c) (Z_str z).
Proof.
  intros Hc. eapply string_Forall_impl; [|apply Z_str_digits]. intros a Ha ->. done.
Qed.
Lemma opt_uuid_none (c : ascii) x : c ∉ digit_chars -> c ∉ ["N"; "o"; "n"; "e"]%char ->
  string_Forall (.≠ c) (opt_uuid_str x).
Proof.
  intros Hc Hn. destruct x as [x|]; [by apply digits_none|].
  simpl. repeat split; intros <-; apply Hn; set_solver.
Qed.
#[export] Instance opt_uuid_inj : Inj (=) (=) opt_uuid_str.
Proof.
  assert (Hne : forall x, uuid_str x <> "None").
  { intros x E. pose proof (digits_none "N"%char (Z.of_N x) ltac:(unfold digit_chars; set_solver)) as H.
    unfold uuid_str in E. rewrite E in H. by destruct H. }
  intros [x|] [y|] H; simpl in H; [|by destruct (Hne x)|by destruct (Hne y)|done].
  unfold uuid_str in H. apply (inj Z_str), N2Z.inj in H. by subst.
Qed.

Definition bracket : ascii := "]".
Definition comma : ascii := ",".
Definition bar : ascii := "|".

Lemma token_unfold o u n1 n2 n3 :
  token_of o u (n1, n2, n3) =
    "all=" +:+ (Z_str n1 +:+ String comma (("org:" +:+ opt_uuid_str o +:+ "=") +:+
      (Z_str n2 +:+ String comma (("user:" +:+ opt_uuid_str u +:+ "=") +:+ Z_str n3)))).
Proof. unfold token_of. simpl String.concat. by rewrite !string_app_assoc. Qed.

Lemma token_no_bracket o u n : string_Forall (.≠ bracket) (token_of o u n).
Proof.
  destruct n as [[n1 n2] n3]. rewrite token_unfold.
  assert (Hz : forall z, string_Forall (.≠ bracket) (Z_str z))
    by (intros z; apply digits_none; unfold digit_chars, bracket; set_solver).
  assert (Ho : forall x, string_Forall (.≠ bracket) (opt_uuid_str x))
    by (intros x; apply opt_uuid_none; unfold digit_chars, bracket; set_solver).
  assert (Hc : forall s, string_Forall (.≠ bracket) s -> string_Forall (.≠ bracket) (String comma s))
    by (intros s Hs; by split).
  repeat (apply string_Forall_app; split); auto; try (by repeat split);
    apply Hc; repeat (apply string_Forall_app; split); auto; try (by repeat split);
    apply Hc; repeat (apply string_Forall_app; split); auto; by repeat split.
Qed.

Lemma token_inj o u n n' : token_of o u n = token_of o u n' -> n = n'.
Proof.
  destruct n as [[n1 n2] n3], n' as [[m1 m2] m3]. rewrite !token_unfold. intros H.
  assert (Hz : forall z, string_Forall (.≠ comma) (Z_str z))
    by (intros z; apply digits_none; unfold digit_chars, comma; set_solver).
  apply app_inv_head_str in H. apply split_at_sep in H as [->%(inj Z_str) H]; [|done..].
  apply app_inv_head_str in H. apply split_at_sep in H as [->%(inj Z_str) H]; [|done..].
  by apply app_inv_head_str, (inj Z_str) in H as ->.
Qed.

Lemma cache_key_inj f o u f' o' u' :
  cache_key f o u = cache_key f' o' u' -> f = f' /\ o = o' /\ u = u'.
Proof.
  assert (Hc : forall f o u, cache_key f o u = (f +:+ String bar (opt_uuid_str o)) +:+ String bar (opt_uuid_str u))
    by (intros; unfold cache_key; by rewrite string_app_assoc).
  assert (Ho : forall x, string_Forall (.≠ bar) (opt_uuid_str x))
    by (intros x; apply opt_uuid_none; unfold digit_chars, bar; set_solver).
  rewrite !Hc. intros H. apply split_at_last_sep in H as [H ->%(inj opt_uuid_str)]; [|done..].
  by apply split_at_last_sep in H as [-> ->%(inj opt_uuid_str)].
Qed.

Lemma flag_key_inj f o u n f' o' u' n' :
  body_key f o u n = body_key f' o' u' n' -> f = f' /\ o = o' /\ u = u' /\ n = n'.
Proof.
  unfold body_key, _scoped_key. intros H. do 2 apply app_inv_head_str in H.
  apply (split_at_sep bracket) in H as [Ht H]; [|apply token_no_bracket..].
  apply (app_inv_head_str ":") in H. apply cache_key_inj in H as (-> & -> & ->).
  by apply token_inj in Ht as ->.
Qed.

(** ** Coherence

    Until [T] no counter expires.  A cache is coherent when no body waits under a
    version its scopes have not reached and every body under the current versions
    holds the answer of the tables. *)
Section Coherence.
Context (T : instant).

Definition behind (n m : versions) : Prop := (n.1.1 <= m.1.1 /\ n.1.2 <= m.1.2 /\ n.2 <= m.2)%Z.

Definition in_lifetime (w : world) : Prop :=
  (w_clock w <= T <= w_clock w + seconds _VERSION_TTL_SECONDS)%Z.

Record coherent (w : world) : Prop := {
  co_lifetime : in_lifetime w;
  co_live : counters_live T (w_cache w);
  co_bodies f o u n e v : w_cache w !! body_key f o u n = Some (e, v) ->
    behind n (current o u (w_cache w)) /\
    (n = current o u (w_cache w) -> exists b, v = bit b /\ answer f o u w = Ok b)
}.

(** Operations that only advance counters. *)
Definition advances (b b' : ttl_store) : Prop :=
  counters_live T b' /\
  (forall s, (version_in s b <= version_in s b')%Z) /\
  (forall f o u n x, b' !! body_key f o u n = Some x -> b !! body_key f o u n = Some x).

Definition ours (w : world) : Prop := Forall (fun nk => nk.1 = vc_namespace _cache) (w_deferred w).

Definition only_bumps : relation world := fun w w' =>
  w_clock w' = w_clock w /\ w_durable w' = w_durable w /\ (ours w -> ours w') /\
  (w_fresh w <= w_fresh w')%N /\
  (in_lifetime w -> counters_live T (w_cache w) -> advances (w_cache w) (w_cache w')).

#[export] Instance only_bumps_restorable : Restorable only_bumps.
Proof.
  unfold only_bumps, in_lifetime. split; [split|].
  - intros w. do 4 (split; [done|]). intros _ Hl. by split.
  - intros w1 w2 w3 (Hc1 & Hd1 & Ho1 & Hf1 & H1) (Hc2 & Hd2 & Ho2 & Hf2 & H2). split; [congruence|].
    split; [congruence|]. split; [auto|]. split; [lia|]. intros Ht Hl. destruct (H1 Ht Hl) as (Hl2 & Hv1 & Hb1). rewrite Hc1 in H2.
    destruct (H2 Ht Hl2) as (Hl3 & Hv2 & Hb2). split; [done|]. split; [|eauto].
    intros s. etrans; [apply Hv1|apply Hv2].
  - done.
Qed.

Lemma bumps_same w w' :
  w_clock w' = w_clock w -> w_durable w' = w_durable w -> w_cache w' = w_cache w ->
  (ours w -> ours w') -> (w_fresh w <= w_fresh w')%N -> only_bumps w w'.
Proof. intros Hc Hd Hb Ho Hf. do 4 (split; [done|]). intros _ Hl. rewrite Hb. by split. Qed.

Lemma bumps_put t k r : Stable only_bumps (put t k r).
Proof. intros w. by apply bumps_same. Qed.
Lemma bumps_del t k : Stable only_bumps (del t k).
Proof. intros w. by apply bumps_same. Qed.
Lemma bumps_fresh : Stable only_bumps fresh_id.
Proof. intros w. apply bumps_same; try done. simpl. lia. Qed.
Lemma bumps_defer k : Stable only_bumps (defer_bump _cache k).
Proof.
  intros w. unfold defer_bump. simpl. case_bool_decide; apply bumps_same; try done.
  intros Ho. apply Forall_app. by split; [|apply Forall_singleton].
Qed.

Lemma version_in_bump t s s' b : counters_live T b -> (t <= T)%Z ->
  version_in s' (bump _cache t s b).2 = (version_in s' b + if decide (s = s') then 1 else 0)%Z.
Proof.
  intros Hl Ht. rewrite (bump_live T) by done. unfold version_in at 1. destruct (decide (s = s')) as [->|Hs].
  - rewrite lookup_insert_eq. cbn [int_of_cached]. by rewrite int_of_Z_str.
  - rewrite lookup_insert_ne; [by rewrite Z.add_0_r|]. by intros ->%version_key_inj.
Qed.

Lemma bumps_bump ttl s : Stable only_bumps (cache_bump (VersionedCache (vc_namespace _cache) ttl) s).
Proof.
  intros w. unfold cache_bump, with_cache. change (bump (VersionedCache (vc_namespace _cache) ttl)) with (bump _cache).
  destruct (bump _ _ _ _) as [v b'] eqn:E.
  assert (b' = (bump _cache (w_clock w) s (w_cache w)).2) as -> by (by rewrite E).
  do 4 (split; [done|]). intros [Ht1 Ht2] Hl. simpl. split; [|split].
  - rewrite (bump_live T) by done. intros s' e v'. rewrite lookup_insert_Some.
    intros [[_ [= <- <-]]|[_ Hs']]; [split; [lia|by eexists]|by apply (Hl s')].
  - intros s'. rewrite version_in_bump by done. case_decide; lia.
  - intros f o u n x. rewrite (bump_live T), lookup_insert_ne by (done || apply version_scoped_ne). done.
Qed.
Lemma bumps_flags s : Stable only_bumps (cache_bump _cache s).
Proof. apply bumps_bump. Qed.
#[local] Hint Resolve bumps_put bumps_del bumps_fresh bumps_defer bumps_flags : stable.

Lemma elem_of_scopes s o u :
  s ∈ scopes_of o u <-> s = "all" \/ s = "org:" +:+ opt_uuid_str o \/ s = "user:" +:+ opt_uuid_str u.
Proof. unfold scopes_of. set_solver. Qed.

(** Operations that invalidate what they change keep the cache coherent. *)
Lemma coherent_bumped w w' :
  coherent w -> only_bumps w w' ->
  (forall f o u, answer f o u w' = answer f o u w \/
     exists s, s ∈ scopes_of o u /\ (version_in s (w_cache w) < version_in s (w_cache w'))%Z) ->
  coherent w'.
Proof.
  intros [Ht Hl Hb] (Hc & _ & _ & _ & Hadv) Hans. destruct (Hadv Ht Hl) as (Hl' & Hv & Hbod).
  split; [unfold in_lifetime; by rewrite Hc|done|]. intros f o u n e v Hn.
  destruct (Hb _ _ _ _ _ _ (Hbod _ _ _ _ _ Hn)) as [(H1 & H2 & H3) Hcur]. unfold current in *. cbn [fst snd] in *.
  pose proof (Hv "all"). pose proof (Hv ("org:" +:+ opt_uuid_str o)). pose proof (Hv ("user:" +:+ opt_uuid_str u)).
  split; [unfold behind; cbn [fst snd]; lia|]. intros ->. cbn [fst snd] in *.
  destruct (Hans f o u) as [->|(s & Hs & Hlt)].
  - apply Hcur. f_equal; [f_equal|]; lia.
  - apply elem_of_scopes in Hs as [->|[->| ->]]; lia.
Qed.

Lemma answer_cache f o u w b : answer f o u (with_cache_of w b) = answer f o u w.
Proof. unfold answer. by rewrite (reads_evaluate f o u w b). Qed.

Lemma version_in_body s k v (b : ttl_store) tok x :
  version_in s (<[_scoped_key _cache k tok := (v, x)]> b) = version_in s b /\
  version_in s (delete (_scoped_key _cache k tok) b) = version_in s b.
Proof.
  unfold version_in. rewrite lookup_insert_ne, lookup_delete_ne; [done|..];
    intros E; symmetry in E; by apply version_scoped_ne in E.
Qed.

Lemma current_body o u k v (b : ttl_store) tok x :
  current o u (<[_scoped_key _cache k tok := (v, x)]> b) = current o u b /\
  current o u (delete (_scoped_key _cache k tok) b) = current o u b.
Proof.
  pose proof (fun s => proj1 (version_in_body s k v b tok x)) as H1.
  pose proof (fun s => proj2 (version_in_body s k v b tok x)) as H2.
  split; unfold current; by rewrite ?H1, ?H2.
Qed.

Lemma coherent_delete f o u n w : coherent w -> coherent (with_cache_of w (delete (body_key f o u n) (w_cache w))).
Proof.
  intros [Ht Hl Hb]. split; [done|..].
  - intros s e v. simpl. intros [_ H]%lookup_delete_Some. by apply (Hl s).
  - intros f' o' u' n' e v. simpl. intros [_ H]%lookup_delete_Some.
    unfold body_key at 1 2. rewrite answer_cache.
    rewrite (proj2 (current_body o' u' (cache_key f o u) 0 (w_cache w) (token_of o u n) (CText ""))).
    by apply (Hb f' o' u' n' e v).
Qed.

Lemma coherent_store f o u w e b :
  coherent w -> answer f o u w = Ok b ->
  coherent (with_cache_of w (<[body_key f o u (current o u (w_cache w)) := (e, bit b)]> (w_cache w))).
Proof.
  intros [Ht Hl Hb] Hans. split; [done|..].
  - intros s e' v. simpl. rewrite lookup_insert_ne; [by apply (Hl s)|].
    intros E. symmetry in E. by apply version_scoped_ne in E.
  - intros f' o' u' n' e' v. simpl. unfold body_key at 2 3 4. rewrite answer_cache.
    rewrite !(proj1 (current_body o' u' (cache_key f o u) e (w_cache w) (token_of o u _) (bit b))).
    fold (body_key f o u (current o u (w_cache w))).
    rewrite lookup_insert_Some. intros [[E [= _ <-]]|[_ H]]; [|by apply (Hb f' o' u' n' e' v)].
    apply flag_key_inj in E as (<- & <- & <- & <-). split; [unfold behind; lia|]. intros _. by exists b.
Qed.

Definition same_fresh : relation world := fun w w' => w_fresh w' = w_fresh w.
#[export] Instance same_fresh_restorable : Restorable same_fresh.
Proof. unfold same_fresh. split; [split|]; [by intros w|intros w1 w2 w3; congruence|done]. Qed.
Lemma same_fresh_cache {A} (f : _ -> _ -> A * _) : Stable same_fresh (with_cache f).
Proof. intros w. unfold with_cache. by destruct (f _ _). Qed.
#[local] Hint Resolve same_fresh_cache : stable.

(** Reading: a hit is the answer, a miss computes it and keeps it. *)
Definition reads_as (f : string) (o u : option uuid) (w : world) (r : result bool * world) : Prop :=
  r.1 = answer f o u w /\ coherent r.2 /\ w_db r.2 = w_db w /\ w_durable r.2 = w_durable w /\
  w_clock r.2 = w_clock w /\ w_deferred r.2 = w_deferred w.

Lemma miss_run f o u w :
  coherent w ->
  reads_as f o u w
    (mbind (fun enabled =>
       _ ← cache_set_scoped _cache (cache_key f o u) (bit enabled) (token_of o u (current o u (w_cache w)));
       mret enabled) (_evaluate digest f o u) w).
Proof.
  intros Hco. rewrite run_readonly_bind by apply reads_evaluate. fold (answer f o u w).
  destruct (answer f o u w) as [b|e] eqn:Hans; unfold reads_as; rewrite Hans; [|by split_and!].
  split_and!; try done. simpl. by apply coherent_store.
Qed.

Lemma is_enabled_run f o u w : coherent w -> reads_as f o u w (is_enabled digest f o u w).
Proof.
  intros Hco. pose proof (co_live _ Hco) as Hl. destruct (co_lifetime _ Hco) as [Ht1 Ht2].
  set (n := current o u (w_cache w)). set (k := body_key f o u n).
  assert (Hg : cache_get_scoped _cache (cache_key f o u) (scopes_of o u) w =
    (Ok ((TTLDictBackend.get (w_clock w) k (w_cache w)).1, token_of o u n),
     with_cache_of w (TTLDictBackend.get (w_clock w) k (w_cache w)).2)).
  { unfold cache_get_scoped, with_cache, mbind, M_bind. by rewrite (get_scoped_live T). }
  unfold is_enabled. rewrite (run_ok _ _ _ _ _ Hg). clear Hg. unfold TTLDictBackend.get.
  destruct (w_cache w !! k) as [[e v]|] eqn:Ek; [destruct (Z.ltb_spec e (w_clock w))|]; cbn [fst snd].
  - pose proof (coherent_delete f o u n w Hco) as Hco'. fold k in Hco'.
    pose proof (miss_run f o u _ Hco') as Hm.
    assert (Hn : current o u (w_cache (with_cache_of w (delete k (w_cache w)))) = n)
      by apply (proj2 (current_body o u (cache_key f o u) 0 (w_cache w) (token_of o u n) (CText ""))).
    rewrite Hn in Hm. unfold reads_as in *. by rewrite answer_cache in Hm.
  - destruct (proj2 (co_bodies _ Hco _ _ _ _ _ _ Ek) eq_refl) as (b & -> & Hans).
    rewrite with_cache_of_self. unfold reads_as. rewrite Hans.
    split_and!; [by destruct b|done..].
  - rewrite with_cache_of_self. by apply miss_run.
Qed.

Lemma fresh_is_enabled f o u w : w_fresh (is_enabled digest f o u w).2 = w_fresh w.
Proof.
  assert (Hs : Stable same_fresh (is_enabled digest f o u)).
  { unfold is_enabled, _evaluate, override_level, _override, _flag, cache_get_scoped, cache_set_scoped.
    solve_stable. }
  apply Hs.
Qed.

(** *** The management operations *)

Lemma bumps_flag f : Stable only_bumps (_flag f).
Proof. unfold _flag. solve_stable. Qed.
Lemma bumps_override f o u : Stable only_bumps (_override f o u).
Proof. unfold _override. destruct o, u; solve_stable. Qed.
Lemma bumps_invalidate s : Stable only_bumps (_invalidate s).
Proof. unfold _invalidate. solve_stable. Qed.
#[local] Hint Resolve bumps_flag bumps_override bumps_invalidate : stable.
Lemma bumps_bump_scope o u : Stable only_bumps (_bump_scope o u).
Proof. unfold _bump_scope. solve_stable. Qed.
#[local] Hint Resolve bumps_bump_scope : stable.

Lemma bumps_create f n d e r : Stable only_bumps (create_flag f n d e r).
Proof. unfold create_flag. solve_stable. Qed.
Lemma bumps_update f e r : Stable only_bumps (update_flag f e r).
Proof. unfold update_flag. solve_stable. Qed.
Lemma bumps_set_override f o u e n : Stable only_bumps (set_override f o u e n).
Proof. unfold set_override. solve_stable. Qed.
Lemma bumps_delete_override i : Stable only_bumps (delete_override i).
Proof. unfold delete_override. solve_stable. Qed.

(** What an accepted operation changes, it invalidates. *)
Definition invalidated (w w' : world) : Prop := forall f o u,
  answer f o u w' = answer f o u w \/
  exists s, s ∈ scopes_of o u /\ (version_in s (w_cache w) < version_in s (w_cache w'))%Z.

(** Identifiers still to come name no override. *)
Definition unused (w : world) : Prop :=
  forall j, (w_fresh w <= j)%N -> w_db w Tfeature_flag_overrides !! j = None.

Definition invalidates {A} (m : M A) : Prop := forall w a w',
  coherent w -> unused w -> m w = (Ok a, w') -> invalidated w w' /\ unused w'.

Lemma unused_keeps {A} (m : M A) w :
  Stable only_bumps m -> Stable (keeps Tfeature_flag_overrides) m -> unused w -> unused (m w).2.
Proof.
  intros Hb Hk Hu j Hj. destruct (Hb w) as (_ & _ & _ & Hf & _). rewrite keeps_eq by done. apply Hu. lia.
Qed.

Lemma invalidate_run s w :
  in_lifetime w -> counters_live T (w_cache w) ->
  exists w', _invalidate s w = (Ok tt, w') /\ w_db w' = w_db w /\
    in_lifetime w' /\ counters_live T (w_cache w') /\
    forall s', version_in s' (w_cache w') =
      (version_in s' (w_cache w) + if decide (s = s') then 1 else 0)%Z.
Proof.
  intros Ht Hl. pose proof (bumps_bump 0 s w) as (Hc & _ & _ & _ & Hadv). destruct (Hadv Ht Hl) as (Hl' & _).
  pose proof (fun s' => version_in_bump (w_clock w) s s' _ Hl (proj1 Ht)) as Hv.
  unfold _invalidate, cache_bump, with_cache in *. unfold mbind at 1, M_bind at 1.
  change (bump (VersionedCache (vc_namespace _cache) 0)) with (bump _cache) in *.
  destruct (bump _cache _ _ _) as [v b]. simpl in *. unfold defer_bump. eexists. split; [done|].
  case_bool_decide; simpl; by split_and!.
Qed.

Lemma version_in_mono w s s' :
  in_lifetime w -> counters_live T (w_cache w) ->
  (version_in s' (w_cache w) <= version_in s' (w_cache (_invalidate s w).2))%Z.
Proof.
  intros Ht Hl. destruct (invalidate_run s w Ht Hl) as (w' & -> & _ & _ & _ & Hv). simpl. rewrite Hv.
  case_decide; lia.
Qed.

Lemma bump_scope_run org user w :
  in_lifetime w -> counters_live T (w_cache w) ->
  exists w', _bump_scope org user w = (Ok tt, w') /\ w_db w' = w_db w /\
    forall s, s ∈ option_list ((fun x => "org:" +:+ uuid_str x) <$> org) ++
                  option_list ((fun x => "user:" +:+ uuid_str x) <$> user) ->
      (version_in s (w_cache w) < version_in s (w_cache w'))%Z.
Proof.
  intros Ht Hl. unfold _bump_scope. destruct org as [o|].
  - destruct (invalidate_run ("org:" +:+ uuid_str o) w Ht Hl) as (w1 & E1 & Hd1 & Ht1 & Hl1 & Hv1).
    rewrite (run_ok _ _ _ _ _ E1). destruct user as [u|].
    + destruct (invalidate_run ("user:" +:+ uuid_str u) w1 Ht1 Hl1) as (w2 & E2 & Hd2 & _ & _ & Hv2).
      exists w2. split_and!; [done|congruence|]. simpl. intros s [->|[->|[]%not_elem_of_nil]%elem_of_cons]%elem_of_cons;
        rewrite Hv2, Hv1; repeat case_decide; (lia || done).
    + exists w1. split_and!; [done..|]. simpl. intros s ->%list_elem_of_singleton. rewrite Hv1.
      case_decide; [lia|done].
  - simpl. destruct user as [u|].
    + destruct (invalidate_run ("user:" +:+ uuid_str u) w Ht Hl) as (w2 & E2 & Hd2 & _ & _ & Hv2).
      exists w2. split_and!; [done..|]. simpl. intros s ->%list_elem_of_singleton. rewrite Hv2.
      case_decide; [lia|done].
    + exists w. split_and!; [done..|]. simpl. by intros s ?%not_elem_of_nil.
Qed.

(** A row that decides the question [(f, o, u)]. *)
Definition affects (r : feature_flag_override) (f : string) (o u : option uuid) : Prop :=
  (u <> None /\ override_matches f None u 0%N r = true) \/
  (o <> None /\ override_matches f o None 0%N r = true).

#[export] Instance affects_dec r f o u : Decision (affects r f o u).
Proof. unfold affects. apply _. Defined.

Lemma affects_scope r f o u :
  affects r f o u ->
  match fo_user_id r with Some x => u = Some x | None => o = fo_organization_id r /\ o <> None end.
Proof.
  unfold affects, override_matches. intros [[Hu H]|[Ho H]]; apply andb_prop in H as [_ H].
  - destruct u as [x|]; [|done]. by apply bool_decide_eq_true in H as ->.
  - apply andb_prop in H as [H1%bool_decide_eq_true H2%bool_decide_eq_true]. by rewrite H2.
Qed.

Lemma answer_put_override i r w w' f o u :
  w_db w' Tfeature_flags = w_db w Tfeature_flags ->
  w_db w' Tfeature_flag_overrides = <[i := r]> (w_db w Tfeature_flag_overrides) ->
  ~ affects r f o u ->
  (forall r0 : feature_flag_override, w_db w Tfeature_flag_overrides !! i = Some r0 -> ~ affects r0 f o u) ->
  answer f o u w' = answer f o u w.
Proof.
  intros Ef Eo Hr1 Hr0. apply answer_same; [done|..]; intros Hn; unfold same_select; rewrite Eo.
  - apply (rows_where_unmatched Tfeature_flag_overrides); [|intros r0 Ei];
      apply not_true_is_false; intros E; [apply Hr1|apply (Hr0 r0 Ei)]; by left.
  - apply (rows_where_unmatched Tfeature_flag_overrides); [|intros r0 Ei];
      apply not_true_is_false; intros E; [apply Hr1|apply (Hr0 r0 Ei)]; by right.
Qed.

Lemma answer_del_override i r w w' f o u :
  w_db w' Tfeature_flags = w_db w Tfeature_flags ->
  w_db w' Tfeature_flag_overrides = delete i (w_db w Tfeature_flag_overrides) ->
  w_db w Tfeature_flag_overrides !! i = Some r -> ~ affects r f o u ->
  answer f o u w' = answer f o u w.
Proof.
  intros Ef Eo Hi Hr. symmetry. apply (answer_put_override i r w' w); [done| |done|].
  - rewrite Eo. by rewrite insert_delete_id.
  - intros r0 E. rewrite Eo, lookup_delete_eq in E. done.
Qed.

(** A write followed by the bump of every scope it touches. *)
Lemma write_then_all {A} w w1 (a : A) (r : result A * world) :
  coherent w -> w_clock w1 = w_clock w -> w_cache w1 = w_cache w ->
  mbind (fun _ : unit => mret a) (_invalidate "all") w1 = r -> invalidated w r.2.
Proof.
  intros Hco Hc Hb <-. destruct (invalidate_run "all" w1) as (w2 & E & _ & _ & _ & Hv).
  - unfold in_lifetime. rewrite Hc. apply Hco.
  - rewrite Hb. apply Hco.
  - rewrite (run_ok _ _ _ _ _ E). intros f o u. right. exists "all". split; [apply elem_of_scopes; by left|].
    simpl. rewrite Hv, Hb, decide_True by done. lia.
Qed.

Lemma invalidates_create f n d e p : invalidates (create_flag f n d e p).
Proof.
  intros w a w' Hco Hu H. split.
  - unfold create_flag in H. rewrite run_readonly_bind in H by apply reads_flag.
    case_match; [|done]. case_match; [done|]. revert H. run. intros [_ H]%flush_ok.
    by apply (write_then_all _ _ _ _ Hco) in H.
  - change w' with (Ok a, w').2. rewrite <- H. apply unused_keeps; [apply bumps_create| |done].
    unfold create_flag, _flag, _invalidate, cache_bump. solve_stable.
Qed.

Lemma invalidates_update f e p : invalidates (update_flag f e p).
Proof.
  intros w a w' Hco Hu H. split.
  - unfold update_flag in H. rewrite run_readonly_bind in H by apply reads_flag.
    case_match; [|done]. case_match; [|done]. case_match. revert H. run. intros [_ H]%flush_ok.
    by apply (write_then_all _ _ _ _ Hco) in H.
  - change w' with (Ok a, w').2. rewrite <- H. apply unused_keeps; [apply bumps_update| |done].
    unfold update_flag, _flag, _invalidate, cache_bump. solve_stable.
Qed.

(** A written row and the bump of its scopes: what it decides is invalidated. *)
Lemma write_then_scope {A} w w1 org user (a : A) (r : result A * world) (x : feature_flag_override) :
  coherent w -> w_clock w1 = w_clock w -> w_cache w1 = w_cache w ->
  (org = fo_organization_id x /\ user = fo_user_id x) \/
    (user = None /\ fo_user_id x = None /\ org = fo_organization_id x) \/
    (user <> None /\ user = fo_user_id x) ->
  (forall f o u, ~ affects x f o u -> answer f o u w1 = answer f o u w) ->
  mbind (fun _ : unit => mret a) (_bump_scope org user) w1 = r -> invalidated w r.2.
Proof.
  intros Hco Hc Hb Hx Hans <-. destruct (bump_scope_run org user w1) as (w2 & E & Hd & Hv).
  - unfold in_lifetime. rewrite Hc. apply Hco.
  - rewrite Hb. apply Hco.
  - rewrite (run_ok _ _ _ _ _ E). intros f o u.
    destruct (decide (affects x f o u)) as [Ha|Ha].
    + right. apply affects_scope in Ha. destruct (fo_user_id x) as [ux|].
      * subst u. exists ("user:" +:+ uuid_str ux). split; [apply elem_of_scopes; by do 2 right|].
        rewrite <- Hb. apply Hv. assert (user = Some ux) as -> by intuition congruence. simpl. set_solver.
      * destruct Ha as [-> Hn]. assert (org = fo_organization_id x) as -> by intuition congruence.
        destruct (fo_organization_id x) as [ox|]; [|done].
        exists ("org:" +:+ uuid_str ox). split; [apply elem_of_scopes; right; by left|].
        rewrite <- Hb. apply Hv. simpl. set_solver.
    + left. rewrite <- (Hans f o u Ha). unfold answer. simpl. apply answer_db, Hd.
Qed.

Lemma override_found f o u w x :
  (_override f o u w).1 = Ok (Some x) ->
  w_db w Tfeature_flag_overrides !! x.1 = Some x.2 /\ override_matches f o u x.1 x.2 = true.
Proof.
  unfold _override. intros H.
  assert (Hs : (mbind scalar_one_or_none (select Tfeature_flag_overrides (override_matches f o u)) w).1 =
               Ok (Some x)) by (by destruct o, u).
  clear H. revert Hs. run. destruct (rows_where _ _ _) as [|y [|??]] eqn:E; try done.
  simpl. intros [= ->]. destruct x as [i r]. simpl.
  apply (elem_of_rows_where Tfeature_flag_overrides). rewrite E. left.
Qed.

Lemma override_run f o u w : exists r, _override f o u w = (r, w) /\
  forall x, r = Ok (Some x) ->
    w_db w Tfeature_flag_overrides !! x.1 = Some x.2 /\ override_matches f o u x.1 x.2 = true.
Proof.
  exists (_override f o u w).1. split; [apply reads_result, reads_override|]. apply override_found.
Qed.

(** After the write, the row and its scope. *)
Lemma set_override_tail i (x : feature_flag_override) org user w a w' w0 :
  coherent w0 -> w_clock w = w_clock w0 -> w_cache w = w_cache w0 -> unused w ->
  w_db w Tfeature_flags = w_db w0 Tfeature_flags ->
  w_db w Tfeature_flag_overrides = <[i := x]> (w_db w0 Tfeature_flag_overrides) ->
  (org = fo_organization_id x /\ user = fo_user_id x) \/
    (user = None /\ fo_user_id x = None /\ org = fo_organization_id x) \/
    (user <> None /\ user = fo_user_id x) ->
  (forall x0 f o u, w_db w0 Tfeature_flag_overrides !! i = Some x0 -> affects x0 f o u -> affects x f o u) ->
  (_ ← flush; _ ← _bump_scope org user; mret (i, x)) w = (Ok a, w') ->
  invalidated w0 w' /\ unused w'.
Proof.
  intros Hco Hc Hb Hu Hf Ho Hx Hx0 [_ H]%flush_ok. split.
  - pose proof (fun HA => write_then_scope w0 w org user (i, x) _ x Hco Hc Hb Hx HA H) as Hg. apply Hg.
    intros f o u Ha. apply (answer_put_override i x); [done..|]. intros x0 Hi Ha0. apply Ha. by eapply Hx0.
  - change w' with (Ok a, w').2. rewrite <- H. apply unused_keeps; [| |done].
    + solve_stable.
    + unfold _bump_scope, _invalidate, cache_bump. solve_stable.
Qed.

Lemma unused_put i (x x0 : feature_flag_override) w :
  unused w -> w_db w Tfeature_flag_overrides !! i = Some x0 -> unused (put_w Tfeature_flag_overrides i x w).
Proof.
  intros Hu Hi j Hj. rewrite put_w_eq. apply (put_other Tfeature_flag_overrides); [|by apply Hu].
  intros ->. pose proof (Hu j Hj) as Hn. same_absent.
Qed.

Lemma invalidates_set_override f org user e n : invalidates (set_override f org user e n).
Proof.
  intros w a w' Hco Hu H. unfold set_override in H. rewrite run_readonly_bind in H by apply reads_flag.
  case_match; [|done]. case_match; [|done]. case_match; [done|].
  destruct (override_run f org user w) as (r & E & Hr). destruct r as [[[i x]|]|];
    [rewrite (run_ok _ _ _ _ _ E) in H|rewrite (run_ok _ _ _ _ _ E) in H|rewrite (run_err _ _ _ _ _ E) in H; done].
  - destruct (Hr _ eq_refl) as [Hi Hm]. revert H. run. simpl in Hi, Hm. intros H.
    refine (set_override_tail i _ org user _ a w' w Hco _ _ _ _ _ _ _ H); [done|done| | |apply put_w_eq|..].
    + by eapply unused_put.
    + by rewrite put_w_ne.
    + unfold override_matches in Hm. apply andb_prop in Hm as [_ Hm]. destruct user as [u|].
      * apply bool_decide_eq_true in Hm. right; right. by split.
      * apply andb_prop in Hm as [Ho%bool_decide_eq_true Hn%bool_decide_eq_true]. right; left. by split_and!.
    + intros x0 f' o' u' Hi0 Ha. same_row. exact Ha.
  - revert H. run. intros H.
    refine (set_override_tail _ _ org user _ a w' w Hco _ _ _ _ _ _ _ H); [done|done| | |by rewrite put_w_eq|by left|].
    + intros j Hj. simpl in Hj. rewrite put_w_eq. apply (put_other Tfeature_flag_overrides); [lia|]. apply Hu. lia.
    + by rewrite put_w_ne.
    + intros x0 f' o' u' Hi0. pose proof (Hu (w_fresh w) ltac:(lia)) as Hn. same_absent.
Qed.

Lemma invalidates_delete_override i : invalidates (delete_override i).
Proof.
  intros w a w' Hco Hu H. unfold delete_override in H. revert H. run.
  destruct (w_db w Tfeature_flag_overrides !! i) as [x|] eqn:Ei; [|done]. run. intros [_ H]%flush_ok.
  set (w1 := del_w Tfeature_flag_overrides i w) in *.
  assert (Hd : w_db w1 Tfeature_flag_overrides = delete i (w_db w Tfeature_flag_overrides)) by apply del_w_eq.
  split.
  - assert (Hr : mbind (fun _ : unit => mret tt) (_bump_scope (fo_organization_id x) (fo_user_id x)) w1 = (Ok a, w')).
    { by rewrite (run_ok _ _ _ _ _ H); destruct a. }
    apply (fun HA => write_then_scope w w1 _ _ tt _ x Hco eq_refl eq_refl (or_introl (conj eq_refl eq_refl)) HA Hr).
    intros f o u. by apply (answer_del_override i).
  - change w' with (Ok a, w').2. rewrite <- H. apply unused_keeps; [apply bumps_bump_scope| |].
    + unfold _bump_scope, _invalidate, cache_bump. solve_stable.
    + intros j Hj. rewrite Hd. apply (delete_other Tfeature_flag_overrides). by apply Hu.
Qed.


(** *** Requests *)

Record steady (w : world) : Prop := {
  sy_constraints : constraints_ok (w_db w);
  sy_committed : w_db w = w_durable w;
  sy_deferred : w_deferred w = [];
  sy_unused : unused w;
  sy_coherent : coherent w
}.

Lemma invalidated_same w w' : w_db w' = w_db w -> invalidated w w'.
Proof. intros E f o u. left. by apply answer_db. Qed.

Lemma bumps_all l : Forall (fun nk => nk.1 = vc_namespace _cache) l ->
  Stable only_bumps (for_each l (fun nk => _ ← cache_bump (VersionedCache nk.1 DEFAULT_TTL_SECONDS) nk.2; mret tt)).
Proof.
  induction 1 as [|[n k] l Hn Hl IH]; [apply stable_ret, _|]. simpl in *. subst n.
  apply stable_bind; [apply _| |done]. apply stable_bind; [apply _|apply bumps_bump|].
  intros _. apply stable_ret, _.
Qed.

Lemma bumps_all_deferred l w :
  w_deferred (for_each l (fun nk => _ ← cache_bump (VersionedCache nk.1 DEFAULT_TTL_SECONDS) nk.2; mret tt) w).2
    = w_deferred w.
Proof.
  revert w. induction l as [|nk l IH]; intros w; [done|]. simpl. unfold mbind, M_bind.
  unfold cache_bump, with_cache. destruct (bump _ _ _ _). simpl. by rewrite IH.
Qed.

Lemma flush_bumps_run w : ours w -> let w' := (flush_deferred_bumps w).2 in
  only_bumps w w' /\ w_deferred w' = [] /\ w_db w' = w_db w /\ w_durable w' = w_durable w.
Proof.
  intros Ho w'. pose proof (data_flush_bumps w) as [Hd Hu]. subst w'. split_and!; [| |done..].
  - pose proof (bumps_all _ Ho (w <| w_deferred := [] |>)) as Hb.
    assert (H0 : only_bumps w (w <| w_deferred := [] |>))
      by (apply bumps_same; try done; intros _; by apply Forall_nil).
    unfold flush_deferred_bumps. destruct (for_each _ _ _) as [r w2]. by etrans.
  - pose proof (bumps_all_deferred (w_deferred w) (w <| w_deferred := [] |>)) as He.
    unfold flush_deferred_bumps. by destruct (for_each _ _ _).
Qed.

Lemma coherent_same w w' :
  coherent w -> only_bumps w w' -> w_db w' = w_db w -> coherent w'.
Proof. intros Hco Hb E. by apply (coherent_bumped w w' Hco Hb), invalidated_same. Qed.

Lemma unused_db w w' : unused w -> w_db w' = w_db w -> (w_fresh w <= w_fresh w')%N -> unused w'.
Proof. intros Hu E Hf j Hj. rewrite E. apply Hu. lia. Qed.

(** A request that ended in an error leaves the committed tables. *)
Lemma steady_undone w w1 w2 :
  steady w -> only_bumps w w1 -> w_db w2 = w_durable w1 -> w_durable w2 = w_durable w1 ->
  w_clock w2 = w_clock w1 -> w_cache w2 = w_cache w1 -> w_fresh w2 = w_fresh w1 -> w_deferred w2 = [] ->
  steady w2 /\ w_clock w2 = w_clock w.
Proof.
  intros [Hcs Hcm Hdf Hun Hco] Hb Ed Eu Ec Ea Ef Edf. pose proof Hb as (Hc & Hdu & _ & Hf & _).
  assert (E : w_db w2 = w_db w) by congruence.
  assert (Hb2 : only_bumps w w2).
  { etrans; [exact Hb|]. apply bumps_same; [done..|intros _; unfold ours; rewrite Edf; by apply Forall_nil|lia]. }
  split; [|congruence]. split; [by rewrite E|congruence|done| |by eapply coherent_same].
  apply (unused_db w); [done..|]. lia.
Qed.

Lemma request_coherent {A} (m : M A) w :
  Stable only_bumps m -> invalidates m -> steady w ->
  steady (request m w).2 /\ w_clock (request m w).2 = w_clock w.
Proof.
  intros Hb Hi Hs. pose proof Hs as [Hcs Hcm Hdf Hun Hco]. specialize (Hb w). unfold request.
  destruct (m w) as [[a|e] w1] eqn:E; cbn [snd] in Hb; [|by apply (steady_undone w w1)].
  unfold commit, flush. case_bool_decide as Hok; [|by apply (steady_undone w w1)]. cbn [snd].
  pose proof Hb as (Hc & Hdu & Ho & Hf & _).
  assert (Hours : ours w1) by (apply Ho; unfold ours; rewrite Hdf; by apply Forall_nil).
  destruct (Hi w a w1 Hco Hun E) as [Hin Hu1].
  pose proof (coherent_bumped w w1 Hco Hb Hin) as Hco1.
  set (w2 := w1 <| w_durable := w_db w1 |>).
  assert (Hco2 : coherent w2).
  { destruct Hco1 as [H1 H2 H3]. split; [done..|]. intros f o u n v x Hx. destruct (H3 f o u n v x Hx) as [Hh Hcur].
    split; [done|]. intros Hn. destruct (Hcur Hn) as (b & -> & Hans). exists b. split; [done|].
    by rewrite (answer_db f o u w1 w2). }
  destruct (flush_bumps_run w2 Hours) as (Hb3 & Hdf3 & Hd3 & Hu3).
  pose proof Hb3 as (Hc3 & _ & _ & Hf3 & _). split; [split|].
  - by rewrite Hd3.
  - by rewrite Hd3, Hu3.
  - done.
  - by apply (unused_db w2).
  - by apply (coherent_same w2).
  - rewrite Hc3. apply Hc.
Qed.

Lemma request_is_enabled f o u w :
  steady w -> let r := request (is_enabled digest f o u) w in
  r.1 = answer f o u w /\ steady r.2 /\ w_clock r.2 = w_clock w.
Proof.
  intros [Hcs Hcm Hdf Hun Hco]. destruct (is_enabled_run f o u w Hco) as (Hr & Hco1 & Hd & Hdu & Hc & Hdf1).
  pose proof (fresh_is_enabled f o u w) as Hf. unfold request.
  destruct (is_enabled digest f o u w) as [[b|e] w1]; cbn [fst snd] in *.
  - unfold commit, flush. rewrite bool_decide_true by congruence. cbn [fst snd].
    set (w2 := w1 <| w_durable := w_db w1 |>).
    assert (Hf2 : (flush_deferred_bumps w2).2 = w2 <| w_deferred := [] |>).
    { unfold flush_deferred_bumps. subst w2. simpl. rewrite Hdf1, Hdf. done. }
    rewrite Hf2. split_and!; [done|split|done]; simpl; [congruence|done..| |].
    + intros j Hj. simpl in *. rewrite Hd. apply Hun. lia.
    + apply (coherent_same w1); [done| |done].
      apply bumps_same; [done|simpl; congruence|done|intros _; by apply Forall_nil|simpl; lia].
  - split_and!; [done|split|done]; simpl; [congruence|done..| |].
    + intros j Hj. simpl in *. rewrite Hdu, <- Hcm. apply Hun. lia.
    + apply (coherent_same w1); [done|apply bumps_same; [done..|intros _; by apply Forall_nil|simpl; lia]|].
      simpl. congruence.
Qed.
End Coherence.

(** ** The flags over time

    What happens to the flags: evaluations and management requests, each in its
    own transaction, and the passing of time. *)
Inductive flag_step : relation world :=
  | step_is_enabled f o u w : flag_step w (request (is_enabled digest f o u) w).2
  | step_create f n d e p w : flag_step w (request (create_flag f n d e p) w).2
  | step_update f e p w : flag_step w (request (update_flag f e p) w).2
  | step_set_override f o u e n w : flag_step w (request (set_override f o u e n) w).2
  | step_delete_override i w : flag_step w (request (delete_override i) w).2
  | step_time n w : (0 <= n)%Z -> flag_step w (w <| w_clock := w_clock w + n |>)%Z.

(** A process starts with nothing cached. *)
Record fresh_start (w : world) : Prop := {
  fs_constraints : constraints_ok (w_db w);
  fs_committed : w_db w = w_durable w;
  fs_deferred : w_deferred w = [];
  fs_unused : unused w;
  fs_cache : w_cache w = ∅
}.

Lemma steady_start T w :
  fresh_start w -> T = (w_clock w + seconds _VERSION_TTL_SECONDS)%Z -> steady T w.
Proof.
  intros [Hcs Hcm Hdf Hun Hca] ->. split; [done..|]. split.
  - assert (0 <= seconds _VERSION_TTL_SECONDS)%Z by done. unfold in_lifetime. lia.
  - intros s e v. by rewrite Hca.
  - intros f o u n e v. by rewrite Hca.
Qed.

Lemma flag_step_clock w w' : flag_step w w' -> (w_clock w <= w_clock w')%Z.
Proof.
  assert (Hreq : forall A (m : M A) w, Stable same_env m -> (w_clock w <= w_clock (request m w).2)%Z).
  { intros A m w0 Hm. by rewrite request_clock. }
  intros [f o u w0|f n d e p w0|f e p w0|f o u e n w0|i w0|n w0 Hn]; [apply Hreq..|simpl; lia];
    unfold is_enabled, create_flag, update_flag, set_override, delete_override, _evaluate, override_level,
      _override, _flag, _bump_scope, _invalidate, cache_get_scoped, cache_set_scoped, cache_bump;
    solve_stable.
Qed.

Lemma flag_step_steady T w w' :
  flag_step w w' -> steady T w -> (w_clock w' <= T)%Z -> steady T w'.
Proof.
  intros [f o u w0|f n d e p w0|f e p w0|f o u e n w0|i w0|n w0 Hn] Hs Ht.
  - by destruct (request_is_enabled T f o u w0 Hs) as (_ & ? & _).
  - apply request_coherent; [apply bumps_create|apply invalidates_create|done].
  - apply request_coherent; [apply bumps_update|apply invalidates_update|done].
  - apply request_coherent; [apply bumps_set_override|apply invalidates_set_override|done].
  - apply request_coherent; [apply bumps_delete_override|apply invalidates_delete_override|done].
  - destruct Hs as [Hcs Hcm Hdf Hun [[H1 H2] Hl Hb]].
    split; [done..|]. split; [|done|].
    + unfold in_lifetime in *. simpl in *. lia.
    + intros f o u m x v Hx. destruct (Hb f o u m x v Hx) as [Hh Hc]. split; [done|]. intros E.
      destruct (Hc E) as (b & -> & Hans). exists b. split; [done|]. by rewrite (answer_db f o u w0).
Qed.

Lemma flag_steps_steady T w w' :
  rtc flag_step w w' -> steady T w -> (w_clock w' <= T)%Z -> steady T w'.
Proof.
  intros Hr Hs. revert w' Hr. apply (rtc_ind_r (fun w' => (w_clock w' <= T)%Z -> steady T w')); [done|].
  intros w1 w2 Hr Hst IH Ht. apply (flag_step_steady T w1 w2 Hst); [|done]. apply IH. etrans; [by apply flag_step_clock|done].
Qed.

(** C17: whatever was evaluated, changed and invalidated since the process started
    with an empty cache, and in whatever order, a cached evaluation answers what
    the tables say now, for as long as the version counters of that start live
    (their TTL is an hour). *)
Theorem cached_flags_fresh w w' f o u :
  fresh_start w -> rtc flag_step w w' -> (w_clock w' <= w_clock w + seconds _VERSION_TTL_SECONDS)%Z ->
  (request (is_enabled digest f o u) w').1 = (_evaluate digest f o u w').1.
Proof.
  intros Hw Hr Ht.
  destruct (request_is_enabled (w_clock w + seconds _VERSION_TTL_SECONDS)%Z f o u w') as [E _]; [|exact E].
  apply (flag_steps_steady _ w w' Hr); [by apply steady_start|done].
Qed.

#[local] Hint Resolve bumps_put bumps_del bumps_fresh bumps_defer bumps_flags : stable.
End Answers.

(** ** Witness

    A flag that is off, read (and cached), switched on for one organization,
    and read again ten minutes later. *)
Definition byte_digest (s : string) : list Z := [Z.of_nat (String.length s)].

Definition flagged : world :=
  world_of (set_table demo_db Tfeature_flags
    (rows_of Tfeature_flags [(50%N, FeatureFlag "reports_v2" "Reports" None false (Some 0%Z) None)])).
Definition flagged_read : world := (request (is_enabled byte_digest "reports_v2" (Some 1%N) None) flagged).2.
Definition flagged_on : world :=
  (request (set_override "reports_v2" (Some 1%N) None true None) flagged_read).2.
Definition flagged_later : world := flagged_on <| w_clock := (w_clock flagged_on + seconds 600)%Z |>.

Lemma cached_flags_fresh_witness :
  fresh_start flagged /\
  (request (is_enabled byte_digest "reports_v2" (Some 1%N) None) flagged_read).1 = Ok false /\
  (request (is_enabled byte_digest "reports_v2" (Some 1%N) None) flagged_later).1 =
    (_evaluate byte_digest "reports_v2" (Some 1%N) None flagged_later).1 /\
  (_evaluate byte_digest "reports_v2" (Some 1%N) None flagged_later).1 = Ok true.
Proof.
  assert (Hs : fresh_start flagged).
  { split; [by_compute|done..|intros j _; reflexivity|done]. }
  split; [exact Hs|]. split; [vm_compute; reflexivity|]. split; [|vm_compute; reflexivity].
  apply (cached_flags_fresh byte_digest flagged flagged_later).
  - exact Hs.
  - eapply rtc_l; [apply step_is_enabled|]. eapply rtc_l; [apply step_set_override|].
    eapply rtc_l; [apply step_time|apply rtc_refl]. vm_compute; discriminate.
  - by_compute.
Defined.
