(* ===== verification/Authorization.v ===== *)
(** Authorization (authorization/service.py, authorization/dependencies.py): the
    permission checks every route asks, custom roles, the denormalized permission
    sets of memberships, and the bound an API key works under.

    [fga_check user relation object] is what the OpenFGA server answers
    ([FgaClient.check]); [None] is an [FgaError]. *)

From Stdlib Require Import Ascii.
From S2P Require Import Prelude Text Permissions Json Errors Events Tables Store Cache Session Fixtures.

Definition _perm_cache : versioned_cache := VersionedCache "perm" 30.
Definition _fga_cache : versioned_cache := VersionedCache "fga" 30.

(** [queue_tuple_sync]: an internal event, and only under OpenFGA. *)
Definition queue_tuple_sync (organization_id : uuid) (user_id : option uuid) : M unit :=
  s ← get_settings;
  match user_id with
  | None => mret tt
  | Some u =>
      if String.eqb (st_authz_backend s) "openfga"
      then agg ← fresh_id;
           append_outbox AUTHZ_TUPLES_CHANGED "membership" agg
             [("organization_id", JUuid organization_id); ("user_id", JUuid u)] (Some organization_id)
      else mret tt
  end.

Section Checks.
Context (fga_check : string -> string -> string -> option bool).

Definition perm_key (user_id organization_id : uuid) : string :=
  uuid_str user_id +:+ ":" +:+ uuid_str organization_id.

(** [frozenset(cached.split(","))], [",".join(sorted(keys))]. *)
Definition encode_keys (keys : list string) : cached := CText (join "," (sorted_str keys)).

Definition active_membership (organization_id user_id : uuid) (_ : key Tmemberships) (m : membership) : bool :=
  bool_decide (mb_organization_id m = organization_id) && bool_decide (mb_user_id m = Some user_id) &&
  String.eqb (mb_status m) "active".

Definition permission_keys_for (user_id organization_id : uuid) : M (list string) :=
  let cache_key := perm_key user_id organization_id in
  r ← cache_get_versioned _perm_cache cache_key;
  let '(cached, version) := (r : option Store.cached * Z) in
  match cached with
  | Some (CText (String _ _ as s)) => mret (split_on "," s)
  | _ =>
      rows ← select Tmemberships (active_membership organization_id user_id);
      membership ← scalar_one_or_none rows;
      let keys := match membership with
                  | None => []
                  | Some (_, m) => remove_dups (mb_permission_keys m)
                  end in
      _ ← cache_set _perm_cache cache_key (encode_keys keys) version;
      mret keys
  end.

Definition holds_key (permission : string) (keys : list string) : bool := bool_decide (permission ∈ keys).

Definition decision (allowed : bool) : cached := CText (if allowed then "1" else "0").
Definition decided (c : cached) : bool := match c with CText s => String.eqb s "1" | CJson _ => false end.

Definition _fga_allowed (user_id : uuid) (permission obj : string) : M bool :=
  s ← get_settings;
  let scope := uuid_str user_id +:+ ":" +:+ obj in
  r ← cache_get_scoped _fga_cache (scope +:+ ":" +:+ permission) [scope];
  let '(cached, token) := (r : option Store.cached * string) in
  match cached with
  | Some c => mret (decided c)
  | None =>
      match fga_check (user_object user_id) (relation_for permission) obj with
      | None =>
          if String.eqb (st_openfga_fail_mode s) "rbac" && starts_with "organization:" obj
          then o ← value_error (uuid_of_str (str_drop 13 obj));
               keys ← permission_keys_for user_id o;
               mret (holds_key permission keys)
          else mret false
      | Some allowed =>
          _ ← cache_set_scoped _fga_cache (scope +:+ ":" +:+ permission) (decision allowed) token;
          mret allowed
      end
  end.

Definition user_can (user_id organization_id : uuid) (permission : string) : M bool :=
  s ← get_settings;
  if String.eqb (st_authz_backend s) "openfga"
  then _fga_allowed user_id permission (org_object organization_id)
  else keys ← permission_keys_for user_id organization_id;
       mret (holds_key permission keys).

Definition user_can_on (user_id : uuid) (permission object_type object_id : string) : M bool :=
  s ← get_settings;
  if String.eqb (st_authz_backend s) "openfga"
  then _fga_allowed user_id permission (object_type +:+ ":" +:+ object_id)
  else if negb (String.eqb object_type "organization") then raise (PyError "NotImplementedError")
  else o ← value_error (uuid_of_str object_id); user_can user_id o permission.

Definition require (user_id organization_id : uuid) (permission : string) : M unit :=
  allowed ← user_can user_id organization_id permission;
  if negb allowed
  then raise_domain PermissionDeniedError [("permission", JStr permission)]
  else mret tt.

(** [require_permission] (dependencies.py), for a user and its row. *)
Definition denied {A} (permission : string) (extras : jobj) : M A :=
  raise_domain PermissionDeniedError ([("permission", JStr permission); ("auth", JStr "api_key")] ++ extras).

Definition require_key_permission (permission : string) (scopes : list string)
    (creator_id : option uuid) (tenant : tenant_context) : M unit :=
  if negb (holds_key permission scopes) then denied permission []
  else match creator_id with
  | None => denied permission [("reason", JStr "unbounded_key")]
  | Some c =>
      creator ← session_get Tusers c;
      match (creator : option user) with
      | None => denied permission [("reason", JStr "creator_inactive")]
      | Some u =>
          if negb (u_is_active u) then denied permission [("reason", JStr "creator_inactive")]
          else if u_is_platform_admin u then mret tt
          else keys ← permission_keys_for c (tx_organization_id tenant);
               if negb (holds_key permission keys)
               then denied permission [("reason", JStr "creator_lacks_permission")]
               else mret tt
      end
  end.

Definition require_permission (permission : string) (user_id : uuid) (u : user) (tenant : tenant_context) :
    M unit :=
  principal ← current_user;
  match principal ≫= (fun p : user_context => (fun s => (s, ux_api_key_creator_id p)) <$> ux_api_key_scopes p) with
  | Some (scopes, creator_id) => require_key_permission permission scopes creator_id tenant
  | None =>
      if u_is_platform_admin u
      then set_user (UserContext user_id (u_email u) true ["*"] None None None)
      else
        keys ← permission_keys_for user_id (tx_organization_id tenant);
        allowed ← user_can user_id (tx_organization_id tenant) permission;
        if negb allowed
        then raise_domain PermissionDeniedError [("permission", JStr permission)]
        else set_user (UserContext user_id (u_email u) false keys None None None)
  end.

Definition require_user : M user_context :=
  u ← current_user;
  match u with Some u => mret u | None => raise_domain TenantContextMissingError [] end.

Definition permission_dependency (permission : string) (user_id : uuid) (u : user) (tenant : tenant_context) :
    M user_context :=
  _ ← require_permission permission user_id u tenant; require_user.
End Checks.

(** ** Roles *)

(** [role.permissions]: the keys of a role's permissions. *)
Definition permissions_of (d : db) (role_id : uuid) : list string :=
  omap (fun r : key Trole_permissions * row Trole_permissions =>
          pm_key <$> (d Tpermissions !! r.1.2 : option permission))
    (rows_where Trole_permissions (fun k _ => bool_decide (k.1 = role_id)) (d Trole_permissions)).

(** The roles of a membership. *)
Definition roles_of (d : db) (membership_id : uuid) : list uuid :=
  omap (fun r : key Tmembership_roles * row Tmembership_roles =>
          (fun _ => r.1.2) <$> (d Troles !! r.1.2 : option authorization_role))
    (rows_where Tmembership_roles (fun k _ => bool_decide (k.1 = membership_id)) (d Tmembership_roles)).

Definition read_db : M db := fun w => (Ok (w_db w), w).

(** The session's identity map keeps the collection of a role it has loaded:
    a later query does not refresh it ([held]: role and the keys as loaded). *)
Definition held_permissions : Type := option (uuid * list string).
Definition loaded_permissions (held : held_permissions) (d : db) (role_id : uuid) : list string :=
  match held with
  | Some (r, keys) => if bool_decide (r = role_id) then keys else permissions_of d role_id
  | None => permissions_of d role_id
  end.

Definition invalidate_user_perms (user_id organization_id : uuid) : M unit :=
  _ ← cache_bump _perm_cache (perm_key user_id organization_id);
  _ ← defer_bump _perm_cache (perm_key user_id organization_id);
  let scope := uuid_str user_id +:+ ":" +:+ org_object organization_id in
  _ ← cache_bump _fga_cache scope;
  _ ← defer_bump _fga_cache scope;
  queue_tuple_sync organization_id (Some user_id).

Definition invalidate_org_perms (organization_id : uuid) : M unit :=
  rows ← select Tmemberships (fun _ (m : membership) =>
    bool_decide (mb_organization_id m = organization_id) && bool_decide (mb_user_id m <> None));
  for_each rows (fun r : key Tmemberships * membership =>
    match mb_user_id r.2 with Some u => invalidate_user_perms u organization_id | None => mret tt end).

Definition recompute_membership_permissions (held : held_permissions) (membership_id : uuid)
    (m : membership) : M membership :=
  d ← read_db;
  let keys := sorted_set (mjoin (loaded_permissions held d <$> roles_of d membership_id)) in
  let m := m <| mb_permission_keys := keys |> in
  _ ← put Tmemberships membership_id m;
  mret m.

Definition invalidate_member (m : membership) : M unit :=
  match mb_user_id m with Some u => invalidate_user_perms u (mb_organization_id m) | None => mret tt end.

(** The memberships holding a role. *)
Definition holders_of (role_id : uuid) : M (list (key Tmemberships * row Tmemberships)) :=
  d ← read_db;
  mret (rows_where Tmemberships (fun k _ =>
    bool_decide (is_Some (d Tmembership_roles !! ((k, role_id) : key Tmembership_roles)))) (d Tmemberships)).

Definition refresh_holder (held : held_permissions) (r : key Tmemberships * row Tmemberships) : M unit :=
  m ← recompute_membership_permissions held r.1 r.2; invalidate_member m.

Definition _refresh_memberships_for_role (held : held_permissions) (role_id : uuid) : M unit :=
  memberships ← holders_of role_id;
  for_each memberships (refresh_holder held).

Definition _set_role_permissions (held : held_permissions) (role_id : uuid) (permission_keys : list string) : M unit :=
  _ ← delete_where Trole_permissions (fun k _ => bool_decide (k.1 = role_id));
  perms ← select Tpermissions (fun _ (p : permission) => bool_decide (pm_key p ∈ permission_keys));
  _ ← for_each perms (fun p : key Tpermissions * permission => insert_new Trole_permissions (role_id, p.1) tt);
  _ ← flush;
  _refresh_memberships_for_role held role_id.

Definition _get_scoped_role (role_id organization_id : uuid) : M authorization_role :=
  role ← session_get Troles role_id;
  match (role : option authorization_role) with
  | None => raise_domain RoleNotFoundError []
  | Some r =>
      if bool_decide (ro_organization_id r <> Some organization_id) then raise_domain RoleNotFoundError []
      else if ro_is_system r then raise_domain SystemRoleImmutableError []
      else mret r
  end.

Definition unknown_keys (permission_keys : list string) : list string :=
  sorted_set (filter (.∉ PERMISSION_KEYS) permission_keys).

Definition reject_unknown (permission_keys : list string) : M unit :=
  match unknown_keys permission_keys with
  | [] => mret tt
  | unknown => raise_domain PermissionDeniedError [("unknown", JList (JStr <$> unknown))]
  end.

Definition create_custom_role (organization_id : uuid) (role_key name : string) (description : option string)
    (permission_keys : list string) : M (uuid * authorization_role) :=
  _ ← reject_unknown permission_keys;
  rows ← select Troles (fun _ (r : authorization_role) =>
    bool_decide (ro_organization_id r = Some organization_id) && String.eqb (ro_key r) role_key);
  taken ← scalar_one_or_none rows;
  match taken with
  | Some _ => raise_domain ConflictError [("key", JStr role_key)]
  | None =>
      i ← fresh_id;
      let role := AuthorizationRole (Some organization_id) role_key name description false in
      _ ← put Troles i role;
      _ ← flush;
      _ ← _set_role_permissions None i permission_keys;
      mret (i, role)
  end.

Definition renamed_role (name description : option string) (r : authorization_role) : authorization_role :=
  let r := match name with Some n => r <| ro_name := n |> | None => r end in
  match description with Some d => r <| ro_description := Some d |> | None => r end.

Definition update_custom_role (role_id organization_id : uuid) (name description : option string)
    (permission_keys : option (list string)) : M authorization_role :=
  role ← _get_scoped_role role_id organization_id;
  d ← read_db;
  let held := Some (role_id, permissions_of d role_id) in
  let role := renamed_role name description role in
  _ ← put Troles role_id role;
  _ ← match permission_keys with
      | None => mret tt
      | Some keys => _ ← reject_unknown keys; _set_role_permissions held role_id keys
      end;
  _ ← invalidate_org_perms organization_id;
  mret role.

Definition delete_custom_role (role_id organization_id : uuid) : M unit :=
  _ ← _get_scoped_role role_id organization_id;
  holders ← holders_of role_id;
  _ ← delete_where Tmembership_roles (fun k _ => bool_decide (k.2 = role_id));
  _ ← delete_where Trole_permissions (fun k _ => bool_decide (k.1 = role_id));
  _ ← del Troles role_id;
  _ ← flush;
  _ ← for_each holders (refresh_holder None);
  invalidate_org_perms organization_id.

(** The role an organization names by a key: its own or a system role. *)
Definition role_visible (organization_id : uuid) (role_key : string) (_ : key Troles) (r : authorization_role) : bool :=
  String.eqb (ro_key r) role_key &&
  (bool_decide (ro_organization_id r = Some organization_id) || bool_decide (ro_organization_id r = None)).

(** The role row and the widened permission set, shared by [assign_role] and the
    tenancy service's [_attach_role]. *)
Definition attach_role (membership_id : uuid) (m : membership) (role_key : string) : M membership :=
  rows ← select Troles (role_visible (mb_organization_id m) role_key);
  role ← scalar_one_or_none rows;
  match role with
  | None => raise_domain RoleNotFoundError []
  | Some (role_id, _) =>
      d ← read_db;
      _ ← insert_new Tmembership_roles (membership_id, role_id) tt;
      let m := m <| mb_permission_keys := sorted_set (mb_permission_keys m ++ permissions_of d role_id) |> in
      _ ← put Tmemberships membership_id m;
      mret m
  end.

Definition assign_role (membership_id : uuid) (m : membership) (role_key : string) : M membership :=
  m ← attach_role membership_id m role_key;
  _ ← invalidate_member m;
  mret m.

Definition role_rank (r : uuid * authorization_role) : bool := ro_is_system r.2.
Definition role_before (a b : uuid * authorization_role) : Prop :=
  (role_rank a = true /\ role_rank b = false) \/
  (role_rank a = role_rank b /\ String.le (ro_key a.2) (ro_key b.2)).
#[export] Instance role_before_dec : RelDecision role_before.
Proof. intros a b. unfold role_before. apply _. Defined.

Definition list_roles (organization_id : uuid) : M (list (uuid * authorization_role)) :=
  rows ← select Troles (fun _ (r : authorization_role) =>
    bool_decide (ro_organization_id r = Some organization_id) || bool_decide (ro_organization_id r = None));
  mret (merge_sort role_before rows).

(** ** Tuple synchronization (authorization/sync.py)

    [apply_tuple_sync]: the tuples the member should have, and the difference with
    those the store holds for the organization. *)
Definition role_keys_of (d : db) (membership_id : uuid) : list string :=
  omap (fun r => (fun x : authorization_role => ro_key x) <$> (d Troles !! r : option authorization_role))
    (roles_of d membership_id).

Definition desired_for (organization_id user_id : uuid) : M (list fga_tuple) :=
  rows ← select Tmemberships (fun _ (m : membership) =>
    bool_decide (mb_organization_id m = organization_id) && bool_decide (mb_user_id m = Some user_id));
  membership ← scalar_one_or_none rows;
  d ← read_db;
  mret (match membership with
        | Some (k, m) =>
            if String.eqb (mb_status m) "active"
            then desired_tuples user_id organization_id (role_keys_of d k) (mb_permission_keys m)
            else []
        | None => []
        end).

Definition apply_tuple_sync (organization_id user_id : uuid) (stored : list fga_tuple) :
    M (list fga_tuple * list fga_tuple) :=
  desired ← desired_for organization_id user_id;
  mret (tuple_diff user_id desired stored).

(** ** The denormalized permission set

    A membership's set is meant to be the union of the permissions of its roles. *)
Definition union_of_roles (held : held_permissions) (d : db) (membership_id : uuid) : list string :=
  sorted_set (mjoin (loaded_permissions held d <$> roles_of d membership_id)).

Definition denormalized (d : db) : Prop :=
  Forall_rows Tmemberships (fun k (m : membership) =>
    mb_permission_keys m = union_of_roles None d k) (d Tmemberships).

#[export] Instance denormalized_dec d : Decision (denormalized d).
Proof. unfold denormalized. apply Forall_rows_dec. intros. apply _. Defined.

(** [q] reaches the membership through one of its roles. *)
Definition grants (d : db) (membership_id : uuid) (q : string) : Prop :=
  exists r p (pm : permission),
    is_Some (d Tmembership_roles !! ((membership_id, r) : key Tmembership_roles)) /\
    is_Some (d Troles !! r) /\
    is_Some (d Trole_permissions !! ((r, p) : key Trole_permissions)) /\
    d Tpermissions !! p = Some pm /\ pm_key pm = q.

Lemma elem_of_permissions_of d r q :
  q ∈ permissions_of d r <-> exists p (pm : permission),
    is_Some (d Trole_permissions !! ((r, p) : key Trole_permissions)) /\
    d Tpermissions !! p = Some pm /\ pm_key pm = q.
Proof.
  unfold permissions_of. rewrite list_elem_of_omap. split.
  - intros ([[r' p] u] & Hin & E). apply (elem_of_rows_where Trole_permissions) in Hin as [Hl Hr].
    apply bool_decide_eq_true in Hr. simpl in Hr, E. subst r'.
    apply fmap_Some in E as (pm & Hp & ->). exists p, pm. split_and!; [by eexists|done..].
  - intros (p & pm & [u Hu] & Hp & <-). exists ((r, p), u). split.
    + apply (elem_of_rows_where Trole_permissions). split; [done|]. by apply bool_decide_eq_true.
    + simpl. apply fmap_Some. by exists pm.
Qed.

Lemma elem_of_roles_of d mid r :
  r ∈ roles_of d mid <->
    is_Some (d Tmembership_roles !! ((mid, r) : key Tmembership_roles)) /\ is_Some (d Troles !! r).
Proof.
  unfold roles_of. rewrite list_elem_of_omap. split.
  - intros ([[m' r'] u] & Hin & E). apply (elem_of_rows_where Tmembership_roles) in Hin as [Hl Hr].
    apply bool_decide_eq_true in Hr. simpl in Hr, E. subst m'. apply fmap_Some in E as (x & Hx & ->).
    split; by eexists.
  - intros [[u Hu] [x Hx]]. exists ((mid, r), u). split.
    + apply (elem_of_rows_where Tmembership_roles). split; [done|]. by apply bool_decide_eq_true.
    + simpl. apply fmap_Some. by exists x.
Qed.

Lemma elem_of_union d mid q : q ∈ union_of_roles None d mid <-> grants d mid q.
Proof.
  unfold union_of_roles. rewrite elem_of_sorted_set, list_elem_of_join. split.
  - intros (l & Hq & Hl). apply list_elem_of_fmap in Hl as (r & -> & Hr). simpl in Hq.
    apply elem_of_roles_of in Hr as [H1 H2]. apply elem_of_permissions_of in Hq as (p & pm & H3 & H4 & H5).
    by exists r, p, pm.
  - intros (r & p & pm & H1 & H2 & H3 & H4 & H5). exists (permissions_of d r).
    split; [apply elem_of_permissions_of; by exists p, pm|]. apply list_elem_of_fmap. exists r.
    split; [done|]. by apply elem_of_roles_of.
Qed.

Lemma union_ext d d' mid :
  (forall q, grants d mid q <-> grants d' mid q) -> union_of_roles None d mid = union_of_roles None d' mid.
Proof.
  intros H. unfold union_of_roles. apply sorted_set_ext. intros q.
  pose proof (elem_of_union d mid q) as E. pose proof (elem_of_union d' mid q) as E'.
  unfold union_of_roles in E, E'. rewrite elem_of_sorted_set in E, E'. rewrite E, E'. apply H.
Qed.

Lemma sorted_set_union l d mid :
  (forall q, q ∈ l <-> grants d mid q) -> sorted_set l = union_of_roles None d mid.
Proof.
  intros H. apply sorted_set_ext. intros q. pose proof (elem_of_union d mid q) as E.
  unfold union_of_roles in E. rewrite elem_of_sorted_set in E. by rewrite H, E.
Qed.

(** *** What the operations touch *)

Definition role_tables (t : table) : bool :=
  match t with Tmembership_roles | Troles | Trole_permissions | Tpermissions => true | _ => false end.

(** The tables roles live in are as they were. *)
Definition same_roles : relation world := fun w w' =>
  forall t, role_tables t = true -> w_db w' t = w_db w t.
#[export] Instance same_roles_restorable : Restorable same_roles.
Proof.
  unfold same_roles. split; [split|].
  - by intros w.
  - intros w1 w2 w3 H1 H2 t Ht. by rewrite (H2 t Ht), (H1 t Ht).
  - done.
Qed.

Lemma same_roles_frame {A} (m : M A) :
  (forall t, role_tables t = true -> Stable (keeps t) m) -> Stable same_roles m.
Proof. intros H w t Ht. by apply H. Qed.

Lemma keeps_queue t o u : t <> Toutbox_events -> Stable (keeps t) (queue_tuple_sync o u).
Proof.
  intros Ht. unfold queue_tuple_sync. solve_stable. by apply keeps_outbox.
Qed.
#[export] Hint Extern 1 (Stable (keeps _) (queue_tuple_sync _ _)) => apply keeps_queue; discriminate : stable.

Lemma keeps_invalidate t u o : t <> Toutbox_events -> Stable (keeps t) (invalidate_user_perms u o).
Proof. intros Ht. unfold invalidate_user_perms, cache_bump. solve_stable. by apply keeps_queue. Qed.
#[export] Hint Extern 1 (Stable (keeps _) (invalidate_user_perms _ _)) => apply keeps_invalidate; discriminate : stable.

Lemma keeps_invalidate_org t o : t <> Toutbox_events -> Stable (keeps t) (invalidate_org_perms o).
Proof. intros Ht. unfold invalidate_org_perms. solve_stable. by apply keeps_invalidate. Qed.

#[export] Instance total_queue o u : Total (queue_tuple_sync o u).
Proof.
  intros w. unfold queue_tuple_sync. run. destruct u; [|done]. by destruct (String.eqb _ _).
Qed.
#[export] Instance total_invalidate u o : Total (invalidate_user_perms u o).
Proof. unfold invalidate_user_perms. apply _. Qed.
#[export] Instance total_invalidate_member m : Total (invalidate_member m).
Proof. unfold invalidate_member. destruct (mb_user_id m); apply _. Qed.

Lemma put_same_roles k m w : same_roles w (put_w Tmemberships k m w).
Proof. intros t Ht. rewrite put_w_ne; [done|by intros <-]. Qed.

Lemma same_roles_union held w w' mid :
  same_roles w w' -> union_of_roles held (w_db w') mid = union_of_roles held (w_db w) mid.
Proof.
  intros H. unfold union_of_roles, loaded_permissions, permissions_of, roles_of.
  by rewrite (H Tmembership_roles), (H Troles), (H Trole_permissions), (H Tpermissions).
Qed.

Lemma refresh_holder_run held k m w :
  refresh_holder held (k, m) w =
    let m' := m <| mb_permission_keys := union_of_roles held (w_db w) k |> in
    invalidate_member m' (put_w Tmemberships k m' w).
Proof. done. Qed.

Lemma keeps_invalidate_member t m : t <> Toutbox_events -> Stable (keeps t) (invalidate_member m).
Proof. intros Ht. unfold invalidate_member. destruct (mb_user_id m); [by apply keeps_invalidate|solve_stable]. Qed.

#[export] Instance total_refresh held r : Total (refresh_holder held r).
Proof. destruct r as [k m]. intros w. rewrite refresh_holder_run. apply total. Qed.

(** The loop over the holders rewrites each holder's set from the roles. *)
Lemma refresh_all held l w :
  NoDup l.*1 -> let w' := (for_each l (refresh_holder held) w).2 in
  same_roles w w' /\
  (forall (k : key Tmemberships) (m : row Tmemberships), (k, m) ∈ l ->
     w_db w' Tmemberships !! k = Some ((m : membership) <| mb_permission_keys := union_of_roles held (w_db w) k |>)) /\
  (forall k, k ∉ l.*1 -> w_db w' Tmemberships !! k = w_db w Tmemberships !! k).
Proof.
  revert w. induction l as [|[k m] l IH]; intros w Hnd; [split_and!; [done|set_solver|done]|].
  csimpl in Hnd. apply NoDup_cons in Hnd as [Hk Hnd].
  change (for_each ((k, m) :: l) (refresh_holder held) w) with
    (mbind (fun _ : unit => for_each l (refresh_holder held)) (refresh_holder held (k, m)) w).
  rewrite run_total by apply _. rewrite refresh_holder_run. cbv zeta.
  set (m' := m <| mb_permission_keys := _ |>). set (w1 := (invalidate_member m' _).2).
  assert (Hs : same_roles w w1).
  { etrans; [apply (put_same_roles k m')|]. apply same_roles_frame. intros t Ht.
    apply keeps_invalidate_member. by intros ->. }
  assert (Hm : w_db w1 Tmemberships = <[k := m']> (w_db w Tmemberships)).
  { unfold w1. rewrite (keeps_eq Tmemberships) by by apply keeps_invalidate_member. apply put_w_eq. }
  destruct (IH w1 Hnd) as (Hs2 & Hin & Hout). split_and!.
  - by etrans.
  - intros k2 m2 [[= -> ->]|Hl]%elem_of_cons.
    + etrans; [apply (Hout k Hk)|]. rewrite Hm. apply (put_same Tmemberships).
    + etrans; [apply (Hin _ _ Hl)|]. by rewrite (same_roles_union held w w1).
  - intros k2 Hn. csimpl in Hn. apply not_elem_of_cons in Hn as [Hne Hn].
    etrans; [apply (Hout k2 Hn)|]. rewrite Hm. by apply (put_other Tmemberships).
Qed.

Lemma elem_of_holders (k : key Tmemberships) (m : row Tmemberships) r d :
  (k, m) ∈ rows_where Tmemberships (fun k _ =>
     bool_decide (is_Some (d Tmembership_roles !! ((k, r) : key Tmembership_roles)))) (d Tmemberships) <->
  d Tmemberships !! k = Some m /\ is_Some (d Tmembership_roles !! ((k, r) : key Tmembership_roles)).
Proof. rewrite (elem_of_rows_where Tmemberships). by rewrite bool_decide_eq_true. Qed.

Lemma denormalized_frame w w' :
  same_roles w w' -> w_db w' Tmemberships = w_db w Tmemberships ->
  denormalized (w_db w) -> denormalized (w_db w').
Proof.
  intros Hs Hm Hd k m Hk. rewrite Hm in Hk. rewrite (same_roles_union None w w' k Hs). by apply Hd.
Qed.

(** After the loop: the holders are right whatever they held, the others are if
    the roles they reach did not change. *)
Lemma refresh_denormalizes w0 w l :
  NoDup l.*1 -> (forall (k : key Tmemberships) (m : row Tmemberships), (k, m) ∈ l -> w_db w Tmemberships !! k = Some m) ->
  denormalized (w_db w0) -> w_db w Tmemberships = w_db w0 Tmemberships ->
  (forall (k : key Tmemberships) q, k ∉ l.*1 -> is_Some (w_db w Tmemberships !! k) -> grants (w_db w) k q <-> grants (w_db w0) k q) ->
  denormalized (w_db (for_each l (refresh_holder None) w).2).
Proof.
  intros Hnd Hl Hd Hm Hg. destruct (refresh_all None l w Hnd) as (Hs & Hin & Hout).
  intros k m Hk. rewrite (same_roles_union None _ _ k Hs).
  destruct (decide (k ∈ l.*1)) as [Hkl|Hkl].
  - apply list_elem_of_fmap in Hkl as ([k' m0] & -> & Hkl). pose proof (Hin _ _ Hkl) as Hk'. by same_row.
  - assert (Hk' : w_db w Tmemberships !! k = Some m) by (etrans; [symmetry; apply (Hout k Hkl)|exact Hk]).
    clear Hk. rename Hk' into Hk. rewrite (union_ext (w_db w) (w_db w0) k).
    + rewrite Hm in Hk. by apply Hd.
    + intros q. apply Hg; [done|by eexists].
Qed.

Lemma attach_run mid m rk w m' w' :
  attach_role mid m rk w = (Ok m', w') ->
  exists (rid : key Troles) (role : row Troles), w_db w Troles !! rid = Some role /\
    w_db w Tmembership_roles !! ((mid, rid) : key Tmembership_roles) = None /\
    m' = m <| mb_permission_keys := sorted_set (mb_permission_keys m ++ permissions_of (w_db w) rid) |> /\
    w' = put_w Tmemberships mid m' (put_w Tmembership_roles (mid, rid) tt w).
Proof.
  unfold attach_role. run. destruct (rows_where Troles _ _) as [|[rid role] [|? ?]] eqn:E; [done| |done].
  run. unfold read_db. unfold mbind at 1, M_bind at 1. unfold insert_new. run.
  destruct (w_db w Tmembership_roles !! _) eqn:Er; [done|]. intros [= <- <-].
  exists rid, role. split_and!; [|done..].
  assert (Hin : (rid, role) ∈ rows_where Troles (role_visible (mb_organization_id m) rk) (w_db w Troles))
    by (rewrite E; left).
  by apply (elem_of_rows_where Troles) in Hin as [? _].
Qed.

(** The grants of a membership after it gains a role. *)
Lemma grants_attached d mid rid k q :
  is_Some (d Troles !! rid) ->
  grants (set_table d Tmembership_roles (<[((mid, rid) : key Tmembership_roles) := tt]> (d Tmembership_roles))) k q <->
    grants d k q \/ (k = mid /\ q ∈ permissions_of d rid).
Proof.
  intros Hr. unfold grants. rewrite elem_of_permissions_of, set_table_eq, !set_table_ne by discriminate.
  split.
  - intros (r & p & pm & [u Hu] & H2 & H3 & H4 & H5). apply (lookup_put Tmembership_roles) in Hu as [[[= <- <-] _]|[_ Hu]].
    + right. split; [done|]. by exists p, pm.
    + left. exists r, p, pm. split_and!; [by eexists|done..].
  - intros [(r & p & pm & [u Hu] & H2 & H3 & H4 & H5)|[-> (p & pm & H3 & H4 & H5)]].
    + exists r, p, pm. split_and!; [|done..]. destruct (decide (((mid, rid) : key Tmembership_roles) = (k, r))) as [<-|Hne].
      * eexists. apply (put_same Tmembership_roles).
      * exists u. by apply (put_other Tmembership_roles).
    + exists rid, p, pm. split_and!; [|done..]. eexists. apply (put_same Tmembership_roles).
Qed.

Lemma attach_denormalized mid m rk w m' w' :
  w_db w Tmemberships !! mid = Some m -> denormalized (w_db w) ->
  attach_role mid m rk w = (Ok m', w') -> denormalized (w_db w').
Proof.
  intros Hm Hd E. apply attach_run in E as (rid & role & Hr & _ & -> & ->).
  set (m' := m <| mb_permission_keys := _ |>). set (w1 := put_w Tmembership_roles _ _ _).
  assert (Hg : forall k q, grants (w_db w1) k q <-> grants (w_db w) k q \/ (k = mid /\ q ∈ permissions_of (w_db w) rid))
    by (intros k q; apply grants_attached; by eexists).
  assert (Hw1 : w_db w1 Tmemberships = w_db w Tmemberships) by (unfold w1; by rewrite put_w_ne).
  intros k mk Hk. rewrite put_w_eq, Hw1 in Hk. rewrite (same_roles_union None w1 _ k) by apply put_same_roles.
  apply (lookup_put Tmemberships) in Hk as [[<- <-]|[Hne Hk]].
  - change (sorted_set (mb_permission_keys m ++ permissions_of (w_db w) rid) = union_of_roles None (w_db w1) mid).
    apply sorted_set_union. intros q. rewrite elem_of_app, (Hd mid m Hm), elem_of_union, Hg. naive_solver.
  - rewrite (union_ext (w_db w1) (w_db w) k); [by apply Hd|]. intros q. rewrite Hg. naive_solver.
Qed.

(** *** Deleting a role *)

Definition delete_where_w (t : table) (p : key t -> row t -> bool) (w : world) : world :=
  w <| w_db := set_table (w_db w) t (filter (fun kr : key t * row t => p kr.1 kr.2 = false) (w_db w t)) |>.

Lemma delete_where_run {B} t p (f : unit -> M B) w : mbind f (delete_where t p) w = f tt (delete_where_w t p w).
Proof. done. Qed.
Lemma delete_where_eq t p w k r :
  w_db (delete_where_w t p w) t !! k = Some r <-> w_db w t !! k = Some r /\ p k r = false.
Proof. unfold delete_where_w. simpl. by rewrite set_table_eq, map_lookup_filter_Some. Qed.
Lemma delete_where_ne t t' p w : t <> t' -> w_db (delete_where_w t p w) t' = w_db w t'.
Proof. intros. apply set_table_ne. done. Qed.

Lemma reads_scoped_role i o : Reads (_get_scoped_role i o).
Proof. unfold _get_scoped_role. solve_reads. Qed.

(** The tables once the role is gone. *)
Definition role_removed (role_id : uuid) (w : world) : world :=
  del_w Troles role_id
    (delete_where_w Trole_permissions (fun k _ => bool_decide (k.1 = role_id))
      (delete_where_w Tmembership_roles (fun k _ => bool_decide (k.2 = role_id)) w)).

Lemma removed_membership_roles role_id w k r :
  r <> role_id ->
  is_Some (w_db (role_removed role_id w) Tmembership_roles !! ((k, r) : key Tmembership_roles)) <->
  is_Some (w_db w Tmembership_roles !! ((k, r) : key Tmembership_roles)).
Proof.
  intros Hr. unfold role_removed. rewrite del_w_ne, delete_where_ne by done.
  split; intros [u Hu]; exists u; [by apply (delete_where_eq Tmembership_roles) in Hu as [? _]|].
  apply (delete_where_eq Tmembership_roles). split; [done|]. by apply bool_decide_eq_false.
Qed.
Lemma removed_roles role_id w r :
  is_Some (w_db (role_removed role_id w) Troles !! r) <-> r <> role_id /\ is_Some (w_db w Troles !! r).
Proof.
  unfold role_removed. rewrite del_w_eq, !delete_where_ne by done. split.
  - intros [x Hx]. apply (delete_there Troles) in Hx as [? ?]. split; [done|by eexists].
  - intros [? [x Hx]]. exists x. by apply (delete_there Troles).
Qed.
Lemma removed_role_permissions role_id w r p :
  r <> role_id ->
  is_Some (w_db (role_removed role_id w) Trole_permissions !! ((r, p) : key Trole_permissions)) <->
  is_Some (w_db w Trole_permissions !! ((r, p) : key Trole_permissions)).
Proof.
  intros Hr. unfold role_removed. rewrite del_w_ne by done.
  split; intros [u Hu]; exists u.
  - apply (delete_where_eq Trole_permissions) in Hu as [Hu _]. by rewrite delete_where_ne in Hu.
  - apply (delete_where_eq Trole_permissions). rewrite delete_where_ne by done. split; [done|].
    by apply bool_decide_eq_false.
Qed.

Lemma grants_removed role_id w k q :
  ~ is_Some (w_db w Tmembership_roles !! ((k, role_id) : key Tmembership_roles)) ->
  grants (w_db (role_removed role_id w)) k q <-> grants (w_db w) k q.
Proof.
  intros Hno. unfold grants.
  assert (Hp : w_db (role_removed role_id w) Tpermissions = w_db w Tpermissions)
    by (unfold role_removed; by rewrite del_w_ne, !delete_where_ne).
  rewrite Hp. split; intros (r & p & pm & H1 & H2 & H3 & H4 & H5); exists r, p, pm.
  - apply removed_roles in H2 as [Hr H2]. apply removed_membership_roles in H1; [|done].
    apply removed_role_permissions in H3; [|done]. done.
  - assert (Hr : r <> role_id) by by intros ->.
    rewrite removed_membership_roles, removed_roles, removed_role_permissions by done. done.
Qed.

Lemma delete_denormalized role_id org w w' :
  denormalized (w_db w) -> delete_custom_role role_id org w = (Ok tt, w') -> denormalized (w_db w').
Proof.
  intros Hd H. unfold delete_custom_role in H. rewrite run_readonly_bind in H by apply reads_scoped_role.
  case_match; [|done]. revert H. unfold holders_of, read_db. rewrite run_assoc. unfold mbind at 1, M_bind at 1. run.
  rewrite !delete_where_run. run. intros [_ H]%flush_ok. revert H.
  set (l := rows_where Tmemberships _ _). change (del_w Troles role_id _) with (role_removed role_id w).
  set (w1 := role_removed role_id w). rewrite run_total by apply _. intros H.
  assert (Hm : w_db w1 Tmemberships = w_db w Tmemberships)
    by (unfold w1, role_removed; by rewrite del_w_ne, !delete_where_ne).
  assert (Hend : denormalized (w_db (for_each l (refresh_holder None) w1).2)).
  { apply (refresh_denormalizes w); [apply NoDup_fst_rows_where| |done..|].
    - intros k m Hk. apply elem_of_holders in Hk as [Hk _]. by rewrite Hm.
    - intros k q Hk [m Hmk]. rewrite Hm in Hmk. apply grants_removed. intros Hr. apply Hk.
      apply list_elem_of_fmap. exists (k, m). split; [done|]. by apply elem_of_holders. }
  set (w2 := (for_each l _ w1).2) in *.
  assert (E : w' = (invalidate_org_perms org w2).2) by by rewrite H. subst w'.
  apply (denormalized_frame w2); [|by apply keeps_invalidate_org|done].
  apply same_roles_frame. intros t Ht. apply keeps_invalidate_org. by intros ->.
Qed.

(** *** Rewriting the permissions of a role *)

Definition role_local (rid : uuid) : relation world := fun w w' =>
  (forall t, t <> Trole_permissions -> w_db w' t = w_db w t) /\
  (forall r p, r <> rid -> w_db w' Trole_permissions !! ((r, p) : key Trole_permissions) =
                          w_db w Trole_permissions !! ((r, p) : key Trole_permissions)).
#[export] Instance role_local_restorable rid : Restorable (role_local rid).
Proof.
  unfold role_local. split; [split|].
  - by intros w.
  - intros w1 w2 w3 [H1 H1'] [H2 H2']. split.
    + intros t Ht. by rewrite H2, H1.
    + intros r p Hr. by rewrite H2', H1'.
  - done.
Qed.

Lemma local_insert rid p : Stable (role_local rid) (insert_new Trole_permissions (rid, p) tt).
Proof.
  intros w. unfold insert_new. run. destruct (w_db w Trole_permissions !! _); [done|]. split.
  - intros t Ht. simpl. by rewrite set_table_ne.
  - intros r p' Hr. simpl. rewrite set_table_eq. apply (put_other Trole_permissions); [|done]. congruence.
Qed.

Lemma local_delete rid w : role_local rid w (delete_where_w Trole_permissions (fun k _ => bool_decide (k.1 = rid)) w).
Proof.
  split; [intros t Ht; by rewrite delete_where_ne|]. intros r p Hr.
  destruct (w_db w Trole_permissions !! ((r, p) : key Trole_permissions)) as [u|] eqn:E.
  - apply (delete_where_eq Trole_permissions). split; [done|]. by apply bool_decide_eq_false.
  - apply eq_None_not_Some. intros [u Hu]. apply (delete_where_eq Trole_permissions) in Hu as [Hu _]. congruence.
Qed.

Definition holders_in (d : db) (role_id : uuid) : list (key Tmemberships * row Tmemberships) :=
  rows_where Tmemberships (fun k _ =>
    bool_decide (is_Some (d Tmembership_roles !! ((k, role_id) : key Tmembership_roles)))) (d Tmemberships).

Lemma set_role_permissions_run held rid keys w w' :
  _set_role_permissions held rid keys w = (Ok tt, w') ->
  exists w1, role_local rid w w1 /\ w' = (for_each (holders_in (w_db w1) rid) (refresh_holder held) w1).2.
Proof.
  unfold _set_role_permissions. rewrite delete_where_run. run. intros H.
  apply bind_ok in H as ([] & w1 & H1 & H). apply flush_ok in H as [_ H]. exists w1. split.
  - etrans; [apply local_delete|]. match type of H1 with ?m ?w0 = _ => assert (Hs : Stable (role_local rid) m) end.
    { apply stable_for_each; [apply _|]. intros p. apply local_insert. }
    match type of H1 with ?m ?w0 = _ => specialize (Hs w0) end. by rewrite H1 in Hs.
  - unfold _refresh_memberships_for_role, holders_of, read_db in H.
    change (for_each (holders_in (w_db w1) rid) (refresh_holder held) w1 = (Ok tt, w')) in H. by rewrite H.
Qed.

Lemma grants_local rid w w' k q :
  role_local rid w w' -> ~ is_Some (w_db w Tmembership_roles !! ((k, rid) : key Tmembership_roles)) ->
  grants (w_db w') k q <-> grants (w_db w) k q.
Proof.
  intros [Ht Hp] Hn. unfold grants. rewrite (Ht Tmembership_roles), (Ht Troles), (Ht Tpermissions) by done.
  split; intros (r & p & pm & H1 & H2 & H3 & H4 & H5); exists r, p, pm;
    (assert (r <> rid) as Hr by by intros ->); by rewrite Hp in *.
Qed.

Lemma reads_reject l : Reads (reject_unknown l).
Proof. unfold reject_unknown. solve_reads. Qed.

Lemma create_denormalized org rk name desc keys w r w' :
  denormalized (w_db w) ->
  (forall k, w_db w Tmembership_roles !! ((k, w_fresh w) : key Tmembership_roles) = None) ->
  create_custom_role org rk name desc keys w = (Ok r, w') -> denormalized (w_db w').
Proof.
  intros Hd Hfr H. unfold create_custom_role in H. rewrite run_readonly_bind in H by apply reads_reject.
  case_match; [|done]. revert H. run. destruct (rows_where Troles _ _) as [|? [|? ?]]; [|done..]. run.
  set (i := w_fresh w) in *. set (w1 := put_w Troles i _ _). intros [_ H]%flush_ok.
  apply bind_ok in H as ([] & w2 & H & [= <- <-]).
  apply set_role_permissions_run in H as (w3 & Hl & ->). pose proof Hl as [Ht Hp].
  assert (Hmr : w_db w3 Tmembership_roles = w_db w Tmembership_roles)
    by (rewrite Ht by done; unfold w1; by rewrite put_w_ne).
  assert (Hm : w_db w3 Tmemberships = w_db w Tmemberships) by (rewrite Ht by done; unfold w1; by rewrite put_w_ne).
  assert (Hnil : holders_in (w_db w3) i = []).
  { apply (rows_where_nil Tmemberships). intros k m _. rewrite Hmr. apply bool_decide_eq_false. by rewrite Hfr; intros []. }
  rewrite Hnil. simpl. intros k m Hk. rewrite Hm in Hk. rewrite (union_ext (w_db w3) (w_db w) k); [by apply Hd|].
  intros q. rewrite (grants_local i w1 w3 k q Hl).
  - unfold grants, w1. rewrite !put_w_ne, put_w_eq by done. simpl.
    split; intros (r & p & pm & H1 & H2 & H3 & H4 & H5); exists r, p, pm;
      (assert (i <> r) as Hr by (intros <-; rewrite Hfr in H1; by destruct H1)); split_and!; try done.
    + destruct H2 as [x Hx]. exists x. by apply (lookup_put Troles) in Hx as [[? _]|[_ Hx]].
    + destruct H2 as [x Hx]. exists x. by apply (put_other Troles).
  - unfold w1. rewrite put_w_ne by done. simpl. by rewrite Hfr; intros [].
Qed.

(** The set computed through a role the session already holds is the one the role
    gave before the rewrite. *)
Lemma held_union rid w w' k :
  role_local rid w w' ->
  union_of_roles (Some (rid, permissions_of (w_db w) rid)) (w_db w') k = union_of_roles None (w_db w) k.
Proof.
  intros [Ht Hp]. unfold union_of_roles. apply sorted_set_ext. intros q. rewrite !list_elem_of_join.
  assert (Hr : roles_of (w_db w') k = roles_of (w_db w) k)
    by (unfold roles_of; by rewrite (Ht Tmembership_roles), (Ht Troles)).
  rewrite Hr. assert (Hq : forall r, q ∈ loaded_permissions (Some (rid, permissions_of (w_db w) rid)) (w_db w') r <->
                                  q ∈ permissions_of (w_db w) r).
  { intros r. unfold loaded_permissions. case_bool_decide as E; [by subst|]. rewrite !elem_of_permissions_of.
    rewrite (Ht Tpermissions) by done. setoid_rewrite Hp; [done|by intros ->]. }
  split; intros (l & Hql & Hl); apply list_elem_of_fmap in Hl as (r & -> & Hin).
  - exists (permissions_of (w_db w) r). split; [by apply Hq|]. apply list_elem_of_fmap. by exists r.
  - eexists. split; [by apply Hq|]. apply list_elem_of_fmap. by exists r.
Qed.

Lemma renamed_tables name desc role rid w :
  w_db w Troles !! rid = Some role ->
  forall k, union_of_roles None (w_db (put_w Troles rid (renamed_role name desc role) w)) k =
            union_of_roles None (w_db w) k.
Proof.
  intros Hr k. apply union_ext. intros q. unfold grants. rewrite put_w_eq, !put_w_ne by done.
  split; intros (r & p & pm & H1 & H2 & H3 & H4 & H5); exists r, p, pm; split_and!; try done.
  - destruct H2 as [x Hx]. apply (lookup_put Troles) in Hx as [[<- _]|[_ Hx]]; by eexists.
  - destruct H2 as [x Hx]. destruct (decide (rid = r)) as [<-|Hne].
    + eexists. apply (put_same Troles).
    + exists x. by apply (put_other Troles).
Qed.

(** C5: the permission set a membership carries stays the union of its roles'
    permissions when a role is assigned, when a custom role is created, and when
    one is deleted: its former holders lose what only it gave them. *)
Theorem role_edits_keep_denormalization w :
  denormalized (w_db w) ->
  (forall k, w_db w Tmembership_roles !! ((k, w_fresh w) : key Tmembership_roles) = None) ->
  (forall mid (m : membership) rk m' w', w_db w Tmemberships !! mid = Some m ->
     assign_role mid m rk w = (Ok m', w') -> denormalized (w_db w')) /\
  (forall org rk name desc keys r w',
     create_custom_role org rk name desc keys w = (Ok r, w') -> denormalized (w_db w')) /\
  (forall role_id org w', delete_custom_role role_id org w = (Ok tt, w') -> denormalized (w_db w')).
Proof.
  intros Hd Hf. split_and!.
  - intros mid m rk m' w' Hm H. unfold assign_role in H. apply bind_ok in H as (m1 & w1 & H1 & H2).
    rewrite run_total in H2 by apply _. injection H2 as <- <-.
    apply (denormalized_frame w1); [| |by apply (attach_denormalized mid m rk w m1)].
    + apply same_roles_frame. intros t Ht. apply keeps_invalidate_member. by intros ->.
    + by apply keeps_invalidate_member.
  - intros org rk name desc keys r w'. by apply create_denormalized.
  - intros role_id org w'. by apply delete_denormalized.
Qed.

(** Changing the permissions of a role reaches no member: the recomputation
    reads the collection the session loaded before the change, and every
    membership keeps the set it had. *)
Theorem role_update_misses_members w role_id org name desc keys role w' :
  denormalized (w_db w) ->
  update_custom_role role_id org name desc (Some keys) w = (Ok role, w') ->
  w_db w' Tmemberships = w_db w Tmemberships.
Proof.
  intros Hd H. unfold update_custom_role in H. rewrite run_readonly_bind in H by apply reads_scoped_role.
  destruct (_get_scoped_role role_id org w).1 as [r0|] eqn:Hg; [|done].
  assert (Hr0 : w_db w Troles !! role_id = Some r0).
  { revert Hg. unfold _get_scoped_role. run. destruct (w_db w Troles !! role_id) as [x|]; [|done].
    case_bool_decide; [done|]. destruct (ro_is_system _); [done|]. by intros [= <-]. }
  revert H. unfold read_db. unfold mbind at 1, M_bind at 1. run. set (w1 := put_w Troles role_id _ w).
  rewrite run_readonly_bind by apply reads_reject. case_match; [|done]. intros Hrun.
  apply bind_ok in Hrun as ([] & w2 & Hset & H2).
  apply set_role_permissions_run in Hset as (w3 & Hl & ->). pose proof Hl as [Ht _].
  apply bind_ok in H2 as ([] & w4 & H2 & [= _ <-]).
  assert (E4 : w_db w4 Tmemberships = w_db (for_each (holders_in (w_db w3) role_id)
    (refresh_holder (Some (role_id, permissions_of (w_db w) role_id))) w3).2 Tmemberships).
  { pose proof (keeps_invalidate_org Tmemberships org ltac:(discriminate)
      (for_each (holders_in (w_db w3) role_id) (refresh_holder (Some (role_id, permissions_of (w_db w) role_id))) w3).2) as Hk.
    by rewrite H2 in Hk. }
  rewrite E4. assert (Hm : w_db w3 Tmemberships = w_db w Tmemberships)
    by (rewrite Ht by done; unfold w1; by rewrite put_w_ne).
  destruct (refresh_all (Some (role_id, permissions_of (w_db w) role_id)) (holders_in (w_db w3) role_id) w3)
    as (_ & Hin & Hout); [apply NoDup_fst_rows_where|].
  apply map_eq. intros k. destruct (decide (k ∈ (holders_in (w_db w3) role_id).*1)) as [Hk|Hk].
  - apply list_elem_of_fmap in Hk as ([k' m] & -> & Hk). etrans; [apply (Hin _ _ Hk)|].
    apply elem_of_holders in Hk as [Hk _]. rewrite Hm in Hk. etrans; [|symmetry; exact Hk]. apply (f_equal Some).
    assert (Hp : permissions_of (w_db w) role_id = permissions_of (w_db w1) role_id)
      by (unfold permissions_of, w1; by rewrite !put_w_ne).
    rewrite Hp, (held_union role_id w1 w3 k' Hl). unfold w1. rewrite (renamed_tables name desc r0) by done.
    pose proof (Hd k' m Hk) as Hkeys. simpl in Hkeys. rewrite <- Hkeys. by destruct m.
  - etrans; [by apply Hout|]. by rewrite Hm.
Qed.

(** ** The authority of an API key *)

(** An API key is allowed exactly what its scopes name and its creator, still
    active, may exercise at this moment; no other user row matters. *)
Theorem key_authority_bounded fga permission user_id (u : user) tenant w (p : user_context) scopes :
  w_user w = Some p -> ux_api_key_scopes p = Some scopes ->
  (require_permission fga permission user_id u tenant w).1 = Ok tt <->
    permission ∈ scopes /\
    exists c (creator : user), ux_api_key_creator_id p = Some c /\ w_db w Tusers !! c = Some creator /\
      u_is_active creator = true /\
      (u_is_platform_admin creator = true \/
       exists keys, (permission_keys_for c (tx_organization_id tenant) w).1 = Ok keys /\ permission ∈ keys).
Proof.
  intros Hu Hs. unfold require_permission. unfold mbind at 1, M_bind at 1. unfold current_user at 1.
  rewrite Hu. simpl. rewrite Hs. simpl. unfold require_key_permission, holds_key.
  case_bool_decide as Hin; simpl; [|split; [done|by intros []]].
  destruct (ux_api_key_creator_id p) as [c|]; [|split; [done|by intros (_ & ? & ? & ? & _)]].
  run. destruct (w_db w Tusers !! c) as [cu|] eqn:Ec.
  2: { split; [done|]. intros (_ & c' & cu & [= <-] & E & _). same_absent. }
  destruct (u_is_active cu) eqn:Ea.
  2: { split; [done|]. intros (_ & c' & cu' & [= <-] & E & Ha & _). same_row. congruence. }
  simpl. destruct (u_is_platform_admin cu) eqn:Ep; simpl.
  { split; [|done]. intros _. split; [done|]. exists c, cu. split_and!; [done..|by left]. }
  unfold mbind, M_bind. destruct (permission_keys_for c _ w) as [[keys|e] w1] eqn:Ek; simpl.
  - case_bool_decide as Hk; simpl; (split; [|done || intros (_ & c' & cu' & [= <-] & E & _ & [Ha|(keys' & Hk' & Hin')])]).
    + intros _. split; [done|]. exists c, cu. split_and!; [done..|]. right. exists keys. by rewrite Ek.
    + done.
    + same_row. congruence.
    + rewrite Ek in Hk'. simpl in Hk'. by simplify_eq.
  - split; [done|]. intros (_ & c' & cu' & [= <-] & E & _ & [Ha|(keys' & Hk' & Hin')]).
    + same_row. congruence.
    + by rewrite Ek in Hk'.
Qed.

(** ** Witnesses *)

Definition staff_db : db :=
  set_table (set_table (set_table (set_table (set_table (set_table demo_db
    Tpermissions (rows_of Tpermissions
      [(90%N, Permission "org:read" "org" "read" None); (91%N, Permission "audit:read" "audit" "read" None)]))
    Troles (rows_of Troles
      [(80%N, AuthorizationRole None "member" "Member" None true);
       (81%N, AuthorizationRole (Some 1%N) "auditor" "Auditor" None false)]))
    Trole_permissions (rows_of Trole_permissions [((80%N, 90%N), tt); ((81%N, 91%N), tt)]))
    Tmemberships (rows_of Tmemberships
      [(60%N, Membership 1 (Some 7%N) None None "active" None ["audit:read"; "org:read"] NOW);
       (61%N, Membership 1 (Some 8%N) None None "active" None ["org:read"] NOW)]))
    Tmembership_roles (rows_of Tmembership_roles [((60%N, 80%N), tt); ((60%N, 81%N), tt); ((61%N, 80%N), tt)]))
    Tusers (rows_of Tusers [(7%N, User "ann@acme.test" None "Ann" false true None "local" None [])]).
Definition staff : world := world_of staff_db.

Lemma staff_denormalized : denormalized (w_db staff).
Proof. apply (bool_decide_unpack _); vm_compute; exact I. Qed.

Lemma staff_fresh k : w_db staff Tmembership_roles !! ((k, w_fresh staff) : key Tmembership_roles) = None.
Proof.
  change (w_db staff Tmembership_roles) with
    (rows_of Tmembership_roles [((60%N, 80%N), tt); ((60%N, 81%N), tt); ((61%N, 80%N), tt)]).
  apply eq_None_not_Some. intros [u Hu].
  apply lookup_rows_of in Hu; [|apply (bool_decide_unpack _); vm_compute; exact I].
  change (w_fresh staff) with 100%N in Hu. rewrite !elem_of_cons in Hu.
  destruct Hu as [E|[E|[E|E]]]; [discriminate E..|by apply not_elem_of_nil in E].
Qed.

Lemma role_edits_keep_denormalization_witness :
  (delete_custom_role 81 1 staff).1 = Ok tt /\
  denormalized (w_db (delete_custom_role 81 1 staff).2).
Proof.
  assert (H : (delete_custom_role 81 1 staff).1 = Ok tt) by (vm_compute; reflexivity).
  split; [exact H|].
  apply (proj2 (proj2 (role_edits_keep_denormalization staff staff_denormalized staff_fresh)) 81%N 1%N).
  by apply ran.
Defined.

Lemma role_update_misses_members_witness :
  w_db (update_custom_role 81 1 None None (Some ["org:read"]) staff).2 Tmemberships = w_db staff Tmemberships.
Proof.
  assert (H : exists r, (update_custom_role 81 1 None None (Some ["org:read"]) staff).1 = Ok r)
    by (eexists; vm_compute; reflexivity).
  destruct H as [r H].
  apply (role_update_misses_members staff 81 1 None None ["org:read"] r); [apply staff_denormalized|by apply ran].
Defined.

(** A key with two scopes minted by a member who holds one of them. *)
Definition key_principal : user_context :=
  UserContext 999 "apikey:sk_abcde" false ["audit:read"; "org:delete"] (Some 70%N)
    (Some ["audit:read"; "org:delete"]) (Some 7%N).
Definition keyed : world := staff <| w_user := Some key_principal |>.
Definition no_fga (_ _ _ : string) : option bool := None.

Lemma key_authority_bounded_witness :
  let ann := User "ann@acme.test" None "Ann" false true None "local" None [] in
  (require_permission no_fga "audit:read" 7 ann (TenantContext 1 "acme" false) keyed).1 = Ok tt.
Proof.
  intros ann. apply (key_authority_bounded no_fga "audit:read" 7 ann (TenantContext 1 "acme" false) keyed
    key_principal ["audit:read"; "org:delete"] eq_refl eq_refl).
  split; [left|]. exists 7%N, ann. split_and!; [reflexivity|reflexivity|reflexivity|].
  right. exists ["audit:read"; "org:read"]. split; [vm_compute; reflexivity|left].
Defined.
