(* ===== verification/ApiKeys.v ===== *)
(** API keys (api_keys/service.py, api_keys/dependencies.py, the routes of
    api_keys/router.py): minting, revocation, verification, and the context a key
    request runs in.

    [sha256] is the hexadecimal digest of a text; the random part of a new key
    ([secrets.token_urlsafe]) is an argument. *)

From S2P Require Import Prelude Text Permissions Json Errors Events Tables Store Cache Session Fixtures.
From S2P Require Import Repository Authorization.

Definition API_KEY_CREATED : string := "api_key.created".
Definition API_KEY_REVOKED : string := "api_key.revoked".

Definition KEY_PREFIX : string := "sk_".
Definition PREFIX_DISPLAY_LENGTH : nat := 8.

(** [ApiKey.is_active]. *)
Definition key_is_active (t : instant) (k : api_key) : bool :=
  bool_decide (ak_revoked_at k = None) &&
  match ak_expires_at k with None => true | Some e => (t <? e)%Z end.

Section Keys.
Context (sha256 : string -> string).

(** The scopes a key is stored with. *)
Definition snapshot_scopes (creator_keys : option (list string)) (scopes : list string) : list string :=
  match creator_keys, scopes with
  | Some keys, [] => sorted_set keys
  | _, _ => scopes
  end.

Definition exceeding_scopes (creator_keys : option (list string)) (scopes : list string) : list string :=
  match creator_keys with
  | None => []
  | Some keys => sorted_set (filter (.∉ keys) scopes)
  end.

Definition expiry_of (t : instant) (expires_in_days : option Z) : option instant :=
  match expires_in_days with
  | Some d => if (d =? 0)%Z then None else Some (t + days d)%Z
  | None => None
  end.

Definition create_key (token : string) (organization_id : uuid) (name : string) (scopes : list string)
    (expires_in_days : option Z) (created_by : option uuid) (creator_keys : option (list string)) :
    M (uuid * api_key * string) :=
  _ ← reject_unknown scopes;
  let scopes := snapshot_scopes creator_keys scopes in
  _ ← match exceeding_scopes creator_keys scopes with
      | [] => mret tt
      | exceeding => raise_domain PermissionDeniedError [("exceeds_creator", JList (JStr <$> exceeding))]
      end;
  let plaintext := KEY_PREFIX +:+ token in
  i ← fresh_id;
  t ← now;
  let k := ApiKey organization_id name (str_take PREFIX_DISPLAY_LENGTH plaintext) (sha256 plaintext) scopes
             (expiry_of t expires_in_days) None None created_by t in
  _ ← put Tapi_keys i k;
  _ ← flush;
  _ ← audit API_KEY_CREATED (Some organization_id) None "user" (Some "api_key") (Some i)
        (Some [("name", JStr name); ("scopes", JList (JStr <$> scopes))]);
  _ ← append_outbox API_KEY_CREATED "api_key" i
        [("name", JStr name); ("scopes", JList (JStr <$> scopes))] (Some organization_id);
  mret (i, k, plaintext).

Definition list_keys (organization_id : uuid) : M (list (key Tapi_keys * row Tapi_keys)) :=
  rows ← select Tapi_keys (fun _ (k : api_key) => bool_decide (ak_organization_id k = organization_id));
  mret (order_by_desc (fun r : key Tapi_keys * row Tapi_keys => ak_created_at r.2) rows).

Definition _get_scoped (key_id organization_id : uuid) : M api_key :=
  k ← session_get Tapi_keys key_id;
  match (k : option api_key) with
  | None => raise_domain ApiKeyNotFoundError []
  | Some k =>
      if bool_decide (ak_organization_id k <> organization_id)
      then raise_domain ApiKeyNotFoundError [] else mret k
  end.

Definition revoke_key (key_id organization_id : uuid) : M api_key :=
  k ← _get_scoped key_id organization_id;
  t ← now;
  let k := (k : api_key) <| ak_revoked_at := Some t |> in
  _ ← put Tapi_keys key_id k;
  _ ← flush;
  _ ← audit API_KEY_REVOKED (Some organization_id) None "user" (Some "api_key") (Some key_id) None;
  _ ← append_outbox API_KEY_REVOKED "api_key" key_id [("name", JStr (ak_name k))] (Some organization_id);
  mret k.

Definition verify (plaintext : string) : M (option (uuid * api_key)) :=
  if negb (starts_with KEY_PREFIX plaintext) then mret None
  else
    rows ← select Tapi_keys (fun _ (k : api_key) => String.eqb (ak_key_hash k) (sha256 plaintext));
    found ← scalar_one_or_none rows;
    t ← now;
    match found with
    | None => mret None
    | Some (i, k) =>
        if negb (key_is_active t k) then mret None
        else let k := (k : api_key) <| ak_last_used_at := Some t |> in
             _ ← put Tapi_keys i k;
             mret (Some (i, k))
    end.

(** [try_api_key_auth], given the Authorization header. *)
Definition BEARER : string := "Bearer ".
Definition try_api_key_auth (authorization : string) : M (option (uuid * api_key)) :=
  if negb (starts_with BEARER authorization) then mret None
  else
    let token := str_drop (String.length BEARER) authorization in
    if negb (starts_with KEY_PREFIX token) then mret None
    else
      k ← verify token;
      match k with
      | None => raise_domain AuthenticationError []
      | Some k => mret (Some k)
      end.

Definition bind_api_key_context (key_id : uuid) (k : api_key) (org : organization) : M unit :=
  _ ← set_tenant (TenantContext (ak_organization_id k) (o_slug org) false);
  sentinel ← fresh_id;
  set_user (UserContext sentinel ("apikey:" +:+ ak_prefix k) false (ak_scopes k) (Some key_id)
              (Some (ak_scopes k)) (ak_created_by_user_id k)).

(** [POST /api-keys]: the new key is bound by the acting principal and rooted at
    the human behind it. *)
Definition creator_bound (p : user_context) : list string :=
  if bool_decide ("*" ∈ ux_permission_keys p) then PERMISSION_KEYS else ux_permission_keys p.
Definition creator_root (user_id : uuid) (p : user_context) : option uuid :=
  match ux_api_key_id p with Some _ => ux_api_key_creator_id p | None => Some user_id end.

Definition create_key_route (fga_check : string -> string -> string -> option bool) (token : string)
    (tenant : tenant_context) (user_id : uuid) (u : user) (name : string) (scopes : list string)
    (expires_in_days : option Z) : M (uuid * api_key * string) :=
  _ ← require_permission fga_check "apikey:manage" user_id u tenant;
  p ← require_user;
  create_key token (tx_organization_id tenant) name scopes expires_in_days (creator_root user_id p)
    (Some (creator_bound p)).

(** [GET /api-keys] and [DELETE /api-keys/{key_id}]. *)
Definition list_keys_route (fga_check : string -> string -> string -> option bool) (tenant : tenant_context)
    (user_id : uuid) (u : user) (page : page_params) : M (list (key Tapi_keys * row Tapi_keys) * Z) :=
  _ ← require_permission fga_check "apikey:manage" user_id u tenant;
  keys ← list_keys (tx_organization_id tenant);
  mret (paginate_in_memory keys page).

Definition revoke_key_route (fga_check : string -> string -> string -> option bool) (tenant : tenant_context)
    (user_id : uuid) (u : user) (key_id : uuid) : M unit :=
  _ ← require_permission fga_check "apikey:manage" user_id u tenant;
  _ ← revoke_key key_id (tx_organization_id tenant);
  mret tt.
End Keys.

(** ** What a key may do *)

Section KeyLaws.
Context (sha256 : string -> string).

Lemma exceeding_nil keys scopes : exceeding_scopes (Some keys) scopes = [] -> forall s, s ∈ scopes -> s ∈ keys.
Proof.
  intros E s Hs. destruct (decide (s ∈ keys)) as [|Hn]; [done|].
  assert (Hin : s ∈ exceeding_scopes (Some keys) scopes).
  { unfold exceeding_scopes. apply elem_of_sorted_set, list_elem_of_filter. by split. }
  rewrite E in Hin. by apply not_elem_of_nil in Hin.
Qed.

Lemma create_key_run token org name scopes days created_by creator_keys w x w' :
  create_key sha256 token org name scopes days created_by creator_keys w = (Ok x, w') ->
  let '(i, k, plaintext) := x in
  reject_unknown scopes w = (Ok tt, w) /\
  exceeding_scopes creator_keys (snapshot_scopes creator_keys scopes) = [] /\
  ak_scopes k = snapshot_scopes creator_keys scopes /\ ak_organization_id k = org /\
  ak_created_by_user_id k = created_by /\ ak_key_hash k = sha256 plaintext /\
  w_db w' Tapi_keys = <[i := k]> (w_db w Tapi_keys).
Proof.
  intros H. unfold create_key in H. apply bind_ok in H as ([] & w1 & Hr & H).
  assert (w1 = w) as -> by (pose proof (reads_result _ w (reads_reject scopes)) as E; rewrite Hr in E; by injection E).
  apply bind_ok in H as ([] & w1 & He & H).
  destruct (exceeding_scopes creator_keys (snapshot_scopes creator_keys scopes)) as [|? ?] eqn:Ex; [|done].
  injection He as <-. revert H. run. intros [_ H]%flush_ok. revert H. rewrite !run_total by apply _.
  intros [= <- <-]. split_and!; [done..|]. tables. done.
Qed.

Lemma create_key_bounded token org name scopes days created_by keys w i k plaintext w' :
  create_key sha256 token org name scopes days created_by (Some keys) w = (Ok (i, k, plaintext), w') ->
  (forall s, s ∈ ak_scopes k -> s ∈ keys) /\
  (scopes = [] -> ak_scopes k = sorted_set keys) /\
  (scopes <> [] -> ak_scopes k = scopes /\ forall s, s ∈ scopes -> s ∈ PERMISSION_KEYS) /\
  ak_organization_id k = org /\ ak_created_by_user_id k = created_by /\
  w_db w' Tapi_keys !! i = Some k /\ ak_key_hash k = sha256 plaintext.
Proof.
  intros H. apply create_key_run in H as (Hr & Hx & Hs & Ho & Hc & Hh & Hk). split_and!.
  - rewrite Hs. by apply exceeding_nil.
  - intros ->. done.
  - intros Hne. split; [rewrite Hs; by destruct scopes|]. intros s Hin.
    destruct (decide (s ∈ PERMISSION_KEYS)) as [|Hn]; [done|].
    unfold reject_unknown in Hr. assert (Hu : s ∈ unknown_keys scopes)
      by (apply elem_of_sorted_set, list_elem_of_filter; by split).
    destruct (unknown_keys scopes); [by apply not_elem_of_nil in Hu|done].
  - done.
  - done.
  - rewrite Hk. apply (put_same Tapi_keys).
  - done.
Qed.

(** The principal the guard leaves bound: the key itself, or the user with its permissions. *)
Lemma guard_binds fga perm uid u tenant w w1 :
  require_permission fga perm uid u tenant w = (Ok tt, w1) ->
  (exists x parent, w_user w = Some x /\ ux_api_key_scopes x = Some parent /\ w_user w1 = Some x) \/
  ((forall x, w_user w = Some x -> ux_api_key_scopes x = None) /\
   exists keys, w_user w1 = Some (UserContext uid (u_email u) (u_is_platform_admin u) keys None None None) /\
     if u_is_platform_admin u then keys = ["*"]
     else (permission_keys_for uid (tx_organization_id tenant) w).1 = Ok keys).
Proof.
  unfold require_permission. rewrite (run_ok current_user _ w (w_user w) w) by done.
  destruct (w_user w) as [x|] eqn:Ex; cbn [mbind option_bind];
    [destruct (ux_api_key_scopes x) as [parent|] eqn:Es; cbn [fmap option_fmap option_map]|].
  - intros E. left. exists x, parent. split_and!; [done..|]. rewrite <- Ex.
    assert (Hs : Stable same_env (require_key_permission perm parent (ux_api_key_creator_id x) tenant)).
    { unfold require_key_permission, denied, permission_keys_for, cache_get_versioned, cache_set. solve_stable. }
    specialize (Hs w). rewrite E in Hs. apply Hs.
  - intros E. right. split; [intros ? [= <-]; done|]. destruct (u_is_platform_admin u).
    + injection E as <-. by eexists.
    + apply bind_ok in E as (keys & w2 & E1 & E). apply bind_ok in E as (allowed & w3 & _ & E).
      destruct allowed; [|done]. injection E as <-. exists keys. by rewrite E1.
  - intros E. right. split; [done|]. destruct (u_is_platform_admin u).
    + injection E as <-. by eexists.
    + apply bind_ok in E as (keys & w2 & E1 & E). apply bind_ok in E as (allowed & w3 & _ & E).
      destruct allowed; [|done]. injection E as <-. exists keys. by rewrite E1.
Qed.

(** C10: the route mints no key that exceeds whoever asks.  Its scopes lie within a
    bound, requested ones being the key's scopes and all of the catalog, and none
    requested giving the whole bound as it stands.  The bound is, when a key asks, the
    parent's scopes; when an operator of the platform asks, the catalog; when a
    member asks, the permission set the service answers for it in that organization
    (a set that names [*] stands for the catalog).  The key belongs to the tenant
    and is rooted at the user asking, or at the human behind the parent key. *)
Theorem key_never_exceeds_creator fga token tenant uid u name scopes days w i k plaintext w' :
  create_key_route sha256 fga token tenant uid u name scopes days w = (Ok (i, k, plaintext), w') ->
  exists held,
    let bound := if bool_decide ("*" ∈ held) then PERMISSION_KEYS else held in
    (forall s, s ∈ ak_scopes k -> s ∈ bound) /\
    (scopes = [] -> ak_scopes k = sorted_set bound) /\
    (scopes <> [] -> ak_scopes k = scopes /\ forall s, s ∈ scopes -> s ∈ PERMISSION_KEYS) /\
    ak_organization_id k = tx_organization_id tenant /\
    w_db w' Tapi_keys !! i = Some k /\ ak_key_hash k = sha256 plaintext /\
    match w_user w ≫= ux_api_key_scopes with
    | Some parent => forall x j, w_user w = Some x -> ux_permission_keys x = parent -> ux_api_key_id x = Some j ->
        held = parent /\ ak_created_by_user_id k = ux_api_key_creator_id x
    | None => ak_created_by_user_id k = Some uid /\
        if u_is_platform_admin u then held = ["*"]
        else (permission_keys_for uid (tx_organization_id tenant) w).1 = Ok held
    end.
Proof.
  intros E. unfold create_key_route in E. apply bind_ok in E as ([] & w1 & Hg & E). apply guard_binds in Hg.
  assert (Hp : exists p, w_user w1 = Some p) by (destruct Hg as [(x & ? & _ & _ & ->)|(_ & keys & -> & _)]; by eexists).
  destruct Hp as [p Hp]. rewrite (run_ok require_user _ w1 p w1) in E
    by (unfold require_user; rewrite (run_ok current_user _ w1 (Some p) w1); [done|unfold current_user; by rewrite Hp]).
  apply create_key_bounded in E as (H1 & H2 & H3 & H4 & H5 & H6 & H7). exists (ux_permission_keys p). cbv zeta.
  split_and!; [done..|]. destruct Hg as [(x & parent & Hx & Hs & Hx1)|(Hn & keys & Hk & Hkeys)].
  - rewrite Hx. cbn [mbind option_bind]. rewrite Hs. intros x' j [= <-] Hpar Hj.
    rewrite Hp in Hx1. injection Hx1 as ->. split; [done|]. rewrite H5. unfold creator_root. by rewrite Hj.
  - rewrite Hp in Hk. injection Hk as ->. cbn [ux_permission_keys].
    assert (Hnone : w_user w ≫= ux_api_key_scopes = None) by (destruct (w_user w) as [x|]; [by apply Hn|done]).
    rewrite Hnone. split; [by rewrite H5|done].
Qed.

(** Verification accepts a text exactly when it is the plaintext of a stored key
    that is neither revoked nor expired; a revoked key is never accepted again, and
    only its own organization can revoke it. *)
Theorem verify_active_only plaintext w :
  constraints_ok (w_db w) ->
  (forall i k, (verify sha256 plaintext w).1 = Ok (Some (i, k)) <->
     starts_with KEY_PREFIX plaintext = true /\
     exists k0 : api_key, w_db w Tapi_keys !! i = Some k0 /\ ak_key_hash k0 = sha256 plaintext /\
       key_is_active (w_clock w) k0 = true /\ k = k0 <| ak_last_used_at := Some (w_clock w) |>) /\
  (forall i org k w', revoke_key i org w = (Ok k, w') ->
     ak_organization_id k = org /\
     forall t, w_db w' Tapi_keys !! i = Some k /\ key_is_active t k = false).
Proof.
  intros Hok. split.
  - intros i k. unfold verify. destruct (starts_with KEY_PREFIX plaintext); simpl; [|split; [done|by intros []]].
    run. assert (Hu : unique_on Tapi_keys (fun k : api_key => Some (ak_key_hash k)) (w_db w Tapi_keys))
      by (apply constraints_ok_table with (t := Tapi_keys) in Hok; apply Hok).
    set (p := fun (_ : key Tapi_keys) (k : row Tapi_keys) => String.eqb (ak_key_hash k) (sha256 plaintext)).
    change (rows_where Tapi_keys _ (w_db w Tapi_keys)) with (rows_where Tapi_keys p (w_db w Tapi_keys)).
    assert (Hp : forall (j : key Tapi_keys) (r : row Tapi_keys), w_db w Tapi_keys !! j = Some r -> p j r = true ->
      Some (ak_key_hash r) = Some (sha256 plaintext)) by (intros j r _ E; by apply String.eqb_eq in E as ->).
    destruct (rows_where_unique Tapi_keys _ p (sha256 plaintext) _ Hu Hp) as [E|(j & r & E & Hj & Hr)].
    + rewrite E. run. simpl. split; [done|]. intros (_ & k0 & Hk & Hh & _).
      rewrite (rows_where_nil Tapi_keys) in E. specialize (E i k0 Hk). unfold p in E.
      by rewrite Hh, String.eqb_refl in E.
    + rewrite E. run. apply String.eqb_eq in Hr. destruct (key_is_active (w_clock w) r) eqn:Ea; simpl.
      * split.
        -- intros [= <- <-]. split; [done|]. by exists r.
        -- intros (_ & k0 & Hk & Hh & _ & ->).
           assert (i = j) as -> by (apply (unique_on_lookup Tapi_keys _ _ i j k0 r (sha256 plaintext) Hu Hk Hj); congruence).
           by same_row.
      * split; [done|]. intros (_ & k0 & Hk & Hh & Ha & _).
        assert (i = j) as -> by (apply (unique_on_lookup Tapi_keys _ _ i j k0 r (sha256 plaintext) Hu Hk Hj); congruence).
        same_row. congruence.
  - intros i org k w'. unfold revoke_key, _get_scoped. run. destruct (w_db w Tapi_keys !! i) as [k0|] eqn:Ei; [|done].
    case_bool_decide as Ho; [done|]. run. intros [_ H]%flush_ok. revert H. rewrite !run_total by apply _.
    intros [= <- <-]. split; [exact Ho|]. intros t. split; [|done]. tables. apply (put_same Tapi_keys).
Qed.
End KeyLaws.

(** ** Witnesses *)

Definition shout (s : string) : string := "#" +:+ s.
Definition minting : world := staff <| w_user := Some (UserContext 7 "ann@acme.test" false ["audit:read"; "org:read"] None None None) |>.
Definition minted := create_key shout "abcdefghij" 1 "ci" [] (Some 30%Z) (Some 7%N) (Some ["org:read"; "audit:read"]) minting.

(** A member who manages keys mints one without naming scopes. *)
Definition keyring : world := minting <| w_db := set_table (w_db minting) Tmemberships
  (rows_of Tmemberships [(60%N, Membership 1 (Some 7%N) None None "active" None ["apikey:manage"; "org:read"] NOW)]) |>.
Definition keeper : user := User "ann@acme.test" None "Ann" false true None "local" None [].
Definition minting_route := create_key_route shout no_fga "abcdefghij" (TenantContext 1 "acme" false) 7 keeper "ci" [] (Some 30%Z).

Lemma key_never_exceeds_creator_witness :
  exists i k plaintext, (minting_route keyring).1 = Ok (i, k, plaintext) /\
    ak_scopes k = ["apikey:manage"; "org:read"] /\ ak_created_by_user_id k = Some 7%N.
Proof.
  eexists _, _, _. split; [vm_compute; reflexivity|]. split; [vm_compute; reflexivity|].
  edestruct (key_never_exceeds_creator shout no_fga "abcdefghij" (TenantContext 1 "acme" false) 7 keeper "ci" [] (Some 30%Z) keyring)
    as (held & _ & _ & _ & _ & _ & _ & H & _).
  - apply (ran minting_route _ keyring). vm_compute. reflexivity.
  - exact H.
Defined.

Lemma verify_active_only_witness :
  exists i k, (verify shout "sk_abcdefghij" minted.2).1 = Ok (Some (i, k)).
Proof.
  exists 100%N. eexists. apply (verify_active_only shout "sk_abcdefghij" minted.2); [by_compute|].
  split; [reflexivity|]. eexists. split; [vm_compute; reflexivity|]. split; [reflexivity|].
  split; [vm_compute; reflexivity|reflexivity].
Defined.
