(* ===== verification/Subscriptions.v ===== *)
(** The subscription lifecycle: the status state machine
    (subscriptions/state_machine.py) and the service that owns the transitions
    (subscriptions/service.py).

    [one_per_org] is what the partial unique index demands; the commands keep
    it themselves, so their flushes never fail on it. *)

From S2P Require Import Prelude Json Errors Events Tables Store Cache Session Fixtures.

(** ** State machine *)

Definition ALLOWED_TRANSITIONS : list (string * list string) :=
  [("incomplete", ["trialing"; "active"; "past_due"; "canceled"]);
   ("trialing", ["active"; "past_due"; "canceled"; "incomplete"]);
   ("active", ["past_due"; "canceled"; "unpaid"; "active"]);
   ("past_due", ["active"; "canceled"; "unpaid"]);
   ("unpaid", ["active"; "canceled"]);
   ("canceled", ["active"])].

Definition OCCUPYING_STATUSES : list string := ["trialing"; "active"; "past_due"].

Definition allowed_from (current : string) : list string :=
  match list_find (fun e => e.1 = current) ALLOWED_TRANSITIONS with
  | Some (_, (_, targets)) => targets
  | None => []
  end.

Definition can_transition (current target : string) : bool :=
  if String.eqb current target then true else bool_decide (target ∈ allowed_from current).

Definition assert_transition (current target : string) : M unit :=
  if can_transition current target then mret tt
  else raise_domain SubscriptionStateError
         [("from", JStr current); ("to", JStr target);
          ("allowed", JList (JStr <$> sorted_str (allowed_from current)))].

(** ** Plans as the service loads them *)

(** A [Plan] with its features and limits eager-loaded. *)
Record loaded_plan : Type := LoadedPlan {
  lp_id : uuid;
  lp_plan : plan;
  lp_features : list (string * plan_feature);
  lp_limits : list (string * plan_limit)
}.

Definition features_of (i : uuid) (m : rows Tplan_features) : list (string * plan_feature) :=
  map (fun kr : uuid * string * plan_feature => (kr.1.2, kr.2))
    (rows_where Tplan_features (fun (k : uuid * string) _ => N.eqb k.1 i) m).
Definition limits_of (i : uuid) (m : rows Tplan_limits) : list (string * plan_limit) :=
  map (fun kr : uuid * string * plan_limit => (kr.1.2, kr.2))
    (rows_where Tplan_limits (fun (k : uuid * string) _ => N.eqb k.1 i) m).

Definition load_plan (i : uuid) (p : plan) : M loaded_plan :=
  fs ← read_table Tplan_features;
  ls ← read_table Tplan_limits;
  mret (LoadedPlan i p (features_of i fs) (limits_of i ls)).

(** [subscription.plan]: the foreign key always resolves. *)
Definition plan_of (s : subscription) : M loaded_plan :=
  p ← session_get Tplans (s_plan_id s);
  match p with
  | Some p => load_plan (s_plan_id s) p
  | None => raise (PyError "AttributeError")
  end.

(** [_snapshot]: the price and features frozen at purchase. *)
Definition _snapshot (p : loaded_plan) : snapshot :=
  Snapshot (Some (p_key (lp_plan p))) (Some (p_name (lp_plan p))) (p_price_cents (lp_plan p))
    (Some (p_currency (lp_plan p))) (p_interval (lp_plan p))
    (fst <$> filter (fun f => pf_enabled f.2 = true) (lp_features p))
    ((fun l => (l.1, pl_limit_value l.2)) <$> lp_limits p)
    (omap (fun l => match pl_overage_unit l.2, pl_overage_price_cents l.2 with
                    | Some u, Some c => Some (l.1, (u, c))
                    | _, _ => None
                    end) (lp_limits p)).

(** ** Service *)

Definition _entitlement_cache : versioned_cache := VersionedCache "entl" DEFAULT_TTL_SECONDS.
Definition MONTH : Z := days 30.
Definition YEAR : Z := days 365.

Definition interval_delta (p : loaded_plan) : Z :=
  if bool_decide (p_interval (lp_plan p) = Some "year") then YEAR else MONTH.

Definition occupies (org : uuid) (_ : key Tsubscriptions) (s : subscription) : bool :=
  N.eqb (s_organization_id s) org && bool_decide (s_status s ∈ OCCUPYING_STATUSES).

Definition current_for_org (org : uuid) : M (option (uuid * subscription)) :=
  rows ← select Tsubscriptions (occupies org);
  mret (head (order_by_desc (fun r => s_created_at r.2) rows)).

Definition get_or_404 (i : uuid) : M subscription :=
  s ← session_get Tsubscriptions i;
  match s with Some s => mret s | None => raise_domain SubscriptionNotFoundError [] end.

Definition plan_by_key (k : string) (include_archived : bool) : M loaded_plan :=
  rows ← select Tplans (fun _ (p : plan) =>
    String.eqb (p_key p) k && (include_archived || bool_decide (p_archived_at p = None)));
  found ← scalar_one_or_none rows;
  match found with
  | None => raise_domain PlanNotFoundError []
  | Some (i, p) => load_plan i p
  end.

Definition _emit (event_type : string) (i : uuid) (s : subscription) (p : loaded_plan)
    (extra : jobj) : M unit :=
  append_outbox event_type "subscription" i
    (jupdate [("subscription_id", JUuid i); ("organization_id", JUuid (s_organization_id s));
              ("plan_key", JStr (p_key (lp_plan p))); ("status", JStr (s_status s))] extra)
    (Some (s_organization_id s)).

Definition _audit (event_type : string) (org : uuid) (target_id : uuid) (diff : jobj) : M unit :=
  audit event_type (Some org) None "user" (Some "subscription") (Some target_id) (Some diff).

Definition org_key (org : uuid) : string := Z_str (Z.of_N org).

Definition _bump_cache (org : uuid) : M unit :=
  _ ← cache_bump _entitlement_cache (org_key org);
  defer_bump _entitlement_cache (org_key org).

(** The row [create_subscription] adds at [t]. *)
Definition new_subscription (t : instant) (org : uuid) (p : loaded_plan) (status : string)
    (period_start period_end trial_ends_at : option instant)
    (provider provider_subscription_id : option string) (billing_customer_id : option uuid) :
    subscription :=
  let start := default t period_start in
  let end_ := default (start + interval_delta p)%Z period_end in
  Subscription org (lp_id p) status start end_ trial_ends_at false None provider
    provider_subscription_id billing_customer_id (_snapshot p) [] t.

Definition create_subscription (org : uuid) (p : loaded_plan) (status : string)
    (period_start period_end trial_ends_at : option instant)
    (provider provider_subscription_id : option string) (billing_customer_id : option uuid) :
    M (uuid * subscription) :=
  t ← now;
  i ← fresh_id;
  let s := new_subscription t org p status period_start period_end trial_ends_at provider
             provider_subscription_id billing_customer_id in
  _ ← put Tsubscriptions i s;
  _ ← flush;
  _ ← _emit (if String.eqb status "trialing" then SUBSCRIPTION_TRIAL_STARTED
             else SUBSCRIPTION_ACTIVATED) i s p [("organization_id", JUuid org)];
  _ ← _bump_cache org;
  mret (i, s).

Definition start_trial (org : uuid) (plan_key : string) (trial_days : option Z) :
    M (uuid * subscription) :=
  p ← plan_by_key plan_key false;
  if (Z.eqb (p_trial_days (lp_plan p)) 0 && bool_decide (trial_days = None))
  then raise_domain TrialNotAllowedError []
  else
    existing ← current_for_org org;
    if (match existing with Some (_, s) => String.eqb (s_status s) "trialing" | None => false end)
    then raise_domain TrialNotAllowedError []
    else
      let n := default (p_trial_days (lp_plan p)) trial_days in
      t ← now;
      let trial_end := (t + days n)%Z in
      _ ← match existing with
          | Some (i, s) =>
              _ ← assert_transition (s_status s) "canceled";
              put Tsubscriptions i (s <| s_status := "canceled" |> <| s_canceled_at := Some t |>)
          | None => mret tt
          end;
      created ← create_subscription org p "trialing" (Some t) (Some trial_end) (Some trial_end)
                  None None None;
      _ ← _audit SUBSCRIPTION_TRIAL_STARTED org (fst created)
            [("plan", JStr plan_key); ("trial_days", JInt n)];
      mret created.

(** The row [change_plan] leaves for an existing subscription at [t]. *)
Definition changed_plan (t : instant) (s : subscription) (p : loaded_plan)
    (provider provider_subscription_id : option string) (keep_period : bool) : subscription :=
  let s := s <| s_status := "active" |> <| s_plan_id := lp_id p |>
             <| s_plan_snapshot := _snapshot p |> in
  let period_is_live :=
    String.eqb (s_status s) "active" && (t <? s_current_period_end s)%Z in
  let s := if negb (keep_period && period_is_live)
           then s <| s_current_period_start := t |>
                  <| s_current_period_end := (t + interval_delta p)%Z |>
           else s in
  let s := s <| s_cancel_at_period_end := false |> <| s_canceled_at := None |> in
  let s := match provider with Some _ => s <| s_provider := provider |> | None => s end in
  match provider_subscription_id with
  | Some _ => s <| s_provider_subscription_id := provider_subscription_id |>
  | None => s
  end.

Definition change_plan (org : uuid) (plan_key : string)
    (provider provider_subscription_id : option string) (keep_period : bool) :
    M (uuid * subscription) :=
  p ← plan_by_key plan_key false;
  existing ← current_for_org org;
  t ← now;
  match existing with
  | None =>
      create_subscription org p "active" None None None provider provider_subscription_id None
  | Some (i, s) =>
      let from_snapshot := sn_key (s_plan_snapshot s) in
      let s' := changed_plan t s p provider provider_subscription_id keep_period in
      _ ← put Tsubscriptions i s';
      _ ← flush;
      _ ← _emit SUBSCRIPTION_PLAN_CHANGED i s' p
            [("from_plan", JStr (default "None" from_snapshot));
             ("to_plan", JStr (p_key (lp_plan p)))];
      _ ← _audit SUBSCRIPTION_PLAN_CHANGED org i
            [("from", jopt JStr from_snapshot); ("to", JStr (p_key (lp_plan p)))];
      _ ← _bump_cache org;
      mret (i, s')
  end.

Definition _require_current (org : uuid) : M (uuid * subscription) :=
  found ← current_for_org org;
  match found with
  | Some r => mret r
  | None => raise_domain SubscriptionNotFoundError []
  end.

Definition cancel (org : uuid) (at_period_end : bool) : M (uuid * subscription) :=
  found ← _require_current org;
  let '(i, s) := found in
  t ← now;
  _ ← assert_transition (s_status s) "canceled";
  let s' := if at_period_end then s <| s_cancel_at_period_end := true |>
            else s <| s_status := "canceled" |> <| s_canceled_at := Some t |> in
  _ ← put Tsubscriptions i s';
  p ← plan_of s';
  _ ← _emit SUBSCRIPTION_CANCELED i s' p [];
  _ ← _audit SUBSCRIPTION_CANCELED org i [("at_period_end", JBool at_period_end)];
  _ ← _bump_cache org;
  mret (i, s').

Definition resume (org : uuid) : M (uuid * subscription) :=
  found ← _require_current org;
  let '(i, s) := found in
  if s_cancel_at_period_end s then
    let s' := s <| s_cancel_at_period_end := false |> in
    _ ← put Tsubscriptions i s';
    p ← plan_of s';
    _ ← _emit SUBSCRIPTION_RESUMED i s' p [];
    _ ← _bump_cache org;
    mret (i, s')
  else raise_domain SubscriptionNotFoundError [].

Definition apply_provider_transition (i : uuid) (s : subscription) (target_status : string)
    (current_period_end : option instant) : M subscription :=
  _ ← assert_transition (s_status s) target_status;
  let s' := s <| s_status := target_status |> in
  let s' := match current_period_end with
            | Some e => s' <| s_current_period_end := e |>
            | None => s'
            end in
  _ ← put Tsubscriptions i s';
  _ ← flush;
  _ ← _bump_cache (s_organization_id s');
  mret s'.

(** ** Finding the plan and the occupying subscription *)

Lemma occupies_occupied_org org i s : occupies org i s = true <-> occupied_org s = Some org.
Proof.
  unfold occupies, occupied_org, is_occupying, OCCUPYING_STATUSES.
  rewrite andb_true_iff, N.eqb_eq. case_match; naive_solver.
Qed.

(** What [current_for_org] finds in a table that satisfies its constraints. *)
Variant current_spec (org : uuid) (m : rows Tsubscriptions) : option (uuid * subscription) -> Prop :=
  | current_none :
      (forall i s, m !! i = Some s -> occupied_org s <> Some org) -> current_spec org m None
  | current_some i (s : subscription) :
      m !! i = Some s -> occupied_org s = Some org -> current_spec org m (Some (i, s)).

Definition current_in (org : uuid) (m : rows Tsubscriptions) : option (uuid * subscription) :=
  head (order_by_desc (fun r : uuid * subscription => s_created_at r.2)
          (rows_where Tsubscriptions (occupies org) m)).

Lemma run_current {B} org (f : option (uuid * subscription) -> M B) w :
  mbind f (current_for_org org) w = f (current_in org (w_db w Tsubscriptions)) w.
Proof. done. Qed.

Lemma current_in_spec org m : subscriptions_ok m -> current_spec org m (current_in org m).
Proof.
  intros (_ & Hone & _). unfold current_in.
  destruct (rows_where_unique Tsubscriptions occupied_org (occupies org) org m Hone)
    as [E|(k & r & E & Hk & Hp)].
  - intros k r _. apply occupies_occupied_org.
  - rewrite E. constructor. intros i s Hi Ho. apply occupies_occupied_org with (i := i) in Ho.
    by rewrite (proj1 (rows_where_nil _ _ _) E i s Hi) in Ho.
  - rewrite E. by constructor; [|apply occupies_occupied_org in Hp].
Qed.

Lemma occupant_unique m i j (s s' : subscription) org :
  subscriptions_ok m -> m !! i = Some s -> m !! j = Some s' ->
  occupied_org s = Some org -> occupied_org s' = Some org -> i = j.
Proof. intros (_ & Hu & _) Hi Hj Ho Ho'. exact (unique_on_lookup _ _ _ i j s s' _ Hu Hi Hj Ho Ho'). Qed.

Lemma current_is org m i (s : subscription) :
  subscriptions_ok m -> m !! i = Some s -> occupied_org s = Some org ->
  current_in org m = Some (i, s).
Proof.
  intros Hok Hi Ho. destruct (current_in_spec org m Hok) as [Hnone|j s' Hj Ho'].
  - by destruct (Hnone i s).
  - assert (j = i) as -> by (by eapply occupant_unique). by same_row.
Qed.

(** The occupying rows of an organization when row [i] is known to be the one. *)
Lemma occupants_singleton org m i (s : subscription) :
  subscriptions_ok m -> m !! i = Some s -> occupied_org s = Some org ->
  rows_where Tsubscriptions (occupies org) m = [(i, s)].
Proof.
  intros Hok Hi Ho. apply NoDup_all_eq_singleton; [apply NoDup_rows_where| |].
  - apply elem_of_rows_where. by rewrite occupies_occupied_org.
  - intros [j s'] Hj. apply elem_of_rows_where in Hj as [Hj Ho'].
    apply occupies_occupied_org in Ho'.
    assert (j = i) as -> by (by eapply occupant_unique).
    by same_row.
Qed.

Lemma readonly_load_plan i p : Stable eq (load_plan i p).
Proof. unfold load_plan. solve_stable. Qed.
Lemma readonly_plan_by_key k ia : Stable eq (plan_by_key k ia).
Proof. unfold plan_by_key, load_plan. solve_stable. Qed.
#[export] Hint Resolve readonly_load_plan readonly_plan_by_key : stable.

Lemma plan_by_key_err k ia w e :
  constraints_ok (w_db w) -> (plan_by_key k ia w).1 = Err e -> e = Domain PlanNotFoundError [].
Proof.
  intros Hok. pose proof (proj1 (constraints_ok_table _) Hok Tplans) as Hu. simpl in Hu.
  unfold plan_by_key. run.
  set (p := fun _ _ => _ && _).
  destruct (rows_where_unique Tplans (fun p : plan => Some (p_key p)) p k (w_db w Tplans) Hu)
    as [E|(i & r & E & _)].
  - intros i r _ Hp. apply andb_true_iff in Hp as [Hp _]. apply String.eqb_eq in Hp. by subst.
  - rewrite E. simpl. by intros [= <-].
  - rewrite E. simpl. by intros [=].
Qed.

#[export] Instance total_emit a b c d e : Total (_emit a b c d e).
Proof. unfold _emit. apply _. Qed.
#[export] Instance total_audit_ a b c d : Total (_audit a b c d).
Proof. unfold _audit. apply _. Qed.
#[export] Instance total_bump_cache org : Total (_bump_cache org).
Proof. unfold _bump_cache. apply _. Qed.

(** ** Writing subscription rows *)

Definition provider_ref (s : subscription) : option (string * string) :=
  opt_pair (s_provider s) (s_provider_subscription_id s).

(** Updating a row in place: it may stop occupying, or keep doing so. *)
Lemma subscriptions_ok_update m i (s s0 : subscription) :
  subscriptions_ok m -> m !! i = Some s0 -> s_status s ∈ SUBSCRIPTION_STATUSES ->
  occupied_org s = None \/ occupied_org s = occupied_org s0 ->
  provider_ref s = None \/ provider_ref s = provider_ref s0 ->
  subscriptions_ok (<[i := s]> m).
Proof.
  intros (Hc & Ho & Hp) Hi Hs Hocc Href. repeat split.
  - by apply check_in_insert.
  - by eapply unique_on_update.
  - by eapply unique_on_update.
Qed.

(** Adding a row without a provider reference for an organization without an
    occupying one. *)
Lemma subscriptions_ok_add m i (s : subscription) :
  subscriptions_ok m -> s_status s ∈ SUBSCRIPTION_STATUSES ->
  provider_ref s = None ->
  (forall j s', j <> i -> m !! j = Some s' -> occupied_org s' <> Some (s_organization_id s)) ->
  subscriptions_ok (<[i := s]> m).
Proof.
  intros (Hc & Ho & Hp) Hs Href Hocc. repeat split.
  - by apply check_in_insert.
  - apply unique_on_insert; [done|]. intros j r' v Hj Hr Hv. unfold occupied_org in Hv at 1.
    destruct (is_occupying s); [|done]. injection Hv as <-. by eapply Hocc.
  - apply unique_on_insert; [done|]. intros j r' v _ _ Hv. unfold provider_ref in Href. congruence.
Qed.

Lemma subscriptions_table d : constraints_ok d -> subscriptions_ok (d Tsubscriptions).
Proof. intros H. exact (proj1 (constraints_ok_table _) H Tsubscriptions). Qed.
#[export] Hint Resolve subscriptions_table : core.

(** ** The commands *)

Section Bookkeeping.
Context (R : relation world) `{Restorable R}.
Context (R_outbox : forall a b c d e, Stable R (append_outbox a b c d e)).
Context (R_audit : forall a b c d e f g, Stable R (audit a b c d e f g)).
Context (R_cache : forall A (f : _ -> _ -> A * _), Stable R (with_cache f)).
Context (R_defer : forall c k, Stable R (defer_bump c k)).

Lemma stable_emit a b c d e : Stable R (_emit a b c d e).
Proof. apply R_outbox. Qed.
Lemma stable_audit_ a b c d : Stable R (_audit a b c d).
Proof. apply R_audit. Qed.
Lemma stable_bump_cache org : Stable R (_bump_cache org).
Proof. apply stable_bind; [done|apply R_cache|]. intros ?. apply R_defer. Qed.
End Bookkeeping.

(** The bookkeeping of a command touches the outbox, the audit log and the cache
    only. *)
#[export] Hint Extern 1 (Stable _ (_emit _ _ _ _ _)) =>
  apply stable_emit; solve_stable : stable.
#[export] Hint Extern 1 (Stable _ (_audit _ _ _ _)) =>
  apply stable_audit_; solve_stable : stable.
#[export] Hint Extern 1 (Stable _ (_bump_cache _)) =>
  apply stable_bump_cache; [apply _| |]; solve_stable : stable.

Lemma create_subscription_ok org p status ps pe te prov psid bc w :
  let s := new_subscription (w_clock w) org p status ps pe te prov psid bc in
  constraints_ok (w_db w) ->
  subscriptions_ok (<[w_fresh w := s]> (w_db w Tsubscriptions)) ->
  exists w', create_subscription org p status ps pe te prov psid bc w = (Ok (w_fresh w, s), w') /\
    constraints_ok (w_db w') /\
    w_db w' Tsubscriptions = <[w_fresh w := s]> (w_db w Tsubscriptions).
Proof.
  intros s Hok Hs. unfold create_subscription. run. fold s.
  assert (Hok' : constraints_ok (w_db (put_w Tsubscriptions (w_fresh w) s
    (w <| w_fresh := N.succ (w_fresh w) |>)))) by (by apply constraints_put).
  rewrite run_flush by done. run_all. eexists. split; [done|]. split.
  - repeat apply constraints_step; solve_stable.
  - by tables.
Qed.

Lemma occupying_cancelable (s : subscription) org :
  occupied_org s = Some org -> can_transition (s_status s) "canceled" = true.
Proof.
  unfold occupied_org, is_occupying. case_bool_decide as H; [|done]. intros _.
  by repeat (apply elem_of_cons in H as [->|H]; [by vm_compute|]); apply not_elem_of_nil in H.
Qed.

(** The row an immediate cancellation leaves. *)
Definition canceled_at (t : instant) (s : subscription) : subscription :=
  s <| s_status := "canceled" |> <| s_canceled_at := Some t |>.

Lemma subscriptions_ok_cancel m i (s : subscription) t :
  subscriptions_ok m -> m !! i = Some s -> subscriptions_ok (<[i := canceled_at t s]> m).
Proof.
  intros Hok Hi. eapply subscriptions_ok_update; [done|done| |by left|by right].
  by apply (bool_decide_unpack _).
Qed.

Lemma occupied_org_inv (s : subscription) org : occupied_org s = Some org -> s_organization_id s = org.
Proof. unfold occupied_org. case_match; [|done]. congruence. Qed.

(** A new occupying row is accepted once every other row of the organization
    has stopped occupying. *)
Lemma subscriptions_ok_new m i org p t status ps pe te :
  subscriptions_ok m -> status ∈ SUBSCRIPTION_STATUSES ->
  (forall j (s' : subscription), j <> i -> m !! j = Some s' -> occupied_org s' <> Some org) ->
  subscriptions_ok (<[i := new_subscription t org p status ps pe te None None None]> m).
Proof. intros Hok Hs Hocc. by apply subscriptions_ok_add. Qed.

(** Creating an occupying subscription for an organization that has none. *)
Lemma create_first_subscription org p status ps pe te w :
  constraints_ok (w_db w) -> w_db w Tsubscriptions !! w_fresh w = None ->
  status ∈ OCCUPYING_STATUSES ->
  (forall j s', w_db w Tsubscriptions !! j = Some s' -> occupied_org s' <> Some org) ->
  let s := new_subscription (w_clock w) org p status ps pe te None None None in
  exists w', create_subscription org p status ps pe te None None None w = (Ok (w_fresh w, s), w') /\
    constraints_ok (w_db w') /\
    rows_where Tsubscriptions (occupies org) (w_db w' Tsubscriptions) = [(w_fresh w, s)] /\
    (forall j s0, w_db w Tsubscriptions !! j = Some s0 -> w_db w' Tsubscriptions !! j = Some s0).
Proof.
  intros Hok Hfresh Hst Hnone s.
  destruct (create_subscription_ok org p status ps pe te None None None w) as (w' & E & Hok' & Hw');
    [done| |].
  { apply subscriptions_ok_new; [auto|unfold OCCUPYING_STATUSES, SUBSCRIPTION_STATUSES in *; set_solver|].
    intros j s' _. apply Hnone. }
  exists w'. split_and!; [done|done| |].
  - apply occupants_singleton; [by auto|rewrite Hw'; apply lookup_insert_eq|].
    unfold occupied_org, is_occupying. simpl. by rewrite bool_decide_true.
  - intros j s0 Hj. rewrite Hw', lookup_insert_ne; [done|]. by eapply lookup_fresh_ne.
Qed.

(** C1: starting a trial keeps one occupying subscription per organization by
    itself: whenever the constraints held and the next identifier is unused,
    the command never fails on an integrity error.  On success the trialing
    subscription it returns is the organization's only occupying one, ends
    [trial_days] from now, and every other row is as it was except the previous
    occupant, which is canceled now; it fails only with the documented errors,
    and then changes nothing. *)
Theorem start_trial_replaces_occupant org plan_key trial_days w :
  constraints_ok (w_db w) ->
  w_db w Tsubscriptions !! w_fresh w = None ->
  match start_trial org plan_key trial_days w with
  | (Ok (i, s), w') =>
      constraints_ok (w_db w') /\
      rows_where Tsubscriptions (occupies org) (w_db w' Tsubscriptions) = [(i, s)] /\
      s_status s = "trialing" /\
      (exists n, s_trial_ends_at s = Some (w_clock w + days n)%Z /\
                 s_current_period_end s = (w_clock w + days n)%Z /\
                 (forall n', trial_days = Some n' -> n = n')) /\
      (forall j s0, w_db w Tsubscriptions !! j = Some s0 ->
         w_db w' Tsubscriptions !! j =
           Some (if occupies org j s0 then canceled_at (w_clock w) s0 else s0))
  | (Err e, w') => (e = Domain PlanNotFoundError [] \/ e = Domain TrialNotAllowedError []) /\ w' = w
  end.
Proof.
  intros Hok Hfresh. pose proof (subscriptions_table _ Hok) as Hsub.
  unfold start_trial. rewrite run_readonly by auto with stable.
  destruct (plan_by_key plan_key false w).1 as [p|e] eqn:Hp;
    [|by apply plan_by_key_err in Hp as ->; auto].
  destruct (_ && _); [by cbn; auto|]. rewrite run_current.
  set (n := default (p_trial_days (lp_plan p)) trial_days).
  set (e := (w_clock w + days n)%Z).
  assert (Hn : forall n', trial_days = Some n' -> n = n') by (by intros n' ->).
  assert (Htr : "trialing" ∈ OCCUPYING_STATUSES) by (by apply (bool_decide_unpack _)).
  destruct (current_in_spec org _ Hsub) as [Hnone|i s Hi Ho].
  - run. fold e.
    destruct (create_first_subscription org p "trialing" (Some (w_clock w)) (Some e) (Some e) w)
      as (w' & E & Hok' & Hocc & Hold); [done..|].
    rewrite (run_ok _ _ _ _ _ E). run_all. split_and!; [|by tables|done|by exists n|].
    + apply constraints_step; [solve_stable|done].
    + intros j s0 Hj. tables. etrans; [exact (Hold j s0 Hj)|].
      destruct (occupies org j s0) eqn:Eo; [|done]. apply occupies_occupied_org in Eo.
      by destruct (Hnone j s0).
  - destruct (String.eqb (s_status s) "trialing"); [by cbn; auto|]. run.
    unfold assert_transition. rewrite (occupying_cancelable s org Ho). run.
    fold (canceled_at (w_clock w) s). fold e.
    set (w1 := put_w Tsubscriptions i (canceled_at (w_clock w) s) w).
    assert (Hone : forall j s', j <> i -> w_db w Tsubscriptions !! j = Some s' ->
      occupied_org s' <> Some org).
    { intros j s' Hj Hjs Ho'. apply Hj. by eapply occupant_unique. }
    destruct (create_first_subscription org p "trialing" (Some (w_clock w)) (Some e) (Some e) w1)
      as (w' & E & Hok' & Hocc & Hold); [| |done| |].
    { apply constraints_put; [done|]. by apply subscriptions_ok_cancel. }
    { unfold w1. rewrite put_w_eq. apply (put_other Tsubscriptions); [|done].
      intros E'. by apply (lookup_fresh_ne Tsubscriptions _ _ _ _ Hi Hfresh). }
    { intros j s'. unfold w1. rewrite put_w_eq. intros [[<- <-]|[Hne Hj]]%(lookup_put Tsubscriptions); [done|].
      by apply (Hone j). }
    change (w_clock w) with (w_clock w1) at 1. rewrite (run_ok _ _ _ _ _ E). run_all.
    split_and!; [|by tables|done|by exists n|].
    + apply constraints_step; [solve_stable|done].
    + intros j s0 Hj. tables. destruct (occupies org j s0) eqn:Eo.
      * apply occupies_occupied_org in Eo. assert (j = i) as -> by (by eapply occupant_unique).
        same_row. apply Hold. unfold w1. rewrite put_w_eq. apply (put_same Tsubscriptions).
      * apply Hold. unfold w1. rewrite put_w_eq. apply (put_other Tsubscriptions); [|done].
        intros <-. same_row. apply occupies_occupied_org with (i := i) in Ho. congruence.
Qed.

Lemma changed_plan_fields t (s0 : subscription) p provider psid keep_period :
  let s := changed_plan t s0 p provider psid keep_period in
  s_status s = "active" /\ s_plan_id s = lp_id p /\ s_plan_snapshot s = _snapshot p /\
  s_cancel_at_period_end s = false /\ s_canceled_at s = None /\
  s_pending_adjustments s = s_pending_adjustments s0 /\
  (s_current_period_start s, s_current_period_end s) =
    if keep_period && (t <? s_current_period_end s0)%Z
    then (s_current_period_start s0, s_current_period_end s0) else (t, t + interval_delta p)%Z.
Proof.
  unfold changed_plan. simpl.
  by destruct keep_period, (t <? s_current_period_end s0)%Z, provider, psid.
Qed.

(** What a plan change writes, whenever the row it writes respects the indexes. *)
Lemma change_plan_run org plan_key provider psid keep_period w i (s0 : subscription) p :
  constraints_ok (w_db w) ->
  w_db w Tsubscriptions !! i = Some s0 -> occupied_org s0 = Some org ->
  (plan_by_key plan_key false w).1 = Ok p ->
  let s := changed_plan (w_clock w) s0 p provider psid keep_period in
  subscriptions_ok (<[i := s]> (w_db w Tsubscriptions)) ->
  exists w', change_plan org plan_key provider psid keep_period w = (Ok (i, s), w') /\
    constraints_ok (w_db w') /\
    w_db w' Tsubscriptions = <[i := s]> (w_db w Tsubscriptions) /\ w_clock w' = w_clock w.
Proof.
  intros Hok Hi Ho Hp s Hs. pose proof (subscriptions_table _ Hok) as Hsub.
  unfold change_plan. rewrite run_readonly, Hp, run_current by auto with stable.
  rewrite (current_is org _ i s0) by done. run. fold s.
  assert (Hok' : constraints_ok (w_db (put_w Tsubscriptions i s w))) by (by apply constraints_put).
  rewrite run_flush by done. run_all. eexists. split; [done|].
  split; [repeat apply constraints_step; solve_stable|]. split; [by tables|].
  by rewrite !env_clock by solve_stable.
Qed.

Lemma subscriptions_ok_changed m org i (s0 : subscription) t p provider keep_period :
  subscriptions_ok m -> m !! i = Some s0 -> occupied_org s0 = Some org ->
  provider = None \/ s_provider_subscription_id s0 = None \/ s_provider s0 = provider ->
  subscriptions_ok (<[i := changed_plan t s0 p provider None keep_period]> m).
Proof.
  intros Hsub Hi Ho Hprov. set (s := changed_plan _ _ _ _ _ _).
  assert (Hf : s_status s = "active" /\ s_organization_id s = s_organization_id s0 /\
    s_provider_subscription_id s = s_provider_subscription_id s0 /\
    s_provider s = match provider with Some _ => provider | None => s_provider s0 end)
    by (unfold s, changed_plan; by destruct (negb _), provider).
  destruct Hf as (Hst & Horg & Hpsid & Hpr). eapply subscriptions_ok_update; [done|exact Hi|..].
  - rewrite Hst. by apply (bool_decide_unpack _).
  - right. rewrite Ho. apply occupied_org_inv in Ho. unfold occupied_org, is_occupying.
    by rewrite Hst, Horg, Ho.
  - unfold provider_ref. rewrite Hpsid, Hpr. destruct Hprov as [->|[->| <-]]; [by right| |].
    + left. by destruct provider, (s_provider s0).
    + right. by destruct (s_provider s0).
Qed.

(** Changing the plan of an occupied organization edits the occupying row in
    place and cannot fail once the plan exists: the row becomes active on the new
    plan with its terms frozen in the snapshot, a scheduled cancellation is
    dropped, the billing period survives exactly when the caller asks to keep it
    and it has not ended, pending adjustments and provider references are kept,
    and no other row changes. *)
Theorem change_plan_in_place org plan_key keep_period w i (s0 : subscription) p :
  constraints_ok (w_db w) ->
  w_db w Tsubscriptions !! i = Some s0 -> occupied_org s0 = Some org ->
  (plan_by_key plan_key false w).1 = Ok p ->
  exists s w', change_plan org plan_key None None keep_period w = (Ok (i, s), w') /\
    constraints_ok (w_db w') /\
    w_db w' Tsubscriptions = <[i := s]> (w_db w Tsubscriptions) /\
    s_status s = "active" /\ s_plan_id s = lp_id p /\ s_plan_snapshot s = _snapshot p /\
    s_cancel_at_period_end s = false /\ s_canceled_at s = None /\
    s_pending_adjustments s = s_pending_adjustments s0 /\ provider_ref s = provider_ref s0 /\
    (s_current_period_start s, s_current_period_end s) =
      if keep_period && (w_clock w <? s_current_period_end s0)%Z
      then (s_current_period_start s0, s_current_period_end s0)
      else (w_clock w, w_clock w + interval_delta p)%Z.
Proof.
  intros Hok Hi Ho Hp.
  destruct (change_plan_run org plan_key None None keep_period w i s0 p) as (w' & E & Hok' & Htab & _); auto.
  { apply (subscriptions_ok_changed _ org); auto. }
  eexists _, w'. split; [exact E|]. split; [done|]. split; [done|]. unfold changed_plan. simpl.
  destruct keep_period, (w_clock w <? s_current_period_end s0)%Z; done.
Qed.

Definition scheduled (s : subscription) : subscription := s <| s_cancel_at_period_end := true |>.

Lemma run_plan_of {B} s p f (w : world) :
  w_db w Tplans !! s_plan_id s = Some p ->
  exists lp, @mbind M _ _ B f (plan_of s) w = f lp w.
Proof.
  intros Hp. unfold plan_of. run. rewrite_row Hp. unfold load_plan. run. by eexists.
Qed.

Lemma cancel_run org (at_period_end : bool) w i (s : subscription) p :
  subscriptions_ok (w_db w Tsubscriptions) ->
  w_db w Tsubscriptions !! i = Some s -> occupied_org s = Some org ->
  w_db w Tplans !! s_plan_id s = Some p ->
  let s' := if at_period_end then scheduled s else canceled_at (w_clock w) s in
  exists w', cancel org at_period_end w = (Ok (i, s'), w') /\
    w_db w' Tsubscriptions = <[i := s']> (w_db w Tsubscriptions) /\
    w_db w' Tplans = w_db w Tplans.
Proof.
  intros Hsub Hi Ho Hp s'. unfold cancel, _require_current. rewrite run_assoc, run_current.
  rewrite (current_is org _ i s) by done. run.
  unfold assert_transition. rewrite (occupying_cancelable s org Ho). run.
  change (if at_period_end then s <| s_cancel_at_period_end := true |>
    else s <| s_status := "canceled" |> <| s_canceled_at := Some (w_clock w) |>) with s'.
  edestruct (@run_plan_of (uuid * subscription) s' p) as [lp E]; [|rewrite E].
  { tables. by destruct at_period_end. }
  run_all. eexists. split; [done|]. by tables.
Qed.

Lemma resume_run org w i (s : subscription) p :
  subscriptions_ok (w_db w Tsubscriptions) ->
  w_db w Tsubscriptions !! i = Some s -> occupied_org s = Some org ->
  w_db w Tplans !! s_plan_id s = Some p -> s_cancel_at_period_end s = true ->
  let s' := s <| s_cancel_at_period_end := false |> in
  exists w', resume org w = (Ok (i, s'), w') /\
    w_db w' Tsubscriptions = <[i := s']> (w_db w Tsubscriptions).
Proof.
  intros Hsub Hi Ho Hp Hc s'. unfold resume, _require_current. rewrite run_assoc, run_current.
  rewrite (current_is org _ i s) by done. run. rewrite Hc. run. fold s'.
  edestruct (@run_plan_of (uuid * subscription) s' p) as [lp E]; [|rewrite E]; [by tables|].
  run_all. eexists. split; [done|]. by tables.
Qed.

(** A cancellation scheduled for the period end can be taken back: after
    [cancel] then [resume] both commands have succeeded and the subscription
    table is exactly what it was. *)
Theorem cancel_then_resume org w i (s : subscription) p :
  constraints_ok (w_db w) ->
  w_db w Tsubscriptions !! i = Some s -> occupied_org s = Some org ->
  w_db w Tplans !! s_plan_id s = Some p -> s_cancel_at_period_end s = false ->
  exists s1 w1 w2, cancel org true w = (Ok (i, s1), w1) /\ resume org w1 = (Ok (i, s), w2) /\
    w_db w2 Tsubscriptions = w_db w Tsubscriptions.
Proof.
  intros Hok Hi Ho Hp Hc. pose proof (subscriptions_table _ Hok) as Hsub.
  destruct (cancel_run org true w i s p) as (w1 & E1 & Hs1 & Hp1); [done..|].
  assert (Hback : scheduled s <| s_cancel_at_period_end := false |> = s)
    by (destruct s; simpl in Hc; by subst).
  destruct (resume_run org w1 i (scheduled s) p) as (w2 & E2 & Hs2).
  - rewrite Hs1. eapply subscriptions_ok_update; [done|exact Hi| |by right|by right].
    exact (proj1 Hsub i s Hi).
  - rewrite Hs1. apply (put_same Tsubscriptions).
  - done.
  - by rewrite Hp1.
  - done.
  - exists (scheduled s), w1, w2. rewrite Hback in *. split_and!; [done|done|].
    rewrite Hs2, Hs1. by apply (put_back Tsubscriptions).
Qed.

(** An immediate cancellation frees the organization: no subscription
    occupies it afterwards, the row keeps everything but its status and the
    cancellation instant, and neither [cancel] nor [resume] can act on it again. *)
Theorem cancel_now_frees org w i (s : subscription) p :
  constraints_ok (w_db w) ->
  w_db w Tsubscriptions !! i = Some s -> occupied_org s = Some org ->
  w_db w Tplans !! s_plan_id s = Some p ->
  exists w', cancel org false w = (Ok (i, canceled_at (w_clock w) s), w') /\
    w_db w' Tsubscriptions = <[i := canceled_at (w_clock w) s]> (w_db w Tsubscriptions) /\
    rows_where Tsubscriptions (occupies org) (w_db w' Tsubscriptions) = [] /\
    resume org w' = (Err (Domain SubscriptionNotFoundError []), w') /\
    cancel org false w' = (Err (Domain SubscriptionNotFoundError []), w').
Proof.
  intros Hok Hi Ho Hp. pose proof (subscriptions_table _ Hok) as Hsub.
  destruct (cancel_run org false w i s p) as (w' & E & Hs & _); [done..|].
  assert (Hnil : rows_where Tsubscriptions (occupies org) (w_db w' Tsubscriptions) = []).
  { apply rows_where_nil. intros j s'. rewrite Hs.
    intros [[<- <-]|[Hne Hj]]%(lookup_put Tsubscriptions).
    - unfold occupies. by rewrite andb_false_r.
    - apply not_true_is_false. rewrite occupies_occupied_org. intros Ho'.
      apply Hne. by eapply occupant_unique. }
  assert (Hnone : current_in org (w_db w' Tsubscriptions) = None)
    by (unfold current_in; by rewrite Hnil).
  exists w'. split_and!; [done..| |];
    unfold resume, cancel, _require_current; by rewrite run_assoc, run_current, Hnone.
Qed.

(** The row an allowed provider transition leaves. *)
Definition transitioned (target : string) (period_end : option instant) (s : subscription) :
    subscription :=
  let s := s <| s_status := target |> in
  match period_end with Some e => s <| s_current_period_end := e |> | None => s end.

Lemma apply_transition_run i (s : subscription) target period_end w :
  let s1 := transitioned target period_end s in
  can_transition (s_status s) target = true ->
  constraints_ok (w_db w) -> subscriptions_ok (<[i := s1]> (w_db w Tsubscriptions)) ->
  exists w1, apply_provider_transition i s target period_end w = (Ok s1, w1) /\
    constraints_ok (w_db w1) /\ w_db w1 Tsubscriptions = <[i := s1]> (w_db w Tsubscriptions).
Proof.
  intros s1 Hc Hw Hs1. unfold apply_provider_transition, assert_transition. rewrite Hc. run.
  fold (transitioned target period_end s). fold s1.
  rewrite run_flush by (by apply constraints_put). run_all. eexists. split; [done|].
  split; [apply constraints_step; [solve_stable|by apply constraints_put]|by tables].
Qed.

Lemma transitioned_ok m i (s : subscription) target period_end :
  subscriptions_ok m -> m !! i = Some s -> target ∈ SUBSCRIPTION_STATUSES ->
  is_occupying s \/ target ∉ OCCUPYING_STATUSES ->
  subscriptions_ok (<[i := transitioned target period_end s]> m).
Proof.
  intros Hok Hi Hst Hocc. eapply subscriptions_ok_update; [done|exact Hi|by destruct period_end| |].
  - unfold occupied_org, is_occupying, OCCUPYING_STATUSES in *. destruct Hocc as [Hocc|Hocc].
    + apply Is_true_true in Hocc. rewrite Hocc.
      destruct (bool_decide (s_status (transitioned _ _ _) ∈ _)); [right|by left].
      by destruct period_end.
    + left. rewrite bool_decide_false; [done|]. by destruct period_end.
  - right. by destruct period_end.
Qed.

Lemma can_transition_refl st : can_transition st st = true.
Proof. unfold can_transition. by rewrite String.eqb_refl. Qed.

(** Webhook-driven transitions are checked and idempotent: a transition the
    state machine forbids is refused and changes nothing; an allowed one that
    does not make the row occupy anew succeeds, and replaying it on the row it
    left succeeds again and leaves the table as it is. *)
Theorem provider_transition_idempotent i (s : subscription) target period_end w :
  constraints_ok (w_db w) -> w_db w Tsubscriptions !! i = Some s ->
  target ∈ SUBSCRIPTION_STATUSES -> is_occupying s \/ target ∉ OCCUPYING_STATUSES ->
  if can_transition (s_status s) target then
    exists s1 w1 w2, apply_provider_transition i s target period_end w = (Ok s1, w1) /\
      s_status s1 = target /\ w_db w1 Tsubscriptions = <[i := s1]> (w_db w Tsubscriptions) /\
      apply_provider_transition i s1 target period_end w1 = (Ok s1, w2) /\
      w_db w2 Tsubscriptions = w_db w1 Tsubscriptions
  else
    exists extras, apply_provider_transition i s target period_end w =
      (Err (Domain SubscriptionStateError extras), w).
Proof.
  intros Hok Hi Hst Hocc. pose proof (subscriptions_table _ Hok) as Hsub.
  destruct (can_transition (s_status s) target) eqn:Hcan;
    [|unfold apply_provider_transition, assert_transition; rewrite Hcan; eexists; by run].
  set (s1 := transitioned target period_end s).
  assert (Hs1 : s_status s1 = target) by (by unfold s1; destruct period_end).
  assert (Hagain : transitioned target period_end s1 = s1) by (by unfold s1; destruct period_end).
  destruct (apply_transition_run i s target period_end w) as (w1 & E1 & Hok1 & Ht1);
    [done|done|by apply transitioned_ok|].
  destruct (apply_transition_run i s1 target period_end w1) as (w2 & E2 & _ & Ht2).
  - rewrite Hs1. apply can_transition_refl.
  - done.
  - rewrite Hagain, Ht1, (put_twice Tsubscriptions). by apply transitioned_ok.
  - rewrite Hagain in *. exists s1, w1, w2. split_and!; [done..|]. by rewrite Ht2, Ht1, (put_twice Tsubscriptions).
Qed.

(** ** Witnesses *)

Lemma start_trial_replaces_occupant_witness :
  exists i s w', start_trial 1 "pro" None demo = (Ok (i, s), w') /\
    rows_where Tsubscriptions (occupies 1) (w_db w' Tsubscriptions) = [(i, s)] /\
    s_status s = "trialing".
Proof.
  pose proof (start_trial_replaces_occupant 1 "pro" None demo ltac:(by_compute) ltac:(by_compute)) as H.
  destruct (start_trial 1 "pro" None demo) as [[[i s]|e] w'] eqn:E.
  - destruct H as (_ & Hone & Hst & _). by exists i, s, w'.
  - apply (f_equal fst) in E. vm_compute in E. discriminate E.
Defined.

Definition loaded (k : string) (w : world) : loaded_plan :=
  match (plan_by_key k false w).1 with Ok p => p | Err _ => LoadedPlan 0 free_plan [] [] end.

Lemma change_plan_in_place_witness :
  exists s w', change_plan 1 "pro" None None true demo = (Ok (20%N, s), w') /\
    (s_current_period_start s, s_current_period_end s) = ((NOW - days 10)%Z, (NOW + days 20)%Z).
Proof.
  destruct (change_plan_in_place 1 "pro" true demo 20 free_subscription (loaded "pro" demo)
    ltac:(by_compute) ltac:(by_compute) ltac:(by_compute) ltac:(by_compute))
    as (s & w' & E & _ & _ & _ & _ & _ & _ & _ & _ & _ & Hp).
  exists s, w'. split; [exact E|rewrite Hp; reflexivity].
Defined.

Lemma cancel_then_resume_witness :
  exists s1 w1 w2, cancel 1 true demo = (Ok (20%N, s1), w1) /\
    resume 1 w1 = (Ok (20%N, free_subscription), w2).
Proof.
  destruct (cancel_then_resume 1 demo 20 free_subscription free_plan ltac:(by_compute)
    ltac:(by_compute) ltac:(by_compute) ltac:(by_compute) ltac:(by_compute))
    as (s1 & w1 & w2 & E1 & E2 & _).
  by exists s1, w1, w2.
Defined.

Lemma cancel_now_frees_witness :
  exists w', cancel 1 false demo = (Ok (20%N, canceled_at NOW free_subscription), w') /\
    resume 1 w' = (Err (Domain SubscriptionNotFoundError []), w').
Proof.
  destruct (cancel_now_frees 1 demo 20 free_subscription free_plan ltac:(by_compute)
    ltac:(by_compute) ltac:(by_compute) ltac:(by_compute)) as (w' & E & _ & _ & Hr & _).
  by exists w'.
Defined.

Lemma provider_transition_idempotent_witness :
  exists s1 w1 w2, apply_provider_transition 20 free_subscription "past_due" None demo = (Ok s1, w1) /\
    apply_provider_transition 20 s1 "past_due" None w1 = (Ok s1, w2).
Proof.
  destruct (provider_transition_idempotent 20 free_subscription "past_due" None demo
    ltac:(by_compute) ltac:(by_compute) ltac:(by_compute) ltac:(left; by_compute))
    as (s1 & w1 & w2 & E1 & _ & _ & E2 & _).
  by exists s1, w1, w2.
Defined.
