(* ===== verification/Proration.v ===== *)
(** Proration of a mid-period plan change (subscriptions/proration.py).

    [decimal] arithmetic is literal: a division rounded half-even to the 28
    significant digits of the default context, a [quantize] to six places
    rounded half-even, a [quantize] to whole cents rounded half-up.  A fraction
    is kept in millionths.  [total_seconds] and [str] of a period shorter than
    10^9 seconds (thirty-one years) give the exact decimal number of its
    microseconds, and a product of a 64-bit amount with a fraction fits the
    28 digits, so neither rounds. *)

From S2P Require Import Prelude.
Open Scope Z_scope.

Record proration : Type := Proration {
  credit_cents : Z;
  charge_cents : Z;
  fraction_remaining : Z   (* in millionths *)
}.

Definition MILLION : Z := 1000000.
Definition PRECISION : Z := 28.

Definition net_cents (p : proration) : Z := charge_cents p - credit_cents p.
Definition elapsed_fraction (p : proration) : Z := MILLION - fraction_remaining p.

(** The number of decimals that leaves [n / d] at least 28 significant digits:
    the least [e] from [e] on with [10^27 <= n * 10^e / d]. *)
Fixpoint div_exponent (fuel : nat) (n d e : Z) : Z :=
  match fuel with
  | O => e
  | S fuel => if 10 ^ (PRECISION - 1) * d <=? n * 10 ^ e then e else div_exponent fuel n d (e + 1)
  end.

(** [Decimal(n) / Decimal(d)] for [0 <= n <= d]: coefficient and decimals. *)
Definition decimal_div (n d : Z) : Z * Z :=
  let e := div_exponent 64 n d (PRECISION - 1) in (round_half_even (n * 10 ^ e) d, e).

(** [.quantize(Decimal("0.000001"))], in millionths. *)
Definition quantize_millionths (x : Z * Z) : Z := round_half_even (x.1 * MILLION) (10 ^ x.2).

Definition _cents (amount fraction : Z) : Z := round_half_up (amount * fraction) MILLION.

Definition prorate (old_cents new_cents : Z) (period_start period_end now : instant) : proration :=
  let total := period_end - period_start in
  if total <=? 0 then Proration 0 0 0
  else
    let remaining := Z.min (Z.max (period_end - now) 0) total in
    let fraction := quantize_millionths (decimal_div remaining total) in
    Proration (_cents old_cents fraction) (_cents new_cents fraction) fraction.

Definition arrears_adjustment_cents (old_cents new_cents : Z)
    (period_start period_end now : instant) : Z :=
  _cents (old_cents - new_cents) (elapsed_fraction (prorate old_cents new_cents period_start period_end now)).

(** ** Rounding *)

Lemma div_exponent_ge fuel n d e : e <= div_exponent fuel n d e.
Proof.
  revert e. induction fuel as [|fuel IH]; intros e; simpl; [lia|].
  case_match; [lia|]. specialize (IH (e + 1)). lia.
Qed.

Section Fraction.
Context (n d : Z) (Hn : 0 <= n <= d) (Hd : 0 < d).

Let e := div_exponent 64 n d (PRECISION - 1).
Let c := round_half_even (n * 10 ^ e) d.

Lemma exponent_pos : 27 <= e /\ 0 < 10 ^ e.
Proof.
  pose proof (div_exponent_ge 64 n d (PRECISION - 1)) as H. fold e in H. unfold PRECISION in H.
  split; [lia|]. apply Z.pow_pos_nonneg; lia.
Qed.

Lemma coefficient_range : 0 <= c <= 10 ^ e.
Proof.
  destruct exponent_pos as [_ He]. unfold c. split.
  - apply round_half_even_lower; [done|]. nia.
  - apply round_half_even_upper; [done|]. nia.
Qed.

Lemma fraction_range : 0 <= quantize_millionths (decimal_div n d) <= MILLION.
Proof.
  destruct exponent_pos as [_ He]. pose proof coefficient_range as Hc.
  unfold quantize_millionths, decimal_div. cbn [fst snd]. fold e. fold c. unfold MILLION. split.
  - apply round_half_even_lower; [done|]. nia.
  - apply round_half_even_upper; [done|]. nia.
Qed.

Lemma fraction_error :
  Z.abs (2 * (d * quantize_millionths (decimal_div n d) - MILLION * n)) * 10 ^ 21 <= d * (10 ^ 21 + 1).
Proof.
  destruct exponent_pos as [He27 He].
  unfold quantize_millionths, decimal_div. cbn [fst snd]. fold e. fold c.
  pose proof (round_half_even_error (n * 10 ^ e) d Hd) as H1. fold c in H1.
  pose proof (round_half_even_error (c * MILLION) (10 ^ e) He) as H2.
  set (f := round_half_even (c * MILLION) (10 ^ e)) in *. unfold MILLION in *.
  assert (Hp : 10 ^ 27 <= 10 ^ e) by (apply Z.pow_le_mono_r; lia).
  set (p := 10 ^ e) in *. clearbody p f c e.
  assert (Habs : Z.abs (2 * (d * f - 1000000 * n)) * p <= d * p + 1000000 * d).
  { replace (Z.abs (2 * (d * f - 1000000 * n)) * p) with
      (Z.abs (d * (2 * (p * f - c * 1000000)) + 1000000 * (2 * (d * c - n * p)))) by nia.
    nia. }
  change (10 ^ 27) with (1000000 * 10 ^ 21) in Hp. nia.
Qed.
End Fraction.

Lemma fraction_remaining_range old new s e t :
  0 <= fraction_remaining (prorate old new s e t) <= MILLION.
Proof.
  unfold prorate. destruct (Z.leb_spec (e - s) 0); simpl; [unfold MILLION; lia|].
  apply fraction_range; lia.
Qed.

Lemma fraction_whole d : 0 < d -> quantize_millionths (decimal_div d d) = MILLION.
Proof. intros Hd. pose proof (fraction_error d d Hd) as H. unfold MILLION in *. nia. Qed.

Lemma fraction_none d : 0 < d -> quantize_millionths (decimal_div 0 d) = 0.
Proof. intros Hd. pose proof (fraction_error 0 d Hd) as H. unfold MILLION in *. nia. Qed.

Lemma cents_opp a f : _cents (- a) f = - _cents a f.
Proof. unfold _cents. rewrite <- round_half_up_opp. f_equal. lia. Qed.

(** ** Properties *)

(** A proration never refunds or charges more than a whole period: each side
    lies between zero and its price, it is the whole price at or before the
    period's start, and nothing at or after its end or when the period is
    empty. *)
Theorem prorate_bounds old new period_start period_end now :
  0 <= old -> 0 <= new ->
  let p := prorate old new period_start period_end now in
  0 <= credit_cents p <= old /\ 0 <= charge_cents p <= new /\
  (period_start < period_end -> now <= period_start -> credit_cents p = old /\ charge_cents p = new) /\
  (period_end <= now \/ period_end <= period_start -> credit_cents p = 0 /\ charge_cents p = 0).
Proof.
  intros Hold Hnew p. unfold p, prorate.
  destruct (Z.leb_spec (period_end - period_start) 0) as [Hlen|Hlen]; cbn [credit_cents charge_cents];
    [lia|].
  set (total := period_end - period_start) in *. set (remaining := Z.min _ total).
  assert (Hr : 0 <= remaining <= total) by lia.
  pose proof (fraction_range remaining total Hr Hlen) as Hf.
  assert (Hcents : forall a, 0 <= a -> 0 <= _cents a (quantize_millionths (decimal_div remaining total)) <= a).
  { intros a Ha. unfold _cents, MILLION in *. split.
    - apply round_half_up_nonneg; nia.
    - apply round_half_up_upper; nia. }
  split; [by apply Hcents|]. split; [by apply Hcents|]. split.
  - intros _ Hnow. replace remaining with total by lia. rewrite fraction_whole by done.
    unfold _cents. by rewrite !round_half_up_exact.
  - intros Hend. replace remaining with 0 by lia. rewrite fraction_none by done.
    unfold _cents. rewrite !Z.mul_0_r. done.
Qed.

(** The arrears identity the invoicing engine relies on: the whole-period
    plan line at the new price plus the adjustment is, to within half a cent,
    the old price for the elapsed fraction plus the new price for the rest. *)
Theorem arrears_identity old new period_start period_end now :
  let p := prorate old new period_start period_end now in
  let billed := new + arrears_adjustment_cents old new period_start period_end now in
  Z.abs (2 * (MILLION * billed - (old * elapsed_fraction p + new * fraction_remaining p))) <= MILLION.
Proof.
  intros p billed. unfold billed, arrears_adjustment_cents. fold p. unfold _cents.
  pose proof (round_half_up_error ((old - new) * elapsed_fraction p) MILLION ltac:(done)) as H.
  set (r := round_half_up _ _) in *. unfold elapsed_fraction in *.
  replace (MILLION * (new + r) - _) with (MILLION * r - (old - new) * (MILLION - fraction_remaining p))
    by lia. done.
Qed.

(** The fraction is the exact share of the period left, to within half a
    millionth (and a part in 10^21 of it for the 28-digit quotient), and never
    leaves the unit interval. *)
Theorem prorate_fraction_accurate old new period_start period_end now :
  period_start < period_end ->
  let total := period_end - period_start in
  let remaining := Z.min (Z.max (period_end - now) 0) total in
  let f := fraction_remaining (prorate old new period_start period_end now) in
  0 <= f <= MILLION /\
  Z.abs (2 * (total * f - MILLION * remaining)) * 10 ^ 21 <= total * (10 ^ 21 + 1).
Proof.
  intros Hlen total remaining f. split; [apply fraction_remaining_range|].
  unfold f, prorate. fold total. destruct (Z.leb_spec total 0); [lia|]. cbn [fraction_remaining].
  apply fraction_error; lia.
Qed.

(** Changing a plan and changing back at the same instant cancels out to the
    cent, and keeping the price costs nothing. *)
Theorem arrears_round_trip_zero old new period_start period_end now :
  arrears_adjustment_cents old new period_start period_end now +
  arrears_adjustment_cents new old period_start period_end now = 0 /\
  arrears_adjustment_cents old old period_start period_end now = 0.
Proof.
  unfold arrears_adjustment_cents.
  assert (Hf : elapsed_fraction (prorate new old period_start period_end now) =
               elapsed_fraction (prorate old new period_start period_end now))
    by (unfold prorate; by destruct (_ <=? _)).
  rewrite Hf, Z.sub_diag. replace (new - old) with (- (old - new)) by lia. rewrite cents_opp.
  split; [lia|]. done.
Qed.

(** ** Witnesses *)

Lemma prorate_fraction_accurate_witness :
  0 <= fraction_remaining (prorate 1000 3000 0 (days 30) (days 10)) <= MILLION.
Proof. exact (proj1 (prorate_fraction_accurate 1000 3000 0 (days 30) (days 10) eq_refl)). Defined.

Example prorate_two_thirds : prorate 1000 3000 0 (days 30) (days 10) = Proration 667 2000 666667.
Proof. vm_compute. reflexivity. Qed.
