(* ===== verification/Resolver.v ===== *)
(** Entitlement resolution (entitlements/resolver.py): a pure function from
    plan, subscription status and grants to the effective features and limits. *)

From S2P Require Import Prelude.

Definition LIMIT_FEATURE_PREFIX : string := "limit:".

(** [SOURCE_PRIORITY.get(source, 0)] (entitlements/models.py): a source that is
    not listed ranks with the plan. *)
Definition SOURCE_PRIORITY : list (string * Z) :=
  [("plan", 0%Z); ("addon", 10%Z); ("beta", 20%Z); ("promo", 30%Z); ("grandfather", 40%Z);
   ("override", 50%Z); ("enterprise", 60%Z)].
Definition source_priority (source : string) : Z :=
  match list_find (fun e => e.1 = source) SOURCE_PRIORITY with
  | Some (_, (_, p)) => p
  | None => 0
  end.

Record entitlement_grant : Type := EntitlementGrant {
  g_feature_key : string;
  g_source : string;
  g_enabled : bool;
  g_starts_at : instant;
  g_ends_at : option instant;
  g_revoked_at : option instant;
  g_limit_value : option Z
}.

Record overage : Type := Overage { ov_unit : Z; ov_price_cents : Z }.

(** [Overage.bill]: billable blocks and amount; [None] is the
    [ZeroDivisionError] of a zero unit. *)
Definition bill (o : overage) (units_over : Z) : option (Z * Z) :=
  if (units_over <=? 0)%Z then Some (0, 0)%Z
  else if (ov_unit o =? 0)%Z then None
  else let quantity := ceil_div units_over (ov_unit o) in
       Some (quantity, (quantity * ov_price_cents o)%Z).

Record limit : Type := Limit {
  l_value : option Z;
  l_soft_limit_ratio : option float;
  l_overage : option overage
}.

Record entitlement_inputs : Type := EntitlementInputs {
  in_organization_id : uuid;
  in_now : instant;
  in_plan_key : option string;
  in_subscription_status : option string;
  in_plan_features : gset string;
  in_plan_limits : gmap string limit;
  in_grants : list entitlement_grant;
  in_metric_overage : gmap string overage;
  in_grace_on_past_due : bool
}.

Record effective_entitlements : Type := EffectiveEntitlements {
  eff_organization_id : uuid;
  eff_plan_key : option string;
  eff_subscription_status : option string;
  eff_features : gset string;
  eff_limits : gmap string limit
}.

Definition has (e : effective_entitlements) (feature : string) : bool :=
  bool_decide (feature ∈ eff_features e).
Definition limit_of (e : effective_entitlements) (metric : string) : option limit :=
  eff_limits e !! metric.
Definition limit_value (e : effective_entitlements) (metric : string) : option Z :=
  l ← limit_of e metric; l_value l.
Definition within_limit (e : effective_entitlements) (metric : string) (used : Z) : bool :=
  match limit_of e metric with
  | Some l => match l_value l with Some v => (used <? v)%Z | None => true end
  | None => true
  end.

Definition _grant_is_active (g : entitlement_grant) (t : instant) : bool :=
  if bool_decide (is_Some (g_revoked_at g)) then false
  else if (t <? g_starts_at g)%Z then false
  else match g_ends_at g with None => true | Some e => (t <? e)%Z end.

(** [key.startswith(LIMIT_FEATURE_PREFIX)], and the metric behind the prefix. *)
Definition is_limit_key (key : string) : bool := String.prefix LIMIT_FEATURE_PREFIX key.
Definition metric_of (key : string) : string :=
  String.substring (String.length LIMIT_FEATURE_PREFIX)
    (String.length key - String.length LIMIT_FEATURE_PREFIX) key.

Definition plan_active (i : entitlement_inputs) : bool :=
  match in_subscription_status i with
  | None => false
  | Some st =>
      bool_decide (st ∈ ["trialing"; "active"]) || (in_grace_on_past_due i && String.eqb st "past_due")
  end.

Definition active_grants (i : entitlement_inputs) : list entitlement_grant :=
  filter (fun g => _grant_is_active g (in_now i) = true) (in_grants i).

Abbreviation decisions := (gmap string (Z * bool)) (only parsing).

(** The body of the feature loop over the active grants. *)
Definition decide_grant (d : decisions) (g : entitlement_grant) : decisions :=
  if is_limit_key (g_feature_key g) then d
  else
    let priority := source_priority (g_source g) in
    match d !! g_feature_key g with
    | None => <[g_feature_key g := (priority, g_enabled g)]> d
    | Some (p, _) =>
        if (p <? priority)%Z then <[g_feature_key g := (priority, g_enabled g)]> d else d
    end.

Definition plan_decisions (i : entitlement_inputs) : decisions :=
  if plan_active i then set_to_map (fun f => (f, (source_priority "plan", true))) (in_plan_features i)
  else ∅.

Definition feature_decisions (i : entitlement_inputs) : decisions :=
  foldl decide_grant (plan_decisions i) (active_grants i).

(** The body of the limit loop. *)
Definition apply_limit_grant (metric_overage : gmap string overage) (ls : gmap string limit)
    (g : entitlement_grant) : gmap string limit :=
  if negb (is_limit_key (g_feature_key g)) then ls
  else if negb (g_enabled g) then ls
  else
    let metric := metric_of (g_feature_key g) in
    let base := default (Limit None None None) (ls !! metric) in
    <[metric :=
       Limit (match g_limit_value g with Some v => Some v | None => l_value base end)
         (l_soft_limit_ratio base)
         (match l_overage base with Some o => Some o | None => metric_overage !! metric end)]> ls.

Definition resolve_limits (i : entitlement_inputs) : gmap string limit :=
  foldl (apply_limit_grant (in_metric_overage i))
    (if plan_active i then in_plan_limits i else ∅) (active_grants i).

Definition resolve_effective (i : entitlement_inputs) : effective_entitlements :=
  EffectiveEntitlements (in_organization_id i) (in_plan_key i) (in_subscription_status i)
    (dom (filter (fun kd : string * (Z * bool) => kd.2.2 = true) (feature_decisions i)))
    (resolve_limits i).

(** ** Features: one key at a time *)

Definition priority (g : entitlement_grant) : Z := source_priority (g_source g).

(** The active grants that speak about feature [f]. *)
Definition concerns (f : string) (g : entitlement_grant) : Prop :=
  g_feature_key g = f /\ is_limit_key f = false.
#[export] Instance concerns_dec f g : Decision (concerns f g).
Proof. unfold concerns. apply _. Defined.

Definition better (cur : option (Z * bool)) (g : entitlement_grant) : option (Z * bool) :=
  match cur with
  | None => Some (priority g, g_enabled g)
  | Some (p, _) => if (p <? priority g)%Z then Some (priority g, g_enabled g) else cur
  end.

Lemma decide_grant_lookup d g f :
  decide_grant d g !! f = if decide (concerns f g) then better (d !! f) g else d !! f.
Proof.
  unfold decide_grant, better, concerns, priority. case_decide as Hc.
  - destruct Hc as [<- ->]. repeat case_match; by simplify_map_eq.
  - destruct (decide (g_feature_key g = f)) as [<-|].
    + destruct (is_limit_key (g_feature_key g)); [done|tauto].
    + repeat case_match; by simplify_map_eq.
Qed.

Lemma decisions_lookup gs d f :
  foldl decide_grant d gs !! f = foldl better (d !! f) (filter (concerns f) gs).
Proof.
  revert d. induction gs as [|g gs IH]; intros d; [done|]. simpl.
  rewrite IH, decide_grant_lookup, filter_cons. by case_decide.
Qed.

Lemma foldl_better_keeps p e l :
  (forall g, g ∈ l -> (priority g <= p)%Z) -> foldl better (Some (p, e)) l = Some (p, e).
Proof.
  induction l as [|g l IH]; intros H; [done|]. simpl.
  assert ((p <? priority g)%Z = false) as -> by (apply Z.ltb_ge, H; left).
  apply IH. intros g' Hg'. apply H. by right.
Qed.

Lemma foldl_better_below cur l p :
  (forall c, cur = Some c -> (c.1 < p)%Z) -> (forall g, g ∈ l -> (priority g < p)%Z) ->
  forall c, foldl better cur l = Some c -> (c.1 < p)%Z.
Proof.
  revert cur. induction l as [|g l IH]; intros cur Hc Hl; [done|]. simpl. apply IH.
  - intros c. assert (priority g < p)%Z by (apply Hl; left). unfold better.
    destruct cur as [[q e]|]; [|by intros [= <-]]. case_match; [by intros [= <-]|]. by intros [= <-]; apply Hc.
  - intros g' Hg'. apply Hl. by right.
Qed.

Lemma better_lt cur g :
  (forall c, cur = Some c -> (c.1 < priority g)%Z) -> better cur g = Some (priority g, g_enabled g).
Proof.
  intros H. destruct cur as [[p e]|]; [|done]. simpl.
  by rewrite (proj2 (Z.ltb_lt p (priority g)) (H (p, e) eq_refl)).
Qed.

(** Highest priority wins; the earliest on a tie; the starting decision on a
    tie with it. *)
Definition wins (cur : option (Z * bool)) (l : list entitlement_grant) (r : Z * bool) : Prop :=
  (cur = Some r /\ forall g, g ∈ l -> (priority g <= r.1)%Z) \/
  (exists l1 g l2, l = l1 ++ g :: l2 /\ r = (priority g, g_enabled g) /\
     (forall c, cur = Some c -> (c.1 < priority g)%Z) /\
     (forall g', g' ∈ l1 -> (priority g' < priority g)%Z) /\
     (forall g', g' ∈ l2 -> (priority g' <= priority g)%Z)).

Lemma wins_better cur g l r : wins (better cur g) l r -> wins cur (g :: l) r.
Proof.
  intros Hw.
  assert (Hcase : (better cur g = cur /\ exists p e, cur = Some (p, e) /\ (priority g <= p)%Z) \/
    (better cur g = Some (priority g, g_enabled g) /\ forall c, cur = Some c -> (c.1 < priority g)%Z)).
  { destruct cur as [[p e]|]; simpl; [|by right]. destruct (Z.ltb_spec p (priority g)).
    - right. split; [done|]. by intros c [= <-].
    - left. split; [done|]. by exists p, e. }
  destruct Hcase as [[E (p & e & Hcur & Hp)]|[E Hlt]]; rewrite E in Hw;
    destruct Hw as [[Hr Hl]|(l1 & g1 & l2 & -> & -> & Hc & H1 & H2)].
  - left. split; [done|]. intros g' [->|Hg']%elem_of_cons; [|by apply Hl].
    assert (r = (p, e)) as -> by congruence. done.
  - right. exists (g :: l1), g1, l2. split_and!; [done..| |done].
    intros g' [->|Hg']%elem_of_cons; [|by apply H1]. specialize (Hc (p, e) Hcur). simpl in Hc. lia.
  - right. exists [], g, l. injection Hr as <-. split_and!; [done|done|done| |done].
    intros g' Hg'. by apply not_elem_of_nil in Hg'.
  - specialize (Hc _ eq_refl). simpl in Hc. right. exists (g :: l1), g1, l2. split_and!; [done|done| | |done].
    + intros c Hcur. specialize (Hlt c Hcur). lia.
    + intros g' [->|Hg']%elem_of_cons; [done|by apply H1].
Qed.

Lemma foldl_better_spec cur l r : foldl better cur l = Some r <-> wins cur l r.
Proof.
  split.
  - revert cur. induction l as [|g l IH]; intros cur.
    + simpl. intros ->. left. split; [done|]. intros g Hg. by apply not_elem_of_nil in Hg.
    + simpl. intros H. by apply wins_better, IH.
  - intros [[-> Hl]|(l1 & g & l2 & -> & -> & Hc & H1 & H2)].
    + destruct r. by apply foldl_better_keeps.
    + rewrite foldl_app. simpl. rewrite better_lt; [by apply foldl_better_keeps|].
      by apply foldl_better_below.
Qed.

Lemma resolve_feature_decision i f :
  f ∈ eff_features (resolve_effective i) <->
  exists p, foldl better (plan_decisions i !! f) (filter (concerns f) (active_grants i)) = Some (p, true).
Proof.
  unfold resolve_effective. cbn [eff_features]. rewrite elem_of_dom. unfold is_Some.
  setoid_rewrite map_lookup_filter_Some. unfold feature_decisions. setoid_rewrite decisions_lookup.
  split.
  - intros [[p e] [H E]]. simpl in E. subst. by exists p.
  - intros [p H]. by exists (p, true).
Qed.

Lemma plan_decisions_lookup i f :
  plan_decisions i !! f =
    if plan_active i && bool_decide (f ∈ in_plan_features i) then Some (0%Z, true) else None.
Proof.
  unfold plan_decisions. destruct (plan_active i); simpl; [|apply lookup_empty].
  case_bool_decide as H.
  - apply lookup_set_to_map; [by intros ? ? _ _|]. by exists f.
  - apply eq_None_not_Some. intros [x Hx]. apply lookup_set_to_map in Hx; [|by intros ? ? _ _].
    destruct Hx as (f' & Hf' & [= <- <-]). done.
Qed.

(** Conflicts resolve by source priority, as the contract of the resolver
    says: a feature is effective exactly when the plan is in effect, lists it
    and no active grant for it outranks the plan, or when the highest-ranked
    active grant for it (the earliest among equals, ranking above the plan if
    the plan lists the feature) is an enabling one. *)
Theorem resolve_features_by_priority i f :
  let gs := filter (concerns f) (active_grants i) in
  f ∈ eff_features (resolve_effective i) <->
  (plan_active i = true /\ f ∈ in_plan_features i /\ forall g, g ∈ gs -> (priority g <= 0)%Z) \/
  (exists l1 g l2, gs = l1 ++ g :: l2 /\ g_enabled g = true /\
     (plan_active i = true -> f ∈ in_plan_features i -> (0 < priority g)%Z) /\
     (forall g', g' ∈ l1 -> (priority g' < priority g)%Z) /\
     (forall g', g' ∈ l2 -> (priority g' <= priority g)%Z)).
Proof.
  intros gs. rewrite resolve_feature_decision, plan_decisions_lookup. fold gs.
  setoid_rewrite foldl_better_spec. unfold wins.
  destruct (plan_active i) eqn:Ep; simpl; [case_bool_decide as Hf|]; split.
  - intros [p [[[= <-] H]|(l1 & g & l2 & -> & [= -> He] & Hc & H1 & H2)]]; [by left|right].
    exists l1, g, l2. split_and!; try done. intros _ _. by apply (Hc (0%Z, true)).
  - intros [(_ & _ & H)|(l1 & g & l2 & Hgs & He & Hc & H1 & H2)]; [exists 0%Z; by left|].
    exists (priority g). right. exists l1, g, l2. rewrite He. split_and!; try done.
    intros c [= <-]. by apply Hc.
  - intros [p [[? _]|(l1 & g & l2 & -> & [= -> He] & Hc & H1 & H2)]]; [done|right].
    exists l1, g, l2. by split_and!.
  - intros [(_ & ? & _)|(l1 & g & l2 & Hgs & He & Hc & H1 & H2)]; [done|].
    exists (priority g). right. exists l1, g, l2. rewrite He. by split_and!.
  - intros [p [[? _]|(l1 & g & l2 & -> & [= -> He] & Hc & H1 & H2)]]; [done|right].
    exists l1, g, l2. by split_and!.
  - intros [(? & _ & _)|(l1 & g & l2 & Hgs & He & Hc & H1 & H2)]; [done|].
    exists (priority g). right. exists l1, g, l2. rewrite He. by split_and!.
Qed.

(** ** Limits: one metric at a time *)

Lemma prefix_app_inv p s :
  String.prefix p s = true ->
  s = p +:+ String.substring (String.length p) (String.length s - String.length p) s.
Proof.
  revert s. induction p as [|a p IH]; intros s.
  - intros _. rewrite Nat.sub_0_r. change (s = String.substring 0 (String.length s) s).
    induction s as [|b s IHs]; simpl; [done|by f_equal].
  - destruct s as [|b s]; [done|]. simpl. destruct (Ascii.ascii_dec a b) as [<-|]; [|done].
    intros H. exact (f_equal (String a) (IH s H)).
Qed.

Lemma limit_key_metric k : is_limit_key k = true -> k = LIMIT_FEATURE_PREFIX +:+ metric_of k.
Proof. apply prefix_app_inv. Qed.

Lemma is_limit_key_app m : is_limit_key (LIMIT_FEATURE_PREFIX +:+ m) = true.
Proof. by destruct m. Qed.

Lemma metric_of_app m : metric_of (LIMIT_FEATURE_PREFIX +:+ m) = m.
Proof.
  pose proof (limit_key_metric _ (is_limit_key_app m)) as H. by apply app_inv_head_str in H.
Qed.

(** The enabled active grants of the synthetic feature [limit:<metric>]. *)
Definition raises (m : string) (g : entitlement_grant) : Prop :=
  g_feature_key g = LIMIT_FEATURE_PREFIX +:+ m /\ g_enabled g = true.
#[export] Instance raises_dec m g : Decision (raises m g).
Proof. unfold raises. apply _. Defined.

Definition raised (mo : gmap string overage) (m : string) (cur : option limit)
    (g : entitlement_grant) : option limit :=
  let base := default (Limit None None None) cur in
  Some (Limit (match g_limit_value g with Some v => Some v | None => l_value base end)
    (l_soft_limit_ratio base)
    (match l_overage base with Some o => Some o | None => mo !! m end)).

Lemma apply_limit_lookup mo ls g m :
  apply_limit_grant mo ls g !! m =
    if decide (raises m g) then raised mo m (ls !! m) g else ls !! m.
Proof.
  unfold apply_limit_grant. case_decide as Hr.
  - destruct Hr as [-> ->]. rewrite is_limit_key_app, metric_of_app. apply lookup_insert_eq.
  - destruct (is_limit_key (g_feature_key g)) eqn:Ek; simpl; [|done].
    destruct (g_enabled g) eqn:Ee; simpl; [|done].
    rewrite lookup_insert_ne; [done|]. intros <-. apply Hr. by split; [apply limit_key_metric|].
Qed.

Lemma limits_lookup mo gs ls m :
  foldl (apply_limit_grant mo) ls gs !! m = foldl (raised mo m) (ls !! m) (filter (raises m) gs).
Proof.
  revert ls. induction gs as [|g gs IH]; intros ls; [done|]. simpl.
  rewrite IH, apply_limit_lookup, filter_cons. by case_decide.
Qed.

Lemma raised_fold mo m cur l :
  l <> [] ->
  let base := default (Limit None None None) cur in
  foldl (raised mo m) cur l =
    Some (Limit (foldl (fun v g => match g_limit_value g with Some x => Some x | None => v end)
                   (l_value base) l)
            (l_soft_limit_ratio base)
            (match l_overage base with Some o => Some o | None => mo !! m end)).
Proof.
  revert cur. induction l as [|g l IH]; intros cur Hl; [done|]. simpl.
  destruct l as [|g' l]; [done|]. rewrite IH by done. simpl. repeat f_equal.
  destruct (l_overage (default _ cur)); [done|]. by destruct (mo !! m).
Qed.

(** A limit is the plan's unless an active enabled [limit:<metric>] grant
    exists; then its value is the last one the grants set (the plan's if none
    sets one), while the warning ratio stays the plan's and past-limit usage is
    priced by the plan, else by the metric's catalog default. *)
Theorem resolve_limits_by_metric i m :
  let base := if plan_active i then in_plan_limits i !! m else None in
  let gs := filter (raises m) (active_grants i) in
  eff_limits (resolve_effective i) !! m =
    match gs with
    | [] => base
    | _ => Some (Limit
        (foldl (fun v g => match g_limit_value g with Some x => Some x | None => v end)
           (b ← base; l_value b) gs)
        (b ← base; l_soft_limit_ratio b)
        (match b ← base; l_overage b with Some o => Some o | None => in_metric_overage i !! m end))
    end.
Proof.
  intros base gs. unfold resolve_effective, resolve_limits. cbn [eff_limits].
  rewrite limits_lookup. fold gs.
  assert ((if plan_active i then in_plan_limits i else ∅) !! m = base) as ->
    by (unfold base; by destruct (plan_active i)).
  destruct gs as [|g gs'] eqn:E; [done|]. rewrite raised_fold by done. by destruct base.
Qed.

(** Revoked, future and lapsed grants are irrelevant: an organization whose
    grants differ only by inactive ones resolves to the same entitlements. *)
Theorem inactive_grants_irrelevant i gs :
  filter (fun g => _grant_is_active g (in_now i) = true) gs = active_grants i ->
  resolve_effective (EntitlementInputs (in_organization_id i) (in_now i) (in_plan_key i)
    (in_subscription_status i) (in_plan_features i) (in_plan_limits i) gs (in_metric_overage i)
    (in_grace_on_past_due i)) = resolve_effective i.
Proof.
  intros H. unfold resolve_effective, resolve_limits, feature_decisions, plan_decisions, active_grants,
    plan_active in *. cbn in *. by rewrite H.
Qed.

(** An organization without an occupying subscription gets nothing from the
    plan the service falls back to: its features come from enabling grants only
    and every limit from a grant. *)
Theorem no_subscription_no_plan_features i :
  in_subscription_status i = None ->
  (forall f, f ∈ eff_features (resolve_effective i) ->
     exists g, g ∈ active_grants i /\ g_feature_key g = f /\ g_enabled g = true) /\
  (forall m, is_Some (eff_limits (resolve_effective i) !! m) ->
     exists g, g ∈ active_grants i /\ raises m g).
Proof.
  intros Hst. assert (Hp : plan_active i = false) by (unfold plan_active; by rewrite Hst). split.
  - intros f. rewrite resolve_feature_decision, plan_decisions_lookup, Hp. simpl.
    intros [p [[? _]|(l1 & g & l2 & Hgs & [= -> He] & _)]%foldl_better_spec]; [done|].
    assert (Hg : g ∈ filter (concerns f) (active_grants i))
      by (rewrite Hgs; apply elem_of_app; right; left).
    apply list_elem_of_filter in Hg as [[Hk _] Hg]. by exists g.
  - intros m. unfold resolve_effective, resolve_limits. cbn [eff_limits].
    rewrite limits_lookup, Hp, lookup_empty.
    destruct (filter (raises m) (active_grants i)) as [|g l] eqn:E; [by intros [? ?]|]. intros _.
    assert (Hg : g ∈ filter (raises m) (active_grants i)) by (rewrite E; left).
    apply list_elem_of_filter in Hg as [Hr Hg]. by exists g.
Qed.

(** An overage bill reconciles: the amount is quantity times the unit price,
    nothing is billed within the limit, and beyond it the billed blocks cover
    the excess with less than one block to spare. *)
Theorem overage_bill_reconciles o units_over :
  (0 < ov_unit o)%Z ->
  exists quantity, bill o units_over = Some (quantity, (quantity * ov_price_cents o)%Z) /\
  (0 <= quantity)%Z /\
  if (units_over <=? 0)%Z then quantity = 0%Z
  else (units_over <= ov_unit o * quantity < units_over + ov_unit o)%Z.
Proof.
  intros Hu. unfold bill. destruct (Z.leb_spec units_over 0); [by exists 0%Z|].
  rewrite (proj2 (Z.eqb_neq _ _)) by lia.
  pose proof (ceil_div_spec units_over (ov_unit o) Hu). eexists. split; [done|]. split; [nia|lia].
Qed.

(** ** Witnesses *)

Definition sample_grant : entitlement_grant := EntitlementGrant "sso" "addon" true 0 None None None.
Definition sample_inputs : entitlement_inputs :=
  EntitlementInputs 1 100 (Some "free") None {["reports"]} ∅ [sample_grant] ∅ true.

Lemma inactive_grants_irrelevant_witness :
  resolve_effective (EntitlementInputs 1 100 (Some "free") None {["reports"]} ∅
    [sample_grant; EntitlementGrant "sso" "enterprise" false 0 (Some 50%Z) None None] ∅ true) =
  resolve_effective sample_inputs.
Proof. apply (inactive_grants_irrelevant sample_inputs). reflexivity. Defined.

Lemma no_subscription_no_plan_features_witness :
  exists g, g ∈ active_grants sample_inputs /\ g_feature_key g = "sso" /\ g_enabled g = true.
Proof.
  apply (proj1 (no_subscription_no_plan_features sample_inputs eq_refl) "sso").
  apply (bool_decide_unpack _). vm_compute. exact I.
Defined.

Lemma overage_bill_reconciles_witness :
  exists quantity, bill (Overage 100 5) 250 = Some (quantity, (quantity * 5)%Z) /\
    (250 <= 100 * quantity < 350)%Z.
Proof.
  destruct (overage_bill_reconciles (Overage 100 5) 250 eq_refl) as (q & E & _ & H).
  exists q. split; [exact E|exact H].
Defined.
