(* ===== verification/Interfaces.v ===== *)
(** What the services promise each other: a client's theorems are proved against
    the class, the implementation is an instance. *)

From S2P Require Import Prelude Json Errors Events Tables Store Cache Session Resolver.

(** Reading the effective entitlements of an organization
    ([EntitlementService.effective_for_org], as metering, invoicing and the
    gates use it): it may fill its own cache, and touches no table, nothing of the
    environment and none of the permissions and decisions cached. *)
Class EntitlementReader := {
  effective_for : uuid -> M effective_entitlements;
  effective_tables org w : forall t, w_db (effective_for org w).2 t = w_db w t;
  effective_env org : Stable same_env (effective_for org);
  effective_fresh org w : w_fresh (effective_for org w).2 = w_fresh w;
  effective_decisions org : Stable keeps_decisions (effective_for org)
}.

Section Reader.
Context `{EntitlementReader}.

Lemma effective_keeps t org : Stable (keeps t) (effective_for org).
Proof. intros w. apply effective_tables. Qed.

Lemma effective_constraints org : Stable keeps_constraints (effective_for org).
Proof.
  intros w. unfold keeps_constraints. rewrite !constraints_ok_table.
  intros Hok t. rewrite effective_tables. apply Hok.
Qed.
End Reader.

#[export] Hint Resolve effective_keeps effective_constraints effective_env effective_decisions : stable.
