(* ===== verification/Entitlements.v ===== *)
(** The entitlement service (entitlements/service.py): assembling the resolver's
    inputs, the per-organization cache of the outcome, and the grants. *)

From S2P Require Import Prelude Json Errors Events Tables Store Dynamic Cache Session Fixtures.
From S2P Require Import Subscriptions Resolver Interfaces.

Definition _cache : versioned_cache := VersionedCache "entl" 60.

(** ** Serialization *)

Definition serialize_overage (o : overage) : json :=
  JObj [("unit", JInt (ov_unit o)); ("price_cents", JInt (ov_price_cents o))].

Definition serialize_limit (l : limit) : json :=
  JObj [("value", jopt JInt (l_value l)); ("soft_limit_ratio", jopt JFloat (l_soft_limit_ratio l));
        ("overage", jopt serialize_overage (l_overage l))].

Definition _serialize (e : effective_entitlements) : json :=
  JObj [("organization_id", JUuid (eff_organization_id e));
        ("plan_key", jopt JStr (eff_plan_key e));
        ("subscription_status", jopt JStr (eff_subscription_status e));
        ("features", JList (JStr <$> sorted_str (elements (eff_features e))));
        ("limits", JObj ((fun ml => (ml.1, serialize_limit ml.2)) <$> map_to_list (eff_limits e)))].

Definition deserialize_limit (j : json) : result limit :=
  v ← member "value" j; value ← as_opt_int v;
  r ← as_opt_float (match j with JObj o => default JNull (jget "soft_limit_ratio" o) | _ => JNull end);
  ov ← match j with
       | JObj o =>
           match jget "overage" o with
           | None | Some JNull | Some (JObj []) => Ok None
           | Some ov =>
               u ← member "unit" ov; unit ← as_int u;
               p ← member "price_cents" ov; price ← as_int p;
               Ok (Some (Overage unit price))
           end
       | _ => TypeError
       end;
  Ok (Limit value r ov).

Definition _deserialize (raw : cached) : result effective_entitlements :=
  match raw with
  | CText _ => Err (PyError "JSONDecodeError")
  | CJson data =>
      i ← member "organization_id" data;
      org ← match i with
            | JUuid u => Ok u
            | JStr _ => Err (PyError "ValueError")
            | _ => Err (PyError "AttributeError")
            end;
      p ← member "plan_key" data; plan_key ← as_opt_str p;
      st ← member "subscription_status" data; status ← as_opt_str st;
      fs ← member "features" data; fs ← as_list fs; features ← map_result as_str fs;
      ls ← member "limits" data;
      limits ← match ls with
               | JObj o => map_result (fun ml => l ← deserialize_limit ml.2; Ok (ml.1, l)) o
               | _ => Err (PyError "AttributeError")
               end;
      Ok (EffectiveEntitlements org plan_key status (list_to_set features) (list_to_map limits))
  end.

(** ** Resolution *)

(** [except (JSONDecodeError, KeyError, TypeError)]. *)
Definition is_corrupt (e : exn) : bool :=
  match e with
  | PyError n => bool_decide (n ∈ ["JSONDecodeError"; "KeyError"; "TypeError"])
  | Domain _ _ => false
  end.

(** [float(Decimal)] of a ratio kept in hundredths; zero counts as no ratio. *)
Definition float_ratio (hundredths : option Z) : option float :=
  if truthy_int hundredths
  then Some (float_div (float_of_Z (or0 hundredths)) (float_of_Z 100)) else None.

Definition limit_of_row (pl : plan_limit) : limit :=
  Limit (pl_limit_value pl) (float_ratio (pl_soft_limit_ratio pl))
    (match pl_overage_unit pl, pl_overage_price_cents pl with
     | Some u, Some c => Some (Overage u c)
     | _, _ => None
     end).

Definition grant_of_row (e : entitlement) : entitlement_grant :=
  EntitlementGrant (e_feature_key e) (e_source e) (e_enabled e) (e_starts_at e) (e_ends_at e)
    (e_revoked_at e) (e_limit_value e).

Definition unrevoked (org : uuid) (_ : uuid) (e : entitlement) : bool :=
  N.eqb (e_organization_id e) org && bool_decide (e_revoked_at e = None).

Definition overage_of_metric (m : metric) : overage :=
  Overage (if truthy_int (m_overage_unit m) then or0 (m_overage_unit m) else 1)
    (or0 (m_overage_price_cents m)).

(** [subscription.plan], else the default plan; no catalog yet means no plan. *)
Definition plan_in_force (sub : option (uuid * subscription)) : M (option loaded_plan) :=
  settings ← get_settings;
  match sub with
  | Some (_, s) => p ← plan_of s; mret (Some p)
  | None =>
      try_catch (p ← plan_by_key (st_default_plan_key settings) false; mret (Some p))
        (fun e => match e with
                  | Domain c _ =>
                      if is_subclass c PlanNotFoundError then Some (mret None) else None
                  | PyError _ => None
                  end)
  end.

Definition _compute (org : uuid) : M effective_entitlements :=
  settings ← get_settings;
  sub ← current_for_org org;
  plan ← plan_in_force sub;
  rows ← select Tentitlements (unrevoked org);
  metric_rows ← select Tmetrics (fun _ (m : metric) =>
    bool_decide (is_Some (m_overage_price_cents m)));
  t ← now;
  mret (resolve_effective (EntitlementInputs org t
    (p ← plan; Some (p_key (lp_plan p)))
    (s ← sub; Some (s_status s.2))
    (list_to_set (match plan with Some p => fst <$> lp_features p | None => [] end))
    (list_to_map (match plan with
                  | Some p => (fun ml => (ml.1, limit_of_row ml.2)) <$> lp_limits p
                  | None => []
                  end))
    (map (fun r : uuid * entitlement => grant_of_row r.2) rows)
    (list_to_map (map (fun r : string * metric => (r.1, overage_of_metric r.2)) metric_rows))
    (st_grace_on_past_due settings))).

Definition effective_for_org (org : uuid) : M effective_entitlements :=
  r ← cache_get_versioned _cache (org_key org);
  let '(cached, version) := (r : option Store.cached * Z) in
  let recompute :=
    e ← _compute org;
    _ ← cache_set _cache (org_key org) (CJson (_serialize e)) version;
    mret e in
  match cached with
  | None => recompute
  | Some body =>
      match _deserialize body with
      | Ok e => mret e
      | Err e => if is_corrupt e then recompute else raise e
      end
  end.

Definition _invalidate (org : uuid) : M unit :=
  _ ← cache_bump _cache (org_key org);
  defer_bump _cache (org_key org).

Definition plans_with_feature (feature : string) : M (list string) :=
  rows ← select Tplan_features (fun k (pf : plan_feature) =>
    String.eqb (snd (k : uuid * string)) feature && pf_enabled pf);
  plans ← read_table Tplans;
  mret (sorted_str (remove_dups
    (omap (fun r : uuid * string * plan_feature =>
             p_key <$> (plans !! (r.1.1 : key Tplans) : option plan)) rows))).

Definition require_feature (org : uuid) (feature : string) : M effective_entitlements :=
  e ← effective_for_org org;
  if negb (has e feature) then
    available_in ← plans_with_feature feature;
    raise_domain FeatureNotEntitledError
      [("feature", JStr feature); ("current_plan", jopt JStr (eff_plan_key e));
       ("available_in", JList (JStr <$> available_in)); ("upgrade_url", JStr "/dashboard/billing")]
  else mret e.

(** ** Grants *)

Definition grant (org : uuid) (feature_key source : string) (duration_days : option Z)
    (enabled : bool) (note : option string) (limit_value : option Z)
    (created_by_user_id : option uuid) : M (uuid * entitlement) :=
  t ← now;
  let ends_at := if truthy_int duration_days then Some (t + days (or0 duration_days))%Z else None in
  i ← fresh_id;
  let e := Entitlement org feature_key source enabled t ends_at note limit_value
             created_by_user_id None in
  _ ← put Tentitlements i e;
  _ ← flush;
  _ ← append_outbox ENTITLEMENT_GRANTED "entitlement" i
        [("feature_key", JStr feature_key); ("source", JStr source);
         ("ends_at", jopt JTime ends_at); ("limit_value", jopt JInt limit_value)] (Some org);
  _ ← _invalidate org;
  mret (i, e).

Definition get_grant (i : uuid) : M entitlement :=
  e ← session_get Tentitlements i;
  match e with
  | Some e => mret e
  | None => raise_domain EntitlementNotFoundError [("entitlement_id", JUuid i)]
  end.

Definition revoke (i : uuid) : M entitlement :=
  found ← session_get Tentitlements i;
  match found with
  | None => raise_domain EntitlementNotFoundError []
  | Some e =>
      t ← now;
      let e' := (e : entitlement) <| e_revoked_at := Some t |> in
      _ ← put Tentitlements i e';
      _ ← flush;
      _ ← append_outbox ENTITLEMENT_REVOKED "entitlement" i
            [("feature_key", JStr (e_feature_key e'))] (Some (e_organization_id e'));
      _ ← _invalidate (e_organization_id e');
      mret e'
  end.

(** ** The cached body *)

Lemma deserialize_serialize_limit l : deserialize_limit (serialize_limit l) = Ok l.
Proof. destruct l as [[v|] [r|] [[u p]|]]; done. Qed.

Lemma map_result_fmap {A B} (f : A -> result B) (g : B -> A) l :
  (forall b, f (g b) = Ok b) -> map_result f (g <$> l) = Ok l.
Proof. intros Hfg. induction l as [|b l IH]; [done|].
  rewrite fmap_cons. cbn [map_result]. by rewrite Hfg, IH. Qed.

(** What [effective_for_org] caches reads back as exactly what was resolved. *)
Theorem deserialize_serialize e : _deserialize (CJson (_serialize e)) = Ok e.
Proof.
  destruct e as [org pk st fs ls]. unfold _serialize, _deserialize. cbn -[map_result sorted_str].
  assert (Hopt : forall o, as_opt_str (jopt JStr o) = Ok o) by (by intros [?|]).
  rewrite !Hopt. cbn -[map_result sorted_str]. rewrite (map_result_fmap as_str JStr) by (by intros ?).
  cbn -[map_result sorted_str].
  rewrite (map_result_fmap _ (fun ml : string * limit => (ml.1, serialize_limit ml.2))).
  - simpl. rewrite list_to_map_to_list. do 2 f_equal. apply set_eq. intros f.
    by rewrite elem_of_list_to_set, elem_of_sorted_str, elem_of_elements.
  - intros [m l]. simpl. by rewrite deserialize_serialize_limit.
Qed.

(** ** Freshness *)

Lemma reads_current org : Reads (current_for_org org).
Proof. unfold current_for_org. solve_reads. Qed.
Lemma reads_load_plan i p : Reads (load_plan i p).
Proof. unfold load_plan. solve_reads. Qed.
#[export] Hint Resolve reads_current reads_load_plan : reads.
Lemma reads_plan_of s : Reads (plan_of s).
Proof. unfold plan_of. solve_reads. Qed.
Lemma reads_plan_by_key k ia : Reads (plan_by_key k ia).
Proof. unfold plan_by_key. solve_reads. Qed.
#[export] Hint Resolve reads_plan_of reads_plan_by_key : reads.
Lemma reads_plan_in_force sub : Reads (plan_in_force sub).
Proof. unfold plan_in_force. solve_reads. Qed.
#[export] Hint Resolve reads_plan_in_force : reads.
Lemma reads_compute org : Reads (_compute org).
Proof. unfold _compute. solve_reads. Qed.

(** The counter of an organization reads as [v] and no body waits under a
    version it has not reached. *)
Definition counter_at (org : uuid) (v : Z) (w : world) : Prop :=
  (current_version _cache (w_clock w) (org_key org) (w_cache w)).1 = Some v /\
  forall v', (v < v')%Z -> peek (w_clock w) (_body_key _cache (org_key org) v') (w_cache w) = None.

Lemma get_versioned_run org w v :
  (current_version _cache (w_clock w) (org_key org) (w_cache w)).1 = Some v ->
  exists b, cache_get_versioned _cache (org_key org) w =
    (Ok (peek (w_clock w) (_body_key _cache (org_key org) v) (w_cache w), v), with_cache_of w b).
Proof.
  intros Hv. pose proof (observed_peek _cache (w_clock w) (org_key org) (w_cache w) v Hv) as Ho.
  unfold observed in Ho. unfold cache_get_versioned, with_cache, mbind, M_bind.
  destruct (get_versioned _ _ _ _) as [r b]. simpl in Ho. subst r. by exists b.
Qed.

(** A miss is answered by the resolution over the tables. *)
Lemma effective_on_miss org w v :
  (current_version _cache (w_clock w) (org_key org) (w_cache w)).1 = Some v ->
  peek (w_clock w) (_body_key _cache (org_key org) v) (w_cache w) = None ->
  (effective_for_org org w).1 = (_compute org w).1.
Proof.
  intros Hv Hmiss. destruct (get_versioned_run org w v Hv) as [b E].
  unfold effective_for_org. rewrite (run_ok _ _ _ _ _ E), Hmiss.
  rewrite run_readonly_bind by apply reads_compute.
  rewrite (reads_compute org w b). simpl. by destruct (_compute org w).1.
Qed.

Lemma invalidate_world org w :
  exists d, (_invalidate org w).2 =
    with_cache_of w (bump _cache (w_clock w) (org_key org) (w_cache w)).2 <| w_deferred := d |>.
Proof.
  unfold _invalidate, cache_bump, with_cache, mbind, M_bind.
  destruct (bump _ _ _ _) as [n b]. unfold defer_bump. simpl. case_bool_decide; eexists; [|done].
  by destruct w.
Qed.

Lemma invalidate_counter org v w :
  counter_at org v w ->
  let w' := (_invalidate org w).2 in
  (current_version _cache (w_clock w') (org_key org) (w_cache w')).1 = Some (v + 1)%Z /\
  forall v', (v < v')%Z -> peek (w_clock w') (_body_key _cache (org_key org) v') (w_cache w') = None.
Proof.
  intros [Hv Hbody] w'. unfold w'. destruct (invalidate_world org w) as [d ->]. simpl. split.
  - apply version_after_bump; [done|]. unfold seconds, _VERSION_TTL_SECONDS, SECOND. lia.
  - intros v' Hv'. rewrite <- (Hbody v') by lia. unfold bump.
    destruct (cb_incr _ _ _) as [r b] eqn:E. simpl.
    assert (b = (cb_incr (w_clock w) (_version_key _cache (org_key org)) (w_cache w)).2) as -> by (by rewrite E).
    apply law_incr_ne. apply version_body_key_ne.
Qed.

#[export] Instance total_invalidate org : Total (_invalidate org).
Proof. unfold _invalidate. apply _. Qed.

Lemma stable_invalidate R `{Restorable R} org :
  (forall A (f : _ -> _ -> A * _), Stable R (with_cache f)) ->
  (forall c k, Stable R (defer_bump c k)) -> Stable R (_invalidate org).
Proof. intros Hc Hd. apply stable_bind; [done|apply Hc|]. intros ?. apply Hd. Qed.
#[export] Hint Extern 1 (Stable _ (_invalidate _)) =>
  apply stable_invalidate; [apply _| |]; solve_stable : stable.

Lemma counter_at_frame org v w w' :
  w_clock w' = w_clock w -> w_cache w' = w_cache w -> counter_at org v w -> counter_at org v w'.
Proof. unfold counter_at. by intros -> ->. Qed.

Lemma sources_ok m i (e e' : entitlement) :
  table_ok Tentitlements m -> m !! i = Some e -> e_source e' = e_source e ->
  table_ok Tentitlements (<[i := e']> m).
Proof.
  intros Hok Hi E. simpl in *. apply check_in_insert; [done|]. rewrite E. exact (Hok i e Hi).
Qed.

(** A revocation takes effect at once for the request that makes it: it
    succeeds, writes the revocation instant and nothing else in the table, and
    the next read of the organization's entitlements in the same request is the
    resolution over the tables as they now are, not a cached body, in which the
    revoked grant no longer counts. *)
Theorem revoke_takes_effect i (e : entitlement) v w :
  constraints_ok (w_db w) -> w_db w Tentitlements !! i = Some e ->
  counter_at (e_organization_id e) v w ->
  exists w', revoke i w = (Ok (e <| e_revoked_at := Some (w_clock w) |>), w') /\
    w_db w' Tentitlements = <[i := e <| e_revoked_at := Some (w_clock w) |>]> (w_db w Tentitlements) /\
    (effective_for_org (e_organization_id e) w').1 = (_compute (e_organization_id e) w').1 /\
    forall j (e' : entitlement), w_db w' Tentitlements !! j = Some e' ->
      unrevoked (e_organization_id e) j e' = true -> j <> i.
Proof.
  intros Hok Hi Hc. unfold revoke. run. rewrite_row Hi. run.
  set (e1 := e <| e_revoked_at := Some (w_clock w) |>).
  assert (Hok1 : constraints_ok (w_db (put_w Tentitlements i e1 w))).
  { apply constraints_put; [done|]. apply (sources_ok _ i e); [|done..].
    exact (proj1 (constraints_ok_table _) Hok Tentitlements). }
  rewrite run_flush by done. run_all. set (w1 := (append_outbox _ _ _ _ _ _).2).
  eexists. split; [done|]. cbn [fst snd mret M_ret].
  destruct (invalidate_counter (e_organization_id e) v w1) as [Hv Hb];
    [by apply (counter_at_frame _ _ w)|].
  assert (Ht : w_db (_invalidate (e_organization_id e1) w1).2 Tentitlements =
               <[i := e1]> (w_db w Tentitlements)) by (unfold w1; by tables).
  split_and!; [done| |].
  - apply (effective_on_miss _ _ (v + 1)%Z); [done|]. apply Hb. lia.
  - intros j e'. rewrite Ht. intros Hj Hu ->.
    apply (lookup_put Tentitlements) in Hj as [[_ <-]|[? _]]; [|done].
    unfold unrevoked in Hu. simpl in Hu. by rewrite andb_false_r in Hu.
Qed.

(** ** The reader interface *)

Lemma tables_effective org t : Stable (keeps t) (effective_for_org org).
Proof.
  unfold effective_for_org, cache_get_versioned, cache_set.
  assert (Hc : Stable (keeps t) (_compute org)).
  { intros w. rewrite (reads_result _ w (reads_compute org)). done. }
  solve_stable.
Qed.

Lemma env_effective org : Stable same_env (effective_for_org org).
Proof.
  unfold effective_for_org, cache_get_versioned, cache_set.
  assert (Hc : Stable same_env (_compute org)).
  { intros w. rewrite (reads_result _ w (reads_compute org)). reflexivity. }
  solve_stable.
Qed.

Definition same_fresh : relation world := fun w w' => w_fresh w' = w_fresh w.
#[export] Instance same_fresh_restorable : Restorable same_fresh.
Proof. unfold same_fresh. split; [split|]; [by intros w|intros w1 w2 w3; congruence|done]. Qed.

Lemma fresh_effective org : Stable same_fresh (effective_for_org org).
Proof.
  unfold effective_for_org, cache_get_versioned, cache_set.
  assert (Hc : Stable same_fresh (_compute org)).
  { intros w. rewrite (reads_result _ w (reads_compute org)). done. }
  assert (Hw : forall A (f : _ -> _ -> A * _), Stable same_fresh (with_cache f))
    by (intros A f w; unfold with_cache; by destruct (f _ _)).
  solve_stable.
Qed.

Lemma entitlement_namespace : other_namespace _cache.
Proof. intros rest. reflexivity. Qed.
#[export] Hint Resolve entitlement_namespace : stable.

Lemma decisions_effective org : Stable keeps_decisions (effective_for_org org).
Proof.
  unfold effective_for_org.
  assert (Hc : Stable keeps_decisions (_compute org)).
  { intros w. rewrite (reads_result _ w (reads_compute org)). done. }
  solve_stable.
Qed.

#[export] Instance entitlement_service : EntitlementReader := {|
  effective_for := effective_for_org;
  effective_tables org w t := tables_effective org t w;
  effective_env := env_effective;
  effective_fresh := fresh_effective;
  effective_decisions := decisions_effective
|}.

(** ** Witnesses *)

Lemma demo_counter : counter_at 1 0 demo.
Proof. split; [reflexivity|]. intros v' _. rewrite ttl_peek. simpl. by rewrite lookup_empty. Qed.

Lemma revoke_takes_effect_witness :
  exists w', (effective_for_org 1 w').1 = (_compute 1 w').1 /\
    w_db w' Tentitlements !! 30%N = Some (sso_grant <| e_revoked_at := Some NOW |>).
Proof.
  destruct (revoke_takes_effect 30 sso_grant 0 demo ltac:(by_compute) ltac:(by_compute) demo_counter)
    as (w' & _ & Ht & He & _).
  exists w'. split; [exact He|]. rewrite Ht. apply (put_same Tentitlements).
Defined.
