(* ===== verification/Usage.v ===== *)
(** Usage metering (usage/service.py): counters, gauges, idempotency and the
    soft and hard limits.

    The service reads entitlements through [EntitlementReader] only.  Each SQL
    statement of the source is one definition; quantities are unbounded (a total
    beyond 64 bits is a database error outside this model). *)

From S2P Require Import Prelude Json Errors Events Tables Store Cache Session Fixtures.
From S2P Require Import Resolver Interfaces.

Definition GAUGE_PERIOD : date := 0.
(** The month of a datetime in its own time zone, [offset] from UTC; every caller's
    datetime is in UTC ([datetime.now(UTC)]; none passes [occurred_at]). *)
Definition _month_bucket_at (offset t : Z) : date := first_of_month (date_of (t + offset)).
Definition _month_bucket (t : instant) : date := _month_bucket_at 0 t.

Definition counter_key (org : uuid) (metric : string) (period : date) : key Tusage_counters :=
  (org, metric, period).
Definition ledger_key (org : uuid) (k : string) : key Tusage_idempotency_keys := (org, k).

(** The members a result always has, and the limit members [record] leaves out. *)
Record limit_report : Type := LimitReport {
  lr_limit : option Z;
  lr_remaining : option Z;
  lr_within_limit : bool
}.
Record usage_result : Type := UsageResult {
  ur_metric : string;
  ur_quantity : Z;
  ur_total : Z;
  ur_limits : option limit_report;
  ur_deduplicated : bool
}.

Definition report (value : option Z) (total : Z) : limit_report :=
  LimitReport value ((fun v => v - total)%Z <$> value)
    (match value with None => true | Some v => (total <=? v)%Z end).

Record usage_check : Type := UsageCheck {
  ck_metric : string;
  ck_used : Z;
  ck_limit : option Z;
  ck_remaining : option Z;
  ck_within_limit : bool;
  ck_soft_limit : option Z;
  ck_soft_limit_breached : bool
}.

(** [int(value * ratio)]. *)
Definition soft_threshold (value : Z) (ratio : float) : option Z :=
  int_of_float (float_mul (float_of_Z value) ratio).

Definition soft_ratio (l : limit) : option float :=
  match l_soft_limit_ratio l with
  | Some r => if truthy_float r then Some r else None
  | None => None
  end.

(** ** Reads *)

Definition _metric (k : string) : M metric :=
  m ← session_get Tmetrics k;
  match m with
  | Some m => mret m
  | None => raise_domain UnknownMetricError [("metric", JStr k)]
  end.

Definition _assert_counter_metric (k : string) : M unit :=
  m ← _metric k;
  if String.eqb (m_kind m) "gauge"
  then raise_domain ValidationFailedError [("metric", JStr k); ("kind", JStr "gauge")]
  else mret tt.

Definition _assert_gauge_metric (k : string) : M unit :=
  m ← _metric k;
  if negb (String.eqb (m_kind m) "gauge")
  then raise_domain ValidationFailedError [("metric", JStr k); ("kind", JStr (m_kind m))]
  else mret tt.

Definition _period_for (k : string) : M date :=
  m ← _metric k;
  t ← now;
  mret (if String.eqb (m_kind m) "gauge" then GAUGE_PERIOD else _month_bucket t).

(** [quantity_total] of a counter row, zero without one. *)
Definition counter_total (m : rows Tusage_counters) (k : key Tusage_counters) : Z :=
  match m !! k with Some c => uc_quantity_total c | None => 0 end.

Definition current_total (org : uuid) (metric : string) (period : option date) : M Z :=
  p ← (match period with Some p => mret p | None => _period_for metric end);
  counters ← read_table Tusage_counters;
  mret (counter_total counters (counter_key org metric p)).

Definition summary (org : uuid) (period : option date) : M (list (string * Z)) :=
  t ← now;
  let p := default (_month_bucket t) period in
  counters ← select Tusage_counters (fun k _ =>
    let '(o, _, d) := (k : uuid * string * date) in
    N.eqb o org && (Z.eqb d p || Z.eqb d GAUGE_PERIOD));
  mret (map (fun r : uuid * string * date * usage_counter =>
               (r.1.1.2, uc_quantity_total r.2)) counters).

Definition check_against (e : effective_entitlements) (metric : string) (used quantity : Z) :
    M usage_check :=
  let l := limit_of e metric in
  let value := l ← l; l_value l in
  soft ← match l with
         | Some l =>
             match l_value l, soft_ratio l with
             | Some v, Some r =>
                 if Z.eqb v 0 then mret None
                 else match soft_threshold v r with
                      | Some s => mret (Some s)
                      | None => raise (PyError "OverflowError")
                      end
             | _, _ => mret None
             end
         | None => mret None
         end;
  mret (UsageCheck metric used value ((fun v => v - used)%Z <$> value)
    (match value with None => true | Some v => (used + quantity <=? v)%Z end)
    soft (match soft with Some s => (s <=? used)%Z | None => false end)).

(** ** Statements *)

(** [INSERT ... ON CONFLICT DO NOTHING RETURNING 1]. *)
Definition _reserve_idempotency (org : uuid) (k metric : string) (quantity : Z) : M bool :=
  t ← now;
  existing ← session_get Tusage_idempotency_keys (ledger_key org k);
  match existing with
  | Some _ => mret false
  | None =>
      _ ← put Tusage_idempotency_keys (ledger_key org k)
            (UsageIdempotencyKey metric quantity None None t);
      mret true
  end.

(** [UPDATE usage_idempotency_keys SET event_id, total_after]. *)
Definition _settle_idempotency (org : uuid) (k : string) (event_id : uuid) (total : Z) : M unit :=
  existing ← session_get Tusage_idempotency_keys (ledger_key org k);
  match existing with
  | Some r =>
      put Tusage_idempotency_keys (ledger_key org k)
        ((r : usage_idempotency_key) <| ik_event_id := Some event_id |> <| ik_total_after := Some total |>)
  | None => mret tt
  end.

Definition _replay_idempotent (org : uuid) (k : string) : M usage_result :=
  existing ← session_get Tusage_idempotency_keys (ledger_key org k);
  match existing with
  | Some r => mret (UsageResult (ik_metric r) (ik_quantity r) (or0 (ik_total_after r)) None true)
  | None => raise (PyError "NoResultFound")
  end.

Definition _insert_event (org : uuid) (metric : string) (quantity : Z) (occurred_at : instant)
    (idempotency_key : option string) (properties : jobj) : M uuid :=
  i ← fresh_id;
  _ ← put Tusage_events i (UsageEvent org metric quantity occurred_at idempotency_key properties);
  mret i.

(** [INSERT ... ON CONFLICT DO UPDATE SET quantity_total = quantity_total + EXCLUDED
    ... RETURNING]. *)
Definition incremented (quantity : Z) (t : instant) (existing : option usage_counter) : usage_counter :=
  match existing with
  | None => UsageCounter quantity None (Some t)
  | Some c => c <| uc_quantity_total := (uc_quantity_total c + quantity)%Z |>
                <| uc_last_event_at := Some t |>
  end.

Definition _increment_counter (org : uuid) (metric : string) (quantity : Z)
    (occurred_at : instant) : M Z :=
  let k := counter_key org metric (_month_bucket occurred_at) in
  existing ← session_get Tusage_counters k;
  let c := incremented quantity occurred_at existing in
  _ ← put Tusage_counters k c;
  mret (uc_quantity_total c).

(** [UPDATE ... SET soft_limit_notified_at = now() WHERE ... IS NULL RETURNING 1]. *)
Definition claim_soft_limit (org : uuid) (metric : string) : M bool :=
  t ← now;
  let k := counter_key org metric (_month_bucket t) in
  existing ← session_get Tusage_counters k;
  match existing with
  | Some c =>
      if bool_decide (uc_soft_limit_notified_at c = None) then
        _ ← put Tusage_counters k ((c : usage_counter) <| uc_soft_limit_notified_at := Some t |>);
        mret true
      else mret false
  | None => mret false
  end.

(** ** The service *)

Section Service.
Context `{EntitlementReader}.

Definition check (org : uuid) (metric : string) (quantity : Z) : M usage_check :=
  e ← effective_for org;
  used ← current_total org metric None;
  check_against e metric used quantity.

Definition _maybe_emit_soft_limit (org : uuid) (metric : string) (total : Z) : M unit :=
  e ← effective_for org;
  match limit_of e metric with
  | None => mret tt
  | Some l =>
      match l_value l, soft_ratio l with
      | Some value, Some ratio =>
          match soft_threshold value ratio with
          | None => raise (PyError "OverflowError")
          | Some threshold =>
              if (total <? threshold)%Z then mret tt
              else
                claimed ← claim_soft_limit org metric;
                if (claimed : bool) then
                  i ← fresh_id;
                  append_outbox USAGE_SOFT_LIMIT_REACHED "usage" i
                    [("organization_id", JUuid org); ("metric", JStr metric);
                     ("threshold", JInt threshold); ("total", JInt total); ("limit", JInt value)]
                    (Some org)
                else mret tt
          end
      | _, _ => mret tt
      end
  end.

Definition first_sight (org : uuid) (idempotency_key : option string) (metric : string)
    (quantity : Z) : M bool :=
  match idempotency_key with
  | None => mret true
  | Some k => _reserve_idempotency org k metric quantity
  end.

Definition settle (org : uuid) (idempotency_key : option string) (event_id : uuid) (total : Z) :
    M unit :=
  match idempotency_key with
  | None => mret tt
  | Some k => _settle_idempotency org k event_id total
  end.

Definition record (org : uuid) (metric : string) (quantity : Z) (occurred_at : option instant)
    (idempotency_key : option string) (properties : jobj) : M usage_result :=
  _ ← _assert_counter_metric metric;
  first ← first_sight org idempotency_key metric quantity;
  if negb first then _replay_idempotent org (default "" idempotency_key)
  else
    t ← now;
    let at_ := default t occurred_at in
    event_id ← _insert_event org metric quantity at_ idempotency_key properties;
    total ← _increment_counter org metric quantity at_;
    _ ← _maybe_emit_soft_limit org metric total;
    _ ← settle org idempotency_key event_id total;
    mret (UsageResult metric quantity total None false).

Definition consume (org : uuid) (metric : string) (quantity : Z)
    (idempotency_key : option string) (properties : jobj) : M usage_result :=
  _ ← _assert_counter_metric metric;
  t ← now;
  e ← effective_for org;
  let limit_value := limit_value e metric in
  first ← first_sight org idempotency_key metric quantity;
  if negb first then
    replay ← _replay_idempotent org (default "" idempotency_key);
    mret (UsageResult (ur_metric replay) (ur_quantity replay) (ur_total replay)
            (Some (report limit_value (ur_total replay))) (ur_deduplicated replay))
  else
    event_id ← _insert_event org metric quantity t idempotency_key properties;
    total ← _increment_counter org metric quantity t;
    if (match limit_value with Some v => (v <? total)%Z | None => false end) then
      raise_domain UsageLimitExceededError
        [("metric", JStr metric); ("limit", jopt JInt limit_value);
         ("used", JInt (total - quantity)); ("attempted", JInt quantity);
         ("upgrade_url", JStr "/dashboard/billing")]
    else
      _ ← _maybe_emit_soft_limit org metric total;
      _ ← when_ (match limit_value with Some v => (v <=? total)%Z | None => false end)
            (i ← fresh_id;
             append_outbox USAGE_HARD_LIMIT_REACHED "usage" i
               [("metric", JStr metric); ("limit", jopt JInt limit_value); ("total", JInt total)]
               (Some org));
      _ ← settle org idempotency_key event_id total;
      mret (UsageResult metric quantity total (Some (report limit_value total)) false).

(** An entry of a batch: metric, quantity, idempotency key, properties. *)
Record usage_input : Type := UsageInput {
  un_metric : string;
  un_quantity : Z;
  un_idempotency_key : option string;
  un_properties : jobj
}.

Fixpoint consume_many (org : uuid) (events_in : list usage_input) : M (list usage_result) :=
  match events_in with
  | [] => mret []
  | e :: rest =>
      r ← consume org (un_metric e) (un_quantity e) (un_idempotency_key e) (un_properties e);
      rs ← consume_many org rest;
      mret (r :: rs)
  end.

(** ** Gauges *)

(** The row each gauge statement leaves. *)
Definition levelled (level : Z) (t : instant) (existing : option usage_counter) : usage_counter :=
  match existing with
  | None => UsageCounter level None (Some t)
  | Some c => c <| uc_quantity_total := level |> <| uc_last_event_at := Some t |>
  end.
Definition adjusted (delta : Z) (t : instant) (existing : option usage_counter) : usage_counter :=
  match existing with
  | None => UsageCounter (Z.max delta 0) None (Some t)
  | Some c =>
      c <| uc_quantity_total :=
             Z.max (uc_quantity_total c + Z.max delta 0 - Z.max delta 0 + delta) 0 |>
        <| uc_last_event_at := Some t |>
  end.

Definition _gauge_result (org : uuid) (metric : string) (level : Z) : M usage_result :=
  e ← effective_for org;
  mret (UsageResult metric level level (Some (report (limit_value e metric) level)) false).

Definition set_gauge (org : uuid) (metric : string) (value : Z) : M usage_result :=
  _ ← _assert_gauge_metric metric;
  t ← now;
  let level := Z.max value 0 in
  let k := counter_key org metric GAUGE_PERIOD in
  existing ← session_get Tusage_counters k;
  _ ← put Tusage_counters k (levelled level t existing);
  _gauge_result org metric level.

Definition ensure_gauge_capacity (org : uuid) (metric : string) (current adding : Z) : M unit :=
  _ ← _assert_gauge_metric metric;
  e ← effective_for org;
  match limit_value e metric with
  | Some v =>
      if (v <? current + adding)%Z then
        raise_domain UsageLimitExceededError
          [("metric", JStr metric); ("limit", JInt v); ("used", JInt current);
           ("upgrade_url", JStr "/dashboard/billing")]
      else mret tt
  | None => mret tt
  end.

Definition adjust_gauge (org : uuid) (metric : string) (delta : Z) (enforce : bool) :
    M usage_result :=
  _ ← _assert_gauge_metric metric;
  _ ← when_ (enforce && (0 <? delta)%Z)
        (current ← current_total org metric None;
         ensure_gauge_capacity org metric current delta);
  t ← now;
  let k := counter_key org metric GAUGE_PERIOD in
  existing ← session_get Tusage_counters k;
  let c := adjusted delta t existing in
  _ ← put Tusage_counters k c;
  _gauge_result org metric (uc_quantity_total c).
End Service.

(** ** Frames *)

Section Proofs.
Context `{EntitlementReader}.

Lemma effective_run {A} org (f : effective_entitlements -> M A) w :
  exists w1, (forall t, w_db w1 t = w_db w t) /\ same_env w w1 /\ w_fresh w1 = w_fresh w /\
    mbind f (effective_for org) w =
      match (effective_for org w).1 with Ok e => f e w1 | Err x => (Err x, w1) end.
Proof.
  exists (effective_for org w).2. split; [apply effective_tables|].
  split; [apply effective_env|]. split; [apply effective_fresh|].
  unfold mbind, M_bind. by destruct (effective_for org w) as [[a|e] w'].
Qed.

(** *** Totals: only increments and gauge writes move them *)

Definition keeps_totals : relation world := fun w w' =>
  w_db w' Tusage_events = w_db w Tusage_events /\ w_db w' Tmetrics = w_db w Tmetrics /\
  (w_fresh w <= w_fresh w')%N /\
  forall k, counter_total (w_db w' Tusage_counters) k = counter_total (w_db w Tusage_counters) k.

#[export] Instance keeps_totals_restorable : Restorable keeps_totals.
Proof.
  unfold keeps_totals. split; [split|].
  - by intros w.
  - intros w1 w2 w3 (H1 & H2 & H3 & H4) (H1' & H2' & H3' & H4').
    split_and!; [congruence|congruence|lia|]. intros k. by rewrite H4'.
  - by intros w1 w2 (_ & _ & ? & _).
Qed.

Lemma totals_keeps {A} (m : M A) :
  Stable (keeps Tusage_events) m -> Stable (keeps Tmetrics) m -> Stable (keeps Tusage_counters) m ->
  (forall w, (w_fresh w <= w_fresh (m w).2)%N) -> Stable keeps_totals m.
Proof.
  intros H1 H2 H3 H4 w. split_and!; [apply H1|apply H2|apply H4|]. intros k. by rewrite (H3 w).
Qed.

Lemma totals_effective org : Stable keeps_totals (effective_for org).
Proof. apply totals_keeps; [solve_stable..|]; intros w. by rewrite effective_fresh. Qed.
Lemma totals_outbox a b c d e : Stable keeps_totals (append_outbox a b c d e).
Proof. apply totals_keeps; [solve_stable..|]; intros w. simpl. lia. Qed.
Lemma totals_fresh : Stable keeps_totals fresh_id.
Proof. apply totals_keeps; [solve_stable..|]; intros w. simpl. lia. Qed.
Lemma totals_ledger k r : Stable keeps_totals (put Tusage_idempotency_keys k r).
Proof. apply totals_keeps; [solve_stable..|]; intros w. simpl. lia. Qed.

Lemma counter_total_put (m : rows Tusage_counters) k (c : usage_counter) k' :
  counter_total (<[k := c]> m) k' =
    if bool_decide (k = k') then uc_quantity_total c else counter_total m k'.
Proof.
  unfold counter_total. case_bool_decide as E.
  - subst. by rewrite_row (put_same Tusage_counters m k' c).
  - by rewrite_row (put_other Tusage_counters m k k' c _ E eq_refl).
Qed.

Lemma totals_claim org metric : Stable keeps_totals (claim_soft_limit org metric).
Proof.
  intros w. unfold claim_soft_limit. run.
  set (k := counter_key _ _ _). destruct (w_db w Tusage_counters !! k) as [c|] eqn:Ec; [|reflexivity].
  case_bool_decide; [|reflexivity]. run. cbn [snd mret M_ret].
  split_and!; [by tables|by tables|simpl; lia|]. intros k'. tables. rewrite counter_total_put.
  case_bool_decide as E; [|done]. subst k'. unfold counter_total. by rewrite_row Ec.
Qed.
#[local] Hint Resolve totals_effective totals_outbox totals_fresh totals_ledger totals_claim : stable.

Lemma totals_soft_limit org metric total : Stable keeps_totals (_maybe_emit_soft_limit org metric total).
Proof. unfold _maybe_emit_soft_limit. solve_stable. Qed.
Lemma totals_reserve org k metric q : Stable keeps_totals (_reserve_idempotency org k metric q).
Proof. unfold _reserve_idempotency. solve_stable. Qed.
Lemma totals_settle org ik i total : Stable keeps_totals (settle org ik i total).
Proof. unfold settle, _settle_idempotency. solve_stable. Qed.
Lemma totals_first_sight org ik metric q : Stable keeps_totals (first_sight org ik metric q).
Proof. unfold first_sight. destruct ik; [apply totals_reserve|solve_stable]. Qed.
Lemma totals_assert metric : Stable keeps_totals (_assert_counter_metric metric).
Proof. unfold _assert_counter_metric, _metric. solve_stable. Qed.
Lemma totals_replay org k : Stable keeps_totals (_replay_idempotent org k).
Proof. unfold _replay_idempotent. solve_stable. Qed.
#[local] Hint Resolve totals_soft_limit totals_settle totals_first_sight totals_assert totals_replay : stable.

Lemma incremented_total q t (m : rows Tusage_counters) k :
  uc_quantity_total (incremented q t (m !! k)) = (counter_total m k + q)%Z.
Proof.
  unfold counter_total. destruct (m !! k) as [c|]; simpl; [done|lia].
Qed.

(** What writing an event and incrementing its counter does. *)
Record counted org metric q t ik props w w1 : Prop := Counted {
  counted_events :
    w_db w1 Tusage_events = <[w_fresh w := UsageEvent org metric q t ik props]> (w_db w Tusage_events);
  counted_totals k :
    counter_total (w_db w1 Tusage_counters) k =
      (counter_total (w_db w Tusage_counters) k +
       if bool_decide (counter_key org metric (_month_bucket t) = k) then q else 0)%Z;
  counted_fresh : w_fresh w1 = N.succ (w_fresh w);
  counted_env : same_env w w1;
  counted_keeps tb : tb <> Tusage_events -> tb <> Tusage_counters -> w_db w1 tb = w_db w tb
}.

Lemma count_step {B} org metric q t ik props (K : uuid -> Z -> M B) w (P : result B * world -> Prop) :
  let total := (counter_total (w_db w Tusage_counters) (counter_key org metric (_month_bucket t)) + q)%Z in
  (forall w1, counted org metric q t ik props w w1 -> P (K (w_fresh w) total w1)) ->
  P (mbind (fun i => mbind (fun tot => K i tot) (_increment_counter org metric q t))
       (_insert_event org metric q t ik props) w).
Proof.
  intros total HP. unfold _insert_event, _increment_counter. run. tables.
  set (k := counter_key _ _ _). set (c := incremented _ _ _).
  assert (Hc : uc_quantity_total c = total) by (apply incremented_total).
  rewrite Hc. apply HP. split.
  - by tables.
  - intros k'. tables. rewrite counter_total_put, Hc. fold k.
    case_bool_decide; [by subst|lia].
  - done.
  - done.
  - intros tb H1 H2. rewrite !put_w_ne by congruence. done.
Qed.

Ltac count_step :=
  match goal with
  | |- context [@mbind M ?I ?A ?B ?f (_insert_event ?o ?m ?q ?t ?ik ?p) ?w] =>
      pattern (@mbind M I A B f (_insert_event o m q t ik p) w); apply count_step
  end.

(** What [consume] does when it returns. *)
Lemma consume_outcome org metric q ik props w :
  let k := counter_key org metric (_month_bucket (w_clock w)) in
  match consume org metric q ik props w with
  | (Err _, _) => True
  | (Ok r, w') =>
      exists e, (effective_for org w).1 = Ok e /\
      ur_limits r = Some (report (limit_value e metric) (ur_total r)) /\
      if ur_deduplicated r then is_Some ik /\ keeps_totals w w'
      else
        ur_total r = (counter_total (w_db w Tusage_counters) k + q)%Z /\
        (forall v, limit_value e metric = Some v -> (ur_total r <= v)%Z) /\
        (exists i, w_db w' Tusage_events =
           <[i := UsageEvent org metric q (w_clock w) ik props]> (w_db w Tusage_events)) /\
        forall k', counter_total (w_db w' Tusage_counters) k' =
          if bool_decide (k = k') then ur_total r else counter_total (w_db w Tusage_counters) k'
  end.
Proof.
  intros k. unfold consume. rewrite run_readonly by (unfold _assert_counter_metric, _metric; solve_stable).
  destruct (_assert_counter_metric metric w).1 as [[]|]; [|done]. run.
  match goal with |- context [mbind ?f (effective_for org) w] =>
    destruct (effective_run org f w) as (w1 & Hdb & Henv & Hfr & ->) end.
  destruct (effective_for org w).1 as [e|]; [|done].
  assert (H1 : keeps_totals w w1) by (split_and!; rewrite ?Hdb; [done|done|lia|done]).
  step keeps_totals; [|done]. intros first w2 Ef H2.
  pose proof (transitivity H1 H2) as H3. destruct first; simpl.
  - count_step. intros w3 Hcount. set (total := (_ + q)%Z) in *.
    destruct (match limit_value e metric with Some v => _ | None => _ end) eqn:Elim; [done|].
    step keeps_totals; [|done]. intros [] w4 _ H4.
    step keeps_totals; [|done]. intros [] w5 _ H5.
    step keeps_totals; [|done]. intros [] w6 _ H6.
    pose proof (transitivity H4 (transitivity H5 H6)) as (Hev6 & _ & _ & Htot6).
    destruct H3 as (Hev3 & _ & _ & Htot3). destruct Hcount as [Hev Htot _ _ _].
    cbn [mret M_ret ur_limits ur_total ur_deduplicated]. exists e. split_and!; [done|done| | | |].
    + unfold total. by rewrite Htot3.
    + intros v Hv. rewrite Hv in Elim. by apply Z.ltb_ge in Elim.
    + exists (w_fresh w2). by rewrite Hev6, Hev, Hev3.
    + intros k'. rewrite Htot6, Htot, !Htot3. unfold total. rewrite Htot3.
      destruct (decide (k = k')) as [<-|Hne];
        [by rewrite !bool_decide_true|rewrite !bool_decide_false by done; lia].
  - step keeps_totals; [|done]. intros replay w3 Er H4. cbn [mret M_ret ur_limits ur_total ur_deduplicated].
    exists e. split; [done|]. split; [done|].
    assert (Hd : ur_deduplicated replay = true).
    { revert Er. unfold _replay_idempotent. run. destruct (_ !! _); [|done]. by intros [= <- _]. }
    rewrite Hd. split; [|by etrans]. destruct ik; [done|]. simpl in Ef. discriminate Ef.
Qed.

Lemma assert_counter_ok metric w :
  (_assert_counter_metric metric w).1 = Ok tt <->
  exists m, w_db w Tmetrics !! metric = Some m /\ m_kind m <> "gauge".
Proof.
  unfold _assert_counter_metric, _metric. run.
  destruct (w_db w Tmetrics !! metric) as [m|] eqn:E; run.
  - destruct (String.eqb_spec (m_kind m) "gauge"); simpl; split; try done.
    + intros (m' & Hm & Hk). by injection Hm as <-.
    + intros _. by exists m.
  - split; [done|]. by intros (m' & Hm & _).
Qed.

Lemma readonly_assert metric : Stable eq (_assert_counter_metric metric).
Proof. unfold _assert_counter_metric, _metric. solve_stable. Qed.

(** The first use of a key, or no key at all. *)
Definition unseen (org : uuid) (ik : option string) (w : world) : Prop :=
  forall k, ik = Some k -> w_db w Tusage_idempotency_keys !! ledger_key org k = None.

(** What the client reads of a refused use. *)
Definition limit_error (metric : string) (v used q : Z) : exn :=
  Domain UsageLimitExceededError
    [("metric", JStr metric); ("limit", JInt v); ("used", JInt used); ("attempted", JInt q);
     ("upgrade_url", JStr "/dashboard/billing")].

Lemma consume_refused org metric q ik props w m e v :
  let used := counter_total (w_db w Tusage_counters) (counter_key org metric (_month_bucket (w_clock w))) in
  w_db w Tmetrics !! metric = Some m -> m_kind m <> "gauge" ->
  (effective_for org w).1 = Ok e -> limit_value e metric = Some v -> unseen org ik w -> (v < used + q)%Z ->
  (consume org metric q ik props w).1 = Err (limit_error metric v used q).
Proof.
  intros used Hm Hk He Hv Hfirst Hlt. unfold consume. rewrite run_readonly by apply readonly_assert.
  rewrite (proj2 (assert_counter_ok metric w)) by (by exists m). run.
  match goal with |- context [mbind ?f (effective_for org) w] =>
    destruct (effective_run org f w) as (w1 & Hdb & Henv & Hfr & ->) end.
  rewrite He, Hv.
  assert (Hf : exists w2, first_sight org ik metric q w1 = (Ok true, w2) /\ w_db w2 Tusage_counters = w_db w Tusage_counters).
  { unfold first_sight. destruct ik as [k|]; [|by exists w1]. specialize (Hfirst k eq_refl).
    unfold _reserve_idempotency. run. rewrite Hdb. rewrite_row Hfirst. run. eexists. split; [reflexivity|]. tables. apply Hdb. }
  destruct Hf as (w2 & Hf & Hc). rewrite (run_ok _ _ _ _ _ Hf). cbn [negb].
  count_step. intros w3 _. rewrite Hc. fold used. rewrite (proj2 (Z.ltb_lt v (used + q)) Hlt).
  unfold limit_error. cbn. by rewrite Z.add_simpl_r.
Qed.

(** C3: enforcement: run as a request, [consume] either records the quantity and
    leaves a total the effective limit allows, or leaves the database as it was
    committed: no event, no increment and no reservation survive a refusal.  A use
    that would pass the limit is refused, with an error that names the metric, the
    limit that blocks it, what is used and what was attempted.  A replayed
    idempotency key counts nothing. *)
Theorem consume_enforces_limit org metric q ik props w :
  let k := counter_key org metric (_month_bucket (w_clock w)) in
  let used := counter_total (w_db w Tusage_counters) k in
  match request (consume org metric q ik props) w with
  | (Err _, w') => w_db w' = w_durable w
  | (Ok r, w') =>
      exists e, (effective_for org w).1 = Ok e /\
      ur_limits r = Some (report (limit_value e metric) (ur_total r)) /\
      if ur_deduplicated r then
        is_Some ik /\ w_db w' Tusage_events = w_db w Tusage_events /\
        forall k', counter_total (w_db w' Tusage_counters) k' = counter_total (w_db w Tusage_counters) k'
      else
        ur_total r = (used + q)%Z /\
        (forall v, limit_value e metric = Some v -> (ur_total r <= v)%Z) /\
        (exists i, w_db w' Tusage_events =
           <[i := UsageEvent org metric q (w_clock w) ik props]> (w_db w Tusage_events)) /\
        forall k', counter_total (w_db w' Tusage_counters) k' =
          if bool_decide (k = k') then ur_total r else counter_total (w_db w Tusage_counters) k'
  end /\
  forall m e v, w_db w Tmetrics !! metric = Some m -> m_kind m <> "gauge" ->
    (effective_for org w).1 = Ok e -> limit_value e metric = Some v -> unseen org ik w -> (v < used + q)%Z ->
    (request (consume org metric q ik props) w).1 =
      Err (Domain UsageLimitExceededError
             [("metric", JStr metric); ("limit", JInt v); ("used", JInt used); ("attempted", JInt q);
              ("upgrade_url", JStr "/dashboard/billing")]).
Proof.
  intros k used. split.
  - destruct (request _ w) as [[r|x] w'] eqn:E.
    + apply request_ok in E as (w1 & E & Hdb & _). pose proof (consume_outcome org metric q ik props w) as H1.
      rewrite E in H1. destruct H1 as (e & He & Hl & H1). exists e. split; [done|]. split; [done|].
      rewrite Hdb. destruct (ur_deduplicated r); [|exact H1].
      destruct H1 as (Hik & Hev & _ & _ & Ht). by split_and!.
    + apply request_err in E as [-> _]; [done|].
      unfold consume, _assert_counter_metric, _metric, first_sight, _reserve_idempotency,
        _replay_idempotent, _insert_event, _increment_counter, _maybe_emit_soft_limit, claim_soft_limit,
        settle, _settle_idempotency. solve_stable.
  - intros m e v Hm Hk He Hv Hfirst Hlt.
    pose proof (consume_refused org metric q ik props w m e v Hm Hk He Hv Hfirst Hlt) as E.
    unfold request. destruct (consume org metric q ik props w) as [r w1]. cbn [fst] in E. by subst r.
Qed.

(** *** The ledger and the metrics *)

Definition keeps_ledger : relation world := fun w w' =>
  w_db w' Tusage_idempotency_keys = w_db w Tusage_idempotency_keys /\
  w_db w' Tmetrics = w_db w Tmetrics.
#[export] Instance keeps_ledger_restorable : Restorable keeps_ledger.
Proof. unfold keeps_ledger. split; [split|]; [by intros w|intros w1 w2 w3; intuition congruence|done]. Qed.

Lemma ledger_keeps {A} (m : M A) :
  Stable (keeps Tusage_idempotency_keys) m -> Stable (keeps Tmetrics) m -> Stable keeps_ledger m.
Proof. intros H1 H2 w. split; [apply H1|apply H2]. Qed.

Lemma ledger_soft_limit org metric total : Stable keeps_ledger (_maybe_emit_soft_limit org metric total).
Proof. apply ledger_keeps; unfold _maybe_emit_soft_limit, claim_soft_limit; solve_stable. Qed.
Lemma ledger_outbox a b c d e : Stable keeps_ledger (append_outbox a b c d e).
Proof. apply ledger_keeps; solve_stable. Qed.
Lemma ledger_fresh : Stable keeps_ledger fresh_id.
Proof. apply ledger_keeps; solve_stable. Qed.
#[local] Hint Resolve ledger_soft_limit ledger_outbox ledger_fresh : stable.

(** The ledger row a first, successful use of a key leaves. *)
Lemma consume_settles org metric q k props w r w' :
  consume org metric q (Some k) props w = (Ok r, w') -> ur_deduplicated r = false ->
  (exists row, w_db w' Tusage_idempotency_keys !! ledger_key org k = Some row /\
     ik_metric row = metric /\ ik_quantity row = q /\ ik_total_after row = Some (ur_total r)) /\
  (_assert_counter_metric metric w').1 = Ok tt.
Proof.
  intros E Hd. revert E. unfold consume. rewrite run_readonly by apply readonly_assert.
  destruct (_assert_counter_metric metric w).1 as [[]|] eqn:Ha; [|done]. run.
  apply assert_counter_ok in Ha as (m & Hm & Hkind).
  match goal with |- context [mbind ?f (effective_for org) w] =>
    destruct (effective_run org f w) as (w1 & Hdb & _ & _ & ->) end.
  destruct (effective_for org w).1 as [e|]; [|done].
  unfold first_sight, _reserve_idempotency. run. rewrite Hdb.
  destruct (w_db w Tusage_idempotency_keys !! ledger_key org k) as [row|] eqn:El; run.
  - unfold _replay_idempotent. run. rewrite Hdb. rewrite_row El. run. intros [= <- _]. done.
  - set (row0 := UsageIdempotencyKey _ _ _ _ _). set (w2 := put_w _ _ _ w1).
    count_step. intros w3 Hcount. set (total := (_ + q)%Z) in *.
    assert (Hrow : w_db w3 Tusage_idempotency_keys !! ledger_key org k = Some row0).
    { rewrite (counted_keeps _ _ _ _ _ _ _ _ Hcount) by done. unfold w2. tables.
      apply (put_same Tusage_idempotency_keys). }
    assert (Hm3 : w_db w3 Tmetrics !! metric = Some m).
    { rewrite (counted_keeps _ _ _ _ _ _ _ _ Hcount) by done. unfold w2. tables. by rewrite Hdb. }
    destruct (match limit_value e metric with Some v => _ | None => _ end); [done|].
    step keeps_ledger; [|done]. intros [] w4 _ [Hk4 Hm4].
    step keeps_ledger; [|done]. intros [] w5 _ [Hk5 Hm5].
    unfold settle, _settle_idempotency. run. rewrite Hk5, Hk4. rewrite_row Hrow. run.
    intros [= <- <-]. cbn [ur_total]. split.
    + eexists. split; [tables; apply (put_same Tusage_idempotency_keys)|]. done.
    + apply assert_counter_ok. exists m. split; [|done]. tables. by rewrite Hm5, Hm4.
Qed.

(** C27: retries are counted once: after a first, successful [consume] under an
    idempotency key, another one under the same key, whatever quantity and
    properties it carries, returns the stored result marked as deduplicated and
    changes no table. *)
Theorem consume_idempotent org metric q k props w r w1 e q2 props2 :
  consume org metric q (Some k) props w = (Ok r, w1) -> ur_deduplicated r = false ->
  (effective_for org w1).1 = Ok e ->
  exists w2, consume org metric q2 (Some k) props2 w1 =
      (Ok (UsageResult metric q (ur_total r) (Some (report (limit_value e metric) (ur_total r))) true), w2) /\
    forall t, w_db w2 t = w_db w1 t.
Proof.
  intros E Hd He. destruct (consume_settles _ _ _ _ _ _ _ _ E Hd) as [(row & Hrow & Hm & Hq & Ht) Ha].
  unfold consume. rewrite run_readonly, Ha by apply readonly_assert. run.
  match goal with |- context [mbind ?f (effective_for org) w1] =>
    destruct (effective_run org f w1) as (w2 & Hdb & _ & _ & ->) end.
  rewrite He. unfold first_sight, _reserve_idempotency, _replay_idempotent. run.
  rewrite !Hdb. rewrite_row Hrow. run. rewrite Hdb. rewrite_row Hrow. run.
  exists w2. split; [|done]. cbn [ur_metric ur_quantity ur_total ur_deduplicated].
  by rewrite Hm, Hq, Ht.
Qed.

(** *** Counters and events agree *)

Definition in_bucket (k : key Tusage_counters) (_ : key Tusage_events) (ev : usage_event) : bool :=
  bool_decide (counter_key (ue_organization_id ev) (ue_metric ev) (_month_bucket (ue_occurred_at ev)) = k).

Definition events_total (m : rows Tusage_events) (k : key Tusage_counters) : Z :=
  sumZ (fun r : key Tusage_events * usage_event => ue_quantity r.2) (rows_where Tusage_events (in_bucket k) m).

Definition is_gauge (m : rows Tmetrics) (metric : string) : Prop :=
  exists r : Tables.metric, m !! metric = Some r /\ m_kind r = "gauge".

(** The identifier supply is ahead of the events, and every counter of a metric
    that is not a gauge is the sum of the events of its month. *)
Definition metering_ok (w : world) : Prop :=
  (forall i, (w_fresh w <= i)%N -> w_db w Tusage_events !! i = None) /\
  forall org metric p, ~ is_gauge (w_db w Tmetrics) metric ->
    counter_total (w_db w Tusage_counters) (counter_key org metric p) =
    events_total (w_db w Tusage_events) (counter_key org metric p).

Definition keeps_metering : relation world := fun w w' =>
  (w_fresh w <= w_fresh w')%N /\ (metering_ok w -> metering_ok w').

Lemma totals_metering w w' : keeps_totals w w' -> keeps_metering w w'.
Proof.
  intros (He & Hm & Hf & Ht). split; [done|]. intros [Hi Hc]. split.
  - intros i Hle. rewrite He. apply Hi. lia.
  - intros org metric p. rewrite He, Hm, Ht. apply Hc.
Qed.

Lemma events_total_insert m i (ev : usage_event) k :
  m !! i = None ->
  events_total (<[i := ev]> m) k =
    (events_total m k + if in_bucket k i ev then ue_quantity ev else 0)%Z.
Proof.
  intros Hi. unfold events_total. rewrite (sumZ_Permutation _ _ _ (rows_where_insert Tusage_events _ _ _ _ Hi)).
  destruct (in_bucket k i ev); simpl; lia.
Qed.

Lemma counted_metering org metric q t ik props w w1 :
  counted org metric q t ik props w w1 -> keeps_metering w w1.
Proof.
  intros [He Ht Hf _ Hk]. split; [rewrite Hf; lia|]. intros [Hi Hc].
  assert (Hnew : w_db w Tusage_events !! w_fresh w = None) by (apply Hi; lia). split.
  - intros i Hle. rewrite Hf in Hle. rewrite He. apply (put_other Tusage_events); [lia|]. apply Hi. lia.
  - intros org' metric' p. rewrite (Hk Tmetrics) by done. intros Hg.
    rewrite He, Ht, events_total_insert by done. by rewrite (Hc org' metric' p Hg).
Qed.

#[local] Instance keeps_metering_preorder : PreOrder keeps_metering.
Proof.
  unfold keeps_metering. split; [intros w; split; [lia|done]|].
  intros w1 w2 w3 [Hf1 H1] [Hf2 H2]. split; [lia|auto].
Qed.

Lemma metering_step {A B} (m : M A) (f : A -> M B) w :
  Stable keeps_totals m -> (forall a w1, keeps_metering w1 (f a w1).2) -> keeps_metering w (mbind f m w).2.
Proof.
  intros Hm Hf. step keeps_totals; simpl.
  - intros a w1 _ H1. etrans; [by apply totals_metering|apply Hf].
  - intros e w1 _ H1. by apply totals_metering.
Qed.

Lemma metering_done {A} (m : M A) w : Stable keeps_totals m -> keeps_metering w (m w).2.
Proof. intros Hm. apply totals_metering, Hm. Qed.

(** A gauge's row may be set freely. *)
Lemma metering_gauge metric org p c w :
  is_gauge (w_db w Tmetrics) metric -> keeps_metering w (put_w Tusage_counters (counter_key org metric p) c w).
Proof.
  intros Hg. split; [simpl; lia|]. intros [Hi Hc]. split; [intros i; tables; apply Hi|].
  intros org' metric' p'. tables. intros Hg'. rewrite counter_total_put, bool_decide_false; [by apply Hc|].
  unfold counter_key. intros [= _ -> _]. done.
Qed.

Lemma assert_gauge_ok metric w :
  (_assert_gauge_metric metric w).1 = Ok tt -> is_gauge (w_db w Tmetrics) metric.
Proof.
  unfold _assert_gauge_metric, _metric. run.
  destruct (w_db w Tmetrics !! metric) as [m|] eqn:E; run; [|done].
  destruct (String.eqb_spec (m_kind m) "gauge"); simpl; [|done]. intros _. by exists m.
Qed.

Lemma totals_gauge_result org metric level : Stable keeps_totals (_gauge_result org metric level).
Proof. unfold _gauge_result. solve_stable. Qed.
Lemma totals_capacity org metric current adding :
  Stable keeps_totals (ensure_gauge_capacity org metric current adding).
Proof. unfold ensure_gauge_capacity, _assert_gauge_metric, _metric. solve_stable. Qed.
Lemma totals_current org metric p : Stable keeps_totals (current_total org metric p).
Proof. unfold current_total, _period_for, _metric. solve_stable. Qed.
Lemma totals_assert_gauge metric : Stable keeps_totals (_assert_gauge_metric metric).
Proof. unfold _assert_gauge_metric, _metric. solve_stable. Qed.
#[local] Hint Resolve totals_gauge_result totals_capacity totals_current totals_assert_gauge : stable.

Ltac metering_op :=
  repeat first
    [ apply metering_done; solve [solve_stable]
    | count_step; intros; etrans; [eapply counted_metering; eassumption|]
    | apply metering_step; [solve [solve_stable]|intros]
    | match goal with |- keeps_metering _ (match ?x with _ => _ end _).2 => destruct x end ].

Lemma metering_record org metric q at_ ik props w :
  keeps_metering w (record org metric q at_ ik props w).2.
Proof.
  unfold record. apply metering_step; [solve_stable|intros _ w1].
  apply metering_step; [solve_stable|intros first w2]. destruct first; simpl; [|metering_op].
  apply metering_step; [solve_stable|intros t w3]. metering_op.
Qed.

Lemma metering_consume org metric q ik props w :
  keeps_metering w (consume org metric q ik props w).2.
Proof.
  unfold consume. apply metering_step; [solve_stable|intros _ w1].
  apply metering_step; [solve_stable|intros t w2]. apply metering_step; [solve_stable|intros e w3].
  apply metering_step; [solve_stable|intros first w4]. destruct first; simpl; metering_op.
Qed.

Lemma metering_consume_many org l w : keeps_metering w (consume_many org l w).2.
Proof.
  revert w. induction l as [|u l IH]; intros w; simpl consume_many; [metering_op|].
  pose proof (metering_consume org (un_metric u) (un_quantity u) (un_idempotency_key u) (un_properties u) w) as H1.
  unfold mbind, M_bind. destruct (consume _ _ _ _ _ w) as [[r|e] w1]; simpl in *; [|done].
  specialize (IH w1). destruct (consume_many org l w1) as [[rs|e] w2]; simpl in *; by etrans.
Qed.

(** C28: the counters are the sums of their events: whatever their outcome,
    recording, consuming, consuming a batch and moving gauges keep every counter
    of a metric that is not a gauge equal to the sum of the quantities of the
    events in its organization, metric and month. *)
Theorem metering_balances org metric w :
  metering_ok w ->
  (forall q at_ ik props, metering_ok (record org metric q at_ ik props w).2) /\
  (forall q ik props, metering_ok (consume org metric q ik props w).2) /\
  (forall events_in, metering_ok (consume_many org events_in w).2) /\
  (forall level, metering_ok (set_gauge org metric level w).2) /\
  (forall delta enforce, metering_ok (adjust_gauge org metric delta enforce w).2).
Proof.
  intros Hok.
  assert (Hg : forall {B} (f : unit -> M B), (forall w1, is_gauge (w_db w1 Tmetrics) metric -> keeps_metering w1 (f tt w1).2) ->
    metering_ok (mbind f (_assert_gauge_metric metric) w).2).
  { intros B f Hf. rewrite run_readonly by (unfold _assert_gauge_metric, _metric; solve_stable).
    destruct (_assert_gauge_metric metric w).1 as [[]|] eqn:Ha; [|done].
    apply (proj2 (Hf w (assert_gauge_ok _ _ Ha)) Hok). }
  split_and!; intros.
  - by apply metering_record.
  - by apply metering_consume.
  - by apply metering_consume_many.
  - unfold set_gauge. apply Hg. intros w1 Hw1. run.
    etrans; [by apply (metering_gauge metric)|]. apply metering_done. solve_stable.
  - unfold adjust_gauge. apply Hg. intros w1 Hw1.
    step keeps_totals; simpl; [|intros e w2 _ H2; by apply totals_metering].
    intros _ w2 _ H2. etrans; [by apply totals_metering|]. destruct H2 as (_ & Hm & _).
    run. etrans; [apply (metering_gauge metric); by rewrite Hm|]. apply metering_done. solve_stable.
Qed.

Ltac ret_step :=
  repeat match goal with
  | |- context [@mbind M _ _ _ ?f (mret tt) ?w] => change (@mbind M _ _ _ f (mret tt) w) with (f tt w)
  end; cbv beta.

(** Moving a gauge: with a reader that always answers, an enforced increase
    that would pass the effective limit is refused with nothing written; every
    other move of a gauge metric succeeds, reports and stores the new level
    [max (level + delta) 0], which is never negative, and touches no other
    counter. *)
Theorem adjust_gauge_moves_level org metric delta enforce w e m :
  (forall w', exists e', (effective_for org w').1 = Ok e') ->
  (effective_for org w).1 = Ok e ->
  w_db w Tmetrics !! metric = Some m -> m_kind m = "gauge" ->
  let k := counter_key org metric GAUGE_PERIOD in
  let before := counter_total (w_db w Tusage_counters) k in
  let refused := enforce && (0 <? delta)%Z &&
    match limit_value e metric with Some v => (v <? before + delta)%Z | None => false end in
  match adjust_gauge org metric delta enforce w with
  | (Ok r, w') =>
      refused = false /\ ur_total r = Z.max (before + delta) 0 /\
      forall k', counter_total (w_db w' Tusage_counters) k' =
        if bool_decide (k = k') then ur_total r else counter_total (w_db w Tusage_counters) k'
  | (Err x, w') =>
      refused = true /\ (exists extras, x = Domain UsageLimitExceededError extras) /\
      forall t, w_db w' t = w_db w t
  end.
Proof.
  intros Hread He Hm Hkind k before refused. unfold adjust_gauge.
  assert (Hassert : forall w', w_db w' Tmetrics = w_db w Tmetrics ->
    forall B (f : unit -> M B), mbind f (_assert_gauge_metric metric) w' = f tt w').
  { intros w' Hw' B f. unfold _assert_gauge_metric, _metric. run. rewrite Hw'. rewrite_row Hm. run.
    by rewrite Hkind. }
  rewrite Hassert by done.
  assert (Hlast : forall w1, (forall t, w_db w1 t = w_db w t) ->
    match (t ← now; existing ← session_get Tusage_counters k;
           _ ← put Tusage_counters k (adjusted delta t existing);
           _gauge_result org metric (uc_quantity_total (adjusted delta t existing))) w1 with
    | (Ok r, w') => ur_total r = Z.max (before + delta) 0 /\
        forall k', counter_total (w_db w' Tusage_counters) k' =
          if bool_decide (k = k') then ur_total r else counter_total (w_db w Tusage_counters) k'
    | (Err _, _) => False
    end).
  { intros w1 Hw1. run. rewrite Hw1. set (c := adjusted _ _ _).
    assert (Hc : uc_quantity_total c = Z.max (before + delta) 0).
    { unfold c, before, counter_total. destruct (w_db w Tusage_counters !! k); simpl; lia. }
    unfold _gauge_result. match goal with |- context [mbind ?f (effective_for org) ?w2] =>
      destruct (effective_run org f w2) as (w3 & Hdb & _ & _ & ->); destruct (Hread w2) as [e2 ->] end.
    cbn [mret M_ret ur_total]. split; [done|]. intros k'. rewrite Hdb. tables.
    rewrite counter_total_put, Hw1.
    by destruct (decide (k = k')); [rewrite !bool_decide_true|rewrite !bool_decide_false]. }
  rewrite run_when. unfold refused. destruct (enforce && (0 <? delta)%Z); simpl.
  - rewrite run_assoc. unfold current_total, _period_for, _metric, ensure_gauge_capacity. run.
    rewrite_row Hm. run. rewrite Hkind. simpl. run. fold k before. rewrite Hassert by done. run.
    match goal with |- context [mbind ?f (effective_for org) w] =>
      destruct (effective_run org f w) as (w1 & Hdb & _ & _ & ->) end.
    rewrite He. destruct (limit_value e metric) as [v|].
    + destruct (v <? before + delta)%Z; [run; split; [done|split; [by eexists|done]]|].
      specialize (Hlast w1 Hdb). ret_step. by destruct (mbind _ now w1) as [[r|] w'].
    + specialize (Hlast w1 Hdb). ret_step. by destruct (mbind _ now w1) as [[r|] w'].
  - specialize (Hlast w (fun _ => eq_refl)). ret_step. by destruct (mbind _ now w) as [[r|] w'].
Qed.

(** The soft-limit event is emitted at most once per organization, metric and
    month: once the check has queued it, a later check in the same month, at
    whatever total and instant, queues nothing more as long as the counter
    rows are the ones it left. *)
Theorem soft_limit_emitted_once org metric total total2 w w2 :
  w_db (_maybe_emit_soft_limit org metric total w).2 Toutbox_events <> w_db w Toutbox_events ->
  _month_bucket (w_clock w2) = _month_bucket (w_clock w) ->
  w_db w2 Tusage_counters = w_db (_maybe_emit_soft_limit org metric total w).2 Tusage_counters ->
  w_db (_maybe_emit_soft_limit org metric total2 w2).2 Toutbox_events = w_db w2 Toutbox_events.
Proof.
  intros Hemit Hmonth Hcounters.
  set (k := counter_key org metric (_month_bucket (w_clock w))).
  assert (Hclaimed : exists c, w_db w2 Tusage_counters !! k = Some c /\
    is_Some (uc_soft_limit_notified_at c)).
  { rewrite Hcounters. clear Hcounters. revert Hemit. unfold _maybe_emit_soft_limit.
    match goal with |- context [mbind ?f (effective_for org) w] =>
      destruct (effective_run org f w) as (w1 & Hdb & Henv & _ & ->) end.
    destruct (effective_for org w).1 as [e|]; [|by rewrite Hdb].
    destruct (limit_of e metric) as [l|]; [|simpl; by rewrite Hdb].
    destruct (l_value l), (soft_ratio l); try (simpl; by rewrite Hdb).
    destruct (soft_threshold _ _); [|simpl; by rewrite Hdb].
    destruct (_ <? _)%Z; [simpl; by rewrite Hdb|]. unfold claim_soft_limit. run.
    destruct Henv as [-> _]. fold k. rewrite Hdb.
    destruct (w_db w Tusage_counters !! k) as [c|] eqn:Ec; run; [|simpl; by rewrite Hdb].
    case_bool_decide; run; [|simpl; by rewrite Hdb]. intros _. tables.
    eexists. split; [apply (put_same Tusage_counters)|]. done. }
  destruct Hclaimed as (c & Hc & Hn). unfold _maybe_emit_soft_limit.
  match goal with |- context [mbind ?f (effective_for org) w2] =>
    destruct (effective_run org f w2) as (w3 & Hdb & Henv & _ & ->) end.
  destruct (effective_for org w2).1 as [e|]; [|done].
  destruct (limit_of e metric) as [l|]; [|done]. destruct (l_value l), (soft_ratio l); try done.
  destruct (soft_threshold _ _); [|done]. destruct (_ <? _)%Z; [done|].
  unfold claim_soft_limit. run. destruct Henv as [-> _]. rewrite Hmonth. fold k. rewrite Hdb.
  rewrite_row Hc. rewrite bool_decide_false by (by destruct Hn as [? ->]). run. done.
Qed.
End Proofs.

(** ** Witnesses *)

Definition static_entitlements : effective_entitlements :=
  EffectiveEntitlements 1 (Some "pro") (Some "active") ∅
    {[ "api_calls" := Limit (Some 1000%Z) (Some (float_div (float_of_Z 80) (float_of_Z 100))) None;
       "seats" := Limit (Some 5%Z) None None ]}.

(** A reader that always gives the same entitlements. *)
Definition static_reader : EntitlementReader := {|
  effective_for _ := mret static_entitlements;
  effective_tables _ _ _ := eq_refl;
  effective_env _ w := reflexivity w;
  effective_fresh _ _ := eq_refl;
  effective_decisions _ _ _ _ := eq_refl
|}.

Definition first_use : usage_result :=
  UsageResult "api_calls" 10 10 (Some (LimitReport (Some 1000%Z) (Some 990%Z) true)) false.

Lemma first_use_ran :
  (@consume static_reader 1 "api_calls" 10 (Some "k1") [] demo).1 = Ok first_use.
Proof. vm_compute. reflexivity. Qed.

Lemma consume_idempotent_witness :
  exists w2, @consume static_reader 1 "api_calls" 99 (Some "k1") []
      (@consume static_reader 1 "api_calls" 10 (Some "k1") [] demo).2 =
    (Ok (UsageResult "api_calls" 10 10 (Some (report (Some 1000%Z) 10)) true), w2).
Proof.
  destruct (@consume_idempotent static_reader 1 "api_calls" 10 "k1" [] demo first_use _
    static_entitlements 99 [] (ran _ _ _ first_use_ran) eq_refl eq_refl)
    as (w2 & E & _).
  exists w2. exact E.
Defined.

Lemma metering_ok_demo : metering_ok demo.
Proof. split; [intros i _; reflexivity|]. intros org m p _. reflexivity. Qed.

Lemma metering_balances_witness :
  metering_ok (@record static_reader 1 "api_calls" 5 None None [] demo).2.
Proof. exact (proj1 (@metering_balances static_reader 1 "api_calls" demo metering_ok_demo) 5%Z None None []). Defined.

Lemma adjust_gauge_moves_level_witness :
  exists r w', @adjust_gauge static_reader 1 "seats" 3 true demo = (Ok r, w') /\ ur_total r = 3%Z.
Proof.
  pose proof (@adjust_gauge_moves_level static_reader 1 "seats" 3 true demo static_entitlements
    (Metric "Seats" "gauge" None None None) (fun w' => ex_intro _ static_entitlements eq_refl)
    eq_refl eq_refl eq_refl) as H.
  destruct (@adjust_gauge static_reader 1 "seats" 3 true demo) as [[r|x] w'].
  - exists r, w'. split; [reflexivity|]. exact (proj1 (proj2 H)).
  - destruct H as [H _]. vm_compute in H. discriminate H.
Defined.

Definition near_limit : world :=
  put_w Tusage_counters (counter_key 1 "api_calls" (_month_bucket NOW)) (UsageCounter 900 None None) demo.

Lemma soft_limit_emitted_once_witness :
  let w2 := (@_maybe_emit_soft_limit static_reader 1 "api_calls" 900 near_limit).2 in
  w_db (@_maybe_emit_soft_limit static_reader 1 "api_calls" 950 w2).2 Toutbox_events =
  w_db w2 Toutbox_events.
Proof.
  apply (@soft_limit_emitted_once static_reader 1 "api_calls" 900 950 near_limit); [|reflexivity..].
  intros E. apply (f_equal size) in E. vm_compute in E. discriminate E.
Defined.

(** 900 of 1000 calls are used: 200 more are refused, and the refusal says so. *)
Lemma consume_enforces_limit_witness :
  (request (@consume static_reader 1 "api_calls" 200 (Some "k9") []) near_limit).1 =
    Err (Domain UsageLimitExceededError
           [("metric", JStr "api_calls"); ("limit", JInt 1000); ("used", JInt 900); ("attempted", JInt 200);
            ("upgrade_url", JStr "/dashboard/billing")]).
Proof.
  refine (proj2 (@consume_enforces_limit static_reader 1 "api_calls" 200 (Some "k9") [] near_limit)
            (Metric "API calls" "counter" None None None) static_entitlements 1000%Z _ _ _ _ _ _).
  - vm_compute. reflexivity.
  - discriminate.
  - reflexivity.
  - reflexivity.
  - intros k [= <-]. vm_compute. reflexivity.
  - vm_compute. reflexivity.
Defined.

(** An instant an hour before a month ends in UTC falls in the next month two hours east. *)
Example month_bucket_by_offset :
  let t := (midnight (_month_bucket NOW) - 3600 * SECOND)%Z in
  _month_bucket_at (2 * 3600 * SECOND) t = _month_bucket NOW /\ _month_bucket t <> _month_bucket NOW.
Proof. split; [vm_compute; reflexivity|vm_compute; discriminate]. Qed.
