(* ===== verification/Tenancy.v ===== *)
(** Organizations and memberships (tenancy/service.py, tenancy/repository.py) and
    the resolution of a request's tenant (tenancy/dependencies.py).

    [sha256] is the hexadecimal digest of a text; the random invite token and slug
    suffix are arguments.  Row-level security settings are not modelled. *)

From Stdlib Require Import Ascii.
From S2P Require Import Prelude Text Ids Permissions Json Errors Events Tables Store Cache Session Fixtures.
From S2P Require Import Repository Authorization Subscriptions Interfaces Entitlements Usage.

(** ** Repositories *)

Definition get_by_slug (slug : string) : M (option (key Torganizations * row Torganizations)) :=
  rows ← select Torganizations (fun _ (o : organization) =>
    String.eqb (o_slug o) slug && bool_decide (o_deleted_at o = None));
  scalar_one_or_none rows.
Definition slug_exists (slug : string) : M bool :=
  o ← get_by_slug slug; mret (bool_decide (is_Some o)).

Definition for_organization (org : uuid) (limit offset : nat) : M (list (key Tmemberships * row Tmemberships)) :=
  rows ← select Tmemberships (fun _ (m : membership) => bool_decide (mb_organization_id m = org));
  mret (take limit (drop offset (order_by (fun r : key Tmemberships * row Tmemberships => mb_created_at r.2) rows))).
Definition for_user (user_id : uuid) : M (list (key Tmemberships * row Tmemberships)) :=
  select Tmemberships (fun _ (m : membership) =>
    bool_decide (mb_user_id m = Some user_id) && String.eqb (mb_status m) "active").
Definition get_active (org user_id : uuid) : M (option (key Tmemberships * row Tmemberships)) :=
  rows ← select Tmemberships (active_membership org user_id);
  scalar_one_or_none rows.
Definition find_pending_invite (org : uuid) (email : string) : M (option (key Tmemberships * row Tmemberships)) :=
  rows ← select Tmemberships (fun _ (m : membership) =>
    bool_decide (mb_organization_id m = org) &&
    bool_decide (citext <$> mb_invited_email m = Some (citext email)) && String.eqb (mb_status m) "invited");
  scalar_one_or_none rows.
Definition count_active_members (org : uuid) : M Z :=
  repo_count Tmemberships None (Some org) [("status", JStr "active")].
Definition _count_pending_invites (org : uuid) : M Z :=
  rows ← select Tmemberships (fun _ (m : membership) =>
    bool_decide (mb_organization_id m = org) && String.eqb (mb_status m) "invited");
  mret (Z.of_nat (length rows)).

Section Service.
Context (sha256 : string -> string) `{EntitlementReader}.

Definition tenancy_audit (event_type : string) (org : uuid) (target_type : option string)
    (target_id : option uuid) (diff : option jobj) : M unit :=
  audit event_type (Some org) None "user" target_type target_id diff.

(** ** Seats *)

Definition _sync_seat_gauge (org : uuid) : M unit :=
  active ← count_active_members org;
  pending ← _count_pending_invites org;
  _ ← set_gauge org "users" (active + pending);
  mret tt.

(** ** Organizations *)

Definition _bootstrap_subscription (org : uuid) : M unit :=
  s ← get_settings;
  rows ← select Tplans (fun _ (p : plan) => String.eqb (p_key p) (st_default_plan_key s));
  found ← scalar_one_or_none rows;
  match found with
  | None => mret tt
  | Some (i, p) =>
      t ← now;
      p ← load_plan i p;
      _ ← create_subscription org p "active" (Some t) (Some (t + days 30)%Z) None None None None;
      mret tt
  end.

Definition final_slug (name : string) (slug : option string) (suffix : string) : M string :=
  let desired := or_str slug (slugify name) in
  if negb (String.eqb desired "") && negb (is_valid_slug desired)
  then raise_domain SlugUnavailableError [("slug", JStr desired)]
  else if String.eqb desired "" then mret (unique_slug name suffix)
  else taken ← slug_exists desired;
       mret (if (taken : bool) then unique_slug name suffix else desired).

Definition create_organization (name : string) (owner_id : uuid) (slug : option string) (suffix : string) :
    M (uuid * organization) :=
  final ← final_slug name slug suffix;
  i ← fresh_id;
  let org := Organization final name "active" (Some owner_id) [] None in
  _ ← put Torganizations i org;
  _ ← flush;
  mid ← fresh_id;
  t ← now;
  let m := Membership i (Some owner_id) None None "active" (Some t) [] t in
  _ ← put Tmemberships mid m;
  _ ← flush;
  _ ← _sync_seat_gauge i;
  roles ← select Troles (fun _ (r : authorization_role) =>
    String.eqb (ro_key r) SYSTEM_ROLE_OWNER && bool_decide (ro_organization_id r = None));
  owner_role ← scalar_one roles;
  d ← read_db;
  _ ← insert_new Tmembership_roles (mid, owner_role.1) tt;
  _ ← put Tmemberships mid (m <| mb_permission_keys := sorted_set (permissions_of d owner_role.1) |>);
  _ ← queue_tuple_sync i (Some owner_id);
  _ ← tenancy_audit ORG_CREATED i (Some "organization") (Some i)
        (Some [("name", JStr name); ("slug", JStr final)]);
  _ ← append_outbox ORG_CREATED "organization" i
        [("name", JStr name); ("slug", JStr final); ("owner_user_id", JUuid owner_id)] (Some i);
  _ ← _bootstrap_subscription i;
  mret (i, org).

Definition get_organization (org : uuid) : M organization :=
  o ← session_get Torganizations org;
  match (o : option organization) with
  | Some o => if bool_decide (o_deleted_at o = None) then mret o else raise_domain OrganizationNotFoundError []
  | None => raise_domain OrganizationNotFoundError []
  end.

(** The organization after an update, and the audited differences. *)
Definition updated_organization (name : option string) (settings : option jobj) (o : organization) :
    organization * jobj :=
  let '(o, diff) := match name with
    | Some n => if String.eqb n (o_name o) then (o, [])
                else (o <| o_name := n |>, [("name", JObj [("from", JStr (o_name o)); ("to", JStr n)])])
    | None => (o, [])
    end in
  match settings with
  | Some s =>
      let merged := jupdate (o_settings o) s in
      (o <| o_settings := merged |>,
       diff ++ [("settings", JObj [("from", JObj (o_settings o)); ("to", JObj merged)])])
  | None => (o, diff)
  end.

Definition update_organization (org : uuid) (name : option string) (settings : option jobj) : M organization :=
  o ← get_organization org;
  let '(o, diff) := updated_organization name settings o in
  _ ← put Torganizations org o;
  _ ← match diff with [] => mret tt | _ => tenancy_audit ORG_UPDATED org None None (Some diff) end;
  mret o.

Definition suspend_organization (org : uuid) : M organization :=
  o ← get_organization org;
  let o := (o : organization) <| o_status := "suspended" |> in
  _ ← put Torganizations org o;
  _ ← tenancy_audit ORG_SUSPENDED org None None None;
  mret o.

Definition unsuspend_organization (org : uuid) : M organization :=
  o ← get_organization org;
  let o := (o : organization) <| o_status := "active" |> in
  _ ← put Torganizations org o;
  _ ← tenancy_audit ORG_UNSUSPENDED org None None None;
  mret o.

(** ** Memberships *)

(** [for key in role_keys: await self._attach_role(membership, key)]. *)
Fixpoint attach_roles (mid : uuid) (m : membership) (role_keys : list string) : M membership :=
  match role_keys with
  | [] => mret m
  | k :: ks => m ← attach_role mid m k; attach_roles mid m ks
  end.

Definition roles_or_member (role_keys : option (list string)) : list string :=
  match role_keys with Some (k :: ks) => k :: ks | _ => ["member"] end.

Definition seats_left (seat_limit : option Z) (used : Z) : bool :=
  match seat_limit with Some l => negb (l <? used + 1)%Z | None => true end.

Definition invite_member (token : string) (org : uuid) (email : string) (role_keys : option (list string))
    (seat_limit : option Z) (org_name : string) : M (uuid * membership) :=
  rows ← select Tmemberships (fun _ (m : membership) =>
    bool_decide (mb_organization_id m = org) &&
    bool_decide (citext <$> mb_invited_email m = Some (citext email)));
  existing ← scalar_one_or_none rows;
  match existing with
  | Some (_, m) =>
      raise_domain ConflictError
        [("email", JStr email); ("membership_status", JStr (mb_status (m : membership)))]
  | None =>
      active ← count_active_members org;
      pending ← _count_pending_invites org;
      if negb (seats_left seat_limit (active + pending))
      then raise_domain MembershipLimitReachedError
             [("metric", JStr "users"); ("limit", jopt JInt seat_limit); ("used", JInt (active + pending));
              ("upgrade_url", JStr "/dashboard/billing")]
      else
        mid ← fresh_id;
        t ← now;
        let m := Membership org None (Some email) None "invited" None [] t in
        _ ← put Tmemberships mid m;
        _ ← flush;
        m ← attach_roles mid m (roles_or_member role_keys);
        _ ← flush;
        let m := (m : membership) <| mb_invite_token_hash := Some (sha256 token) |> in
        _ ← put Tmemberships mid m;
        _ ← tenancy_audit MEMBER_INVITED org (Some "membership") (Some mid)
              (Some [("email", JStr email); ("roles", JList (JStr <$> roles_or_member role_keys))]);
        _ ← append_outbox MEMBER_INVITED "membership" mid
              [("email", JStr email); ("org_name", JStr org_name); ("membership_id", JUuid mid)] (Some org);
        _ ← append_outbox MEMBER_INVITE_EMAIL "membership" mid
              [("email", JStr email); ("invite_token", JStr token); ("org_name", JStr org_name)] (Some org);
        _ ← _sync_seat_gauge org;
        mret (mid, m)
  end.

(** [_accept]: the user who joins, when there is one. *)
Definition joined_row (t : instant) (joiner : option (uuid * string)) (m : membership) : membership :=
  let m := match joiner with
    | Some (u, email) => m <| mb_user_id := Some u |> <| mb_invited_email := Some email |>
    | None => m
    end in
  m <| mb_status := "active" |> <| mb_joined_at := Some t |>.

Definition _accept (mid : uuid) (m : membership) (joiner : option (uuid * string)) : M membership :=
  t ← now;
  let m := joined_row t joiner m in
  _ ← put Tmemberships mid m;
  _ ← flush;
  _ ← tenancy_audit MEMBER_JOINED (mb_organization_id m) (Some "membership") (Some mid)
        (Some [("email", jopt JStr (mb_invited_email m))]);
  _ ← append_outbox MEMBER_JOINED "membership" mid [("email", jopt JStr (mb_invited_email m))]
        (Some (mb_organization_id m));
  _ ← _sync_seat_gauge (mb_organization_id m);
  _ ← invalidate_member m;
  mret m.

Definition accept_invite_by_email (org : uuid) (email : string) : M membership :=
  found ← find_pending_invite org email;
  match found with
  | None => raise_domain InviteNotFoundError []
  | Some (mid, m) =>
      users ← select Tusers (fun _ (u : user) => String.eqb (citext (u_email u)) (citext email));
      joiner ← scalar_one_or_none users;
      _accept mid m ((fun r : uuid * user => (r.1, u_email r.2)) <$> (joiner : option (uuid * user)))
  end.

Definition invited_by_token (token : string) (_ : key Tmemberships) (m : membership) : bool :=
  bool_decide (mb_invite_token_hash m = Some (sha256 token)) && String.eqb (mb_status m) "invited".

(** The SECURITY DEFINER lookup binds the tenant; the row is then read again. *)
Definition _invited_membership_for_token (token : string) : M (key Tmemberships * row Tmemberships) :=
  rows ← select Tmemberships (invited_by_token token);
  match head rows with
  | None => raise_domain InviteNotFoundError []
  | Some _ =>
      rows ← select Tmemberships (invited_by_token token);
      found ← scalar_one_or_none rows;
      match found with None => raise_domain InviteNotFoundError [] | Some r => mret r end
  end.

Definition _same_mailbox (invited actual : option string) : bool :=
  String.eqb (lower (strip (or_str invited ""))) (lower (strip (or_str actual ""))).

Definition accept_invite_by_token (token : string) (user_id : uuid) (u : user) : M membership :=
  r ← _invited_membership_for_token token;
  let '(mid, m) := (r : key Tmemberships * row Tmemberships) in
  if negb (_same_mailbox (mb_invited_email m) (Some (u_email u)))
  then raise_domain PermissionDeniedError []
  else _accept mid ((m : membership) <| mb_invite_token_hash := None |>) (Some (user_id, u_email u)).

Definition preview_invite (token : string) : M (organization * membership) :=
  r ← _invited_membership_for_token token;
  org ← session_get Torganizations (mb_organization_id (r.2 : row Tmemberships));
  match (org : option organization) with
  | Some o => if bool_decide (o_deleted_at o = None) then mret (o, r.2) else raise_domain InviteNotFoundError []
  | None => raise_domain InviteNotFoundError []
  end.

Definition _get_membership (mid : uuid) : M membership :=
  m ← session_get Tmemberships mid;
  match (m : option membership) with Some m => mret m | None => raise_domain NotAMemberError [] end.

Definition _replace_roles (mid : uuid) (m : membership) (role_keys : list string) : M membership :=
  _ ← delete_where Tmembership_roles (fun k _ => bool_decide (k.1 = mid));
  let m := m <| mb_permission_keys := [] |> in
  _ ← put Tmemberships mid m;
  m ← attach_roles mid m role_keys;
  _ ← invalidate_member m;
  mret m.

Definition update_membership (mid : uuid) (role_keys : option (list string)) (status : option string) :
    M membership :=
  m ← _get_membership mid;
  m ← match role_keys with Some ks => _replace_roles mid m ks | None => mret m end;
  let old := mb_status (m : membership) in
  let changed := match status with Some s => negb (String.eqb s old) | None => false end in
  let m := match status with Some s => (m : membership) <| mb_status := s |> | None => m end in
  _ ← put Tmemberships mid m;
  _ ← flush;
  m ← _get_membership mid;
  let diff :=
    match role_keys with Some ks => [("roles", JList (JStr <$> ks))] | None => [] end ++
    (if changed then [("status", JObj [("from", JStr old); ("to", jopt JStr status)])] else []) in
  _ ← match diff with
      | [] => mret tt
      | _ => tenancy_audit MEMBER_UPDATED (mb_organization_id (m : membership)) (Some "membership") (Some mid) (Some diff)
      end;
  _ ← (if changed
       then _ ← _sync_seat_gauge (mb_organization_id m); invalidate_member m
       else mret tt);
  mret m.

Definition remove_member (mid : uuid) : M unit :=
  m ← _get_membership mid;
  org ← get_organization (mb_organization_id (m : membership));
  if bool_decide (mb_user_id m = o_owner_user_id (org : organization))
  then raise_domain NotAMemberError []
  else
    _ ← tenancy_audit MEMBER_REMOVED (mb_organization_id m) (Some "membership") (Some mid)
          (Some [("email", JStr (or_str (mb_invited_email m) (opt_uuid_str (mb_user_id m))))]);
    _ ← delete_where Tmembership_roles (fun k _ => bool_decide (k.1 = mid));
    _ ← del Tmemberships mid;
    _ ← flush;
    _ ← _sync_seat_gauge (mb_organization_id m);
    queue_tuple_sync (mb_organization_id m) (mb_user_id m).

(** The routes check the tenant before the service acts on a membership. *)
Definition scoped_membership (tenant : tenant_context) (mid : uuid) : M membership :=
  m ← session_get Tmemberships mid;
  match (m : option membership) with
  | Some m => if bool_decide (mb_organization_id m = tx_organization_id tenant) then mret m
              else raise_domain NotAMemberError []
  | None => raise_domain NotAMemberError []
  end.
End Service.

(** ** The tenant of a request *)

(** What the request names: an id, or a slug (header or subdomain). *)
Inductive org_reference : Type := ById (i : uuid) | BySlug (s : string).

(** The parts of a request the resolution reads. *)
Record tenant_request : Type := TenantRequest {
  tr_org_id : option string;
  tr_org_slug : option string;
  tr_host : string;
  tr_authorization : string
}.

Section Resolution.
(** [ipaddress.ip_address] accepts the host, and the [org] claim of an access
    token ([None] when the token is refused). *)
Context (is_ip_literal : string -> bool) (org_claim : string -> option (option string)).

Definition first_label (host : string) : string := default "" (head (split_on "." host)).
Definition request_host (header : string) : string := lower (default "" (head (split_on ":" header))).

Definition subdomain (host : string) : option string :=
  if contains "." host && negb (is_ip_literal host) &&
     negb (bool_decide (first_label host ∈ ["www"; "api"; "app"]))
  then Some (first_label host) else None.

Definition _resolve_org_reference (rq : tenant_request) : M (option org_reference) :=
  if truthy_str (tr_org_id rq)
  then match uuid_of_str (or_str (tr_org_id rq) "") with
       | Some i => mret (Some (ById i))
       | None => raise_domain TenantNotResolvedError []
       end
  else if truthy_str (tr_org_slug rq) then mret (BySlug <$> tr_org_slug rq)
  else match subdomain (request_host (tr_host rq)) with
  | Some s => mret (Some (BySlug s))
  | None =>
      if starts_with "Bearer " (tr_authorization rq)
      then match org_claim (str_drop 7 (tr_authorization rq)) with
           | Some claim =>
               if truthy_str claim
               then i ← value_error (uuid_of_str (or_str claim "")); mret (Some (ById i))
               else mret None
           | None => mret None
           end
      else mret None
  end.

Definition organization_named (r : org_reference) : M (option (uuid * organization)) :=
  match r with
  | ById i => o ← session_get Torganizations i; mret ((fun o : organization => (i, o)) <$> (o : option organization))
  | BySlug s => get_by_slug s
  end.

Definition resolve_tenant (rq : tenant_request) (user_id : uuid) (u : user) : M tenant_context :=
  existing ← current_tenant;
  match existing with
  | Some (TenantContext _ _ false as c) => mret c
  | _ =>
      reference ← _resolve_org_reference rq;
      match reference with
      | None => raise_domain TenantNotResolvedError []
      | Some r =>
          found ← organization_named r;
          match found with
          | None => raise_domain TenantNotResolvedError []
          | Some (org_id, org) =>
              if negb (bool_decide (o_deleted_at (org : organization) = None))
              then raise_domain TenantNotResolvedError []
              else
                m ← get_active org_id user_id;
                if negb (bool_decide (is_Some m)) && negb (u_is_platform_admin u)
                then raise_domain TenantNotResolvedError []
                else if negb (String.eqb (o_status org) "active") && negb (u_is_platform_admin u)
                then raise_domain OrganizationSuspendedError
                       [("organization_id", JUuid org_id); ("organization_status", JStr (o_status org))]
                else
                  let ctx := TenantContext org_id (o_slug org) false in
                  _ ← set_tenant ctx;
                  mret ctx
          end
      end
  end.
End Resolution.

Definition require_platform_admin (u : user) : M tenant_context :=
  if negb (u_is_platform_admin u) then raise_domain TenantNotResolvedError []
  else mret (TenantContext 0 "platform" true).

(** ** Seats stay in step *)

(** Seats in use: active members and pending invitations. *)
Definition with_status (org : uuid) (s : string) (_ : key Tmemberships) (m : row Tmemberships) : bool :=
  bool_decide (mb_organization_id m = org) && String.eqb (mb_status m) s.
Definition seats (d : db) (org : uuid) : Z :=
  (Z.of_nat (length (rows_where Tmemberships (with_status org "active") (d Tmemberships))) +
   Z.of_nat (length (rows_where Tmemberships (with_status org "invited") (d Tmemberships))))%Z.

(** The [users] gauge of the organization shows the seats in use. *)
Definition gauge_in_step (org : uuid) (d : db) : Prop :=
  exists c : usage_counter,
    d Tusage_counters !! (counter_key org "users" GAUGE_PERIOD : key Tusage_counters) = Some c /\
    uc_quantity_total c = seats d org.

Lemma gauge_frame org d d' :
  d' Tmemberships = d Tmemberships -> d' Tusage_counters = d Tusage_counters ->
  gauge_in_step org d -> gauge_in_step org d'.
Proof. unfold gauge_in_step, seats. by intros -> ->. Qed.

Lemma count_run org w :
  count_active_members org w =
    (Ok (Z.of_nat (length (rows_where Tmemberships (with_status org "active") (w_db w Tmemberships)))), w).
Proof.
  assert (E : rows_where Tmemberships (fun _ r => in_org Tmemberships org r &&
      (bool_decide (JStr (mb_status (r : membership)) = JStr "active") && true)) (w_db w Tmemberships) =
    rows_where Tmemberships (with_status org "active") (w_db w Tmemberships)).
  { apply rows_where_ext. intros k r _. unfold with_status, in_org. rewrite andb_true_r. f_equal.
    destruct (String.eqb_spec (mb_status r) "active") as [->|Hne]; [done|].
    apply bool_decide_eq_false. congruence. }
  rewrite <- E. reflexivity.
Qed.

Lemma pending_run org w :
  _count_pending_invites org w =
    (Ok (Z.of_nat (length (rows_where Tmemberships (with_status org "invited") (w_db w Tmemberships)))), w).
Proof. done. Qed.

Section Laws.
Context (sha256 : string -> string) `{EntitlementReader}.

Lemma reads_assert_gauge k : Reads (_assert_gauge_metric k).
Proof. unfold _assert_gauge_metric, _metric. solve_reads. Qed.

Lemma keeps_seats t org : t <> Tusage_counters -> Stable (keeps t) (_sync_seat_gauge org).
Proof.
  intros Ht. unfold _sync_seat_gauge, count_active_members, repo_count, statement, _scoped, _apply_filters,
    _count_pending_invites, set_gauge, _gauge_result, _assert_gauge_metric, _metric.
  solve_stable; try by apply keeps_put.
Qed.

(** After a synchronization the gauge shows the seats. *)
Lemma sync_run org w w' : _sync_seat_gauge org w = (Ok tt, w') -> gauge_in_step org (w_db w').
Proof.
  intros Hs. pose proof (keeps_seats Tmemberships org ltac:(discriminate) w) as Hm. rewrite Hs in Hm. simpl in Hm.
  unfold _sync_seat_gauge in Hs. rewrite (run_ok _ _ _ _ _ (count_run org w)) in Hs.
  rewrite (run_ok _ _ _ _ _ (pending_run org w)) in Hs.
  apply bind_ok in Hs as (r & w1 & Hs & [= <-]). unfold set_gauge in Hs.
  rewrite run_readonly_bind in Hs by apply reads_assert_gauge. case_match; [|done]. revert Hs. run.
  unfold _gauge_result. intros Hs. apply bind_ok in Hs as (e & w2 & He & [= _ <-]).
  set (w0 := put_w Tusage_counters _ _ w) in He.
  assert (Hc : w_db w2 Tusage_counters = w_db w0 Tusage_counters).
  { pose proof (effective_tables org w0 Tusage_counters) as Ht. by rewrite He in Ht. }
  unfold gauge_in_step, seats. rewrite Hm, Hc. unfold w0. rewrite put_w_eq.
  eexists. split; [apply (put_same Tusage_counters)|].
  destruct (w_db w Tusage_counters !! _) as [c|]; simpl; lia.
Qed.

(** What follows a synchronization leaves the gauge and the memberships alone. *)
Lemma gauge_after {A} (m : M A) w r w' org :
  Stable (keeps Tmemberships) m -> Stable (keeps Tusage_counters) m ->
  m w = (r, w') -> gauge_in_step org (w_db w) -> gauge_in_step org (w_db w').
Proof.
  intros Hm Hc E. apply gauge_frame; [exact (kept _ _ _ _ _ Hm E)|exact (kept _ _ _ _ _ Hc E)].
Qed.

(** What a membership counts for. *)
Definition seat_of (m : membership) : uuid * string := (mb_organization_id m, mb_status m).

Lemma with_status_seat org s (k : key Tmemberships) (m m' : row Tmemberships) :
  seat_of m = seat_of m' -> with_status org s k m = with_status org s k m'.
Proof. unfold seat_of, with_status. by intros [= -> ->]. Qed.

Lemma count_same org s (t : rows Tmemberships) (k : key Tmemberships) (m m' : row Tmemberships) :
  t !! k = Some m -> seat_of m = seat_of m' ->
  length (rows_where Tmemberships (with_status org s) (<[k := m']> t)) =
  length (rows_where Tmemberships (with_status org s) t).
Proof.
  intros Hk Hs. rewrite <- insert_delete_eq.
  rewrite <- (insert_delete_id t k m Hk) at 2.
  rewrite !rows_where_insert by apply lookup_delete_eq. rewrite (with_status_seat org s k m m') by done.
  by destruct (with_status org s k m').
Qed.

Lemma seats_same d d' org (k : key Tmemberships) (m m' : row Tmemberships) :
  d Tmemberships !! k = Some m -> seat_of m = seat_of m' -> d' Tmemberships = <[k := m']> (d Tmemberships) ->
  seats d' org = seats d org.
Proof. intros Hk Hs E. unfold seats. rewrite E. by rewrite !(count_same org _ _ k m m'). Qed.

Lemma gauge_same d d' org (k : key Tmemberships) (m m' : row Tmemberships) :
  d Tmemberships !! k = Some m -> seat_of m = seat_of m' -> d' Tmemberships = <[k := m']> (d Tmemberships) ->
  d' Tusage_counters = d Tusage_counters -> gauge_in_step org d -> gauge_in_step org d'.
Proof.
  intros Hk Hs E Ec (c & Hc & Eq). exists c. rewrite Ec. split; [done|]. rewrite Eq. symmetry.
  by apply (seats_same d d' org k m m').
Qed.

Lemma seats_fresh d d' org (k : key Tmemberships) (m : row Tmemberships) :
  d Tmemberships !! k = None -> seat_of m = (org, "invited") -> d' Tmemberships = <[k := m]> (d Tmemberships) ->
  seats d' org = (seats d org + 1)%Z.
Proof.
  intros Hk [= Ho Hst] E. unfold seats. rewrite E, !rows_where_insert by done.
  assert (H1 : with_status org "active" k m = false) by (unfold with_status; rewrite Hst; apply andb_false_r).
  assert (H2 : with_status org "invited" k m = true)
    by (unfold with_status; rewrite Ho, Hst; by rewrite bool_decide_eq_true_2).
  rewrite H1, H2. simpl. lia.
Qed.

(** Attaching roles changes nothing a seat depends on. *)
Lemma attach_roles_run mid ks : forall m w m' w',
  attach_roles mid m ks w = (Ok m', w') -> w_db w Tmemberships !! mid = Some m ->
  seat_of m' = seat_of m /\ w_db w' Tmemberships = <[mid := m']> (w_db w Tmemberships) /\
  mb_user_id m' = mb_user_id m /\ mb_invited_email m' = mb_invited_email m.
Proof.
  induction ks as [|k ks IH]; intros m w m' w'; simpl.
  - intros [= <- <-] Hm. split_and!; [done| |done..]. symmetry. by apply (put_id Tmemberships).
  - intros H' Hm. apply bind_ok in H' as (m1 & w1 & Ha & H'). apply attach_run in Ha as (rid & role & _ & _ & Hm1 & ->).
    apply IH in H' as (Hs & Ht & Hu & He); [|rewrite put_w_eq; apply (put_same Tmemberships)]. revert Ht. tables.
    intros Ht. subst m1. split_and!; [by rewrite Hs| |by rewrite Hu|by rewrite He].
    rewrite Ht. apply (put_twice Tmemberships).
Qed.

Lemma attach_roles_keeps t mid ks : t <> Tmemberships -> t <> Tmembership_roles -> forall m w m' w',
  attach_roles mid m ks w = (Ok m', w') -> w_db w' t = w_db w t.
Proof.
  intros H1 H2. induction ks as [|k ks IH]; intros m w m' w'; simpl; [by intros [= <- <-]|].
  intros H'. apply bind_ok in H' as (m1 & w1 & Ha & H'). apply attach_run in Ha as (rid & role & _ & _ & _ & ->).
  apply IH in H'. rewrite H'. rewrite put_w_ne by done. by apply put_w_ne.
Qed.

(** An invitation: one more pending row, within the limit, and the gauge in step. *)
Lemma invite_run token org email role_keys limit name w mid m w' :
  w_db w Tmemberships !! (w_fresh w : key Tmemberships) = None ->
  invite_member sha256 token org email role_keys limit name w = (Ok (mid, m), w') ->
  mid = w_fresh w /\ seat_of m = (org, "invited") /\ mb_user_id m = None /\ mb_invited_email m = Some email /\
  mb_invite_token_hash m = Some (sha256 token) /\
  w_db w' Tmemberships = <[(mid : key Tmemberships) := (m : row Tmemberships)]> (w_db w Tmemberships) /\
  seats_left limit (seats (w_db w) org) = true /\ gauge_in_step org (w_db w').
Proof.
  intros Hf. unfold invite_member. run.
  rewrite run_readonly_bind by solve_reads. case_match; [|done]. case_match; [by case_match|].
  rewrite (run_ok _ _ _ _ _ (count_run org w)), (run_ok _ _ _ _ _ (pending_run org w)).
  change (_ + _)%Z with (seats (w_db w) org). destruct (seats_left limit _) eqn:El; [|done]. run.
  unfold tenancy_audit. intros [_ H']%flush_ok. apply bind_ok in H' as (m1 & w2 & Ha & [_ H']%flush_ok).
  apply attach_roles_run in Ha as (Hs & Ht & Hu & He); [|rewrite put_w_eq; apply (put_same Tmemberships)].
  apply bind_ok in H' as ([] & w3 & Hp & H'). apply bind_ok in H' as ([] & w4 & H1' & H').
  apply bind_ok in H' as ([] & w5 & H2' & H'). apply bind_ok in H' as ([] & w6 & H3' & H').
  apply bind_ok in H' as ([] & w7 & Hg & [= <- <- <-]).
  assert (Hw3 : w3 = put_w Tmemberships (w_fresh w) (m1 <| mb_invite_token_hash := Some (sha256 token) |>) w2)
    by (by injection Hp as <-).
  assert (Hk : w_db w7 Tmemberships = w_db w3 Tmemberships).
  { rewrite (kept Tmemberships _ _ _ _ (keeps_seats Tmemberships org ltac:(discriminate)) Hg).
    rewrite (kept Tmemberships _ _ _ _ (keeps_outbox Tmemberships _ _ _ _ _ ltac:(discriminate)) H3').
    rewrite (kept Tmemberships _ _ _ _ (keeps_outbox Tmemberships _ _ _ _ _ ltac:(discriminate)) H2').
    exact (kept Tmemberships _ _ _ _ (keeps_audit Tmemberships _ _ _ _ _ _ _ ltac:(discriminate)) H1'). }
  apply sync_run in Hg. clear H1' H2' H3' Hp.
  split_and!; [done|exact Hs|exact Hu|exact He|done| |done|exact Hg].
  rewrite Hk, Hw3, put_w_eq, Ht, put_w_eq.
  etrans; [apply (put_twice Tmemberships)|]. apply (put_twice Tmemberships).
Qed.

(** What a new invitation leaves in the outbox for the mailer. *)
Lemma invite_outbox token org email role_keys limit name w r w' :
  invite_member sha256 token org email role_keys limit name w = (Ok r, w') ->
  exists k t, w_db w' Toutbox_events !! k =
    Some (OutboxEvent "membership" r.1 (Some org) MEMBER_INVITE_EMAIL
            [("email", JStr email); ("invite_token", JStr token); ("org_name", JStr name)] t None
            (audience_for MEMBER_INVITE_EMAIL) None 0 t None).
Proof.
  unfold invite_member. intros H'. apply bind_ok in H' as (rows & w1 & _ & H').
  apply bind_ok in H' as ([[? ?]|] & w2 & _ & H'); [done|].
  apply bind_ok in H' as (? & w3 & _ & H'). apply bind_ok in H' as (? & w4 & _ & H'). case_match; [done|].
  apply bind_ok in H' as (mid & w5 & _ & H'). apply bind_ok in H' as (? & w6 & _ & H').
  do 7 (apply bind_ok in H' as (? & ? & _ & H')).
  apply bind_ok in H' as ([] & wo & Ho & H'). apply bind_ok in H' as ([] & w8 & Hg & [= <- <-]).
  apply outbox_row in Ho as (k & t & Hk). exists k, t.
  by rewrite (kept Toutbox_events _ _ _ _ (keeps_seats Toutbox_events org ltac:(discriminate)) Hg).
Qed.

Lemma accept_syncs mid m joiner w m' w' :
  _accept mid m joiner w = (Ok m', w') -> gauge_in_step (mb_organization_id m') (w_db w').
Proof.
  unfold _accept. run. intros [_ H']%flush_ok. do 2 (apply bind_ok in H' as (? & ? & _ & H')).
  apply bind_ok in H' as ([] & w4 & Hs & H'). apply sync_run in Hs.
  apply bind_ok in H' as ([] & w5 & Hi & [= <- <-]).
  revert Hs. apply (gauge_after _ _ _ _ _ (keeps_invalidate_member Tmemberships _ ltac:(discriminate))
    (keeps_invalidate_member Tusage_counters _ ltac:(discriminate)) Hi).
Qed.

Lemma remove_syncs mid w w' :
  remove_member mid w = (Ok tt, w') ->
  exists m : row Tmemberships, w_db w Tmemberships !! (mid : key Tmemberships) = Some m /\
    gauge_in_step (mb_organization_id m) (w_db w').
Proof.
  unfold remove_member, _get_membership. run. destruct (w_db w Tmemberships !! _) as [m|] eqn:Em; [|done]. run.
  intros H'. apply bind_ok in H' as (o & w1 & _ & H'). case_bool_decide; [done|].
  do 4 (apply bind_ok in H' as (? & ? & _ & H')). apply bind_ok in H' as ([] & w4 & Hs & H').
  apply sync_run in Hs. exists m. split; [done|]. revert Hs.
  apply (gauge_after _ _ _ _ _ (keeps_queue Tmemberships _ _ ltac:(discriminate))
    (keeps_queue Tusage_counters _ _ ltac:(discriminate)) H').
Qed.

Lemma replace_roles_run mid (m : row Tmemberships) ks w m' w' :
  _replace_roles mid m ks w = (Ok m', w') ->
  seat_of m' = seat_of m /\
  w_db w' Tmemberships = <[(mid : key Tmemberships) := (m' : row Tmemberships)]> (w_db w Tmemberships) /\
  w_db w' Tusage_counters = w_db w Tusage_counters.
Proof.
  unfold _replace_roles. intros H'. apply bind_ok in H' as ([] & w0 & Hd & H').
  assert (Hk : forall t, t <> Tmembership_roles -> w_db w0 t = w_db w t).
  { intros t Ht. injection Hd as <-. by apply set_table_ne. }
  revert H'. run. intros H'. apply bind_ok in H' as (m1 & w1 & Ha & H').
  pose proof (attach_roles_keeps Tusage_counters _ _ ltac:(discriminate) ltac:(discriminate) _ _ _ _ Ha) as Hc.
  apply attach_roles_run in Ha as (Hs & Ht & _); [|rewrite put_w_eq; apply (put_same Tmemberships)].
  apply bind_ok in H' as ([] & w2 & Hi & [= <- <-]).
  rewrite (kept Tmemberships _ _ _ _ (keeps_invalidate_member Tmemberships _ ltac:(discriminate)) Hi).
  rewrite (kept Tusage_counters _ _ _ _ (keeps_invalidate_member Tusage_counters _ ltac:(discriminate)) Hi).
  rewrite Ht, Hc, put_w_eq, put_w_ne by discriminate. rewrite !Hk by discriminate.
  split_and!; [exact Hs|apply (put_twice Tmemberships)|done].
Qed.

Lemma get_membership_ok mid w (m : row Tmemberships) w0 :
  _get_membership mid w = (Ok m, w0) <-> w0 = w /\ w_db w Tmemberships !! (mid : key Tmemberships) = Some m.
Proof.
  unfold _get_membership. run. case_match eqn:E; simpl; split.
  - intros [= <- <-]. by split.
  - intros [-> Hm]. pose proof (eq_trans (eq_sym E) Hm) as [= ->]. done.
  - done.
  - intros [-> Hm]. by pose proof (eq_trans (eq_sym E) Hm).
Qed.

(** A role or status edit leaves the gauge in step. *)
Lemma update_syncs mid ks st w m' w' :
  update_membership mid ks st w = (Ok m', w') ->
  gauge_in_step (mb_organization_id m') (w_db w) -> gauge_in_step (mb_organization_id m') (w_db w').
Proof.
  unfold update_membership. intros H'. apply bind_ok in H' as (m & ? & [-> Em]%get_membership_ok & H').
  apply bind_ok in H' as (m1 & w1 & Hr & H').
  assert (H1 : seat_of m1 = seat_of m /\
    w_db w1 Tmemberships = <[(mid : key Tmemberships) := (m1 : row Tmemberships)]> (w_db w Tmemberships) /\
    w_db w1 Tusage_counters = w_db w Tusage_counters).
  { destruct ks as [ks|]; [by apply replace_roles_run in Hr|]. injection Hr as <- <-.
    split_and!; [done| |done]. symmetry. by apply (put_id Tmemberships). }
  destruct H1 as (Hs & Ht & Hc). revert H'. run. intros [_ H']%flush_ok.
  set (m2 := match st with Some s => m1 <| mb_status := s |> | None => m1 end) in H'. set (w2 := put_w Tmemberships mid m2 w1) in H'.
  apply bind_ok in H' as (m3 & ? & [-> E3]%get_membership_ok & H').
  assert (m3 = m2) as -> by (unfold w2 in E3; rewrite put_w_eq in E3; apply (lookup_put Tmemberships) in E3; naive_solver).
  apply bind_ok in H' as ([] & w3 & Ha & H'). apply bind_ok in H' as ([] & w4 & Hy & [= <- <-]).
  assert (Hk : forall t, t <> Taudit_logs -> w_db w3 t = w_db w2 t).
  { intros t Hne. 
    match type of Ha with context [match ?d with [] => _ | _ => _ end] => destruct d end; [by injection Ha as <-|].
    exact (kept t _ _ _ _ (keeps_audit t _ _ _ _ _ _ _ Hne) Ha). }
  case_match eqn:Ech.
  - intros _. apply bind_ok in Hy as ([] & w5 & Hg & Hy). apply sync_run in Hg. revert Hg.
    apply (gauge_after _ _ _ _ _ (keeps_invalidate_member Tmemberships _ ltac:(discriminate))
      (keeps_invalidate_member Tusage_counters _ ltac:(discriminate)) Hy).
  - injection Hy as <-. apply (gauge_same _ _ _ mid m m2 Em).
    + rewrite <- Hs. unfold m2. destruct st as [s|]; [|done]. apply negb_false_iff, String.eqb_eq in Ech.
      unfold seat_of. simpl. by rewrite Ech.
    + rewrite Hk by discriminate. unfold w2. rewrite put_w_eq, Ht. apply (put_twice Tmemberships).
    + rewrite Hk by discriminate. unfold w2. by rewrite put_w_ne.
Qed.

Lemma keeps_bootstrap t org : t <> Tsubscriptions -> t <> Toutbox_events ->
  Stable (keeps t) (_bootstrap_subscription org).
Proof.
  intros H1 H2. unfold _bootstrap_subscription, create_subscription, load_plan. solve_stable.
  - by apply keeps_put.
  - by apply keeps_outbox.
Qed.

(** What creation does once the seats are counted. *)
Lemma create_syncs name owner slug suffix w org o w' :
  create_organization name owner slug suffix w = (Ok (org, o), w') -> gauge_in_step org (w_db w').
Proof.
  unfold create_organization. intros H'. apply bind_ok in H' as (final & w0 & _ & H'). revert H'. run.
  intros [_ H']%flush_ok. revert H'. run. intros [_ H']%flush_ok.
  match type of H' with context [put_w Tmemberships ?k ?r ?u] => set (mid := k) in H'; set (m := r) in H';
    set (w1 := put_w Tmemberships mid m u) in H' end.
  apply bind_ok in H' as ([] & w2 & Hg & H').
  assert (Hm : w_db w2 Tmemberships !! (mid : key Tmemberships) = Some (m : row Tmemberships)).
  { rewrite (kept Tmemberships _ _ _ _ (keeps_seats Tmemberships _ ltac:(discriminate)) Hg).
    unfold w1. rewrite put_w_eq. apply (put_same Tmemberships). }
  apply sync_run in Hg. revert H'. run. intros H'. apply bind_ok in H' as (role & ? & Hro & H').
  assert (x = w2) as -> by (revert Hro; unfold scalar_one; case_match; [done|case_match; [by intros [= _ <-]|done]]).
  apply bind_ok in H' as (d & ? & [= <- <-] & H'). apply bind_ok in H' as ([] & w3 & Hi & H').
  assert (Hk : forall t, t <> Tmembership_roles -> w_db w3 t = w_db w2 t).
  { intros t Ht. unfold insert_new in Hi. revert Hi. run. case_match; [done|]. intros [= <-]. by apply put_w_ne. }
  apply bind_ok in H' as ([] & w4 & [= <-] & H').
  apply bind_ok in H' as ([] & w5 & Hq & H'). apply bind_ok in H' as ([] & w6 & Ha & H').
  apply bind_ok in H' as ([] & w7 & Ho & H'). apply bind_ok in H' as ([] & w8 & Hb & [= <- _ <-]).
  apply (gauge_after _ _ _ _ _ (keeps_bootstrap Tmemberships _ ltac:(discriminate) ltac:(discriminate))
    (keeps_bootstrap Tusage_counters _ ltac:(discriminate) ltac:(discriminate)) Hb).
  apply (gauge_after _ _ _ _ _ (keeps_outbox Tmemberships _ _ _ _ _ ltac:(discriminate))
    (keeps_outbox Tusage_counters _ _ _ _ _ ltac:(discriminate)) Ho).
  apply (gauge_after _ _ _ _ _ (keeps_audit Tmemberships _ _ _ _ _ _ _ ltac:(discriminate))
    (keeps_audit Tusage_counters _ _ _ _ _ _ _ ltac:(discriminate)) Ha).
  apply (gauge_after _ _ _ _ _ (keeps_queue Tmemberships _ _ ltac:(discriminate))
    (keeps_queue Tusage_counters _ _ ltac:(discriminate)) Hq).
  revert Hg. apply (gauge_same _ _ _ mid m (m <| mb_permission_keys := sorted_set (permissions_of (w_db w2) role.1) |>) Hm);
    [done| |].
  - etrans; [apply (put_w_eq Tmemberships)|]. by rewrite Hk.
  - etrans; [by apply (put_w_ne Tmemberships)|]. by rewrite Hk.
Qed.

(** An operation of the service on an organization's members. *)
Inductive seat_op (org : uuid) : relation world :=
  | op_create name owner slug suffix w o w' :
      create_organization name owner slug suffix w = (Ok (org, o), w') -> seat_op org w w'
  | op_invite token email ks limit name w r w' :
      w_db w Tmemberships !! (w_fresh w : key Tmemberships) = None ->
      invite_member sha256 token org email ks limit name w = (Ok r, w') -> seat_op org w w'
  | op_accept_token token u r w (m : membership) w' :
      accept_invite_by_token sha256 token u r w = (Ok m, w') -> mb_organization_id m = org -> seat_op org w w'
  | op_accept_email email w (m : membership) w' :
      accept_invite_by_email org email w = (Ok m, w') -> mb_organization_id m = org -> seat_op org w w'
  | op_update mid ks st w (m : membership) w' :
      update_membership mid ks st w = (Ok m, w') -> mb_organization_id m = org -> seat_op org w w'
  | op_remove mid w (m : row Tmemberships) w' :
      w_db w Tmemberships !! (mid : key Tmemberships) = Some m -> mb_organization_id m = org ->
      remove_member mid w = (Ok tt, w') -> seat_op org w w'.

Lemma seat_op_syncs org w w' : seat_op org w w' -> gauge_in_step org (w_db w) -> gauge_in_step org (w_db w').
Proof.
  intros [name owner slug suffix w1 o w2 H1|token email ks limit name w1 [mid m] w2 Hf H1|token u r w1 m w2 H1 <-
         |email w1 m w2 H1 <-|mid ks st w1 m w2 H1 <-|mid w1 m w2 Hm <- H1] Hg.
  - by apply create_syncs in H1.
  - apply invite_run in H1; naive_solver.
  - unfold accept_invite_by_token in H1. apply bind_ok in H1 as ([k m0] & w3 & _ & H1).
    case_match; [done|]. by apply accept_syncs in H1.
  - unfold accept_invite_by_email in H1. apply bind_ok in H1 as ([[k m0]|] & w3 & _ & H1); [|done].
    apply bind_ok in H1 as (? & ? & _ & H1). apply bind_ok in H1 as (? & ? & _ & H1). by apply accept_syncs in H1.
  - by apply update_syncs in H1.
  - apply remove_syncs in H1 as (m' & Hm' & H1). rewrite Hm in Hm'. by injection Hm' as <-.
Qed.

Lemma accept_run mid (m : row Tmemberships) joiner w m' w' :
  _accept mid m joiner w = (Ok m', w') ->
  m' = joined_row (w_clock w) joiner m /\
  w_db w' Tmemberships = <[(mid : key Tmemberships) := (m' : row Tmemberships)]> (w_db w Tmemberships).
Proof.
  unfold _accept. run. intros [_ H']%flush_ok.
  apply bind_ok in H' as ([] & w1 & H1 & H'). apply bind_ok in H' as ([] & w2 & H2 & H').
  apply bind_ok in H' as ([] & w3 & H3 & H'). apply bind_ok in H' as ([] & w4 & H4 & [= <- <-]). split; [done|].
  rewrite (kept Tmemberships _ _ _ _ (keeps_invalidate_member Tmemberships _ ltac:(discriminate)) H4).
  rewrite (kept Tmemberships _ _ _ _ (keeps_seats Tmemberships _ ltac:(discriminate)) H3).
  rewrite (kept Tmemberships _ _ _ _ (keeps_outbox Tmemberships _ _ _ _ _ ltac:(discriminate)) H2).
  rewrite (kept Tmemberships _ _ _ _ (keeps_audit Tmemberships _ _ _ _ _ _ _ ltac:(discriminate)) H1).
  apply put_w_eq.
Qed.

Lemma reads_invited token : Reads (_invited_membership_for_token sha256 token).
Proof. unfold _invited_membership_for_token. solve_reads. Qed.

Lemma invited_found token w mid (m : row Tmemberships) :
  (_invited_membership_for_token sha256 token w).1 = Ok (mid, m) ->
  w_db w Tmemberships !! mid = Some m /\ mb_invite_token_hash m = Some (sha256 token) /\ mb_status m = "invited".
Proof.
  unfold _invited_membership_for_token. run. set (p := invited_by_token sha256 token).
  destruct (rows_where Tmemberships p (w_db w Tmemberships)) as [|r l] eqn:E3; [done|]. cbn [head]. run. rewrite E3.
  destruct l as [|r' l]; [|done]. run. intros [= ->].
  assert (Hin : (mid, m) ∈ rows_where Tmemberships p (w_db w Tmemberships)) by (rewrite E3; left).
  apply (elem_of_rows_where Tmemberships) in Hin as [Hl Hp]. split; [done|].
  unfold p, invited_by_token in Hp. apply andb_true_iff in Hp as [Hh Hst].
  apply bool_decide_eq_true in Hh. by apply String.eqb_eq in Hst.
Qed.
End Laws.

(** ** Properties *)

Section Properties.
Context (sha256 : string -> string) `{EntitlementReader}.

(** C12: the [users] gauge of an organization, once in step with its seats
    (active members and pending invitations), is in step after any sequence of
    creations, invitations, acceptances, role or status edits and removals. *)
Theorem seats_in_step org w w' :
  rtc (seat_op sha256 org) w w' -> gauge_in_step org (w_db w) -> gauge_in_step org (w_db w').
Proof.
  induction 1 as [w|w w1 w' Hop _ IH]; [done|]. intros Hg. apply IH. by apply (seat_op_syncs sha256 org w w1).
Qed.

(** An invitation adds one pending seat of the invited address, within the
    limit and known only by the digest of its token; an organization with no
    seat left refuses a new address and nothing changes. *)
Theorem seat_limit_enforced token org email ks limit name w :
  w_db w Tmemberships !! (w_fresh w : key Tmemberships) = None ->
  match invite_member sha256 token org email ks limit name w with
  | (Ok (mid, m), w') =>
      seats (w_db w') org = (seats (w_db w) org + 1)%Z /\
      (forall l, limit = Some l -> (seats (w_db w') org <= l)%Z) /\
      w_db w' Tmemberships !! (mid : key Tmemberships) = Some (m : row Tmemberships) /\
      mb_invited_email m = Some email /\ mb_status m = "invited" /\ mb_user_id m = None /\
      mb_invite_token_hash m = Some (sha256 token)
  | (Err _, w') => seats_left limit (seats (w_db w) org) = false -> w' = w
  end.
Proof.
  intros Hf. destruct (invite_member _ _ _ _ _ _ _ _) as [[[mid m]|e] w'] eqn:E.
  - apply invite_run in E as (Hid & Hs & Hu & He & Hh & Ht & Hl & _); [|done].
    assert (Hn : seats (w_db w') org = (seats (w_db w) org + 1)%Z)
      by (apply (seats_fresh _ _ _ mid m); [by rewrite Hid|done|done]).
    split_and!; [done| |rewrite Ht; apply (put_same Tmemberships)|done|by injection Hs|done|done].
    intros l ->. rewrite Hn. revert Hl. unfold seats_left. rewrite negb_true_iff, Z.ltb_ge. done.
  - intros Hl. revert E. unfold invite_member. run.
    rewrite run_readonly_bind by solve_reads. case_match; [|by intros [= _ <-]].
    case_match; [case_match; by intros [= _ <-]|].
    rewrite (run_ok _ _ _ _ _ (count_run org w)), (run_ok _ _ _ _ _ (pending_run org w)).
    change (_ + _)%Z with (seats (w_db w) org). rewrite Hl. by intros [= _ <-].
Qed.

(** An invitation is accepted only by the invited mailbox and only while it
    is pending: the member joins under their own account, every other row stays,
    and the token is gone; any refusal before that changes nothing. *)
Theorem invite_bound_to_mailbox token user_id (u : user) w :
  match (_invited_membership_for_token sha256 token w).1 with
  | Ok (mid, m) =>
      if _same_mailbox (mb_invited_email m) (Some (u_email u))
      then forall m' w', accept_invite_by_token sha256 token user_id u w = (Ok m', w') ->
        mb_status m = "invited" /\ mb_invite_token_hash m = Some (sha256 token) /\
        w_db w' Tmemberships = <[mid := (m' : row Tmemberships)]> (w_db w Tmemberships) /\
        mb_user_id m' = Some user_id /\ mb_status m' = "active" /\ mb_invite_token_hash m' = None /\
        mb_organization_id m' = mb_organization_id m
      else accept_invite_by_token sha256 token user_id u w = (Err (Domain PermissionDeniedError []), w)
  | Err e => accept_invite_by_token sha256 token user_id u w = (Err e, w)
  end.
Proof.
  unfold accept_invite_by_token. rewrite run_readonly_bind by apply reads_invited.
  destruct ((_invited_membership_for_token sha256 token w).1) as [[mid m]|e] eqn:E; [|done].
  destruct (_same_mailbox _ _); [|done]. simpl. intros m' w' H'.
  apply invited_found in E as (Hm & Hh & Hs). apply accept_run in H' as (-> & Ht). by split_and!.
Qed.
End Properties.

Section TenantResolution.
Context (is_ip_literal : string -> bool) (org_claim : string -> option (option string)).

Lemma reads_reference rq : Reads (_resolve_org_reference is_ip_literal org_claim rq).
Proof. unfold _resolve_org_reference. solve_reads. Qed.

Lemma reads_named r : Reads (organization_named r).
Proof. destruct r; simpl; [|unfold get_by_slug]; solve_reads. Qed.

Lemma reads_get_active org uid : Reads (get_active org uid).
Proof. unfold get_active. solve_reads. Qed.

Lemma active_found org uid w k (m : row Tmemberships) :
  (get_active org uid w).1 = Ok (Some (k, m)) ->
  w_db w Tmemberships !! k = Some m /\ active_membership org uid k m = true.
Proof.
  unfold get_active. run. unfold scalar_one_or_none. case_match eqn:E3; [done|]. case_match; [|done]. intros [= ->].
  match type of E3 with ?l = _ => assert (Hin : (k, m) ∈ l) by (rewrite E3; left) end.
  by apply (elem_of_rows_where Tmemberships) in Hin.
Qed.

Lemma active_absent org uid w :
  (forall (k : key Tmemberships) (m : row Tmemberships),
     w_db w Tmemberships !! k = Some m -> active_membership org uid k m = false) ->
  (get_active org uid w).1 = Ok None.
Proof. intros Hn. unfold get_active. run. rewrite (proj2 (rows_where_nil Tmemberships _ _)); [done|exact Hn]. Qed.

Lemma named_total r w : organizations_ok (w_db w Torganizations) -> exists o, (organization_named r w).1 = Ok o.
Proof.
  intros Hu. destruct r as [i|s]; simpl; [by eexists|]. unfold get_by_slug. run.
  match goal with |- context [rows_where _ ?p ?m] =>
    destruct (rows_where_unique Torganizations (fun o : organization => Some (o_slug o)) p s m Hu)
      as [->|(k & o & -> & _)] end.
  - intros k o _ Hp. apply andb_true_iff in Hp as [Hp _]. by apply String.eqb_eq in Hp as ->.
  - by eexists.
  - by eexists.
Qed.

(** C13: the tenant of a request is the live organization it names, for an active
    member of an active organization or for a platform administrator; a caller
    with no active membership gets one and the same answer whether or not the
    organization exists, and no refusal binds a tenant. *)
Theorem tenant_resolution_gated rq uid (u : user) w :
  w_tenant w = None -> organizations_ok (w_db w Torganizations) ->
  match (_resolve_org_reference is_ip_literal org_claim rq w).1 with
  | Ok (Some r) =>
      match resolve_tenant is_ip_literal org_claim rq uid u w with
      | (Ok c, w') => exists (i : uuid) (org : organization),
          (organization_named r w).1 = Ok (Some (i, org)) /\ o_deleted_at org = None /\
          c = TenantContext i (o_slug org) false /\ w' = w <| w_tenant := Some c |> /\
          (u_is_platform_admin u = true \/
           o_status org = "active" /\ exists (k : key Tmemberships) (m : row Tmemberships),
             w_db w Tmemberships !! k = Some m /\ active_membership i uid k m = true)
      | (Err _, w') => w' = w
      end /\
      (u_is_platform_admin u = false ->
       (forall i org (k : key Tmemberships) (m : row Tmemberships),
          (organization_named r w).1 = Ok (Some (i, org)) ->
          w_db w Tmemberships !! k = Some m -> active_membership i uid k m = false) ->
       resolve_tenant is_ip_literal org_claim rq uid u w = (Err (Domain TenantNotResolvedError []), w))
  | Ok None => resolve_tenant is_ip_literal org_claim rq uid u w = (Err (Domain TenantNotResolvedError []), w)
  | Err e => resolve_tenant is_ip_literal org_claim rq uid u w = (Err e, w)
  end.
Proof.
  intros Hw Ho. unfold resolve_tenant. rewrite (run_ok current_tenant _ w None w) by (unfold current_tenant; by rewrite Hw).
  rewrite run_readonly_bind by apply reads_reference.
  destruct ((_resolve_org_reference _ _ rq w).1) as [[r|]|e] eqn:E; [|done|done].
  rewrite run_readonly_bind by apply reads_named. destruct (named_total r w Ho) as [o Hn]. rewrite Hn.
  destruct o as [[i org]|]; [|by split]. case_bool_decide as Hd; simpl; [|by split].
  rewrite run_readonly_bind by apply reads_get_active. split.
  - match goal with |- context [match ?x with Ok _ => _ | Err _ => _ end] => destruct x as [a|e] eqn:Ea end; [|done].
    assert (Hm : is_Some a -> exists (k : key Tmemberships) (m : row Tmemberships),
      w_db w Tmemberships !! k = Some m /\ active_membership i uid k m = true)
      by (intros [[k m] ->]; exists k, m; by apply active_found).
    case_bool_decide as Ha; destruct (u_is_platform_admin u) eqn:Eu, (String.eqb_spec (o_status org) "active") as [Es|Es];
      simpl; try done; exists i, org; split_and!; auto.
  - intros Hu Hno. pose proof (active_absent i uid w (fun k m => Hno i org k m eq_refl)) as Ha.
    match goal with |- context [match ?x with Ok _ => _ | Err _ => _ end] => change x with (get_active i uid w).1 end.
    rewrite Ha. by rewrite Hu, bool_decide_eq_false_2 by (intros [? [=]]).
Qed.
End TenantResolution.

(** ** Witnesses *)

Definition hash (s : string) : string := "#" +:+ s.
Definition ann : user := User "ann@acme.test" None "Ann" false true None "local" None [].
Definition bob : user := User "Bob@Acme.test" None "Bob" false true None "local" None [].

(** Two active members of Acme, and the gauge that counts them. *)
Definition team : world := world_of
  (set_table (set_table (set_table staff_db
    Tmetrics (rows_of Tmetrics [("users", Metric "Users" "gauge" None None None)]))
    Tusage_counters (rows_of Tusage_counters [(counter_key 1 "users" GAUGE_PERIOD, UsageCounter 2 None None)]))
    Tusers (rows_of Tusers [(7%N, ann); (9%N, bob)])).
Definition invited := invite_member hash "t0ken" 1 "bob@acme.test" None (Some 3%Z) "Acme" team.

Lemma team_gauge : gauge_in_step 1 (w_db team).
Proof. exists (UsageCounter 2 None None). split; vm_compute; reflexivity. Qed.
Lemma team_fresh : w_db team Tmemberships !! (w_fresh team : key Tmemberships) = None.
Proof. vm_compute. reflexivity. Qed.
Lemma invited_run : exists r, invited = (Ok r, invited.2).
Proof. eexists. apply ran. vm_compute. reflexivity. Qed.

Lemma seats_in_step_witness :
  exists c : usage_counter, w_db invited.2 Tusage_counters !! (counter_key 1 "users" GAUGE_PERIOD : key Tusage_counters) = Some c /\
    uc_quantity_total c = 3%Z.
Proof.
  destruct (seats_in_step hash 1 team invited.2) as (c & Hc & E).
  - destruct invited_run as [r Hr]. eapply rtc_once, (op_invite hash 1 "t0ken" "bob@acme.test" None (Some 3%Z) "Acme").
    + apply team_fresh.
    + exact Hr.
  - apply team_gauge.
  - exists c. split; [exact Hc|]. rewrite E. vm_compute. reflexivity.
Defined.

Lemma seat_limit_enforced_witness : seats (w_db invited.2) 1 = 3%Z.
Proof.
  pose proof (seat_limit_enforced hash "t0ken" 1 "bob@acme.test" None (Some 3%Z) "Acme" team team_fresh) as H.
  fold invited in H. destruct invited_run as [[mid m] Hr]. rewrite Hr in H. destruct H as (-> & _).
  vm_compute. reflexivity.
Defined.

Lemma invite_bound_to_mailbox_witness :
  (accept_invite_by_token hash "t0ken" 7 ann invited.2).1 = Err (Domain PermissionDeniedError []) /\
  is_Some (match (accept_invite_by_token hash "t0ken" 9 bob invited.2).1 with Ok m => Some m | Err _ => None end).
Proof.
  split; [|vm_compute; by eexists].
  pose proof (invite_bound_to_mailbox hash "t0ken" 7 ann invited.2) as H.
  assert (E : exists m, (_invited_membership_for_token hash "t0ken" invited.2).1 = Ok (100%N, m) /\
    _same_mailbox (mb_invited_email m) (Some (u_email ann)) = false).
  { eexists. split; [vm_compute; reflexivity|]. vm_compute. reflexivity. }
  destruct E as (m & E & Em). rewrite E, Em in H. by rewrite H.
Defined.

Definition by_header : tenant_request := TenantRequest None (Some "acme") "app.example.test" "".

Lemma tenant_resolution_gated_witness :
  (resolve_tenant (fun _ => false) (fun _ => None) by_header 7 ann team).1 = Ok (TenantContext 1 "acme" false) /\
  (resolve_tenant (fun _ => false) (fun _ => None) by_header 9 bob team).1 = Err (Domain TenantNotResolvedError []).
Proof.
  split; [vm_compute; reflexivity|].
  pose proof (tenant_resolution_gated (fun _ => false) (fun _ => None) by_header 9 bob team eq_refl ltac:(by_compute)) as H.
  assert (E : (_resolve_org_reference (fun _ => false) (fun _ => None) by_header team).1 = Ok (Some (BySlug "acme")))
    by (vm_compute; reflexivity).
  rewrite E in H. destruct H as [_ H]. rewrite H; [reflexivity..|].
  assert (Hn : bool_decide (Forall_rows Tmemberships (fun _ m => bool_decide (mb_user_id m = Some 9%N) = false)
    (w_db team Tmemberships)) = true) by (vm_compute; reflexivity).
  apply bool_decide_eq_true in Hn. intros i org k m _ Hk. unfold active_membership.
  rewrite (Hn k m Hk). by rewrite andb_false_r.
Defined.
