(* ===== verification/Notifications.v ===== *)
(** Mail (notifications/handlers.py, smtp.py): which outbox event becomes which
    message, who it goes to, and how it is handed to the relay.

    The branding, the settings of the relay, the text of floats and containers
    ([repr]) and the PDF renderer are arguments.  A message that is sent is a value;
    building and delivering it over SMTP is a library's, down to the order of the
    commands ([_deliver]). *)

From Stdlib Require Import Ascii.
From S2P Require Import Prelude Text Ids Json Errors Events Tables Store Branding Dynamic Cache Session Fixtures.
From S2P Require Import Interfaces Entitlements Tenancy.

Record attachment : Type := Attachment {
  at_filename : string;
  at_content : string;
  at_content_type : string
}.

Record mail : Type := Mail {
  ml_to : string;
  ml_subject : string;
  ml_body : string;
  ml_attachments : list attachment
}.


Definition newline : string := String (ascii_of_nat 10) EmptyString.
Definition blank_line : string := newline +:+ newline.

(** [f"{cents / 100:,.2f}"], of amounts a float holds exactly. *)
Definition units_text (cents : Z) : string :=
  (if (cents <? 0)%Z then "-" else "") +:+ commas (Z.abs cents / 100) +:+ "." +:+ zfill 2 (Z.abs cents mod 100).

Section Handlers.
Context (brand : branding) (web_origin manual_pay_to_instructions : string) (repr : json -> string).
Context (render_invoice_pdf : uuid * invoice -> list invoice_line -> string -> option string -> option string -> string).

Definition str : json -> string := py_str repr.

Definition _web_url (path : string) : string := rstrip_char "/" web_origin +:+ path.
Definition _product : string := br_name brand.

Definition _footer : string :=
  match be_footer (br_email brand) with
  | Some f => if String.eqb f "" then "— " +:+ br_name brand else strip f
  | None =>
      match bl_website (br_links brand) with
      | Some site => if String.eqb site "" then "— " +:+ br_name brand else "— " +:+ br_name brand +:+ newline +:+ site
      | None => "— " +:+ br_name brand
      end
  end.

Definition _with_footer (body : string) : string := body +:+ blank_line +:+ _footer.

(** [payload.get(k)]. *)
Definition field (k : string) (payload : jobj) : json := default JNull (jget k payload).

Definition invite_mail (email token org : json) : mail :=
  Mail (str email) ("You've been invited to " +:+ str org +:+ " on " +:+ _product)
    (_with_footer ("Someone invited you to " +:+ str org +:+ " on " +:+ _product +:+ "." +:+ blank_line +:+
       "Accept your invitation by registering with this link:" +:+ newline +:+ _web_url ("/register?invite=" +:+ str token) +:+
       blank_line +:+ "If you weren't expecting this, you can ignore this email.")) [].

Definition reset_mail (email token : json) : mail :=
  Mail (str email) ("Reset your " +:+ _product +:+ " password")
    (_with_footer ("A password reset was requested for your " +:+ _product +:+ " account." +:+ blank_line +:+
       "Reset it here (valid 30 minutes):" +:+ newline +:+ _web_url ("/reset-password?reset=" +:+ str token) +:+ blank_line +:+
       "If you didn't request this, ignore this email.")) [].

Definition soft_limit_mail (recipient : string) (metric total limit : json) : mail :=
  Mail recipient ("You're approaching your " +:+ str metric +:+ " limit")
    (_with_footer ("Your organization has used " +:+ str total +:+ " of " +:+ str limit +:+ " " +:+ str metric +:+ " on " +:+ _product +:+
       " for this period." +:+ blank_line +:+ "Upgrade or add capacity here: " +:+ _web_url "/dashboard/billing")) [].

Definition invoice_message (number total : string) (paid : bool) : string * string :=
  if paid
  then ("Paid: Invoice " +:+ number,
        _with_footer ("Your payment for " +:+ _product +:+ " invoice " +:+ number +:+ " (" +:+ total +:+ ") has been received. " +:+
                      "The invoice is attached for your records."))
  else ("Invoice " +:+ number +:+ ": " +:+ total +:+ " due",
        _with_footer ("Your " +:+ _product +:+ " invoice " +:+ number +:+ " for " +:+ total +:+ " is attached. " +:+
                      "Payment instructions are included in the PDF.")).

Definition _pay_to : option string := if String.eqb manual_pay_to_instructions "" then None else Some manual_pay_to_instructions.

(** An organization's identifier as the statements receive it: what is no UUID is
    an error of the database. *)
Definition parsed_id (s : string) : M uuid :=
  match uuid_of_str s with Some u => mret u | None => raise (PyError "DBAPIError") end.

(** [_recipient_in]: billing customer, then settings, then owner. *)
Definition customer_of_org (org : uuid) (_ : key Tbilling_customers) (c : billing_customer) : bool := N.eqb (bc_organization_id c) org.

Definition settings_email (o : organization) : option string :=
  match jget "billing_email" (o_settings o) with Some (JStr s) => if String.eqb s "" then None else Some s | _ => None end.

Definition owner_email (o : organization) : M (option string) :=
  match o_owner_user_id o with
  | None => mret None
  | Some u =>
      owner ← session_get Tusers u;
      mret (match (owner : option user) with
            | Some w => if String.eqb (u_email w) "" then None else Some (u_email w)
            | None => None
            end)
  end.

Definition _recipient_in (organization_id : string) : M (option string) :=
  org ← parsed_id organization_id;
  rows ← select Tbilling_customers (customer_of_org org);
  customer ← scalar_one_or_none rows;
  let email := match customer with Some (_, c) => bc_email (c : billing_customer) | None => None end in
  if truthy_str email then mret email
  else
    found ← session_get Torganizations org;
    match (found : option organization) with
    | None => mret None
    | Some o => match settings_email o with Some e => mret (Some e) | None => owner_email o end
    end.

Definition _send_invoice_email (invoice_id : string) : M (list mail) :=
  i ← parsed_id invoice_id;
  found ← session_get Tinvoices i;
  match (found : option invoice) with
  | None => mret []
  | Some v =>
      rows ← select Tinvoice_lines (fun _ (l : invoice_line) => N.eqb (il_invoice_id l) i);
      org ← session_get Torganizations (i_organization_id v);
      let org_name := match (org : option organization) with Some o => o_name o | None => "Customer" end in
      billing_email ← match i_billing_customer_id v with
        | None => mret None
        | Some c =>
            customer ← session_get Tbilling_customers c;
            mret (match (customer : option billing_customer) with
                  | Some c => if truthy_str (bc_email c) then bc_email c else None
                  | None => None
                  end)
        end;
      recipient ← match billing_email with Some e => mret (Some e) | None => _recipient_in (uuid_str (i_organization_id v)) end;
      match (recipient : option string) with
      | None => mret []
      | Some recipient =>
          let pdf := render_invoice_pdf (i, v) (map (fun r : key Tinvoice_lines * row Tinvoice_lines => (r.2 : invoice_line)) rows) org_name billing_email _pay_to in
          let number := or_str (i_number v) (uuid_str i) in
          let total := units_text (i_total_cents v) +:+ " " +:+ i_currency v in
          let '(subject, body) := invoice_message number total (String.eqb (i_status v) "paid") in
          mret [Mail recipient subject body [Attachment ("invoice-" +:+ number +:+ ".pdf") pdf "application/pdf"]]
      end
  end.

(** At most one message for an event; unknown events are ignored. *)
Definition handle_event (event_type : string) (payload : jobj) : M (list mail) :=
  if String.eqb event_type "member.invite_email" then
    let email := field "email" payload in
    let token := field "invite_token" payload in
    let org := default (JStr "an organization") (jget "org_name" payload) in
    if negb (truthy email) || negb (truthy token) then mret [] else mret [invite_mail email token org]
  else if String.eqb event_type "user.password_reset_link" then
    let email := field "email" payload in
    let token := field "token" payload in
    if negb (truthy email) || negb (truthy token) then mret [] else mret [reset_mail email token]
  else if String.eqb event_type "invoice.email" then
    let invoice_id := field "invoice_id" payload in
    if negb (truthy invoice_id) then mret [] else _send_invoice_email (str invoice_id)
  else if String.eqb event_type "usage.soft_limit_reached" then
    let metric := field "metric" payload in
    let org_id := field "organization_id" payload in
    if negb (truthy org_id) || negb (truthy metric) then mret []
    else
      recipient ← _recipient_in (str org_id);
      match (recipient : option string) with
      | None => mret []
      | Some r => mret [soft_limit_mail r metric (field "total" payload) (field "limit" payload)]
      end
  else mret [].
End Handlers.

(** ** The relay (smtp.py) *)

Inductive transport : Type := PlainText | StartTls | Ssl.
Inductive command : Type :=
  | Connect (secured : bool)
  | Ehlo
  | UpgradeToTls
  | Login (username password : string)
  | SendMessage.

(** [_deliver]: the commands in their order, or the refusal to authenticate in the
    clear. *)
Definition _deliver (tls : transport) (username password : string) : list command * result unit :=
  let opened := match tls with Ssl => [Connect true] | _ => [Connect false] end ++
                match tls with StartTls => [Ehlo; UpgradeToTls; Ehlo] | _ => [] end in
  if String.eqb username "" then (opened ++ [SendMessage], Ok tt)
  else match tls with
       | PlainText => (opened, Err (PyError "RuntimeError"))
       | _ => (opened ++ [Login username password; SendMessage], Ok tt)
       end.

Inductive delivery_outcome : Type := Sent | Suppressed | Failed.

(** [get_notifier] and [send]: without a host nothing is sent; whatever the relay
    does, no exception leaves. *)
Definition send (notifier smtp_host : string) (relay : mail -> result unit) (m : mail) : delivery_outcome :=
  if String.eqb notifier "noop" || String.eqb smtp_host "" then Suppressed
  else match relay m with Ok _ => Sent | Err _ => Failed end.

(** ** Who receives what *)

(** An address of an organization: its billing customer's, the one in its settings,
    or its owner's. *)
Definition contact (w : world) (org : uuid) (e : string) : Prop :=
  e <> "" /\
  ((exists k (c : billing_customer), w_db w Tbilling_customers !! k = Some c /\ bc_organization_id c = org /\ bc_email c = Some e) \/
   exists o : organization, w_db w Torganizations !! org = Some o /\
     (settings_email o = Some e \/
      exists u (owner : user), o_owner_user_id o = Some u /\ w_db w Tusers !! u = Some owner /\ u_email owner = e)).

Lemma parsed_id_run s w u w' : parsed_id s w = (Ok u, w') -> uuid_of_str s = Some u /\ w' = w.
Proof. unfold parsed_id. destruct (uuid_of_str s); [by intros [= <- <-]|done]. Qed.

(** The recipient is a contact of the organization, and there is one whenever the
    organization has any. *)
Lemma recipient_run s w r w' : _recipient_in s w = (Ok r, w') -> w' = w /\ exists org, uuid_of_str s = Some org /\
  match r with Some e => contact w org e | None => forall e, ~ contact w org e end.
Proof.
  unfold _recipient_in. intros E. apply bind_ok in E as (org & w1 & H1 & E). apply parsed_id_run in H1 as [Horg ->]. revert E. run.
  set (p := customer_of_org org). intros E. apply bind_ok in E as (customer & w1 & H1 & E). apply scalar_ok in H1 as [-> Hrows].
  assert (Hc : forall k (c : billing_customer), w_db w Tbilling_customers !! k = Some c -> bc_organization_id c = org -> customer = Some (k, c)).
  { intros k c Hk Ho. assert (Hin : (k, c) ∈ rows_where Tbilling_customers p (w_db w Tbilling_customers))
      by (apply (elem_of_rows_where Tbilling_customers); split; [done|by apply N.eqb_eq]).
    destruct Hrows as [[-> E1]|(x & -> & E1)]; rewrite E1 in Hin; [by apply elem_of_nil in Hin|by apply list_elem_of_singleton in Hin as ->]. }
  set (email := match customer with Some (_, c) => bc_email (c : billing_customer) | None => None end) in *.
  destruct (truthy_str email) eqn:Et.
  - injection E as <- <-. split; [done|]. exists org. split; [done|]. destruct Hrows as [[-> _]|([k c] & -> & Hrows)]; [discriminate|]. cbn in email. subst email.
    destruct (found_only Tbilling_customers p _ k c Hrows) as (Hk & Ho & _). apply N.eqb_eq in Ho.
    destruct (bc_email c) as [e|] eqn:Ee; [|done]. split; [intros ->; done|]. left. by exists k, c.
  - assert (Hno : forall e, e <> "" -> ~ exists k (c : billing_customer), w_db w Tbilling_customers !! k = Some c /\
      bc_organization_id c = org /\ bc_email c = Some e).
    { intros e He (k & c & Hk & Ho & Ee). pose proof (Hc k c Hk Ho) as Ecu. subst email. rewrite Ecu, Ee in Et.
      cbn in Et. destruct (String.eqb_spec e ""); [done|]. destruct e; done. }
    revert E. run. destruct (w_db w Torganizations !! org) as [o|] eqn:Eo.
    + destruct (settings_email o) as [e|] eqn:Es.
      * intros [= <- <-]. split; [done|]. exists org. split; [done|]. split; [|right; exists o; split; [done|by left]].
        intros ->. unfold settings_email in Es. destruct (jget _ _) as [j|]; [|discriminate].
        destruct j; try discriminate. by destruct (String.eqb_spec s0 ""); congruence.
      * unfold owner_email. destruct (o_owner_user_id o) as [u|] eqn:Eu.
        -- run. destruct (w_db w Tusers !! u) as [owner|] eqn:Ew.
           ++ destruct (String.eqb_spec (u_email owner) "") as [Ee|Ee]; intros [= <- <-]; (split; [done|]); exists org; (split; [done|]).
              ** intros e (He & [Hcu|(o' & Eo' & Hor)]); [by apply (Hno e)|]. same_row.
                 destruct Hor as [Hs|(u' & us & Hu & Hw & <-)]; [congruence|]. rewrite Eu in Hu. injection Hu as <-. by same_row.
              ** split; [done|]. right. exists o. split; [done|]. right. by exists u, owner.
           ++ intros [= <- <-]. split; [done|]. exists org. split; [done|].
              intros e (He & [Hcu|(o' & Eo' & Hor)]); [by apply (Hno e)|]. same_row.
              destruct Hor as [Hs|(u' & us & Hu & Hw & _)]; [congruence|]. rewrite Eu in Hu. injection Hu as <-. by same_absent.
        -- intros [= <- <-]. split; [done|]. exists org. split; [done|].
           intros e (He & [Hcu|(o' & Eo' & Hor)]); [by apply (Hno e)|]. same_row.
           destruct Hor as [Hs|(u' & us & Hu & _)]; congruence.
    + intros [= <- <-]. split; [done|]. exists org. split; [done|].
      intros e (He & [Hcu|(o' & Eo' & _)]); [by apply (Hno e)|by same_absent].
Qed.

(** Every invoice's billing customer is one of the invoice's own organization. *)
Definition customers_own (w : world) : Prop :=
  forall (i c : uuid) (v : invoice) (cust : billing_customer), w_db w Tinvoices !! i = Some v -> i_billing_customer_id v = Some c ->
    w_db w Tbilling_customers !! c = Some cust -> bc_organization_id cust = i_organization_id v.

Section Mailing.
Context (brand : branding) (web_origin pay_to : string) (repr : json -> string).
Context (render : uuid * invoice -> list invoice_line -> string -> option string -> option string -> string).
Abbreviation handle := (handle_event brand web_origin pay_to repr render).
Abbreviation text := (str repr).

(** Who may receive the message of an event. *)
Definition addressee (w : world) (event_type : string) (payload : jobj) (m : mail) : Prop :=
  match event_type with
  | "member.invite_email" | "user.password_reset_link" => ml_to m = text (field "email" payload)
  | "invoice.email" => exists i (v : invoice), uuid_of_str (text (field "invoice_id" payload)) = Some i /\
      w_db w Tinvoices !! i = Some v /\ contact w (i_organization_id v) (ml_to m)
  | "usage.soft_limit_reached" => exists org, uuid_of_str (text (field "organization_id" payload)) = Some org /\ contact w org (ml_to m)
  | _ => False
  end%string.

Lemma invoice_mail_run s w ms w' : customers_own w -> _send_invoice_email brand pay_to render s w = (Ok ms, w') ->
  w' = w /\ (ms = [] \/ exists m i (v : invoice), ms = [m] /\ uuid_of_str s = Some i /\
    w_db w Tinvoices !! i = Some v /\ contact w (i_organization_id v) (ml_to m)).
Proof.
  intros Hown. unfold _send_invoice_email. intros E. apply bind_ok in E as (i & w1 & H1 & E). apply parsed_id_run in H1 as [Hi ->].
  revert E. run. destruct (w_db w Tinvoices !! i) as [v|] eqn:Ev; [|intros [= <- <-]; split; [done|by left]].
  run. intros E. apply bind_ok in E as (be & w1 & H1 & E).
  assert (w1 = w /\ forall e, be = Some e -> contact w (i_organization_id v) e) as [-> Hbe].
  { destruct (i_billing_customer_id v) as [c|] eqn:Ec; revert H1; run; [|by intros [= <- <-]].
    destruct (w_db w Tbilling_customers !! c) as [cust|] eqn:Ecu; [|by intros [= <- <-]].
    destruct (truthy_str (bc_email cust)) eqn:Et; intros [= <- <-]; [|done]. split; [done|]. intros e Ee. split.
    - intros ->. by rewrite Ee in Et.
    - left. exists c, cust. split_and!; [exact Ecu|by eapply Hown|done]. }
  apply bind_ok in E as (r & w1 & H2 & E).
  assert (w1 = w /\ forall e, r = Some e -> contact w (i_organization_id v) e) as [-> Hr].
  { destruct be as [e|]; [by injection H2 as <- <-|]. apply recipient_run in H2 as (-> & org & Ho & H2).
    rewrite uuid_of_uuid_str in Ho. injection Ho as <-. split; [done|]. by intros e ->. }
  destruct r as [r|]; [|injection E as <- <-; split; [done|by left]].
  destruct (invoice_message _ _ _ _) as [subject body]. injection E as <- <-. split; [done|]. right.
  eexists _, i, v. split_and!; [done|done|exact Ev|by apply Hr].
Qed.

(** Mail reaches the people it is about and nobody else: handling an outbox event
    reads the database without changing it and sends at most one message; an
    invitation and a password-reset link go to the address in their event, and an
    invoice or a soft-limit warning to a contact of the organization the invoice or the event
    names (its billing customer's address, the one in its settings, or its owner's),
    never to another organization's. *)
Theorem mail_reaches_contacts event_type payload w ms w' : customers_own w ->
  handle event_type payload w = (Ok ms, w') ->
  w' = w /\ (ms = [] \/ exists m, ms = [m] /\ addressee w event_type payload m).
Proof.
  intros Hown. unfold handle_event.
  destruct (String.eqb_spec event_type "member.invite_email") as [->|].
  { case_match; intros [= <- <-]; split; [done|by left|done|]. right. by eexists. }
  destruct (String.eqb_spec event_type "user.password_reset_link") as [->|].
  { case_match; intros [= <- <-]; split; [done|by left|done|]. right. by eexists. }
  destruct (String.eqb_spec event_type "invoice.email") as [->|].
  { case_match; [intros [= <- <-]; split; [done|by left]|]. intros E. apply invoice_mail_run in E as [-> E]; [|done].
    split; [done|]. destruct E as [->|(m & i & v & -> & E)]; [by left|right]. exists m. split; [done|]. by exists i, v. }
  destruct (String.eqb_spec event_type "usage.soft_limit_reached") as [->|]; [|intros [= <- <-]; split; [done|by left]].
  case_match; [intros [= <- <-]; split; [done|by left]|]. intros E. apply bind_ok in E as (r & w1 & H1 & E).
  apply recipient_run in H1 as (-> & org & Ho & Hr). destruct r as [r|]; injection E as <- <-; (split; [done|]); [right|by left].
  eexists. split; [done|]. by exists org.
Qed.

Lemma invitation_handled email token name w0 : email <> "" -> token <> "" ->
  handle "member.invite_email" [("email", JStr email); ("invite_token", JStr token); ("org_name", JStr name)] w0 =
  (Ok [invite_mail brand web_origin repr (JStr email) (JStr token) (JStr name)], w0).
Proof.
  intros H1%String.eqb_neq H2%String.eqb_neq. unfold handle_event. cbn -[invite_mail]. by rewrite H1, H2.
Qed.

(** What the body of an invitation says before and after its link. *)
Definition before_link (name : string) : string :=
  "Someone invited you to " +:+ name +:+ " on " +:+ _product brand +:+ "." +:+ blank_line +:+
  "Accept your invitation by registering with this link:" +:+ newline.

Lemma invite_mail_link email token name : exists post,
  ml_body (invite_mail brand web_origin repr email (JStr token) (JStr name)) =
  before_link name +:+ _web_url web_origin ("/register?invite=" +:+ token) +:+ post.
Proof.
  eexists. unfold invite_mail, _with_footer, before_link. cbn [ml_body str py_str].
  by rewrite !string_app_assoc.
Qed.

(** An invitation ends in the mailbox that was invited, with the token that accepts
    it: when [invite_member] succeeds, an unpublished outbox event of the organization
    is on record whose handling, in whatever state of the database it comes to be
    handled, sends exactly one message, to the invited address, with a link that
    carries the token whose digest the pending membership keeps; and the event is
    internal, so no webhook endpoint sees the token. *)
Theorem invitation_is_mailed sha256 `{EntitlementReader} token org email keys limit name w mid m w' :
  w_db w Tmemberships !! (w_fresh w : key Tmemberships) = None -> email <> "" -> token <> "" ->
  invite_member sha256 token org email keys limit name w = (Ok (mid, m), w') ->
  mb_status m = "invited" /\ mb_invited_email m = Some email /\ mb_invite_token_hash m = Some (sha256 token) /\
  exists k (e : outbox_event) ml pre post, w_db w' Toutbox_events !! k = Some e /\ ob_organization_id e = Some org /\
    ob_published_at e = None /\ ob_audience e = "internal" /\ ml_to ml = email /\
    ml_body ml = pre +:+ _web_url web_origin ("/register?invite=" +:+ token) +:+ post /\
    forall w0, handle (ob_event_type e) (ob_payload e) w0 = (Ok [ml], w0).
Proof.
  intros Hf He Ht E. pose proof (invite_run sha256 _ _ _ _ _ _ _ _ _ _ Hf E) as (_ & [= _ Hst] & _ & Hem & Hh & _).
  split_and!; [done..|].
  apply invite_outbox in E as (k & t & Hk).
  destruct (invite_mail_link (JStr email) token name) as [post Hp].
  eexists k, _, (invite_mail brand web_origin repr (JStr email) (JStr token) (JStr name)), _, post. split; [exact Hk|]. split_and!; [done..|exact Hp|]. intros w0. by apply invitation_handled.
Qed.
End Mailing.

(** A login is only sent once the connection is secured, just before the message. *)
Lemma credentials_only_over_tls tls username password u p : In (Login u p) (_deliver tls username password).1 ->
  exists opened, (_deliver tls username password).1 = opened ++ [Login username password; SendMessage] /\
    (In (Connect true) opened \/ In UpgradeToTls opened).
Proof.
  unfold _deliver. destruct tls, (String.eqb username ""); cbn; intros Hin;
    try (exfalso; by intuition discriminate).
  - exists [Connect false; Ehlo; UpgradeToTls; Ehlo]. split; [done|]. cbn. tauto.
  - exists [Connect true]. split; [done|]. cbn. tauto.
Qed.

(** ** Witnesses *)

Definition bills : billing_customer := BillingCustomer 1 "manual" None (Some "bills@acme.test") None None.
Definition july : invoice :=
  Invoice 1 (Some 40%N) (Some "manual") None (Some "INV-7") "PHP" 123400 0 123400 "open" None None None None None NOW.

(** An invoice of Acme, whose bills go to a mailbox of their own. *)
Definition office : world := world_of
  (set_table (set_table (w_db team) Tbilling_customers (rows_of Tbilling_customers [(40%N, bills)]))
     Tinvoices (rows_of Tinvoices [(50%N, july)])).

Definition page_of (v : uuid * invoice) (lines : list invoice_line) (org : string) (email pay_to : option string) : string := org.
Definition no_text (j : json) : string := "".
Definition office_mail (event_type : string) (payload : jobj) : M (list mail) :=
  handle_event kit "https://app.test/" "BDO 1234" no_text page_of event_type payload.

Lemma office_own : customers_own office.
Proof.
  intros i c v cust Hv Hc Hcu. apply (lookup_rows_of Tinvoices) in Hv; [|repeat constructor; set_solver].
  apply (lookup_rows_of Tbilling_customers) in Hcu; [|repeat constructor; set_solver].
  apply list_elem_of_singleton in Hv as [= -> ->]. apply list_elem_of_singleton in Hcu as [= -> ->]. done.
Qed.

Definition july_run : result (list mail) * world := office_mail "invoice.email" [("invoice_id", JUuid 50)] office.
Definition july_mail : mail := default (Mail "" "" "" []) (head (match july_run.1 with Ok ms => ms | Err _ => [] end)).

Lemma mail_reaches_contacts_witness :
  contact office 1 "bills@acme.test" /\ july_run = (Ok [july_mail], office) /\
  ml_to july_mail = "bills@acme.test" /\ ml_subject july_mail = "Invoice INV-7: 1,234.00 PHP due".
Proof.
  assert (E : july_run.1 = Ok [july_mail]) by (vm_compute; reflexivity).
  assert (Hto : ml_to july_mail = "bills@acme.test") by (vm_compute; reflexivity).
  assert (Hsub : ml_subject july_mail = "Invoice INV-7: 1,234.00 PHP due") by (vm_compute; reflexivity).
  generalize july_mail, E, Hto, Hsub. clear. intros m E Hto Hsub. apply ran in E.
  destruct (mail_reaches_contacts _ _ _ _ _ _ _ _ _ _ office_own E) as [Hw [[=]|(m' & [= <-] & i & v & Hi & Hv & Hc)]].
  rewrite Hw in E. apply (lookup_rows_of Tinvoices) in Hv; [|repeat constructor; set_solver].
  apply list_elem_of_singleton in Hv as [= -> ->]. rewrite Hto in Hc. by split_and!.
Defined.

Lemma invitation_is_mailed_witness : exists k (e : outbox_event) ml,
  w_db invited.2 Toutbox_events !! k = Some e /\ office_mail (ob_event_type e) (ob_payload e) office = (Ok [ml], office) /\
  ml_to ml = "bob@acme.test".
Proof.
  destruct invited_run as [[mid m] Hr].
  pose proof (invitation_is_mailed kit "https://app.test/" "BDO 1234" no_text page_of hash "t0ken" 1 "bob@acme.test" None
    (Some 3%Z) "Acme" team mid m invited.2 team_fresh) as H.
  fold invited in H. generalize dependent invited. intros r Hr H.
  destruct (H ltac:(discriminate) ltac:(discriminate) Hr) as (_ & _ & _ & k & e & ml & pre & post & Hk & _ & _ & _ & Hto & _ & Hh).
  exists k, e, ml. split_and!; [exact Hk|apply Hh|exact Hto].
Defined.
