(* ===== verification/Reporting.v ===== *)
(** The reports (billing/reporting.py and their routes in billing/router.py):
    what an organization was billed, and what the platform collects. *)

From Stdlib Require Import Ascii.
From S2P Require Import Prelude Calendar Permissions Json Errors Events Tables Store Cache Session Fixtures.
From S2P Require Import Authorization Subscriptions Tenancy.

(** ** Groups *)

(** [GROUP BY k]: one group per value, in no particular order. *)
Definition groups {A} (k : A -> string) (l : list A) : list (string * list A) :=
  (fun x => (x, filter (fun a => k a = x) l)) <$> remove_dups (k <$> l).

(** [to_char(date_trunc('month', t), 'YYYY-MM')], in UTC. *)
Definition month_label (t : instant) : string :=
  let c := civil_of_date (date_of t) in zfill 4 (c_year c) +:+ "-" +:+ zfill 2 (c_month c).

(** [min] of a column of a group; a group is never empty. *)
Definition earliest (l : list instant) : instant :=
  match l with [] => 0%Z | t :: l => foldr Z.min t l end.

Definition total_cents (l : list invoice) : Z := sumZ i_total_cents l.
Definition in_status (s : string) (v : invoice) : bool := String.eqb (i_status v) s.

(** The invoices whose [at_] column is set, with it, per month of [at_], oldest
    month first. *)
Definition dated (at_ : invoice -> option instant) (l : list invoice) : list (instant * invoice) :=
  omap (fun v => (., v) <$> at_ v) l.
Definition by_month (l : list (instant * invoice)) : list (string * list (instant * invoice)) :=
  order_by (fun g : string * list (instant * invoice) => earliest g.2.*1) (groups (fun v => month_label v.1) l).

Record month_row : Type := MonthRow {
  mr_month : string;
  mr_total_cents : Z;
  mr_invoices : Z
}.
Definition month_rows (l : list (instant * invoice)) : list month_row :=
  (fun g : string * list (instant * invoice) => MonthRow g.1 (total_cents g.2.*2) (Z.of_nat (length g.2))) <$> by_month l.

(** ** One organization *)

Definition invoices_of (m : rows Tinvoices) : list invoice :=
  (fun r : key Tinvoices * row Tinvoices => r.2 : invoice) <$> rows_where Tinvoices (fun _ _ => true) m.
Definition billed_to (org : uuid) (m : rows Tinvoices) : list invoice :=
  filter (fun v => i_organization_id v = org) (invoices_of m).

Definition status_totals (l : list invoice) : list (string * Z) :=
  (fun g : string * list invoice => (g.1, total_cents g.2)) <$> groups i_status l.
Definition _status_totals (org : uuid) : M (list (string * Z)) :=
  m ← read_table Tinvoices; mret (status_totals (billed_to org m)).

(** [d.get(k, 0)] of a dictionary of totals. *)
Definition total_at (k : string) (d : list (string * Z)) : Z :=
  default 0%Z (snd <$> head (filter (fun e : string * Z => e.1 = k) d)).

Record spend_summary : Type := SpendSummary {
  ss_organization_id : uuid;
  ss_billed_cents : Z;
  ss_paid_cents : Z;
  ss_outstanding_cents : Z;
  ss_void_cents : Z;
  ss_by_status : list (string * Z);
  ss_currency : string
}.

Definition org_spend_summary (org : uuid) : M spend_summary :=
  lifetime ← _status_totals org;
  mret (SpendSummary org (sumZ snd lifetime) (total_at "paid" lifetime) (total_at "open" lifetime)
    (total_at "void" lifetime) lifetime "PHP").

(** The parameter [months] of the source is never read. *)
Definition org_monthly_spend (org : uuid) : M (list month_row) :=
  m ← read_table Tinvoices;
  let billed := filter (fun v => i_status v ∈ ["paid"; "open"]) (billed_to org m) in
  mret (month_rows (dated i_issued_at billed)).

(** ** The platform *)

Definition snapshot_price (s : subscription) : Z := or0 (sn_price_cents (s_plan_snapshot s)).
Definition occupying (m : rows Tsubscriptions) : list subscription :=
  (fun r : key Tsubscriptions * row Tsubscriptions => r.2 : subscription) <$>
    rows_where Tsubscriptions (fun _ s => bool_decide (s_status s ∈ OCCUPYING_STATUSES)) m.

Record revenue : Type := Revenue {
  rv_mrr_proxy_cents : Z;
  rv_collected_cents : Z;
  rv_outstanding_cents : Z;
  rv_paying_organizations : Z;
  rv_invoices_by_status : list (string * Z);
  rv_as_of : instant
}.

Definition revenue_summary : M revenue :=
  subscriptions ← read_table Tsubscriptions;
  invoices ← read_table Tinvoices;
  t ← now;
  let all := invoices_of invoices in
  let running := occupying subscriptions in
  let paying := filter (fun s => (0 < snapshot_price s)%Z) running in
  mret (Revenue (sumZ snapshot_price running)
    (total_cents (filter (fun v => in_status "paid" v) all)) (total_cents (filter (fun v => in_status "open" v) all))
    (Z.of_nat (length (remove_dups (s_organization_id <$> paying))))
    ((fun g : string * list invoice => (g.1, Z.of_nat (length g.2))) <$> groups i_status all) t).

Definition monthly_revenue : M (list month_row) :=
  m ← read_table Tinvoices;
  mret (month_rows (dated i_paid_at (filter (fun v => in_status "paid" v) (invoices_of m)))).

(** ** The routes *)

Section Routes.
Context (fga_check : string -> string -> string -> option bool) (user_id : uuid) (u : user) (tenant : tenant_context).

Definition spend_summary_route : M spend_summary :=
  _ ← require_permission fga_check "billing:read" user_id u tenant; org_spend_summary (tx_organization_id tenant).
Definition spend_monthly_route : M (list month_row) :=
  _ ← require_permission fga_check "billing:read" user_id u tenant; org_monthly_spend (tx_organization_id tenant).
Definition revenue_summary_route : M revenue := _ ← require_platform_admin u; revenue_summary.
Definition revenue_monthly_route : M (list month_row) := _ ← require_platform_admin u; monthly_revenue.
End Routes.

(** ** Groups add up *)

Lemma sumZ_cons {A} (f : A -> Z) x l : sumZ f (x :: l) = (f x + sumZ f l)%Z.
Proof. done. Qed.

Lemma sumZ_fmap {A B} (f : B -> Z) (g : A -> B) l : sumZ f (g <$> l) = sumZ (fun a => f (g a)) l.
Proof. induction l as [|a l IH]; [done|]. rewrite fmap_cons, !sumZ_cons. by rewrite IH. Qed.

Section Groups.
Context {A : Type}.

(** Splitting a sum over keys that occur once each and cover the list. *)
Lemma sum_by_key {K} `{EqDecision K} (k : A -> K) (f : A -> Z) (ks : list K) (l : list A) :
  NoDup ks -> (forall a, a ∈ l -> k a ∈ ks) ->
  sumZ (fun x => sumZ f (filter (fun a => k a = x) l)) ks = sumZ f l.
Proof.
  intros Hnd. induction l as [|a l IH]; intros Hin; [apply sumZ_const_0|]. rewrite sumZ_cons.
  rewrite <- IH by (intros b Hb; apply Hin; by right).
  assert (Ha : k a ∈ ks) by (apply Hin; left). clear IH Hin.
  induction ks as [|x ks IH]; [by apply elem_of_nil in Ha|]. apply NoDup_cons in Hnd as [Hx Hnd].
  rewrite !sumZ_cons. rewrite filter_cons. apply elem_of_cons in Ha as [Ha|Ha].
  - rewrite decide_True by done. rewrite sumZ_cons. rewrite (sumZ_ext _ (fun x => sumZ f (filter (fun a => k a = x) l)) ks); [lia|].
    intros y Hy. rewrite filter_cons_False; [done|]. intros E. apply Hx. rewrite <- Ha, E. exact Hy.
  - rewrite decide_False by (intros <-; done). specialize (IH Hnd Ha). lia.
Qed.

Context (k : A -> string).

Lemma elem_of_groups l x g : (x, g) ∈ groups k l <-> x ∈ k <$> l /\ g = filter (fun a => k a = x) l.
Proof.
  unfold groups. rewrite list_elem_of_fmap. setoid_rewrite elem_of_remove_dups. split.
  - intros (y & [= -> ->] & Hy). done.
  - intros [Hx ->]. by exists x.
Qed.

Lemma groups_keys l : (groups k l).*1 = remove_dups (k <$> l).
Proof. unfold groups. rewrite <- list_fmap_compose. apply list_fmap_id. Qed.

Lemma NoDup_groups l : NoDup (groups k l).*1.
Proof. rewrite groups_keys. apply NoDup_remove_dups. Qed.

Lemma group_inhabited l x g : (x, g) ∈ groups k l -> exists a, a ∈ l /\ k a = x /\ a ∈ g.
Proof.
  intros [Hx ->]%elem_of_groups. apply list_elem_of_fmap in Hx as (a & -> & Ha). exists a.
  split_and!; [done..|]. by apply list_elem_of_filter.
Qed.

Lemma sum_groups (f : A -> Z) l : sumZ (fun g : string * list A => sumZ f g.2) (groups k l) = sumZ f l.
Proof.
  rewrite <- (sum_by_key k f (remove_dups (k <$> l)) l (NoDup_remove_dups _)).
  - unfold groups. by rewrite sumZ_fmap.
  - intros a Ha. apply elem_of_remove_dups. by apply list_elem_of_fmap_2.
Qed.
End Groups.

Lemma sumZ_length {A} (l : list A) : sumZ (fun _ => 1%Z) l = Z.of_nat (length l).
Proof. induction l as [|a l IH]; simpl; lia. Qed.

(** ** Status totals *)

Lemma total_at_status l s : total_at s (status_totals l) = total_cents (filter (fun v => i_status v = s) l).
Proof.
  unfold total_at, status_totals. set (e := filter _ _).
  destruct (decide (s ∈ i_status <$> l)) as [Hs|Hs].
  - assert (He : e = [(s, total_cents (filter (fun v => i_status v = s) l))]); [|by rewrite He].
    apply NoDup_all_eq_singleton.
    + apply NoDup_filter. apply (NoDup_fmap_1 fst). rewrite <- list_fmap_compose. apply NoDup_groups.
    + apply list_elem_of_filter. split; [done|]. apply list_elem_of_fmap.
      exists (s, filter (fun v => i_status v = s) l). split; [done|]. by apply elem_of_groups.
    + intros [s' z] [E H']%list_elem_of_filter. simpl in E. subst s'. apply list_elem_of_fmap in H' as ([x g] & [= -> ->] & Hg).
      apply elem_of_groups in Hg as [_ ->]. done.
  - assert (He : e = []).
    { apply elem_of_nil_inv. intros [s' z] [E H']%list_elem_of_filter. simpl in E. subst s'.
      apply list_elem_of_fmap in H' as ([x g] & [= -> ->] & Hg). by apply elem_of_groups in Hg as [Hg _]. }
    rewrite He. simpl. symmetry. replace (filter _ l) with (@nil invoice); [done|]. symmetry. apply elem_of_nil_inv.
    intros v [Ev Hv]%list_elem_of_filter. apply Hs. rewrite <- Ev. by apply list_elem_of_fmap_2.
Qed.

Lemma sum_status_totals l : sumZ snd (status_totals l) = total_cents l.
Proof. unfold status_totals. rewrite sumZ_fmap. apply (sum_groups i_status i_total_cents l). Qed.

Lemma elem_of_invoices_of (v : invoice) m : v ∈ invoices_of m <-> exists i : key Tinvoices, m !! i = Some (v : row Tinvoices).
Proof.
  unfold invoices_of. rewrite list_elem_of_fmap. split.
  - intros ([i r] & -> & Hr). apply (elem_of_rows_where Tinvoices) in Hr as [Hr _]. by exists i.
  - intros [i Hi]. exists (i, v : row Tinvoices). split; [done|]. by apply (elem_of_rows_where Tinvoices).
Qed.

Lemma INVOICE_STATUSES_NoDup : NoDup INVOICE_STATUSES.
Proof. apply (bool_decide_unpack _). vm_compute. exact I. Qed.

Lemma statuses_cover org m : check_in Tinvoices i_status INVOICE_STATUSES m ->
  sumZ (fun s => total_cents (filter (fun v => i_status v = s) (billed_to org m))) INVOICE_STATUSES =
  total_cents (billed_to org m).
Proof.
  intros Hc. apply sum_by_key; [apply INVOICE_STATUSES_NoDup|]. intros v [_ Hv]%list_elem_of_filter.
  apply elem_of_invoices_of in Hv as [i Hi]. exact (Hc i v Hi).
Qed.

(** ** Months *)

Lemma date_of_nonneg t : (0 <= t)%Z -> (0 <= date_of t)%Z.
Proof. intros H. unfold date_of. apply Z.div_pos; [done|reflexivity]. Qed.

Definition label_of (ym : Z * Z) : string := zfill 4 ym.1 +:+ "-" +:+ zfill 2 ym.2.
Lemma month_label_of t : month_label t = label_of (year_month (date_of t)).
Proof. reflexivity. Qed.

(** Two instants have the same label exactly when they fall in one month. *)
Lemma month_label_bucket a b : (0 <= a)%Z -> (0 <= b)%Z ->
  month_label a = month_label b <-> first_of_month (date_of a) = first_of_month (date_of b).
Proof.
  intros Ha Hb. pose proof (year_month_range _ (date_of_nonneg a Ha)) as [Ya Ma].
  pose proof (year_month_range _ (date_of_nonneg b Hb)) as [Yb Mb]. split.
  - rewrite !month_label_of. intros H. apply year_month_inj.
    destruct (year_month (date_of a)) as [y m], (year_month (date_of b)) as [y' m']. unfold label_of in H. cbn [fst snd] in *.
    apply (split_at_sep (Ascii.ascii_of_nat 45)) in H as [H1 H2]; [|by apply zfill_no_minus..].
    apply (f_equal int_of_str) in H1, H2. rewrite !int_of_zfill in H1, H2 by lia. congruence.
  - rewrite !month_label_of. intros H. by rewrite (first_of_month_inj _ _ H).
Qed.

Lemma earliest_spec l : l <> [] -> earliest l ∈ l /\ forall t, t ∈ l -> (earliest l <= t)%Z.
Proof.
  destruct l as [|t l]; [done|]. intros _. simpl. induction l as [|x l [IH1 IH2]]; simpl.
  - split; [left|]. by intros y [->|H%elem_of_nil]%elem_of_cons.
  - split.
    + destruct (Z.min_spec x (foldr Z.min t l)) as [[_ ->]|[_ ->]]; [right; left|].
      apply elem_of_cons in IH1 as [IH1|IH1]; [rewrite IH1; left|right; by right].
    + intros y [->|[->|Hy]%elem_of_cons]%elem_of_cons; [|lia|].
      * specialize (IH2 t ltac:(left)). lia.
      * specialize (IH2 y ltac:(by right)). lia.
Qed.

Lemma order_by_sorted {A} (k : A -> Z) l : StronglySorted (key_le k) (order_by k l).
Proof.
  apply StronglySorted_merge_sort; unfold key_le; [intros x y z|intros x y]; lia.
Qed.

(** A sorted list of distinct keys is sorted by what the order says of distinct keys. *)
Lemma sorted_distinct {A} (R S : relation (string * A)) l :
  StronglySorted R l -> NoDup l.*1 -> (forall x y, x ∈ l -> y ∈ l -> x.1 <> y.1 -> R x y -> S x y) -> StronglySorted S l.
Proof.
  induction 1 as [|x l Hl IH Hx]; intros Hnd HS; [constructor|]. rewrite fmap_cons in Hnd. apply NoDup_cons in Hnd as [Hn Hnd].
  constructor.
  - apply IH; [done|]. intros y z Hy Hz. apply HS; by right.
  - rewrite Forall_forall in *. intros y Hy. apply HS; [left|by right| |by apply Hx].
    intros E. apply Hn. rewrite E. by apply list_elem_of_fmap_2.
Qed.

(** [a] and [b] fall in the months [x] and [y]. *)
Definition precedes (l : list (instant * invoice)) (x y : string) : Prop :=
  forall a b, a ∈ l -> b ∈ l -> month_label a.1 = x -> month_label b.1 = y -> (a.1 < b.1)%Z.

Lemma by_month_elem l g : g ∈ by_month l <-> g.1 ∈ (fun v => month_label v.1) <$> l /\ g.2 = filter (fun v => month_label v.1 = g.1) l.
Proof. destruct g as [x g]. unfold by_month. rewrite elem_of_order_by, elem_of_groups. done. Qed.

Lemma by_month_nodup l : NoDup (by_month l).*1.
Proof.
  assert (H : (by_month l).*1 ≡ₚ (groups (fun v : instant * invoice => month_label v.1) l).*1).
  { apply fmap_Permutation. unfold by_month, order_by. by rewrite merge_sort_Permutation. }
  rewrite H. apply NoDup_groups.
Qed.

Lemma by_month_sorted l : (forall v, v ∈ l -> (0 <= v.1)%Z) ->
  StronglySorted (fun g h : string * list (instant * invoice) => precedes l g.1 h.1) (by_month l).
Proof.
  intros Hpos. apply (sorted_distinct _ _ _ (order_by_sorted _ _) (by_month_nodup l)).
  intros [x g] [y h] [Hx Eg]%by_month_elem [Hy Eh]%by_month_elem Hne Hle a b Ha Hb La Lb. cbn [fst snd] in *.
  unfold key_le in Hle. cbn [fst snd] in Hle.
  assert (Hin : forall (z : string) c (g : list (instant * invoice)), g = filter (fun v => month_label v.1 = z) l ->
    c ∈ l -> month_label c.1 = z -> exists m, m ∈ l /\ month_label m.1 = z /\ earliest g.*1 = m.1).
  { intros z c g' -> Hc Lc. destruct (earliest_spec (filter (fun v => month_label v.1 = z) l).*1) as [He _].
    - intros E. apply fmap_nil_inv in E. apply (filter_nil_not_elem_of _ _ c E Lc Hc).
    - apply list_elem_of_fmap in He as (m & -> & [Lm Hm]%list_elem_of_filter). by exists m. }
  destruct (Hin x a g Eg Ha La) as (p & Hp & Lp & Ep), (Hin y b h Eh Hb Lb) as (q & Hq & Lq & Eq).
  rewrite Ep, Eq in Hle. pose proof (Hpos a Ha) as Pa. pose proof (Hpos b Hb) as Pb. pose proof (Hpos p Hp) as Pp. pose proof (Hpos q Hq) as Pq.
  assert (Ea : first_of_month (date_of a.1) = first_of_month (date_of p.1)) by (apply month_label_bucket; congruence || done).
  assert (Eb : first_of_month (date_of b.1) = first_of_month (date_of q.1)) by (apply month_label_bucket; congruence || done).
  assert (Hd : first_of_month (date_of p.1) <> first_of_month (date_of q.1)).
  { intros E. apply Hne. rewrite <- Lp, <- Lq. by apply month_label_bucket. }
  assert (date_of p.1 <= date_of q.1)%Z by (unfold date_of; apply Z.div_le_mono; [reflexivity|done]).
  pose proof (first_of_month_mono (date_of p.1) (date_of q.1) ltac:(done)).
  destruct (Z.lt_ge_cases a.1 b.1) as [|Hba]; [done|]. exfalso.
  assert (date_of b.1 <= date_of a.1)%Z by (unfold date_of; apply Z.div_le_mono; [reflexivity|lia]).
  pose proof (first_of_month_mono (date_of b.1) (date_of a.1) ltac:(done)). lia.
Qed.

(** What a monthly report of the invoices of [l], dated by [at_], must say. *)
Definition in_month (at_ : invoice -> option instant) (month : string) (v : invoice) : Prop := month_label <$> at_ v = Some month.
#[export] Instance in_month_dec at_ month v : Decision (in_month at_ month v).
Proof. unfold in_month. apply _. Defined.

Record month_report (at_ : invoice -> option instant) (l : list invoice) (report : list month_row) : Prop := MonthReport {
  (* every row is a month with invoices: their sum and their number *)
  mo_rows r : r ∈ report -> let g := filter (in_month at_ (mr_month r)) l in
    g <> [] /\ mr_total_cents r = total_cents g /\ mr_invoices r = Z.of_nat (length g);
  (* every dated invoice is in the row of its month *)
  mo_months v t : v ∈ l -> at_ v = Some t -> month_label t ∈ mr_month <$> report;
  mo_distinct : NoDup (mr_month <$> report);
  (* nothing is lost or counted twice *)
  mo_total : sumZ mr_total_cents report = total_cents (filter (fun v => is_Some (at_ v)) l);
  (* oldest month first *)
  mo_order : StronglySorted (fun r s => forall v w t u, v ∈ l -> w ∈ l -> at_ v = Some t -> at_ w = Some u ->
    month_label t = mr_month r -> month_label u = mr_month s -> (t < u)%Z) report
}.

Section Report.
Context (at_ : invoice -> option instant).

Lemma elem_of_dated l t v : (t, v) ∈ dated at_ l <-> v ∈ l /\ at_ v = Some t.
Proof.
  unfold dated. rewrite list_elem_of_omap. split.
  - intros (x & Hx & E). destruct (at_ x) eqn:Ea; [|done]. by injection E as -> ->.
  - intros [Hv E]. exists v. by rewrite E.
Qed.

Lemma dated_month l month : (filter (fun d => month_label d.1 = month) (dated at_ l)).*2 = filter (in_month at_ month) l.
Proof.
  unfold dated. induction l as [|v l IH]; [done|]. cbn [omap list_omap]. destruct (at_ v) as [t|] eqn:Ev; simpl.
  - destruct (decide (month_label t = month)) as [E|E].
    + rewrite filter_cons_True, filter_cons_True by (unfold in_month; rewrite ?Ev; simpl; congruence).
      rewrite fmap_cons. by rewrite IH.
    + rewrite filter_cons_False, filter_cons_False by (unfold in_month; rewrite ?Ev; simpl; congruence). exact IH.
  - rewrite filter_cons_False; [exact IH|]. unfold in_month. by rewrite Ev.
Qed.

Lemma dated_all l : (dated at_ l).*2 = filter (fun v => is_Some (at_ v)) l.
Proof.
  unfold dated. induction l as [|v l IH]; [done|]. cbn [omap list_omap]. destruct (at_ v) as [t|] eqn:Ev; simpl.
  - rewrite filter_cons_True by (by rewrite Ev). by rewrite <- IH.
  - rewrite filter_cons_False; [exact IH|]. rewrite Ev. by intros [].
Qed.

Lemma month_rows_report l : (forall v t, v ∈ l -> at_ v = Some t -> (0 <= t)%Z) -> month_report at_ l (month_rows (dated at_ l)).
Proof.
  intros Hpos. assert (Hm : mr_month <$> month_rows (dated at_ l) = (by_month (dated at_ l)).*1).
  { unfold month_rows. by rewrite <- list_fmap_compose. }
  split.
  - intros r Hr. apply list_elem_of_fmap in Hr as ([x g] & -> & [Hx Hg]%by_month_elem). cbn [fst snd mr_month mr_total_cents mr_invoices] in *.
    rewrite <- (dated_month l x), <- Hg, length_fmap. split_and!; [|done..]. subst g. intros E. apply fmap_nil_inv in E.
    apply list_elem_of_fmap in Hx as (d & -> & Hd). by apply (filter_nil_not_elem_of _ _ d E).
  - intros v t Hv Ht. rewrite Hm. apply list_elem_of_fmap.
    exists (month_label t, filter (fun d => month_label d.1 = month_label t) (dated at_ l)). split; [done|].
    apply by_month_elem. split; [|done]. apply list_elem_of_fmap. exists (t, v). split; [done|]. by apply elem_of_dated.
  - rewrite Hm. apply by_month_nodup.
  - unfold month_rows. rewrite sumZ_fmap. cbn [mr_total_cents]. rewrite <- dated_all. unfold total_cents at 2. rewrite sumZ_fmap.
    rewrite <- (sum_groups (fun d : instant * invoice => month_label d.1) (fun d => i_total_cents d.2) (dated at_ l)).
    rewrite (sumZ_Permutation _ (by_month (dated at_ l)) (groups (fun d : instant * invoice => month_label d.1) (dated at_ l)))
      by (unfold by_month, order_by; by rewrite merge_sort_Permutation).
    apply sumZ_ext. intros [x g] _. unfold total_cents. by rewrite sumZ_fmap.
  - unfold month_rows.
    assert (Hs : StronglySorted (fun g h : string * list (instant * invoice) => precedes (dated at_ l) g.1 h.1) (by_month (dated at_ l))).
    { apply by_month_sorted. intros [t v] [Hv Ht]%elem_of_dated. by apply (Hpos v). }
    clear Hm. induction Hs as [|g gs _ IH Hg]; [constructor|]. simpl. constructor; [exact IH|]. apply Forall_fmap.
    apply (Forall_impl _ _ _ Hg). intros h Hgh v w t u Hv Hw Ht Hu Lt Lu.
    apply (Hgh (t, v) (u, w)); [by apply elem_of_dated..|done|done].
Qed.
End Report.

(** An organization's monthly spend accounts for every paid or open invoice that
    was issued, once, in the month of its issue: each row is the exact sum and
    count of its month, the rows add up to what was billed, no month appears
    twice, and months run from the oldest to the newest. *)
Theorem monthly_spend_accounts org w :
  let l := filter (fun v => i_status v ∈ ["paid"; "open"]) (billed_to org (w_db w Tinvoices)) in
  (forall v t, v ∈ l -> i_issued_at v = Some t -> (0 <= t)%Z) ->
  exists report, org_monthly_spend org w = (Ok report, w) /\ month_report i_issued_at l report.
Proof. intros l Hpos. eexists. split; [reflexivity|]. by apply month_rows_report. Qed.

(** An organization's summary: the totals by status have one entry per status, and
    each is the sum of the organization's invoices in it; what was billed is
    everything, drafts and void invoices included, and splits over the five statuses. *)
Theorem spend_summary_reconciles org w : check_in Tinvoices i_status INVOICE_STATUSES (w_db w Tinvoices) ->
  let l := billed_to org (w_db w Tinvoices) in
  let at_status s := total_cents (filter (fun v => i_status v = s) l) in
  exists s, org_spend_summary org w = (Ok s, w) /\
    NoDup (ss_by_status s).*1 /\ (forall x, total_at x (ss_by_status s) = at_status x) /\
    ss_paid_cents s = at_status "paid" /\ ss_outstanding_cents s = at_status "open" /\ ss_void_cents s = at_status "void" /\
    ss_billed_cents s = total_cents l /\
    ss_billed_cents s = (at_status "draft" + at_status "open" + at_status "paid" + at_status "void" + at_status "uncollectible")%Z.
Proof.
  intros Hc l at_status. eexists. split; [reflexivity|]. cbn [ss_by_status ss_paid_cents ss_outstanding_cents ss_void_cents ss_billed_cents].
  fold l. rewrite !total_at_status, sum_status_totals. split_and!; try done.
  - unfold status_totals. rewrite <- list_fmap_compose. apply NoDup_groups.
  - intros x. apply total_at_status.
  - unfold l, at_status. rewrite <- (statuses_cover org _ Hc). fold l. simpl. lia.
Qed.

(** ** Revenue *)

(** Occupying subscriptions belong to different organizations. *)
Lemma occupying_distinct m : subscriptions_ok m -> NoDup (s_organization_id <$> occupying m).
Proof.
  intros (_ & Hu & _). unfold occupying. rewrite <- list_fmap_compose. apply NoDup_fmap_2_strong; [|apply NoDup_rows_where].
  intros [i s] [j s'] Hi Hj E. apply (elem_of_rows_where Tsubscriptions) in Hi as [Hi Oi], Hj as [Hj Oj]. simpl in E.
  assert (Ho : forall x : subscription, bool_decide (s_status x ∈ OCCUPYING_STATUSES) = true -> occupied_org x = Some (s_organization_id x)).
  { intros x Hx. unfold occupied_org, is_occupying. change ["trialing"; "active"; "past_due"] with OCCUPYING_STATUSES. by rewrite Hx. }
  assert (i = j) as -> by (apply (unique_on_lookup Tsubscriptions _ m i j s s' (s_organization_id s) Hu Hi Hj); [by apply Ho|rewrite E; by apply Ho]).
  rewrite Hi in Hj. congruence.
Qed.

Lemma paying_distinct m (p : subscription -> Prop) `{forall s, Decision (p s)} :
  subscriptions_ok m -> remove_dups (s_organization_id <$> filter p (occupying m)) ≡ₚ s_organization_id <$> filter p (occupying m).
Proof.
  intros Hok. apply NoDup_Permutation; [apply NoDup_remove_dups| |intros x; apply elem_of_remove_dups].
  eapply sublist_NoDup; [apply (occupying_distinct m Hok)|]. apply fmap_sublist, sublist_filter.
Qed.

Lemma status_by_org s (orgs : list uuid) m : NoDup orgs ->
  (forall (i : key Tinvoices) (v : row Tinvoices), m !! i = Some v -> i_organization_id v ∈ orgs) ->
  total_cents (filter (fun v => in_status s v) (invoices_of m)) =
  sumZ (fun o => total_cents (filter (fun v => i_status v = s) (billed_to o m))) orgs.
Proof.
  intros Hnd Hcov. rewrite <- (sum_by_key i_organization_id i_total_cents orgs); [|done|].
  - apply sumZ_ext. intros o _. unfold total_cents, billed_to. f_equal. rewrite !list_filter_filter. apply list_filter_iff.
    intros v. unfold in_status. rewrite Is_true_true, String.eqb_eq. tauto.
  - intros v [_ Hv]%list_elem_of_filter. apply elem_of_invoices_of in Hv as [i Hi]. exact (Hcov i v Hi).
Qed.

(** The platform's revenue agrees with what its organizations see: collected and
    outstanding are the sums of their paid and outstanding amounts; the status mix
    counts every invoice once; and paying organizations are exactly the running
    subscriptions with a price, since an organization runs at most one. *)
Theorem revenue_agrees_with_spend w (orgs : list uuid) (summary : uuid -> spend_summary) :
  subscriptions_ok (w_db w Tsubscriptions) -> NoDup orgs ->
  (forall (i : key Tinvoices) (v : row Tinvoices), w_db w Tinvoices !! i = Some v -> i_organization_id v ∈ orgs) ->
  (forall o, o ∈ orgs -> org_spend_summary o w = (Ok (summary o), w)) ->
  exists r, revenue_summary w = (Ok r, w) /\
    rv_collected_cents r = sumZ (fun o => ss_paid_cents (summary o)) orgs /\
    rv_outstanding_cents r = sumZ (fun o => ss_outstanding_cents (summary o)) orgs /\
    NoDup (rv_invoices_by_status r).*1 /\
    sumZ snd (rv_invoices_by_status r) = Z.of_nat (length (invoices_of (w_db w Tinvoices))) /\
    rv_paying_organizations r =
      Z.of_nat (length (filter (fun s => (0 < snapshot_price s)%Z) (occupying (w_db w Tsubscriptions)))).
Proof.
  intros Hs Hnd Hcov Hsum. eexists. split; [reflexivity|].
  cbn [rv_collected_cents rv_outstanding_cents rv_invoices_by_status rv_paying_organizations].
  assert (Hat : forall o, o ∈ orgs -> forall s, total_at s (status_totals (billed_to o (w_db w Tinvoices))) =
    total_cents (filter (fun v => i_status v = s) (billed_to o (w_db w Tinvoices)))) by (intros; apply total_at_status).
  assert (Hsm : forall o, o ∈ orgs -> summary o = SpendSummary o (sumZ snd (status_totals (billed_to o (w_db w Tinvoices))))
    (total_at "paid" (status_totals (billed_to o (w_db w Tinvoices)))) (total_at "open" (status_totals (billed_to o (w_db w Tinvoices))))
    (total_at "void" (status_totals (billed_to o (w_db w Tinvoices)))) (status_totals (billed_to o (w_db w Tinvoices))) "PHP").
  { intros o Ho. specialize (Hsum o Ho). by injection Hsum as <-. }
  split_and!.
  - rewrite (status_by_org "paid" orgs _ Hnd Hcov). apply sumZ_ext. intros o Ho. rewrite (Hsm o Ho). symmetry. by apply Hat.
  - rewrite (status_by_org "open" orgs _ Hnd Hcov). apply sumZ_ext. intros o Ho. rewrite (Hsm o Ho). symmetry. by apply Hat.
  - rewrite <- list_fmap_compose. apply NoDup_groups.
  - rewrite sumZ_fmap. rewrite <- (sumZ_length (invoices_of _)), <- (sum_groups i_status (fun _ => 1%Z)).
    apply sumZ_ext. intros g _. symmetry. apply sumZ_length.
  - rewrite (Permutation_length (paying_distinct _ _ Hs)). by rewrite length_fmap.
Qed.

(** ** Two organizations with invoices in three months *)

Definition bill (org : uuid) (total : Z) (status : string) (issued paid : option instant) : invoice :=
  Invoice org None None None None "PHP" total 0 total status None None None issued paid NOW.
Definition billed_world : world := world_of (set_table demo_db Tinvoices (rows_of Tinvoices
  [(60%N, bill 1 100000 "paid" (Some (NOW - days 40)%Z) (Some (NOW - days 35)%Z));
   (61%N, bill 1 50000 "open" (Some (NOW - days 3)%Z) None);
   (62%N, bill 1 30000 "paid" (Some (NOW - days 2)%Z) (Some NOW));
   (63%N, bill 2 70000 "paid" (Some (NOW - days 40)%Z) (Some (NOW - days 40)%Z));
   (64%N, bill 2 10000 "draft" None None)])).

Definition billed_rows : list invoice := invoices_of (w_db billed_world Tinvoices).

Lemma monthly_spend_accounts_witness :
  exists report, org_monthly_spend 1 billed_world = (Ok report, billed_world) /\
    report = [MonthRow "2024-08" 100000 1; MonthRow "2024-10" 80000 2] /\
    sumZ mr_total_cents report = 180000%Z.
Proof.
  destruct (monthly_spend_accounts 1 billed_world) as (report & E & [_ _ _ Ht _]).
  - intros v t [_ [_ Hv]%list_elem_of_filter]%list_elem_of_filter Ht.
    assert (H : forallb (fun v => match i_issued_at v with Some t => (0 <=? t)%Z | None => true end) billed_rows = true)
      by (vm_compute; reflexivity).
    rewrite forallb_forall in H. specialize (H v (proj1 (list_elem_of_In _ _) Hv)). rewrite Ht in H. by apply Z.leb_le.
  - exists report. assert (Er : (org_monthly_spend 1 billed_world).1 = Ok [MonthRow "2024-08" 100000 1; MonthRow "2024-10" 80000 2])
      by (vm_compute; reflexivity).
    rewrite E in Er. injection Er as ->. split; [exact E|]. split; [reflexivity|]. rewrite Ht. vm_compute. reflexivity.
Defined.

Lemma spend_summary_reconciles_witness :
  exists s, org_spend_summary 1 billed_world = (Ok s, billed_world) /\ ss_billed_cents s = 180000%Z /\ ss_paid_cents s = 130000%Z.
Proof.
  destruct (spend_summary_reconciles 1 billed_world) as (s & E & _ & _ & Hp & _ & _ & Hb & _); [by_compute|].
  exists s. split; [exact E|]. rewrite Hb, Hp. split; vm_compute; reflexivity.
Defined.

Lemma revenue_agrees_with_spend_witness :
  exists r, revenue_summary billed_world = (Ok r, billed_world) /\ rv_collected_cents r = 200000%Z /\
    rv_outstanding_cents r = 50000%Z.
Proof.
  set (summary := fun o => match (org_spend_summary o billed_world).1 with Ok s => s | Err _ => SpendSummary 0 0 0 0 0 [] "" end).
  destruct (revenue_agrees_with_spend billed_world [1%N; 2%N] summary) as (r & E & Hc & Ho & _).
  - by_compute.
  - apply (bool_decide_unpack _). vm_compute. exact I.
  - intros i v Hi. assert (Hv : (v : invoice) ∈ billed_rows) by (apply elem_of_invoices_of; by exists i).
    assert (H : forallb (fun v => bool_decide (i_organization_id v ∈ [1%N; 2%N])) billed_rows = true) by (vm_compute; reflexivity).
    rewrite forallb_forall in H. specialize (H v (proj1 (list_elem_of_In _ _) Hv)). by apply bool_decide_eq_true in H.
  - intros o _. reflexivity.
  - exists r. split; [exact E|]. rewrite Hc, Ho. split; vm_compute; reflexivity.
Defined.
