(* ===== verification/Identity.v ===== *)
(** Identity (identity/service.py, identity/provider.py, identity/dependencies.py,
    identity/router.py, core/security.py): registration and login, refresh-token
    rotation with reuse detection, password reset, single sign-on, and the
    principal of a request.

    [sha256], the password hasher, the token signer and the identity provider's
    answers are parameters; random tokens are arguments.  Cookies, redirects and
    counters are not modelled. *)

From S2P Require Import Prelude Text Json Errors Events Tables Store Preferences RateLimit Cache Session.
From S2P Require Import Fixtures Authorization ApiKeys Interfaces Entitlements Usage Tenancy.

Definition RESET_TOKEN_TTL_MINUTES : Z := 30.
Definition ISSUER : string := "synapse-saas".
Definition PASSWORD_MIN_LENGTH : nat := 10.
Definition OIDC_STATE_TTL_SECONDS : Z := 600.
Definition _oidc_state : versioned_cache := VersionedCache "oidc" OIDC_STATE_TTL_SECONDS.

(** ** Access tokens *)

(** The token library: the second decodes and verifies (signature, issuer,
    required claims, expiry), [None] for any refusal. *)
Class JwtLibrary := {
  jwt_encode : string -> jobj -> string;
  jwt_decode : string -> instant -> string -> option jobj
}.

Definition access_claims (iat exp : Z) (user_id : uuid) (email : string) (organization_id : option uuid)
    (is_platform_admin : bool) : jobj :=
  [("sub", JUuid user_id); ("email", JStr email); ("iat", JInt iat); ("exp", JInt exp);
   ("iss", JStr ISSUER); ("type", JStr "access")] ++
  match organization_id with Some o => [("org", JUuid o)] | None => [] end ++
  (if is_platform_admin then [("platform_admin", JBool true)] else []).

(** What the code relies on: a token signed here is decoded to its claims until
    it expires, and refused from then on. *)
Class JwtLaws `{JwtLibrary} : Prop := {
  jwt_round (secret : string) (t : instant) (iat exp : Z) (user_id : uuid) (email : string)
      (organization_id : option uuid) (is_platform_admin : bool) :
    (seconds iat <= t)%Z -> (t < seconds exp)%Z ->
    let claims := access_claims iat exp user_id email organization_id is_platform_admin in
    jwt_decode secret t (jwt_encode secret claims) = Some claims;
  jwt_expired (secret : string) (t : instant) (iat exp : Z) (user_id : uuid) (email : string)
      (organization_id : option uuid) (is_platform_admin : bool) :
    (seconds exp <= t)%Z ->
    jwt_decode secret t (jwt_encode secret
      (access_claims iat exp user_id email organization_id is_platform_admin)) = None
}.

Record token_pair : Type := TokenPair {
  tp_access_token : string;
  tp_refresh_token : string;
  tp_expires_in : Z
}.

(** [Principal]: a user, or the key that acts. *)
Inductive principal : Type :=
  | UserPrincipal (user_id : uuid) (u : user)
  | KeyPrincipal (api_key_id : uuid).

Definition access_token_ttl_seconds (s : settings) : Z := st_access_token_ttl_minutes s * 60.
Definition refresh_token_ttl_seconds (s : settings) : Z := st_refresh_token_ttl_days s * 86400.

Definition access_payload (t : instant) (ttl : Z) : uuid -> string -> option uuid -> bool -> jobj :=
  access_claims (t / SECOND)%Z ((t + seconds ttl) / SECOND)%Z.

Definition validate_password (v : string) : option string :=
  if String.length v <? PASSWORD_MIN_LENGTH then None else Some v.

Section Service.
Context (sha256 : string -> string).
(** The hash of a password under a salt, and the check against a stored hash. *)
Context (hash_password : string -> string -> string) (verify_password : string -> string -> bool).
Context (secret_key : string) `{JwtLibrary} `{EntitlementReader}.
(** [str] of a claim that is not a text; the text of a float. *)
Context (str_of : json -> string) (float_repr : float -> string).
(** The realm's answers: the verified claims behind a password, behind an
    authorization code with its PKCE verifier. *)
Context (password_grant : string -> string -> option jobj) (exchange_code : string -> string -> option jobj).

Definition create_access_token (user_id : uuid) (email : string) (organization_id : option uuid)
    (is_platform_admin : bool) : M string :=
  s ← get_settings;
  t ← now;
  mret (jwt_encode secret_key
    (access_payload t (access_token_ttl_seconds s) user_id email organization_id is_platform_admin)).

Definition decode_access_token (token : string) : M jobj :=
  t ← now;
  match jwt_decode secret_key t token with
  | None => raise_domain AuthenticationError []
  | Some payload =>
      if bool_decide (jget "type" payload = Some (JStr "access")) then mret payload
      else raise_domain AuthenticationError []
  end.

Definition identity_audit (event_type : string) (user_id : uuid) (diff : option jobj) : M unit :=
  audit event_type None (Some user_id) "user" None None diff.

(** ** Registration and login *)

Definition user_by_email (email : string) : M (option (key Tusers * row Tusers)) :=
  rows ← select Tusers (fun _ (u : user) => String.eqb (citext (u_email u)) (citext email));
  scalar_one_or_none rows.

Definition register (salt email password display_name : string) : M (uuid * user) :=
  existing ← user_by_email email;
  match existing with
  | Some _ => raise_domain EmailAlreadyRegisteredError []
  | None =>
      i ← fresh_id;
      let u := User email (Some (hash_password salt password)) display_name false true None "local" None [] in
      _ ← put Tusers i u;
      _ ← flush;
      _ ← identity_audit USER_REGISTERED i (Some [("email", JStr email)]);
      mret (i, u)
  end.

(** [claims.get(k) or ""] as text. *)
Definition claim_text (k : string) (claims : jobj) : string :=
  match jget k claims with
  | Some v => if truthy_json v then py_str str_of v else ""
  | None => ""
  end.

Definition or_else (a b : string) : string := if String.eqb a "" then b else a.

Definition signed_in (i : uuid) (u : user) (diff : option jobj) : M (uuid * user) :=
  t ← now;
  let u := u <| u_last_login_at := Some t |> in
  _ ← put Tusers i u;
  _ ← identity_audit USER_LOGIN_SUCCEEDED i diff;
  mret (i, u).

Definition link_or_create_oidc_user (provider : string) (claims : jobj) : M (uuid * user) :=
  let subject := claim_text "sub" claims in
  if String.eqb subject "" then raise_domain AuthenticationError []
  else
    let email := lower (strip (claim_text "email" claims)) in
    let display_name := or_else (claim_text "name" claims)
      (or_else (claim_text "preferred_username" claims) (or_else email subject)) in
    rows ← select Tusers (fun _ (u : user) =>
      String.eqb (u_identity_provider u) provider && bool_decide (u_provider_subject u = Some subject));
    by_subject ← scalar_one_or_none rows;
    match by_subject with
    | Some (i, u) =>
        if negb (u_is_active (u : user)) then raise_domain AuthenticationError []
        else signed_in i u (Some [("via", JStr provider)])
    | None =>
        by_email ← (if negb (String.eqb email "") && bool_decide (jget "email_verified" claims = Some (JBool true))
                    then user_by_email email else mret None);
        match by_email with
        | Some (i, u) =>
            if negb (u_is_active (u : user)) then raise_domain AuthenticationError []
            else
              r ← signed_in i (u <| u_identity_provider := provider |> <| u_provider_subject := Some subject |>)
                    (Some [("via", JStr provider); ("linked", JStr "verified_email")]);
              _ ← flush;
              mret r
        | None =>
            if String.eqb email "" then raise_domain AuthenticationError []
            else
              existing_local ← user_by_email email;
              match existing_local with
              | Some _ => raise_domain AuthenticationError [("reason", JStr "email_unverified")]
              | None =>
                  i ← fresh_id;
                  let u := User email None display_name false true None provider (Some subject) [] in
                  _ ← put Tusers i u;
                  _ ← flush;
                  _ ← identity_audit USER_REGISTERED i (Some [("via", JStr provider)]);
                  mret (i, u)
              end
        end
    end.

Definition upsert_oidc_user (email display_name provider_subject : string) : M (uuid * user) :=
  link_or_create_oidc_user "keycloak"
    [("sub", JStr provider_subject); ("email", JStr email); ("email_verified", JBool true); ("name", JStr display_name)].

(** ** Providers *)

(** A session of its own: committed when the body succeeds, abandoned when it
    raises.  The caller has no pending writes and sees what was committed. *)
Definition separate_session {A} (m : M A) : M A := fun w =>
  match m (w <| w_db := w_durable w |>) with
  | (Ok a, w1) => match commit w1 with (Ok _, w2) => (Ok a, w2) | (Err e, w2) => (Err e, w2) end
  | (Err e, w1) => (Err e, w1 <| w_db := w_db w |>)
  end.

(** [LocalIdentityProvider.verify_credentials]. *)
Definition local_verify_credentials (email password : string) : M (option uuid) :=
  found ← user_by_email email;
  mret (match found with
        | Some (i, u) =>
            match u_password_hash (u : user) with
            | Some h => if u_is_active u && verify_password password h then Some i else None
            | None => None
            end
        | None => None
        end).

(** [KeycloakOIDCProvider.verify_credentials]. *)
Definition keycloak_verify_credentials (email password : string) : M (option uuid) :=
  s ← get_settings;
  if negb (st_keycloak_allow_password_grant s) then mret None
  else match password_grant email password with
  | None => mret None
  | Some claims =>
      r ← separate_session (link_or_create_oidc_user "keycloak" claims);
      mret (if u_is_active r.2 then Some r.1 else None)
  end.

Definition verify_credentials (email password : string) : M (option uuid) :=
  s ← get_settings;
  if String.eqb (st_identity_provider s) "keycloak" then keycloak_verify_credentials email password
  else local_verify_credentials email password.

(** The nonce binds the id token to the login attempt. *)
Definition exchange_oidc_code (code verifier nonce : string) : M jobj :=
  s ← get_settings;
  if negb (String.eqb (st_identity_provider s) "keycloak") then raise_domain AuthenticationError []
  else match exchange_code code verifier with
  | None => raise_domain AuthenticationError []
  | Some claims =>
      if bool_decide (jget "nonce" claims = Some (JStr nonce)) then mret claims
      else raise_domain AuthenticationError []
  end.

Definition _login_via_password_grant (email password : string) : M (uuid * user) :=
  verified_id ← verify_credentials email password;
  match verified_id with
  | None => raise_domain InvalidCredentialsError []
  | Some i =>
      u ← session_get Tusers i;
      match (u : option user) with
      | Some u =>
          if negb (u_is_active u) then raise_domain InvalidCredentialsError []
          else signed_in i u (Some [("via", JStr "keycloak_password_grant")])
      | None => raise_domain InvalidCredentialsError []
      end
  end.

Definition sso_only (found : option (uuid * user)) : bool :=
  match found with
  | Some (_, u) => negb (String.eqb (u_identity_provider u) "local") && bool_decide (u_password_hash u = None)
  | None => false
  end.

Definition login (email password : string) : M (uuid * user) :=
  found ← user_by_email email;
  s ← get_settings;
  if String.eqb (st_identity_provider s) "keycloak" && st_keycloak_allow_password_grant s &&
     (bool_decide (found = None) || sso_only found)
  then _login_via_password_grant email password
  else match found with
  | None => raise_domain InvalidCredentialsError []
  | Some (i, u) =>
      if sso_only (Some (i, u))
      then raise_domain AuthenticationError
             [("sso_url", JStr "/v1/auth/oidc/start"); ("identity_provider", JStr (u_identity_provider (u : user)))]
      else match u_password_hash (u : user) with
      | None => raise_domain InvalidCredentialsError []
      | Some h =>
          if negb (u_is_active u) then raise_domain InvalidCredentialsError []
          else if negb (verify_password password h)
          then _ ← identity_audit USER_LOGIN_FAILED i (Some [("email", JStr email)]);
               raise_domain InvalidCredentialsError []
          else signed_in i u None
      end
  end.

Definition get_user (user_id : uuid) : M user :=
  u ← session_get Tusers user_id;
  match (u : option user) with Some u => mret u | None => raise_domain UserNotFoundError [] end.

(** ** Sessions *)

(** [refresh_token] is the text just generated. *)
Definition issue_tokens (refresh_token : string) (user_id : uuid) (u : user) (organization_id : option uuid)
    (user_agent ip : option string) : M token_pair :=
  s ← get_settings;
  t ← now;
  i ← fresh_id;
  _ ← put Trefresh_tokens i (RefreshToken user_id (sha256 refresh_token) organization_id
        (t + seconds (refresh_token_ttl_seconds s))%Z None None user_agent ip t);
  _ ← flush;
  access ← create_access_token user_id (u_email u) organization_id (u_is_platform_admin u);
  mret (TokenPair access refresh_token (access_token_ttl_seconds s)).

Definition token_row (token : string) : M (option (key Trefresh_tokens * row Trefresh_tokens)) :=
  rows ← select Trefresh_tokens (fun _ (r : refresh_token) => String.eqb (rt_token_hash r) (sha256 token));
  scalar_one_or_none rows.

Definition live_of (user_id : uuid) (_ : key Trefresh_tokens) (r : refresh_token) : bool :=
  bool_decide (rt_user_id r = user_id) && bool_decide (rt_revoked_at r = None).

Definition _revoke_chain (user_id : uuid) (from_token_id : option uuid) : M unit :=
  rows ← select Trefresh_tokens (live_of user_id);
  t ← now;
  for_each rows (fun r : key Trefresh_tokens * row Trefresh_tokens =>
    put Trefresh_tokens r.1 ((r.2 : refresh_token) <| rt_revoked_at := Some t |>)).

Definition within_grace (s : settings) (t : instant) (r : refresh_token) : bool :=
  bool_decide (rt_replaced_by_token_id r <> None) &&
  match rt_revoked_at r with
  | Some at_ => (t - at_ <=? seconds (st_refresh_reuse_grace_seconds s))%Z
  | None => false
  end.

(** [refresh]: [fresh] is the successor's text. *)
Definition refresh (fresh token : string) (user_agent ip : option string) : M (uuid * user * token_pair) :=
  s ← get_settings;
  found ← token_row token;
  match found with
  | None => raise_domain AuthenticationError []
  | Some (i, r) =>
      t ← now;
      if (rt_expires_at (r : refresh_token) <? t)%Z then raise_domain AuthenticationError []
      else if negb (bool_decide (rt_revoked_at r = None))
      then
        if within_grace s t r then raise_domain AuthenticationError []
        else
          _ ← _revoke_chain (rt_user_id r) (Some i);
          _ ← identity_audit USER_TOKEN_REUSE_DETECTED (rt_user_id r) None;
          _ ← commit;
          raise_domain TokenReuseError []
      else
        u ← session_get Tusers (rt_user_id r);
        match (u : option user) with
        | None => raise_domain AuthenticationError []
        | Some u =>
            if negb (u_is_active u) then raise_domain AuthenticationError []
            else
              pair ← issue_tokens fresh (rt_user_id r) u (rt_organization_id r) user_agent ip;
              rows ← select Trefresh_tokens (fun _ (x : refresh_token) =>
                String.eqb (rt_token_hash x) (sha256 (tp_refresh_token pair)));
              successor ← scalar_one rows;
              _ ← put Trefresh_tokens i
                    (r <| rt_revoked_at := Some t |> <| rt_replaced_by_token_id := Some successor.1 |>);
              _ ← identity_audit USER_TOKEN_REFRESHED (rt_user_id r) None;
              mret (rt_user_id r, u, pair)
        end
  end.

Definition logout (token : string) : M unit :=
  found ← token_row token;
  match found with
  | None => mret tt
  | Some (i, r) =>
      if bool_decide (rt_revoked_at (r : refresh_token) = None)
      then t ← now;
           _ ← put Trefresh_tokens i (r <| rt_revoked_at := Some t |>);
           identity_audit USER_LOGGED_OUT (rt_user_id r) None
      else mret tt
  end.

Definition set_active_org (user_id organization_id : uuid) : M user := get_user user_id.

(** ** Preferences *)

Definition update_preferences (user_id : uuid) (patch : jobj) : M user :=
  rows ← select Tusers (fun k _ => bool_decide (k = user_id));
  locked ← scalar_one rows;
  let merged := jupdate (u_preferences (locked.2 : row Tusers)) patch in
  match check_stored_preferences float_repr merged with
  | Err e => raise e
  | Ok _ =>
      let u := (locked.2 : user) <| u_preferences := merged |> in
      _ ← put Tusers user_id u;
      mret u
  end.

(** ** Password reset *)

Definition request_password_reset (token email : string) : M (option (uuid * string)) :=
  found ← user_by_email email;
  match found with
  | None => mret None
  | Some (i, _) =>
      t ← now;
      j ← fresh_id;
      _ ← put Tpassword_reset_tokens j
            (PasswordResetToken i (sha256 token) (t + MINUTE * RESET_TOKEN_TTL_MINUTES)%Z None t);
      _ ← identity_audit USER_PASSWORD_RESET_REQUESTED i None;
      mret (Some (i, token))
  end.

Definition usable_reset (token : string) (t : instant) (_ : key Tpassword_reset_tokens)
    (r : password_reset_token) : bool :=
  String.eqb (pr_token_hash r) (sha256 token) && bool_decide (pr_used_at r = None) && (t <=? pr_expires_at r)%Z.

Definition reset_password (salt token new_password : string) : M (uuid * user) :=
  t ← now;
  rows ← select Tpassword_reset_tokens (usable_reset token t);
  found ← scalar_one_or_none rows;
  match found with
  | None => raise_domain AuthenticationError []
  | Some (j, r) =>
      let i := pr_user_id (r : password_reset_token) in
      u ← session_get Tusers i;
      match (u : option user) with
      | None => raise_domain UserNotFoundError []
      | Some u =>
          let u := u <| u_password_hash := Some (hash_password salt new_password) |> in
          _ ← put Tusers i u;
          _ ← put Tpassword_reset_tokens j (r <| pr_used_at := Some t |>);
          _ ← _revoke_chain i None;
          _ ← identity_audit USER_PASSWORD_RESET_COMPLETED i None;
          mret (i, u)
      end
  end.

(** ** The principal of a request *)

(** [uuid.UUID(str(claim))]. *)
Definition uuid_of_claim (j : json) : option uuid :=
  match j with JUuid u => Some u | _ => uuid_of_str (py_str str_of j) end.

(** [meter_api_key_request]: in a savepoint, and whatever it raises is logged. *)
Definition meter_api_key_request (organization_id : uuid) : M unit :=
  try_catch (_ ← savepoint (record organization_id "api_requests" 1 None None []); mret tt)
    (fun _ => Some (mret tt)).

Definition key_organization (k : api_key) : M organization :=
  org ← session_get Torganizations (ak_organization_id k);
  match (org : option organization) with
  | Some o => if bool_decide (o_deleted_at o = None) && String.eqb (o_status o) "active" then mret o
              else raise_domain AuthenticationError []
  | None => raise_domain AuthenticationError []
  end.

Definition get_current_user (authorization : string) : M (uuid * user) :=
  if negb (starts_with BEARER authorization) then raise_domain AuthenticationError []
  else
    let token := str_drop (String.length BEARER) authorization in
    if starts_with KEY_PREFIX token
    then
      found ← verify sha256 token;
      match found with
      | None => raise_domain AuthenticationError []
      | Some (i, k) =>
          org ← key_organization k;
          _ ← bind_api_key_context i k org;
          _ ← meter_api_key_request (ak_organization_id k);
          stand_in ← fresh_id;
          mret (stand_in, User ("apikey:" +:+ ak_prefix k) None ("API key " +:+ ak_name k) false true None "local" None [])
      end
    else
      payload ← decode_access_token token;
      match jget "sub" payload with
      | None => raise_domain AuthenticationError []
      | Some sub =>
          if negb (truthy_json sub) then raise_domain AuthenticationError []
          else match uuid_of_claim sub with
          | None => raise_domain AuthenticationError []
          | Some i =>
              u ← session_get Tusers i;
              match (u : option user) with
              | None => raise_domain AuthenticationError []
              | Some u =>
                  if negb (u_is_active u) then raise_domain AuthenticationError []
                  else
                    _ ← set_user (UserContext i (u_email u) (u_is_platform_admin u) [] None None None);
                    mret (i, u)
              end
          end
      end.

Definition get_principal (authorization : string) : M principal :=
  if starts_with BEARER authorization && starts_with KEY_PREFIX (str_drop (String.length BEARER) authorization)
  then
    found ← try_api_key_auth sha256 authorization;
    match found with
    | None => raise_domain AuthenticationError []
    | Some (i, k) =>
        org ← key_organization k;
        _ ← bind_api_key_context i k org;
        mret (KeyPrincipal i)
    end
  else
    r ← get_current_user authorization;
    mret (UserPrincipal r.1 r.2).

(** ** Routes *)

Definition register_route (salt fresh email password display_name : string) : M (user * token_pair) :=
  match validate_password password with
  | None => raise (PyError "RequestValidationError")
  | Some password =>
      r ← register salt email password display_name;
      tokens ← issue_tokens fresh r.1 r.2 None None None;
      mret (r.2, tokens)
  end.

Definition login_route (fresh email password : string) (user_agent ip : option string) : M (user * token_pair) :=
  r ← login email password;
  tokens ← issue_tokens fresh r.1 r.2 None user_agent ip;
  mret (r.2, tokens).

Definition refresh_route (fresh : string) (body cookie user_agent ip : option string) : M token_pair :=
  let token := or_else (or_str body "") (or_str cookie "") in
  if String.eqb token "" then raise_domain AuthenticationError []
  else r ← refresh fresh token user_agent ip; mret r.2.

Definition _safe_return_to (raw : option string) : string :=
  let path := or_str raw "" in
  if starts_with "/" path && negb (starts_with "//" path) then path else "/dashboard".

(** [oidc_start]: what is kept under the state, for the callback. *)
Definition pending_login (verifier nonce : string) (return_to : option string) : jobj :=
  [("verifier", JStr verifier); ("nonce", JStr nonce); ("return_to", JStr (_safe_return_to return_to))].

Definition oidc_start (state verifier nonce : string) (return_to : option string) : M unit :=
  s ← get_settings;
  r ← with_cache (fun t b => set_latest _oidc_state t state (CJson (JObj (pending_login verifier nonce return_to))) b);
  _ ← value_error r;
  if String.eqb (st_identity_provider s) "keycloak" then mret tt else raise_domain AuthenticationError [].

Definition pending_text (k : string) (pending : jobj) : M string :=
  match jget k pending with Some (JStr s) => mret s | _ => raise (PyError "KeyError") end.

Definition oidc_callback (fresh : string) (code state error : option string) (user_agent ip : option string) :
    M (token_pair * string) :=
  if truthy_str error then raise_domain AuthenticationError []
  else if negb (truthy_str code && truthy_str state) then raise_domain AuthenticationError []
  else
    let state := or_str state "" in
    raw ← cache_get_versioned _oidc_state state;
    match raw.1 with
    | Some (CJson (JObj pending)) =>
        _ ← cache_bump _oidc_state state;
        verifier ← pending_text "verifier" pending;
        nonce ← pending_text "nonce" pending;
        claims ← exchange_oidc_code (or_str code "") verifier nonce;
        r ← link_or_create_oidc_user "keycloak" claims;
        tokens ← issue_tokens fresh r.1 r.2 None user_agent ip;
        return_to ← pending_text "return_to" pending;
        mret (tokens, return_to)
    | Some _ => raise (PyError "ValueError")
    | None => raise_domain AuthenticationError []
    end.

Definition logout_route (cookie : option string) : M unit :=
  if truthy_str cookie then logout (or_str cookie "") else mret tt.

Record org_summary : Type := OrgSummary {
  os_id : uuid;
  os_slug : string;
  os_name : string;
  os_role_keys : list string;
  os_permission_keys : list string
}.

Fixpoint summaries (d : db) (ms : list (key Tmemberships * row Tmemberships)) : option (list org_summary) :=
  match ms with
  | [] => Some []
  | (k, m) :: ms =>
      o ← (d Torganizations !! (mb_organization_id (m : membership) : key Torganizations) : option organization);
      rest ← summaries d ms;
      Some (OrgSummary (mb_organization_id m) (o_slug o) (o_name o) (sorted_str (role_keys_of d k))
              (sorted_str (mb_permission_keys m)) :: rest)
  end.

Definition _me_response (user_id : uuid) (u : user) : M (user * list org_summary) :=
  memberships ← for_user user_id;
  d ← read_db;
  match summaries d memberships with
  | Some orgs => mret (u, orgs)
  | None => raise (PyError "AttributeError")
  end.

Definition me (p : principal) : M (user * list org_summary) :=
  match p with
  | KeyPrincipal _ => raise_domain PermissionDeniedError []
  | UserPrincipal i u => _me_response i u
  end.

(** The body's patch is validated before the handler runs. *)
Definition update_me (p : principal) (preferences : option json) : M (user * list org_summary) :=
  patch ← match preferences with
    | None => mret None
    | Some value =>
        match validate_preferences_patch float_repr value with
        | Ok patch => mret (Some patch)
        | Err e => raise e
        end
    end;
  match p with
  | KeyPrincipal _ => raise_domain PermissionDeniedError []
  | UserPrincipal i u =>
      u ← match patch with Some patch => update_preferences i patch | None => mret u end;
      _me_response i u
  end.

Definition switch_org (fresh : string) (user_id : uuid) (u : user) (organization_id : uuid) : M token_pair :=
  m ← get_active organization_id user_id;
  match m with
  | None => raise_domain TenantNotResolvedError []
  | Some _ => issue_tokens fresh user_id u (Some organization_id) None None
  end.

Definition forgot_password (token email : string) : M unit :=
  reset ← request_password_reset token email;
  match reset with
  | None => mret tt
  | Some (i, token) =>
      append_outbox USER_PASSWORD_RESET_LINK "user" i [("email", JStr email); ("token", JStr token)] None
  end.

Definition reset_password_route (salt fresh token password : string) : M (user * token_pair) :=
  match validate_password password with
  | None => raise (PyError "RequestValidationError")
  | Some password =>
      r ← reset_password salt token password;
      tokens ← issue_tokens fresh r.1 r.2 None None None;
      mret (r.2, tokens)
  end.
End Service.

(** ** A refresh token is spent once *)

(** No live row answers to the token. *)
Definition dead (hash : string) (m : rows Trefresh_tokens) : Prop :=
  forall (k : key Trefresh_tokens) (r : row Trefresh_tokens),
    m !! k = Some r -> rt_token_hash r = hash -> rt_revoked_at r <> None.
Definition spent (hash : string) (w : world) : Prop :=
  dead hash (w_db w Trefresh_tokens) /\ dead hash (w_durable w Trefresh_tokens).
Definition stays_spent (hash : string) : relation world := fun w w' => spent hash w -> spent hash w'.

#[export] Instance stays_spent_restorable h : Restorable (stays_spent h).
Proof.
  unfold stays_spent. split; [split|]; [by intros w|intros w1 w2 w3; auto|].
  intros w w' H Hs. destruct (H Hs) as [_ H2]. by split; [apply Hs|].
Qed.

Section Spent.
Context (h : string).

Lemma spent_frame {A} (m : M A) :
  Stable (keeps Trefresh_tokens) m -> (forall w, w_durable (m w).2 = w_durable w) -> Stable (stays_spent h) m.
Proof. intros Hk Hd w [H1 H2]. unfold spent. by rewrite (keeps_eq _ m w Hk), Hd. Qed.

Lemma spent_put_token k (r : row Trefresh_tokens) :
  rt_token_hash r <> h \/ rt_revoked_at r <> None -> Stable (stays_spent h) (put Trefresh_tokens k r).
Proof.
  intros Hr w [H1 H2]. split; [|done]. change (w_db (put Trefresh_tokens k r w).2) with (w_db (put_w Trefresh_tokens k r w)).
  rewrite put_w_eq. intros j r' Hj Hh. apply (lookup_put Trefresh_tokens) in Hj as [[_ <-]|[_ Hj]]; [naive_solver|].
  by apply (H1 j).
Qed.
Lemma spent_put t k r : t <> Trefresh_tokens -> Stable (stays_spent h) (put t k r).
Proof. intros Ht. apply spent_frame; [by apply keeps_put|done]. Qed.
Lemma spent_fresh : Stable (stays_spent h) fresh_id.
Proof. by apply spent_frame. Qed.
Lemma spent_cache {A} (f : _ -> _ -> A * _) : Stable (stays_spent h) (with_cache f).
Proof. apply spent_frame; [apply keeps_cache|]. intros w. unfold with_cache. by destruct (f _ _). Qed.
Lemma spent_audit a b c d e f g : Stable (stays_spent h) (audit a b c d e f g).
Proof. apply spent_frame; [by apply keeps_audit|done]. Qed.
Lemma spent_commit : Stable (stays_spent h) commit.
Proof. intros w [H1 H2]. unfold commit, flush. by case_bool_decide. Qed.
Lemma spent_separate {A} (m : M A) : Stable (stays_spent h) m -> Stable (stays_spent h) (separate_session m).
Proof.
  intros Hm w [H1 H2]. unfold separate_session. specialize (Hm (w <| w_db := w_durable w |>)).
  destruct (m _) as [[a|e] w1]; cbn [snd] in Hm; destruct (Hm (conj H2 H2)) as [H3 H4].
  - unfold commit, flush. by case_bool_decide.
  - by split.
Qed.
Lemma spent_request {A} (m : M A) w : Stable (stays_spent h) m -> stays_spent h w (request m w).2.
Proof.
  intros Hm Hs. specialize (Hm w Hs). unfold request. destruct (m w) as [[a|e] w1]; cbn [snd] in Hm; destruct Hm as [H1 H2].
  - unfold commit, flush. case_bool_decide; [|by split]. cbn [snd].
    set (w2 := w1 <| w_durable := _ |>). destruct (data_flush_bumps w2) as [E1 E2].
    unfold spent. rewrite E1, E2. by split.
  - by split.
Qed.
End Spent.

#[export] Hint Resolve spent_fresh spent_cache spent_audit spent_commit : stable.
#[export] Hint Extern 1 (Stable (stays_spent _) (put _ _ _)) => apply spent_put; discriminate : stable.
#[export] Hint Extern 1 (Stable (stays_spent _) (put Trefresh_tokens _ _)) => apply spent_put_token; by right : stable.

Section SingleUse.
Context (sha256 : string -> string).
Context (hash_password : string -> string -> string) (verify_password : string -> string -> bool).
Context (secret_key : string) `{JwtLibrary} `{EntitlementReader}.
Context (str_of : json -> string) (float_repr : float -> string).
Context (password_grant exchange_code : string -> string -> option jobj).
Context (h : string).

Lemma spent_issue fresh i u o ua ip : sha256 fresh <> h -> Stable (stays_spent h) (issue_tokens sha256 secret_key fresh i u o ua ip).
Proof.
  intros Hf. unfold issue_tokens, create_access_token. solve_stable. apply spent_put_token. by left.
Qed.

Lemma spent_revoke i f : Stable (stays_spent h) (_revoke_chain i f).
Proof. unfold _revoke_chain. solve_stable. Qed.

Lemma spent_refresh fresh token ua ip : sha256 fresh <> h -> Stable (stays_spent h) (refresh sha256 secret_key fresh token ua ip).
Proof.
  intros Hf. unfold refresh, token_row, identity_audit. solve_stable; by first [apply spent_revoke|apply spent_issue].
Qed.

Lemma spent_link provider claims : Stable (stays_spent h) (link_or_create_oidc_user str_of provider claims).
Proof. unfold link_or_create_oidc_user, signed_in, user_by_email, identity_audit. solve_stable. Qed.

Lemma spent_login email password : Stable (stays_spent h) (login verify_password str_of password_grant email password).
Proof.
  unfold login, _login_via_password_grant, verify_credentials, keycloak_verify_credentials,
    local_verify_credentials, signed_in, user_by_email, identity_audit.
  solve_stable; apply spent_separate, spent_link.
Qed.

Lemma issue_run fresh i u o ua ip w pair w' :
  issue_tokens sha256 secret_key fresh i u o ua ip w = (Ok pair, w') ->
  exists r : row Trefresh_tokens,
    rt_token_hash r = sha256 fresh /\ rt_user_id r = i /\ rt_organization_id r = o /\ rt_revoked_at r = None /\
    rt_expires_at r = (w_clock w + seconds (refresh_token_ttl_seconds (w_settings w)))%Z /\
    tp_refresh_token pair = fresh /\
    w' = put_w Trefresh_tokens (w_fresh w) r (w <| w_fresh := N.succ (w_fresh w) |>) /\ constraints_ok (w_db w').
Proof.
  unfold issue_tokens, create_access_token. run. intros [Hc H']%flush_ok. revert H'. run. intros [= <- <-].
  eexists. split_and!; [..|done|done]; done.
Qed.

(** What a successful rotation does. *)
Lemma refresh_run fresh token ua ip w i u pair w' :
  refresh sha256 secret_key fresh token ua ip w = (Ok (i, u, pair), w') ->
  exists (k s : key Trefresh_tokens) (r n : row Trefresh_tokens),
    w_db w Trefresh_tokens !! k = Some r /\ rt_token_hash r = sha256 token /\ rt_revoked_at r = None /\
    (w_clock w <= rt_expires_at r)%Z /\ rt_user_id r = i /\
    w_db w Tusers !! (i : key Tusers) = Some (u : row Tusers) /\ u_is_active u = true /\
    (forall (j : key Trefresh_tokens) (r' : row Trefresh_tokens),
       w_db w Trefresh_tokens !! j = Some r' -> rt_token_hash r' = sha256 token -> j = k) /\
    tp_refresh_token pair = fresh /\ rt_token_hash n = sha256 fresh /\ rt_user_id n = i /\
    rt_organization_id n = rt_organization_id r /\ rt_revoked_at n = None /\
    table_ok Trefresh_tokens (<[(w_fresh w : key Trefresh_tokens) := n]> (w_db w Trefresh_tokens)) /\
    w_db w' Trefresh_tokens =
      <[k := (r <| rt_revoked_at := Some (w_clock w) |> <| rt_replaced_by_token_id := Some s |> : row Trefresh_tokens)]>
        (<[(w_fresh w : key Trefresh_tokens) := n]> (w_db w Trefresh_tokens)) /\
    w_durable w' = w_durable w.
Proof.
  unfold refresh, token_row. run. intros H'. apply bind_ok in H' as (found & w0 & Hf & H').
  apply scalar_ok in Hf as [-> [[-> _]|([k r] & -> & Er)]]; [done|].
  apply (found_only Trefresh_tokens) in Er as (Hk & Hh & Hu). apply String.eqb_eq in Hh. revert H'. run. destruct (Z.ltb_spec (rt_expires_at r) (w_clock w)); [done|].
  case_bool_decide as Hr; simpl; [|case_match; [done|]; intros H'; exfalso; do 3 (apply bind_ok in H' as (? & ? & _ & H')); done].
  run. destruct (w_db w Tusers !! _) as [u0|] eqn:Eu; [|done]. destruct (u_is_active u0) eqn:Ea; [|done]. simpl.
  intros H'. apply bind_ok in H' as (pair' & w1 & Hi & H').
  apply issue_run in Hi as (n & Hn1 & Hn2 & Hn3 & Hn4 & _ & Hn5 & -> & Hc).
  apply bind_ok in H' as (rows & ? & [= <- <-] & H'). apply bind_ok in H' as (succ & ? & [-> _]%scalar_one_ok & H').
  apply bind_ok in H' as ([] & w2 & [= <-] & H'). apply bind_ok in H' as ([] & w3 & Ha & [= <- <- <- <-]).
  apply constraints_ok_table with (t := Trefresh_tokens) in Hc. rewrite put_w_eq in Hc.
  exists k, succ.1, r, n. split_and!; try done.
  - intros j r' Hj Hh'. apply (Hu j r' Hj). by apply String.eqb_eq.
  - rewrite (kept Trefresh_tokens _ _ _ _ (keeps_audit Trefresh_tokens _ _ _ _ _ _ _ ltac:(discriminate)) Ha).
    etrans; [exact (set_table_eq _ Trefresh_tokens _)|]. done.
  - injection Ha as <-. done.
Qed.

(** A spent token is refused, whatever else the tables hold. *)
Lemma spent_refused fresh token ua ip w x w' :
  dead (sha256 token) (w_db w Trefresh_tokens) -> refresh sha256 secret_key fresh token ua ip w <> (Ok x, w').
Proof.
  intros Hd. destruct x as [[i u] pair]. intros H'.
  apply refresh_run in H' as (k & s & r & n & Hk & Hh & Hr & _). by apply (Hd k r Hk Hh).
Qed.

(** A rotation spends the token it was given. *)
Lemma refresh_spends fresh token ua ip w i u pair w' :
  refresh sha256 secret_key fresh token ua ip w = (Ok (i, u, pair), w') ->
  dead (sha256 token) (w_db w' Trefresh_tokens).
Proof.
  intros H'. apply refresh_run in H' as (k & s & r & n & Hk & Hh & Hr & _ & _ & _ & _ & Hu & _ & Hn & _ & _ & _ & Hc & -> & _).
  intros j r' Hj Hj'. apply (lookup_put Trefresh_tokens) in Hj as [[_ <-]|[Hne Hj]]; [done|].
  apply (lookup_put Trefresh_tokens) in Hj as [[<- <-]|[Hne' Hj]].
  - exfalso. apply Hne. apply (unique_on_lookup Trefresh_tokens
      (fun r : refresh_token => Some (rt_token_hash r)) _ k (w_fresh w) r n (sha256 token) Hc).
    + apply (put_other Trefresh_tokens); [by apply not_eq_sym|exact Hk].
    + apply (put_same Trefresh_tokens).
    + by rewrite Hh.
    + by rewrite Hj'.
  - exfalso. apply Hne. symmetry. by apply (Hu j r').
Qed.

(** What later requests may do: any of the routes that touch sessions, with
    random tokens that do not digest to [h], any request that leaves the
    sessions alone, and time passing. *)
Inductive session_op : relation world :=
  | op_register salt fresh email pw name w : sha256 fresh <> h ->
      session_op w (request (register_route sha256 hash_password secret_key salt fresh email pw name) w).2
  | op_login fresh email pw ua ip w : sha256 fresh <> h ->
      session_op w (request (login_route sha256 verify_password secret_key str_of password_grant fresh email pw ua ip) w).2
  | op_refresh fresh body cookie ua ip w : sha256 fresh <> h ->
      session_op w (request (refresh_route sha256 secret_key fresh body cookie ua ip) w).2
  | op_callback fresh code state err ua ip w : sha256 fresh <> h ->
      session_op w (request (oidc_callback sha256 secret_key str_of exchange_code fresh code state err ua ip) w).2
  | op_logout cookie w : session_op w (request (logout_route sha256 cookie) w).2
  | op_switch fresh i u o w : sha256 fresh <> h ->
      session_op w (request (switch_org sha256 secret_key fresh i u o) w).2
  | op_reset salt fresh token pw w : sha256 fresh <> h ->
      session_op w (request (reset_password_route sha256 hash_password secret_key salt fresh token pw) w).2
  | op_other {A} (m : M A) w : Stable (keeps Trefresh_tokens) m -> (forall w, w_durable (m w).2 = w_durable w) ->
      session_op w (request m w).2
  | op_elapse t w : session_op w (w <| w_clock := t |>).

Lemma session_op_spent w w' : session_op w w' -> stays_spent h w w'.
Proof.
  destruct 1 as [salt fresh email pw name w Hf|fresh email pw ua ip w Hf|fresh body cookie ua ip w Hf
    |fresh code state err ua ip w Hf|cookie w|fresh i u o w Hf|salt fresh token pw w Hf|A m w Hk Hd|t w];
    [..|exact (fun H => H)]; apply spent_request.
  - unfold register_route, register, user_by_email, identity_audit. solve_stable. by apply spent_issue.
  - unfold login_route. solve_stable; [apply spent_login|by apply spent_issue].
  - unfold refresh_route. solve_stable. by apply spent_refresh.
  - unfold oidc_callback, cache_get_versioned, pending_text, exchange_oidc_code, cache_bump.
    solve_stable; first [apply spent_link|by apply spent_issue].
  - unfold logout_route, logout, token_row, identity_audit. solve_stable.
  - unfold switch_org, get_active. solve_stable. by apply spent_issue.
  - unfold reset_password_route, reset_password, identity_audit. solve_stable; first [apply spent_revoke|by apply spent_issue].
  - by apply spent_frame.
Qed.
End SingleUse.

(** ** Revoking every session of a user *)

(** Rewriting a list of rows in place. *)
Lemma for_each_put t (g : row t -> row t) (l : list (key t * row t)) : forall w, NoDup l.*1 ->
  exists w1, for_each l (fun r => put t r.1 (g r.2)) w = (Ok tt, w1) /\
    (forall t', t' <> t -> w_db w1 t' = w_db w t') /\ w_durable w1 = w_durable w /\ w_clock w1 = w_clock w /\
    (forall j r', w_db w1 t !! j = Some r' <->
       (exists r0, (j, r0) ∈ l /\ r' = g r0) \/ (not (j ∈ l.*1) /\ w_db w t !! j = Some r')).
Proof.
  induction l as [|[k r] l IH]; intros w Hn.
  - exists w. split_and!; [done..|]. intros j r'. split; [intros Hj; right; split; [apply not_elem_of_nil|done]|].
    intros [(r0 & Hin & _)|[_ Hj]]; [by apply not_elem_of_nil in Hin|done].
  - csimpl in *. apply NoDup_cons in Hn as [Hk Hn].
    destruct (IH (put_w t k (g r) w) Hn) as (w1 & E & Hf & Hd & Hc & Hl). exists w1. split_and!.
    + exact E.
    + intros t' Ht. rewrite Hf by done. by rewrite put_w_ne by done.
    + done.
    + done.
    + intros j r'. rewrite Hl, put_w_eq, elem_of_cons. setoid_rewrite elem_of_cons. split.
      * intros [(r0 & Hin & ->)|[Hj Hr]]; [left; eauto|].
        apply lookup_put in Hr as [[<- <-]|[Hne Hr]]; [left; eauto|right]. split; [|done]. intros [->|?]; done.
      * intros [(r0 & [[= -> ->]|Hin] & ->)|[Hj Hr]]; [|left; eauto|].
        -- destruct (decide (k ∈ l.*1)); [done|]. right. split; [done|]. apply put_same.
        -- right. split; [tauto|]. apply put_other; [|done]. intros ->. tauto.
Qed.

Definition revoked_at (t : instant) (r : refresh_token) : refresh_token := r <| rt_revoked_at := Some t |>.

Lemma revoke_run i f w : exists w1, _revoke_chain i f w = (Ok tt, w1) /\
  (forall t, t <> Trefresh_tokens -> w_db w1 t = w_db w t) /\ w_durable w1 = w_durable w /\
  forall (j : key Trefresh_tokens) (r' : row Trefresh_tokens), w_db w1 Trefresh_tokens !! j = Some r' <->
    exists r0 : row Trefresh_tokens, w_db w Trefresh_tokens !! j = Some r0 /\
      r' = (if live_of i j r0 then revoked_at (w_clock w) r0 else r0).
Proof.
  unfold _revoke_chain. run.
  set (l := rows_where Trefresh_tokens (live_of i) (w_db w Trefresh_tokens)).
  destruct (for_each_put Trefresh_tokens (revoked_at (w_clock w)) l w) as (w1 & E & Hf & Hd & _ & Hl);
    [apply NoDup_fst_rows_where|].
  exists w1. split_and!; [exact E|done|done|]. intros j r'. rewrite Hl.
  assert (Hin : forall r0, (j, r0) ∈ l <-> w_db w Trefresh_tokens !! j = Some r0 /\ live_of i j r0 = true)
    by (intros r0; apply (elem_of_rows_where Trefresh_tokens)).
  split.
  - intros [(r0 & Hr0 & ->)|[Hj Hr]].
    + apply Hin in Hr0 as [Hr0 Hlv]. exists r0. by rewrite Hlv.
    + exists r'. split; [done|]. destruct (live_of i j r') eqn:Hlv; [|done]. exfalso. apply Hj.
      apply list_elem_of_fmap. exists (j, r'). split; [done|]. by apply Hin.
  - intros (r0 & Hr0 & ->). destruct (live_of i j r0) eqn:Hlv.
    + left. exists r0. split; [by apply Hin|done].
    + right. split; [|done]. intros Hj. apply list_elem_of_fmap in Hj as ([j' r1] & -> & Hj). csimpl in *.
      apply Hin in Hj as [Hj Hlv']. same_row. congruence.
Qed.

Lemma revoke_constraints i f w w1 :
  _revoke_chain i f w = (Ok tt, w1) -> constraints_ok (w_db w) -> constraints_ok (w_db w1).
Proof.
  destruct (revoke_run i f w) as (w2 & E & Hf & _ & Hl). rewrite E. intros [= <-]. rewrite !constraints_ok_table.
  intros Hok t. destruct (decide (t = Trefresh_tokens)) as [->|Ht]; [|rewrite Hf by done; apply Hok].
  intros j r Hj j' r' Hj' _ Hh. apply Hl in Hj as (r0 & Hr0 & Er), Hj' as (r1 & Hr1 & Er').
  apply (unique_on_lookup Trefresh_tokens (fun r : refresh_token => Some (rt_token_hash r)) _ _ _ _ _ (rt_token_hash r0)
    (Hok Trefresh_tokens) Hr0 Hr1); [done|].
  subst r r'. destruct (live_of i j r0), (live_of i j' r1); simpl in Hh; congruence.
Qed.

(** ** Signing a user in *)

Lemma signed_in_run i (u : row Tusers) d w i' u' w' : signed_in i u d w = (Ok (i', u'), w') ->
  i' = i /\ u' = u <| u_last_login_at := Some (w_clock w) |> /\
  w_db w' Tusers = <[(i : key Tusers) := (u' : row Tusers)]> (w_db w Tusers).
Proof.
  unfold signed_in, identity_audit. run. intros H'. apply bind_ok in H' as ([] & w1 & Ha & [= <- <- <-]).
  split_and!; [done..|].
  rewrite (kept Tusers _ _ _ _ (keeps_audit Tusers _ _ _ _ _ _ _ ltac:(discriminate)) Ha). apply put_w_eq.
Qed.

Lemma signed_in_ok (k : key Tusers) (u : row Tusers) d w :
  constraints_ok (w_db w) -> w_db w Tusers !! k = Some u ->
  exists w1, signed_in k u d w = (Ok (k, u <| u_last_login_at := Some (w_clock w) |>), w1) /\ constraints_ok (w_db w1).
Proof.
  intros Hok Hk. unfold signed_in, identity_audit. run. rewrite run_total by apply _. eexists. split; [reflexivity|].
  apply constraints_audit, constraints_put; [done|].
  apply (unique_on_update Tusers (fun x : user => Some (citext (u_email x))) (w_db w Tusers) k _ u); [|done|by right].
  exact (proj1 (constraints_ok_table _) Hok Tusers).
Qed.

Lemma users_put_other w w' (k : key Tusers) (u : row Tusers) (j : key Tusers) (u1 : row Tusers) :
  w_db w' Tusers = <[k := u]> (w_db w Tusers) -> j <> k -> w_db w' Tusers !! j = Some u1 <-> w_db w Tusers !! j = Some u1.
Proof.
  intros -> Hj. split.
  - intros H. by apply (lookup_put Tusers) in H as [[-> _]|[_ H]].
  - intros H. apply (put_other Tusers); [congruence|done].
Qed.

Lemma user_by_email_ok email w found w' : user_by_email email w = (Ok found, w') -> w' = w /\
  match found with
  | Some (k, u) => w_db w Tusers !! k = Some u /\ citext (u_email u) = citext email
  | None => forall (k : key Tusers) (u : row Tusers), w_db w Tusers !! k = Some u -> citext (u_email u) <> citext email
  end.
Proof.
  unfold user_by_email. run. intros [-> [[-> En]|([k u] & -> & Er)]]%scalar_ok; split; try done.
  - intros k u Hk He. apply (rows_where_nil Tusers) with (k := k) (r := u) in En; [|done].
    by rewrite He, String.eqb_refl in En.
  - apply (found_only Tusers) in Er as (Hk & Hp & _). split; [done|]. by apply String.eqb_eq in Hp.
Qed.

Lemma user_by_email_run email w : constraints_ok (w_db w) -> exists found, user_by_email email w = (Ok found, w) /\
  match found with
  | Some (k, u) => w_db w Tusers !! k = Some u /\ citext (u_email u) = citext email /\
      forall (j : key Tusers) (r : row Tusers), w_db w Tusers !! j = Some r -> citext (u_email r) = citext email -> j = k
  | None => forall (k : key Tusers) (u : row Tusers), w_db w Tusers !! k = Some u -> citext (u_email u) <> citext email
  end.
Proof.
  intros Hok. apply constraints_ok_table with (t := Tusers) in Hok.
  set (P := fun (_ : key Tusers) (u : row Tusers) => String.eqb (citext (u_email u)) (citext email)).
  assert (HP : forall (j : key Tusers) (r : row Tusers), w_db w Tusers !! j = Some r -> P j r = true ->
    Some (citext (u_email r)) = Some (citext email)) by (intros j r _ E; by apply String.eqb_eq in E as ->).
  destruct (rows_where_unique Tusers _ P (citext email) _ Hok HP) as [E|(j & r & E & Hj & Hr)].
  - exists None. split; [transitivity (scalar_one_or_none (rows_where Tusers P (w_db w Tusers)) w); [done|by rewrite E]|]. intros k u Hk He.
    rewrite (rows_where_nil Tusers) in E. specialize (E k u Hk). unfold P in E. by rewrite He, String.eqb_refl in E.
  - exists (Some (j, r)). split; [transitivity (scalar_one_or_none (rows_where Tusers P (w_db w Tusers)) w); [done|by rewrite E]|]. split_and!; [done| |].
    + by apply String.eqb_eq in Hr.
    + intros k u Hk He. apply (found_only Tusers) in E as (_ & _ & Hu). apply (Hu k u Hk). by apply String.eqb_eq.
Qed.

(** The account a password opens. *)
Definition credentials_match (verify_password : string -> string -> bool) (email password : string) (d : db)
    (i : uuid) (u : user) : Prop :=
  d Tusers !! (i : key Tusers) = Some (u : row Tusers) /\ citext (u_email u) = citext email /\ u_is_active u = true /\
  exists h, u_password_hash u = Some h /\ verify_password password h = true.

Section SignOn.
Context (str_of : json -> string).

(** Single sign-on never takes over a local account on the provider's word
    alone: the user it returns is active, is bound to the provider's subject
    afterwards, and was already bound to it, or held the email the provider
    vouches for, or did not exist. *)
Theorem oidc_never_takes_over provider claims w i u w' :
  w_db w Tusers !! (w_fresh w : key Tusers) = None ->
  link_or_create_oidc_user str_of provider claims w = (Ok (i, u), w') ->
  let subject := claim_text str_of "sub" claims in
  let email := lower (strip (claim_text str_of "email" claims)) in
  subject <> "" /\ u_is_active u = true /\ u_identity_provider u = provider /\ u_provider_subject u = Some subject /\
  match w_db w Tusers !! (i : key Tusers) with
  | Some u0 =>
      (u_identity_provider u0 = provider /\ u_provider_subject u0 = Some subject) \/
      (citext (u_email u0) = citext email /\ email <> "" /\ jget "email_verified" claims = Some (JBool true))
  | None => u_email u = email /\ u_password_hash u = None /\ u_is_platform_admin u = false
  end /\
  (forall (j : key Tusers) (u1 : row Tusers), j <> i -> w_db w' Tusers !! j = Some u1 <-> w_db w Tusers !! j = Some u1).
Proof.
  intros Hfresh. unfold link_or_create_oidc_user. destruct (String.eqb_spec (claim_text str_of "sub" claims) "") as [|Hs]; [done|].
  set (email := lower _). run. intros H'.
  apply bind_ok in H' as (found & ? & [-> [[-> _]|([k u0] & -> & Er)]]%scalar_ok & H').
  2: { apply (found_only Tusers) in Er as (Hk & Hp & _). apply andb_true_iff in Hp as [Hp1 Hp2].
    apply String.eqb_eq in Hp1. apply bool_decide_eq_true in Hp2. destruct (u_is_active u0) eqn:Ea; [|done].
    apply signed_in_run in H' as (-> & -> & Ht). split_and!; try done.
    - rewrite_row Hk. by left.
    - intros j u1 Hj. exact (users_put_other w w' k _ j u1 Ht Hj). }
  apply bind_ok in H' as (by_email & ? & Hb & H').
  assert (Hb' : x = w /\ match by_email with
    | Some (k, u0) => w_db w Tusers !! k = Some u0 /\ citext (u_email u0) = citext email /\ email <> "" /\
        jget "email_verified" claims = Some (JBool true)
    | None => True end).
  { destruct (String.eqb_spec email "") as [|He]; [by injection Hb as <- <-|]. case_bool_decide as Hv; [|by injection Hb as <- <-].
    by apply user_by_email_ok in Hb as [-> Hb]; destruct by_email as [[k u0]|]; naive_solver. }
  destruct Hb' as [-> Hb']. clear Hb. destruct by_email as [[k u0]|].
  - destruct Hb' as (Hk & Hc & He & Hv). destruct (u_is_active u0) eqn:Ea; [|done].
    apply bind_ok in H' as ([i' u'] & w1 & H1 & H'). apply signed_in_run in H1 as (-> & -> & Ht).
    apply flush_ok in H' as [_ H']. injection H' as <- <- <-. split_and!; try done.
    + rewrite_row Hk. by right.
    + intros j u1 Hj. exact (users_put_other w w1 k _ j u1 Ht Hj).
  - destruct (String.eqb_spec email "") as [|He]; [done|].
    apply bind_ok in H' as (local & ? & [-> Hl]%user_by_email_ok & H'). destruct local; [done|]. revert H'. run.
    intros [_ H']%flush_ok. unfold identity_audit in H'. apply bind_ok in H' as ([] & w1 & Ha & [= <- <- <-]).
    split_and!; try done.
    + by rewrite_row Hfresh.
    + intros j u1 Hj.
      pose proof (kept Tusers _ _ _ _ (keeps_audit Tusers _ _ _ _ _ _ _ ltac:(discriminate)) Ha) as Ht.
      rewrite put_w_eq in Ht. exact (users_put_other w w1 _ _ j u1 Ht Hj).
Qed.
End SignOn.

Section PasswordLogin.
Context (verify_password : string -> string -> bool) (str_of : json -> string).
Context (password_grant : string -> string -> option jobj).

(** A password signs in exactly the active account that holds the email and
    a matching password; an unknown email, an inactive account and a wrong
    password get one and the same answer, and no failed attempt leaves a trace
    in the committed tables. *)
Theorem login_decides email password w :
  constraints_ok (w_db w) -> st_identity_provider (w_settings w) <> "keycloak" ->
  let attempt := request (login verify_password str_of password_grant email password) w in
  (forall i u, attempt.1 = Ok (i, u) <-> exists u0 : row Tusers,
     credentials_match verify_password email password (w_db w) i u0 /\ u = u0 <| u_last_login_at := Some (w_clock w) |>) /\
  forall e, attempt.1 = Err e ->
    (e = Domain InvalidCredentialsError [] \/ exists (k : key Tusers) (u0 : row Tusers),
       w_db w Tusers !! k = Some u0 /\ citext (u_email u0) = citext email /\ sso_only (Some (k, u0)) = true) /\
    w_durable attempt.2 = w_durable w /\ w_db attempt.2 = w_durable w.
Proof.
  intros Hok Hk attempt.
  destruct (user_by_email_run email w Hok) as (found & Ef & Hf).
  assert (El : login verify_password str_of password_grant email password w =
    match found with
    | Some (k, u0) =>
        if sso_only (Some (k, u0)) then raise_domain AuthenticationError
          [("sso_url", JStr "/v1/auth/oidc/start"); ("identity_provider", JStr (u_identity_provider (u0 : user)))] w
        else match u_password_hash (u0 : user) with
        | Some h0 => if negb (u_is_active u0) then raise_domain InvalidCredentialsError [] w
                     else if negb (verify_password password h0)
                     then raise_domain InvalidCredentialsError []
                            (identity_audit USER_LOGIN_FAILED k (Some [("email", JStr email)]) w).2
                     else signed_in k u0 None w
        | None => raise_domain InvalidCredentialsError [] w
        end
    | None => raise_domain InvalidCredentialsError [] w
    end).
  { unfold login. rewrite (run_ok _ _ _ _ _ Ef). run. rewrite (proj2 (String.eqb_neq _ _)) by done.
    cbn [andb]. destruct found as [[k u0]|]; [|done]. unfold sso_only.
    destruct (negb (String.eqb (u_identity_provider u0) "local") && bool_decide (u_password_hash u0 = None)); [done|].
    destruct (u_password_hash u0) as [h0|]; [|done]. destruct (u_is_active u0); [|done]. cbn [negb].
    destruct (verify_password password h0); [done|]. cbn [negb]. unfold identity_audit. by rewrite run_total by apply _. }
  unfold attempt, request. rewrite El. destruct found as [[k u0]|].
  2: { split; [|naive_solver]. intros i u. split; [done|]. intros (u1 & (Hi & He & _) & _). by destruct (Hf i u1). }
  destruct Hf as (Hj & He & Hu).
  assert (Hm : forall i u1, credentials_match verify_password email password (w_db w) i u1 -> i = k /\ u1 = u0).
  { intros i u1 (Hi & He' & _). assert (i = k) as -> by (by apply (Hu i u1)). by same_row. }
  destruct (sso_only (Some (k, u0))) eqn:Es.
  { split; [|simpl; intros e [= <-]; split; [right; eauto|done]]. intros i u. split; [done|].
    intros (u1 & Hc & _). destruct (Hm i u1 Hc) as [-> ->]. destruct Hc as (_ & _ & _ & h0 & Hh & _).
    revert Es. simpl. rewrite Hh, bool_decide_eq_false_2 by done. by rewrite andb_false_r. }
  destruct (u_password_hash u0) as [h0|] eqn:Eh.
  2: { split; [|simpl; intros e [= <-]; split; [by left|done]]. intros i u. split; [done|].
    intros (u1 & Hc & _). destruct (Hm i u1 Hc) as [-> ->]. by destruct Hc as (_ & _ & _ & h0 & Hh & _); congruence. }
  destruct (u_is_active u0) eqn:Ea; cbn [negb].
  2: { split; [|intros e [= <-]; split; [by left|done]]. intros i u. split; [done|].
    intros (u1 & Hc & _). destruct (Hm i u1 Hc) as [-> ->]. destruct Hc as (_ & _ & Ha & _). congruence. }
  destruct (verify_password password h0) eqn:Ev; cbn [negb].
  2: { split; [|intros e [= <-]; split; [by left|done]]. intros i u. split; [done|].
    intros (u1 & Hc & _). destruct (Hm i u1 Hc) as [-> ->]. destruct Hc as (_ & _ & _ & h1 & Hh & Hv). congruence. }
  destruct (signed_in_ok k u0 None w Hok Hj) as (w1 & -> & Hok1).
  unfold commit, flush. rewrite bool_decide_eq_true_2 by done. split; [|done].
  intros i u. cbn [fst]. split.
  - intros [= <- <-]. exists u0. split; [|done]. split_and!; [done..|]. by exists h0.
  - intros (u1 & Hc & ->). by destruct (Hm i u1 Hc) as [-> ->].
Qed.
End PasswordLogin.

Section Theorems.
Context (sha256 : string -> string).
Context (hash_password : string -> string -> string) (verify_password : string -> string -> bool).
Context (secret_key : string) `{JwtLibrary} `{EntitlementReader}.
Context (str_of : json -> string) (float_repr : float -> string).
Context (password_grant exchange_code : string -> string -> option jobj).

(** C11: a refresh token buys one successor: after a request that rotated it, no
    later request can rotate it again, whatever sessions were opened, rotated,
    closed or revoked in between (random tokens aside that digest to it). *)
Theorem refresh_token_single_use fresh token ua ip w x w1 w2 fresh' ua' ip' :
  request (refresh sha256 secret_key fresh token ua ip) w = (Ok x, w1) ->
  rtc (session_op sha256 hash_password verify_password secret_key str_of password_grant exchange_code (sha256 token)) w1 w2 ->
  forall y, (request (refresh sha256 secret_key fresh' token ua' ip') w2).1 <> Ok y.
Proof.
  intros H1 Hops y. apply request_ok in H1 as (w0 & H1 & Hdb & Hdu). destruct x as [[i u] pair].
  apply refresh_spends in H1. rewrite <- Hdb in H1.
  assert (Hs : spent (sha256 token) w1) by (split; [done|]; by rewrite Hdu, <- Hdb).
  assert (Hs2 : spent (sha256 token) w2).
  { clear -Hops Hs. induction Hops as [|w1 w2 w3 Hop _ IH]; [done|]. apply IH. revert Hs. by apply (session_op_spent sha256 hash_password verify_password secret_key str_of password_grant exchange_code (sha256 token)). }
  intros Hy. apply ran in Hy. apply request_ok in Hy as (w3 & Hy & _). by apply spent_refused in Hy; [|apply Hs2].
Qed.

(** Presenting a token that was rotated or revoked, outside the grace window,
    is answered as theft: every session of that user is revoked and stays
    revoked although the request fails, and no other user's sessions change. *)
Theorem reuse_revokes_sessions fresh token ua ip w (k : key Trefresh_tokens) (r : row Trefresh_tokens) :
  constraints_ok (w_db w) -> w_db w Trefresh_tokens !! k = Some r -> rt_token_hash r = sha256 token ->
  (w_clock w <= rt_expires_at r)%Z -> rt_revoked_at r <> None -> within_grace (w_settings w) (w_clock w) r = false ->
  let w' := (request (refresh sha256 secret_key fresh token ua ip) w).2 in
  (request (refresh sha256 secret_key fresh token ua ip) w).1 = Err (Domain TokenReuseError []) /\
  forall (j : key Trefresh_tokens) (r' : row Trefresh_tokens), w_durable w' Trefresh_tokens !! j = Some r' ->
    (rt_user_id r' = rt_user_id r -> rt_revoked_at r' <> None) /\
    (rt_user_id r' <> rt_user_id r -> w_db w Trefresh_tokens !! j = Some r').
Proof.
  intros Hok Hk Hh He Hr Hg. unfold request, refresh, token_row. run.
  rewrite (rows_where_singleton Trefresh_tokens (fun r : refresh_token => Some (rt_token_hash r)) _ (sha256 token) _ k r).
  2: { by apply constraints_ok_table with (t := Trefresh_tokens) in Hok. }
  2: { intros j r' _ Hp. by apply String.eqb_eq in Hp as ->. }
  2: done.
  2: by apply String.eqb_eq.
  run. rewrite (proj2 (Z.ltb_ge _ _)) by done. rewrite bool_decide_eq_false_2 by done. simpl. rewrite Hg.
  destruct (revoke_run (rt_user_id r) (Some k) w) as (w1 & E & Hf & _ & Hl).
  rewrite (run_ok _ _ _ _ _ E). pose proof (revoke_constraints _ _ _ _ E Hok) as Hok1.
  unfold identity_audit. rewrite run_total by apply _.
  set (w2 := (audit _ _ _ _ _ _ _ w1).2).
  assert (Ht : w_db w2 Trefresh_tokens = w_db w1 Trefresh_tokens) by (apply keeps_eq, keeps_audit; discriminate).
  assert (Hok2 : constraints_ok (w_db w2)) by (by apply constraints_audit).
  rewrite (run_ok commit _ w2 tt (w2 <| w_durable := w_db w2 |>)) by (unfold commit, flush; by rewrite bool_decide_eq_true_2).
  split; [done|]. intros j r' Hj. change (w_db w2 Trefresh_tokens !! j = Some r') in Hj. rewrite Ht in Hj.
  apply Hl in Hj as (r0 & Hr0 & ->). unfold live_of. split; intros Hu.
  - case_bool_decide as Hu'; simpl; [case_bool_decide; done|]. by destruct Hu'.
  - case_bool_decide as Hu'; [|done]. exfalso. apply Hu. by destruct (_ && _).
Qed.

(** C31: whatever a user sends, stored preferences keep distinct well-formed keys,
    bounded nesting, no NUL characters and both caps; an update touches no other
    user. *)
Theorem preferences_stay_valid value i (u : user) w r w' :
  (forall (k : key Tusers) (x : row Tusers), w_db w Tusers !! k = Some x -> preferences_ok float_repr (u_preferences x)) ->
  update_me float_repr (UserPrincipal i u) (Some value) w = (Ok r, w') ->
  (forall (k : key Tusers) (x : row Tusers), w_db w' Tusers !! k = Some x -> preferences_ok float_repr (u_preferences x)) /\
  (forall (k : key Tusers) (x : row Tusers), k <> i -> w_db w' Tusers !! k = Some x <-> w_db w Tusers !! k = Some x).
Proof.
  intros Hok. unfold update_me. destruct (validate_preferences_patch float_repr value) as [patch|e] eqn:Ev; [|done]. run.
  intros H'. apply bind_ok in H' as (u1 & w1 & Hu & H').
  assert (Hw : w' = w1).
  { unfold _me_response, for_user in H'. revert H'. run. intros H'. apply bind_ok in H' as (d & ? & [= <- <-] & H').
    case_match; [by injection H' as _ <-|done]. }
  subst w'. unfold update_preferences in Hu. revert Hu. run. intros Hu.
  apply bind_ok in Hu as ([k locked] & ? & [-> El]%scalar_one_ok & Hu).
  apply (found_only Tusers) in El as (Hk & Hp & _). apply bool_decide_eq_true in Hp as ->. csimpl in *.
  destruct (check_stored_preferences float_repr _) eqn:Ec; [|done]. revert Hu. run. intros [= _ <-].
  destruct a. pose proof (put_w_eq Tusers i (locked <| u_preferences := jupdate (u_preferences locked) patch |>) w) as Ht.
  split.
  - intros k x Hx. rewrite Ht in Hx. apply (lookup_put Tusers) in Hx as [[_ <-]|[_ Hx]]; [|by apply (Hok k)].
    apply (merged_ok float_repr (u_preferences locked) value patch); [by apply (Hok i)|done|done].
  - intros k x Hne. exact (users_put_other _ _ _ _ _ _ Ht Hne).
Qed.

(** A reset link works once: it sets the password of the account it was made
    for, ends every session of that account, and any second use is refused. *)
Theorem reset_link_single_use salt token pw w i u w' :
  constraints_ok (w_db w) ->
  reset_password sha256 hash_password salt token pw w = (Ok (i, u), w') ->
  u_password_hash u = Some (hash_password salt pw) /\
  w_db w' Tusers !! (i : key Tusers) = Some (u : row Tusers) /\
  (forall (j : key Trefresh_tokens) (r : row Trefresh_tokens),
     w_db w' Trefresh_tokens !! j = Some r -> rt_user_id r = i -> rt_revoked_at r <> None) /\
  forall salt' pw' w2, w_db w2 Tpassword_reset_tokens = w_db w' Tpassword_reset_tokens ->
    reset_password sha256 hash_password salt' token pw' w2 = (Err (Domain AuthenticationError []), w2).
Proof.
  intros Hok. apply constraints_ok_table with (t := Tpassword_reset_tokens) in Hok.
  unfold reset_password. run. intros H'. apply bind_ok in H' as (found & ? & [-> [[-> _]|([k r] & -> & Er)]]%scalar_ok & H'); [done|].
  apply (found_only Tpassword_reset_tokens) in Er as (Hk & Hp & Hu). revert H'. run.
  destruct (w_db w Tusers !! _) as [u0|] eqn:Eu; [|done]. run.
  set (w1 := put_w Tpassword_reset_tokens _ _ _). intros H'.
  destruct (revoke_run (pr_user_id r) None w1) as (w2 & E & Hf & _ & Hl). rewrite (run_ok _ _ _ _ _ E) in H'.
  apply bind_ok in H' as ([] & w3 & Ha & [= <- <- <-]).
  assert (Hw : forall t, t <> Taudit_logs -> w_db w3 t = w_db w2 t)
    by (intros t Ht; exact (kept t _ _ _ _ (keeps_audit t _ _ _ _ _ _ _ Ht) Ha)).
  split_and!; [done| | |].
  - rewrite Hw, Hf by discriminate. unfold w1. rewrite put_w_ne, put_w_eq by discriminate. apply (put_same Tusers).
  - intros j x Hj Hx. rewrite Hw in Hj by discriminate. apply Hl in Hj as (r0 & _ & ->). unfold live_of in *.
    case_bool_decide as H1; simpl; [by case_bool_decide|]. by destruct H1.
  - intros salt' pw' w4 Ht. rewrite Hw, Hf in Ht by discriminate. unfold w1 in Ht. rewrite put_w_eq, put_w_ne in Ht by discriminate.
    run. rewrite (proj2 (rows_where_nil Tpassword_reset_tokens _ _)); [done|]. intros j x Hj. rewrite Ht in Hj.
    unfold usable_reset. destruct (String.eqb_spec (pr_token_hash x) (sha256 token)) as [Eh|]; [|done].
    apply (lookup_put Tpassword_reset_tokens) in Hj as [[_ <-]|[Hne Hj]]; [done|]. exfalso. apply Hne.
    unfold usable_reset in Hp. rewrite !andb_true_iff, String.eqb_eq in Hp. destruct Hp as [[Hp _] _].
    apply (unique_on_lookup Tpassword_reset_tokens (fun r : password_reset_token => Some (pr_token_hash r))
      _ k j r x (sha256 token) Hok Hk Hj); congruence.
Qed.

(** An access token names the user it was issued to, from its issue until
    the whole second its lifetime ends in, and nobody from then on. *)
Theorem access_token_names_user `{!JwtLaws} i email org admin w token w1 w2 (u : row Tusers) :
  create_access_token secret_key i email org admin w = (Ok token, w1) ->
  starts_with KEY_PREFIX token = false ->
  w_db w2 Tusers !! (i : key Tusers) = Some u -> u_is_active u = true -> (w_clock w <= w_clock w2)%Z ->
  let exp := seconds ((w_clock w + seconds (access_token_ttl_seconds (w_settings w))) / SECOND) in
  get_current_user sha256 secret_key str_of (BEARER +:+ token) w2 =
    if (w_clock w2 <? exp)%Z
    then (Ok (i, u), w2 <| w_user := Some (UserContext i (u_email u) (u_is_platform_admin u) [] None None None) |>)
    else (Err (Domain AuthenticationError []), w2).
Proof.
  intros Ht Hk Hu Ha Hc exp. unfold create_access_token in Ht. revert Ht. run. intros [= Ht _].
  unfold get_current_user. rewrite starts_with_app, str_drop_app, Hk. cbn [negb].
  unfold decode_access_token. run. rewrite <- Ht. unfold access_payload.
  destruct (Z.ltb_spec (w_clock w2) exp) as [Hl|Hl].
  - rewrite jwt_round; [|unfold seconds, SECOND; pose proof (Z.mul_div_le (w_clock w) 1000000); lia|done].
    rewrite bool_decide_eq_true_2 by done. run. simpl. run.
    rewrite_row Hu. rewrite Ha. done.
  - by rewrite jwt_expired.
Qed.
End Theorems.

(** ** Witnesses *)

Definition salted (salt password : string) : string := salt +:+ "$" +:+ password.
Definition checks (password hashed : string) : bool := String.eqb hashed (salted "s" password).

(** A token library that writes the claims' fields as one number. *)
Definition claim_int (k : string) (p : jobj) : Z := match jget k p with Some (JInt z) => z | _ => 0 end.
Definition claim_uuid (k : string) (p : jobj) : option uuid := match jget k p with Some (JUuid u) => Some u | _ => None end.
Definition claim_fields (p : jobj) : Z * Z * uuid * string * option uuid * bool :=
  (claim_int "iat" p, claim_int "exp" p, default 0%N (claim_uuid "sub" p),
   match jget "email" p with Some (JStr s) => s | _ => "" end, claim_uuid "org" p,
   bool_decide (is_Some (jget "platform_admin" p))).
#[local] Instance toy_jwt : JwtLibrary := {|
  jwt_encode _ p := Z_str (Zpos (encode (claim_fields p)));
  jwt_decode _ t token :=
    z ← int_of_str token;
    '(iat, exp, sub, email, org, admin) ← decode (A := Z * Z * uuid * string * option uuid * bool) (Z.to_pos z);
    if (t <? seconds exp)%Z then Some (access_claims iat exp sub email org admin) else None
|}.

#[local] Instance toy_jwt_laws : JwtLaws.
Proof.
  split.
  - intros secret t iat exp i email org admin _ He. cbn [jwt_decode jwt_encode toy_jwt].
    rewrite int_of_Z_str. cbn [mbind option_bind]. rewrite Pos2Z.id, decode_encode. cbn [mbind option_bind].
    destruct org, admin; cbn; by rewrite (proj2 (Z.ltb_lt _ _)) by done.
  - intros secret t iat exp i email org admin He. cbn [jwt_decode jwt_encode toy_jwt].
    rewrite int_of_Z_str. cbn [mbind option_bind]. rewrite Pos2Z.id, decode_encode. cbn [mbind option_bind].
    destruct org, admin; cbn; by rewrite (proj2 (Z.ltb_ge _ _)) by done.
Qed.

Definition cleo : user :=
  User "cleo@acme.test" (Some (salted "s" "correct horse")) "Cleo" false true None "local" None [].
Definition desk : world := world_of (set_table (set_table (set_table demo_db
  Tusers (rows_of Tusers [(7%N, cleo)]))
  Trefresh_tokens (rows_of Trefresh_tokens
    [(70%N, RefreshToken 7 (hash "first") None (NOW + days 30)%Z None None None None NOW);
     (71%N, RefreshToken 7 (hash "stolen") None (NOW + days 30)%Z (Some (NOW - HOUR)%Z) (Some 70%N) None None NOW)]))
  Tpassword_reset_tokens (rows_of Tpassword_reset_tokens
    [(75%N, PasswordResetToken 7 (hash "link") (NOW + HOUR)%Z None NOW)])).
Definition rotated := request (refresh hash "key" "second" "first" None None) desk.

Lemma rotated_ok : exists x, rotated = (Ok x, rotated.2).
Proof. eexists. apply ran. vm_compute. reflexivity. Qed.

Lemma refresh_token_single_use_witness :
  match (request (refresh hash "key" "third" "first" None None) rotated.2).1 with Ok _ => false | Err _ => true end = true.
Proof.
  destruct rotated_ok as [x Hx].
  pose proof (refresh_token_single_use hash salted checks "key" (fun _ => "") (fun _ _ => None) (fun _ _ => None)
    "second" "first" None None desk x rotated.2 rotated.2 "third" None None Hx (rtc_refl _ _)) as H.
  destruct (request _ rotated.2).1 as [y|]; [by destruct (H y)|reflexivity].
Defined.

Lemma reuse_revokes_sessions_witness :
  (request (refresh hash "key" "next" "stolen" None None) desk).1 = Err (Domain TokenReuseError []).
Proof.
  refine (proj1 (reuse_revokes_sessions hash "key" "next" "stolen" None None desk 71%N
    (RefreshToken 7 (hash "stolen") None (NOW + days 30)%Z (Some (NOW - HOUR)%Z) (Some 70%N) None None NOW)
    _ _ _ _ _ _)); [by_compute|vm_compute; reflexivity|reflexivity|vm_compute; discriminate|discriminate|vm_compute; reflexivity].
Defined.

Definition vouched : jobj :=
  [("sub", JStr "kc-1"); ("email", JStr "Cleo@acme.test"); ("email_verified", JBool true)].

Lemma oidc_never_takes_over_witness :
  exists u w', link_or_create_oidc_user (fun _ => "") "keycloak" vouched desk = (Ok (7%N, u), w') /\ u_is_active u = true.
Proof.
  assert (E : exists u, (link_or_create_oidc_user (fun _ => "") "keycloak" vouched desk).1 = Ok (7%N, u))
    by (eexists; vm_compute; reflexivity).
  destruct E as [u E]. apply ran in E. exists u, (link_or_create_oidc_user (fun _ => "") "keycloak" vouched desk).2.
  split; [exact E|].
  destruct (oidc_never_takes_over (fun _ => "") "keycloak" vouched desk 7%N u _ ltac:(vm_compute; reflexivity) E) as (_ & H & _).
  exact H.
Defined.

Lemma preferences_stay_valid_witness :
  exists x : row Tusers,
    w_db (update_me (fun _ => "") (UserPrincipal 7 cleo) (Some (JObj [("theme", JStr "dark")])) desk).2 Tusers !! (7%N : key Tusers) = Some x /\
    preferences_ok (fun _ => "") (u_preferences x).
Proof.
  assert (E : exists r, (update_me (fun _ => "") (UserPrincipal 7 cleo) (Some (JObj [("theme", JStr "dark")])) desk).1 = Ok r)
    by (eexists; vm_compute; reflexivity).
  destruct E as [r E]. apply ran in E.
  eexists. split; [vm_compute; reflexivity|].
  refine (proj1 (preferences_stay_valid (fun _ => "") (JObj [("theme", JStr "dark")]) 7%N cleo desk r _ _ E) 7%N _ _);
    [|vm_compute; reflexivity].
  intros k x Hx. change (w_db desk Tusers) with (rows_of Tusers [(7%N, cleo)]) in Hx.
  apply lookup_rows_of in Hx; [|by_compute]. apply list_elem_of_singleton in Hx. injection Hx as _ ->.
  split_and!; [apply NoDup_nil_2|apply Forall_nil_2|vm_compute; lia|]. exists 2%Z. by split; [reflexivity|vm_compute].
Defined.

Lemma reset_link_single_use_witness :
  exists u w', reset_password hash salted "s" "link" "new password" desk = (Ok (7%N, u), w') /\
    reset_password hash salted "s" "link" "other password" w' = (Err (Domain AuthenticationError []), w').
Proof.
  assert (E : exists u, (reset_password hash salted "s" "link" "new password" desk).1 = Ok (7%N, u))
    by (eexists; vm_compute; reflexivity).
  destruct E as [u E]. apply ran in E. eexists u, _. split; [exact E|].
  apply (reset_link_single_use hash salted "s" "link" "new password" desk 7%N u _ ltac:(by_compute) E). reflexivity.
Defined.

Lemma login_decides_witness :
  (request (login checks (fun _ => "") (fun _ _ => None) "CLEO@acme.test" "correct horse") desk).1 =
    Ok (7%N, cleo <| u_last_login_at := Some NOW |>).
Proof.
  apply (login_decides checks (fun _ => "") (fun _ _ => None) "CLEO@acme.test" "correct horse" desk);
    [by_compute|discriminate|].
  exists cleo. split; [|reflexivity]. split_and!; [vm_compute; reflexivity|reflexivity|reflexivity|].
  exists (salted "s" "correct horse"). split; reflexivity.
Defined.

Lemma access_token_names_user_witness :
  exists token, (create_access_token "key" 7 "cleo@acme.test" None false desk).1 = Ok token /\
    (get_current_user hash "key" (fun _ => "") (BEARER +:+ token) desk).1 = Ok (7%N, cleo).
Proof.
  assert (E : exists token, (create_access_token "key" 7 "cleo@acme.test" None false desk).1 = Ok token /\
    starts_with KEY_PREFIX token = false) by (eexists; split; [reflexivity|vm_compute; reflexivity]).
  destruct E as (token & E & Ek). exists token. split; [exact E|]. apply ran in E.
  rewrite (access_token_names_user hash "key" (fun _ => "") 7%N "cleo@acme.test" None false desk token _ desk cleo E Ek
    ltac:(vm_compute; reflexivity) eq_refl ltac:(lia)). vm_compute. reflexivity.
Defined.
