(* ===== verification/Storage.v ===== *)
(** File storage (storage/backend.py, storage/router.py): the keys files live
    under, the index of stored files, and the quota it is metered against.

    What the bucket answers (sizes, URLs, failures) is an argument, a record of
    answers; the local backend's path is normalised without symbolic links. *)

From Stdlib Require Import Ascii.
From S2P Require Import Prelude Text Permissions Json Errors Events Tables Store Cache Session Fixtures.
From S2P Require Import Authorization Resolver Interfaces Entitlements Usage Ids Repository.

Definition FILE_UPLOADED : string := "file.uploaded".
Definition FILE_DELETED : string := "file.deleted".
Definition MAX_DIRECT_UPLOAD_BYTES : Z := 10 * 1024 * 1024.

(** ** Keys *)

(** [str] of a UUID: thirty-two hexadecimal digits in five groups. *)
Definition hex_digit (n : N) : ascii := ascii_of_N (if (n <? 10)%N then 48 + n else 87 + n).
Fixpoint hex_digits (w : nat) (n : N) : string :=
  match w with
  | O => ""
  | S w => hex_digits w (n / 16) +:+ String (hex_digit (n mod 16)) ""
  end.
Definition uuid_text (u : uuid) : string :=
  hex_digits 8 (u / 2 ^ 96) +:+ "-" +:+ hex_digits 4 (u / 2 ^ 80) +:+ "-" +:+ hex_digits 4 (u / 2 ^ 64) +:+ "-" +:+
  hex_digits 4 (u / 2 ^ 48) +:+ "-" +:+ hex_digits 12 u.

Definition is_alnum (c : ascii) : bool :=
  is_lower_alnum c || (let n := nat_of_ascii c in (65 <=? n) && (n <=? 90)).
Definition is_key_char (c : ascii) : bool :=
  is_alnum c || Ascii.eqb c "." || Ascii.eqb c "_" || Ascii.eqb c "/" || Ascii.eqb c "-".

(** [^[a-zA-Z0-9][a-zA-Z0-9._/-]{0,500}$]: the final [$] also matches before a
    trailing newline. *)
Definition newline : ascii := ascii_of_nat 10.
Definition key_body (s : string) : bool :=
  all_chars is_key_char s && (String.length s <=? 500).
Fixpoint drop_final_newline (s : string) : string :=
  match s with
  | EmptyString => EmptyString
  | String c EmptyString => if Ascii.eqb c newline then EmptyString else s
  | String c s => String c (drop_final_newline s)
  end.
Definition key_matches (key : string) : bool :=
  match key with
  | EmptyString => false
  | String c rest => is_alnum c && (key_body rest || key_body (drop_final_newline rest))
  end.

Definition storage_error {A} : result A := Err (Domain StorageError []).

Definition validate_key (key : string) (organization_id : option uuid) : result unit :=
  if negb (key_matches key) then storage_error
  else match organization_id with
  | Some o => if starts_with (uuid_text o +:+ "/") key then Ok tt else Err (Domain TenantViolationError [])
  | None => Ok tt
  end.

Definition scoped_key (organization_id : uuid) (name : string) : result string :=
  let safe_name := lstrip_char "/" name in
  if contains "/" safe_name && bool_decide (".." ∈ split_on "/" safe_name) then storage_error
  else
    let key := uuid_text organization_id +:+ "/" +:+ safe_name in
    match validate_key key (Some organization_id) with
    | Ok _ => Ok key
    | Err e => Err e
    end.

(** [(root / key).resolve()]: the segments, dots resolved. *)
Definition resolve_step (path : list string) (segment : string) : list string :=
  if String.eqb segment "" || String.eqb segment "." then path
  else if String.eqb segment ".." then removelast path
  else path ++ [segment].
Definition resolve (root : list string) (key : string) : list string :=
  foldl resolve_step root (split_on "/" key).
Definition path_text (path : list string) : string := "/" +:+ join "/" path.

(** [LocalDiskStorage._path]. *)
Definition _path (root : list string) (key : string) : result (list string) :=
  match validate_key key None with
  | Err e => Err e
  | Ok _ =>
      let path := resolve root key in
      if starts_with (path_text root) (path_text path) then Ok path else storage_error
  end.

(** ** The bucket's answers *)

Record object_store : Type := ObjectStore {
  os_put : string -> Z -> result unit;
  os_get : string -> result string;
  os_head : string -> result (option Z);
  os_delete : string -> result unit;
  os_presign_get : string -> result string;
  os_presign_put : string -> string -> result string;
  os_supports_presigned_upload : bool
}.

Section Routes.
Context (fga_check : string -> string -> string -> option bool) (storage : object_store).
Context (user_id : uuid) (u : user) (tenant : tenant_context).

Definition org : uuid := tx_organization_id tenant.

Definition file_payload (i : uuid) (f : stored_file) : jobj :=
  [("file_id", JUuid i); ("name", JStr (sf_name f)); ("content_type", JStr (sf_content_type f));
   ("size_bytes", JInt (sf_size_bytes f))].

Definition _record_file_event (event_type : string) (i : uuid) (f : stored_file) : M unit :=
  _ ← append_outbox event_type "file" i (file_payload i f) (Some (sf_organization_id f));
  audit event_type (Some (sf_organization_id f)) None "user" (Some "file") (Some i) (Some (file_payload i f)).

Definition scoped_file (file_id organization_id : uuid) (statuses : list string) (k : key Tstored_files)
    (f : stored_file) : bool :=
  bool_decide (k = file_id) && bool_decide (sf_organization_id f = organization_id) &&
  bool_decide (sf_deleted_at f = None) && bool_decide (sf_status f ∈ statuses).

Definition _get_scoped (file_id : uuid) (statuses : list string) : M stored_file :=
  rows ← select Tstored_files (scoped_file file_id org statuses);
  found ← scalar_one_or_none rows;
  match found with Some (_, f) => mret f | None => raise_domain NotFoundError [] end.

Definition ready_file (k : key Tstored_files) (f : stored_file) : bool :=
  bool_decide (sf_organization_id f = org) && bool_decide (sf_deleted_at f = None) && String.eqb (sf_status f) "ready".

Definition list_files (page : page_params) : M (list (key Tstored_files * row Tstored_files) * Z) :=
  _ ← require_permission fga_check "file:read" user_id u tenant;
  rows ← select Tstored_files ready_file;
  mret (paginate (order_by_desc (fun r : key Tstored_files * row Tstored_files => sf_created_at r.2) rows) page).

(** The multipart part: its name, type and size; [None] when there is no file. *)
Definition upload_file (multipart : bool) (part : option (option string * option string * Z)) : M (uuid * stored_file) :=
  _ ← require_permission fga_check "file:write" user_id u tenant;
  _ ← require_feature org "api_access";
  if negb multipart then raise_domain StorageError []
  else match part with
  | None => raise_domain StorageError []
  | Some (filename, content_type, size) =>
      if (MAX_DIRECT_UPLOAD_BYTES <? size)%Z then raise_domain StorageError []
      else
        _ ← adjust_gauge org "storage_bytes" size true;
        let name := or_str filename "unnamed" in
        let type := or_str content_type "application/octet-stream" in
        k ← lift (scoped_key org name);
        _ ← lift (os_put storage k size);
        i ← fresh_id;
        t ← now;
        let f := StoredFile org k name type size "ready" None (Some user_id) t in
        _ ← put Tstored_files i f;
        _ ← flush;
        _ ← _record_file_event FILE_UPLOADED i f;
        mret (i, f)
  end.

Definition presign_upload (name content_type : string) (size_bytes : Z) : M (uuid * string * string) :=
  _ ← require_permission fga_check "file:write" user_id u tenant;
  _ ← require_feature org "api_access";
  if negb (os_supports_presigned_upload storage)
  then raise_domain PresignUnsupportedError [("direct_upload_limit_bytes", JInt MAX_DIRECT_UPLOAD_BYTES)]
  else
    _ ← adjust_gauge org "storage_bytes" size_bytes true;
    k ← lift (scoped_key org name);
    url ← lift (os_presign_put storage k content_type);
    i ← fresh_id;
    t ← now;
    _ ← put Tstored_files i (StoredFile org k name content_type size_bytes "pending" None (Some user_id) t);
    _ ← flush;
    mret (i, k, url).

Definition complete_upload (file_id : uuid) : M stored_file :=
  _ ← require_permission fga_check "file:write" user_id u tenant;
  f ← _get_scoped file_id ["pending"; "ready"];
  if String.eqb (sf_status f) "ready" then mret f
  else
    actual ← lift (os_head storage (sf_key f));
    if negb (bool_decide (actual = Some (sf_size_bytes f)))
    then
      _ ← adjust_gauge org "storage_bytes" (- sf_size_bytes f) true;
      t ← now;
      _ ← put Tstored_files file_id (f <| sf_deleted_at := Some t |>);
      _ ← commit;
      raise_domain UploadIncompleteError
        [("expected_bytes", JInt (sf_size_bytes f)); ("actual_bytes", jopt JInt actual)]
    else
      let f := f <| sf_status := "ready" |> in
      _ ← put Tstored_files file_id f;
      _ ← flush;
      _ ← _record_file_event FILE_UPLOADED file_id f;
      mret f.

Definition download_file (file_id : uuid) : M (stored_file * string) :=
  _ ← require_permission fga_check "file:read" user_id u tenant;
  f ← _get_scoped file_id ["ready"];
  data ← lift (os_get storage (sf_key f));
  mret (f, data).

Definition presign_download (file_id : uuid) : M (string * string) :=
  _ ← require_permission fga_check "file:read" user_id u tenant;
  if negb (os_supports_presigned_upload storage) then raise_domain PresignUnsupportedError []
  else
    f ← _get_scoped file_id ["ready"];
    url ← lift (os_presign_get storage (sf_key f));
    mret (url, sf_key f).

Definition delete_file (file_id : uuid) : M unit :=
  _ ← require_permission fga_check "file:write" user_id u tenant;
  f ← _get_scoped file_id ["pending"; "ready"];
  t ← now;
  let f := f <| sf_deleted_at := Some t |> in
  _ ← put Tstored_files file_id f;
  _ ← lift (os_delete storage (sf_key f));
  _ ← adjust_gauge org "storage_bytes" (- sf_size_bytes f) true;
  _record_file_event FILE_DELETED file_id f.
End Routes.

(** ** Gates leave the tables alone *)

Definition quiet : relation world := fun w w' =>
  (forall t, w_db w' t = w_db w t) /\ w_durable w' = w_durable w /\ w_fresh w' = w_fresh w.
#[export] Instance quiet_restorable : Restorable quiet.
Proof.
  unfold quiet. split; [split|]; [by intros w| |by intros ? ? (?&?&?)].
  intros w1 w2 w3 (H1 & H2 & H3) (H4 & H5 & H6). split_and!; [|congruence..]. intros t. by rewrite H4.
Qed.

Lemma quiet_cache {A} (f : _ -> _ -> A * _) : Stable quiet (with_cache f).
Proof. intros w. unfold with_cache. by destruct (f _ _). Qed.
Lemma quiet_user c : Stable quiet (set_user c).
Proof. done. Qed.
Lemma quiet_current_user : Stable quiet current_user.
Proof. done. Qed.
#[export] Hint Resolve quiet_cache quiet_user quiet_current_user : stable.

Lemma quiet_step {A} (m : M A) w r w' : Stable quiet m -> m w = (r, w') -> quiet w w'.
Proof. intros Hm E. specialize (Hm w). by rewrite E in Hm. Qed.

Lemma quiet_effective o : Stable quiet (effective_for o).
Proof.
  intros w. split_and!; [intros t; apply effective_tables| |apply effective_fresh].
  destruct (effective_env o w) as (_ & _ & _ & _ & _ & Hd). exact Hd.
Qed.

Section Gates.
Context (fga_check : string -> string -> string -> option bool).

Lemma quiet_permission p i u t : Stable quiet (require_permission fga_check p i u t).
Proof.
  unfold require_permission, require_key_permission, user_can, _fga_allowed, permission_keys_for, denied,
    cache_get_versioned, cache_set, cache_get_scoped, cache_set_scoped.
  solve_stable.
Qed.
End Gates.

Lemma quiet_feature o f : Stable quiet (require_feature o f).
Proof. unfold require_feature, plans_with_feature. solve_stable. apply (quiet_effective o). Qed.

Lemma quiet_lift {A} (r : result A) : Stable quiet (lift r).
Proof. intros w. by destruct r. Qed.

(** Moving a gauge: one counter, nothing else. *)
Lemma adjust_run o metric delta enforce w r w' :
  adjust_gauge o metric delta enforce w = (Ok r, w') ->
  let k := counter_key o metric GAUGE_PERIOD in
  exists c : row Tusage_counters,
    uc_quantity_total c = Z.max (counter_total (w_db w Tusage_counters) k + delta) 0 /\
    w_db w' Tusage_counters = <[k := c]> (w_db w Tusage_counters) /\
    (forall t, t <> Tusage_counters -> w_db w' t = w_db w t) /\ w_durable w' = w_durable w /\ w_fresh w' = w_fresh w.
Proof.
  assert (Hq : Stable quiet (_assert_gauge_metric metric))
    by (unfold _assert_gauge_metric, _metric; solve_stable).
  assert (Hc : Stable quiet (when_ (enforce && (0 <? delta)%Z)
    (current ← current_total o metric None; ensure_gauge_capacity o metric current delta))).
  { unfold current_total, _period_for, _metric, ensure_gauge_capacity. solve_stable; apply quiet_effective. }
  unfold adjust_gauge. intros H'. apply bind_ok in H' as ([] & w1 & H1 & H').
  apply bind_ok in H' as ([] & w2 & H2 & H').
  pose proof (transitivity (quiet_step _ _ _ _ Hq H1) (quiet_step _ _ _ _ Hc H2) : quiet w w2) as (Ht & Hd & Hf).
  clear Hq Hc H1 H2. revert H'. run. rewrite Ht. set (k := counter_key _ _ _). set (c := adjusted _ _ _).
  unfold _gauge_result. intros H'. apply bind_ok in H' as (e & w3 & He & [= _ <-]).
  apply (quiet_step _ _ _ _ (quiet_effective o)) in He as (Ht3 & Hd3 & Hf3). exists c. split_and!.
  - unfold c, counter_total. destruct (w_db w Tusage_counters !! k); simpl; lia.
  - by rewrite Ht3, put_w_eq, Ht.
  - intros t Hne. by rewrite Ht3, put_w_ne.
  - by rewrite Hd3.
  - by rewrite Hf3.
Qed.

(** ** The quota shows the bytes stored *)

(** The files of an organization that count: pending or ready, not deleted. *)
Definition kept_file (o : uuid) (_ : key Tstored_files) (f : stored_file) : bool :=
  bool_decide (sf_organization_id f = o) && bool_decide (sf_deleted_at f = None).
Definition stored_bytes (d : db) (o : uuid) : Z :=
  sumZ (fun r : key Tstored_files * row Tstored_files => sf_size_bytes r.2)
    (rows_where Tstored_files (kept_file o) (d Tstored_files)).
Definition storage_gauge (d : db) (o : uuid) : Z :=
  counter_total (d Tusage_counters) (counter_key o "storage_bytes" GAUGE_PERIOD).

Definition sizes_ok (d : db) : Prop :=
  forall (k : key Tstored_files) (f : row Tstored_files), d Tstored_files !! k = Some f -> (0 <= sf_size_bytes f)%Z.
Definition gauge_exact (d : db) : Prop := sizes_ok d /\ forall o, storage_gauge d o = stored_bytes d o.

(** Moving the gauge of [o] by [delta] from [d] to [d']. *)
Definition gauge_moved (o : uuid) (delta : Z) (d d' : db) : Prop :=
  exists c : row Tusage_counters,
    uc_quantity_total c = Z.max (storage_gauge d o + delta) 0 /\
    d' Tusage_counters = <[counter_key o "storage_bytes" GAUGE_PERIOD := c]> (d Tusage_counters).

Lemma gauge_moved_total o delta d d' o' : gauge_moved o delta d d' ->
  storage_gauge d' o' = if bool_decide (o = o') then Z.max (storage_gauge d o + delta) 0 else storage_gauge d o'.
Proof.
  intros (c & Hc & E). unfold storage_gauge at 1. rewrite E, counter_total_put. case_bool_decide as Ek; case_bool_decide as Eo.
  - done.
  - unfold counter_key in Ek. congruence.
  - exfalso. apply Ek. by rewrite Eo.
  - done.
Qed.

Lemma stored_put_new d d' o (k : key Tstored_files) (f : row Tstored_files) :
  d Tstored_files !! k = None -> d' Tstored_files = <[k := f]> (d Tstored_files) ->
  stored_bytes d' o = (stored_bytes d o + if kept_file o k f then sf_size_bytes f else 0)%Z.
Proof.
  intros Hk E. unfold stored_bytes. rewrite E, (sumZ_Permutation _ _ _ (rows_where_insert Tstored_files _ _ _ _ Hk)).
  destruct (kept_file o k f); simpl; lia.
Qed.

Lemma stored_put_over d d' o (k : key Tstored_files) (f0 f : row Tstored_files) :
  d Tstored_files !! k = Some f0 -> d' Tstored_files = <[k := f]> (d Tstored_files) ->
  stored_bytes d' o = (stored_bytes d o - (if kept_file o k f0 then sf_size_bytes f0 else 0)
    + (if kept_file o k f then sf_size_bytes f else 0))%Z.
Proof.
  intros Hk E.
  assert (H1 : (stored_bytes (set_table d Tstored_files (delete k (d Tstored_files))) o +
    (if kept_file o k f0 then sf_size_bytes f0 else 0) = stored_bytes d o)%Z).
  { symmetry. apply (stored_put_new (set_table d Tstored_files (delete k (d Tstored_files))) d o k f0).
    - rewrite set_table_eq. apply lookup_delete_eq.
    - rewrite set_table_eq. symmetry. by apply insert_delete_id. }
  rewrite (stored_put_new (set_table d Tstored_files (delete k (d Tstored_files))) d' o k f); [lia| |].
  - rewrite set_table_eq. apply lookup_delete_eq.
  - rewrite set_table_eq, E. symmetry. apply insert_delete_eq.
Qed.

Lemma stored_at_least d o (k : key Tstored_files) (f : row Tstored_files) :
  sizes_ok d -> d Tstored_files !! k = Some f -> kept_file o k f = true -> (sf_size_bytes f <= stored_bytes d o)%Z.
Proof.
  intros Hs Hk Hf.
  pose proof (stored_put_over d (set_table d Tstored_files (<[k := f <| sf_deleted_at := Some 0%Z |>]> (d Tstored_files))) o k f _
    Hk (set_table_eq _ _ _)) as E.
  rewrite Hf in E. replace (kept_file o k (f <| sf_deleted_at := Some 0%Z |>)) with false in E
    by (unfold kept_file; simpl; by rewrite andb_false_r).
  assert ((0 <= stored_bytes (set_table d Tstored_files (<[k := f <| sf_deleted_at := Some 0%Z |>]> (d Tstored_files))) o)%Z); [|lia].
  apply sumZ_nonneg. intros [j x] Hin. apply (elem_of_rows_where Tstored_files) in Hin as [Hj _].
  rewrite set_table_eq in Hj. apply (lookup_put Tstored_files) in Hj as [[_ <-]|[_ Hj]]; [exact (Hs k f Hk)|exact (Hs j x Hj)].
Qed.

Lemma sizes_put d d' (k : key Tstored_files) (f : row Tstored_files) :
  sizes_ok d -> (0 <= sf_size_bytes f)%Z -> d' Tstored_files = <[k := f]> (d Tstored_files) -> sizes_ok d'.
Proof.
  intros Hs Hf E j x Hj. rewrite E in Hj. apply (lookup_put Tstored_files) in Hj as [[_ <-]|[_ Hj]]; [done|by apply (Hs j)].
Qed.

(** A new file with its bytes reserved. *)
Lemma exact_add d d' o (k : key Tstored_files) (f : row Tstored_files) :
  gauge_exact d -> d Tstored_files !! k = None -> sf_organization_id f = o -> sf_deleted_at f = None ->
  (0 <= sf_size_bytes f)%Z -> gauge_moved o (sf_size_bytes f) d d' -> d' Tstored_files = <[k := f]> (d Tstored_files) ->
  gauge_exact d'.
Proof.
  intros [Hs Hg] Hk Ho Hd Hz Hm E. split; [by apply (sizes_put d d' k f)|]. intros o'.
  rewrite (gauge_moved_total _ _ _ _ o' Hm), (stored_put_new d d' o' k f Hk E). unfold kept_file. rewrite Ho, Hd.
  rewrite (bool_decide_eq_true_2 (None = None)) by done. rewrite andb_true_r.
  case_bool_decide as Eo; [|rewrite Hg; lia]. subst o'. rewrite Hg.
  assert ((0 <= stored_bytes d o)%Z); [|lia]. apply sumZ_nonneg. intros [j x] Hin.
  apply (elem_of_rows_where Tstored_files) in Hin as [Hj _]. by apply (Hs j x).
Qed.

(** A file deleted with its bytes given back. *)
Lemma exact_remove d d' o (k : key Tstored_files) (f0 f : row Tstored_files) :
  gauge_exact d -> d Tstored_files !! k = Some f0 -> kept_file o k f0 = true ->
  sf_size_bytes f = sf_size_bytes f0 -> sf_deleted_at f <> None ->
  gauge_moved o (- sf_size_bytes f0) d d' -> d' Tstored_files = <[k := f]> (d Tstored_files) -> gauge_exact d'.
Proof.
  intros [Hs Hg] Hk Hf0 Hz Hd Hm E. split; [apply (sizes_put d d' k f); [done|rewrite Hz; by apply (Hs k)|done]|]. intros o'.
  rewrite (gauge_moved_total _ _ _ _ o' Hm), (stored_put_over d d' o' k f0 f Hk E).
  assert (Hf : kept_file o' k f = false) by (unfold kept_file; rewrite (bool_decide_eq_false_2 (_ = None)) by done; apply andb_false_r).
  rewrite Hf. pose proof (stored_at_least d o k f0 Hs Hk Hf0). case_bool_decide as Eo.
  - subst o'. rewrite Hf0, Hg. lia.
  - replace (kept_file o' k f0) with false; [rewrite Hg; lia|]. symmetry. unfold kept_file in *.
    apply andb_true_iff in Hf0 as [Ho _]. apply bool_decide_eq_true in Ho. rewrite bool_decide_eq_false_2; [done|congruence].
Qed.

(** A file that changes neither size nor place. *)
Lemma exact_same d d' (k : key Tstored_files) (f0 f : row Tstored_files) :
  gauge_exact d -> d Tstored_files !! k = Some f0 -> sf_size_bytes f = sf_size_bytes f0 ->
  sf_organization_id f = sf_organization_id f0 -> sf_deleted_at f = sf_deleted_at f0 ->
  d' Tusage_counters = d Tusage_counters -> d' Tstored_files = <[k := f]> (d Tstored_files) -> gauge_exact d'.
Proof.
  intros [Hs Hg] Hk Hz Ho Hd Hc E. split; [apply (sizes_put d d' k f); [done|rewrite Hz; by apply (Hs k)|done]|]. intros o.
  rewrite (stored_put_over d d' o k f0 f Hk E). unfold kept_file. rewrite Hz, Ho, Hd.
  unfold storage_gauge. rewrite Hc. change (counter_total _ _) with (storage_gauge d o). rewrite Hg. lia.
Qed.

Lemma exact_frame d d' : d' Tusage_counters = d Tusage_counters -> d' Tstored_files = d Tstored_files ->
  gauge_exact d -> gauge_exact d'.
Proof. unfold gauge_exact, sizes_ok, storage_gauge, stored_bytes. by intros -> ->. Qed.

(** ** File operations keep the quota exact *)

(** A database with its quota exact and no file under an identifier to come. *)
Definition files_at (fresh : uuid) (d : db) : Prop :=
  gauge_exact d /\ forall i, (fresh <= i)%N -> d Tstored_files !! i = None.
Definition files_ok (w : world) : Prop := files_at (w_fresh w) (w_db w) /\ files_at (w_fresh w) (w_durable w).

Lemma files_frame n m d d' : (n <= m)%N -> d' Tusage_counters = d Tusage_counters ->
  d' Tstored_files = d Tstored_files -> files_at n d -> files_at m d'.
Proof. intros Hn Hc Hf [Hg Hb]. split; [by apply (exact_frame d)|]. intros i Hi. rewrite Hf. apply Hb. lia. Qed.

Lemma files_later n m d : (n <= m)%N -> files_at n d -> files_at m d.
Proof. intros H. by apply (files_frame n). Qed.

(** Identifiers are handed out in order and nothing is committed. *)
Definition grows : relation world := fun w w' => (w_fresh w <= w_fresh w')%N /\ w_durable w' = w_durable w.
#[export] Instance grows_restorable : Restorable grows.
Proof.
  unfold grows. split; [split|]; [done| |by intros ? ? [??]].
  intros w1 w2 w3 [H1 H2] [H3 H4]. split; [lia|congruence].
Qed.

Lemma grows_quiet {A} (m : M A) : Stable quiet m -> Stable grows m.
Proof. intros H w. destruct (H w) as (_ & Hd & Hf). split; [lia|done]. Qed.
Lemma grows_put t k r : Stable grows (put t k r).
Proof. done. Qed.
Lemma grows_fresh : Stable grows fresh_id.
Proof. intros w. split; simpl; [lia|done]. Qed.
Lemma grows_outbox a b c d e : Stable grows (append_outbox a b c d e).
Proof. intros w. split; simpl; [lia|done]. Qed.
Lemma grows_audit a b c d e f g : Stable grows (audit a b c d e f g).
Proof. intros w. split; simpl; [lia|done]. Qed.
#[export] Hint Resolve grows_put grows_fresh grows_outbox grows_audit : stable.

Lemma grows_adjust o metric delta enforce : Stable grows (adjust_gauge o metric delta enforce).
Proof.
  unfold adjust_gauge, current_total, _period_for, ensure_gauge_capacity, _gauge_result, _assert_gauge_metric, _metric.
  solve_stable; apply grows_quiet, quiet_effective.
Qed.
Lemma grows_lift {A} (r : result A) : Stable grows (lift r).
Proof. apply grows_quiet, quiet_lift. Qed.
#[export] Hint Resolve grows_adjust grows_lift : stable.

(** What an operation leaves committed, and what it leaves to commit. *)
Definition good {A} (m : M A) (w : world) : Prop :=
  files_at (w_fresh (m w).2) (w_durable (m w).2) /\
  forall a, (m w).1 = Ok a -> files_at (w_fresh (m w).2) (w_db (m w).2).

Lemma good_bind {A B} (m : M A) (f : A -> M B) w : Stable quiet m -> files_ok w ->
  (forall a w1, m w = (Ok a, w1) -> files_ok w1 -> (forall t, w_db w1 t = w_db w t) -> good (f a) w1) -> good (mbind f m) w.
Proof.
  intros Hm [H1 H2] Hf. unfold good. unfold mbind, M_bind. destruct (Hm w) as (Ht & Hd & Hn).
  destruct (m w) as [[a|e] w1]; simpl in *.
  - apply Hf; [done| |done]. split; [|by rewrite Hd, Hn].
    by apply (files_frame (w_fresh w) _ (w_db w)); [lia|apply Ht|apply Ht|].
  - rewrite Hd, Hn. by split.
Qed.

Lemma good_step {A} (m : M A) w : Stable grows m -> files_at (w_fresh w) (w_durable w) ->
  (forall a w1, m w = (Ok a, w1) -> files_at (w_fresh w1) (w_db w1)) -> good m w.
Proof.
  intros Hm Hw Hf. unfold good. destruct (Hm w) as [Hn Hd]. destruct (m w) as [r w1]; simpl in *. split.
  - rewrite Hd. by apply (files_later (w_fresh w)).
  - intros a ->. by apply (Hf a).
Qed.

Lemma fresh_flush_bumps w : w_fresh (flush_deferred_bumps w).2 = w_fresh w.
Proof.
  unfold flush_deferred_bumps.
  assert (Hs : forall l, Stable quiet (for_each l (fun nk =>
    _ ← cache_bump (VersionedCache nk.1 DEFAULT_TTL_SECONDS) nk.2; mret tt)))
    by (intros l; unfold cache_bump; solve_stable).
  destruct (Hs (w_deferred w) (w <| w_deferred := [] |>)) as (_ & _ & E). by destruct (for_each _ _ _).
Qed.

Lemma good_request {A} (m : M A) w : good m w -> files_ok (request m w).2.
Proof.
  unfold good, request, files_ok. destruct (m w) as [[a|e] w1]; simpl; intros [Hd Hb]; [|done].
  specialize (Hb a eq_refl). unfold commit, flush. case_bool_decide; [|done]. simpl. rewrite fresh_flush_bumps.
  destruct (data_flush_bumps (w1 <| w_durable := w_db w1 |>)) as [-> ->]. done.
Qed.

(** *** Each operation *)

Section Operations.
Context (fga_check : string -> string -> string -> option bool) (storage : object_store).
Context (user_id : uuid) (u : user) (tenant : tenant_context).
Let org := tx_organization_id tenant.

Lemma quiet_get_scoped i statuses : Stable quiet (_get_scoped tenant i statuses).
Proof. unfold _get_scoped. solve_stable. Qed.

Lemma get_scoped_ok i statuses w f w1 : _get_scoped tenant i statuses w = (Ok f, w1) ->
  w_db w Tstored_files !! i = Some f /\ kept_file org i f = true /\ sf_status f ∈ statuses.
Proof.
  unfold _get_scoped. intros H. apply bind_ok in H as (rows & w2 & [= <- <-] & H).
  apply bind_ok in H as (found & w3 & Hf & H). apply scalar_ok in Hf as [-> [[-> _]|[[k r] [-> E]]]]; [done|].
  injection H as <- <-. apply found_only in E as (Hk & Hp & _). unfold scoped_file in Hp.
  repeat (apply andb_true_iff in Hp as [Hp ?]). repeat match goal with H : bool_decide _ = true |- _ => apply bool_decide_eq_true in H end.
  subst k. split_and!; [done| |done]. unfold kept_file. rewrite !bool_decide_eq_true_2 by done. done.
Qed.

Lemma adjust_moves o delta enforce w r w' : adjust_gauge o "storage_bytes" delta enforce w = (Ok r, w') ->
  gauge_moved o delta (w_db w) (w_db w') /\ w_db w' Tstored_files = w_db w Tstored_files /\
  w_fresh w' = w_fresh w /\ w_durable w' = w_durable w.
Proof. intros H. apply adjust_run in H as (c & Hc & Ec & Ef & Hd & Hf). split_and!; [by exists c|by apply Ef|done|done]. Qed.

Lemma moved_frame o delta d1 d2 d3 : gauge_moved o delta d1 d2 -> d3 Tusage_counters = d2 Tusage_counters ->
  gauge_moved o delta d1 d3.
Proof. intros (c & Hc & E) E'. exists c. by rewrite E'. Qed.

(** The bytes of a new file reserved, its row written. *)
Lemma reserved n m d d' (f : row Tstored_files) : files_at n d -> (n < m)%N -> sf_organization_id f = org ->
  sf_deleted_at f = None -> (0 <= sf_size_bytes f)%Z ->
  gauge_moved org (sf_size_bytes f) d d' -> d' Tstored_files = <[n := f]> (d Tstored_files) -> files_at m d'.
Proof.
  intros [Hg Hb] Hn Ho Hd Hz Hm E. split; [by apply (exact_add d d' org n f Hg (Hb n ltac:(lia)))|].
  intros j Hj. rewrite E. apply (put_other Tstored_files); [|apply Hb; lia]. intros ->. lia.
Qed.

(** Giving back the bytes of a file marked deleted. *)
Lemma released n m d d' i (f f' : row Tstored_files) : files_at n d -> (n <= m)%N -> d Tstored_files !! i = Some f ->
  kept_file org i f = true -> sf_size_bytes f' = sf_size_bytes f -> sf_deleted_at f' <> None ->
  gauge_moved org (- sf_size_bytes f) d d' -> d' Tstored_files = <[i := f']> (d Tstored_files) -> files_at m d'.
Proof.
  intros [Hg Hb] Hn Hi Hk Hz Hd Hm E. split; [by apply (exact_remove d d' org i f f')|].
  intros j Hj. rewrite E. apply (put_other Tstored_files); [|apply Hb; lia]. intros ->. rewrite Hb in Hi by lia. done.
Qed.

Lemma recorded_ok event i f w a w' : _record_file_event event i f w = (Ok a, w') ->
  (w_fresh w <= w_fresh w')%N /\ w_db w' Tstored_files = w_db w Tstored_files /\
  w_db w' Tusage_counters = w_db w Tusage_counters.
Proof.
  intros E. assert (H : (_record_file_event event i f w).2 = w') by (by rewrite E). rewrite <- H.
  split_and!; [simpl; lia|done|done].
Qed.

Lemma upload_good multipart part w : files_ok w ->
  match part with Some (_, _, size) => (0 <= size)%Z | None => True end ->
  good (upload_file fga_check storage user_id u tenant multipart part) w.
Proof.
  intros Hw Hp. unfold upload_file. apply good_bind; [apply quiet_permission|done|]. intros [] w1 _ Hw1 _.
  apply good_bind; [apply quiet_feature|done|]. intros ent w2 _ Hw2 _.
  apply good_step; [unfold _record_file_event; solve_stable|apply Hw2|]. intros [i f] w3.
  destruct multipart; [simpl|done]. destruct part as [[[name type] size]|]; [|done]. case_match; [done|].
  intros H'. apply bind_ok in H' as (r & w4 & Ha & H'). apply bind_ok in H' as (k & w5 & Hk & H').
  apply adjust_moves in Ha as (Hm & Hf & Hn & _). apply (quiet_step _ _ _ _ (quiet_lift _)) in Hk as (Hk1 & _ & Hk3).
  apply bind_ok in H' as ([] & w6 & Ho & H'). apply (quiet_step _ _ _ _ (quiet_lift _)) in Ho as (Ho1 & _ & Ho3).
  revert H'. run. intros H'. apply flush_ok in H' as [_ H']. apply bind_ok in H' as ([] & w7 & He & [= _ <- <-]).
  apply recorded_ok in He as (Hn' & Hf' & Hc'). simpl in Hn'.
  rewrite put_w_eq in Hf'. rewrite put_w_ne in Hc' by done. simpl in Hf', Hc'.
  eapply (reserved (w_fresh w6) _ (w_db w2)).
  7: { rewrite Hf', Ho1, Hk1, Hf. reflexivity. }
  all: try done; try lia.
  - rewrite Ho3, Hk3, Hn. apply Hw2.
  - apply (moved_frame _ _ _ (w_db w4)); [done|]. by rewrite Hc', Ho1, Hk1.
Qed.

Lemma presign_good name type size w : files_ok w -> (0 <= size)%Z ->
  good (presign_upload fga_check storage user_id u tenant name type size) w.
Proof.
  intros Hw Hp. unfold presign_upload. apply good_bind; [apply quiet_permission|done|]. intros [] w1 _ Hw1 _.
  apply good_bind; [apply quiet_feature|done|]. intros ent w2 _ Hw2 _.
  apply good_step; [solve_stable|apply Hw2|]. intros [[i k] url] w3. case_match; [done|].
  intros H'. apply bind_ok in H' as (r & w4 & Ha & H'). apply bind_ok in H' as (k' & w5 & Hk & H').
  apply adjust_moves in Ha as (Hm & Hf & Hn & _). apply (quiet_step _ _ _ _ (quiet_lift _)) in Hk as (Hk1 & _ & Hk3).
  apply bind_ok in H' as (url' & w6 & Ho & H'). apply (quiet_step _ _ _ _ (quiet_lift _)) in Ho as (Ho1 & _ & Ho3).
  revert H'. run. intros H'. apply flush_ok in H' as [_ H']. injection H' as _ _ _ <-.
  eapply (reserved (w_fresh w6) _ (w_db w2)).
  7: { rewrite put_w_eq. simpl. rewrite Ho1, Hk1, Hf. reflexivity. }
  all: try done; try (simpl; lia).
  - rewrite Ho3, Hk3, Hn. apply Hw2.
  - apply (moved_frame _ _ _ (w_db w4)); [done|]. rewrite put_w_ne by done. simpl. by rewrite Ho1, Hk1.
Qed.

Lemma delete_good i w : files_ok w -> good (delete_file fga_check storage user_id u tenant i) w.
Proof.
  intros Hw. unfold delete_file. apply good_bind; [apply quiet_permission|done|]. intros [] w1 _ Hw1 _.
  apply good_bind; [apply quiet_get_scoped|done|]. intros f w2 Hg Hw2 Ht.
  apply get_scoped_ok in Hg as (Hi & Hkept & _). rewrite <- Ht in Hi.
  apply good_step; [unfold _record_file_event; solve_stable|apply Hw2|]. intros [] w3. run. intros H'.
  apply bind_ok in H' as ([] & w4 & Ho & H'). apply (quiet_step _ _ _ _ (quiet_lift _)) in Ho as (Ho1 & _ & Ho3).
  apply bind_ok in H' as (r & w5 & Ha & He). apply adjust_moves in Ha as (Hm & Hf & Hn & _).
  apply recorded_ok in He as (Hn' & Hf' & Hc').
  eapply (released (w_fresh w2) _ (w_db w2) _ i f).
  8: { rewrite Hf', Hf, Ho1, put_w_eq. reflexivity. }
  all: try done; try apply Hw2.
  - rewrite Ho3 in Hn. simpl in Hn. lia.
  - apply (moved_frame _ _ _ (w_db w5)); [|done]. destruct Hm as (c & Hc & E). exists c. simpl in Hc.
    unfold storage_gauge in *. rewrite Ho1, put_w_ne in Hc by done. rewrite E, Ho1, put_w_ne by done. done.
Qed.

(** Committing before reporting an error keeps what was done. *)
Lemma good_commit_raise {A} k extras w : files_ok w -> good (_ ← commit; raise_domain k extras : M A) w.
Proof.
  intros [H1 H2]. unfold good, commit, flush, mbind, M_bind. by destruct (bool_decide (constraints_ok (w_db w))).
Qed.

Lemma complete_good i w : files_ok w -> good (complete_upload fga_check storage user_id u tenant i) w.
Proof.
  intros Hw. unfold complete_upload. apply good_bind; [apply quiet_permission|done|]. intros [] w1 _ Hw1 _.
  apply good_bind; [apply quiet_get_scoped|done|]. intros f w2 Hg Hw2 Ht.
  apply get_scoped_ok in Hg as (Hi & Hkept & _). rewrite <- Ht in Hi.
  destruct (String.eqb (sf_status f) "ready"); [by split; [apply Hw2|intros; apply Hw2]|].
  apply good_bind; [apply quiet_lift|done|]. intros actual w3 _ Hw3 Ht3. rewrite <- Ht3 in Hi. case_match.
  - pose proof (grows_adjust (tx_organization_id tenant) "storage_bytes" (- sf_size_bytes f) true w3) as [Hgn Hgd].
    destruct (adjust_gauge (tx_organization_id tenant) "storage_bytes" (- sf_size_bytes f) true w3) as [[r|e] w4] eqn:Ha.
    2: { unfold good. rewrite (run_err _ _ _ _ _ Ha). split; [|done]. simpl in *. rewrite Hgd. by apply (files_later (w_fresh w3)), Hw3. }
    unfold good. rewrite (run_ok _ _ _ _ _ Ha). apply adjust_moves in Ha as (Hm & Hf & Hn & Hd). run.
    assert (Hat : files_at (w_fresh w4) (w_db (put_w Tstored_files i (f <| sf_deleted_at := Some (w_clock w4) |>) w4))).
    { eapply (released (w_fresh w3) _ (w_db w3) _ i f).
      8: { rewrite put_w_eq, Hf. reflexivity. }
      all: try done; try apply Hw3; try (simpl; lia). }
    apply good_commit_raise. split; [exact Hat|]. simpl. rewrite Hd, Hn. apply Hw3.
  - apply good_step; [unfold _record_file_event; solve_stable|apply Hw3|]. intros f' w4. run. intros H'.
    apply flush_ok in H' as [_ H']. apply bind_ok in H' as ([] & w5 & He & [= _ <-]).
    apply recorded_ok in He as (Hn' & Hf' & Hc'). rewrite put_w_eq in Hf'. rewrite put_w_ne in Hc' by done.
    destruct Hw3 as [[Hx Hb] _]. split; [by apply (exact_same (w_db w3) _ i f (f <| sf_status := "ready" |>) Hx Hi)|].
    intros j Hj. rewrite Hf'. simpl in Hn'. apply (put_other Tstored_files); [|apply Hb; lia].
    intros <-. rewrite Hb in Hi by lia. done.
Qed.
End Operations.

(** The requests that change the index, with the sizes the transport gives:
    a body's length, and the declared size the schema bounds below. *)
Inductive file_op : Type :=
  | Upload (multipart : bool) (part : option (option string * option string * Z))
  | Presign (name content_type : string) (size_bytes : Z)
  | Complete (file_id : uuid)
  | Delete (file_id : uuid).

Definition op_sized (op : file_op) : bool :=
  match op with
  | Upload _ (Some (_, _, size)) => (0 <=? size)%Z
  | Presign _ _ size => (0 <? size)%Z && (size <=? 5 * 1024 * 1024 * 1024)%Z
  | _ => true
  end.

Definition run_file_op fga_check storage user_id u tenant (op : file_op) : M unit :=
  match op with
  | Upload multipart part => _ ← upload_file fga_check storage user_id u tenant multipart part; mret tt
  | Presign name type size => _ ← presign_upload fga_check storage user_id u tenant name type size; mret tt
  | Complete i => _ ← complete_upload fga_check storage user_id u tenant i; mret tt
  | Delete i => delete_file fga_check storage user_id u tenant i
  end.

Lemma good_discard {A} (m : M A) w : good m w -> good (_ ← m; mret tt) w.
Proof.
  unfold good, mbind, M_bind. destruct (m w) as [[a|e] w1]; simpl; [|by intros [??]].
  intros [H1 H2]. split; [done|]. intros [] _. by apply (H2 a).
Qed.

Lemma file_op_ok fga_check storage user_id u tenant op w : op_sized op = true -> files_ok w ->
  files_ok (request (run_file_op fga_check storage user_id u tenant op) w).2.
Proof.
  intros Hs Hw. apply good_request. destruct op as [b p|n t z|i|i]; simpl in *.
  - apply good_discard, upload_good; [done|]. destruct p as [[[? ?] z]|]; [|done]. lia.
  - apply good_discard, presign_good; [done|lia].
  - by apply good_discard, complete_good.
  - by apply delete_good.
Qed.

(** ** Keys stay in their tenant *)

Lemma starts_with_split p s : starts_with p s = true -> exists rest, s = p +:+ rest.
Proof.
  revert s. induction p as [|a p IH]; intros s; [by exists s|]. destruct s as [|b s]; [done|]. simpl.
  destruct (ascii_dec a b) as [->|]; [|done]. intros H. destruct (IH s H) as [r ->]. by exists r.
Qed.

Lemma app_inj_length s1 : forall s2 t1 t2, String.length s1 = String.length s2 -> s1 +:+ t1 = s2 +:+ t2 -> s1 = s2 /\ t1 = t2.
Proof.
  induction s1 as [|a s1 IH]; intros [|b s2] t1 t2; try done. simpl. intros [= Hl].
  rewrite !string_app_cons. intros [= -> H]. by destruct (IH _ _ _ Hl H) as [-> ->].
Qed.

Lemma app_length_string s t : String.length (s +:+ t) = String.length s + String.length t.
Proof. induction s; simpl; [done|]. by rewrite IHs. Qed.

Lemma hex_digit_inj n m : (n < 16)%N -> (m < 16)%N -> hex_digit n = hex_digit m -> n = m.
Proof.
  intros Hn Hm. unfold hex_digit.
  destruct (N.ltb_spec n 10), (N.ltb_spec m 10); intros E; apply (f_equal N_of_ascii) in E;
    rewrite !N_ascii_embedding in E by lia; lia.
Qed.

Lemma hex_digits_length w n : String.length (hex_digits w n) = w.
Proof. revert n. induction w as [|w IH]; intros n; simpl; [done|]. rewrite app_length_string, IH. simpl. lia. Qed.

Lemma hex_digits_inj w : forall n m, hex_digits w n = hex_digits w m -> (n mod 16 ^ N.of_nat w = m mod 16 ^ N.of_nat w)%N.
Proof.
  induction w as [|w IH]; intros n m; [intros _; by rewrite !N.mod_1_r|]. cbn [hex_digits]. intros H.
  apply app_inj_length in H as [H1 H2]; [|by rewrite !hex_digits_length]. injection H2 as H2.
  apply hex_digit_inj in H2; [|by apply N.mod_lt..]. apply IH in H1. rewrite Nat2N.inj_succ, N.pow_succ_r'.
  rewrite !N.Div0.mod_mul_r. by rewrite H1, H2.
Qed.

Lemma uuid_text_length u : String.length (uuid_text u) = 36.
Proof. unfold uuid_text. by rewrite !app_length_string, !hex_digits_length. Qed.

Lemma glue_mod a b u v : (u mod 2 ^ a = v mod 2 ^ a -> (u / 2 ^ a) mod 2 ^ b = (v / 2 ^ a) mod 2 ^ b ->
  u mod 2 ^ (a + b) = v mod 2 ^ (a + b))%N.
Proof. intros H1 H2. rewrite N.pow_add_r, !N.Div0.mod_mul_r. by rewrite H1, H2. Qed.

Lemma uuid_text_inj u v : (u < 2 ^ 128)%N -> (v < 2 ^ 128)%N -> uuid_text u = uuid_text v -> u = v.
Proof.
  intros Hu Hv H. unfold uuid_text in H.
  apply app_inj_length in H as [E1 H]; [|by rewrite !hex_digits_length]. apply (app_inj_length "-" "-") in H as [_ H]; [|done].
  apply app_inj_length in H as [E2 H]; [|by rewrite !hex_digits_length]. apply (app_inj_length "-" "-") in H as [_ H]; [|done].
  apply app_inj_length in H as [E3 H]; [|by rewrite !hex_digits_length]. apply (app_inj_length "-" "-") in H as [_ H]; [|done].
  apply app_inj_length in H as [E4 H]; [|by rewrite !hex_digits_length]. apply (app_inj_length "-" "-") in H as [_ E5]; [|done].
  apply hex_digits_inj in E1, E2, E3, E4, E5.
  rewrite <- (N.mod_small u (2 ^ 128)), <- (N.mod_small v (2 ^ 128)) by done.
  apply (glue_mod 96 32); [|exact E1]. apply (glue_mod 80 16); [|exact E2]. apply (glue_mod 64 16); [|exact E3].
  by apply (glue_mod 48 16).
Qed.

Definition is_key_text (c : ascii) : Prop := c <> "/"%char.

Lemma hex_digit_text n : (n < 16)%N -> is_key_text (hex_digit n).
Proof.
  intros Hn E. unfold is_key_text, hex_digit in E. apply (f_equal N_of_ascii) in E.
  destruct (N.ltb_spec n 10); rewrite N_ascii_embedding in E by lia; change (N_of_ascii "/") with 47%N in E; lia.
Qed.

Lemma hex_digits_text w n : string_Forall is_key_text (hex_digits w n).
Proof.
  revert n. induction w as [|w IH]; intros n; [done|]. cbn [hex_digits]. rewrite string_Forall_app. split; [apply IH|].
  split; [|done]. by apply hex_digit_text, N.mod_lt.
Qed.

Lemma uuid_text_text u : string_Forall is_key_text (uuid_text u).
Proof. unfold uuid_text. rewrite !string_Forall_app. split_and!; try apply hex_digits_text; done. Qed.

Lemma contains_char c s : contains (String c "") s = false -> string_Forall (.≠ c) s.
Proof.
  unfold contains. induction s as [|a s IH]; simpl; [done|]. destruct (ascii_dec c a) as [->|Hne].
  - by destruct s.
  - intros H. split; [congruence|]. apply IH. by destruct (String.index 0 (String c "") s).
Qed.

Lemma no_traversal safe : (contains "/" safe && bool_decide (".." ∈ split_on "/" safe)) = false -> safe <> ".." ->
  ".." ∉ split_on "/" safe.
Proof.
  intros H Hne. destruct (contains "/" safe) eqn:E; simpl in H; [by apply bool_decide_eq_false in H|].
  rewrite (split_on_none "/" safe) by (by apply contains_char). rewrite list_elem_of_singleton. congruence.
Qed.

Lemma resolve_named root x : 2 < String.length x -> resolve_step root x = root ++ [x].
Proof.
  intros H. assert (Hx : forall y, String.length y <= 2 -> String.eqb x y = false).
  { intros y Hy. apply String.eqb_neq. intros ->. lia. }
  unfold resolve_step. by rewrite !Hx by (simpl; lia).
Qed.

Lemma resolve_appends l : forall root, ".." ∉ l -> exists rest, foldl resolve_step root l = root ++ rest.
Proof.
  induction l as [|x l IH]; intros root H; [exists []; by rewrite app_nil_r|].
  apply not_elem_of_cons in H as [Hx Hl]. simpl. destruct (IH (resolve_step root x) Hl) as [rest ->].
  unfold resolve_step. destruct (_ || _); [by exists rest|]. rewrite (proj2 (String.eqb_neq x "..")) by congruence.
  exists (x :: rest). by rewrite <- app_assoc.
Qed.

Lemma join_app c l x rest : l <> [] -> join c (l ++ x :: rest) = join c l +:+ String c (join c (x :: rest)).
Proof.
  intros Hl. induction l as [|y l IH]; [done|]. destruct l as [|z l]; [apply join_cons|].
  simpl app. rewrite !join_cons. simpl app in IH. rewrite IH by done. by rewrite string_app_assoc.
Qed.

Lemma scoped_key_shape o name k : scoped_key o name = Ok k ->
  k = uuid_text o +:+ "/" +:+ lstrip_char "/" name /\ key_matches k = true /\
  (contains "/" (lstrip_char "/" name) && bool_decide (".." ∈ split_on "/" (lstrip_char "/" name))) = false.
Proof.
  unfold scoped_key, validate_key. generalize (lstrip_char "/" name) as safe. intros safe. cbv zeta.
  generalize (uuid_text o +:+ "/" +:+ safe) as key. generalize (uuid_text o +:+ "/") as prefix. intros prefix key.
  destruct (contains "/" safe && _); [done|]. destruct (key_matches key) eqn:Ek; [|done].
  cbn [negb]. destruct (starts_with prefix key); [|done]. by intros [= <-].
Qed.

(** The object key built for a name stays inside its organization: under any
    root it names a path below the organization's own directory, which the local
    backend accepts, and no other organization's check accepts the key.  The bare
    name [..] is the one exception, which the traversal check lets through. *)
Theorem scoped_keys_confined root o name k :
  scoped_key o name = Ok k -> lstrip_char "/" name <> ".." ->
  (exists rest, _path root k = Ok (root ++ uuid_text o :: rest)) /\
  forall o', (o < 2 ^ 128)%N -> (o' < 2 ^ 128)%N -> o' <> o ->
    validate_key k (Some o') = Err (Domain TenantViolationError []).
Proof.
  intros H Hne. apply scoped_key_shape in H as (E & Hm & Hg). split.
  - assert (Hr : exists rest, resolve root k = root ++ uuid_text o :: rest).
    { unfold resolve. rewrite E. change ("/" +:+ lstrip_char "/" name) with (String "/" (lstrip_char "/" name)).
      rewrite split_on_app, (split_on_none _ (uuid_text o)) by apply uuid_text_text. simpl.
      destruct (resolve_appends (split_on "/" (lstrip_char "/" name)) (resolve_step root (uuid_text o))) as [rest ->];
        [by apply no_traversal|]. exists rest.
      rewrite resolve_named by (rewrite uuid_text_length; lia). by rewrite <- app_assoc. }
    destruct Hr as [rest Hr]. exists rest. unfold _path, validate_key. rewrite Hm. simpl. rewrite Hr.
    replace (starts_with _ _) with true; [done|]. symmetry. unfold path_text. destruct root as [|x root].
    + apply (starts_with_app "/").
    + rewrite join_app by done. apply (starts_with_app ("/" +:+ join "/" (x :: root))).
  - intros o' Ho Ho' Hno. unfold validate_key. rewrite Hm. simpl. destruct (starts_with _ k) eqn:Ep; [|done].
    apply starts_with_split in Ep as [rest Ep]. exfalso. apply Hno, uuid_text_inj; [done..|]. rewrite E in Ep.
    rewrite string_app_assoc in Ep. by apply app_inj_length in Ep as [? _]; [|by rewrite !uuid_text_length].
Qed.

Lemma scoped_keys_confined_witness :
  exists k, scoped_key 1 "/reports/june.pdf" = Ok k /\
    validate_key k (Some 2%N) = Err (Domain TenantViolationError []) /\ exists rest, _path ["data"] k = Ok ("data" :: rest).
Proof.
  eexists. split; [vm_compute; reflexivity|].
  destruct (scoped_keys_confined ["data"] 1 "/reports/june.pdf" (uuid_text 1 +:+ "/reports/june.pdf")) as [[rest Hr] Ho].
  - vm_compute. reflexivity.
  - vm_compute. discriminate.
  - split; [apply (Ho 2%N); done|]. eexists. exact Hr.
Defined.
