(* ===== verification/Backends.v ===== *)
(** The storage backends behind the routes of [Storage] (storage/backend.py): files on
    the local disk, over the tree of the file system, and an S3-compatible bucket, over
    the answers of its client.

    Paths are lists of segments, innermost first, without symbolic links; what
    [Path.mkdir], [write_bytes], [unlink] and [is_file] do to the tree is written out,
    with the exceptions of a POSIX system; a disk that is full or fails is a
    [disk_faults].  Reading a file that is there succeeds.  Validation of keys and the resolution of a
    path are [Storage.validate_key] and [Storage._path]. *)

From S2P Require Import Prelude Text Permissions Json Errors Events Tables Store Cache Session Fixtures Storage.

(** ** The file system *)

Inductive node : Type := Dir | File (data : string).
Abbreviation disk := (gmap (list string) node).

(** What a path leads to. *)
Inductive entry : Type := Found (n : node) | Missing | Blocked.

Fixpoint stat (p : list string) (d : disk) : entry :=
  match d !! p with
  | Some n => Found n
  | None =>
      match p with
      | [] => Found Dir
      | _ :: up => match stat up d with Found (File _) | Blocked => Blocked | _ => Missing end
      end
  end.

(** What the disk makes of a change: the making or removing of an entry fails, a file
    cannot be opened, or the writing stops after some bytes, when opening it has
    already emptied it. *)
Inductive write_outcome : Type := Written | NotOpened | Torn (bytes : nat).
Record disk_faults : Type := DiskFaults {
  mkdir_fails : list string -> disk -> bool;
  writing : list string -> disk -> write_outcome;
  unlink_fails : list string -> disk -> bool
}.
Definition no_faults : disk_faults := DiskFaults (fun _ _ => false) (fun _ _ => Written) (fun _ _ => false).

Section Disk.
Context (io : disk_faults).

(** [Path.mkdir(parents=True, exist_ok=True)]. *)
Fixpoint mkdirs (p : list string) (d : disk) : result unit * disk :=
  match stat p d with
  | Found Dir => (Ok tt, d)
  | Found (File _) => (Err (PyError "FileExistsError"), d)
  | Blocked => (Err (PyError "NotADirectoryError"), d)
  | Missing =>
      match p with
      | [] => (Ok tt, d)
      | _ :: up =>
          match mkdirs up d with
          | (Ok _, d) => if mkdir_fails io p d then (Err (PyError "OSError"), d) else (Ok tt, <[p := Dir]> d)
          | failed => failed
          end
      end
  end.

Definition write_bytes (p : list string) (data : string) (d : disk) : result unit * disk :=
  match stat p d with
  | Found Dir => (Err (PyError "IsADirectoryError"), d)
  | Blocked => (Err (PyError "NotADirectoryError"), d)
  | _ =>
      match writing io p d with
      | Written => (Ok tt, <[p := File data]> d)
      | NotOpened => (Err (PyError "OSError"), d)
      | Torn n => (Err (PyError "OSError"), <[p := File (str_take n data)]> d)
      end
  end.

(** [Path.unlink(missing_ok=True)]. *)
Definition unlink (p : list string) (d : disk) : result unit * disk :=
  match stat p d with
  | Found (File _) => if unlink_fails io p d then (Err (PyError "OSError"), d) else (Ok tt, delete p d)
  | Found Dir => (Err (PyError "IsADirectoryError"), d)
  | Missing => (Ok tt, d)
  | Blocked => (Err (PyError "NotADirectoryError"), d)
  end.

End Disk.

(** ** [LocalDiskStorage] *)

Section Local.
Context (io : disk_faults) (root : list string).

Definition local_init (d : disk) : result unit * disk := mkdirs io (rev root) d.

(** The path of a key, innermost segment first. *)
Definition location (key : string) : result (list string) :=
  match _path root key with Ok p => Ok (rev p) | Err e => Err e end.

Definition local_put (key data content_type : string) (d : disk) : result string * disk :=
  match location key with
  | Err e => (Err e, d)
  | Ok p =>
      match mkdirs io (tail p) d with
      | (Err e, d) => (Err e, d)
      | (Ok _, d) => match write_bytes io p data d with (Ok _, d) => (Ok key, d) | (Err e, d) => (Err e, d) end
      end
  end.

Definition local_get (key : string) (d : disk) : result string :=
  match location key with
  | Err e => Err e
  | Ok p => match stat p d with Found (File data) => Ok data | _ => Err (Domain NotFoundError []) end
  end.

Definition local_delete (key : string) (d : disk) : result unit * disk :=
  match location key with Err e => (Err e, d) | Ok p => unlink io p d end.

Definition local_presign (key : string) : result string :=
  match location key with Err e => Err e | Ok _ => storage_error end.

Definition local_head (key : string) (d : disk) : result (option Z) :=
  match location key with
  | Err e => Err e
  | Ok p => Ok match stat p d with Found (File data) => Some (Z.of_nat (String.length data)) | _ => None end
  end.

(** The answers [Storage]'s routes get: [data_of] is the body of an upload of a size. *)
Definition local_object_store (data_of : Z -> string) (d : disk) : object_store :=
  ObjectStore (fun key size => match (local_put key (data_of size) "" d).1 with Ok _ => Ok tt | Err e => Err e end)
    (fun key => local_get key d) (fun key => local_head key d) (fun key => (local_delete key d).1)
    local_presign (fun key _ => local_presign key) false.
End Local.

(** ** [S3Storage] *)

(** What a call of the S3 client comes to: its answer, or an exception with the text
    [str] gives. *)
Inductive answer (A : Type) : Type := Answer (a : A) | Raised (text : string).
Arguments Answer {_} _.
Arguments Raised {_} _.

Record s3_client (B : Type) : Type := S3Client {
  put_object : string -> string -> string -> B -> answer unit * B;
  get_object : string -> B -> answer string;
  delete_object : string -> B -> answer unit * B;
  head_object : string -> B -> answer (option Z);
  generate_presigned_url : string -> list (string * string) -> Z -> answer string
}.
Arguments put_object {_} _ _ _ _ _.
Arguments get_object {_} _ _ _.
Arguments delete_object {_} _ _ _.
Arguments head_object {_} _ _ _.
Arguments generate_presigned_url {_} _ _ _ _.

Section S3.
Context {B : Type} (s3 : s3_client B) (presign_seconds : Z).

(** An exception nothing handles. *)
Definition answered {A} (a : answer A) : result A :=
  match a with Answer x => Ok x | Raised _ => Err (PyError "ClientError") end.

Definition valid_then {A} (key : string) (r : result A) : result A :=
  match validate_key key None with Ok _ => r | Err e => Err e end.

Definition s3_put (key data content_type : string) (b : B) : result string * B :=
  match validate_key key None with
  | Err e => (Err e, b)
  | Ok _ => match put_object s3 key data content_type b with
            | (Answer _, b) => (Ok key, b) | (Raised _, b) => (Err (PyError "ClientError"), b) end
  end.

Definition s3_get (key : string) (b : B) : result string :=
  valid_then key
    match get_object s3 key b with
    | Answer data => Ok data
    | Raised text =>
        if contains "NoSuchKey" text || contains "404" text then Err (Domain NotFoundError []) else storage_error
    end.

Definition s3_delete (key : string) (b : B) : result unit * B :=
  match validate_key key None with
  | Err e => (Err e, b)
  | Ok _ => let '(a, b) := delete_object s3 key b in (answered a, b)
  end.

Definition s3_presign_get (key : string) : result string :=
  valid_then key (answered (generate_presigned_url s3 "get_object" [("Key", key)] presign_seconds)).
Definition s3_presign_put (key content_type : string) : result string :=
  valid_then key (answered (generate_presigned_url s3 "put_object" [("Key", key); ("ContentType", content_type)] presign_seconds)).

Definition s3_head (key : string) (b : B) : result (option Z) :=
  valid_then key
    match head_object s3 key b with
    | Answer length => Ok (Some (default 0%Z length))
    | Raised text =>
        if contains "404" text || contains "Not Found" text || contains "NoSuchKey" text then Ok None else storage_error
    end.

Definition s3_object_store (data_of : Z -> string) (b : B) : object_store :=
  ObjectStore (fun key size => match (s3_put key (data_of size) "" b).1 with Ok _ => Ok tt | Err e => Err e end)
    (fun key => s3_get key b) (fun key => s3_head key b) (fun key => (s3_delete key b).1)
    s3_presign_get s3_presign_put true.
End S3.

(** ** Which one *)

Inductive backend : Type := S3 (bucket : string) | LocalDisk.

(** [get_storage]: the cached choice, or one by the bucket of the settings. *)
Definition get_storage (s3_bucket : string) (cached : option backend) : backend * option backend :=
  match cached with
  | Some b => (b, cached)
  | None => let b := if String.eqb s3_bucket "" then LocalDisk else S3 s3_bucket in (b, Some b)
  end.
Definition reset_storage (_ : option backend) : option backend := None.

(** ** What a backend promises *)

(** A store of bodies under keys: keys with one location are one key.  A change that
    fails may have been made, or have stopped on the way, but at that location only. *)
Class Stores {St K : Type} (loc : string -> result K) (ok : St -> Prop)
    (put : string -> string -> string -> St -> result string * St) (get : string -> St -> result string)
    (del : string -> St -> result unit * St) (head : string -> St -> result (option Z)) : Prop := {
  stores_put key data content_type s k s' : ok s -> put key data content_type s = (Ok k, s') ->
    k = key /\ get key s' = Ok data /\ head key s' = Ok (Some (Z.of_nat (String.length data)));
  stores_put_kept key data content_type s r s' : ok s -> put key data content_type s = (r, s') ->
    ok s' /\ forall key', loc key' <> loc key -> get key' s' = get key' s /\ head key' s' = head key' s;
  stores_put_failed key data content_type s e s' : ok s -> put key data content_type s = (Err e, s') ->
    get key s' = get key s \/ exists n, get key s' = Ok (str_take n data);
  stores_deleted key s s' : ok s -> del key s = (Ok tt, s') ->
    get key s' = Err (Domain NotFoundError []) /\ head key s' = Ok None;
  stores_delete_kept key s r s' : ok s -> del key s = (r, s') ->
    ok s' /\ forall key', loc key' <> loc key -> get key' s' = get key' s /\ head key' s' = head key' s;
  stores_delete_failed key s e s' : ok s -> del key s = (Err e, s') ->
    get key s' = get key s \/ get key s' = Err (Domain NotFoundError [])
}.

(** ** The local disk keeps it *)

(** Everything lies in a directory. *)
Definition tree (d : disk) : Prop := forall s up n, d !! (s :: up) = Some n -> up = [] \/ d !! up = Some Dir.

Definition file_at (p : list string) (d : disk) : option string :=
  match d !! p with Some (File data) => Some data | _ => None end.

Lemma stat_file p d data : stat p d = Found (File data) <-> d !! p = Some (File data).
Proof.
  destruct p as [|s up]; cbn; destruct (d !! _) as [n|] eqn:E; (split; [|congruence]); try congruence.
  intros H. by repeat case_match.
Qed.

Lemma stat_files p d : match stat p d with Found (File data) => Some data | _ => None end = file_at p d.
Proof.
  unfold file_at. destruct (stat p d) as [[|data]| |] eqn:E; [|by rewrite (proj1 (stat_file _ _ _) E)|..];
    (destruct (d !! p) as [[|data]|] eqn:L; [done| |done]; apply stat_file in L; congruence).
Qed.

Lemma stat_dir s up d : stat (s :: up) d = Found Dir -> d !! (s :: up) = Some Dir.
Proof. cbn. intros H. by repeat case_match; simplify_eq. Qed.

Lemma stat_missing p d : stat p d = Missing -> d !! p = None.
Proof. destruct p; cbn; repeat case_match; congruence. Qed.

(** Making directories makes its path one and changes no file. *)
Lemma mkdirs_spec (io : disk_faults) p d : tree d ->
  let '(r, d') := mkdirs io p d in
  tree d' /\ (forall q, file_at q d' = file_at q d) /\ (r = Ok tt -> p = [] \/ d' !! p = Some Dir).
Proof.
  revert d. induction p as [|s up IH]; intros d Ht.
  - cbn. destruct (d !! []) as [[|]|]; split_and!; try done; by left.
  - destruct (stat (s :: up) d) as [[|data]| |] eqn:E; cbn [mkdirs]; rewrite E.
    + split_and!; [done|done|]. intros _. right. by apply stat_dir.
    + by split_and!.
    + specialize (IH d Ht). destruct (mkdirs io up d) as [[[]|e] d1]; destruct IH as (Ht1 & Hf & Hd).
      2: by split_and!.
      destruct (mkdir_fails io (s :: up) d1); [by split_and!|].
      apply stat_missing in E. specialize (Hd eq_refl).
      assert (d1 !! (s :: up) <> Some Dir -> d1 !! (s :: up) = None) as Hn.
      { intros H. specialize (Hf (s :: up)). unfold file_at in Hf. rewrite E in Hf.
        destruct (d1 !! _) as [[|]|]; congruence. }
      split_and!.
      * intros s' up' n. destruct (decide (s' :: up' = s :: up)) as [[= -> ->]|Hne].
        -- rewrite lookup_insert_eq. intros _. destruct Hd as [->|Hd]; [by left|right].
           rewrite lookup_insert_ne; [done|]. intros H. apply (f_equal length) in H. cbn in H. lia.
        -- rewrite lookup_insert_ne by done. intros [->|Hp]%Ht1; [by left|right].
           destruct (decide (up' = s :: up)) as [->|]; [by rewrite lookup_insert_eq|by rewrite lookup_insert_ne].
      * intros q. unfold file_at. destruct (decide (q = s :: up)) as [->|Hq].
        -- rewrite lookup_insert_eq. specialize (Hf (s :: up)). unfold file_at in Hf. by rewrite E in Hf |- *.
        -- rewrite lookup_insert_ne by done. apply Hf.
      * intros _. right. by rewrite lookup_insert_eq.
    + by split_and!.
Qed.

Lemma tree_files (d : disk) (p : list string) (x : string) : tree d ->
  (p <> [] -> tail p = [] \/ d !! tail p = Some Dir) -> d !! p <> Some Dir -> tree (<[p := File x]> d).
Proof.
  intros Ht Hp Hn s up n. destruct (decide (s :: up = p)) as [<-|Hne].
  - intros _. specialize (Hp ltac:(done)). cbn in Hp. destruct Hp as [->|Hp]; [by left|right].
    rewrite lookup_insert_ne; [done|]. intros H. apply (f_equal length) in H. cbn in H. lia.
  - rewrite lookup_insert_ne by done. intros [->|H]%Ht; [by left|right].
    rewrite lookup_insert_ne; [done|]. intros ->. congruence.
Qed.

Lemma tree_delete (d : disk) (p : list string) (x : string) : tree d -> d !! p = Some (File x) -> tree (delete p d).
Proof.
  intros Ht Hp s up n H. apply lookup_delete_Some in H as [Hne H]. apply Ht in H as [->|H]; [by left|right].
  rewrite lookup_delete_ne; [done|]. intros ->. congruence.
Qed.

Lemma write_spec (io : disk_faults) (p : list string) (data : string) (d : disk) (r : result unit) (d' : disk) : tree d ->
  (tail p = [] \/ d !! tail p = Some Dir) -> write_bytes io p data d = (r, d') ->
  tree d' /\ match r with Ok _ => d' = <[p := File data]> d | Err _ => d' = d \/ exists n, d' = <[p := File (str_take n data)]> d end.
Proof.
  intros Ht Hp. unfold write_bytes.
  assert (Hin : d !! p <> Some Dir -> forall x, tree (<[p := File x]> d)) by (intros Hn x; apply tree_files; [done|by intros _|done]).
  assert (Hw : d !! p <> Some Dir -> (match writing io p d with
      | Written => (Ok tt, <[p := File data]> d)
      | NotOpened => (Err (PyError "OSError"), d)
      | Torn n => (Err (PyError "OSError"), <[p := File (str_take n data)]> d)
      end) = (r, d') -> tree d' /\ match r with Ok _ => d' = <[p := File data]> d | Err _ => d' = d \/ exists n, d' = <[p := File (str_take n data)]> d end).
  { intros Hn. specialize (Hin Hn). destruct (writing io p d) as [| |n]; intros [= <- <-]; split; [apply Hin|done|done|by left|apply Hin|right; by exists n]. }
  destruct (stat p d) as [[|x]| |] eqn:E; [intros [= <- <-]; split; [done|by left]|apply Hw..|intros [= <- <-]; split; [done|by left]].
  - apply stat_file in E. congruence.
  - apply stat_missing in E. congruence.
Qed.

Section LocalLaws.
Context (io : disk_faults) (root : list string).

Lemma get_files key d :
  local_get root key d = match location root key with
    | Ok p => match file_at p d with Some data => Ok data | None => Err (Domain NotFoundError []) end
    | Err e => Err e end.
Proof. unfold local_get. destruct (location root key) as [p|e]; [|done]. rewrite <- stat_files. by repeat case_match. Qed.

Lemma head_files key d :
  local_head root key d = match location root key with
    | Ok p => Ok ((fun data => Z.of_nat (String.length data)) <$> file_at p d)
    | Err e => Err e end.
Proof. unfold local_head. destruct (location root key) as [p|e]; [|done]. rewrite <- stat_files. by repeat case_match. Qed.

(** Trees whose files agree at a key's location answer alike. *)
Lemma same_files key d d' : (forall p, location root key = Ok p -> file_at p d' = file_at p d) ->
  local_get root key d' = local_get root key d /\ local_head root key d' = local_head root key d.
Proof.
  intros H. rewrite !get_files, !head_files. destruct (location root key) as [p|e]; [|done]. by rewrite (H p eq_refl).
Qed.

Lemma file_at_insert (p q : list string) (x : string) (d : disk) : file_at q (<[p := File x]> d) = if decide (q = p) then Some x else file_at q d.
Proof. unfold file_at. case_decide as H; [subst; by rewrite lookup_insert_eq|by rewrite lookup_insert_ne]. Qed.
Lemma file_at_delete (p q : list string) (d : disk) : file_at q (delete p d) = if decide (q = p) then None else file_at q d.
Proof. unfold file_at. case_decide as H; [subst; by rewrite lookup_delete_eq|by rewrite lookup_delete_ne]. Qed.

(** A put, and a removal, at the files. *)
Lemma local_put_files key data ct d r d' : tree d -> local_put io root key data ct d = (r, d') ->
  tree d' /\ (forall q, location root key <> Ok q -> file_at q d' = file_at q d) /\
  match r with
  | Ok k => k = key /\ exists p, location root key = Ok p /\ file_at p d' = Some data
  | Err _ => forall p, location root key = Ok p -> file_at p d' = file_at p d \/ exists n, file_at p d' = Some (str_take n data)
  end.
Proof.
  intros Ht H. unfold local_put in H. destruct (location root key) as [p|e] eqn:El; [|by injection H as <- <-].
  pose proof (mkdirs_spec io (tail p) d Ht) as Hm. destruct (mkdirs io (tail p) d) as [[[]|e] d1]; destruct Hm as (Ht1 & Hf & Hd).
  2: { injection H as <- <-. split_and!; [done|intros q _; apply Hf|]. intros q _. left. apply Hf. }
  specialize (Hd eq_refl). destruct (write_bytes io p data d1) as [r' d2] eqn:Ew. pose proof (write_spec _ _ _ _ _ _ Ht1 Hd Ew) as [Ht2 Hw].
  assert (Hq : forall x q, Ok p <> Ok (A := list string) q -> file_at q (<[p := File x]> d1) = file_at q d).
  { intros x q Hne. rewrite file_at_insert, decide_False by congruence. apply Hf. }
  destruct r' as [[]|e]; injection H as <- <-.
  - split_and!; [done|intros q Hne; rewrite Hw; by apply Hq|done|]. exists p. by rewrite Hw, file_at_insert, decide_True.
  - destruct Hw as [->|(n & ->)]; split_and!; try done.
    + intros q [= <-]. left. apply Hf.
    + intros q Hne. by apply Hq.
    + intros q [= <-]. right. exists n. by rewrite file_at_insert, decide_True.
Qed.

Lemma local_delete_files key d r d' : tree d -> local_delete io root key d = (r, d') ->
  tree d' /\ (forall q, location root key <> Ok q -> file_at q d' = file_at q d) /\
  match r with
  | Ok _ => exists p, location root key = Ok p /\ file_at p d' = None
  | Err _ => d' = d
  end.
Proof.
  intros Ht H. unfold local_delete in H. destruct (location root key) as [p|e] eqn:El; [|by injection H as <- <-].
  unfold unlink in H. destruct (stat p d) as [[|x]| |] eqn:E; [by injection H as <- <-| | |by injection H as <- <-].
  - destruct (unlink_fails io p d); injection H as <- <-; [done|]. split_and!.
    + apply stat_file in E. by apply (tree_delete d p x).
    + intros q Hne. rewrite file_at_delete, decide_False; [done|]. congruence.
    + exists p. by rewrite file_at_delete, decide_True.
  - injection H as <- <-. split_and!; [done|done|]. exists p. split; [done|]. unfold file_at. by rewrite stat_missing.
Qed.

Lemma local_stores : Stores (location root) tree (local_put io root) (local_get root) (local_delete io root) (local_head root).
Proof.
  split.
  - intros key data ct d k d' Ht (_ & _ & -> & p & El & Hp)%local_put_files; [|done]. by rewrite get_files, head_files, El, Hp.
  - intros key data ct d r d' Ht (Ht' & Hf & _)%local_put_files; [|done]. split; [done|]. intros key' Hne.
    apply same_files. intros q Hq. apply Hf. congruence.
  - intros key data ct d e d' Ht (_ & _ & Hp)%local_put_files; [|done]. rewrite !get_files.
    destruct (location root key) as [p|x]; [|by left]. destruct (Hp p eq_refl) as [->|(n & ->)]; [by left|right; by exists n].
  - intros key d d' Ht (_ & _ & p & El & Hp)%local_delete_files; [|done]. by rewrite get_files, head_files, El, Hp.
  - intros key d r d' Ht (Ht' & Hf & _)%local_delete_files; [|done]. split; [done|]. intros key' Hne.
    apply same_files. intros q Hq. apply Hf. congruence.
  - intros key d e d' Ht (_ & _ & ->)%local_delete_files; [|done]. by left.
Qed.
End LocalLaws.

(** ** A bucket that answers keeps it *)

(** A bucket whose reads are answered: an object is what was put last, and a missing
    one raises the codes of the S3 protocol.  A put or a delete that raises (no
    answer in time, the answer lost, an error) was carried out or was not. *)
Class Bucket {B : Type} (s3 : s3_client B) (objects : B -> gmap string string) : Prop := {
  put_object_law key data content_type b a b' : put_object s3 key data content_type b = (a, b') ->
    match a with Answer _ => objects b' = <[key := data]> (objects b) | Raised _ => objects b' = objects b \/ objects b' = <[key := data]> (objects b) end;
  delete_object_law key b a b' : delete_object s3 key b = (a, b') ->
    match a with Answer _ => objects b' = delete key (objects b) | Raised _ => objects b' = objects b \/ objects b' = delete key (objects b) end;
  get_object_law key b : match objects b !! key with
    | Some data => get_object s3 key b = Answer data
    | None => exists text, get_object s3 key b = Raised text /\ contains "NoSuchKey" text = true
    end;
  head_object_law key b : match objects b !! key with
    | Some data => head_object s3 key b = Answer (Some (Z.of_nat (String.length data)))
    | None => exists text, head_object s3 key b = Raised text /\ contains "404" text = true
    end
}.

Definition s3_location (key : string) : result string := valid_then key (Ok key).

Section BucketLaws.
Context {B : Type} (s3 : s3_client B) (objects : B -> gmap string string) `{!Bucket s3 objects}.

Lemma s3_get_objects key b : s3_get s3 key b = valid_then key
  match objects b !! key with Some data => Ok data | None => Err (Domain NotFoundError []) end.
Proof.
  unfold s3_get. pose proof (get_object_law key b) as H. destruct (objects b !! key) as [data|]; [by rewrite H|].
  destruct H as (text & -> & ->). done.
Qed.
Lemma s3_head_objects key b : s3_head s3 key b = valid_then key
  (Ok ((fun data => Z.of_nat (String.length data)) <$> objects b !! key)).
Proof.
  unfold s3_head. pose proof (head_object_law key b) as H. destruct (objects b !! key) as [data|]; [by rewrite H|].
  destruct H as (text & -> & ->). done.
Qed.

Lemma s3_same key b b' : (s3_location key = Ok key -> objects b' !! key = objects b !! key) ->
  s3_get s3 key b' = s3_get s3 key b /\ s3_head s3 key b' = s3_head s3 key b.
Proof.
  rewrite !s3_get_objects, !s3_head_objects. unfold s3_location, valid_then.
  destruct (validate_key key None); [|done]. intros H. by rewrite H.
Qed.

(** A put, and a removal, at the objects. *)
Lemma s3_put_objects key data ct b r b' : s3_put s3 key data ct b = (r, b') ->
  match r with
  | Ok k => k = key /\ s3_location key = Ok key /\ objects b' = <[key := data]> (objects b)
  | Err _ => objects b' = objects b \/ s3_location key = Ok key /\ objects b' = <[key := data]> (objects b)
  end.
Proof.
  unfold s3_put, s3_location, valid_then. destruct (validate_key key None) as [[]|e]; [|intros [= <- <-]; by left].
  destruct (put_object s3 key data ct b) as [[[]|t] b1] eqn:Ep; intros [= <- <-]; pose proof (put_object_law _ _ _ _ _ _ Ep) as Ho; cbn in Ho; tauto.
Qed.

Lemma s3_delete_objects key b r b' : s3_delete s3 key b = (r, b') ->
  match r with
  | Ok _ => s3_location key = Ok key /\ objects b' = delete key (objects b)
  | Err _ => objects b' = objects b \/ s3_location key = Ok key /\ objects b' = delete key (objects b)
  end.
Proof.
  unfold s3_delete, s3_location, valid_then. destruct (validate_key key None) as [[]|e]; [|intros [= <- <-]; by left].
  destruct (delete_object s3 key b) as [[[]|t] b1] eqn:Ep; intros [= <- <-]; pose proof (delete_object_law _ _ _ _ Ep) as Ho; cbn in Ho; tauto.
Qed.

(** Locations other than the one written to. *)
Lemma s3_elsewhere key b b' o : s3_location key = Ok key -> objects b' = partial_alter (fun _ => o) key (objects b) ->
  forall key', s3_location key' <> s3_location key -> s3_get s3 key' b' = s3_get s3 key' b /\ s3_head s3 key' b' = s3_head s3 key' b.
Proof. intros Hl Ho key' Hne. apply s3_same. intros Hk. rewrite Ho, lookup_partial_alter_ne; [done|]. congruence. Qed.

Lemma s3_at key b : s3_location key = Ok key ->
  s3_get s3 key b = match objects b !! key with Some data => Ok data | None => Err (Domain NotFoundError []) end /\
  s3_head s3 key b = Ok ((fun data => Z.of_nat (String.length data)) <$> objects b !! key).
Proof. rewrite s3_get_objects, s3_head_objects. unfold s3_location, valid_then. by destruct (validate_key key None). Qed.

Lemma s3_stores : Stores s3_location (fun _ => True) (s3_put s3) (s3_get s3) (s3_delete s3) (s3_head s3).
Proof.
  split.
  - intros key data ct b k b' _ (-> & Hl & Ho)%s3_put_objects. destruct (s3_at key b' Hl) as [-> ->]. by rewrite Ho, lookup_insert_eq.
  - intros key data ct b r b' _ H%s3_put_objects. split; [done|].
    destruct r; [destruct H as (_ & Hl & Ho); by apply (s3_elsewhere _ _ _ (Some data))|].
    destruct H as [Ho|[Hl Ho]]; [|by apply (s3_elsewhere _ _ _ (Some data))]. intros key' _. apply s3_same. by rewrite Ho.
  - intros key data ct b e b' _ [Ho|[Hl Ho]]%s3_put_objects; [left; apply s3_same; by rewrite Ho|right].
    exists (String.length data). destruct (s3_at key b' Hl) as [-> _]. rewrite Ho, lookup_insert_eq. by rewrite str_take_all.
  - intros key b b' _ (Hl & Ho)%s3_delete_objects. destruct (s3_at key b' Hl) as [-> ->]. by rewrite Ho, lookup_delete_eq.
  - intros key b r b' _ H%s3_delete_objects. split; [done|].
    destruct r; [destruct H as (Hl & Ho); by apply (s3_elsewhere _ _ _ None)|].
    destruct H as [Ho|[Hl Ho]]; [|by apply (s3_elsewhere _ _ _ None)]. intros key' _. apply s3_same. by rewrite Ho.
  - intros key b e b' _ [Ho|[Hl Ho]]%s3_delete_objects; [left; apply s3_same; by rewrite Ho|right].
    destruct (s3_at key b' Hl) as [-> _]. by rewrite Ho, lookup_delete_eq.
Qed.
End BucketLaws.

(** C33: both backends store bodies under keys, whatever the disk fails at and whichever
    S3 calls are lost: a put that succeeds is what get and head then answer, a delete
    that succeeds leaves nothing, and neither ever touches another location.  One that
    fails may have been carried out, or have left a first part of the new body on the
    disk, at its own location. *)
Theorem backends_store (io : disk_faults) root {B : Type} (s3 : s3_client B) (objects : B -> gmap string string) :
  Bucket s3 objects ->
  Stores (location root) tree (local_put io root) (local_get root) (local_delete io root) (local_head root) /\
  Stores s3_location (fun _ => True) (s3_put s3) (s3_get s3) (s3_delete s3) (s3_head s3).
Proof. intros Hb. split; [apply local_stores|by apply (s3_stores s3 objects)]. Qed.

(** A bucket in memory. *)
Definition memory_client : s3_client (gmap string string) :=
  S3Client _ (fun key data _ b => (Answer tt, <[key := data]> b))
    (fun key b => match b !! key with Some data => Answer data | None => Raised "An error occurred (NoSuchKey)" end)
    (fun key b => (Answer tt, delete key b))
    (fun key b => match b !! key with Some data => Answer (Some (Z.of_nat (String.length data))) | None => Raised "(404): Not Found" end)
    (fun _ _ _ => Answer "https://bucket").
#[export] Instance memory_bucket : Bucket memory_client id.
Proof.
  split; cbn; [by intros ? ? ? ? ? ? [= <- <-]|by intros ? ? ? ? [= <- <-]|..];
    (intros key b; destruct (b !! key); [done|]; eexists; split; [done|reflexivity]).
Qed.

Definition file_root : list string := ["srv"; "files"].
Definition after_put : result string * disk := local_put no_faults file_root "org/a.txt" "hello" "text/plain" ∅.

Lemma backends_store_witness :
  local_get file_root "org/a.txt" after_put.2 = Ok "hello" /\
  s3_get memory_client "org/a.txt" (s3_put memory_client "org/a.txt" "hello" "text/plain" ∅).2 = Ok "hello".
Proof.
  destruct (backends_store no_faults file_root memory_client id memory_bucket) as [Hl Hs].
  assert (tree ∅) as Ht by (intros s up n H; discriminate (eq_trans (eq_sym H) (lookup_empty (s :: up)))).
  assert (after_put = (Ok "org/a.txt", after_put.2)) as El by (vm_compute; reflexivity).
  assert (s3_put memory_client "org/a.txt" "hello" "text/plain" ∅ = (Ok "org/a.txt", <["org/a.txt" := "hello"]> ∅)) as Es
    by (vm_compute; reflexivity).
  destruct (@stores_put _ _ _ _ _ _ _ _ Hl _ _ _ _ _ _ Ht El) as (_ & Hg & _).
  destruct (@stores_put _ _ _ _ _ _ _ _ Hs _ _ _ _ _ _ I Es) as (_ & Hg' & _).
  rewrite Es. split; [exact Hg|exact Hg'].
Defined.

(** ** Where they part *)

(** On the disk keys that differ in empty or dot segments are one file, and a key below
    a stored one is refused with an exception nothing handles; in a bucket each is an
    object of its own. *)
Theorem backends_differ :
  (exists d, local_put no_faults file_root "org/a//b" "one" "" ∅ = (Ok "org/a//b", d) /\
     local_get file_root "org/a/b" d = Ok "one" /\ local_get file_root "org/./a/b" d = Ok "one") /\
  (local_put no_faults file_root "org/a.txt/b" "two" "" after_put.2).1 = Err (PyError "FileExistsError") /\
  (let b := (s3_put memory_client "org/a//b" "one" "" ∅).2 in
   s3_get memory_client "org/a/b" b = Err (Domain NotFoundError []) /\
   (s3_put memory_client "org/a//b/c" "two" "" b).1 = Ok "org/a//b/c").
Proof. split; [eexists; split; [vm_compute; reflexivity|]|]; vm_compute; repeat split. Qed.

(** A write that stops has already emptied the file: the body stored before is gone. *)
Lemma torn_put_loses_body :
  let full := DiskFaults (fun _ _ => false) (fun _ _ => Torn 2) (fun _ _ => false) in
  let '(r, d) := local_put full file_root "org/a.txt" "other" "text/plain" after_put.2 in
  r = Err (PyError "OSError") /\ local_get file_root "org/a.txt" after_put.2 = Ok "hello" /\ local_get file_root "org/a.txt" d = Ok "ot".
Proof. vm_compute. repeat split. Qed.

(** A failed call whose text mentions 404 for another reason, such as the address of an
    object with that name, is a missing object: the upload it verifies is given up. *)
Theorem outage_reads_as_missing {B : Type} (s3 : s3_client B) key b text :
  validate_key key None = Ok tt -> head_object s3 key b = Raised text -> get_object s3 key b = Raised text ->
  contains "404" text = true -> s3_head s3 key b = Ok None /\ s3_get s3 key b = Err (Domain NotFoundError []).
Proof. intros Hv Hh Hg Ht. unfold s3_head, s3_get, valid_then. rewrite Hv, Hh, Hg, Ht, orb_true_r. done. Qed.

Lemma outage_reads_as_missing_witness :
  let down : s3_client unit := S3Client _ (fun _ _ _ b => (Raised "down", b))
    (fun key _ => Raised ("Could not connect to the endpoint URL: https://bucket/" +:+ key)) (fun _ b => (Raised "down", b))
    (fun key _ => Raised ("Could not connect to the endpoint URL: https://bucket/" +:+ key)) (fun _ _ _ => Raised "down") in
  s3_head down "org/404.pdf" tt = Ok None.
Proof. intros down. apply (outage_reads_as_missing down "org/404.pdf" tt ("Could not connect to the endpoint URL: https://bucket/" +:+ "org/404.pdf")); reflexivity. Defined.

(** The choice of a backend holds until the process forgets it. *)
Lemma get_storage_stable s s' c : get_storage s' (get_storage s c).2 = get_storage s c.
Proof. unfold get_storage. destruct c; [done|]. done. Qed.
