(* ===== verification/Agents.v ===== *)
(** The agent registry (agents/service.py, agents/router.py): the agents an
    organization registers, and the events that announce what happens to them. *)

From S2P Require Import Prelude Permissions Json Errors Events Tables Store Dynamic Cache Session Fixtures.
From S2P Require Import Authorization Resolver Interfaces Entitlements Repository Storage.

Definition AGENT_REGISTERED : string := "agent.registered".
Definition AGENT_UPDATED : string := "agent.updated".
Definition AGENT_DISABLED : string := "agent.disabled".

(** ** The service *)

(** [AgentUpdate]: the attributes a request sets. *)
Record agent_update : Type := AgentUpdate {
  au_name : option string;
  au_description : option string;
  au_config : option jobj
}.

Definition new_name (a : agent) (b : agent_update) : option string :=
  match au_name b with Some n => if String.eqb n (ag_name a) then None else Some n | None => None end.
Definition new_description (a : agent) (b : agent_update) : option string :=
  match au_description b with
  | Some d => if bool_decide (Some d = ag_description a) then None else Some d
  | None => None
  end.
Definition new_config (a : agent) (b : agent_update) : option jobj :=
  match au_config b with Some c => if py_eq (JObj c) (JObj (ag_config a)) then None else Some c | None => None end.

Definition edit_diff (a : agent) (b : agent_update) : jobj :=
  match new_name a b with
  | Some n => [("name", JObj [("from", JStr (ag_name a)); ("to", JStr n)])] | None => [] end ++
  match new_description a b with
  | Some d => [("description", JObj [("from", jopt JStr (ag_description a)); ("to", JStr d)])] | None => [] end ++
  match new_config a b with Some _ => [("config", JStr "updated")] | None => [] end.
Definition edited (a : agent) (b : agent_update) : agent :=
  a <| ag_name := default (ag_name a) (new_name a b) |>
    <| ag_description := match new_description a b with Some d => Some d | None => ag_description a end |>
    <| ag_config := default (ag_config a) (new_config a b) |>.

Section Service.
Context (org : uuid).

Definition in_registry (include_deleted : bool) (_ : key Tagents) (a : agent) : bool :=
  bool_decide (ag_organization_id a = org) && (include_deleted || bool_decide (ag_deleted_at a = None)).
Definition list_for_org (include_deleted : bool) : M (list (key Tagents * row Tagents)) :=
  rows ← select Tagents (in_registry include_deleted);
  mret (order_by (fun r : key Tagents * row Tagents => ag_created_at r.2) rows).

Definition scoped_agent (agent_id : uuid) (k : key Tagents) (a : agent) : bool :=
  N.eqb k agent_id && in_registry false k a.
Definition _get_scoped (agent_id : uuid) : M agent :=
  rows ← select Tagents (scoped_agent agent_id);
  found ← scalar_one_or_none rows;
  match found with
  | Some (_, a) => mret a
  | None => raise_domain NotFoundError [("agent_id", JUuid agent_id)]
  end.
Definition slug_agent (slug : string) (include_deleted : bool) (k : key Tagents) (a : agent) : bool :=
  in_registry include_deleted k a && String.eqb (ag_slug a) slug.
Definition _by_slug (slug : string) (include_deleted : bool) : M (option (key Tagents * row Tagents)) :=
  rows ← select Tagents (slug_agent slug include_deleted); scalar_one_or_none rows.

(** What every mutation ends with: its row, the flush, the event, the audit entry. *)
Definition record_change (i : uuid) (a : agent) (event_type : string) (payload : jobj) (audit_type : string)
    (diff : jobj) : M unit :=
  _ ← put Tagents i a;
  _ ← flush;
  _ ← append_outbox event_type "agent" i payload (Some org);
  audit audit_type (Some org) None "user" (Some "agent") (Some i) (Some diff).

Definition create (slug name : string) (description : option string) (config : option jobj) : M (uuid * agent) :=
  existing ← _by_slug slug true;
  match existing with
  | Some _ => raise_domain ConflictError [("slug", JStr slug)]
  | None =>
      i ← fresh_id;
      t ← now;
      let a := Agent org slug name description "active" (default [] config) None t in
      let what := [("slug", JStr slug); ("name", JStr name)] in
      _ ← record_change i a AGENT_REGISTERED what "agent.registered" what;
      mret (i, a)
  end.

Definition update (agent_id : uuid) (b : agent_update) : M agent :=
  a ← _get_scoped agent_id;
  let diff := edit_diff a b in
  let a' := edited a b in
  match diff with
  | [] => mret a'
  | _ =>
      _ ← record_change agent_id a' AGENT_UPDATED
            [("slug", JStr (ag_slug a')); ("changed", JList (JStr <$> sorted_str diff.*1))] "agent.updated" diff;
      mret a'
  end.

Definition set_status (agent_id : uuid) (status : string) : M agent :=
  if negb (bool_decide (status ∈ AGENT_STATUSES)) then raise_domain NotFoundError []
  else
    a ← _get_scoped agent_id;
    if String.eqb (ag_status a) status then mret a
    else
      let a' := a <| ag_status := status |> in
      _ ← record_change agent_id a' (if String.eqb status "disabled" then AGENT_DISABLED else AGENT_UPDATED)
            [("slug", JStr (ag_slug a)); ("status", JStr status)] ("agent." +:+ status) [("status", JStr status)];
      mret a'.

Definition delete_agent (agent_id : uuid) : M unit :=
  a ← _get_scoped agent_id;
  t ← now;
  record_change agent_id (a <| ag_deleted_at := Some t |> <| ag_status := "disabled" |>) AGENT_DISABLED
    [("slug", JStr (ag_slug a)); ("deleted", JBool true)] "agent.deleted" [].
End Service.

(** ** The routes *)

Inductive agent_request : Type :=
  | ListAgents (page : page_params)
  | CreateAgent (slug name : string) (description : option string) (config : jobj)
  | GetAgent (agent_id : uuid)
  | UpdateAgent (agent_id : uuid) (b : agent_update)
  | DisableAgent (agent_id : uuid)
  | EnableAgent (agent_id : uuid)
  | DeleteAgent (agent_id : uuid).

Inductive agent_reply : Type :=
  | AgentList (items : list (key Tagents * row Tagents)) (total : Z)
  | AgentRead (i : uuid) (a : agent)
  | NoContent.

Section Routes.
Context (fga_check : string -> string -> string -> option bool) (user_id : uuid) (u : user) (tenant : tenant_context).

Definition permission_of (r : agent_request) : string :=
  match r with ListAgents _ | GetAgent _ => "agents:read" | _ => "agents:manage" end.

Definition serve (org : uuid) (r : agent_request) : M agent_reply :=
  match r with
  | ListAgents page =>
      agents ← list_for_org org false;
      let '(items, total) := paginate_in_memory agents page in mret (AgentList items total)
  | CreateAgent slug name description config =>
      a ← create org slug name description (Some config); mret (AgentRead a.1 a.2)
  | GetAgent i => a ← _get_scoped org i; mret (AgentRead i a)
  | UpdateAgent i b => a ← update org i b; mret (AgentRead i a)
  | DisableAgent i => a ← set_status org i "disabled"; mret (AgentRead i a)
  | EnableAgent i => a ← set_status org i "active"; mret (AgentRead i a)
  | DeleteAgent i => _ ← delete_agent org i; mret NoContent
  end.

(** A route of the router: the entitlement, the permission, the service. *)
Definition handle (r : agent_request) : M agent_reply :=
  let org := tx_organization_id tenant in
  _ ← require_feature org "agents";
  _ ← require_permission fga_check (permission_of r) user_id u tenant;
  serve org r.
End Routes.

(** ** One change *)

(** The agents a request of [org] can reach. *)
Definition live (org : uuid) (d : db) (i : uuid) (a : agent) : Prop :=
  d Tagents !! (i : key Tagents) = Some (a : row Tagents) /\ in_registry org false i a = true.

(** What each request asks of an agent, and the event that says so. *)
Inductive transition (org : uuid) (t : instant) : agent_request -> uuid -> option agent -> agent -> string -> Prop :=
  | created i slug name description config :
      transition org t (CreateAgent slug name description config) i None
        (Agent org slug name description "active" config None t) AGENT_REGISTERED
  | updated i b a : edit_diff a b <> [] ->
      transition org t (UpdateAgent i b) i (Some a) (edited a b) AGENT_UPDATED
  | enabled i a : ag_status a <> "active" ->
      transition org t (EnableAgent i) i (Some a) (a <| ag_status := "active" |>) AGENT_UPDATED
  | disabled i a : ag_status a <> "disabled" ->
      transition org t (DisableAgent i) i (Some a) (a <| ag_status := "disabled" |>) AGENT_DISABLED
  | deleted i a :
      transition org t (DeleteAgent i) i (Some a)
        (a <| ag_deleted_at := Some t |> <| ag_status := "disabled" |>) AGENT_DISABLED.

(** Requests that find things as they ask for them. *)
Definition nothing_to_do (org : uuid) (d : db) (r : agent_request) : Prop :=
  match r with
  | ListAgents _ | GetAgent _ => True
  | CreateAgent _ _ _ _ | DeleteAgent _ => False
  | UpdateAgent i b => exists a, live org d i a /\ edit_diff a b = []
  | DisableAgent i => exists a, live org d i a /\ ag_status a = "disabled"
  | EnableAgent i => exists a, live org d i a /\ ag_status a = "active"
  end.

Definition same_tables (w w' : world) : Prop := forall t, w_db w' t = w_db w t.

(** The event and the audit entry of a change: one each, in the transaction of
    the change. *)
Record event_about (org i : uuid) (a : agent) (event_type : string) (e : outbox_event) : Prop := EventAbout {
  ea_type : ob_event_type e = event_type;
  ea_aggregate : ob_aggregate_type e = "agent" /\ ob_aggregate_id e = i /\ ob_organization_id e = Some org;
  ea_pending : ob_published_at e = None /\ ob_dead_at e = None;
  ea_slug : jget "slug" (ob_payload e) = Some (JStr (ag_slug a))
}.
Record announced (org i : uuid) (a : agent) (event_type : string) (w w' : world) : Prop := Announced {
  an_agents : w_db w' Tagents = <[(i : key Tagents) := (a : row Tagents)]> (w_db w Tagents);
  an_event : exists (j : key Toutbox_events) (e : row Toutbox_events), (w_fresh w <= j < w_fresh w')%N /\
    w_db w' Toutbox_events = <[j := e]> (w_db w Toutbox_events) /\ event_about org i a event_type e;
  an_audit : exists (j : key Taudit_logs) (x : row Taudit_logs),
    w_db w' Taudit_logs = <[j := x]> (w_db w Taudit_logs) /\ al_organization_id x = Some org /\
    al_target_type x = Some "agent" /\ al_target_id x = Some i;
  an_others t : t ∉ [Tagents; Toutbox_events; Taudit_logs] -> w_db w' t = w_db w t
}.

Definition effect (org : uuid) (r : agent_request) (w w' : world) : Prop :=
  (same_tables w w' /\ nothing_to_do org (w_db w) r) \/
  exists i a0 a event_type,
    transition org (w_clock w) r i a0 a event_type /\ w_db w Tagents !! (i : key Tagents) = a0 /\
    match a0 with Some x => in_registry org false i x = true | None => i = w_fresh w end /\
    announced org i a event_type w w'.

Lemma record_change_run org i a event_type payload audit_type diff w :
  constraints_ok (w_db w) -> agents_ok (<[(i : key Tagents) := (a : row Tagents)]> (w_db w Tagents)) ->
  jget "slug" payload = Some (JStr (ag_slug a)) ->
  exists w', record_change org i a event_type payload audit_type diff w = (Ok tt, w') /\
    announced org i a event_type w w' /\ constraints_ok (w_db w') /\ w_durable w' = w_durable w /\
    (w_fresh w <= w_fresh w')%N.
Proof.
  intros Hc Ha Hp. set (w1 := put_w Tagents i a w).
  assert (Hc1 : constraints_ok (w_db w1)) by (by apply constraints_ok_set).
  set (w2 := (append_outbox event_type "agent" i payload (Some org) w1).2).
  exists (audit audit_type (Some org) None "user" (Some "agent") (Some i) (Some diff) w2).2. split_and!.
  - unfold record_change. run. fold w1. by rewrite (run_flush _ w1 Hc1).
  - split.
    + unfold w2, w1. tables. done.
    + eexists _, _. split_and!; [..|unfold w2, w1; tables; unfold append_outbox; run; tables; reflexivity|].
      * simpl. lia.
      * simpl. lia.
      * split; [done|done|done|exact Hp].
    + eexists _, _. split_and!; [unfold audit; run; tables; unfold w2, w1; tables; reflexivity|..].
      * unfold audit_entry. by repeat case_match.
      * unfold audit_entry. by repeat case_match.
      * unfold audit_entry. by repeat case_match.
    + intros t Ht. rewrite !not_elem_of_cons in Ht. destruct Ht as (N1 & N2 & N3 & _).
      etrans; [apply (keeps_audit t _ _ _ _ _ _ _ N3 w2)|]. etrans; [apply (keeps_outbox t _ _ _ _ _ N2 w1)|].
      by apply put_w_ne.
  - by apply constraints_audit, constraints_outbox.
  - done.
  - simpl. lia.
Qed.

(** ** The service *)

Lemma rows_where_agent (i : uuid) (q : key Tagents -> row Tagents -> bool) (m : rows Tagents) :
  rows_where Tagents (fun k r => N.eqb k i && q k r) m =
  match m !! (i : key Tagents) with Some r => if q i r then [(i : key Tagents, r)] else [] | None => [] end.
Proof.
  destruct (m !! (i : key Tagents)) as [r|] eqn:E; [destruct (q i r) eqn:Eq|].
  - apply NoDup_all_eq_singleton; [apply NoDup_rows_where| |].
    + apply (elem_of_rows_where Tagents). by rewrite N.eqb_refl, Eq.
    + intros [k x] H. apply (elem_of_rows_where Tagents) in H as [Hk Hq]. apply andb_true_iff in Hq as [Hi Hq].
      apply N.eqb_eq in Hi. subst k. rewrite E in Hk. congruence.
  - apply rows_where_nil. intros k x Hk. destruct (N.eqb_spec k i) as [->|]; [|done].
    rewrite E in Hk. injection Hk as <-. by rewrite Eq.
  - apply rows_where_nil. intros k x Hk. destruct (N.eqb_spec k i) as [->|]; [|done]. by rewrite E in Hk.
Qed.

Lemma scoped_cases {B} org i (f : agent -> M B) w (P : result B * world -> Prop) :
  (forall a, live org (w_db w) i a -> P (f a w)) -> P (Err (Domain NotFoundError [("agent_id", JUuid i)]), w) ->
  P (mbind f (_get_scoped org i) w).
Proof.
  intros Hf He. unfold _get_scoped. run. unfold scoped_agent.
  replace (rows_where Tagents _ (w_db w Tagents)) with
    (match w_db w Tagents !! (i : key Tagents) with
     | Some r => if in_registry org false i r then [(i : key Tagents, r)] else [] | None => [] end)
    by (symmetry; apply (rows_where_agent i (in_registry org false))).
  unfold live in Hf. destruct (w_db w Tagents !! (i : key Tagents)) as [a|] eqn:E; [|by run].
  destruct (in_registry org false i a) eqn:Ei; [|by run]. run. by apply Hf.
Qed.

(** An agent keeps its place in the registry. *)
Lemma agents_ok_edit (m : rows Tagents) (i : uuid) (a a' : agent) :
  agents_ok m -> m !! (i : key Tagents) = Some (a : row Tagents) ->
  ag_organization_id a' = ag_organization_id a -> ag_slug a' = ag_slug a -> ag_status a' ∈ AGENT_STATUSES ->
  agents_ok (<[(i : key Tagents) := (a' : row Tagents)]> m).
Proof.
  intros [Hc Hu] Hi Ho Hs Ht. split.
  - intros j r Hj. apply (lookup_put Tagents) in Hj as [[_ <-]|[_ Hj]]; [done|by apply (Hc j)].
  - apply (unique_on_update Tagents _ m i a' a Hu Hi). right. by rewrite Ho, Hs.
Qed.

Lemma agents_ok_new (m : rows Tagents) (i : uuid) (a : agent) :
  agents_ok m -> ag_status a ∈ AGENT_STATUSES ->
  rows_where Tagents (slug_agent (ag_organization_id a) (ag_slug a) true) m = [] ->
  agents_ok (<[(i : key Tagents) := (a : row Tagents)]> m).
Proof.
  intros [Hc Hu] Ht Hn. rewrite rows_where_nil in Hn. split.
  - intros j r Hj. apply (lookup_put Tagents) in Hj as [[_ <-]|[_ Hj]]; [done|by apply (Hc j)].
  - apply (unique_on_insert Tagents _ m i a Hu). intros j r' v _ Hj [= <-] [= Ho Hs].
    specialize (Hn j r' Hj). unfold slug_agent, in_registry in Hn. rewrite Ho, Hs in Hn.
    rewrite bool_decide_eq_true_2, String.eqb_refl in Hn by done. done.
Qed.

(** What serving a request of [org] does: nothing on an error, else its effect. *)
Definition served {A} (org : uuid) (r : agent_request) (w : world) (out : result A * world) : Prop :=
  (match out.1 with Ok _ => effect org r w out.2 | Err _ => same_tables w out.2 end) /\
  constraints_ok (w_db out.2) /\ w_durable out.2 = w_durable w /\ (w_fresh w <= w_fresh out.2)%N.

Lemma served_none {A} org r w (a : A) : constraints_ok (w_db w) -> nothing_to_do org (w_db w) r -> served org r w (Ok a, w).
Proof. intros Hc Hn. split_and!; [by left|done..|simpl; lia]. Qed.
Lemma served_err {A} org r w e : constraints_ok (w_db w) -> served (A:=A) org r w (Err e, w).
Proof. intros Hc. split_and!; [done..|simpl; lia]. Qed.

(** The write that carries a transition out. *)
Lemma served_write {A} org r i a a' event_type payload audit_type diff w (x : A) :
  constraints_ok (w_db w) -> live org (w_db w) i a -> transition org (w_clock w) r i (Some a) a' event_type ->
  ag_organization_id a' = ag_organization_id a -> ag_slug a' = ag_slug a -> ag_status a' ∈ AGENT_STATUSES ->
  jget "slug" payload = Some (JStr (ag_slug a')) ->
  served org r w ((_ ← record_change org i a' event_type payload audit_type diff; mret x) w).
Proof.
  intros Hc [Hi Hin] Ht Ho Hs Hst Hp.
  destruct (record_change_run org i a' event_type payload audit_type diff w Hc) as (w' & E & An & Hc' & Hd & Hf); [|done|].
  - apply (agents_ok_edit _ i a a'); [exact (proj1 (constraints_ok_table _) Hc Tagents)|done..].
  - rewrite (run_ok _ _ _ _ _ E). split_and!; [|done..]. right. exists i, (Some a), a', event_type.
    split_and!; done.
Qed.

Lemma edited_frame a b : ag_organization_id (edited a b) = ag_organization_id a /\ ag_slug (edited a b) = ag_slug a /\
  ag_status (edited a b) = ag_status a.
Proof. done. Qed.

Lemma live_status org w i a : constraints_ok (w_db w) -> live org (w_db w) i a -> ag_status a ∈ AGENT_STATUSES.
Proof. intros Hc [Hi _]. destruct (proj1 (constraints_ok_table _) Hc Tagents) as [Hst _]. exact (Hst i a Hi). Qed.

Section Served.
Context (org : uuid) (w : world) (Hc : constraints_ok (w_db w)).
Context (Hfresh : forall i : key Tagents, (w_fresh w <= i)%N -> w_db w Tagents !! i = None).

Lemma create_served {A} slug name description config (f : uuid * agent -> A) :
  served org (CreateAgent slug name description config) w
    ((a ← create org slug name description (Some config); mret (f a)) w).
Proof.
  pose proof (proj1 (constraints_ok_table _) Hc Tagents) as [Hst Hu]. unfold create, _by_slug. run.
  destruct (rows_where_unique Tagents _ (slug_agent org slug true) (org, slug) _ Hu) as [E|(k & r & E & _)].
  - intros k r _ Hk. unfold slug_agent, in_registry in Hk. rewrite !andb_true_iff in Hk. destruct Hk as [[Ho _] Hk].
    apply bool_decide_eq_true in Ho. apply String.eqb_eq in Hk. by rewrite Ho, Hk.
  - rewrite E. run. set (w0 := w <| w_fresh := N.succ (w_fresh w) |>).
    set (a := Agent org slug name description "active" config None (w_clock w)).
    destruct (record_change_run org (w_fresh w) a AGENT_REGISTERED [("slug", JStr slug); ("name", JStr name)]
      "agent.registered" [("slug", JStr slug); ("name", JStr name)] w0 Hc) as (w' & Ew & An & Hc' & Hd & Hf); [|done|].
    + apply agents_ok_new; [done|by apply (bool_decide_unpack _)|exact E].
    + rewrite (run_ok _ _ _ _ _ Ew). run. split_and!; [|done|done|simpl in *; lia]. right.
      exists (w_fresh w), None, a, AGENT_REGISTERED. split_and!; [constructor|apply Hfresh; simpl; lia|done|].
      destruct An as [A1 (j & e & ? & A2) A3 A4]. split; [done| |done..]. exists j, e. split; [simpl in *; lia|done].
  - rewrite E. run. by apply served_err.
Qed.

Lemma update_served {A} i b (f : agent -> A) :
  served org (UpdateAgent i b) w ((a ← update org i b; mret (f a)) w).
Proof.
  unfold update. rewrite run_assoc. apply (scoped_cases org i _ w (served org _ w)); [|by apply served_err].
  intros a Ha. destruct (edit_diff a b) as [|d l] eqn:Ed; [apply served_none; [done|by exists a]|].
  rewrite run_assoc. apply (served_write org _ i a); [done|done| |done|done| |done].
  - constructor. by rewrite Ed.
  - exact (live_status org w i a Hc Ha).
Qed.

Lemma status_served {A} i status r (f : agent -> A) :
  (r = EnableAgent i /\ status = "active") \/ (r = DisableAgent i /\ status = "disabled") ->
  served org r w ((a ← set_status org i status; mret (f a)) w).
Proof.
  intros Hr. assert (Hst : status ∈ AGENT_STATUSES) by (destruct Hr as [[_ ->]|[_ ->]]; by apply (bool_decide_unpack _)).
  unfold set_status. rewrite (bool_decide_eq_true_2 _ Hst). cbn [negb]. rewrite run_assoc.
  apply (scoped_cases org i _ w (served org r w)); [|by apply served_err]. intros a Ha.
  destruct (String.eqb_spec (ag_status a) status) as [Es|Es].
  - apply served_none; [done|]. destruct Hr as [[-> ->]|[-> ->]]; by exists a.
  - rewrite run_assoc. apply (served_write org r i a); [done|done| |done..].
    destruct Hr as [[-> ->]|[-> ->]]; by constructor.
Qed.

Lemma delete_served {A} i (x : A) : served org (DeleteAgent i) w ((_ ← delete_agent org i; mret x) w).
Proof.
  unfold delete_agent. rewrite run_assoc. apply (scoped_cases org i _ w (served org _ w)); [|by apply served_err].
  intros a Ha. run. apply (served_write org _ i a); [done|done|constructor|done|done| |done].
  by apply (bool_decide_unpack _).
Qed.

Lemma get_served {A} i (f : agent -> A) : served org (GetAgent i) w ((a ← _get_scoped org i; mret (f a)) w).
Proof.
  apply (scoped_cases org i _ w (served org _ w)); [|by apply served_err]. intros a _. by apply served_none.
Qed.

Lemma serve_served r : served org r w (serve org r w).
Proof.
  destruct r; cbn [serve].
  - unfold list_for_org. run. destruct (paginate_in_memory _ _). by apply served_none.
  - apply (create_served _ _ _ _ (fun a => AgentRead a.1 a.2)).
  - apply (get_served _ (AgentRead agent_id)).
  - apply (update_served _ _ (AgentRead agent_id)).
  - apply (status_served agent_id "disabled" _ (AgentRead agent_id)). by right.
  - apply (status_served agent_id "active" _ (AgentRead agent_id)). by left.
  - apply delete_served.
Qed.
End Served.

(** ** Through the gates *)

Definition same_clock : relation world := fun w w' => w_clock w' = w_clock w.
#[export] Instance same_clock_restorable : Restorable same_clock.
Proof. unfold same_clock. split; [split|]; [by intros w|intros w1 w2 w3; congruence|done]. Qed.
Lemma clock_cache {A} (f : _ -> _ -> A * _) : Stable same_clock (with_cache f).
Proof. intros w. unfold with_cache. by destruct (f _ _). Qed.
Lemma clock_user c : Stable same_clock (set_user c).
Proof. done. Qed.
Lemma clock_current_user : Stable same_clock current_user.
Proof. done. Qed.
#[export] Hint Resolve clock_cache clock_user clock_current_user : stable.

Lemma clock_feature o f : Stable same_clock (require_feature o f).
Proof. unfold require_feature, plans_with_feature. solve_stable. intros w. exact (proj1 (effective_env o w)). Qed.
Lemma clock_permission fga p i u t : Stable same_clock (require_permission fga p i u t).
Proof.
  unfold require_permission, require_key_permission, user_can, _fga_allowed, permission_keys_for, denied,
    cache_get_versioned, cache_set, cache_get_scoped, cache_set_scoped.
  solve_stable.
Qed.

Lemma effect_through org r w w1 w' :
  quiet w w1 -> w_clock w1 = w_clock w -> effect org r w1 w' -> effect org r w w'.
Proof.
  intros (Ht & _ & Hf) Hclk [[Hs Hn]|(i & a0 & a & e & Htr & Ha0 & Hin & [A1 A2 A3 A4])].
  - left. split; [intros t; by rewrite Hs|]. by destruct r; simpl in *; unfold live in *; rewrite ?Ht in Hn.
  - right. exists i, a0, a, e. rewrite Hclk in Htr. split_and!; [done|by rewrite <- Ht|by destruct a0; rewrite <- ?Hf|].
    rewrite !Ht, Hf in *. split; [done..|]. intros t Hne. by rewrite A4.
Qed.

(** The registry between requests: the constraints hold and no agent is stored
    under an identifier to come. *)
Definition registry_ok (w : world) : Prop :=
  constraints_ok (w_db w) /\ (forall i : key Tagents, (w_fresh w <= i)%N -> w_db w Tagents !! i = None) /\
  (forall j : key Toutbox_events, (w_fresh w <= j)%N -> w_db w Toutbox_events !! j = None).

Lemma constraints_same d d' : (forall t, d' t = d t) -> constraints_ok d -> constraints_ok d'.
Proof. rewrite !constraints_ok_table. intros E H t. rewrite E. apply H. Qed.

Section Handlers.
Context (fga_check : string -> string -> string -> option bool) (user_id : uuid) (u : user) (tenant : tenant_context).
Abbreviation org := (tx_organization_id tenant).

Lemma handle_served r w : registry_ok w -> served org r w (handle fga_check user_id u tenant r w).
Proof.
  intros (Hc & Hf & _).
  assert (Hgate : forall {A} (m : M A) w1, Stable quiet m -> Stable same_clock m -> quiet w w1 -> w_clock w1 = w_clock w ->
    quiet w (m w1).2 /\ w_clock (m w1).2 = w_clock w).
  { intros A m w1 Hq Hk H1 H2. split; [etrans; [exact H1|apply Hq]|]. rewrite <- H2. apply Hk. }
  assert (Hstop : forall w1 e, quiet w w1 -> served (A:=agent_reply) org r w (Err e, w1)).
  { intros w1 e (Ht & Hd & Hn). split_and!; [done|by apply (constraints_same (w_db w))|done|simpl; lia]. }
  unfold handle. unfold mbind at 1, M_bind at 1.
  destruct (Hgate _ _ w (quiet_feature org "agents") (clock_feature org "agents")) as [Q1 K1]; [reflexivity|done|].
  destruct (require_feature org "agents" w) as [[x|e] w1]; [|by apply Hstop]. unfold mbind, M_bind.
  destruct (Hgate _ _ w1 (quiet_permission fga_check (permission_of r) user_id u tenant)
    (clock_permission fga_check (permission_of r) user_id u tenant)) as [Q2 K2]; [done|done|].
  destruct (require_permission _ _ _ _ _ w1) as [[[]|e] w2]; [|by apply Hstop]. cbn [snd] in Q2, K2.
  pose proof Q2 as (Ht & Hd & Hn).
  destruct (serve_served org w2 (constraints_same _ _ Ht Hc)) with (r := r) as (He & Hc' & Hd' & Hf').
  { intros i Hi. rewrite Ht. apply Hf. by rewrite <- Hn. }
  split_and!; [|done|by rewrite Hd'|by rewrite <- Hn]. destruct (serve org r w2) as [[y|e] w3].
  - by apply (effect_through org r w w2 w3).
  - intros t. simpl. by rewrite <- Ht.
Qed.

(** A request to the registry changes nothing when it fails, or when it asks for
    what is already so; otherwise it makes one legal transition of one agent the
    organization may reach, and announces it: exactly one event about that agent
    awaits publication and exactly one audit entry names it, in the transaction of
    the change.  No other table and no other agent is touched. *)
Theorem agents_change_announced r w : registry_ok w ->
  match handle fga_check user_id u tenant r w with
  | (Ok _, w') => effect org r w w'
  | (Err _, w') => same_tables w w'
  end.
Proof. intros H. destruct (handle_served r w H) as [He _]. by destruct (handle _ _ _ _ r w) as [[?|?] ?]. Qed.
End Handlers.

(** ** Histories *)

(** The requests the registry receives, and time passing between them. *)
Inductive registry_step (w : world) : world -> Prop :=
  | request_step fga_check user_id u tenant r :
      registry_step w (request (handle fga_check user_id u tenant r) w).2
  | time_step t : registry_step w (w <| w_clock := t |>).

Definition at_rest (w : world) : Prop := registry_ok w /\ forall t, w_durable w t = w_db w t.

(** What a history leaves of the registry it started from. *)
Record continues (w w' : world) : Prop := Continues {
  co_agents (i : key Tagents) (a : row Tagents) : w_db w Tagents !! i = Some a ->
    exists a' : row Tagents, w_db w' Tagents !! i = Some a' /\ ag_organization_id a' = ag_organization_id a /\
      ag_slug a' = ag_slug a /\ ag_created_at a' = ag_created_at a /\ (ag_deleted_at a <> None -> a' = a);
  co_events (i : key Tagents) : w_db w' Tagents !! i <> w_db w Tagents !! i ->
    exists (j : key Toutbox_events) (e : row Toutbox_events), w_db w Toutbox_events !! j = None /\
      w_db w' Toutbox_events !! j = Some e /\ ob_aggregate_type e = "agent" /\ ob_aggregate_id e = i;
  co_outbox (j : key Toutbox_events) (e : row Toutbox_events) :
    w_db w Toutbox_events !! j = Some e -> w_db w' Toutbox_events !! j = Some e
}.

#[export] Instance agent_eq_dec : EqDecision agent.
Proof. solve_decision. Defined.

Lemma continues_same w w' : same_tables w w' -> continues w w'.
Proof. intros H. split; intros *; rewrite !H; [intros E; by exists a|done..]. Qed.

#[export] Instance continues_trans : Transitive continues.
Proof.
  intros w1 w2 w3 [A1 E1 O1] [A2 E2 O2]. split.
  - intros i a Ha. destruct (A1 i a Ha) as (b & Hb & Q1 & Q2 & Q3 & Q4), (A2 i b Hb) as (c & Hc & R1 & R2 & R3 & R4).
    exists c. split_and!; [done|congruence..|]. intros Hd. rewrite <- (Q4 Hd). apply R4. by rewrite (Q4 Hd).
  - intros i Hne. destruct (decide ((w_db w2 Tagents !! i : option agent) = w_db w1 Tagents !! i)) as [E|Hn].
    + destruct (E2 i) as (j & e & Hj & Hj' & He); [intros E'; apply Hne; etrans; [exact E'|exact E]|]. exists j, e. split_and!; [|done|apply He..].
      destruct (w_db w1 Toutbox_events !! j) as [x|] eqn:Ex; [|done]. by rewrite (O1 j x Ex) in Hj.
    + destruct (E1 i Hn) as (j & e & Hj & Hj' & He). exists j, e. split_and!; [done|by apply O2|apply He..].
  - intros j e H. by apply O2, O1.
Qed.

Lemma announced_continues org r i a0 a e w w' :
  registry_ok w -> transition org (w_clock w) r i a0 a e -> w_db w Tagents !! (i : key Tagents) = a0 ->
  match a0 with Some x => in_registry org false i x = true | None => i = w_fresh w end -> announced org i a e w w' ->
  continues w w'.
Proof.
  intros (_ & _ & Ho) Htr Hi Hin [A1 (j & ev & Hj & A2 & [_ (Hty & Hag & _) _ _]) _ _].
  assert (Hnew : w_db w Toutbox_events !! j = None) by (apply Ho; apply Hj). split.
  - intros k b Hk. rewrite A1. destruct (N.eq_dec i k) as [<-|Hne].
    + exists a. split; [apply (put_same Tagents)|].
      assert (a0 = Some b) as -> by (etrans; [symmetry; exact Hi|exact Hk]).
      apply andb_true_iff in Hin as [_ Hin]. apply bool_decide_eq_true in Hin.
      inversion Htr; subst; (split_and!; [done..|intros Hd; by destruct Hd]).
    + exists b. rewrite lookup_insert_ne by done. done.
  - intros k Hne. exists j, ev. rewrite A2, (put_same Toutbox_events). split_and!; [done..|]. rewrite Hag.
    destruct (N.eq_dec i k) as [|Hk]; [done|]. rewrite A1, lookup_insert_ne in Hne; done.
  - intros k b Hk. rewrite A2. rewrite lookup_insert_ne; [done|]. intros <-. by rewrite Hnew in Hk.
Qed.


Lemma effect_continues org r w w' :
  registry_ok w -> effect org r w w' -> constraints_ok (w_db w') -> (w_fresh w <= w_fresh w')%N ->
  continues w w' /\ registry_ok w'.
Proof.
  intros Hok He Hc Hf. pose proof Hok as (_ & Ha & Ho).
  destruct He as [[Hs _]|(i & a0 & a & e & Htr & Hi & Hin & Han)].
  - split; [by apply continues_same|]. split; [done|].
    split; intros j Hj; rewrite Hs; [apply Ha|apply Ho]; simpl in *; lia.
  - split; [by apply (announced_continues org r i a0 a e)|]. destruct Han as [A1 (j & ev & Hj & A2 & _) _ _].
    split; [done|]. split.
    + intros k Hk. rewrite A1. apply (put_other Tagents); [|apply Ha; simpl in *; lia]. intros <-.
      destruct a0 as [x|]; [|subst i; simpl in *; lia]. rewrite Ha in Hi; [done|simpl in *; lia].
    + intros k Hk. rewrite A2. apply (put_other Toutbox_events); [simpl in *; lia|apply Ho; simpl in *; lia].
Qed.

Lemma quiet_flush_bumps : Stable quiet flush_deferred_bumps.
Proof.
  intros w. unfold flush_deferred_bumps.
  assert (Hs : forall l, Stable quiet (for_each l (fun nk =>
    _ ← cache_bump (VersionedCache nk.1 DEFAULT_TTL_SECONDS) nk.2; mret tt)))
    by (intros l; unfold cache_bump; solve_stable).
  specialize (Hs (w_deferred w) (w <| w_deferred := [] |>)). by destruct (for_each _ _ _).
Qed.

Lemma registry_same w w' : same_tables w w' -> (w_fresh w <= w_fresh w')%N -> registry_ok w -> registry_ok w'.
Proof.
  intros Hs Hf (Hc & Ha & Ho). split; [by apply (constraints_same (w_db w))|].
  split; intros j Hj; rewrite Hs; [apply Ha|apply Ho]; simpl in *; lia.
Qed.

Lemma step_continues w w' : at_rest w -> registry_step w w' -> at_rest w' /\ continues w w'.
Proof.
  intros [Hok Hd] [fga user_id u tenant r|t]; [|split; [done|by apply continues_same]].
  destruct (handle_served fga user_id u tenant r w Hok) as (He & Hc & Hdur & Hf). unfold request.
  destruct (handle fga user_id u tenant r w) as [[x|e] w1]; cbn [fst snd] in *.
  - unfold commit, flush. rewrite bool_decide_eq_true_2 by done. cbn.
    destruct (quiet_flush_bumps (w1 <| w_durable := w_db w1 |>)) as (Ht & Hdu & Hfr). cbn in Ht, Hdu, Hfr.
    destruct (effect_continues _ _ _ _ Hok He Hc Hf) as [Hco Hok1]. split; [split|].
    + apply (registry_same w1); [done|simpl in *; lia|done].
    + intros t. by rewrite Hdu, Ht.
    + etrans; [exact Hco|]. by apply continues_same.
  - assert (Hs : same_tables w (discard_deferred_bumps (rollback w1).2).2) by (intros t; cbn; by rewrite Hdur, Hd).
    split; [split|by apply continues_same].
    + by apply (registry_same w).
    + intros t. done.
Qed.

(** Over any history of requests, by any members of any organizations: an agent
    never leaves the registry and never changes organization, slug or date of
    registration; once deleted it never changes at all; its slug is never given to
    another agent; and whatever became of an agent, an event says so. *)
Theorem registry_history w w' : at_rest w -> rtc registry_step w w' ->
  continues w w' /\
  forall (i j : key Tagents) (a b : row Tagents), w_db w Tagents !! i = Some a -> w_db w' Tagents !! j = Some b ->
    ag_organization_id b = ag_organization_id a -> ag_slug b = ag_slug a -> j = i.
Proof.
  intros H0 Hs. assert (H : continues w w' /\ at_rest w').
  { induction Hs as [|w w1 w2 H1 _ IH]; [split; [by apply continues_same|done]|].
    destruct (step_continues w w1 H0 H1) as [H2 H3]. destruct (IH H2) as [IH1 IH2]. split; [by etrans|done]. }
  destruct H as [Hco [(Hc & _) _]]. split; [done|]. intros i j a b Hi Hj Ho Hsl.
  destruct (co_agents _ _ Hco i a Hi) as (a' & Hi' & Ho' & Hs' & _).
  apply (unique_on_lookup Tagents _ _ j i b a' (ag_organization_id a, ag_slug a)
    (proj2 (proj1 (constraints_ok_table _) Hc Tagents)) Hj Hi'); by rewrite ?Ho, ?Hsl, ?Ho', ?Hs'.
Qed.

(** ** A registry with one agent at work and one deleted *)

Definition admin : user := User "ann@acme.test" None "Ann" true true None "local" None [].
Definition helper : agent := Agent 1 "helper" "Helper" None "active" [("model", JStr "small")] None (NOW - HOUR).
Definition retired : agent := Agent 1 "old" "Old" None "disabled" [] (Some (NOW - HOUR)%Z) (NOW - HOUR * 2).
Definition registry : world := world_of (set_table (set_table demo_db
  Tplan_features (rows_of Tplan_features [((10%N, "agents"), PlanFeature true)]))
  Tagents (rows_of Tagents [(50%N, helper); (51%N, retired)])).
Definition acme_context : tenant_context := TenantContext 1 "acme" false.

Lemma registry_good : at_rest registry.
Proof.
  split; [split; [by_compute|split]|done].
  - intros i Hi. change (w_fresh registry) with 100%N in Hi.
    change (w_db registry Tagents) with (rows_of Tagents [(50%N, helper); (51%N, retired)]).
    apply not_elem_of_list_to_map_1. simpl. rewrite !not_elem_of_cons. split_and!; [lia..|apply not_elem_of_nil].
  - intros j _. apply lookup_empty.
Qed.

(** Disabling the agent at work, and asking for the slug of the deleted one. *)
Definition disabling : result agent_reply * world := handle no_fga 7 admin acme_context (DisableAgent 50) registry.
Definition reusing : result agent_reply * world := handle no_fga 7 admin acme_context (CreateAgent "old" "Old" None []) registry.

Lemma agents_change_announced_witness :
  disabling.1 = Ok (AgentRead 50 (helper <| ag_status := "disabled" |>)) /\
  effect 1 (DisableAgent 50) registry disabling.2 /\
  reusing.1 = Err (Domain ConflictError [("slug", JStr "old")]) /\ same_tables registry reusing.2.
Proof.
  pose proof (agents_change_announced no_fga 7 admin acme_context (DisableAgent 50) registry (proj1 registry_good)) as H1.
  pose proof (agents_change_announced no_fga 7 admin acme_context (CreateAgent "old" "Old" None []) registry (proj1 registry_good)) as H2.
  assert (E1 : disabling.1 = Ok (AgentRead 50 (helper <| ag_status := "disabled" |>))) by (vm_compute; reflexivity).
  assert (E2 : reusing.1 = Err (Domain ConflictError [("slug", JStr "old")])) by (vm_compute; reflexivity).
  change (match disabling with (Ok _, w') => effect 1 (DisableAgent 50) registry w' | (Err _, w') => same_tables registry w' end) in H1.
  change (match reusing with (Ok _, w') => effect 1 (CreateAgent "old" "Old" None []) registry w' | (Err _, w') => same_tables registry w' end) in H2.
  split; [exact E1|]. split; [|split; [exact E2|]].
  - clear - E1 H1. revert E1 H1. generalize disabling. intros [[x|e] w']; [intros _ H; exact H|discriminate].
  - clear - E2 H2. revert E2 H2. generalize reusing. intros [[x|e] w']; [discriminate|intros _ H; exact H].
Defined.

Lemma registry_history_witness :
  let w := (request (handle no_fga 7 admin acme_context (DisableAgent 50)) registry).2 in
  w_db w Tagents !! (51%N : key Tagents) = Some (retired : row Tagents) /\
  exists a : row Tagents, w_db w Tagents !! (50%N : key Tagents) = Some a /\ ag_slug a = "helper".
Proof.
  intros w. destruct (registry_history registry w registry_good) as [Hco _].
  - apply rtc_once. apply request_step.
  - split.
    + destruct (co_agents _ _ Hco 51%N retired) as (a & Ha & _ & _ & _ & Hsame); [vm_compute; reflexivity|].
      rewrite Hsame in Ha; [exact Ha|discriminate].
    + destruct (co_agents _ _ Hco 50%N helper) as (a & Ha & _ & Hs & _); [vm_compute; reflexivity|]. exists a; split; [exact Ha|exact Hs].
Defined.
