(* ===== verification/Invoicing.v ===== *)
(** The invoicing engine (billing/invoicing.py): drafting from the plan snapshot,
    usage and pending adjustments; numbering; payments; voiding. *)

From S2P Require Import Prelude Json Errors Events Tables Store Cache Session Fixtures.
From S2P Require Import Subscriptions Resolver Interfaces Usage.

(** ** Lifecycle *)

Definition INVOICE_TRANSITIONS : list (string * list string) :=
  [("draft", ["open"; "void"]); ("open", ["paid"; "void"; "uncollectible"]);
   ("paid", []); ("void", []); ("uncollectible", [])].

Definition invoice_targets (current : string) : list string :=
  match list_find (fun e => e.1 = current) INVOICE_TRANSITIONS with
  | Some (_, (_, targets)) => targets
  | None => []
  end.

Definition _assert_invoice_transition (current target : string) : M unit :=
  if String.eqb current target then mret tt
  else if bool_decide (target ∈ invoice_targets current) then mret tt
  else raise_domain ValidationFailedError
         [("from", JStr current); ("to", JStr target);
          ("allowed", JList (JStr <$> sorted_str (invoice_targets current)))].

(** ** Lines *)

(** The keyword arguments of an [InvoiceLine]. *)
Record draft_line : Type := DraftLine {
  dl_kind : string;
  dl_description : string;
  dl_quantity : Z;
  dl_unit_amount_cents : Z;
  dl_amount_cents : Z;
  dl_metric : option string;
  dl_properties : jobj
}.

(** The plan charge of a snapshot; a snapshot without a key is the empty one. *)
Definition plan_line (sn : snapshot) : list draft_line :=
  let plan_key := default "unknown" (sn_key sn) in
  let interval := match sn_key sn with None => "month" | Some _ => default "None" (sn_interval sn) end in
  let plan_cents := or0 (sn_price_cents sn) in
  if (0 <? plan_cents)%Z then
    [DraftLine "plan" (default plan_key (sn_name sn) +:+ " plan (" +:+ interval +:+ "ly)")
       1 plan_cents plan_cents None []]
  else [].

Definition adjustment_properties (a : adjustment) : jobj :=
  [("kind", JStr (adj_kind a))] ++
  match adj_plans a with
  | Some ((from_plan, to_plan), (from_price, to_price)) =>
      [("from_plan", JStr from_plan); ("to_plan", JStr to_plan);
       ("from_price_cents", JInt from_price); ("to_price_cents", JInt to_price)]
  | None => []
  end ++ [("created_at", JTime (adj_created_at a))].

Definition _adjustment_lines (adjustments : list adjustment) : list draft_line :=
  omap (fun a =>
    let amount := adj_amount_cents a in
    if (amount =? 0)%Z then None
    else Some (DraftLine (if (amount <? 0)%Z then "credit" else "custom")
                 (if String.eqb (adj_description a) "" then adj_kind a else adj_description a)
                 1 amount amount None (adjustment_properties a))) adjustments.

Definition sum_lines (lines : list draft_line) : Z := sumZ dl_amount_cents lines.

Definition pending_total (adjustments : list adjustment) : Z := sumZ adj_amount_cents adjustments.

(** ** Queries *)

Definition _get_scoped (i : uuid) (org : uuid) : M invoice :=
  found ← session_get Tinvoices i;
  match found with
  | Some v => if N.eqb (i_organization_id v) org then mret v else raise_domain InvoiceNotFoundError []
  | None => raise_domain InvoiceNotFoundError []
  end.

Definition get : uuid -> uuid -> M invoice := _get_scoped.

Definition lines_for (i : uuid) (org : uuid) : M (list (uuid * invoice_line)) :=
  _ ← _get_scoped i org;
  rows ← select Tinvoice_lines (fun _ (l : invoice_line) => N.eqb (il_invoice_id l) i);
  mret rows.

Definition is_draft_for (org : uuid) (p : date) (_ : key Tinvoices) (v : invoice) : bool :=
  N.eqb (i_organization_id v) org && String.eqb (i_status v) "draft" &&
  bool_decide (date_of <$> i_period_start v = Some p).

Definition _find_draft (org : uuid) (p : date) : M (option (uuid * invoice)) :=
  rows ← select Tinvoices (is_draft_for org p);
  scalar_one_or_none rows.

Definition _active_subscription (org : uuid) : M (uuid * subscription) :=
  found ← current_for_org org;
  match found with
  | Some r => mret r
  | None => raise_domain ValidationFailedError []
  end.

Definition is_numbered (org : uuid) (_ : key Tinvoices) (v : invoice) : bool :=
  N.eqb (i_organization_id v) org && bool_decide (is_Some (i_number v)).

(** [strftime("%Y%m")] and the rendered number. *)
Definition month_stamp (t : instant) : string :=
  let c := civil_of_date (date_of t) in Z_str (c_year c) +:+ zfill 2 (c_month c).
Definition invoice_number (stamp : string) (n : Z) : string :=
  "INV-" +:+ stamp +:+ "-" +:+ zfill 4 n.

Definition _next_number (org : uuid) : M string :=
  rows ← select Tinvoices (is_numbered org);
  t ← now;
  mret (invoice_number (month_stamp t) (Z.of_nat (length rows) + 1)).

(** ** Commands *)

Section Service.
Context `{EntitlementReader}.

(** The line of one limited metric. *)
Definition overage_line (counters : rows Tusage_counters) (org : uuid) (p : date)
    (metric : string) (l : limit) : M (list draft_line) :=
  match l_value l, l_overage l with
  | Some value, Some ov =>
      let units_over := (counter_total counters (counter_key org metric p) - value)%Z in
      if (units_over <=? 0)%Z then mret []
      else
        match bill ov units_over with
        | None => raise (PyError "ZeroDivisionError")
        | Some (quantity, cents) =>
            let per := if (1 <? ov_unit ov)%Z then " (per " +:+ commas (ov_unit ov) +:+ ")" else "" in
            mret [DraftLine "overage"
              (metric +:+ " overage — " +:+ commas units_over +:+ " units over plan" +:+ per)
              quantity (ov_price_cents ov) cents (Some metric)
              [("units_over", JInt units_over); ("included", JInt value);
               ("overage_unit", JInt (ov_unit ov))]]
        end
  | _, _ => mret []
  end.

Fixpoint overage_lines_for (counters : rows Tusage_counters) (org : uuid) (p : date)
    (limits : list (string * limit)) : M (list draft_line) :=
  match limits with
  | [] => mret []
  | (metric, l) :: limits =>
      line ← overage_line counters org p metric l;
      rest ← overage_lines_for counters org p limits;
      mret (line ++ rest)
  end.

(** [sorted(limits.items())]: the metrics are distinct, so they alone decide. *)
Definition sorted_limits (ls : gmap string limit) : list (string * limit) :=
  omap (fun m => pair m <$> ls !! m) (sorted_str (elements (dom ls))).

Definition _overage_lines (org : uuid) (p : date) : M (list draft_line) :=
  e ← effective_for org;
  counters ← read_table Tusage_counters;
  overage_lines_for counters org p (sorted_limits (eff_limits e)).

Definition period_end_of (p : date) : instant :=
  (midnight (first_of_month (p + 32)) - DAY + 23 * HOUR + 59 * MINUTE + 59 * SECOND)%Z.

(** Nothing to collect: the remaining credit goes to the next draft. *)
Definition carried (t : instant) (subtotal : Z) : list adjustment :=
  if (subtotal <? 0)%Z
  then [Adjustment "credit_carryover" subtotal "Credit carried forward from the previous invoice" None t]
  else [].

Definition add_line (invoice_id org : uuid) (l : draft_line) : M unit :=
  i ← fresh_id;
  put Tinvoice_lines i
    (InvoiceLine invoice_id org (dl_kind l) (dl_description l) (dl_quantity l)
       (dl_unit_amount_cents l) (dl_amount_cents l) (dl_metric l) (dl_properties l)).

(** The draft of a period with its collected amount. *)
Definition draft_invoice (t : instant) (org : uuid) (p : date) (currency : string) (subtotal : Z) :
    invoice :=
  Invoice org None (Some "synapse") None None currency subtotal 0 subtotal "draft"
    (Some (midnight p)) (Some (period_end_of p)) None None None t.

Definition draft_for_org (org : uuid) (period : option date) : M (uuid * invoice) :=
  t ← now;
  let p := default (_month_bucket t) period in
  existing ← _find_draft org p;
  match existing with
  | Some r => mret r
  | None =>
      sub ← _active_subscription org;
      let '(sub_id, s) := (sub : uuid * subscription) in
      let sn := s_plan_snapshot s in
      overage ← _overage_lines org p;
      let lines := plan_line sn ++ overage ++ _adjustment_lines (s_pending_adjustments s) in
      let raw := sum_lines lines in
      _ ← put Tsubscriptions sub_id (s <| s_pending_adjustments := carried t raw |>);
      let subtotal := Z.max raw 0 in
      i ← fresh_id;
      let v := draft_invoice t org p (default "PHP" (sn_currency sn)) subtotal in
      _ ← put Tinvoices i v;
      _ ← flush;
      _ ← for_each lines (add_line i org);
      _ ← flush;
      _ ← audit INVOICE_CREATED (Some org) None "user" (Some "invoice") (Some i)
            (Some [("period", JDate p); ("lines", JInt (Z.of_nat (length lines)));
                   ("subtotal_cents", JInt subtotal)]);
      mret (i, v)
  end.
End Service.

(** What is decided before the lock: the invoice as it is read is open already, or it
    may be opened. *)
Definition read_invoice (i org : uuid) : M (bool * invoice) :=
  v ← _get_scoped i org;
  if String.eqb (i_status v) "open" then mret (true, v)
  else _ ← _assert_invoice_transition (i_status v) "open"; mret (false, v).

(** [SELECT id FROM organizations ... FOR UPDATE]: the lock that serializes numbering.
    One session alone does not see it; [Numbering] says what it keeps apart. *)
Definition lock_organization (org : uuid) : M unit := _ ← session_get Torganizations org; mret tt.

Definition opened (t : instant) (number : string) (v : invoice) : invoice :=
  v <| i_status := "open" |> <| i_number := Some number |> <| i_issued_at := Some t |>.

(** The UPDATE writes the three columns and leaves the others as they are now. *)
Definition open_invoice (i org : uuid) (v : invoice) (number : string) : M invoice :=
  t ← now;
  rows ← read_table Tinvoices;
  let v' := opened t number v in
  _ ← put Tinvoices i (opened t number (default v (rows !! i)));
  _ ← flush;
  _ ← append_outbox INVOICE_CREATED "invoice" i
        [("number", JStr number); ("total_cents", JInt (i_total_cents v')); ("status", JStr "open")]
        (Some org);
  _ ← append_outbox INVOICE_EMAIL "invoice" i
        [("invoice_id", JUuid i); ("reason", JStr "finalized")] (Some org);
  _ ← audit "invoice.finalized" (Some org) None "user" (Some "invoice") (Some i)
        (Some [("number", JStr number)]);
  mret v'.

Definition finalize (i org : uuid) : M invoice :=
  found ← read_invoice i org;
  let '(already, v) := (found : bool * invoice) in
  if already then mret v
  else
    _ ← lock_organization org;
    number ← _next_number org;
    open_invoice i org v number.

Definition record_payment (i org : uuid) (amount_cents : Z) (reference : option string) : M invoice :=
  v ← _get_scoped i org;
  _ ← _assert_invoice_transition (i_status v) "paid";
  if (amount_cents <? i_total_cents v)%Z then
    raise_domain ValidationFailedError
      [("expected", JInt (i_total_cents v)); ("received", JInt amount_cents)]
  else
    t ← now;
    let v' := v <| i_status := "paid" |> <| i_paid_at := Some t |> in
    _ ← put Tinvoices i v';
    _ ← flush;
    _ ← append_outbox INVOICE_PAID "invoice" i
          [("total_cents", JInt (i_total_cents v')); ("currency", JStr (i_currency v'));
           ("reference", jopt JStr reference)] (Some org);
    _ ← append_outbox INVOICE_EMAIL "invoice" i
          [("invoice_id", JUuid i); ("reason", JStr "paid")] (Some org);
    _ ← audit "invoice.payment_recorded" (Some org) None "user" (Some "invoice") (Some i)
          (Some [("amount_cents", JInt amount_cents); ("reference", jopt JStr reference)]);
    mret v'.

Definition void (i org : uuid) : M invoice :=
  v ← _get_scoped i org;
  _ ← _assert_invoice_transition (i_status v) "void";
  let v' := v <| i_status := "void" |> in
  _ ← put Tinvoices i v';
  _ ← flush;
  _ ← audit "invoice.voided" (Some org) None "user" (Some "invoice") (Some i) None;
  mret v'.

(** ** Reading one's own invoices *)

Lemma run_get_scoped {B} i org (f : invoice -> M B) w :
  mbind f (_get_scoped i org) w =
    match w_db w Tinvoices !! i with
    | Some v => if N.eqb (i_organization_id v) org then f v w
                else (Err (Domain InvoiceNotFoundError []), w)
    | None => (Err (Domain InvoiceNotFoundError []), w)
    end.
Proof.
  unfold _get_scoped. run. destruct (w_db w Tinvoices !! i) as [v|]; [|by run].
  destruct (N.eqb _ _); by run.
Qed.

(** [visible w i org]: the invoice exists and belongs to [org]. *)
Definition visible (w : world) (i org : uuid) : Prop :=
  exists v : invoice, w_db w Tinvoices !! i = Some v /\ i_organization_id v = org.

Definition not_found {A} (w : world) : result A * world := (Err (Domain InvoiceNotFoundError []), w).

(** Another tenant's invoice is as good as absent: reading it, listing its
    lines, finalizing, paying or voiding it all fail with the same not-found
    error whether it exists elsewhere or not, and change nothing. *)
Theorem cross_tenant_not_found i org w :
  ~ visible w i org ->
  get i org w = not_found w /\ lines_for i org w = not_found w /\ finalize i org w = not_found w /\
  (forall amount reference, record_payment i org amount reference w = not_found w) /\
  void i org w = not_found w.
Proof.
  intros Hv.
  assert (Hrun : forall B (f : invoice -> M B), mbind f (_get_scoped i org) w = not_found w).
  { intros B f. rewrite run_get_scoped. destruct (w_db w Tinvoices !! i) as [v|] eqn:E; [|done].
    destruct (N.eqb_spec (i_organization_id v) org); [|done]. destruct Hv. by exists v. }
  split_and!; try (intros; apply Hrun); [|unfold finalize, read_invoice; rewrite run_assoc; apply Hrun].
  unfold get. pose proof (Hrun _ mret) as H. revert H. unfold mbind, M_bind.
  by destruct (_get_scoped i org w) as [[v|e] w'].
Qed.

Lemma run_visible {B} i org (v : invoice) (f : invoice -> M B) w :
  w_db w Tinvoices !! i = Some v -> i_organization_id v = org ->
  mbind f (_get_scoped i org) w = f v w.
Proof. intros Hi <-. rewrite run_get_scoped. rewrite_row Hi. by rewrite N.eqb_refl. Qed.

Lemma run_read {B} i org (v : invoice) (f : bool * invoice -> M B) w :
  w_db w Tinvoices !! i = Some v -> i_organization_id v = org ->
  mbind f (read_invoice i org) w =
    if String.eqb (i_status v) "open" then f (true, v) w
    else mbind (fun _ => f (false, v)) (_assert_invoice_transition (i_status v) "open") w.
Proof.
  intros Hi Ho. unfold read_invoice. rewrite run_assoc, (run_visible i org v) by done.
  destruct (String.eqb _ _); [done|]. by rewrite run_assoc.
Qed.

(** ** Writing an invoice *)

Lemma invoices_table d : constraints_ok d -> invoices_ok (d Tinvoices).
Proof. intros H. exact (proj1 (constraints_ok_table _) H Tinvoices). Qed.

Lemma invoices_ok_update m i (v v0 : invoice) :
  invoices_ok m -> m !! i = Some v0 -> i_status v ∈ INVOICE_STATUSES ->
  i_provider v = i_provider v0 -> i_provider_invoice_id v = i_provider_invoice_id v0 ->
  i_organization_id v = i_organization_id v0 ->
  i_number v = i_number v0 \/
    (forall j v', j <> i -> m !! j = Some v' -> i_organization_id v' = i_organization_id v ->
       i_number v' <> i_number v) ->
  invoices_ok (<[i := v]> m).
Proof.
  intros (Hc & Hp & Hn) Hi Hst E1 E2 E3 Hnum. repeat split.
  - by apply check_in_insert.
  - eapply unique_on_update; [done|exact Hi|right]. by rewrite E1, E2.
  - destruct Hnum as [E4|Hnum].
    + eapply unique_on_update; [done|exact Hi|right]. by rewrite E3, E4.
    + apply unique_on_insert; [done|]. intros j v' x Hj Hjv Hv Hv'.
      destruct (i_number v) as [n|] eqn:En; [|done]. destruct (i_number v') as [n'|] eqn:En'; [|done].
      simpl in Hv, Hv'. apply (Hnum j v' Hj Hjv); congruence.
Qed.

Lemma run_transition {B} current target (f : unit -> M B) w :
  current = target \/ target ∈ invoice_targets current ->
  mbind f (_assert_invoice_transition current target) w = f tt w.
Proof.
  intros H. unfold _assert_invoice_transition.
  destruct (String.eqb_spec current target); [done|]. destruct H; [done|]. by rewrite bool_decide_true.
Qed.

Lemma run_refused {B} current target (f : unit -> M B) w :
  current <> target -> target ∉ invoice_targets current ->
  exists extras, mbind f (_assert_invoice_transition current target) w =
    (Err (Domain ValidationFailedError extras), w).
Proof.
  intros Hne H. unfold _assert_invoice_transition. rewrite (proj2 (String.eqb_neq _ _)) by done.
  rewrite bool_decide_false by done. by eexists.
Qed.

Lemma invoice_sources src target :
  target ∈ invoice_targets src ->
  (src, target) ∈ [("draft", "open"); ("draft", "void"); ("open", "paid"); ("open", "void");
                   ("open", "uncollectible")].
Proof.
  unfold invoice_targets.
  destruct (list_find _ _) as [[n [st ts]]|] eqn:E; [|intros H; by apply not_elem_of_nil in H].
  apply list_find_Some in E as (Hl & <- & _). apply list_elem_of_lookup_2 in Hl. simpl.
  unfold INVOICE_TRANSITIONS in Hl. intros Ht.
  repeat (apply elem_of_cons in Hl as [[= -> ->]|Hl]; [set_solver|]). by apply not_elem_of_nil in Hl.
Qed.

(** The lifecycle is the declared one: only a draft can be finalized (an open
    invoice is returned as it is), only an open or paid invoice takes a payment
    and never a partial one, only a draft, open or voided invoice can be voided;
    everything else is refused with nothing changed. *)
Theorem invoice_lifecycle i org (v : invoice) w :
  w_db w Tinvoices !! i = Some v -> i_organization_id v = org ->
  (i_status v = "open" -> finalize i org w = (Ok v, w)) /\
  (i_status v ∉ ["draft"; "open"] ->
     exists extras, finalize i org w = (Err (Domain ValidationFailedError extras), w)) /\
  (i_status v ∉ ["open"; "paid"] -> forall amount reference,
     exists extras, record_payment i org amount reference w = (Err (Domain ValidationFailedError extras), w)) /\
  (i_status v ∈ ["open"; "paid"] -> forall amount reference, (amount < i_total_cents v)%Z ->
     record_payment i org amount reference w =
       (Err (Domain ValidationFailedError
          [("expected", JInt (i_total_cents v)); ("received", JInt amount)]), w)) /\
  (i_status v ∉ ["draft"; "open"; "void"] ->
     exists extras, void i org w = (Err (Domain ValidationFailedError extras), w)).
Proof.
  intros Hi Ho. split_and!.
  - intros Hst. unfold finalize. rewrite (run_read i org v) by done. by rewrite Hst.
  - intros Hst. unfold finalize. rewrite (run_read i org v) by done.
    rewrite (proj2 (String.eqb_neq _ _)) by set_solver.
    apply run_refused; [set_solver|]. intros H%invoice_sources. set_solver.
  - intros Hst amount reference. unfold record_payment. rewrite (run_visible i org v) by done.
    apply run_refused; [set_solver|]. intros H%invoice_sources. set_solver.
  - intros Hst amount reference Hlt. unfold record_payment. rewrite (run_visible i org v) by done.
    rewrite run_transition by (apply elem_of_cons in Hst as [->|Hst];
      [right; by apply (bool_decide_unpack _)|left; set_solver]).
    by rewrite (proj2 (Z.ltb_lt _ _)) by done.
  - intros Hst. unfold void. rewrite (run_visible i org v) by done.
    apply run_refused; [set_solver|]. intros H%invoice_sources. set_solver.
Qed.

(** ** Numbering *)

(** Every numbered invoice of the organization carries a number the engine
    issued, with an index no larger than their count. *)
Definition numbers_ok (org : uuid) (m : rows Tinvoices) : Prop :=
  forall i (v : invoice) s, m !! i = Some v -> i_organization_id v = org -> i_number v = Some s ->
    exists stamp k, s = invoice_number stamp k /\
      (1 <= k <= Z.of_nat (length (rows_where Tinvoices (is_numbered org) m)))%Z.

Lemma invoice_number_inj stamp stamp' k k' :
  (0 <= k)%Z -> (0 <= k')%Z -> invoice_number stamp k = invoice_number stamp' k' -> k = k'.
Proof.
  intros Hk Hk' H. unfold invoice_number in H. apply app_inv_head_str in H.
  apply (split_at_last_sep (Ascii.ascii_of_nat 45)) in H as [_ H]; [|by apply zfill_no_minus..].
  apply (f_equal int_of_str) in H. rewrite !int_of_zfill in H by done. congruence.
Qed.

(** The state after numbering draft [i]. *)
Lemma numbers_ok_put org m i (v v' : invoice) stamp :
  let n := length (rows_where Tinvoices (is_numbered org) m) in
  numbers_ok org m -> m !! i = Some v -> i_number v = None ->
  i_organization_id v' = org -> i_number v' = Some (invoice_number stamp (Z.of_nat n + 1)) ->
  length (rows_where Tinvoices (is_numbered org) (<[i := v']> m)) = S n /\
  numbers_ok org (<[i := v']> m) /\
  (forall j w', j <> i -> m !! j = Some w' -> i_organization_id w' = org -> i_number w' <> i_number v').
Proof.
  intros n Hok Hi Hv Ho Hv'.
  assert (Hlen : length (rows_where Tinvoices (is_numbered org) (<[i := v']> m)) = S n).
  { etrans; [apply Permutation_length, (rows_where_replace Tinvoices (is_numbered org) m i v' v Hi);
      unfold is_numbered; rewrite Hv; by rewrite andb_false_r|].
    unfold is_numbered at 1. rewrite Ho, N.eqb_refl, Hv'. by rewrite bool_decide_true by by eexists. }
  split; [done|]. split.
  - intros j u s Hj Hu Hs.
    cut (exists st k, s = invoice_number st k /\ (1 <= k <= Z.of_nat (S n))%Z).
    { intros (st & k & E & Hk). exists st, k. split; [done|]. split; [lia|].
      etrans; [apply Hk|]. by apply inj_le, Nat.eq_le_incl. }
    apply (lookup_put Tinvoices) in Hj as [[<- <-]|[_ Hj]].
    + rewrite Hv' in Hs. injection Hs as <-. eexists _, _. split; [done|lia].
    + destruct (Hok j u s Hj Hu Hs) as (st & k & -> & Hk). exists st, k. split; [done|]. fold n in Hk. lia.
  - intros j u Hj Hju Hu E. rewrite Hv' in E.
    destruct (Hok j u _ Hju Hu E) as (st & k & E' & Hk). fold n in Hk.
    apply invoice_number_inj in E'; lia.
Qed.

(** Opening an invoice under a number no other of the organization has. *)
Lemma open_invoice_run i org (v v0 : invoice) number w :
  constraints_ok (w_db w) -> w_db w Tinvoices !! i = Some v0 -> i_organization_id v0 = i_organization_id v ->
  (forall j u, j <> i -> w_db w Tinvoices !! j = Some u -> i_organization_id u = i_organization_id v0 -> i_number u <> Some number) ->
  exists w', open_invoice i org v number w = (Ok (opened (w_clock w) number v), w') /\ constraints_ok (w_db w') /\
    w_db w' Tinvoices = <[i := opened (w_clock w) number v0]> (w_db w Tinvoices).
Proof.
  intros Hok Hi Ho Huniq. set (v' := opened (w_clock w) number v0).
  assert (Hok' : constraints_ok (w_db (put_w Tinvoices i v' w))).
  { apply constraints_put; [done|]. apply (invoices_ok_update _ i v' v0); try done.
    - by apply invoices_table.
    - by apply (bool_decide_unpack _).
    - right. intros j u Hj Hju Hu. by apply (Huniq j u). }
  unfold open_invoice. run. rewrite_row Hi. cbn [default]. fold v'.
  rewrite run_flush by done. run_all. eexists. split; [done|].
  split; [repeat apply constraints_step; solve_stable|]. by tables.
Qed.

(** Numbers are unique per organization by construction: finalizing a draft of
    an organization whose numbers the engine issued cannot fail on the unique
    index.  It opens the draft, issues it under the next index, keeps every other
    invoice and the numbering scheme, and finalizing again returns the same
    invoice and emits nothing. *)
Theorem finalize_issues_unique_number i org (v : invoice) w :
  constraints_ok (w_db w) -> numbers_ok org (w_db w Tinvoices) ->
  w_db w Tinvoices !! i = Some v -> i_organization_id v = org ->
  i_status v = "draft" -> i_number v = None ->
  let n := length (rows_where Tinvoices (is_numbered org) (w_db w Tinvoices)) in
  let number := invoice_number (month_stamp (w_clock w)) (Z.of_nat n + 1) in
  let v' := v <| i_status := "open" |> <| i_number := Some number |> <| i_issued_at := Some (w_clock w) |> in
  exists w', finalize i org w = (Ok v', w') /\ constraints_ok (w_db w') /\
    w_db w' Tinvoices = <[i := v']> (w_db w Tinvoices) /\
    numbers_ok org (w_db w' Tinvoices) /\ finalize i org w' = (Ok v', w').
Proof.
  intros Hok Hnum Hi Ho Hst Hno n number v'.
  destruct (numbers_ok_put org (w_db w Tinvoices) i v v' (month_stamp (w_clock w)) Hnum Hi Hno Ho eq_refl)
    as (_ & Hnum' & Huniq).
  destruct (open_invoice_run i org v v number w Hok Hi eq_refl) as (w' & E & Hok' & Ht); [by rewrite Ho|].
  exists w'. split.
  { unfold finalize. rewrite (run_read i org v) by done. rewrite Hst. simpl.
    rewrite run_transition by (right; by apply (bool_decide_unpack _)). unfold lock_organization, _next_number. run. exact E. }
  split; [done|]. split; [exact Ht|]. rewrite Ht. split; [done|]. unfold finalize. rewrite (run_read i org v'); [done| |done].
  rewrite Ht. apply (put_same Tinvoices).
Qed.

(** An accepted payment settles the invoice and nothing else: the row is the
    open (or already paid) invoice marked paid now, every other invoice is
    untouched, the constraints hold, and exactly two events are queued. *)
Theorem record_payment_settles i org (v : invoice) amount reference n w :
  constraints_ok (w_db w) -> w_db w Tinvoices !! i = Some v -> i_organization_id v = org ->
  i_status v ∈ ["open"; "paid"] -> (i_total_cents v <= amount)%Z ->
  outbox_at n w ->
  let v' := v <| i_status := "paid" |> <| i_paid_at := Some (w_clock w) |> in
  exists w', record_payment i org amount reference w = (Ok v', w') /\ constraints_ok (w_db w') /\
    w_db w' Tinvoices = <[i := v']> (w_db w Tinvoices) /\
    outbox_at (S (S n)) w'.
Proof.
  intros Hok Hi Ho Hst Hamt Hout v'.
  assert (Hok' : constraints_ok (w_db (put_w Tinvoices i v' w))).
  { apply constraints_put; [done|]. apply (invoices_ok_update _ i v' v); try done; [|by apply (bool_decide_unpack _)|by left].
    by apply invoices_table. }
  unfold record_payment. rewrite (run_visible i org v) by done.
  rewrite run_transition by (apply elem_of_cons in Hst as [->|Hst];
    [right; by apply (bool_decide_unpack _)|left; set_solver]).
  rewrite (proj2 (Z.ltb_ge _ _)) by done. run. fold v'. rewrite run_flush by done.
  run_all. eexists. split; [done|].
  split; [repeat apply constraints_step; solve_stable|]. split; [by tables|].
  by apply outbox_at_audit, outbox_at_append, outbox_at_append, outbox_at_put.
Qed.

(** ** Drafting *)

Definition line_of (i : uuid) (_ : key Tinvoice_lines) (l : invoice_line) : bool := N.eqb (il_invoice_id l) i.

(** The row of a drafted line. *)
Definition line_row (i org : uuid) (l : draft_line) : invoice_line :=
  InvoiceLine i org (dl_kind l) (dl_description l) (dl_quantity l)
    (dl_unit_amount_cents l) (dl_amount_cents l) (dl_metric l) (dl_properties l).

(** No line is stored under, or refers to, an identifier still to come. *)
Definition lines_free (w : world) : Prop :=
  (forall j, (w_fresh w <= j)%N -> w_db w Tinvoice_lines !! j = None) /\
  (forall j (l : invoice_line), w_db w Tinvoice_lines !! j = Some l -> (il_invoice_id l < w_fresh w)%N).

Lemma add_line_adds i org l w :
  (forall j, (w_fresh w <= j)%N -> w_db w Tinvoice_lines !! j = None) ->
  let w' := (add_line i org l w).2 in
  (forall j, (w_fresh w' <= j)%N -> w_db w' Tinvoice_lines !! j = None) /\
  rows_where Tinvoice_lines (line_of i) (w_db w' Tinvoice_lines) ≡ₚ
    (w_fresh w, line_row i org l) :: rows_where Tinvoice_lines (line_of i) (w_db w Tinvoice_lines).
Proof.
  intros Hf w'. subst w'. unfold add_line. run. split.
  - intros j Hj. simpl in Hj. tables. apply (put_other Tinvoice_lines); [simpl; lia|]. apply Hf. lia.
  - tables. etrans; [apply (rows_where_insert Tinvoice_lines), Hf; simpl; lia|].
    unfold line_of at 1. simpl. by rewrite N.eqb_refl.
Qed.

#[export] Instance total_add_line i org l : Total (add_line i org l).
Proof. done. Qed.
Lemma add_line_keeps t i org l : t <> Tinvoice_lines -> Stable (keeps t) (add_line i org l).
Proof. intros Ht. unfold add_line. solve_stable. by apply keeps_put. Qed.
Lemma add_line_constraints i org l : Stable keeps_constraints (add_line i org l).
Proof. intros w Hw. by apply constraints_ok_set. Qed.
#[export] Hint Resolve add_line_constraints : stable.
#[export] Hint Extern 1 (Stable (keeps _) (add_line _ _ _)) => apply add_line_keeps; discriminate : stable.

Lemma add_lines i org ls w :
  (forall j, (w_fresh w <= j)%N -> w_db w Tinvoice_lines !! j = None) ->
  snd <$> rows_where Tinvoice_lines (line_of i)
      (w_db (for_each ls (add_line i org) w).2 Tinvoice_lines) ≡ₚ
    (line_row i org <$> ls) ++
    (snd <$> rows_where Tinvoice_lines (line_of i) (w_db w Tinvoice_lines)).
Proof.
  revert w. induction ls as [|l ls IH]; intros w Hf; [done|].
  destruct (add_line_adds i org l w Hf) as [Hf' Hadd]. cbn [for_each]. rewrite run_total by apply _.
  etrans; [apply (IH _ Hf')|]. rewrite fmap_cons. etrans; [|symmetry; apply Permutation_middle].
  apply Permutation_app_head. etrans; [apply fmap_Permutation, Hadd|]. done.
Qed.

(** The amounts: adjustments are billed in full, and what a draft cannot collect
    is carried over. *)
Lemma adjustment_lines_total l : sum_lines (_adjustment_lines l) = pending_total l.
Proof.
  unfold _adjustment_lines, pending_total, sum_lines. rewrite sumZ_omap. apply sumZ_ext.
  intros a _. by destruct (Z.eqb_spec (adj_amount_cents a) 0) as [->|].
Qed.

Lemma carried_total t raw : (Z.max raw 0 + pending_total (carried t raw) = raw)%Z.
Proof. unfold carried. destruct (Z.ltb_spec raw 0); simpl; lia. Qed.

Lemma plan_line_total sn : sum_lines (plan_line sn) = Z.max (or0 (sn_price_cents sn)) 0.
Proof. unfold plan_line. destruct (Z.ltb_spec 0 (or0 (sn_price_cents sn))); simpl; lia. Qed.

Lemma date_of_midnight d : date_of (midnight d) = d.
Proof. apply Z.div_mul. discriminate. Qed.

Lemma invoices_ok_add m i (v : invoice) :
  invoices_ok m -> i_status v ∈ INVOICE_STATUSES -> i_provider_invoice_id v = None ->
  i_number v = None -> invoices_ok (<[i := v]> m).
Proof.
  intros (Hc & Hp & Hn) Hst Hpid Hno. repeat split.
  - by apply check_in_insert.
  - apply unique_on_insert; [done|]. intros j r x _ _ Hx. rewrite Hpid in Hx. by destruct (i_provider v).
  - apply unique_on_insert; [done|]. intros j r x _ _ Hx. by rewrite Hno in Hx.
Qed.

Section Drafting.
Context `{EntitlementReader}.

Lemma overage_lines_for_readonly counters org p l : Stable eq (overage_lines_for counters org p l).
Proof. induction l as [|[m l] ls IH]; simpl; unfold overage_line; solve_stable. Qed.

(** Pricing the overage reads the entitlements and the counters. *)
Lemma overage_lines_run {B} org p (f : list draft_line -> M B) w overage :
  (_overage_lines org p w).1 = Ok overage ->
  exists w1, mbind f (_overage_lines org p) w = f overage w1 /\ same_env w w1 /\
    w_fresh w1 = w_fresh w /\ forall t, w_db w1 t = w_db w t.
Proof.
  pose proof (effective_env org w) as He. pose proof (effective_tables org w) as Ht.
  pose proof (effective_fresh org w) as Hfr. unfold _overage_lines.
  intros Hov. rewrite run_assoc. revert Hov. unfold mbind at 1, M_bind at 1.
  destruct (effective_for org w) as [[e|x] w1] eqn:Ew; simpl in He, Ht, Hfr; [|done].
  rewrite (run_ok _ _ _ _ _ Ew). intros Hov. exists w1. split; [|done].
  rewrite run_readonly; [by rewrite Hov|].
  apply (stable_bind eq); [apply (stable_read eq Tusage_counters)|].
  intros c. apply overage_lines_for_readonly.
Qed.

Lemma draft_again org p w i (v : invoice) :
  rows_where Tinvoices (is_draft_for org p) (w_db w Tinvoices) = [(i, v)] ->
  draft_for_org org (Some p) w = (Ok (i, v), w).
Proof.
  intros Hd. unfold draft_for_org. run. cbn [from_option id]. unfold _find_draft. run. rewrite Hd. by run.
Qed.

Lemma no_lines_yet i m :
  (forall j (l : invoice_line), m !! j = Some l -> (il_invoice_id l < i)%N) ->
  rows_where Tinvoice_lines (line_of i) m = [].
Proof.
  intros Hm. apply rows_where_nil. intros j l Hl. unfold line_of. apply N.eqb_neq.
  specialize (Hm j l Hl). lia.
Qed.

Lemma find_added_draft t org p currency subtotal m i :
  m !! i = None -> rows_where Tinvoices (is_draft_for org p) m = [] ->
  rows_where Tinvoices (is_draft_for org p) (<[i := draft_invoice t org p currency subtotal]> m) =
    [(i, draft_invoice t org p currency subtotal)].
Proof.
  intros Hi Hno. apply Permutation_singleton_r. etrans; [by apply (rows_where_insert Tinvoices)|].
  unfold is_draft_for at 1. simpl. rewrite N.eqb_refl, date_of_midnight, bool_decide_true by done.
  simpl. by rewrite Hno.
Qed.

(** C9: a draft bills everything exactly once.  With a running subscription, no
    draft for the period and priceable overage, drafting succeeds: the stored lines
    are the plan charge, the overage and the pending adjustments; the total is
    never negative and, together with what is carried forward, equals their sum;
    the constraints hold; and drafting the period again returns the same draft and
    changes nothing. *)
Theorem draft_bills_everything_once org p w sub_id (s : subscription) overage :
  constraints_ok (w_db w) ->
  w_db w Tsubscriptions !! sub_id = Some s -> occupied_org s = Some org ->
  rows_where Tinvoices (is_draft_for org p) (w_db w Tinvoices) = [] ->
  (_overage_lines org p w).1 = Ok overage ->
  w_db w Tinvoices !! w_fresh w = None -> lines_free w ->
  let lines := plan_line (s_plan_snapshot s) ++ overage ++ _adjustment_lines (s_pending_adjustments s) in
  exists i v s' w', draft_for_org org (Some p) w = (Ok (i, v), w') /\ constraints_ok (w_db w') /\
    w_db w' Tinvoices = <[i := v]> (w_db w Tinvoices) /\ i_status v = "draft" /\
    w_db w' Tsubscriptions = <[sub_id := s']> (w_db w Tsubscriptions) /\
    (snd <$> rows_where Tinvoice_lines (line_of i) (w_db w' Tinvoice_lines)) ≡ₚ line_row i org <$> lines /\
    (0 <= i_total_cents v)%Z /\
    (i_total_cents v + pending_total (s_pending_adjustments s') =
       Z.max (or0 (sn_price_cents (s_plan_snapshot s))) 0 + sum_lines overage +
       pending_total (s_pending_adjustments s))%Z /\
    draft_for_org org (Some p) w' = (Ok (i, v), w').
Proof.
  intros Hok Hs Hocc Hno Hov Hfree [Hlf Hlr] lines.
  assert (Hcur : current_in org (w_db w Tsubscriptions) = Some (sub_id, s)) by (eapply current_is; eauto).
  unfold draft_for_org at 1. run. cbn [from_option id]. unfold _find_draft. run. rewrite Hno. run.
  unfold _active_subscription. rewrite run_assoc, run_current, Hcur. run.
  match goal with |- context [mbind ?f (_overage_lines org p) w] =>
    destruct (overage_lines_run org p f w overage Hov) as (w1 & -> & Henv & Hfr & Ht) end.
  fold lines. set (s' := s <| s_pending_adjustments := _ |>). set (v := draft_invoice _ _ _ _ _).
  run. set (i := w_fresh w1). change (w_fresh (put_w _ _ _ w1)) with i.
  set (w2 := put_w Tinvoices i v _).
  assert (Hok2 : constraints_ok (w_db w2)).
  { apply constraints_put; [|tables; rewrite Ht; by apply invoices_ok_add; [apply invoices_table|apply (bool_decide_unpack _)|..]].
    apply (constraints_put Tsubscriptions sub_id s' w1); [rewrite !constraints_ok_table in *; intros t; rewrite Ht; apply Hok|].
    rewrite Ht. apply (subscriptions_ok_update _ _ s' s); auto.
    exact (proj1 (subscriptions_table _ Hok) sub_id s Hs). }
  rewrite run_flush by done. rewrite run_total by apply _.
  rewrite run_flush by (apply constraints_step; [solve_stable|done]). run_all.
  exists i, v, s'. eexists. split; [done|].
  assert (Hinv : w_db w2 Tinvoices = <[i := v]> (w_db w Tinvoices)) by (unfold w2; tables; by rewrite Ht).
  split; [repeat apply constraints_step; solve_stable|]. split; [by tables|]. split; [done|].
  split; [tables; unfold w2; tables; by rewrite Ht|]. split.
  { tables. etrans; [apply add_lines|].
    - intros j Hj. unfold w2. tables. rewrite Ht. apply Hlf. simpl in Hj. lia.
    - unfold w2. tables. rewrite Ht, no_lines_yet; [by rewrite app_nil_r|].
      intros j l Hl. unfold i. rewrite Hfr. by eapply Hlr. }
  split; [apply Z.le_max_r|]. split; [|apply draft_again; tables; rewrite Hinv; apply find_added_draft; [unfold i; by rewrite Hfr|done]].
  simpl. rewrite carried_total. unfold sum_lines at 1, lines. rewrite !sumZ_app.
  rewrite plan_line_total, adjustment_lines_total. unfold sum_lines. lia.
Qed.
End Drafting.

(** ** Witnesses *)

Definition demo_draft : invoice := draft_invoice NOW 1 19986 "PHP" 100000.
Definition billed : world :=
  world_of (set_table demo_db Tinvoices (rows_of Tinvoices [(50%N, demo_draft)])).

Lemma cross_tenant_not_found_witness : get 50 2 billed = not_found billed.
Proof.
  apply (proj1 (cross_tenant_not_found 50 2 billed ltac:(intros (v & Hv & Ho); vm_compute in Hv;
    injection Hv as <-; discriminate Ho))).
Defined.

Lemma invoice_lifecycle_witness :
  exists extras, record_payment 50 1 100000 None billed = (Err (Domain ValidationFailedError extras), billed).
Proof.
  apply (proj1 (proj2 (proj2 (invoice_lifecycle 50 1 demo_draft billed eq_refl eq_refl)))). by_compute.
Defined.

Lemma numbers_ok_billed : numbers_ok 1 (w_db billed Tinvoices).
Proof.
  intros i v s Hi _ Hs. change (w_db billed Tinvoices) with (<[50%N := demo_draft]> (∅ : rows Tinvoices)) in Hi.
  apply (lookup_put Tinvoices) in Hi as [[_ <-]|[_ Hi]]; [done|]. by rewrite lookup_empty in Hi.
Qed.

Lemma finalize_issues_unique_number_witness :
  exists v w', finalize 50 1 billed = (Ok v, w') /\ i_number v = Some "INV-202410-0001".
Proof.
  destruct (finalize_issues_unique_number 50 1 demo_draft billed ltac:(by_compute) numbers_ok_billed
    eq_refl eq_refl eq_refl eq_refl) as (w' & E & _).
  eexists _, w'. split; [exact E|]. vm_compute. reflexivity.
Defined.

Definition opened_world : world :=
  world_of (set_table demo_db Tinvoices (rows_of Tinvoices [(50%N, demo_draft <| i_status := "open" |>)])).

Lemma record_payment_settles_witness :
  exists v w', record_payment 50 1 100000 None opened_world = (Ok v, w') /\ i_status v = "paid".
Proof.
  destruct (record_payment_settles 50 1 (demo_draft <| i_status := "open" |>) 100000 None 0 opened_world
    ltac:(by_compute) eq_refl eq_refl ltac:(by_compute) ltac:(by_compute) ltac:(split; [reflexivity|done]))
    as (w' & E & _).
  eexists _, w'. split; [exact E|reflexivity].
Defined.

Lemma draft_bills_everything_once_witness :
  exists i v w', @draft_for_org static_reader 1 (Some 19986%Z) demo = (Ok (i, v), w') /\ i_status v = "draft".
Proof.
  destruct (@draft_bills_everything_once static_reader 1 19986 demo 20%N free_subscription [] ltac:(by_compute)
    eq_refl eq_refl eq_refl ltac:(by_compute) eq_refl ltac:(split; [done|]; intros j l Hl; discriminate Hl))
    as (i & v & s' & w' & E & _ & _ & Hst & _).
  exists i, v, w'. split; [exact E|exact Hst].
Defined.
