(* ===== verification/Numbering.v ===== *)
(** Finalizing invoices at the same time (billing/invoicing.py, [finalize]): the row
    lock on the organization, between transactions at PostgreSQL's READ COMMITTED.

    A session is one call of [finalize] in its own transaction.  Each of its
    statements is a step that reads what is committed at that moment: the invoice is
    read and its transition checked, the organization's row is locked, which waits
    while another session holds it, the numbered invoices are counted, and the invoice
    is written, the transaction committed and the lock released.  Between the steps of
    one session come those of the others and whatever other transactions commit
    ([elsewhere]).  The steps are those of [Invoicing.finalize]. *)

From S2P Require Import Prelude Json Errors Events Tables Store Cache Session Fixtures.
From S2P Require Import Subscriptions Invoicing.

Inductive phase : Type :=
  | Started
  | AlreadyOpen (v : invoice)
  | Checked (v : invoice)
  | Holding (v : invoice)
  | Counted (v : invoice) (number : string)
  | Finished (r : result invoice).

Record numbering : Type := Racing {
  nu_world : world;
  nu_holder : option nat;
  nu_sessions : list (uuid * phase)
}.
#[export] Instance numbering_eta : Eta numbering := fun r =>
  Racing (nu_world r) (nu_holder r) (nu_sessions r).

Section Numbering.
Context (org : uuid).

Abbreviation invoices st := (w_db (nu_world st) Tinvoices).

Definition enter (s : nat) (i : uuid) (p : phase) (st : numbering) : numbering :=
  Racing (nu_world st) (nu_holder st) (<[s := (i, p)]> (nu_sessions st)).
Definition hold (h : option nat) (st : numbering) : numbering := Racing (nu_world st) h (nu_sessions st).
Definition committed (w : world) (st : numbering) : numbering := Racing w (nu_holder st) (nu_sessions st).

Definition after_read (r : result (bool * invoice)) : phase :=
  match r with
  | Ok (true, v) => AlreadyOpen v
  | Ok (false, v) => Checked v
  | Err e => Finished (Err e)
  end.

Definition number_and_commit (i : uuid) (v : invoice) (number : string) : M invoice :=
  v' ← open_invoice i org v number; _ ← commit; mret v'.

(** The next statement of session [s]: [None] when it has none, or waits for the lock. *)
Definition advance (s : nat) (st : numbering) : option numbering :=
  match nu_sessions st !! s with
  | Some (i, Started) => Some (enter s i (after_read (read_invoice i org (nu_world st)).1) st)
  | Some (i, Checked v) =>
      match nu_holder st with
      | None => Some (enter s i (Holding v) (hold (Some s) st))
      | Some _ => None
      end
  | Some (i, Holding v) =>
      match (_next_number org (nu_world st)).1 with
      | Ok number => Some (enter s i (Counted v number) st)
      | Err e => Some (enter s i (Finished (Err e)) (hold None st))
      end
  | Some (i, Counted v number) =>
      match number_and_commit i v number (nu_world st) with
      | (Ok v', w') => Some (enter s i (Finished (Ok v')) (hold None (committed w' st)))
      | (Err e, _) => Some (enter s i (Finished (Err e)) (hold None st))
      end
  | Some (_, AlreadyOpen _) | Some (_, Finished _) | None => None
  end.

Fixpoint schedule (order : list nat) (st : numbering) : option numbering :=
  match order with
  | [] => Some st
  | s :: order => st' ← advance s st; schedule order st'
  end.

(** What the other transactions may commit meanwhile: anything that keeps the
    constraints, numbers no invoice of the organization, removes none and turns none
    back into a draft (payments, voids, drafts, other organizations). *)
Record elsewhere (w w' : world) : Prop := Elsewhere {
  else_constraints : constraints_ok (w_db w');
  else_kept j (v : invoice) : w_db w Tinvoices !! j = Some v -> i_organization_id v = org ->
    exists v' : invoice, w_db w' Tinvoices !! j = Some v' /\ i_organization_id v' = org /\ i_number v' = i_number v /\
      (i_status v' = "draft" -> i_status v = "draft");
  else_new j (v' : invoice) : w_db w' Tinvoices !! j = Some v' -> i_organization_id v' = org ->
    (exists v : invoice, w_db w Tinvoices !! j = Some v /\ i_organization_id v = org) \/ i_number v' = None
}.

Inductive turn : numbering -> numbering -> Prop :=
  | turn_session s st st' : advance s st = Some st' -> turn st st'
  | turn_elsewhere st w' : elsewhere (nu_world st) w' -> turn st (committed w' st).

(** ** Lemmas on the statements *)

Definition refusal (e : exn) : Prop :=
  match e with
  | Domain k _ => k = InvoiceNotFoundError \/ k = ValidationFailedError
  | _ => False
  end.

Lemma read_invoice_result i w :
  match (read_invoice i org w).1 with
  | Ok (already, v) => w_db w Tinvoices !! i = Some v /\ i_organization_id v = org /\
      i_status v = (if already then "open" else "draft")
  | Err e => refusal e
  end.
Proof.
  unfold read_invoice. rewrite run_get_scoped. destruct (w_db w Tinvoices !! i) as [v|] eqn:Hi; [|by left].
  destruct (N.eqb_spec (i_organization_id v) org) as [Ho|]; [|by left].
  destruct (String.eqb_spec (i_status v) "open") as [|Hne]; [done|].
  destruct (decide ("open" ∈ invoice_targets (i_status v))) as [Hin|Hin].
  - rewrite run_transition by (by right). split_and!; [done|done|].
    apply invoice_sources in Hin. set_solver.
  - destruct (run_refused (i_status v) "open" (fun _ => mret (false, v)) w Hne Hin) as (x & ->). by right.
Qed.

Definition numbered_count (m : rows Tinvoices) : Z := Z.of_nat (length (rows_where Tinvoices (is_numbered org) m)).

Lemma next_number_run w : (_next_number org w).1 = Ok (invoice_number (month_stamp (w_clock w)) (numbered_count (w_db w Tinvoices) + 1)).
Proof. reflexivity. Qed.

Lemma is_numbered_true k (v : invoice) : is_numbered org k v = true <-> i_organization_id v = org /\ is_Some (i_number v).
Proof. unfold is_numbered. rewrite andb_true_iff, N.eqb_eq, bool_decide_eq_true. done. Qed.

Lemma elsewhere_numbered w w' j (v' : invoice) : elsewhere w w' -> w_db w' Tinvoices !! j = Some v' -> i_organization_id v' = org ->
  is_Some (i_number v') -> exists v : invoice, w_db w Tinvoices !! j = Some v /\ i_organization_id v = org /\ i_number v = i_number v'.
Proof.
  intros He Hj Ho Hn. destruct (else_new _ _ He j v' Hj Ho) as [(v & Hv & Hvo)|E]; [|rewrite E in Hn; by destruct Hn].
  exists v. split_and!; [done|done|]. destruct (else_kept _ _ He j v Hv Hvo) as (v2 & E2 & _ & <- & _). congruence.
Qed.

Lemma elsewhere_count w w' : elsewhere w w' -> numbered_count (w_db w' Tinvoices) = numbered_count (w_db w Tinvoices).
Proof.
  intros He. unfold numbered_count. f_equal. rewrite <- !(length_fmap (fun r : key Tinvoices * row Tinvoices => r.1)).
  apply Permutation_length, NoDup_Permutation; [apply NoDup_fst_rows_where..|].
  intros j. rewrite !list_elem_of_fmap. split.
  - intros ([j' v'] & -> & [Hj [Ho Hn]%is_numbered_true]%elem_of_rows_where).
    destruct (elsewhere_numbered _ _ _ _ He Hj Ho Hn) as (v & Hv & Hvo & E). exists (j', v). split; [done|].
    apply elem_of_rows_where. split; [done|]. apply is_numbered_true. by rewrite E.
  - intros ([j' v] & -> & [Hj [Ho Hn]%is_numbered_true]%elem_of_rows_where).
    destruct (else_kept _ _ He j' v Hj Ho) as (v' & Hv' & Hvo & E & _). exists (j', v'). split; [done|].
    apply elem_of_rows_where. split; [done|]. apply is_numbered_true. by rewrite E.
Qed.

Lemma elsewhere_numbers w w' : elsewhere w w' -> numbers_ok org (w_db w Tinvoices) -> numbers_ok org (w_db w' Tinvoices).
Proof.
  intros He Hok j v' s Hj Ho Hs.
  destruct (elsewhere_numbered _ _ _ _ He Hj Ho ltac:(by rewrite Hs)) as (v & Hv & Hvo & E). rewrite Hs in E.
  destruct (Hok j v s Hv Hvo E) as (stamp & k & -> & Hk). exists stamp, k. split; [done|].
  pose proof (elsewhere_count _ _ He) as Hc. unfold numbered_count in Hc. lia.
Qed.

(** ** The invariant *)

Definition unnumbered (m : rows Tinvoices) (i : uuid) (v : invoice) : Prop :=
  i_organization_id v = org /\ exists cur : invoice, m !! i = Some cur /\ i_organization_id cur = org /\ i_number cur = None.
Definition numbered_as (m : rows Tinvoices) (i : uuid) (v : invoice) : Prop :=
  i_status v = "open" /\ exists cur : invoice, m !! i = Some cur /\ i_organization_id cur = org /\ i_number cur = i_number v.

Definition phase_ok (m : rows Tinvoices) (i : uuid) (p : phase) : Prop :=
  match p with
  | Started => True
  | Checked v | Holding v => unnumbered m i v
  | Counted v number => unnumbered m i v /\ exists stamp, number = invoice_number stamp (numbered_count m + 1)
  | AlreadyOpen v => numbered_as m i v
  | Finished (Ok v) => numbered_as m i v /\ is_Some (i_number v)
  | Finished (Err e) => refusal e
  end.

Definition holds_lock (p : phase) : bool := match p with Holding _ | Counted _ _ => true | _ => false end.
Definition unfinished (p : phase) : bool := match p with AlreadyOpen _ | Finished _ => false | _ => true end.

Definition drafts_unnumbered (m : rows Tinvoices) : Prop :=
  forall j (v : invoice), m !! j = Some v -> i_organization_id v = org -> i_status v = "draft" -> i_number v = None.

Record in_order (st : numbering) : Prop := InOrder {
  order_constraints : constraints_ok (w_db (nu_world st));
  order_numbers : numbers_ok org (invoices st);
  order_drafts : drafts_unnumbered (invoices st);
  order_distinct : NoDup (nu_sessions st).*1;
  order_phases s i p : nu_sessions st !! s = Some (i, p) -> phase_ok (invoices st) i p;
  order_lock s i p : nu_sessions st !! s = Some (i, p) -> (holds_lock p = true <-> nu_holder st = Some s);
  order_holder s : nu_holder st = Some s -> is_Some (nu_sessions st !! s)
}.

Lemma phase_moved (m m' : rows Tinvoices) i p :
  (forall cur : invoice, m !! i = Some cur -> i_organization_id cur = org ->
     exists cur' : invoice, m' !! i = Some cur' /\ i_organization_id cur' = org /\ i_number cur' = i_number cur) ->
  (holds_lock p = true -> numbered_count m' = numbered_count m) -> phase_ok m i p -> phase_ok m' i p.
Proof.
  intros Hrow Hc.
  assert (Hu : forall v, unnumbered m i v -> unnumbered m' i v).
  { intros v (Ho & cur & Hi & Hio & Hn). split; [done|]. destruct (Hrow cur Hi Hio) as (c & ? & ? & E). exists c. by rewrite E. }
  assert (Hn : forall v, numbered_as m i v -> numbered_as m' i v).
  { intros v (Ho & cur & Hi & Hio & Hnum). split; [done|]. destruct (Hrow cur Hi Hio) as (c & ? & ? & E). exists c. by rewrite E. }
  destruct p as [| | | |v number|[v|e]]; cbn; auto.
  - intros [? (stamp & ->)]. split; [by apply Hu|]. exists stamp. by rewrite Hc.
  - intros []. split; [by apply Hn|done].
Qed.

Lemma elsewhere_phase w w' i p : elsewhere w w' -> phase_ok (w_db w Tinvoices) i p -> phase_ok (w_db w' Tinvoices) i p.
Proof.
  intros He. apply phase_moved; [|intros _; by apply elsewhere_count]. intros cur Hi Ho.
  destruct (else_kept _ _ He i cur Hi Ho) as (c & ? & ? & ? & _). by exists c.
Qed.

(** A statement of session [s]. *)
Lemma statement_in_order st s i p p' h w' : in_order st -> nu_sessions st !! s = Some (i, p) ->
  constraints_ok (w_db w') -> numbers_ok org (w_db w' Tinvoices) -> drafts_unnumbered (w_db w' Tinvoices) ->
  phase_ok (w_db w' Tinvoices) i p' ->
  (forall s' i' q, s' <> s -> nu_sessions st !! s' = Some (i', q) -> phase_ok (w_db w' Tinvoices) i' q) ->
  (holds_lock p' = true <-> h = Some s) -> (forall s', s' <> s -> h = Some s' <-> nu_holder st = Some s') ->
  in_order (enter s i p' (hold h (committed w' st))).
Proof.
  intros Hst Hs Hc Hn Hd Hp Hrest Hl Hh. pose proof (lookup_lt_Some _ _ _ Hs) as Hlt.
  constructor; cbn [nu_world nu_holder nu_sessions enter hold committed]; [done|done|done| | | |].
  - rewrite list_fmap_insert, list_insert_id; [by apply order_distinct|]. by rewrite list_lookup_fmap, Hs.
  - intros s' i' q. destruct (decide (s' = s)) as [->|Hne].
    + rewrite list_lookup_insert_eq by done. by intros [= <- <-].
    + rewrite list_lookup_insert_ne by done. by apply Hrest.
  - intros s' i' q. destruct (decide (s' = s)) as [->|Hne].
    + rewrite list_lookup_insert_eq by done. by intros [= <- <-].
    + rewrite list_lookup_insert_ne by done. intros H. rewrite Hh by done. by eapply order_lock.
  - intros s' E. destruct (decide (s' = s)) as [->|Hne].
    + rewrite list_lookup_insert_eq by done. by eexists.
    + rewrite list_lookup_insert_ne by done. apply order_holder; [done|]. by apply Hh.
Qed.

(** A statement that commits nothing. *)
Lemma quiet_in_order st s i p p' h : in_order st -> nu_sessions st !! s = Some (i, p) -> phase_ok (invoices st) i p' ->
  (holds_lock p' = true <-> h = Some s) -> (forall s', s' <> s -> h = Some s' <-> nu_holder st = Some s') ->
  in_order (enter s i p' (hold h st)).
Proof.
  intros Hst Hs Hp Hl Hh. apply (statement_in_order st s i p p' h (nu_world st)); try done; try apply Hst.
  intros s' i' q _. apply (order_phases _ Hst).
Qed.

(** The write of the session that holds the lock. *)
Lemma write_in_order st s i v number : in_order st -> nu_sessions st !! s = Some (i, Counted v number) ->
  exists v' w', number_and_commit i v number (nu_world st) = (Ok v', w') /\
    in_order (enter s i (Finished (Ok v')) (hold None (committed w' st))).
Proof.
  intros Hst Hs. destruct (order_phases _ Hst s i _ Hs) as [(Hvo & cur & Hi & Ho & Hnone) (stamp & Hnum)].
  assert (Hlock : nu_holder st = Some s) by (apply (order_lock _ Hst s i _ Hs); reflexivity).
  set (v' := opened (w_clock (nu_world st)) number cur).
  destruct (numbers_ok_put org (invoices st) i cur v' stamp (order_numbers _ Hst) Hi Hnone Ho (f_equal Some Hnum)) as (_ & Hnum' & Huniq).
  destruct (open_invoice_run i org v cur number (nu_world st) (order_constraints _ Hst) Hi ltac:(congruence)) as (w1 & E & Hok & Ht).
  { intros j u Hj Hju Hu. rewrite Ho in Hu. by apply (Huniq j u). }
  fold v' in Ht. eexists _, (w1 <| w_durable := w_db w1 |>). split.
  { unfold number_and_commit. rewrite (run_ok _ _ _ _ _ E), run_commit by done. reflexivity. }
  assert (Hput : w_db w1 Tinvoices !! i = Some v') by (rewrite Ht; apply (put_same Tinvoices)).
  apply (statement_in_order st s i (Counted v number)); [done|done|exact Hok|cbn; by rewrite Ht| | | |by split|].
  - intros j u Hj Hju Hd. cbn in Hj. rewrite Ht in Hj. apply (lookup_put Tinvoices) in Hj as [[_ <-]|[_ Hj]]; [discriminate Hd|].
    by apply (order_drafts _ Hst j u).
  - split; [|by eexists]. split; [done|]. exists v'. split_and!; [exact Hput|done|done].
  - intros s' i' q Hne Hs'. apply (phase_moved (invoices st)); [| |by apply (order_phases _ Hst s')].
    + intros c Hc Hco. exists c. split; [|done]. cbn. rewrite Ht. assert (i <> i') as Hii.
      { intros <-. apply Hne. apply (NoDup_lookup _ s' s i (order_distinct _ Hst)); by rewrite list_lookup_fmap, ?Hs, ?Hs'. }
      by apply (put_other Tinvoices).
    + intros Hl. apply (order_lock _ Hst s' i' q Hs') in Hl. congruence.
  - intros s' Hne. split; [done|]. intros E'. congruence.
Qed.

Lemma advance_in_order st s st' : in_order st -> advance s st = Some st' -> in_order st'.
Proof.
  intros Hst. unfold advance. destruct (nu_sessions st !! s) as [[i p]|] eqn:Hs; [|done].
  pose proof (order_phases _ Hst s i p Hs) as Hp. pose proof (order_lock _ Hst s i p Hs) as Hl.
  destruct p as [| |v|v|v number|]; [|done| | | |done].
  - intros [= <-]. apply (quiet_in_order st s i Started _ (nu_holder st)); [done|done| | |done].
    + pose proof (read_invoice_result i (nu_world st)) as H. destruct (_.1) as [[[] v]|e]; cbn [after_read phase_ok]; [| |done].
      * destruct H as (Hi & Ho & Hopen). split; [done|]. by exists v.
      * destruct H as (Hi & Ho & Hd). split; [done|]. exists v. split_and!; [done|done|]. by apply (order_drafts _ Hst i v).
    + rewrite <- Hl. cbn. by destruct (_.1) as [[[] v]|e].
  - destruct (nu_holder st) eqn:Eh; [done|]. intros [= <-]. apply (quiet_in_order st s i (Checked v)); [done|done|done|done|].
    intros s' Hne. rewrite Eh. split; [|done]. intros [= <-]. by destruct Hne.
  - rewrite next_number_run. intros [= <-]. apply (quiet_in_order st s i (Holding v) _ (nu_holder st)); [done|done| |done|done].
    split; [done|]. by eexists.
  - destruct (write_in_order st s i v number Hst Hs) as (v' & w' & -> & Hin). by intros [= <-].
Qed.

Lemma turn_in_order st st' : in_order st -> turn st st' -> in_order st'.
Proof.
  intros Hst Ht. revert Hst. destruct Ht as [st s st' E|st w' He]; intros Hst; [exact (advance_in_order _ _ _ Hst E)|].
  constructor; cbn; try apply Hst.
  - by eapply else_constraints.
  - eapply elsewhere_numbers; [done|apply Hst].
  - intros j v' Hj Ho Hd. destruct (else_new _ _ He j v' Hj Ho) as [(v & Hv & Hvo)|]; [|done].
    destruct (else_kept _ _ He j v Hv Hvo) as (u & Hu & _ & En & Ed). assert (u = v') as -> by congruence.
    rewrite En. apply (order_drafts _ Hst j v Hv Hvo), Ed, Hd.
  - intros s i p Hs. eapply elsewhere_phase; [done|]. by apply (order_phases _ Hst s).
Qed.

(** Whoever holds the lock can go on, and otherwise everybody can. *)
Lemma advance_total st s i p : in_order st -> nu_sessions st !! s = Some (i, p) -> unfinished p = true ->
  (nu_holder st = None \/ nu_holder st = Some s) -> is_Some (advance s st).
Proof.
  intros Hst Hs Hp Hh. unfold advance. rewrite Hs. pose proof (order_lock _ Hst s i p Hs) as Hl. destruct p as [| |v|v|v number|]; try done.
  - destruct Hh as [->|Hh]; [done|]. by apply Hl in Hh.
  - destruct (write_in_order st s i v number Hst Hs) as (v' & w' & -> & _). done.
Qed.

Lemma someone_advances st s i p : in_order st -> nu_sessions st !! s = Some (i, p) -> unfinished p = true ->
  exists s', is_Some (advance s' st).
Proof.
  intros Hst Hs Hp. destruct (nu_holder st) as [h|] eqn:Eh.
  - destruct (order_holder _ Hst h Eh) as [[i' q] Hq]. exists h. eapply advance_total; [done|exact Hq| |by right].
    pose proof (proj2 (order_lock _ Hst h i' q Hq) Eh). by destruct q.
  - exists s. eapply advance_total; [done|exact Hs|done|by left].
Qed.

Definition racing (w : world) (ids : list uuid) : numbering := Racing w None ((fun i => (i, Started)) <$> ids).

Lemma racing_in_order w ids : constraints_ok (w_db w) -> numbers_ok org (w_db w Tinvoices) ->
  drafts_unnumbered (w_db w Tinvoices) -> NoDup ids -> in_order (racing w ids).
Proof.
  intros H1 H2 H3 H4. constructor; cbn; [done|done|done| | | |done].
  - rewrite <- list_fmap_compose. unfold compose. cbn. by rewrite list_fmap_id.
  - intros s i p (j & Hp & _)%list_lookup_fmap_Some. by injection Hp as -> ->.
  - intros s i p (j & Hp & _)%list_lookup_fmap_Some. by injection Hp as -> ->.
Qed.

(** One session left alone does what [finalize] and the commit after it do. *)
Lemma read_keeps i w : read_invoice i org w = ((read_invoice i org w).1, w).
Proof.
  unfold read_invoice. rewrite run_get_scoped. destruct (w_db w Tinvoices !! i) as [v|]; [|done].
  destruct (N.eqb _ _); [|done]. destruct (String.eqb _ _); [done|].
  unfold _assert_invoice_transition. destruct (String.eqb _ _); [done|]. by case_bool_decide.
Qed.

Lemma alone_finalizes i v w : (read_invoice i org w).1 = Ok (false, v) ->
  schedule [0; 0; 0; 0] (racing w [i]) =
    Some (match (v' ← finalize i org; _ ← commit; mret v') w with
          | (Ok v', w') => Racing w' None [(i, Finished (Ok v'))]
          | (Err e, _) => Racing w None [(i, Finished (Err e))]
          end).
Proof.
  intros Hr. pose proof (read_keeps i w) as Hk. rewrite Hr in Hk.
  assert (E : (v' ← finalize i org; _ ← commit; mret v') w =
    number_and_commit i v (invoice_number (month_stamp (w_clock w)) (numbered_count (w_db w Tinvoices) + 1)) w).
  { unfold finalize. rewrite !run_assoc, (run_ok _ _ _ _ _ Hk). unfold lock_organization, _next_number. rewrite !run_assoc. run. reflexivity. }
  rewrite E. cbn. rewrite Hr. cbn. rewrite next_number_run. cbn.
  destruct (number_and_commit i v _ w) as [[v'|e] w']; reflexivity.
Qed.

(** C29: finalizes of different drafts that run at the same time number them uniquely:
    for an organization whose numbers the engine issued and whose drafts have none,
    under every interleaving of the statements of the sessions with each other and
    with other transactions that number none of its invoices, the constraints and the
    numbering hold whenever anything is committed; a session that has opened its
    invoice gave it a number no other invoice of the organization has, one that fails
    does so because its invoice is missing or may not be opened, never on the unique
    index; and while one of them is unfinished some session can go on. *)
Theorem racing_finalizes_number_uniquely w ids st :
  constraints_ok (w_db w) -> numbers_ok org (w_db w Tinvoices) -> drafts_unnumbered (w_db w Tinvoices) -> NoDup ids ->
  rtc turn (racing w ids) st ->
  constraints_ok (w_db (nu_world st)) /\ numbers_ok org (invoices st) /\
  (forall s i r, nu_sessions st !! s = Some (i, Finished r) ->
     match r with
     | Ok v => exists number, i_status v = "open" /\ i_number v = Some number /\ forall j (u : invoice), invoices st !! j = Some u ->
         i_organization_id u = org -> i_number u = Some number <-> j = i
     | Err e => refusal e
     end) /\
  (forall s i p, nu_sessions st !! s = Some (i, p) -> unfinished p = true -> exists s' st', advance s' st = Some st').
Proof.
  intros H1 H2 H3 H4 Hr. pose proof (racing_in_order w ids H1 H2 H3 H4) as Hin.
  assert (Hst : in_order st) by (revert Hin; induction Hr; [done|]; intros; by eapply IHHr, turn_in_order).
  clear Hr Hin. split_and!; [apply Hst|apply Hst| |].
  - intros s i r Hs. pose proof (order_phases _ Hst s i _ Hs) as Hp. destruct r as [v|e]; [|done].
    destruct Hp as [(Hopen & cur & Hi & Ho & Hn) [number Hnum]]. exists number. split_and!; [done|done|].
    intros j u Hj Hju. split; [|intros ->; congruence]. intros Hu.
    destruct (invoices_table _ (order_constraints _ Hst)) as (_ & _ & Huniq).
    apply (Huniq j u Hj i cur Hi); unfold opt_pair; cbn; [by rewrite Hu|by rewrite Hju, Ho, Hu, Hn, Hnum].
  - intros s i p Hs Hp. destruct (someone_advances st s i p Hst Hs Hp) as (s' & st' & E). by exists s', st'.
Qed.
End Numbering.

(** ** Schedules *)

Definition second_draft : invoice := demo_draft <| i_period_start := Some (midnight 20017) |>.
Definition two_drafts : world :=
  world_of (set_table demo_db Tinvoices (rows_of Tinvoices [(50%N, demo_draft); (51%N, second_draft)])).

Lemma schedule_turns org order st st' : schedule org order st = Some st' -> rtc (turn org) st st'.
Proof.
  revert st. induction order as [|s order IH]; intros st; cbn; [by intros [= <-]|].
  destruct (advance org s st) as [st1|] eqn:E; [|done]. intros H. eapply rtc_l; [by eapply turn_session|by apply IH].
Qed.

Definition numbers_of (st : numbering) : list (option (option string)) :=
  (fun i => i_number <$> w_db (nu_world st) Tinvoices !! i) <$> [50%N; 51%N].

(** Both drafts are read before either is numbered. *)
Definition interleaved : list nat := [0; 1; 1; 1; 1; 0; 0; 0].
Definition raced : numbering := default (racing two_drafts []) (schedule 1 interleaved (racing two_drafts [50%N; 51%N])).

Lemma raced_runs : schedule 1 interleaved (racing two_drafts [50%N; 51%N]) = Some raced.
Proof.
  unfold raced. assert (H : bool_decide (is_Some (schedule 1 interleaved (racing two_drafts [50%N; 51%N]))) = true) by (vm_compute; reflexivity).
  by apply bool_decide_eq_true in H as [st ->].
Qed.

Lemma numbers_ok_drafts : numbers_ok 1 (w_db two_drafts Tinvoices).
Proof.
  intros i v s Hi _ Hs. apply (lookup_rows_of Tinvoices) in Hi; [|by_compute].
  repeat (apply elem_of_cons in Hi as [[= _ ->]|Hi]; [discriminate Hs|]). by apply elem_of_nil in Hi.
Qed.

Lemma racing_finalizes_number_uniquely_witness :
  numbers_of raced = [Some (Some "INV-202410-0002"); Some (Some "INV-202410-0001")] /\ numbers_ok 1 (w_db (nu_world raced) Tinvoices).
Proof.
  split; [vm_compute; reflexivity|].
  refine (proj1 (proj2 (racing_finalizes_number_uniquely 1 two_drafts [50%N; 51%N] raced _ numbers_ok_drafts _ _ _))).
  - by_compute.
  - intros j v Hj _ _. apply (lookup_rows_of Tinvoices) in Hj; [|by_compute].
    repeat (apply elem_of_cons in Hj as [[= _ ->]|Hj]; [reflexivity|]). by apply elem_of_nil in Hj.
  - by_compute.
  - apply (schedule_turns 1 interleaved), raced_runs.
Defined.

(** The same draft twice: both sessions read it as a draft before one of them has the
    lock, and both number it.  Its second number is one ahead of the count, and the
    next draft then fails on the unique index, as will every later one of the month. *)
Definition outcome_of (p : uuid * phase) : option (result (option string)) :=
  match p.2 with
  | Finished (Ok v) => Some (Ok (i_number v))
  | Finished (Err e) => Some (Err e)
  | _ => None
  end.
Lemma draft_opened_twice :
  (fun st => (numbers_of st, outcome_of <$> nu_sessions st)) <$>
    schedule 1 [0; 1; 0; 0; 0; 1; 1; 1; 2; 2; 2; 2] (racing two_drafts [50%N; 50%N; 51%N]) =
  Some ([Some (Some "INV-202410-0002"); Some None],
        [Some (Ok (Some "INV-202410-0001")); Some (Ok (Some "INV-202410-0002")); Some (Err (PyError "IntegrityError"))]).
Proof. vm_compute. reflexivity. Qed.
