(* ===== verification/Billing.v ===== *)
(** Billing: the provider protocol and its capabilities (billing/protocol.py), the
    registry (billing/registry.py), the manual provider's operations
    (billing/providers/manual_provider.py) and the billing service
    (billing/service.py).

    A provider is a record of operations.  The hosted providers' operations are
    HTTP calls and stay parameters; what the service relies on is the law
    [External]: they touch nothing of ours. *)

From S2P Require Import Prelude Json Errors Events Tables Store Dynamic Cache Session Fixtures.
From S2P Require Import Interfaces Invoicing Subscriptions Proration.

(** ** The provider protocol *)

Inductive billing_capability : Type :=
  | HOSTED_CHECKOUT
  | BILLING_PORTAL
  | RECURRING_HOSTED
  | PLAN_SYNC
  | WEBHOOK_SIGNED
  | CLIENT_CONFIRM.

#[export] Instance billing_capability_eq_dec : EqDecision billing_capability.
Proof. solve_decision. Defined.

Record webhook_request : Type := WebhookRequest {
  wr_headers : list (string * string);
  wr_body : string
}.

Record verified_webhook : Type := VerifiedWebhook {
  vw_provider_event_id : string;
  vw_event_type : string;
  vw_parsed : jobj;
  vw_received_at : instant
}.

Record normalized_billing_event : Type := NormalizedBillingEvent {
  ne_event_type : string;
  ne_provider_event_id : string;
  ne_occurred_at : instant;
  ne_provider_customer_id : option string;
  ne_provider_subscription_id : option string;
  ne_provider_invoice_id : option string;
  ne_plan_key : option string;
  ne_status : option string;
  ne_current_period_end : option instant;
  ne_amount_cents : option Z;
  ne_currency : option string;
  ne_hosted_url : option string
}.

Record billing_customer_ref : Type := BillingCustomerRef {
  cr_provider_customer_id : string;
  cr_email : option string;
  cr_name : option string
}.

Record checkout_result : Type := CheckoutResult {
  co_url : option string;
  co_provider : string;
  co_manual_instructions : option string;
  co_provider_checkout_id : option string
}.

Record subscription_ref : Type := SubscriptionRef {
  sr_provider_subscription_id : string;
  sr_status : string;
  sr_current_period_end : option instant;
  sr_provider_customer_id : option string
}.

Record create_customer_request : Type := CreateCustomerRequest {
  cc_email : string;
  cc_name : option string;
  cc_organization_id : option uuid;
  cc_currency : string
}.

Record create_checkout_request : Type := CreateCheckoutRequest {
  ch_plan_key : string;
  ch_plan_name : string;
  ch_price_cents : Z;
  ch_currency : string;
  ch_interval : string;
  ch_provider_customer_id : option string;
  ch_success_url : option string;
  ch_cancel_url : option string;
  ch_organization_id : option uuid
}.

Record change_plan_request : Type := ChangePlanRequest {
  cp_plan_key : string;
  cp_price_cents : Z;
  cp_currency : string;
  cp_interval : string
}.

(** The operations of a [BillingProvider] the modelled services call. *)
Record provider_ops : Type := ProviderOps {
  create_customer : create_customer_request -> M billing_customer_ref;
  create_checkout : create_checkout_request -> M checkout_result;
  portal_url : string -> string -> M string;
  provider_change_plan : string -> change_plan_request -> M subscription_ref;
  verify_webhook : webhook_request -> M verified_webhook;
  translate_webhook : verified_webhook -> result (list normalized_billing_event)
}.

Record billing_provider : Type := BillingProvider {
  bp_name : string;
  bp_supports : list billing_capability;
  bp_ops :> provider_ops
}.

Definition supports (p : billing_provider) (c : billing_capability) : bool :=
  bool_decide (c ∈ bp_supports p).

(** A call to the outside draws identifiers at most. *)
Definition outside : relation world := fun w w' =>
  (w_fresh w <= w_fresh w')%N /\ w' = w <| w_fresh := w_fresh w' |>.

Class External (p : provider_ops) : Prop := {
  external_create_customer req : Stable outside (create_customer p req);
  external_create_checkout req : Stable outside (create_checkout p req);
  external_portal_url c u : Stable outside (portal_url p c u);
  external_change_plan i req : Stable outside (provider_change_plan p i req);
  external_verify raw : Stable outside (verify_webhook p raw)
}.

(** ** The registry *)

Inductive provider_kind : Type := Manual | Stripe | Paddle | Xendit | PayMongo.

(** The class attributes [name] and [supports] of each provider. *)
Definition provider_name (k : provider_kind) : string :=
  match k with
  | Manual => "manual" | Stripe => "stripe" | Paddle => "paddle"
  | Xendit => "xendit" | PayMongo => "paymongo"
  end.

Definition provider_supports (k : provider_kind) : list billing_capability :=
  match k with
  | Manual => [HOSTED_CHECKOUT; CLIENT_CONFIRM]
  | Stripe => [HOSTED_CHECKOUT; BILLING_PORTAL; RECURRING_HOSTED; PLAN_SYNC; WEBHOOK_SIGNED]
  | Paddle | Xendit | PayMongo => [HOSTED_CHECKOUT; WEBHOOK_SIGNED]
  end.

(** The setting without which a provider is not configured; the manual one
    needs none. *)
Definition missing_secret (s : settings) (k : provider_kind) : bool :=
  match k with
  | Manual => false
  | Stripe => String.eqb (st_stripe_secret_key s) ""
  | Paddle => String.eqb (st_paddle_secret_key s) ""
  | Xendit => String.eqb (st_xendit_secret_key s) ""
  | PayMongo => String.eqb (st_paymongo_secret_key s) ""
  end.

Definition kind_of_name (name : string) : option provider_kind :=
  if String.eqb name "manual" then Some Manual
  else if String.eqb name "stripe" then Some Stripe
  else if String.eqb name "xendit" then Some Xendit
  else if String.eqb name "paymongo" then Some PayMongo
  else if String.eqb name "paddle" then Some Paddle
  else None.

Section Registry.
Context (ops : provider_kind -> provider_ops).

Definition provider_of (k : provider_kind) : billing_provider :=
  BillingProvider (provider_name k) (provider_supports k) (ops k).

Definition build_provider (name : option string) : M billing_provider :=
  s ← get_settings;
  match kind_of_name (or_str name (st_billing_provider s)) with
  | None => raise_domain BillingProviderNotConfiguredError []
  | Some k =>
      if missing_secret s k then raise_domain BillingProviderNotConfiguredError []
      else mret (provider_of k)
  end.

Definition build_provider_by_name (name : string) : M billing_provider := build_provider (Some name).
End Registry.

Definition locally_billed_provider_names : list string :=
  provider_name <$>
    filter (fun k => RECURRING_HOSTED ∉ provider_supports k) [Manual; Stripe; Paddle; Xendit; PayMongo].

(** ** The manual provider *)

(** [secrets.token_hex]: a token nobody else holds, written from the supply of
    fresh identifiers. *)
Definition token_hex : M string := i ← fresh_id; mret (Z_str (Z.of_N i)).

(** [f"{cents / 100:,.2f}"], for amounts of money. *)
Definition _format_money (cents : Z) (currency : string) : string :=
  let symbol :=
    if String.eqb currency "PHP" then "₱"
    else if String.eqb currency "USD" then "$"
    else if String.eqb currency "EUR" then "€"
    else currency +:+ " " in
  symbol +:+ commas (cents / 100) +:+ "." +:+ zfill 2 (cents mod 100).

Definition manual_create_customer (req : create_customer_request) : M billing_customer_ref :=
  t ← token_hex;
  mret (BillingCustomerRef ("manual_" +:+ t) (Some (cc_email req)) (cc_name req)).

Definition manual_create_checkout (req : create_checkout_request) : M checkout_result :=
  t ← token_hex;
  mret (CheckoutResult None "manual"
    (Some ("Confirm the " +:+ ch_plan_name req +:+ " plan (" +:+
           _format_money (ch_price_cents req) (ch_currency req) +:+ "/" +:+ ch_interval req +:+ "). " +:+
           "No payment provider is configured; the subscription activates immediately " +:+
           "and invoices are recorded by the system."))
    (Some ("manualco_" +:+ t))).

Definition manual_change_plan (provider_subscription_id : string) (_ : change_plan_request) :
    M subscription_ref :=
  t ← now;
  mret (SubscriptionRef provider_subscription_id "active" (Some (t + days 30)%Z) None).

Definition manual_mapping (event_type : string) : option string :=
  if String.eqb event_type "manual.subscription.activated" then Some "subscription.activated"
  else if String.eqb event_type "manual.subscription.canceled" then Some "subscription.canceled"
  else if String.eqb event_type "manual.invoice.paid" then Some "invoice.paid"
  else None.

(** [data.get(k)] of the fields the event carries: the columns hold the declared
    type or nothing. *)
Definition jget_str (o : jobj) (k : string) : option string :=
  match jget k o with Some (JStr s) => Some s | _ => None end.
Definition jget_int (o : jobj) (k : string) : option Z :=
  match jget k o with Some (JInt z) => Some z | _ => None end.

(** An unhashable type is a [TypeError] of the dictionary. *)
Definition manual_translate_webhook (v : verified_webhook) : result (list normalized_billing_event) :=
  match jget "type" (vw_parsed v) with Some (JList _ | JObj _) => TypeError | _ =>
  match manual_mapping (default "" (jget_str (vw_parsed v) "type")) with
  | None => Ok []
  | Some canonical =>
      match default (JObj []) (jget "data" (vw_parsed v)) with
      | JObj data =>
          Ok [NormalizedBillingEvent canonical (vw_provider_event_id v) (vw_received_at v)
                (jget_str data "customer_id") (jget_str data "subscription_id") None
                (jget_str data "plan_key") (jget_str data "status") None
                (jget_int data "amount_cents") (jget_str data "currency") None]
      | _ => Err (PyError "AttributeError")
      end
  end end.

(** The manual provider over a verification of its webhook body. *)
Definition manual_ops (verify : webhook_request -> M verified_webhook) : provider_ops := {|
  create_customer := manual_create_customer;
  create_checkout := manual_create_checkout;
  portal_url _ _ := raise (PyError "NotImplementedError");
  provider_change_plan := manual_change_plan;
  verify_webhook := verify;
  translate_webhook := manual_translate_webhook
|}.

(** ** The service *)

Definition customer_of (org : uuid) (_ : key Tbilling_customers) (c : billing_customer) : bool :=
  N.eqb (bc_organization_id c) org.

(** What the organization was paying, and for which period, before a change. *)
Record period_snapshot : Type := PeriodSnapshot {
  ps_plan_key : string;
  ps_price_cents : Z;
  ps_period_start : instant;
  ps_period_end : instant
}.

Definition _period_snapshot (s : option (uuid * subscription)) : option period_snapshot :=
  match s with
  | Some (_, s) =>
      if String.eqb (s_status s) "active" then
        Some (PeriodSnapshot (default "" (sn_key (s_plan_snapshot s)))
                (or0 (sn_price_cents (s_plan_snapshot s)))
                (s_current_period_start s) (s_current_period_end s))
      else None
  | None => None
  end.

(** [f"{x:.1%}"] of a fraction in millionths. *)
Definition percent (millionths : Z) : string :=
  let tenths := round_half_even millionths 1000 in
  Z_str (tenths / 10) +:+ "." +:+ Z_str (tenths mod 10) +:+ "%".

Definition _proration_adjustment (previous : option period_snapshot) (s : subscription) (p : plan)
    (t : instant) : option adjustment :=
  match previous with
  | None => None
  | Some prev =>
      if negb (s_current_period_end s =? ps_period_end prev)%Z then None
      else
        let new_price := or0 (p_price_cents p) in
        let amount := arrears_adjustment_cents (ps_price_cents prev) new_price
                        (ps_period_start prev) (ps_period_end prev) t in
        if (amount =? 0)%Z then None
        else
          let elapsed := elapsed_fraction (prorate (ps_price_cents prev) new_price
                           (ps_period_start prev) (ps_period_end prev) t) in
          let what := if (amount <? 0)%Z then "credit" else "charge" in
          Some (Adjustment "proration" amount
            ("Plan change " +:+ ps_plan_key prev +:+ " → " +:+ p_key p +:+ ": " +:+ what +:+ " for " +:+
             percent elapsed +:+ " of the period at the previous price")
            (Some ((ps_plan_key prev, p_key p), (ps_price_cents prev, new_price))) t)
  end.

Section Service.
Context (provider : billing_provider).

Definition ensure_customer (org : uuid) (o : organization) (contact_user : option user) :
    M (uuid * billing_customer) :=
  rows ← select Tbilling_customers (customer_of org);
  existing ← scalar_one_or_none rows;
  match existing with
  | Some r => mret r
  | None =>
      contact ← match contact_user, o_owner_user_id o with
                | Some u, _ => mret (Some u)
                | None, Some owner => session_get Tusers owner
                | None, None => mret None
                end;
      settings ← get_settings;
      let contact := (contact : option user) in
      ref ← create_customer provider (CreateCustomerRequest
              (match contact with Some u => u_email u | None => o_slug o +:+ "@example.com" end)
              (Some (match contact with Some u => u_display_name u | None => o_name o end))
              (Some org) (st_billing_currency settings));
      i ← fresh_id;
      let c := BillingCustomer org (bp_name provider) (Some (cr_provider_customer_id ref))
                 (cr_email ref) (cr_name ref) (Some (st_billing_currency settings)) in
      _ ← put Tbilling_customers i c;
      _ ← flush;
      mret (i, c)
  end.

Definition start_checkout (org : uuid) (o : organization) (p : plan)
    (success_url cancel_url : option string) (contact_user : option user) :
    M (uuid * billing_customer * checkout_result) :=
  customer ← ensure_customer org o contact_user;
  result ← create_checkout provider (CreateCheckoutRequest (p_key p) (p_name p) (or0 (p_price_cents p))
             (p_currency p) (or_str (p_interval p) "month")
             (bc_provider_customer_id (snd customer)) success_url cancel_url (Some org));
  mret (customer, result).

Definition _record_invoice (customer_id : uuid) (c : billing_customer) (p : plan) :
    M (option (uuid * invoice)) :=
  if negb (truthy_int (p_price_cents p)) then mret None
  else
    t ← now;
    i ← fresh_id;
    let price := or0 (p_price_cents p) in
    let v := Invoice (bc_organization_id c) (Some customer_id) (Some (bp_name provider)) None None
               (p_currency p) price 0 price "open" None None None None None t in
    _ ← put Tinvoices i v;
    _ ← flush;
    _ ← append_outbox INVOICE_CREATED "invoice" i
          [("total_cents", JInt price); ("currency", JStr (p_currency p)); ("plan_key", JStr (p_key p))]
          (Some (bc_organization_id c));
    mret (Some (i, v)).

Definition complete_checkout (org : uuid) (o : organization) (p : plan)
    (provider_subscription_id : option string) (contact_user : option user) (source : string) :
    M (uuid * subscription) :=
  if String.eqb source "client_confirm" && negb (supports provider CLIENT_CONFIRM) then
    raise_domain CheckoutConfirmNotAllowedError [("provider", JStr (bp_name provider))]
  else
    customer ← ensure_customer org o contact_user;
    s ← Subscriptions.change_plan org (p_key p) (Some (bp_name provider)) provider_subscription_id false;
    _ ← _record_invoice (fst customer) (snd customer) p;
    mret s.

Definition billing_portal_url (org : uuid) (o : organization) (return_url : string) : M (option string) :=
  if negb (supports provider BILLING_PORTAL) then mret None
  else
    customer ← ensure_customer org o None;
    match bc_provider_customer_id (snd customer) with
    | None => mret None
    | Some c => url ← portal_url provider c return_url; mret (Some url)
    end.

Definition invoices_for_org (org : uuid) : M (list (uuid * invoice)) :=
  rows ← select Tinvoices (fun _ (v : invoice) => N.eqb (i_organization_id v) org);
  mret (take 50 (order_by_desc (fun r => i_created_at r.2) rows)).

Definition get_invoice (i org : uuid) : M invoice :=
  found ← session_get Tinvoices i;
  match found with
  | Some v => if N.eqb (i_organization_id v) org then mret v else raise_domain InvoiceNotFoundError []
  | None => raise_domain InvoiceNotFoundError []
  end.

(** The provider's own id of the occupying subscription, when it has one. *)
Definition hosted_subscription (current : option (uuid * subscription)) : option string :=
  match current with
  | Some (_, s) =>
      if truthy_str (s_provider_subscription_id s) then s_provider_subscription_id s else None
  | None => None
  end.

Definition change_plan (org : uuid) (plan_key : string) : M (uuid * subscription) :=
  p ← plan_by_key plan_key false;
  current ← current_for_org org;
  if supports provider RECURRING_HOSTED then
    match hosted_subscription current with
    | None =>
        raise_domain CheckoutRequiredError
          [("plan_key", JStr plan_key); ("checkout_url", JStr "/v1/billing/checkout")]
    | Some remote =>
        ref ← provider_change_plan provider remote (ChangePlanRequest (p_key (lp_plan p))
                (or0 (p_price_cents (lp_plan p))) (p_currency (lp_plan p))
                (or_str (p_interval (lp_plan p)) "month"));
        Subscriptions.change_plan org (p_key (lp_plan p)) (Some (bp_name provider))
          (Some (sr_provider_subscription_id ref)) true
    end
  else
    let previous := _period_snapshot current in
    let keep_period := match previous with Some prev => (0 <? ps_price_cents prev)%Z | None => false end in
    changed ← Subscriptions.change_plan org (p_key (lp_plan p)) (Some (bp_name provider)) None keep_period;
    let '(i, s) := (changed : uuid * subscription) in
    t ← now;
    match (if keep_period then _proration_adjustment previous s (lp_plan p) t else None) with
    | None => mret (i, s)
    | Some a =>
        let s' := s <| s_pending_adjustments := s_pending_adjustments s ++ [a] |> in
        _ ← put Tsubscriptions i s';
        _ ← flush;
        mret (i, s')
    end.
End Service.

(** ** Calls to the outside *)

#[export] Instance outside_preorder : PreOrder outside.
Proof.
  split.
  - intros w. split; [done|]. by destruct w.
  - intros w1 w2 w3 [H1 E1] [H2 E2]. split; [lia|]. rewrite E2 at 1. by rewrite E1.
Qed.

Lemma manual_external verify : (forall raw, Stable outside (verify raw)) -> External (manual_ops verify).
Proof.
  assert (Hfresh : Stable outside token_hex) by (intros w; split; [simpl; lia|done]).
  intros Hv. split; intros; [exact Hfresh|exact Hfresh|..|apply Hv]; intros w; reflexivity.
Qed.

(** A call leaves the tables as they were, whatever its result. *)
Lemma outside_run {A} (m : M A) w r w' : Stable outside m -> m w = (r, w') -> w_db w' = w_db w.
Proof. intros Hm E. destruct (Hm w) as [_ H]. rewrite E in H. simpl in H. by rewrite H. Qed.

(** ** Finding plans *)

Lemma plan_by_key_spec k w p : (plan_by_key k false w).1 = Ok p -> p_key (lp_plan p) = k.
Proof.
  unfold plan_by_key. run. set (q := fun _ _ => _ && _).
  assert (Hq : forall r : key Tplans * row Tplans, r ∈ rows_where Tplans q (w_db w Tplans) -> p_key (r.2 : plan) = k).
  { intros [i r] Hin. apply elem_of_rows_where in Hin as [_ Hp].
    apply andb_true_iff in Hp as [Hp _]. by apply String.eqb_eq in Hp. }
  destruct (rows_where Tplans q (w_db w Tplans)) as [|r [|]]; try done.
  destruct r as [i r]. intros [= <-]. apply (Hq (i, r)). left.
Qed.

(** ** Properties *)

Section Props.
Context (provider : billing_provider).

(** The correction a kept period gets. *)
Lemma proration_adjustment_total prev (s : subscription) p t :
  s_current_period_end s = ps_period_end prev ->
  pending_total (option_list (_proration_adjustment (Some prev) s p t)) =
    arrears_adjustment_cents (ps_price_cents prev) (or0 (p_price_cents p))
      (ps_period_start prev) (ps_period_end prev) t.
Proof.
  intros He. unfold _proration_adjustment. rewrite (proj2 (Z.eqb_eq _ _)) by done. simpl.
  destruct (Z.eqb_spec (arrears_adjustment_cents (ps_price_cents prev) (or0 (p_price_cents p))
    (ps_period_start prev) (ps_period_end prev) t) 0) as [->|]; [done|]. simpl. lia.
Qed.

Lemma interval_pos p : (0 < interval_delta p)%Z.
Proof. unfold interval_delta. by case_bool_decide. Qed.

(** Queueing the correction. *)
Definition queued (s : subscription) (a : option adjustment) : subscription :=
  s <| s_pending_adjustments := s_pending_adjustments s ++ option_list a |>.

Lemma queued_None s : queued s None = s.
Proof. destruct s. unfold queued. simpl. by rewrite app_nil_r. Qed.

Lemma queue_run w i (s : subscription) (a : option adjustment) :
  constraints_ok (w_db w) -> w_db w Tsubscriptions !! i = Some s ->
  exists w', match a with
    | None => mret (i, s)
    | Some a =>
        let s' := s <| s_pending_adjustments := s_pending_adjustments s ++ [a] |> in
        _ ← put Tsubscriptions i s'; _ ← flush; mret (i, s')
    end w = (Ok (i, queued s a), w') /\ constraints_ok (w_db w') /\
    w_db w' Tsubscriptions = <[i := queued s a]> (w_db w Tsubscriptions).
Proof.
  intros Hok Hi. destruct a as [a|]; [|exists w; rewrite queued_None; split_and!; [done..|]].
  - cbv beta iota zeta. run. rewrite run_flush; [eexists; split; [done|]|]; [split; [|by tables]|];
      apply constraints_put; try done;
      (apply (subscriptions_ok_update _ _ _ s); auto; exact (proj1 (subscriptions_table _ Hok) i s Hi)).
  - rewrite insert_id; done.
Qed.

(** A plan change on a provider that bills locally conserves money and the
    period.  For an active, paid subscription whose period is running, the period
    is kept and the pending adjustments grow by exactly the arrears correction of
    the period; in every other case the adjustments are untouched and a fresh
    period starts now.  Either way the change succeeds, the row is active on the
    new plan and the constraints hold. *)
Theorem local_change_prorates org plan_key w i (s0 : subscription) p :
  constraints_ok (w_db w) ->
  w_db w Tsubscriptions !! i = Some s0 -> occupied_org s0 = Some org ->
  (plan_by_key plan_key false w).1 = Ok p -> supports provider RECURRING_HOSTED = false ->
  s_provider_subscription_id s0 = None \/ s_provider s0 = Some (bp_name provider) ->
  let old := or0 (sn_price_cents (s_plan_snapshot s0)) in
  let new := or0 (p_price_cents (lp_plan p)) in
  let start := s_current_period_start s0 in
  let end_ := s_current_period_end s0 in
  let kept := String.eqb (s_status s0) "active" && (0 <? old)%Z && (w_clock w <? end_)%Z in
  exists s w', change_plan provider org plan_key w = (Ok (i, s), w') /\ constraints_ok (w_db w') /\
    w_db w' Tsubscriptions = <[i := s]> (w_db w Tsubscriptions) /\
    s_status s = "active" /\ s_plan_id s = lp_id p /\ s_plan_snapshot s = _snapshot p /\
    (s_current_period_start s, s_current_period_end s) =
      (if kept then (start, end_) else (w_clock w, w_clock w + interval_delta p)%Z) /\
    pending_total (s_pending_adjustments s) =
      (pending_total (s_pending_adjustments s0) +
       if kept then arrears_adjustment_cents old new start end_ (w_clock w) else 0)%Z.
Proof.
  intros Hok Hi Ho Hp Hsup Hpr old new start end_ kept.
  pose proof (subscriptions_table _ Hok) as Hsub. pose proof (plan_by_key_spec _ _ _ Hp) as Hkey.
  unfold change_plan. rewrite run_readonly, Hp, run_current by auto with stable.
  rewrite (current_is org _ i s0), Hsup by done.
  set (prev := _period_snapshot (Some (i, s0))). set (keep := match prev with Some _ => _ | None => false end).
  destruct (change_plan_run org (p_key (lp_plan p)) (Some (bp_name provider)) None keep w i s0 p)
    as (w1 & E & Hok1 & Htab & Hclk); [done..|by rewrite Hkey| |].
  { apply (subscriptions_ok_changed _ org); auto. }
  set (s1 := changed_plan _ _ _ _ _ _) in *. rewrite (run_ok _ _ _ _ _ E). run. rewrite Hclk.
  destruct (queue_run w1 i s1 (if keep then _proration_adjustment prev s1 (lp_plan p) (w_clock w) else None))
    as (w2 & E2 & Hok2 & Htab2); [done|rewrite Htab; apply (put_same Tsubscriptions)|].
  eexists _, w2. split; [exact E2|]. split; [done|].
  split; [rewrite Htab2, Htab; by apply (put_twice Tsubscriptions)|].
  destruct (changed_plan_fields (w_clock w) s0 p (Some (bp_name provider)) None keep)
    as (F1 & F2 & F3 & _ & _ & F4 & F5). fold s1 in F1, F2, F3, F4, F5.
  split; [exact F1|]. split; [exact F2|]. split; [exact F3|].
  assert (Hkeep : keep = String.eqb (s_status s0) "active" && (0 <? old)%Z)
    by (unfold keep, prev, _period_snapshot; by destruct (String.eqb _ _)).
  assert (Hkept : kept = keep && (w_clock w <? end_)%Z) by (unfold kept; by rewrite Hkeep).
  rewrite Hkept. split; [exact F5|].
  transitivity (pending_total (s_pending_adjustments s1 ++ option_list
    (if keep then _proration_adjustment prev s1 (lp_plan p) (w_clock w) else None))); [done|].
  unfold pending_total. rewrite sumZ_app, F4. f_equal. clear -F5 Hkeep.
  destruct keep; [|done]. symmetry in Hkeep. apply andb_true_iff in Hkeep as [Hact _].
  unfold prev, _period_snapshot. rewrite Hact. clearbody s1. cbn [andb] in F5 |- *.
  change end_ with (s_current_period_end s0).
  destruct (Z.ltb_spec (w_clock w) (s_current_period_end s0)) as [Hlt|Hge]; injection F5 as F5s F5e.
  - by apply proration_adjustment_total.
  - unfold _proration_adjustment. rewrite (proj2 (Z.eqb_neq _ _)); [done|].
    simpl. pose proof (interval_pos p). rewrite F5e. lia.
Qed.

(** Plan changes on a provider that bills recurringly go through it first.
    Without a subscription purchased through it the change is refused with
    checkout_required, and when the provider's call fails its error is passed on;
    in both cases no row of ours has changed. *)
Theorem hosted_change_goes_first `{!External provider} org plan_key w p :
  (plan_by_key plan_key false w).1 = Ok p -> supports provider RECURRING_HOSTED = true ->
  match hosted_subscription (current_in org (w_db w Tsubscriptions)) with
  | None => exists extras,
      change_plan provider org plan_key w = (Err (Domain CheckoutRequiredError extras), w)
  | Some remote =>
      let req := ChangePlanRequest plan_key (or0 (p_price_cents (lp_plan p)))
                   (p_currency (lp_plan p)) (or_str (p_interval (lp_plan p)) "month") in
      forall e w1, provider_change_plan provider remote req w = (Err e, w1) ->
        change_plan provider org plan_key w = (Err e, w1) /\ w_db w1 = w_db w
  end.
Proof.
  intros Hp Hsup. unfold change_plan.
  rewrite run_readonly, Hp, run_current, Hsup by auto with stable.
  destruct (hosted_subscription _) as [remote|]; [|by eexists].
  rewrite (plan_by_key_spec _ _ _ Hp). intros e w1 E. split.
  - unfold mbind, M_bind. by rewrite E.
  - eapply outside_run; [apply external_change_plan|exact E].
Qed.

Lemma run_customer {B} org o u (f : uuid * billing_customer -> M B) w i c :
  rows_where Tbilling_customers (customer_of org) (w_db w Tbilling_customers) = [(i, c)] ->
  mbind f (ensure_customer provider org o u) w = f (i, c) w.
Proof. intros E. unfold ensure_customer. run. rewrite E. by run. Qed.
End Props.

Lemma customers_unique d org :
  constraints_ok d ->
  rows_where Tbilling_customers (customer_of org) (d Tbilling_customers) = [] \/
  exists i c, rows_where Tbilling_customers (customer_of org) (d Tbilling_customers) = [(i, c)].
Proof.
  intros Hok. destruct (proj1 (constraints_ok_table _) Hok Tbilling_customers) as [Hu _].
  destruct (rows_where_unique Tbilling_customers (fun c : billing_customer => Some (bc_organization_id c))
    (customer_of org) org (d Tbilling_customers) Hu) as [E|(i & c & E & _)]; [|by left|right; by exists i, c].
  intros i c _ Hc. f_equal. by apply N.eqb_eq.
Qed.

(** An organization becomes one billing customer, once: whatever happens
    inside, a successful [ensure_customer] leaves exactly the customer it returns,
    the constraints hold, and asking again, with any provider and any contact,
    returns that customer, calls no provider and changes nothing. *)
Theorem customer_created_once (p : billing_provider) `{!External p} org o u w i c w1 :
  constraints_ok (w_db w) -> ensure_customer p org o u w = (Ok (i, c), w1) ->
  constraints_ok (w_db w1) /\
  rows_where Tbilling_customers (customer_of org) (w_db w1 Tbilling_customers) = [(i, c)] /\
  forall p' o' u', ensure_customer p' org o' u' w1 = (Ok (i, c), w1).
Proof.
  intros Hok E. cut (constraints_ok (w_db w1) /\
    w_db w1 Tbilling_customers !! i = Some c /\ customer_of org i c = true).
  - intros (Hok1 & Hi). pose proof (proj2 (elem_of_rows_where Tbilling_customers _ _ _ _) Hi) as Hin. split; [done|].
    destruct (customers_unique _ org Hok1) as [E1|(i' & c' & E1)]; rewrite E1 in Hin |- *.
    { by apply not_elem_of_nil in Hin. }
    apply list_elem_of_singleton in Hin as [= -> ->]. split; [done|]. intros p' o' u'.
    unfold ensure_customer. run. rewrite E1. by run.
  - revert E. unfold ensure_customer. run.
    destruct (customers_unique _ org Hok) as [E0|(i0 & c0 & E0)]; rewrite E0; run.
    + rewrite run_readonly by
        (repeat case_match; first [apply (stable_get eq Tusers)|apply (stable_ret eq)]).
      destruct (_ w).1 as [contact|]; [|done]. run.
      intros (ref & w2 & E2 & E)%bind_ok. revert E. run. intros [Hok2 E]%flush_ok.
      injection E as <- <- <-. split; [done|].
      split; [tables; apply (put_same Tbilling_customers)|apply N.eqb_refl].
    + unfold mret, M_ret. intros [= <- <- <-]. split; [done|].
      apply (elem_of_rows_where Tbilling_customers). rewrite E0. left.
Qed.

(** The registry's capabilities guard activation: only the manual provider
    lets the tenant confirm its own payment; with any other configured provider a
    client confirmation is refused and nothing happens.  The providers whose
    renewals we bill are exactly those that do not bill recurringly themselves. *)
Theorem client_confirm_only_manual ops name p w w1 :
  build_provider ops name w = (Ok p, w1) ->
  w1 = w /\
  (bp_name p <> "manual" -> forall org o pl psid u,
     complete_checkout p org o pl psid u "client_confirm" w =
       (Err (Domain CheckoutConfirmNotAllowedError [("provider", JStr (bp_name p))]), w)) /\
  (bp_name p ∈ locally_billed_provider_names <-> supports p RECURRING_HOSTED = false).
Proof.
  unfold build_provider. run. destruct (kind_of_name _) as [k|]; [|done].
  destruct (missing_secret _ k); [done|]. unfold mret, M_ret. intros [= <- <-]. split; [done|]. split.
  - intros Hne org o pl psid u. unfold complete_checkout. by destruct k.
  - rewrite <- (bool_decide_spec (_ ∈ locally_billed_provider_names)).
    destruct k; vm_compute; by split.
Qed.

(** ** Witnesses *)

Definition no_verification (_ : webhook_request) : M verified_webhook :=
  raise_domain WebhookSignatureInvalidError [].
Definition demo_ops (_ : provider_kind) : provider_ops := manual_ops no_verification.
Definition manual : billing_provider := provider_of demo_ops Manual.
Definition stripe : billing_provider := provider_of demo_ops Stripe.

#[export] Instance demo_external k : External (bp_ops (provider_of demo_ops k)).
Proof. apply manual_external. intros raw w. reflexivity. Qed.

(** A running subscription to the paid plan, ten days into its month. *)
Definition pro_subscription : subscription :=
  Subscription 1 11 "active" (NOW - days 10) (NOW + days 20) None false None None None None
    (Snapshot (Some "pro") (Some "Pro") (Some 100000%Z) (Some "PHP") (Some "month") [] [] [])
    [] (NOW - days 10).
Definition paying : world :=
  world_of (set_table demo_db Tsubscriptions (rows_of Tsubscriptions [(20%N, pro_subscription)])).

Definition free_loaded : loaded_plan := LoadedPlan 10 free_plan [] [].

Lemma local_change_prorates_witness :
  exists s w', change_plan manual 1 "free" paying = (Ok (20%N, s), w') /\
    pending_total (s_pending_adjustments s) = 33333%Z.
Proof.
  destruct (local_change_prorates manual 1 "free" paying 20%N pro_subscription free_loaded
    ltac:(by_compute) eq_refl eq_refl eq_refl eq_refl (or_introl eq_refl))
    as (s & w' & E & _ & _ & _ & _ & _ & _ & Hpend).
  exists s, w'. split; [exact E|]. rewrite Hpend. vm_compute. reflexivity.
Defined.

Lemma hosted_change_goes_first_witness :
  exists extras, change_plan stripe 1 "free" paying = (Err (Domain CheckoutRequiredError extras), paying).
Proof. exact (hosted_change_goes_first stripe 1 "free" paying free_loaded eq_refl eq_refl). Defined.

Lemma first_customer_ran :
  (ensure_customer manual 1 acme None demo).1 =
    Ok (101%N, BillingCustomer 1 "manual" (Some "manual_100") (Some "acme@example.com") (Some "Acme") (Some "PHP")).
Proof. vm_compute. reflexivity. Qed.

Lemma customer_created_once_witness :
  ensure_customer stripe 1 acme None (ensure_customer manual 1 acme None demo).2 =
    (Ok (101%N, BillingCustomer 1 "manual" (Some "manual_100") (Some "acme@example.com") (Some "Acme") (Some "PHP")),
     (ensure_customer manual 1 acme None demo).2).
Proof.
  exact (proj2 (proj2 (customer_created_once manual 1 acme None demo _ _ _ ltac:(by_compute)
    (ran _ _ _ first_customer_ran))) stripe acme None).
Defined.

Definition stripe_ready : world := demo <| w_settings := default_settings <| st_billing_provider := "stripe" |> <| st_stripe_secret_key := "sk" |> |>.

Lemma client_confirm_only_manual_witness :
  (complete_checkout stripe 1 acme pro_plan None None "client_confirm" stripe_ready).1 =
    Err (Domain CheckoutConfirmNotAllowedError [("provider", JStr "stripe")]).
Proof.
  rewrite (proj1 (proj2 (client_confirm_only_manual demo_ops (Some "stripe") stripe stripe_ready stripe_ready
    eq_refl)) ltac:(discriminate) 1%N acme pro_plan None None).
  reflexivity.
Defined.
