(* ===== verification/BillingWebhooks.v ===== *)
(** Billing webhook ingest (billing/webhooks.py): the idempotency ledger, the
    translation of provider payloads, and the application of each normalized event
    in its own savepoint.

    [exn_str] is [str(exc)], the text of an exception's message, which the model
    of exceptions leaves out.  The variables of row-level security
    ([set_rls_tenant]) are in [RowSecurity]. *)

From S2P Require Import Prelude Json Errors Events Tables Store Cache Session Fixtures.
From S2P Require Import Interfaces Invoicing Subscriptions Billing.

Record webhook_answer : Type := WebhookAnswer {
  wa_status : string;
  wa_events_applied : Z;
  wa_events_rejected : option Z
}.

(** [SELECT synapse_org_for_provider_ref(customer, subscription)]
    (migration 0013): a customer reference wins over a subscription reference. *)
Definition has_ref (ref stored : option string) : bool :=
  match ref, stored with Some r, Some x => String.eqb r x | _, _ => false end.

Definition org_for_provider_ref (customer_ref subscription_ref : option string) : M (option uuid) :=
  customers ← select Tbilling_customers (fun _ (c : billing_customer) =>
    has_ref customer_ref (bc_provider_customer_id c));
  subscriptions ← select Tsubscriptions (fun _ (s : subscription) =>
    has_ref subscription_ref (s_provider_subscription_id s));
  mret (head (map (fun r : uuid * billing_customer => bc_organization_id r.2) customers ++
              map (fun r : uuid * subscription => s_organization_id r.2) subscriptions)).

Definition _apply_status (org : uuid) (event : normalized_billing_event) (target_status : string) : M unit :=
  found ← current_for_org org;
  match found with
  | None => mret tt
  | Some (i, s) =>
      _ ← apply_provider_transition i s target_status (ne_current_period_end event);
      append_outbox SUBSCRIPTION_UPDATED "subscription" i
        [("status", JStr target_status); ("provider_event", JStr (ne_event_type event))] (Some org)
  end.

(** The ids [select(Invoice).where(provider, provider_invoice_id)] looks for. *)
Definition is_provider_invoice (provider_name ref : string) (_ : key Tinvoices) (v : invoice) : bool :=
  bool_decide (i_provider v = Some provider_name) && bool_decide (i_provider_invoice_id v = Some ref).

(** [Invoice(organization_id=org)] with the column defaults. *)
Definition blank_invoice (t : instant) (org : uuid) : invoice :=
  Invoice org None None None None "PHP" 0 0 0 "draft" None None None None None t.

(** The fields the event overwrites. *)
Definition invoice_from (provider_name ref : string) (customer_id : option uuid)
    (event : normalized_billing_event) (status : string) (v : invoice) : invoice :=
  let v := v <| i_provider := Some provider_name |> <| i_provider_invoice_id := Some ref |>
             <| i_billing_customer_id := customer_id |>
             <| i_currency := or_str (ne_currency event) "PHP" |>
             <| i_total_cents := or0 (ne_amount_cents event) |>
             <| i_status := status |> <| i_hosted_url := ne_hosted_url event |> in
  if String.eqb status "paid" then v <| i_paid_at := Some (ne_occurred_at event) |> else v.

Definition _upsert_invoice (provider_name : string) (org : uuid) (event : normalized_billing_event)
    (status : string) : M unit :=
  match ne_provider_invoice_id event with
  | None | Some "" => mret tt
  | Some ref =>
      customers ← select Tbilling_customers (customer_of org);
      customer ← scalar_one_or_none customers;
      rows ← select Tinvoices (is_provider_invoice provider_name ref);
      found ← scalar_one_or_none rows;
      t ← now;
      target ← match found with
               | Some (i, v) => mret (i, v)
               | None => i ← fresh_id; mret (i, blank_invoice t org)
               end;
      let '(i, v0) := (target : uuid * invoice) in
      let v := invoice_from provider_name ref (fst <$> (customer : option (uuid * billing_customer)))
                 event status v0 in
      _ ← put Tinvoices i v;
      _ ← flush;
      when_ (String.eqb status "paid")
        (append_outbox INVOICE_PAID "invoice" i
           [("total_cents", JInt (i_total_cents v)); ("currency", JStr (i_currency v))] (Some org))
  end.

Section Webhooks.
Context (ops : provider_kind -> provider_ops).
Context (exn_str : exn -> string).

(** The service is built on the configured provider ([BillingService(session)]). *)
Definition _apply_checkout_completed (org : uuid) (event : normalized_billing_event) : M unit :=
  if negb (truthy_str (ne_plan_key event)) then mret tt
  else
    billing ← build_provider ops None;
    p ← plan_by_key (default "" (ne_plan_key event)) false;
    rows ← session_get Torganizations org;
    match rows with
    | None => raise (PyError "NoResultFound")
    | Some o =>
        _ ← complete_checkout billing org o (lp_plan p) (ne_provider_subscription_id event) None "webhook";
        mret tt
    end.

Definition apply_event (provider_name : string) (org : uuid) (event : normalized_billing_event) : M unit :=
  let t := ne_event_type event in
  if bool_decide (t ∈ ["subscription.activated"; "subscription.created"; "subscription.trial_ended"])
  then _apply_status org event "active"
  else if String.eqb t "subscription.updated" then _apply_status org event (or_str (ne_status event) "active")
  else if String.eqb t "subscription.canceled" then _apply_status org event "canceled"
  else if String.eqb t "subscription.past_due" then _apply_status org event "past_due"
  else if String.eqb t "invoice.paid" then _upsert_invoice provider_name org event "paid"
  else if String.eqb t "invoice.created" then _upsert_invoice provider_name org event "open"
  else if String.eqb t "invoice.failed" then _upsert_invoice provider_name org event "uncollectible"
  else if String.eqb t "checkout.completed" then _apply_checkout_completed org event
  else mret tt.

Definition _apply (provider_name : string) (event : normalized_billing_event) : M unit :=
  org ← org_for_provider_ref (ne_provider_customer_id event) (ne_provider_subscription_id event);
  match org with
  | None => mret tt
  | Some org => apply_event provider_name org event
  end.

(** One event in its savepoint: the text of its rejection, if it is rejected. *)
Definition apply_one (provider_name : string) (event : normalized_billing_event) : M (option string) :=
  try_catch (_ ← savepoint (_apply provider_name event); mret None)
    (fun e => match e with
              | Domain _ _ => Some (mret (Some (ne_event_type event +:+ ": " +:+ exn_str e)))
              | PyError _ => None
              end).

(** The loop: how many events applied, and the rejections. *)
Fixpoint apply_events (provider_name : string) (events : list normalized_billing_event) :
    M (Z * list string) :=
  match events with
  | [] => mret (0%Z, [])
  | event :: events =>
      r ← apply_one provider_name event;
      rest ← apply_events provider_name events;
      let '(applied, rejected) := (rest : Z * list string) in
      mret (match r with
            | None => ((applied + 1)%Z, rejected)
            | Some text => (applied, text :: rejected)
            end)
  end.

Definition is_ledger_row (provider_name event_id : string) (_ : key Tprovider_webhook_events)
    (r : provider_webhook_event) : bool :=
  String.eqb (pe_provider r) provider_name && String.eqb (pe_provider_event_id r) event_id.

(** [INSERT ... ON CONFLICT (provider, provider_event_id) DO NOTHING RETURNING id]. *)
Definition insert_ledger (provider_name : string) (v : verified_webhook) : M (option uuid) :=
  t ← now;
  i ← fresh_id;
  rows ← select Tprovider_webhook_events (is_ledger_row provider_name (vw_provider_event_id v));
  match rows with
  | _ :: _ => mret None
  | [] =>
      _ ← put Tprovider_webhook_events i
            (ProviderWebhookEvent provider_name (vw_provider_event_id v) (Some (vw_event_type v)) t None None);
      mret (Some i)
  end.

(** [UPDATE provider_webhook_events SET processed_at, error WHERE id]. *)
Definition settle_ledger (i : uuid) (error : option string) : M unit :=
  t ← now;
  found ← session_get Tprovider_webhook_events i;
  match found with
  | Some r =>
      put Tprovider_webhook_events i
        ((r : provider_webhook_event) <| pe_processed_at := Some t |> <| pe_error := error |>)
  | None => mret tt
  end.

(** ["; ".join(rejected) or None]. *)
Definition join_rejected (rejected : list string) : option string :=
  let s := String.concat "; " rejected in if String.eqb s "" then None else Some s.

Definition ingest (provider_name : string) (raw : webhook_request) (provider : billing_provider) :
    M webhook_answer :=
  verified ← verify_webhook provider raw;
  inserted ← insert_ledger provider_name verified;
  match inserted with
  | None => mret (WebhookAnswer "duplicate" 0 None)
  | Some i =>
      match translate_webhook provider verified with
      | Err e =>
          _ ← settle_ledger i (Some ("translate: " +:+ exn_str e));
          mret (WebhookAnswer "unprocessable" 0 (Some 1%Z))
      | Ok normalized =>
          r ← apply_events provider_name normalized;
          let '(applied, rejected) := (r : Z * list string) in
          _ ← settle_ledger i (join_rejected rejected);
          mret (WebhookAnswer "processed" applied (Some (Z.of_nat (length rejected))))
      end
  end.

Definition handle (provider_name : string) (raw : webhook_request) (provider : option billing_provider) :
    M webhook_answer :=
  mbind (ingest provider_name raw)
    (match provider with Some p => mret p | None => build_provider_by_name ops provider_name end).
End Webhooks.

(** ** What an event can touch *)

Section Props.
Context (ops : provider_kind -> provider_ops) (ops_external : forall k, External (ops k)).
Context (exn_str : exn -> string).

#[local] Instance provider_external k : External (provider_of ops k) := ops_external k.

Lemma outside_keeps t {A} (m : M A) : Stable outside m -> Stable (keeps t) m.
Proof. intros Hm w. destruct (Hm w) as [_ E]. unfold keeps. by rewrite E. Qed.
Lemma outside_env {A} (m : M A) : Stable outside m -> Stable same_env m.
Proof. intros Hm w. destruct (Hm w) as [_ E]. by rewrite E. Qed.

(** The relations an event's application respects, from those of its steps. *)
Section Frame.
Context (R : relation world) `{!Restorable R}.
Context (R_outside : forall A (m : M A), Stable outside m -> Stable R m).
Context (R_put : forall t k r, t <> Tprovider_webhook_events -> Stable R (put t k r)).
Context (R_outbox : forall a b c d e, Stable R (append_outbox a b c d e)).
Context (R_audit : forall a b c d e f g, Stable R (audit a b c d e f g)).
Context (R_cache : forall A (f : _ -> _ -> A * _), Stable R (with_cache f)).
Context (R_defer : forall c k, Stable R (defer_bump c k)).

Lemma frame_fresh : Stable R fresh_id.
Proof. apply R_outside. intros w. split; [simpl; lia|done]. Qed.

Hint Resolve R_outbox R_audit R_cache R_defer frame_fresh : stable.
Hint Extern 1 (Stable R (put _ _ _)) => apply R_put; discriminate : stable.

Lemma frame_plan k ia : Stable R (plan_by_key k ia).
Proof. unfold plan_by_key, load_plan. solve_stable. Qed.
Hint Resolve frame_plan : stable.

Lemma frame_status org event target : Stable R (_apply_status org event target).
Proof.
  unfold _apply_status, current_for_org, apply_provider_transition, assert_transition, _bump_cache,
    cache_bump. solve_stable.
Qed.

Lemma frame_upsert p org event st : Stable R (_upsert_invoice p org event st).
Proof. unfold _upsert_invoice. solve_stable. Qed.

Lemma frame_complete (p : billing_provider) `{!External p} org o pl psid u src :
  Stable R (complete_checkout p org o pl psid u src).
Proof.
  unfold complete_checkout, ensure_customer, _record_invoice, Subscriptions.change_plan,
    create_subscription, current_for_org, _emit, _audit, _bump_cache, cache_bump.
  solve_stable. apply R_outside, external_create_customer.
Qed.

Lemma frame_checkout org event : Stable R (_apply_checkout_completed ops org event).
Proof.
  unfold _apply_checkout_completed. destruct (negb _); [solve_stable|].
  intros w. unfold build_provider. run. destruct (kind_of_name _) as [k|]; [|run; reflexivity].
  destruct (missing_secret _ k); run; [reflexivity|].
  assert (Hs : Stable R (p ← plan_by_key (default "" (ne_plan_key event)) false;
    rows ← session_get Torganizations org;
    match rows with
    | None => raise (PyError "NoResultFound")
    | Some o => _ ← complete_checkout (provider_of ops k) org o (lp_plan p)
                     (ne_provider_subscription_id event) None "webhook"; mret tt
    end)); [|exact (Hs w)].
  solve_stable. apply frame_complete, provider_external.
Qed.

Lemma frame_apply p event : Stable R (_apply ops p event).
Proof.
  pose proof frame_status. pose proof frame_upsert. pose proof frame_checkout.
  unfold _apply, org_for_provider_ref, apply_event. solve_stable.
Qed.

Lemma frame_one p event : Stable R (apply_one ops exn_str p event).
Proof. pose proof frame_apply. unfold apply_one. solve_stable. Qed.

Lemma frame_events p events : Stable R (apply_events ops exn_str p events).
Proof. pose proof frame_one. induction events; simpl; solve_stable. Qed.
End Frame.

(** ** Properties *)

Lemma events_keep_ledger p events :
  Stable (keeps Tprovider_webhook_events) (apply_events ops exn_str p events).
Proof.
  apply frame_events; [apply _|..]; intros; [by apply outside_keeps|by apply keeps_put|solve_stable..].
Qed.

Lemma events_same_env p events : Stable same_env (apply_events ops exn_str p events).
Proof. apply frame_events; [apply _|..]; intros; [by apply outside_env|solve_stable..]. Qed.

Lemma ingest_same_env name raw (p : billing_provider) `{!External p} :
  Stable same_env (ingest ops exn_str name raw p).
Proof.
  pose proof events_same_env. pose proof (fun raw => outside_env _ (external_verify (p := p) raw)).
  unfold ingest, insert_ledger, settle_ledger. solve_stable.
Qed.

(** The event is in the ledger. *)
Definition recorded (name id : string) (m : rows Tprovider_webhook_events) : Prop :=
  exists i (r : provider_webhook_event), m !! i = Some r /\ is_ledger_row name id i r = true.

Lemma settle_recorded name id i error w :
  recorded name id (w_db w Tprovider_webhook_events) ->
  recorded name id (w_db (settle_ledger i error w).2 Tprovider_webhook_events).
Proof.
  intros (j & r & Hj & Hr). unfold settle_ledger. run.
  destruct (w_db w Tprovider_webhook_events !! i) as [r0|] eqn:Ei; [|by exists j, r].
  run. unfold recorded. tables. destruct (N.eq_dec i j) as [<-|Hne].
  - eexists i, _. split; [apply (put_same Tprovider_webhook_events)|]. same_row. exact Hr.
  - exists j, r. split; [by apply (put_other Tprovider_webhook_events)|done].
Qed.

Lemma total_settle i error : Total (settle_ledger i error).
Proof. intros w. unfold settle_ledger. run. by destruct (w_db w Tprovider_webhook_events !! i). Qed.

Lemma insert_recorded name v w r w1 :
  insert_ledger name v w = (Ok r, w1) ->
  recorded name (vw_provider_event_id v) (w_db w1 Tprovider_webhook_events).
Proof.
  unfold insert_ledger. run.
  destruct (rows_where _ _ _) as [|[j x] l] eqn:E.
  - run. unfold mret, M_ret. intros [= <- <-]. unfold recorded. tables.
    eexists _, _. split; [apply (put_same Tprovider_webhook_events)|].
    unfold is_ledger_row. simpl. by rewrite !String.eqb_refl.
  - unfold mret, M_ret. intros [= <- <-]. exists j, x.
    apply (elem_of_rows_where Tprovider_webhook_events).
    change (w_db (w <| w_fresh := N.succ (w_fresh w) |>)) with (w_db w) in E |- *. rewrite E. left.
Qed.

Lemma insert_duplicate name v w :
  recorded name (vw_provider_event_id v) (w_db w Tprovider_webhook_events) ->
  exists w1, insert_ledger name v w = (Ok None, w1) /\ w_db w1 = w_db w.
Proof.
  intros (i & r & Hi). apply (elem_of_rows_where Tprovider_webhook_events) in Hi.
  unfold insert_ledger. run. tables. destruct (rows_where _ _ _); [by apply not_elem_of_nil in Hi|].
  by eexists.
Qed.

(** C34: provider retries are safe: once an ingest has answered, a later delivery
    of the same event id, in whatever state the tables then are as long as the
    ledger is kept, answers duplicate and changes no table. *)
Theorem duplicate_delivery_is_noop name raw (p : billing_provider) `{!External p} w v w0 r w1
    raw2 w2 v2 w2' :
  verify_webhook p raw w = (Ok v, w0) -> ingest ops exn_str name raw p w = (Ok r, w1) ->
  w_db w2 Tprovider_webhook_events = w_db w1 Tprovider_webhook_events ->
  verify_webhook p raw2 w2 = (Ok v2, w2') -> vw_provider_event_id v2 = vw_provider_event_id v ->
  exists w3, ingest ops exn_str name raw2 p w2 = (Ok (WebhookAnswer "duplicate" 0 None), w3) /\
    w_db w3 = w_db w2.
Proof.
  intros Hv E Hl Hv2 Hid.
  assert (Hrec : recorded name (vw_provider_event_id v) (w_db w1 Tprovider_webhook_events)).
  { revert E. unfold ingest. rewrite (run_ok _ _ _ _ _ Hv). intros (ins & w3 & Ei & E)%bind_ok.
    apply insert_recorded in Ei. revert E. destruct ins as [i|]; [|by intros [= <- <-]].
    destruct (translate_webhook p v) as [events|e].
    - intros ([n l] & w4 & E4 & E)%bind_ok. revert E. pose proof (total_settle i (join_rejected l)).
      rewrite run_total by done. intros [= <- <-]. apply settle_recorded.
      pose proof (events_keep_ledger name events w3) as Hk. rewrite E4 in Hk. unfold keeps in Hk. simpl in Hk.
      by rewrite Hk.
    - pose proof (total_settle i (Some ("translate: " +:+ exn_str e))).
      rewrite run_total by done. intros [= <- <-]. by apply settle_recorded. }
  destruct (insert_duplicate name v2 w2') as (w3 & E3 & Hdb).
  { rewrite Hid, (outside_run _ _ _ _ (external_verify raw2) Hv2). by rewrite Hl. }
  unfold ingest. rewrite (run_ok _ _ _ _ _ Hv2), (run_ok _ _ _ _ _ E3).
  exists w3. split; [done|]. rewrite Hdb. exact (outside_run _ _ _ _ (external_verify raw2) Hv2).
Qed.

(** C35: a business rejection costs only its own event: the tables are back to what
    they were before the event, the rejection is reported, and the remaining
    events are applied from there. *)
Theorem rejected_event_rolls_back name event c extras w w1 :
  _apply ops name event w = (Err (Domain c extras), w1) ->
  let text := ne_event_type event +:+ ": " +:+ exn_str (Domain c extras) in
  exists w2, w_db w2 = w_db w /\ apply_one ops exn_str name event w = (Ok (Some text), w2) /\
    forall events, apply_events ops exn_str name (event :: events) w =
      match apply_events ops exn_str name events w2 with
      | (Ok (applied, rejected), w3) => (Ok (applied, text :: rejected), w3)
      | (Err e, w3) => (Err e, w3)
      end.
Proof.
  intros E text. exists (w1 <| w_db := w_db w |>). split; [done|].
  assert (E1 : apply_one ops exn_str name event w = (Ok (Some text), w1 <| w_db := w_db w |>)).
  { unfold apply_one, try_catch, mbind at 1, M_bind at 1, savepoint. by rewrite E. }
  split; [done|]. intros events. simpl. rewrite (run_ok _ _ _ _ _ E1). unfold mbind, M_bind.
  by destruct (apply_events ops exn_str name events _) as [[[n l]|e] w3].
Qed.

(** Any other failure leaves the event to the provider's retry: the request is
    answered with the error and every table, the ledger included, is as it was
    committed before the request. *)
Theorem failed_ingest_keeps_nothing name raw (p : billing_provider) `{!External p} w e w1 :
  request (ingest ops exn_str name raw p) w = (Err e, w1) ->
  w_db w1 = w_durable w /\ w_durable w1 = w_durable w.
Proof. apply request_err. by apply ingest_same_env. Qed.
End Props.

(** ** Invoices reported by a provider *)

Lemma provider_invoice_ref name ref (m : rows Tinvoices) :
  forall i (v : invoice), m !! i = Some v -> is_provider_invoice name ref i v = true ->
    opt_pair (i_provider v) (i_provider_invoice_id v) = Some (name, ref).
Proof.
  intros i v _ H. apply andb_true_iff in H as [H1%bool_decide_eq_true H2%bool_decide_eq_true].
  by rewrite H1, H2.
Qed.

Lemma provider_invoice_unique name ref m :
  invoices_ok m ->
  rows_where Tinvoices (is_provider_invoice name ref) m = [] \/
  exists i v, rows_where Tinvoices (is_provider_invoice name ref) m = [(i, v)] /\
    m !! i = Some v /\ is_provider_invoice name ref i v = true.
Proof.
  intros (_ & Hu & _).
  by apply (rows_where_unique Tinvoices _ _ (name, ref) m Hu), provider_invoice_ref.
Qed.

Lemma invoices_ok_from name ref cid event status m i (v0 : invoice) :
  invoices_ok m -> status ∈ INVOICE_STATUSES ->
  (m !! i = Some v0 /\ is_provider_invoice name ref i v0 = true \/
   i_number v0 = None /\ rows_where Tinvoices (is_provider_invoice name ref) m = []) ->
  invoices_ok (<[i := invoice_from name ref cid event status v0]> m).
Proof.
  intros (Hc & Hp & Hn) Hst Hcase. set (v := invoice_from _ _ _ _ _ _).
  assert (Hf : i_status v = status /\ opt_pair (i_provider v) (i_provider_invoice_id v) = Some (name, ref) /\
    i_organization_id v = i_organization_id v0 /\ i_number v = i_number v0)
    by (unfold v, invoice_from; by destruct (String.eqb status "paid")).
  destruct Hf as (F1 & F2 & F3 & F4). repeat split.
  - apply check_in_insert; [done|]. by rewrite F1.
  - destruct Hcase as [[Hi H]|[_ Hno]].
    + eapply unique_on_update; [done|exact Hi|right].
      apply andb_true_iff in H as [H1%bool_decide_eq_true H2%bool_decide_eq_true].
      by rewrite F2, H1, H2.
    + apply unique_on_insert; [done|]. intros j v' x Hj Hv' Hx. rewrite F2 in Hx. injection Hx as <-.
      intros Hx. apply (rows_where_nil Tinvoices) with (k := j) (r := v') in Hno; [|done].
      unfold is_provider_invoice in Hno. destruct (i_provider v'), (i_provider_invoice_id v'); try done.
      injection Hx as -> ->. by rewrite !bool_decide_true in Hno.
  - destruct Hcase as [[Hi _]|[Hnum _]].
    + eapply unique_on_update; [done|exact Hi|right]. by rewrite F3, F4.
    + apply unique_on_insert; [done|]. intros j v' x _ _ Hx. rewrite F4, Hnum in Hx. done.
Qed.

(** The row an upsert leaves: the one it found, or a new one, with the event's
    fields. *)
Definition upserted (name ref : string) (cid : option uuid) (event : normalized_billing_event)
    (status : string) (t : instant) (org : uuid) (found : option (uuid * invoice)) : invoice :=
  invoice_from name ref cid event status (match found with Some (_, v0) => v0 | None => blank_invoice t org end).

(** Writing the row and announcing a paid one. *)
Lemma write_invoice (b : bool) org payload w i (v : invoice) :
  constraints_ok (w_db w) -> invoices_ok (<[i := v]> (w_db w Tinvoices)) ->
  exists w', (_ ← flush; when_ b (append_outbox INVOICE_PAID "invoice" i payload (Some org)))
      (put_w Tinvoices i v w) = (Ok tt, w') /\ constraints_ok (w_db w') /\
    w_db w' Tinvoices = <[i := v]> (w_db w Tinvoices) /\ keeps Tbilling_customers w w'.
Proof.
  intros Hok Hv. assert (constraints_ok (w_db (put_w Tinvoices i v w))) by (by apply constraints_put).
  rewrite run_flush by done. set (m := when_ b _).
  assert (Ht : Total m) by (apply total_when; apply _). exists (m (put_w Tinvoices i v w)).2.
  split; [specialize (Ht (put_w Tinvoices i v w)); destruct (m _); simpl in *; by subst|]. unfold m, keeps.
  split; [apply constraints_step; [solve_stable|done]|]. split; by tables.
Qed.

Lemma upsert_run name org event ref status w :
  constraints_ok (w_db w) -> ne_provider_invoice_id event = Some ref -> ref <> "" ->
  status ∈ INVOICE_STATUSES ->
  let cid := fst <$> head (rows_where Tbilling_customers (customer_of org) (w_db w Tbilling_customers)) in
  let found := head (rows_where Tinvoices (is_provider_invoice name ref) (w_db w Tinvoices)) in
  let i := match found with Some (i, _) => i | None => w_fresh w end in
  let v := upserted name ref cid event status (w_clock w) org found in
  exists w', _upsert_invoice name org event status w = (Ok tt, w') /\ constraints_ok (w_db w') /\
    w_db w' Tinvoices = <[i := v]> (w_db w Tinvoices) /\ keeps Tbilling_customers w w'.
Proof.
  intros Hok Href Hne Hst cid found i v. unfold _upsert_invoice. rewrite Href.
  destruct ref as [|a ref]; [done|]. set (r := String a ref) in *. run.
  pose proof (invoices_table _ Hok) as Hinv.
  assert (Hcust : forall B (f : option (uuid * billing_customer) -> M B),
    mbind f (scalar_one_or_none (rows_where Tbilling_customers (customer_of org) (w_db w Tbilling_customers))) w =
      f (head (rows_where Tbilling_customers (customer_of org) (w_db w Tbilling_customers))) w)
    by (intros B f; destruct (customers_unique _ org Hok) as [E|(k & c & E)]; by rewrite E).
  rewrite Hcust. fold cid. run.
  destruct (provider_invoice_unique name r _ Hinv) as [E|(k & v0 & E & Hk & Hp)];
    unfold i, v, found; rewrite E; run; simpl fst; simpl head.
  - destruct (write_invoice (String.eqb status "paid") org
      [("total_cents", JInt (i_total_cents (upserted name r cid event status (w_clock w) org None)));
       ("currency", JStr (i_currency (upserted name r cid event status (w_clock w) org None)))]
      (w <| w_fresh := N.succ (w_fresh w) |>) (w_fresh w)
      (upserted name r cid event status (w_clock w) org None)) as (w' & H); [done| |by exists w'].
    tables. apply invoices_ok_from; auto.
  - destruct (write_invoice (String.eqb status "paid") org
      [("total_cents", JInt (i_total_cents (upserted name r cid event status (w_clock w) org (Some (k, v0)))));
       ("currency", JStr (i_currency (upserted name r cid event status (w_clock w) org (Some (k, v0)))))]
      w k (upserted name r cid event status (w_clock w) org (Some (k, v0)))) as (w' & H); [done| |by exists w'].
    apply invoices_ok_from; auto.
Qed.

Lemma invoice_from_twice name ref cid event status (v : invoice) :
  invoice_from name ref cid event status (invoice_from name ref cid event status v) =
    invoice_from name ref cid event status v.
Proof. unfold invoice_from. destruct v, (String.eqb status "paid"); vm_compute; reflexivity. Qed.

Lemma upserted_fields name ref cid event status t org found :
  let v := upserted name ref cid event status t org found in
  i_status v = status /\ i_total_cents v = or0 (ne_amount_cents event) /\
  (forall k, is_provider_invoice name ref k v = true) /\
  forall i v0, found = Some (i, v0) ->
    i_organization_id v = i_organization_id v0 /\ i_number v = i_number v0.
Proof.
  assert (Hp : forall k, is_provider_invoice name ref k (upserted name ref cid event status t org found) = true).
  { intros k. unfold is_provider_invoice, upserted, invoice_from.
    destruct (String.eqb status "paid"); by rewrite !bool_decide_true. }
  unfold upserted, invoice_from in *.
  destruct found as [[j u]|], (String.eqb status "paid"); split_and!; try done; by intros i v0 [= _ ->].
Qed.

(** A provider's invoice is one row, whatever is reported about it and however
    often: an upsert succeeds and keeps the constraints, afterwards exactly one row
    carries the provider's reference, with the reported status and amount; a row
    that already carried it keeps its id, organization and number; and repeating
    the report changes nothing.  The reported status replaces the stored one
    whatever it was. *)
Theorem upsert_invoice_one_row name org event ref status w :
  constraints_ok (w_db w) -> ne_provider_invoice_id event = Some ref -> ref <> "" ->
  status ∈ INVOICE_STATUSES ->
  exists i v w', _upsert_invoice name org event status w = (Ok tt, w') /\ constraints_ok (w_db w') /\
    w_db w' Tinvoices = <[i := v]> (w_db w Tinvoices) /\
    rows_where Tinvoices (is_provider_invoice name ref) (w_db w' Tinvoices) = [(i, v)] /\
    i_status v = status /\ i_total_cents v = or0 (ne_amount_cents event) /\
    (forall j v0, rows_where Tinvoices (is_provider_invoice name ref) (w_db w Tinvoices) = [(j, v0)] ->
       i = j /\ i_organization_id v = i_organization_id v0 /\ i_number v = i_number v0) /\
    exists w'', _upsert_invoice name org event status w' = (Ok tt, w'') /\
      w_db w'' Tinvoices = w_db w' Tinvoices.
Proof.
  intros Hok Href Hne Hst.
  destruct (upsert_run name org event ref status w Hok Href Hne Hst) as (w' & E & Hok' & Htab & Hc).
  set (found := head _) in Htab at 1. set (i := match found with Some (i, _) => i | None => _ end) in *.
  set (v := upserted _ _ _ _ _ _ _ _) in *.
  destruct (upserted_fields name ref (fst <$> head (rows_where Tbilling_customers (customer_of org)
    (w_db w Tbilling_customers))) event status (w_clock w) org found) as (F1 & F2 & F3 & F4).
  assert (Hi : w_db w' Tinvoices !! i = Some v) by (rewrite Htab; apply (put_same Tinvoices)).
  assert (Erow : rows_where Tinvoices (is_provider_invoice name ref) (w_db w' Tinvoices) = [(i, v)]).
  { destruct (invoices_table _ Hok') as (_ & Hu & _).
    by apply (rows_where_singleton Tinvoices _ _ (name, ref) _ i v Hu), F3; [apply provider_invoice_ref|]. }
  exists i, v, w'. split_and!; try done.
  - intros j v0 Ej. assert (found = Some (j, v0)) as Ef by (unfold found; by rewrite Ej).
    destruct (F4 j v0 Ef). split; [unfold i; by rewrite Ef|done].
  - destruct (upsert_run name org event ref status w' Hok' Href Hne Hst) as (w2 & E2 & _ & Htab2 & _).
    exists w2. split; [done|]. rewrite Htab2, Erow, Hc. simpl. apply insert_id.
    etrans; [exact Hi|]. f_equal. symmetry. apply invoice_from_twice.
Qed.

(** Out of order: the report that an invoice was created, arriving after the one
    that it was paid, reopens it. *)
Lemma late_created_reopens_paid name org (paid created : normalized_billing_event) ref w w1 :
  constraints_ok (w_db w) ->
  ne_provider_invoice_id paid = Some ref -> ne_provider_invoice_id created = Some ref -> ref <> "" ->
  _upsert_invoice name org paid "paid" w = (Ok tt, w1) ->
  exists i v w2, _upsert_invoice name org created "open" w1 = (Ok tt, w2) /\
    rows_where Tinvoices (is_provider_invoice name ref) (w_db w2 Tinvoices) = [(i, v)] /\ i_status v = "open".
Proof.
  intros Hok Hp Hc Hne E.
  destruct (upsert_run name org paid ref "paid" w Hok Hp Hne ltac:(by apply (bool_decide_unpack _)))
    as (w1' & E1 & Hok1 & _). assert (w1' = w1) as -> by congruence.
  destruct (upsert_run name org created ref "open" w1 Hok1 Hc Hne ltac:(by apply (bool_decide_unpack _)))
    as (w2 & E2 & Hok2 & Htab & _).
  set (found := head _) in Htab at 1. set (v := upserted _ _ _ _ _ _ _ _) in *.
  eexists _, v, w2. split; [done|]. destruct (invoices_table _ Hok2) as (_ & Hu & _).
  destruct (upserted_fields name ref (fst <$> head (rows_where Tbilling_customers (customer_of org)
    (w_db w1 Tbilling_customers))) created "open" (w_clock w1) org found) as (F1 & _ & F3 & _).
  split; [|exact F1].
  eapply (rows_where_singleton Tinvoices _ _ (name, ref)); 
    [exact Hu|by apply provider_invoice_ref|rewrite Htab; apply (put_same Tinvoices)|].
  apply F3.
Qed.

(** ** Witnesses *)

Definition demo_event (event_type : string) : normalized_billing_event :=
  NormalizedBillingEvent event_type "evt_1" NOW (Some "cus_1") None (Some "in_1") (Some "pro")
    (Some "trialing") None (Some 100000%Z) None None.

Definition hook (events : list normalized_billing_event) : provider_ops := {|
  create_customer := manual_create_customer;
  create_checkout := manual_create_checkout;
  portal_url _ _ := raise (PyError "NotImplementedError");
  provider_change_plan := manual_change_plan;
  verify_webhook _ := mret (VerifiedWebhook "evt_1" "event" [] NOW);
  translate_webhook _ := Ok events
|}.
Lemma hook_external events : External (hook events).
Proof.
  destruct (manual_external no_verification ltac:(intros raw w; reflexivity)) as [H1 H2 H3 H4 _].
  split; try done. intros raw w. reflexivity.
Qed.

Definition hooks (_ : provider_kind) : provider_ops := hook [demo_event "invoice.paid"].
Definition raw_event : webhook_request := WebhookRequest [] "{}".
Definition no_text (_ : exn) : string := "rejected".

Definition acme_customer : billing_customer :=
  BillingCustomer 1 "stripe" (Some "cus_1") None None (Some "PHP").
Definition ghost_customer : billing_customer :=
  BillingCustomer 9 "stripe" (Some "cus_1") None None (Some "PHP").
Definition hosted (c : billing_customer) : world :=
  world_of (set_table demo_db Tbilling_customers (rows_of Tbilling_customers [(60%N, c)])).

Definition first_ingest : result webhook_answer * world :=
  ingest hooks no_text "stripe" raw_event (provider_of hooks Stripe) (hosted acme_customer).
Lemma first_ingest_ran : first_ingest.1 = Ok (WebhookAnswer "processed" 1 (Some 0%Z)).
Proof. vm_compute. reflexivity. Qed.

Lemma duplicate_delivery_is_noop_witness :
  exists w3, ingest hooks no_text "stripe" raw_event (provider_of hooks Stripe)
      first_ingest.2 =
    (Ok (WebhookAnswer "duplicate" 0 None), w3).
Proof.
  destruct (duplicate_delivery_is_noop hooks (fun _ => hook_external _) no_text "stripe" raw_event
    (provider_of hooks Stripe) (External0 := hook_external _) (hosted acme_customer)
    (VerifiedWebhook "evt_1" "event" [] NOW) (hosted acme_customer) (WebhookAnswer "processed" 1 (Some 0%Z)) _
    raw_event first_ingest.2 (VerifiedWebhook "evt_1" "event" [] NOW) _
    eq_refl (ran _ _ _ first_ingest_ran) eq_refl eq_refl eq_refl) as (w3 & E & _).
  exists w3. exact E.
Defined.

Lemma rejected_event_rolls_back_witness :
  exists w2, w_db w2 = w_db (hosted acme_customer) /\
    apply_one hooks no_text "stripe" (demo_event "subscription.updated") (hosted acme_customer) =
      (Ok (Some "subscription.updated: rejected"), w2).
Proof.
  destruct (rejected_event_rolls_back hooks no_text "stripe" (demo_event "subscription.updated")
    SubscriptionStateError [("from", JStr "active"); ("to", JStr "trialing");
      ("allowed", JList (JStr <$> sorted_str (allowed_from "active")))]
    (hosted acme_customer) _ eq_refl) as (w2 & Hdb & E & _).
  exists w2. split; [exact Hdb|exact E].
Defined.

Definition checkouts (_ : provider_kind) : provider_ops := hook [demo_event "checkout.completed"].

Definition failed_ingest : result webhook_answer * world :=
  request (ingest checkouts no_text "stripe" raw_event (provider_of checkouts Stripe)) (hosted ghost_customer).
Lemma failed_ingest_ran : failed_ingest.1 = Err (PyError "NoResultFound").
Proof. vm_compute. reflexivity. Qed.

Lemma failed_ingest_keeps_nothing_witness :
  w_db failed_ingest.2 Tprovider_webhook_events = ∅.
Proof.
  destruct (failed_ingest_keeps_nothing checkouts (fun _ => hook_external _) no_text "stripe" raw_event
    (provider_of checkouts Stripe) (External0 := hook_external _) (hosted ghost_customer) _ _
    (ran_err _ _ _ failed_ingest_ran)) as [E _].
  unfold failed_ingest. rewrite E. reflexivity.
Defined.

Lemma upsert_invoice_one_row_witness :
  exists i v w', _upsert_invoice "stripe" 1 (demo_event "invoice.paid") "paid" (hosted acme_customer) = (Ok tt, w') /\
    rows_where Tinvoices (is_provider_invoice "stripe" "in_1") (w_db w' Tinvoices) = [(i, v)].
Proof.
  destruct (upsert_invoice_one_row "stripe" 1 (demo_event "invoice.paid") "in_1" "paid" (hosted acme_customer)
    ltac:(by_compute) eq_refl ltac:(discriminate) ltac:(by_compute))
    as (i & v & w' & E & _ & _ & Erow & _).
  exists i, v, w'. split; [exact E|exact Erow].
Defined.
