(* ===== verification/Providers.v ===== *)
(** The hosted payment providers (billing/providers/): what each asks of its API,
    how it authenticates a webhook, and how it translates one.

    The HTTP client, HMAC-SHA256, [json.loads] and the text of floats and containers
    are arguments.  A reference that is no text is refused where the database would
    refuse it; events keep the decoded values as they came ([raw_event]). *)

From Stdlib Require Import Ascii.
From S2P Require Import Prelude Text Ids Json Errors Events Tables Store Dynamic Cache Session Fixtures.
From S2P Require Import Billing.

(** ** HTTP *)

Inductive credentials : Type := Basic (user : string) | Bearer (token : string).
Inductive http_body : Type :=
  | FormBody (fields : list (string * string))
  | JsonBody (j : json)
  | NoBody.
Record http_request : Type := HttpRequest {
  hq_method : string;
  hq_url : string;
  hq_body : http_body;
  hq_credentials : credentials
}.
Record http_response : Type := HttpResponse {
  hs_status : Z;
  hs_text : string
}.

(** [d[k] = v] of a dictionary of texts. *)
Fixpoint set_field (k v : string) (l : list (string * string)) : list (string * string) :=
  match l with
  | [] => [(k, v)]
  | (k', v') :: l => if String.eqb k k' then (k', v) :: l else (k', v') :: set_field k v l
  end.

(** [str.upper()], on ASCII letters. *)
Definition upper_char (c : ascii) : ascii :=
  let n := nat_of_ascii c in if (97 <=? n) && (n <=? 122) then ascii_of_nat (n - 32) else c.
Fixpoint upper (s : string) : string :=
  match s with EmptyString => EmptyString | String c s => String (upper_char c) (upper s) end.

(** The canonical vocabulary of [NormalizedBillingEvent]. *)
Record raw_event : Type := RawEvent {
  re_event_type : string;
  re_provider_event_id : string;
  re_occurred_at : instant;
  re_provider_customer_id : json;
  re_provider_subscription_id : json;
  re_provider_invoice_id : json;
  re_plan_key : json;
  re_status : json;
  re_current_period_end : option instant;
  re_amount_cents : json;
  re_currency : json;
  re_hosted_url : json
}.

(** The event at its declared types: a value of another type is no reference, key
    or amount of anything. *)
Definition text_of (j : json) : option string := match j with JStr s => Some s | _ => None end.
Definition int_of (j : json) : option Z := match j with JInt z => Some z | _ => None end.
Definition typed_event (e : raw_event) : normalized_billing_event :=
  NormalizedBillingEvent (re_event_type e) (re_provider_event_id e) (re_occurred_at e)
    (text_of (re_provider_customer_id e)) (text_of (re_provider_subscription_id e)) (text_of (re_provider_invoice_id e))
    (text_of (re_plan_key e)) (text_of (re_status e)) (re_current_period_end e) (int_of (re_amount_cents e))
    (text_of (re_currency e)) (text_of (re_hosted_url e)).

(** A dictionary of texts. *)
Definition lookup_text (k : string) (l : list (string * string)) : option string :=
  snd <$> head (filter (fun e : string * string => e.1 = k) l).
Definition header (k : string) (raw : webhook_request) : string := default "" (lookup_text k (wr_headers raw)).

(** [abs(time.time() - t) > 300]; an integer no float holds is an [OverflowError]. *)
Definition WEBHOOK_TOLERANCE_SECONDS : Z := 300.
Definition outside_tolerance (t : instant) (timestamp : Z) : result bool :=
  if (2 ^ 1024 - 2 ^ 970 <=? Z.abs timestamp)%Z then Err (PyError "OverflowError")
  else Ok (WEBHOOK_TOLERANCE_SECONDS * SECOND <? Z.abs (t - timestamp * SECOND))%Z.

Definition rejected {A} : M A := raise_domain WebhookSignatureInvalidError [].

(** One more reading of a reference: a text. *)
Definition reference (j : json) : result string :=
  match j with JStr s => Ok s | _ => Err (PyError "DBAPIError") end.
Definition opt_reference (j : json) : result (option string) :=
  match j with JNull => Ok None | JStr s => Ok (Some s) | _ => Err (PyError "DBAPIError") end.

(** [isinstance(x, int)]: a boolean is one. *)
Definition is_int (j : json) : bool := match j with JInt _ | JBool _ => true | _ => false end.
Definition opt_timestamp (j : json) : result (option instant) :=
  if is_int j then t ← from_timestamp j; Ok (Some t) else Ok None.

(** [m.get(k)] of a table of texts: an unhashable key is a [TypeError]. *)
Definition map_get (m : list (string * string)) (k : json) : result json :=
  match k with
  | JStr s => Ok (jopt JStr (lookup_text s m))
  | JList _ | JObj _ => TypeError
  | _ => Ok JNull
  end.

(** [(x or "").upper() or None]. *)
Definition currency_code (j : json) : result json :=
  match jor j (JStr "") with
  | JStr s => Ok (if String.eqb s "" then JNull else JStr (upper s))
  | _ => Err (PyError "AttributeError")
  end.

(** [for x in l]: iterating what is no list is refused where its items are read. *)
Definition items_of (j : json) : result (list json) :=
  match j with
  | JList l => Ok l
  | JObj o => Ok (JStr ∘ fst <$> o)
  | JStr s => Ok ((fun c => JStr (String c EmptyString)) <$> String.list_ascii_of_string s)
  | _ => TypeError
  end.

(** [hmac.compare_digest] of texts: [TypeError] unless both are ASCII. *)
Definition is_ascii (s : string) : bool := all_chars (fun c => nat_of_ascii c <? 128) s.
Definition compare_digest (a b : string) : result bool :=
  if is_ascii a && is_ascii b then Ok (String.eqb a b) else TypeError.

(** ** What the requests ask *)

Record create_subscription_request : Type := CreateSubscriptionRequest {
  cs_plan_key : string;
  cs_price_cents : Z;
  cs_currency : string;
  cs_interval : string;
  cs_provider_customer_id : string;
  cs_trial_days : Z
}.
Record invoice_ref : Type := InvoiceRef {
  ir_provider_invoice_id : json;
  ir_number : json;
  ir_status : json;
  ir_total_cents : json;
  ir_currency : json;
  ir_hosted_url : json;
  ir_pdf_url : json;
  ir_issued_at : option instant;
  ir_paid_at : option instant
}.

(** What the providers run on. *)
Class Platform : Type := {
  repr : json -> string;                           (* [str] of a float or a container *)
  json_loads : string -> option json;              (* [None]: malformed *)
  hmac_sha256 : string -> string -> string;        (* key and message to hexadecimal digest *)
  send : http_request -> M http_response           (* the shared HTTP client *)
}.

Section Providers.
Context `{Platform}.

Definition str : json -> string := py_str repr.

Definition response_json (r : http_response) : result json :=
  match json_loads (hs_text r) with Some j => Ok j | None => Err (PyError "JSONDecodeError") end.

(** [str(u or "")]. *)
Definition opt_id (u : option uuid) : json := match u with Some u => JUuid u | None => JStr "" end.

(** [verify_signature] and [constant_time_equals] (core/security.py). *)
Definition sign_payload (payload secret : string) (timestamp : Z) : string :=
  hmac_sha256 secret (Z_str timestamp +:+ "." +:+ payload).
Definition constant_time_equals (a b : string) : bool := String.eqb a b.
Definition verify_signature (payload secret : string) (timestamp : Z) (signature : string) : bool :=
  constant_time_equals (sign_payload payload secret timestamp) signature.

(** The end of every verification: the body as an object, or the refusal. *)
Definition parsed_body (raw : webhook_request) : M json :=
  match json_loads (wr_body raw) with Some j => mret j | None => rejected end.
Definition verified (id event_type : string) (parsed : json) : M verified_webhook :=
  t ← now;
  match parsed with
  | JObj o => mret (VerifiedWebhook id event_type o t)
  | _ => raise (PyError "AttributeError")
  end.

(** Subscriptions of the providers the framework's own scheduler bills. *)
Definition scheduled_create_subscription (prefix : string) (req : create_subscription_request) : M subscription_ref :=
  token ← token_hex; t ← now;
  mret (SubscriptionRef (prefix +:+ token) "active" (Some (t + days 30)%Z) (Some (cs_provider_customer_id req))).
Definition scheduled_change_plan (provider_subscription_id : string) (_ : change_plan_request) : M subscription_ref :=
  t ← now; mret (SubscriptionRef provider_subscription_id "active" (Some (t + days 30)%Z) None).
Definition scheduled_cancel_subscription (provider_subscription_id : string) (at_period_end : bool) : M subscription_ref :=
  mret (SubscriptionRef provider_subscription_id "canceled" None None).
Definition scheduled_get_subscription (provider_subscription_id : string) : M subscription_ref :=
  t ← now; mret (SubscriptionRef provider_subscription_id "active" (Some (t + days 30)%Z) None).

(** [str(x or f"{prefix}{token_hex}")]. *)
Definition id_or_token (prefix : string) (x : json) : M string :=
  if truthy x then mret (str x) else t ← token_hex; mret (prefix +:+ t).
End Providers.
