(* ===== verification/Stripe.v ===== *)
(** The Stripe provider (billing/providers/stripe_provider.py). *)

From Stdlib Require Import Ascii.
From S2P Require Import Prelude Text Json Errors Events Tables Store Dynamic Cache Session Fixtures.
From S2P Require Import Billing Providers.

(** [f"{prefix}[{key}]" if prefix else key]. *)
Definition join_key (prefix k : string) : string := if String.eqb prefix "" then k else prefix +:+ "[" +:+ k +:+ "]".

Section Stripe.
Context `{Platform} (secret_key webhook_secret api_base : string).

(** [_flatten] (stripe_provider.py): nested parameters as form fields. *)
Fixpoint _flatten (full : string) (j : json) (flat : list (string * string)) {struct j} : list (string * string) :=
  match j with
  | JObj o =>
      (fix go (o : jobj) (flat : list (string * string)) := match o with
       | [] => flat
       | (k, v) :: o => go o (_flatten (join_key full k) v flat)
       end) o flat
  | JBool b => set_field full (if b then "true" else "false") flat
  | JNull => flat
  | _ => set_field full (str j) flat
  end.

Definition stripe_request (method path : string) (data : jobj) : M json :=
  response ← send (HttpRequest method (api_base +:+ path) (FormBody (_flatten "" (JObj data) [])) (Basic secret_key));
  if (400 <=? hs_status response)%Z
  then
    body ← lift (response_json response);
    error ← lift (py_get "error" (JObj []) body);
    _ ← lift (py_get "message" (JStr (hs_text response)) error);
    raise_domain BillingProviderError []
  else lift (response_json response).

Definition stripe_create_customer (req : create_customer_request) : M billing_customer_ref :=
  result ← stripe_request "POST" "/customers"
    [("email", JStr (cc_email req)); ("name", jopt JStr (cc_name req)); ("metadata[org]", opt_id (cc_organization_id req))];
  i ← lift (member "id" result ≫= reference);
  mret (BillingCustomerRef i (Some (cc_email req)) (cc_name req)).

(** [if x: data[k] = x]. *)
Definition given (k : string) (x : option string) : jobj := if truthy_str x then [(k, jopt JStr x)] else [].

Definition stripe_create_checkout (req : create_checkout_request) : M checkout_result :=
  result ← stripe_request "POST" "/checkout/sessions"
    ([("mode", JStr "subscription"); ("line_items[0][quantity]", JInt 1);
      ("line_items[0][price_data][currency]", JStr (lower (ch_currency req)));
      ("line_items[0][price_data][unit_amount]", JInt (ch_price_cents req));
      ("line_items[0][price_data][recurring][interval]", JStr (ch_interval req));
      ("line_items[0][price_data][product_data][name]", JStr (ch_plan_name req));
      ("metadata[plan_key]", JStr (ch_plan_key req)); ("metadata[org_id]", opt_id (ch_organization_id req))] ++
     given "customer" (ch_provider_customer_id req) ++ given "success_url" (ch_success_url req) ++
     given "cancel_url" (ch_cancel_url req));
  url ← lift (py_get "url" JNull result ≫= opt_reference);
  i ← lift (member "id" result ≫= reference);
  mret (CheckoutResult url "stripe" None (Some i)).

Definition stripe_portal_url (provider_customer_id return_url : string) : M string :=
  result ← stripe_request "POST" "/billing_portal/sessions"
    [("customer", JStr provider_customer_id); ("return_url", JStr return_url)];
  url ← lift (member "url" result); mret (str url).

Definition _to_subscription_ref (data : json) : result subscription_ref :=
  e ← py_get "current_period_end" JNull data; period_end ← opt_timestamp e;
  i ← member "id" data; i ← reference i;
  s ← py_get "status" (JStr "active") data; s ← reference s;
  c ← py_get "customer" JNull data; c ← opt_reference c;
  Ok (SubscriptionRef i s period_end c).

Definition stripe_create_subscription (req : create_subscription_request) : M subscription_ref :=
  result ← stripe_request "POST" "/subscriptions"
    ([("customer", JStr (cs_provider_customer_id req)); ("items[0][price_data][currency]", JStr (lower (cs_currency req)));
      ("items[0][price_data][unit_amount]", JInt (cs_price_cents req));
      ("items[0][price_data][recurring][interval]", JStr (cs_interval req));
      ("items[0][price_data][product_data][name]", JStr (cs_plan_key req)); ("metadata[plan_key]", JStr (cs_plan_key req))] ++
     (if (cs_trial_days req =? 0)%Z then [] else [("trial_period_days", JInt (cs_trial_days req))]));
  lift (_to_subscription_ref result).

(** [l[0]]. *)
Definition first_item (j : json) : result json :=
  match j with
  | JList (x :: _) => Ok x
  | JList [] => Err (PyError "IndexError")
  | JStr (String c _) => Ok (JStr (String c EmptyString))
  | JStr EmptyString => Err (PyError "IndexError")
  | JObj _ => KeyError
  | _ => TypeError
  end.

Definition stripe_change_plan (provider_subscription_id : string) (req : change_plan_request) : M subscription_ref :=
  current ← stripe_request "GET" ("/subscriptions/" +:+ provider_subscription_id) [];
  item_id ← lift (items ← member "items" current; d ← member "data" items; x ← first_item d; member "id" x);
  result ← stripe_request "POST" ("/subscriptions/" +:+ provider_subscription_id)
    [("items[0][id]", item_id); ("items[0][price_data][currency]", JStr (lower (cp_currency req)));
     ("items[0][price_data][unit_amount]", JInt (cp_price_cents req));
     ("items[0][price_data][recurring][interval]", JStr (cp_interval req)); ("metadata[plan_key]", JStr (cp_plan_key req))];
  lift (_to_subscription_ref result).

Definition stripe_cancel_subscription (provider_subscription_id : string) (at_period_end : bool) : M subscription_ref :=
  let path := "/subscriptions/" +:+ provider_subscription_id in
  result ← if at_period_end then stripe_request "POST" path [("cancel_at_period_end", JBool true)]
           else stripe_request "DELETE" path [];
  lift (_to_subscription_ref result).

Definition stripe_get_subscription (provider_subscription_id : string) : M subscription_ref :=
  result ← stripe_request "GET" ("/subscriptions/" +:+ provider_subscription_id) [];
  lift (_to_subscription_ref result).

(** [f(d[k])] of a truthy timestamp. *)
Definition when_truthy (j : json) : result (option instant) :=
  if truthy j then t ← from_timestamp j; Ok (Some t) else Ok None.

Definition _to_invoice_ref (data : json) : result invoice_ref :=
  i ← member "id" data; number ← py_get "number" JNull data; status ← py_get "status" (JStr "open") data;
  total ← py_get "total" (JInt 0) data; c ← py_get "currency" JNull data;
  c ← match jor c (JStr "PHP") with JStr s => Ok (JStr (upper s)) | _ => Err (PyError "AttributeError") end;
  hosted ← py_get "hosted_invoice_url" JNull data; pdf ← py_get "invoice_pdf" JNull data;
  created ← py_get "created" JNull data; issued ← when_truthy created;
  transitions ← py_get "status_transitions" (JObj []) data; paid ← py_get "paid_at" JNull transitions;
  paid ← when_truthy paid;
  Ok (InvoiceRef i number status total c hosted pdf issued paid).

Definition stripe_list_invoices (provider_customer_id : string) (limit : Z) : M (list invoice_ref) :=
  result ← stripe_request "GET" ("/invoices?customer=" +:+ provider_customer_id +:+ "&limit=" +:+ Z_str limit) [];
  lift (data ← py_get "data" (JList []) result; l ← items_of data; map_result _to_invoice_ref l).

Definition upsert_product_and_price (plan_key plan_name : string) (price_cents : Z) (currency interval : string) :
    M (json * json) :=
  product ← stripe_request "POST" "/products" [("name", JStr plan_name); ("metadata[plan_key]", JStr plan_key)];
  product_id ← lift (member "id" product);
  price ← stripe_request "POST" "/prices"
    [("product", product_id); ("currency", JStr (lower currency)); ("unit_amount", JInt price_cents);
     ("recurring[interval]", JStr interval)];
  price_id ← lift (member "id" price);
  mret (product_id, price_id).

(** ** Webhooks *)

(** [_parse_stripe_signature]: the timestamp and the first signature. *)
Fixpoint stripe_parts (parts : list string) (timestamp : option Z) (signatures : list string) : option (Z * string) :=
  match parts with
  | [] => match timestamp, signatures with Some t, s :: _ => Some (t, s) | _, _ => None end
  | part :: parts =>
      let '(k, _, value) := partition "=" (strip part) in
      if String.eqb k "t" then
        match py_int value with Some t => stripe_parts parts (Some t) signatures | None => None end
      else if String.eqb k "v1" && negb (String.eqb value "")
      then stripe_parts parts timestamp (signatures ++ [value])
      else stripe_parts parts timestamp signatures
  end.
Definition _parse_stripe_signature (h : string) : option (Z * string) := stripe_parts (split_on "," h) None [].

Definition stripe_verify_webhook (raw : webhook_request) : M verified_webhook :=
  match _parse_stripe_signature (header "stripe-signature" raw) with
  | None => rejected
  | Some (timestamp, signature) =>
      t ← now;
      late ← lift (outside_tolerance t timestamp);
      if late || negb (verify_signature (wr_body raw) webhook_secret timestamp signature) then rejected
      else
        parsed ← parsed_body raw;
        i ← lift (py_get "id" (JStr "") parsed);
        event_type ← lift (py_get "type" (JStr "") parsed);
        verified (str i) (str event_type) parsed
  end.

Definition stripe_types : list (string * string) :=
  [("customer.subscription.created", "subscription.created"); ("customer.subscription.updated", "subscription.updated");
   ("customer.subscription.deleted", "subscription.canceled"); ("invoice.paid", "invoice.paid");
   ("invoice.payment_failed", "invoice.failed"); ("checkout.session.completed", "checkout.completed")].
Definition stripe_statuses : list (string * string) :=
  [("trialing", "trialing"); ("active", "active"); ("past_due", "past_due"); ("canceled", "canceled");
   ("unpaid", "unpaid"); ("incomplete", "incomplete")].

(** The clock of the request is the one [received_at] read. *)
Definition stripe_translate_webhook (v : verified_webhook) : result (list raw_event) :=
  let parsed := JObj (vw_parsed v) in
  let event_type := vw_event_type v in
  outer ← py_get "data" (JObj []) parsed; data ← py_get "object" (JObj []) outer;
  created ← py_get "created" (JInt (vw_received_at v / SECOND)) parsed; occurred_at ← from_timestamp created;
  match lookup_text event_type stripe_types with
  | None => Ok []
  | Some canonical =>
      e ← py_get "current_period_end" JNull data; period_end ← opt_timestamp e;
      customer ← py_get "customer" JNull data;
      subscription ← (if contains "subscription" event_type then py_get "id" JNull data
                      else py_get "subscription" JNull data);
      invoice ← (if contains "invoice" event_type then py_get "id" JNull data else Ok JNull);
      metadata ← py_get "metadata" JNull data; plan_key ← py_get "plan_key" JNull (jor metadata (JObj []));
      st ← py_get "status" (JStr "") data; status ← map_get stripe_statuses st;
      paid ← py_get "amount_paid" JNull data; due ← py_get "amount_due" JNull data;
      c ← py_get "currency" JNull data; currency ← currency_code c;
      hosted ← py_get "hosted_invoice_url" JNull data;
      Ok [RawEvent canonical (vw_provider_event_id v) occurred_at customer subscription invoice plan_key status period_end
            (jor paid due) currency hosted]
  end.
End Stripe.
