(* ===== verification/Paddle.v ===== *)
(** The Paddle provider (billing/providers/paddle_provider.py). *)

From Stdlib Require Import Ascii.
From S2P Require Import Prelude Text Json Errors Events Tables Store Dynamic Cache Session Fixtures.
From S2P Require Import Billing Providers.

Section Paddle.
Context `{Platform} (secret_key webhook_secret api_base : string).

Definition paddle_request (method path : string) (body : json) : M json :=
  response ← send (HttpRequest method (api_base +:+ path) (JsonBody body) (Bearer secret_key));
  if (400 <=? hs_status response)%Z then raise_domain BillingProviderError []
  else lift (response_json response).

Definition paddle_create_customer (req : create_customer_request) : M billing_customer_ref :=
  result ← paddle_request "POST" "/customers" (JObj [("email", JStr (cc_email req)); ("name", jopt JStr (cc_name req))]);
  i ← lift (data ← py_get "data" result result; py_get "id" (JStr "") data);
  mret (BillingCustomerRef (str i) (Some (cc_email req)) (cc_name req)).

Definition paddle_create_checkout (req : create_checkout_request) : M checkout_result :=
  result ← paddle_request "POST" "/transactions"
    (JObj [("items", JList [JObj [("price", JObj [("unit_amount", JInt (ch_price_cents req));
                                                  ("currency_code", JStr (lower (ch_currency req)));
                                                  ("product", JObj [("name", JStr (ch_plan_name req))])]);
                                  ("quantity", JInt 1)]]);
           ("custom_data", JObj [("plan_key", JStr (ch_plan_key req)); ("org_id", opt_id (ch_organization_id req))])]);
  data ← lift (py_get "data" result result);
  checkout ← lift (py_get "checkout" JNull data);
  url ← lift (match checkout with JObj _ => py_get "url" JNull checkout ≫= opt_reference | _ => Ok None end);
  i ← lift (py_get "id" (JStr "") data);
  mret (CheckoutResult url "paddle" None (Some (str i))).

(** The framework's own scheduler bills these subscriptions: nothing is asked of
    Paddle. *)
Definition paddle_create_subscription : create_subscription_request -> M subscription_ref := scheduled_create_subscription "paddlesub_".
Definition paddle_change_plan : string -> change_plan_request -> M subscription_ref := scheduled_change_plan.
Definition paddle_cancel_subscription : string -> bool -> M subscription_ref := scheduled_cancel_subscription.
Definition paddle_get_subscription : string -> M subscription_ref := scheduled_get_subscription.
Definition paddle_list_invoices (provider_customer_id : string) (limit : Z) : M (list invoice_ref) := mret [].

(** ** Webhooks *)

Definition _paddle_signature_matches (body secret : string) (timestamp : Z) (signature : string) : result bool :=
  compare_digest (hmac_sha256 secret (Z_str timestamp +:+ ":" +:+ body)) signature.

(** [dict(p.strip().split("=", 1) for p in re.split(r"[;,]", header) if "=" in p)]. *)
Definition paddle_parts (h : string) : list (string * string) :=
  foldl (fun parts p => let '(k, _, v) := partition "=" (strip p) in set_field k v parts) []
    (filter (fun p => contains "=" p = true) (split_on ";" (replace_char "," ";" h))).

(** The signature of a header that has one: [None] lets the request fall through
    to the final refusal. *)
Definition paddle_verify_webhook (raw : webhook_request) : M verified_webhook :=
  parsed ← parsed_body raw;
  let parts := paddle_parts (header "paddle-signature" raw) in
  match lookup_text "ts" parts, lookup_text "h1" parts with
  | Some ts_str, Some h1 =>
      if String.eqb ts_str "" || String.eqb h1 "" || String.eqb webhook_secret "" then rejected
      else match py_int ts_str with
      | None => rejected
      | Some ts =>
          t ← now;
          late ← lift (outside_tolerance t ts);
          if (late : bool) then rejected
          else
            matched ← lift (_paddle_signature_matches (wr_body raw) webhook_secret ts h1);
            if negb (matched : bool) then rejected
            else
              i ← lift (py_get "event_id" JNull parsed);
              event_id ← id_or_token "paddle_" i;
              event_type ← lift (py_get "event_type" (JStr "") parsed);
              verified event_id (str event_type) parsed
      end
  | _, _ => rejected
  end.

Definition paddle_types : list (string * string) :=
  [("transaction.completed", "checkout.completed"); ("subscription.activated", "subscription.activated");
   ("subscription.updated", "subscription.updated"); ("subscription.canceled", "subscription.canceled");
   ("subscription.past_due", "subscription.past_due")].

Definition paddle_translate_webhook (v : verified_webhook) : result (list raw_event) :=
  let event_type := vw_event_type v in
  data ← py_get "data" (JObj []) (JObj (vw_parsed v));
  match lookup_text event_type paddle_types with
  | None => Ok []
  | Some canonical =>
      custom ← py_get "custom_data" JNull data;
      customer ← py_get "customer_id" JNull data;
      subscription ← (if contains "subscription" event_type then py_get "id" JNull data
                      else py_get "subscription_id" JNull data);
      plan_key ← py_get "plan_key" JNull (jor custom (JObj []));
      status ← py_get "status" JNull data;
      totals ← py_get "totals" JNull data;
      amount ← (match totals with JObj _ => py_get "total" JNull totals | _ => Ok JNull end);
      c ← py_get "currency_code" JNull data; currency ← currency_code c;
      Ok [RawEvent canonical (vw_provider_event_id v) (vw_received_at v) customer subscription JNull plan_key status None
            amount currency JNull]
  end.
End Paddle.
