(* ===== verification/Xendit.v ===== *)
(** The Xendit provider (billing/providers/xendit_provider.py). *)

From Stdlib Require Import Ascii.
From S2P Require Import Prelude Text Json Errors Events Tables Store Dynamic Cache Session Fixtures.
From S2P Require Import Billing Providers.

Section Xendit.
Context `{Platform} (secret_key webhook_token api_base configured_currency : string).

(** [minor_units]: an amount in units as Xendit sends it, in hundredths. *)
Definition minor_units (amount : json) : result Z :=
  match decimal_of_str (str amount) with
  | None => Err (Domain BillingProviderError [])
  | Some d => hundredths_of d
  end.

Definition xendit_request (method path : string) (body : http_body) : M json :=
  response ← send (HttpRequest method (api_base +:+ path) body (Basic secret_key));
  if (400 <=? hs_status response)%Z then raise_domain BillingProviderError []
  else lift (response_json response).

Definition xendit_create_customer (req : create_customer_request) : M billing_customer_ref :=
  token ← (match cc_organization_id req with Some o => mret (uuid_str o) | None => token_hex end);
  result ← xendit_request "POST" "/customers"
    (JsonBody (JObj [("reference_id", JStr token); ("email", JStr (cc_email req)); ("given_names", jopt JStr (cc_name req))]));
  i ← lift (member "id" result ≫= reference);
  mret (BillingCustomerRef i (Some (cc_email req)) (cc_name req)).

Definition xendit_create_checkout (req : create_checkout_request) : M checkout_result :=
  token ← token_hex;
  result ← xendit_request "POST" "/invoices"
    (JsonBody (JObj
      [("external_id", JStr ("synapse_" +:+ ch_plan_key req +:+ "_" +:+ token));
       ("amount", JFloat (float_div (float_of_Z (ch_price_cents req)) (float_of_Z 100)));
       ("currency", JStr (ch_currency req));
       ("description", JStr (ch_plan_name req +:+ " (" +:+ ch_interval req +:+ "ly)")); ("payer_email", JNull);
       ("success_redirect_url", jopt JStr (ch_success_url req)); ("failure_redirect_url", jopt JStr (ch_cancel_url req))]));
  url ← lift (py_get "invoice_url" JNull result ≫= opt_reference);
  i ← lift (py_get "id" JNull result ≫= opt_reference);
  mret (CheckoutResult url "xendit" None i).

(** The framework's own scheduler bills these subscriptions: nothing is asked of
    Xendit. *)
Definition xendit_create_subscription : create_subscription_request -> M subscription_ref := scheduled_create_subscription "xenditsub_".
Definition xendit_change_plan : string -> change_plan_request -> M subscription_ref := scheduled_change_plan.
Definition xendit_cancel_subscription : string -> bool -> M subscription_ref := scheduled_cancel_subscription.
Definition xendit_get_subscription : string -> M subscription_ref := scheduled_get_subscription.

Definition xendit_invoice_ref (data : json) : result invoice_ref :=
  i ← py_get "id" (JStr "") data; number ← py_get "external_id" JNull data;
  s ← py_get "status" JNull data; a ← py_get "amount" (JInt 0) data; total ← minor_units a;
  currency ← py_get "currency" (JStr configured_currency) data; hosted ← py_get "invoice_url" JNull data;
  Ok (InvoiceRef i number (JStr (if bool_decide (s = JStr "PAID") then "paid" else "open")) (JInt total) currency hosted JNull None None).

Definition xendit_list_invoices (limit : Z) : M (list invoice_ref) :=
  result ← xendit_request "GET" ("/v2/invoices?limit=" +:+ Z_str limit) NoBody;
  lift (data ← py_get "data" (JList []) result; l ← items_of data; map_result xendit_invoice_ref l).

(** ** Webhooks *)

Definition xendit_verify_webhook (raw : webhook_request) : M verified_webhook :=
  if String.eqb webhook_token "" || negb (constant_time_equals (header "x-callback-token" raw) webhook_token) then rejected
  else
    parsed ← parsed_body raw;
    i ← lift (py_get "id" JNull parsed);
    event_id ← id_or_token "xendit_" i;
    event_type ← lift (py_get "status" (JStr "") parsed);
    verified event_id (str event_type) parsed.

Definition xendit_types : list (string * string) := [("PAID", "invoice.paid"); ("EXPIRED", "invoice.failed")].

(** When the invoice was created, if it says so in digits. *)
Definition xendit_occurred (received_at : instant) (created : json) : result instant :=
  if truthy created && py_isdigit (remove_char "-" (str created))
  then match py_int (str_take 10 (str created)) with
       | Some t => from_timestamp (JInt t)
       | None => Err (PyError "ValueError")
       end
  else Ok received_at.

Definition xendit_translate_webhook (v : verified_webhook) : result (list raw_event) :=
  let data := JObj (vw_parsed v) in
  match lookup_text (vw_event_type v) xendit_types with
  | None => Ok []
  | Some canonical =>
      a ← py_get "amount" JNull data;
      amount ← (match a with JNull => Ok JNull | _ => z ← minor_units a; Ok (JInt z) end);
      created ← py_get "created" JNull data; occurred ← xendit_occurred (vw_received_at v) created;
      invoice ← py_get "id" JNull data; customer ← py_get "customer_id" JNull data;
      currency ← py_get "currency" (JStr configured_currency) data; hosted ← py_get "invoice_url" JNull data;
      Ok [RawEvent canonical (vw_provider_event_id v) occurred customer JNull invoice JNull JNull None amount currency hosted]
  end.
End Xendit.
