(* ===== verification/PayMongo.v ===== *)
(** The PayMongo provider (billing/providers/paymongo_provider.py). *)

From Stdlib Require Import Ascii.
From S2P Require Import Prelude Text Json Errors Events Tables Store Dynamic Cache Session Fixtures.
From S2P Require Import Billing Providers.

Section PayMongo.
Context `{Platform} (secret_key webhook_secret api_base configured_currency : string).

Definition paymongo_request (method path : string) (body : json) : M json :=
  response ← send (HttpRequest method (api_base +:+ path) (JsonBody body) (Basic secret_key));
  if (400 <=? hs_status response)%Z then raise_domain BillingProviderError []
  else lift (response_json response).

(** PayMongo has no customers: a reference is minted. *)
Definition paymongo_create_customer (req : create_customer_request) : M billing_customer_ref :=
  t ← token_hex; mret (BillingCustomerRef ("paymongo_" +:+ t) (Some (cc_email req)) (cc_name req)).

Definition paymongo_create_checkout (req : create_checkout_request) : M checkout_result :=
  result ← paymongo_request "POST" "/checkout_sessions"
    (JObj [("data", JObj [("attributes", JObj
      [("line_items", JList [JObj [("name", JStr (ch_plan_name req)); ("amount", JInt (ch_price_cents req));
                                   ("currency", JStr (ch_currency req)); ("quantity", JInt 1)]]);
       ("metadata", JObj [("plan_key", JStr (ch_plan_key req)); ("org_id", opt_id (ch_organization_id req))])])])]);
  data ← lift (member "data" result); attributes ← lift (member "attributes" data);
  url ← lift (py_get "checkout_url" JNull attributes ≫= opt_reference);
  i ← lift (member "id" data ≫= reference);
  mret (CheckoutResult url "paymongo" None (Some i)).

(** The framework's own scheduler bills these subscriptions: nothing is asked of
    PayMongo. *)
Definition paymongo_create_subscription : create_subscription_request -> M subscription_ref := scheduled_create_subscription "paymongosub_".
Definition paymongo_change_plan : string -> change_plan_request -> M subscription_ref := scheduled_change_plan.
Definition paymongo_cancel_subscription : string -> bool -> M subscription_ref := scheduled_cancel_subscription.
Definition paymongo_get_subscription : string -> M subscription_ref := scheduled_get_subscription.
Definition paymongo_list_invoices (provider_customer_id : string) (limit : Z) : M (list invoice_ref) := mret [].

(** ** Webhooks *)

(** The loop over the header: the last timestamp and the last signature; a
    timestamp that is no number forgets the one before. *)
Fixpoint paymongo_parts (parts : list string) (timestamp : option Z) (signature : option string) :
    option Z * option string :=
  match parts with
  | [] => (timestamp, signature)
  | part :: parts =>
      let '(k, _, value) := partition "=" (strip part) in
      if String.eqb k "t" then paymongo_parts parts (py_int value) signature
      else if String.eqb k "v1" && negb (String.eqb value "") then paymongo_parts parts timestamp (Some value)
      else paymongo_parts parts timestamp signature
  end.

Definition paymongo_verify_webhook (raw : webhook_request) : M verified_webhook :=
  match paymongo_parts (split_on "," (header "paymongo-signature" raw)) None None with
  | (Some timestamp, Some signature) =>
      t ← now;
      late ← lift (outside_tolerance t timestamp);
      if late || negb (verify_signature (wr_body raw) webhook_secret timestamp signature) then rejected
      else
        parsed ← parsed_body raw;
        attributes ← lift (data ← py_get "data" (JObj []) parsed; py_get "attributes" (JObj []) data);
        i ← lift (py_get "id" JNull parsed);
        event_id ← id_or_token "paymongo_" i;
        inner ← lift (py_get "type" (JStr "") attributes);
        event_type ← lift (py_get "type" inner parsed);
        verified event_id (str event_type) parsed
  | _ => rejected
  end.

Definition paymongo_types : list (string * string) :=
  [("checkout_session.completed", "checkout.completed"); ("payment.paid", "invoice.paid"); ("payment.failed", "payment.failed")].

(** The first item with an amount. *)
Fixpoint first_amount (items : list json) : result json :=
  match items with
  | [] => Ok JNull
  | item :: items =>
      a ← py_get "amount" JNull item;
      if truthy a then Ok a else first_amount items
  end.

Definition paymongo_translate_webhook (v : verified_webhook) : result (list raw_event) :=
  data ← py_get "data" (JObj []) (JObj (vw_parsed v)); attributes ← py_get "attributes" (JObj []) data;
  match lookup_text (vw_event_type v) paymongo_types with
  | None => Ok []
  | Some canonical =>
      l ← py_get "line_items" JNull attributes; items ← items_of (jor l (JList []));
      from_items ← first_amount items;
      a ← py_get "amount" JNull attributes;
      let amount := if bool_decide (from_items = JNull) && truthy a then a else from_items in
      m ← py_get "metadata" JNull attributes;
      let metadata := jor m (JObj []) in
      plan_key ← py_get "plan_key" JNull metadata;
      currency ← py_get "currency" (JStr configured_currency) metadata;
      Ok [RawEvent canonical (vw_provider_event_id v) (vw_received_at v) JNull JNull JNull plan_key JNull None amount currency JNull]
  end.
End PayMongo.
