(* ===== verification/Hosted.v ===== *)
(** The providers together: the operations the registry hands to the billing
    service and the webhook ingestion, what a verified webhook is, and what the
    translations make of a provider's events. *)

From Stdlib Require Import Ascii.
From S2P Require Import Prelude Text Json Errors Events Tables Store Dynamic Cache Session Fixtures.
From S2P Require Import Interfaces Invoicing Subscriptions Billing BillingWebhooks.
From S2P Require Import Providers Stripe Paddle Xendit PayMongo.

(** What the settings give each provider. *)
Record provider_config : Type := ProviderConfig {
  pc_secret_key : string;
  pc_webhook_secret : string;   (* a token, for Xendit and the manual provider *)
  pc_api_base : string;
  pc_currency : string
}.

Definition not_supported {A} : M A := raise (PyError "NotImplementedError").
Definition typed (r : result (list raw_event)) : result (list normalized_billing_event) :=
  match r with Ok es => Ok (typed_event <$> es) | Err e => Err e end.

Section Hosted.
Context `{Platform} (config : provider_kind -> provider_config).

(** The manual provider keeps no subscriptions and no invoices of its own. *)
Definition manual_create_subscription : create_subscription_request -> M subscription_ref := scheduled_create_subscription "manualsub_".
Definition manual_cancel_subscription : string -> bool -> M subscription_ref := scheduled_cancel_subscription.
Definition manual_get_subscription : string -> M subscription_ref := scheduled_get_subscription.
Definition manual_list_invoices (provider_customer_id : string) (limit : Z) : M (list invoice_ref) := mret [].

(** The manual provider's check of its shared token. *)
Definition manual_verify_webhook (raw : webhook_request) : M verified_webhook :=
  let token := pc_webhook_secret (config Manual) in
  if String.eqb token "" || negb (constant_time_equals (header "x-manual-token" raw) token) then rejected
  else
    parsed ← parsed_body raw;
    i ← lift (py_get "id" JNull parsed);
    event_id ← id_or_token "manual_" i;
    event_type ← lift (py_get "type" (JStr "manual.event") parsed);
    verified event_id (str event_type) parsed.

Definition hosted_verify (k : provider_kind) : webhook_request -> M verified_webhook :=
  let c := config k in
  match k with
  | Manual => manual_verify_webhook
  | Stripe => stripe_verify_webhook (pc_webhook_secret c)
  | Paddle => paddle_verify_webhook (pc_webhook_secret c)
  | Xendit => xendit_verify_webhook (pc_webhook_secret c)
  | PayMongo => paymongo_verify_webhook (pc_webhook_secret c)
  end.

Definition hosted_ops (k : provider_kind) : provider_ops :=
  let c := config k in
  match k with
  | Manual => manual_ops manual_verify_webhook
  | Stripe => {|
      create_customer := stripe_create_customer (pc_secret_key c) (pc_api_base c);
      create_checkout := stripe_create_checkout (pc_secret_key c) (pc_api_base c);
      portal_url := stripe_portal_url (pc_secret_key c) (pc_api_base c);
      provider_change_plan := stripe_change_plan (pc_secret_key c) (pc_api_base c);
      verify_webhook := hosted_verify k;
      translate_webhook v := typed (stripe_translate_webhook v)
    |}
  | Paddle => {|
      create_customer := paddle_create_customer (pc_secret_key c) (pc_api_base c);
      create_checkout := paddle_create_checkout (pc_secret_key c) (pc_api_base c);
      portal_url _ _ := not_supported;
      provider_change_plan := paddle_change_plan;
      verify_webhook := hosted_verify k;
      translate_webhook v := typed (paddle_translate_webhook v)
    |}
  | Xendit => {|
      create_customer := xendit_create_customer (pc_secret_key c) (pc_api_base c);
      create_checkout := xendit_create_checkout (pc_secret_key c) (pc_api_base c);
      portal_url _ _ := not_supported;
      provider_change_plan := xendit_change_plan;
      verify_webhook := hosted_verify k;
      translate_webhook v := typed (xendit_translate_webhook (pc_currency c) v)
    |}
  | PayMongo => {|
      create_customer := paymongo_create_customer;
      create_checkout := paymongo_create_checkout (pc_secret_key c) (pc_api_base c);
      portal_url _ _ := not_supported;
      provider_change_plan := paymongo_change_plan;
      verify_webhook := hosted_verify k;
      translate_webhook v := typed (paymongo_translate_webhook (pc_currency c) v)
    |}
  end.

(** ** The providers satisfy the interface of the billing service *)

#[export] Instance outside_restorable : Restorable outside.
Proof. split; [apply _|]. intros w w' [Hf E]. split; [done|]. by rewrite E. Qed.

Lemma outside_fresh : Stable outside fresh_id.
Proof. intros w. split; [simpl; lia|done]. Qed.
Lemma outside_lift {A} (r : result A) : Stable outside (lift r).
Proof. intros w. destruct r; simpl; reflexivity. Qed.
Hint Resolve outside_fresh outside_lift : stable.

Context (send_outside : forall req, Stable outside (send req)).
Hint Resolve send_outside : stable.

Lemma outside_token : Stable outside token_hex.
Proof. unfold token_hex. solve_stable. Qed.
Hint Resolve outside_token : stable.
Lemma outside_id p x : Stable outside (id_or_token p x).
Proof. unfold id_or_token. solve_stable. Qed.
Lemma outside_parsed raw : Stable outside (parsed_body raw).
Proof. unfold parsed_body, rejected. solve_stable. Qed.
Lemma outside_verified i t j : Stable outside (verified i t j).
Proof. unfold verified. solve_stable. Qed.
Hint Resolve outside_id outside_parsed outside_verified : stable.

Lemma outside_verify k raw : Stable outside (hosted_verify k raw).
Proof.
  destruct k; unfold hosted_verify, manual_verify_webhook, stripe_verify_webhook, paddle_verify_webhook,
    xendit_verify_webhook, paymongo_verify_webhook, rejected; solve_stable.
Qed.

(** Every provider the registry builds keeps to the interface the billing service
    and the webhook ingestion are proved against: its calls reach nothing of ours
    but the supply of identifiers. *)
Theorem hosted_external k : External (hosted_ops k).
Proof.
  pose proof outside_verify as Hv. pose proof (fun b => outside_verify Manual b) as Hm.
  destruct k; [apply manual_external; exact Hm|..]; (split; [..|exact (Hv _)]); intros;
    unfold hosted_ops, create_customer, create_checkout, portal_url, provider_change_plan, stripe_create_customer,
      stripe_create_checkout, stripe_portal_url, stripe_change_plan, stripe_request, paddle_create_customer,
      paddle_create_checkout, paddle_request, xendit_create_customer, xendit_create_checkout, xendit_request,
      paymongo_create_customer, paymongo_create_checkout, paymongo_request, paddle_change_plan, xendit_change_plan, paymongo_change_plan,
      scheduled_change_plan, not_supported;
    solve_stable.
Qed.

(** ** What a verified webhook is *)

Definition in_tolerance (t : instant) (timestamp : Z) : Prop := (Z.abs (t - timestamp * SECOND) <= 300 * SECOND)%Z.
Definition signature_of (k : provider_kind) (raw : webhook_request) : option (Z * string) :=
  match k with
  | Stripe => _parse_stripe_signature (header "stripe-signature" raw)
  | PayMongo =>
      match paymongo_parts (split_on "," (header "paymongo-signature" raw)) None None with
      | (Some t, Some s) => Some (t, s) | _ => None end
  | Paddle =>
      let parts := paddle_parts (header "paddle-signature" raw) in
      t ← lookup_text "ts" parts; s ← lookup_text "h1" parts; ts ← py_int t; Some (ts, s)
  | Manual | Xendit => None
  end.

(** What the provider signs: the timestamp and the body. *)
Definition signed_text (k : provider_kind) (timestamp : Z) (body : string) : string :=
  match k with Paddle => Z_str timestamp +:+ ":" +:+ body | _ => Z_str timestamp +:+ "." +:+ body end.

Definition token_header (k : provider_kind) : string :=
  match k with Manual => "x-manual-token" | _ => "x-callback-token" end.

(** Authentic at [t]: the shared token, or a digest under the shared secret of a
    recent timestamp and the very bytes received.  Only some of the providers
    refuse an unset secret. *)
Definition authentic (k : provider_kind) (raw : webhook_request) (t : instant) : Prop :=
  let secret := pc_webhook_secret (config k) in
  match k with
  | Manual | Xendit => secret <> "" /\ header (token_header k) raw = secret
  | _ => exists timestamp signature, signature_of k raw = Some (timestamp, signature) /\ in_tolerance t timestamp /\
      signature = hmac_sha256 secret (signed_text k timestamp (wr_body raw)) /\
      (k = Paddle -> secret <> "" /\ signature <> "")
  end.

(** The one nested shape a verification looks into: in a PayMongo body [data] and
    [data.attributes] are objects, where they are present. *)
Definition shaped (k : provider_kind) (o : jobj) : Prop :=
  match k with
  | PayMongo => exists a, (data ← py_get "data" (JObj []) (JObj o); py_get "attributes" (JObj []) data) = Ok (JObj a)
  | _ => True
  end.

Definition clock_ok (w : world) : Prop := (Z.abs (w_clock w) <= (MAX_TIMESTAMP + 1) * SECOND)%Z.

Lemma tolerance_ok t ts b : outside_tolerance t ts = Ok b -> b = false <-> in_tolerance t ts.
Proof.
  unfold outside_tolerance, in_tolerance, WEBHOOK_TOLERANCE_SECONDS. destruct (_ <=? _)%Z; [done|].
  intros [= <-]. rewrite Z.ltb_ge. done.
Qed.

Lemma tolerance_in t ts : (Z.abs t <= (MAX_TIMESTAMP + 1) * SECOND)%Z -> in_tolerance t ts -> outside_tolerance t ts = Ok false.
Proof.
  intros Ht Hin. unfold in_tolerance in Hin. unfold outside_tolerance, WEBHOOK_TOLERANCE_SECONDS.
  rewrite (proj2 (Z.ltb_ge _ _)) by done. rewrite (proj2 (Z.leb_gt _ _)); [done|].
  assert (Hbig : (2 ^ 64 < 2 ^ 1024 - 2 ^ 970)%Z) by (vm_compute; reflexivity).
  unfold MAX_TIMESTAMP, SECOND in *. lia.
Qed.

Lemma verified_run i e parsed w v w' : verified i e parsed w = (Ok v, w') -> parsed = JObj (vw_parsed v) /\ vw_received_at v = w_clock w.
Proof. unfold verified. run. destruct parsed; try discriminate. by intros [= <- <-]. Qed.

Lemma parsed_run raw w j w' : parsed_body raw w = (Ok j, w') -> json_loads (wr_body raw) = Some j /\ w' = w.
Proof. unfold parsed_body. destruct (json_loads _); [by intros [= <- <-]|done]. Qed.

Lemma lift_run {A} (r : result A) w a w' : lift r w = (Ok a, w') -> r = Ok a /\ w' = w.
Proof. destruct r; [by intros [= <- <-]|done]. Qed.

Lemma id_clock p x w i w' : id_or_token p x w = (Ok i, w') -> w_clock w' = w_clock w.
Proof. intros E. destruct (outside_id p x w) as [_ Ho]. rewrite E in Ho. simpl in Ho. by rewrite Ho. Qed.

Lemma late_run {A} t ts (f : bool -> M A) w a w' :
  mbind f (lift (outside_tolerance t ts)) w = (Ok a, w') ->
  exists b, (b = false <-> in_tolerance t ts) /\ f b w = (Ok a, w').
Proof.
  intros E. apply bind_ok in E as (b & w1 & Hb & E). apply lift_run in Hb as [Hb ->]. exists b. split; [by apply tolerance_ok|done].
Qed.

Definition accepted (k : provider_kind) (raw : webhook_request) (w : world) (v : verified_webhook) : Prop :=
  authentic k raw (w_clock w) /\ json_loads (wr_body raw) = Some (JObj (vw_parsed v)) /\ vw_received_at v = w_clock w.

(** An accepted body has the shape too. *)
Lemma accepted_shaped k raw w v w' : hosted_verify k raw w = (Ok v, w') -> shaped k (vw_parsed v).
Proof.
  destruct k; try done. unfold hosted_verify, paymongo_verify_webhook.
  destruct (paymongo_parts _ _ _) as [[ts|] [sg|]]; try done. run. intros E. apply late_run in E as (b & _ & E).
  destruct (_ || _); [done|]. apply bind_ok in E as (j & w1 & _ & E). apply bind_ok in E as (a & w2 & Ha & E). apply lift_run in Ha as [Ha ->].
  apply bind_ok in E as (x & w3 & _ & E). apply bind_ok in E as (i & w4 & _ & E). apply bind_ok in E as (inner & w5 & Hin & E).
  apply lift_run in Hin as [Hin ->]. apply bind_ok in E as (ty & w6 & _ & E). apply verified_run in E as [-> _].
  destruct a; try discriminate. by eexists.
Qed.

Ltac inv_step E :=
  let a := fresh "a" in let w1 := fresh "w" in let H1 := fresh "H" in
  lazymatch type of E with mbind _ _ _ = _ => apply bind_ok in E as (a & w1 & H1 & E) end;
  first [ apply lift_run in H1 as [H1 ->] | apply parsed_run in H1 as [H1 ->] | apply id_clock in H1 | idtac ].

Lemma manual_accepted raw w v w' : hosted_verify Manual raw w = (Ok v, w') -> accepted Manual raw w v.
Proof.
  unfold hosted_verify, manual_verify_webhook, constant_time_equals. destruct (String.eqb_spec (pc_webhook_secret (config Manual)) ""); [done|].
  destruct (String.eqb_spec (header "x-manual-token" raw) (pc_webhook_secret (config Manual))); [|done]. cbn [orb negb].
  intros E. repeat inv_step E. apply verified_run in E as [-> Ht]. split_and!; [done|done|]. rewrite Ht. congruence.
Qed.

Lemma stripe_accepted raw w v w' : hosted_verify Stripe raw w = (Ok v, w') -> accepted Stripe raw w v.
Proof.
  unfold hosted_verify, stripe_verify_webhook, verify_signature, constant_time_equals.
  destruct (_parse_stripe_signature _) as [[ts sg]|] eqn:Es; [|done]. run. intros E. apply late_run in E as (b & Hb & E).
  destruct b; [done|]. cbn [orb] in E. destruct (String.eqb_spec (sign_payload (wr_body raw) (pc_webhook_secret (config Stripe)) ts) sg) as [Hsg|]; [|done].
  cbn [negb] in E. repeat inv_step E. apply verified_run in E as [-> Ht]. split_and!; [|done|done].
  exists ts, sg. split_and!; [done|by apply Hb|by symmetry|done].
Qed.

Lemma paymongo_accepted raw w v w' : hosted_verify PayMongo raw w = (Ok v, w') -> accepted PayMongo raw w v.
Proof.
  unfold hosted_verify, paymongo_verify_webhook, verify_signature, constant_time_equals.
  destruct (paymongo_parts _ _ _) as [[ts|] [sg|]] eqn:Es; try done. run. intros E. apply late_run in E as (b & Hb & E).
  destruct b; [done|]. cbn [orb] in E. destruct (String.eqb_spec (sign_payload (wr_body raw) (pc_webhook_secret (config PayMongo)) ts) sg) as [Hsg|]; [|done].
  cbn [negb] in E. repeat inv_step E. apply verified_run in E as [-> Ht]. split_and!; [|done|congruence].
  exists ts, sg. unfold signature_of. rewrite Es. split_and!; [done|by apply Hb|by symmetry|done].
Qed.

Lemma paddle_accepted raw w v w' : hosted_verify Paddle raw w = (Ok v, w') -> accepted Paddle raw w v.
Proof.
  unfold hosted_verify, paddle_verify_webhook, _paddle_signature_matches, compare_digest. intros E. inv_step E.
  destruct (lookup_text "ts" _) as [t|] eqn:Et; [|done]. destruct (lookup_text "h1" _) as [sg|] eqn:Es; [|done].
  destruct (String.eqb_spec t ""); [done|]. destruct (String.eqb_spec sg ""); [done|].
  destruct (String.eqb_spec (pc_webhook_secret (config Paddle)) ""); [done|]. cbn [orb] in E.
  destruct (py_int t) as [ts|] eqn:Ets; [|done]. revert E. run. intros E. apply late_run in E as (b & Hb & E). destruct b; [done|].
  inv_step E. destruct (is_ascii _ && is_ascii sg); [|done]. injection H1 as <-.
  destruct (String.eqb_spec (hmac_sha256 (pc_webhook_secret (config Paddle)) (Z_str ts +:+ ":" +:+ wr_body raw)) sg) as [Hsg|]; [|done].
  cbn [negb] in E. repeat inv_step E. apply verified_run in E as [-> Ht]. split_and!; [|done|congruence].
  exists ts, sg. unfold signature_of. rewrite Et, Es. cbn. rewrite Ets. split_and!; [done|by apply Hb|by symmetry|done].
Qed.

Lemma xendit_accepted raw w v w' : hosted_verify Xendit raw w = (Ok v, w') -> accepted Xendit raw w v.
Proof.
  unfold hosted_verify, xendit_verify_webhook, constant_time_equals. destruct (String.eqb_spec (pc_webhook_secret (config Xendit)) ""); [done|].
  destruct (String.eqb_spec (header "x-callback-token" raw) (pc_webhook_secret (config Xendit))); [|done]. cbn [orb negb].
  intros E. repeat inv_step E. apply verified_run in E as [-> Ht]. split_and!; [done|done|]. rewrite Ht. congruence.
Qed.

(** *** Everything authentic is accepted *)

Lemma id_total p x w : exists i w', id_or_token p x w = (Ok i, w').
Proof. unfold id_or_token, token_hex. destruct (truthy x); [by do 2 eexists|]. run. by do 2 eexists. Qed.

Lemma lift_ok {A B} (a : A) (f : A -> M B) w : mbind f (lift (Ok a)) w = f a w.
Proof. reflexivity. Qed.

(** The reading of the identifier and the end of every verification. *)
Lemma finish_total p x t o w : exists v w', (i ← id_or_token p x; ty ← lift (Ok t); verified i (str ty) (JObj o)) w = (Ok v, w').
Proof.
  destruct (id_total p x w) as (i & w1 & E). rewrite (run_ok _ _ _ _ _ E). do 2 eexists. rewrite lift_ok. unfold verified. run. reflexivity.
Qed.

Context (hex_digest : forall key message, is_ascii (hmac_sha256 key message) = true).

Lemma authentic_accepted k raw w o : clock_ok w -> authentic k raw (w_clock w) -> json_loads (wr_body raw) = Some (JObj o) ->
  shaped k o -> exists v w', hosted_verify k raw w = (Ok v, w').
Proof.
  intros Hclk Ha Hj Hs.
  assert (Hp : parsed_body raw w = (Ok (JObj o), w)) by (unfold parsed_body; by rewrite Hj).
  destruct k; unfold hosted_verify; cbn [authentic] in Ha.
  - destruct Ha as [Hne E]. unfold manual_verify_webhook. cbn [token_header] in E.
    rewrite E, (proj2 (String.eqb_neq _ _) Hne). unfold constant_time_equals. rewrite String.eqb_refl. cbn [orb negb].
    rewrite (run_ok _ _ _ _ _ Hp). cbn [py_get]. rewrite lift_ok. apply finish_total.
  - destruct Ha as (ts & sg & Hsg & Htol & E & _). unfold stripe_verify_webhook. cbn [signature_of] in Hsg. rewrite Hsg. run.
    rewrite (tolerance_in _ _ Hclk Htol). rewrite lift_ok. unfold verify_signature, constant_time_equals, sign_payload.
    cbn [signed_text] in E. rewrite <- E, String.eqb_refl. cbn [orb negb]. rewrite (run_ok _ _ _ _ _ Hp). cbn [py_get].
    do 2 eexists. rewrite !lift_ok. unfold verified. run. reflexivity.
  - destruct Ha as (ts & sg & Hsg & Htol & E & Hne). destruct (Hne eq_refl) as [Hsec Hsne]. unfold paddle_verify_webhook.
    rewrite (run_ok _ _ _ _ _ Hp). unfold signature_of in Hsg. cbv zeta in Hsg.
    destruct (lookup_text "ts" _) as [t|] eqn:Et; [|done]. destruct (lookup_text "h1" _) as [s|] eqn:Es; [|done]. cbn in Hsg.
    destruct (py_int t) as [t'|] eqn:Eint; [|done]. injection Hsg as -> ->.
    rewrite (proj2 (String.eqb_neq sg "") Hsne), (proj2 (String.eqb_neq _ "") Hsec).
    rewrite (proj2 (String.eqb_neq t "")) by (intros ->; discriminate). cbn [orb]. run.
    rewrite (tolerance_in _ _ Hclk Htol). rewrite lift_ok. cbn [signed_text] in E.
    unfold _paddle_signature_matches, compare_digest. rewrite <- E, String.eqb_refl.
    assert (is_ascii sg = true) as -> by (rewrite E; apply hex_digest). cbn [andb]. rewrite lift_ok. cbn [negb py_get].
    rewrite lift_ok. apply finish_total.
  - destruct Ha as [Hne E]. unfold xendit_verify_webhook. cbn [token_header] in E.
    rewrite E, (proj2 (String.eqb_neq _ _) Hne). unfold constant_time_equals. rewrite String.eqb_refl. cbn [orb negb].
    rewrite (run_ok _ _ _ _ _ Hp). cbn [py_get]. rewrite lift_ok. apply finish_total.
  - destruct Ha as (ts & sg & Hsg & Htol & E & _). destruct Hs as (a & Hat'). unfold paymongo_verify_webhook. unfold signature_of in Hsg.
    destruct (paymongo_parts _ _ _) as [[t|] [s|]]; try done. injection Hsg as -> ->. run.
    rewrite (tolerance_in _ _ Hclk Htol). rewrite lift_ok. unfold verify_signature, constant_time_equals, sign_payload.
    cbn [signed_text] in E. rewrite <- E, String.eqb_refl. cbn [orb negb]. rewrite (run_ok _ _ _ _ _ Hp).
    rewrite Hat', lift_ok. cbn [py_get]. rewrite lift_ok.
    destruct (id_total "paymongo_" (default JNull (jget "id" o)) w) as (i & w1 & Ei). rewrite (run_ok _ _ _ _ _ Ei).
    do 2 eexists. rewrite !lift_ok. unfold verified. run. reflexivity.
Qed.

(** C23: a webhook is accepted exactly when it is authentic and readable.  Authentic: a
    timestamp within the tolerance and the very bytes received carry the digest under
    the shared secret, for Stripe as the first of the header's v1 signatures, or the
    request carries the configured token.  Readable: the body decodes to an object,
    whose [data] and [data.attributes] are objects where PayMongo sends them.  What is
    accepted is that body, received now. *)
Theorem verified_exactly_authentic k raw w : clock_ok w ->
  ((exists v w', hosted_verify k raw w = (Ok v, w')) <->
   (authentic k raw (w_clock w) /\ exists o, json_loads (wr_body raw) = Some (JObj o) /\ shaped k o)) /\
  (forall v w', hosted_verify k raw w = (Ok v, w') -> accepted k raw w v).
Proof.
  intros Hclk. assert (H' : forall v w', hosted_verify k raw w = (Ok v, w') -> accepted k raw w v).
  { intros v w' E. destruct k; [eapply manual_accepted|eapply stripe_accepted|eapply paddle_accepted|eapply xendit_accepted|
      eapply paymongo_accepted]; exact E. }
  split; [|done]. split.
  - intros (v & w' & E). destruct (H' v w' E) as (Ha & Hj & _). split; [done|]. exists (vw_parsed v). split; [done|]. by eapply accepted_shaped.
  - intros (Ha & o & Hj & Hs). exact (authentic_accepted k raw w o Hclk Ha Hj Hs).
Qed.

(** Without a configured secret Paddle, Xendit and the manual provider refuse every
    webhook; Stripe and PayMongo accept any body whose sender signs it, recently,
    with the empty key. *)
Theorem unset_secret k raw w : clock_ok w -> pc_webhook_secret (config k) = "" ->
  match k with
  | Manual | Paddle | Xendit => forall v w', hosted_verify k raw w <> (Ok v, w')
  | Stripe | PayMongo => forall o ts,
      signature_of k raw = Some (ts, hmac_sha256 "" (Z_str ts +:+ "." +:+ wr_body raw)) -> in_tolerance (w_clock w) ts ->
      json_loads (wr_body raw) = Some (JObj o) -> shaped k o -> exists v w', hosted_verify k raw w = (Ok v, w')
  end.
Proof.
  intros Hclk Hsec. destruct k.
  - intros v w' E. apply manual_accepted in E as ((Hne & _) & _). done.
  - intros o ts Hsg Htol Hj Hs. apply (authentic_accepted Stripe raw w o Hclk); [|done|done]. exists ts. eexists.
    split_and!; [exact Hsg|done|by rewrite Hsec|done].
  - intros v w' E. apply paddle_accepted in E as ((? & ? & _ & _ & _ & Hne) & _). by destruct (Hne eq_refl).
  - intros v w' E. apply xendit_accepted in E as ((Hne & _) & _). done.
  - intros o ts Hsg Htol Hj Hs. apply (authentic_accepted PayMongo raw w o Hclk); [|done|done]. exists ts. eexists.
    split_and!; [exact Hsg|done|by rewrite Hsec|done].
Qed.
End Hosted.

(** ** Witnesses *)

(** A platform on which two bodies decode and one secret signs. *)
Definition bench_loads (s : string) : option json :=
  if String.eqb s "{}" then Some (JObj [])
  else if String.eqb s "paid" then
    Some (JObj [("id", JStr "inv-1"); ("amount", JStr "199.99"); ("data", JObj [("attributes", JObj [("type", JStr "payment.paid")])]);
                ("status", JStr "PAID")])
  else None.
Definition bench_send (_ : http_request) : M http_response := mret (HttpResponse 200 "{}").
Definition bench : Platform := {|
  repr _ := "199.99";
  json_loads := bench_loads;
  hmac_sha256 key _ := if String.eqb key "" then "00" else "5e";
  send := bench_send
|}.
#[local] Existing Instance bench.
Definition bench_config (k : provider_kind) : provider_config :=
  ProviderConfig "sk" (match k with PayMongo => "" | _ => "whsec" end) "https://api" "PHP".
Definition request_with (name value body : string) : webhook_request := WebhookRequest [(name, value)] body.
Definition signed_request : webhook_request := request_with "stripe-signature" "t=1728043200,v1=5e" "{}".
Definition unsigned_request : webhook_request := request_with "paymongo-signature" "t=1728043200,v1=00" "paid".

Lemma bench_send_outside req : Stable outside (bench_send req).
Proof. intros w. reflexivity. Qed.
Lemma bench_hex key message : is_ascii (hmac_sha256 key message) = true.
Proof. simpl. by destruct (String.eqb key ""). Qed.
Lemma demo_clock : clock_ok demo.
Proof. vm_compute. discriminate. Qed.

Lemma hosted_external_witness : External (hosted_ops bench_config Stripe).
Proof. exact (hosted_external bench_config bench_send_outside Stripe). Defined.

Lemma verified_exactly_authentic_witness :
  exists v w', hosted_verify bench_config Stripe signed_request demo = (Ok v, w') /\ vw_parsed v = [].
Proof.
  destruct (verified_exactly_authentic bench_config bench_hex Stripe signed_request demo demo_clock) as [[_ H] H'].
  destruct H as (v & w' & E).
  - split; [|exists []; by split]. exists 1728043200%Z, "5e". split_and!; [reflexivity|vm_compute; discriminate|reflexivity|discriminate].
  - exists v, w'. split; [exact E|]. destruct (H' v w' E) as (_ & [= Hj] & _). exact (eq_sym Hj).
Defined.

Lemma unset_secret_witness : exists v w', hosted_verify bench_config PayMongo unsigned_request demo = (Ok v, w').
Proof.
  eapply (unset_secret bench_config bench_hex PayMongo unsigned_request demo demo_clock eq_refl);
    [reflexivity|vm_compute; discriminate|reflexivity|eexists; reflexivity].
Defined.
