(* ===== verification/Translations.v ===== *)
(** What the translations make of the providers' events: the vocabulary, the
    statuses, the amounts, the references; and the signature header. *)

From Stdlib Require Import Ascii.
From S2P Require Import Prelude Text Ids Json Errors Events Tables Store Dynamic Cache Session Fixtures.
From S2P Require Import Interfaces Invoicing Subscriptions Billing BillingWebhooks.
From S2P Require Import Providers Stripe Paddle Xendit PayMongo Hosted.

(** ** The vocabulary *)

Definition vocabulary : list string :=
  ["customer.created"; "subscription.created"; "subscription.activated"; "subscription.updated"; "subscription.canceled";
   "subscription.past_due"; "subscription.trial_ended"; "invoice.created"; "invoice.paid"; "invoice.failed";
   "checkout.completed"; "payment.failed"].

(** The event types a provider's translation knows. *)
Definition types_of (k : provider_kind) : list (string * string) :=
  match k with
  | Manual => [("manual.subscription.activated", "subscription.activated");
               ("manual.subscription.canceled", "subscription.canceled"); ("manual.invoice.paid", "invoice.paid")]
  | Stripe => stripe_types | Paddle => paddle_types | Xendit => xendit_types | PayMongo => paymongo_types
  end.

Lemma lookup_text_in s l x : lookup_text s l = Some x -> (s, x) ∈ l.
Proof.
  unfold lookup_text. intros H. destruct (filter _ l) as [|[a b] r] eqn:E; [done|]. injection H as <-.
  assert (Hin : (a, b) ∈ filter (fun e : string * string => e.1 = s) l) by (rewrite E; left).
  apply list_elem_of_filter in Hin as [Ha Hin]. simpl in Ha. by subst.
Qed.

Lemma lookup_text_none s l : lookup_text s l = None -> s ∉ l.*1.
Proof.
  unfold lookup_text. intros H ([a b] & -> & Hin)%list_elem_of_fmap.
  destruct (filter _ l) eqn:E; [|done]. by apply (filter_nil_not_elem_of _ _ (a, b) E).
Qed.

Lemma types_vocabulary k s x : lookup_text s (types_of k) = Some x -> x ∈ vocabulary.
Proof.
  intros H%lookup_text_in. assert (Hall : Forall (fun e : string * string => e.2 ∈ vocabulary) (types_of k))
    by (destruct k; apply (bool_decide_unpack _); vm_compute; exact I).
  rewrite Forall_forall in Hall. exact (Hall _ H).
Qed.

Section Translations.
Context `{Platform} (config : provider_kind -> provider_config).

Ltac inv_result E :=
  repeat match type of E with
  | mbind _ ?r = Ok _ => let x := fresh "x" in let Hx := fresh "Hx" in destruct r as [x|] eqn:Hx; [simpl in E|discriminate]
  end.

(** A hosted provider's translation: nothing, or one event of a known type. *)
Lemma raw_one k v rs : k <> Manual ->
  match k with
  | Stripe => stripe_translate_webhook v | Paddle => paddle_translate_webhook v
  | Xendit => xendit_translate_webhook (pc_currency (config k)) v | PayMongo => paymongo_translate_webhook (pc_currency (config k)) v
  | Manual => Ok []
  end = Ok rs ->
  match lookup_text (vw_event_type v) (types_of k) with
  | None => rs = []
  | Some x => exists e, rs = [e] /\ re_event_type e = x /\ re_provider_event_id e = vw_provider_event_id v
  end.
Proof.
  intros Hk. destruct k; [done|..]; cbn [types_of]; intros E;
    unfold stripe_translate_webhook, paddle_translate_webhook, xendit_translate_webhook, paymongo_translate_webhook in E; cbv zeta in E;
    destruct (lookup_text (vw_event_type v) _); inv_result E; injection E as <-; (by eexists) || done.
Qed.

(** A hosted provider's translation gives nothing for the types it does not know and
    exactly one event for each it does: the canonical type the vocabulary has for
    it, under the provider's own event identifier. *)
Theorem translation_understood k v es : k <> Manual -> translate_webhook (hosted_ops config k) v = Ok es ->
  match lookup_text (vw_event_type v) (types_of k) with
  | None => es = []
  | Some x => x ∈ vocabulary /\ exists e, es = [e] /\ ne_event_type e = x /\ ne_provider_event_id e = vw_provider_event_id v
  end.
Proof.
  intros Hk E. assert (Hr : exists rs, es = typed_event <$> rs /\ match k with
    | Stripe => stripe_translate_webhook v | Paddle => paddle_translate_webhook v
    | Xendit => xendit_translate_webhook (pc_currency (config k)) v | PayMongo => paymongo_translate_webhook (pc_currency (config k)) v
    | Manual => Ok []
    end = Ok rs).
  { destruct k; [done|..]; cbn [hosted_ops translate_webhook] in E; unfold typed in E;
      match type of E with match ?r with _ => _ end = _ => destruct r as [rs|]; [|discriminate] end;
      injection E as <-; by exists rs. }
  destruct Hr as (rs & -> & Hr). pose proof (raw_one k v rs Hk Hr) as H'.
  destruct (lookup_text _ _) as [x|] eqn:Ex; [|by rewrite H'].
  split; [by apply (types_vocabulary k (vw_event_type v))|]. destruct H' as (e & -> & He & Hi). by exists (typed_event e).
Qed.

(** ** References *)

(** An event without references concerns no organization: applying it does nothing. *)
Lemma unreferenced_event ops exn_str name e w : constraints_ok (w_db w) ->
  ne_provider_customer_id e = None -> ne_provider_subscription_id e = None -> apply_one ops exn_str name e w = (Ok None, w).
Proof.
  intros Hc Hcu Hsu.
  assert (Ha : _apply ops name e w = (Ok tt, w)).
  { unfold _apply, org_for_provider_ref. rewrite Hcu, Hsu. run.
    rewrite (proj2 (rows_where_nil Tbilling_customers _ _)) by done. rewrite (proj2 (rows_where_nil Tsubscriptions _ _)) by done. done. }
  unfold apply_one, try_catch. unfold mbind, M_bind. by rewrite (savepoint_ok _ _ _ _ Ha Hc).
Qed.

Lemma paymongo_unreferenced c v rs e : paymongo_translate_webhook c v = Ok rs -> e ∈ rs ->
  re_provider_customer_id e = JNull /\ re_provider_subscription_id e = JNull.
Proof.
  unfold paymongo_translate_webhook. intros E He. cbv zeta in E.
  destruct (lookup_text (vw_event_type v) _); inv_result E; injection E as <-; [|by apply elem_of_nil in He].
  by apply list_elem_of_singleton in He as ->.
Qed.

(** No PayMongo webhook does anything: its events carry no customer and no
    subscription, so no organization is found for them; they are counted as applied
    and every table stays as it is. *)
Theorem paymongo_webhooks_change_nothing ops exn_str v es w : constraints_ok (w_db w) ->
  translate_webhook (hosted_ops config PayMongo) v = Ok es ->
  apply_events ops exn_str "paymongo" es w = (Ok (Z.of_nat (length es), []), w).
Proof.
  intros Hc E. cbn [hosted_ops translate_webhook] in E. unfold typed in E.
  destruct (paymongo_translate_webhook _ v) as [rs|] eqn:Er; [|discriminate]. injection E as <-.
  assert (Hall : forall e, e ∈ rs -> re_provider_customer_id e = JNull /\ re_provider_subscription_id e = JNull)
    by (intros e He; exact (paymongo_unreferenced _ v rs e Er He)).
  clear Er. induction rs as [|e rs IH]; [done|]. rewrite fmap_cons. cbn [apply_events].
  destruct (Hall e ltac:(left)) as [Hcu Hsu].
  rewrite (run_ok _ _ _ _ _ (unreferenced_event ops exn_str "paymongo" (typed_event e) w Hc
    ltac:(simpl; by rewrite Hcu) ltac:(simpl; by rewrite Hsu))).
  rewrite (run_ok _ _ _ _ _ (IH ltac:(intros x Hx; apply Hall; by right))). run.
  unfold mret, M_ret. do 3 f_equal. cbn [length]. lia.
Qed.

(** ** Statuses *)

(** What a Stripe subscription update does to the organization it concerns: the
    status Stripe reports, if it is one the translation lists; any other, [paused]
    or [incomplete_expired], makes the subscription active. *)
Theorem stripe_status_applied ops v es e data inner s org : vw_event_type v = "customer.subscription.updated" ->
  jget "data" (vw_parsed v) = Some (JObj data) -> jget "object" data = Some (JObj inner) -> jget "status" inner = Some (JStr s) ->
  translate_webhook (hosted_ops config Stripe) v = Ok es -> e ∈ es ->
  apply_event ops "stripe" org e = _apply_status org e (if bool_decide (s ∈ stripe_statuses.*1) then s else "active").
Proof.
  intros Ht Hd Ho Hs E He. cbn [hosted_ops translate_webhook] in E. unfold typed in E.
  destruct (stripe_translate_webhook v) as [rs|] eqn:Er; [|discriminate]. injection E as <-.
  unfold stripe_translate_webhook in Er. cbv zeta in Er. rewrite Ht in Er.
  change (lookup_text "customer.subscription.updated" stripe_types) with (Some "subscription.updated") in Er.
  cbn [py_get] in Er. rewrite Hd in Er. cbn in Er. rewrite Ho in Er. cbn in Er. rewrite Hs in Er. cbn [default map_get] in Er.
  inv_result Er. injection Er as <-. apply list_elem_of_singleton in He as ->.
  unfold apply_event. cbn [typed_event ne_event_type re_event_type ne_status re_status]. simpl. f_equal.
  unfold text_of. destruct (lookup_text s stripe_statuses) as [y|] eqn:El; simpl.
  - apply lookup_text_in in El. assert (Hall : Forall (fun e : string * string => e.2 = e.1 /\ e.1 <> "") stripe_statuses)
      by (apply (bool_decide_unpack _); vm_compute; exact I).
    rewrite Forall_forall in Hall. destruct (Hall _ El) as [E2 Hne]. simpl in E2, Hne. subst y. simpl. rewrite (proj2 (String.eqb_neq _ _) Hne).
    rewrite bool_decide_eq_true_2; [done|]. apply (list_elem_of_fmap_2 fst) in El. exact El.
  - rewrite bool_decide_eq_false_2; [done|]. exact (lookup_text_none s stripe_statuses El).
Qed.

(** ** Amounts *)

Lemma minor_units_money a cents : (0 <= cents < 10 ^ 26)%Z -> str a = money_text cents -> minor_units a = Ok cents.
Proof. intros Hc Ha. unfold minor_units. rewrite Ha, (decimal_of_money cents Hc). by apply hundredths_of_money. Qed.

(** A Xendit invoice callback whose amount reads, as a text or as a number does in
    Python, [units.hh] gives exactly that many hundredths, whatever the amount: no
    arithmetic on floats comes between. *)
Theorem xendit_amount_exact v es e a cents : vw_event_type v = "PAID" \/ vw_event_type v = "EXPIRED" -> (0 <= cents < 10 ^ 26)%Z ->
  jget "amount" (vw_parsed v) = Some a -> a <> JNull -> str a = money_text cents ->
  translate_webhook (hosted_ops config Xendit) v = Ok es -> e ∈ es -> ne_amount_cents e = Some cents.
Proof.
  intros Ht Hc Ha Hn Hm E He. cbn [hosted_ops translate_webhook] in E. unfold typed in E.
  destruct (xendit_translate_webhook _ v) as [rs|] eqn:Er; [|discriminate]. injection E as <-.
  unfold xendit_translate_webhook in Er. cbv zeta in Er.
  destruct (lookup_text (vw_event_type v) xendit_types) as [x|]; [|injection Er as <-; by apply elem_of_nil in He].
  cbn [py_get] in Er. rewrite Ha in Er. simpl in Er. pose proof (minor_units_money a cents Hc Hm) as Hu.
  destruct a; try done; simpl in Er, Hu; rewrite Hu in Er; simpl in Er; inv_result Er; injection Er as <-;
  by apply list_elem_of_singleton in He as ->.
Qed.
End Translations.

(** ** The signature header *)

(** The characters of a hexadecimal digest. *)
Definition is_hex (c : ascii) : bool := is_digit c || (let n := nat_of_ascii c in (97 <=? n) && (n <=? 102)).

(** [t=<timestamp>,v1=<signature>], and one more signature. *)
Definition signature_header (timestamp : Z) (signature : string) : string := "t=" +:+ Z_str timestamp +:+ ",v1=" +:+ signature.

Lemma hex_none (P : ascii -> Prop) s : (forall c, is_hex c = true -> P c) -> all_chars is_hex s = true -> string_Forall P s.
Proof.
  intros HP. induction s as [|c s IH]; [done|]. simpl. intros [Hc Hs]%andb_true_iff. split; [by apply HP|by apply IH].
Qed.

Lemma is_hex_range c : is_hex c = true -> (48 <= nat_of_ascii c <= 57 \/ 97 <= nat_of_ascii c <= 102).
Proof.
  unfold is_hex, is_digit. intros [H%andb_true_iff|H%andb_true_iff]%orb_true_iff; rewrite !Nat.leb_le in H; lia.
Qed.

Lemma hex_is_not (n : nat) c : is_hex c = true -> (n < 48)%nat -> c <> ascii_of_nat n.
Proof. intros Hc Hn ->. apply is_hex_range in Hc. rewrite nat_ascii_embedding in Hc by lia. lia. Qed.

Lemma digits_hex s : string_Forall (.∈ digit_chars) s -> string_Forall (.≠ ","%char) s /\ string_Forall (fun c => is_space c = false) s.
Proof.
  intros H. assert (Hall : Forall (fun c => c <> ","%char /\ is_space c = false) digit_chars) by (repeat constructor; done).
  rewrite Forall_forall in Hall. split; (eapply string_Forall_impl; [|exact H]); intros c Hc; by apply Hall.
Qed.

Lemma hex_no_space c : is_hex c = true -> is_space c = false.
Proof.
  intros H%is_hex_range. unfold is_space. rewrite !orb_false_iff, !andb_false_iff, !Nat.leb_gt, Nat.eqb_neq. lia.
Qed.

Section Header.
Context (t : Z) (Ht : (0 <= t)%Z) (Hc : (count_digits (Z_str t) <= INT_MAX_STR_DIGITS)%Z).

(** The parts of a header, and what each is. *)
Lemma header_parts s : all_chars is_hex s = true ->
  split_on "," (signature_header t s) = ["t=" +:+ Z_str t; "v1=" +:+ s] /\
  strip ("t=" +:+ Z_str t) = "t=" +:+ Z_str t /\ strip ("v1=" +:+ s) = "v1=" +:+ s.
Proof.
  intros Hs. destruct (digits_hex _ (proj1 (Z_str_digits t))) as [Hd1 Hd2].
  assert (Hs1 : string_Forall (.≠ ","%char) s) by (eapply hex_none; [|exact Hs]; intros c H; exact (hex_is_not 44 c H ltac:(lia))).
  assert (Hs2 : string_Forall (fun c => is_space c = false) s) by (eapply hex_none; [|exact Hs]; apply hex_no_space).
  split_and!.
  - unfold signature_header. change ("t=" +:+ Z_str t +:+ ",v1=" +:+ s) with ("t=" +:+ (Z_str t +:+ String "," ("v1=" +:+ s))).
    rewrite <- string_app_assoc, split_on_app, !split_on_none.
    + done.
    + rewrite string_Forall_app. split; [repeat split; discriminate|exact Hs1].
    + rewrite string_Forall_app. split; [repeat split; discriminate|exact Hd1].
  - apply (strip_by_none is_space). rewrite string_Forall_app. split; [repeat split|done].
  - apply (strip_by_none is_space). rewrite string_Forall_app. split; [repeat split|done].
Qed.

(** A header that carries two signatures, as while a secret is rotated: Stripe's
    reading keeps the first of them, PayMongo's the last; a single signature is read
    alike by both. *)
Theorem signature_header_read s s' : s <> "" -> s' <> "" -> all_chars is_hex s = true -> all_chars is_hex s' = true ->
  _parse_stripe_signature (signature_header t s) = Some (t, s) /\
  _parse_stripe_signature (signature_header t s +:+ ",v1=" +:+ s') = Some (t, s) /\
  paymongo_parts (split_on "," (signature_header t s)) None None = (Some t, Some s) /\
  paymongo_parts (split_on "," (signature_header t s +:+ ",v1=" +:+ s')) None None = (Some t, Some s').
Proof.
  intros Hs Hs' Hh Hh'. destruct (header_parts s Hh) as (E1 & E2 & E3), (header_parts s' Hh') as (F1 & _ & F3).
  assert (E4 : split_on "," (signature_header t s +:+ ",v1=" +:+ s') = ["t=" +:+ Z_str t; "v1=" +:+ s; "v1=" +:+ s']).
  { change (",v1=" +:+ s') with (String "," ("v1=" +:+ s')). rewrite split_on_app, E1. simpl. do 3 f_equal.
    assert (H : split_on "," (signature_header t s') = ["t=" +:+ Z_str t] ++ split_on "," ("v1=" +:+ s')).
    { unfold signature_header. change ("t=" +:+ Z_str t +:+ ",v1=" +:+ s') with ("t=" +:+ (Z_str t +:+ String "," ("v1=" +:+ s'))).
      rewrite <- string_app_assoc, split_on_app, (split_on_none "," ("t=" +:+ Z_str t)); [done|].
      rewrite string_Forall_app. split; [repeat split; discriminate|]. apply digits_hex, Z_str_digits. }
    rewrite F1 in H. by injection H as <-. }
  pose proof (py_int_Z_str t Ht Hc) as Hi.
  assert (P1 : partition "=" ("t=" +:+ Z_str t) = ("t", true, Z_str t)) by reflexivity.
  assert (P2 : forall x, partition "=" ("v1=" +:+ x) = ("v1", true, x)) by reflexivity.
  unfold _parse_stripe_signature. rewrite E4, E1. cbn [stripe_parts paymongo_parts].
  rewrite !E2, !E3, !F3, !P1, !P2. cbn [String.eqb Ascii.eqb Bool.eqb andb]. rewrite !Hi.
  rewrite (proj2 (String.eqb_neq s "") Hs), (proj2 (String.eqb_neq s' "") Hs'). done.
Qed.
End Header.

(** ** Witnesses *)

#[local] Existing Instance bench.

Definition paid_invoice : verified_webhook :=
  VerifiedWebhook "evt_1" "PAID" [("id", JStr "inv-1"); ("amount", JStr "199.99"); ("customer_id", JStr "cus-1")] NOW.
Definition paid_checkout : verified_webhook :=
  VerifiedWebhook "evt_2" "payment.paid"
    [("data", JObj [("attributes", JObj [("amount", JInt 19999); ("created_at", JInt 1728043200)])])] NOW.
Definition paused_object : jobj := [("id", JStr "sub_1"); ("customer", JStr "cus_1"); ("status", JStr "paused")].
Definition paused_subscription : verified_webhook :=
  VerifiedWebhook "evt_3" "customer.subscription.updated"
    [("created", JInt 1728043200); ("data", JObj [("object", JObj paused_object)])] NOW.

Definition paid_events := match translate_webhook (hosted_ops bench_config Xendit) paid_invoice with Ok es => es | Err _ => [] end.
Definition checkout_events := match translate_webhook (hosted_ops bench_config PayMongo) paid_checkout with Ok es => es | Err _ => [] end.
Definition paused_events := match translate_webhook (hosted_ops bench_config Stripe) paused_subscription with Ok es => es | Err _ => [] end.

Lemma translation_understood_witness : exists e, paid_events = [e] /\ ne_event_type e = "invoice.paid" /\ ne_provider_event_id e = "evt_1".
Proof. exact (proj2 (translation_understood bench_config Xendit paid_invoice paid_events ltac:(done) ltac:(vm_compute; reflexivity))). Defined.

Lemma xendit_amount_exact_witness : Forall (fun e => ne_amount_cents e = Some 19999%Z) paid_events /\ length paid_events = 1.
Proof.
  split; [|vm_compute; reflexivity]. apply Forall_forall. intros e.
  apply (xendit_amount_exact bench_config paid_invoice paid_events e (JStr "199.99") 19999);
    [by left|lia|reflexivity|done|vm_compute; reflexivity|vm_compute; reflexivity].
Defined.

Lemma demo_consistent : constraints_ok (w_db demo).
Proof. by_compute. Qed.

Lemma paymongo_webhooks_change_nothing_witness :
  apply_events (hosted_ops bench_config) (fun _ => "") "paymongo" checkout_events demo = (Ok (1%Z, []), demo).
Proof.
  apply (paymongo_webhooks_change_nothing bench_config (hosted_ops bench_config) (fun _ => "") paid_checkout checkout_events demo demo_consistent).
  vm_compute. reflexivity.
Defined.

Lemma stripe_status_applied_witness :
  Forall (fun e => apply_event (hosted_ops bench_config) "stripe" 1%N e = _apply_status 1%N e "active") paused_events /\ length paused_events = 1.
Proof.
  split; [|vm_compute; reflexivity]. apply Forall_forall. intros e He.
  exact (stripe_status_applied bench_config (hosted_ops bench_config) paused_subscription paused_events e [("object", JObj paused_object)]
    paused_object "paused" 1%N eq_refl eq_refl eq_refl eq_refl ltac:(vm_compute; reflexivity) He).
Defined.

Lemma signature_header_read_witness : _parse_stripe_signature "t=1728043200,v1=5e,v1=5f" = Some (1728043200%Z, "5e").
Proof.
  apply (signature_header_read 1728043200 ltac:(lia) ltac:(vm_compute; discriminate) "5e" "5f"); done.
Defined.
