(* ===== verification/Keycloak.v ===== *)
(** Single sign-on with Keycloak (identity/provider.py): the provider's
    configuration, the login URL, the exchange of a code, the cached signing keys of
    the realm, and the password grant.

    The realm's endpoints and the JWT library are arguments; the realm's keys may
    change between two requests for them, so an answer depends on how many were
    asked for.  The cache of keys is the state of the process. *)

From Stdlib Require Import Ascii.
From S2P Require Import Prelude Text Ids Json Errors Events Tables Store Dynamic Cache Session Fixtures.
From S2P Require Import Billing Providers Notifications Tenancy Identity.

Definition JWKS_TTL_SECONDS : Z := 3600.

(** ** [urllib.parse.urlencode] *)

Definition hex_digit (n : nat) : ascii := ascii_of_nat (if n <? 10 then 48 + n else 55 + n).
Definition unreserved (c : ascii) : bool :=
  let n := nat_of_ascii c in
  ((48 <=? n) && (n <=? 57)) || ((65 <=? n) && (n <=? 90)) || ((97 <=? n) && (n <=? 122)) ||
  (n =? 45) || (n =? 46) || (n =? 95) || (n =? 126).
Definition quote_char (c : ascii) : string :=
  if unreserved c then String c ""
  else if Ascii.eqb c " " then "+"
  else let n := nat_of_ascii c in String "%" (String (hex_digit (n / 16)) (String (hex_digit (n mod 16)) "")).
Fixpoint quote_plus (s : string) : string :=
  match s with EmptyString => "" | String c s => quote_char c +:+ quote_plus s end.
Definition urlencode (query : list (string * string)) : string :=
  join "&" ((fun kv : string * string => quote_plus kv.1 +:+ String "=" (quote_plus kv.2)) <$> query).

(** ** The provider *)

Record keycloak_config : Type := KeycloakConfig {
  kc_base_url : string;
  kc_realm : string;
  kc_client_id : string;
  kc_client_secret : string
}.

(** [_JWKS_CACHE], and how many times the realm was asked for its keys. *)
Record jwks_state : Type := JwksState {
  js_cache : gmap string (instant * json);
  js_asked : nat
}.

Class Realm (key : Type) : Type := {
  token_endpoint : string -> list (string * string) -> http_response;
  certs_endpoint : nat -> http_response;
  realm_json : string -> option json;
  realm_repr : json -> string;
  unverified_header : string -> result json;              (* [jwt.get_unverified_header] *)
  jwk_key : json -> result key;                           (* [PyJWK.from_dict(..., "RS256").key] *)
  id_decode : bool -> string -> key -> string -> string -> instant -> option jobj
    (* [jwt.decode], RS256, with an audience and an issuer; with the flag, exp, iat and sub are required *)
}.

(** A step of the exchange: a result, and the keys known afterwards. *)
Definition K (A : Type) : Type := jwks_state -> result A * jwks_state.
#[export] Instance K_ret : MRet K := fun A a st => (Ok a, st).
#[export] Instance K_bind : MBind K := fun A B f m st =>
  match m st with (Ok a, st) => f a st | (Err e, st) => (Err e, st) end.
Definition fails {A} (e : exn) : K A := fun st => (Err e, st).
Definition of_result {A} (r : result A) : K A := fun st => (r, st).

Section Keycloak.
Context {key : Type} `{Realm key} (c : keycloak_config) (t : instant).

Definition unauthenticated {A} : result A := Err (Domain AuthenticationError []).

(** [_config]. *)
Definition _config : result keycloak_config :=
  if negb (String.eqb (kc_base_url c) "") && negb (String.eqb (kc_realm c) "")
  then Ok (KeycloakConfig (rstrip_char "/" (kc_base_url c)) (kc_realm c) (kc_client_id c) (kc_client_secret c))
  else unauthenticated.
Definition issuer : result string := k ← _config; Ok (kc_base_url k +:+ "/realms/" +:+ kc_realm k).

Definition login_query (client_id redirect_uri state nonce code_challenge : string) : list (string * string) :=
  [("client_id", client_id); ("response_type", "code"); ("scope", "openid email profile"); ("redirect_uri", redirect_uri);
   ("state", state); ("nonce", nonce); ("code_challenge", code_challenge); ("code_challenge_method", "S256")].
Definition authorization_url (redirect_uri state nonce code_challenge : string) : result string :=
  k ← _config; i ← issuer;
  Ok (i +:+ "/protocol/openid-connect/auth?" +:+
      urlencode (login_query (kc_client_id k) redirect_uri state nonce code_challenge)).

(** *** Signing keys *)

Definition body_json (r : http_response) : result json :=
  match realm_json (hs_text r) with Some j => Ok j | None => Err (PyError "JSONDecodeError") end.
Definition is_success (r : http_response) : bool := ((200 <=? hs_status r) && (hs_status r <=? 299))%Z.

Definition fresh_for (fetched_at : instant) : bool := (t - fetched_at <? JWKS_TTL_SECONDS * SECOND)%Z.

Definition _jwks (i : string) (force : bool) : K json := fun st =>
  let fetch :=
    let answer := certs_endpoint (js_asked st) in
    let asked := S (js_asked st) in
    if negb (is_success answer) then (Err (PyError "HTTPStatusError"), JwksState (js_cache st) asked)
    else match body_json answer with
    | Err e => (Err e, JwksState (js_cache st) asked)
    | Ok jwks => (Ok jwks, JwksState (<[i := (t, jwks)]> (js_cache st)) asked)
    end in
  match js_cache st !! i with
  | Some (fetched_at, jwks) => if negb force && fresh_for fetched_at then (Ok jwks, st) else fetch
  | None => fetch
  end.

(** The first key of the set with the token's key id. *)
Fixpoint first_with (kid : json) (l : list json) : result (option json) :=
  match l with
  | [] => Ok None
  | k :: l => i ← py_get "kid" JNull k; if py_eq i kid then Ok (Some k) else first_with kid l
  end.
Definition key_named (kid jwks : json) : result (option json) :=
  keys ← py_get "keys" (JList []) jwks; l ← items_of keys; first_with kid l.

Definition _signing_key (i id_token : string) : K key :=
  kid ← of_result (h ← unverified_header id_token; py_get "kid" JNull h);
  cached ← _jwks i false;
  found ← of_result (key_named kid cached);
  match found with
  | Some k => of_result (jwk_key k)
  | None =>
      refetched ← _jwks i true;
      found ← of_result (key_named kid refetched);
      match found with
      | Some k => of_result (jwk_key k)
      | None => of_result unauthenticated
      end
  end.

(** *** The code flow *)

Definition code_form (k : keycloak_config) (code redirect_uri : string) (code_verifier : option string) : list (string * string) :=
  [("grant_type", "authorization_code"); ("client_id", kc_client_id k); ("client_secret", kc_client_secret k);
   ("code", code); ("redirect_uri", redirect_uri)] ++
  (if truthy_str code_verifier then [("code_verifier", or_str code_verifier "")] else []).

Definition token_url (i : string) : string := i +:+ "/protocol/openid-connect/token".

(** [str(response.json().get("id_token") or "")]. *)
Definition id_token_of (r : http_response) : result string :=
  j ← body_json r; x ← py_get "id_token" JNull j; Ok (py_str realm_repr (jor x (JStr ""))).

Definition exchange_code (code redirect_uri : string) (code_verifier nonce : option string) : K (string * jobj) :=
  k ← of_result _config; i ← of_result issuer;
  let response := token_endpoint (token_url i) (code_form k code redirect_uri code_verifier) in
  if negb (hs_status response =? 200)%Z then of_result unauthenticated
  else
    id_token ← of_result (id_token_of response);
    if String.eqb id_token "" then of_result unauthenticated
    else
      signing_key ← _signing_key i id_token;
      match id_decode true id_token signing_key (kc_client_id k) i t with
      | None => of_result unauthenticated
      | Some claims =>
          match nonce with
          | Some n => if bool_decide (jget "nonce" claims = Some (JStr n)) then mret (id_token, claims) else of_result unauthenticated
          | None => mret (id_token, claims)
          end
      end.

(** *** The password grant *)

Definition password_form (k : keycloak_config) (email password : string) : list (string * string) :=
  [("grant_type", "password"); ("client_id", kc_client_id k); ("client_secret", kc_client_secret k);
   ("username", email); ("password", password); ("scope", "openid")].

(** [verify_credentials], up to the user the claims name. *)
Definition grant_claims (email password : string) : K (option jobj) :=
  k ← of_result _config; i ← of_result issuer;
  let response := token_endpoint (token_url i) (password_form k email password) in
  if negb (hs_status response =? 200)%Z then mret None
  else
    id_token ← of_result (id_token_of response);
    signing_key ← _signing_key i id_token;
    mret (id_decode false id_token signing_key (kc_client_id k) i t).

(** The realm as the identity service sees it ([Identity.exchange_oidc_code]). *)
Definition realm_exchange (redirect_uri : string) (st : jwks_state) (code verifier : string) : option jobj :=
  match (exchange_code code redirect_uri (Some verifier) None st).1 with Ok (_, claims) => Some claims | Err _ => None end.
End Keycloak.

(** ** Laws *)

Section Laws.
Context {key : Type} `{Realm key} (c : keycloak_config) (t : instant).

Lemma K_ok {A B} (m : K A) (f : A -> K B) st b st' :
  mbind f m st = (Ok b, st') -> exists a st1, m st = (Ok a, st1) /\ f a st1 = (Ok b, st').
Proof. unfold mbind, K_bind. destruct (m st) as [[a|e] st1]; [|done]. by exists a, st1. Qed.
Lemma K_run {A B} (m : K A) (f : A -> K B) st a st' : m st = (Ok a, st') -> mbind f m st = f a st'.
Proof. unfold mbind, K_bind. by intros ->. Qed.
Lemma of_result_run {A B} (r : result A) (f : A -> K B) st a : r = Ok a -> mbind f (of_result r) st = f a st.
Proof. by intros ->. Qed.
Lemma of_result_ok {A} (r : result A) st a st' : of_result r st = (Ok a, st') -> r = Ok a /\ st' = st.
Proof. by intros [= -> ->]. Qed.

(** A set of keys the exchange may use: held for the issuer for less than an hour,
    or an answer of the realm since [st]. *)
Definition held (i : string) (jwks : json) (st st' : jwks_state) : Prop :=
  (exists fetched_at, js_cache st' !! i = Some (fetched_at, jwks) /\ fresh_for t fetched_at = true) /\
  (js_cache st' !! i = js_cache st !! i \/
   exists n, js_asked st <= n < js_asked st' /\ is_success (certs_endpoint n) = true /\ body_json (certs_endpoint n) = Ok jwks).

Lemma fresh_now : fresh_for t t = true.
Proof. unfold fresh_for. rewrite Z.sub_diag. reflexivity. Qed.

(** Asking the realm. *)
Lemma jwks_fetched i st jwks st' : _jwks t i true st = (Ok jwks, st') ->
  js_asked st' = S (js_asked st) /\ forall st0, js_asked st0 <= js_asked st -> held i jwks st0 st'.
Proof.
  assert (Hf : _jwks t i true st = (let answer := certs_endpoint (js_asked st) in
    if negb (is_success answer) then (Err (PyError "HTTPStatusError"), JwksState (js_cache st) (S (js_asked st)))
    else match body_json answer with
    | Err e => (Err e, JwksState (js_cache st) (S (js_asked st)))
    | Ok jwks => (Ok jwks, JwksState (<[i := (t, jwks)]> (js_cache st)) (S (js_asked st)))
    end)) by (unfold _jwks; destruct (js_cache st !! i) as [[]|]; done).
  rewrite Hf. cbv zeta. destruct (is_success _) eqn:Es; cbn [negb]; [|done]. destruct (body_json _) as [j|] eqn:Eb; [|done].
  intros [= -> <-]. split; [done|]. intros st0 Hle.
  split; [exists t; cbn; split; [by rewrite lookup_insert_eq|apply fresh_now]|].
  right. exists (js_asked st). cbn. split_and!; [lia|lia|done|done].
Qed.

Lemma jwks_cached i st jwks st' : _jwks t i false st = (Ok jwks, st') ->
  js_asked st <= js_asked st' <= S (js_asked st) /\ held i jwks st st'.
Proof.
  destruct (js_cache st !! i) as [[at_ j]|] eqn:Ec; [destruct (fresh_for t at_) eqn:Ef|].
  - unfold _jwks. rewrite Ec, Ef. cbn. intros [= -> ->]. split; [lia|]. split; [by exists at_|by left].
  - intros E. assert (E' : _jwks t i true st = (Ok jwks, st')) by (revert E; unfold _jwks; by rewrite Ec, Ef).
    apply jwks_fetched in E' as [-> Hh]. split; [lia|auto].
  - intros E. assert (E' : _jwks t i true st = (Ok jwks, st')) by (revert E; unfold _jwks; by rewrite Ec).
    apply jwks_fetched in E' as [-> Hh]. split; [lia|auto].
Qed.

(** The key a token is checked with is one of the realm's, under the token's key id. *)
Definition checked_with (i id_token : string) (sk : key) (st st' : jwks_state) : Prop :=
  exists h kid jwks k, unverified_header id_token = Ok h /\ py_get "kid" JNull h = Ok kid /\ held i jwks st st' /\
    key_named kid jwks = Ok (Some k) /\ jwk_key k = Ok sk.

Lemma signing_key_ok i id_token st sk st' : _signing_key t i id_token st = (Ok sk, st') ->
  checked_with i id_token sk st st' /\ js_asked st' <= js_asked st + 2.
Proof.
  unfold _signing_key. intros E. apply K_ok in E as (kid & s0 & E0 & E). apply of_result_ok in E0 as [E0 ->].
  destruct (unverified_header id_token) as [h|] eqn:Eh; [|done]. cbn in E0.
  apply K_ok in E as (jwks & st1 & E1 & E). apply jwks_cached in E1 as [Hn1 Hh1].
  apply K_ok in E as (found & s0 & E1 & E). apply of_result_ok in E1 as [Ef ->]. destruct found as [k|].
  - apply of_result_ok in E as [Ek ->]. split; [|lia]. by exists h, kid, jwks, k.
  - apply K_ok in E as (jwks2 & st2 & E2 & E). apply jwks_fetched in E2 as [Hn2 Hh2].
    apply K_ok in E as (found & s0 & E2 & E). apply of_result_ok in E2 as [Ef2 ->]. destruct found as [k|]; [|done].
    apply of_result_ok in E as [Ek ->]. split; [|lia]. exists h, kid, jwks2, k. split_and!; [done|done| |done|done].
    apply Hh2. lia.
Qed.

(** C14: A finished login carries claims the realm vouches for: the exchange was
    answered with 200 to a form with the code, the redirect address and the PKCE
    verifier of this login; the id token in the answer verifies for this client,
    issuer and moment under a key of the realm with the token's key id, from a set
    fetched from the realm less than an hour ago; and the claims carry the nonce of
    this login.  The realm is asked for its keys at most twice. *)
Theorem exchange_verified code redirect_uri code_verifier nonce st id_token claims st' :
  exchange_code c t code redirect_uri code_verifier nonce st = (Ok (id_token, claims), st') ->
  exists k i sk, _config c = Ok k /\ issuer c = Ok i /\
    let answer := token_endpoint (token_url i) (code_form k code redirect_uri code_verifier) in
    hs_status answer = 200%Z /\ id_token_of answer = Ok id_token /\ id_token <> "" /\
    checked_with i id_token sk st st' /\ id_decode true id_token sk (kc_client_id c) i t = Some claims /\
    (forall n, nonce = Some n -> jget "nonce" claims = Some (JStr n)) /\ js_asked st' <= js_asked st + 2.
Proof.
  unfold exchange_code. intros E. apply K_ok in E as (k & s0 & E0 & E). apply of_result_ok in E0 as [Ek ->].
  apply K_ok in E as (i & s0 & E0 & E). apply of_result_ok in E0 as [Ei ->]. exists k, i. cbv zeta.
  assert (Hid : kc_client_id k = kc_client_id c)
    by (unfold _config in Ek; destruct (_ && _) in Ek; [by injection Ek as <-|discriminate]).
  set (answer := token_endpoint _ _) in *. destruct (Z.eqb_spec (hs_status answer) 200) as [Hs|]; [|done]. cbn [negb] in E.
  apply K_ok in E as (tok & s0 & E0 & E). apply of_result_ok in E0 as [Et ->]. destruct (String.eqb_spec tok "") as [|Hne]; [done|].
  apply K_ok in E as (sk & st1 & E1 & E). apply signing_key_ok in E1 as [Hc Hn]. rewrite Hid in E. exists sk.
  destruct (id_decode true tok sk (kc_client_id c) i t) as [cl|] eqn:Ed; [|done].
  assert (Hok : tok = id_token /\ cl = claims /\ st1 = st' /\ forall n, nonce = Some n -> jget "nonce" claims = Some (JStr n)).
  { destruct nonce as [n|]; [case_bool_decide as Hnonce; [|done]|]; injection E as <- <- <-; split_and!; try done. by intros ? [= <-]. }
  destruct Hok as (-> & -> & -> & Hnonce). by split_and!.
Qed.

(** A key the realm has rotated to is found, at the price of one request for its
    keys: a cached set does not keep the new key from being used. *)
Theorem rotation_followed code redirect_uri code_verifier nonce st k i id_token h kid jwks jwk sk claims :
  _config c = Ok k -> issuer c = Ok i ->
  hs_status (token_endpoint (token_url i) (code_form k code redirect_uri code_verifier)) = 200%Z ->
  id_token_of (token_endpoint (token_url i) (code_form k code redirect_uri code_verifier)) = Ok id_token -> id_token <> "" ->
  unverified_header id_token = Ok h -> py_get "kid" JNull h = Ok kid ->
  (forall at_ old, js_cache st !! i = Some (at_, old) -> fresh_for t at_ = true -> key_named kid old = Ok None) ->
  is_success (certs_endpoint (js_asked st)) = true -> body_json (certs_endpoint (js_asked st)) = Ok jwks ->
  key_named kid jwks = Ok (Some jwk) -> jwk_key jwk = Ok sk ->
  id_decode true id_token sk (kc_client_id k) i t = Some claims -> (forall n, nonce = Some n -> jget "nonce" claims = Some (JStr n)) ->
  exchange_code c t code redirect_uri code_verifier nonce st =
    (Ok (id_token, claims), JwksState (<[i := (t, jwks)]> (js_cache st)) (S (js_asked st))).
Proof.
  intros Ek Ei Hs Et Hne Eh Ekid Hold Hok Hb Hk Hj Hd Hn. set (st' := JwksState _ _).
  assert (Hforced : _jwks t i true st = (Ok jwks, st'))
    by (unfold _jwks; destruct (js_cache st !! i) as [[]|]; cbn [negb andb]; rewrite Hok, Hb; reflexivity).
  assert (Hsk : _signing_key t i id_token st = (Ok sk, st')).
  { unfold _signing_key. rewrite (of_result_run _ _ _ kid) by (by rewrite Eh).
    destruct (js_cache st !! i) as [[at_ old]|] eqn:Ec; [destruct (fresh_for t at_) eqn:Ef|].
    1: rewrite (K_run _ _ _ old st) by (unfold _jwks; by rewrite Ec, Ef);
       rewrite (of_result_run _ _ _ _ (Hold at_ old eq_refl Ef)), (K_run _ _ _ _ _ Hforced).
    2,3: rewrite (K_run _ _ _ jwks st') by (rewrite <- Hforced; unfold _jwks; by rewrite Ec, ?Ef).
    all: rewrite (of_result_run _ _ _ _ Hk); unfold of_result; by rewrite Hj. }
  unfold exchange_code. rewrite (of_result_run _ _ _ _ Ek), (of_result_run _ _ _ _ Ei). cbv zeta. rewrite Hs. cbn [negb Z.eqb Pos.eqb].
  rewrite (of_result_run _ _ _ _ Et). destruct (String.eqb_spec id_token "") as [|_]; [done|].
  rewrite (K_run _ _ _ _ _ Hsk), Hd. destruct nonce as [n|]; [|done]. by rewrite bool_decide_true by auto.
Qed.
End Laws.

(** ** The login URL *)

(** What a form decoder reads: [urllib.parse.parse_qsl]. *)
Definition hex_value (a : ascii) : nat := let n := nat_of_ascii a in if n <? 58 then n - 48 else n - 55.
Fixpoint unquote_plus (s : string) : string :=
  match s with
  | String a s =>
      if Ascii.eqb a "%"
      then match s with
           | String h (String l s) => String (ascii_of_nat (16 * hex_value h + hex_value l)) (unquote_plus s)
           | _ => String a (unquote_plus s)
           end
      else String (if Ascii.eqb a "+" then " "%char else a) (unquote_plus s)
  | EmptyString => ""
  end.
Definition parse_field (f : string) : string * string :=
  let '(k, _, v) := partition "=" f in (unquote_plus k, unquote_plus v).
Definition parse_qsl (q : string) : list (string * string) := parse_field <$> split_on "&" q.

Lemma unquote_quote_char a s : unquote_plus (quote_char a +:+ s) = String a (unquote_plus s).
Proof. destruct a as [[] [] [] [] [] [] [] []]; reflexivity. Qed.

Lemma unquote_quote s : unquote_plus (quote_plus s) = s.
Proof. induction s as [|a s IH]; [done|]. cbn [quote_plus]. by rewrite unquote_quote_char, IH. Qed.

Lemma quote_char_plain a b : b = "&"%char \/ b = "="%char -> string_Forall (.≠ b) (quote_char a).
Proof. intros [-> | ->]; destruct a as [[] [] [] [] [] [] [] []]; repeat split; discriminate. Qed.

Lemma quote_plain s b : b = "&"%char \/ b = "="%char -> string_Forall (.≠ b) (quote_plus s).
Proof. intros Hb. induction s as [|a s IH]; [done|]. cbn [quote_plus]. apply string_Forall_app. split; [by apply quote_char_plain|done]. Qed.

Lemma parse_field_quoted k v : parse_field (quote_plus k +:+ String "=" (quote_plus v)) = (k, v).
Proof. unfold parse_field. rewrite partition_char by (apply quote_plain; by right). by rewrite !unquote_quote. Qed.

Lemma parse_urlencode l : l <> [] -> parse_qsl (urlencode l) = l.
Proof.
  intros Hl. unfold parse_qsl, urlencode. rewrite split_on_join.
  - clear Hl. induction l as [|[k v] l IH]; [done|]. cbn [fmap list_fmap]. by rewrite parse_field_quoted, IH.
  - by destruct l.
  - apply Forall_fmap, Forall_true. intros [k v]. cbn [compose fst snd]. apply string_Forall_app.
    split; [apply quote_plain; by left|]. split; [done|]. apply quote_plain. by left.
Qed.

(** The browser is sent to the realm's own login page with exactly the
    parameters of this login: whatever characters the redirect address, the state,
    the nonce and the challenge have, the realm reads them back from the query as
    they were given, once each, and nothing else; an unconfigured realm is refused. *)
Theorem login_url_read_back c redirect_uri state nonce code_challenge :
  match authorization_url c redirect_uri state nonce code_challenge with
  | Ok url => exists q, url = rstrip_char "/" (kc_base_url c) +:+ "/realms/" +:+ kc_realm c +:+ "/protocol/openid-connect/auth?" +:+ q /\
      parse_qsl q = login_query (kc_client_id c) redirect_uri state nonce code_challenge
  | Err e => e = Domain AuthenticationError [] /\ (kc_base_url c = "" \/ kc_realm c = "")
  end.
Proof.
  unfold authorization_url, issuer, _config.
  destruct (String.eqb_spec (kc_base_url c) ""); [by split; [|left]|]. destruct (String.eqb_spec (kc_realm c) ""); [by split; [|right]|].
  cbn [negb andb]. cbv [mbind result_bind kc_base_url kc_realm kc_client_id]. eexists. split; [by rewrite !string_app_assoc|].
  by apply parse_urlencode.
Qed.

(** ** Witness *)

(** A realm that signs with [new], asked by a process that still holds the keys of
    before its rotation. *)
Definition acme_realm : keycloak_config := KeycloakConfig "https://sso.acme.test/" "acme" "console" "s3cret".
Definition acme_issuer : string := "https://sso.acme.test/realms/acme".
Definition key_set (kid : string) : json := JObj [("keys", JList [JObj [("kid", JStr kid)]])].
Definition acme_claims : jobj := [("sub", JStr "u-1"); ("nonce", JStr "n-1")].
#[local] Instance acme_sso : Realm string := {|
  token_endpoint url form :=
    HttpResponse (if bool_decide (("code", "c-1") ∈ form /\ ("code_verifier", "v-1") ∈ form) then 200 else 400) "token";
  certs_endpoint _ := HttpResponse 200 "certs";
  realm_json s := if String.eqb s "token" then Some (JObj [("id_token", JStr "signed")]) else Some (key_set "new");
  realm_repr _ := "";
  unverified_header _ := Ok (JObj [("kid", JStr "new")]);
  jwk_key j := match j with JObj o => match jget "kid" o with Some (JStr k) => Ok k | _ => KeyError end | _ => TypeError end;
  id_decode _ token k aud iss _ :=
    if String.eqb k "new" && String.eqb aud "console" && String.eqb iss acme_issuer then Some acme_claims else None
|}.
Definition before_rotation : jwks_state := JwksState {[ acme_issuer := (NOW, key_set "old") ]} 0.

Lemma exchange_verified_witness :
  exists st', exchange_code acme_realm NOW "c-1" "https://app/cb" (Some "v-1") (Some "n-1") before_rotation =
    (Ok ("signed", acme_claims), st') /\ js_asked st' <= 2.
Proof.
  assert (E : (exchange_code acme_realm NOW "c-1" "https://app/cb" (Some "v-1") (Some "n-1") before_rotation).1 =
    Ok ("signed", acme_claims)) by (vm_compute; reflexivity).
  exists (exchange_code acme_realm NOW "c-1" "https://app/cb" (Some "v-1") (Some "n-1") before_rotation).2.
  pose proof (surjective_pairing (exchange_code acme_realm NOW "c-1" "https://app/cb" (Some "v-1") (Some "n-1") before_rotation)) as S.
  rewrite E in S. split; [exact S|].
  destruct (exchange_verified _ _ _ _ _ _ _ _ _ _ S) as (k & i & sk & _ & _ & _ & _ & _ & _ & _ & _ & Hn). exact Hn.
Defined.
