(* ===== verification/Webhooks.v ===== *)
(** Outbound webhooks (webhooks/service.py): endpoints, and the signed delivery of
    events with backoff.

    The HTTP client, the encryption of the stored secrets (Fernet) and the HMAC
    signature are parameters. *)

From S2P Require Import Prelude Text Json Errors Events Tables Store Cache Session Fixtures.

Definition DELIVERY_BACKOFF_SECONDS : list Z := [60; 300; 1800; 7200; 21600]%Z.
Definition MAX_DELIVERY_ATTEMPTS : Z := Z.of_nat (length DELIVERY_BACKOFF_SECONDS) + 1.

(** [table[min(attempts - 1, len(table) - 1)]] in seconds, for a positive count of
    attempts. *)
Definition backoff_at (table : list Z) (attempts : Z) : option Z :=
  table !! Z.to_nat (Z.min (attempts - 1) (Z.of_nat (length table) - 1)).

(** What a POST gives: a response, or an [httpx.HTTPError] with its text. *)
Inductive http_outcome : Type :=
  | HttpResponse (status_code : Z) (text : string)
  | HttpError (text : string).

Section Service.
Context (encrypt_secret : string -> string) (decrypt_secret : string -> result string).
Context (sign_payload : jobj -> string -> Z -> string).
Context (post : string -> jobj -> string -> M http_outcome).

(** *** Endpoints *)

Definition endpoint_payload (i : uuid) (e : webhook_endpoint) : jobj :=
  [("endpoint_id", JUuid i); ("url", JStr (we_url e)); ("events", JList (JStr <$> we_events e))].

Definition _record_endpoint_event (event_type : string) (i : uuid) (e : webhook_endpoint) : M unit :=
  _ ← append_outbox event_type "webhook_endpoint" i (endpoint_payload i e) (Some (we_organization_id e));
  audit event_type (Some (we_organization_id e)) None "user" (Some "webhook_endpoint") (Some i)
    (Some (endpoint_payload i e)).

(** [secrets.token_urlsafe]: a token nobody else holds. *)
Definition create_endpoint (org : uuid) (url : string) (events_filter : list string)
    (description : option string) : M (uuid * webhook_endpoint * string) :=
  token ← fresh_id;
  let secret := "whsec_" +:+ Z_str (Z.of_N token) in
  t ← now;
  i ← fresh_id;
  let e := WebhookEndpoint org url (encrypt_secret secret) description events_filter true t in
  _ ← put Twebhook_endpoints i e;
  _ ← flush;
  _ ← _record_endpoint_event WEBHOOK_ENDPOINT_CREATED i e;
  mret (i, e, secret).

(** [ORDER BY created_at DESC, id]. *)
Definition list_endpoints (org : uuid) : M (list (uuid * webhook_endpoint)) :=
  rows ← select Twebhook_endpoints (fun _ (e : webhook_endpoint) => N.eqb (we_organization_id e) org);
  mret (order_by_desc (fun r : uuid * webhook_endpoint => we_created_at r.2)
          (order_by (fun r : uuid * webhook_endpoint => Z.of_N r.1) rows)).

Definition get_endpoint (i org : uuid) : M webhook_endpoint :=
  found ← session_get Twebhook_endpoints i;
  match found with
  | Some e => if N.eqb (we_organization_id e) org then mret e else raise_domain WebhookEndpointNotFoundError []
  | None => raise_domain WebhookEndpointNotFoundError []
  end.

(** The foreign key of the deliveries cascades. *)
Definition delete_endpoint (i org : uuid) : M unit :=
  e ← get_endpoint i org;
  _ ← _record_endpoint_event WEBHOOK_ENDPOINT_DELETED i e;
  _ ← delete_where Twebhook_deliveries (fun _ (d : webhook_delivery) => N.eqb (wd_endpoint_id d) i);
  del Twebhook_endpoints i.

(** *** Deliveries *)

Definition list_deliveries (org : uuid) (endpoint_id : option uuid) (limit : nat) :
    M (list (uuid * webhook_delivery)) :=
  rows ← select Twebhook_deliveries (fun _ (d : webhook_delivery) =>
    N.eqb (wd_organization_id d) org &&
    match endpoint_id with Some i => N.eqb (wd_endpoint_id d) i | None => true end);
  mret (take limit (order_by_desc (fun r : uuid * webhook_delivery => wd_created_at r.2) rows)).

Definition retry_delivery (i org : uuid) : M webhook_delivery :=
  found ← session_get Twebhook_deliveries i;
  match found with
  | Some d =>
      if N.eqb (wd_organization_id d) org then
        t ← now;
        let d' := d <| wd_status := "pending" |> <| wd_attempts := 0%Z |> <| wd_next_attempt_at := t |> in
        _ ← put Twebhook_deliveries i d';
        mret d'
      else raise_domain WebhookDeliveryNotFoundError []
  | None => raise_domain WebhookDeliveryNotFoundError []
  end.

Definition build_envelope (i : uuid) (d : webhook_delivery) (t : instant) : jobj :=
  [("id", JUuid i); ("event_type", JStr (wd_event_type d));
   ("organization_id", JUuid (wd_organization_id d)); ("created_at", JTime t);
   ("data", JObj (wd_payload d))].

(** A row whose text column is to hold [text].  PostgreSQL refuses a NUL character in
    it: the flush that carries the row, before the next query or at the commit, raises. *)
Definition put_text (i : uuid) (text : string) (d : webhook_delivery) : M unit :=
  if storable text then put Twebhook_deliveries i d else raise (PyError "DBAPIError").

(** The row [_mark_failure] leaves; [None] is an [IndexError] of the table. *)
Definition failed_delivery (t : instant) (code : option Z) (error : string) (d : webhook_delivery) :
    option webhook_delivery :=
  let attempts := (wd_attempts d + 1)%Z in
  let d := d <| wd_attempts := attempts |> <| wd_last_response_code := code |>
             <| wd_last_error := Some (clip 500 error) |> in
  if (Z.min (wd_max_attempts d) MAX_DELIVERY_ATTEMPTS <=? attempts)%Z
  then Some (d <| wd_status := "exhausted" |>)
  else (fun s => d <| wd_next_attempt_at := (t + s * SECOND)%Z |>) <$>
         backoff_at DELIVERY_BACKOFF_SECONDS attempts.

Definition _mark_failure (i : uuid) (d : webhook_delivery) (code : option Z) (error : string) : M unit :=
  t ← now;
  match failed_delivery t code error d with
  | Some d' => put_text i (clip 500 error) d'
  | None => raise (PyError "IndexError")
  end.

Definition delivered (t : instant) (code : Z) (text : string) (d : webhook_delivery) : webhook_delivery :=
  d <| wd_status := "delivered" |> <| wd_delivered_at := Some t |>
    <| wd_last_response_code := Some code |> <| wd_response_excerpt := Some (clip 500 text) |>.

Definition deliver (i : uuid) : M bool :=
  found ← session_get Twebhook_deliveries i;
  match found with
  | None => mret false
  | Some d =>
      endpoint ← session_get Twebhook_endpoints (wd_endpoint_id d);
      match endpoint with
      | Some e =>
          if we_is_active e then
            t ← now;
            match decrypt_secret (we_secret_encrypted e) with
            | Err x => raise x
            | Ok secret =>
                let body := build_envelope i d t in
                let timestamp := (t / SECOND)%Z in
                outcome ← post (we_url e) body
                  ("t=" +:+ Z_str timestamp +:+ ",v1=" +:+ sign_payload body secret timestamp);
                match outcome with
                | HttpError error => _ ← _mark_failure i d None error; mret false
                | HttpResponse code text =>
                    if (200 <=? code)%Z && (code <? 300)%Z then
                      _ ← put_text i (clip 500 text) (delivered t code text d);
                      mret true
                    else _ ← _mark_failure i d (Some code) (clip 500 text); mret false
                end
            end
          else
            _ ← put Twebhook_deliveries i
                  ((d : webhook_delivery) <| wd_status := "failed" |>
                     <| wd_last_error := Some "endpoint removed or inactive" |>);
            mret false
      | None =>
          _ ← put Twebhook_deliveries i
                ((d : webhook_delivery) <| wd_status := "failed" |>
                   <| wd_last_error := Some "endpoint removed or inactive" |>);
          mret false
      end
  end.
End Service.

(** ** Backoff *)

Lemma backoff_defined table attempts :
  table <> [] -> (1 <= attempts)%Z ->
  exists s, backoff_at table attempts = Some s /\ s ∈ table.
Proof.
  intros Hne Ha. unfold backoff_at.
  destruct (table !! Z.to_nat (Z.min (attempts - 1) (Z.of_nat (length table) - 1))) as [s|] eqn:E.
  - exists s. split; [done|]. by apply list_elem_of_lookup_2 in E.
  - apply lookup_ge_None in E. destruct table; [done|]. simpl in *. lia.
Qed.

Lemma failed_delivery_spec t code error (d : webhook_delivery) :
  (0 <= wd_attempts d)%Z ->
  exists d', failed_delivery t code error d = Some d' /\
    wd_attempts d' = (wd_attempts d + 1)%Z /\ wd_last_response_code d' = code /\
    wd_endpoint_id d' = wd_endpoint_id d /\ wd_max_attempts d' = wd_max_attempts d /\
    if (Z.min (wd_max_attempts d) MAX_DELIVERY_ATTEMPTS <=? wd_attempts d + 1)%Z
    then wd_status d' = "exhausted" /\ wd_next_attempt_at d' = wd_next_attempt_at d
    else wd_status d' = wd_status d /\
         (t + 60 * SECOND <= wd_next_attempt_at d' <= t + 21600 * SECOND)%Z.
Proof.
  intros Ha. unfold failed_delivery. simpl. destruct (_ <=? _)%Z; [by eexists|].
  destruct (backoff_defined DELIVERY_BACKOFF_SECONDS (wd_attempts d + 1)) as (s & -> & Hs); [done|lia|].
  assert (60 <= s <= 21600)%Z.
  { unfold DELIVERY_BACKOFF_SECONDS in Hs.
    repeat (apply elem_of_cons in Hs as [->|Hs]; [lia|]). by apply not_elem_of_nil in Hs. }
  eexists. split; [done|]. do 5 (split; [done|]). simpl. unfold SECOND. lia.
Qed.

Definition accepted (o : http_outcome) : bool :=
  match o with HttpResponse code _ => (200 <=? code)%Z && (code <? 300)%Z | HttpError _ => false end.

(** The text an outcome leaves in the row: its first 500 characters. *)
Definition outcome_text (o : http_outcome) : string :=
  clip 500 (match o with HttpResponse _ text | HttpError text => text end).

Lemma clip_clip n s : clip n (clip n s) = clip n s.
Proof.
  revert n. induction s as [|a s IH]; intros n; [done|]. cbn [clip]. destruct (continuation a) eqn:Ea.
  - cbn [clip]. by rewrite Ea, IH.
  - destruct n as [|n]; [done|]. cbn [clip]. by rewrite Ea, IH.
Qed.

(** What a failed attempt leaves of a pending delivery. *)
Definition attempted (t : instant) (d d' : webhook_delivery) : Prop :=
  wd_attempts d' = (wd_attempts d + 1)%Z /\ wd_max_attempts d' = wd_max_attempts d /\
  if (Z.min (wd_max_attempts d) 6 <=? wd_attempts d + 1)%Z then wd_status d' = "exhausted"
  else wd_status d' = "pending" /\ (t + MINUTE <= wd_next_attempt_at d' <= t + 6 * HOUR)%Z.

Lemma mark_failure_run i (d : webhook_delivery) code error w :
  (0 <= wd_attempts d)%Z -> wd_status d = "pending" -> storable (clip 500 error) = true ->
  exists d', (_ ← _mark_failure i d code error; mret false) w =
      (Ok false, put_w Twebhook_deliveries i d' w) /\ attempted (w_clock w) d d'.
Proof.
  intros Ha Hst Hs. destruct (failed_delivery_spec (w_clock w) code error d Ha) as (d' & E & F1 & _ & _ & F3 & F2).
  exists d'. split; [unfold _mark_failure, put_text; run; rewrite E, Hs; by run|]. split_and!; [done|done|]. rewrite Hst in F2.
  change (Z.min (wd_max_attempts d) MAX_DELIVERY_ATTEMPTS) with (Z.min (wd_max_attempts d) 6) in F2.
  destruct (_ <=? _)%Z; [apply F2|]. destruct F2. split; [done|]. unfold MINUTE, HOUR. lia.
Qed.

(** What the answer to the call does to a pending delivery. *)
Definition answered (t : instant) (o : http_outcome) (d d' : webhook_delivery) : Prop :=
  if accepted o then wd_status d' = "delivered" /\ wd_delivered_at d' = Some t else attempted t d d'.

Lemma answer_run i (d : webhook_delivery) o w : (0 <= wd_attempts d)%Z -> wd_status d = "pending" ->
  storable (outcome_text o) = true -> exists d', match o with
    | HttpError error => _ ← _mark_failure i d None error; mret false
    | HttpResponse code text =>
        if (200 <=? code)%Z && (code <? 300)%Z then
          _ ← put_text i (clip 500 text) (delivered (w_clock w) code text d);
          mret true
        else _ ← _mark_failure i d (Some code) (clip 500 text); mret false
    end w = (Ok (accepted o), put_w Twebhook_deliveries i d' w) /\ answered (w_clock w) o d d'.
Proof.
  intros Ha Hst Hs. unfold answered. destruct o as [code text|text]; simpl accepted; [|by apply mark_failure_run].
  destruct ((200 <=? code)%Z && (code <? 300)%Z); [|apply mark_failure_run; [done|done|by rewrite clip_clip]].
  unfold put_text. unfold outcome_text in Hs. rewrite Hs. run. eexists. split; [done|]. done.
Qed.

(** An answer with a NUL early in its text raises, whatever its status. *)
Lemma unstorable_run i (d : webhook_delivery) o w : (0 <= wd_attempts d)%Z -> storable (outcome_text o) = false ->
  match o with
    | HttpError error => _ ← _mark_failure i d None error; mret false
    | HttpResponse code text =>
        if (200 <=? code)%Z && (code <? 300)%Z then
          _ ← put_text i (clip 500 text) (delivered (w_clock w) code text d);
          mret true
        else _ ← _mark_failure i d (Some code) (clip 500 text); mret false
    end w = (Err (PyError "DBAPIError"), w).
Proof.
  intros Ha Hs. assert (Hf : forall code error, storable (clip 500 error) = false ->
    (_ ← _mark_failure i d code error; mret false) w = (Err (PyError "DBAPIError"), w)).
  { intros code error He. destruct (failed_delivery_spec (w_clock w) code error d Ha) as (d' & E & _).
    unfold _mark_failure, put_text. run. by rewrite E, He. }
  unfold outcome_text in Hs. destruct o as [code text|text]; [|by apply Hf].
  destruct ((200 <=? code)%Z && (code <? 300)%Z); [unfold put_text; by rewrite Hs|apply Hf; by rewrite clip_clip].
Qed.

Section Props.
Context (decrypt_secret : string -> result string) (sign_payload : jobj -> string -> Z -> string).
Context (post : string -> jobj -> string -> M http_outcome).
Context (post_outside : forall url body header, Stable (keeps Twebhook_deliveries) (post url body header)).
Context (post_env : forall url body header, Stable same_env (post url body header)).

(** The call [deliver] makes for delivery [d] of endpoint [e]. *)
Definition attempt (i : uuid) (d : webhook_delivery) (e : webhook_endpoint) (secret : string) (t : instant) :
    M http_outcome :=
  let body := build_envelope i d t in
  post (we_url e) body
    ("t=" +:+ Z_str (t / SECOND) +:+ ",v1=" +:+ sign_payload body secret (t / SECOND)).

(** One delivery attempt, and its bound: for a pending delivery to an active
    endpoint whose secret decrypts, and an answer whose text the column can hold, the
    attempt posts the signed envelope once and
    touches that row only; a 2xx response marks it delivered; anything else costs
    one attempt and either exhausts the delivery, exactly when the attempts reach
    the smaller of its own maximum and six, or schedules the next one between one
    minute and six hours ahead. *)
Theorem delivery_attempts_bounded i (d : webhook_delivery) (e : webhook_endpoint) secret o w w1 :
  w_db w Twebhook_deliveries !! i = Some d -> wd_status d = "pending" -> (0 <= wd_attempts d)%Z ->
  w_db w Twebhook_endpoints !! wd_endpoint_id d = Some e -> we_is_active e = true ->
  decrypt_secret (we_secret_encrypted e) = Ok secret ->
  attempt i d e secret (w_clock w) w = (Ok o, w1) -> storable (outcome_text o) = true ->
  exists d' w', deliver decrypt_secret sign_payload post i w = (Ok (accepted o), w') /\
    w_db w' Twebhook_deliveries = <[i := d']> (w_db w Twebhook_deliveries) /\
    answered (w_clock w) o d d'.
Proof.
  intros Hd Hst Ha He Hact Hdec Ho Hs.
  assert (Hk : w_db w1 Twebhook_deliveries = w_db w Twebhook_deliveries).
  { pose proof (post_outside (we_url e) (build_envelope i d (w_clock w)) ("t=" +:+ Z_str (w_clock w / SECOND) +:+
      ",v1=" +:+ sign_payload (build_envelope i d (w_clock w)) secret (w_clock w / SECOND)) w) as H.
    unfold attempt in Ho. by rewrite Ho in H. }
  assert (Hclk : w_clock w1 = w_clock w).
  { pose proof (env_clock _ w (post_env (we_url e) (build_envelope i d (w_clock w)) ("t=" +:+
      Z_str (w_clock w / SECOND) +:+ ",v1=" +:+ sign_payload (build_envelope i d (w_clock w)) secret
      (w_clock w / SECOND)))) as H. unfold attempt in Ho. by rewrite Ho in H. }
  unfold deliver. run. rewrite_row Hd. run. rewrite_row He. rewrite Hact. run.
  rewrite Hdec. rewrite (run_ok _ _ _ _ _ Ho).
  destruct (answer_run i d o w1 Ha Hst Hs) as (d' & E & Hd'). rewrite Hclk in E, Hd'. rewrite E.
  exists d', (put_w Twebhook_deliveries i d' w1). split; [done|]. by rewrite put_w_eq, Hk.
Qed.
End Props.

(** ** Witness *)

Definition demo_endpoint : webhook_endpoint :=
  WebhookEndpoint 1 "https://acme.test/hook" "secret" None [] true NOW.
Definition demo_delivery : webhook_delivery :=
  WebhookDelivery 70 1 None "invoice.paid" [] "pending" 5 6 NOW None None None None NOW.
Definition delivering : world :=
  world_of (set_table (set_table demo_db
    Twebhook_endpoints (rows_of Twebhook_endpoints [(70%N, demo_endpoint)]))
    Twebhook_deliveries (rows_of Twebhook_deliveries [(71%N, demo_delivery)])).
Definition plain (s : string) : result string := Ok s.
Definition no_signature (_ : jobj) (_ : string) (_ : Z) : string := "sig".
Definition refuse (_ : string) (_ : jobj) (_ : string) : M http_outcome := mret (HttpResponse 503 "busy").

(** The sixth refusal exhausts the delivery. *)
Lemma delivery_attempts_bounded_witness :
  exists d' w', deliver plain no_signature refuse 71%N delivering = (Ok false, w') /\
    w_db w' Twebhook_deliveries !! 71%N = Some d' /\ wd_status d' = "exhausted".
Proof.
  destruct (delivery_attempts_bounded plain no_signature refuse
    (fun _ _ _ w => reflexivity w) (fun _ _ _ w => reflexivity w) 71%N demo_delivery demo_endpoint "secret"
    (HttpResponse 503 "busy") delivering delivering eq_refl eq_refl ltac:(discriminate) eq_refl eq_refl eq_refl
    eq_refl eq_refl) as (d' & w' & E & Htab & _ & _ & Hst).
  exists d', w'. split; [exact E|]. split; [rewrite Htab; apply (put_same Twebhook_deliveries)|exact Hst].
Defined.
