(* ===== verification/Worker.v ===== *)
(** The background jobs (worker/jobs.py): draining the outbox, delivering webhooks,
    expiring grants and renewing the subscriptions billed here.  The housekeeping
    jobs are in Retention.

    A job runs in its own session and commits at its end.  [locked] stands for the
    rows other workers hold ([FOR UPDATE SKIP LOCKED]); [fault] for what the
    database does to the statements of one event beyond the modelled constraints;
    [exn_str] for [str(exc)]; [consumers] for the in-process consumers of
    published events. *)

From S2P Require Import Prelude Text Json Errors Events Tables Store Cache Session Fixtures.
From S2P Require Import Interfaces Subscriptions Entitlements Usage Invoicing Billing Webhooks.

(** [async with factory() as session]: what was not committed is dropped when the
    session closes. *)
Definition with_session {A} (m : M A) : M A := fun w =>
  let '(r, w') := m w in (r, w' <| w_db := w_durable w' |>).

(** [SELECT id ... FOR UPDATE SKIP LOCKED]: the ids of the rows nobody else holds. *)
Definition claim {K R} (locked : K -> bool) (n : nat) (order : list (K * R) -> list (K * R))
    (rows : list (K * R)) : list K :=
  fst <$> take n (order (filter (fun r : K * R => locked r.1 = false) rows)).

Definition OUTBOX_BATCH : nat := 20.
Definition DELIVERY_BATCH : nat := 20.
Definition RENEWAL_BATCH : nat := 100.
Definition OUTBOX_MAX_ATTEMPTS : Z := 8.
Definition OUTBOX_BACKOFF_SECONDS : list Z := [5; 30; 120; 600; 1800; 3600; 3600; 3600]%Z.

(** ** The outbox *)

Definition outbox_due (t : instant) (_ : key Toutbox_events) (e : outbox_event) : bool :=
  bool_decide (ob_published_at e = None) && bool_decide (ob_dead_at e = None) &&
  (ob_next_attempt_at e <=? t)%Z.

(** The endpoints of the organization that want the event type; an empty filter
    wants all. *)
Definition wants (org : uuid) (event_type : string) (_ : key Twebhook_endpoints) (e : webhook_endpoint) : bool :=
  N.eqb (we_organization_id e) org && we_is_active e &&
  (bool_decide (we_events e = []) || bool_decide (event_type ∈ we_events e)).

Definition new_delivery (t : instant) (endpoint_id org event_id : uuid) (e : outbox_event) : webhook_delivery :=
  WebhookDelivery endpoint_id org (Some event_id) (ob_event_type e) (ob_payload e) "pending" 0
    MAX_DELIVERY_ATTEMPTS t None None None None t.

Definition add_delivery (org event_id : uuid) (e : outbox_event) (endpoint_id : uuid) : M unit :=
  t ← now;
  i ← fresh_id;
  put Twebhook_deliveries i (new_delivery t endpoint_id org event_id e).

Definition fan_out (event_id : uuid) (e : outbox_event) : M unit :=
  match ob_organization_id e with
  | Some org =>
      if String.eqb (ob_audience e) AUDIENCE_PUBLIC then
        endpoints ← select Twebhook_endpoints (wants org (ob_event_type e));
        for_each endpoints (fun r : uuid * webhook_endpoint => add_delivery org event_id e (fst r))
      else mret tt
  | None => mret tt
  end.

Definition publish (event_id : uuid) (e : outbox_event) : M unit :=
  _ ← fan_out event_id e;
  t ← now;
  _ ← put Toutbox_events event_id (e <| ob_published_at := Some t |>);
  flush.

(** The row [_outbox_failure] leaves; [None] is an [IndexError] of the table. *)
Definition failed_event (t : instant) (error : string) (e : outbox_event) : option outbox_event :=
  let attempts := (ob_attempts e + 1)%Z in
  let e := e <| ob_attempts := attempts |> <| ob_last_error := Some (clip 1000 error) |> in
  if (OUTBOX_MAX_ATTEMPTS <=? attempts)%Z then Some (e <| ob_dead_at := Some t |>)
  else (fun s => e <| ob_next_attempt_at := (t + s * SECOND)%Z |>) <$>
         backoff_at OUTBOX_BACKOFF_SECONDS attempts.

Definition _outbox_failure (event_id : uuid) (e : outbox_event) (error : string) : M unit :=
  t ← now;
  match failed_event t error e with
  | Some e' => put Toutbox_events event_id e'
  | None => raise (PyError "IndexError")
  end.

Section Jobs.
Context (locked : uuid -> bool) (fault : uuid -> M unit) (exn_str : exn -> string).

(** One event in its savepoint: its type and payload when it was published. *)
Definition dispatch_one (event_id : uuid) : M (list (string * jobj)) :=
  found ← session_get Toutbox_events event_id;
  match found with
  | None => mret []
  | Some e =>
      try_catch
        (_ ← savepoint (_ ← publish event_id e; fault event_id);
         mret [(ob_event_type e, ob_payload e)])
        (fun x => Some (_ ← _outbox_failure event_id e (exn_str x); mret []))
  end.

Fixpoint dispatch_all (ids : list uuid) : M (list (string * jobj)) :=
  match ids with
  | [] => mret []
  | i :: ids => sent ← dispatch_one i; rest ← dispatch_all ids; mret (sent ++ rest)
  end.

Definition due_events : M (list uuid) :=
  t ← now;
  rows ← select Toutbox_events (outbox_due t);
  mret (claim locked OUTBOX_BATCH (order_by (fun r : uuid * outbox_event => Z.of_N r.1)) rows).

(** An exception of a consumer is logged, and the next consumer runs. *)
Definition consume_all (consumers : list (string -> jobj -> M unit)) (sent : list (string * jobj)) : M unit :=
  for_each sent (fun e => for_each consumers (fun consumer =>
    try_catch (consumer (fst e) (snd e)) (fun _ => Some (mret tt)))).

Definition dispatch_outbox (consumers : list (string -> jobj -> M unit)) : M Z :=
  sent ← with_session (ids ← due_events; sent ← dispatch_all ids; _ ← commit; mret sent);
  _ ← consume_all consumers sent;
  mret (Z.of_nat (length sent)).

(** ** Deliveries *)

Section Deliveries.
Context (decrypt_secret : string -> result string) (sign_payload : jobj -> string -> Z -> string).
Context (post : string -> jobj -> string -> M http_outcome).

Definition delivery_due (t : instant) (_ : key Twebhook_deliveries) (d : webhook_delivery) : bool :=
  String.eqb (wd_status d) "pending" && (wd_next_attempt_at d <=? t)%Z.

Definition due_deliveries : M (list uuid) :=
  t ← now;
  rows ← select Twebhook_deliveries (delivery_due t);
  mret (claim locked DELIVERY_BATCH (order_by (fun r : uuid * webhook_delivery => wd_created_at r.2)) rows).

Fixpoint deliver_all (ids : list uuid) : M Z :=
  match ids with
  | [] => mret 0%Z
  | i :: ids =>
      ok ← deliver decrypt_secret sign_payload post i;
      n ← deliver_all ids;
      mret (if (ok : bool) then (n + 1)%Z else n)
  end.

Definition deliver_webhooks : M Z :=
  with_session (ids ← due_deliveries; n ← deliver_all ids; _ ← commit; mret n).
End Deliveries.

(** ** Lapsed grants *)

Definition lapsed (t : instant) (_ : key Tentitlements) (e : entitlement) : bool :=
  bool_decide (e_revoked_at e = None) &&
  match e_ends_at e with Some x => (x <=? t)%Z | None => false end.

(** The worker's own row writer keeps the default audience. *)
Definition _outbox_row (event_type aggregate_type : string) (aggregate_id : uuid)
    (organization_id : option uuid) (payload : jobj) : M unit :=
  i ← fresh_id;
  t ← now;
  put Toutbox_events i
    (OutboxEvent aggregate_type aggregate_id organization_id event_type payload t None
       AUDIENCE_PUBLIC None 0 t None).

Definition expire_one (r : uuid * entitlement) : M unit :=
  t ← now;
  _ ← put Tentitlements (fst r) (snd r <| e_revoked_at := Some t |>);
  _outbox_row ENTITLEMENT_EXPIRED "entitlement" (fst r) (Some (e_organization_id (snd r)))
    [("feature_key", JStr (e_feature_key (snd r)))].

(** [invalidate_entitlements]: out of any session. *)
Definition invalidate_entitlements (org : uuid) : M unit :=
  _ ← cache_bump _cache (org_key org); mret tt.

Definition expire_entitlements : M Z :=
  rows ← with_session
    (t ← now;
     rows ← select Tentitlements (lapsed t);
     _ ← for_each rows expire_one;
     _ ← commit;
     mret rows);
  let rows := (rows : list (uuid * entitlement)) in
  _ ← for_each (remove_dups (map (fun r : uuid * entitlement => e_organization_id r.2) rows))
        invalidate_entitlements;
  mret (Z.of_nat (length rows)).

(** ** Renewals *)

Definition renewal_due (t : instant) (_ : key Tsubscriptions) (s : subscription) : bool :=
  String.eqb (s_status s) "active" && (s_current_period_end s <=? t)%Z &&
  negb (s_cancel_at_period_end s) &&
  match s_provider s with None => true | Some p => bool_decide (p ∈ locally_billed_provider_names) end.

(** [ended_start.date().replace(day=1)]. *)
Definition billing_month (s : subscription) : date := _month_bucket (s_current_period_start s).

Definition renewal_interval (s : subscription) : Z :=
  days (if bool_decide (sn_interval (s_plan_snapshot s) = Some "year") then 365 else 30).

Definition rolled (s : subscription) : subscription :=
  s <| s_current_period_start := s_current_period_end s |>
    <| s_current_period_end := (s_current_period_end s + renewal_interval s)%Z |>.

Definition bills (s : subscription) : bool :=
  (0 <? or0 (sn_price_cents (s_plan_snapshot s)))%Z || negb (bool_decide (s_pending_adjustments s = [])).

Section Renewal.
Context `{EntitlementReader}.

Definition bill_period (s : subscription) : M unit :=
  draft ← draft_for_org (s_organization_id s) (Some (billing_month s));
  let '(i, v) := (draft : uuid * invoice) in
  if String.eqb (i_status v) "draft"
  then _ ← finalize i (s_organization_id s); mret tt
  else mret tt.

(** The subscription is the row [draft_for_org] takes the adjustments from: it is
    read again before the period is rolled. *)
Definition _renew_locally_billed (i : uuid) (s : subscription) : M unit :=
  _ ← when_ (bills s) (bill_period s);
  found ← session_get Tsubscriptions i;
  _ ← put Tsubscriptions i (rolled (default s found));
  flush.

Definition renew_one (i : uuid) : M Z :=
  try_catch
    (savepoint
       (found ← session_get Tsubscriptions i;
        match found with
        | None => mret 0%Z
        | Some s => _ ← _renew_locally_billed i s; mret 1%Z
        end))
    (fun _ => Some (mret 0%Z)).

Fixpoint renew_all (ids : list uuid) : M Z :=
  match ids with
  | [] => mret 0%Z
  | i :: ids => n ← renew_one i; m ← renew_all ids; mret (n + m)%Z
  end.

Definition due_renewals : M (list uuid) :=
  t ← now;
  rows ← select Tsubscriptions (renewal_due t);
  mret (claim locked RENEWAL_BATCH
          (order_by (fun r : uuid * subscription => s_current_period_end r.2)) rows).

Definition advance_recurring_billing : M Z :=
  with_session (ids ← due_renewals; n ← renew_all ids; _ ← commit; mret n).
End Renewal.
End Jobs.

(** ** Claims *)

Lemma elem_of_claim {K R} (locked : K -> bool) n order (rows : list (K * R)) k :
  (forall l, order l ≡ₚ l) -> k ∈ claim locked n order rows -> exists r, (k, r) ∈ rows.
Proof.
  intros Ho Hk. apply list_elem_of_fmap in Hk as ([k' r] & -> & Hin).
  apply elem_of_take in Hin as (j & Hj & _). apply list_elem_of_lookup_2 in Hj.
  rewrite Ho in Hj. apply list_elem_of_filter in Hj as [_ Hj]. by exists r.
Qed.

Lemma claim_NoDup {K R} (locked : K -> bool) n order (rows : list (K * R)) :
  (forall l, order l ≡ₚ l) -> NoDup rows.*1 -> NoDup (claim locked n order rows).
Proof.
  intros Ho Hnd. unfold claim. rewrite fmap_take.
  assert (Hf : NoDup (order (filter (fun r : K * R => locked r.1 = false) rows)).*1).
  { rewrite Ho. revert Hnd. clear. induction rows as [|[k r] rows IH]; [done|].
    rewrite fmap_cons, filter_cons. intros [Hni Hnd]%NoDup_cons. case_decide; [|by apply IH].
    rewrite fmap_cons. apply NoDup_cons. split; [|by apply IH].
    intros Hin. apply Hni. apply list_elem_of_fmap in Hin as (x & -> & Hx).
    apply list_elem_of_filter in Hx as [_ Hx]. by apply list_elem_of_fmap_2. }
  rewrite <- (take_drop n) in Hf. by apply NoDup_app in Hf as [Hf _].
Qed.

Lemma order_by_perm {A} (k : A -> Z) l : order_by k l ≡ₚ l.
Proof. apply merge_sort_Permutation. Qed.

(** ** What a renewal touches *)

Section RenewalProps.
Context `{EntitlementReader}.

(** Row [i] is the occupying subscription of [org]. *)
Definition occupant (i org : uuid) (w : world) : Prop :=
  subscriptions_ok (w_db w Tsubscriptions) /\
  exists s : subscription, w_db w Tsubscriptions !! i = Some s /\ occupied_org s = Some org.

(** As long as row [i] is the occupant, it stays so, its period and terms are
    kept, and no other subscription changes. *)
Definition same_terms (s s' : subscription) : Prop :=
  s' <| s_pending_adjustments := [] |> = s <| s_pending_adjustments := [] |>.

Definition only_row (i org : uuid) : relation world := fun w w' =>
  occupant i org w ->
  occupant i org w' /\
  (forall j, j <> i -> w_db w' Tsubscriptions !! j = w_db w Tsubscriptions !! j) /\
  (forall s, w_db w Tsubscriptions !! i = Some s ->
     exists s', w_db w' Tsubscriptions !! i = Some s' /\ same_terms s s').

#[local] Instance only_row_restorable i org : Restorable (only_row i org).
Proof.
  unfold only_row. split; [split|].
  - intros w Hw. split; [done|]. split; [done|]. intros s Hs. by exists s.
  - intros w1 w2 w3 H12 H23 Hw. destruct (H12 Hw) as (Hw2 & Ho2 & Hi2).
    destruct (H23 Hw2) as (Hw3 & Ho3 & Hi3). split; [done|]. split.
    + intros j Hj. by rewrite Ho3, Ho2.
    + intros s Hs. destruct (Hi2 s Hs) as (s2 & Hs2 & E2). destruct (Hi3 s2 Hs2) as (s3 & Hs3 & E3).
      exists s3. split; [done|]. unfold same_terms in *. congruence.
  - intros w w' _ Hw. split; [done|]. split; [done|]. intros s Hs. by exists s.
Qed.

Lemma unchanged_only_row i org w w' : keeps Tsubscriptions w w' -> only_row i org w w'.
Proof.
  unfold keeps, only_row, occupant. intros -> Hw.
  split; [done|]. split; [done|]. intros s Hs. by exists s.
Qed.

Lemma keeps_only_row {A} i org (m : M A) : Stable (keeps Tsubscriptions) m -> Stable (only_row i org) m.
Proof. intros Hm w. apply unchanged_only_row, Hm. Qed.

(** Drafting takes the adjustments of the occupant. *)
Lemma take_adjustments i org l w : occupant i org w ->
  forall r, current_in org (w_db w Tsubscriptions) = Some r ->
  only_row i org w (put_w Tsubscriptions r.1 (r.2 <| s_pending_adjustments := l |>) w).
Proof.
  intros [Hsub (s & Hs & Ho)] r Hr _. rewrite (current_is org _ i s Hsub Hs Ho) in Hr. injection Hr as <-.
  cbn [fst snd]. unfold occupant. rewrite !put_w_eq. split; [split|split].
  - apply (subscriptions_ok_update _ i _ s); auto. exact (proj1 Hsub i s Hs).
  - eexists. split; [apply (put_same Tsubscriptions)|done].
  - intros j Hj. by apply (put_other Tsubscriptions).
  - intros s0 Hs0. assert (s0 = s) as -> by congruence. eexists. split; [apply (put_same Tsubscriptions)|].
    by destruct s.
Qed.

Lemma keeps_overage org p : Stable (keeps Tsubscriptions) (_overage_lines org p).
Proof.
  assert (Hl : forall c l, Stable (keeps Tsubscriptions) (overage_lines_for c org p l)).
  { intros c l. induction l as [|[m x] l IH]; simpl; unfold overage_line; solve_stable. }
  unfold _overage_lines. apply (stable_bind (keeps Tsubscriptions)); [apply effective_keeps|]. intros e.
  apply (stable_bind (keeps Tsubscriptions)); [apply stable_read; apply _|]. intros c. apply Hl.
Qed.

Lemma only_row_draft i org p : Stable (only_row i org) (draft_for_org org (Some p)).
Proof.
  pose proof (fun A (m : M A) => keeps_only_row i org m) as Hk.
  unfold draft_for_org. apply (stable_bind (only_row i org)); [apply stable_now; apply _|]. intros t.
  apply (stable_bind (only_row i org)); [apply Hk; unfold _find_draft; solve_stable|].
  intros [r|]; [apply stable_ret; apply _|].
  intros w. unfold _active_subscription. rewrite run_assoc, run_current.
  destruct (current_in org (w_db w Tsubscriptions)) as [r|] eqn:Ec; run; [|reflexivity].
  destruct r as [k s]. pose proof (keeps_overage org p) as Hov.
  step (keeps Tsubscriptions); [|intros e w1 _ H1; by apply unchanged_only_row].
  intros overage w1 _ H1. run_step. cbv beta.
  transitivity (put_w Tsubscriptions k (s <| s_pending_adjustments := carried t (sum_lines
    (plan_line (s_plan_snapshot s) ++ overage ++ _adjustment_lines (s_pending_adjustments s))) |>) w1).
  - transitivity w1; [by apply unchanged_only_row|].
    intros Hw. refine (take_adjustments i org _ w1 Hw (k, s) _ Hw). by rewrite H1.
  - refine (Hk _ _ _ _). solve_stable.
Qed.

Lemma only_row_bill i (s : subscription) : Stable (only_row i (s_organization_id s)) (bill_period s).
Proof.
  unfold bill_period. apply stable_bind; [apply _|apply only_row_draft|]. intros [k v].
  apply keeps_only_row. unfold finalize, read_invoice, lock_organization, open_invoice, _get_scoped, _assert_invoice_transition, _next_number. solve_stable.
Qed.

Lemma same_terms_rolled s s' : same_terms s s' -> same_terms (rolled s) (rolled s').
Proof. destruct s, s'. unfold same_terms. intros [=]. simplify_eq. reflexivity. Qed.

Lemma same_terms_occupied s s' : same_terms s s' -> occupied_org s' = occupied_org s.
Proof. destruct s, s'. unfold same_terms. intros [=]. simplify_eq. reflexivity. Qed.

(** One renewal is all or nothing. *)
Variant renewed (i : uuid) (s : subscription) (w : world) : result Z * world -> Prop :=
  | renewal_failed w' : w_db w' = w_db w -> renewed i s w (Ok 0%Z, w')
  | renewal_done w' s' :
      constraints_ok (w_db w') -> w_db w' Tsubscriptions !! i = Some s' -> same_terms (rolled s) s' ->
      (forall j, j <> i -> w_db w' Tsubscriptions !! j = w_db w Tsubscriptions !! j) ->
      renewed i s w (Ok 1%Z, w').

Lemma renew_one_spec i (s : subscription) w :
  constraints_ok (w_db w) -> w_db w Tsubscriptions !! i = Some s -> s_status s = "active" ->
  renewed i s w (renew_one i w).
Proof.
  intros Hok Hs Hst. pose proof (subscriptions_table _ Hok) as Hsub.
  assert (Ho : occupied_org s = Some (s_organization_id s))
    by (unfold occupied_org, is_occupying; by rewrite Hst).
  assert (Hw : occupant i (s_organization_id s) w) by (split; [done|by exists s]).
  unfold renew_one, try_catch, savepoint. run. rewrite_row Hs.
  unfold _renew_locally_billed. rewrite run_assoc.
  assert (Hm : Stable (only_row i (s_organization_id s)) (when_ (bills s) (bill_period s)))
    by (apply stable_when; [apply _|apply only_row_bill]).
  destruct (Hm w Hw) as (_ & Hoth & Hrow). destruct (Hrow s Hs) as (s1 & Hs1 & Hterms).
  unfold mbind at 1, M_bind at 1.
  destruct (when_ (bills s) (bill_period s) w) as [[u|e] w1]; simpl in Hoth, Hs1; [|by apply renewal_failed].
  run. rewrite_row Hs1. cbn [from_option id]. run.
  set (w2 := put_w Tsubscriptions i (rolled s1) w1). destruct (decide (constraints_ok (w_db w2))) as [Hc|Hc].
  - rewrite run_flush by done. unfold mret, M_ret, flush. rewrite bool_decide_true by done.
    apply renewal_done with (rolled s1); [done|unfold w2; rewrite put_w_eq; apply (put_same Tsubscriptions)| |].
    + by apply same_terms_rolled.
    + intros j Hj. rewrite <- Hoth by done. unfold w2. rewrite put_w_eq. by apply (put_other Tsubscriptions).
  - unfold mbind, M_bind, flush. rewrite bool_decide_false by done. by apply renewal_failed.
Qed.

(** The whole batch: every row of the batch stays as it is or advances by one
    period, no other row changes, and the job cannot fail. *)
Definition advanced (s s' : subscription) : Prop := s' = s \/ same_terms (rolled s) s'.

Lemma renew_all_spec ids w :
  constraints_ok (w_db w) -> NoDup ids ->
  (forall i, i ∈ ids -> exists s : subscription, w_db w Tsubscriptions !! i = Some s /\ s_status s = "active") ->
  exists n w', renew_all ids w = (Ok n, w') /\ constraints_ok (w_db w') /\
    (forall j, j ∉ ids -> w_db w' Tsubscriptions !! j = w_db w Tsubscriptions !! j) /\
    (forall i s, i ∈ ids -> w_db w Tsubscriptions !! i = Some s ->
       exists s', w_db w' Tsubscriptions !! i = Some s' /\ advanced s s').
Proof.
  revert w. induction ids as [|i ids IH]; intros w Hok Hnd Hids.
  { exists 0%Z, w. split_and!; try done. intros i s Hi. by apply not_elem_of_nil in Hi. }
  apply NoDup_cons in Hnd as [Hni Hnd]. destruct (Hids i) as (s & Hs & Hst); [left|].
  assert (Hone : exists n w1, renew_one i w = (Ok n, w1) /\ constraints_ok (w_db w1) /\
    (exists s', w_db w1 Tsubscriptions !! i = Some s' /\ advanced s s') /\
    forall j, j <> i -> w_db w1 Tsubscriptions !! j = w_db w Tsubscriptions !! j).
  { destruct (renew_one_spec i s w Hok Hs Hst) as [w1 E|w1 s' Hok1 Hs' Ht Hoth].
    - exists 0%Z, w1. rewrite E. split_and!; try done. exists s. by split; [|left].
    - exists 1%Z, w1. split_and!; try done. exists s'. by split; [|right]. }
  destruct Hone as (n & w1 & E & Hok1 & (s' & Hs' & Hadv) & Hoth).
  destruct (IH w1 Hok1 Hnd) as (m & w2 & E2 & Hok2 & Hoth2 & Hadv2).
  { intros j Hj. rewrite Hoth by (intros ->; done). apply Hids. by right. }
  exists (n + m)%Z, w2. simpl. rewrite (run_ok _ _ _ _ _ E), (run_ok _ _ _ _ _ E2).
  split; [done|]. split; [done|]. split.
  - intros j Hj. apply not_elem_of_cons in Hj as [Hj1 Hj2]. by rewrite Hoth2, Hoth.
  - intros j sj Hj Hsj. destruct (N.eq_dec j i) as [->|Hne].
    + same_row. exists s'. by rewrite Hoth2.
    + apply elem_of_cons in Hj as [->|Hj]; [done|]. apply (Hadv2 j sj Hj). by rewrite Hoth.
Qed.

(** The renewal job advances due subscriptions and nothing else: whatever
    happens inside, it succeeds, commits a state that satisfies the constraints,
    and every subscription it finds is either due and stays as it is or moves on by
    exactly one period, its terms unchanged, or is not due and is untouched; in
    particular one that is to be cancelled at its period end, or still in trial, is
    never moved. *)
Theorem renewals_advance_due_only locked w :
  constraints_ok (w_db w) ->
  exists n w', advance_recurring_billing locked w = (Ok n, w') /\
    constraints_ok (w_db w') /\ w_durable w' = w_db w' /\
    forall (i : uuid) (s : subscription), w_db w Tsubscriptions !! i = Some s ->
      exists s', w_db w' Tsubscriptions !! i = Some s' /\
        if renewal_due (w_clock w) i s then advanced s s' else s' = s.
Proof.
  intros Hok. unfold advance_recurring_billing, with_session, due_renewals. run.
  set (ids := claim _ _ _ _).
  assert (Hin : forall i : uuid, i ∈ ids -> exists s : subscription,
    w_db w Tsubscriptions !! i = Some s /\ renewal_due (w_clock w) i s = true).
  { intros i Hi. apply elem_of_claim in Hi as (s & Hs); [|apply order_by_perm].
    exists s. by apply (elem_of_rows_where Tsubscriptions). }
  destruct (renew_all_spec ids w Hok) as (n & w1 & E & Hok1 & Hoth & Hadv).
  { apply claim_NoDup; [apply order_by_perm|]. apply (NoDup_fst_rows_where Tsubscriptions). }
  { intros i Hi. destruct (Hin i Hi) as (s & Hs & Hd). exists s. split; [done|].
    unfold renewal_due in Hd. repeat (apply andb_true_iff in Hd as [Hd _]). by apply String.eqb_eq. }
  rewrite (run_ok _ _ _ _ _ E), run_commit by done.
  exists n. eexists. split; [done|]. split; [done|]. split; [done|]. intros i s Hs. simpl.
  destruct (decide (i ∈ ids)) as [Hi|Hi].
  - destruct (Hin i Hi) as (s0 & Hs0 & Hd). same_row. rewrite Hd. by apply Hadv.
  - exists s. rewrite Hoth by done. split; [done|]. destruct (renewal_due _ _ _); [by left|done].
Qed.
End RenewalProps.

(** ** Publishing an event *)

Definition delivery_of (event_id : uuid) (_ : key Twebhook_deliveries) (d : webhook_delivery) : bool :=
  bool_decide (wd_outbox_event_id d = Some event_id).

Definition deliveries_free (w : world) : Prop :=
  forall j, (w_fresh w <= j)%N -> w_db w Twebhook_deliveries !! j = None.

Definition deliveries_for (event_id : uuid) (w : world) : list webhook_delivery :=
  map (fun r : uuid * webhook_delivery => r.2)
    (rows_where Twebhook_deliveries (delivery_of event_id) (w_db w Twebhook_deliveries)).

Lemma add_delivery_adds org event_id e endpoint_id w :
  deliveries_free w -> constraints_ok (w_db w) ->
  let w' := (add_delivery org event_id e endpoint_id w).2 in
  deliveries_free w' /\ constraints_ok (w_db w') /\ keeps Toutbox_events w w' /\ w_clock w' = w_clock w /\
  deliveries_for event_id w' ≡ₚ
    new_delivery (w_clock w) endpoint_id org event_id e :: deliveries_for event_id w.
Proof.
  intros Hf Hok w'. subst w'. unfold add_delivery. run. split; [|split; [|split; [done|split; [done|]]]].
  - intros j Hj. simpl in Hj. tables. apply (put_other Twebhook_deliveries); [simpl; lia|]. apply Hf. lia.
  - apply constraints_put; [done|]. apply check_in_insert; [|by apply (bool_decide_unpack _)].
    exact (proj1 (constraints_ok_table _) Hok Twebhook_deliveries).
  - unfold deliveries_for. tables. etrans; [apply Permutation_map, (rows_where_insert Twebhook_deliveries), Hf; simpl; lia|].
    unfold delivery_of at 1. simpl. by rewrite bool_decide_true.
Qed.

#[export] Instance total_add_delivery org i e ep : Total (add_delivery org i e ep).
Proof. done. Qed.

Lemma add_deliveries org event_id e (l : list (uuid * webhook_endpoint)) w :
  deliveries_free w -> constraints_ok (w_db w) ->
  let w' := (for_each l (fun r => add_delivery org event_id e (fst r)) w).2 in
  constraints_ok (w_db w') /\ keeps Toutbox_events w w' /\ w_clock w' = w_clock w /\
  deliveries_for event_id w' ≡ₚ
    ((fun r => new_delivery (w_clock w) (fst r) org event_id e) <$> l) ++ deliveries_for event_id w.
Proof.
  revert w. induction l as [|r l IH]; intros w Hf Hok; [done|].
  destruct (add_delivery_adds org event_id e (fst r) w Hf Hok) as (Hf1 & Hok1 & Hk1 & Hc1 & Hd1).
  cbn [for_each]. rewrite run_total by apply _.
  destruct (IH _ Hf1 Hok1) as (Hok2 & Hk2 & Hc2 & Hd2). split; [done|].
  split; [etrans; [exact Hk1|exact Hk2]|]. split; [by rewrite Hc2|].
  etrans; [exact Hd2|]. rewrite Hc1, Hd1, fmap_cons. symmetry. apply Permutation_middle.
Qed.

(** The endpoints an event goes to: none for an internal event or one without an
    organization. *)
Definition audience (e : outbox_event) (w : world) : list (uuid * webhook_endpoint) :=
  match ob_organization_id e with
  | Some org =>
      if String.eqb (ob_audience e) AUDIENCE_PUBLIC
      then rows_where Twebhook_endpoints (wants org (ob_event_type e)) (w_db w Twebhook_endpoints)
      else []
  | None => []
  end.

Lemma fan_out_run event_id e w :
  deliveries_free w -> constraints_ok (w_db w) ->
  exists w', fan_out event_id e w = (Ok tt, w') /\
    constraints_ok (w_db w') /\ keeps Toutbox_events w w' /\ w_clock w' = w_clock w /\
    deliveries_for event_id w' ≡ₚ
      ((fun r => new_delivery (w_clock w) (fst r) (default 0%N (ob_organization_id e)) event_id e) <$>
         audience e w) ++ deliveries_for event_id w.
Proof.
  intros Hf Hok. unfold fan_out, audience. destruct (ob_organization_id e) as [org|]; [|by exists w].
  destruct (String.eqb _ _); [|by exists w]. run.
  set (m := for_each _ _). assert (Ht : Total m) by (apply total_for_each; intros r; apply _).
  exists (m w).2. split; [specialize (Ht w); destruct (m w); simpl in *; by subst|]. by apply add_deliveries.
Qed.

Lemma publish_run i (e : outbox_event) w :
  deliveries_free w -> constraints_ok (w_db w) ->
  exists w', publish i e w = (Ok tt, w') /\ constraints_ok (w_db w') /\
    w_db w' Toutbox_events = <[i := e <| ob_published_at := Some (w_clock w) |>]> (w_db w Toutbox_events) /\
    deliveries_for i w' ≡ₚ
      ((fun r => new_delivery (w_clock w) (fst r) (default 0%N (ob_organization_id e)) i e) <$>
         audience e w) ++ deliveries_for i w.
Proof.
  intros Hf Hok. unfold publish. destruct (fan_out_run i e w Hf Hok) as (w1 & E1 & Hok1 & Hk1 & Hc1 & Hd1).
  rewrite (run_ok _ _ _ _ _ E1). run. exists (put_w Toutbox_events i (e <| ob_published_at := Some (w_clock w1) |>) w1).
  assert (Hok2 : constraints_ok (w_db (put_w Toutbox_events i (e <| ob_published_at := Some (w_clock w1) |>) w1)))
    by (by apply constraints_ok_set).
  split; [unfold flush; by rewrite bool_decide_true|]. split; [done|]. rewrite put_w_eq, Hc1, Hk1.
  split; [done|]. unfold deliveries_for. by rewrite put_w_ne.
Qed.

Section DispatchProps.
Context (fault : uuid -> M unit) (exn_str : exn -> string).

(** An event the database accepts is published once: it gets exactly one new
    pending delivery per active endpoint of its organization that subscribes to its
    type, none when it is internal, it is marked published, no other event changes,
    and it is never due again. *)
Theorem dispatch_publishes_once i (e : outbox_event) w :
  constraints_ok (w_db w) -> deliveries_free w ->
  w_db w Toutbox_events !! i = Some e -> fault i = mret tt ->
  let e' := e <| ob_published_at := Some (w_clock w) |> in
  exists w', dispatch_one fault exn_str i w = (Ok [(ob_event_type e, ob_payload e)], w') /\
    constraints_ok (w_db w') /\ w_db w' Toutbox_events = <[i := e']> (w_db w Toutbox_events) /\
    deliveries_for i w' ≡ₚ
      ((fun r => new_delivery (w_clock w) (fst r) (default 0%N (ob_organization_id e)) i e) <$> audience e w) ++
      deliveries_for i w /\
    (ob_audience e = AUDIENCE_INTERNAL -> audience e w = []) /\
    forall t, outbox_due t i e' = false.
Proof.
  intros Hok Hf He Hfault e'. unfold dispatch_one. run. rewrite_row He.
  destruct (publish_run i e w Hf Hok) as (w' & E & Hok' & Htab & Hdel). exists w'. rewrite Hfault.
  split; [|split; [done|split; [done|split; [done|split]]]].
  - apply try_ok. erewrite run_ok; [done|]. apply savepoint_ok; [|done]. by rewrite (run_ok _ _ _ _ _ E).
  - intros Hint. unfold audience. rewrite Hint. by destruct (ob_organization_id e).
  - intros t. unfold outbox_due. simpl. done.
Qed.

Lemma failed_event_spec t error (e : outbox_event) :
  (0 <= ob_attempts e)%Z ->
  exists e', failed_event t error e = Some e' /\ ob_attempts e' = (ob_attempts e + 1)%Z /\
    ob_published_at e' = ob_published_at e /\
    if (8 <=? ob_attempts e + 1)%Z then forall t', outbox_due t' 0%N e' = false
    else ob_dead_at e' = ob_dead_at e /\
         (t + 5 * SECOND <= ob_next_attempt_at e' <= t + HOUR)%Z.
Proof.
  intros Ha. unfold failed_event, OUTBOX_MAX_ATTEMPTS. simpl. destruct (8 <=? ob_attempts e + 1)%Z.
  { eexists. split; [done|]. split; [done|]. split; [done|]. intros t'.
    unfold outbox_due. simpl. by rewrite andb_false_r. }
  destruct (backoff_defined OUTBOX_BACKOFF_SECONDS (ob_attempts e + 1)) as (s & -> & Hs); [done|lia|].
  assert (5 <= s <= 3600)%Z.
  { unfold OUTBOX_BACKOFF_SECONDS in Hs.
    repeat (apply elem_of_cons in Hs as [->|Hs]; [lia|]). by apply not_elem_of_nil in Hs. }
  eexists. split; [done|]. do 3 (split; [done|]). simpl. unfold HOUR, SECOND. lia.
Qed.

(** An event the database refuses is retried and finally buried: nothing it had
    fanned out remains, only its own row changes, it counts one more attempt, and
    it is either scheduled again between five seconds and an hour ahead or, at the
    eighth attempt, never due again. *)
Theorem failed_dispatch_retries_or_dies i (e : outbox_event) x w :
  constraints_ok (w_db w) -> deliveries_free w ->
  w_db w Toutbox_events !! i = Some e -> (0 <= ob_attempts e)%Z ->
  (forall w', fault i w' = (Err x, w')) ->
  exists e' w', dispatch_one fault exn_str i w = (Ok [], w') /\
    w_db w' Twebhook_deliveries = w_db w Twebhook_deliveries /\
    w_db w' Toutbox_events = <[i := e']> (w_db w Toutbox_events) /\
    ob_attempts e' = (ob_attempts e + 1)%Z /\ ob_published_at e' = ob_published_at e /\
    if (8 <=? ob_attempts e + 1)%Z then forall t, outbox_due t i e' = false
    else ob_dead_at e' = ob_dead_at e /\
         (w_clock w + 5 * SECOND <= ob_next_attempt_at e' <= w_clock w + HOUR)%Z.
Proof.
  intros Hok Hf He Ha Hfault. unfold dispatch_one. run. rewrite_row He.
  destruct (publish_run i e w Hf Hok) as (w1 & E & _). set (w2 := w1 <| w_db := w_db w |>).
  assert (Hclk : w_clock w2 = w_clock w).
  { pose proof (env_clock (publish i e) w) as Hc. rewrite E in Hc. apply Hc.
    unfold publish, fan_out, add_delivery. solve_stable. }
  assert (Es : savepoint (_ ← publish i e; fault i) w = (Err x, w2)).
  { apply savepoint_err. rewrite (run_ok _ _ _ _ _ E). apply Hfault. }
  destruct (failed_event_spec (w_clock w2) (exn_str x) e Ha) as (e' & Ef & F).
  exists e', (put_w Toutbox_events i e' w2). split.
  - erewrite try_err; [|exact (run_err _ _ _ _ _ Es)|done].
    unfold _outbox_failure. run. rewrite Ef. by run.
  - split; [by rewrite put_w_ne|]. split; [by rewrite put_w_eq|]. by rewrite Hclk in F.
Qed.
End DispatchProps.

(** ** Concrete runs *)

(** Organization 1 on the pro plan, its January period just ended, with 1500 calls
    counted in January against an included 1000. *)
Definition month_start : instant := days 19723.
Definition january : subscription :=
  Subscription 1 11 "active" month_start (month_start + days 30) None false None None None None
    (Snapshot (Some "pro") (Some "Pro") (Some 100000%Z) (Some "PHP") (Some "month") [] [] [])
    [] month_start.
Definition closing : world :=
  world_of (set_table (set_table demo_db
      Tsubscriptions (rows_of Tsubscriptions [(20%N, january)]))
      Tusage_counters (rows_of Tusage_counters
        [(counter_key 1 "api_calls" 19723, UsageCounter 1500 None None)]))
  <| w_clock := (month_start + days 30)%Z |>.

Definition nobody (_ : uuid) : bool := false.

Lemma renewals_advance_due_only_witness :
  exists n w', @advance_recurring_billing nobody entitlement_service closing = (Ok n, w') /\
    w_durable w' = w_db w' /\
    exists s', w_db w' Tsubscriptions !! 20%N = Some s' /\ advanced january s'.
Proof.
  assert (Hok : constraints_ok (w_db closing)) by by_compute.
  destruct (renewals_advance_due_only (H := entitlement_service) nobody closing Hok)
    as (n & w' & E & _ & Hd & Hs).
  exists n, w'. split; [exact E|]. split; [exact Hd|].
  exact (Hs 20%N january eq_refl).
Defined.

(** A month is billed twice when two 30-day periods start in it: January's overage,
    2500 cents, is on the invoice of the period from January 1 and again on that of
    the period from January 31. *)
Definition overage_amounts (w : world) : list Z :=
  map (fun r => il_amount_cents r.2)
    (rows_where Tinvoice_lines (fun _ l => String.eqb (il_kind l) "overage") (w_db w Tinvoice_lines)).

Definition renewed_once : world := (@advance_recurring_billing nobody entitlement_service closing).2.
Definition renewed_twice : world :=
  (@advance_recurring_billing nobody entitlement_service
     (renewed_once <| w_clock := (month_start + days 60)%Z |>)).2.

Lemma january_overage_billed_twice :
  overage_amounts renewed_once = [2500%Z] /\ overage_amounts renewed_twice = [2500%Z; 2500%Z].
Proof. split; vm_compute; reflexivity. Qed.

(** An endpoint of organization 1, and an event of its that waits. *)
Definition waiting_event : outbox_event :=
  OutboxEvent "invoice" 50 (Some 1%N) "billing.invoice.paid.v1" [] (NOW - HOUR)%Z None
    AUDIENCE_PUBLIC None 0 (NOW - HOUR)%Z None.
Definition publishing : world :=
  world_of (set_table (set_table demo_db
      Twebhook_endpoints (rows_of Twebhook_endpoints [(40%N, demo_endpoint)]))
      Toutbox_events (rows_of Toutbox_events [(60%N, waiting_event)])).

Lemma nothing_delivered : deliveries_free publishing.
Proof. intros j _. reflexivity. Qed.

Definition healthy (_ : uuid) : M unit := mret tt.
Definition broken (_ : uuid) : M unit := raise (PyError "DataError").

Lemma dispatch_publishes_once_witness :
  exists w', dispatch_one healthy (fun _ => "") 60%N publishing =
      (Ok [("billing.invoice.paid.v1", [])], w') /\
    length (deliveries_for 60%N w') = 1.
Proof.
  destruct (dispatch_publishes_once healthy (fun _ => "") 60%N waiting_event publishing
    ltac:(by_compute) nothing_delivered eq_refl eq_refl) as (w' & E & _ & _ & Hd & _).
  exists w'. split; [exact E|]. rewrite Hd. reflexivity.
Defined.

Lemma failed_dispatch_retries_or_dies_witness :
  exists e' w', dispatch_one broken (fun _ => "") 60%N publishing = (Ok [], w') /\
    ob_attempts e' = 1%Z.
Proof.
  destruct (failed_dispatch_retries_or_dies broken (fun _ => "") 60%N waiting_event
    (PyError "DataError") publishing ltac:(by_compute) nothing_delivered eq_refl ltac:(done)
    ltac:(reflexivity)) as (e' & w' & E & _ & _ & Ha & _).
  exists e', w'. split; [exact E|exact Ha].
Defined.
