(* ===== verification/Deliveries.v ===== *)
(** The queue of outgoing webhooks drains: run again and again, the delivery job of
    the worker settles every delivery, as long as each batch can be committed.

    What a batch needs for that is in the hypotheses: [post], the HTTP client, touches
    nothing of ours and answers, or fails with an [HTTPError], with a text a column can
    hold; the secrets of the endpoints decrypt; no other worker holds a row.  One
    answer with a NUL character among its first 500 breaks the second
    ([nul_answer_aborts_batch]): the batch is rolled back with everything else in it,
    and is the same batch at the next run. *)

From S2P Require Import Prelude Text Json Errors Events Tables Store Cache Session Fixtures.
From S2P Require Import Interfaces Subscriptions Billing Webhooks Worker.

(** [await asyncio.sleep], seen from the database. *)
Definition wait (t : Z) : M unit := fun w => (Ok tt, w <| w_clock := (w_clock w + t)%Z |>).

(** The attempts a delivery has left. *)
Definition attempts_left (d : webhook_delivery) : Z :=
  if String.eqb (wd_status d) "pending" then Z.max 1 (Z.min (wd_max_attempts d) MAX_DELIVERY_ATTEMPTS - wd_attempts d) else 0%Z.

Lemma attempts_left_nonneg d : (0 <= attempts_left d)%Z.
Proof. unfold attempts_left. destruct (String.eqb _ _); lia. Qed.

Definition attempts_of (m : gmap (key Twebhook_deliveries) (row Twebhook_deliveries)) : Z :=
  sumZ (fun r : key Twebhook_deliveries * row Twebhook_deliveries => attempts_left r.2) (map_to_list m).
Definition pending_deliveries (w : world) : list (uuid * webhook_delivery) :=
  rows_where Twebhook_deliveries (fun _ (d : webhook_delivery) => String.eqb (wd_status d) "pending") (w_db w Twebhook_deliveries).
Definition backlog (w : world) : Z := attempts_of (w_db w Twebhook_deliveries).

Lemma attempts_insert i (d' : webhook_delivery) (m : gmap (key Twebhook_deliveries) (row Twebhook_deliveries)) : m !! i = None ->
  attempts_of (<[i := d']> m) = (attempts_left d' + attempts_of m)%Z.
Proof. intros Hi. unfold attempts_of. by rewrite (sumZ_Permutation _ _ _ (map_to_list_insert m i d' Hi)). Qed.

Lemma attempts_replace i (d d' : webhook_delivery) (m : gmap (key Twebhook_deliveries) (row Twebhook_deliveries)) : m !! i = Some d ->
  attempts_of (<[i := d']> m) = (attempts_of m - attempts_left d + attempts_left d')%Z.
Proof.
  intros Hd. pose proof (attempts_insert i d (delete i m) (lookup_delete_eq m i)) as E1.
  pose proof (attempts_insert i d' (delete i m) (lookup_delete_eq m i)) as E2.
  rewrite insert_delete_id in E1 by done. rewrite insert_delete_eq in E2. etrans; [exact E2|]. rewrite E1. lia.
Qed.

Lemma backlog_bounded w :
  (forall i (d : webhook_delivery), w_db w Twebhook_deliveries !! i = Some d -> wd_status d = "pending" -> (0 <= wd_attempts d)%Z) ->
  (backlog w <= 6 * Z.of_nat (length (pending_deliveries w)))%Z.
Proof.
  intros H. unfold backlog, attempts_of, pending_deliveries, rows_where.
  assert (Hin : Forall (fun r : key Twebhook_deliveries * row Twebhook_deliveries => wd_status r.2 = "pending" -> (0 <= wd_attempts r.2)%Z)
    (map_to_list (w_db w Twebhook_deliveries)))
    by (apply Forall_forall; intros [i d] Hr; apply (H i), elem_of_map_to_list, Hr).
  clear H. revert Hin. generalize (map_to_list (w_db w Twebhook_deliveries)). intros l.
  induction 1 as [|[i d] l Hd Hl IH]; [done|]. rewrite filter_cons. unfold sumZ in *. cbn [foldr fst snd] in *.
  unfold attempts_left at 1. destruct (String.eqb_spec (wd_status d) "pending") as [E|]; case_decide as Hc.
  - specialize (Hd E). change MAX_DELIVERY_ATTEMPTS with 6%Z. cbn [length]. lia.
  - by destruct Hc.
  - done.
  - lia.
Qed.

Lemma backlog_nonneg w : (0 <= backlog w)%Z.
Proof. apply sumZ_nonneg. intros r _. apply attempts_left_nonneg. Qed.

Lemma sumZ_zero {A} (f : A -> Z) l x : (forall y, (0 <= f y)%Z) -> sumZ f l = 0%Z -> x ∈ l -> f x = 0%Z.
Proof.
  intros Hf. unfold sumZ. induction l as [|y l IH]; [intros _ H; by apply elem_of_nil in H|]. cbn [foldr]. intros Hs.
  pose proof (Hf y). pose proof (sumZ_nonneg f l (fun y _ => Hf y)) as Hl. unfold sumZ in Hl.
  intros [->|Hin]%elem_of_cons; [lia|]. apply IH; [lia|done].
Qed.

Lemma sumZ_nonzero {A} (f : A -> Z) l : sumZ f l <> 0%Z -> exists x, x ∈ l /\ f x <> 0%Z.
Proof.
  unfold sumZ. induction l as [|y l IH]; [done|]. cbn [foldr]. intros Hs. destruct (decide (f y = 0%Z)) as [Hz|Hnz].
  - destruct IH as (x & Hx & Hf); [lia|]. exists x. split; [by right|done].
  - exists y. split; [left|done].
Qed.

Lemma attempts_left_zero (d : webhook_delivery) : attempts_left d = 0%Z <-> wd_status d <> "pending".
Proof. unfold attempts_left. destruct (String.eqb_spec (wd_status d) "pending"); split; intros; [lia|done|done|done]. Qed.

Lemma backlog_settled w i (d : webhook_delivery) : backlog w = 0%Z -> w_db w Twebhook_deliveries !! i = Some d -> wd_status d <> "pending".
Proof.
  intros Hz Hd. apply attempts_left_zero. refine (sumZ_zero _ _ (i, d) _ Hz _); [intros; apply attempts_left_nonneg|].
  by apply elem_of_map_to_list.
Qed.

Lemma backlog_pending w : backlog w <> 0%Z ->
  exists i (d : webhook_delivery), w_db w Twebhook_deliveries !! i = Some d /\ wd_status d = "pending".
Proof.
  intros (r & Hr & Hn)%sumZ_nonzero. exists r.1, r.2. split; [apply elem_of_map_to_list; by destruct r|].
  destruct (decide (wd_status r.2 = "pending")) as [|Hne]; [done|]. by apply attempts_left_zero in Hne.
Qed.

Section Drain.
Context (decrypt_secret : string -> result string) (sign_payload : jobj -> string -> Z -> string).
Context (post : string -> jobj -> string -> M http_outcome) (locked : uuid -> bool).
Context (post_outside : forall url body header, Stable outside (post url body header)).
Context (post_answers : forall url body header w, exists o, (post url body header w).1 = Ok o /\ storable (outcome_text o) = true).
Context (unlocked : forall i, locked i = false).

(** The scheduler: the job runs after each wait. *)
Fixpoint ticks (waits : list Z) : M unit :=
  match waits with
  | [] => mret tt
  | t :: waits => _ ← wait t; _ ← deliver_webhooks locked decrypt_secret sign_payload post; ticks waits
  end.

Definition waiting_ok (t : instant) (d : webhook_delivery) : Prop :=
  wd_status d = "pending" -> (0 <= wd_attempts d)%Z /\ (wd_next_attempt_at d <= t + 6 * HOUR)%Z.

Record queue_ok (w : world) : Prop := QueueOk {
  queue_constraints : constraints_ok (w_db w);
  queue_secrets : forall i (e : webhook_endpoint), w_db w Twebhook_endpoints !! i = Some e ->
    exists s, decrypt_secret (we_secret_encrypted e) = Ok s;
  queue_waiting : forall i (d : webhook_delivery), w_db w Twebhook_deliveries !! i = Some d -> waiting_ok (w_clock w) d
}.

(** What one attempt makes of a pending delivery. *)
Definition progressed (t : instant) (d d' : webhook_delivery) : Prop :=
  (attempts_left d' < attempts_left d)%Z /\ waiting_ok t d' /\ wd_status d' ∈ DELIVERY_STATUSES.

Lemma settled_progressed t (d d' : webhook_delivery) : wd_status d = "pending" -> wd_status d' <> "pending" ->
  wd_status d' ∈ DELIVERY_STATUSES -> progressed t d d'.
Proof.
  intros Hd Hd' Hin. split_and!; [|done|done]. unfold attempts_left. rewrite Hd, (proj2 (String.eqb_neq _ _) Hd'). simpl. lia.
Qed.

Lemma answered_progressed t o (d d' : webhook_delivery) : wd_status d = "pending" -> (0 <= wd_attempts d)%Z ->
  answered t o d d' -> progressed t d d'.
Proof.
  intros Hd Ha. unfold answered. destruct (accepted o).
  - intros [E _]. apply settled_progressed; rewrite ?E; [done|done|by_compute].
  - unfold attempted. intros (Eatt & Emax & H). destruct (_ <=? _)%Z eqn:El.
    + apply settled_progressed; rewrite ?H; [done|done|by_compute].
    + destruct H as [E Hn]. split_and!; [|intros _; lia|rewrite E; by_compute].
      unfold attempts_left. rewrite Hd, E. apply Z.leb_gt in El. change MAX_DELIVERY_ATTEMPTS with 6%Z.
      rewrite Emax. simpl. lia.
Qed.

(** A write to the row of one delivery. *)
Definition moved (i : uuid) (d d' : webhook_delivery) (w w' : world) : Prop :=
  w_db w' = set_table (w_db w) Twebhook_deliveries (<[i := d']> (w_db w Twebhook_deliveries)) /\ w_clock w' = w_clock w.

Lemma moved_queue i (d d' : webhook_delivery) w w' : queue_ok w -> w_db w Twebhook_deliveries !! i = Some d ->
  progressed (w_clock w) d d' -> moved i d d' w w' -> queue_ok w' /\ (backlog w' < backlog w)%Z.
Proof.
  intros [Hc Hs Hw] Hd (Hlt & Hd' & Hin) [E Hclk]. split.
  - split.
    + rewrite E. apply constraints_ok_set; [done|]. apply (check_in_insert Twebhook_deliveries wd_status DELIVERY_STATUSES); [|done].
      exact (proj1 (constraints_ok_table _) Hc Twebhook_deliveries).
    + rewrite E, set_table_ne by done. exact Hs.
    + rewrite E, set_table_eq, Hclk. intros j dj. destruct (decide (j = i)) as [->|Hne].
      * rewrite lookup_insert_eq. by intros [= <-].
      * rewrite lookup_insert_ne by done. apply Hw.
  - unfold backlog. rewrite E, set_table_eq. eapply Z.le_lt_trans; [apply Z.eq_le_incl; exact (attempts_replace i d d' _ Hd)|]. lia.
Qed.

Lemma deliver_run i (d : webhook_delivery) w : queue_ok w -> w_db w Twebhook_deliveries !! i = Some d -> wd_status d = "pending" ->
  exists b d' w', deliver decrypt_secret sign_payload post i w = (Ok b, w') /\ progressed (w_clock w) d d' /\ moved i d d' w w'.
Proof.
  intros Hq Hd Hst. destruct (queue_waiting _ Hq i d Hd Hst) as [Ha _].
  assert (Hgone : exists b d' w', (_ ← put Twebhook_deliveries i
      (d <| wd_status := "failed" |> <| wd_last_error := Some "endpoint removed or inactive" |>); mret false) w = (Ok b, w') /\
      progressed (w_clock w) d d' /\ moved i d d' w w').
  { run. do 3 eexists. split; [reflexivity|]. split; [|done]. apply settled_progressed; [done|done|by_compute]. }
  unfold deliver. run. rewrite_row Hd. run.
  destruct (w_db w Twebhook_endpoints !! wd_endpoint_id d) as [e|] eqn:He; [|exact Hgone].
  destruct (we_is_active e); [|exact Hgone]. run. destruct (queue_secrets _ Hq _ _ He) as (secret & ->).
  set (body := build_envelope i d (w_clock w)). set (hd := "t=" +:+ _).
  destruct (post_answers (we_url e) body hd w) as (o & Ho & Hs). pose proof (post_outside (we_url e) body hd w) as [_ Hout].
  rewrite (run_ok _ _ _ _ _ (ran _ _ _ Ho)). set (w1 := (post (we_url e) body hd w).2) in *.
  destruct (answer_run i d o w1 Ha Hst Hs) as (d' & E & Hd'). rewrite Hout in E, Hd'. cbn [w_clock upd] in E, Hd'.
  rewrite Hout. exists (accepted o), d'. eexists. split; [exact E|]. split; [by apply (answered_progressed _ o)|done].
Qed.

(** The rows a run of the job keeps. *)
Definition same_queue (w w' : world) : Prop :=
  w_clock w' = w_clock w /\ (forall i, is_Some (w_db w' Twebhook_deliveries !! i) <-> is_Some (w_db w Twebhook_deliveries !! i)).

Lemma moved_same_queue i (d d' : webhook_delivery) w w' : w_db w Twebhook_deliveries !! i = Some d -> moved i d d' w w' -> same_queue w w'.
Proof.
  intros Hd [E Hclk]. split; [done|]. intros j. rewrite E, set_table_eq. destruct (decide (j = i)) as [->|Hne].
  - rewrite lookup_insert_eq. split; intros _; [by exists d|by eexists].
  - by rewrite lookup_insert_ne.
Qed.

Lemma deliver_all_run ids w : queue_ok w -> NoDup ids ->
  (forall i, i ∈ ids -> exists d : webhook_delivery, w_db w Twebhook_deliveries !! i = Some d /\ wd_status d = "pending") ->
  exists n w', deliver_all decrypt_secret sign_payload post ids w = (Ok n, w') /\ queue_ok w' /\ same_queue w w' /\
    (backlog w' <= backlog w - Z.of_nat (length ids))%Z.
Proof.
  intros Hq Hnd. revert w Hq. induction Hnd as [|i ids Hi Hnd IH]; intros w Hq Hin.
  { exists 0%Z, w. split; [done|]. split; [done|]. split; [by split|]. simpl. lia. }
  destruct (Hin i ltac:(left)) as (d & Hd & Hst).
  destruct (deliver_run i d w Hq Hd Hst) as (b & d' & w1 & E & Hp & Hm). cbn [deliver_all]. rewrite (run_ok _ _ _ _ _ E).
  destruct (moved_queue i d d' w w1 Hq Hd Hp Hm) as [Hq1 Hlt]. destruct (moved_same_queue i d d' w w1 Hd Hm) as [Hclk1 Hdom1].
  destruct (IH w1 Hq1) as (n & w2 & E2 & Hq2 & [Hclk2 Hdom2] & Hle).
  { intros j Hj. destruct (Hin j ltac:(by right)) as (dj & Hdj & Hstj). exists dj. split; [|done].
    destruct Hm as [Em _]. rewrite Em, set_table_eq. assert (i <> j) by (by intros ->). by apply (put_other Twebhook_deliveries). }
  rewrite (run_ok _ _ _ _ _ E2). do 2 eexists. split; [reflexivity|]. split; [done|]. split.
  - split; [by rewrite Hclk2|]. intros j. by rewrite Hdom2.
  - cbn [length]. lia.
Qed.

Lemma claim_one (n : nat) order (rows : list (uuid * webhook_delivery)) r : (forall l, order l ≡ₚ l) -> (0 < n)%nat ->
  r ∈ rows -> claim locked n order rows <> [].
Proof.
  intros Ho Hn Hin E. unfold claim in E. apply fmap_nil_inv in E.
  assert (H : r ∈ order (filter (fun r : uuid * webhook_delivery => locked r.1 = false) rows))
    by (rewrite Ho; apply list_elem_of_filter; split; [apply unlocked|done]).
  destruct (order _) as [|x l]; [by apply elem_of_nil in H|]. destruct n; [lia|done].
Qed.

Lemma tick_run w : queue_ok w -> exists n w', deliver_webhooks locked decrypt_secret sign_payload post w = (Ok n, w') /\
  queue_ok w' /\ same_queue w w' /\ (backlog w' <= backlog w)%Z /\
  ((exists i (d : webhook_delivery), w_db w Twebhook_deliveries !! i = Some d /\ delivery_due (w_clock w) i d = true) ->
   (backlog w' < backlog w)%Z).
Proof.
  intros Hq. unfold deliver_webhooks, with_session, due_deliveries. run. set (ids := claim _ _ _ _).
  assert (Hids : forall i, i ∈ ids -> exists d : webhook_delivery, w_db w Twebhook_deliveries !! i = Some d /\ wd_status d = "pending").
  { intros i Hi. apply elem_of_claim in Hi as (d & Hd); [|apply order_by_perm]. apply (elem_of_rows_where Twebhook_deliveries) in Hd as [Hd Hdue].
    exists d. split; [done|]. apply andb_true_iff in Hdue as [Hdue _]. by apply String.eqb_eq. }
  destruct (deliver_all_run ids w Hq) as (n & w1 & E & Hq1 & Hs & Hle); [|done|].
  { apply claim_NoDup; [apply order_by_perm|]. apply (NoDup_fst_rows_where Twebhook_deliveries). }
  rewrite (run_ok _ _ _ _ _ E), run_commit by apply (queue_constraints _ Hq1). do 2 eexists. split; [reflexivity|].
  destruct Hq1 as [H1 H2 H3]. split; [by split|]. split; [exact Hs|]. assert (Hle' : (backlog w1 <= backlog w)%Z) by lia. split; [exact Hle'|].
  intros (i & d & Hd & Hdue). cut (backlog w1 < backlog w)%Z; [intros Hb; exact Hb|].
  assert (ids <> []); [|destruct ids; [done|cbn [length] in Hle; lia]].
  apply (claim_one DELIVERY_BATCH _ _ (i, d)); [apply order_by_perm|unfold DELIVERY_BATCH; lia|]. by apply (elem_of_rows_where Twebhook_deliveries).
Qed.

Lemma ticks_run waits w : queue_ok w -> Forall (fun t => 6 * HOUR <= t)%Z waits -> (backlog w <= Z.of_nat (length waits))%Z ->
  exists w', ticks waits w = (Ok tt, w') /\ queue_ok w' /\ backlog w' = 0%Z /\
    (forall i, is_Some (w_db w' Twebhook_deliveries !! i) <-> is_Some (w_db w Twebhook_deliveries !! i)).
Proof.
  intros Hq Hw. revert w Hq. induction Hw as [|t waits Ht Hw IH]; intros w Hq Hlen.
  { exists w. pose proof (backlog_nonneg w). simpl in *. split; [done|]. split; [done|]. split; [lia|done]. }
  cbn [ticks]. unfold wait. set (w0 := w <| w_clock := (w_clock w + t)%Z |>).
  assert (Hq0 : queue_ok w0).
  { destruct Hq as [H1 H2 H3]. split; [done|exact H2|]. intros i d Hd Hst. destruct (H3 i d Hd Hst). split; [done|]. change (w_clock w0) with (w_clock w + t)%Z. unfold HOUR, MINUTE, SECOND in *. lia. }
  destruct (tick_run w0 Hq0) as (n & w1 & E & Hq1 & [_ Hdom] & Hle & Hlt). change (backlog w0) with (backlog w) in *.
  assert (Hb : (backlog w1 <= Z.of_nat (length waits))%Z).
  { cbn [length] in Hlen. destruct (decide (backlog w = 0%Z)) as [Hz|Hnz]; [lia|]. enough (backlog w1 < backlog w)%Z by lia. apply Hlt.
    destruct (backlog_pending w Hnz) as (i & d & Hd & Hst). exists i, d. split; [done|]. unfold delivery_due. rewrite Hst. simpl.
    apply Z.leb_le. destruct (queue_waiting _ Hq i d Hd Hst). change (w_clock w0) with (w_clock w + t)%Z. lia. }
  destruct (IH w1 Hq1 Hb) as (w2 & E2 & Hq2 & Hz & Hdom2). exists w2.
  unfold mbind at 1, M_bind at 1. fold w0. rewrite (run_ok _ _ _ _ _ E). split; [done|]. split; [done|]. split; [done|].
  intros i. rewrite Hdom2. exact (Hdom i).
Qed.

(** C22: deliveries settle: where every secret decrypts, every post answers or fails
    with an [HTTPError] whose text has no NUL, and no other worker holds a delivery,
    then, if the job runs after each of a sequence of waits of six hours or more, as
    many as six for each pending delivery, every run commits, none of the deliveries is
    lost, and each ends delivered, failed or exhausted, whatever the statuses and texts
    of the answers. *)
Theorem deliveries_settle waits w : queue_ok w -> Forall (fun t => 6 * HOUR <= t)%Z waits ->
  (6 * length (pending_deliveries w) <= length waits)%nat ->
  exists w', ticks waits w = (Ok tt, w') /\ constraints_ok (w_db w') /\
    forall i (d : webhook_delivery), w_db w Twebhook_deliveries !! i = Some d ->
      exists d' : webhook_delivery, w_db w' Twebhook_deliveries !! i = Some d' /\ wd_status d' ∈ ["delivered"; "failed"; "exhausted"].
Proof.
  intros Hq Hw Hlen. destruct (ticks_run waits w Hq Hw) as (w' & E & Hq' & Hz & Hdom).
  { etrans; [apply backlog_bounded; intros i d Hd Hst; by destruct (queue_waiting _ Hq i d Hd Hst)|]. lia. }
  exists w'. split; [done|]. split; [by apply queue_constraints|]. intros i d Hd. destruct (proj2 (Hdom i) (mk_is_Some _ _ Hd)) as [d' Hd'].
  exists d'. split; [done|]. pose proof (proj1 (constraints_ok_table _) (queue_constraints _ Hq') Twebhook_deliveries i d' Hd') as Hin.
  assert (Hne : wd_status d' <> "pending") by (by apply (backlog_settled w' i)). simpl in Hin. unfold DELIVERY_STATUSES in Hin.
  apply elem_of_cons in Hin as [?|Hin]; [by destruct Hne|exact Hin].
Qed.
End Drain.

(** ** Witness *)

Lemma delivering_queue : queue_ok plain delivering.
Proof.
  split; [by_compute|by intros i e _; eexists|]. intros i d Hd _.
  apply (lookup_rows_of Twebhook_deliveries) in Hd; [|by_compute].
  apply list_elem_of_singleton in Hd as [= _ ->]. split; vm_compute; discriminate.
Qed.

Lemma refuse_answers url body header w : exists o, (refuse url body header w).1 = Ok o /\ storable (outcome_text o) = true.
Proof. eexists. by split. Qed.
Lemma refuse_outside url body header : Stable outside (refuse url body header).
Proof. intros w. reflexivity. Qed.

(** Six refusals: the delivery is there, and waits no longer. *)
Lemma deliveries_settle_witness : exists w' d',
  ticks plain no_signature refuse nobody (replicate 6 (6 * HOUR)%Z) delivering = (Ok tt, w') /\
  w_db w' Twebhook_deliveries !! 71%N = Some d' /\ wd_status d' ∈ ["delivered"; "failed"; "exhausted"].
Proof.
  destruct (deliveries_settle plain no_signature refuse nobody refuse_outside refuse_answers (fun _ => eq_refl)
    (replicate 6 (6 * HOUR)%Z) delivering delivering_queue) as (w' & E & _ & H).
  - apply Forall_replicate. lia.
  - vm_compute. lia.
  - destruct (H 71%N demo_delivery ltac:(vm_compute; reflexivity)) as (d' & Hd' & Hst). exists w', d'. split; [exact E|]. split; [exact Hd'|exact Hst].
Defined.

(** ** A batch that cannot be committed *)

Definition nul_answer : http_outcome := HttpResponse 200 ("ok" +:+ String Ascii.zero "").
Definition nul_post (url : string) (_ : jobj) (_ : string) : M http_outcome :=
  mret (if String.eqb url "https://acme.test/hook" then nul_answer else HttpResponse 200 "ok").
Definition two_deliveries : world :=
  let w := world_of (set_table (set_table demo_db
    Twebhook_endpoints (rows_of Twebhook_endpoints
      [(70%N, demo_endpoint); (80%N, demo_endpoint <| we_url := "https://other.test/hook" |>)]))
    Twebhook_deliveries (rows_of Twebhook_deliveries
      [(71%N, demo_delivery); (81%N, demo_delivery <| wd_endpoint_id := 80%N |>)])) in
  w <| w_durable := w_db w |>.

(** One endpoint answers 200 with a NUL in its text: the job raises, and neither
    delivery of the batch is changed, although the other endpoint has its copy; with
    the NUL away both are delivered. *)
Lemma nul_answer_aborts_batch :
  (let '(r, w') := deliver_webhooks nobody plain no_signature nul_post two_deliveries in
   r = Err (PyError "DBAPIError") /\ w_db w' Twebhook_deliveries = w_db two_deliveries Twebhook_deliveries) /\
  (let '(r, w') := deliver_webhooks nobody plain no_signature (fun _ _ _ => mret (HttpResponse 200 "ok")) two_deliveries in
   r = Ok 2%Z).
Proof. vm_compute. split; [split|]; reflexivity. Qed.
