(* ===== verification/Retention.v ===== *)
(** The housekeeping jobs (worker/jobs.py): rebuilding the month's counters from
    the events, and purging what is past its retention. *)

From S2P Require Import Prelude Calendar Json Errors Events Tables Store Cache Session Fixtures Authorization.
From S2P Require Import Interfaces Entitlements Usage Storage Worker.

Definition IDEMPOTENCY_RETENTION_DAYS : Z := 90.
Definition DELIVERY_RETENTION_DAYS : Z := 30.
Definition EXHAUSTED_DELIVERY_RETENTION_DAYS : Z := 90.
Definition OUTBOX_RETENTION_DAYS : Z := 7.

(** ** Rebuilding counters *)

Definition event_key (ev : usage_event) : key Tusage_counters :=
  counter_key (ue_organization_id ev) (ue_metric ev) (_month_bucket (ue_occurred_at ev)).

(** [occurred_at >= date_trunc('month', now())]. *)
Definition this_month (t : instant) (_ : key Tusage_events) (ev : usage_event) : bool :=
  (midnight (_month_bucket t) <=? ue_occurred_at ev)%Z.

Definition latest (l : list instant) : option instant :=
  match l with [] => None | t :: l => Some (foldr Z.max t l) end.

(** The groups of the aggregate: a sum and a maximum each. *)
Definition group_of (k : key Tusage_counters) (events : list (key Tusage_events * row Tusage_events)) :
    list (key Tusage_events * row Tusage_events) :=
  filter (fun r : key Tusage_events * row Tusage_events => event_key r.2 = k) events.
Definition rebuilt (k : key Tusage_counters) (events : list (key Tusage_events * row Tusage_events))
    (existing : option usage_counter) : usage_counter :=
  let group := group_of k events in
  let total := sumZ (fun r : key Tusage_events * row Tusage_events => ue_quantity r.2) group in
  let last := latest ((fun r : key Tusage_events * row Tusage_events => ue_occurred_at r.2) <$> group) in
  match existing with
  | Some c => c <| uc_quantity_total := total |> <| uc_last_event_at := last |>
  | None => UsageCounter total None last
  end.

Definition upsert_counter (events : list (key Tusage_events * row Tusage_events)) (k : key Tusage_counters) : M unit :=
  existing ← session_get Tusage_counters k;
  put Tusage_counters k (rebuilt k events existing).

Definition group_keys (events : list (key Tusage_events * row Tusage_events)) : list (key Tusage_counters) :=
  remove_dups ((fun r : key Tusage_events * row Tusage_events => event_key r.2) <$> events).

Definition rollup_usage : M Z :=
  with_session (
    t ← now;
    events ← select Tusage_events (this_month t);
    _ ← for_each (group_keys events) (upsert_counter events);
    _ ← commit;
    mret 1%Z).

(** ** Retention *)

Definition older (t : instant) (age : Z) (created : instant) : bool := (created <? t - age)%Z.

Definition routine_delivery (t : instant) (_ : key Twebhook_deliveries) (d : webhook_delivery) : bool :=
  negb (String.eqb (wd_status d) "exhausted") && older t (days DELIVERY_RETENTION_DAYS) (wd_created_at d).
Definition exhausted_delivery (t : instant) (_ : key Twebhook_deliveries) (d : webhook_delivery) : bool :=
  String.eqb (wd_status d) "exhausted" && older t (days EXHAUSTED_DELIVERY_RETENTION_DAYS) (wd_created_at d).
Definition published_long_ago (t : instant) (_ : key Toutbox_events) (e : outbox_event) : bool :=
  match ob_published_at e with Some p => older t (days OUTBOX_RETENTION_DAYS) p | None => false end.
Definition stale_upload (t : instant) (ttl : Z) (_ : key Tstored_files) (f : stored_file) : bool :=
  String.eqb (sf_status f) "pending" && bool_decide (sf_deleted_at f = None) && older t (seconds ttl) (sf_created_at f).

(** [UPDATE ... RETURNING]: the rows, marked deleted. *)
Definition drop_stale : M (list (key Tstored_files * row Tstored_files)) :=
  t ← now;
  s ← get_settings;
  stale ← select Tstored_files (stale_upload t (st_storage_presign_seconds s * 2));
  _ ← for_each stale (fun r : key Tstored_files * row Tstored_files =>
    put Tstored_files r.1 ((r.2 : stored_file) <| sf_deleted_at := Some t |>));
  mret stale.

Definition give_back (r : key Tstored_files * row Tstored_files) : M unit :=
  _ ← adjust_gauge (sf_organization_id (r.2 : stored_file)) "storage_bytes" (- sf_size_bytes r.2) false; mret tt.

Definition purge_expired : M Z :=
  with_session (
    t ← now;
    s ← get_settings;
    _ ← delete_where Twebhook_deliveries (routine_delivery t);
    _ ← delete_where Twebhook_deliveries (exhausted_delivery t);
    _ ← delete_where Toutbox_events (published_long_ago t);
    _ ← delete_where Taudit_logs (fun _ (a : audit_log) => older t (days (st_audit_retention_days s)) (al_created_at a));
    stale ← drop_stale;
    _ ← for_each stale give_back;
    _ ← delete_where Tusage_idempotency_keys (fun _ (k : usage_idempotency_key) =>
          older t (days IDEMPOTENCY_RETENTION_DAYS) (ik_created_at k));
    _ ← commit;
    mret 1%Z).

(** ** The rebuilt counters *)

Lemma upsert_all events keys : forall w, NoDup keys ->
  exists w1, for_each keys (upsert_counter events) w = (Ok tt, w1) /\
    (forall t, t <> Tusage_counters -> w_db w1 t = w_db w t) /\ w_durable w1 = w_durable w /\
    forall k, w_db w1 Tusage_counters !! k =
      if bool_decide (k ∈ keys) then Some (rebuilt k events (w_db w Tusage_counters !! k))
      else w_db w Tusage_counters !! k.
Proof.
  induction keys as [|k keys IH]; intros w Hn; [by exists w|]. apply NoDup_cons in Hn as [Hk Hn].
  simpl. unfold upsert_counter at 1. run.
  destruct (IH (put_w Tusage_counters k (rebuilt k events (w_db w Tusage_counters !! k)) w) Hn) as (w1 & E & Hf & Hd & Hl).
  exists w1. split_and!; [exact E| |done|].
  - intros t Ht. rewrite Hf by done. by rewrite put_w_ne.
  - intros k'. specialize (Hl k'). rewrite put_w_eq in Hl. set (m := w_db w Tusage_counters) in *.
    set (c := rebuilt k events (m !! k)) in *. destruct (decide (@eq (key Tusage_counters) k' k)) as [->|Hne].
    + rewrite bool_decide_eq_false_2 in Hl by done. rewrite bool_decide_eq_true_2 by left.
      etrans; [exact Hl|]. apply (put_same Tusage_counters).
    + assert (Ho : (<[k := c]> m : rows Tusage_counters) !! k' = m !! k') by (by apply (put_other Tusage_counters)).
      etrans; [exact Hl|]. case_bool_decide as Hin.
      * rewrite bool_decide_eq_true_2 by (by right). f_equal. by f_equal.
      * rewrite bool_decide_eq_false_2; [done|]. rewrite elem_of_cons. tauto.
Qed.

(** The month of an event is this one or a later one exactly when it occurred
    since this month began. *)
Lemma this_month_bucket t i (ev : row Tusage_events) :
  this_month t i ev = (_month_bucket t <=? _month_bucket (ue_occurred_at ev))%Z.
Proof.
  unfold this_month, _month_bucket, _month_bucket_at, midnight, date_of. rewrite !Z.add_0_r. apply eq_true_iff_eq. rewrite !Z.leb_le.
  assert (HD : (0 < DAY)%Z) by done. generalize dependent DAY. intros D HD. set (F := first_of_month (t / D)). split; intros H'.
  - apply first_of_month_floor. apply Z.div_le_lower_bound; lia.
  - pose proof (first_of_month_le (ue_occurred_at ev / D)). pose proof (Z.mul_div_le (ue_occurred_at ev) D HD). nia.
Qed.

Lemma group_is_bucket org metric p t m :
  let k := counter_key org metric p in
  group_of k (rows_where Tusage_events (this_month t) m) =
    if (p <? _month_bucket t)%Z then [] else rows_where Tusage_events (in_bucket k) m.
Proof.
  intros k. unfold group_of, rows_where. rewrite list_filter_filter. destruct (p <? _month_bucket t)%Z eqn:E.
  - apply elem_of_nil_inv. intros [i ev] Hin. apply list_elem_of_filter in Hin as [[Hk Hm] _]. simpl in Hk, Hm.
    rewrite this_month_bucket in Hm. unfold event_key, counter_key in Hk. injection Hk as _ _ Hp. apply Is_true_eq_true in Hm. lia.
  - apply list_filter_iff. intros [i ev]. simpl. unfold in_bucket. fold (event_key ev). rewrite this_month_bucket.
    rewrite bool_decide_spec. split; [tauto|]. intros Hk. split; [done|].
    unfold event_key, counter_key in Hk. injection Hk as _ _ Hp. apply Is_true_eq_left. lia.
Qed.

(** The hourly rebuild sets every counter of the current month, or a later
    one, that has events to their sum and to the time of the last of them, keeps
    its soft-limit mark, and changes nothing else: counters of past months and
    counters without events stay as they are. *)
Theorem rollup_rebuilds w n w' :
  rollup_usage w = (Ok n, w') ->
  (forall t, t <> Tusage_counters -> w_db w' t = w_db w t) /\ w_durable w' = w_db w' /\
  forall org metric p,
    let k := counter_key org metric p in
    let events := rows_where Tusage_events (in_bucket k) (w_db w Tusage_events) in
    if (p <? _month_bucket (w_clock w))%Z || bool_decide (events = [])
    then w_db w' Tusage_counters !! k = w_db w Tusage_counters !! k
    else exists c : row Tusage_counters, w_db w' Tusage_counters !! k = Some c /\
      uc_quantity_total c = events_total (w_db w Tusage_events) k /\
      uc_last_event_at c = latest ((fun r : key Tusage_events * row Tusage_events => ue_occurred_at r.2) <$> events) /\
      uc_soft_limit_notified_at c = (w_db w Tusage_counters !! k) ≫= (fun c : row Tusage_counters => uc_soft_limit_notified_at c).
Proof.
  unfold rollup_usage, with_session. run. set (events := rows_where Tusage_events _ _).
  destruct (upsert_all events (group_keys events) w) as (w1 & E & Hf & Hd & Hl); [apply NoDup_remove_dups|].
  rewrite (run_ok _ _ _ _ _ E). unfold commit, flush, mbind, M_bind. destruct (bool_decide (constraints_ok (w_db w1))); [|done].
  intros [= _ <-]. simpl. split_and!; [exact Hf|done|]. intros org metric p. set (k := counter_key org metric p).
  pose proof (group_is_bucket org metric p (w_clock w) (w_db w Tusage_events)) as Hg. fold events in Hg. simpl in Hg. fold k in Hg.
  assert (Hk : k ∈ group_keys events <-> group_of k events <> []).
  { unfold group_keys. rewrite elem_of_remove_dups, list_elem_of_fmap. split.
    - intros ([i ev] & -> & Hin) Hnil. assert (Hin' : (i, ev) ∈ group_of (event_key ev) events)
        by (by apply list_elem_of_filter). simpl in Hnil. rewrite Hnil in Hin'. by apply not_elem_of_nil in Hin'.
    - intros Hne. destruct (group_of k events) as [|[i ev] l] eqn:Eg; [done|]. exists (i, ev).
      assert (Hin : (i, ev) ∈ group_of k events) by (rewrite Eg; left). by apply list_elem_of_filter in Hin as [<- Hin]. }
  specialize (Hl k). destruct (p <? _month_bucket (w_clock w))%Z eqn:Ep; simpl.
  { rewrite bool_decide_eq_false_2 in Hl; [exact Hl|]. rewrite Hk, Hg. tauto. }
  set (bucket := rows_where Tusage_events (in_bucket k) (w_db w Tusage_events)) in *. rewrite Hg in Hk.
  destruct (decide (bucket = [])) as [Eb|Eb].
  - rewrite (bool_decide_eq_true_2 _ Eb). rewrite bool_decide_eq_false_2 in Hl by tauto. exact Hl.
  - rewrite (bool_decide_eq_false_2 _ Eb). rewrite bool_decide_eq_true_2 in Hl by tauto. eexists. split; [exact Hl|].
    unfold rebuilt. rewrite Hg. destruct (w_db w Tusage_counters !! k) eqn:Eo; split_and!; try done; by rewrite_row Eo.
Qed.

(** ** Purging keeps the quota exact *)

Definition size_for (o : uuid) (l : list (key Tstored_files * row Tstored_files)) : Z :=
  sumZ (fun r : key Tstored_files * row Tstored_files =>
    if bool_decide (sf_organization_id r.2 = o) then sf_size_bytes r.2 else 0%Z) l.

Lemma size_for_cons o (k : key Tstored_files) (f : row Tstored_files) l :
  size_for o ((k, f) :: l) = ((if bool_decide (sf_organization_id f = o) then sf_size_bytes f else 0) + size_for o l)%Z.
Proof. done. Qed.

(** Marking the stale files deleted takes their bytes out of what is stored. *)
Lemma drop_all t l : forall w, NoDup l.*1 -> sizes_ok (w_db w) ->
  (forall k (f : row Tstored_files), (k, f) ∈ l -> w_db w Tstored_files !! k = Some f /\ sf_deleted_at f = None) ->
  exists w1, for_each l (fun r : key Tstored_files * row Tstored_files =>
      put Tstored_files r.1 ((r.2 : stored_file) <| sf_deleted_at := Some t |> : row Tstored_files)) w = (Ok tt, w1) /\
    (forall tb, tb <> Tstored_files -> w_db w1 tb = w_db w tb) /\ w_durable w1 = w_durable w /\ w_fresh w1 = w_fresh w /\
    sizes_ok (w_db w1) /\ (forall i, w_db w Tstored_files !! i = None -> w_db w1 Tstored_files !! i = None) /\
    forall o, (stored_bytes (w_db w1) o + size_for o l = stored_bytes (w_db w) o)%Z.
Proof.
  induction l as [|[k f] l IH]; intros w Hn Hs Hl; [exists w; split_and!; try done; intros; simpl; lia|].
  simpl in Hn. apply NoDup_cons in Hn as [Hk Hn]. destruct (Hl k f ltac:(left)) as [Hkf Hd].
  set (f' := f <| sf_deleted_at := Some t |>). set (w' := put_w Tstored_files k f' w).
  assert (E : w_db w' Tstored_files = <[k := f']> (w_db w Tstored_files)) by (apply put_w_eq).
  destruct (IH w' Hn) as (w1 & E1 & Hf & Hdur & Hfr & Hs1 & Hno & Hb).
  - apply (sizes_put (w_db w) _ k f'); [done|by apply (Hs k f)|done].
  - intros j g Hj. destruct (Hl j g ltac:(by right)) as [Hjg Hjd]. split; [|done]. rewrite E.
    apply (put_other Tstored_files); [|done]. intros ->. apply Hk. apply list_elem_of_fmap. by exists (j, g).
  - exists w1. split_and!; [exact E1| |done|done|done| |].
    + intros tb Ht. rewrite Hf by done. by apply put_w_ne.
    + intros i Hi. apply Hno. rewrite E. apply (put_other Tstored_files); [|done]. intros ->.
      assert (@None (row Tstored_files) = Some f) by (etrans; [symmetry; exact Hi|exact Hkf]). done.
    + intros o. pose proof (stored_put_over _ _ o k f f' Hkf E) as Eo.
      assert (K : kept_file o k f' = false) by (unfold kept_file; apply andb_false_r). rewrite K in Eo. clear K.
      assert (K : kept_file o k f = bool_decide (sf_organization_id f = o)) by (unfold kept_file; rewrite Hd; apply andb_true_r).
      rewrite K in Eo. specialize (Hb o).
      rewrite size_for_cons. destruct (bool_decide (sf_organization_id f = o)); lia.
Qed.

(** Giving the bytes back one file at a time. *)
Lemma give_all l : forall w w1,
  (forall k (f : row Tstored_files), (k, f) ∈ l -> (0 <= sf_size_bytes f)%Z) -> (forall o, 0 <= stored_bytes (w_db w) o)%Z ->
  (forall o, storage_gauge (w_db w) o = (stored_bytes (w_db w) o + size_for o l)%Z) ->
  for_each l give_back w = (Ok tt, w1) ->
  (forall tb, tb <> Tusage_counters -> w_db w1 tb = w_db w tb) /\ w_fresh w1 = w_fresh w /\
  forall o, storage_gauge (w_db w1) o = stored_bytes (w_db w1) o.
Proof.
  induction l as [|[k f] l IH]; intros w w1 Hs Hp Hg; simpl.
  - intros [= <-]. split_and!; [done|done|]. intros o. rewrite Hg. simpl. lia.
  - intros H'. apply bind_ok in H' as ([] & w3 & Ha & H'). unfold give_back in Ha.
    apply bind_ok in Ha as (r & w2 & Ha & [= <-]).
    apply adjust_run in Ha as (c & Hc & Ec & Ef & _ & Hf).
    assert (Hm : gauge_moved (sf_organization_id f) (- sf_size_bytes f) (w_db w) (w_db w2)) by (by exists c).
    assert (Hb : forall o, stored_bytes (w_db w2) o = stored_bytes (w_db w) o).
    { intros o. unfold stored_bytes. by rewrite Ef. }
    destruct (IH w2 w1) as (H1 & H2 & H3); [intros; eapply Hs; by right|intros; by rewrite Hb| |exact H'|].
    + intros o. rewrite (gauge_moved_total _ _ _ _ o Hm), Hb. pose proof (Hs k f ltac:(left)) as Hz.
      assert (0 <= size_for o l)%Z.
      { apply sumZ_nonneg. intros [j g] Hin. simpl. pose proof (Hs j g ltac:(by right)). case_bool_decide; lia. }
      pose proof (Hg o) as Ho. rewrite size_for_cons in Ho. specialize (Hp o).
      case_bool_decide as Eo; [subst o; rewrite Ho|]; lia.
    + split_and!; [|congruence|done]. intros tb Ht. rewrite H1 by done. by apply Ef.
Qed.

(** What leaves files and counters alone. *)
Definition calm : relation world := fun w w' =>
  w_db w' Tusage_counters = w_db w Tusage_counters /\ w_db w' Tstored_files = w_db w Tstored_files /\
  w_durable w' = w_durable w /\ w_fresh w' = w_fresh w.

Lemma calm_delete t p : t <> Tusage_counters -> t <> Tstored_files -> forall w, calm w (delete_where t p w).2.
Proof.
  intros H1 H2 w. unfold calm, delete_where. run. simpl. rewrite !set_table_ne by done. done.
Qed.

Lemma good_calm {A B} (m : M A) (f : A -> M B) w : calm w (m w).2 -> files_ok w ->
  (forall a w1, files_ok w1 -> good (f a) w1) -> good (mbind f m) w.
Proof.
  intros (Hc & Hf & Hd & Hn) [H1 H2] Hk. unfold good, mbind, M_bind.
  destruct (m w) as [[a|e] w1]; simpl in *; [|by rewrite Hd, Hn].
  apply Hk. split; [by apply (files_frame (w_fresh w) _ (w_db w)); [lia|..]|by rewrite Hd, Hn].
Qed.

Lemma good_commit {A} (a : A) w : files_ok w -> good (_ ← commit; mret a) w.
Proof.
  intros [H1 H2]. unfold good, commit, flush, mbind, M_bind. by destruct (bool_decide (constraints_ok (w_db w))).
Qed.

Lemma good_session {A} (m : M A) w : good m w -> files_ok (with_session m w).2.
Proof. unfold good, with_session, files_ok. destruct (m w) as [r w1]. by intros [Hd _]. Qed.

Lemma drop_stale_good {B} (f : list (key Tstored_files * row Tstored_files) -> M B) w : files_ok w ->
  (forall l w1, (forall k (g : row Tstored_files), (k, g) ∈ l -> (0 <= sf_size_bytes g)%Z) ->
    sizes_ok (w_db w1) -> (forall o, storage_gauge (w_db w1) o = (stored_bytes (w_db w1) o + size_for o l)%Z) ->
    files_at (w_fresh w1) (w_durable w1) -> (forall i, (w_fresh w1 <= i)%N -> w_db w1 Tstored_files !! i = None) ->
    good (f l) w1) ->
  good (mbind f drop_stale) w.
Proof.
  intros [[[Hs Hg] Hb] Hd] Hk. unfold drop_stale. unfold good. run.
  set (l := rows_where Tstored_files _ _).
  assert (Hl : forall k (g : row Tstored_files), (k, g) ∈ l -> w_db w Tstored_files !! k = Some g /\ sf_deleted_at g = None).
  { intros k g Hin. apply (elem_of_rows_where Tstored_files) in Hin as [Hin Hp]. split; [done|]. unfold stale_upload in Hp.
    apply andb_true_iff in Hp as [Hp _]. apply andb_true_iff in Hp as [_ Hp]. by apply bool_decide_eq_true in Hp. }
  destruct (drop_all (w_clock w) l w) as (w1 & E & Hf & Hdur & Hfr & Hs1 & Hno & Hsum); [|done|exact Hl|].
  { apply NoDup_fst_rows_where. }
  rewrite (run_ok _ _ _ _ _ E). run. apply Hk; [|done| | |].
  - intros k g Hin. apply Hl in Hin as [Hin _]. by apply (Hs k).
  - intros o. rewrite (Hsum o). unfold storage_gauge. rewrite Hf by done. apply Hg.
  - by rewrite Hfr, Hdur.
  - intros i Hi. apply Hno, Hb. lia.
Qed.

Lemma purge_ok w : files_ok w -> files_ok (purge_expired w).2.
Proof.
  intros Hw. apply good_session. apply good_bind; [done|done|]. intros t w0 _ H0 _.
  apply good_bind; [done|done|]. intros s w1' _ H1' _.
  apply good_calm; [by apply calm_delete|done|]. intros _ w1 H1.
  apply good_calm; [by apply calm_delete|done|]. intros _ w2 H2.
  apply good_calm; [by apply calm_delete|done|]. intros _ w3 H3.
  apply good_calm; [by apply calm_delete|done|]. intros _ w4 H4.
  apply drop_stale_good; [done|]. intros l w5 Hl Hs Hg Hd Hb.
  destruct (for_each l give_back w5) as [[[]|e] w6] eqn:E.
  - assert (Hp : forall o, (0 <= stored_bytes (w_db w5) o)%Z).
    { intros o. apply sumZ_nonneg. intros [k g] Hin. apply (elem_of_rows_where Tstored_files) in Hin as [Hin _]. by apply (Hs k). }
    assert (Hgr : Stable grows (for_each l give_back)) by (unfold give_back; solve_stable).
    destruct (Hgr w5) as [Hn Hdur]. rewrite E in Hn, Hdur. simpl in Hn, Hdur.
    pose proof E as E'. apply give_all in E' as (Hf & Hfr & He); [|done..].
    unfold good. rewrite (run_ok _ _ _ _ _ E). apply (good_calm (A := unit)); [by apply calm_delete| |].
    + split; [|rewrite Hdur; by apply (files_later (w_fresh w5))]. split; [split; [|done]|].
      * unfold sizes_ok. by rewrite Hf.
      * intros i Hi. rewrite Hf by done. apply Hb. lia.
    + intros _ w7 H7. by apply good_commit.
  - unfold good. rewrite (run_err _ _ _ _ _ E). split; [|done].
    assert (H : Stable grows (for_each l give_back)) by (unfold give_back; solve_stable).
    destruct (H w5) as [Hn Hdur]. rewrite E in *. simpl in *. rewrite Hdur. by apply (files_later (w_fresh w5)).
Qed.

(** What serves files, and the daily purge. *)
Inductive storage_step : relation world :=
  | storage_request fga_check storage user_id u tenant op w : op_sized op = true ->
      storage_step w (request (run_file_op fga_check storage user_id u tenant op) w).2
  | storage_purge w : storage_step w (purge_expired w).2
  | storage_time t w : storage_step w (w <| w_clock := t |>).

(** C15: from a deployment whose storage gauges show the bytes of the files it
    holds, any sequence of uploads, presigned uploads, completions, deletions and
    daily purges, at whatever times and whatever the bucket answers, keeps every organization's gauge
    equal to the bytes of its pending and ready files: failures release nothing
    twice and an abandoned upload gives its bytes back. *)
Theorem storage_gauge_exact w w' o : files_ok w -> rtc storage_step w w' ->
  storage_gauge (w_db w') o = stored_bytes (w_db w') o.
Proof.
  intros Hw Hs. assert (H : files_ok w'); [|apply H].
  induction Hs as [|w1 w2 w3 [fga storage uid u tenant op w Hop|w|t w] _ IH]; [done|apply IH..].
  - by apply file_op_ok.
  - by apply purge_ok.
  - done.
Qed.

(** A counter that drifted, rebuilt from the month's two events. *)
Definition drifted : world := world_of
  (set_table (set_table demo_db
    Tusage_events (rows_of Tusage_events
      [(1%N, UsageEvent 1 "api_calls" 4 (NOW - HOUR) None []); (2%N, UsageEvent 1 "api_calls" 3 NOW None [])]))
    Tusage_counters (rows_of Tusage_counters
      [(counter_key 1 "api_calls" (_month_bucket NOW), UsageCounter 90 (Some NOW) None)])).

Lemma rollup_rebuilds_witness :
  counter_total (w_db (rollup_usage drifted).2 Tusage_counters) (counter_key 1 "api_calls" (_month_bucket NOW)) = 7%Z.
Proof.
  destruct (rollup_rebuilds drifted 1 (rollup_usage drifted).2) as (_ & _ & H).
  - apply ran. vm_compute. reflexivity.
  - specialize (H 1%N "api_calls" (_month_bucket NOW)). cbv zeta in H.
    assert (E : (_month_bucket NOW <? _month_bucket (w_clock drifted))%Z || bool_decide (rows_where Tusage_events
      (in_bucket (counter_key 1 "api_calls" (_month_bucket NOW))) (w_db drifted Tusage_events) = []) = false)
      by (vm_compute; reflexivity).
    rewrite E in H. destruct H as (c & Hc & Ht & Hlast & _). unfold counter_total.
    rewrite_row Hc. rewrite Ht. vm_compute. reflexivity.
Defined.

(** *** A presigned upload, an upload, and the purge of the first *)

Definition depot : world := world_of
  (set_table (set_table demo_db
    Tmetrics (rows_of Tmetrics [("storage_bytes", Metric "Storage" "gauge" None None None)]))
    Tentitlements (rows_of Tentitlements
      [(30%N, Entitlement 1 "api_access" "addon" true (NOW - days 1) None None None None None)])).
Definition bucket : object_store :=
  ObjectStore (fun _ _ => Ok tt) (fun _ => Ok "data") (fun _ => Ok None) (fun _ => Ok tt) (fun _ => Ok "https://get")
    (fun _ _ => Ok "https://put") true.
Definition keeper : user := User "ops@acme.test" None "Ops" true true None "local" None [].
Definition acme_tenant : tenant_context := TenantContext 1 "acme" false.
Definition file_request (op : file_op) (w : world) : world :=
  (request (run_file_op (fun _ _ _ => None) bucket 7 keeper acme_tenant op) w).2.
Definition reserved_500 : world := file_request (Presign "video.mp4" "video/mp4" 500) depot.
Definition uploaded_100 : world :=
  file_request (Upload true (Some (Some "notes.txt", Some "text/plain", 100%Z))) reserved_500.
Definition next_day : world := uploaded_100 <| w_clock := (NOW + days 1)%Z |>.
Definition purged : world := (purge_expired next_day).2.

Lemma depot_ok : files_ok depot.
Proof.
  assert (H : forall n, files_at n (w_db depot)); [|split; apply H].
  intros n. split; [split|]; [intros k f Hk; by vm_compute in Hk| |done].
  intros o. unfold storage_gauge, stored_bytes. reflexivity.
Qed.

Lemma storage_gauge_exact_witness :
  storage_gauge (w_db uploaded_100) 1 = 600%Z /\ storage_gauge (w_db purged) 1 = 100%Z /\
  storage_gauge (w_db purged) 1 = stored_bytes (w_db purged) 1.
Proof.
  split_and!; [vm_compute; reflexivity|vm_compute; reflexivity|].
  apply (storage_gauge_exact depot purged); [apply depot_ok|].
  eapply rtc_l, rtc_l, rtc_l, rtc_once.
  - by apply (storage_request (fun _ _ _ => None) bucket 7 keeper acme_tenant (Presign "video.mp4" "video/mp4" 500)).
  - by apply (storage_request (fun _ _ _ => None) bucket 7 keeper acme_tenant (Upload true (Some (Some "notes.txt", Some "text/plain", 100%Z)))).
  - apply storage_time.
  - apply storage_purge.
Defined.
