(* ===== verification/Seeds.v ===== *)
(** The system seeds (seeds/system_seed.py): the permission catalog and the system
    roles, written into the tables, and the migration that extends the permissions of
    a system role (migrations/versions/0019_member_read.py).

    [seed_system] only ever adds: a row that is there stays as it is, and a catalog
    that is complete is left alone.  It does not recompute the permission sets of
    memberships; the migration does. *)

From S2P Require Import Prelude Json Errors Events Tables Store Cache Session Fixtures Catalog.
From S2P Require Import Permissions Authorization.

(** ** The seed *)

(** [SYSTEM_ROLES]: key, name and description; the permissions are
    [Permissions.system_role_permissions]. *)
Definition SYSTEM_ROLES : list (string * string * string) :=
  [(SYSTEM_ROLE_OWNER, "Owner", "Full control, including deleting the organization");
   (SYSTEM_ROLE_ADMIN, "Admin", "Manage everything except deleting the organization");
   (SYSTEM_ROLE_BILLING, "Billing", "Manage subscription, plans, and invoices");
   (SYSTEM_ROLE_DEVELOPER, "Developer", "Build on the platform: projects, webhooks, usage visibility");
   (SYSTEM_ROLE_MEMBER, "Member", "Day-to-day access to org resources")].

(** [{row.key: row for row in rows}]: the last row of a key. *)
Definition by_key {K R} (name : R -> string) (rows : list (K * R)) : gmap string K :=
  foldl (fun m kr => <[name kr.2 := kr.1]> m) ∅ rows.

Definition permission_row (p : permission_def) : permission :=
  Permission (pd_key p) (pd_resource p) (pd_action p) (Some (pd_description p)).
Definition seed_permission (existing : gmap string uuid) (p : permission_def) : M unit :=
  if bool_decide (is_Some (existing !! pd_key p)) then mret tt
  else i ← fresh_id; put Tpermissions i (permission_row p).

Definition role_row (def : string * string * string) : authorization_role :=
  AuthorizationRole None def.1.1 def.1.2 (Some def.2) true.
Definition grant_missing (all_perms : gmap string uuid) (role_id : uuid) (wanted : list string) : M unit :=
  d ← read_db;
  for_each (filter (.∉ permissions_of d role_id) wanted) (fun k =>
    match all_perms !! k with
    | Some p => insert_new Trole_permissions (role_id, p) tt
    | None => raise (PyError "KeyError")
    end).
Definition find_or_create_role (existing : gmap string uuid) (def : string * string * string) : M uuid :=
  match existing !! def.1.1 with
  | Some i => mret i
  | None => i ← fresh_id; _ ← put Troles i (role_row def); _ ← flush; mret i
  end.
Definition seed_role (all_perms existing : gmap string uuid) (def : string * string * string) : M unit :=
  role_id ← find_or_create_role existing def;
  grant_missing all_perms role_id (system_role_permissions def.1.1).

(** The counts of permissions and of system roles it returns are those of the catalog. *)
Definition seed_system : M (nat * nat) :=
  rows ← select Tpermissions (fun _ _ => true);
  _ ← for_each PERMISSIONS (seed_permission (by_key pm_key rows));
  _ ← flush;
  rows ← select Tpermissions (fun _ _ => true);
  let all_perms := by_key pm_key rows in
  roles ← select Troles (fun _ (r : authorization_role) => ro_is_system r);
  _ ← for_each SYSTEM_ROLES (seed_role all_perms (by_key ro_key roles));
  mret (length PERMISSIONS, length SYSTEM_ROLES).

(** ** The migration 0019_member_read *)

Definition is_system_member (_ : key Troles) (r : authorization_role) : bool :=
  String.eqb (ro_key r) "member" && ro_is_system r && bool_decide (ro_organization_id r = None).
Definition member_read_pairs (d : db) : list (key Trole_permissions) :=
  mjoin ((fun r : key Troles * row Troles =>
      (fun p : key Tpermissions * row Tpermissions => (r.1, p.1) : key Trole_permissions) <$>
        rows_where Tpermissions (fun _ (p : permission) => String.eqb (pm_key p) "member:read") (d Tpermissions)) <$>
    rows_where Troles is_system_member (d Troles)).

(** [_GRANT], [_REVOKE]. *)
Definition grant_member_read (d : db) : db :=
  set_table d Trole_permissions
    (d Trole_permissions ∪ list_to_map ((fun k => (k, tt : row Trole_permissions)) <$> member_read_pairs d)).
Definition revoke_member_read (d : db) : db :=
  set_table d Trole_permissions
    (filter (fun kr : key Trole_permissions * row Trole_permissions => kr.1 ∉ member_read_pairs d) (d Trole_permissions)).

(** [agg.keys] of a membership: the sorted keys of the roles it holds; no row for one
    that reaches no permission. *)
Definition agg_keys (d : db) (membership_id : uuid) : list string :=
  sorted_set (mjoin ((fun r : key Tmembership_roles * row Tmembership_roles => permissions_of d r.1.2) <$>
    rows_where Tmembership_roles (fun k _ => bool_decide (k.1 = membership_id)) (d Tmembership_roles))).
Definition holds_member (d : db) (membership_id : uuid) : bool :=
  existsb (fun r : key Troles * row Troles =>
      bool_decide (is_Some (d Tmembership_roles !! ((membership_id, r.1) : key Tmembership_roles))))
    (rows_where Troles is_system_member (d Troles)).
Definition recomputed (d : db) (k : key Tmemberships) (m : membership) : membership :=
  match agg_keys d k with
  | [] => m
  | keys => if holds_member d k then m <| mb_permission_keys := keys |> else m
  end.
Definition update_rows {V} (f : uuid -> V -> V) (m : gmap uuid V) : gmap uuid V := map_imap (fun k v => Some (f k v)) m.
(** [_RECOMPUTE_MEMBER_HOLDERS]. *)
Definition recompute_member_holders (d : db) : db :=
  set_table d Tmemberships (update_rows (recomputed d) (d Tmemberships)).

Definition upgrade (d : db) : db := recompute_member_holders (grant_member_read d).
Definition downgrade (d : db) : db := recompute_member_holders (revoke_member_read d).

(** ** The migration *)

Lemma lookup_update_rows {V} (f : uuid -> V -> V) m k : update_rows f m !! k = f k <$> m !! k.
Proof. unfold update_rows. rewrite map_lookup_imap. by destruct (m !! k). Qed.

(** The foreign key of [membership_roles.role_id]. *)
Definition roles_exist (d : db) : Prop :=
  forall k : key Tmembership_roles, is_Some (d Tmembership_roles !! k) -> is_Some (d Troles !! k.2).

Lemma agg_union d k : roles_exist d -> agg_keys d k = union_of_roles None d k.
Proof.
  intros Hf. apply sorted_set_union. intros q. rewrite list_elem_of_join. split.
  - intros (l & Hq & Hl). apply list_elem_of_fmap in Hl as ([[k' r] u] & -> & Hr).
    apply (elem_of_rows_where Tmembership_roles) in Hr as [Hr E]. apply bool_decide_eq_true in E. simpl in E, Hq. subst k'.
    apply elem_of_permissions_of in Hq as (p & pm & H3 & H4 & H5).
    exists r, p, pm. split_and!; [by eexists|apply (Hf (k, r)); by eexists|done..].
  - intros (r & p & pm & [u Hu] & _ & H3 & H4 & H5). exists (permissions_of d r).
    split; [apply elem_of_permissions_of; by exists p, pm|]. apply list_elem_of_fmap. exists ((k, r), u). split; [done|].
    apply (elem_of_rows_where Tmembership_roles). split; [done|]. by apply bool_decide_eq_true.
Qed.

Lemma holds_member_true d k : holds_member d k = true <-> exists r (row : authorization_role), d Troles !! r = Some row /\
  is_system_member r row = true /\ is_Some (d Tmembership_roles !! ((k, r) : key Tmembership_roles)).
Proof.
  unfold holds_member. rewrite existsb_exists. split.
  - intros ([r row] & Hin & E). apply (elem_of_rows_where Troles) in Hin as [Hr Hs]. apply bool_decide_eq_true in E. by exists r, row.
  - intros (r & row & Hr & Hs & E). exists (r, row). split; [by apply (elem_of_rows_where Troles)|]. by apply bool_decide_eq_true.
Qed.

Lemma elem_of_member_read d (k : key Trole_permissions) : k ∈ member_read_pairs d <->
  exists (role : authorization_role) (p : permission), d Troles !! k.1 = Some role /\ is_system_member k.1 role = true /\
    d Tpermissions !! k.2 = Some p /\ pm_key p = "member:read".
Proof.
  unfold member_read_pairs. rewrite list_elem_of_join. split.
  - intros (l & Hk & Hl). apply list_elem_of_fmap in Hl as ([r role] & -> & Hr). apply (elem_of_rows_where Troles) in Hr as [Hr Hs].
    apply list_elem_of_fmap in Hk as ([p pm] & -> & Hp). apply (elem_of_rows_where Tpermissions) in Hp as [Hp E].
    apply String.eqb_eq in E. by exists role, pm.
  - intros (role & p & Hr & Hs & Hp & E). eexists. split; [|apply list_elem_of_fmap; exists (k.1, role); split; [reflexivity|]].
    + apply list_elem_of_fmap. exists (k.2, p). split; [by destruct k|]. apply (elem_of_rows_where Tpermissions).
      split; [done|]. by apply String.eqb_eq.
    + by apply (elem_of_rows_where Troles).
Qed.

Lemma granted_pairs d (k : key Trole_permissions) : is_Some (grant_member_read d Trole_permissions !! k) <->
  is_Some (d Trole_permissions !! k) \/ k ∈ member_read_pairs d.
Proof.
  unfold grant_member_read. rewrite set_table_eq. split.
  - intros [u Hu]. apply lookup_union_Some_raw in Hu as [Hu|[_ Hu]]; [left; by eexists|right].
    apply elem_of_list_to_map_2, list_elem_of_fmap in Hu as (k' & [= -> _] & Hk). done.
  - intros H. apply not_eq_None_Some. intros Hn. apply lookup_union_None in Hn as [H1 H2]. destruct H as [[u Hu]|Hk]; [congruence|].
    apply not_elem_of_list_to_map in H2. apply H2. rewrite <- list_fmap_compose. apply list_elem_of_fmap. by exists k.
Qed.
Lemma kept_pairs d (k : key Trole_permissions) : is_Some (revoke_member_read d Trole_permissions !! k) <->
  is_Some (d Trole_permissions !! k) /\ k ∉ member_read_pairs d.
Proof.
  unfold revoke_member_read. rewrite set_table_eq. split.
  - intros [u Hu]. apply map_lookup_filter_Some in Hu as [Hu Hk]. split; [by eexists|done].
  - intros [[u Hu] Hk]. exists u. by apply map_lookup_filter_Some.
Qed.

(** A change of the grants of member:read to the system member role. *)
Definition regrants (d d' : db) : Prop :=
  (forall t, t <> Trole_permissions -> d' t = d t) /\
  (forall k : key Trole_permissions, k ∉ member_read_pairs d ->
     is_Some (d' Trole_permissions !! k) <-> is_Some (d Trole_permissions !! k)).

Lemma grant_regrants d : regrants d (grant_member_read d).
Proof.
  split; [intros t Ht; by apply set_table_ne|]. intros k Hk. rewrite granted_pairs. tauto.
Qed.
Lemma revoke_regrants d : regrants d (revoke_member_read d).
Proof.
  split; [intros t Ht; by apply set_table_ne|]. intros k Hk. rewrite kept_pairs. tauto.
Qed.

Lemma recomputed_union d k : union_of_roles None (recompute_member_holders d) k = union_of_roles None d k.
Proof. apply union_ext. intros q. unfold grants, recompute_member_holders. by rewrite !set_table_ne. Qed.

Section Recompute.
Context (d d' : db) (Hd : denormalized d) (Hr : roles_exist d) (He : regrants d d').

Lemma regranted_holds k : holds_member d' k = holds_member d k.
Proof. unfold holds_member. destruct He as [E _]. by rewrite !E. Qed.

Lemma regranted_others k q : holds_member d k = false -> grants d' k q <-> grants d k q.
Proof using He.
  destruct He as [E Hp]. intros Hk. unfold grants. rewrite !E by done.
  assert (Ha : forall r p, is_Some (d Tmembership_roles !! ((k, r) : key Tmembership_roles)) -> ((r, p) : key Trole_permissions) ∉ member_read_pairs d).
  { intros r p Hm Hin. apply elem_of_member_read in Hin as (role & pm & H1 & H2 & _).
    assert (holds_member d k = true); [|congruence]. apply holds_member_true. by exists r, role. }
  assert (Hg : forall r p, is_Some (d Tmembership_roles !! ((k, r) : key Tmembership_roles)) ->
    is_Some (d' Trole_permissions !! ((r, p) : key Trole_permissions)) <-> is_Some (d Trole_permissions !! ((r, p) : key Trole_permissions)))
    by (intros r p Hm; by apply (Hp (r, p)), Ha).
  pose proof (E Tpermissions ltac:(done)) as E3.
  split; intros (r & p & pm & H1 & H2 & H3 & H4 & H5); exists r, p, pm;
    (split_and!; [done|done|by apply Hg|first [by rewrite <- E3|by rewrite E3]|done]).
Qed.

(** The recomputation brings every set up to date, provided a member that is left
    with no permission had none. *)
Lemma recompute_denormalizes : (forall k, holds_member d k = true -> agg_keys d' k = [] -> union_of_roles None d k = []) ->
  denormalized (recompute_member_holders d').
Proof.
  intros Hempty k m Hm. unfold recompute_member_holders in Hm. rewrite set_table_eq in Hm.
  rewrite recomputed_union. rewrite lookup_update_rows in Hm. apply fmap_Some in Hm as (m0 & Hm0 & ->).
  destruct He as [Et _]. rewrite Et in Hm0 by done. pose proof (Hd k m0 Hm0) as Hk.
  assert (Hr' : roles_exist d') by (unfold roles_exist; rewrite !Et by done; exact Hr).
  unfold recomputed. rewrite (agg_union d' k Hr'), regranted_holds. destruct (holds_member d k) eqn:Eh.
  - destruct (union_of_roles None d' k) eqn:Eu; [|done]. rewrite Hk. apply Hempty; [done|]. by rewrite agg_union.
  - assert (Hs : mb_permission_keys m0 = union_of_roles None d' k)
      by (rewrite Hk; apply union_ext; intros q; by rewrite regranted_others). by destruct (union_of_roles None d' k).
Qed.
End Recompute.

Lemma grants_upgraded d k q : grants (upgrade d) k q <->
  grants d k q \/ q = "member:read" /\ holds_member d k = true /\
    exists p (pm : permission), d Tpermissions !! p = Some pm /\ pm_key pm = "member:read".
Proof.
  assert (Et : forall t, t <> Tmemberships -> upgrade d t = grant_member_read d t) by (intros t Ht; by apply set_table_ne).
  assert (Eg : forall t, t <> Trole_permissions -> grant_member_read d t = d t) by (intros t Ht; by apply set_table_ne).
  assert (E : grants (upgrade d) k q <-> exists r p (pm : permission),
    is_Some (d Tmembership_roles !! ((k, r) : key Tmembership_roles)) /\ is_Some (d Troles !! r) /\
    (is_Some (d Trole_permissions !! ((r, p) : key Trole_permissions)) \/ ((r, p) : key Trole_permissions) ∈ member_read_pairs d) /\
    d Tpermissions !! p = Some pm /\ pm_key pm = q).
  { unfold grants. do 3 (apply exist_proper; intros ?). rewrite !Et, granted_pairs, !Eg by done. done. }
  rewrite E, holds_member_true. split.
  - intros (r & p & pm & H1 & H2 & [H3|H3] & H4 & H5); [left; by exists r, p, pm|right].
    apply elem_of_member_read in H3 as (role & pm' & H6 & H7 & H8 & H9). simpl in *. simplify_eq.
    split_and!; [congruence|by exists r, role|by exists p, pm'].
  - intros [(r & p & pm & H1 & H2 & H3 & H4 & H5)|(-> & (r & role & H1 & H2 & H3) & p & pm & H4 & H5)];
      [by exists r, p, pm; split_and!; [| |left| |]|].
    exists r, p, pm. split_and!; [done|by eexists| |done|done]. right. apply elem_of_member_read. by exists role, pm.
Qed.

(** The migration that gives the system member role a permission leaves every
    permission set the union of its membership's roles: the holders of that role, and
    nobody else, gain member:read, and nothing else of a membership changes.  Taking
    it back keeps the sets too, as long as no member is left without any permission. *)
Theorem member_read_migrated d : denormalized d -> roles_exist d ->
  denormalized (upgrade d) /\
  (forall k (m : membership), d Tmemberships !! k = Some m -> exists keys,
     upgrade d Tmemberships !! k = Some (m <| mb_permission_keys := keys |>) /\
     forall q, q ∈ keys <-> q ∈ mb_permission_keys m \/ q = "member:read" /\ holds_member d k = true /\
       exists p (pm : permission), d Tpermissions !! p = Some pm /\ pm_key pm = "member:read") /\
  ((forall k, holds_member d k = true -> exists q, grants (revoke_member_read d) k q) -> denormalized (downgrade d)).
Proof.
  intros Hd Hr.
  assert (Hu : denormalized (upgrade d)).
  { apply (recompute_denormalizes d); [done..|apply grant_regrants|]. intros k _ E. rewrite agg_union in E.
    - destruct (union_of_roles None d k) as [|q l] eqn:Eu; [done|]. assert (Hq : q ∈ union_of_roles None d k) by (rewrite Eu; left).
      apply elem_of_union in Hq. assert (H : grants (upgrade d) k q) by (apply grants_upgraded; by left).
      apply elem_of_union in H. unfold upgrade in H. rewrite recomputed_union, E in H. by apply elem_of_nil in H.
    - intros [k' r] Hk. unfold grant_member_read in *. rewrite set_table_ne in * by done. by apply (Hr (k', r)). }
  split_and!; [done| |].
  - intros k m Hm. assert (Hk : is_Some (upgrade d Tmemberships !! k)).
    { unfold upgrade, recompute_member_holders. rewrite set_table_eq, lookup_update_rows. unfold grant_member_read.
      rewrite set_table_ne by done. apply fmap_is_Some. by eexists. }
    destruct Hk as [m' Hm']. exists (mb_permission_keys m'). pose proof (Hu k m' Hm') as H1. pose proof (Hd k m Hm) as H2.
    split; [|intros q; by rewrite H1, H2, !elem_of_union, grants_upgraded]. etrans; [exact Hm'|]. apply (f_equal Some).
    unfold upgrade, recompute_member_holders in Hm'. rewrite set_table_eq, lookup_update_rows in Hm'. unfold grant_member_read in Hm' at 2.
    rewrite set_table_ne in Hm' by done. apply fmap_Some in Hm' as (m0 & Hm0 & ->). same_row.
    unfold recomputed. destruct (agg_keys _ k); [by destruct m0|]. destruct (holds_member _ k); by destruct m0.
  - intros Hg. apply (recompute_denormalizes d); [done..|apply revoke_regrants|]. intros k Hk E. exfalso.
    destruct (Hg k Hk) as [q Hq]. apply elem_of_union in Hq. rewrite <- agg_union, E in Hq; [by apply elem_of_nil in Hq|].
    intros [k' r] Hkr. unfold revoke_member_read in *. rewrite set_table_ne in * by done. by apply (Hr (k', r)).
Qed.

(** ** The seed *)

Lemma by_key_acc {K R} (name : R -> string) (rows : list (K * R)) : forall (m : gmap string K) k,
  (forall i, foldl (fun m kr => <[name kr.2 := kr.1]> m) m rows !! k = Some i ->
     m !! k = Some i \/ exists r, (i, r) ∈ rows /\ name r = k) /\
  (is_Some (m !! k) \/ (exists i r, (i, r) ∈ rows /\ name r = k) -> is_Some (foldl (fun m kr => <[name kr.2 := kr.1]> m) m rows !! k)).
Proof.
  induction rows as [|[j r] rows IH]; intros m k.
  - split; [by left|]. intros [?|(i & r & Hin%elem_of_nil & _)]; done.
  - destruct (IH (<[name r := j]> m) k) as [H1 H2]. split.
    + intros i Hi. apply H1 in Hi as [Hi|(r' & Hr' & E)]; [|right; exists r'; split; [by right|done]].
      apply lookup_insert_Some in Hi as [[E ->]|[_ Hi]]; [|by left]. right. exists r. split; [by left|done].
    + intros H. apply H2. rewrite lookup_insert_is_Some'. destruct H as [H|(i & r' & Hin & E)]; [by left; right|].
      apply elem_of_cons in Hin as [[= -> ->]|Hin]; [by left; left|right; by exists i, r'].
Qed.

Lemma by_key_found {K R} (name : R -> string) (rows : list (K * R)) k i : by_key name rows !! k = Some i -> exists r, (i, r) ∈ rows /\ name r = k.
Proof. intros H. by apply by_key_acc in H as [H%lookup_empty_Some|H]. Qed.
Lemma by_key_named {K R} (name : R -> string) (rows : list (K * R)) i r : (i, r) ∈ rows -> is_Some (by_key name rows !! name r).
Proof. intros H. apply by_key_acc. right. by exists i, r. Qed.

(** What the seed leaves: every row that was there, and the other tables. *)
Definition seeded_tables : list table := [Tpermissions; Troles; Trole_permissions].
Record appended (w w' : world) : Prop := Appended {
  ap_permissions (i : key Tpermissions) r : w_db w Tpermissions !! i = Some r -> w_db w' Tpermissions !! i = Some r;
  ap_roles (i : key Troles) r : w_db w Troles !! i = Some r -> w_db w' Troles !! i = Some r;
  ap_grants (k : key Trole_permissions) : is_Some (w_db w Trole_permissions !! k) -> is_Some (w_db w' Trole_permissions !! k);
  ap_others t : t ∉ seeded_tables -> w_db w' t = w_db w t;
  ap_env : same_env w w';
  ap_fresh : (w_fresh w <= w_fresh w')%N
}.
#[export] Instance appended_pre : PreOrder appended.
Proof.
  split; [by intros w; constructor|]. intros w1 w2 w3 [? ? ? H1 ? ?] [? ? ? H2 ? ?]. constructor; [by auto..| |by etrans|by etrans].
  intros t Ht. by rewrite H2, H1.
Qed.

(** No two system roles have one key. *)
Definition system_distinct (d : db) : Prop := forall i j (r r' : authorization_role),
  d Troles !! i = Some r -> d Troles !! j = Some r' -> ro_is_system r = true -> ro_is_system r' = true -> ro_key r = ro_key r' -> i = j.
Lemma unique_distinct d :
  unique_on Troles (fun r : authorization_role => if ro_is_system r then Some (ro_key r) else None) (d Troles) -> system_distinct d.
Proof.
  intros Hu i j r r' Hi Hj Hs Hs' E. apply (unique_on_lookup Troles _ _ i j r r' (ro_key r) Hu Hi Hj).
  - by rewrite Hs.
  - by rewrite Hs', E.
Qed.
Record seedable (w : world) : Prop := Seedable {
  sd_tables : constraints_ok (w_db w);
  sd_fresh (i : N) : (w_fresh w <= i)%N -> w_db w Tpermissions !! (i : key Tpermissions) = None /\ w_db w Troles !! (i : key Troles) = None;
  sd_roles : system_distinct (w_db w)
}.
Definition has_permission (d : db) (k : string) : Prop := exists i (p : permission), d Tpermissions !! i = Some p /\ pm_key p = k.

Lemma seed_permission_new w (p : permission_def) : seedable w -> ~ has_permission (w_db w) (pd_key p) -> exists w',
  (i ← fresh_id; put Tpermissions i (permission_row p)) w = (Ok tt, w') /\ appended w w' /\ seedable w' /\
  (forall k, has_permission (w_db w') k <-> has_permission (w_db w) k \/ k = pd_key p).
Proof.
  intros [Ht Hf Hs] Hn. run. eexists. split; [reflexivity|]. set (w1 := w <| w_fresh := N.succ (w_fresh w) |>).
  pose proof (Hf (w_fresh w) ltac:(lia)) as [Hfp _].
  assert (E : w_db (put_w Tpermissions (w_fresh w) (permission_row p) w1) Tpermissions = <[w_fresh w := permission_row p]> (w_db w Tpermissions))
    by exact (put_w_eq Tpermissions _ _ w1).
  assert (Hne : forall t, Tpermissions <> t -> w_db (put_w Tpermissions (w_fresh w) (permission_row p) w1) t = w_db w t)
    by (intros t Hne; exact (put_w_ne Tpermissions t _ _ w1 Hne)).
  split_and!.
  - constructor; [|by intros i r; rewrite Hne|by intros k; rewrite Hne| |done|cbn; lia].
    + intros i r Hi. rewrite E. etrans; [apply lookup_insert_ne|done]. intros <-. congruence.
    + intros t Hin. apply Hne. intros <-. apply Hin. left.
  - constructor.
    + apply (constraints_frame Tpermissions (w_db w)); [done| |exact Hne]. rewrite E. apply unique_on_insert; [exact (proj1 (constraints_ok_table _) Ht Tpermissions)|].
      intros j r' v Hj Hjr [= <-] [= Hv]. apply Hn. by exists j, r'.
    + intros i Hi. cbn [w_fresh put_w] in Hi. destruct (Hf i) as [H1 H2]; [cbn in Hi; lia|]. split; [|by rewrite Hne].
      rewrite E. etrans; [apply lookup_insert_ne|done]. cbn in Hi. lia.
    + unfold system_distinct. rewrite Hne by done. exact Hs.
  - intros k. unfold has_permission. rewrite E. split.
    + intros (i & r & Hi & <-). apply lookup_insert_Some in Hi as [[<- <-]|[_ Hi]]; [by right|left; by exists i, r].
    + intros [(i & r & Hi & Hk)| ->]; [|exists (w_fresh w), (permission_row p); split; [apply lookup_insert_eq|done]].
      exists i, r. split; [|done]. etrans; [apply lookup_insert_ne|done]. intros <-. same_absent.
Qed.

Lemma appended_permission w w' k : appended w w' -> has_permission (w_db w) k -> has_permission (w_db w') k.
Proof. intros [] (i & p & Hp & Hk). exists i, p. auto. Qed.

Lemma permissions_run existing l : forall w, seedable w -> NoDup (pd_key <$> l) ->
  (forall p, p ∈ l -> is_Some (existing !! pd_key p) <-> has_permission (w_db w) (pd_key p)) ->
  exists w', for_each l (seed_permission existing) w = (Ok tt, w') /\ appended w w' /\ seedable w' /\
    (forall p, p ∈ l -> has_permission (w_db w') (pd_key p)).
Proof.
  induction l as [|p l IH]; intros w Hs Hn He.
  - exists w. split_and!; [done|done|done|by intros p Hp%elem_of_nil].
  - apply NoDup_cons in Hn as [Hp Hn]. cbn [for_each].
    assert (Hstep : exists w1, seed_permission existing p w = (Ok tt, w1) /\ appended w w1 /\ seedable w1 /\
      (forall k, has_permission (w_db w1) k <-> has_permission (w_db w) k \/ k = pd_key p)).
    { pose proof (He p ltac:(left)) as Hep. unfold seed_permission. case_bool_decide as E.
      - exists w. split_and!; [done..|]. intros k. split; [by left|]. intros [H| ->]; [done|by apply Hep].
      - apply seed_permission_new; [done|]. by intros H%Hep. }
    destruct Hstep as (w1 & E1 & Ha & Hs1 & Hk). rewrite (run_ok _ _ _ _ _ E1).
    destruct (IH w1 Hs1 Hn) as (w2 & E2 & Ha2 & Hs2 & Hk2).
    { intros q Hq. rewrite He by (by right). rewrite Hk. split; [by left|]. intros [H|E]; [done|].
      exfalso. apply Hp. rewrite <- E. by apply list_elem_of_fmap_2. }
    exists w2. split_and!; [done|by etrans|done|]. intros q [->|Hq]%elem_of_cons; [|by apply Hk2].
    apply (appended_permission w1); [done|]. apply Hk. by right.
Qed.

(** *** The permissions of a role *)

(** [all_perms] names rows that are there. *)
Definition names_rows (all_perms : gmap string uuid) (d : db) : Prop := forall k i, all_perms !! k = Some i ->
  exists p : permission, d Tpermissions !! i = Some p /\ pm_key p = k.

Lemma grant_step w role_id p (pm : permission) : seedable w -> w_db w Tpermissions !! p = Some pm ->
  pm_key pm ∉ permissions_of (w_db w) role_id -> exists w',
  insert_new Trole_permissions (role_id, p) tt w = (Ok tt, w') /\ appended w w' /\ seedable w' /\
  (forall t, t <> Trole_permissions -> w_db w' t = w_db w t) /\
  (forall q, q ∈ permissions_of (w_db w') role_id <-> q ∈ permissions_of (w_db w) role_id \/ q = pm_key pm).
Proof.
  intros [Ht Hf Hs] Hp Hn. set (k0 := (role_id, p) : key Trole_permissions).
  assert (Hno : w_db w Trole_permissions !! k0 = None).
  { apply eq_None_not_Some. intros Hk. apply Hn, elem_of_permissions_of. by exists p, pm. }
  rewrite insert_new_run by exact Hno. eexists. split; [reflexivity|]. set (w' := write_w _ _ _ w).
  assert (Hne : forall t, t <> Trole_permissions -> w_db w' t = w_db w t) by (intros t Hne; by apply write_w_ne).
  assert (Hk : forall k, is_Some (w_db w' Trole_permissions !! k) <-> is_Some (w_db w Trole_permissions !! k) \/ k = k0).
  { intros k. destruct (decide (k0 = k)) as [<-|Hk].
    - unfold w'. rewrite write_w_at. split; [by right|by eexists].
    - unfold w'. rewrite write_w_other by done. split; [by left|]. by intros [?|E]; [|symmetry in E]. }
  split_and!; [| |exact Hne|].
  - constructor; [by intros i r; rewrite Hne|by intros i r; rewrite Hne|intros k H; apply Hk; by left| |done|cbn; lia].
    intros t Hin. apply Hne. intros ->. apply Hin. right; right; left.
  - constructor; [|intros i Hi; by rewrite !Hne by done; apply Hf|unfold system_distinct; by rewrite Hne].
    apply (constraints_frame Trole_permissions (w_db w)); [done|done|]. intros t Hne'. by apply Hne.
  - intros q. rewrite !elem_of_permissions_of. setoid_rewrite Hk. split.
    + intros (p' & pm' & [H1|[= ->]] & H2 & H3); rewrite Hne in H2 by done; [left; by exists p', pm'|right]. by simplify_eq.
    + intros [(p' & pm' & H1 & H2 & H3)| ->]; [exists p', pm'|exists p, pm]; rewrite Hne by done; (split_and!; [|done|done]); [by left|by right].
Qed.

Lemma grants_run all_perms role_id l : forall w, seedable w -> NoDup l -> names_rows all_perms (w_db w) ->
  (forall k, k ∈ l -> is_Some (all_perms !! k) /\ k ∉ permissions_of (w_db w) role_id) -> exists w',
  for_each l (fun k => match all_perms !! k with
    | Some p => insert_new Trole_permissions (role_id, p) tt
    | None => raise (PyError "KeyError") end) w = (Ok tt, w') /\ appended w w' /\ seedable w' /\
  (forall t, t <> Trole_permissions -> w_db w' t = w_db w t) /\
  (forall k, k ∈ l \/ k ∈ permissions_of (w_db w) role_id -> k ∈ permissions_of (w_db w') role_id).
Proof.
  induction l as [|k l IH]; intros w Hs Hn Hr Hl.
  - exists w. split_and!; [done|done|done|done|]. by intros k [H%elem_of_nil|H].
  - apply NoDup_cons in Hn as [Hk Hn]. destruct (Hl k ltac:(left)) as [[p Hp] Hnot]. cbn [for_each]. rewrite Hp.
    destruct (Hr k p Hp) as (pm & Hpm & <-). destruct (grant_step w role_id p pm Hs Hpm Hnot) as (w1 & E1 & Ha & Hs1 & Hne & Hq).
    rewrite (run_ok _ _ _ _ _ E1). destruct (IH w1 Hs1 Hn) as (w2 & E2 & Ha2 & Hs2 & Hne2 & Hq2).
    + unfold names_rows. by rewrite Hne.
    + intros q Hin. split; [apply Hl; by right|]. rewrite Hq. intros [H| ->]; [|done]. by apply (Hl q); [right|].
    + exists w2. split_and!; [done|by etrans|done|intros t Ht; by rewrite Hne2, Hne|].
      intros q [[->|H]%elem_of_cons|H]; apply Hq2; [right; apply Hq; by right|by left|right; apply Hq; by left].
Qed.

(** *** The roles *)

Definition system_role (d : db) (k : string) (i : uuid) : Prop := exists r : authorization_role,
  d Troles !! (i : key Troles) = Some r /\ ro_is_system r = true /\ ro_key r = k.
Definition granted (d : db) (k : string) : Prop :=
  exists i, system_role d k i /\ forall q, q ∈ system_role_permissions k -> q ∈ permissions_of d i.

Lemma appended_role w w' k i : appended w w' -> system_role (w_db w) k i -> system_role (w_db w') k i.
Proof. intros [] (r & Hr & H). exists r. auto. Qed.
Lemma appended_permissions_of w w' i q : appended w w' -> q ∈ permissions_of (w_db w) i -> q ∈ permissions_of (w_db w') i.
Proof.
  intros []. rewrite !elem_of_permissions_of. intros (p & pm & H1 & H2 & H3). exists p, pm. auto.
Qed.
Lemma appended_granted w w' k : appended w w' -> granted (w_db w) k -> granted (w_db w') k.
Proof.
  intros Ha (i & Hi & Hq). exists i. split; [by eapply appended_role|]. intros q H. eapply appended_permissions_of; eauto.
Qed.

Lemma new_role w (def : string * string * string) : seedable w -> (forall i, ~ system_role (w_db w) def.1.1 i) -> exists w',
  (i ← fresh_id; _ ← put Troles i (role_row def); _ ← flush; mret i) w = (Ok (w_fresh w), w') /\
  appended w w' /\ seedable w' /\ w_db w' Tpermissions = w_db w Tpermissions /\
  (forall k i, system_role (w_db w') k i <-> system_role (w_db w) k i \/ k = def.1.1 /\ i = w_fresh w).
Proof.
  intros [Ht Hf Hs] Hno. run. set (w1 := w <| w_fresh := N.succ (w_fresh w) |>). set (w' := put_w Troles _ _ w1).
  pose proof (Hf (w_fresh w) ltac:(lia)) as [_ Hfr].
  assert (E : w_db w' Troles = <[w_fresh w := role_row def]> (w_db w Troles)) by exact (put_w_eq Troles _ _ w1).
  assert (Hne : forall t, Troles <> t -> w_db w' t = w_db w t) by (intros t Hne; exact (put_w_ne Troles t _ _ w1 Hne)).
  assert (Hk : forall k i, system_role (w_db w') k i <-> system_role (w_db w) k i \/ k = def.1.1 /\ i = w_fresh w).
  { intros k i. unfold system_role. rewrite E. split.
    - intros (r & Hi & H). apply lookup_insert_Some in Hi as [[<- <-]|[_ Hi]]; [right|left; by exists r]. by destruct H as [_ <-].
    - intros [(r & Hi & H)|[-> ->]]; [|exists (role_row def); split; [apply lookup_insert_eq|done]].
      exists r. split; [|done]. etrans; [apply lookup_insert_ne|exact Hi]. intros <-. same_absent. }
  assert (Hc : constraints_ok (w_db w')).
  { apply (constraints_frame Troles (w_db w)); [done| |exact Hne]. rewrite E.
    apply unique_on_insert; [exact (proj1 (constraints_ok_table _) Ht Troles)|]. intros j r' v _ _ [=]. }
  rewrite (run_ok _ _ _ _ _ (flush_run _ Hc)). exists w'. split; [reflexivity|]. split_and!; [| |by apply Hne|exact Hk].
  - constructor; [by intros i r; rewrite Hne| |by intros k; rewrite Hne| |done|cbn; lia].
    + intros i r Hi. rewrite E. etrans; [apply lookup_insert_ne|done]. intros <-. same_absent.
    + intros t Hin. apply Hne. intros <-. apply Hin. right; left.
  - constructor; [exact Hc| |].
    + intros i Hi. cbn in Hi. destruct (Hf i) as [H1 H2]; [lia|]. split; [by rewrite Hne|].
      rewrite E. etrans; [apply lookup_insert_ne|done]. lia.
    + intros i j r r' Hi Hj Hsi Hsj Ek.
      assert (Hri : system_role (w_db w') (ro_key r) i) by (by exists r). assert (Hrj : system_role (w_db w') (ro_key r) j) by (by exists r').
      apply Hk in Hri as [Hri|[E1 ->]]; apply Hk in Hrj as [Hrj|[E2 ->]]; [| | |done].
      * destruct Hri as (a & Ha & Hsa & Eka), Hrj as (b & Hb & Hsb & Ekb). apply (Hs i j a b); [done..|congruence].
      * rewrite E2 in Hri. by apply Hno in Hri.
      * rewrite E1 in Hrj. by apply Hno in Hrj.
Qed.

Lemma role_permissions_listed k : NoDup (system_role_permissions k) /\ forall q, q ∈ system_role_permissions k -> q ∈ PERMISSION_KEYS.
Proof.
  unfold system_role_permissions.
  repeat match goal with |- context [if ?b then _ else _] => destruct b end;
    (split; [|apply Forall_forall]; apply (bool_decide_unpack _); vm_compute; exact I).
Qed.

Lemma seed_role_run all_perms existing def w : seedable w -> names_rows all_perms (w_db w) ->
  (forall k, k ∈ PERMISSION_KEYS -> is_Some (all_perms !! k)) ->
  (forall i, existing !! def.1.1 = Some i -> system_role (w_db w) def.1.1 i) ->
  (existing !! def.1.1 = None -> forall i, ~ system_role (w_db w) def.1.1 i) -> exists w',
  seed_role all_perms existing def w = (Ok tt, w') /\ appended w w' /\ seedable w' /\ granted (w_db w') def.1.1 /\
  w_db w' Tpermissions = w_db w Tpermissions /\
  (forall k i, k <> def.1.1 -> system_role (w_db w') k i <-> system_role (w_db w) k i).
Proof.
  intros Hs Hr Hall Hfound Hmissing. destruct (role_permissions_listed def.1.1) as [Hnd Hin].
  assert (Hid : exists (i : uuid) w1, find_or_create_role existing def w = (Ok i, w1) /\
    appended w w1 /\ seedable w1 /\ w_db w1 Tpermissions = w_db w Tpermissions /\ system_role (w_db w1) def.1.1 i /\
    (forall k i, k <> def.1.1 -> system_role (w_db w1) k i <-> system_role (w_db w) k i)).
  { unfold find_or_create_role. destruct (existing !! def.1.1) as [i|].
    - exists i, w. split_and!; try done. by apply Hfound.
    - destruct (new_role w def Hs (Hmissing eq_refl)) as (w1 & E & Ha & Hs1 & Hp & Hk).
      exists (w_fresh w), w1. split_and!; try done; [apply Hk; by right|]. intros k i Hne. rewrite Hk. naive_solver. }
  destruct Hid as (i & w1 & E1 & Ha & Hs1 & Hp & Hi & Ho). unfold seed_role. rewrite (run_ok _ _ _ _ _ E1).
  unfold grant_missing, read_db, mbind, M_bind.
  destruct (grants_run all_perms i (filter (.∉ permissions_of (w_db w1) i) (system_role_permissions def.1.1)) w1 Hs1)
    as (w2 & E2 & Ha2 & Hs2 & Hne & Hq); [by apply NoDup_filter|unfold names_rows; by rewrite Hp| |].
  - intros k [Hk Hkin]%list_elem_of_filter. split; [by apply Hall, Hin|done].
  - exists w2. split_and!; [exact E2|by etrans|done| |by rewrite Hne|].
    + exists i. split; [by eapply appended_role|]. intros q Hqin. apply Hq.
      destruct (decide (q ∈ permissions_of (w_db w1) i)); [by right|left]. by apply list_elem_of_filter.
    + intros k j Hk. rewrite <- Ho by done. unfold system_role. by rewrite Hne.
Qed.

Lemma seed_roles_run all_perms existing l : forall w, seedable w -> NoDup l.*1.*1 -> names_rows all_perms (w_db w) ->
  (forall k, k ∈ PERMISSION_KEYS -> is_Some (all_perms !! k)) ->
  (forall def, def ∈ l -> (forall i, existing !! def.1.1 = Some i -> system_role (w_db w) def.1.1 i) /\
     (existing !! def.1.1 = None -> forall i, ~ system_role (w_db w) def.1.1 i)) -> exists w',
  for_each l (seed_role all_perms existing) w = (Ok tt, w') /\ appended w w' /\ seedable w' /\
  (forall def, def ∈ l -> granted (w_db w') def.1.1).
Proof.
  induction l as [|def l IH]; intros w Hs Hn Hr Hall He.
  - exists w. split_and!; [done|done|done|by intros def H%elem_of_nil].
  - apply NoDup_cons in Hn as [Hd Hn]. destruct (He def ltac:(left)) as [H1 H2]. cbn [for_each].
    destruct (seed_role_run all_perms existing def w Hs Hr Hall H1 H2) as (w1 & E1 & Ha & Hs1 & Hg & Hp & Ho).
    rewrite (run_ok _ _ _ _ _ E1). destruct (IH w1 Hs1 Hn) as (w2 & E2 & Ha2 & Hs2 & Hg2); [unfold names_rows; by rewrite Hp|done| |].
    + intros def' Hin. assert (Hne : def'.1.1 <> def.1.1) by (intros E; apply Hd; rewrite <- E; by do 2 apply list_elem_of_fmap_2).
      destruct (He def' ltac:(by right)) as [H3 H4].
      split; [intros i Hi; apply Ho; auto|intros Hnone i; rewrite Ho by done; auto].
    + exists w2. split_and!; [done|by etrans|done|]. intros def' [->|Hin]%elem_of_cons; [by eapply appended_granted|by apply Hg2].
Qed.

(** The tables hold the catalog. *)
Definition catalog_seeded (d : db) : Prop :=
  (forall k, k ∈ PERMISSION_KEYS -> has_permission d k) /\ (forall def, def ∈ SYSTEM_ROLES -> granted d def.1.1).

Lemma permissions_named d k : is_Some (by_key pm_key (rows_where Tpermissions (fun _ _ => true) (d Tpermissions)) !! k) <->
  has_permission d k.
Proof.
  split.
  - intros [i Hi]. apply by_key_found in Hi as (p & Hin & Hp). apply (elem_of_rows_where Tpermissions) in Hin as [Hin _].
    by exists i, p.
  - intros (i & p & Hi & <-). apply (by_key_named pm_key _ i). by apply (elem_of_rows_where Tpermissions).
Qed.
Lemma permissions_names d : names_rows (by_key pm_key (rows_where Tpermissions (fun _ _ => true) (d Tpermissions))) d.
Proof.
  intros k i Hi. apply by_key_found in Hi as (p & Hin & Hp). apply (elem_of_rows_where Tpermissions) in Hin as [Hin _]. by exists p.
Qed.
Definition system_roles_by_key (d : db) : gmap string uuid :=
  by_key ro_key (rows_where Troles (fun _ (r : authorization_role) => ro_is_system r) (d Troles)).
Lemma system_roles_named d k : (forall i, system_roles_by_key d !! k = Some i -> system_role d k i) /\
  (system_roles_by_key d !! k = None -> forall i, ~ system_role d k i).
Proof.
  split.
  - intros i Hi. apply by_key_found in Hi as (r & Hin & Hr). apply (elem_of_rows_where Troles) in Hin as [Hin Hs]. by exists r.
  - intros Hn i (r & Hi & Hs & <-). assert (H : is_Some (system_roles_by_key d !! ro_key r)); [|rewrite Hn in H; by apply is_Some_None in H].
    apply (by_key_named ro_key _ i). by apply (elem_of_rows_where Troles).
Qed.

Lemma catalog_distinct : NoDup (pd_key <$> PERMISSIONS) /\ NoDup SYSTEM_ROLES.*1.*1.
Proof. split; apply (bool_decide_unpack _); vm_compute; exact I. Qed.

Lemma key_listed p : p ∈ PERMISSIONS -> pd_key p ∈ PERMISSION_KEYS.
Proof. apply list_elem_of_fmap_2. Qed.

Lemma seed_run w : seedable w -> exists w', seed_system w = (Ok (21, 5), w') /\ appended w w' /\ seedable w' /\ catalog_seeded (w_db w').
Proof.
  intros Hs. destruct catalog_distinct as [Hp Hr]. unfold seed_system. run.
  destruct (permissions_run (by_key pm_key (rows_where Tpermissions (fun _ _ => true) (w_db w Tpermissions))) PERMISSIONS w Hs Hp)
    as (w1 & E1 & Ha1 & Hs1 & Hk1); [intros p _; apply permissions_named|].
  rewrite (run_ok _ _ _ _ _ E1), (run_ok _ _ _ _ _ (flush_run _ (sd_tables _ Hs1))). run.
  assert (Hall : forall k, k ∈ PERMISSION_KEYS -> has_permission (w_db w1) k)
    by (intros k Hk; apply list_elem_of_fmap in Hk as (p & -> & Hpin); by apply Hk1).
  destruct (seed_roles_run (by_key pm_key (rows_where Tpermissions (fun _ _ => true) (w_db w1 Tpermissions)))
    (system_roles_by_key (w_db w1)) SYSTEM_ROLES w1 Hs1 Hr) as (w2 & E2 & Ha2 & Hs2 & Hg2);
    [apply permissions_names|intros k Hk; by apply permissions_named, Hall|intros def _; apply system_roles_named|].
  unfold system_roles_by_key in E2. exists w2. split; [by rewrite (run_ok _ _ _ _ _ E2)|].
  split_and!; [by etrans|done|split; [intros k Hk; by eapply appended_permission, Hall|done]].
Qed.

Lemma for_each_stays {A} (l : list A) (f : A -> M unit) w : (forall x, x ∈ l -> f x w = (Ok tt, w)) -> for_each l f w = (Ok tt, w).
Proof.
  induction l as [|x l IH]; intros H; [done|]. cbn [for_each]. rewrite (run_ok _ _ _ _ _ (H x ltac:(left))).
  apply IH. intros y Hy. apply H. by right.
Qed.

Lemma seed_again w : constraints_ok (w_db w) -> system_distinct (w_db w) -> catalog_seeded (w_db w) -> seed_system w = (Ok (21, 5), w).
Proof.
  intros Hc Hd [Hp Hg]. unfold seed_system. run.
  rewrite (run_ok _ _ w tt w), (run_ok _ _ _ _ _ (flush_run _ Hc)).
  2: { apply for_each_stays. intros p Hin. unfold seed_permission. rewrite bool_decide_eq_true_2; [done|].
       by apply permissions_named, Hp, key_listed. }
  run. rewrite (run_ok _ _ w tt w); [done|]. apply for_each_stays. intros def Hin. destruct (Hg def Hin) as (i & Hi & Hq).
  assert (Hf : find_or_create_role (system_roles_by_key (w_db w)) def w = (Ok i, w)).
  { destruct (system_roles_named (w_db w) def.1.1) as [Hfound Hnone]. unfold find_or_create_role.
    destruct (system_roles_by_key (w_db w) !! def.1.1) as [j|]; [|by destruct (Hnone eq_refl i)].
    destruct (Hfound j eq_refl) as (r & Hr & Hs & Ek), Hi as (r' & Hr' & Hs' & Ek').
    by rewrite (Hd j i r r' Hr Hr' Hs Hs') by congruence. }
  unfold seed_role. unfold system_roles_by_key in Hf. rewrite (run_ok _ _ _ _ _ Hf). unfold grant_missing, read_db, mbind, M_bind.
  assert (E : filter (.∉ permissions_of (w_db w) i) (system_role_permissions def.1.1) = []); [|by rewrite E].
  destruct (filter _ _) as [|q l] eqn:E; [done|]. assert (Hin' : q ∈ q :: l) by left. rewrite <- E in Hin'.
  apply list_elem_of_filter in Hin' as [Hn Hq']. by destruct Hn; apply Hq.
Qed.

(** Seeding gives every permission of the catalog a row and every system role a
    row with all its permissions, keeps every row that is there, touches no other
    table, and leaves the tables such that seeding them again changes nothing. *)
Theorem seed_completes w : seedable w -> exists w', seed_system w = (Ok (21, 5), w') /\ appended w w' /\
  catalog_seeded (w_db w') /\ seedable w' /\ seed_system w' = (Ok (21, 5), w').
Proof.
  intros Hs. destruct (seed_run w Hs) as (w' & E & Ha & Hs' & Hc). exists w'. split_and!; [done..|].
  apply seed_again; [apply Hs'|apply Hs'|done].
Qed.

(** ** Witnesses *)

Lemma staff_seedable : seedable staff.
Proof.
  constructor.
  - apply (bool_decide_unpack _); vm_compute; exact I.
  - intros i Hi. change (w_fresh staff) with 100%N in Hi. split; apply eq_None_not_Some; intros [r Hr].
    + change (w_db staff Tpermissions) with (rows_of Tpermissions
        [(90%N, Permission "org:read" "org" "read" None); (91%N, Permission "audit:read" "audit" "read" None)]) in Hr.
      apply (lookup_rows_of Tpermissions) in Hr; [|apply (bool_decide_unpack _); vm_compute; exact I].
      rewrite !elem_of_cons in Hr. destruct Hr as [[= -> _]|[[= -> _]|E]]; [lia..|by apply elem_of_nil in E].
    + change (w_db staff Troles) with (rows_of Troles
        [(80%N, AuthorizationRole None "member" "Member" None true); (81%N, AuthorizationRole (Some 1%N) "auditor" "Auditor" None false)]) in Hr.
      apply (lookup_rows_of Troles) in Hr; [|apply (bool_decide_unpack _); vm_compute; exact I].
      rewrite !elem_of_cons in Hr. destruct Hr as [[= -> _]|[[= -> _]|E]]; [lia..|by apply elem_of_nil in E].
  - apply unique_distinct. apply (bool_decide_unpack _); vm_compute; exact I.
Qed.

(** The member role gets the permissions it lacks, and the sets of its members do not follow. *)
Lemma seed_completes_witness : exists w', seed_system staff = (Ok (21, 5), w') /\ catalog_seeded (w_db w') /\
  (denormalized (w_db staff) /\ ~ denormalized (w_db w')).
Proof.
  destruct (seed_completes staff staff_seedable) as (w' & E & _ & Hc & _). exists w'. split_and!; [exact E|exact Hc|exact staff_denormalized|].
  assert (Hw : w' = (seed_system staff).2) by (by rewrite E). rewrite Hw. clear Hw E Hc. apply (bool_decide_unpack _); vm_compute; exact I.
Defined.

Definition staff_before : db :=
  set_table staff_db Tpermissions (rows_of Tpermissions
    [(90%N, Permission "org:read" "org" "read" None); (91%N, Permission "audit:read" "audit" "read" None);
     (92%N, Permission "member:read" "member" "read" None)]).

Lemma member_read_migrated_witness : denormalized (upgrade staff_before) /\
  (upgrade staff_before Tmemberships !! (60%N : key Tmemberships)) =
    Some (Membership 1 (Some 7%N) None None "active" None ["audit:read"; "member:read"; "org:read"] NOW).
Proof.
  assert (Hd : denormalized staff_before) by (apply (bool_decide_unpack _); vm_compute; exact I).
  assert (Hr : roles_exist staff_before).
  { assert (H : Forall_rows Tmembership_roles (fun k _ => is_Some (staff_before Troles !! (k.2 : key Troles))) (staff_before Tmembership_roles))
      by (apply (bool_decide_unpack _); vm_compute; exact I).
    intros k [u Hu]. exact (H k u Hu). }
  destruct (member_read_migrated staff_before Hd Hr) as (Hu & _). split; [exact Hu|vm_compute; reflexivity].
Defined.
