(* ===== verification/RowSecurity.v ===== *)
(** Row-level security (migrations/versions/0013_rls_rework.py, 0015, core/db.py):
    the policies, the variables a request binds, the role it connects as, and what a
    connection subject to the policies can see and write.

    A handler that leaves its commit to the request is run on the rows the policies
    admit; the rows it leaves must pass the same check, and meet the unique indexes
    of the whole table.  A refusal ends the handler.  The lookups that run as the
    owner (SECURITY DEFINER) are [BillingWebhooks.org_for_provider_ref] and
    [Tenancy.invited_by_token]. *)

From Stdlib Require Import Ascii.
From S2P Require Import Prelude Ids Json Errors Events Tables Store Session Fixtures Repository.

(** ** The policies *)

(** The variables of the transaction: [app.current_tenant], [app.current_user] and
    [app.rls_platform]. *)
Record gucs : Type := Gucs {
  app_current_tenant : option uuid;
  app_current_user : option uuid;
  app_rls_platform : bool
}.
#[export] Instance gucs_eta : Eta gucs := fun g => Gucs (app_current_tenant g) (app_current_user g) (app_rls_platform g).
Definition no_gucs : gucs := Gucs None None false.

(** Table to (organization_id nullable, rows of the current user allowed). *)
Definition TENANT_POLICIES (t : table) : option (bool * bool) :=
  match t with
  | Tagents => Some (false, false)
  | Taudit_logs => Some (true, false)
  | Tbilling_customers => Some (false, false)
  | Tentitlements => Some (false, false)
  | Tfeature_flag_overrides => Some (true, true)
  | Tinvoice_lines => Some (false, false)
  | Tinvoices => Some (false, false)
  | Tmemberships => Some (false, true)
  | Toutbox_events => Some (true, false)
  | Troles => Some (true, false)
  | Tstored_files => Some (false, false)
  | Tsubscriptions => Some (false, false)
  | Tusage_counters => Some (false, false)
  | Tusage_events => Some (false, false)
  | Tusage_idempotency_keys => Some (false, false)
  | Twebhook_deliveries => Some (false, false)
  | Twebhook_endpoints => Some (false, false)
  | _ => None
  end.

Definition RLS_EXCLUDED : list table := [Tapi_keys; Trefresh_tokens].

(** The columns [organization_id] and [user_id]: [None], no such column;
    [Some None], NULL. *)
Definition organization_id (t : table) : key t -> row t -> option (option uuid) :=
  match t with
  | Tagents => fun _ r => Some (Some (ag_organization_id r))
  | Taudit_logs => fun _ r => Some (al_organization_id r)
  | Tbilling_customers => fun _ r => Some (Some (bc_organization_id r))
  | Tentitlements => fun _ r => Some (Some (e_organization_id r))
  | Tfeature_flag_overrides => fun _ r => Some (fo_organization_id r)
  | Tinvoice_lines => fun _ r => Some (Some (il_organization_id r))
  | Tinvoices => fun _ r => Some (Some (i_organization_id r))
  | Tmemberships => fun _ r => Some (Some (mb_organization_id r))
  | Toutbox_events => fun _ r => Some (ob_organization_id r)
  | Troles => fun _ r => Some (ro_organization_id r)
  | Tstored_files => fun _ r => Some (Some (sf_organization_id r))
  | Tsubscriptions => fun _ r => Some (Some (s_organization_id r))
  | Tusage_counters => fun k _ => Some (Some k.1.1)
  | Tusage_events => fun _ r => Some (Some (ue_organization_id r))
  | Tusage_idempotency_keys => fun k _ => Some (Some k.1)
  | Twebhook_deliveries => fun _ r => Some (Some (wd_organization_id r))
  | Twebhook_endpoints => fun _ r => Some (Some (we_organization_id r))
  | Tapi_keys => fun _ r => Some (Some (ak_organization_id r))
  | Trefresh_tokens => fun _ r => Some (rt_organization_id r)
  | _ => fun _ _ => None
  end.

Definition user_id (t : table) : row t -> option uuid :=
  match t with
  | Tmemberships => fun r => mb_user_id r
  | Tfeature_flag_overrides => fun r => fo_user_id r
  | _ => fun _ => None
  end.

(** [a = b] of SQL: not true of NULL. *)
Definition sql_eq (a b : option uuid) : bool := match a, b with Some x, Some y => N.eqb x y | _, _ => false end.

(** [_predicate], the USING and the WITH CHECK clause. *)
Definition _predicate (nullable_org user_scoped : bool) (g : gucs) (org usr : option uuid) : bool :=
  sql_eq org (app_current_tenant g) || app_rls_platform g ||
  (nullable_org && bool_decide (org = None)) || (user_scoped && sql_eq usr (app_current_user g)).

Definition admitted (g : gucs) (t : table) (k : key t) (r : row t) : bool :=
  match TENANT_POLICIES t with
  | None => true
  | Some (nullable_org, user_scoped) =>
      _predicate nullable_org user_scoped g (from_option id None (organization_id t k r)) (user_id t r)
  end.

(** What the catalog says of a role: [tableowner] holds of the tables whose owner it
    is, [owns_rest] says that it owns the tables of the schema outside the model too.
    [privileged] holds of the tables whose owner's privileges it has, being the owner
    or a member of it: PostgreSQL applies no policy to those. *)
Record db_role : Type := DbRole {
  rolsuper : bool;
  rolbypassrls : bool;
  tableowner : table -> bool;
  owns_rest : bool;
  privileged : table -> bool
}.

(** [bool_and(t.tableowner = current_user)] over the tables of the schema. *)
Definition owns_tables (role : db_role) : bool := forallb (tableowner role) all_tables && owns_rest role.

(** What the startup check takes for a role that bypasses the policies. *)
Definition bypasses (role : db_role) : bool := rolsuper role || rolbypassrls role || owns_tables role.

(** The tables whose policies do not bind the role. *)
Definition exempt (role : db_role) (t : table) : bool := rolsuper role || rolbypassrls role || privileged role t.

(** The rows of a table a connection of the role may see and write. *)
Definition reaches (role : db_role) (g : gucs) (t : table) (k : key t) (r : row t) : bool :=
  exempt role t || admitted g t k r.

(** ** What a request binds *)

Section Bindings.
Context (rls_enabled : bool).

Definition set_rls_tenant (o : uuid) (g : gucs) : gucs := if rls_enabled then g <| app_current_tenant := Some o |> else g.
Definition set_rls_user (u : uuid) (g : gucs) : gucs := if rls_enabled then g <| app_current_user := Some u |> else g.
Definition set_rls_platform (g : gucs) : gucs := if rls_enabled then g <| app_rls_platform := true |> else g.

(** The variables behind [get_current_user], [resolve_tenant] and
    [require_platform_admin]: a bearer token binds the user, an API key its
    organization; then the tenant or the platform. *)
Definition request_gucs (user : option uuid) (tenant : option tenant_context) : gucs :=
  let g := match user with Some u => set_rls_user u no_gucs | None => no_gucs end in
  match tenant with
  | Some c => if tx_is_platform c then set_rls_platform g else set_rls_tenant (tx_organization_id c) g
  | None => g
  end.

(** [assert_role_matches_isolation], of the role the request engine connects as. *)
Definition assert_role_matches_isolation (role : db_role) : result unit :=
  if rls_enabled && bypasses role then Err (PyError "RoleIsolationMismatchError")
  else if negb rls_enabled && negb (bypasses role) then Err (PyError "RoleIsolationMismatchError")
  else Ok tt.
End Bindings.

(** [APP_ROLE_NAME_RE], as [re.match] reads it: [$] also matches before a final
    newline. *)
Definition role_first (c : ascii) : bool := (let n := nat_of_ascii c in (97 <=? n) && (n <=? 122)) || Ascii.eqb c "_".
Definition role_char (c : ascii) : bool := role_first c || (let n := nat_of_ascii c in (48 <=? n) && (n <=? 57)).
Fixpoint role_rest (n : nat) (s : string) {struct s} : bool :=
  match s with
  | EmptyString => true
  | String c s' => (Ascii.eqb c (ascii_of_nat 10) && String.eqb s' "") || match n with O => false | S n => role_char c && role_rest n s' end
  end.
Definition valid_role (s : string) : bool :=
  match s with String c s => role_first c && role_rest 62 s | EmptyString => false end.

Definition newline : string := String (ascii_of_nat 10) EmptyString.

Lemma role_rest_chars n s : role_rest n s = true ->
  exists s', (s = s' \/ s = s' +:+ newline) /\ all_chars role_char s' = true /\ String.length s' <= n.
Proof.
  revert n. induction s as [|c s IH]; intros n H; [exists ""; split; [by left|split; [done|simpl; lia]]|].
  cbn [role_rest] in H. apply orb_true_iff in H as [H|H].
  - apply andb_true_iff in H as [->%Ascii.eqb_eq ->%String.eqb_eq]. exists "". split; [by right|split; [done|simpl; lia]].
  - destruct n as [|n]; [done|]. apply andb_true_iff in H as [Hc H]. destruct (IH n H) as (s' & Hs & Ha & Hl).
    exists (String c s'). split; [destruct Hs as [->| ->]; [by left|by right]|]. split; [simpl; by rewrite Hc|simpl; lia].
Qed.

(** What goes unquoted into the statements of [provision_app_role]: an identifier of
    at most 63 characters, and perhaps a newline. *)
Lemma valid_role_safe s : valid_role s = true ->
  exists s', (s = s' \/ s = s' +:+ newline) /\ all_chars role_char s' = true /\ String.length s' <= 63.
Proof.
  destruct s as [|c s]; [done|]. intros [Hc H]%andb_true_iff. destruct (role_rest_chars 62 s H) as (s' & Hs & Ha & Hl).
  exists (String c s'). split; [destruct Hs as [->| ->]; [by left|by right]|]. split; [simpl; unfold role_char; by rewrite Hc|simpl; lia].
Qed.

(** ** A connection under the policies *)

Definition part (p : forall t, key t -> row t -> bool) (d : db) : db :=
  foldr (fun t acc => set_table acc t (filter (fun kr : key t * row t => p t kr.1 kr.2 = true) (d t))) empty_db all_tables.
Section View.
Context (p : forall t, key t -> row t -> bool).

Definition view (d : db) : db := part p d.
Definition hidden (d : db) : db := part (fun t k r => negb (p t k r)) d.
Definition all_admitted (d : db) : Prop := Forall (fun t => map_Forall (fun k r => p t k r = true) (d t)) all_tables.
End View.

(** The table with the rows nobody saw put back. *)
Definition merge (d d' : db) : db := foldr (fun t acc => set_table acc t (d t ∪ d' t)) empty_db all_tables.

Definition no_clash (d d' : db) : Prop := Forall (fun t => d t ##ₘ d' t) all_tables.

Definition policed {A} (p : forall t, key t -> row t -> bool) (m : M A) : M A := fun w =>
  let '(r, w1) := m (w <| w_db := view p (w_db w) |>) in
  if bool_decide (all_admitted p (w_db w1)) then
    if bool_decide (no_clash (w_db w1) (hidden p (w_db w)) /\ constraints_ok (merge (w_db w1) (hidden p (w_db w))))
    then (r, w1 <| w_db := merge (w_db w1) (hidden p (w_db w)) |> <| w_durable := w_durable w |>)
    else (Err (PyError "IntegrityError"), w)
  else (Err (PyError "DBAPIError"), w).

(** A handler on the connection of a role. *)
Definition connected {A} (role : db_role) (g : gucs) (m : M A) : M A :=
  if rolsuper role || rolbypassrls role then m else policed (reaches role g) m.

(** ** The laws *)

Lemma rebuild_table (f : forall t, gmap (key t) (row t)) t :
  foldr (fun t acc => set_table acc t (f t)) empty_db all_tables t = f t.
Proof. by destruct t. Qed.


Lemma all_tables_spec (P : table -> Prop) : Forall P all_tables <-> forall t, P t.
Proof.
  rewrite Forall_forall. split; [|auto]. intros H t. apply H. by destruct t; apply (bool_decide_unpack _).
Qed.

Lemma part_lookup p d t k r : part p d t !! k = Some r <-> d t !! k = Some r /\ p t k r = true.
Proof. unfold part. rewrite rebuild_table. apply map_lookup_filter_Some. Qed.


Lemma merge_lookup d d' t k r : no_clash d d' -> merge d d' t !! k = Some r <-> d t !! k = Some r \/ d' t !! k = Some r.
Proof.
  unfold no_clash. rewrite all_tables_spec. intros H. specialize (H t). unfold merge. rewrite (rebuild_table (fun t => d t ∪ d' t)).
  by apply lookup_union_Some.
Qed.

(** A row of another organization that is not the caller's own. *)
Definition foreign (o : uuid) (u : option uuid) (t : table) (k : key t) (r : row t) : Prop :=
  (t ∉ RLS_EXCLUDED) /\ (exists o', organization_id t k r = Some (Some o') /\ o' <> o) /\
  match u with Some u => user_id t r <> Some u | None => True end.

Lemma sql_eq_true a b : sql_eq a b = true <-> exists x, a = Some x /\ b = Some x.
Proof.
  unfold sql_eq. destruct a as [x|], b as [y|]; [|split; [done|by intros (? & ? & ?)]..].
  rewrite N.eqb_eq. split; [intros ->; by exists y|]. by intros (? & [= ->] & [= ->]).
Qed.

Lemma sql_eq_false a b : sql_eq a b = false <-> forall x, a = Some x -> b <> Some x.
Proof.
  rewrite <- not_true_iff_false, sql_eq_true. split; [intros H x Ha Hb; apply H; by exists x|intros H (x & Ha & Hb); by apply (H x)].
Qed.

(** Every table with an organization is policed, the credentials looked up by their
    hash excepted. *)
Lemma policies_cover t k r o : organization_id t k r = Some o -> t ∉ RLS_EXCLUDED -> is_Some (TENANT_POLICIES t).
Proof. destruct t; intros E Hex; first [discriminate | by eexists | exfalso; apply Hex; set_solver]. Qed.

Lemma tenant_variables u ctx : tx_is_platform ctx = false -> request_gucs true u (Some ctx) = Gucs (Some (tx_organization_id ctx)) u false.
Proof. intros H. unfold request_gucs. rewrite H. by destruct u. Qed.

Lemma policy_columns t k r nullable own : TENANT_POLICIES t = Some (nullable, own) ->
  (t ∉ RLS_EXCLUDED) /\ exists o, organization_id t k r = Some o /\ (nullable = false -> is_Some o) /\ (own = false -> user_id t r = None).
Proof.
  destruct t; try discriminate; intros [= <- <-]; (split; [set_solver|]);
    (eexists; split; [reflexivity|]; split; [intros Hn; first [discriminate|by eexists]|intros Hn; first [discriminate|reflexivity]]).
Qed.

(** The policies hide exactly the foreign rows. *)
Lemma hidden_foreign u ctx t k r : tx_is_platform ctx = false ->
  admitted (request_gucs true u (Some ctx)) t k r = false <-> foreign (tx_organization_id ctx) u t k r.
Proof.
  intros H. rewrite tenant_variables by done. unfold admitted, foreign, _predicate. cbn [app_current_tenant app_current_user app_rls_platform].
  destruct (TENANT_POLICIES t) as [[nullable own]|] eqn:Et.
  - destruct (policy_columns t k r nullable own Et) as (Hex & o & Eo & Hn & Hown). rewrite Eo. cbn [from_option id].
    rewrite orb_false_r, !orb_false_iff, sql_eq_false. split.
    + intros [[Ht Hnull] Hu]. split; [done|]. split.
      * destruct o as [o'|]; [|destruct nullable; [by rewrite bool_decide_eq_true_2 in Hnull|by destruct (Hn eq_refl)]].
        exists o'. split; [done|]. intros ->. by apply (Ht (tx_organization_id ctx)).
      * destruct u as [u|]; [|done]. intros Eu. destruct own; [|by rewrite Hown in Eu].
        cbn [andb] in Hu. rewrite sql_eq_false in Hu. by apply (Hu u).
    + intros (_ & (o' & [= ->] & Hne) & Hu). split; [split|].
      * intros x [= <-] [= E]. by destruct Hne.
      * rewrite bool_decide_eq_false_2 by done. by rewrite andb_false_r.
      * rewrite andb_false_iff. destruct own; [right|by left]. apply sql_eq_false. intros x Ex Eu. subst u. done.
  - split; [done|]. intros (Hex & (o & Eo & _) & _). destruct (policies_cover t k r _ Eo Hex) as [? E]. by rewrite E in Et.
Qed.


Lemma view_admitted p d : all_admitted p (view p d).
Proof. apply all_tables_spec. intros t k r E%part_lookup. by destruct E. Qed.



Section Isolation.
Context {A} (m : M A) (role : db_role) (u : option uuid) (ctx : tenant_context) (tenant : tx_is_platform ctx = false).
Let g := request_gucs true u (Some ctx).
Let o := tx_organization_id ctx.




End Isolation.



(** ** What the policies do not change *)

Lemma no_clash_view p d : no_clash (view p d) (hidden p d).
Proof.
  apply all_tables_spec. intros t. apply map_disjoint_spec. intros k r r' [E1 Ha]%part_lookup [E2 Hb]%part_lookup.
  assert (r = r') as -> by congruence. by rewrite Ha in Hb.
Qed.

Lemma merge_view p d t : merge (view p d) (hidden p d) t = d t.
Proof.
  apply map_eq. intros k. apply option_eq. intros r. rewrite (merge_lookup _ _ _ _ _ (no_clash_view p d)). unfold view, hidden.
  rewrite !part_lookup. destruct (p t k r); naive_solver.
Qed.

Lemma constraints_view p d : constraints_ok d -> constraints_ok (merge (view p d) (hidden p d)).
Proof. rewrite !constraints_ok_table. intros H t. rewrite merge_view. apply H. Qed.

(** A handler that only reads answers from the admitted rows. *)
Lemma policed_reader {A} p (m : M A) w : Reads m -> constraints_ok (w_db w) ->
  (policed p m w).1 = (m (w <| w_db := view p (w_db w) |>)).1.
Proof.
  intros Hm Hc. unfold policed. rewrite (reads_result _ (w <| w_db := view p (w_db w) |>) Hm).
  change (w_db (w <| w_db := view p (w_db w) |>)) with (view p (w_db w)).
  rewrite (bool_decide_eq_true_2 _ (view_admitted p (w_db w))).
  rewrite (bool_decide_eq_true_2 _ (conj (no_clash_view p (w_db w)) (constraints_view p (w_db w) Hc))). reflexivity.
Qed.

Lemma reads_tenant : Reads current_tenant.
Proof. done. Qed.
Hint Resolve reads_tenant : reads.

Section Transparent.
Context (t : table) `{TenantModel t} (tenant_column : forall k r, organization_id t k r = Some (Some (tm_org r))).

Lemma reads_statement o fs : Reads (statement t None o fs).
Proof.
  assert (Hf : Reads (_apply_filters t fs)).
  { induction fs as [|[a v] fs IH]; [solve_reads|]. simpl. case_bool_decide; [done|]. destruct (tm_column a); solve_reads. }
  unfold statement, _scoped, tenant_id. solve_reads.
Qed.

(** With row-level security on, the tenant-scoped repository answers exactly what it
    answers without: the policies of the tenant's request hide none of the tenant's
    rows. *)
Theorem policies_hide_nothing_of_the_tenant u ctx w id limit offset fs :
  w_tenant w = Some ctx -> tx_is_platform ctx = false -> constraints_ok (w_db w) ->
  let run {A} (m : M A) := (policed (admitted (request_gucs true u (Some ctx))) m w).1 in
  run (repo_get t None id) = (repo_get t None id w).1 /\
  run (repo_list t None limit offset None fs) = (repo_list t None limit offset None fs w).1 /\
  run (repo_count t None None fs) = (repo_count t None None fs w).1.
Proof.
  intros Hw Hp Hc run. set (g := request_gucs true u (Some ctx)) in *.
  assert (Ha : acts_as None (tx_organization_id ctx) w) by (by exists ctx).
  assert (Hs : same_rows_of t (tx_organization_id ctx) (w <| w_db := view (admitted g) (w_db w) |>) w).
  { intros k r Ho. change (w_db (w <| w_db := view (admitted g) (w_db w) |>)) with (view (admitted g) (w_db w)). unfold view. rewrite part_lookup.
    split; [by intros []|]. intros E. split; [done|]. destruct (admitted g t k r) eqn:Had; [done|].
    apply (hidden_foreign u ctx t k r Hp) in Had as (_ & (o' & Eo & Hne) & _). rewrite tenant_column in Eo. congruence. }
  destruct (gets_agree t None (tx_organization_id ctx) (w <| w_db := view (admitted g) (w_db w) |>) w id
    ltac:(by exists ctx) Ha Hs) as [H1 _].
  destruct (queries_agree t None (tx_organization_id ctx) (w <| w_db := view (admitted g) (w_db w) |>) w limit
    offset None fs ltac:(by exists ctx) Ha Hs) as (H3 & H4 & _).
  assert (Hread : Reads (repo_get t None id) /\ Reads (repo_list t None limit offset None fs) /\ Reads (repo_count t None None fs)).
  { pose proof reads_statement. unfold repo_get, repo_list, repo_count, _scoped, tenant_id. split_and!; solve_reads. }
  destruct Hread as (R1 & R2 & R3). subst run. cbv beta. rewrite !policed_reader by done. by split_and!.
Qed.
End Transparent.

(** ** Witnesses *)

(** A handler that forgot its filter. *)
Definition wipe : M unit := delete_where Tmemberships (fun _ _ => true).
Definition acme_request : tenant_context := TenantContext 1 "acme" false.



Lemma membership_tenant (k : key Tmemberships) (r : row Tmemberships) : organization_id Tmemberships k r = Some (Some (tm_org r)).
Proof. reflexivity. Qed.

Lemma policies_hide_nothing_of_the_tenant_witness :
  (policed (admitted (request_gucs true (Some 7%N) (Some acme_request))) (repo_count Tmemberships None None [("status", JStr "active")]) crowded).1 = Ok 2%Z.
Proof.
  assert (Hc : constraints_ok (w_db crowded)) by by_compute.
  destruct (policies_hide_nothing_of_the_tenant Tmemberships membership_tenant (Some 7%N) acme_request crowded 60%N 10 0
    [("status", JStr "active")] eq_refl eq_refl Hc) as (_ & _ & H).
  etrans; [exact H|]. vm_compute. reflexivity.
Defined.

(** An owner of some tables only: the check asks for the owner of all of them. *)
Definition partial_owner : db_role :=
  DbRole false false (fun t => bool_decide (t = Tmemberships)) false (fun t => bool_decide (t = Tmemberships)).

(** It passes the check, and no policy binds it on what it owns. *)
Lemma partial_owner_bypasses :
  assert_role_matches_isolation true partial_owner = Ok tt /\
  w_db crowded Tmemberships !! 62%N = Some (member 2 9) /\
  w_db (connected partial_owner (request_gucs true (Some 7%N) (Some acme_request)) wipe crowded).2 Tmemberships !! 62%N = None.
Proof. split_and!; vm_compute; reflexivity. Qed.
