(* ===== verification/Migrations.v ===== *)
(** The chain of migrations (migrations/versions/): each version with the statements of
    its [upgrade] and [downgrade] over [Ddl], run on any [Ddl.Database]; the schema it
    ends with, compared with the policies of [RowSecurity] and with what the models.py
    files declare. *)

From S2P Require Import Prelude Json Events Tables Store Ddl Schema RowSecurity.

(** ** The versions *)

Definition upgrade_0001 : list statement := [CreateExtension "citext"; CreateExtension "pgcrypto"].
Definition downgrade_0001 : list statement := [DropExtension "citext"; DropExtension "pgcrypto"].

(** The ledger of usage, divided by month; the migration makes the partitions of the
    month it runs in and of the next. *)
Definition create_usage_events : list statement :=
  CreateTable "usage_events"
    [Column "id" Uuid false None;
     Column "organization_id" Uuid false None;
     Column "metric" (Varchar 100) false None;
     Column "quantity" BigInteger false (Some "1");
     Column "occurred_at" (DateTime true) false (Some "now()");
     Column "idempotency_key" Text true None;
     Column "properties" Jsonb false (Some "'{}'");
     Column "recorded_at" (DateTime true) false (Some "now()")]
    [ForeignKey "usage_events_organization_id_fkey" ["organization_id"] "organizations" ["id"] Cascade;
     ForeignKey "usage_events_metric_fkey" ["metric"] "metrics" ["key"] NoAction;
     PrimaryKey "usage_events_pkey" ["id"; "occurred_at"]]
    (Some "occurred_at")
  :: [create_index "ix_usage_events_org_metric_time" "usage_events" ["organization_id"; "metric"; "occurred_at"];
      create_brin_index "ix_usage_events_occurred_brin" "usage_events" ["occurred_at"];
      create_unique_index_where "uq_usage_events_idempotency" "usage_events"
        ["organization_id"; "metric"; "idempotency_key"; "occurred_at"] "idempotency_key IS NOT NULL"].
Definition bootstrap_partitions (m : Z) : list statement :=
  [CreatePartition "usage_events" (Monthly m); CreatePartition "usage_events" (Monthly (m + 1))].
Definition upgrade_0003 (m : Z) : list statement := create_usage_events ++ bootstrap_partitions m.
Definition downgrade_0003 : list statement := [DropTable true true "usage_events"].

Definition TENANT_TABLES : list string :=
  ["memberships"; "roles"; "audit_logs"; "entitlements"; "subscriptions"; "billing_customers"; "invoices";
   "usage_events"; "webhook_endpoints"; "webhook_deliveries"].
Definition NULLABLE_TENANT_TABLES : list string := ["roles"; "audit_logs"; "webhook_deliveries"].
Definition forced_policy (t : string) : list statement :=
  [EnableRowSecurity t true; ForceRowSecurity t true;
   CreatePolicy (Policy "tenant_isolation" t (ByTenantSetting :: if mem t NULLABLE_TENANT_TABLES then [ByNullOrg] else []))].
Definition lift_policy (t : string) : list statement :=
  [DropPolicy t "tenant_isolation"; ForceRowSecurity t false; EnableRowSecurity t false].
Definition upgrade_0004 : list statement := flat_map forced_policy TENANT_TABLES.
Definition downgrade_0004 : list statement := flat_map lift_policy TENANT_TABLES.

Definition upgrade_0005 : list statement :=
  [add_column "memberships" (nullable "invite_token_hash" (Varchar 64));
   create_index "ix_memberships_invite_token_hash" "memberships" ["invite_token_hash"]].
Definition downgrade_0005 : list statement :=
  [drop_index "ix_memberships_invite_token_hash"; DropColumn "memberships" "invite_token_hash"].

Definition upgrade_0006 : list statement :=
  [CreateIndex true (Index "uq_provider_webhook_events_ref" "provider_webhook_events" ["provider"; "provider_event_id"]
     true "btree" None false);
   CreateIndex true (Index "uq_invoices_provider_ref" "invoices" ["provider"; "provider_invoice_id"]
     true "btree" (Some "provider_invoice_id IS NOT NULL") false)].
Definition downgrade_0006 : list statement :=
  [DropIndex true "uq_invoices_provider_ref"; DropIndex true "uq_provider_webhook_events_ref"].

Definition upgrade_0007 : list statement :=
  create_table "example_projects"
    [primary_key (nullable "id" Uuid);
     indexed (references "organizations" "id" Cascade (required "organization_id" Uuid));
     required "title" Text]
    [].
Definition downgrade_0007 : list statement := [drop_table "example_projects"].

Definition upgrade_0008 : list statement :=
  create_table "api_keys"
    [primary_key (nullable "id" Uuid);
     indexed (references "organizations" "id" Cascade (required "organization_id" Uuid));
     required "name" (Varchar 200);
     indexed (unique (required "prefix" (Varchar 16)));
     indexed (unique (required "key_hash" (Varchar 64)));
     server_default "'{}'" (required "scopes" TextArray);
     nullable "expires_at" (DateTime true);
     nullable "last_used_at" (DateTime true);
     nullable "revoked_at" (DateTime true);
     references "users" "id" SetNull (nullable "created_by_user_id" Uuid);
     server_default "'{}'" (required "metadata" Jsonb);
     server_default "now()" (nullable "created_at" (DateTime true));
     server_default "now()" (nullable "updated_at" (DateTime true))]
    [].
Definition downgrade_0008 : list statement := [drop_table "api_keys"].

Definition upgrade_0009 : list statement :=
  create_table "stored_files"
    [primary_key (nullable "id" Uuid);
     indexed (references "organizations" "id" Cascade (required "organization_id" Uuid));
     indexed (required "key" (Varchar 512));
     required "name" (Varchar 255);
     required "content_type" (Varchar 128);
     server_default "'0'" (required "size_bytes" BigInteger);
     nullable "deleted_at" (DateTime true);
     references "users" "id" SetNull (nullable "created_by_user_id" Uuid);
     server_default "now()" (nullable "created_at" (DateTime true));
     server_default "now()" (nullable "updated_at" (DateTime true))]
    [].
Definition downgrade_0009 : list statement := [drop_table "stored_files"].

Definition create_feature_flags : list statement :=
  create_table "feature_flags"
    [primary_key (nullable "id" Uuid);
     indexed (unique (required "key" (Varchar 100)));
     required "name" (Varchar 200);
     nullable "description" Text;
     server_default "false" (required "enabled" Boolean);
     checked "ck_feature_flags_rollout" (NullOrBetween "rollout_percentage" 0 100) (nullable "rollout_percentage" Integer);
     nullable "archived_at" (DateTime true);
     server_default "now()" (nullable "created_at" (DateTime true));
     server_default "now()" (nullable "updated_at" (DateTime true))]
    [].
Definition create_feature_flag_overrides : list statement :=
  create_table "feature_flag_overrides"
    [primary_key (nullable "id" Uuid);
     indexed (references "feature_flags" "key" Cascade (required "flag_key" (Varchar 100)));
     indexed (references "organizations" "id" Cascade (nullable "organization_id" Uuid));
     indexed (references "users" "id" Cascade (nullable "user_id" Uuid));
     required "enabled" Boolean;
     nullable "note" Text;
     server_default "now()" (nullable "created_at" (DateTime true));
     server_default "now()" (nullable "updated_at" (DateTime true))]
    [CheckThat (ck_name "feature_flag_overrides" "ck_ff_override_scope") (AnyNotNull ["organization_id"; "user_id"])].
Definition upgrade_0010 : list statement := create_feature_flags ++ create_feature_flag_overrides.
Definition downgrade_0010 : list statement := [drop_table "feature_flag_overrides"; drop_table "feature_flags"].

Definition upgrade_0011 : list statement :=
  create_table "invoice_lines"
    [primary_key (nullable "id" Uuid);
     indexed (references "invoices" "id" Cascade (required "invoice_id" Uuid));
     required "kind" (Varchar 16);
     required "description" Text;
     server_default "'1'" (required "quantity" BigInteger);
     required "unit_amount_cents" BigInteger;
     required "amount_cents" BigInteger;
     nullable "metric" (Varchar 100);
     server_default "'{}'" (required "properties" Jsonb);
     server_default "now()" (nullable "created_at" (DateTime true));
     server_default "now()" (nullable "updated_at" (DateTime true))]
    [CheckThat (ck_name "invoice_lines" "ck_invoice_lines_kind") (OneOf "kind" ["plan"; "overage"; "credit"; "custom"])] ++
  [create_index "ix_invoice_lines_kind" "invoice_lines" ["kind"]].
Definition downgrade_0011 : list statement := [drop_index "ix_invoice_lines_kind"; drop_table "invoice_lines"].

Definition upgrade_0012 : list statement :=
  CreateExtension "vector" ::
  create_table "agents"
    [primary_key (nullable "id" Uuid);
     indexed (references "organizations" "id" Cascade (required "organization_id" Uuid));
     required "slug" (Varchar 100);
     required "name" (Varchar 200);
     nullable "description" Text;
     server_default "'active'" (checked "ck_agents_status" (OneOf "status" ["active"; "disabled"]) (required "status" (Varchar 16)));
     server_default "'{}'" (required "config" Jsonb);
     nullable "deleted_at" (DateTime true);
     server_default "now()" (nullable "created_at" (DateTime true));
     server_default "now()" (nullable "updated_at" (DateTime true))]
    [Unique "uq_agents_org_slug" ["organization_id"; "slug"]] ++
  [create_index "ix_agents_org_status" "agents" ["organization_id"; "status"]].
Definition downgrade_0012 : list statement :=
  [drop_index "ix_agents_org_status"; drop_table "agents"; DropExtension "vector"].

(** Table to (organization_id nullable, rows of the current user allowed). *)
Definition TENANT_POLICIES : list (string * (bool * bool)) :=
  [("agents", (false, false));
   ("audit_logs", (true, false));
   ("billing_customers", (false, false));
   ("entitlements", (false, false));
   ("example_projects", (false, false));
   ("feature_flag_overrides", (true, true));
   ("invoice_lines", (false, false));
   ("invoices", (false, false));
   ("memberships", (false, true));
   ("outbox_events", (true, false));
   ("roles", (true, false));
   ("stored_files", (false, false));
   ("subscriptions", (false, false));
   ("usage_counters", (false, false));
   ("usage_events", (false, false));
   ("webhook_deliveries", (false, false));
   ("webhook_endpoints", (false, false))].
Definition RLS_EXCLUDED : list string := ["api_keys"; "refresh_tokens"].

(** [_predicate], as the alternatives it joins with OR. *)
Definition _predicate (nullable_org user_scoped : bool) : list clause :=
  [ByTenant; ByPlatform] ++ (if nullable_org then [ByNullOrg] else []) ++ (if user_scoped then [ByUser] else []).

(** The functions behind [Tenancy.invited_by_token] and
    [BillingWebhooks.org_for_provider_ref]. *)
Definition LOOKUP_FUNCTIONS : list statement :=
  [CreateFunction "synapse_org_for_invite_token" [("memberships", ["organization_id"; "invite_token_hash"; "status"])];
   CreateFunction "synapse_org_for_provider_ref"
     [("billing_customers", ["organization_id"; "provider_customer_id"]);
      ("subscriptions", ["organization_id"; "provider_subscription_id"])]].
Definition police_invoice_lines : list statement :=
  [add_column "invoice_lines" (nullable "organization_id" Uuid);
   ChangeRows [("invoice_lines", ["organization_id"; "invoice_id"]); ("invoices", ["organization_id"; "id"])];
   SetNotNull "invoice_lines" "organization_id";
   AddConstraint "invoice_lines"
     (ForeignKey "fk_invoice_lines_organization_id_organizations" ["organization_id"] "organizations" ["id"] Cascade);
   create_index "ix_invoice_lines_organization_id" "invoice_lines" ["organization_id"]].
Definition bind_policy '((t, (n, u)) : string * (bool * bool)) : list statement :=
  [DropPolicy t "tenant_isolation"; EnableRowSecurity t true; ForceRowSecurity t false;
   CreatePolicy (Policy "tenant_isolation" t (_predicate n u))].
Definition upgrade_0013 : list statement :=
  LOOKUP_FUNCTIONS ++ police_invoice_lines ++ flat_map bind_policy TENANT_POLICIES.

Definition LEGACY_TABLES : list string :=
  ["memberships"; "roles"; "audit_logs"; "entitlements"; "subscriptions"; "billing_customers"; "invoices";
   "usage_events"; "webhook_endpoints"; "webhook_deliveries"].
Definition LEGACY_NULLABLE : list string := ["roles"; "audit_logs"; "webhook_deliveries"].
Definition legacy_policy (t : string) : list statement :=
  [EnableRowSecurity t true; ForceRowSecurity t true;
   CreatePolicy (Policy "tenant_isolation" t (ByTenantSetting :: if mem t LEGACY_NULLABLE then [ByNullOrg] else []))].
Definition downgrade_0013 : list statement :=
  [DropFunction "synapse_org_for_invite_token"; DropFunction "synapse_org_for_provider_ref"] ++
  flat_map (fun p => lift_policy p.1) TENANT_POLICIES ++
  flat_map legacy_policy LEGACY_TABLES ++
  [drop_index "ix_invoice_lines_organization_id";
   DropConstraint "invoice_lines" "fk_invoice_lines_organization_id_organizations";
   DropColumn "invoice_lines" "organization_id"].

Definition upgrade_0014 : list statement :=
  [ChangeRows [("api_keys", ["scopes"; "created_by_user_id"; "organization_id"]);
               ("memberships", ["permission_keys"; "user_id"; "organization_id"; "status"])]].
Definition downgrade_0014 : list statement := [].

(** An upsert of a gauge counts the rows of a table per organization. *)
Definition seed_gauge (t : string) (cs : list string) : statement :=
  ChangeRows [("usage_counters", ["organization_id"; "metric"; "period_start"; "quantity_total"; "last_event_at"]);
              (t, "organization_id" :: cs)].
Definition upgrade_0015 : list statement :=
  create_table "usage_idempotency_keys"
    [references "organizations" "id" Cascade (required "organization_id" Uuid);
     required "idempotency_key" (Varchar 255);
     required "metric" (Varchar 100);
     required "quantity" BigInteger;
     nullable "total_after" BigInteger;
     nullable "event_id" Uuid;
     server_default "now()" (required "created_at" (DateTime true))]
    [PrimaryKey "pk_usage_idempotency_keys" ["organization_id"; "idempotency_key"]] ++
  [create_index "ix_usage_idempotency_keys_organization_id" "usage_idempotency_keys" ["organization_id"];
   create_index "ix_usage_idempotency_keys_created_at" "usage_idempotency_keys" ["created_at"];
   EnableRowSecurity "usage_idempotency_keys" true;
   ForceRowSecurity "usage_idempotency_keys" false;
   CreatePolicy (Policy "tenant_isolation" "usage_idempotency_keys" [ByTenant; ByPlatform]);
   add_column "subscriptions" (server_default "'[]'::jsonb" (required "pending_adjustments" Jsonb));
   add_column "entitlements" (nullable "limit_value" BigInteger);
   ChangeRows [("entitlements", ["limit_value"; "note"])];
   add_column "plan_limits" (nullable "overage_unit" Integer);
   add_column "plan_limits" (nullable "overage_price_cents" BigInteger);
   add_column "metrics" (nullable "overage_unit" Integer);
   add_column "metrics" (nullable "overage_price_cents" BigInteger);
   seed_gauge "stored_files" ["size_bytes"; "deleted_at"];
   seed_gauge "memberships" ["status"];
   seed_gauge "example_projects" [];
   create_unique_index_where "uq_invoices_org_number" "invoices" ["organization_id"; "number"] "number IS NOT NULL"].
Definition downgrade_0015 : list statement :=
  [drop_index "uq_invoices_org_number";
   ChangeRows [("usage_counters", ["period_start"])];
   DropColumn "metrics" "overage_price_cents";
   DropColumn "metrics" "overage_unit";
   DropColumn "plan_limits" "overage_price_cents";
   DropColumn "plan_limits" "overage_unit";
   ChangeRows [("entitlements", ["note"; "limit_value"; "feature_key"])];
   DropColumn "entitlements" "limit_value";
   DropColumn "subscriptions" "pending_adjustments";
   DropPolicy "usage_idempotency_keys" "tenant_isolation";
   drop_index "ix_usage_idempotency_keys_created_at";
   drop_index "ix_usage_idempotency_keys_organization_id";
   drop_table "usage_idempotency_keys"].

Definition upgrade_0016 : list statement :=
  [add_column "outbox_events" (server_default "'public'" (required "audience" (Varchar 16)));
   add_column "outbox_events" (nullable "dead_at" (DateTime true));
   create_check_constraint "ck_outbox_events_audience" "outbox_events" (OneOf "audience" ["public"; "internal"]);
   ChangeRows [("outbox_events", ["audience"; "event_type"])];
   create_index_where "ix_outbox_events_pending" "outbox_events" ["next_attempt_at"] "published_at IS NULL AND dead_at IS NULL";
   CreatePartition "usage_events" DefaultPartition].
Definition downgrade_0016 : list statement :=
  [DropPartition "usage_events" DefaultPartition;
   drop_index "ix_outbox_events_pending";
   DropConstraint "outbox_events" (ck_name "outbox_events" "ck_outbox_events_audience");
   DropColumn "outbox_events" "dead_at";
   DropColumn "outbox_events" "audience"].

Definition upgrade_0017 : list statement :=
  [add_column "stored_files" (server_default "'ready'" (required "status" (Varchar 16)));
   create_check_constraint "ck_stored_files_status" "stored_files" (OneOf "status" ["pending"; "ready"]);
   create_index_where "ix_stored_files_pending" "stored_files" ["created_at"] "status = 'pending' AND deleted_at IS NULL"].
Definition downgrade_0017 : list statement :=
  [drop_index "ix_stored_files_pending";
   DropConstraint "stored_files" (ck_name "stored_files" "ck_stored_files_status");
   DropColumn "stored_files" "status"].

Definition upgrade_0018 : list statement := [add_column "users" (server_default "'{}'" (required "preferences" Jsonb))].
Definition downgrade_0018 : list statement := [DropColumn "users" "preferences"].

(** The rows of 0019 are [Seeds.upgrade] and [Seeds.downgrade]. *)
Definition recompute_members : statement :=
  ChangeRows [("memberships", ["id"; "permission_keys"]); ("membership_roles", ["membership_id"; "role_id"]);
              ("role_permissions", ["role_id"; "permission_id"]); ("permissions", ["id"; "key"]);
              ("roles", ["id"; "key"; "is_system"; "organization_id"])].
Definition upgrade_0019 : list statement :=
  [ChangeRows [("role_permissions", ["role_id"; "permission_id"]); ("roles", ["id"; "key"; "is_system"; "organization_id"]);
               ("permissions", ["id"; "key"])];
   recompute_members].
Definition downgrade_0019 : list statement := upgrade_0019.

(** A version names the one it follows. *)
Record version : Type := Version {
  revision : string;
  down_revision : option string;
  upgrade : list statement;
  downgrade : list statement
}.

Definition before_usage : list version :=
  [Version "0001_extensions" None upgrade_0001 downgrade_0001;
   Version "0002_framework_schema" (Some "0001_extensions") upgrade_0002 downgrade_0002].
Definition usage_version (m : Z) : version :=
  Version "0003_usage_events" (Some "0002_framework_schema") (upgrade_0003 m) downgrade_0003.
Definition after_usage : list version :=
  [Version "0004_rls_optional" (Some "0003_usage_events") upgrade_0004 downgrade_0004;
   Version "0005_membership_invite_tokens" (Some "0004_rls_optional") upgrade_0005 downgrade_0005;
   Version "0006_webhook_constraints" (Some "0005_membership_invite_tokens") upgrade_0006 downgrade_0006;
   Version "0007_example_projects" (Some "0006_webhook_constraints") upgrade_0007 downgrade_0007;
   Version "0008_api_keys" (Some "0007_example_projects") upgrade_0008 downgrade_0008;
   Version "0009_stored_files" (Some "0008_api_keys") upgrade_0009 downgrade_0009;
   Version "0010_feature_flags" (Some "0009_stored_files") upgrade_0010 downgrade_0010;
   Version "0011_invoice_lines" (Some "0010_feature_flags") upgrade_0011 downgrade_0011;
   Version "0012_agents" (Some "0011_invoice_lines") upgrade_0012 downgrade_0012;
   Version "0013_rls_rework" (Some "0012_agents") upgrade_0013 downgrade_0013;
   Version "0014_api_key_scope_snapshot" (Some "0013_rls_rework") upgrade_0014 downgrade_0014;
   Version "0015_billing_integrity" (Some "0014_api_key_scope_snapshot") upgrade_0015 downgrade_0015;
   Version "0016_outbox_audience" (Some "0015_billing_integrity") upgrade_0016 downgrade_0016;
   Version "0017_presigned_uploads" (Some "0016_outbox_audience") upgrade_0017 downgrade_0017;
   Version "0018_user_preferences" (Some "0017_presigned_uploads") upgrade_0018 downgrade_0018;
   Version "0019_member_read" (Some "0018_user_preferences") upgrade_0019 downgrade_0019].

(** Every version, run in month [m]. *)
Definition versions (m : Z) : list version := before_usage ++ usage_version m :: after_usage.

(** [alembic upgrade head] and [alembic downgrade] of the last of the versions. *)
Definition upgrades (vs : list version) : list statement := flat_map upgrade vs.
Definition downgrades (vs : list version) : list statement := flat_map downgrade (rev vs).

(** ** The schema the chain ends with *)

Definition at_2 : option catalogue := Eval vm_compute in run_script effect (upgrades before_usage) empty_catalogue.
Definition usage_ledger : option catalogue := Eval vm_compute in at_2 ≫= run_script effect create_usage_events.

(** After 0003, with the partitions of two months. *)
Definition at_3 (p q : Z) : catalogue :=
  on_relation "usage_events" (fun r => r <| r_partitions := [Monthly p; Monthly q] |>) (default empty_catalogue usage_ledger).

Definition head (p q : Z) : catalogue := default empty_catalogue (run_script effect (upgrades after_usage) (at_3 p q)).

Lemma months_differ m : same_month (m + 1) m = false.
Proof. apply Z.eqb_neq. lia. Qed.

Lemma partitions_bootstrapped m : run_script effect (bootstrap_partitions m) (default empty_catalogue usage_ledger) = Some (at_3 m (m + 1)).
Proof. cbv -[same_month Z.add]. by rewrite months_differ. Qed.

Lemma reaches_2 : run_script effect (upgrades before_usage) empty_catalogue = at_2.
Proof. vm_compute. reflexivity. Qed.
Lemma reaches_ledger : at_2 ≫= run_script effect create_usage_events = usage_ledger.
Proof. vm_compute. reflexivity. Qed.

Lemma reaches_3 m : at_2 ≫= run_script effect (upgrade_0003 m) = Some (at_3 m (m + 1)).
Proof.
  unfold upgrade_0003. rewrite <- partitions_bootstrapped. unfold at_2. cbn [mbind option_bind].
  rewrite run_script_app.
  change (run_script effect create_usage_events _) with (at_2 ≫= run_script effect create_usage_events).
  by rewrite reaches_ledger.
Qed.

Lemma reaches_head p q : run_script effect (upgrades after_usage) (at_3 p q) = Some (head p q).
Proof. vm_compute. reflexivity. Qed.

Lemma upgrades_app vs vs' : upgrades (vs ++ vs') = upgrades vs ++ upgrades vs'.
Proof. apply flat_map_app. Qed.

Lemma upgrades_one v : upgrades [v] = upgrade v.
Proof. apply app_nil_r. Qed.

Lemma chain_reaches_head m : run_script effect (upgrades (versions m)) empty_catalogue = Some (head m (m + 1)).
Proof.
  unfold versions. rewrite upgrades_app, run_script_app, reaches_2.
  change (usage_version m :: after_usage) with ([usage_version m] ++ after_usage). rewrite upgrades_app.
  unfold at_2. cbn [mbind option_bind]. rewrite run_script_app.
  rewrite upgrades_one.
  change (run_script effect (upgrade (usage_version m)) _) with (at_2 ≫= run_script effect (upgrade_0003 m)).
  rewrite reaches_3. apply reaches_head.
Qed.

(** ** Tenants *)

(** A table with an [organization_id] belongs to the organization it names: the column
    is a foreign key whose rows go with the organization, or lose its name. *)
Definition owned_by_organization (k : column) (r : relation) : bool :=
  existsb (fun f => match f with
    | ForeignKey _ ["organization_id"] "organizations" ["id"] Cascade => true
    | ForeignKey _ ["organization_id"] "organizations" ["id"] SetNull => c_nullable k
    | _ => false end) (r_constraints r).

(** It has exactly the policy its entry asks for, enabled for every role but the owner,
    and the entry says which columns it has. *)
Definition entry_of (t : string) : option (bool * bool) :=
  if String.eqb t "usage_idempotency_keys" then Some (false, false)
  else snd <$> List.find (fun e => String.eqb e.1 t) TENANT_POLICIES.
Definition policed_as_listed (k : column) (r : relation) (c : catalogue) : bool :=
  match entry_of (r_name r) with
  | Some (n, u) =>
      r_rls r && negb (r_forced r) && Bool.eqb n (c_nullable k) &&
      (negb u || bool_decide (c_type <$> find_column "user_id" r = Some Uuid)) &&
      bool_decide (List.filter (fun p => String.eqb (pl_table p) (r_name r)) (policies c)
                   = [Policy "tenant_isolation" (r_name r) (_predicate n u)])
  | None => mem (r_name r) RLS_EXCLUDED
  end.
Definition tenants_kept_apart (c : catalogue) : bool :=
  forallb (fun r => match find_column "organization_id" r with
    | Some k => bool_decide (c_type k = Uuid) && owned_by_organization k r && policed_as_listed k r c
    | None => negb (existsb (fun p => String.eqb (pl_table p) (r_name r)) (policies c))
    end) (relations c).

(** The tables whose rows go when rows of the given tables do. *)
Definition cascade_step (ts : list string) (c : catalogue) : list string :=
  ts ++ List.filter (fun t => negb (mem t ts))
    (map r_name (List.filter (fun r => existsb (fun f => match f with
       | ForeignKey _ _ t _ Cascade => mem t ts | _ => false end) (r_constraints r)) (relations c))).
Definition cascaded (t : string) (c : catalogue) : list string :=
  Nat.iter (length (relations c)) (fun ts => cascade_step ts c) [t].
(** Nothing refuses their deletion: what refers to them goes too or may be NULL. *)
Definition deletable (t : string) (c : catalogue) : bool :=
  let gone := cascaded t c in
  bool_decide (cascade_step gone c = gone) &&
  forallb (fun r => forallb (fun f => match f with
    | ForeignKey _ cs t _ a =>
        negb (mem t gone) ||
        match a with
        | Cascade => true
        | SetNull => forallb (fun n => match find_column n r with Some k => c_nullable k | None => false end) cs
        | NoAction => false
        end
    | _ => true end) (r_constraints r)) (relations c).

Lemma head_tenants p q : tenants_kept_apart (head p q) = true.
Proof. vm_compute. reflexivity. Qed.
Lemma head_deletable p q : deletable "organizations" (head p q) = true.
Proof. vm_compute. reflexivity. Qed.
#[local] Opaque head.

Lemma versions_linked m :
  map down_revision (versions m) = None :: map Some (removelast (map revision (versions m))).
Proof. vm_compute. reflexivity. Qed.

(** C18: on a fresh database the versions form one chain and every statement of it
    succeeds; in the schema it ends with every table that names an organization is
    bound to it and has exactly the policy listed for it, or is one of the two looked
    up by secret, and deleting an organization is refused by no foreign key. *)
Theorem fresh_database_migrates `{Database DB} (d : DB) m :
  describe d = empty_catalogue ->
  map down_revision (versions m) = None :: map Some (removelast (map revision (versions m))) /\
  exists d', run_script execute (upgrades (versions m)) d = Some d' /\
    tenants_kept_apart (describe d') = true /\ deletable "organizations" (describe d') = true.
Proof.
  intros Hd. split; [apply versions_linked|].
  pose proof (run_described (upgrades (versions m)) d) as Hr. rewrite Hd, chain_reaches_head in Hr.
  apply fmap_Some in Hr as (d' & Hr & Hh). exists d'. rewrite <- Hh.
  split; [done|]. split; [exact (head_tenants m (m + 1))|exact (head_deletable m (m + 1))].
Qed.

Lemma fresh_database_migrates_witness :
  map down_revision (versions 24314) = None :: map Some (removelast (map revision (versions 24314))) /\
  exists d', run_script execute (upgrades (versions 24314)) empty_catalogue = Some d' /\
    tenants_kept_apart (describe d') = true /\ deletable "organizations" (describe d') = true.
Proof. apply (fresh_database_migrates empty_catalogue 24314). reflexivity. Defined.

(** ** Going back *)

(** The version whose [downgrade] drops an index it did not create. *)
Definition webhook_constraints : string := "0006_webhook_constraints".

(** Two catalogues are equal when they agree up to their partitions, which is decided,
    and on their partitions. *)
Definition unpartitioned (c : catalogue) : catalogue :=
  c <| relations := map (fun r => r <| r_partitions := [] |>) (relations c) |>.
Definition agrees (c c' : catalogue) : Prop :=
  bool_decide (unpartitioned c = unpartitioned c') = true /\
  map r_partitions (relations c) = map r_partitions (relations c').

Lemma unpartitioned_inj rs rs' :
  map (fun r => r <| r_partitions := [] |>) rs = map (fun r => r <| r_partitions := [] |>) rs' ->
  map r_partitions rs = map r_partitions rs' -> rs = rs'.
Proof.
  revert rs'. induction rs as [|r rs IH]; intros [|r' rs'] H H'; try done.
  injection H as ? ? ? ? ? ? H. injection H' as ? H'. destruct r, r'; cbn in *; simplify_eq. f_equal. by apply IH.
Qed.

Lemma agrees_eq c c' : agrees c c' -> c = c'.
Proof.
  intros [H Hp]. apply bool_decide_eq_true in H. destruct c, c'. injection H as -> H -> -> ->.
  f_equal. by apply unpartitioned_inj.
Qed.

(** Each version but that one is undone by its [downgrade]. *)
Definition undone (v : version) (c : catalogue) : Prop :=
  match run_script effect (upgrade v ++ downgrade v) c with Some c' => agrees c c' | None => False end.
Fixpoint restoring (vs : list version) (c : catalogue) : Prop :=
  match vs with
  | [] => True
  | v :: vs =>
      (String.eqb (revision v) webhook_constraints = false -> undone v c) /\
      match run_script effect (upgrade v) c with Some c' => restoring vs c' | None => False end
  end.

Lemma undone_eq v c : undone v c -> run_script effect (upgrade v ++ downgrade v) c = Some c.
Proof. unfold undone. destruct (run_script _ _ c) as [c'|]; [|done]. by intros ->%agrees_eq. Qed.

Lemma restoring_app vs vs' c :
  restoring vs c -> (forall c', run_script effect (upgrades vs) c = Some c' -> restoring vs' c') -> restoring (vs ++ vs') c.
Proof.
  revert c. induction vs as [|v vs IH]; intros c H H'; [by apply H'|].
  cbn [restoring app] in *. destruct H as [Hv H]. split; [done|].
  destruct (run_script effect (upgrade v) c) as [c'|] eqn:E; [|done]. apply IH; [done|]. intros c'' Hc. apply H'.
  change (upgrades (v :: vs)) with (upgrade v ++ upgrades vs). by rewrite run_script_app, E.
Qed.

Lemma restoring_split pre v post c c' :
  restoring (pre ++ v :: post) c -> run_script effect (upgrades pre) c = Some c' -> revision v <> webhook_constraints ->
  run_script effect (upgrade v ++ downgrade v) c' = Some c'.
Proof.
  revert c. induction pre as [|p pre IH]; intros c H Hr Hv.
  - injection Hr as <-. apply undone_eq, H. by apply String.eqb_neq.
  - change (upgrades (p :: pre)) with (upgrade p ++ upgrades pre) in Hr. rewrite run_script_app in Hr.
    cbn [restoring app] in H. destruct H as [_ H]. destruct (run_script effect (upgrade p) c) as [c1|]; [|done].
    by apply (IH c1).
Qed.

Ltac restores := vm_compute; repeat (split; [intros; first [discriminate | split; reflexivity]|]); exact I.

Lemma restores_before : restoring before_usage empty_catalogue.
Proof. restores. Qed.

Lemma restores_usage m : restoring [usage_version m] (default empty_catalogue at_2).
Proof.
  pose proof (reaches_3 m) as H3. change (at_2 ≫= ?f) with (f (default empty_catalogue at_2)) in H3.
  cbn [restoring]. unfold undone. change (upgrade (usage_version m)) with (upgrade_0003 m). rewrite run_script_app, H3.
  split; [|done]. intros _. vm_compute. split; reflexivity.
Qed.

Lemma restores_after p q : restoring after_usage (at_3 p q).
Proof. restores. Qed.

Lemma restores_all m : restoring (versions m) empty_catalogue.
Proof.
  apply restoring_app; [exact restores_before|]. intros c. rewrite reaches_2. unfold at_2. intros [= <-].
  change (usage_version m :: after_usage) with ([usage_version m] ++ after_usage).
  apply restoring_app; [exact (restores_usage m)|]. intros c. rewrite upgrades_one.
  change (run_script effect (upgrade (usage_version m)) _) with (at_2 ≫= run_script effect (upgrade_0003 m)).
  rewrite reaches_3. intros Hc. apply Some_inj in Hc as <-. apply restores_after.
Qed.

(** C24: at every point of the chain, applying the next version and undoing it leaves
    the schema as it was, for every version but 0006. *)
Theorem downgrades_restore `{Database DB} (d0 d : DB) m pre v post :
  describe d0 = empty_catalogue -> versions m = pre ++ v :: post -> revision v <> webhook_constraints ->
  run_script execute (upgrades pre) d0 = Some d ->
  describe <$> run_script execute (upgrade v ++ downgrade v) d = Some (describe d).
Proof.
  intros H0 Hv Hn Hr. rewrite run_described. pose proof (run_described (upgrades pre) d0) as Hd.
  rewrite Hr, H0 in Hd. apply (restoring_split pre v post empty_catalogue); [|done|done].
  rewrite <- Hv. apply restores_all.
Qed.

Lemma downgrades_restore_witness :
  exists d, run_script execute upgrade_0001 empty_catalogue = Some d /\
    describe <$> run_script execute (upgrade_0002 ++ downgrade_0002) d = Some (describe d).
Proof.
  eexists. split; [vm_compute; reflexivity|].
  eapply (downgrades_restore empty_catalogue _ 24314 [Version "0001_extensions" None upgrade_0001 downgrade_0001]
    (Version "0002_framework_schema" (Some "0001_extensions") upgrade_0002 downgrade_0002)
    (usage_version 24314 :: after_usage)); [reflexivity|reflexivity|discriminate|vm_compute; reflexivity].
Defined.

(** The versions up to 0006, and those after it. *)
Definition through_0006 (m : Z) : list version := before_usage ++ usage_version m :: take 3 after_usage.
Definition from_0007 : list version := drop 3 after_usage.

Definition at_6 (p q : Z) : catalogue := default empty_catalogue (run_script effect (upgrades (take 3 after_usage)) (at_3 p q)).

Lemma back_to_6 p q : run_script effect (downgrades from_0007) (head p q) = Some (at_6 p q).
Proof.
  assert (match run_script effect (downgrades from_0007) (head p q) with
          | Some c => agrees (at_6 p q) c | None => False end) as H by (vm_compute; split; reflexivity).
  destruct (run_script _ _ _) as [c|]; [|done]. by apply agrees_eq in H as ->.
Qed.
Lemma stuck_at_6 p q : run_script effect downgrade_0006 (at_6 p q) = None.
Proof. vm_compute. reflexivity. Qed.

(** The index that already bore the name. *)
Definition invoices_ref : index :=
  Index "uq_invoices_provider_ref" "invoices" ["provider"; "provider_invoice_id"] true "btree" None true.
Lemma head_invoices_ref p q : In invoices_ref (indexes (head p q)).
Proof.
  assert (List.find (fun i => String.eqb (ix_name i) "uq_invoices_provider_ref") (indexes (head p q)) = Some invoices_ref)
    as H by (vm_compute; reflexivity).
  exact (proj1 (find_some _ _ H)).
Qed.

(** A migrated database goes back as far as 0006 and no further: the index that
    0006's downgrade drops belongs to a constraint of 0002, because the statement of
    its upgrade with the same name did nothing. *)
Theorem webhook_constraints_stuck `{Database DB} (d0 d : DB) m :
  describe d0 = empty_catalogue -> run_script execute (upgrades (versions m)) d0 = Some d ->
  (exists d6, run_script execute (downgrades from_0007) d = Some d6 /\
     Some (describe d6) = run_script effect (upgrades (through_0006 m)) empty_catalogue /\
     run_script execute downgrade_0006 d6 = None) /\
  exists i, In i (indexes (describe d)) /\ ix_name i = "uq_invoices_provider_ref" /\ ix_owned i = true /\ ix_where i = None.
Proof.
  intros H0 Hr. pose proof (run_described (upgrades (versions m)) d0) as Hd. rewrite Hr, H0, chain_reaches_head in Hd.
  apply Some_inj in Hd. split.
  - pose proof (run_described (downgrades from_0007) d) as H6. rewrite Hd, back_to_6 in H6.
    apply fmap_Some in H6 as (d6 & H6 & H6'). exists d6. split; [done|]. split.
    + rewrite <- H6'. unfold through_0006. rewrite upgrades_app, run_script_app, reaches_2.
      change (usage_version m :: take 3 after_usage) with ([usage_version m] ++ take 3 after_usage).
      rewrite upgrades_app, upgrades_one. unfold at_2. cbn [mbind option_bind]. rewrite run_script_app.
      change (run_script effect (upgrade (usage_version m)) _) with (at_2 ≫= run_script effect (upgrade_0003 m)).
      rewrite reaches_3. vm_compute. reflexivity.
    + pose proof (run_described downgrade_0006 d6) as Hs. rewrite <- H6', stuck_at_6 in Hs.
      by apply fmap_None in Hs.
  - rewrite Hd. exists invoices_ref. split; [exact (head_invoices_ref m (m + 1))|repeat split; reflexivity].
Qed.

Lemma webhook_constraints_stuck_witness :
  exists d, run_script execute (upgrades (versions 24314)) empty_catalogue = Some d /\
  exists d6, run_script execute (downgrades from_0007) d = Some d6 /\ run_script execute downgrade_0006 d6 = None.
Proof.
  exists (head 24314 24315). assert (run_script execute (upgrades (versions 24314)) empty_catalogue = Some (head 24314 24315)) as H
    by (vm_compute; reflexivity).
  split; [exact H|]. assert (describe empty_catalogue = empty_catalogue) as H0 by reflexivity.
  destruct (webhook_constraints_stuck empty_catalogue _ 24314 H0 H) as [(d6 & H6 & _ & Hs) _].
  exists d6. split; [exact H6|exact Hs].
Defined.

(** ** The policies are those of [RowSecurity] *)

Definition table_name (t : table) : string :=
  match t with
  | Tplans => "plans" | Tplan_features => "plan_features" | Tplan_limits => "plan_limits" | Tmetrics => "metrics"
  | Tsubscriptions => "subscriptions" | Tentitlements => "entitlements" | Tusage_events => "usage_events"
  | Tusage_counters => "usage_counters" | Tusage_idempotency_keys => "usage_idempotency_keys"
  | Tbilling_customers => "billing_customers" | Tinvoices => "invoices" | Tinvoice_lines => "invoice_lines"
  | Taudit_logs => "audit_logs" | Toutbox_events => "outbox_events"
  | Tprovider_webhook_events => "provider_webhook_events" | Torganizations => "organizations" | Tusers => "users"
  | Twebhook_endpoints => "webhook_endpoints" | Twebhook_deliveries => "webhook_deliveries"
  | Tfeature_flags => "feature_flags" | Tfeature_flag_overrides => "feature_flag_overrides"
  | Tmemberships => "memberships" | Troles => "roles" | Tpermissions => "permissions"
  | Trole_permissions => "role_permissions" | Tmembership_roles => "membership_roles"
  | Trefresh_tokens => "refresh_tokens" | Tpassword_reset_tokens => "password_reset_tokens" | Tapi_keys => "api_keys"
  | Tstored_files => "stored_files" | Tagents => "agents" | Tfeatures => "features"
  end.

(** The clauses of each policy of a table, [None] where row security is off. *)
Definition row_policies (t : string) (c : catalogue) : option (option (list (list clause))) :=
  (fun r : relation => if r_rls r
                       then Some (map pl_clauses (List.filter (fun p => String.eqb (pl_table p) t) (policies c)))
                       else None) <$> find_relation t c.

Definition clause_holds (g : gucs) (org usr : option uuid) (k : clause) : bool :=
  match k with
  | ByTenantSetting | ByTenant => sql_eq org (app_current_tenant g)
  | ByPlatform => app_rls_platform g
  | ByNullOrg => bool_decide (org = None)
  | ByUser => sql_eq usr (app_current_user g)
  end.

(** A role that does not own the tables meets a row when a policy of its table admits
    it, or the table has no row security. *)
Definition met (g : gucs) (org usr : option uuid) (t : string) (c : catalogue) : bool :=
  match row_policies t c with
  | Some (Some ps) => existsb (existsb (clause_holds g org usr)) ps
  | Some None => true
  | None => false
  end.

Lemma head_row_policies p q t :
  row_policies (table_name t) (head p q) =
  Some ((fun e => [_predicate e.1 e.2]) <$> RowSecurity.TENANT_POLICIES t).
Proof. destruct t; vm_compute; reflexivity. Qed.

Lemma predicate_holds n u g org usr :
  existsb (clause_holds g org usr) (_predicate n u) = RowSecurity._predicate n u g org usr.
Proof.
  unfold RowSecurity._predicate. destruct n, u; cbn;
    destruct (sql_eq org (app_current_tenant g)), (app_rls_platform g), (bool_decide (org = None)),
      (sql_eq usr (app_current_user g)); reflexivity.
Qed.

(** C7: the schema of a migrated database admits a row to a request exactly when
    [RowSecurity.admitted] says so, for every table of the model. *)
Theorem policies_implement_model `{Database DB} (d0 d : DB) m g t (k : key t) (r : row t) :
  describe d0 = empty_catalogue -> run_script execute (upgrades (versions m)) d0 = Some d ->
  met g (from_option id None (organization_id t k r)) (user_id t r) (table_name t) (describe d) = admitted g t k r.
Proof.
  intros H0 Hr. pose proof (run_described (upgrades (versions m)) d0) as Hd. rewrite Hr, H0, chain_reaches_head in Hd.
  apply Some_inj in Hd. unfold met, admitted. rewrite Hd, head_row_policies.
  destruct (RowSecurity.TENANT_POLICIES t) as [[n u]|]; cbn [fmap option_fmap option_map fst snd]; [|done].
  cbn [existsb]. by rewrite predicate_holds, orb_false_r.
Qed.

(** A user sees the membership of another organization that is theirs. *)
Lemma policies_implement_model_witness :
  met (Gucs (Some 1%N) (Some 7%N) false) (Some 2%N) (Some 7%N) "memberships" (head 24314 24315) = true /\
  met (Gucs (Some 1%N) (Some 8%N) false) (Some 2%N) (Some 7%N) "memberships" (head 24314 24315) = false.
Proof.
  assert (describe empty_catalogue = empty_catalogue) as H0 by reflexivity.
  assert (run_script execute (upgrades (versions 24314)) empty_catalogue = Some (head 24314 24315)) as H
    by (vm_compute; reflexivity).
  pose (k := 3%N : key Tmemberships). pose (r := Membership 2 (Some 7%N) None None "active" None [] 0 : row Tmemberships).
  pose proof (policies_implement_model empty_catalogue _ 24314 (Gucs (Some 1%N) (Some 7%N) false) Tmemberships k r H0 H) as H1.
  pose proof (policies_implement_model empty_catalogue _ 24314 (Gucs (Some 1%N) (Some 8%N) false) Tmemberships k r H0 H) as H2.
  split; [exact H1|exact H2].
Defined.

(** ** What the models declare *)

(** A unique key, with the condition of a partial index, or a check. *)
Inductive rule : Type :=
  | Keyed (cs : list string) (where_ : option string)
  | Holds (k : check).

Definition enforced (c : catalogue) '((t, k) : string * rule) : bool :=
  match k with
  | Keyed cs w =>
      existsb (fun i => String.eqb (ix_table i) t && ix_unique i && bool_decide (ix_columns i = cs) && bool_decide (ix_where i = w))
        (indexes c)
  | Holds k =>
      match find_relation t c with
      | Some r => existsb (fun k' => match k' with CheckThat _ k' => bool_decide (k' = k) | _ => false end) (r_constraints r)
      | None => false
      end
  end.

Definition user_rules : list (string * rule) := [("users", Keyed ["email"] None)].
Definition refresh_token_rules : list (string * rule) := [("refresh_tokens", Keyed ["token_hash"] None)].
Definition reset_token_rules : list (string * rule) := [("password_reset_tokens", Keyed ["token_hash"] None)].
Definition organization_rules : list (string * rule) :=
  [("organizations", Keyed ["slug"] None); ("organizations", Holds (OneOf "status" ["active"; "suspended"; "archived"]))].
Definition membership_rules : list (string * rule) :=
  [("memberships", Keyed ["organization_id"; "user_id"] None);
   ("memberships", Keyed ["organization_id"; "invited_email"] None);
   ("memberships", Holds (AnyNotNull ["user_id"; "invited_email"]));
   ("memberships", Holds (OneOf "status" ["invited"; "active"; "suspended"]))].
Definition agent_rules : list (string * rule) :=
  [("agents", Keyed ["organization_id"; "slug"] None); ("agents", Holds (OneOf "status" ["active"; "disabled"]))].
Definition flag_rules : list (string * rule) :=
  [("feature_flags", Keyed ["key"] None); ("feature_flags", Holds (NullOrBetween "rollout_percentage" 0 100))].
Definition override_rules : list (string * rule) :=
  [("feature_flag_overrides", Holds (AnyNotNull ["organization_id"; "user_id"]))].
Definition billing_customer_rules : list (string * rule) :=
  [("billing_customers", Keyed ["provider"; "provider_customer_id"] None);
   ("billing_customers", Keyed ["organization_id"] None)].
Definition invoice_rules : list (string * rule) :=
  [("invoices", Keyed ["provider"; "provider_invoice_id"] None);
   ("invoices", Holds (OneOf "status" ["draft"; "open"; "paid"; "void"; "uncollectible"]))].
Definition invoice_line_rules : list (string * rule) :=
  [("invoice_lines", Holds (OneOf "kind" ["plan"; "overage"; "credit"; "custom"]))].
Definition entitlement_rules : list (string * rule) :=
  [("entitlements", Holds (OneOf "source" ["trial"; "addon"; "promo"; "beta"; "override"; "enterprise"; "grandfather"]))].
Definition role_rules : list (string * rule) := [("roles", Keyed ["organization_id"; "key"] None)].
Definition permission_rules : list (string * rule) := [("permissions", Keyed ["key"] None)].
Definition webhook_rules : list (string * rule) :=
  [("webhook_deliveries", Holds (OneOf "status" ["pending"; "delivered"; "failed"; "exhausted"]))].
Definition metric_rules : list (string * rule) := [("metrics", Holds (OneOf "kind" ["counter"; "gauge"]))].
Definition plan_rules : list (string * rule) :=
  [("plans", Keyed ["key"] None); ("plans", Holds (OneOf "interval" ["month"; "year"]))].
Definition plan_content_rules : list (string * rule) :=
  [("plan_features", Keyed ["plan_id"; "feature_key"] None); ("plan_limits", Keyed ["plan_id"; "metric"] None)].
Definition subscription_rules : list (string * rule) :=
  [("subscriptions", Holds (OneOf "status" ["trialing"; "active"; "past_due"; "canceled"; "incomplete"; "unpaid"]));
   ("subscriptions", Keyed ["organization_id"] (Some "status IN ('trialing','active','past_due')"));
   ("subscriptions", Keyed ["provider"; "provider_subscription_id"] (Some "provider_subscription_id IS NOT NULL"))].
Definition api_key_rules : list (string * rule) := [("api_keys", Keyed ["prefix"] None); ("api_keys", Keyed ["key_hash"] None)].

Definition declared_rules : list (string * rule) :=
  user_rules ++ refresh_token_rules ++ reset_token_rules ++ organization_rules ++ membership_rules ++ agent_rules ++
  flag_rules ++ override_rules ++ billing_customer_rules ++ invoice_rules ++ invoice_line_rules ++ entitlement_rules ++
  role_rules ++ permission_rules ++ webhook_rules ++ metric_rules ++ plan_rules ++ plan_content_rules ++
  subscription_rules ++ api_key_rules.

(** The checks no version creates. *)
Definition never_created : list (string * rule) :=
  [("organizations", Holds (OneOf "status" ["active"; "suspended"; "archived"]));
   ("metrics", Holds (OneOf "kind" ["counter"; "gauge"])); ("plans", Holds (OneOf "interval" ["month"; "year"]))].

(** The keys the services rely on and only a version declares. *)
Definition version_rules : list (string * rule) :=
  [("provider_webhook_events", Keyed ["provider"; "provider_event_id"] None);
   ("invoices", Keyed ["organization_id"; "number"] (Some "number IS NOT NULL"));
   ("usage_idempotency_keys", Keyed ["organization_id"; "idempotency_key"] None)].

Lemma head_rules p q :
  List.filter (fun k => negb (enforced (head p q) k)) (declared_rules ++ version_rules) = never_created.
Proof. vm_compute. reflexivity. Qed.

(** C25: a migrated database enforces every unique key and check of the models, and the
    keys of ingestion, numbering and metering, except exactly three checks: of
    organizations.status, metrics.kind and plans.interval. *)
Theorem models_enforced `{Database DB} (d0 d : DB) m k :
  describe d0 = empty_catalogue -> run_script execute (upgrades (versions m)) d0 = Some d ->
  In k (declared_rules ++ version_rules) -> enforced (describe d) k = false <-> In k never_created.
Proof.
  intros H0 Hr Hk. pose proof (run_described (upgrades (versions m)) d0) as Hd. rewrite Hr, H0, chain_reaches_head in Hd.
  apply Some_inj in Hd. rewrite Hd, <- (head_rules m (m + 1)), filter_In, negb_true_iff. tauto.
Qed.

Lemma models_enforced_witness :
  enforced (head 24314 24315) ("organizations", Holds (OneOf "status" ["active"; "suspended"; "archived"])) = false.
Proof.
  assert (describe empty_catalogue = empty_catalogue) as H0 by reflexivity.
  assert (run_script execute (upgrades (versions 24314)) empty_catalogue = Some (head 24314 24315)) as H
    by (vm_compute; reflexivity).
  refine (proj2 (models_enforced empty_catalogue _ 24314 _ H0 H _) _); [right; right; right; right; left; reflexivity|left; reflexivity].
Defined.
