(* ===== verification/Http.v ===== *)
(** The HTTP layer (api/app.py, core/commit_before_send.py, audit/middleware.py):
    error documents, the request id, the order of the commit and the response, and
    the startup of the application.

    The framework's part is its documented contract: an exception of a handler
    unwinds the dependencies of the request before a handler of exceptions answers;
    a response is sent while the dependencies are open.  Messages of exceptions,
    random identifiers and the current trace are arguments. *)

From Stdlib Require Import Ascii.
From S2P Require Import Prelude Text Json Errors Events Tables Store Config Cache Session Fixtures Catalog RateLimit.
From S2P Require Import RowSecurity.

Record response : Type := Response {
  rs_status : Z;
  rs_headers : list (string * string);
  rs_body : json
}.

(** ** Error documents ([_install_problem_handlers]) *)

Record field_error : Type := FieldError { fe_loc : list json; fe_msg : string; fe_type : string }.

(** What a request fails with: an exception of a handler, one of the router's, a body,
    query or path that does not fit, or the refusal of the limiter in front of the
    credential endpoints, with the extras [RateLimit.rate_limited] gives its error. *)
Inductive failure : Type :=
  | Raised (e : exn)
  | Limited (retry_after limit : Z)
  | HttpException (status : Z) (detail : string) (headers : list (string * string))
  | RequestValidation (errors : list field_error).

Section Problems.
Context (message : exn -> string) (path : string) (current_request_id request_id_header trace_id : option string).

(** [a or b], of texts that may be missing. *)
Definition or_else (a b : option string) : option string := if truthy_str a then a else b.
Definition problem_request_id : option string := or_else (or_else current_request_id request_id_header) trace_id.

Definition domain_error_handler (c : error_class) (extras : jobj) : response :=
  Response (status c) [] (JObj (to_problem c (message (Domain c extras)) extras (Some path) problem_request_id)).

Definition http_error_handler (code : Z) (detail : string) (headers : list (string * string)) : response :=
  let document c text := to_problem c (or_str (Some detail) text) [] (Some path) problem_request_id in
  Response code headers (JObj
    (if (code =? 404)%Z then document NotFoundError "Not found"
     else if (code =? 405)%Z then document MethodNotAllowedError "Method not allowed"
     else jset "status" (JInt code) (document HttpError "Request rejected"))).

Definition part_text (j : json) : string := match j with JStr s => s | JInt z => Z_str z | _ => "" end.
Definition error_field (e : field_error) : string :=
  or_str (Some (String.concat "." (part_text <$> drop 1 (fe_loc e)))) "body".
Definition error_json (e : field_error) : json :=
  JObj [("loc", JList (fe_loc e)); ("msg", JStr (fe_msg e)); ("type", JStr (fe_type e))].
Definition validation_error_handler (errors : list field_error) : response :=
  Response 422 [] (JObj
    [("type", JStr (BASE_PROBLEM_URI +:+ "/validation_failed")); ("title", JStr "validation failed"); ("status", JInt 422);
     ("detail", JStr ("Invalid request: " +:+ String.concat ", " (error_field <$> take 3 errors))); ("instance", JStr path);
     ("request_id", jopt JStr problem_request_id); ("errors", JList (error_json <$> errors))]).

(** The answer to anything unforeseen says nothing of it. *)
Definition unhandled_error_handler : response :=
  Response 500 [] (JObj
    [("type", JStr (BASE_PROBLEM_URI +:+ "/internal_error")); ("title", JStr "internal error"); ("status", JInt 500);
     ("detail", JStr "An unexpected error occurred."); ("request_id", jopt JStr (or_else current_request_id request_id_header))]).

(** [_too_many] of the limiter, which is a middleware: its document is built without
    the request's id. *)
Definition limited_extras (retry_after limit : Z) : jobj :=
  [("retry_after_seconds", JInt (Z.max retry_after 1)); ("limit", JInt limit)].
Definition _too_many (extras : jobj) : response :=
  let retry := retry_after extras in
  Response 429 [("Retry-After", part_text retry)]
    (JObj (jset "retry_after_seconds" retry
      (to_problem RateLimitedError (message (Domain RateLimitedError extras)) extras (Some path) None))).

(** The handlers and the limiter inside the middleware answer these; the rest is left to the outermost one. *)
Definition handled (f : failure) : option response :=
  match f with
  | Raised (Domain c extras) => Some (domain_error_handler c extras)
  | Limited retry limit => Some (_too_many (limited_extras retry limit))
  | HttpException code detail headers => Some (http_error_handler code detail headers)
  | RequestValidation errors => Some (validation_error_handler errors)
  | Raised (PyError _) => None
  end.
End Problems.

(** ** The request id (RequestContextMiddleware) *)

Definition request_id (header : option string) (hex : string) : string :=
  if truthy_str header then default "" header else "req_" +:+ str_take 16 hex.

Definition set_header (k v : string) (r : response) : response :=
  Response (rs_status r) (filter (fun h : string * string => lower h.1 <> lower k) (rs_headers r) ++ [(k, v)]) (rs_body r).
Definition with_context (rid elapsed_ms : string) (r : response) : response :=
  set_header "Referrer-Policy" "strict-origin-when-cross-origin" (set_header "X-Content-Type-Options" "nosniff"
    (set_header "X-Response-Time-Ms" elapsed_ms (set_header "X-Request-Id" rid r))).

(** ** Commit before send *)

Inductive http_message : Type := Start (r : response) | Body.

(** What went out, with the tables as they were committed at that moment. *)
Definition wire : Type := list (http_message * db).

(** [send_wrapper]: the stack of the request's dependencies, [None] when the scope has
    none, else whether it is marked closed. *)
Definition send_wrapper (close : M unit) (stack : option bool) (m : http_message) (w : world) :
    option bool * wire * result unit * world :=
  match m, stack with
  | Start _, Some false =>
      match close w with
      | (Ok _, w) => (Some true, [(m, w_durable w)], Ok tt, w)
      | (Err e, w) => (Some true, [], Err e, w)
      end
  | _, _ => (stack, [(m, w_durable w)], Ok tt, w)
  end.

Fixpoint send_all (close : M unit) (stack : option bool) (ms : list http_message) (w : world) : wire * result unit * world :=
  match ms with
  | [] => ([], Ok tt, w)
  | m :: ms =>
      match send_wrapper close stack m w with
      | (stack, sent, Ok _, w) => let '(sent', r, w) := send_all close stack ms w in (sent ++ sent', r, w)
      | (_, sent, Err e, w) => (sent, Err e, w)
      end
  end.

(** The dependencies of a request on its way out: what [get_session] does after its
    [yield], without and with an exception. *)
Definition close_session : M unit := request (mret tt).
Definition unwind_session (w : world) : world := (discard_deferred_bumps (rollback w).2).2.

(** One request, from the handler to the wire; [protected]: with the middleware. *)
Section Exchange.
Context {A : Type} (encode : A -> response) (problem : exn -> response) (unhandled : response).

Definition exchange (protected : bool) (handler : M A) (w : world) : wire * world :=
  match handler w with
  | (Err e, w) =>
      let w := unwind_session w in
      ([(Start (problem e), w_durable w); (Body, w_durable w)], w)
  | (Ok a, w) =>
      let '(sent, r, w) := send_all close_session (if protected then Some false else None) [Start (encode a); Body] w in
      match r with
      | Err _ => (sent ++ [(Start unhandled, w_durable w); (Body, w_durable w)], w)
      | Ok _ => if protected then (sent, w) else (sent, (close_session w).2)   (* the framework's own unwinding *)
      end
  end.

End Exchange.

(** ** The whole way of a request *)

(** What the middleware around the handlers make of an outcome: an answered one
    passes [RequestContextMiddleware], an unforeseen exception leaves it, and its
    request id, behind. *)
Definition answer (message : exn -> string) (path rid elapsed_ms : string) (header trace : option string) (f : failure) : response :=
  match handled message path (Some rid) header trace f with
  | Some r => with_context rid elapsed_ms r
  | None => unhandled_error_handler None header
  end.

(** Startup ([lifespan]): the role, the price list, the self-test of the middleware.
    [role] is what the catalog says of the connected role, or the error of asking;
    [sees_stack], whether the probe request carried the dependency stack. *)
Definition check_role (c : config) (role : result db_role) : M unit :=
  match role with
  | Err e => if is_production c then raise e else mret tt
  | Ok r => match assert_role_matches_isolation (rls_enabled c) r with Err e => raise e | Ok _ => mret tt end
  end.

(** [async with factory() as session]: what was not committed is given up. *)
Definition own_session {A} (m : M A) : M A := fun w =>
  match m w with
  | (Ok a, w') => (Ok a, unwind_session w')
  | (Err e, w') => (Err e, unwind_session w')
  end.

Definition auto_sync (c : config) (catalog : result plan_catalog) : M unit := fun w =>
  let sync := match catalog with Ok c => own_session (_ ← sync_plans c; commit) | Err e => raise e end in
  match sync w with
  | (Err e, w') => if is_production c then (Err e, w') else (Ok tt, w')
  | (Ok _, w') => (Ok tt, w')
  end.

Definition assert_effective (sees_stack : bool) : M unit :=
  if sees_stack then mret tt else raise (PyError "CommitBeforeSendIneffectiveError").

Definition lifespan (c : config) (role : result db_role) (catalog : result plan_catalog) (sees_stack : bool) : M unit :=
  _ ← check_role c role;
  _ ← (if cf_auto_sync_plans c then auto_sync c catalog else mret tt);
  assert_effective sees_stack.

(** [readyz]: a dependency that does not answer makes the whole unready. *)
Definition check_ok (s : string) : bool := String.eqb s "ok" || String.eqb s "not_configured".
Definition readyz (database : option string) (redis : option (option string)) : response :=
  let checks :=
    [("database", match database with None => "ok" | Some e => "error: " +:+ e end);
     ("redis", match redis with None => "not_configured" | Some None => "ok" | Some (Some e) => "error: " +:+ e end)] in
  let overall := if forallb check_ok checks.*2 then "ok" else "error" in
  Response (if String.eqb overall "ok" then 200 else 503) []
    (JObj [("status", JStr overall); ("checks", JObj ((fun c => (c.1, JStr c.2)) <$> checks))]).

Definition FRAMEWORK_VERSION : string := "0.4.1".
Definition meta (product : string) (c : config) : json :=
  JObj [("framework", JStr "synapse-saas"); ("product", JStr product); ("version", JStr FRAMEWORK_VERSION);
        ("billing_provider", JStr (st_billing_provider (cf_settings c)));
        ("identity_provider", JStr (st_identity_provider (cf_settings c)));
        ("tenant_isolation", JStr (cf_tenant_isolation c))].

(** ** Laws *)

Lemma request_close {A} (m : M A) w : request m w =
  match m w with
  | (Ok a, w) => match close_session w with (Ok _, w) => (Ok a, w) | (Err e, w) => (Err e, w) end
  | (Err e, w) => (Err e, unwind_session w)
  end.
Proof.
  unfold close_session, unwind_session, request. destruct (m w) as [[a|e] w']; [|done]. cbn. by destruct (commit w') as [[]].
Qed.

Lemma close_session_run w : match close_session w with
  | (Ok _, w') => w_durable w' = w_db w /\ w_db w' = w_db w
  | (Err _, w') => w_durable w' = w_durable w /\ w_db w' = w_durable w
  end.
Proof.
  unfold close_session, request, commit, flush. cbn -[constraints_ok].
  generalize (bool_decide (constraints_ok (w_db w))) as b. intros []; cbn; [|done].
  destruct (data_flush_bumps (w <| w_durable := w_db w |>)) as [H1 H2]. by rewrite H1, H2.
Qed.

(** C8: What a client is told is what the database holds: behind the middleware a
    request sends exactly one response, which reports success exactly when the request
    transaction succeeds, and when the first byte of it leaves, the tables any
    later request can read are already the ones the request ends with: the
    handler's, committed, on success, and on failure those of before it, when the handler
    committed nothing itself.  Without the middleware a success leaves before its
    commit. *)
Theorem response_means_committed {A} (encode : A -> response) problem unhandled (handler : M A) w :
  let '(sent, w') := exchange encode problem unhandled true handler w in
  w' = (request handler w).2 /\
  match (request handler w).1 with
  | Ok a => sent = [(Start (encode a), w_durable w'); (Body, w_durable w')] /\
      w_durable w' = w_db (handler w).2 /\
      head (exchange encode problem unhandled false handler w).1 = Some (Start (encode a), w_durable (handler w).2)
  | Err e => exists r, sent = [(Start r, w_durable w'); (Body, w_durable w')] /\
      r = (match (handler w).1 with Err _ => problem e | Ok _ => unhandled end) /\
      w_durable w' = w_durable (handler w).2
  end.
Proof.
  rewrite request_close. unfold exchange. destruct (handler w) as [[a|e] w1] eqn:E; cbn [fst snd send_all send_wrapper]; [|split; [done|]; by eexists].
  pose proof (close_session_run w1) as Hc. destruct (close_session w1) as [[[]|e] w2]; cbn in *.
  - destruct Hc as [Hd Hb]. by rewrite Hd.
  - split; [done|]. eexists. split; [done|]. by destruct Hc as [-> _].
Qed.

(** ** Startup *)

Lemma own_session_run {A} (m : M A) w : (own_session m w).1 = (m w).1 /\ w_durable (own_session m w).2 = w_durable (m w).2.
Proof. unfold own_session. by destruct (m w) as [[] ?]. Qed.

Lemma run_bind {A B} (m : M A) (f : A -> M B) w :
  mbind f m w = match m w with (Ok a, w') => f a w' | (Err e, w') => (Err e, w') end.
Proof. reflexivity. Qed.

Lemma check_role_run c role w : match check_role c role w with
  | (Ok _, w') => w' = w /\ (forall r, role = Ok r -> bypasses r = negb (rls_enabled c)) /\ (is_production c = true -> exists r, role = Ok r)
  | (Err e, w') => w' = w /\ match role with Ok r => bypasses r = rls_enabled c | Err _ => is_production c = true end
  end.
Proof.
  unfold check_role, assert_role_matches_isolation. destruct role as [r|e].
  - destruct (rls_enabled c), (bypasses r) eqn:E; cbn; try done; (split; [done|]); (split; [by intros ? [= <-]|by eexists]).
  - by destruct (is_production c).
Qed.

Lemma auto_sync_run c catalog w : (forall pc, catalog = Ok pc -> syncable pc w) ->
  match auto_sync c catalog w with
  | (Ok _, w') => match catalog with
      | Ok pc => catalog_projected pc (w_clock w) (w_db w) (w_durable w')
      | Err _ => is_production c = false /\ w_durable w' = w_durable w
      end
  | (Err e, w') => (exists e', catalog = Err e') /\ is_production c = true /\ w_durable w' = w_durable w
  end.
Proof.
  intros H. unfold auto_sync. destruct catalog as [pc|e].
  - destruct (projection_run pc w (H pc eq_refl)) as (r & w1 & E & _ & P & _ & _ & Hc & _).
    unfold own_session. rewrite (run_ok _ _ _ _ _ E). unfold commit. rewrite (flush_run w1 Hc). exact P.
  - cbn. destruct (is_production c); cbn; [|done]. by split; [eexists|].
Qed.

(** The application starts exactly when it should.  Once it serves, every
    response is sent after its commit, the connected role passes for one that bypasses
    the policies exactly when row-level security is off, as far as that could be asked,
    which in production it could, and the tables hold the price list of the file whenever it
    loads and is to be synchronized, which in production it does.  A start that is
    refused is refused for one of these reasons, and but for the self-test, which comes
    last, has changed nothing. *)
Theorem startup_decides c role catalog sees_stack w : (forall pc, catalog = Ok pc -> syncable pc w) ->
  match lifespan c role catalog sees_stack w with
  | (Ok _, w') =>
      sees_stack = true /\ (forall r, role = Ok r -> bypasses r = negb (rls_enabled c)) /\
      (is_production c = true -> exists r, role = Ok r) /\
      match cf_auto_sync_plans c, catalog with
      | true, Ok pc => catalog_projected pc (w_clock w) (w_db w) (w_durable w')
      | true, Err _ => is_production c = false /\ w_durable w' = w_durable w
      | false, _ => w_durable w' = w_durable w
      end
  | (Err e, w') =>
      sees_stack = false \/
      w_durable w' = w_durable w /\
        (match role with Ok r => bypasses r = rls_enabled c | Err _ => is_production c = true end \/
         is_production c = true /\ cf_auto_sync_plans c = true /\ exists e', catalog = Err e')
  end.
Proof.
  intros H. unfold lifespan. pose proof (check_role_run c role w) as Hr.
  rewrite run_bind. destruct (check_role c role w) as [[[]|e] w1]; destruct Hr as [-> Hr]; [|by right; split; [|left]].
  pose proof (auto_sync_run c catalog w H) as Hs. rewrite run_bind. destruct (cf_auto_sync_plans c).
  - destruct (auto_sync c catalog w) as [[[]|e] w2]; [|destruct Hs as (? & ? & ?); right; by split; [|right]].
    unfold assert_effective. destruct sees_stack; [|by left]. destruct Hr as [Hr1 Hr2]. by split_and!.
  - unfold assert_effective. cbn. destruct sees_stack; [|by left]. destruct Hr as [Hr1 Hr2]. by split_and!.
Qed.

(** ** Error documents *)

Lemma problem_member k v c text path rid : (k, v) ∈ rfc7807_members c text -> forall extras,
  jget k (to_problem c text extras (Some path) rid) = Some v.
Proof.
  intros Hkv extras. assert (Hk : k ∈ ["type"; "title"; "status"; "detail"])
    by (unfold rfc7807_members in Hkv; rewrite !elem_of_cons in Hkv; set_solver).
  assert (k <> "instance" /\ k <> "request_id") as [Hi Hr] by (split; intros ->; apply (bool_decide_pack _) in Hk; by vm_compute in Hk).
  assert (Hb : jget k (jupdate extras (rfc7807_members c text)) = Some v)
    by (apply jget_jupdate_in; [by apply (bool_decide_unpack _); vm_compute|done]).
  unfold to_problem. destruct rid; by rewrite ?jget_jset_ne by done.
Qed.
Lemma problem_members c text extras path rid : let doc := to_problem c text extras (Some path) rid in
  jget "status" doc = Some (JInt (status c)) /\ is_Some (jget "type" doc) /\ is_Some (jget "title" doc) /\ is_Some (jget "detail" doc).
Proof.
  cbv zeta. rewrite (problem_member "status" (JInt (status c)) c text path rid), (problem_member "type" (JStr (problem_type c)) c text path rid),
    (problem_member "title" (JStr (underscores_to_spaces (title c))) c text path rid), (problem_member "detail" (JStr text) c text path rid)
    by (unfold rfc7807_members; set_solver). split_and!; by try eexists.
Qed.
Lemma problem_request_member c text extras path rid : jget "request_id" (to_problem c text extras (Some path) (Some rid)) = Some (JStr rid).
Proof. unfold to_problem. apply jget_jset_eq. Qed.

Lemma request_id_given header hex : request_id header hex <> "".
Proof.
  unfold request_id. destruct (truthy_str header) eqn:E; [|done]. destruct header as [s|]; [|done]. cbn. by intros ->.
Qed.

Definition is_problem (r : response) (doc : jobj) : Prop :=
  rs_body r = JObj doc /\ jget "status" doc = Some (JInt (rs_status r)) /\ is_Some (jget "type" doc) /\ is_Some (jget "title" doc) /\
  is_Some (jget "detail" doc).

Lemma is_problem_context rid ms r doc : is_problem r doc -> is_problem (with_context rid ms r) doc.
Proof. done. Qed.

Lemma limited_members message path retry limit : let doc :=
    jset "retry_after_seconds" (JInt (Z.max retry 1))
      (to_problem RateLimitedError (message (Domain RateLimitedError (limited_extras retry limit))) (limited_extras retry limit) (Some path) None) in
  rs_body (_too_many message path (limited_extras retry limit)) = JObj doc /\
  is_problem (_too_many message path (limited_extras retry limit)) doc /\
  jget "request_id" doc = None /\ jget "retry_after_seconds" doc = Some (JInt (Z.max retry 1)).
Proof.
  cbv zeta. split; [done|]. split; [|split; [by rewrite jget_jset_ne|apply jget_jset_eq]].
  split; [done|]. rewrite !jget_jset_ne by done.
  apply (problem_members RateLimitedError (message (Domain RateLimitedError (limited_extras retry limit))) (limited_extras retry limit) path None).
Qed.

(** C37: What a handler raises, the router refuses, a request that does not parse and an
    attempt over the limit of a credential endpoint are answered with a problem
    document whose status is the status of the response.  Of the foreseen failures the
    document and the header carry the request's id, whatever an error's extension
    members are called, except that of the limiter, whose document has none, only the
    header and when to try again; an unforeseen exception is answered with one and the
    same document, which tells nothing of it and no id but one the client sent. *)
Theorem errors_are_problems message path hex elapsed header trace f :
  let rid := request_id header hex in
  let r := answer message path rid elapsed header trace f in
  exists doc, is_problem r doc /\
    match f with
    | Raised (PyError _) => r = unhandled_error_handler None header
    | Limited retry _ => jget "request_id" doc = None /\ jget "retry_after_seconds" doc = Some (JInt (Z.max retry 1)) /\
        rs_status r = 429%Z /\ ("X-Request-Id", rid) ∈ rs_headers r /\ ("Retry-After", Z_str (Z.max retry 1)) ∈ rs_headers r
    | _ => jget "request_id" doc = Some (JStr rid) /\ ("X-Request-Id", rid) ∈ rs_headers r
    end.
Proof.
  intros rid r. assert (Hrid : problem_request_id (Some rid) header trace = Some rid).
  { pose proof (request_id_given header hex) as H. fold rid in H. unfold problem_request_id, or_else, truthy_str.
    destruct (String.eqb_spec rid ""); [done|]. cbn. by destruct (String.eqb_spec rid ""). }
  assert (Hh : forall r, ("X-Request-Id", rid) ∈ rs_headers (with_context rid elapsed r))
    by (intros r0; unfold with_context, set_header; cbn -[lower]; rewrite !filter_app; set_solver).
  subst r. unfold answer. destruct f as [[c extras|name]|retry limit|code detail headers|errors].
  - eexists. split; [split; [done|]; apply problem_members|]. rewrite Hrid. split; [apply problem_request_member|apply Hh].
  - eexists. split; [|done]. split; [done|]. by split_and!; try eexists.
  - destruct (limited_members message path retry limit) as (_ & Hp & Hn & Hr). eexists. split; [apply is_problem_context, Hp|].
    split_and!; [exact Hn|exact Hr|done|apply Hh|]. vm_compute. left.
  - unfold is_problem. cbn [handled rs_body rs_status with_context set_header http_error_handler]. rewrite Hrid.
    destruct (Z.eqb_spec code 404) as [->|]; [|destruct (Z.eqb_spec code 405) as [->|]].
    + eexists. split; [split; [done|]; apply problem_members|split; [apply problem_request_member|apply Hh]].
    + eexists. split; [split; [done|]; apply problem_members|split; [apply problem_request_member|apply Hh]].
    + eexists. split; [split; [done|]|split; [|apply Hh]]; [|rewrite jget_jset_ne by done; apply problem_request_member].
      rewrite jget_jset_eq, !jget_jset_ne by done. split; [done|]. apply problem_members.
  - eexists. split; [split; [done|]; by split_and!; try eexists|]. split; [|apply Hh]. by rewrite Hrid.
Qed.

(** ** Witnesses *)

Definition owner_role : db_role := DbRole false false (fun _ => true) true (fun _ => true).

Lemma startup_decides_witness : exists w', lifespan default_config (Ok owner_role) (Ok price_list) true demo = (Ok tt, w') /\
  w_durable w' Tplans !! (11%N : key Tplans) = Some (archived NOW pro_plan).
Proof.
  assert (H : forall pc, Ok price_list = Ok pc -> syncable pc demo) by (intros pc [= <-]; exact price_list_syncable).
  pose proof (startup_decides default_config (Ok owner_role) (Ok price_list) true demo H) as S.
  destruct (lifespan default_config (Ok owner_role) (Ok price_list) true demo) as [[[]|e] w']; cbn in S.
  - destruct S as (_ & _ & _ & [_ H2 _ _ _]). exists w'. split; [done|].
    apply (H2 11%N pro_plan); [vm_compute; reflexivity|]. apply (bool_decide_unpack _). vm_compute. exact I.
  - exfalso. destruct S as [S|(_ & [S|(S & _)])]; vm_compute in S; discriminate S.
Defined.
