(* ===== verification/Routes.v ===== *)
(** The routers of organizations, roles, subscriptions, entitlements, usage, billing,
    webhooks, feature flags and the audit log (the router.py of each package): the
    permission a route asks for, and the calls it makes.

    A route is what runs once its dependencies are resolved: the principal, and the
    tenant or the operator's standing ([Api] resolves them).  Bodies have passed
    their schemas; replies are the rows a route projects onto its response model.  The routers
    of identity, API keys, files, agents, reports and branding are with their services. *)

From Stdlib Require Import Ascii.
From S2P Require Import Prelude Calendar Text Ids Permissions Json Errors Events Tables Store Branding Cache Session Fixtures.
From S2P Require Import Repository FeatureFlags Authorization Subscriptions Resolver Interfaces Entitlements Usage Tenancy.
From S2P Require Import Notifications Reporting Invoicing Billing BillingWebhooks Webhooks.

(** ** Periods *)

(** The first day of a month of a year. *)
Definition first_day (y m : Z) : date :=
  (let y := y - (if m <=? 2 then 1 else 0) in
   y / 400 * 146097 + year_start (y mod 400) + month_start (if m <=? 2 then m + 9 else m - 3) - 719468)%Z.

(** [_parse_period], and [usage_summary]'s reading of [YYYY-MM]; there is no year zero. *)
Definition _parse_period (raw : option string) : result (option date) :=
  match raw with
  | None => Ok None
  | Some s =>
      let '(y, _, m) := partition "-" s in
      match int_of_str y, int_of_str m with
      | Some y, Some m => if (1 <=? y)%Z then Ok (Some (first_day y m)) else Err (PyError "ValueError")
      | _, _ => Err (PyError "ValueError")
      end
  end.
Definition parsed_period (raw : option string) : M (option date) :=
  match _parse_period raw with Ok p => mret p | Err e => raise e end.

Section Tenant.
Context (fga_check : string -> string -> string -> option bool) `{EntitlementReader}.
Context (sha256 encrypt_secret : string -> string) (ops : provider_kind -> provider_ops).
Context (uid : uuid) (u : user) (tenant : tenant_context).
Let org : uuid := tx_organization_id tenant.
Let need (permission : string) : M unit := require_permission fga_check permission uid u tenant.

(** ** Organizations and members (tenancy/router.py) *)

Record membership_read : Type := MembershipRead {
  mv_id : uuid;
  mv_membership : membership;
  mv_email : option string;
  mv_display_name : option string;
  mv_role_keys : list string
}.

(** [_to_membership_read]: the member's user and roles, the keys in order. *)
Definition _to_membership_read (mid : uuid) (m : membership) : M membership_read :=
  member ← match mb_user_id m with Some i => session_get Tusers i | None => mret None end;
  held ← select Tmembership_roles (fun k _ => bool_decide (k.1 = mid));
  roles ← read_table Troles;
  let keys := omap (fun r : key Tmembership_roles * row Tmembership_roles => ro_key <$> (roles !! r.1.2 : option authorization_role)) held in
  mret (MembershipRead mid m ((fun v : user => u_email v) <$> (member : option user))
    ((fun v : user => u_display_name v) <$> (member : option user)) (sorted_str keys)).

Fixpoint membership_reads (l : list (key Tmemberships * row Tmemberships)) : M (list membership_read) :=
  match l with
  | [] => mret []
  | (mid, m) :: l => r ← _to_membership_read mid m; rs ← membership_reads l; mret (r :: rs)
  end.

Definition get_current_org : M organization := get_organization org.
Definition update_current_org (name : option string) (settings : option jobj) : M organization :=
  _ ← need "org:update"; update_organization org name settings.

Definition list_members (limit offset : nat) : M (list membership_read * Z) :=
  _ ← need "member:read";
  members ← for_organization org limit offset;
  active ← count_active_members org;
  pending ← _count_pending_invites org;
  reads ← membership_reads members;
  mret (reads, (active + pending)%Z).

Definition invite_member_route (token email : string) (role_keys : list string) : M membership_read :=
  _ ← need "member:invite";
  _ ← set_tenant tenant;
  e ← effective_for org;
  o ← get_organization org;
  r ← invite_member sha256 token org email (Some role_keys) (limit_value e "users") (o_name o);
  _to_membership_read r.1 r.2.

(** A membership of another organization does not exist. *)
Definition own_membership (mid : uuid) : M membership :=
  m ← session_get Tmemberships mid;
  match (m : option membership) with
  | Some m => if N.eqb (mb_organization_id m) org then mret m else raise_domain NotAMemberError []
  | None => raise_domain NotAMemberError []
  end.
Definition update_membership_route (mid : uuid) (role_keys : option (list string)) (status : option string) : M membership_read :=
  _ ← need "member:update";
  _ ← set_tenant tenant;
  _ ← own_membership mid;
  m ← update_membership mid role_keys status;
  _to_membership_read mid m.
Definition remove_member_route (mid : uuid) : M unit :=
  _ ← need "member:remove";
  _ ← set_tenant tenant;
  _ ← own_membership mid;
  remove_member mid.

(** ** Roles (authorization/router.py) *)

Definition list_roles_route : M (list (uuid * authorization_role)) := _ ← need "member:read"; list_roles org.
Definition create_role (role_key name : string) (description : option string) (permissions : list string) : M (uuid * authorization_role) :=
  _ ← need "role:manage"; create_custom_role org role_key name description permissions.
Definition update_role (role_id : uuid) (name description : option string) (permissions : option (list string)) : M authorization_role :=
  _ ← need "role:manage"; update_custom_role role_id org name description permissions.
Definition delete_role (role_id : uuid) : M unit := _ ← need "role:manage"; delete_custom_role role_id org.

(** ** The audit log (audit/router.py) *)

Definition list_audit (event_type : option string) (actor : option uuid) (limit offset : nat) : M (list (key Taudit_logs * row Taudit_logs)) :=
  _ ← need "audit:read";
  rows ← select Taudit_logs (fun _ (a : audit_log) =>
    bool_decide (al_organization_id a = Some org) &&
    (negb (truthy_str event_type) || String.eqb (al_event_type a) (default "" event_type)) &&
    (bool_decide (actor = None) || bool_decide (al_actor_user_id a = actor)));
  mret (take limit (drop offset (order_by_desc (fun r : key Taudit_logs * row Taudit_logs => al_created_at r.2) rows))).

(** ** Subscriptions (subscriptions/router.py) *)

Definition current_subscription : M (option (uuid * subscription) * effective_entitlements * list (string * Z)) :=
  _ ← need "billing:read";
  s ← current_for_org org;
  e ← effective_for org;
  used ← summary org None;
  mret (s, e, used).
Definition start_trial_route (plan_key : string) : M (uuid * subscription) := _ ← need "billing:manage"; start_trial org plan_key None.
Definition change_plan_route (plan_key : string) : M (uuid * subscription) :=
  _ ← need "billing:manage"; provider ← build_provider ops None; Billing.change_plan provider org plan_key.
Definition cancel_subscription (at_period_end : bool) : M (uuid * subscription) := _ ← need "billing:manage"; cancel org at_period_end.
Definition resume_subscription : M (uuid * subscription) := _ ← need "billing:manage"; resume org.

(** ** Entitlements and usage (entitlements/router.py, usage/router.py) *)

Definition effective_entitlements_route : M effective_entitlements := effective_for org.

Fixpoint record_events (events : list usage_input) : M (list usage_result) :=
  match events with
  | [] => mret []
  | e :: events =>
      r ← record org (un_metric e) (un_quantity e) None (un_idempotency_key e) (un_properties e);
      rs ← record_events events;
      mret (r :: rs)
  end.
Definition consume_route (events : list usage_input) : M usage_result :=
  match events with
  | [e] => consume org (un_metric e) (un_quantity e) (un_idempotency_key e) (un_properties e)
  | _ => raise_domain ValidationFailedError
           [("events", JInt (Z.of_nat (length events))); ("batch_url", JStr "/v1/usage/consume-batch")]
  end.
Definition consume_batch (events : list usage_input) : M (list usage_result) := consume_many org events.

(** [GaugeIn]: a level, or a movement, exactly one of the two. *)
Inductive gauge_change : Type := SetTo (value : Z) | MoveBy (delta : Z).
Definition set_gauge_route (metric : string) (change : gauge_change) : M usage_result :=
  match change with
  | SetTo v => set_gauge org metric v
  | MoveBy d => adjust_gauge org metric d true
  end.
Definition check_usage (metric : string) (quantity : Z) : M usage_check := check org metric quantity.

Fixpoint summary_checks (e : effective_entitlements) (l : list (string * Z)) : M (list usage_check) :=
  match l with
  | [] => mret []
  | (metric, used) :: l => c ← check_against e metric used 1; cs ← summary_checks e l; mret (c :: cs)
  end.
Definition usage_summary (period : option string) : M (date * list usage_check) :=
  p ← parsed_period period;
  entries ← summary org p;
  e ← effective_for org;
  checks ← summary_checks e entries;
  t ← now;
  mret (default (_month_bucket t) p, checks).

(** ** Billing (billing/router.py) *)

Context (web_origin base_url : string).
Definition _web_origin : string := rstrip_char "/" (if String.eqb web_origin "" then base_url else web_origin).

Definition start_checkout_route (plan_key : string) : M checkout_result :=
  _ ← need "billing:manage";
  o ← get_organization org;
  p ← plan_by_key plan_key false;
  provider ← build_provider ops None;
  r ← start_checkout provider org o (lp_plan p) (Some (_web_origin +:+ "/dashboard/billing?checkout=success"))
        (Some (_web_origin +:+ "/dashboard/billing?checkout=cancelled")) (Some u);
  mret r.2.
Definition confirm_checkout (plan_key : string) : M (string * string * string) :=
  _ ← need "billing:manage";
  o ← get_organization org;
  p ← plan_by_key plan_key false;
  provider ← build_provider ops None;
  s ← complete_checkout provider org o (lp_plan p) None (Some u) "client_confirm";
  mret (s_status s.2, p_key (lp_plan p), bp_name provider).
Definition portal_url : M (option string) :=
  _ ← need "billing:manage";
  o ← get_organization org;
  provider ← build_provider ops None;
  billing_portal_url provider org o (_web_origin +:+ "/dashboard/billing").
Definition list_invoices (page : page_params) : M (list (uuid * invoice) * Z) :=
  _ ← need "billing:read";
  _ ← build_provider ops None;
  invoices ← invoices_for_org org;
  mret (paginate_in_memory invoices page).

(** [_detail]. *)
Definition invoice_detail : Type := uuid * invoice * list (uuid * invoice_line).
Definition _detail (i : uuid) (v : invoice) : M invoice_detail := ls ← lines_for i (i_organization_id v); mret (i, v, ls).

Definition draft_invoice (period : option string) : M invoice_detail :=
  _ ← need "billing:manage";
  p ← parsed_period period;
  r ← draft_for_org org p;
  _detail r.1 r.2.
Definition finalize_invoice (i : uuid) : M invoice_detail := _ ← need "billing:manage"; v ← finalize i org; _detail i v.
Definition get_invoice_detail (i : uuid) : M invoice_detail := _ ← need "billing:read"; v ← Invoicing.get i org; _detail i v.

Context (render_invoice_pdf : uuid * invoice -> list (uuid * invoice_line) -> string -> option string -> option string -> string).
Context (manual_pay_to_instructions : string).
Definition download_invoice_pdf (i : uuid) : M (string * string) :=
  _ ← need "billing:read";
  v ← Invoicing.get i org;
  ls ← lines_for i org;
  o ← session_get Torganizations org;
  let org_name := match (o : option organization) with Some o => o_name o | None => "Unknown Organization" end in
  billing_email ← match i_billing_customer_id v with
    | None => mret None
    | Some c =>
        customer ← session_get Tbilling_customers c;
        mret (match (customer : option billing_customer) with
              | Some c => if truthy_str (bc_email c) then bc_email c else None
              | None => None
              end)
    end;
  let pay_to := if String.eqb manual_pay_to_instructions "" then None else Some manual_pay_to_instructions in
  mret ("invoice-" +:+ or_str (i_number v) (uuid_str i) +:+ ".pdf", render_invoice_pdf (i, v) ls org_name billing_email pay_to).

(** ** Webhook endpoints (webhooks/router.py) *)

Definition list_endpoints_route (page : page_params) : M (list (uuid * webhook_endpoint) * Z) :=
  _ ← need "webhook:manage"; endpoints ← list_endpoints org; mret (paginate_in_memory endpoints page).
Definition create_endpoint_route (url : string) (events : list string) (description : option string) : M (uuid * webhook_endpoint * string) :=
  _ ← need "webhook:manage"; create_endpoint encrypt_secret org url events description.
Definition delete_endpoint_route (i : uuid) : M unit := _ ← need "webhook:manage"; delete_endpoint i org.
Definition list_deliveries (endpoint_id : option uuid) (page : page_params) : M (list (key Twebhook_deliveries * row Twebhook_deliveries) * Z) :=
  _ ← need "webhook:manage";
  rows ← select Twebhook_deliveries (fun _ (d : webhook_delivery) =>
    N.eqb (wd_organization_id d) org && match endpoint_id with Some e => N.eqb (wd_endpoint_id d) e | None => true end);
  mret (paginate (order_by_desc (fun r : key Twebhook_deliveries * row Twebhook_deliveries => wd_created_at r.2) rows) page).
Definition retry_delivery_route (i : uuid) : M webhook_delivery := _ ← need "webhook:manage"; retry_delivery i org.

(** ** Flags as a member sees them (feature_flags/router.py) *)

Definition check_flag (digest : string -> list Z) (k : string) : M bool := is_enabled digest k (Some org) (Some uid).
End Tenant.

(** ** Routes of a signed-in user *)

Section User.
Context `{EntitlementReader} (uid : uuid).

Definition list_my_orgs : M (list organization) :=
  memberships ← for_user uid;
  orgs ← read_table Torganizations;
  mret (omap (fun r : key Tmemberships * row Tmemberships => orgs !! (mb_organization_id r.2) : option organization) memberships).
Definition create_organization_route (name : string) (slug : option string) (suffix : string) : M (uuid * organization) :=
  create_organization name uid slug suffix.

Definition list_plans (page : page_params) : M (list (key Tplans * row Tplans) * Z) :=
  rows ← select Tplans (fun _ (p : plan) => p_is_public p && bool_decide (p_archived_at p = None));
  mret (paginate (order_by (fun r : key Tplans * row Tplans => p_sort_order r.2) rows) page).
End User.

(** ** Routes of the platform's operators *)

Section Operator.
Context `{EntitlementReader} (uid : uuid).

Definition suspend_org (org : uuid) : M unit := _ ← suspend_organization org; mret tt.
Definition unsuspend_org (org : uuid) : M unit := _ ← unsuspend_organization org; mret tt.

Definition admin_effective_entitlements (org : uuid) : M effective_entitlements := effective_for org.
Definition admin_grant_entitlement (org : uuid) (feature_key source : string) (enabled : bool) (duration_days : option Z)
    (note : option string) (value : option Z) : M (uuid * entitlement) :=
  grant org feature_key source duration_days enabled note value (Some uid).

(** [EntitlementService.get]; a grant of another organization is not revoked here. *)
Definition grant_by_id (i : uuid) : M entitlement :=
  e ← session_get Tentitlements i;
  match (e : option entitlement) with
  | Some e => mret e
  | None => raise_domain EntitlementNotFoundError [("entitlement_id", JUuid i)]
  end.
Definition admin_revoke_entitlement (org i : uuid) : M unit :=
  e ← grant_by_id i;
  if N.eqb (e_organization_id e) org then _ ← revoke i; mret tt else raise_domain EntitlementNotFoundError [].

(** The organization of the money movement is the invoice's. *)
Definition _invoice_org (i : uuid) : M uuid :=
  v ← session_get Tinvoices i;
  match (v : option invoice) with
  | Some v => mret (i_organization_id v)
  | None => raise_domain InvoiceNotFoundError [("invoice_id", JUuid i)]
  end.
Definition admin_record_payment (i : uuid) (amount_cents : Z) (reference : option string) : M invoice_detail :=
  org ← _invoice_org i; v ← record_payment i org amount_cents reference; _detail i v.
Definition admin_void_invoice (i : uuid) : M invoice_detail := org ← _invoice_org i; v ← void i org; _detail i v.

Definition list_flags_route (page : page_params) : M (list (uuid * feature_flag) * Z) :=
  flags ← list_flags; mret (paginate_in_memory flags page).
Definition list_overrides_route (k : string) (page : page_params) : M (list (uuid * feature_flag_override) * Z) :=
  overrides ← list_overrides k; mret (paginate_in_memory overrides page).
End Operator.

(** ** Provider webhooks *)

Definition billing_webhook (ops : provider_kind -> provider_ops) (exn_str : exn -> string) (provider : string) (raw : webhook_request) :
    M webhook_answer :=
  if bool_decide (provider ∈ ["stripe"; "xendit"; "paymongo"; "paddle"; "manual"])
  then BillingWebhooks.handle ops exn_str provider raw None
  else raise_domain NotFoundError [].

(** ** Reading a period back *)

Lemma first_day_year_month d : first_day (year_month d).1 (year_month d).2 = first_of_month d.
Proof.
  pose proof (first_of_month_parts d) as E. pose proof (month_of_range d) as M. pose proof (year_of_range _ (doe_range d)) as Y.
  rewrite year_month_parts. cbn [fst snd]. unfold first_day.
  set (mp := month_of (doy_of d)) in *. set (y := year_of (doe_of d)) in *. set (e := era_of d) in *.
  destruct (Z.ltb_spec mp 10) as [Hm|Hm].
  - replace (mp + 3 <=? 2)%Z with false by (symmetry; apply Z.leb_gt; lia).
    replace (y + e * 400 + 0 - 0)%Z with (y + e * 400)%Z by lia. rewrite Z.div_add, Z.mod_add, Z.div_small, Z.mod_small by lia.
    replace (mp + 3 - 3)%Z with mp by lia. lia.
  - replace (mp - 9 <=? 2)%Z with true by (symmetry; apply Z.leb_le; lia).
    replace (y + e * 400 + 1 - 1)%Z with (y + e * 400)%Z by lia. rewrite Z.div_add, Z.mod_add, Z.div_small, Z.mod_small by lia.
    replace (mp - 9 + 9)%Z with mp by lia. lia.
Qed.

Lemma month_positive d : (1 <= (year_month d).2 <= 12)%Z.
Proof.
  pose proof (month_of_range d). rewrite year_month_parts. cbn [snd]. destruct (Z.ltb_spec (month_of (doy_of d)) 10); lia.
Qed.

(** The label a report gives a month is a period the routes understand: read back,
    it is the first day of that month, for every month of the years a text of four digits
    can name; and the year zero, which the routes' pattern admits, is an error no
    handler foresees. *)
Theorem period_roundtrip t : (1 <= (year_month (date_of t)).1 <= 9999)%Z ->
  _parse_period (Some (month_label t)) = Ok (Some (first_of_month (date_of t))) /\
  _parse_period (Some "0000-01") = Err (PyError "ValueError").
Proof.
  intros Hy. split; [|reflexivity]. pose proof (month_positive (date_of t)) as Hm.
  change (month_label t) with (zfill 4 (year_month (date_of t)).1 +:+ String "-" (zfill 2 (year_month (date_of t)).2)).
  unfold _parse_period. rewrite partition_char by (apply zfill_no_minus; lia).
  rewrite !int_of_zfill by lia. rewrite (proj2 (Z.leb_le 1 _)) by lia. by rewrite first_day_year_month.
Qed.

Lemma period_roundtrip_witness : _parse_period (Some (month_label NOW)) = Ok (Some (first_of_month (date_of NOW))).
Proof. apply (period_roundtrip NOW). split; by apply Z.leb_le. Defined.
