(* ===== verification/Api.v ===== *)
(** The API (api/v1.py and the dependencies of its routes): a request names a route,
    its dependencies find out who is asking and for which organization, and the route
    answers.

    [api] is a request from its headers to its reply, for every route of the fifteen
    routers of api/v1.py; [Http] puts it on the wire.  The main theorem says who can
    have been answered, and who can have changed what is committed. *)

From Stdlib Require Import Ascii.
From S2P Require Import Prelude Text Ids Permissions Json Errors Events Tables Store Cache Session Fixtures.
From S2P Require Import Branding Storage Agents.
From S2P Require Import Repository FeatureFlags Authorization ApiKeys Subscriptions Resolver Interfaces Entitlements Usage Tenancy.
From S2P Require Import Preferences Identity Reporting Invoicing Billing BillingWebhooks Webhooks Routes.

(** ** Routes by what they depend on *)

(** [TenantDep]. *)
Inductive tenant_call : Type :=
  | GetCurrentOrg
  | UpdateCurrentOrg (name : option string) (settings : option jobj)
  | ListMembers (limit offset : nat)
  | InviteMember (token email : string) (role_keys : list string)
  | UpdateMembership (mid : uuid) (role_keys : option (list string)) (status : option string)
  | RemoveMember (mid : uuid)
  | ListRoles
  | CreateRole (role_key name : string) (description : option string) (permissions : list string)
  | UpdateRole (role_id : uuid) (name description : option string) (permissions : option (list string))
  | DeleteRole (role_id : uuid)
  | ListAudit (event_type : option string) (actor : option uuid) (limit offset : nat)
  | CurrentSubscription
  | StartTrial (plan_key : string)
  | ChangePlan (plan_key : string)
  | CancelSubscription (at_period_end : bool)
  | ResumeSubscription
  | EffectiveEntitlements
  | RecordEvents (events : list usage_input)
  | Consume (events : list usage_input)
  | ConsumeBatch (events : list usage_input)
  | SetGauge (metric : string) (change : gauge_change)
  | CheckUsage (metric : string) (quantity : Z)
  | UsageSummary (period : option string)
  | StartCheckout (plan_key : string)
  | ConfirmCheckout (plan_key : string)
  | PortalUrl
  | ListInvoices (page : page_params)
  | DraftInvoice (period : option string)
  | FinalizeInvoice (i : uuid)
  | GetInvoice (i : uuid)
  | InvoicePdf (i : uuid)
  | SpendSummary
  | SpendMonthly
  | ListEndpoints (page : page_params)
  | CreateEndpoint (url : string) (events : list string) (description : option string)
  | DeleteEndpoint (i : uuid)
  | ListDeliveries (endpoint_id : option uuid) (page : page_params)
  | RetryDelivery (i : uuid)
  | CheckFlag (flag_key : string)
  | ListKeys (page : page_params)
  | CreateKey (token name : string) (scopes : list string) (expires_in_days : option Z)
  | RevokeKey (i : uuid)
  | ListFiles (page : page_params)
  | UploadFile (multipart : bool) (part : option (option string * option string * Z))
  | PresignUpload (name content_type : string) (size_bytes : Z)
  | CompleteUpload (i : uuid)
  | DownloadFile (i : uuid)
  | PresignDownload (i : uuid)
  | DeleteFile (i : uuid)
  | AgentCall (r : agent_request).

(** [CurrentUser] alone. *)
Inductive user_call : Type :=
  | ListMyOrgs
  | CreateOrganization (name : string) (slug : option string) (suffix : string)
  | ListPlans (page : page_params)
  | SwitchOrg (fresh : string) (org : uuid)
  | AcceptInvite (token : string).

(** [PrincipalDep]: a user's own profile, which no API key has. *)
Inductive profile_call : Type :=
  | Me
  | UpdateMe (preferences : option json).

(** [PlatformAdminDep]. *)
Inductive operator_call : Type :=
  | SuspendOrg (org : uuid)
  | UnsuspendOrg (org : uuid)
  | AdminEntitlements (org : uuid)
  | AdminGrant (org : uuid) (feature_key source : string) (enabled : bool) (duration_days : option Z) (note : option string) (value : option Z)
  | AdminRevoke (org i : uuid)
  | AdminPay (i : uuid) (amount_cents : Z) (reference : option string)
  | AdminVoid (i : uuid)
  | RevenueSummary
  | RevenueMonthly
  | ListFlags (page : page_params)
  | CreateFlag (flag_key name : string) (description : option string) (enabled : bool) (rollout_percentage : option Z)
  | UpdateFlag (flag_key : string) (enabled : option bool) (rollout_percentage : option Z)
  | ListOverrides (flag_key : string) (page : page_params)
  | SetOverride (flag_key : string) (org user : option uuid) (enabled : bool) (note : option string)
  | DeleteOverride (i : uuid).

(** The routes without a credential: signing in and out, links sent by mail, branding,
    the catalog of permissions, and the webhooks providers sign. *)
Inductive public_call : Type :=
  | Register (salt fresh email password display_name : string)
  | Login (fresh email password : string) (user_agent ip : option string)
  | Refresh (fresh : string) (body cookie user_agent ip : option string)
  | OidcStart (state verifier nonce : string) (return_to : option string)
  | OidcCallback (fresh : string) (code state error user_agent ip : option string)
  | Logout (cookie : option string)
  | PreviewInvite (token : string)
  | ForgotPassword (token email : string)
  | ResetPassword (salt fresh token password : string)
  | ReadBranding
  | ReadBrandingAsset (name : string)
  | Permissions
  | ProviderWebhook (provider : string) (raw : webhook_request).

Inductive call : Type :=
  | Tenant (c : tenant_call)
  | User (c : user_call)
  | Profile (c : profile_call)
  | Operator (c : operator_call)
  | Public (c : public_call).

(** The permission a tenant route asks for; [None], for every member of the tenant. *)
Definition permission_of (c : tenant_call) : option string :=
  match c with
  | UpdateCurrentOrg _ _ => Some "org:update"
  | ListMembers _ _ | ListRoles => Some "member:read"
  | InviteMember _ _ _ => Some "member:invite"
  | UpdateMembership _ _ _ => Some "member:update"
  | RemoveMember _ => Some "member:remove"
  | CreateRole _ _ _ _ | UpdateRole _ _ _ _ | DeleteRole _ => Some "role:manage"
  | ListAudit _ _ _ _ => Some "audit:read"
  | CurrentSubscription | ListInvoices _ | GetInvoice _ | InvoicePdf _ | SpendSummary | SpendMonthly => Some "billing:read"
  | StartTrial _ | ChangePlan _ | CancelSubscription _ | ResumeSubscription | StartCheckout _ | ConfirmCheckout _ | PortalUrl
  | DraftInvoice _ | FinalizeInvoice _ => Some "billing:manage"
  | ListEndpoints _ | CreateEndpoint _ _ _ | DeleteEndpoint _ | ListDeliveries _ _ | RetryDelivery _ => Some "webhook:manage"
  | ListKeys _ | CreateKey _ _ _ _ | RevokeKey _ => Some "apikey:manage"
  | ListFiles _ | DownloadFile _ | PresignDownload _ => Some "file:read"
  | UploadFile _ _ | PresignUpload _ _ _ | CompleteUpload _ | DeleteFile _ => Some "file:write"
  | AgentCall (ListAgents _ | GetAgent _) => Some "agents:read"
  | AgentCall _ => Some "agents:manage"
  | GetCurrentOrg | EffectiveEntitlements | RecordEvents _ | Consume _ | ConsumeBatch _ | SetGauge _ _ | CheckUsage _ _
  | UsageSummary _ | CheckFlag _ => None
  end.

Inductive reply : Type :=
  | Reply (A : Type) (body : A).
Definition replied {A} (m : M A) : M reply := a ← m; mret (Reply A a).

(** What the code outside src/ does, together. *)
Record environment : Type := Environment {
  en_sha256 : string -> string;
  en_encrypt_secret : string -> string;
  en_digest : string -> list Z;
  en_str_of : json -> string;
  en_secret_key : string;
  en_ip_literal : string -> bool;
  en_org_claim : string -> option (option string);
  en_fga_check : string -> string -> string -> option bool;
  en_provider_ops : provider_kind -> provider_ops;
  en_exn_str : exn -> string;
  en_web_origin : string;
  en_base_url : string;
  en_render_invoice_pdf : uuid * invoice -> list (uuid * invoice_line) -> string -> option string -> option string -> string;
  en_pay_to_instructions : string;
  en_hash_password : string -> string -> string;
  en_verify_password : string -> string -> bool;
  en_float_repr : float -> string;
  en_password_grant : string -> string -> option jobj;
  en_exchange_code : string -> string -> option jobj;
  en_storage : object_store;
  en_branding : Branding.loaded;
  en_files : Branding.file_system
}.

Section Api.
Context `{JwtLibrary, EntitlementReader} (env : environment).
Abbreviation fga := (en_fga_check env).
Abbreviation ops := (en_provider_ops env).

Definition serve_tenant (c : tenant_call) (uid : uuid) (u : user) (t : tenant_context) : M reply :=
  match c with
  | GetCurrentOrg => replied (get_current_org t)
  | UpdateCurrentOrg name settings => replied (update_current_org fga uid u t name settings)
  | ListMembers limit offset => replied (list_members fga uid u t limit offset)
  | InviteMember token email role_keys => replied (invite_member_route fga (en_sha256 env) uid u t token email role_keys)
  | UpdateMembership mid role_keys status => replied (update_membership_route fga uid u t mid role_keys status)
  | RemoveMember mid => replied (remove_member_route fga uid u t mid)
  | ListRoles => replied (list_roles_route fga uid u t)
  | CreateRole k name description permissions => replied (create_role fga uid u t k name description permissions)
  | UpdateRole i name description permissions => replied (update_role fga uid u t i name description permissions)
  | DeleteRole i => replied (delete_role fga uid u t i)
  | ListAudit event_type actor limit offset => replied (list_audit fga uid u t event_type actor limit offset)
  | CurrentSubscription => replied (current_subscription fga uid u t)
  | StartTrial k => replied (start_trial_route fga uid u t k)
  | ChangePlan k => replied (change_plan_route fga ops uid u t k)
  | CancelSubscription at_period_end => replied (cancel_subscription fga uid u t at_period_end)
  | ResumeSubscription => replied (resume_subscription fga uid u t)
  | EffectiveEntitlements => replied (effective_entitlements_route t)
  | RecordEvents events => replied (record_events t events)
  | Consume events => replied (consume_route t events)
  | ConsumeBatch events => replied (consume_batch t events)
  | SetGauge metric change => replied (set_gauge_route t metric change)
  | CheckUsage metric quantity => replied (check_usage t metric quantity)
  | UsageSummary period => replied (usage_summary t period)
  | StartCheckout k => replied (start_checkout_route fga ops uid u t (en_web_origin env) (en_base_url env) k)
  | ConfirmCheckout k => replied (confirm_checkout fga ops uid u t k)
  | PortalUrl => replied (portal_url fga ops uid u t (en_web_origin env) (en_base_url env))
  | ListInvoices page => replied (list_invoices fga ops uid u t page)
  | DraftInvoice period => replied (draft_invoice fga uid u t period)
  | FinalizeInvoice i => replied (finalize_invoice fga uid u t i)
  | GetInvoice i => replied (get_invoice_detail fga uid u t i)
  | InvoicePdf i => replied (download_invoice_pdf fga uid u t (en_render_invoice_pdf env) (en_pay_to_instructions env) i)
  | SpendSummary => replied (spend_summary_route fga uid u t)
  | SpendMonthly => replied (spend_monthly_route fga uid u t)
  | ListEndpoints page => replied (list_endpoints_route fga uid u t page)
  | CreateEndpoint url events description => replied (create_endpoint_route fga (en_encrypt_secret env) uid u t url events description)
  | DeleteEndpoint i => replied (delete_endpoint_route fga uid u t i)
  | ListDeliveries endpoint_id page => replied (list_deliveries fga uid u t endpoint_id page)
  | RetryDelivery i => replied (retry_delivery_route fga uid u t i)
  | CheckFlag k => replied (check_flag uid t (en_digest env) k)
  | ListKeys page => replied (list_keys_route fga t uid u page)
  | CreateKey token name scopes days => replied (create_key_route (en_sha256 env) fga token t uid u name scopes days)
  | RevokeKey i => replied (revoke_key_route fga t uid u i)
  | ListFiles page => replied (list_files fga uid u t page)
  | UploadFile multipart part => replied (upload_file fga (en_storage env) uid u t multipart part)
  | PresignUpload name content_type size => replied (presign_upload fga (en_storage env) uid u t name content_type size)
  | CompleteUpload i => replied (complete_upload fga (en_storage env) uid u t i)
  | DownloadFile i => replied (download_file fga (en_storage env) uid u t i)
  | PresignDownload i => replied (presign_download fga (en_storage env) uid u t i)
  | DeleteFile i => replied (delete_file fga (en_storage env) uid u t i)
  | AgentCall r => replied (Agents.handle fga uid u t r)
  end.

Definition serve_user (c : user_call) (uid : uuid) (u : user) : M reply :=
  match c with
  | ListMyOrgs => replied (list_my_orgs uid)
  | CreateOrganization name slug suffix => replied (create_organization_route uid name slug suffix)
  | ListPlans page => replied (list_plans page)
  | SwitchOrg fresh org => replied (switch_org (en_sha256 env) (en_secret_key env) fresh uid u org)
  | AcceptInvite token => replied (accept_invite_by_token (en_sha256 env) token uid u)
  end.

Definition serve_profile (c : profile_call) (p : principal) : M reply :=
  match c with
  | Me => replied (me p)
  | UpdateMe preferences => replied (update_me (en_float_repr env) p preferences)
  end.

Definition serve_public (c : public_call) : M reply :=
  match c with
  | Register salt fresh email password name =>
      replied (register_route (en_sha256 env) (en_hash_password env) (en_secret_key env) salt fresh email password name)
  | Login fresh email password user_agent ip =>
      replied (login_route (en_sha256 env) (en_verify_password env) (en_secret_key env) (en_str_of env) (en_password_grant env)
                 fresh email password user_agent ip)
  | Refresh fresh body cookie user_agent ip =>
      replied (refresh_route (en_sha256 env) (en_secret_key env) fresh body cookie user_agent ip)
  | OidcStart state verifier nonce return_to => replied (oidc_start state verifier nonce return_to)
  | OidcCallback fresh code state error user_agent ip =>
      replied (oidc_callback (en_sha256 env) (en_secret_key env) (en_str_of env) (en_exchange_code env)
                 fresh code state error user_agent ip)
  | Logout cookie => replied (logout_route (en_sha256 env) cookie)
  | PreviewInvite token => replied (preview_invite (en_sha256 env) token)
  | ForgotPassword token email => replied (forgot_password (en_sha256 env) token email)
  | ResetPassword salt fresh token password =>
      replied (reset_password_route (en_sha256 env) (en_hash_password env) (en_secret_key env) salt fresh token password)
  | ReadBranding => replied (mret (read_branding (en_branding env)))
  | ReadBrandingAsset name => replied (lift (read_branding_asset (en_files env) (en_branding env) name))
  | Permissions => mret (Reply _ PERMISSIONS)
  | ProviderWebhook provider raw => replied (billing_webhook ops (en_exn_str env) provider raw)
  end.

Definition serve_operator (c : operator_call) (uid : uuid) : M reply :=
  match c with
  | SuspendOrg o => replied (suspend_org o)
  | UnsuspendOrg o => replied (unsuspend_org o)
  | AdminEntitlements o => replied (admin_effective_entitlements o)
  | AdminGrant o k source is_on days note value => replied (admin_grant_entitlement uid o k source is_on days note value)
  | AdminRevoke o i => replied (admin_revoke_entitlement o i)
  | AdminPay i amount reference => replied (admin_record_payment i amount reference)
  | AdminVoid i => replied (admin_void_invoice i)
  | RevenueSummary => replied revenue_summary
  | RevenueMonthly => replied monthly_revenue
  | ListFlags page => replied (list_flags_route page)
  | CreateFlag k name description is_on rollout => replied (create_flag k name description is_on rollout)
  | UpdateFlag k is_on rollout => replied (update_flag k is_on rollout)
  | ListOverrides k page => replied (list_overrides_route k page)
  | SetOverride k o user is_on note => replied (set_override k o user is_on note)
  | DeleteOverride i => replied (delete_override i)
  end.

Definition api (rq : tenant_request) (c : call) : M reply :=
  match c with
  | Public c => serve_public c
  | User c =>
      r ← get_current_user (en_sha256 env) (en_secret_key env) (en_str_of env) (tr_authorization rq);
      serve_user c r.1 r.2
  | Profile c =>
      p ← get_principal (en_sha256 env) (en_secret_key env) (en_str_of env) (tr_authorization rq);
      serve_profile c p
  | Tenant c =>
      r ← get_current_user (en_sha256 env) (en_secret_key env) (en_str_of env) (tr_authorization rq);
      t ← resolve_tenant (en_ip_literal env) (en_org_claim env) rq r.1 r.2;
      serve_tenant c r.1 r.2 t
  | Operator c =>
      r ← get_current_user (en_sha256 env) (en_secret_key env) (en_str_of env) (tr_authorization rq);
      _ ← require_platform_admin r.2;
      serve_operator c r.1
  end.

(** ** What a grant is read from *)

(** Two states that grant alike: the clock, the settings, the memberships, the users,
    and what is cached of permissions and decisions. *)
Definition same_grants (w w' : world) : Prop :=
  w_clock w' = w_clock w /\ w_settings w' = w_settings w /\ w_db w' Tmemberships = w_db w Tmemberships /\
  w_db w' Tusers = w_db w Tusers /\ keeps_decisions w w'.

(** An operation before the guard, that leaves the request's context and its grants. *)
Definition quiet_before {A} (m : M A) : Prop :=
  Stable same_env m /\ Stable (keeps Tmemberships) m /\ Stable (keeps Tusers) m /\ Stable keeps_decisions m.

Lemma quiet_run {A} (m : M A) w : quiet_before m ->
  same_grants w (m w).2 /\ w_user (m w).2 = w_user w /\ w_tenant (m w).2 = w_tenant w /\ w_durable (m w).2 = w_durable w.
Proof.
  intros (He & Hm & Hu & Hd). destruct (He w) as (H1 & H2 & H3 & H4 & _ & H6).
  split_and!; [|done..]. split_and!; [done|done|apply Hm|apply Hu|apply Hd].
Qed.

Lemma quiet_ret {A} (a : A) : quiet_before (mret a).
Proof. by split_and!. Qed.

Lemma bind_pointwise {A B} (m : M A) (f g : A -> M B) w : (forall a w', f a w' = g a w') -> mbind f m w = mbind g m w.
Proof. intros E. unfold mbind, M_bind. destruct (m w) as [[a|e] w1]; [apply E|done]. Qed.

Lemma quiet_require_feature o f : quiet_before (require_feature o f).
Proof.
  assert (Hp : Reads (plans_with_feature f)) by (unfold plans_with_feature; solve_reads).
  assert (Hs : forall R `{Restorable R}, Stable R (plans_with_feature f))
    by (intros R HR w; by rewrite (reads_result _ w Hp)).
  pose proof (env_effective o). pose proof (tables_effective o Tmemberships). pose proof (tables_effective o Tusers).
  pose proof (decisions_effective o). unfold require_feature.
  split_and!; solve_stable.
Qed.

(** ** The guard comes first *)

Lemma guarded c p uid u t : permission_of c = Some p ->
  exists A (pre : M A) f, quiet_before pre /\
    forall w, serve_tenant c uid u t w = mbind (fun _ => mbind f (require_permission fga p uid u t)) pre w.
Proof.
  assert (Hg : forall c, permission_of c = Some p -> (match c with AgentCall _ => False | _ => True end) ->
    exists f, forall w, serve_tenant c uid u t w = mbind f (require_permission fga p uid u t) w).
  { intros c' Hc' Hc. destruct c'; try done; injection Hc' as <-; eexists; intros w; apply run_assoc. }
  destruct c as [| | | | | | | | | | | | | | | | | | | | | | | | | | | | | | | | | | | | | | | | | | | | | | | | |r] eqn:Ec;
    try (intros Hp; destruct (Hg c ltac:(by rewrite Ec) ltac:(by rewrite Ec)) as [f Hf]; rewrite Ec in Hf;
         exists unit, (mret tt), f; split; [apply quiet_ret|exact Hf]).
  intros Hp. assert (p = Agents.permission_of r) as -> by (destruct r; by injection Hp).
  exists _, (require_feature (tx_organization_id t) "agents"),
    (fun _ => a ← Agents.serve (tx_organization_id t) r; mret (Reply _ a)). split; [apply quiet_require_feature|].
  intros w. unfold serve_tenant, replied, Agents.handle. cbv zeta. rewrite run_assoc. apply bind_pointwise. intros e w1. apply run_assoc.
Qed.

(** ** What the permission cache says *)

(** Reading at an instant changes nothing that is read at it. *)
Lemma get_versioned_peek {B} `{CacheLaws B} (c : versioned_cache) t k k' (b : B) :
  peek t k' (get_versioned c t k b).2 = peek t k' b.
Proof.
  unfold get_versioned. destruct (current_version c t k b) as [v b1] eqn:E.
  assert (b1 = (cb_get t (_version_key c k) b).2) as -> by (by rewrite <- current_version_snd, E).
  destruct v as [v|]; [|by apply law_get].
  pose proof (law_get t t (_body_key c k v) k' (cb_get t (_version_key c k) b).2 (Z.le_refl t)) as Hg.
  destruct (cb_get t (_body_key c k v) (cb_get t (_version_key c k) b).2) as [x b2].
  etrans; [exact Hg|by apply law_get].
Qed.

(** An active membership of the user in the organization has the permission.  The sets
    travel through the cache joined by commas, so that a stored key that held a comma
    would count as its parts; the keys of the catalog hold none ([holds_plain]). *)
Definition holds (d : db) (i o : uuid) (p : string) : Prop :=
  exists (k : key Tmemberships) (m : membership) (stored : string),
    d Tmemberships !! k = Some m /\ active_membership o i k m = true /\
    stored ∈ mb_permission_keys m /\ p ∈ split_on "," stored.

Definition plain_text (s : string) : Prop := string_Forall (.≠ ","%char) s.

Lemma holds_plain d i o p :
  (forall (k : key Tmemberships) (m : membership), d Tmemberships !! k = Some m -> Forall plain_text (mb_permission_keys m)) ->
  holds d i o p -> exists (k : key Tmemberships) (m : membership),
    d Tmemberships !! k = Some m /\ active_membership o i k m = true /\ p ∈ mb_permission_keys m.
Proof.
  intros Hp (k & m & s & Hm & Ha & Hs & Hin). exists k, m. split_and!; [done..|].
  pose proof (Hp k m Hm) as Hf. rewrite Forall_forall in Hf. rewrite split_on_none in Hin by (by apply Hf).
  apply list_elem_of_singleton in Hin as ->. done.
Qed.

(** Granted by the roles: by the tables, or by the set cached of the member, which
    lives for half a minute. *)
Definition granted_by_roles (w : world) (i o : uuid) (p : string) : Prop :=
  holds (w_db w) i o p \/
  exists v s, peek (w_clock w) (_body_key _perm_cache (perm_key i o) v) (w_cache w) = Some (CText s) /\
    s <> "" /\ p ∈ split_on "," s.

(** A decision of the OpenFGA server that is cached, for half a minute too. *)
Definition decision_cached (w : world) (i o : uuid) (p : string) : Prop :=
  exists token c, peek (w_clock w)
      (_scoped_key _fga_cache ((uuid_str i +:+ ":" +:+ org_object o) +:+ ":" +:+ p) token) (w_cache w) = Some c /\
    decided c = true.

(** Granted to a member: by its roles; where OpenFGA decides, by the server, its cached
    decision, or, when it does not answer and the settings say so, by the roles. *)
Definition granted (w : world) (i o : uuid) (p : string) : Prop :=
  if String.eqb (st_authz_backend (w_settings w)) "openfga" then
    decision_cached w i o p \/ fga (user_object i) (relation_for p) (org_object o) = Some true \/
    (st_openfga_fail_mode (w_settings w) = "rbac" /\
     fga (user_object i) (relation_for p) (org_object o) = None /\ granted_by_roles w i o p)
  else granted_by_roles w i o p.

Lemma decisions_peek w w' k : w_clock w' = w_clock w -> keeps_decisions w w' -> decision_key k = true ->
  peek (w_clock w') k (w_cache w') = peek (w_clock w) k (w_cache w).
Proof. intros Hc Hd Hk. rewrite Hc, !ttl_peek. by rewrite Hd. Qed.

Lemma roles_same w w' i o p : same_grants w w' -> granted_by_roles w' i o p -> granted_by_roles w i o p.
Proof.
  intros (Hc & _ & Hm & _ & Hd) [Hh|(v & s & Hp & Hs)].
  - left. unfold holds in *. by rewrite Hm in Hh.
  - right. exists v, s. split; [|done]. by rewrite <- (decisions_peek w w').
Qed.

Lemma granted_same w w' i o p : same_grants w w' -> granted w' i o p -> granted w i o p.
Proof.
  intros Hg. unfold granted. pose proof Hg as (Hc & Hst & _ & _ & Hd). rewrite Hst. destruct (String.eqb _ "openfga").
  - intros [(tk & c & Hp & Hdc)|[Hf|(Hm & Hn & Hr)]]; [left|by right; left|].
    + exists tk, c. split; [|done]. by rewrite <- (decisions_peek w w').
    + right; right. split_and!; [done..|by apply (roles_same w w')].
  - by apply roles_same.
Qed.

Lemma split_on_join_elem p l : l <> [] -> p ∈ split_on "," (join "," l) -> exists k, k ∈ l /\ p ∈ split_on "," k.
Proof.
  induction l as [|x l IH]; [done|]. intros _. destruct l as [|y l].
  - intros Hp. exists x. split; [left|done].
  - rewrite join_cons, split_on_app, elem_of_app. intros [Hp|Hp]; [exists x; split; [left|done]|].
    destruct (IH ltac:(done) Hp) as (k & Hk & Hp'). exists k. split; [by right|done].
Qed.

Section Lookup.
Context (i o : uuid) (G : string -> Prop).

(** What is cached of the member is within [G]. *)
Definition within (w : world) : Prop := forall v s p,
  peek (w_clock w) (_body_key _perm_cache (perm_key i o) v) (w_cache w) = Some (CText s) ->
  s <> "" -> p ∈ split_on "," s -> G p.

Definition tables_within (w : world) : Prop := forall p, holds (w_db w) i o p -> G p.

(** What a lookup leaves: the tables, the clock, the settings and the decisions. *)
Definition looked_up (w w' : world) : Prop :=
  w_db w' = w_db w /\ w_settings w' = w_settings w /\ w_clock w' = w_clock w /\
  forall k, String.prefix "fga:" k = true -> peek (w_clock w) k (w_cache w') = peek (w_clock w) k (w_cache w).

Lemma cached_get c k w x v w' : cache_get_versioned c k w = (Ok (x, v), w') ->
  exists b, w' = with_cache_of w b /\ (forall k', peek (w_clock w) k' b = peek (w_clock w) k' (w_cache w)) /\
    x = peek (w_clock w) (_body_key c k v) (w_cache w).
Proof.
  unfold cache_get_versioned, with_cache. intros E. apply bind_ok in E as (r & w0 & E & Hv). destruct r as [r|]; [|done].
  injection Hv as -> ->. pose proof (fun k' => get_versioned_peek c (w_clock w) k k' (w_cache w)) as Hg.
  destruct (get_versioned c (w_clock w) k (w_cache w)) as [r b] eqn:Eg. injection E as -> <-. exists b. split_and!; [done|done|].
  revert Eg. unfold get_versioned. destruct (current_version c (w_clock w) k (w_cache w)) as [v' b1] eqn:Ev.
  pose proof (observed_peek c (w_clock w) k (w_cache w)) as Ho. unfold observed, get_versioned in Ho. rewrite Ev in Ho.
  destruct v' as [v'|]; [|done]. specialize (Ho v' eq_refl). destruct (cb_get _ _ b1) as [y b2].
  intros [= <- <- <-]. simpl in Ho. congruence.
Qed.

(** The lookup behind the cache. *)
Definition member_keys (found : option (key Tmemberships * row Tmemberships)) : list string :=
  match found with None => [] | Some (_, m) => remove_dups (mb_permission_keys m) end.
Definition load_keys (v : Z) : M (list string) :=
  rows ← select Tmemberships (active_membership o i);
  found ← scalar_one_or_none rows;
  _ ← cache_set _perm_cache (perm_key i o) (encode_keys (member_keys found)) v;
  mret (member_keys found).

Lemma member_keys_hold w found w' :
  scalar_one_or_none (rows_where Tmemberships (active_membership o i) (w_db w Tmemberships)) w = (Ok found, w') ->
  w' = w /\ forall k p, k ∈ member_keys found -> p ∈ split_on "," k -> holds (w_db w) i o p.
Proof.
  intros E. apply scalar_ok in E as [-> [[-> _]|([k m] & -> & Hf)]]; (split; [done|]).
  - intros k p Hin. by apply not_elem_of_nil in Hin.
  - destruct (found_only Tmemberships _ _ _ _ Hf) as (Hm & Ha & _). cbn [member_keys].
    intros s p Hin Hp. rewrite elem_of_remove_dups in Hin. by exists k, m, s.
Qed.

Lemma body_not_decision v k : String.prefix "fga:" k = true -> _body_key _perm_cache (perm_key i o) v <> k.
Proof. intros Hk <-. discriminate Hk. Qed.

Lemma loaded_within v w keys w' : within w -> tables_within w -> load_keys v w = (Ok keys, w') ->
  within w' /\ looked_up w w' /\ forall k p, k ∈ keys -> p ∈ split_on "," k -> G p.
Proof.
  intros Hw Ht. unfold load_keys. run. intros E. apply bind_ok in E as (found & w1 & E1 & E).
  apply member_keys_hold in E1 as (-> & Hk). injection E as <- <-.
  assert (Hkeys : forall k p, k ∈ member_keys found -> p ∈ split_on "," k -> G p) by (intros k p ??; apply Ht; by apply (Hk k)).
  set (b := TTLDictBackend.set _ _ _ _ _).
  assert (Eb : b = cb_set (w_clock w) (_body_key _perm_cache (perm_key i o) v) (encode_keys (member_keys found)) 30 (w_cache w)) by done.
  split_and!; [|split_and!; [done..|]|done].
  - intros v' s p. change (w_clock (w <| w_cache := b |>)) with (w_clock w). change (w_cache (w <| w_cache := b |>)) with b. rewrite Eb.
    destruct (decide (v' = v)) as [->|Hv].
    + rewrite law_set_eq by (change (seconds 30) with 30000000%Z; lia). intros [= <-] Hs Hin.
      destruct (decide (sorted_str (member_keys found) = [])) as [Enil|Hne]; [by rewrite Enil in Hs|].
      apply split_on_join_elem in Hin as (k & Hin & Hp); [|done]. rewrite elem_of_sorted_str in Hin. by apply (Hkeys k).
    + rewrite law_set_ne by (intros Hk'; apply body_key_inj in Hk' as []; congruence). apply Hw.
  - intros k Hfga. change (w_cache (w <| w_cache := b |>)) with b. rewrite Eb. apply law_set_ne. by apply body_not_decision.
Qed.

(** The permission set of a member stays within what grants it. *)
Lemma keys_within w keys w' : within w -> tables_within w -> permission_keys_for i o w = (Ok keys, w') ->
  within w' /\ looked_up w w' /\ forall p, plain_text p -> p ∈ keys -> G p.
Proof.
  intros Hw Ht E. unfold permission_keys_for in E. apply bind_ok in E as ([c v] & w1 & E1 & E).
  apply cached_get in E1 as (b & -> & Hb & ->).
  assert (Hw1 : within (with_cache_of w b)).
  { intros v' s p. change (w_clock (with_cache_of w b)) with (w_clock w). change (w_cache (with_cache_of w b)) with b. rewrite Hb. apply Hw. }
  assert (Hload : load_keys v (with_cache_of w b) = (Ok keys, w') ->
    within w' /\ looked_up w w' /\ forall p, plain_text p -> p ∈ keys -> G p).
  { intros El. destruct (loaded_within v _ _ _ Hw1 Ht El) as (H1 & (H2 & H3 & H4 & H5) & H6).
    split; [done|]. split.
    - split_and!; [done..|]. intros k Hk. change (w_clock (with_cache_of w b)) with (w_clock w) in H5. rewrite H5 by done. apply Hb.
    - intros p Hp Hin. apply (H6 p p Hin). rewrite split_on_none by done. left. }
  destruct (peek _ _ _) as [[[|a s]|j]|] eqn:Ec; [exact (Hload E)| |exact (Hload E)..].
  injection E as <- <-. split; [done|]. split; [split_and!; [done..|]; intros k _; apply Hb|].
  intros p _. by apply (Hw v (String a s)).
Qed.
End Lookup.

(** Within what the roles grant at the state itself. *)
Lemma roles_within w i o : within i o (granted_by_roles w i o) w /\ tables_within i o (granted_by_roles w i o) w.
Proof. split; [intros v s p Hp Hs Hin; right; by exists v, s|intros p Hh; by left]. Qed.

Lemma get_scoped_peek {B} `{CacheLaws B} (c : versioned_cache) t k scopes (b : B) x token b' :
  get_scoped c t k scopes b = (Some (x, token), b') ->
  x = peek t (_scoped_key c k token) b /\ forall k', peek t k' b' = peek t k' b.
Proof.
  unfold get_scoped. pose proof (fun k' => scope_parts_agree c t t k' scopes b (Z.le_refl t)) as Hs.
  destruct (scope_parts c t scopes b) as [[parts|] b1]; cbn [snd] in Hs; [|done].
  pose proof (fun k' => law_get t t (_scoped_key c k (String.concat "," parts)) k' b1 (Z.le_refl t)) as Hg.
  specialize (Hs (_scoped_key c k (String.concat "," parts))) as Hx. unfold peek at 1 in Hx.
  destruct (cb_get t _ b1) as [y b2]. cbn [fst snd] in *. intros [= <- <- <-]. split; [done|].
  intros k'. rewrite Hg. apply Hs.
Qed.

Lemma cached_scoped c k scopes w x token w' : cache_get_scoped c k scopes w = (Ok (x, token), w') ->
  exists b, w' = with_cache_of w b /\ (forall k', peek (w_clock w) k' b = peek (w_clock w) k' (w_cache w)) /\
    x = peek (w_clock w) (_scoped_key c k token) (w_cache w).
Proof.
  unfold cache_get_scoped, with_cache. intros E. apply bind_ok in E as (r & w0 & E & Hv). destruct r as [r|]; [|done].
  injection Hv as -> ->. destruct (get_scoped c (w_clock w) k scopes (w_cache w)) as [r b] eqn:Eg. injection E as -> <-.
  apply get_scoped_peek in Eg as [Hx Hb]. by exists b.
Qed.

(** ** The guards *)

(** What [user_can] says after a lookup holds of the state before. *)
Lemma user_may w w1 i o p w2 : plain_text p -> looked_up w w1 -> within i o (granted_by_roles w i o) w1 ->
  user_can fga i o p w1 = (Ok true, w2) -> granted w i o p.
Proof.
  intros Hp (Hdb & Hst & Hc & Hfga) Hw. destruct (roles_within w i o) as [_ Ht].
  assert (Ht1 : tables_within i o (granted_by_roles w i o) w1) by (intros q; rewrite Hdb; apply Ht).
  unfold user_can, granted. run. rewrite Hst. destruct (String.eqb (st_authz_backend (w_settings w)) "openfga").
  2:{ intros E. apply bind_ok in E as (keys & w3 & E1 & E).
      destruct (keys_within i o _ w1 keys w3 Hw Ht1 E1) as (_ & _ & Hk). unfold holds_key in E.
      injection E as E _. apply bool_decide_eq_true in E. by apply Hk. }
  unfold _fga_allowed. run. rewrite Hst. intros E. apply bind_ok in E as ([c token] & w3 & E1 & E).
  apply cached_scoped in E1 as (b & -> & Hb & ->). rewrite Hc, Hfga in E by reflexivity.
  destruct (peek _ _ (w_cache w)) as [c|] eqn:Ec.
  { left. exists token, c. split; [exact Ec|]. by injection E. }
  destruct (fga _ _ _) as [allowed|] eqn:Ef.
  { right; left. revert E. run. intros [= -> _]. done. }
  destruct (String.eqb_spec (st_openfga_fail_mode (w_settings w)) "rbac") as [Em|]; [|discriminate E].
  right; right. split_and!; [done..|]. assert (Hs : starts_with "organization:" (org_object o) = true) by apply starts_with_app.
  rewrite Hs in E. cbn [andb] in E.
  apply bind_ok in E as (o' & w4 & E1 & E).
  assert (Ho : uuid_of_str (str_drop 13 (org_object o)) = Some o).
  { unfold org_object. etrans; [apply (f_equal uuid_of_str), (str_drop_app "organization:")|apply uuid_of_uuid_str]. }
  rewrite Ho in E1. injection E1 as <- <-. apply bind_ok in E as (keys & w5 & E1 & E).
  destruct (keys_within i o (granted_by_roles w i o) (with_cache_of w1 b) keys w5) as (_ & _ & Hk); [|exact Ht1|exact E1|].
  { intros v s q. change (w_clock (with_cache_of w1 b)) with (w_clock w1). change (w_cache (with_cache_of w1 b)) with b.
    rewrite Hb. apply Hw. }
  unfold holds_key in E. injection E as E _. apply bool_decide_eq_true in E. by apply Hk.
Qed.

Lemma member_may p uid u t w x w1 : plain_text p -> w_user w = Some x -> ux_api_key_scopes x = None ->
  require_permission fga p uid u t w = (Ok tt, w1) -> u_is_platform_admin u = true \/ granted w uid (tx_organization_id t) p.
Proof.
  intros Hp Hu Hs. unfold require_permission. rewrite (run_ok current_user _ w (Some x) w) by (unfold current_user; by rewrite Hu).
  cbn [mbind option_bind]. rewrite Hs. cbn [fmap option_fmap option_map]. destruct (u_is_platform_admin u); [by left|]. intros E. right.
  apply bind_ok in E as (keys & w2 & E1 & E). destruct (roles_within w uid (tx_organization_id t)) as [Hw Ht].
  destruct (keys_within _ _ _ w keys w2 Hw Ht E1) as (Hw2 & Hl & _).
  apply bind_ok in E as (allowed & w3 & E2 & E). destruct allowed; [|done]. by apply (user_may w w2 _ _ _ w3).
Qed.

(** A key may do what its scopes name and its creator, still active, may do. *)
Definition creator_may (w : world) (k : api_key) (p : string) : Prop :=
  exists (c : uuid) (creator : user), ak_created_by_user_id k = Some c /\ w_db w Tusers !! c = Some creator /\
    u_is_active creator = true /\
    (u_is_platform_admin creator = true \/ granted_by_roles w c (ak_organization_id k) p).

(** What identification leaves for the guards. *)
Definition bound_key (k : api_key) (w : world) : Prop :=
  (exists p, w_user w = Some p /\ ux_api_key_scopes p = Some (ak_scopes k) /\ ux_api_key_creator_id p = ak_created_by_user_id k) /\
  (exists slug, w_tenant w = Some (TenantContext (ak_organization_id k) slug false)).

Lemma key_may p uid u slug w k w1 : plain_text p -> bound_key k w ->
  require_permission fga p uid u (TenantContext (ak_organization_id k) slug false) w = (Ok tt, w1) ->
  p ∈ ak_scopes k /\ creator_may w k p.
Proof.
  intros Hp [(x & Hu & Hs & Hc) _]. unfold require_permission. rewrite (run_ok current_user _ w (Some x) w) by (unfold current_user; by rewrite Hu).
  cbn [mbind option_bind]. rewrite Hs. cbn [fmap option_fmap option_map]. rewrite Hc. unfold require_key_permission, holds_key at 1, denied.
  case_bool_decide as Hin; cbn [negb]; [|done]. destruct (ak_created_by_user_id k) as [c|] eqn:Ek; [|done]. run.
  destruct (w_db w Tusers !! c) as [creator|] eqn:Ec; [|done]. destruct (u_is_active creator) eqn:Ea; cbn [negb]; [|done].
  intros E. split; [done|]. exists c, creator. split_and!; [done..|]. destruct (u_is_platform_admin creator); [by left|]. right.
  apply bind_ok in E as (keys & w2 & E1 & E). destruct (roles_within w c (ak_organization_id k)) as [Hw Ht].
  destruct (keys_within _ _ _ w keys w2 Hw Ht E1) as (_ & _ & Hk). unfold holds_key in E.
  case_bool_decide as Hin'; [by apply Hk|done].
Qed.

(** ** Who is asking *)

(** A handler that swallows what it catches. *)
Lemma stable_swallow R `{Restorable R} (m : M unit) : Stable R m -> Stable R (try_catch m (fun _ => Some (mret tt))).
Proof. intros Hm. apply stable_try; [done|done|]. intros e m' [= <-]. by apply stable_ret. Qed.

Ltac unfold_record := unfold record, _assert_counter_metric, _metric, first_sight, _reserve_idempotency, _replay_idempotent,
  _insert_event, _increment_counter, _maybe_emit_soft_limit, claim_soft_limit, settle, _settle_idempotency.
Lemma env_meter o : Stable same_env (meter_api_key_request o).
Proof. unfold meter_api_key_request. apply stable_swallow; [apply _|]. unfold_record. solve_stable. Qed.
Lemma quiet_meter o : quiet_before (meter_api_key_request o).
Proof.
  split; [apply env_meter|]. unfold meter_api_key_request. split_and!; (apply stable_swallow; [apply _|]; unfold_record; solve_stable).
Qed.

Definition bearer (rq : tenant_request) : string := str_drop (String.length BEARER) (tr_authorization rq).

(** The user an access token names, and who is active. *)
Definition by_token (w : world) (rq : tenant_request) (i : uuid) (u : user) : Prop :=
  starts_with BEARER (tr_authorization rq) = true /\
  (exists payload sub, jwt_decode (en_secret_key env) (w_clock w) (bearer rq) = Some payload /\ jget "type" payload = Some (JStr "access") /\
     jget "sub" payload = Some sub /\ uuid_of_claim (en_str_of env) sub = Some i) /\
  w_db w Tusers !! i = Some u /\ u_is_active u = true.

(** The stored key whose plaintext was presented, of a live organization. *)
Definition by_key (w : world) (rq : tenant_request) (k : api_key) : Prop :=
  starts_with BEARER (tr_authorization rq) = true /\ starts_with KEY_PREFIX (bearer rq) = true /\
  (exists i, w_db w Tapi_keys !! i = Some k) /\ ak_key_hash k = en_sha256 env (bearer rq) /\ key_is_active (w_clock w) k = true /\
  exists o : organization, w_db w Torganizations !! ak_organization_id k = Some o /\ o_deleted_at o = None /\ o_status o = "active".

Lemma verify_run plaintext w i k w' : verify (en_sha256 env) plaintext w = (Ok (Some (i, k)), w') ->
  starts_with KEY_PREFIX plaintext = true /\ exists k0, w_db w Tapi_keys !! i = Some k0 /\ ak_key_hash k0 = en_sha256 env plaintext /\
    key_is_active (w_clock w) k0 = true /\ k = k0 <| ak_last_used_at := Some (w_clock w) |> /\ w' = put_w Tapi_keys i k w.
Proof.
  unfold verify. destruct (starts_with KEY_PREFIX plaintext); cbn [negb]; [|done]. run. intros E. split; [done|].
  apply bind_ok in E as (found & w1 & H1 & E). apply scalar_ok in H1 as [-> Hrows]. revert E. run.
  destruct Hrows as [[-> _]|([j k0] & -> & Hrows)]; [done|].
  destruct (found_only Tapi_keys _ _ _ _ Hrows) as (Hk & Hh & _). destruct (key_is_active (w_clock w) k0) eqn:Ea; cbn [negb]; [|done].
  run. intros [= <- <- <-]. exists k0. split_and!; [done|by apply String.eqb_eq|done..].
Qed.

Lemma token_decoded token w payload w1 : decode_access_token (en_secret_key env) token w = (Ok payload, w1) ->
  w1 = w /\ jwt_decode (en_secret_key env) (w_clock w) token = Some payload /\ jget "type" payload = Some (JStr "access").
Proof.
  unfold decode_access_token. run. destruct (jwt_decode _ _ _) as [p|] eqn:E; [|done].
  case_bool_decide; [|done]. by intros [= <- <-].
Qed.

Lemma key_organization_ok k w o w1 : key_organization k w = (Ok o, w1) ->
  w1 = w /\ w_db w Torganizations !! ak_organization_id k = Some o /\ o_deleted_at o = None /\ o_status o = "active".
Proof.
  unfold key_organization. run. destruct (w_db w Torganizations !! ak_organization_id k) as [o'|] eqn:E; [|done].
  case_bool_decide; [|done]. destruct (String.eqb_spec (o_status o') "active"); [|done]. intros Hr. injection Hr as <- <-. by split_and!.
Qed.

Lemma bound i k o w w1 : bind_api_key_context i k o w = (Ok tt, w1) -> bound_key k w1 /\
  w_clock w1 = w_clock w /\ w_settings w1 = w_settings w /\ w_db w1 = w_db w /\ w_cache w1 = w_cache w.
Proof. unfold bind_api_key_context. intros [= <-]. split; [|done]. split; [by eexists|by exists (o_slug o)]. Qed.

Lemma identified rq w i u w1 :
  get_current_user (en_sha256 env) (en_secret_key env) (en_str_of env) (tr_authorization rq) w = (Ok (i, u), w1) ->
  (by_token w rq i u /\ w1 = w <| w_user := Some (UserContext i (u_email u) (u_is_platform_admin u) [] None None None) |>) \/
  (exists k, by_key w rq k /\ bound_key k w1 /\ u_is_platform_admin u = false /\ same_grants w w1).
Proof.
  unfold get_current_user. destruct (starts_with BEARER _) eqn:Eb; cbn [negb]; [|done]. fold (bearer rq). cbv zeta.
  destruct (starts_with KEY_PREFIX (bearer rq)) eqn:Ek; intros E.
  - right. apply bind_ok in E as ([[j k]|] & w2 & E1 & E); [|done]. apply verify_run in E1 as (_ & k0 & Hk & Hh & Ha & Ek0 & ->).
    apply bind_ok in E as (o & w2 & E1 & E). apply key_organization_ok in E1 as (-> & Ho & Hd & Hs).
    rewrite put_w_ne in Ho by done. apply bind_ok in E as ([] & w2 & E1 & E). apply bound in E1 as (Hb & Hdb).
    apply bind_ok in E as ([] & w3 & E1 & E). injection E as <- <- <-. exists k0.
    destruct (quiet_run _ w2 (quiet_meter (ak_organization_id k))) as ((Hclock & Hset & Hmem & Hus & Hdec) & Hu & Ht & _).
    rewrite E1 in Hclock, Hset, Hmem, Hus, Hdec, Hu, Ht. cbn [snd] in *.
    split_and!; [| |done|].
    + subst k. split_and!; [done|done|by exists j|done|done|by exists o].
    + destruct Hb as [(p & Hp & Hsc & Hcr) [slug Hsl]]. rewrite <- Hu in Hp. rewrite <- Ht in Hsl. subst k.
      split; [by exists p|by exists slug].
    + destruct Hdb as (Hc2 & Hs2 & Hd2 & Hk2). split_and!.
      * by etrans; [exact Hclock|].
      * by etrans; [exact Hset|].
      * etrans; [exact Hmem|]. rewrite Hd2. by rewrite put_w_ne.
      * etrans; [exact Hus|]. rewrite Hd2. by rewrite put_w_ne.
      * intros key Hkey. etrans; [by apply Hdec|]. by rewrite Hk2.
  - left. apply bind_ok in E as (payload & w2 & E1 & E). apply token_decoded in E1 as (-> & Hj & Ht).
    destruct (jget "sub" payload) as [sub|] eqn:Es; [|done]. destruct (negb _); [done|].
    destruct (uuid_of_claim _ sub) as [i'|] eqn:Ei; [|done]. revert E. run.
    destruct (w_db w Tusers !! i') as [u'|] eqn:Eu; [|done]. destruct (u_is_active u') eqn:Ea; cbn [negb]; [|done].
    intros [= <- <- <-]. split; [|done]. split_and!; [done|by exists payload, sub|done|done].
Qed.

(** ** For which organization *)

(** The user is an active member, or operates the platform. *)
Definition tenant_of (w : world) (uid : uuid) (u : user) (o : uuid) : Prop :=
  exists org : organization, w_db w Torganizations !! o = Some org /\ o_deleted_at org = None /\
    (u_is_platform_admin u = true \/
     o_status org = "active" /\ exists (k : key Tmemberships) (m : membership),
       w_db w Tmemberships !! k = Some m /\ active_membership o uid k m = true).

Lemma named_stored r w i o w1 : organization_named r w = (Ok (Some (i, o)), w1) -> w_db w Torganizations !! i = Some o.
Proof.
  destruct r as [j|s]; cbn [organization_named].
  - run. destruct (w_db w Torganizations !! j) as [o'|] eqn:E; [|done]. intros Hr. by injection Hr as <- <- _.
  - unfold get_by_slug. run. intros Hr. apply scalar_ok in Hr as [_ [[? _]|([k o'] & Hs & Hf)]]; [done|].
    injection Hs as -> ->. by destruct (found_only Torganizations _ _ _ _ Hf) as (Hm & _).
Qed.

Lemma resolved rq uid u w c w1 : w_tenant w = None ->
  resolve_tenant (en_ip_literal env) (en_org_claim env) rq uid u w = (Ok c, w1) ->
  tenant_of w uid u (tx_organization_id c) /\ w1 = w <| w_tenant := Some c |>.
Proof.
  intros Hw. unfold resolve_tenant. rewrite (run_ok current_tenant _ w None w) by (unfold current_tenant; by rewrite Hw).
  rewrite run_readonly_bind by apply reads_reference. destruct (_resolve_org_reference _ _ rq w).1 as [[r|]|]; [|done..].
  rewrite run_readonly_bind by apply reads_named. destruct (organization_named r w) as [n w2] eqn:En. cbn [fst].
  destruct n as [[[i o]|]|]; [|done..]. apply named_stored in En.
  case_bool_decide as Hd; cbn [negb]; [|done]. rewrite run_readonly_bind by apply reads_get_active.
  destruct (get_active i uid w).1 as [a|] eqn:Ea; [|done].
  assert (Hm : is_Some a -> exists (k : key Tmemberships) (m : membership),
    w_db w Tmemberships !! k = Some m /\ active_membership i uid k m = true)
    by (intros [[k m] ->]; exists k, m; by apply active_found).
  case_bool_decide; destruct (u_is_platform_admin u) eqn:Eu, (String.eqb_spec (o_status o) "active"); cbn [negb andb];
    try done; intros [= <- <-]; (split; [|done]); exists o; auto 6.
Qed.

(** ** What gets past them *)

(** The handler answered, or changed what is committed. *)
Definition acts {A} (m : M A) (w : world) : Prop :=
  (exists a w', m w = (Ok a, w')) \/ w_durable (m w).2 <> w_durable w.

Definition uncommitted : relation world := fun w w' => w_durable w' = w_durable w.
#[export] Instance uncommitted_restorable : Restorable uncommitted.
Proof. unfold uncommitted. split; [split|]; [by intros w|intros w1 w2 w3; congruence|done]. Qed.
Lemma env_uncommitted {A} (m : M A) : Stable same_env m -> Stable uncommitted m.
Proof. intros Hm w. by destruct (Hm w) as (_ & _ & _ & _ & _ & Hd). Qed.

Lemma acts_bind {A B} (m : M A) (f : A -> M B) w : Stable uncommitted m -> acts (mbind f m) w ->
  exists a w1, m w = (Ok a, w1) /\ acts (f a) w1.
Proof.
  intros Hm. specialize (Hm w). unfold acts, mbind, M_bind. destruct (m w) as [[a|e] w1]; unfold uncommitted in Hm; cbn [snd] in *.
  - intros Ha. exists a, w1. split; [done|]. by rewrite Hm.
  - intros [(b & w' & [=])|Hd]; done.
Qed.

Lemma request_acts {A} (m : M A) w r w' : request m w = (r, w') ->
  (exists a, r = Ok a) \/ w_durable w' <> w_durable w -> acts m w.
Proof.
  unfold request, acts. destruct (m w) as [[a|e] w1]; [by left; eauto|]. intros [= <- <-] [[a [=]]|Hd]. by right.
Qed.

Lemma uncommitted_user u : Stable uncommitted (set_user u).
Proof. done. Qed.
Lemma uncommitted_tenant t : Stable uncommitted (set_tenant t).
Proof. done. Qed.
Lemma uncommitted_meter o : Stable uncommitted (meter_api_key_request o).
Proof. apply env_uncommitted, env_meter. Qed.
Lemma uncommitted_put t k r : Stable uncommitted (put t k r).
Proof. done. Qed.
Lemma uncommitted_fresh : Stable uncommitted fresh_id.
Proof. done. Qed.
Lemma uncommitted_cache {A} (f : _ -> _ -> A * _) : Stable uncommitted (with_cache f).
Proof. apply env_uncommitted, env_cache. Qed.
Lemma uncommitted_current : Stable uncommitted current_user.
Proof. done. Qed.
Lemma uncommitted_current_tenant : Stable uncommitted current_tenant.
Proof. done. Qed.
#[local] Hint Resolve uncommitted_user uncommitted_tenant uncommitted_meter uncommitted_put uncommitted_fresh uncommitted_cache
  uncommitted_current uncommitted_current_tenant : stable.

Lemma uncommitted_identify a : Stable uncommitted (get_current_user (en_sha256 env) (en_secret_key env) (en_str_of env) a).
Proof. unfold get_current_user, verify, key_organization, bind_api_key_context, decode_access_token. cbv zeta. solve_stable. Qed.
Lemma uncommitted_resolve rq i u : Stable uncommitted (resolve_tenant (en_ip_literal env) (en_org_claim env) rq i u).
Proof. unfold resolve_tenant, _resolve_org_reference, organization_named, get_by_slug, get_active. solve_stable. Qed.
Lemma uncommitted_permission p i u t : Stable uncommitted (require_permission fga p i u t).
Proof.
  unfold require_permission, require_key_permission, user_can, _fga_allowed, permission_keys_for, denied,
    cache_get_versioned, cache_set, cache_get_scoped, cache_set_scoped.
  solve_stable.
Qed.
Lemma uncommitted_operator u : Stable uncommitted (require_platform_admin u).
Proof. unfold require_platform_admin. solve_stable. Qed.

Lemma uncommitted_principal a : Stable uncommitted (get_principal (en_sha256 env) (en_secret_key env) (en_str_of env) a).
Proof.
  unfold get_principal, try_api_key_auth, verify, key_organization, bind_api_key_context. cbv zeta.
  pose proof (uncommitted_identify a). solve_stable.
Qed.

(** Who may have a route answer, by what the request found.  An API key
    stands for its creator within its scopes, in its own organization; no key has a
    profile or operates the platform. *)
Definition authorized (w : world) (rq : tenant_request) (c : call) : Prop :=
  match c with
  | Public _ => True
  | User _ => (exists i u, by_token w rq i u) \/ (exists k, by_key w rq k)
  | Profile _ => exists i u, by_token w rq i u
  | Operator _ => exists i u, by_token w rq i u /\ u_is_platform_admin u = true
  | Tenant c =>
      (exists i u o, by_token w rq i u /\ tenant_of w i u o /\
         forall p, permission_of c = Some p -> u_is_platform_admin u = true \/ granted w i o p) \/
      (exists k, by_key w rq k /\ forall p, permission_of c = Some p -> p ∈ ak_scopes k /\ creator_may w k p)
  end.

Lemma permission_plain c p : permission_of c = Some p -> plain_text p.
Proof.
  unfold plain_text. destruct c; try done; try (intros [= <-]; repeat split; discriminate).
  destruct r; intros [= <-]; repeat split; discriminate.
Qed.

Lemma acts_permission c p uid u t w : permission_of c = Some p -> acts (serve_tenant c uid u t) w ->
  exists w0 w1, same_grants w w0 /\ w_user w0 = w_user w /\ w_tenant w0 = w_tenant w /\
    require_permission fga p uid u t w0 = (Ok tt, w1).
Proof.
  intros Hp Ha. destruct (guarded c p uid u t Hp) as (A & pre & f & Hq & Hf).
  assert (Hb : acts (mbind (fun _ => mbind f (require_permission fga p uid u t)) pre) w) by (unfold acts in *; by rewrite <- Hf).
  apply acts_bind in Hb as (a & w0 & E0 & Hb); [|apply env_uncommitted, Hq].
  apply acts_bind in Hb as ([] & w1 & E & _); [|apply uncommitted_permission].
  destruct (quiet_run pre w Hq) as (H1 & H2 & H3 & _). rewrite E0 in H1, H2, H3. by exists w0, w1.
Qed.

Lemma creator_same w w' k p : same_grants w w' -> creator_may w' k p -> creator_may w k p.
Proof.
  intros Hg (c & creator & Hc & Hu & Ha & Hm). exists c, creator. pose proof Hg as (_ & _ & _ & Hus & _). rewrite <- Hus.
  split_and!; [done..|]. destruct Hm as [Hm|Hm]; [by left|right; by apply (roles_same w w')].
Qed.

Lemma tenant_authorized rq c w : w_tenant w = None -> acts (api rq (Tenant c)) w -> authorized w rq (Tenant c).
Proof.
  intros Hw Ha. apply acts_bind in Ha as ([i u] & w1 & E1 & Ha); [|apply uncommitted_identify].
  apply acts_bind in Ha as (t & w2 & E2 & Ha); [|apply uncommitted_resolve]. cbn [fst snd] in *.
  apply identified in E1 as [[Hk ->]|(k & Hk & Hbound & Hno & Hsame)].
  - left. apply resolved in E2 as [Ho ->]; [|done]. exists i, u, (tx_organization_id t). split_and!; [done|done|]. intros p Hperm.
    destruct (acts_permission c p i u t _ Hperm Ha) as (w0 & w3 & Hg & Hu & _ & E3).
    eapply member_may in E3; [|by apply (permission_plain c)|rewrite Hu; reflexivity|done].
    destruct E3 as [E3|E3]; [by left|right]. exact (granted_same _ w0 i _ p Hg E3).
  - right. exists k. split; [done|]. intros p Hperm. destruct (acts_permission c p i u t _ Hperm Ha) as (w0 & w3 & Hg & Hu & Ht & E3).
    destruct Hbound as [Hx [slug Hsl]]. revert E2. unfold resolve_tenant.
    rewrite (run_ok current_tenant _ w1 (Some (TenantContext (ak_organization_id k) slug false)) w1) by (unfold current_tenant; by rewrite Hsl).
    intros [= <- <-]. apply (key_may p i u slug w0 k w3) in E3 as [Hs Hc]; [|by apply (permission_plain c)|].
    + split; [done|]. apply (creator_same w w1); [done|]. by apply (creator_same w1 w0).
    + split; [by rewrite Hu|exists slug; by rewrite Ht].
Qed.

Lemma profile_authorized rq c w : acts (api rq (Profile c)) w -> exists i u, by_token w rq i u.
Proof.
  intros Ha. apply acts_bind in Ha as (p & w1 & E1 & Ha); [|apply uncommitted_principal].
  assert (Hk : forall j, acts (serve_profile c (KeyPrincipal j)) w1 -> False).
  { intros j [(a & w' & E)|Hd]; destruct c as [|preferences]; cbn in *; try done.
    - unfold update_me in E. destruct preferences as [v|]; [destruct (validate_preferences_patch _ v)|]; discriminate E.
    - unfold update_me in Hd. destruct preferences as [v|]; [destruct (validate_preferences_patch _ v)|]; done. }
  destruct p as [i u|j]; [|by destruct (Hk j)]. unfold get_principal in E1. destruct (_ && _) eqn:Eb.
  - apply bind_ok in E1 as ([[j k]|] & w2 & _ & E1); [|done]. apply bind_ok in E1 as (o & w3 & _ & E1).
    apply bind_ok in E1 as ([] & w4 & _ & E1). discriminate E1.
  - apply bind_ok in E1 as ([i' u'] & w2 & E2 & E1). injection E1 as <- <- <-.
    apply identified in E2 as [[Hk' _]|(k & Hk' & _)]; [by exists i', u'|].
    destruct Hk' as (Hb & Hp & _). unfold bearer in Hp. by rewrite Hb, Hp in Eb.
Qed.

(** C2: a request that is answered, or after which anything else is committed, had
    the right to its route, by what it found: for a route of a
    tenant, an unexpired access token of an active user who is an active member
    of that active organization and is granted the route's permission, or
    who operates the platform; or a live API key of an active organization whose
    scopes name the permission, made by a user who is still active and is granted it
    too.  Granted is: by the roles, in the tables or in the set cached of the member,
    or, where OpenFGA decides, by the server, its cached decision, or the roles when
    it does not answer and the settings fall back to them.  A profile takes an access
    token, an operator's route the access token of an operator, never a key.  The
    public routes (sign-in, branding, the permission catalog, provider webhooks)
    take no such credential. *)
Theorem changes_are_authorized rq c w r w' :
  w_tenant w = None -> request (api rq c) w = (r, w') ->
  (exists a, r = Ok a) \/ w_durable w' <> w_durable w -> authorized w rq c.
Proof.
  intros Hw Hr Hx. pose proof (request_acts _ _ _ _ Hr Hx) as Ha. clear Hr Hx. destruct c as [c|c|c|c|c].
  - by apply tenant_authorized.
  - apply acts_bind in Ha as ([i u] & w1 & E1 & _); [|apply uncommitted_identify].
    apply identified in E1 as [[Hk _]|(k & Hk & _)]; [left; by exists i, u|right; by exists k].
  - by apply (profile_authorized rq c).
  - apply acts_bind in Ha as ([i u] & w1 & E1 & Ha); [|apply uncommitted_identify].
    apply acts_bind in Ha as (t & w2 & E2 & _); [|apply uncommitted_operator]. unfold require_platform_admin in E2. cbn [snd] in E2.
    destruct (u_is_platform_admin u) eqn:Eu; [|done].
    apply identified in E1 as [[Hk _]|(k & _ & _ & Hno & _)]; [by exists i, u|congruence].
  - exact I.
Qed.
End Api.

(** ** Witness *)

(** A library that knows one token, and an environment that answers nothing. *)
#[local] Instance one_token : JwtLibrary := {|
  jwt_encode _ _ := "ann's";
  jwt_decode _ _ token := if String.eqb token "ann's" then Some [("sub", JUuid 7); ("type", JStr "access")] else None
|}.
Definition no_store : object_store :=
  ObjectStore (fun _ _ => storage_error) (fun _ => storage_error) (fun _ => storage_error) (fun _ => storage_error)
    (fun _ => storage_error) (fun _ _ => storage_error) false.
Definition quiet_environment : environment :=
  Environment hash hash (fun _ => []) (fun _ => "") "secret" (fun _ => false) (fun _ => None) (fun _ _ _ => None)
    demo_ops (fun _ => "") "" "" (fun _ _ _ _ _ => "") ""
    (fun _ _ => "") (fun _ _ => false) (fun _ => "") (fun _ _ => None) (fun _ _ => None) no_store kit_loaded disk.
Definition ann_asks : tenant_request := TenantRequest None (Some "acme") "app.example.test" "Bearer ann's".

Lemma changes_are_authorized_witness : authorized quiet_environment team ann_asks (Tenant (ListAudit None None 50 0)).
Proof.
  assert (E : exists a, (request (api quiet_environment ann_asks (Tenant (ListAudit None None 50 0))) team).1 = Ok a)
    by (eexists; vm_compute; reflexivity).
  eapply (changes_are_authorized quiet_environment ann_asks (Tenant (ListAudit None None 50 0)) team);
    [reflexivity|apply surjective_pairing|left; exact E].
Defined.

(** What the witness grants is in the tables: nothing is cached yet. *)
Lemma witness_holds : holds (w_db team) 7 1 "audit:read".
Proof. exists 60%N, (Membership 1 (Some 7%N) None None "active" None ["audit:read"; "org:read"] NOW), "audit:read".
  split_and!; [vm_compute; reflexivity|vm_compute; reflexivity|left|left].
Qed.
