(* ===== verification/InvoicePdf.v ===== *)
(** The invoice document (billing/invoice_pdf.py).

    The drawing library is a class of operations ([Fpdf]): a position, and the effect
    of one drawing command, which may fail.  Rendering is the sequence of commands the
    code issues; lengths are in tenths of a millimetre.  Texts of the rows are read
    into code points by an argument, since what a core font can draw is a range of
    them.  The library calls [footer] at the end of each page. *)

From Stdlib Require Import Ascii.
From S2P Require Import Prelude Text Json Errors Events Tables Store Branding Providers Notifications.

(** ** Texts *)

(** The code points of a Python text. *)
Definition utext : Type := list Z.
Definition lit (s : string) : utext := (fun a => Z.of_N (N_of_ascii a)) <$> String.list_ascii_of_string s.

(** [text.replace(src, dst)] of one character. *)
Definition replace_code (src : Z) (dst text : utext) : utext := mjoin ((fun c => if (c =? src)%Z then dst else [c]) <$> text).
Definition replacements : list (Z * utext) :=
  [(8212, lit "-"); (8211, lit "-"); (8216, lit "'"); (8217, lit "'"); (8220, [34]); (8221, [34]); (8226, lit "*"); (8369, lit "PHP ")]%Z.
(** [encode("latin-1", "replace")]: a question mark for what is outside. *)
Definition latin1_code (c : Z) : bool := ((0 <=? c) && (c <=? 255))%Z.
Definition _latin1 (text : utext) : utext :=
  (fun c => if latin1_code c then c else 63%Z) <$> foldl (fun text r => replace_code r.1 r.2 text) text replacements.

(** ** Amounts *)

(** [n / d] of two positive integers: the float [m * 2 ^ e] nearest to the quotient. *)
Definition true_div (n d : Z) : Z * Z :=
  let e := (Z.log2 n - Z.log2 d - 53)%Z in
  let at_exponent e := if (0 <=? e)%Z then round_half_even n (d * 2 ^ e) else round_half_even (n * 2 ^ (- e)) d in
  let m := at_exponent e in
  if (m <? 2 ^ 53)%Z then (m, e) else (at_exponent (e + 1)%Z, (e + 1)%Z).
(** The hundredths of [f"{x:.2f}"]: the exact value of the float, rounded half to even. *)
Definition hundredths (x : Z * Z) : Z :=
  let '(m, e) := x in if (0 <=? e)%Z then (m * 100 * 2 ^ e)%Z else round_half_even (m * 100) (2 ^ (- e)).
(** [f"{cents / 100:,.2f}"]. *)
Definition major_text (cents : Z) : string :=
  let h := if (cents =? 0)%Z then 0%Z else hundredths (true_div (Z.abs cents) 100) in
  (if (cents <? 0)%Z then "-" else "") +:+ commas (h / 100) +:+ "." +:+ zfill 2 (h mod 100).

(** [f"{n:,}"]. *)
Definition format_qty (n : Z) : string := (if (n <? 0)%Z then "-" else "") +:+ commas (Z.abs n).

Section Format.
(** The text a column holds. *)
Context (decode : string -> utext).

Definition SYMBOLS (currency : string) : utext :=
  if String.eqb currency "PHP" then lit "PHP "
  else if String.eqb currency "USD" then lit "USD "
  else if String.eqb currency "EUR" then lit "EUR "
  else decode currency ++ lit " ".
Definition format_money (cents : Z) (currency : string) : utext := SYMBOLS currency ++ lit (major_text cents).
End Format.

(** [f"{t:%b %d, %Y}"]. *)
Definition MONTHS : list string := ["Jan"; "Feb"; "Mar"; "Apr"; "May"; "Jun"; "Jul"; "Aug"; "Sep"; "Oct"; "Nov"; "Dec"].
Definition day_text (t : instant) : string :=
  let c := civil_of_date (date_of t) in
  default "" (MONTHS !! Z.to_nat (c_month c - 1)) +:+ " " +:+ zfill 2 (c_day c) +:+ ", " +:+ Z_str (c_year c).

(** ** The drawing library *)

Definition mm (n : Z) : Z := (10 * n)%Z.
Definition PAGE_W : Z := mm 210.
Definition PAGE_H : Z := mm 297.
Definition MARGIN : Z := mm 18.
Definition color : Type := Z * Z * Z.
Definition INK : color := (24, 24, 27)%Z.
Definition MUTED : color := (113, 113, 122)%Z.
Definition HAIRLINE : color := (228, 228, 231)%Z.
Definition LOGO_HEIGHT : Z := mm 14.

(** Where the position goes after a cell: [new_x], [new_y]. *)
Inductive cursor : Type := ToRight | ToNextLine | ToLeftMargin.
Record cell_style : Type := CellStyle { cs_border : bool; cs_fill : bool; cs_align : string; cs_cursor : cursor }.
Definition plain (c : cursor) : cell_style := CellStyle false false "" c.
Definition aligned (a : string) (c : cursor) : cell_style := CellStyle false false a c.
Definition boxed (c : cursor) : cell_style := CellStyle true false "" c.

Inductive pdf_command : Type :=
  | SetMargins (left top right : Z)
  | SetAutoPageBreak (margin : Z)
  | SetTitle (title : utext)
  | AddPage
  | SetFont (style : string) (size : Z)
  | SetTextColor (c : color)
  | SetFillColor (c : color)
  | SetDrawColor (c : color)
  | SetLineWidth (w : Z)
  | SetX (x : Z)
  | SetY (y : Z)
  | SetXY (x y : Z)
  | Ln (h : Z)
  | DrawLine (x1 y1 x2 y2 : Z)
  | Image (path : file_path) (x y h : Z)
  | Cell (w h : Z) (text : utext) (style : cell_style)
  | MultiCell (w h : Z) (text : utext).

Definition command_text (c : pdf_command) : option utext :=
  match c with Cell _ _ t _ | MultiCell _ _ t => Some t | _ => None end.
(** A core font draws Latin-1 texts. *)
Definition drawable (c : pdf_command) : Prop :=
  match c with Image _ _ _ _ => False | _ => forall t, command_text c = Some t -> Forall (fun x => latin1_code x = true) t end.

Class Fpdf (S : Type) : Type := {
  pdf_start : S;
  pdf_get_y : S -> Z;
  pdf_page_no : S -> Z;
  pdf_do : pdf_command -> S -> result unit * S;
  pdf_output : S -> string;
  pdf_draws c s : drawable c -> (pdf_do c s).1 = Ok tt
}.

(** ** The document *)

Section Document.
Context {S : Type} `{Fpdf S} (decode : string -> utext).

(** An operation on a document, with the commands it has drawn. *)
Definition P (A : Type) : Type := S * list pdf_command -> result A * (S * list pdf_command).
#[local] Instance P_ret : MRet P := fun A a s => (Ok a, s).
#[local] Instance P_bind : MBind P := fun A B f m s =>
  match m s with (Ok a, s) => f a s | (Err e, s) => (Err e, s) end.

Definition draw (c : pdf_command) : P unit := fun '(s, log) =>
  match pdf_do c s with (Ok _, s) => (Ok tt, (s, log ++ [c])) | (Err e, s) => (Err e, (s, log)) end.
Definition get_y : P Z := fun '(s, log) => (Ok (pdf_get_y s), (s, log)).
Definition page_no : P Z := fun '(s, log) => (Ok (pdf_page_no s), (s, log)).
Fixpoint draw_each {A} (l : list A) (f : A -> P unit) : P unit :=
  match l with [] => mret tt | x :: l => _ ← f x; draw_each l f end.
Definition when_drawn (b : bool) (m : P unit) : P unit := if b then m else mret tt.

(** [InvoicePDF.cell] and [multi_cell]: the text goes through [_latin1]. *)
Definition cell (w h : Z) (text : utext) (style : cell_style) : P unit := draw (Cell w h (_latin1 text) style).
Definition multi_cell (w h : Z) (text : utext) : P unit := draw (MultiCell w h (_latin1 text)).

Definition start_document (number : utext) : P unit :=
  _ ← draw (SetMargins MARGIN MARGIN MARGIN);
  _ ← draw (SetAutoPageBreak (mm 24));
  _ ← draw (SetTitle (lit "Invoice " ++ number));
  draw AddPage.

Definition footer (number : utext) (footer_text : option string) : P unit :=
  _ ← (if truthy_str footer_text then
         _ ← draw (SetY (mm (-21)));
         _ ← draw (SetFont "" 8);
         _ ← draw (SetTextColor MUTED);
         cell 0 (mm 5) (decode (or_str footer_text "")) (aligned "C" ToRight)
       else mret tt);
  _ ← draw (SetY (mm (-16)));
  _ ← draw (SetFont "I" 8);
  _ ← draw (SetTextColor MUTED);
  n ← page_no;
  cell 0 (mm 6) (lit "Invoice " ++ number ++ lit (" - page " +:+ Z_str n +:+ "/{nb}")) (aligned "C" ToRight).

(** The logo, [False] for any failure; only the log remembers one. *)
Definition attempt (m : P unit) : P bool := fun s =>
  match m s with (Ok _, s) => (Ok true, s) | (Err _, s) => (Ok false, s) end.
Definition _logo (fs : file_system) (b : branding) (dir : file_path) : P bool :=
  match (if truthy_str (bi_logo (br_invoice b)) then bi_logo (br_invoice b) else br_logo b) with
  | None => mret false
  | Some name =>
      drawn ← match asset_path fs b dir name with
              | Err _ => mret false
              | Ok path => y ← get_y; attempt (draw (Image path MARGIN y LOGO_HEIGHT))
              end;
      if (drawn : bool) then y ← get_y; _ ← draw (SetY (y + LOGO_HEIGHT + mm 3)); mret true
      else mret false
  end.

Definition _issuer_block (fs : file_system) (b : branding) (dir : file_path) (number : option string) : P unit :=
  has_logo ← _logo fs b dir;
  _ ← when_drawn (negb has_logo) (
    _ ← draw (SetFont "B" 18);
    _ ← draw (SetTextColor INK);
    cell 0 (mm 10) (decode (br_name b)) (plain ToNextLine));
  let legal_name := effective_legal_name b in
  _ ← when_drawn (has_logo || negb (String.eqb legal_name (br_name b))) (
    _ ← draw (SetFont "B" 10);
    _ ← draw (SetTextColor INK);
    cell 0 (mm 5) (decode legal_name) (plain ToNextLine));
  _ ← draw (SetFont "" 9);
  _ ← draw (SetTextColor MUTED);
  _ ← draw_each (bi_address_lines (br_invoice b)) (fun line => cell 0 45 (decode line) (plain ToNextLine));
  _ ← when_drawn (truthy_str (bi_tax_id (br_invoice b)))
        (cell 0 45 (lit "Tax ID: " ++ decode (or_str (bi_tax_id (br_invoice b)) "")) (plain ToNextLine));
  _ ← draw (Ln (mm 6));
  _ ← draw (SetFont "B" 14);
  _ ← draw (SetTextColor INK);
  _ ← cell 0 (mm 8) (lit "INVOICE " ++ decode (or_str number "")) (aligned "R" ToNextLine);
  _ ← draw (SetLineWidth 4);
  _ ← draw (SetDrawColor HAIRLINE);
  y ← get_y;
  _ ← draw (DrawLine MARGIN (y + mm 2) (PAGE_W - MARGIN) (y + mm 2));
  draw (Ln (mm 8)).

Definition _bill_to (org_name : string) (billing_email : option string) : P unit :=
  let org_name := _latin1 (decode org_name) in
  _ ← draw (SetFont "" 9);
  _ ← draw (SetTextColor MUTED);
  _ ← cell (mm 30) (mm 5) (lit "Billed to") (plain ToRight);
  _ ← draw (SetTextColor INK);
  _ ← draw (SetFont "B" 10);
  _ ← cell 0 (mm 5) org_name (plain ToNextLine);
  _ ← when_drawn (truthy_str billing_email) (
    _ ← draw (SetX (MARGIN + mm 30));
    _ ← draw (SetFont "" 9);
    _ ← draw (SetTextColor MUTED);
    cell 0 (mm 5) (decode (or_str billing_email "")) (plain ToNextLine));
  draw (Ln (mm 4)).

Definition meta_pairs (v : invoice) : list (utext * utext) :=
  match i_period_start v, i_period_end v with
  | Some s, Some e => [(lit "Period", lit (day_text s +:+ " - " +:+ day_text e))]
  | _, _ => []
  end ++
  match i_issued_at v with Some t => [(lit "Issued", lit (day_text t))] | None => [] end ++
  [(lit "Status", decode (upper (i_status v)))].
Definition _meta (v : invoice) : P unit :=
  _ ← draw (SetFont "" 9);
  let pairs := meta_pairs v in
  let col_w := ((PAGE_W - 2 * MARGIN) / Z.of_nat (length pairs))%Z in
  _ ← draw_each pairs (fun p => _ ← draw (SetTextColor MUTED); cell col_w (mm 5) p.1 (plain ToRight));
  _ ← draw (Ln (mm 5));
  _ ← draw_each pairs (fun p => _ ← draw (SetTextColor INK); cell col_w (mm 5) p.2 (plain ToRight));
  draw (Ln (mm 10)).

(** The columns: description, quantity, unit price, amount. *)
Definition COLS : Z * Z * Z * Z := (mm 78, mm 24, mm 36, mm 36).
Definition HEADER : list (Z * string) := [(mm 78, "Description"); (mm 24, "Qty"); (mm 36, "Unit price"); (mm 36, "Amount")].

Definition table_row (currency : string) (l : invoice_line) : P unit :=
  let '(w0, w1, w2, w3) := COLS in
  let h := match il_metric l with None => mm 10 | Some _ => mm 13 end in
  _ ← cell w0 h (take 80 (_latin1 (decode (il_description l)))) (boxed ToRight);
  _ ← match il_metric l with
      | None => mret tt
      | Some metric =>
          y ← get_y;
          _ ← draw (SetXY (MARGIN + mm 1) (y + h - mm 4));
          _ ← draw (SetFont "I" 7);
          _ ← draw (SetTextColor MUTED);
          _ ← cell 0 (mm 4) (decode metric) (plain ToLeftMargin);
          y ← get_y;
          _ ← draw (SetXY (MARGIN + w0) (y - h + mm 4));
          _ ← draw (SetFont "" 9);
          draw (SetTextColor INK)
      end;
  _ ← cell w1 h (lit (format_qty (il_quantity l))) (boxed ToRight);
  _ ← cell w2 h (format_money decode (il_unit_amount_cents l) currency) (boxed ToRight);
  _ ← cell w3 h (format_money decode (il_amount_cents l) currency) (boxed ToRight);
  draw (Ln h).

Definition _table (lines : list invoice_line) (currency : string) : P Z :=
  _ ← draw (SetFillColor (244, 244, 245)%Z);
  _ ← draw (SetFont "B" 9);
  _ ← draw (SetTextColor MUTED);
  _ ← draw_each HEADER (fun c => cell c.1 (mm 8) (lit c.2) (CellStyle true true "" ToRight));
  _ ← draw (Ln (mm 8));
  _ ← draw (SetFont "" 9);
  _ ← draw (SetTextColor INK);
  match lines with
  | [] => _ ← cell 0 (mm 8) (lit "No billable items this period") (boxed ToNextLine); get_y
  | _ => _ ← draw_each lines (table_row currency); get_y
  end.

Definition total_row (label : string) (cents : Z) (currency : string) : P unit :=
  _ ← draw (SetX (PAGE_W - MARGIN - mm 90));
  _ ← draw (SetTextColor MUTED);
  _ ← cell (mm 50) (mm 6) (lit label) (plain ToRight);
  _ ← draw (SetTextColor INK);
  _ ← cell (mm 40) (mm 6) (format_money decode cents currency) (aligned "R" ToRight);
  draw (Ln (mm 6)).
Definition _totals (y : Z) (v : invoice) : P unit :=
  _ ← draw (SetY (y + mm 4));
  _ ← draw (SetX (PAGE_W - MARGIN - mm 90));
  _ ← draw (SetFont "" 9);
  _ ← draw (SetTextColor MUTED);
  _ ← cell (mm 50) (mm 6) (lit "Subtotal") (plain ToRight);
  _ ← draw (SetTextColor INK);
  _ ← cell (mm 40) (mm 6) (format_money decode (i_subtotal_cents v) (i_currency v)) (aligned "R" ToRight);
  _ ← draw (Ln (mm 6));
  _ ← total_row "Tax" (i_tax_cents v) (i_currency v);
  _ ← draw (SetX (PAGE_W - MARGIN - mm 90));
  _ ← draw (SetDrawColor INK);
  _ ← draw (SetLineWidth 4);
  y ← get_y;
  _ ← draw (DrawLine (PAGE_W - MARGIN - mm 90) y (PAGE_W - MARGIN) y);
  _ ← draw (Ln (mm 2));
  _ ← draw (SetX (PAGE_W - MARGIN - mm 90));
  _ ← draw (SetFont "B" 11);
  _ ← cell (mm 50) (mm 7) (lit "Total due") (plain ToRight);
  _ ← cell (mm 40) (mm 7) (format_money decode (i_total_cents v) (i_currency v)) (aligned "R" ToRight);
  draw (Ln (mm 10)).

Definition _instructions (v : invoice) (pay_to : option string) : P unit :=
  if String.eqb (i_status v) "paid" then
    _ ← draw (SetFont "B" 10);
    _ ← draw (SetTextColor INK);
    cell 0 (mm 6) (lit ("PAID" +:+ match i_paid_at v with None => "" | Some t => " - " +:+ day_text t end)) (plain ToNextLine)
  else if negb (truthy_str pay_to) then mret tt
  else
    _ ← draw (SetFont "B" 9);
    _ ← draw (SetTextColor MUTED);
    _ ← cell 0 (mm 5) (lit "Payment instructions") (plain ToNextLine);
    _ ← draw (SetFont "" 9);
    _ ← draw (SetTextColor INK);
    multi_cell 0 (mm 5) (decode (or_str pay_to "")).

(** The commands of a document; [render_invoice_pdf] is what the library writes of it. *)
Definition invoice_document (fs : file_system) (b : branding) (dir : file_path) (i : uuid) (v : invoice) (lines : list invoice_line)
    (org_name : string) (billing_email pay_to : option string) : P unit :=
  _ ← start_document (decode (or_str (i_number v) (uuid_str i)));
  _ ← _issuer_block fs b dir (i_number v);
  _ ← _bill_to org_name billing_email;
  _ ← _meta v;
  y ← _table lines (i_currency v);
  _ ← _totals y v;
  _instructions v pay_to.
Definition render_invoice_pdf (fs : file_system) (b : branding) (dir : file_path) (iv : uuid * invoice) (lines : list invoice_line)
    (org_name : string) (billing_email pay_to : option string) : result string :=
  match invoice_document fs b dir iv.1 iv.2 lines org_name billing_email pay_to (pdf_start, []) with
  | (Ok _, (s, _)) => Ok (pdf_output s)
  | (Err e, _) => Err e
  end.
End Document.

(** ** Amounts are exact *)

Lemma round_half_even_near n d q : (0 < d)%Z -> (Z.abs (2 * (n - d * q)) < d)%Z -> round_half_even n d = q.
Proof. intros Hd Hn. pose proof (round_half_even_error n d Hd). nia. Qed.

(** Amounts below this many minor units print exactly: 2^46 units. *)
Definition EXACT_CENTS : Z := (100 * 2 ^ 46)%Z.

Lemma quotient_exact n e : (0 < n)%Z -> (e <= -7)%Z -> hundredths (round_half_even (n * 2 ^ (- e)) 100, e) = n.
Proof.
  intros Hn He. unfold hundredths. destruct (Z.leb_spec 0 e); [lia|].
  assert (H7 : (2 ^ 7 <= 2 ^ (- e))%Z) by (apply Z.pow_le_mono_r; lia). change (2 ^ 7)%Z with 128%Z in H7.
  apply round_half_even_near; [lia|]. pose proof (round_half_even_error (n * 2 ^ (- e)) 100 ltac:(lia)). nia.
Qed.

Lemma true_div_exact n : (0 < n < EXACT_CENTS)%Z -> hundredths (true_div n 100) = n.
Proof.
  intros [Hn Hb]. unfold true_div. change (Z.log2 100) with 6%Z. unfold EXACT_CENTS in Hb.
  assert (Hl : (Z.log2 n <= 52)%Z).
  { assert (Z.log2 n < 53)%Z; [|lia]. apply Z.log2_lt_pow2; [lia|]. change (100 * 2 ^ 46)%Z with 7036874417766400%Z in Hb.
    change (2 ^ 53)%Z with 9007199254740992%Z. lia. }
  pose proof (Z.log2_nonneg n). set (e := (Z.log2 n - 6 - 53)%Z). assert (He : (e <= -7)%Z) by lia.
  destruct (Z.leb_spec 0 e); [lia|]. destruct (Z.ltb_spec (round_half_even (n * 2 ^ (- e)) 100) (2 ^ 53)).
  - by apply quotient_exact.
  - destruct (Z.leb_spec 0 (e + 1)); [lia|]. apply quotient_exact; [lia|]. destruct (Z.eq_dec e (-7)%Z) as [E|]; [exfalso|lia].
    (* at this exponent the quotient is below 2^53 *)
    rewrite E in *. change (- -7)%Z with 7%Z in *. change (2 ^ 7)%Z with 128%Z in *.
    pose proof (round_half_even_error (n * 128) 100 ltac:(lia)). change (100 * 2 ^ 46)%Z with 7036874417766400%Z in Hb.
    change (2 ^ 53)%Z with 9007199254740992%Z in *. nia.
Qed.

(** C40: An amount below [EXACT_CENTS] is printed to the cent although the code divides
    it in floating point: its sign, the units in groups of three digits, a point and
    two digits of hundredths, as the text of amounts in mails has it.  An amount beyond
    the bound can lose its last digits: the largest one a column holds does. *)
Theorem amounts_print_exactly decode cents currency : (Z.abs cents < EXACT_CENTS)%Z ->
  major_text cents = units_text cents /\
  format_money decode cents currency = SYMBOLS decode currency ++ lit (units_text cents) /\
  major_text 9223372036854775807%Z = "92,233,720,368,547,760.00".
Proof.
  intros Hb. assert (E : major_text cents = units_text cents); [|split_and!; [done|unfold format_money; by rewrite E|by vm_compute]].
  unfold major_text, units_text. destruct (Z.eqb_spec cents 0) as [->|Hne]; [done|]. by rewrite true_div_exact by lia.
Qed.

(** ** What a document says *)

Lemma latin1_drawn text : Forall (fun x => latin1_code x = true) (_latin1 text).
Proof.
  unfold _latin1. generalize (foldl (fun text r => replace_code r.1 r.2 text) text replacements). intros l.
  apply Forall_forall. intros x Hx. apply list_elem_of_fmap in Hx as (c & -> & _). by destruct (latin1_code c) eqn:E.
Qed.

Section Spec.
Context (decode : string -> utext).

Definition issuer_texts (has_logo : bool) (b : branding) (number : option string) : list utext :=
  (if has_logo then [] else [decode (br_name b)]) ++
  (if has_logo || negb (String.eqb (effective_legal_name b) (br_name b)) then [decode (effective_legal_name b)] else []) ++
  (decode <$> bi_address_lines (br_invoice b)) ++
  (if truthy_str (bi_tax_id (br_invoice b)) then [lit "Tax ID: " ++ decode (or_str (bi_tax_id (br_invoice b)) "")] else []) ++
  [lit "INVOICE " ++ decode (or_str number "")].
Definition customer_texts (org_name : string) (billing_email : option string) : list utext :=
  [lit "Billed to"; _latin1 (decode org_name)] ++ (if truthy_str billing_email then [decode (or_str billing_email "")] else []).
(** A billed line: what, of which metric, how many, for how much. *)
Definition line_texts (currency : string) (l : invoice_line) : list utext :=
  [take 80 (_latin1 (decode (il_description l)))] ++
  match il_metric l with Some m => [decode m] | None => [] end ++
  [lit (format_qty (il_quantity l)); format_money decode (il_unit_amount_cents l) currency; format_money decode (il_amount_cents l) currency].
Definition table_texts (lines : list invoice_line) (currency : string) : list utext :=
  (lit ∘ snd <$> HEADER) ++
  match lines with [] => [lit "No billable items this period"] | _ => mjoin (line_texts currency <$> lines) end.
Definition totals_texts (v : invoice) : list utext :=
  [lit "Subtotal"; format_money decode (i_subtotal_cents v) (i_currency v); lit "Tax"; format_money decode (i_tax_cents v) (i_currency v);
   lit "Total due"; format_money decode (i_total_cents v) (i_currency v)].
Definition instructions_texts (v : invoice) (pay_to : option string) : list utext :=
  if String.eqb (i_status v) "paid" then [lit ("PAID" +:+ match i_paid_at v with None => "" | Some t => " - " +:+ day_text t end)]
  else if truthy_str pay_to then [lit "Payment instructions"; decode (or_str pay_to "")] else [].
Definition document_texts (has_logo : bool) (b : branding) (v : invoice) (lines : list invoice_line) (org_name : string)
    (billing_email pay_to : option string) : list utext :=
  issuer_texts has_logo b (i_number v) ++ customer_texts org_name billing_email ++ (meta_pairs decode v).*1 ++ (meta_pairs decode v).*2 ++
  table_texts lines (i_currency v) ++ totals_texts v ++ instructions_texts v pay_to.
End Spec.

Section Written.
Context {S : Type} `{Fpdf S} (decode : string -> utext).
#[local] Existing Instance P_ret.
#[local] Existing Instance P_bind.
Abbreviation doc := (P (S:=S)).

(** [m] always succeeds, whatever the state of the document, and its commands satisfy [Q]. *)
Definition Draws {A} (m : doc A) (Q : A -> list pdf_command -> Prop) : Prop := forall s log, exists a s' drawn,
  m (s, log) = (Ok a, (s', log ++ drawn)) /\ Q a drawn.
(** It writes these texts, and draws no picture. *)
Definition writes (ts : list utext) (drawn : list pdf_command) : Prop :=
  omap command_text drawn = _latin1 <$> ts /\ Forall drawable drawn.
Definition Writes {A} (m : doc A) (ts : list utext) : Prop := Draws m (fun _ => writes ts).

Lemma draws_bind {A B} (m : doc A) (f : A -> doc B) Q R : Draws m Q -> (forall a l, Q a l -> Draws (f a) (fun b l' => R b (l ++ l'))) ->
  Draws (mbind f m) R.
Proof.
  intros Hm Hf s log. destruct (Hm s log) as (a & s1 & l & E & Hq). destruct (Hf a l Hq s1 (log ++ l)) as (b & s2 & l' & E' & Hr).
  exists b, s2, (l ++ l'). split; [|done]. unfold mbind, P_bind. by rewrite E, E', app_assoc.
Qed.
Lemma writes_app ts us l l' : writes ts l -> writes us l' -> writes (ts ++ us) (l ++ l').
Proof. intros [E1 H1] [E2 H2]. split; [by rewrite omap_app, fmap_app, E1, E2|by apply Forall_app]. Qed.
Lemma writes_bind {A B} (m : doc A) (f : A -> doc B) ts us : Writes m ts -> (forall a, Writes (f a) us) -> Writes (mbind f m) (ts ++ us).
Proof.
  intros Hm Hf. eapply draws_bind; [exact Hm|]. intros a l Hl s log. destruct (Hf a s log) as (b & s' & l' & E & Hw).
  exists b, s', l'. split; [done|by apply writes_app].
Qed.
Lemma writes_eq {A} (m : doc A) ts us : Writes m ts -> ts = us -> Writes m us.
Proof. by intros ? <-. Qed.
Lemma writes_ret {A} (a : A) : Writes (mret a) [].
Proof. intros s log. exists a, s, []. by rewrite app_nil_r. Qed.
Lemma writes_get_y : Writes get_y [].
Proof. intros s log. exists (pdf_get_y s), s, []. by rewrite app_nil_r. Qed.
Lemma writes_draw c ts : writes ts [c] -> Writes (draw c) ts.
Proof.
  intros Hw s log. destruct Hw as [E Hd]. pose proof (pdf_draws c s (Forall_inv Hd)) as Hs.
  unfold draw. destruct (pdf_do c s) as [r s']. cbn in Hs. subst r. exists tt, s', [c]. split; [done|by split].
Qed.
Lemma writes_cell w h t style : Writes (cell w h t style) [t].
Proof. apply writes_draw. split; [done|]. apply Forall_cons; split; [|apply Forall_nil_2]. intros t' [= <-]. apply latin1_drawn. Qed.
Lemma writes_multi_cell w h t : Writes (multi_cell w h t) [t].
Proof. apply writes_draw. split; [done|]. apply Forall_cons; split; [|apply Forall_nil_2]. intros t' [= <-]. apply latin1_drawn. Qed.
Lemma writes_each {A} (l : list A) (f : A -> doc unit) g : (forall x, Writes (f x) (g x)) -> Writes (draw_each l f) (mjoin (g <$> l)).
Proof.
  intros Hf. induction l as [|x l IH]; [apply writes_ret|]. cbn [draw_each]. eapply writes_eq; [by apply writes_bind|done].
Qed.
Lemma writes_when b m ts : Writes m ts -> Writes (when_drawn b m) (if b then ts else []).
Proof. destruct b; [done|]. intros _. apply writes_ret. Qed.

Lemma writes_silent c : match c with Cell _ _ _ _ | MultiCell _ _ _ | Image _ _ _ _ => False | _ => True end -> Writes (draw c) [].
Proof. intros Hc. apply writes_draw. split; [by destruct c|]. apply Forall_cons. split; [|apply Forall_nil_2]. by destruct c. Qed.

Ltac write_step :=
  first
    [ apply writes_ret | apply writes_get_y | apply writes_cell | apply writes_multi_cell | apply writes_silent; exact I
    | apply writes_when | apply writes_each; intros ? | eapply writes_bind; [|intros ?] ].
Ltac written := eapply writes_eq; [repeat write_step|].

Lemma writes_start number : Writes (start_document number) [].
Proof. unfold start_document. by written. Qed.
Lemma writes_customer org_name email : Writes (_bill_to decode org_name email) (customer_texts decode org_name email).
Proof. unfold _bill_to. written. unfold customer_texts. cbn [app]. by destruct (truthy_str email). Qed.
Lemma mjoin_singletons {A B} (f : A -> B) l : mjoin ((fun x => [f x]) <$> l) = f <$> l.
Proof. induction l as [|x l IH]; [done|]. cbn. by rewrite <- IH. Qed.
Lemma writes_meta v : Writes (_meta decode v) ((meta_pairs decode v).*1 ++ (meta_pairs decode v).*2).
Proof. unfold _meta. written. cbn [app]. by rewrite !mjoin_singletons, app_nil_r. Qed.
Lemma writes_row currency l : Writes (table_row decode currency l) (line_texts decode currency l).
Proof.
  unfold table_row, COLS. destruct (il_metric l) eqn:E; written; unfold line_texts; by rewrite E.
Qed.
Lemma writes_table lines currency : Writes (_table decode lines currency) (table_texts decode lines currency).
Proof.
  assert (Hc : forall c : Z * string, Writes (cell c.1 (mm 8) (lit c.2) (CellStyle true true "" ToRight)) [lit c.2]) by (intros; apply writes_cell).
  unfold _table. destruct lines as [|l ls]; [by written|]. eapply writes_eq; [repeat first [apply writes_each; apply writes_row|write_step]|].
  unfold table_texts. cbn [app]. by rewrite mjoin_singletons, app_nil_r.
Qed.
Lemma writes_totals y v : Writes (_totals decode y v) (totals_texts decode v).
Proof. unfold _totals, total_row. by written. Qed.
Lemma writes_instructions v pay_to : Writes (_instructions decode v pay_to) (instructions_texts decode v pay_to).
Proof.
  unfold _instructions, instructions_texts. destruct (String.eqb (i_status v) "paid"); [by written|].
  destruct (truthy_str pay_to); by written.
Qed.

(** The footer of a page, whatever its number. *)
Lemma draws_footer number text : Draws (footer decode number text) (fun _ l => exists n,
  writes ((if truthy_str text then [decode (or_str text "")] else []) ++
    [lit "Invoice " ++ number ++ lit (" - page " +:+ Z_str n +:+ "/{nb}")]) l).
Proof.
  assert (Hp : forall ts (f : Z -> doc unit), (forall n, Writes (f n) (ts n)) -> Draws (n ← page_no; f n) (fun _ l => exists n, writes (ts n) l)).
  { intros ts f Hf s log. destruct (Hf (pdf_page_no s) s log) as ([] & s' & l & E & Hw). exists tt, s', l. split; [exact E|by eexists]. }
  unfold footer. eapply draws_bind.
  - instantiate (1 := fun _ => writes (if truthy_str text then [decode (or_str text "")] else [])). destruct (truthy_str text); by written.
  - intros u l Hl. do 3 (eapply draws_bind; [by apply writes_silent|intros ? ? ?]).
    intros s log. destruct (Hp (fun n => [lit "Invoice " ++ number ++ lit (" - page " +:+ Z_str n +:+ "/{nb}")])
      (fun n => cell 0 (mm 6) (lit "Invoice " ++ number ++ lit (" - page " +:+ Z_str n +:+ "/{nb}")) (aligned "C" ToRight))
      (fun n => writes_cell _ _ _ _) s log) as (v & s' & l' & E & n & Hw).
    exists v, s', l'. split; [exact E|]. exists n. apply writes_app; [done|]. by repeat apply (writes_app []).
Qed.

Definition picture (c : pdf_command) : Prop := match c with Image _ _ _ _ => True | _ => False end.
(** The texts, and whether there is a picture. *)
Definition says (has_logo : bool) (ts : list utext) (drawn : list pdf_command) : Prop :=
  omap command_text drawn = _latin1 <$> ts /\ (has_logo = true <-> Exists picture drawn).

Lemma writes_says ts l : writes ts l -> says false ts l.
Proof.
  intros [E Hd]. split; [done|split; [done|]]. intros Hp. apply Exists_exists in Hp as (c & Hin & Hc).
  rewrite Forall_forall in Hd. specialize (Hd c Hin). by destruct c.
Qed.
Lemma says_app has ts us l l' : says has ts l -> writes us l' -> says has (ts ++ us) (l ++ l').
Proof.
  intros [E Hp] Hw. apply writes_says in Hw as [E' Hp']. split; [by rewrite omap_app, fmap_app, E, E'|].
  rewrite Exists_app, <- Hp, <- Hp'. naive_solver.
Qed.
Lemma says_before has ts us l l' : writes ts l -> says has us l' -> says has (ts ++ us) (l ++ l').
Proof.
  intros Hw [E Hp]. apply writes_says in Hw as [E' Hp']. split; [by rewrite omap_app, fmap_app, E, E'|].
  rewrite Exists_app, <- Hp, <- Hp'. naive_solver.
Qed.

Lemma draws_logo fs b dir : Draws (_logo fs b dir) (fun has => says has []).
Proof.
  unfold _logo. destruct (if truthy_str _ then _ else _) as [name|].
  2: { intros s log. exists false, s, []. rewrite app_nil_r. split; [done|]. by apply writes_says. }
  eapply (draws_bind _ _ (fun has => says has [])).
  - destruct (asset_path fs b dir name) as [path|e].
    + eapply draws_bind; [apply writes_get_y|]. intros y l Hl s log. unfold attempt, draw.
      destruct (pdf_do _ s) as [[[]|e] s'].
      * exists true, s', [Image path MARGIN y LOGO_HEIGHT]. split; [done|]. apply (says_before true [] []); [done|].
        split; [done|]. split; [intros _; by left|done].
      * exists false, s', []. rewrite !app_nil_r. split; [done|by apply writes_says].
    + intros s log. exists false, s, []. rewrite app_nil_r. split; [done|]. by apply writes_says.
  - intros has l Hl s log. destruct has.
    + assert (Hw : Writes (y ← get_y; _ ← draw (SetY (y + LOGO_HEIGHT + mm 3)); mret true) []) by (by written).
      destruct (Hw s log) as (a & s' & l' & E & Hw'). exists true, s', l'. split.
      * revert E. unfold mbind, P_bind, get_y, draw, mret, P_ret. destruct (pdf_do _ s) as [[?|?] ?]; congruence.
      * by apply (says_app true [] []).
    + exists false, s, []. rewrite !app_nil_r. by split.
Qed.

Lemma draws_issuer fs b dir number : Draws (_issuer_block decode fs b dir number) (fun _ l => exists has, says has (issuer_texts decode has b number) l).
Proof.
  unfold _issuer_block. eapply draws_bind; [apply draws_logo|]. intros has l Hl.
  match goal with |- Draws ?m _ => assert (Hw : Writes m (issuer_texts decode has b number)) end.
  - written. unfold issuer_texts. rewrite mjoin_singletons. cbn [app]. destruct has; cbn [negb orb app].
    + destruct (truthy_str _); cbn [app]; by rewrite ?app_nil_r.
    + destruct (negb _), (truthy_str _); cbn [app]; by rewrite ?app_nil_r.
  - intros s log. destruct (Hw s log) as (a & s' & l' & E & Hw'). exists a, s', l'. split; [done|]. exists has.
    by apply (says_app has []).
Qed.

(** C21: The invoice document never fails to be drawn, whatever the branding, the logo
    and the texts of the rows, by any drawing library whose fonts draw Latin-1: its
    texts are, in order, the issuer's, the customer's, the dates and the status, a row
    of the table for every billed line with its amounts, the totals and how to pay,
    each in Latin-1; the logo stands for the brand's name exactly when it was drawn. *)
Theorem invoice_document_drawn fs b dir i v lines org_name email pay_to : exists has_logo s drawn,
  invoice_document decode fs b dir i v lines org_name email pay_to (pdf_start, []) = (Ok tt, (s, drawn)) /\
  omap command_text drawn = _latin1 <$> document_texts decode has_logo b v lines org_name email pay_to /\
  Forall (fun t => Forall (fun x => latin1_code x = true) t) (omap command_text drawn) /\
  (has_logo = true <-> Exists picture drawn) /\
  render_invoice_pdf decode fs b dir (i, v) lines org_name email pay_to = Ok (pdf_output s).
Proof.
  assert (Hd : Draws (invoice_document decode fs b dir i v lines org_name email pay_to)
    (fun a l => a = tt /\ exists has, says has (document_texts decode has b v lines org_name email pay_to) l)).
  { unfold invoice_document. eapply draws_bind; [apply writes_start|]. intros u0 l0 Hl0.
    eapply draws_bind; [apply draws_issuer|]. intros u1 l1 [has Hl1].
    match goal with |- Draws ?m _ => assert (Hw : Writes m (customer_texts decode org_name email ++ (meta_pairs decode v).*1 ++
      (meta_pairs decode v).*2 ++ table_texts decode lines (i_currency v) ++ totals_texts decode v ++ instructions_texts decode v pay_to)) end.
    - eapply writes_eq; [apply writes_bind; [apply writes_customer|intros _]; apply writes_bind; [apply writes_meta|intros _];
        apply writes_bind; [apply writes_table|intros y]; apply writes_bind; [apply writes_totals|intros _; apply writes_instructions]|].
      by rewrite <- !app_assoc.
    - intros s log. destruct (Hw s log) as ([] & s' & l' & E & Hw'). exists tt, s', l'. split; [done|]. split; [done|]. exists has.
      unfold document_texts. apply (says_before _ [] _); [done|]. by apply says_app. }
  destruct (Hd pdf_start []) as (a & s & drawn & E & -> & has & Ht & Hp). exists has, s, drawn. split_and!; [done|done| |done|].
  - rewrite Ht. apply Forall_forall. intros t Hin. apply list_elem_of_fmap in Hin as (t0 & -> & _). apply latin1_drawn.
  - unfold render_invoice_pdf. cbn [fst snd]. by rewrite E.
Qed.
End Written.

(** What Latin-1 can write is written as it is. *)
Lemma replace_code_none src dst text : src ∉ text -> replace_code src dst text = text.
Proof.
  unfold replace_code. induction text as [|c text IH]; intros Hs; [done|]. apply not_elem_of_cons in Hs as [Hne Hs]. cbn.
  destruct (Z.eqb_spec c src); [congruence|]. cbn. f_equal. by apply IH.
Qed.
Lemma latin1_unchanged text : Forall (fun x => latin1_code x = true) text -> _latin1 text = text.
Proof.
  intros Hl. assert (E : foldl (fun text r => replace_code r.1 r.2 text) text replacements = text).
  { assert (Hr : Forall (fun r : Z * utext => r.1 ∉ text) replacements).
    { apply Forall_forall. intros r Hr Hin. rewrite Forall_forall in Hl. specialize (Hl _ Hin). unfold latin1_code in Hl.
      assert (Hb : Forall (fun r : Z * utext => (255 < r.1)%Z) replacements) by (repeat constructor; lia).
      rewrite Forall_forall in Hb. specialize (Hb r Hr). lia. }
    revert Hr. generalize replacements. intros rs. induction rs as [|r rs IH]; intros Hr; [done|]. apply Forall_cons in Hr as [H1 H2].
    cbn. rewrite replace_code_none by done. by apply IH. }
  unfold _latin1. rewrite E. clear E. induction Hl as [|c l Hc _ IH]; [done|]. cbn. by rewrite Hc, IH.
Qed.

(** ** Witnesses *)

(** Paper on which a position moves down and no picture can be drawn. *)
Definition paper_do (c : pdf_command) (y : Z) : result unit * Z :=
  match c with
  | Image _ _ _ _ => (Err (PyError "FPDFException"), y)
  | Ln h => (Ok tt, y + h)%Z
  | SetY y => (Ok tt, y)
  | SetXY _ y => (Ok tt, y)
  | Cell _ h _ style => (Ok tt, match cs_cursor style with ToNextLine => (y + h)%Z | _ => y end)
  | MultiCell _ h _ => (Ok tt, y + h)%Z
  | _ => (Ok tt, y)
  end.
Lemma paper_draws c y : drawable c -> (paper_do c y).1 = Ok tt.
Proof. by destruct c. Qed.
#[local] Instance paper : Fpdf Z :=
  {| pdf_start := MARGIN; pdf_get_y := id; pdf_page_no := fun _ => 1%Z; pdf_do := paper_do; pdf_output := Z_str; pdf_draws := paper_draws |}.

Definition api_invoice : invoice :=
  Invoice 1 None None None (Some "INV-202410-0001") "PHP" 150000 0 150000 "open" (Some 0%Z) (Some (days 30)) None None None 0.
Definition api_line : invoice_line := InvoiceLine 50 1 "overage" "API calls" 1500 100 150000 (Some "api_calls") [].

Lemma invoice_document_drawn_witness : exists s drawn,
  invoice_document lit disk kit kit_dir 50 api_invoice [api_line] "Acme" None None (pdf_start, []) = (Ok tt, (s, drawn)) /\
  (lit "PHP 1,500.00") ∈ omap command_text drawn.
Proof.
  destruct (invoice_document_drawn lit disk kit kit_dir 50 api_invoice [api_line] "Acme" None None) as (has & s & drawn & E & Ht & _).
  exists s, drawn. split; [exact E|]. rewrite Ht. apply list_elem_of_fmap. exists (lit "PHP 1,500.00").
  split; [by vm_compute|]. apply (bool_decide_unpack _). destruct has; vm_compute; exact I.
Defined.

Lemma amounts_print_exactly_witness : major_text (-123456789) = "-1,234,567.89".
Proof.
  destruct (amounts_print_exactly lit (-123456789) "PHP") as (E & _); [by vm_compute|]. rewrite E. by vm_compute.
Defined.
