(* ===== verification/Cli.v ===== *)
(** The command line (cli.py), the development seed (seeds/dev_seed.py) and the names
    of the project generator (scaffold/__init__.py).

    A command runs in sessions of the schema owner that it commits itself; what it
    prints is its result.  Applying migrations, writing files and talking to the
    OpenFGA server are the libraries'. *)

From Stdlib Require Import Ascii.
From S2P Require Import Prelude Text Ids Json Errors Events Tables Store Dynamic Config Cache Session Fixtures.
From S2P Require Import Permissions Authorization Catalog Subscriptions Interfaces Entitlements Usage Tenancy Providers Webhooks Worker Retention Seeds.

(** ** The development seed *)

Definition DEV_PASSWORD : string := "password123".
Definition DEV_ROLE_USERS : list (string * string) :=
  [("owner@acme.example.com", "owner"); ("admin@acme.example.com", "admin"); ("billing@acme.example.com", "billing");
   ("developer@acme.example.com", "developer"); ("member@acme.example.com", "member")].
Definition DEV_SEAT_LIMIT : Z := 10.
Definition DEV_OWNER_EMAIL : string := "owner@acme.example.com".

(** [str.capitalize()]. *)
Definition capitalize (s : string) : string :=
  match s with EmptyString => EmptyString | String c s => String (upper_char c) (lower s) end.

Section Dev.
(** [hash_password], the schema library's [EmailStr], and the random token of each
    invitation and suffix of a slug. *)
Context (sha256 hash_password : string -> string) (email_str : string -> bool) (invite_token : string -> string) (suffix : string).
Context `{EntitlementReader}.

Definition _assert_loginable_emails : M unit :=
  if forallb (fun u => email_str u.1) DEV_ROLE_USERS then mret tt else raise (PyError "ValidationError").

Definition dev_user (email display_name : string) (admin : bool) : user :=
  User email (Some (hash_password DEV_PASSWORD)) display_name admin true None "local" None [].
Definition add_user (u : user) : M uuid := i ← fresh_id; _ ← put Tusers i u; _ ← flush; mret i.

Definition seed_dev_member (org : uuid) (member : string * string) : M unit :=
  if String.eqb member.1 DEV_OWNER_EMAIL then mret tt
  else
    _ ← add_user (dev_user member.1 ("Acme " +:+ capitalize member.2) false);
    _ ← invite_member sha256 (invite_token member.1) org member.1 (Some [member.2]) None "your organization";
    _ ← accept_invite_by_email org member.1;
    mret tt.

Definition seed_dev : M unit :=
  _ ← _assert_loginable_emails;
  rows ← select Tusers (fun _ (u : user) => String.eqb (citext (u_email u)) (citext DEV_OWNER_EMAIL));
  existing ← scalar_one_or_none rows;
  match existing with
  | Some _ => mret tt
  | None =>
      owner ← add_user (dev_user DEV_OWNER_EMAIL "Acme Owner" true);
      org ← create_organization "Acme Corporation" owner (Some "acme") suffix;
      _ ← for_each DEV_ROLE_USERS (seed_dev_member org.1);
      _ ← grant org.1 "limit:users" "override" None true (Some "dev seed: one demo user per system role") (Some DEV_SEAT_LIMIT) (Some owner);
      mret tt
  end.

(** ** [synapse-cli seed] *)

Context (c : config) (catalog : result plan_catalog).

(** The session closes without a commit when a step fails. *)
Definition _seed (dev : bool) : M ((nat * nat) * sync_result) :=
  with_session (
    counts ← seed_system;
    catalog ← lift catalog;
    result ← sync_plans catalog;
    _ ← when_ (dev && negb (is_production c)) seed_dev;
    _ ← commit;
    mret (counts, result)).
End Dev.

(** ** [synapse-cli jobs run-once] *)

Definition JOB_NAMES : list string :=
  ["dispatch_outbox"; "deliver_webhooks"; "rollup_usage"; "expire_entitlements"; "advance_recurring_billing"; "ensure_partitions";
   "purge_expired"].

Section Jobs.
(** What the jobs of worker/jobs.py take; [ensure_partitions] is DDL. *)
Context (locked : uuid -> bool) (fault : uuid -> M unit) (exn_str : exn -> string) (consumers : list (string -> jobj -> M unit)).
Context (decrypt_secret : string -> result string) (sign_payload : jobj -> string -> Z -> string).
Context (post : string -> jobj -> string -> M http_outcome) (ensure_partitions : M Z) `{EntitlementReader}.

(** [getattr(job_module, name)]. *)
Definition job (name : string) : M Z :=
  if String.eqb name "dispatch_outbox" then dispatch_outbox locked fault exn_str consumers
  else if String.eqb name "deliver_webhooks" then deliver_webhooks locked decrypt_secret sign_payload post
  else if String.eqb name "rollup_usage" then rollup_usage
  else if String.eqb name "expire_entitlements" then expire_entitlements
  else if String.eqb name "advance_recurring_billing" then advance_recurring_billing locked
  else if String.eqb name "ensure_partitions" then ensure_partitions
  else if String.eqb name "purge_expired" then purge_expired
  else raise (PyError "AttributeError").

(** One job, its failure as its outcome. *)
Definition run_job (name : string) (results : list (string * string)) : M (list (string * string)) :=
  outcome ← try_catch (n ← job name; mret (Z_str n)) (fun e => Some (mret ("error: " +:+ exn_str e)));
  mret (set_field name outcome results).
Definition _run_jobs_once (names : list string) : M (list (string * string)) := for_fold names run_job [].

(** What the command does: a usage error, or a line per job and the exit code. *)
Inductive command_exit : Type :=
  | UsageError (unknown : list string)
  | Exited (lines : list (string * string)) (code : Z).

Definition jobs_run_once (names : list string) (run_all : bool) : M command_exit :=
  let selected := if run_all then JOB_NAMES else names in
  match selected with
  | [] => mret (UsageError [])
  | _ =>
      match filter (.∉ JOB_NAMES) selected with
      | [] =>
          results ← _run_jobs_once selected;
          mret (Exited results (if existsb (fun r => starts_with "error" r.2) results then 1 else 0)%Z)
      | unknown => mret (UsageError unknown)
      end
  end.
End Jobs.

(** ** Jobs on demand *)

Section Reports.
Context (locked : uuid -> bool) (fault : uuid -> M unit) (exn_str : exn -> string) (consumers : list (string -> jobj -> M unit)).
Context (decrypt_secret : string -> result string) (sign_payload : jobj -> string -> Z -> string).
Context (post : string -> jobj -> string -> M http_outcome) (ensure_partitions : M Z) `{EntitlementReader}.
Abbreviation job := (job locked fault exn_str consumers decrypt_secret sign_payload post ensure_partitions).
Abbreviation run_one := (run_job locked fault exn_str consumers decrypt_secret sign_payload post ensure_partitions).
Abbreviation run_once := (jobs_run_once locked fault exn_str consumers decrypt_secret sign_payload post ensure_partitions).

Definition outcome_text (r : result Z) : string := match r with Ok n => Z_str n | Err e => "error: " +:+ exn_str e end.
(** The world after a sequence of jobs, whatever became of each, and their outcomes. *)
Definition after (names : list string) (w : world) : world := foldl (fun w n => (job n w).2) w names.
Fixpoint reports (names : list string) (w : world) : list (string * string) :=
  match names with [] => [] | n :: names => (n, outcome_text (job n w).1) :: reports names (job n w).2 end.

Lemma run_job_run n results w : run_one n results w = (Ok (set_field n (outcome_text (job n w).1) results), (job n w).2).
Proof.
  unfold run_job, mbind, M_bind, try_catch. destruct (job n w) as [[z|e] w'] eqn:E; reflexivity.
Qed.

Lemma reports_names names : forall w, (reports names w).*1 = names.
Proof. induction names as [|n names IH]; intros w; [done|]. cbn. by rewrite IH. Qed.

Lemma run_jobs_run names : forall results w,
  for_fold names run_one results w = (Ok (foldl (fun acc r => set_field r.1 r.2 acc) results (reports names w)), after names w).
Proof.
  induction names as [|n names IH]; intros results w; [done|]. cbn [for_fold]. by rewrite (run_ok _ _ _ _ _ (run_job_run n results w)), IH.
Qed.

Lemma set_field_new k v l : k ∉ l.*1 -> set_field k v l = l ++ [(k, v)].
Proof.
  induction l as [|[k' v'] l IH]; intros Hk; [done|]. apply not_elem_of_cons in Hk as [Hne Hk]. cbn.
  destruct (String.eqb_spec k k'); [done|]. by rewrite IH.
Qed.
Lemma set_fields_new rs : forall l, NoDup (l.*1 ++ rs.*1) -> foldl (fun acc r => set_field r.1 r.2 acc) l rs = l ++ rs.
Proof.
  induction rs as [|[k v] rs IH]; intros l Hn; [by rewrite app_nil_r|]. cbn. apply NoDup_app in Hn as (H1 & H2 & H3).
  rewrite set_field_new by (intros Hin; apply (H2 k Hin); left). rewrite IH, <- app_assoc; [done|].
  rewrite fmap_app. cbn in *. by rewrite <- app_assoc; apply NoDup_app.
Qed.

Lemma number_no_error z : starts_with "error" (Z_str z) = false.
Proof.
  destruct (Z_str_digits z) as [Hd Hne]. destruct (Z_str z) as [|a s]; [done|]. destruct Hd as [Ha _].
  assert (Hn : "e"%char ∉ digit_chars) by (apply (bool_decide_unpack _); vm_compute; exact I).
  unfold starts_with. cbn [String.prefix]. destruct (ascii_dec "e" a) as [E|E]; [by destruct Hn; rewrite E|done].
Qed.

Lemma reports_failed names : forall w, existsb (fun r => starts_with "error" r.2) (reports names w) = true <->
  exists l1 n l2 e, names = l1 ++ n :: l2 /\ (job n (after l1 w)).1 = Err e.
Proof.
  induction names as [|n names IH]; intros w.
  - cbn. split; [done|]. intros ([|] & n & l2 & e & ? & _); discriminate.
  - cbn [reports existsb]. rewrite orb_true_iff, IH. cbn [snd]. split.
    + intros [E|(l1 & n' & l2 & e & -> & E)]; [|by exists (n :: l1), n', l2, e].
      destruct (job n w).1 as [z|e] eqn:Ej; [cbn [outcome_text] in E; by rewrite number_no_error in E|]. by exists [], n, names, e.
    + intros ([|m l1] & n' & l2 & e & [= -> ->] & E); [left|right; by exists l1, n', l2, e]. cbn in E. by rewrite E.
Qed.

(** Jobs run on demand do not hide each other: every named job runs once, in the
    order given and from the world its predecessors leave, whatever became of them;
    the report has one line per job with what it returned or the error it raised, and
    the command fails exactly when a job did.  An unknown name, or none, runs nothing. *)
Theorem jobs_all_reported names (run_all : bool) w : let selected := if run_all then JOB_NAMES else names in
  NoDup names ->
  if bool_decide (selected <> [] /\ Forall (.∈ JOB_NAMES) selected)
  then exists code, run_once names run_all w = (Ok (Exited (reports selected w) code), after selected w) /\
    (code = 0%Z \/ code = 1%Z) /\
    (code = 1%Z <-> exists l1 n l2 e, selected = l1 ++ n :: l2 /\ (job n (after l1 w)).1 = Err e)
  else run_once names run_all w = (Ok (UsageError (filter (.∉ JOB_NAMES) selected)), w).
Proof.
  intros selected Hn. assert (Hs : NoDup selected) by (destruct run_all; [apply (bool_decide_unpack _); vm_compute; exact I|done]).
  unfold jobs_run_once. fold selected. clearbody selected. case_bool_decide as E.
  - destruct E as [Hne Hall].
    assert (Ef : filter (.∉ JOB_NAMES) selected = []) by (apply filter_none; intros n Hin; rewrite Forall_forall in Hall; by intros []; apply Hall).
    destruct selected as [|n l]; [done|]. rewrite Ef. unfold _run_jobs_once. rewrite (run_ok _ _ _ _ _ (run_jobs_run (n :: l) [] w)).
    rewrite set_fields_new by (by rewrite reports_names). eexists. split; [reflexivity|]. rewrite <- reports_failed.
    cbn [app]. destruct (existsb _ _); (split; [by auto|by split]).
  - destruct selected as [|n l]; [done|]. destruct (filter (.∉ JOB_NAMES) (n :: l)) as [|x xs] eqn:Ef; [|done].
    exfalso. apply E. split; [done|]. apply Forall_forall. intros y Hy. apply dec_stable. intros Hout.
    assert (Hin : y ∈ filter (.∉ JOB_NAMES) (n :: l)) by (by apply list_elem_of_filter). rewrite Ef in Hin. by apply elem_of_nil in Hin.
Qed.
End Reports.

(** ** What a seed commits *)

Lemma env_write t m : Stable same_env (write_table t m).
Proof. done. Qed.
Lemma env_read_db : Stable same_env read_db.
Proof. by intros w. Qed.
Lemma env_insert t k r : Stable same_env (insert_new t k r).
Proof. intros w. unfold insert_new, mbind, M_bind, read_table. by destruct (w_db w t !! k). Qed.
Lemma env_for_fold {A S} (l : list A) (f : A -> S -> M S) : (forall x s, Stable same_env (f x s)) -> forall s, Stable same_env (for_fold l f s).
Proof. intros Hf. induction l as [|x l IH]; intros s; cbn [for_fold]; solve_stable. Qed.
#[local] Hint Resolve env_write env_read_db : stable.
#[local] Hint Extern 1 (Stable same_env (insert_new ?t ?k ?r)) => apply (env_insert t k r) : stable.
#[local] Hint Extern 1 (Stable same_env (put ?t ?k ?r)) => apply (env_put t k r) : stable.
#[local] Hint Extern 1 (Stable same_env (del ?t ?k)) => apply (env_del t k) : stable.

Lemma env_seed_system : Stable same_env seed_system.
Proof.
  unfold seed_system, seed_permission, seed_role, find_or_create_role, grant_missing. solve_stable.
Qed.

Lemma env_sync_plans c : Stable same_env (sync_plans c).
Proof.
  assert (Hp : forall e op r, Stable same_env (sync_plan c e op r)).
  { intros e [o p] r. unfold sync_plan, sync_plan_row, _sync_plan_features, _sync_plan_limits. solve_stable. }
  unfold sync_plans. repeat first [apply env_for_fold|stable_step]; unfold sync_feature, sync_metric, archive_plan; solve_stable.
Qed.

Section Env.
Context (sha256 hash_password : string -> string) (email_str : string -> bool) (invite_token : string -> string) (suffix : string).
Context `{EntitlementReader}.

Lemma env_seats org : Stable same_env (_sync_seat_gauge org).
Proof.
  unfold _sync_seat_gauge, count_active_members, Repository.repo_count, _count_pending_invites, set_gauge, _assert_gauge_metric, _metric, _gauge_result.
  solve_stable.
Qed.
#[local] Hint Resolve env_seats : stable.
Lemma env_create_organization name owner slug sfx : Stable same_env (create_organization name owner slug sfx).
Proof.
  unfold create_organization, final_slug, slug_exists, get_by_slug, queue_tuple_sync, tenancy_audit, _bootstrap_subscription, create_subscription, _emit, _bump_cache, load_plan.
  solve_stable.
Qed.
Lemma env_invite token org email role_keys limit name : Stable same_env (invite_member sha256 token org email role_keys limit name).
Proof.
  assert (Ha : forall ks mid m, Stable same_env (attach_roles mid m ks)).
  { induction ks as [|k ks IH]; intros mid m; cbn [attach_roles]; [apply stable_ret, _|]. unfold attach_role. solve_stable. }
  unfold invite_member, count_active_members, Repository.repo_count, _count_pending_invites, tenancy_audit. solve_stable.
Qed.
Lemma env_accept org email : Stable same_env (accept_invite_by_email org email).
Proof.
  unfold accept_invite_by_email, find_pending_invite, _accept, tenancy_audit, invalidate_member, invalidate_user_perms, queue_tuple_sync. solve_stable.
Qed.
Lemma env_grant org f src d en note lim u : Stable same_env (grant org f src d en note lim u).
Proof. unfold grant, _invalidate. solve_stable. Qed.
#[local] Hint Resolve env_create_organization env_invite env_accept env_grant : stable.
Lemma env_seed_dev : Stable same_env (seed_dev sha256 hash_password email_str invite_token suffix).
Proof. unfold seed_dev, _assert_loginable_emails, seed_dev_member, add_user. solve_stable. Qed.
End Env.

Section Deploy.
Context (sha256 hash_password : string -> string) (email_str : string -> bool) (invite_token : string -> string) (suffix : string).
Context `{EntitlementReader} (c : config).
Abbreviation seed_with := (_seed sha256 hash_password email_str invite_token suffix c).

Lemma env_run {A} (m : M A) w r w' : Stable same_env m -> m w = (r, w') -> w_durable w' = w_durable w.
Proof. intros Hm E. pose proof (Hm w) as H'. rewrite E in H'. apply H'. Qed.

Lemma seed_failed catalog dev w e w' : seed_with catalog dev w = (Err e, w') -> w_durable w' = w_durable w /\ w_db w' = w_durable w.
Proof.
  unfold _seed, with_session. case_match eqn:E. intros [= -> <-]. rename w0 into w1.
  assert (Hd : w_durable w1 = w_durable w); [|by split].
  apply bind_err in E as [E|(counts & w2 & E1 & E)]; [by eapply env_run; [apply env_seed_system|]|].
  apply (env_run _ _ _ _ env_seed_system) in E1. rewrite <- E1.
  apply bind_err in E as [E|(cat & w3 & E2 & E)]; [destruct catalog; [done|by injection E as _ <-]|].
  assert (w3 = w2) as -> by (destruct catalog; [by injection E2|done]).
  apply bind_err in E as [E|(result & w4 & E3 & E)]; [by eapply env_run; [apply env_sync_plans|]|].
  apply (env_run _ _ _ _ (env_sync_plans _)) in E3. rewrite <- E3.
  assert (Hw : Stable same_env (when_ (dev && negb (is_production c)) (seed_dev sha256 hash_password email_str invite_token suffix)))
    by (apply stable_when; [apply _|apply env_seed_dev]).
  apply bind_err in E as [E|([] & w5 & E4 & E)]; [by eapply env_run|].
  apply (env_run _ _ _ _ Hw) in E4. rewrite <- E4.
  apply bind_err in E as [E|([] & w6 & E5 & E)]; [|discriminate E].
  unfold commit, flush in E. case_bool_decide; [discriminate E|]. by injection E as _ <-.
Qed.

(** Seeding a deployment is all or nothing: when any step fails nothing is
    committed; over consistent tables and a sound price list it succeeds and commits
    the whole permission catalog with the system roles and the whole price list, and
    in production it adds no demo user whatever it is asked. *)
Theorem seed_all_or_nothing w :
  (forall catalog dev e w', seed_with catalog dev w = (Err e, w') -> w_durable w' = w_durable w /\ w_db w' = w_durable w) /\
  (forall cat dev, seedable w -> syncable cat w -> dev && negb (is_production c) = false -> exists r w',
     seed_with (Ok cat) dev w = (Ok ((21, 5), r), w') /\ w_db w' = w_durable w' /\
     catalog_seeded (w_durable w') /\ up_to_date cat (w_durable w') /\
     forall t, t ∉ seeded_tables -> is_catalog t = false -> w_durable w' t = w_db w t).
Proof.
  split; [intros catalog dev e w'; apply seed_failed|]. intros cat dev Hs Hc Hdev.
  destruct (seed_run w Hs) as (w1 & E1 & Ha & Hs1 & Hseed).
  assert (Hc1 : syncable cat w1).
  { destruct Hc as [C1 C2 C3 C4]. constructor; [done|done|apply Hs1|]. intros i Hi.
    rewrite (ap_others _ _ Ha Tplans) by (apply (bool_decide_unpack _); vm_compute; exact I). apply C4. pose proof (ap_fresh _ _ Ha). lia. }
  destruct (projection_run cat w1 Hc1) as (r & w2 & E2 & _ & Hp & Hnew & _ & Hok & _).
  exists r, (w2 <| w_durable := w_db w2 |>). unfold _seed, with_session. rewrite (run_ok _ _ _ _ _ E1).
  rewrite (run_ok (lift (Ok cat)) _ w1 cat w1) by done. rewrite (run_ok _ _ _ _ _ E2), Hdev.
  rewrite (run_ok (when_ false _) _ w2 tt w2) by done.
  rewrite (run_ok commit _ w2 tt (w2 <| w_durable := w_db w2 |>)) by (unfold commit; by rewrite (flush_run _ Hok)).
  cbn. split_and!; [by destruct w2|done| |by eapply projected_up_to_date|].
  - assert (Er : forall t, is_catalog t = false -> w_db w2 t = w_db w1 t) by apply Hp.
    destruct Hseed as [H1 H2]. split.
    + intros k Hk. unfold has_permission. rewrite Er by reflexivity. by apply H1.
    + intros def Hin. destruct (H2 def Hin) as (i & (ro & Hro & Hi) & Hq). exists i. split.
      * exists ro. by rewrite Er by reflexivity.
      * intros q Hqin. apply Hq, elem_of_permissions_of in Hqin as (p & pm & Hg). apply elem_of_permissions_of. exists p, pm.
        by rewrite !Er by reflexivity.
  - intros t Ht Hcat. rewrite (projected_rest _ _ _ _ Hp) by done. by apply (ap_others _ _ Ha).
Qed.
End Deploy.

(** ** Names of a generated project *)

(** [re.sub(r"[^a-z0-9_]", "_", s)], then [re.sub(r"_+", "_", s)]. *)
Definition is_package_char (a : ascii) : bool := is_lower_alnum a || Ascii.eqb a "_".
Fixpoint map_string (f : ascii -> ascii) (s : string) : string :=
  match s with EmptyString => EmptyString | String a s => String (f a) (map_string f s) end.
Fixpoint squeeze (a : ascii) (s : string) : string :=
  match s with
  | EmptyString => EmptyString
  | String b s =>
      let s := squeeze a s in
      if Ascii.eqb a b && match s with String b' _ => Ascii.eqb a b' | EmptyString => false end then s else String b s
  end.
Definition leads_digit (s : string) : bool := match s with String a _ => is_digit a | EmptyString => false end.
Definition package_name (product : string) : string :=
  let package := map_string (fun a => if is_package_char a then a else "_"%char) (replace_char "-" "_" (lower (strip product))) in
  let package := strip_char "_" (squeeze "_" package) in
  if String.eqb package "" || leads_digit package then "app_" +:+ package else package.

(** [framework_version_spec]: the release as [version.split(".")] gives it. *)
Definition framework_version_spec (version : string) : result string :=
  let parts := take 2 (split_on "." version ++ ["0"; "0"]) in
  let major := default "" (parts !! 0) in let minor := default "" (parts !! 1) in
  let base := major +:+ "." +:+ minor +:+ ".0" in
  match (if String.eqb major "0" then (fun n => major +:+ "." +:+ Z_str (n + 1)) <$> py_int minor else (fun n => Z_str (n + 1)) <$> py_int major) with
  | Some upper => Ok (">=" +:+ base +:+ ",<" +:+ upper)
  | None => Err (PyError "ValueError")
  end.

Example package_names : package_name "my-fitness-app" = "my_fitness_app" /\ package_name " 3D Print! " = "app_3d_print" /\
  package_name "Import" = "import" /\ package_name "--" = "app_".
Proof. split_and!; reflexivity. Qed.
Example version_specs : framework_version_spec "0.2.7" = Ok ">=0.2.0,<0.3" /\ framework_version_spec "1.4" = Ok ">=1.4.0,<2" /\
  framework_version_spec "0.3rc1" = Err (PyError "ValueError").
Proof. split_and!; reflexivity. Qed.

Lemma map_string_Forall (P : ascii -> Prop) f s : (forall a, P (f a)) -> string_Forall P (map_string f s).
Proof. intros Hf. by induction s; cbn. Qed.
Lemma squeeze_Forall (P : ascii -> Prop) a s : string_Forall P s -> string_Forall P (squeeze a s).
Proof.
  induction s as [|b s IH]; intros Hs; [done|]. destruct Hs as [Hb Hs]. cbn [squeeze]. specialize (IH Hs).
  destruct (_ && _); [done|by split].
Qed.

(** The package of a product has an identifier for its name, whatever the product is
    called: lower-case letters, digits and underscores, and no digit first.  Words of
    the language are among them. *)
Theorem package_name_identifier product : let package := package_name product in
  string_Forall (fun a => is_package_char a = true) package /\ package <> "" /\ leads_digit package = false.
Proof.
  unfold package_name. set (p := strip_char "_" _).
  assert (Hp : string_Forall (fun a => is_package_char a = true) p).
  { apply strip_by_Forall, squeeze_Forall, map_string_Forall. intros a. by destruct (is_package_char a) eqn:E. }
  destruct (String.eqb_spec p "") as [->|Hne]; [by split_and!|]. destruct (leads_digit p) eqn:Ed; cbn [orb]; [|done].
  split_and!; [|done|done]. by repeat split.
Qed.

(** ** Witnesses *)

Definition no_post (_ : string) (_ : jobj) (_ : string) : M http_outcome := raise (PyError "ConnectError").
Lemma jobs_all_reported_witness :
  exists code w', jobs_run_once (fun _ => false) (fun _ => mret tt) (fun _ => "no such table") [] Ok (fun _ _ _ => "") no_post
    (raise (PyError "ProgrammingError")) ["ensure_partitions"; "expire_entitlements"] false demo =
      (Ok (Exited [("ensure_partitions", "error: no such table"); ("expire_entitlements", "0")] code), w') /\ code = 1%Z.
Proof.
  pose proof (jobs_all_reported (fun _ => false) (fun _ => mret tt) (fun _ => "no such table") [] Ok (fun _ _ _ => "") no_post
    (raise (PyError "ProgrammingError")) ["ensure_partitions"; "expire_entitlements"] false demo) as H.
  cbv zeta in H. rewrite bool_decide_eq_true_2 in H.
  - destruct H as (code & E & _ & Hc); [apply (bool_decide_unpack _); vm_compute; exact I|]. exists code. eexists. split.
    + etrans; [exact E|]. apply f_equal2; [|reflexivity]. apply f_equal, f_equal2; [|reflexivity]. vm_compute. reflexivity.
    + apply Hc. exists [], "ensure_partitions", ["expire_entitlements"], (PyError "ProgrammingError"). by split.
  - split; [done|]. apply Forall_forall. intros x Hx. apply (bool_decide_unpack _). revert x Hx. apply Forall_forall.
    apply (bool_decide_unpack _); vm_compute; exact I.
Defined.

Lemma demo_seedable : seedable demo.
Proof.
  constructor; [by_compute|by intros i _|]. intros i j r r' Hi. by vm_compute in Hi.
Qed.
Lemma seed_all_or_nothing_witness : exists r w',
  _seed hash (fun p => p) (fun _ => true) (fun _ => "t0ken") "a1b2" default_config (Ok price_list) false demo = (Ok ((21, 5), r), w') /\
  catalog_seeded (w_durable w').
Proof.
  destruct (seed_all_or_nothing hash (fun p => p) (fun _ => true) (fun _ => "t0ken") "a1b2" default_config demo) as [_ H].
  destruct (H price_list false demo_seedable price_list_syncable eq_refl) as (r & w' & E & _ & Hs & _). exists r, w'. split; [exact E|exact Hs].
Defined.

(** The demo organization: five active members, one per system role, each with the
    permissions of its role. *)
Definition users_list : plan_catalog :=
  PlanCatalog 1 (CatalogDefaults "PHP" "month" 0 (Some 80%Z)) [] [MetricDefinition "users" "Users" "gauge" None None None]
    [PlanDefinition "free" "Free" None (Some 0%Z) None None None true false None 0 [] [("users", Some 3%Z)] []].
Definition dev_run : result ((nat * nat) * sync_result) * world :=
  _seed hash (fun p => p) (fun _ => true) (fun _ => "t0ken") "a1b2" default_config (Ok users_list) true demo.
Example dev_seeded : forallb (fun r : string =>
    existsb (fun kr : key Tmemberships * membership =>
        String.eqb (mb_status kr.2) "active" && bool_decide (mb_permission_keys kr.2 = system_role_permissions r))
      (rows_where Tmemberships (fun _ _ => true) (w_durable dev_run.2 Tmemberships))) (SYSTEM_ROLES.*1.*1) = true /\
  length (rows_where Tmemberships (fun _ _ => true) (w_durable dev_run.2 Tmemberships)) = 5.
Proof. split; vm_compute; reflexivity. Qed.

(** Where the demo owner exists the development seed does nothing. *)
Lemma seed_dev_once sha256 hash_password email_str invite_token suffix `{EntitlementReader} w i (u : user) :
  forallb (fun u => email_str u.1) DEV_ROLE_USERS = true ->
  rows_where Tusers (fun _ (u : user) => String.eqb (citext (u_email u)) (citext DEV_OWNER_EMAIL)) (w_db w Tusers) = [(i, u)] ->
  seed_dev sha256 hash_password email_str invite_token suffix w = (Ok tt, w).
Proof.
  intros He Hu. unfold seed_dev, _assert_loginable_emails. rewrite He. run. by rewrite Hu.
Qed.
