(* ===== verification/Client.v ===== *)
(** The routing of the API and its Python client (api/v1.py, the routers'
    decorators, src/sdk/python/synapse_saas_client).

    [Router] is what the routing promises: a request goes to the first registered route
    whose method and template match it.  A call of the client is the HTTP request it
    makes and how it reads the answer. *)

From Stdlib Require Import Ascii.
From S2P Require Import Prelude Text Json Errors Events Tables Store Dynamic Cache Session Fixtures.
From S2P Require Import Keycloak Http.

(** ** Routes *)

Record route : Type := Route {
  rt_method : string;
  rt_template : string;
  rt_handler : string
}.

(** [APIRouter(prefix=...)]. *)
Definition under (prefix : string) (routes : list (string * string * string)) : list route :=
  (fun r => Route r.1.1 (prefix +:+ r.1.2) r.2) <$> routes.

Definition identity_router : list route := under "/auth"
  [("POST", "/register", "register"); ("POST", "/login", "login"); ("POST", "/refresh", "refresh");
   ("GET", "/oidc/start", "oidc_start"); ("GET", "/oidc/callback", "oidc_callback"); ("POST", "/logout", "logout");
   ("GET", "/me", "me"); ("PATCH", "/me", "update_me"); ("POST", "/switch-org", "switch_org");
   ("GET", "/invite", "preview_invite"); ("POST", "/accept-invite", "accept_invite");
   ("POST", "/forgot-password", "forgot_password"); ("POST", "/reset-password", "reset_password")].
Definition tenancy_router : list route := under ""
  [("GET", "/orgs", "list_my_orgs"); ("POST", "/orgs", "create_organization"); ("GET", "/orgs/current", "get_current_org");
   ("PATCH", "/orgs/current", "update_current_org"); ("GET", "/orgs/current/members", "list_members");
   ("POST", "/orgs/current/members/invite", "invite_member"); ("PATCH", "/memberships/{membership_id}", "update_membership");
   ("DELETE", "/memberships/{membership_id}", "remove_member"); ("POST", "/orgs/{org_id}/suspend", "suspend_org");
   ("DELETE", "/orgs/{org_id}/suspend", "unsuspend_org")].
Definition authorization_router : list route := under ""
  [("GET", "/roles", "list_roles"); ("POST", "/roles", "create_role"); ("PATCH", "/roles/{role_id}", "update_role");
   ("DELETE", "/roles/{role_id}", "delete_role"); ("GET", "/permissions", "list_permissions")].
Definition subscriptions_router : list route := under ""
  [("GET", "/plans", "list_plans"); ("GET", "/subscription", "current_subscription");
   ("POST", "/subscription/trial", "start_trial"); ("POST", "/subscription/change", "change_plan");
   ("POST", "/subscription/cancel", "cancel_subscription"); ("POST", "/subscription/resume", "resume_subscription")].
Definition entitlements_router : list route := under "" [("GET", "/entitlements", "effective_entitlements")].
Definition entitlements_admin_router : list route := under "/admin/orgs/{org_id}/entitlements"
  [("GET", "", "admin_effective_entitlements"); ("POST", "/grants", "admin_grant_entitlement");
   ("DELETE", "/grants/{grant_id}", "admin_revoke_entitlement")].
Definition usage_router : list route := under "/usage"
  [("POST", "/events", "record_events"); ("POST", "/consume", "consume"); ("POST", "/consume-batch", "consume_batch");
   ("POST", "/gauge", "set_gauge"); ("GET", "/check", "check_usage"); ("GET", "/summary", "usage_summary")].
Definition billing_router : list route := under "/billing"
  [("POST", "/checkout", "start_checkout"); ("POST", "/checkout/confirm", "confirm_checkout");
   ("GET", "/portal-url", "portal_url"); ("GET", "/invoices", "list_invoices"); ("GET", "/spend-summary", "spend_summary");
   ("GET", "/spend-monthly", "spend_monthly"); ("GET", "/admin/revenue-summary", "revenue_summary");
   ("GET", "/admin/revenue-monthly", "revenue_monthly"); ("POST", "/invoices/draft", "draft_invoice");
   ("POST", "/invoices/{invoice_id}/finalize", "finalize_invoice");
   ("POST", "/admin/invoices/{invoice_id}/pay", "admin_record_payment");
   ("POST", "/admin/invoices/{invoice_id}/void", "admin_void_invoice");
   ("GET", "/invoices/{invoice_id}/pdf", "download_invoice_pdf"); ("GET", "/invoices/{invoice_id}", "get_invoice_detail");
   ("POST", "/webhooks/{provider}", "billing_webhook")].
Definition webhooks_router : list route := under "/webhooks"
  [("GET", "/endpoints", "list_endpoints"); ("POST", "/endpoints", "create_endpoint");
   ("DELETE", "/endpoints/{endpoint_id}", "delete_endpoint"); ("GET", "/deliveries", "list_deliveries");
   ("POST", "/deliveries/{delivery_id}/retry", "retry_delivery")].
Definition storage_router : list route := under "/files"
  [("GET", "", "list_files"); ("POST", "", "upload_file"); ("POST", "/presign-upload", "presign_upload");
   ("POST", "/{file_id}/complete", "complete_upload"); ("GET", "/{file_id}", "download_file");
   ("POST", "/{file_id}/presign", "presign_download"); ("DELETE", "/{file_id}", "delete_file")].
Definition feature_flags_router : list route := under "/feature-flags"
  [("GET", "", "list_flags"); ("POST", "", "create_flag"); ("PATCH", "/{key}", "update_flag");
   ("GET", "/{key}/overrides", "list_overrides"); ("POST", "/{key}/overrides", "set_override");
   ("DELETE", "/overrides/{override_id}", "delete_override"); ("GET", "/check/{key}", "check_flag")].
Definition api_keys_router : list route := under "/api-keys"
  [("GET", "", "list_keys"); ("POST", "", "create_key"); ("DELETE", "/{key_id}", "revoke_key")].
Definition audit_router : list route := under "/audit" [("GET", "", "list_audit")].
Definition agents_router : list route := under "/agents"
  [("GET", "", "list_agents"); ("POST", "", "create_agent"); ("GET", "/{agent_id}", "get_agent");
   ("PATCH", "/{agent_id}", "update_agent"); ("POST", "/{agent_id}/disable", "disable_agent");
   ("POST", "/{agent_id}/enable", "enable_agent"); ("DELETE", "/{agent_id}", "delete_agent")].
Definition branding_router : list route := under "/branding"
  [("GET", "", "read_branding"); ("GET", "/assets/{name}", "read_branding_asset")].

(** [create_app] registers its own routes first, then [api_v1] in order. *)
Definition health_routes : list route :=
  [Route "GET" "/healthz" "healthz"; Route "GET" "/readyz" "readyz"; Route "GET" "/metrics" "prometheus_metrics";
   Route "GET" "/v1/meta" "meta"].
Definition api_v1 : list route :=
  (fun r => Route (rt_method r) ("/v1" +:+ rt_template r) (rt_handler r)) <$>
  (identity_router ++ tenancy_router ++ authorization_router ++ subscriptions_router ++ entitlements_router ++
   entitlements_admin_router ++ usage_router ++ billing_router ++ webhooks_router ++ storage_router ++ feature_flags_router ++
   api_keys_router ++ audit_router ++ agents_router ++ branding_router).
Definition app_routes : list route := health_routes ++ api_v1.

(** A parameter stands for one segment that is not empty. *)
Definition is_param (segment : string) : bool := starts_with "{" segment.
Fixpoint match_segments (template path : list string) : option (list string) :=
  match template, path with
  | [], [] => Some []
  | t :: template, s :: path =>
      if is_param t then if String.eqb s "" then None else cons s <$> match_segments template path
      else if String.eqb t s then match_segments template path else None
  | _, _ => None
  end.
Definition match_path (template path : string) : option (list string) :=
  match_segments (split_on "/" template) (split_on "/" path).

Inductive resolution : Type :=
  | Found (handler : string) (params : list string)
  | MethodNotAllowed
  | NoRoute.

(** Routing is the framework's: what its documentation says of the order of routes. *)
Class Router (routes : list route) : Type := {
  resolve : string -> string -> resolution;
  resolve_first l1 r l2 path ps : routes = l1 ++ r :: l2 -> match_path (rt_template r) path = Some ps ->
    (forall r', r' ∈ l1 -> rt_method r' = rt_method r -> match_path (rt_template r') path = None) ->
    resolve (rt_method r) path = Found (rt_handler r) ps
}.

(** A router: it looks through the routes in order, and answers 405 to a path of other methods. *)
Fixpoint resolve_in (routes : list route) (partial : bool) (method path : string) : resolution :=
  match routes with
  | [] => if partial then MethodNotAllowed else NoRoute
  | r :: routes =>
      match match_path (rt_template r) path with
      | Some params =>
          if String.eqb (rt_method r) method then Found (rt_handler r) params else resolve_in routes true method path
      | None => resolve_in routes partial method path
      end
  end.

Lemma resolve_in_first r l2 path ps : match_path (rt_template r) path = Some ps -> forall l1 b,
  (forall r', r' ∈ l1 -> rt_method r' = rt_method r -> match_path (rt_template r') path = None) ->
  resolve_in (l1 ++ r :: l2) b (rt_method r) path = Found (rt_handler r) ps.
Proof.
  intros Hm l1. induction l1 as [|x l1 IH]; intros b Hn; cbn [app resolve_in]; [by rewrite Hm, String.eqb_refl|].
  assert (Hx := Hn x ltac:(left)). destruct (match_path (rt_template x) path).
  - destruct (String.eqb_spec (rt_method x) (rt_method r)) as [E|]; [by specialize (Hx E)|]. apply IH. intros r' ?. apply Hn. by right.
  - apply IH. intros r' ?. apply Hn. by right.
Qed.

Definition in_order (routes : list route) : Router routes :=
  {| resolve := resolve_in routes false;
     resolve_first l1 r l2 path ps E Hm Hn :=
       eq_ind_r (fun rs => resolve_in rs false (rt_method r) path = Found (rt_handler r) ps)
         (resolve_in_first r l2 path ps Hm l1 false Hn) E |}.

(** ** The client's requests *)

(** How an answer is read: [_handle], [_page] or [_handle_bytes]; [Dropped] where the
    method has no [return] before its [_call]. *)
Inductive reading : Type := Whole | Paged | Bytes | Dropped.
#[export] Instance reading_eq_dec : EqDecision reading.
Proof. solve_decision. Defined.
Record http_call : Type := HttpCall {
  hc_method : string;
  hc_path : string;
  hc_params : jobj;
  hc_json : option jobj;
  hc_reading : reading
}.
Definition _call (method path : string) : http_call := HttpCall method path [] None Whole.
Definition _call_json (method path : string) (payload : jobj) : http_call := HttpCall method path [] (Some payload) Whole.
Definition _call_params (method path : string) (params : jobj) : http_call := HttpCall method path params None Whole.
Definition _page (method path : string) (params : jobj) : http_call := HttpCall method path params None Paged.
Definition _bytes (method path : string) : http_call := HttpCall method path [] None Bytes.
(** A [_call] as a statement. *)
Definition dropped (c : http_call) : http_call := HttpCall (hc_method c) (hc_path c) (hc_params c) (hc_json c) Dropped.
(** Whether a call sends its request: on an asynchronous client [_call] returns a
    coroutine, and one that is dropped is never run. *)
Definition sent (is_async : bool) (c : http_call) : bool := negb (is_async && bool_decide (hc_reading c = Dropped)).

(** [if x is not None: payload[k] = x]. *)
Definition given (k : string) (v : option json) : jobj := match v with Some v => [(k, v)] | None => [] end.
Definition texts (l : list string) : json := JList (JStr <$> l).
(** [x or default]. *)
Definition or_list (l : option (list string)) (e : list string) : list string :=
  match l with Some (x :: l) => x :: l | _ => e end.
Definition or_obj (o : option jobj) : jobj := default [] o.

Definition _paging (limit offset : option Z) (extra : list (string * option json)) : jobj :=
  mjoin ((fun e => given e.1 e.2) <$> extra) ++ given "limit" (JInt <$> limit) ++ given "offset" (JInt <$> offset).

Definition client_meta : http_call := _call "GET" "/v1/meta".

Definition auth_me : http_call := _call "GET" "/v1/auth/me".
Definition auth_update_me (preferences : option jobj) : http_call :=
  _call_json "PATCH" "/v1/auth/me" (given "preferences" (JObj <$> preferences)).
Definition auth_register (email password display_name : string) : http_call :=
  _call_json "POST" "/v1/auth/register" [("email", JStr email); ("password", JStr password); ("display_name", JStr display_name)].
Definition auth_login (email password : string) : http_call :=
  _call_json "POST" "/v1/auth/login" [("email", JStr email); ("password", JStr password)].
Definition auth_refresh (refresh_token : string) : http_call :=
  _call_json "POST" "/v1/auth/refresh" [("refresh_token", JStr refresh_token)].
Definition auth_logout : http_call := dropped (_call "POST" "/v1/auth/logout").
Definition auth_forgot_password (email : string) : http_call := dropped (_call_json "POST" "/v1/auth/forgot-password" [("email", JStr email)]).
Definition auth_reset_password (token password : string) : http_call :=
  _call_json "POST" "/v1/auth/reset-password" [("token", JStr token); ("password", JStr password)].
Definition auth_accept_invite (token : string) : http_call := _call_json "POST" "/v1/auth/accept-invite" [("token", JStr token)].
Definition auth_preview_invite (token : string) : http_call := _call_params "GET" "/v1/auth/invite" [("token", JStr token)].
Definition auth_switch_org (organization_id : string) : http_call :=
  _call_json "POST" "/v1/auth/switch-org" [("organization_id", JStr organization_id)].

Definition orgs_list : http_call := _call "GET" "/v1/orgs".
Definition orgs_create (name : string) (slug : option string) : http_call :=
  _call_json "POST" "/v1/orgs" [("name", JStr name); ("slug", jopt JStr slug)].
Definition orgs_current : http_call := _call "GET" "/v1/orgs/current".
Definition orgs_update (name : option string) (settings : option jobj) : http_call :=
  _call_json "PATCH" "/v1/orgs/current" (given "name" (JStr <$> name) ++ given "settings" (JObj <$> settings)).

Definition members_list : http_call := _call "GET" "/v1/orgs/current/members".
Definition members_update (membership_id : string) (role_keys : option (list string)) (status : option string) : http_call :=
  _call_json "PATCH" ("/v1/memberships/" +:+ membership_id)
    (given "role_keys" (texts <$> role_keys) ++ given "status" (JStr <$> status)).
Definition members_invite (email : string) (role_keys : option (list string)) : http_call :=
  _call_json "POST" "/v1/orgs/current/members/invite" [("email", JStr email); ("role_keys", texts (or_list role_keys ["member"]))].
Definition members_remove (membership_id : string) : http_call := dropped (_call "DELETE" ("/v1/memberships/" +:+ membership_id)).

Definition subscription_current : http_call := _call "GET" "/v1/subscription".
Definition subscription_plans : http_call := _call "GET" "/v1/plans".
Definition subscription_change (plan_key : string) : http_call :=
  _call_json "POST" "/v1/subscription/change" [("plan_key", JStr plan_key)].
Definition subscription_start_trial (plan_key : string) : http_call :=
  _call_json "POST" "/v1/subscription/trial" [("plan_key", JStr plan_key)].
Definition subscription_cancel (at_period_end : bool) : http_call :=
  _call_json "POST" "/v1/subscription/cancel" [("at_period_end", JBool at_period_end)].
Definition subscription_resume : http_call := _call "POST" "/v1/subscription/resume".
Definition subscription_plans_page (limit offset : option Z) : http_call := _page "GET" "/v1/plans" (_paging limit offset []).

Definition usage_summary_call (period : option string) : http_call :=
  _call_params "GET" "/v1/usage/summary" (if truthy_str period then [("period", jopt JStr period)] else []).
Definition usage_check (metric : string) (quantity : Z) : http_call :=
  _call_params "GET" "/v1/usage/check" [("metric", JStr metric); ("quantity", JInt quantity)].
Definition usage_consume (metric : string) (quantity : Z) (idempotency_key : option string) : http_call :=
  _call_json "POST" "/v1/usage/consume"
    [("events", JList [JObj ([("metric", JStr metric); ("quantity", JInt quantity)] ++
                             given "idempotency_key" (JStr <$> idempotency_key))])].
Definition usage_consume_batch (events : list jobj) : http_call :=
  _call_json "POST" "/v1/usage/consume-batch" [("events", JList (JObj <$> events))].
Definition usage_record (events : list jobj) : http_call :=
  _call_json "POST" "/v1/usage/events" [("events", JList (JObj <$> events))].
Definition usage_set_gauge (metric : string) (value : Z) : http_call :=
  _call_json "POST" "/v1/usage/gauge" [("metric", JStr metric); ("value", JInt value)].
Definition usage_adjust_gauge (metric : string) (delta : Z) : http_call :=
  _call_json "POST" "/v1/usage/gauge" [("metric", JStr metric); ("delta", JInt delta)].

Definition entitlements_effective : http_call := _call "GET" "/v1/entitlements".
Definition entitlements_grant (organization_id feature_key source : string) (duration_days limit_value : option Z) : http_call :=
  _call_json "POST" ("/v1/admin/orgs/" +:+ organization_id +:+ "/entitlements/grants")
    ([("feature_key", JStr feature_key); ("source", JStr source)] ++ given "duration_days" (JInt <$> duration_days) ++
     given "limit_value" (JInt <$> limit_value)).

Definition api_keys_list : http_call := _call "GET" "/v1/api-keys".
Definition api_keys_create (name : string) (scopes : option (list string)) (expires_in_days : option Z) : http_call :=
  _call_json "POST" "/v1/api-keys"
    ([("name", JStr name); ("scopes", texts (or_list scopes []))] ++ given "expires_in_days" (JInt <$> expires_in_days)).
Definition api_keys_revoke (key_id : string) : http_call := dropped (_call "DELETE" ("/v1/api-keys/" +:+ key_id)).

Definition roles_list : http_call := _call "GET" "/v1/roles".
Definition roles_permissions : http_call := _call "GET" "/v1/permissions".
Definition roles_create (k name : string) (permissions : list string) (description : option string) : http_call :=
  _call_json "POST" "/v1/roles"
    ([("key", JStr k); ("name", JStr name); ("permissions", texts permissions)] ++ given "description" (JStr <$> description)).
Definition roles_update (role_id : string) (name description : option string) (permissions : option (list string)) : http_call :=
  _call_json "PATCH" ("/v1/roles/" +:+ role_id)
    (given "name" (JStr <$> name) ++ given "description" (JStr <$> description) ++ given "permissions" (texts <$> permissions)).
Definition roles_delete (role_id : string) : http_call := dropped (_call "DELETE" ("/v1/roles/" +:+ role_id)).

Definition billing_checkout (plan_key : string) : http_call := _call_json "POST" "/v1/billing/checkout" [("plan_key", JStr plan_key)].
Definition billing_confirm_checkout (plan_key : string) : http_call :=
  _call_json "POST" "/v1/billing/checkout/confirm" [("plan_key", JStr plan_key)].
Definition billing_portal_url : http_call := _call "GET" "/v1/billing/portal-url".
Definition billing_spend_summary : http_call := _call "GET" "/v1/billing/spend-summary".
Definition billing_spend_monthly : http_call := _call "GET" "/v1/billing/spend-monthly".

Definition invoices_list (limit offset : option Z) : http_call := _call_params "GET" "/v1/billing/invoices" (_paging limit offset []).
Definition invoices_list_page (limit offset : option Z) : http_call := _page "GET" "/v1/billing/invoices" (_paging limit offset []).
Definition invoices_get (invoice_id : string) : http_call := _call "GET" ("/v1/billing/invoices/" +:+ invoice_id).
Definition invoices_pdf (invoice_id : string) : http_call := _bytes "GET" ("/v1/billing/invoices/" +:+ invoice_id +:+ "/pdf").
Definition invoices_draft (period : option string) : http_call :=
  _call_json "POST" "/v1/billing/invoices/draft" (if truthy_str period then [("period", jopt JStr period)] else []).
Definition invoices_finalize (invoice_id : string) : http_call := _call "POST" ("/v1/billing/invoices/" +:+ invoice_id +:+ "/finalize").

Definition webhooks_list_endpoints (limit offset : option Z) : http_call :=
  _call_params "GET" "/v1/webhooks/endpoints" (_paging limit offset []).
Definition webhooks_create_endpoint (url : string) (events : option (list string)) (description : option string) : http_call :=
  _call_json "POST" "/v1/webhooks/endpoints"
    ([("url", JStr url); ("events", texts (or_list events []))] ++ given "description" (JStr <$> description)).
Definition webhooks_delete_endpoint (endpoint_id : string) : http_call := dropped (_call "DELETE" ("/v1/webhooks/endpoints/" +:+ endpoint_id)).
Definition webhooks_list_deliveries (endpoint_id : option string) (limit offset : option Z) : http_call :=
  _call_params "GET" "/v1/webhooks/deliveries" (_paging limit offset [("endpoint_id", JStr <$> endpoint_id)]).
Definition webhooks_retry_delivery (delivery_id : string) : http_call :=
  _call "POST" ("/v1/webhooks/deliveries/" +:+ delivery_id +:+ "/retry").

Definition files_list (limit offset : option Z) : http_call := _call_params "GET" "/v1/files" (_paging limit offset []).
Definition files_list_page (limit offset : option Z) : http_call := _page "GET" "/v1/files" (_paging limit offset []).
(** The multipart body is the HTTP client's. *)
Definition files_upload : http_call := _call "POST" "/v1/files".
Definition files_download (file_id : string) : http_call := _bytes "GET" ("/v1/files/" +:+ file_id).
Definition files_presign_download (file_id : string) : http_call := _call "POST" ("/v1/files/" +:+ file_id +:+ "/presign").
Definition files_presign_upload (name : string) (size_bytes : Z) (content_type : string) : http_call :=
  _call_json "POST" "/v1/files/presign-upload"
    [("name", JStr name); ("size_bytes", JInt size_bytes); ("content_type", JStr content_type)].
Definition files_complete (file_id : string) : http_call := _call "POST" ("/v1/files/" +:+ file_id +:+ "/complete").
Definition files_delete (file_id : string) : http_call := dropped (_call "DELETE" ("/v1/files/" +:+ file_id)).

Definition flags_check (k : string) : http_call := _call "GET" ("/v1/feature-flags/check/" +:+ k).
Definition flags_list (limit offset : option Z) : http_call := _call_params "GET" "/v1/feature-flags" (_paging limit offset []).
Definition flags_create (k name : string) (description : option string) (enabled : bool) (rollout_percentage : option Z) : http_call :=
  _call_json "POST" "/v1/feature-flags"
    ([("key", JStr k); ("name", JStr name); ("enabled", JBool enabled)] ++ given "description" (JStr <$> description) ++
     given "rollout_percentage" (JInt <$> rollout_percentage)).
Definition flags_update (k : string) (enabled : option bool) (rollout_percentage : option Z) : http_call :=
  _call_json "PATCH" ("/v1/feature-flags/" +:+ k)
    (given "enabled" (JBool <$> enabled) ++ given "rollout_percentage" (JInt <$> rollout_percentage)).
Definition flags_list_overrides (k : string) : http_call := _call "GET" ("/v1/feature-flags/" +:+ k +:+ "/overrides").
Definition flags_set_override (k : string) (enabled : bool) (organization_id user_id note : option string) : http_call :=
  _call_json "POST" ("/v1/feature-flags/" +:+ k +:+ "/overrides")
    ([("enabled", JBool enabled)] ++ given "organization_id" (JStr <$> organization_id) ++ given "user_id" (JStr <$> user_id) ++
     given "note" (JStr <$> note)).
Definition flags_delete_override (override_id : string) : http_call := dropped (_call "DELETE" ("/v1/feature-flags/overrides/" +:+ override_id)).

Definition agents_list (limit offset : option Z) : http_call := _call_params "GET" "/v1/agents" (_paging limit offset []).
Definition agents_create (slug name : string) (description : option string) (config : option jobj) : http_call :=
  _call_json "POST" "/v1/agents"
    ([("slug", JStr slug); ("name", JStr name); ("config", JObj (or_obj config))] ++ given "description" (JStr <$> description)).
Definition agents_get (agent_id : string) : http_call := _call "GET" ("/v1/agents/" +:+ agent_id).
Definition agents_update (agent_id : string) (name description : option string) (config : option jobj) : http_call :=
  _call_json "PATCH" ("/v1/agents/" +:+ agent_id)
    (given "name" (JStr <$> name) ++ given "description" (JStr <$> description) ++ given "config" (JObj <$> config)).
Definition agents_delete (agent_id : string) : http_call := dropped (_call "DELETE" ("/v1/agents/" +:+ agent_id)).
Definition agents_enable (agent_id : string) : http_call := _call "POST" ("/v1/agents/" +:+ agent_id +:+ "/enable").
Definition agents_disable (agent_id : string) : http_call := _call "POST" ("/v1/agents/" +:+ agent_id +:+ "/disable").

Definition audit_list (limit offset : option Z) (filters : list (string * option json)) : http_call :=
  _call_params "GET" "/v1/audit" (_paging limit offset filters).

Definition admin_entitlements (organization_id : string) : http_call :=
  _call "GET" ("/v1/admin/orgs/" +:+ organization_id +:+ "/entitlements").
Definition admin_grant (organization_id : string) (body : jobj) : http_call :=
  _call_json "POST" ("/v1/admin/orgs/" +:+ organization_id +:+ "/entitlements/grants") body.
Definition admin_revoke_grant (organization_id grant_id : string) : http_call :=
  dropped (_call "DELETE" ("/v1/admin/orgs/" +:+ organization_id +:+ "/entitlements/grants/" +:+ grant_id)).
Definition admin_pay_invoice (invoice_id : string) (amount_cents : Z) (reference : option string) : http_call :=
  _call_json "POST" ("/v1/billing/admin/invoices/" +:+ invoice_id +:+ "/pay")
    ([("amount_cents", JInt amount_cents)] ++ given "reference" (JStr <$> reference)).
Definition admin_void_invoice (invoice_id : string) : http_call := _call "POST" ("/v1/billing/admin/invoices/" +:+ invoice_id +:+ "/void").
Definition admin_revenue_summary : http_call := _call "GET" "/v1/billing/admin/revenue-summary".
Definition admin_revenue_monthly : http_call := _call "GET" "/v1/billing/admin/revenue-monthly".
Definition admin_suspend_org (organization_id : string) : http_call := dropped (_call "POST" ("/v1/orgs/" +:+ organization_id +:+ "/suspend")).
Definition admin_unsuspend_org (organization_id : string) : http_call := dropped (_call "DELETE" ("/v1/orgs/" +:+ organization_id +:+ "/suspend")).

(** The headers of every request of a client; without a credential it is refused. *)
Definition client_headers (api_key access_token org_id : option string) : result (list (string * string)) :=
  let bearer t := ("Authorization", "Bearer " +:+ t) in
  let org := if truthy_str org_id then [("X-Org-Id", or_str org_id "")] else [] in
  if truthy_str api_key then Ok (bearer (or_str api_key "") :: org)
  else if truthy_str access_token then Ok (bearer (or_str access_token "") :: org)
  else Err (PyError "ValueError").

(** *** Answers *)

Inductive error_kind : Type :=
  | SynapseError
  | SynapseAuthError
  | SynapseNotFoundError
  | SynapseFeatureGatedError
  | SynapseLimitError.
Record client_error : Type := ClientError {
  ce_kind : error_kind;
  ce_status : Z;
  ce_body : jobj
}.
Definition error_for (status : Z) (body : jobj) : client_error :=
  ClientError
    (if (status =? 401)%Z then SynapseAuthError
     else if (status =? 404)%Z then SynapseNotFoundError
     else if (status =? 402)%Z then SynapseLimitError
     else if (status =? 403)%Z && bool_decide (is_Some (jget "feature" body)) then SynapseFeatureGatedError
     else SynapseError) status body.
(** [str] of the exception. *)
Definition error_text (repr : json -> string) (e : client_error) : string :=
  py_str repr (jor (default JNull (jget "detail" (ce_body e)))
    (jor (default JNull (jget "title" (ce_body e))) (JStr ("API error " +:+ Z_str (ce_status e))))).

Inductive client_outcome : Type :=
  | Answered (body : option json)
  | Refused (e : client_error)
  | Crashed (e : exn).

Definition succeeded (status : Z) : bool := ((200 <=? status) && (status <=? 299))%Z.
Definition _handle (r : response) : client_outcome :=
  if (rs_status r =? 204)%Z then Answered None
  else if succeeded (rs_status r) then Answered (Some (rs_body r))
  else match rs_body r with
       | JObj body => Refused (error_for (rs_status r) body)
       | _ => Crashed (PyError "AttributeError")
       end.

(** ** Which handler answers *)

Fixpoint fill (template params : list string) : list string :=
  match template with
  | [] => []
  | t :: template =>
      if is_param t then match params with p :: params => p :: fill template params | [] => [] end
      else t :: fill template params
  end.
Definition segments (r : route) : list string := split_on "/" (rt_template r).
Definition arity (r : route) : nat := length (filter (fun t => is_param t = true) (segments r)).
Definition url (r : route) (params : list string) : string := join "/" (fill (segments r) params).

(** A parameter that stays one segment of a path. *)
Definition one_segment (p : string) : Prop := p <> "" /\ string_Forall (.≠ "/"%char) p.

(** One the HTTP client also sends as it is: of the characters RFC 3986 leaves
    unreserved, which are never encoded, and not a dot segment, which its parsing of
    the URL removes.  Identifiers and the keys the schemas admit are such texts. *)
Definition unreserved (a : ascii) : bool :=
  let n := nat_of_ascii a in
  Nat.leb 65 n && Nat.leb n 90 || Nat.leb 97 n && Nat.leb n 122 || Nat.leb 48 n && Nat.leb n 57 ||
  Ascii.eqb a "-" || Ascii.eqb a "." || Ascii.eqb a "_" || Ascii.eqb a "~".
Definition plain_segment (p : string) : Prop :=
  p <> "" /\ p <> "." /\ p <> ".." /\ string_Forall (fun a => unreserved a = true) p.

Lemma plain_one p : plain_segment p -> one_segment p.
Proof.
  intros (Hne & _ & _ & Hp). split; [done|]. clear Hne. induction p as [|a p IH]; [done|]. destruct Hp as [Ha Hp].
  split; [by intros ->|by apply IH].
Qed.

(** Some path fits both templates. *)
Fixpoint overlap (t t' : list string) : bool :=
  match t, t' with
  | [], [] => true
  | s :: t, s' :: t' => (is_param s || is_param s' || String.eqb s s') && overlap t t'
  | _, _ => false
  end.
Definition shadows (r' r : route) : bool := String.eqb (rt_method r') (rt_method r) && overlap (segments r') (segments r).
Fixpoint shadowed (before routes : list route) : list (string * string) :=
  match routes with
  | [] => []
  | r :: routes => ((fun r' => (rt_handler r', rt_handler r)) <$> filter (fun r' => shadows r' r = true) before) ++
                   shadowed (before ++ [r]) routes
  end.

Lemma shadowed_routes : shadowed [] app_routes = [("list_overrides", "check_flag")].
Proof. vm_compute. reflexivity. Qed.

Lemma split_on_clean c s : Forall (string_Forall (.≠ c)) (split_on c s).
Proof.
  induction s as [|a s IH]; [by repeat constructor|]. cbn [split_on]. destruct (Ascii.eqb_spec a c) as [|Ha]; [by constructor|].
  destruct (split_on_cons c s) as (x & xs & E). rewrite E in IH |- *. apply Forall_cons in IH as [Hx Hxs]. by repeat constructor.
Qed.

Lemma fill_clean t ps : Forall (string_Forall (.≠ "/"%char)) t -> Forall one_segment ps ->
  Forall (string_Forall (.≠ "/"%char)) (fill t ps).
Proof.
  intros Ht. revert ps. induction Ht as [|s t Hs Ht IH]; intros ps Hp; [constructor|]. cbn [fill]. destruct (is_param s); [|auto].
  destruct Hp as [|p ps [_ Hp] Hps]; auto.
Qed.

Lemma match_fill t ps : Forall one_segment ps -> length ps = length (filter (fun s => is_param s = true) t) ->
  match_segments t (fill t ps) = Some ps.
Proof.
  revert ps. induction t as [|s t IH]; intros ps Hp Hl; [by destruct ps|]. cbn [fill match_segments].
  destruct (is_param s) eqn:Es.
  - rewrite filter_cons_True in Hl by done. destruct Hp as [|p ps [Hp _] Hps]; [done|]. cbn [match_segments]. rewrite ?Es.
    injection Hl as Hl. destruct (String.eqb_spec p ""); [done|]. by rewrite IH.
  - rewrite filter_cons_False in Hl by (by rewrite Es). cbn [match_segments]. rewrite ?Es, String.eqb_refl. by apply IH.
Qed.

Lemma match_overlap t' t ps qs : Forall one_segment ps -> length ps = length (filter (fun s => is_param s = true) t) ->
  match_segments t' (fill t ps) = Some qs -> overlap t' t = true.
Proof.
  revert t ps qs. induction t' as [|s' t' IH]; intros t ps qs Hp Hl; destruct t as [|s t]; cbn [fill match_segments overlap]; try done.
  - destruct (is_param s) eqn:Es; [|done]. rewrite filter_cons_True in Hl by done. by destruct ps.
  - destruct (is_param s) eqn:Es.
    + rewrite filter_cons_True in Hl by done. destruct Hp as [|p ps [Hp _] Hps]; [done|]. injection Hl as Hl. intros Hm.
      rewrite orb_true_r. cbn [orb andb]. destruct (is_param s').
      * destruct (String.eqb_spec p ""); [done|]. apply fmap_Some in Hm as (qs' & Hm & _). by eapply IH.
      * destruct (String.eqb s' p); [|done]. by eapply IH.
    + rewrite filter_cons_False in Hl by (by rewrite Es). intros Hm. rewrite orb_false_r. destruct (is_param s').
      * destruct (String.eqb s ""); [done|]. apply fmap_Some in Hm as (qs' & Hm & _). by eapply IH.
      * destruct (String.eqb s' s); [|done]. by eapply IH.
Qed.

Lemma match_url r' r ps : segments r <> [] -> Forall one_segment ps -> length ps = arity r ->
  match_path (rt_template r') (url r ps) = match_segments (segments r') (fill (segments r) ps).
Proof.
  intros Hne Hp Hl. unfold match_path, url. rewrite split_on_join; [done| |by apply fill_clean; [apply split_on_clean|]].
  unfold arity in Hl. destruct (segments r) as [|s t]; [done|]. cbn [fill]. destruct (is_param s) eqn:Es; [|done].
  rewrite filter_cons_True in Hl by done. by destruct ps.
Qed.

Lemma shadowed_in routes : forall before l1 r l2 r', routes = l1 ++ r :: l2 -> r' ∈ before ++ l1 -> shadows r' r = true ->
  (rt_handler r', rt_handler r) ∈ shadowed before routes.
Proof.
  induction routes as [|x routes IH]; intros before l1 r l2 r' E Hr Hs; [by destruct l1|]. cbn [shadowed]. apply elem_of_app.
  destruct l1 as [|y l1]; injection E as -> ->.
  - left. apply list_elem_of_fmap. exists r'. split; [done|]. apply list_elem_of_filter. split; [done|]. by rewrite app_nil_r in Hr.
  - right. apply (IH _ l1 r l2); [done| |done]. by rewrite <- app_assoc.
Qed.

Lemma routes_named : Forall (fun r => segments r <> [] /\
  (rt_handler r = "check_flag" -> r = Route "GET" "/v1/feature-flags/check/{key}" "check_flag") /\
  (rt_handler r = "list_overrides" -> r = Route "GET" "/v1/feature-flags/{key}/overrides" "list_overrides")) app_routes.
Proof. vm_compute. repeat constructor; discriminate. Qed.

(** The handler of a route answers its URLs. *)
Lemma url_resolves `{Router app_routes} r ps : r ∈ app_routes -> Forall one_segment ps -> length ps = arity r ->
  (rt_handler r = "check_flag" -> ps <> ["overrides"]) -> resolve (rt_method r) (url r ps) = Found (rt_handler r) ps.
Proof.
  intros Hr Hp Hl Hc. pose proof routes_named as Hall. rewrite Forall_forall in Hall. destruct (Hall r Hr) as (Hne & Hcheck & _).
  destruct (list_elem_of_split _ _ Hr) as (l1 & l2 & E). apply (resolve_first l1 r l2); [done|rewrite match_url by done; by apply match_fill|].
  intros r' Hr' Hm. rewrite match_url by done.
  destruct (match_segments (segments r') (fill (segments r) ps)) as [qs|] eqn:Eq; [|done]. exfalso.
  assert (Hs : (rt_handler r', rt_handler r) ∈ shadowed [] app_routes).
  { apply (shadowed_in _ [] l1 r l2 r'); [done|done|]. unfold shadows. rewrite Hm, String.eqb_refl. by eapply match_overlap. }
  rewrite shadowed_routes, list_elem_of_singleton in Hs. injection Hs as Hh' Hh. specialize (Hcheck Hh).
  assert (Hin' : r' ∈ app_routes) by (rewrite E; apply elem_of_app; by left).
  destruct (Hall r' Hin') as (_ & _ & Hlist). rewrite (Hlist Hh'), Hcheck in *. clear -Eq Hl Hc.
  destruct ps as [|k [|? ?]]; [discriminate Hl| |discriminate Hl]. specialize (Hc eq_refl).
  assert (Ek : match_segments [""; "v1"; "feature-flags"; "{key}"; "overrides"] [""; "v1"; "feature-flags"; "check"; k] =
    cons "check" <$> (if String.eqb "overrides" k then Some [] else None)) by reflexivity.
  change (match_segments [""; "v1"; "feature-flags"; "{key}"; "overrides"] [""; "v1"; "feature-flags"; "check"; k] = Some qs) in Eq.
  rewrite Ek in Eq. destruct (String.eqb_spec "overrides" k) as [<-|]; done.
Qed.

(** *** The client's calls *)

(** Every call of the client, with the handler it is meant for and the parameters
    that handler should get. *)
Section Operations.
Context (i i2 k t t2 t3 : string) (n : Z) (flag : bool) (o o2 o3 : option string) (z z2 : option Z) (l : list string)
  (ol : option (list string)) (body : jobj) (ob : option jobj) (bodies : list jobj) (ofl : option bool)
  (filters : list (string * option json)).

Definition operations : list (http_call * (string * list string)) :=
  [(client_meta, ("meta", []));
   (auth_me, ("me", [])); (auth_update_me ob, ("update_me", [])); (auth_register t t2 t3, ("register", []));
   (auth_login t t2, ("login", [])); (auth_refresh t, ("refresh", [])); (auth_logout, ("logout", []));
   (auth_forgot_password t, ("forgot_password", [])); (auth_reset_password t t2, ("reset_password", []));
   (auth_accept_invite t, ("accept_invite", [])); (auth_preview_invite t, ("preview_invite", []));
   (auth_switch_org t, ("switch_org", []));
   (orgs_list, ("list_my_orgs", [])); (orgs_create t o, ("create_organization", [])); (orgs_current, ("get_current_org", []));
   (orgs_update o ob, ("update_current_org", []));
   (members_list, ("list_members", [])); (members_update i ol o, ("update_membership", [i]));
   (members_invite t ol, ("invite_member", [])); (members_remove i, ("remove_member", [i]));
   (subscription_current, ("current_subscription", [])); (subscription_plans, ("list_plans", []));
   (subscription_change t, ("change_plan", [])); (subscription_start_trial t, ("start_trial", []));
   (subscription_cancel flag, ("cancel_subscription", [])); (subscription_resume, ("resume_subscription", []));
   (subscription_plans_page z z2, ("list_plans", []));
   (usage_summary_call o, ("usage_summary", [])); (usage_check t n, ("check_usage", [])); (usage_consume t n o, ("consume", []));
   (usage_consume_batch bodies, ("consume_batch", [])); (usage_record bodies, ("record_events", []));
   (usage_set_gauge t n, ("set_gauge", [])); (usage_adjust_gauge t n, ("set_gauge", []));
   (entitlements_effective, ("effective_entitlements", [])); (entitlements_grant i t t2 z z2, ("admin_grant_entitlement", [i]));
   (api_keys_list, ("list_keys", [])); (api_keys_create t ol z, ("create_key", [])); (api_keys_revoke i, ("revoke_key", [i]));
   (roles_list, ("list_roles", [])); (roles_permissions, ("list_permissions", [])); (roles_create t t2 l o, ("create_role", []));
   (roles_update i o o2 ol, ("update_role", [i])); (roles_delete i, ("delete_role", [i]));
   (billing_checkout t, ("start_checkout", [])); (billing_confirm_checkout t, ("confirm_checkout", []));
   (billing_portal_url, ("portal_url", [])); (billing_spend_summary, ("spend_summary", []));
   (billing_spend_monthly, ("spend_monthly", []));
   (invoices_list z z2, ("list_invoices", [])); (invoices_list_page z z2, ("list_invoices", []));
   (invoices_get i, ("get_invoice_detail", [i])); (invoices_pdf i, ("download_invoice_pdf", [i]));
   (invoices_draft o, ("draft_invoice", [])); (invoices_finalize i, ("finalize_invoice", [i]));
   (webhooks_list_endpoints z z2, ("list_endpoints", [])); (webhooks_create_endpoint t ol o, ("create_endpoint", []));
   (webhooks_delete_endpoint i, ("delete_endpoint", [i])); (webhooks_list_deliveries o z z2, ("list_deliveries", []));
   (webhooks_retry_delivery i, ("retry_delivery", [i]));
   (files_list z z2, ("list_files", [])); (files_list_page z z2, ("list_files", [])); (files_upload, ("upload_file", []));
   (files_download i, ("download_file", [i])); (files_presign_download i, ("presign_download", [i]));
   (files_presign_upload t n t2, ("presign_upload", [])); (files_complete i, ("complete_upload", [i]));
   (files_delete i, ("delete_file", [i]));
   (flags_check k, ("check_flag", [k])); (flags_list z z2, ("list_flags", [])); (flags_create t t2 o flag z, ("create_flag", []));
   (flags_update k ofl z, ("update_flag", [k])); (flags_list_overrides k, ("list_overrides", [k]));
   (flags_set_override k flag o o2 o3, ("set_override", [k])); (flags_delete_override i, ("delete_override", [i]));
   (agents_list z z2, ("list_agents", [])); (agents_create t t2 o ob, ("create_agent", [])); (agents_get i, ("get_agent", [i]));
   (agents_update i o o2 ob, ("update_agent", [i])); (agents_delete i, ("delete_agent", [i]));
   (agents_enable i, ("enable_agent", [i])); (agents_disable i, ("disable_agent", [i]));
   (audit_list z z2 filters, ("list_audit", []));
   (admin_entitlements i, ("admin_effective_entitlements", [i])); (admin_grant i body, ("admin_grant_entitlement", [i]));
   (admin_revoke_grant i i2, ("admin_revoke_entitlement", [i; i2])); (admin_pay_invoice i n o, ("admin_record_payment", [i]));
   (admin_void_invoice i, ("admin_void_invoice", [i])); (admin_revenue_summary, ("revenue_summary", []));
   (admin_revenue_monthly, ("revenue_monthly", [])); (admin_suspend_org i, ("suspend_org", [i]));
   (admin_unsuspend_org i, ("unsuspend_org", [i]))].

(** The routes a browser, a payment provider or a probe calls, not the client. *)
Definition not_of_the_client : list string :=
  ["healthz"; "readyz"; "prometheus_metrics"; "oidc_start"; "oidc_callback"; "billing_webhook"; "read_branding"; "read_branding_asset"].

(** The route of a handler. *)
Definition route_of (handler : string) : option route := List.find (fun r => String.eqb (rt_handler r) handler) app_routes.
Definition aimed (op : http_call * (string * list string)) : Prop :=
  match route_of op.2.1 with
  | Some r => rt_method r = hc_method op.1 /\ url r op.2.2 = hc_path op.1 /\ length op.2.2 = arity r
  | None => False
  end.

Lemma routes_called r : r ∈ app_routes -> rt_handler r ∈ not_of_the_client \/ rt_handler r ∈ (fun op => op.2.1) <$> operations.
Proof.
  assert (E : forallb (fun r => existsb (String.eqb (rt_handler r)) (not_of_the_client ++ ((fun op => op.2.1) <$> operations)))
    app_routes = true) by reflexivity.
  rewrite List.forallb_forall in E. intros Hr. apply list_elem_of_In, E, List.existsb_exists in Hr as (h & Hin & Eh).
  apply String.eqb_eq in Eh as ->. by apply elem_of_app, list_elem_of_In.
Qed.

Lemma operations_aimed : Forall aimed operations.
Proof. unfold operations. repeat constructor. Qed.
End Operations.

Lemma route_of_in handler r : route_of handler = Some r -> r ∈ app_routes /\ rt_handler r = handler.
Proof. intros E. apply List.find_some in E as [Hin E]. apply String.eqb_eq in E. split; [by apply list_elem_of_In|done]. Qed.

Lemma aimed_resolves `{Router app_routes} op : aimed op -> Forall one_segment op.2.2 -> (op.2.1 = "check_flag" -> op.2.2 <> ["overrides"]) ->
  resolve (hc_method op.1) (hc_path op.1) = Found op.2.1 op.2.2.
Proof.
  unfold aimed. destruct (route_of op.2.1) as [r|] eqn:E; [|done]. intros (<- & <- & Hl) Hp Hc.
  apply route_of_in in E as [Hr Hh]. rewrite <- Hh in Hc |- *. by apply url_resolves.
Qed.

(** *** The errors of the API *)

Definition standard_members : list string := ["type"; "title"; "status"; "detail"; "instance"; "request_id"].

Lemma extension_member k c text extras path rid : k ∉ standard_members -> jget k (to_problem c text extras (Some path) rid) = jget k extras.
Proof.
  intros Hk. assert (Hn : k ∉ (rfc7807_members c text).*1) by (cbn; set_solver).
  assert (k <> "instance" /\ k <> "request_id") as [Hi Hr] by (split; intros ->; apply Hk; unfold standard_members; set_solver).
  unfold to_problem. destruct rid; rewrite ?jget_jset_ne by done; by rewrite jget_jupdate_notin.
Qed.

Lemma request_id_kept header trace hex : let rid := request_id header hex in problem_request_id (Some rid) header trace = Some rid.
Proof.
  intros rid. pose proof (request_id_given header hex) as Hr. fold rid in Hr. unfold problem_request_id, or_else, truthy_str.
  destruct (String.eqb_spec rid ""); [done|]. cbn. by destruct (String.eqb_spec rid "").
Qed.

Lemma overrides_hidden `{Router app_routes} :
  resolve (hc_method (flags_check "overrides")) (hc_path (flags_check "overrides")) = Found "list_overrides" ["check"].
Proof.
  apply (url_resolves (Route "GET" "/v1/feature-flags/{key}/overrides" "list_overrides") ["check"]); [|by repeat constructor|done|done].
  apply list_elem_of_In. vm_compute. tauto.
Qed.

(** C38: Every call of the client reaches the handler it is meant for, with its
    identifiers and keys as the path parameters, as long as they are of characters a
    URL leaves as they are and no dot segments; every route of the API but eight (the
    browser's, the providers' and the probes') has a call.  One flag cannot be checked:
    of the key [overrides], for which the list of overrides of a flag [check] answers.
    A client of blocking calls sends them all; an asynchronous one never sends twelve
    of them, whose coroutines its methods drop. *)
Theorem client_reaches_routes `{Router app_routes} i i2 k t t2 t3 n flag o o2 o3 z z2 l ol body ob bodies ofl filters :
  plain_segment i -> plain_segment i2 -> plain_segment k -> k <> "overrides" ->
  let ops := operations i i2 k t t2 t3 n flag o o2 o3 z z2 l ol body ob bodies ofl filters in
  Forall (fun op => resolve (hc_method op.1) (hc_path op.1) = Found op.2.1 op.2.2) ops /\
  (forall r, r ∈ app_routes -> rt_handler r ∈ not_of_the_client \/ rt_handler r ∈ (fun op => op.2.1) <$> ops) /\
  resolve (hc_method (flags_check "overrides")) (hc_path (flags_check "overrides")) = Found "list_overrides" ["check"] /\
  Forall (fun op => sent false op.1 = true) ops /\
  (fun op => op.2.1) <$> filter (fun op => sent true op.1 = false) ops =
    ["logout"; "forgot_password"; "remove_member"; "revoke_key"; "delete_role"; "delete_endpoint"; "delete_file"; "delete_override";
     "delete_agent"; "admin_revoke_entitlement"; "suspend_org"; "unsuspend_org"].
Proof.
  intros Hi%plain_one Hi2%plain_one Hk%plain_one Hno ops. split_and!; [|apply routes_called|apply overrides_hidden|by apply Forall_forall|reflexivity].
  assert (Hp : Forall (fun op : http_call * (string * list string) =>
    Forall one_segment op.2.2 /\ (op.2.1 = "check_flag" -> op.2.2 <> ["overrides"])) ops).
  { unfold ops, operations.
    repeat match goal with
      | |- Forall _ (_ :: _) => apply Forall_cons; split; cbn [fst snd]
      | |- Forall _ [] => apply Forall_nil_2
      | |- one_segment _ => assumption
      | |- _ /\ _ => split
      | |- _ -> _ => first [intros E; discriminate E|intros _ E'; injection E' as ->; by destruct Hno]
      end. }
  pose proof (operations_aimed i i2 k t t2 t3 n flag o o2 o3 z z2 l ol body ob bodies ofl filters) as Ha.
  fold ops in Ha. clearbody ops. induction Ha as [|op ops Ha _ IH]; [constructor|]. apply Forall_cons in Hp as [[H1 H2] Hp].
  constructor; [by apply aimed_resolves|auto].
Qed.

Lemma client_reaches_routes_witness : plain_segment "a" /\
  @resolve app_routes (in_order app_routes) "POST" "/v1/agents/a/enable" = Found "enable_agent" ["a"].
Proof.
  assert (Hp : forall x, x = "a" \/ x = "beta" -> plain_segment x) by (intros x [-> | ->]; split_and!; try done; vm_compute; tauto).
  split; [by apply Hp; left|].
  destruct (@client_reaches_routes (in_order app_routes) "a" "a" "beta" "pro" "" "" 1 true None None None None None [] None [] None [] None []
    (Hp _ (or_introl eq_refl)) (Hp _ (or_introl eq_refl)) (Hp _ (or_intror eq_refl)) ltac:(discriminate)) as (Hall & _).
  rewrite Forall_forall in Hall.
  apply (Hall (agents_enable "a", ("enable_agent", ["a"]))). apply list_elem_of_In. vm_compute. tauto.
Defined.

Lemma domain_error_reaches message path hex elapsed header trace repr c extras :
  let rid := request_id header hex in
  exists e, _handle (answer message path rid elapsed header trace (Raised (Domain c extras))) = Refused e /\
    ce_status e = status c /\
    jget "request_id" (ce_body e) = Some (JStr rid) /\
    (forall k, k ∉ standard_members -> jget k (ce_body e) = jget k extras) /\
    (message (Domain c extras) <> "" -> error_text repr e = message (Domain c extras)) /\
    (ce_kind e = SynapseAuthError <-> is_subclass c AuthenticationError = true) /\
    (ce_kind e = SynapseLimitError <-> c ∈ [MembershipLimitReachedError; UsageLimitExceededError]) /\
    (ce_kind e = SynapseNotFoundError <-> status c = 404%Z) /\
    (ce_kind e = SynapseFeatureGatedError <-> status c = 403%Z /\ is_Some (jget "feature" extras)).
Proof.
  intros rid. unfold answer. cbn [handled].
  set (doc := to_problem c (message (Domain c extras)) extras (Some path) (problem_request_id (Some rid) header trace)).
  pose proof (request_id_kept header trace hex) as Hrid. fold rid in Hrid.
  assert (Hf : jget "feature" doc = jget "feature" extras) by (apply extension_member, (bool_decide_unpack _); by vm_compute).
  exists (error_for (status c) doc). split_and!; cbn [error_for ce_status ce_body].
  - unfold _handle, domain_error_handler. fold doc. cbn [with_context set_header rs_status rs_body]. by destruct c.
  - done.
  - unfold doc. rewrite Hrid. apply problem_request_member.
  - intros k. apply extension_member.
  - unfold error_text, error_for. cbn [ce_body]. unfold doc.
    rewrite (problem_member "detail" (JStr (message (Domain c extras)))) by (unfold rfc7807_members; set_solver).
    unfold jor. cbn [default from_option truthy id]. by destruct (String.eqb_spec (message (Domain c extras)) "").
  - by destruct c; cbn; try destruct (bool_decide _).
  - split; [intros Hk; destruct c; cbn in Hk; try destruct (bool_decide _); try done; set_solver|].
    intros Hc. rewrite !elem_of_cons in Hc. by destruct Hc as [->|[->|Hc%not_elem_of_nil]].
  - by destruct c; cbn; try destruct (bool_decide _).
  - unfold error_for. cbn [ce_kind]. rewrite Hf. case_bool_decide; destruct c; cbn; naive_solver.
Qed.

Lemma limited_error_reaches message path rid elapsed header trace repr retry limit : let extras := limited_extras retry limit in
  exists e, _handle (answer message path rid elapsed header trace (Limited retry limit)) = Refused e /\
    ce_status e = 429%Z /\ ce_kind e = SynapseError /\ jget "request_id" (ce_body e) = None /\
    jget "retry_after_seconds" (ce_body e) = Some (JInt (Z.max retry 1)) /\
    (message (Domain RateLimitedError extras) <> "" -> error_text repr e = message (Domain RateLimitedError extras)).
Proof.
  cbv zeta. destruct (limited_members message path retry limit) as (_ & _ & Hn & Hr).
  set (doc := jset "retry_after_seconds" _ _) in *. exists (error_for 429 doc).
  split_and!; [reflexivity|done|done|exact Hn|exact Hr|]. unfold error_text, error_for. cbn [ce_body]. unfold doc. rewrite jget_jset_ne by done.
  set (m := message _). assert (E : jget "detail" (to_problem RateLimitedError m (limited_extras retry limit) (Some path) None) = Some (JStr m))
    by (apply problem_member; unfold rfc7807_members; set_solver).
  rewrite E. unfold jor. cbn [default from_option truthy id]. by destruct (String.eqb_spec m "").
Qed.

(** C39: An error the API raises for a request reaches the caller of the client as a
    typed exception: it has the error's HTTP status and text, the request's id and
    every extension member, and its class is told by the error's: an authentication
    error is a [SynapseAuthError], a plan limit a [SynapseLimitError], a status 404 a
    [SynapseNotFoundError], and a 403 that names its feature a
    [SynapseFeatureGatedError].  The limiter's refusal, whose document is its own,
    reaches the caller as a [SynapseError] with status 429, its text and when to try
    again, and without the request's id. *)
Theorem errors_reach_the_client message path hex elapsed header trace repr c extras :
  let rid := request_id header hex in
  (c <> RateLimitedError ->
   exists e, _handle (answer message path rid elapsed header trace (Raised (Domain c extras))) = Refused e /\
    ce_status e = status c /\
    jget "request_id" (ce_body e) = Some (JStr rid) /\
    (forall k, k ∉ standard_members -> jget k (ce_body e) = jget k extras) /\
    (message (Domain c extras) <> "" -> error_text repr e = message (Domain c extras)) /\
    (ce_kind e = SynapseAuthError <-> is_subclass c AuthenticationError = true) /\
    (ce_kind e = SynapseLimitError <-> c ∈ [MembershipLimitReachedError; UsageLimitExceededError]) /\
    (ce_kind e = SynapseNotFoundError <-> status c = 404%Z) /\
    (ce_kind e = SynapseFeatureGatedError <-> status c = 403%Z /\ is_Some (jget "feature" extras))) /\
  (forall retry limit, let extras := limited_extras retry limit in
   exists e, _handle (answer message path rid elapsed header trace (Limited retry limit)) = Refused e /\
    ce_status e = 429%Z /\ ce_kind e = SynapseError /\ jget "request_id" (ce_body e) = None /\
    jget "retry_after_seconds" (ce_body e) = Some (JInt (Z.max retry 1)) /\
    (message (Domain RateLimitedError extras) <> "" -> error_text repr e = message (Domain RateLimitedError extras))).
Proof.
  intros rid. split; [intros _; by apply domain_error_reaches|]. intros retry limit extras'. by apply limited_error_reaches.
Qed.

Lemma errors_reach_the_client_witness : exists e,
  _handle (answer (fun _ => "Seat limit reached") "/v1/orgs" "req_1" "3" (Some "req_1") None
    (Raised (Domain MembershipLimitReachedError [("metric", JStr "users")]))) = Refused e /\ ce_kind e = SynapseLimitError.
Proof.
  destruct (errors_reach_the_client (fun _ => "Seat limit reached") "/v1/orgs" "" "3" (Some "req_1") None (fun _ => "")
    MembershipLimitReachedError [("metric", JStr "users")]) as [(e & E & _ & _ & _ & _ & _ & H & _) _]; [discriminate|].
  exists e. split; [exact E|]. apply H. by left.
Defined.
